(* ===== verification/_CoqProject ===== *)
-Q . S2P
Prelude.v
Identifiers.v
Enums.v
Values.v
CanonicalJson.v
Digest.v
Text.v
Constraints.v
Events.v
Folding.v
FoldingFacts.v
FoldingInvariant.v
Samples.v
EventsTheorems.v
FoldingTheorems.v
FoldingHistory.v
PolicyContracts.v
Policy.v
PolicyTheorems.v
Eligibility.v
ContextPack.v
ContextPackTheorems.v
ContextPackExamples.v
EventStore.v
EventStoreTheorems.v
EventStoreSafety.v
ProjectionRows.v
ProjectionRowsTheorems.v
LiveProjection.v
LiveTransfer.v
LiveProjectionFacts.v
LiveProjectionTheorems.v
LiveReplay.v
ProjectionRebuild.v
ProjectionRebuildTheorems.v
Outbox.v
OutboxTheorems.v
OutboxProgress.v
Fingerprints.v
Locks.v
Transactions.v
Commands.v
Mutations.v
MutationEngine.v
MutationTheorems.v
MutationGuards.v
MutationEffects.v
MutationExamples.v
Regex.v
IsoFormat.v
JsonParse.v
Archive.v
Snapshot.v
SnapshotTheorems.v
ArchiveVerification.v
ArchiveFacts.v
ArchiveTheorems.v
ArchiveSamples.v
Restore.v
SelectionHistory.v
CandidateLifecycle.v
CandidateLifecycleTheorems.v
LifecycleExamples.v
Disk.v
DestructionLedger.v
KeyProvider.v
DiskFacts.v
KeySafety.v
LedgerChain.v
LedgerText.v
KeyDestruction.v
LedgerProperties.v
LedgerExamples.v
SealedContent.v
SealedContentTheorems.v
Nominations.v
NominationTheorems.v
NominationEffects.v
NominationExamples.v
