(* ===== verification/Prelude.v ===== *)
(** * ScaleVault memory node: verification development (root file)

    ** The program

    ScaleVault keeps long-term memories as an append-only log of immutable
    events and derives everything else from it.  A command is checked by the
    selection policy, turned into an event whose payload is hashed over
    canonical JSON, appended to the log by the event store under a transport
    binding, and folded into a projection of memories, evidence, links,
    conflicts and branches; reads filter the projection by authority and pack
    the eligible memories into a response with an exact byte budget.  The code
    modelled is the Python package [services/memory-node/src/kivra_memory].

    ** Files and the code they model

    - [Prelude]: exceptions, the error monad, loops, text order, sorting; the
      inversion tactics [inv_bind] and [inv_ok] every component uses.
    - [Identifiers] ([domain/identifiers.py]), [Enums] ([domain/enums.py]),
      [Values] ([domain/values.py]), [CanonicalJson] and [Digest]
      ([domain/canonical_json.py], SHA-256 and Base64 of the language),
      [Constraints] ([domain/constraints.py]).
    - [Events] ([domain/events.py]): after-images and their validators, payload
      classes, the event envelope and its hash contract; [EventsTheorems].
    - [Folding] ([domain/folding.py]): the reducer; [FoldingFacts],
      [FoldingInvariant], [FoldingTheorems], [FoldingHistory] prove its
      invariant, the lifecycle refinement and the properties of histories;
      [Samples] is a concrete history the theorems are applied to.
    - [PolicyContracts], [Policy] ([policy/*.py] and the shipped profile
      selection-v1) with [PolicyTheorems].
    - [Eligibility] ([retrieval/eligibility.py]); [ContextPack]
      ([retrieval/context_pack.py], [budgeting.py], the models of
      [contracts.py]) with [ContextPackTheorems] and [ContextPackExamples].
    - [EventStore] ([storage/event_store.py] and the event rows of
      [storage/projector.py]) with [EventStoreTheorems] (the log) and
      [EventStoreSafety] (authority).
    - [ProjectionRows] (the row mappings of [storage/projector.py]) with
      [ProjectionRowsTheorems]; [ProjectionRebuild] (the rebuild of
      [storage/projector.py] and its first lemmas) with
      [ProjectionRebuildTheorems].
    - [LiveProjection] ([storage/live_projection.py] and the transaction body
      of [application/mutations.py]); [LiveTransfer] relates the reducer on the
      loaded rows to the reducer on the whole projection,
      [LiveProjectionFacts] and [LiveProjectionTheorems] follow the queries and writes of one event,
      [LiveReplay] composes them with the log.
    - [Text] (integer printing, UTF-8 and length framing of the language and
      [storage/locks.py]); [Outbox] ([storage/outbox.py],
      [storage/outbox_worker.py]) with [OutboxTheorems] (the table under any
      interleaving) and [OutboxProgress] (claims make progress, effects are
      queued once).
    - [Fingerprints] ([domain/fingerprints.py]), [Locks] ([storage/locks.py],
      BLAKE2b of the language, the server's lock manager as a step relation),
      [Transactions] ([storage/transactions.py]).
    - [Commands] ([domain/commands.py]); [Mutations] and [MutationEngine]
      ([application/mutations.py]: preparation of each command, then the
      transaction, the retries and the error mapping) with [MutationTheorems]
      (idempotency, the state invariant), [MutationGuards]
      (revisions and locks), [MutationEffects] (scheduled jobs, replies) and
      [MutationExamples], two commands run through the engine.
    - [SelectionHistory] ([storage/selection_history.py]: the numbered decision
      ledger and its filtered, paged history), [CandidateLifecycle]
      ([application/candidate_lifecycle.py]: promotion and expiry) with
      [CandidateLifecycleTheorems] and [LifecycleExamples], a candidate that is
      promoted.
    - [Disk] (directories, inodes, and a process killed at any system call),
      [DestructionLedger] ([security/destruction_ledger.py]) and [KeyProvider]
      ([security/keys.py], [local_key_provider.py], [destruction_broker.py])
      with [DiskFacts], [KeySafety], [LedgerChain], [LedgerText] (documents
      read back, appends that are not interrupted), [KeyDestruction],
      [LedgerProperties] (rollback, interrupted appends and their recovery) and
      [LedgerExamples].
    - [SealedContent] ([security/sealed_content.py],
      [application/sealed_content.py]) with [SealedContentTheorems].
    - [Nominations] ([application/selection.py], the whole engine) with
      [NominationTheorems] (once-only execution, the invariant of all writers
      together), [NominationEffects] (the rows a run leaves, sealing) and
      [NominationExamples], a sealed nomination that is read back.
    - [Regex] (regular expressions of the language, matched by derivatives),
      [IsoFormat] ([datetime.fromisoformat]), [JsonParse] (UTF-8 decoding, the
      scanner of the json module and [parse_json_strict] of
      [domain/canonical_json.py]).
    - [Archive] ([archive/models.py]: paths, manifests, their validation,
      reading and building); [Snapshot]
      ([archive/codec.py]) with [SnapshotTheorems]; [ArchiveVerification]
      ([archive/verification.py] and the commit message of [archive/git.py])
      with [ArchiveFacts], [ArchiveTheorems] (with the round trip of manifests)
      and [ArchiveSamples], an archive of two batches that verifies and the
      theorems applied to it; [Restore]
      ([archive/restore.py]).

    ** How the code is represented

    A Python class is a record or an inductive type, an enumeration an
    inductive type in a module of its name, a dictionary a [gmap] or, where
    order matters, an association list.  A call that may raise returns
    [result]; a handler takes the state and returns the new one, and a call
    that raises returns none, as its transaction is rolled back.  Strings are
    lists of code points, bytes lists of integers, timestamps UTC microseconds,
    decimals sign, coefficient and exponent, floats [spec_float] at the
    binary64 format.  Python object identity is modelled where it is
    observable: [normalize_json_value] runs over a heap of containers.

    Third-party code is a parameter with a class of its own: the RFC 8785
    serializer ([Rfc8785]), pydantic's reading and dumping of models
    ([Pydantic], [ModelDump], [ReceiptStore], [EventReader]), the database
    server ([Database], [LiveDatabase]), cbor2 and zstandard ([Cbor2], [Zstd],
    with what the codec relies on in [Cbor2Laws] and [ZstdLaws]), the Unicode
    character classes ([UnicodeData]), JSON Schema ([JsonSchema]), git's
    verification of a signed commit ([CommitVerifier]), the operating system
    ([Kernel]), AES-256-GCM ([Aead], with what is relied on in [AeadLaws]) and
    the storage of decisions and nominations ([DecisionDatabase],
    [NominationStore], [PlaintextReader]).  The collaborators a nomination
    engine is built with are the record [Services], a participant of its
    transaction the record [Participant]; what a participant writes is in
    tables of its own.  The serializer's own laws, where a proof needs that
    bytes determine documents, are [Rfc8785Laws].  Clock and entropy are
    arguments.  Where
    transactions run concurrently, what one of them reads is an argument: the
    rows other workers hold locked, and the snapshot each attempt of a command
    sees.

    ** What the theorems show

    - The log and its fold: replay accepts exactly contiguous causal histories,
      preserves a referential and lifecycle invariant, refines an abstract
      lifecycle automaton, admits one writer per revision, never revives a
      tombstone (only the completion of its purge may still replace the row),
      never rewrites sealed content, and adds and replaces rows only in scope.
    - The store: appending keeps the log contiguous and verifiable, accepts a
      GitHub item at most once, and only under a live, authorized binding;
      rows read back as the event written.
    - Live projection: when the tables hold the projection of the stored log,
      a command on the live path leaves tables that hold the projection of the
      longer log; the operations it cannot apply fail closed.
    - Rebuild: replacing the projection tables leaves exactly the rows the
      verified log replays to, whatever they held before.
    - The mutation engine: a command takes effect once under its idempotency
      key, keeps log, projection, outbox and receipts consistent, is accepted
      only at the revisions it expects, schedules its side effects in its own
      transaction, is always answered, and follows the global lock order, so
      that commands never deadlock.
    - Candidates: a lifecycle command does what the pinned policy decides over
      the stored decision and evidence, and applies at most once.
    - Nominations: a run does what the policy decides and records it in exactly
      one decision row, takes effect once under its idempotency key, and stores
      sensitive content only under an envelope, which opens to the proposal
      and in no other context.  Commands, lifecycle commands and nominations
      in any interleaving keep the whole store consistent.
    - Sealed keys: a destroyed key never returns, a requested destruction is
      carried out completely, accepted facts survive a rollback of the ledger,
      and an append killed at any system call is repaired, but for a kill while
      its temporary file exists.
    - The outbox: leases are exclusive, jobs due are claimed in order and wait
      for a bounded number of claims whatever other transactions do, every side
      effect is queued once.
    - Policy: the evaluator implements a declarative policy (when it stores,
      with which reason, status and lifetime, and why it refuses), guardrails
      force candidates, promotion and expiry are characterised exactly.
    - Reads: eligibility is authority and request together, filters only
      narrow, conflicts are atomic, the byte budget is exact.
    - The archive: a signed archive that verifies holds the events 1 to n
      without gap, is determined by the digest of its newest manifest (or two
      named byte strings of the archives collide), respects
      the compromise cutoffs of its signer epochs, and can be restored; the
      snapshot codec is a bijection between snapshots and accepted frames, and
      manifests round-trip.  Event paths follow sequence order in every batch
      that verifies, which the exporter does not ensure.
    - Contracts: strict parsing returns a value of the profile or raises its own
      error, but for two exceptions that are characterised; canonical JSON
      stays in its profile and rejects cycles, hashes round-trip, scores and identifiers are canonical.

    Where the code does not do what it documents, the theorem states what it
    does ([fold_accepts_foreign_evidence], [context_pack_budget_not_monotone],
    [full_section_aborts_assembly]).

    ** Bounds and fuel

    [normalize] recurses on the depth limit of the source plus one; the
    theorems show it is enough for all data inside the limit.  [round_robin]
    gets the number of items, at least the longest lane.  [size_loop] has the
    eight rounds of the source.  [strip_zeros] gets the bit length, at least
    the number of decimal digits.  [shortest_digits] tries the 17 precisions
    that suffice for binary64.  [validate_bounded_json] has one more level than
    the source admits; [blake2b_blocks] and [sha256_blocks] get the length of
    the message, [scan_members] and [scan_elements] the length of the text,
    each step of which consumes a character; the nesting of JSON text is
    bounded by the interpreter's recursion limit.  That limit and the digits
    of the integers the interpreter can allocate are parameters ([Interpreter],
    [DecimalMemory]): a conversion that needs more raises [MemoryError].  The retry loop has the number of attempts of the
    source.  The broker's file loops make one step per system call of the
    source; a kill is an outcome of any of them.

    ** Not modelled

    HTTP, MCP and process wiring, administration and operational tools,
    migrations, metrics and seeding: they have no decision logic of their own or
    are text of other languages (SQL, shell).  Git, ssh-keygen and PostgreSQL
    are other programs; the queries and writes of the modelled operations are
    written out over tables, the rest of the SQL is not.  Cryptographic
    primitives other than SHA-256, HMAC and BLAKE2b, Argon2 among them, are
    libraries, and the credential store is little more than calls of them and
    SQL.  The genesis importer and the GitHub poller are drivers of the
    nomination engine and of the event store, whose side of their protocol
    (participant, importer's principal, ingress acceptance) is modelled;
    the import file's reading and the provider's HTTP are not.  Retrieval
    ranking is a fusion of scores of database and embedding services.  File
    locks and fsync have no counterpart in [Disk]: an operation is atomic up to
    a kill, and a kill keeps what was written.
 *)

From stdpp Require Import base tactics option list gmap strings sorting.
From Stdlib Require Import ZArith Lia Sorted.

(** ** Python exceptions and the error monad *)

(** The exception classes the modelled code raises.  A diagnostic text that is
    a constant of the source is kept; formatted diagnostics are dropped. *)
Inductive exn : Type :=
| ValueError (message : string)
| TypeError (message : string)
| KeyError
| AssertionError
| RuntimeError (message : string)
| OverflowError
| MemoryError
| ValidationError (message : string)
| DomainValidationError (message : string)
| DomainConstraintError (code : string) (message : string)
| CanonicalJsonError (message : string)
| InvalidIdentifierError (message : string)
| EventContractError (message : string)
| FoldError (code : string) (sequence : Z)
| BudgetTooSmallError
| EventStoreError (code : string) (message : string)
| ProjectionPersistenceError (code : string)
| OutboxWorkerError (message : string)
| LeaseLostError (message : string)
| SerializableTransactionError (attempts retry_after_ms : Z)
| SafeFailure (code : string) (retryable : bool) (retry_after_ms : option Z) (details : option (Z * Z * Z))
| DBAPIError (sqlstate : string)
| InvalidOperation
| ArchiveValidationError (message : string)
| ArchiveVerificationError (message : string)
| SnapshotCodecError (message : string)
| RestorePreflightError (message : string)
| GitSigningError (message : string)
| FileNotFoundError
| FileExistsError
| OSError
| RecordMissing
| KeyProviderError
| SelectionHistoryError (code : string)
| CandidateLifecycleExecutionError (code : string)
| SelectionExecutionError (code : string)
| SealedContentError (message : string)
| InvalidSealedEnvelopeError
| SealedContentAuthenticationError
| SealedContentKeyUnavailableError.

Arguments ValueError _%_string.
Arguments RuntimeError _%_string.
Arguments ValidationError _%_string.
Arguments DomainValidationError _%_string.
Arguments DomainConstraintError _%_string _%_string.
Arguments CanonicalJsonError _%_string.
Arguments InvalidIdentifierError _%_string.
Arguments EventContractError _%_string.
Arguments FoldError _%_string _%_Z.
Arguments EventStoreError _%_string _%_string.
Arguments ProjectionPersistenceError _%_string.
Arguments TypeError _%_string.
Arguments OutboxWorkerError _%_string.
Arguments LeaseLostError _%_string.
Arguments SerializableTransactionError _%_Z _%_Z.
Arguments SafeFailure _%_string _ _ _.
Arguments DBAPIError _%_string.
Arguments ArchiveValidationError _%_string.
Arguments ArchiveVerificationError _%_string.
Arguments SnapshotCodecError _%_string.
Arguments RestorePreflightError _%_string.
Arguments GitSigningError _%_string.
Arguments SelectionHistoryError _%_string.
Arguments CandidateLifecycleExecutionError _%_string.
Arguments SelectionExecutionError _%_string.
Arguments SealedContentError _%_string.

#[export] Instance exn_eq_dec : EqDecision exn.
Proof. solve_decision. Defined.

(** A computation that may raise. *)
Inductive result (A : Type) : Type :=
| Ok (a : A)
| Err (e : exn).
Arguments Ok {_} _.
Arguments Err {_} _.

#[export] Instance result_ret : MRet result := fun A a => Ok a.
#[export] Instance result_bind : MBind result :=
  fun A B f r => match r with Ok a => f a | Err e => Err e end.
#[export] Instance result_fmap : FMap result :=
  fun A B f r => match r with Ok a => Ok (f a) | Err e => Err e end.

Definition is_ok {A} (r : result A) : bool :=
  match r with Ok _ => true | Err _ => false end.

(** [if condition: raise e] *)
Definition raise_if (condition : bool) (e : exn) : result unit :=
  if condition then Err e else Ok tt.

(** [if not condition: raise e] *)
Definition require (condition : bool) (e : exn) : result unit :=
  raise_if (negb condition) e.

(** [assert x is not None]-style reads. *)
Definition from_option_or {A} (o : option A) (e : exn) : result A :=
  match o with Some a => Ok a | None => Err e end.

(** [try: r except ...: raise e]: every failure of [r] is replaced. *)
Definition or_raise {A} (r : result A) (e : exn) : result A :=
  match r with Ok a => Ok a | Err _ => Err e end.

(** The instances of Python's [ValueError]; [DomainValidationError], pydantic's
    [ValidationError], [FoldError] and the archive's errors are subclasses. *)
Definition is_value_error (e : exn) : bool :=
  match e with
  | ValueError _ | ValidationError _ | DomainValidationError _ | DomainConstraintError _ _
  | CanonicalJsonError _ | InvalidIdentifierError _ | EventContractError _ | FoldError _ _
  | BudgetTooSmallError | ArchiveValidationError _ | ArchiveVerificationError _
  | SnapshotCodecError _ | RestorePreflightError _ => true
  | _ => false
  end.

(** [try: r except ValueError: raise e] *)
Definition except_value_error {A} (r : result A) (e : exn) : result A :=
  match r with
  | Ok a => Ok a
  | Err raised => if is_value_error raised then Err e else Err raised
  end.

(** A [for] loop whose body may raise. *)
Fixpoint foldM {S A : Type} (f : S -> A -> result S) (s : S) (l : list A) : result S :=
  match l with
  | [] => Ok s
  | a :: rest => s' ← f s a; foldM f s' rest
  end.

(** A list comprehension whose element expression may raise. *)
Fixpoint mapR {A B : Type} (f : A -> result B) (l : list A) : result (list B) :=
  match l with
  | [] => Ok []
  | a :: rest => b ← f a; bs ← mapR f rest; Ok (b :: bs)
  end.

(** ** Lemmas on the error monad *)

Lemma bind_Ok {A B} (f : A -> result B) (r : result A) (b : B) :
  (r ≫= f) = Ok b <-> exists a, r = Ok a /\ f a = Ok b.
Proof. destruct r; simpl; split; [eauto | naive_solver | done | naive_solver]. Qed.

Lemma fmap_Ok {A B} (f : A -> B) (r : result A) (b : B) :
  (f <$> r) = Ok b <-> exists a, r = Ok a /\ f a = b.
Proof. destruct r; simpl; unfold fmap, result_fmap; naive_solver. Qed.

Lemma raise_if_Ok (c : bool) e u : raise_if c e = Ok u <-> c = false.
Proof. destruct c, u; naive_solver. Qed.

Lemma require_Ok (c : bool) e u : require c e = Ok u <-> c = true.
Proof. unfold require. rewrite raise_if_Ok. by destruct c. Qed.

Lemma from_option_or_Ok {A} (o : option A) e a : from_option_or o e = Ok a <-> o = Some a.
Proof. destruct o; naive_solver. Qed.

Lemma or_raise_Ok {A} (r : result A) e a : or_raise r e = Ok a <-> r = Ok a.
Proof. destruct r; naive_solver. Qed.

Lemma except_value_error_Ok {A} (r : result A) e a : except_value_error r e = Ok a <-> r = Ok a.
Proof. destruct r as [|x]; simpl; [naive_solver|]. destruct (is_value_error x); naive_solver. Qed.

Lemma bool_decide_false_iff (P : Prop) `{Decision P} : bool_decide P = false <-> ~ P.
Proof. apply bool_decide_eq_false. Qed.

(** Split the sequenced calls of a successful run, without unfolding them. *)
Ltac inv_bind :=
  repeat match goal with
         | H : (_ ≫= _) = Ok _ |- _ => apply bind_Ok in H as (? & ? & ?)
         | H : unit |- _ => destruct H
         end.

(** [inv_ok H] turns a successful run [H : body = Ok v] into the facts its
    guards establish, one hypothesis per [raise_if] or bound call. *)
Ltac inv_ok_step :=
  match goal with
  | H : (_ ≫= _) = Ok _ |- _ => apply bind_Ok in H as (? & ? & ?)
  | H : (_ <$> _) = Ok _ |- _ => apply fmap_Ok in H as (? & ? & ?)
  | H : raise_if _ _ = Ok _ |- _ => apply raise_if_Ok in H
  | H : require _ _ = Ok _ |- _ => apply require_Ok in H
  | H : from_option_or _ _ = Ok _ |- _ => apply from_option_or_Ok in H
  | H : or_raise _ _ = Ok _ |- _ => apply or_raise_Ok in H
  | H : except_value_error _ _ = Ok _ |- _ => apply except_value_error_Ok in H
  | H : Ok _ = Ok _ |- _ => injection H as H
  | H : Err _ = Ok _ |- _ => discriminate H
  | H : mret _ = Ok _ |- _ => injection H as H
  | H : bool_decide _ = true |- _ => apply bool_decide_eq_true in H
  | H : bool_decide _ = false |- _ => apply bool_decide_eq_false in H
  | H : negb _ = true |- _ => apply negb_true_iff in H
  | H : negb _ = false |- _ => apply negb_false_iff in H
  | H : (_ && _)%bool = true |- _ => apply andb_true_iff in H as [? ?]
  | H : (_ || _)%bool = false |- _ => apply orb_false_iff in H as [? ?]
  | H : ~ ~ _ |- _ => apply dec_stable in H
  | H : unit |- _ => destruct H
  end.
Ltac inv_ok := repeat (inv_ok_step; simpl in *); simplify_eq/=.

Section FoldM.
Context {S A : Type} (f : S -> A -> result S).

Lemma foldM_app (s : S) (l1 l2 : list A) :
  foldM f s (l1 ++ l2) = s' ← foldM f s l1; foldM f s' l2.
Proof. revert s. induction l1 as [|a l1 IH]; intros s; simpl; [done|].
  destruct (f s a); simpl; [apply IH | done]. Qed.

Lemma foldM_one (s s' : S) (a : A) : foldM f s [a] = Ok s' -> f s a = Ok s'.
Proof. simpl. by destruct (f s a). Qed.

(** The loop rule: an invariant of the body is an invariant of the loop. *)
Lemma foldM_invariant (P : S -> Prop) (s s' : S) (l : list A) :
  (forall t a t', a ∈ l -> P t -> f t a = Ok t' -> P t') ->
  P s -> foldM f s l = Ok s' -> P s'.
Proof.
  revert s. induction l as [|a l IH]; intros s Hstep Hs Hrun; simpl in *; inv_ok; [done|].
  eapply IH; [| |done].
  - intros t a' t' Hin. apply Hstep. by right.
  - eapply (Hstep s a); [by left | done | done].
Qed.

(** The relational loop rule, for a preorder the body respects. *)
Lemma foldM_preorder (R : S -> S -> Prop) `{!PreOrder R} (s s' : S) (l : list A) :
  (forall t a t', a ∈ l -> f t a = Ok t' -> R t t') ->
  foldM f s l = Ok s' -> R s s'.
Proof.
  intros Hstep. apply (foldM_invariant (R s)); [|reflexivity].
  intros t a t' Hin HR Hrun. etransitivity; [exact HR | by eapply Hstep].
Qed.

(** A successful run passes through a successful state at every split. *)
Lemma foldM_split (s s' : S) (l1 l2 : list A) (a : A) :
  foldM f s (l1 ++ a :: l2) = Ok s' ->
  exists t t', foldM f s l1 = Ok t /\ f t a = Ok t' /\ foldM f t' l2 = Ok s'.
Proof. rewrite foldM_app; simpl; intros H; inv_ok; eauto. Qed.
End FoldM.

Lemma mapR_length {A B} (f : A -> result B) l bs : mapR f l = Ok bs -> length bs = length l.
Proof. revert bs. induction l; intros bs H; simpl in *; inv_ok; simpl; auto. Qed.

Lemma mapR_Forall2 {A B} (f : A -> result B) l bs :
  mapR f l = Ok bs <-> Forall2 (fun a b => f a = Ok b) l bs.
Proof.
  revert bs. induction l as [|a l IH]; intros bs; simpl.
  - split; [intros H; by inv_ok | by inversion 1].
  - split.
    + intros H. inv_ok. constructor; [done | by apply IH].
    + inversion 1 as [|? b ? bs' Hb Hbs]; subst. rewrite Hb. simpl.
      apply IH in Hbs. by rewrite Hbs.
Qed.

(** ** Python values used throughout *)

(** A Python [str] is a sequence of code points; lone surrogates included. *)
Abbreviation pystr := (list Z).

(** The code points of an ASCII literal. *)
Fixpoint py (s : string) : pystr :=
  match s with
  | EmptyString => []
  | String a rest => Z.of_N (Ascii.N_of_ascii a) :: py rest
  end.

Arguments py _%_string.

Lemma py_inj s1 s2 : py s1 = py s2 -> s1 = s2.
Proof.
  revert s2. induction s1 as [|a s1 IH]; intros [|b s2]; simpl; [done..|].
  intros H. injection H as Hab Hr. f_equal; [|by apply IH].
  apply N2Z.inj in Hab. by rewrite <- (Ascii.ascii_N_embedding a), Hab, Ascii.ascii_N_embedding.
Qed.

(** [len(set(l)) == len(l)] *)
Fixpoint nodupb {A} `{EqDecision A} (l : list A) : bool :=
  match l with
  | [] => true
  | a :: rest => bool_decide (a ∉ rest) && nodupb rest
  end.

Lemma nodupb_NoDup {A} `{EqDecision A} (l : list A) : nodupb l = true <-> NoDup l.
Proof.
  induction l as [|a l IH]; simpl; [split; [constructor|done]|].
  by rewrite andb_true_iff, bool_decide_eq_true, IH, NoDup_cons.
Qed.

(** [not any(test(x) for x in l)] *)
Lemma existsb_false {A} (test : A -> bool) (l : list A) :
  existsb test l = false <-> forall x, x ∈ l -> test x = false.
Proof.
  rewrite <- not_true_iff_false, existsb_exists. split.
  - intros Hno x Hin. apply not_true_iff_false. intros Hx. apply Hno. exists x.
    by rewrite <- list_elem_of_In.
  - intros Hall (x & Hin & Hx). apply list_elem_of_In in Hin. by rewrite (Hall x Hin) in Hx.
Qed.

(** The values of a map keyed by one of their own fields. *)
Lemma values_ids_nodup {K V} `{Countable K} (key : V -> K) (M : gmap K V) :
  (forall k v, M !! k = Some v -> key v = k) -> NoDup (key <$> (snd <$> map_to_list M)).
Proof.
  intros Hk. rewrite <- list_fmap_compose. rewrite (list_fmap_ext _ fst).
  - apply NoDup_fst_map_to_list.
  - intros i [k v] Hi. apply list_elem_of_lookup_2, elem_of_map_to_list in Hi. cbn. by apply Hk.
Qed.

Lemma NoDup_fmap_filter {A B} (f : A -> B) (Q : A -> Prop) `{forall x, Decision (Q x)} l :
  NoDup (f <$> l) -> NoDup (f <$> filter Q l).
Proof.
  induction l as [|x l IH]; [done|]. rewrite fmap_cons. intros [Hni Hnd]%NoDup_cons. rewrite filter_cons.
  destruct (decide (Q x)); [|by apply IH]. rewrite fmap_cons. apply NoDup_cons. split; [|by apply IH].
  intros Hin. apply Hni. apply list_elem_of_fmap in Hin as (y & -> & Hy).
  apply list_elem_of_filter in Hy as [_ Hy]. apply list_elem_of_fmap. eauto.
Qed.

Lemma mapR_total {A B} (f : A -> result B) l :
  (forall a, a ∈ l -> exists b, f a = Ok b) -> exists bs, mapR f l = Ok bs.
Proof.
  induction l as [|a l IH]; intros Hf; [by exists []|]. cbn [mapR].
  destruct (Hf a ltac:(left)) as (b & ->). destruct IH as (bs & ->); [intros x Hx; apply Hf; by right|].
  by eexists.
Qed.

(** ** Hints *)

Create HintDb scalevault discriminated.
#[export] Hint Resolve nodupb_NoDup : scalevault.

(** ** Ordering *)

(** Python's [<=] on strings: by code points, a prefix first. *)
Fixpoint str_leb (a b : pystr) : bool :=
  match a, b with
  | [], _ => true
  | _ :: _, [] => false
  | x :: a', y :: b' => if (x <? y)%Z then true else if (y <? x)%Z then false else str_leb a' b'
  end.

Lemma str_leb_refl a : str_leb a a = true.
Proof. induction a as [|x a IH]; simpl; [done|]. by rewrite Z.ltb_irrefl. Qed.

Lemma str_leb_total a b : str_leb b a = false -> str_leb a b = true.
Proof.
  revert b. induction a as [|x a IH]; intros [|y b]; simpl; try done.
  destruct (Z.ltb_spec y x), (Z.ltb_spec x y); try done. apply IH.
Qed.

Lemma str_leb_antisym a b : str_leb a b = true -> str_leb b a = true -> a = b.
Proof.
  revert b. induction a as [|x a IH]; intros [|y b]; simpl; try done.
  destruct (Z.ltb_spec x y), (Z.ltb_spec y x); try done; try lia.
  intros H1 H2. f_equal; [lia|auto].
Qed.

Lemma str_leb_trans a b c : str_leb a b = true -> str_leb b c = true -> str_leb a c = true.
Proof.
  revert b c. induction a as [|x a IH]; intros [|y b] [|z c]; simpl; try done.
  destruct (Z.ltb_spec x y), (Z.ltb_spec y z), (Z.ltb_spec x z); try done; try lia;
    destruct (Z.ltb_spec y x), (Z.ltb_spec z y), (Z.ltb_spec z x); try done; try lia. apply IH.
Qed.

(** Python's [sorted]: a stable sort for the order [le]. *)
Section Sorting.
Context {A : Type} (le : A -> A -> bool).

Fixpoint insert_by (x : A) (l : list A) : list A :=
  match l with
  | [] => [x]
  | y :: rest => if le x y then x :: l else y :: insert_by x rest
  end.

Definition sort_by (l : list A) : list A := foldr insert_by [] l.

Lemma insert_by_perm x l : insert_by x l ≡ₚ x :: l.
Proof.
  induction l as [|y l IH]; simpl; [done|]. destruct (le x y); [done|]. rewrite IH. apply perm_swap.
Qed.

Lemma sort_by_perm l : sort_by l ≡ₚ l.
Proof. induction l as [|x l IH]; simpl; [done|]. by rewrite insert_by_perm, IH. Qed.

(** A list in order is left as it is. *)
Lemma sort_by_sorted l : Sorted (fun x y => le x y = true) l -> sort_by l = l.
Proof.
  induction 1 as [|x l _ IH Hd]; simpl; [done|]. rewrite IH. destruct Hd as [|y l Hxy]; simpl; [done|]. by rewrite Hxy.
Qed.

(** For a total preorder the result is in order, and for a total order it is the
    only ordered list with those elements. *)
Context (le_total : forall x y, le x y = false -> le y x = true)
        (le_trans : forall x y z, le x y = true -> le y z = true -> le x z = true).

Lemma insert_by_ordered x l :
  StronglySorted (fun x y => le x y = true) l -> StronglySorted (fun x y => le x y = true) (insert_by x l).
Proof.
  induction 1 as [|y l Hl IH Hy]; simpl; [by repeat constructor|]. destruct (le x y) eqn:E.
  - constructor; [by constructor|]. constructor; [done|]. eapply Forall_impl; [exact Hy|]. eauto.
  - constructor; [done|]. rewrite insert_by_perm. constructor; [by apply le_total|done].
Qed.

Lemma sort_by_ordered l : StronglySorted (fun x y => le x y = true) (sort_by l).
Proof. induction l as [|x l IH]; simpl; [constructor|]. by apply insert_by_ordered. Qed.

Lemma sort_by_unique l l' :
  (forall x y, x ∈ l -> y ∈ l -> le x y = true -> le y x = true -> x = y) ->
  StronglySorted (fun x y => le x y = true) l' -> l ≡ₚ l' -> sort_by l = l'.
Proof.
  intros Hanti Hs Hp. apply StronglySorted_unique_strong with (R := fun x y => le x y = true).
  - intros x y Hx Hy. rewrite sort_by_perm in Hx. rewrite <- Hp in Hy. by apply Hanti.
  - apply sort_by_ordered.
  - done.
  - by rewrite sort_by_perm.
Qed.
End Sorting.
