(* ===== verification/Identifiers.v ===== *)
(** * Identifiers: RFC 9562 UUIDv7 generation and validation

    Models [domain/identifiers.py].  A [UUID] is its 128-bit integer; the clock
    and the entropy source the Python function reads are arguments.  The text
    form [str(UUID)] is modelled because archive and ranking order rows by it. *)

From stdpp Require Import base tactics option list strings.
From Stdlib Require Import ZArith Lia Bool.
From S2P Require Import Prelude.
Open Scope Z_scope.

(** ** Python's [uuid.UUID] *)

Abbreviation UUID := Z.

Inductive uuid_variant : Type :=
| RESERVED_NCS | RFC_4122 | RESERVED_MICROSOFT | RESERVED_FUTURE.

#[export] Instance uuid_variant_eq_dec : EqDecision uuid_variant.
Proof. solve_decision. Defined.

Definition uuid_of_int (value : Z) : result UUID :=
  raise_if (negb ((0 <=? value) && (value <? Z.shiftl 1 128)))
           (ValueError "int is out of range (need a 128-bit value)");;
  Ok value.

Definition variant (u : UUID) : uuid_variant :=
  if Z.land u (Z.shiftl 0x8000 48) =? 0 then RESERVED_NCS
  else if Z.land u (Z.shiftl 0x4000 48) =? 0 then RFC_4122
  else if Z.land u (Z.shiftl 0x2000 48) =? 0 then RESERVED_MICROSOFT
  else RESERVED_FUTURE.

Definition version (u : UUID) : option Z :=
  if bool_decide (variant u = RFC_4122) then Some (Z.land (Z.shiftr u 76) 0xf) else None.

(** [str(u)]: 32 lower-case hexadecimal digits grouped 8-4-4-4-12. *)
Definition hex_digit (d : Z) : Z := if d <? 10 then 48 + d else 87 + d.

Fixpoint hex_digits (n : nat) (v : Z) : pystr :=
  match n with
  | O => []
  | S n' => hex_digits n' (v / 16) ++ [hex_digit (v mod 16)]
  end.

Definition uuid_str (u : UUID) : pystr :=
  hex_digits 8 (Z.shiftr u 96) ++ [45]
  ++ hex_digits 4 (Z.shiftr u 80 mod 65536) ++ [45]
  ++ hex_digits 4 (Z.shiftr u 64 mod 65536) ++ [45]
  ++ hex_digits 4 (Z.shiftr u 48 mod 65536) ++ [45]
  ++ hex_digits 12 (u mod 281474976710656).

(** ** The module's constants and functions *)

Definition UUID7_TIMESTAMP_BITS : Z := 48.
Definition UUID7_RANDOM_BITS : Z := 74.
Definition MAX_UUID7_TIMESTAMP_MS : Z := Z.shiftl 1 UUID7_TIMESTAMP_BITS - 1.
Definition MAX_UUID7_RANDOM : Z := Z.shiftl 1 UUID7_RANDOM_BITS - 1.

(** [time_ns] is the reading of [time.time_ns()], [randbits] the value of
    [secrets.randbits(74)]; both are used only where the argument is [None]. *)
Definition new_uuid7 (time_ns randbits : Z) (timestamp_ms random_bits : option Z)
    : result UUID :=
  let resolved_timestamp := default (time_ns / 1000000) timestamp_ms in
  let resolved_random := default randbits random_bits in
  raise_if (negb ((0 <=? resolved_timestamp) && (resolved_timestamp <=? MAX_UUID7_TIMESTAMP_MS)))
           (InvalidIdentifierError "UUIDv7 timestamp is outside the 48-bit range");;
  raise_if (negb ((0 <=? resolved_random) && (resolved_random <=? MAX_UUID7_RANDOM)))
           (InvalidIdentifierError "UUIDv7 random value is outside the 74-bit range");;
  let random_a := Z.shiftr resolved_random 62 in
  let random_b := Z.land resolved_random (Z.shiftl 1 62 - 1) in
  let value := Z.lor (Z.lor (Z.lor (Z.lor (Z.shiftl resolved_timestamp 80) (Z.shiftl 0x7 76))
                                   (Z.shiftl random_a 64))
                            (Z.shiftl 2 62))
                     random_b in
  uuid_of_int value.

Definition is_uuid7 (u : UUID) : bool :=
  bool_decide (version u = Some 7) && bool_decide (variant u = RFC_4122).

Definition require_uuid7 (u : UUID) : result UUID :=
  raise_if (negb (is_uuid7 u)) (InvalidIdentifierError "must be an RFC 9562 UUIDv7");;
  Ok u.

(** ** Bit-level lemmas *)

Lemma lor_shiftl_add (a b n : Z) :
  0 <= n -> 0 <= b < 2 ^ n -> Z.lor (Z.shiftl a n) b = a * 2 ^ n + b.
Proof.
  intros Hn Hb. rewrite Z.shiftl_mul_pow2 by done.
  rewrite <- (Z.add_lor_land (a * 2 ^ n) b).
  assert (Z.land (a * 2 ^ n) b = 0) as ->; [|lia].
  apply Z.bits_inj'. intros i Hi. rewrite Z.land_spec, Z.bits_0.
  destruct (Z.lt_ge_cases i n) as [Hlt|Hge].
  - by rewrite Z.mul_pow2_bits_low.
  - rewrite <- (Z.mod_small b (2 ^ n)) by done.
    rewrite Z.mod_pow2_bits_high by lia. apply andb_false_r.
Qed.

Lemma land_pow2_eqb (u n : Z) : 0 <= n -> (Z.land u (2 ^ n) =? 0) = negb (Z.testbit u n).
Proof.
  intros Hn. destruct (Z.testbit u n) eqn:E; simpl.
  - apply Z.eqb_neq. intros H. assert (Hb : Z.testbit (Z.land u (2 ^ n)) n = false) by
      (rewrite H; apply Z.bits_0).
    rewrite Z.land_spec, E, Z.pow2_bits_true in Hb by done. done.
  - apply Z.eqb_eq. apply Z.bits_inj'. intros i Hi. rewrite Z.land_spec, Z.bits_0.
    rewrite Z.pow2_bits_eqb by done. destruct (Z.eqb_spec n i) as [<-|]; by rewrite ?E, ?andb_false_r.
Qed.

Lemma testbit_div (u n : Z) : 0 <= n -> Z.testbit u n = (u / 2 ^ n mod 2 =? 1).
Proof.
  intros Hn. rewrite <- (Z.testbit_spec' u n Hn). by destruct (Z.testbit u n).
Qed.

Lemma is_uuid7_spec (u : UUID) :
  is_uuid7 u = true <-> u / 2 ^ 62 mod 4 = 2 /\ u / 2 ^ 76 mod 16 = 7.
Proof.
  unfold is_uuid7, version. rewrite andb_true_iff, !bool_decide_eq_true.
  assert (Hv : variant u = RFC_4122 <-> u / 2 ^ 62 mod 4 = 2).
  { unfold variant. change (Z.shiftl 0x8000 48) with (2 ^ 63). change (Z.shiftl 0x4000 48) with (2 ^ 62).
    change (Z.shiftl 0x2000 48) with (2 ^ 61).
    rewrite !land_pow2_eqb, !testbit_div by lia. generalize (u / 2 ^ 61 mod 2 =? 1) as b.
    replace (u / 2 ^ 63) with (u / 2 ^ 62 / 2) by (by rewrite Z.div_div by lia).
    set (q := u / 2 ^ 62). clearbody q.
    pose proof (Z.div_mod q 4 ltac:(lia)). pose proof (Z.mod_pos_bound q 4 ltac:(lia)).
    assert (Hb : q mod 2 = (q mod 4) mod 2 /\ q / 2 mod 2 = (q mod 4) / 2).
    { Z.div_mod_to_equations; lia. }
    destruct Hb as [-> ->].
    assert (q mod 4 = 0 \/ q mod 4 = 1 \/ q mod 4 = 2 \/ q mod 4 = 3) as [E|[E|[E|E]]] by lia;
      rewrite E; intros []; vm_compute; split; congruence. }
  split.
  - intros [Hver Hvar]. rewrite bool_decide_true in Hver by done. injection Hver as Hver.
    split; [by apply Hv|].
    rewrite Z.shiftr_div_pow2 in Hver by lia. change 15 with (Z.ones 4) in Hver.
    by rewrite Z.land_ones in Hver by lia.
  - intros [H1 H2]. apply Hv in H1. rewrite bool_decide_true by done. split; [|done].
    f_equal. rewrite Z.shiftr_div_pow2 by lia. change 15 with (Z.ones 4).
    by rewrite Z.land_ones by lia.
Qed.

(** ** Theorems *)

Lemma uuid7_value_linear (ts r : Z) :
  0 <= ts <= MAX_UUID7_TIMESTAMP_MS -> 0 <= r <= MAX_UUID7_RANDOM ->
  Z.lor (Z.lor (Z.lor (Z.lor (Z.shiftl ts 80) (Z.shiftl 0x7 76)) (Z.shiftl (Z.shiftr r 62) 64))
               (Z.shiftl 2 62))
        (Z.land r (Z.shiftl 1 62 - 1))
  = ts * 2 ^ 80 + 7 * 2 ^ 76 + (r / 2 ^ 62) * 2 ^ 64 + 2 * 2 ^ 62 + r mod 2 ^ 62.
Proof.
  intros Hts Hr. change (Z.shiftl 1 62 - 1) with (Z.ones 62).
  rewrite Z.land_ones, Z.shiftr_div_pow2 by lia.
  assert (MAX_UUID7_RANDOM = 2 ^ 74 - 1) by done.
  assert (0 <= r / 2 ^ 62 < 2 ^ 12).
  { split; [apply Z.div_pos; lia|]. apply Z.div_lt_upper_bound; lia. }
  pose proof (Z.mod_pos_bound r (2 ^ 62) ltac:(lia)).
  rewrite <- !Z.lor_assoc.
  rewrite (lor_shiftl_add 2 (r mod 2 ^ 62) 62) by lia.
  rewrite (lor_shiftl_add (r / 2 ^ 62) _ 64) by lia.
  rewrite (lor_shiftl_add 7 _ 76) by lia.
  rewrite (lor_shiftl_add ts _ 80) by lia. lia.
Qed.

Lemma new_uuid7_inv time_ns randbits ts r u :
  new_uuid7 time_ns randbits ts r = Ok u ->
  0 <= default (time_ns / 1000000) ts <= MAX_UUID7_TIMESTAMP_MS /\
  0 <= default randbits r <= MAX_UUID7_RANDOM /\
  u = default (time_ns / 1000000) ts * 2 ^ 80 + 7 * 2 ^ 76
      + (default randbits r / 2 ^ 62) * 2 ^ 64 + 2 * 2 ^ 62 + default randbits r mod 2 ^ 62.
Proof.
  unfold new_uuid7, uuid_of_int. intros H. inv_ok.
  rewrite Z.leb_le in *. repeat split; try done. apply uuid7_value_linear; lia.
Qed.

(** The fields of a generated identifier are read back by shifting. *)
Definition uuid7_timestamp (u : UUID) : Z := Z.shiftr u 80.
Definition uuid7_random (u : UUID) : Z :=
  Z.shiftr u 64 mod 2 ^ 12 * 2 ^ 62 + u mod 2 ^ 62.

Lemma uuid7_fields ts r :
  0 <= ts <= MAX_UUID7_TIMESTAMP_MS -> 0 <= r <= MAX_UUID7_RANDOM ->
  let u := ts * 2 ^ 80 + 7 * 2 ^ 76 + (r / 2 ^ 62) * 2 ^ 64 + 2 * 2 ^ 62 + r mod 2 ^ 62 in
  0 <= u < 2 ^ 128 /\ is_uuid7 u = true /\ uuid7_timestamp u = ts /\ uuid7_random u = r.
Proof.
  assert (MAX_UUID7_TIMESTAMP_MS = 2 ^ 48 - 1) as -> by done.
  assert (MAX_UUID7_RANDOM = 2 ^ 74 - 1) as -> by done.
  intros Hts Hr u.
  assert (Ha : 0 <= r / 2 ^ 62 < 2 ^ 12).
  { split; [apply Z.div_pos; lia|]. apply Z.div_lt_upper_bound; lia. }
  pose proof (Z.mod_pos_bound r (2 ^ 62) ltac:(lia)) as Hb.
  pose proof (Z.div_mod r (2 ^ 62) ltac:(lia)) as Hd.
  rewrite is_uuid7_spec. unfold uuid7_timestamp, uuid7_random. rewrite !Z.shiftr_div_pow2 by lia.
  subst u. set (a := r / 2 ^ 62) in *. set (b := r mod 2 ^ 62) in *. clearbody a b.
  set (u := ts * 2 ^ 80 + 7 * 2 ^ 76 + a * 2 ^ 64 + 2 * 2 ^ 62 + b).
  assert (u / 2 ^ 62 = (ts * 2 ^ 16 + 7 * 2 ^ 12 + a) * 4 + 2) as H62.
  { symmetry. apply (Z.div_unique_pos u _ _ b); subst u; lia. }
  assert (u / 2 ^ 64 = (ts * 2 ^ 4 + 7) * 2 ^ 12 + a) as H64.
  { symmetry. apply (Z.div_unique_pos u _ _ (2 * 2 ^ 62 + b)); subst u; lia. }
  assert (u / 2 ^ 76 = ts * 16 + 7) as H76.
  { symmetry. apply (Z.div_unique_pos u _ _ (a * 2 ^ 64 + 2 * 2 ^ 62 + b)); subst u; lia. }
  assert (u / 2 ^ 80 = ts) as H80.
  { symmetry. apply (Z.div_unique_pos u _ _ (7 * 2 ^ 76 + a * 2 ^ 64 + 2 * 2 ^ 62 + b)); subst u; lia. }
  assert (u mod 2 ^ 62 = b) as Hm.
  { symmetry. apply (Z.mod_unique_pos u _ ((ts * 2 ^ 16 + 7 * 2 ^ 12 + a) * 4 + 2)); subst u; lia. }
  rewrite H62, H64, H76, H80, Hm. repeat split; try (subst u; lia).
  - by rewrite Z.add_comm, Z.mod_add by lia.
  - by rewrite Z.add_comm, Z.mod_add by lia.
  - rewrite (Z.add_comm _ a), Z.mod_add, Z.mod_small by lia. lia.
Qed.

(** [new_uuid7] is total and exact.  When the resolved timestamp fits 48
    bits and the random value 74 bits it returns a 128-bit value that
    [is_uuid7] and [require_uuid7] accept and from which both inputs are
    recovered; otherwise it raises [InvalidIdentifierError], whichever of the
    clock, the entropy source and the explicit arguments supplied them. *)
Theorem new_uuid7_spec (time_ns randbits : Z) (timestamp_ms random_bits : option Z) :
  let ts := default (time_ns / 1000000) timestamp_ms in
  let r := default randbits random_bits in
  if bool_decide (0 <= ts <= MAX_UUID7_TIMESTAMP_MS /\ 0 <= r <= MAX_UUID7_RANDOM)
  then exists u, new_uuid7 time_ns randbits timestamp_ms random_bits = Ok u /\
         0 <= u < 2 ^ 128 /\ require_uuid7 u = Ok u /\
         uuid7_timestamp u = ts /\ uuid7_random u = r
  else exists message,
         new_uuid7 time_ns randbits timestamp_ms random_bits = Err (InvalidIdentifierError message).
Proof.
  intros ts r. unfold new_uuid7. cbv zeta. fold ts r. clearbody ts r.
  destruct (decide (0 <= ts <= MAX_UUID7_TIMESTAMP_MS)) as [Ht|Ht].
  2:{ rewrite bool_decide_false by tauto.
      replace ((0 <=? ts) && (ts <=? MAX_UUID7_TIMESTAMP_MS)) with false by lia.
      eexists. reflexivity. }
  destruct (decide (0 <= r <= MAX_UUID7_RANDOM)) as [Hr|Hr].
  2:{ rewrite bool_decide_false by tauto.
      replace ((0 <=? r) && (r <=? MAX_UUID7_RANDOM)) with false by lia.
      destruct (_ && _); eexists; reflexivity. }
  rewrite bool_decide_true by tauto.
  destruct (uuid7_fields ts r Ht Hr) as (Hu & H7 & H1 & H2).
  replace ((0 <=? ts) && (ts <=? MAX_UUID7_TIMESTAMP_MS)) with true by lia.
  replace ((0 <=? r) && (r <=? MAX_UUID7_RANDOM)) with true by lia.
  cbn [raise_if negb mbind result_bind]. rewrite uuid7_value_linear by done.
  eexists. unfold uuid_of_int, require_uuid7. change (Z.shiftl 1 128) with (2 ^ 128).
  replace (_ && _) with true by lia. rewrite H7. repeat split; (done || apply Hu || lia).
Qed.

(** ** The text form keeps the order *)

(** Strictly smaller text of the same length. *)
Definition str_below (a b : pystr) : Prop := length a = length b /\ str_leb b a = false.

Lemma str_below_app a b x y : str_below a b -> length x = length y -> str_below (a ++ x) (b ++ y).
Proof.
  intros [Hl Hlt] Hxy. split; [rewrite !length_app; lia|].
  revert b Hl Hlt. induction a as [|c a IH]; intros [|d b]; simpl; try done.
  intros [= Hl]. destruct (d <? c); [done|]. destruct (c <? d); [done|]. by apply IH.
Qed.

Lemma str_below_cons a x y : str_below x y -> str_below (a ++ x) (a ++ y).
Proof.
  intros [Hl Hlt]. split; [rewrite !length_app; lia|].
  induction a as [|c a IH]; simpl; [done|]. by rewrite Z.ltb_irrefl.
Qed.

Lemma hex_digits_length n v : length (hex_digits n v) = n.
Proof. revert v. induction n; intros v; simpl; [done|]. rewrite length_app, IHn. simpl. lia. Qed.

Lemma hex_digits_below n u v : 0 <= u < v -> v < 16 ^ Z.of_nat n ->
  str_below (hex_digits n u) (hex_digits n v).
Proof.
  revert u v. induction n as [|n IH]; intros u v Huv Hv; [simpl in Hv; lia|].
  rewrite Nat2Z.inj_succ, Z.pow_succ_r in Hv by lia. simpl.
  destruct (decide (u / 16 = v / 16)) as [E|E].
  - rewrite E. apply str_below_cons. split; [done|].
    assert (u mod 16 < v mod 16) by (Z.div_mod_to_equations; lia).
    pose proof (Z.mod_pos_bound u 16 ltac:(lia)). pose proof (Z.mod_pos_bound v 16 ltac:(lia)).
    unfold hex_digit. simpl. repeat (case_match; try lia); done.
  - apply str_below_app; [|done]. apply IH; Z.div_mod_to_equations; lia.
Qed.

(** Skip an equal group of digits; decide on an unequal one. *)
Local Ltac next_group E :=
  rewrite E; apply str_below_cons; apply (str_below_cons [45]).
Local Ltac decide_group :=
  apply str_below_app; [apply hex_digits_below|by rewrite ?length_app, ?hex_digits_length].

Lemma uuid_str_below u v : 0 <= u < v -> v < 2 ^ 128 -> str_below (uuid_str u) (uuid_str v).
Proof.
  intros Huv Hv. unfold uuid_str. rewrite !Z.shiftr_div_pow2 by lia.
  replace 281474976710656 with (2 ^ 48) by done. replace 65536 with (2 ^ 16) by done.
  assert (Hstep : forall x n, 0 <= n ->
            x / 2 ^ n = x / 2 ^ (n + 16) * 2 ^ 16 + x / 2 ^ n mod 2 ^ 16).
  { intros x n Hn. rewrite Z.pow_add_r, <- Z.div_div by lia.
    rewrite (Z.mul_comm _ (2 ^ 16)). apply Z.div_mod. lia. }
  assert (Hmono : forall n, 0 <= n -> u / 2 ^ n <= v / 2 ^ n) by (intros; apply Z.div_le_mono; lia).
  pose proof (Hstep u 80 ltac:(lia)). pose proof (Hstep v 80 ltac:(lia)).
  pose proof (Hstep u 64 ltac:(lia)). pose proof (Hstep v 64 ltac:(lia)).
  pose proof (Hstep u 48 ltac:(lia)). pose proof (Hstep v 48 ltac:(lia)).
  change (80 + 16) with 96 in *. change (64 + 16) with 80 in *. change (48 + 16) with 64 in *.
  pose proof (Hmono 96 ltac:(lia)). pose proof (Hmono 80 ltac:(lia)).
  pose proof (Hmono 64 ltac:(lia)). pose proof (Hmono 48 ltac:(lia)).
  assert (Hmod : forall x, 0 <= x mod 2 ^ 16 < 2 ^ 16) by (intros; apply Z.mod_pos_bound; lia).
  destruct (decide (u / 2 ^ 96 = v / 2 ^ 96)) as [E1|E1].
  2:{ decide_group.
      - split; [apply Z.div_pos; lia|lia].
      - apply Z.div_lt_upper_bound; lia. }
  next_group E1.
  destruct (decide (u / 2 ^ 80 = v / 2 ^ 80)) as [E2|E2].
  2:{ decide_group; [split; [apply Hmod|lia]|apply Hmod]. }
  next_group E2.
  destruct (decide (u / 2 ^ 64 = v / 2 ^ 64)) as [E3|E3].
  2:{ decide_group; [split; [apply Hmod|lia]|apply Hmod]. }
  next_group E3.
  destruct (decide (u / 2 ^ 48 = v / 2 ^ 48)) as [E4|E4].
  2:{ decide_group; [split; [apply Hmod|lia]|apply Hmod]. }
  next_group E4.
  pose proof (Z.div_mod u (2 ^ 48) ltac:(lia)). pose proof (Z.div_mod v (2 ^ 48) ltac:(lia)).
  apply hex_digits_below; [split; [apply Z.mod_pos_bound; lia|lia]|].
  apply Z.mod_pos_bound. lia.
Qed.

(** Of two generated identifiers the one with the earlier millisecond is
    smaller as an integer and strictly smaller as text, whatever the random
    bits: sorting rows by [str(uuid)], as ranking, provenance and archives do,
    sorts them by creation time. *)
Theorem uuid7_text_order_is_creation_order n1 n2 b1 b2 ts1 ts2 r1 r2 u1 u2 :
  new_uuid7 n1 b1 ts1 r1 = Ok u1 -> new_uuid7 n2 b2 ts2 r2 = Ok u2 ->
  default (n1 / 1000000) ts1 < default (n2 / 1000000) ts2 ->
  u1 < u2 /\ str_leb (uuid_str u1) (uuid_str u2) = true /\
  str_leb (uuid_str u2) (uuid_str u1) = false.
Proof.
  intros H1 H2 Hlt.
  apply new_uuid7_inv in H1 as (Ht1 & Hr1 & ->). apply new_uuid7_inv in H2 as (Ht2 & Hr2 & ->).
  destruct (uuid7_fields _ _ Ht1 Hr1) as (Hb1 & _ & Hs1 & _).
  destruct (uuid7_fields _ _ Ht2 Hr2) as (Hb2 & _ & Hs2 & _).
  set (u1 := _ + default b1 r1 mod 2 ^ 62) in *. set (u2 := _ + default b2 r2 mod 2 ^ 62) in *.
  clearbody u1 u2. unfold uuid7_timestamp in *. rewrite !Z.shiftr_div_pow2 in * by lia.
  assert (Hu : u1 < u2).
  { destruct (Z.lt_ge_cases u1 u2) as [|Hge]; [done|].
    apply (Z.div_le_mono _ _ (2 ^ 80)) in Hge; lia. }
  destruct (uuid_str_below u1 u2 ltac:(lia) ltac:(lia)) as [_ Hbelow].
  split; [done|]. split; [by apply str_leb_total|done].
Qed.

Lemma uuid7_text_order_is_creation_order_witness :
  2075121169369039892652604541118709765 < 2075121169370248818472219170293415936.
Proof.
  destruct (uuid7_text_order_is_creation_order 0 0 0 0 (Some 1716500000000) (Some 1716500000001)
              (Some 5) (Some 0) 2075121169369039892652604541118709765
              2075121169370248818472219170293415936)
    as [H _]; [vm_compute; reflexivity..|exact H].
Defined.
