(* ===== verification/Enums.v ===== *)
(** * Enums: the closed vocabularies of the memory domain

    Models [domain/enums.py].  Each [StrEnum] class is an inductive type in a
    module of the class's name, so that [MemoryStatus.ACTIVE] reads as in the
    source; the class [StrEnum] below is the interface every vocabulary
    provides: its members in declaration order and their wire values. *)

From stdpp Require Import base tactics option list sets strings.
From S2P Require Import Prelude.

(** ** The [StrEnum] interface *)

Class StrEnum (E : Type) : Type := {
  enum_value : E -> string;
  enum_members : list E;
  enum_members_complete : forall x : E, x ∈ enum_members;
  enum_members_nodup : NoDup enum_members;
  enum_value_inj : forall x y : E, enum_value x = enum_value y -> x = y
}.

Ltac solve_strenum :=
  first
    [ solve [intros []; apply (bool_decide_unpack _); vm_compute; exact I]
    | solve [apply nodupb_NoDup; vm_compute; reflexivity]
    | solve [intros [] []; simpl; congruence] ].

(** [EnumType(wire)]: the member with that wire value, if any. *)
Definition enum_of_value (E : Type) `{StrEnum E} (wire : string) : option E :=
  List.find (fun x => String.eqb (enum_value x) wire) enum_members.

(** [enum_values(EnumType)] *)
Definition enum_values (E : Type) `{StrEnum E} : list string :=
  enum_value <$> (enum_members : list E).

(** [class MemoryCategory(StrEnum)]: The semantic category of a durable memory. *)
Module MemoryCategory.
Inductive MemoryCategory : Type :=
| STABLE_FACT | USER_PREFERENCE | ASSISTANT_PREFERENCE_LIKE_PATTERN
| BOUNDARY_OR_PERMISSION | INTERACTION_CONVENTION | RELATIONSHIP_PATTERN
| EMERGENT_TENDENCY | EPISODIC_ANCHOR | PROJECT_DECISION | PROJECT_STATE | PROCEDURE
| OPEN_QUESTION | INTERPRETATION | EXTERNAL_FACT.

Definition value (x : MemoryCategory) : string :=
  match x with
  | STABLE_FACT => "stable_fact"
  | USER_PREFERENCE => "user_preference"
  | ASSISTANT_PREFERENCE_LIKE_PATTERN => "assistant_preference_like_pattern"
  | BOUNDARY_OR_PERMISSION => "boundary_or_permission"
  | INTERACTION_CONVENTION => "interaction_convention"
  | RELATIONSHIP_PATTERN => "relationship_pattern"
  | EMERGENT_TENDENCY => "emergent_tendency"
  | EPISODIC_ANCHOR => "episodic_anchor"
  | PROJECT_DECISION => "project_decision"
  | PROJECT_STATE => "project_state"
  | PROCEDURE => "procedure"
  | OPEN_QUESTION => "open_question"
  | INTERPRETATION => "interpretation"
  | EXTERNAL_FACT => "external_fact"
  end%string.

Definition members : list MemoryCategory :=
  [STABLE_FACT; USER_PREFERENCE; ASSISTANT_PREFERENCE_LIKE_PATTERN;
   BOUNDARY_OR_PERMISSION; INTERACTION_CONVENTION; RELATIONSHIP_PATTERN;
   EMERGENT_TENDENCY; EPISODIC_ANCHOR; PROJECT_DECISION; PROJECT_STATE; PROCEDURE;
   OPEN_QUESTION; INTERPRETATION; EXTERNAL_FACT].
End MemoryCategory.
Abbreviation MemoryCategory := MemoryCategory.MemoryCategory.

#[export] Instance MemoryCategory_eq_dec : EqDecision MemoryCategory.
Proof. solve_decision. Defined.

#[export] Instance MemoryCategory_strenum : StrEnum MemoryCategory.
Proof. refine {| enum_value := MemoryCategory.value; enum_members := MemoryCategory.members |}; solve_strenum. Defined.

(** [class OntologicalStatus(StrEnum)]: How a memory statement relates to literal, observed, or fictional reality. *)
Module OntologicalStatus.
Inductive OntologicalStatus : Type :=
| LITERAL_USER_FACT | LITERAL_TECHNICAL_FACT | ASSISTANT_SELF_DESCRIPTION
| OBSERVED_ASSISTANT_BEHAVIOR | INTERACTION_CONVENTION | FICTIONAL_OR_ROLEPLAYED_SCENE
| HYPOTHESIS | UNCERTAIN.

Definition value (x : OntologicalStatus) : string :=
  match x with
  | LITERAL_USER_FACT => "literal_user_fact"
  | LITERAL_TECHNICAL_FACT => "literal_technical_fact"
  | ASSISTANT_SELF_DESCRIPTION => "assistant_self_description"
  | OBSERVED_ASSISTANT_BEHAVIOR => "observed_assistant_behavior"
  | INTERACTION_CONVENTION => "interaction_convention"
  | FICTIONAL_OR_ROLEPLAYED_SCENE => "fictional_or_roleplayed_scene"
  | HYPOTHESIS => "hypothesis"
  | UNCERTAIN => "uncertain"
  end%string.

Definition members : list OntologicalStatus :=
  [LITERAL_USER_FACT; LITERAL_TECHNICAL_FACT; ASSISTANT_SELF_DESCRIPTION;
   OBSERVED_ASSISTANT_BEHAVIOR; INTERACTION_CONVENTION; FICTIONAL_OR_ROLEPLAYED_SCENE;
   HYPOTHESIS; UNCERTAIN].
End OntologicalStatus.
Abbreviation OntologicalStatus := OntologicalStatus.OntologicalStatus.

#[export] Instance OntologicalStatus_eq_dec : EqDecision OntologicalStatus.
Proof. solve_decision. Defined.

#[export] Instance OntologicalStatus_strenum : StrEnum OntologicalStatus.
Proof. refine {| enum_value := OntologicalStatus.value; enum_members := OntologicalStatus.members |}; solve_strenum. Defined.

(** [class MemoryScope(StrEnum)] *)
Module MemoryScope.
Inductive MemoryScope : Type :=
| GLOBAL | PERSONA | RELATIONSHIP | PROJECT | EPISODIC | SCENE_LOCAL.

Definition value (x : MemoryScope) : string :=
  match x with
  | GLOBAL => "global"
  | PERSONA => "persona"
  | RELATIONSHIP => "relationship"
  | PROJECT => "project"
  | EPISODIC => "episodic"
  | SCENE_LOCAL => "scene_local"
  end%string.

Definition members : list MemoryScope :=
  [GLOBAL; PERSONA; RELATIONSHIP; PROJECT; EPISODIC; SCENE_LOCAL].
End MemoryScope.
Abbreviation MemoryScope := MemoryScope.MemoryScope.

#[export] Instance MemoryScope_eq_dec : EqDecision MemoryScope.
Proof. solve_decision. Defined.

#[export] Instance MemoryScope_strenum : StrEnum MemoryScope.
Proof. refine {| enum_value := MemoryScope.value; enum_members := MemoryScope.members |}; solve_strenum. Defined.

(** [class MemoryVisibility(StrEnum)] *)
Module MemoryVisibility.
Inductive MemoryVisibility : Type :=
| PRIVATE_ROOT | RESTRICTED | SHAREABLE | PUBLIC_SEED.

Definition value (x : MemoryVisibility) : string :=
  match x with
  | PRIVATE_ROOT => "private_root"
  | RESTRICTED => "restricted"
  | SHAREABLE => "shareable"
  | PUBLIC_SEED => "public_seed"
  end%string.

Definition members : list MemoryVisibility :=
  [PRIVATE_ROOT; RESTRICTED; SHAREABLE; PUBLIC_SEED].
End MemoryVisibility.
Abbreviation MemoryVisibility := MemoryVisibility.MemoryVisibility.

#[export] Instance MemoryVisibility_eq_dec : EqDecision MemoryVisibility.
Proof. solve_decision. Defined.

#[export] Instance MemoryVisibility_strenum : StrEnum MemoryVisibility.
Proof. refine {| enum_value := MemoryVisibility.value; enum_members := MemoryVisibility.members |}; solve_strenum. Defined.

(** [class MemoryStatus(StrEnum)] *)
Module MemoryStatus.
Inductive MemoryStatus : Type :=
| CANDIDATE | ACTIVE | DISPUTED | SUPERSEDED | RETIRED | TOMBSTONED.

Definition value (x : MemoryStatus) : string :=
  match x with
  | CANDIDATE => "candidate"
  | ACTIVE => "active"
  | DISPUTED => "disputed"
  | SUPERSEDED => "superseded"
  | RETIRED => "retired"
  | TOMBSTONED => "tombstoned"
  end%string.

Definition members : list MemoryStatus :=
  [CANDIDATE; ACTIVE; DISPUTED; SUPERSEDED; RETIRED; TOMBSTONED].
End MemoryStatus.
Abbreviation MemoryStatus := MemoryStatus.MemoryStatus.

#[export] Instance MemoryStatus_eq_dec : EqDecision MemoryStatus.
Proof. solve_decision. Defined.

#[export] Instance MemoryStatus_strenum : StrEnum MemoryStatus.
Proof. refine {| enum_value := MemoryStatus.value; enum_members := MemoryStatus.members |}; solve_strenum. Defined.

(** [class AuthorityClass(StrEnum)] *)
Module AuthorityClass.
Inductive AuthorityClass : Type :=
| EXPLICIT_USER_CORRECTION | EXPLICIT_USER_STATEMENT | VERIFIED_PROJECT_SOURCE
| ASSISTANT_OBSERVATION | ASSISTANT_INTERPRETATION | EXTERNAL_SOURCE
| IMPORTED_LEGACY_MEMORY.

Definition value (x : AuthorityClass) : string :=
  match x with
  | EXPLICIT_USER_CORRECTION => "explicit_user_correction"
  | EXPLICIT_USER_STATEMENT => "explicit_user_statement"
  | VERIFIED_PROJECT_SOURCE => "verified_project_source"
  | ASSISTANT_OBSERVATION => "assistant_observation"
  | ASSISTANT_INTERPRETATION => "assistant_interpretation"
  | EXTERNAL_SOURCE => "external_source"
  | IMPORTED_LEGACY_MEMORY => "imported_legacy_memory"
  end%string.

Definition members : list AuthorityClass :=
  [EXPLICIT_USER_CORRECTION; EXPLICIT_USER_STATEMENT; VERIFIED_PROJECT_SOURCE;
   ASSISTANT_OBSERVATION; ASSISTANT_INTERPRETATION; EXTERNAL_SOURCE;
   IMPORTED_LEGACY_MEMORY].
End AuthorityClass.
Abbreviation AuthorityClass := AuthorityClass.AuthorityClass.

#[export] Instance AuthorityClass_eq_dec : EqDecision AuthorityClass.
Proof. solve_decision. Defined.

#[export] Instance AuthorityClass_strenum : StrEnum AuthorityClass.
Proof. refine {| enum_value := AuthorityClass.value; enum_members := AuthorityClass.members |}; solve_strenum. Defined.

(** [class EventOperation(StrEnum)] *)
Module EventOperation.
Inductive EventOperation : Type :=
| OBSERVED | REMEMBERED | CANDIDATE_PROMOTED | CANDIDATE_EXPIRED | REVISED | LINKED
| CONFLICT_OPENED | CONFLICT_RESOLVED | SUPERSEDED | RETIRED | TOMBSTONED
| BRANCH_CREATED | VISIBILITY_CHANGED | EVIDENCE_ATTACHED | EVIDENCE_REDACTED | UNLINKED
| PAYLOAD_PURGE_COMPLETED.

Definition value (x : EventOperation) : string :=
  match x with
  | OBSERVED => "observed"
  | REMEMBERED => "remembered"
  | CANDIDATE_PROMOTED => "candidate_promoted"
  | CANDIDATE_EXPIRED => "candidate_expired"
  | REVISED => "revised"
  | LINKED => "linked"
  | CONFLICT_OPENED => "conflict_opened"
  | CONFLICT_RESOLVED => "conflict_resolved"
  | SUPERSEDED => "superseded"
  | RETIRED => "retired"
  | TOMBSTONED => "tombstoned"
  | BRANCH_CREATED => "branch_created"
  | VISIBILITY_CHANGED => "visibility_changed"
  | EVIDENCE_ATTACHED => "evidence_attached"
  | EVIDENCE_REDACTED => "evidence_redacted"
  | UNLINKED => "unlinked"
  | PAYLOAD_PURGE_COMPLETED => "payload_purge_completed"
  end%string.

Definition members : list EventOperation :=
  [OBSERVED; REMEMBERED; CANDIDATE_PROMOTED; CANDIDATE_EXPIRED; REVISED; LINKED;
   CONFLICT_OPENED; CONFLICT_RESOLVED; SUPERSEDED; RETIRED; TOMBSTONED; BRANCH_CREATED;
   VISIBILITY_CHANGED; EVIDENCE_ATTACHED; EVIDENCE_REDACTED; UNLINKED;
   PAYLOAD_PURGE_COMPLETED].
End EventOperation.
Abbreviation EventOperation := EventOperation.EventOperation.

#[export] Instance EventOperation_eq_dec : EqDecision EventOperation.
Proof. solve_decision. Defined.

#[export] Instance EventOperation_strenum : StrEnum EventOperation.
Proof. refine {| enum_value := EventOperation.value; enum_members := EventOperation.members |}; solve_strenum. Defined.

(** [class LinkType(StrEnum)] *)
Module LinkType.
Inductive LinkType : Type :=
| SUPPORTS | CONTRADICTS | REFINES | CAUSED_BY | ASSOCIATED_WITH | SUPERSEDES | PART_OF
| FORKED_FROM.

Definition value (x : LinkType) : string :=
  match x with
  | SUPPORTS => "supports"
  | CONTRADICTS => "contradicts"
  | REFINES => "refines"
  | CAUSED_BY => "caused_by"
  | ASSOCIATED_WITH => "associated_with"
  | SUPERSEDES => "supersedes"
  | PART_OF => "part_of"
  | FORKED_FROM => "forked_from"
  end%string.

Definition members : list LinkType :=
  [SUPPORTS; CONTRADICTS; REFINES; CAUSED_BY; ASSOCIATED_WITH; SUPERSEDES; PART_OF;
   FORKED_FROM].
End LinkType.
Abbreviation LinkType := LinkType.LinkType.

#[export] Instance LinkType_eq_dec : EqDecision LinkType.
Proof. solve_decision. Defined.

#[export] Instance LinkType_strenum : StrEnum LinkType.
Proof. refine {| enum_value := LinkType.value; enum_members := LinkType.members |}; solve_strenum. Defined.

(** [class IngressState(StrEnum)] *)
Module IngressState.
Inductive IngressState : Type :=
| DISCOVERED | VALIDATED | ACCEPTED | DUPLICATE | CONFLICT | REJECTED | QUARANTINED.

Definition value (x : IngressState) : string :=
  match x with
  | DISCOVERED => "discovered"
  | VALIDATED => "validated"
  | ACCEPTED => "accepted"
  | DUPLICATE => "duplicate"
  | CONFLICT => "conflict"
  | REJECTED => "rejected"
  | QUARANTINED => "quarantined"
  end%string.

Definition members : list IngressState :=
  [DISCOVERED; VALIDATED; ACCEPTED; DUPLICATE; CONFLICT; REJECTED; QUARANTINED].
End IngressState.
Abbreviation IngressState := IngressState.IngressState.

#[export] Instance IngressState_eq_dec : EqDecision IngressState.
Proof. solve_decision. Defined.

#[export] Instance IngressState_strenum : StrEnum IngressState.
Proof. refine {| enum_value := IngressState.value; enum_members := IngressState.members |}; solve_strenum. Defined.

(** [class TransportKind(StrEnum)] *)
Module TransportKind.
Inductive TransportKind : Type :=
| DIRECT_PRIVATE | SECURE_TUNNEL | RELAY | GITHUB_INGRESS | INTERNAL_SERVICE
| ARCHIVE_RESTORE.

Definition value (x : TransportKind) : string :=
  match x with
  | DIRECT_PRIVATE => "direct_private"
  | SECURE_TUNNEL => "secure_tunnel"
  | RELAY => "relay"
  | GITHUB_INGRESS => "github_ingress"
  | INTERNAL_SERVICE => "internal_service"
  | ARCHIVE_RESTORE => "archive_restore"
  end%string.

Definition members : list TransportKind :=
  [DIRECT_PRIVATE; SECURE_TUNNEL; RELAY; GITHUB_INGRESS; INTERNAL_SERVICE;
   ARCHIVE_RESTORE].
End TransportKind.
Abbreviation TransportKind := TransportKind.TransportKind.

#[export] Instance TransportKind_eq_dec : EqDecision TransportKind.
Proof. solve_decision. Defined.

#[export] Instance TransportKind_strenum : StrEnum TransportKind.
Proof. refine {| enum_value := TransportKind.value; enum_members := TransportKind.members |}; solve_strenum. Defined.

(** [class SubjectKind(StrEnum)] *)
Module SubjectKind.
Inductive SubjectKind : Type :=
| GLOBAL | PERSONA | RELATIONSHIP | PROJECT | EPISODE | SCENE | CONCEPT.

Definition value (x : SubjectKind) : string :=
  match x with
  | GLOBAL => "global"
  | PERSONA => "persona"
  | RELATIONSHIP => "relationship"
  | PROJECT => "project"
  | EPISODE => "episode"
  | SCENE => "scene"
  | CONCEPT => "concept"
  end%string.

Definition members : list SubjectKind :=
  [GLOBAL; PERSONA; RELATIONSHIP; PROJECT; EPISODE; SCENE; CONCEPT].
End SubjectKind.
Abbreviation SubjectKind := SubjectKind.SubjectKind.

#[export] Instance SubjectKind_eq_dec : EqDecision SubjectKind.
Proof. solve_decision. Defined.

#[export] Instance SubjectKind_strenum : StrEnum SubjectKind.
Proof. refine {| enum_value := SubjectKind.value; enum_members := SubjectKind.members |}; solve_strenum. Defined.

(** [class ProposalOperation(StrEnum)]: Operations accepted by the legacy GitHub proposal transport DTO. *)
Module ProposalOperation.
Inductive ProposalOperation : Type :=
| OBSERVE | REMEMBER.

Definition value (x : ProposalOperation) : string :=
  match x with
  | OBSERVE => "observe"
  | REMEMBER => "remember"
  end%string.

Definition members : list ProposalOperation :=
  [OBSERVE; REMEMBER].
End ProposalOperation.
Abbreviation ProposalOperation := ProposalOperation.ProposalOperation.

#[export] Instance ProposalOperation_eq_dec : EqDecision ProposalOperation.
Proof. solve_decision. Defined.

#[export] Instance ProposalOperation_strenum : StrEnum ProposalOperation.
Proof. refine {| enum_value := ProposalOperation.value; enum_members := ProposalOperation.members |}; solve_strenum. Defined.

(** [class ProposalConfidenceBasis(StrEnum)]: Legacy proposal provenance basis, deliberately not a numeric score. *)
Module ProposalConfidenceBasis.
Inductive ProposalConfidenceBasis : Type :=
| EXPLICIT | VERIFIED | OBSERVED | INTERPRETED | UNCERTAIN.

Definition value (x : ProposalConfidenceBasis) : string :=
  match x with
  | EXPLICIT => "explicit"
  | VERIFIED => "verified"
  | OBSERVED => "observed"
  | INTERPRETED => "interpreted"
  | UNCERTAIN => "uncertain"
  end%string.

Definition members : list ProposalConfidenceBasis :=
  [EXPLICIT; VERIFIED; OBSERVED; INTERPRETED; UNCERTAIN].
End ProposalConfidenceBasis.
Abbreviation ProposalConfidenceBasis := ProposalConfidenceBasis.ProposalConfidenceBasis.

#[export] Instance ProposalConfidenceBasis_eq_dec : EqDecision ProposalConfidenceBasis.
Proof. solve_decision. Defined.

#[export] Instance ProposalConfidenceBasis_strenum : StrEnum ProposalConfidenceBasis.
Proof. refine {| enum_value := ProposalConfidenceBasis.value; enum_members := ProposalConfidenceBasis.members |}; solve_strenum. Defined.


(** ** Theorems *)

Section StrEnumFacts.
Context {E : Type} `{StrEnum E}.

Lemma find_value_some (l : list E) wire x :
  List.find (fun x => String.eqb (enum_value x) wire) l = Some x -> enum_value x = wire.
Proof. intros Hf. apply List.find_some in Hf as [_ Hf]. by apply String.eqb_eq. Qed.

Lemma enum_of_value_spec wire (x : E) :
  enum_of_value E wire = Some x <-> enum_value x = wire.
Proof.
  unfold enum_of_value. split; [apply find_value_some|]. intros Hx.
  destruct (List.find _ _) as [y|] eqn:Hf.
  - f_equal. apply enum_value_inj. rewrite Hx. by apply find_value_some in Hf.
  - eapply List.find_none in Hf; [|by apply list_elem_of_In, (enum_members_complete x)].
    simpl in Hf. rewrite Hx, String.eqb_refl in Hf. done.
Qed.
End StrEnumFacts.
