(* ===== verification/Values.v ===== *)
(** * Values: fixed-precision scores and UTC timestamps

    Models [domain/values.py] and the parts of Python's [decimal] and
    [datetime] it uses.  A finite [Decimal] is sign, coefficient and exponent,
    as in the language; a [datetime] is its wall-clock microseconds since
    0001-01-01T00:00 with the UTC offset of its time zone, if it has one. *)

From stdpp Require Import base tactics option list strings.
From Stdlib Require Import ZArith Lia Bool.
From S2P Require Import Prelude.
Open Scope Z_scope.

(** ** Python's [decimal.Decimal] *)

Inductive Decimal : Type :=
| Finite (negative : bool) (coefficient : Z) (exponent : Z)
| Infinity (negative : bool)
| NaN.

#[export] Instance Decimal_eq_dec : EqDecision Decimal.
Proof. solve_decision. Defined.

(** The coefficient is a string of digits in the language: never negative. *)
Definition decimal_ok (d : Decimal) : Prop :=
  match d with Finite _ c _ => 0 <= c | _ => True end.

Definition signed (negative : bool) (c : Z) : Z := if negative then - c else c.

(** The value of [signed c * 10 ^ e] in units of [10 ^ k]; exact when [k <= e]. *)
Definition in_units (k : Z) (negative : bool) (c e : Z) : Z := signed negative c * 10 ^ (e - k).

(** Numerical comparison of two finite decimals. *)
Definition decimal_compare (n1 : bool) (c1 e1 : Z) (n2 : bool) (c2 e2 : Z) : comparison :=
  let k := Z.min e1 e2 in in_units k n1 c1 e1 ?= in_units k n2 c2 e2.

(** Division rounding half to even, the rounding of the default context. *)
Definition div_half_even (a b : Z) : Z :=
  let q := a / b in let r := a mod b in
  if 2 * r <? b then q else if b <? 2 * r then q + 1 else if Z.even q then q else q + 1.

Definition DECIMAL_PRECISION : Z := 28.

(** [d.quantize(Decimal(1).scaleb(k))]: [None] is [InvalidOperation]. *)
Definition quantize (negative : bool) (c e k : Z) : option Z :=
  let c' := if k <=? e then c * 10 ^ (e - k) else div_half_even c (10 ^ (k - e)) in
  if c' <? 10 ^ DECIMAL_PRECISION then Some c' else None.

(** Remove trailing zeros of a coefficient, at most [fuel] of them. *)
Fixpoint strip_zeros (fuel : nat) (c e : Z) : Z * Z :=
  match fuel with
  | O => (c, e)
  | S fuel' => if c mod 10 =? 0 then strip_zeros fuel' (c / 10) (e + 1) else (c, e)
  end.

(** [d.normalize()] for a non-zero value within the context's precision. *)
Definition decimal_normalize (negative : bool) (c e : Z) : Decimal :=
  let '(c', e') := strip_zeros (Z.to_nat (Z.log2 c + 1)) c e in Finite negative c' e'.

(** ** [normalize_unit_score] *)

Definition MAX_SCORE_DECIMAL_PLACES : Z := 6.

Definition normalize_unit_score (value : Decimal) : result Decimal :=
  match value with
  | Infinity _ | NaN => Err (DomainValidationError "score must be a finite decimal")
  | Finite n c e =>
    raise_if (bool_decide (decimal_compare n c e false 0 0 = Lt)
              || bool_decide (decimal_compare n c e false 1 0 = Gt))
             (DomainValidationError "score must be between zero and one");;
    quantized ← from_option_or (quantize n c e (- MAX_SCORE_DECIMAL_PLACES))
                               (DomainValidationError "score precision is invalid");
    raise_if (negb (bool_decide
                (decimal_compare n quantized (- MAX_SCORE_DECIMAL_PLACES) n c e = Eq)))
             (DomainValidationError "score supports at most six decimal places");;
    Ok (if c =? 0 then Finite false 0 0 else decimal_normalize n c e)
  end.

(** ** Python's [datetime] *)

Record datetime : Type := mk_datetime {
  wall_us : Z;               (* microseconds since 0001-01-01T00:00:00 *)
  utcoffset_us : option Z    (* [None] for a naive datetime *)
}.

(** An instant: UTC microseconds since 0001-01-01T00:00, the value every
    timestamp of an accepted event has after [normalize_utc_datetime]. *)
Abbreviation instant := Z.

(** [datetime.max] is 9999-12-31T23:59:59.999999. *)
Definition DATETIME_LIMIT_US : Z := 3652059 * 86400000000.

Definition normalize_utc_datetime (value : datetime) : result instant :=
  match utcoffset_us value with
  | None => Err (DomainValidationError "datetime must include a timezone offset")
  | Some offset =>
    let utc := wall_us value - offset in
    raise_if (negb ((0 <=? utc) && (utc <? DATETIME_LIMIT_US))) OverflowError;;
    Ok utc
  end.

(** ** The proleptic Gregorian calendar, as [datetime] computes it *)

Definition is_leap (year : Z) : bool :=
  (year mod 4 =? 0) && (negb (year mod 100 =? 0) || (year mod 400 =? 0)).

Definition days_before_year (year : Z) : Z :=
  let y := year - 1 in y * 365 + y / 4 - y / 100 + y / 400.

Definition days_before_month (leap : bool) (month : Z) : Z :=
  nth (Z.to_nat month) [0; 0; 31; 59; 90; 120; 151; 181; 212; 243; 273; 304; 334] 0
  + (if leap && (2 <? month) then 1 else 0).

Definition days_in_month (leap : bool) (month : Z) : Z :=
  nth (Z.to_nat month) [0; 31; 28; 31; 30; 31; 30; 31; 31; 30; 31; 30; 31] 0
  + (if leap && (month =? 2) then 1 else 0).

(** Month and day of the [n]-th day (from zero) of a year. *)
Definition month_day (leap : bool) (n : Z) : Z * Z :=
  let month := Z.shiftr (n + 50) 5 in
  let preceding := days_before_month leap month in
  if n <? preceding
  then (month - 1, n - (preceding - days_in_month leap (month - 1)) + 1)
  else (month, n - preceding + 1).

(** Year, month and day of the [n]-th day (from zero) since 0001-01-01. *)
Definition civil_of_days (n : Z) : Z * Z * Z :=
  let n400 := n / 146097 in let r := n mod 146097 in
  let n100 := r / 36524 in let r := r mod 36524 in
  let n4 := r / 1461 in let r := r mod 1461 in
  let n1 := r / 365 in let r := r mod 365 in
  let year := n400 * 400 + 1 + n100 * 100 + n4 * 4 + n1 in
  if (n1 =? 4) || (n100 =? 4) then (year - 1, 12, 31)
  else
    let leap := (n1 =? 3) && (negb (n4 =? 24) || (n100 =? 3)) in
    let '(month, day) := month_day leap r in (year, month, day).

(** Zero-padded decimal digits of a fixed width. *)
Fixpoint dec_digits (width : nat) (v : Z) : pystr :=
  match width with
  | O => []
  | S w => dec_digits w (v / 10) ++ [48 + v mod 10]
  end.

(** [format_utc_datetime]: [YYYY-MM-DDTHH:MM:SS.ffffffZ]. *)
Definition format_utc_instant (t : instant) : pystr :=
  let days := t / 86400000000 in let us := t mod 86400000000 in
  let '(year, month, day) := civil_of_days days in
  dec_digits 4 year ++ py "-" ++ dec_digits 2 month ++ py "-" ++ dec_digits 2 day ++ py "T"
  ++ dec_digits 2 (us / 3600000000) ++ py ":" ++ dec_digits 2 (us / 60000000 mod 60) ++ py ":"
  ++ dec_digits 2 (us / 1000000 mod 60) ++ py "." ++ dec_digits 6 (us mod 1000000) ++ py "Z".

Definition format_utc_datetime (value : datetime) : result pystr :=
  normalized ← normalize_utc_datetime value;
  Ok (format_utc_instant normalized).

(** ** Lemmas on normal forms *)

Lemma strip_zeros_value fuel c e c' e' :
  strip_zeros fuel c e = (c', e') -> e <= e' /\ c = c' * 10 ^ (e' - e).
Proof.
  revert c e. induction fuel as [|fuel IH]; intros c e; simpl; [intros [= <- <-]; split; [lia|]|].
  - rewrite Z.sub_diag. lia.
  - destruct (Z.eqb_spec (c mod 10) 0) as [Hz|Hz].
    + intros H. apply IH in H as [He Hc]. split; [lia|].
      replace (e' - e) with (1 + (e' - (e + 1))) by lia.
      rewrite Z.pow_add_r by lia. pose proof (Z.div_mod c 10 ltac:(lia)).
      set (p := 10 ^ (e' - (e + 1))) in *. lia.
    + intros [= <- <-]. rewrite Z.sub_diag. lia.
Qed.

Lemma strip_zeros_stripped fuel c e c' e' :
  strip_zeros fuel c e = (c', e') -> 0 < c < 10 ^ Z.of_nat fuel -> c' mod 10 <> 0.
Proof.
  revert c e. induction fuel as [|fuel IH]; intros c e; simpl; [lia|].
  intros H Hc. destruct (Z.eqb_spec (c mod 10) 0) as [Hz|Hz].
  - eapply IH; [done|]. pose proof (Z.div_mod c 10 ltac:(lia)).
    rewrite Nat2Z.inj_succ, Z.pow_succ_r in Hc by lia. lia.
  - by injection H as <- <-.
Qed.

Lemma decimal_normalize_spec n c e c' e' :
  0 < c -> decimal_normalize n c e = Finite n c' e' ->
  c' mod 10 <> 0 /\ e <= e' /\ c = c' * 10 ^ (e' - e).
Proof.
  intros Hc. unfold decimal_normalize. destruct (strip_zeros _ c e) as [c1 e1] eqn:E.
  intros [= <- <-]. split; [|by eapply strip_zeros_value].
  eapply strip_zeros_stripped; [done|]. split; [lia|].
  pose proof (Z.log2_spec c Hc) as [_ Hl]. pose proof (Z.log2_nonneg c).
  rewrite Z2Nat.id by lia.
  eapply Z.lt_le_trans; [exact Hl|]. rewrite Z.add_1_r.
  apply Z.pow_le_mono_l. lia.
Qed.

Lemma decimal_compare_units k n1 c1 e1 n2 c2 e2 :
  k <= e1 -> k <= e2 ->
  decimal_compare n1 c1 e1 n2 c2 e2 = (in_units k n1 c1 e1 ?= in_units k n2 c2 e2).
Proof.
  intros H1 H2. unfold decimal_compare, in_units.
  set (m := Z.min e1 e2). assert (m <= e1 /\ m <= e2 /\ k <= m) as (? & ? & ?) by lia.
  replace (e1 - k) with ((e1 - m) + (m - k)) by lia.
  replace (e2 - k) with ((e2 - m) + (m - k)) by lia.
  rewrite !Z.pow_add_r, !Z.mul_assoc by lia.
  set (p := 10 ^ (m - k)). assert (0 < p) by (apply Z.pow_pos_nonneg; lia).
  set (x := signed n1 c1 * _). set (y := signed n2 c2 * _).
  destruct (Z.compare_spec x y) as [->|?|?]; symmetry;
    [apply Z.compare_refl|apply Z.compare_lt_iff; nia|apply Z.compare_gt_iff; nia].
Qed.

Lemma stripped_unique c1 c2 a b :
  c1 mod 10 <> 0 -> c2 mod 10 <> 0 -> 0 <= a -> 0 <= b ->
  c1 * 10 ^ a = c2 * 10 ^ b -> c1 = c2 /\ a = b.
Proof.
  assert (Hle : forall x y i j, x mod 10 <> 0 -> 0 <= i <= j ->
            x * 10 ^ i = y * 10 ^ j -> x = y /\ i = j).
  { intros x y i j Hx Hij H. replace j with ((j - i) + i) in H by lia.
    rewrite Z.pow_add_r, Z.mul_assoc in H by lia.
    apply Z.mul_cancel_r in H; [|apply Z.pow_nonzero; lia].
    destruct (decide (j = i)) as [->|Hne].
    - rewrite Z.sub_diag in H. lia.
    - exfalso. apply Hx. replace (j - i) with (1 + (j - i - 1)) in H by lia.
      rewrite Z.pow_add_r in H by lia. rewrite H.
      replace (y * (10 ^ 1 * 10 ^ (j - i - 1))) with (y * 10 ^ (j - i - 1) * 10) by lia.
      apply Z.mod_mul. lia. }
  intros H1 H2 Ha Hb H. destruct (Z.le_ge_cases a b).
  - by apply Hle.
  - destruct (Hle c2 c1 b a) as [-> ->]; [done|lia|done..].
Qed.

Lemma div_half_even_exact k p : 0 < p -> div_half_even (k * p) p = k.
Proof.
  intros Hp. unfold div_half_even. rewrite Z.mod_mul, Z.div_mul by lia.
  by replace (2 * 0 <? p) with true by lia.
Qed.

(** Numerical equality with [k] millionths. *)
Definition is_millionths (d : Decimal) (k : Z) : Prop :=
  match d with
  | Finite n c e => decimal_compare n c e false k (- MAX_SCORE_DECIMAL_PLACES) = Eq
  | _ => False
  end.

(** The one representation of [k] millionths the function returns. *)
Definition canonical_score (k : Z) : Decimal :=
  if k =? 0 then Finite false 0 0 else decimal_normalize false k (- MAX_SCORE_DECIMAL_PLACES).

Lemma decimal_normalize_shape n c e : exists c' e', decimal_normalize n c e = Finite n c' e'.
Proof. unfold decimal_normalize. destruct (strip_zeros _ c e). eauto. Qed.

Lemma canonical_score_unique c e k :
  0 < c -> 0 < k -> is_millionths (Finite false c e) k ->
  decimal_normalize false c e = canonical_score k.
Proof.
  intros Hc Hk Heq. unfold canonical_score. replace (k =? 0) with false by lia.
  destruct (decimal_normalize_shape false c e) as (c1 & e1 & E1).
  destruct (decimal_normalize_shape false k (- MAX_SCORE_DECIMAL_PLACES)) as (c2 & e2 & E2).
  rewrite E1, E2. apply decimal_normalize_spec in E1 as (Hz1 & He1 & Hv1); [|done].
  apply decimal_normalize_spec in E2 as (Hz2 & He2 & Hv2); [|done].
  unfold is_millionths in Heq. unfold MAX_SCORE_DECIMAL_PLACES in *.
  set (m := Z.min e (-6)). rewrite (decimal_compare_units m) in Heq by lia.
  apply Z.compare_eq in Heq. unfold in_units, signed in Heq. rewrite Hv1, Hv2 in Heq.
  rewrite <- !Z.mul_assoc, <- !Z.pow_add_r in Heq by lia.
  apply stripped_unique in Heq as [-> ?]; [|done|done|lia..]. f_equal. lia.
Qed.

Lemma unit_score_range n c e :
  0 <= c ->
  bool_decide (decimal_compare n c e false 0 0 = Lt)
    || bool_decide (decimal_compare n c e false 1 0 = Gt) = false <->
  0 <= in_units (Z.min e (-6)) n c e <= 10 ^ (- Z.min e (-6)).
Proof.
  intros Hc. set (m := Z.min e (-6)).
  rewrite orb_false_iff, !bool_decide_eq_false, !(decimal_compare_units m) by lia.
  rewrite Z.compare_lt_iff, Z.compare_gt_iff.
  replace (in_units m false 0 0) with 0 by done.
  replace (in_units m false 1 0) with (10 ^ (- m)) by (unfold in_units; cbn [signed]; by rewrite Z.mul_1_l). lia.
Qed.

Lemma is_millionths_units n c e k :
  is_millionths (Finite n c e) k <->
  in_units (Z.min e (-6)) n c e = k * 10 ^ (-6 - Z.min e (-6)).
Proof.
  unfold is_millionths, MAX_SCORE_DECIMAL_PLACES.
  rewrite (decimal_compare_units (Z.min e (-6))), Z.compare_eq_iff by lia. done.
Qed.

(** A value of [k] millionths quantizes to the coefficient [k]. *)
Lemma quantize_millionths c e k :
  0 <= k <= 10 ^ 6 -> is_millionths (Finite false c e) k ->
  quantize false c e (- MAX_SCORE_DECIMAL_PLACES) = Some k.
Proof.
  intros Hk H. apply is_millionths_units in H. unfold quantize, in_units, signed in *.
  unfold MAX_SCORE_DECIMAL_PLACES, DECIMAL_PRECISION in *. change (- (6)) with (-6).
  replace (if _ <=? e then _ else _) with k; [by replace (k <? 10 ^ 28) with true by lia|].
  destruct (Z.leb_spec (-6) e).
  - rewrite Z.min_r, Z.sub_diag, Z.mul_1_r in H by lia. symmetry. exact H.
  - rewrite Z.min_l, Z.sub_diag, Z.mul_1_r in H by lia. subst c.
    by rewrite div_half_even_exact by (apply Z.pow_pos_nonneg; lia).
Qed.

Lemma unit_score_millionths c e q :
  0 <= in_units (Z.min e (-6)) false c e <= 10 ^ (- Z.min e (-6)) ->
  is_millionths (Finite false c e) q -> 0 <= q <= 10 ^ 6.
Proof.
  intros Hr Hm. apply is_millionths_units in Hm. rewrite Hm in Hr.
  replace (- Z.min e (-6)) with (6 + (-6 - Z.min e (-6))) in Hr by lia.
  rewrite (Z.pow_add_r 10 6) in Hr by lia.
  assert (0 < 10 ^ (-6 - Z.min e (-6))) by (apply Z.pow_pos_nonneg; lia). nia.
Qed.

Lemma decimal_compare_swap n1 c1 e1 n2 c2 e2 :
  decimal_compare n1 c1 e1 n2 c2 e2 = CompOpp (decimal_compare n2 c2 e2 n1 c1 e1).
Proof. unfold decimal_compare. rewrite Z.min_comm. apply Z.compare_antisym. Qed.

(** [normalize_unit_score] accepts exactly the decimals whose value is a
    whole number of millionths between zero and one, and returns for each value
    one representation, whatever digits and exponent spelled it; every other
    input, non-finite ones included, raises [DomainValidationError]. *)
Theorem normalize_unit_score_spec (d : Decimal) (Hd : decimal_ok d) :
  match normalize_unit_score d with
  | Ok r => exists k, 0 <= k <= 10 ^ 6 /\ is_millionths d k /\ r = canonical_score k
  | Err e => (exists message, e = DomainValidationError message) /\
             forall k, 0 <= k <= 10 ^ 6 -> ~ is_millionths d k
  end.
Proof.
  destruct d as [n c e| |]; [|split; [eexists; reflexivity|intros k _ []]..].
  unfold normalize_unit_score. simpl in Hd.
  destruct (bool_decide _ || bool_decide _) eqn:Er.
  { split; [eexists; reflexivity|]. intros k Hk Hm. apply not_false_iff_true in Er. apply Er.
    apply unit_score_range; [done|]. apply is_millionths_units in Hm as ->.
    assert (0 < 10 ^ (-6 - Z.min e (-6))) by (apply Z.pow_pos_nonneg; lia).
    split; [nia|]. replace (- Z.min e (-6)) with (6 + (-6 - Z.min e (-6))) by lia.
    rewrite (Z.pow_add_r 10 6) by lia. nia. }
  apply unit_score_range in Er; [|done]. cbn [raise_if mbind result_bind].
  destruct (decide (c = 0)) as [->|Hc].
  { assert (H0 : forall b, is_millionths (Finite b 0 e) 0) by (intros []; by apply is_millionths_units).
    change (quantize n 0 e) with (quantize false 0 e).
    rewrite (quantize_millionths 0 e 0 ltac:(lia) (H0 false)). cbn [from_option_or mbind result_bind].
    rewrite bool_decide_true by (by destruct n).
    exists 0. repeat split; (lia || apply H0). }
  assert (n = false) as ->.
  { destruct n; [|done]. unfold in_units, signed in Er.
    assert (0 < 10 ^ (e - Z.min e (-6))) by (apply Z.pow_pos_nonneg; lia). nia. }
  destruct (quantize false c e _) as [q|] eqn:Eq; cbn [from_option_or mbind result_bind].
  2:{ split; [eexists; reflexivity|]. intros k Hk Hm.
      by rewrite (quantize_millionths c e k Hk Hm) in Eq. }
  destruct (bool_decide _) eqn:Ec; cbn [negb raise_if mbind result_bind].
  2:{ split; [eexists; reflexivity|]. intros k Hk Hm. apply bool_decide_eq_false in Ec. apply Ec.
      rewrite (quantize_millionths c e k Hk Hm) in Eq. injection Eq as <-.
      by rewrite decimal_compare_swap, Hm. }
  apply bool_decide_eq_true in Ec. rewrite decimal_compare_swap in Ec.
  assert (Hm : is_millionths (Finite false c e) q).
  { unfold is_millionths. by destruct (decimal_compare false c e false q _). }
  pose proof (unit_score_millionths c e q Er Hm) as Hq.
  exists q. repeat split; try lia; [done|]. replace (c =? 0) with false by lia.
  apply canonical_score_unique; [lia| |done].
  destruct (decide (q = 0)) as [->|]; [|lia]. exfalso.
  apply is_millionths_units in Hm. unfold in_units, signed in Hm.
  assert (0 < 10 ^ (e - Z.min e (-6))) by (apply Z.pow_pos_nonneg; lia). nia.
Qed.

Lemma normalize_unit_score_spec_witness :
  exists k, 0 <= k <= 10 ^ 6 /\ is_millionths (Finite false 2500 (-4)) k /\
    Finite false 25 (-2) = canonical_score k.
Proof.
  apply (normalize_unit_score_spec (Finite false 2500 (-4)) ltac:(simpl; lia)).
Defined.
