(* ===== verification/CanonicalJson.v ===== *)
(** * CanonicalJson: the ScaleVault v1 normalization profile

    Models [domain/canonical_json.py].  Python objects live in a heap, because
    [normalize_json_value] tells cyclic containers from shared ones by object
    identity; the recursion is bounded by the profile's nesting depth.  The
    RFC 8785 serializer is the third-party package [rfc8785], an argument. *)

From stdpp Require Import base tactics option list gmap strings.
From Stdlib Require Import ZArith Lia Bool SpecFloat.
From S2P Require Import Prelude Identifiers Values.
Open Scope Z_scope.

(** ** Data *)

Abbreviation float := spec_float.
Abbreviation bytes := (list Z).

#[local] Unset Elimination Schemes.

(** [JsonValue]; an object keeps its insertion order. *)
Inductive JsonValue : Type :=
| JNull
| JBool (b : bool)
| JInt (n : Z)
| JFloat (f : float)
| JStr (s : pystr)
| JArray (items : list JsonValue)
| JObject (fields : list (pystr * JsonValue)).

#[local] Set Elimination Schemes.

#[export] Instance float_eq_dec : EqDecision spec_float.
Proof. solve_decision. Defined.
#[export] Instance JsonValue_eq_dec : EqDecision JsonValue.
Proof.
  unfold EqDecision. fix go 1. intros x y.
  destruct x as [| | | | |l|f], y as [| | | | |l'|f'];
    try (right; discriminate); try (by left).
  - destruct (decide (b = b0)); [left|right]; congruence.
  - destruct (decide (n = n0)); [left|right]; congruence.
  - destruct (decide (f = f0)); [left|right]; congruence.
  - destruct (decide (s = s0)); [left|right]; congruence.
  - destruct (@list_eq_dec _ go l l'); [left|right]; congruence.
  - destruct (@list_eq_dec _ (@prod_eq_dec _ _ _ go) f f'); [left|right]; congruence.
Defined.

(** Values [normalize_json_value] distinguishes.  A [PStrEnum] member is an
    instance of [str] too; [PRef] is a container by identity; [PUnsupported]
    is an object of any other type, [bytes] included. *)
Inductive pyval : Type :=
| PNone
| PBool (b : bool)
| PUUID (u : UUID)
| PDatetime (d : datetime)
| PEnum (member_value : pyval)
| PStrEnum (member_value : pystr)
| PStr (s : pystr)
| PInt (n : Z)
| PDecimal (d : Decimal)
| PFloat (f : float)
| PRef (identity : Z)
| PUnsupported.

Inductive pycontainer : Type :=
| CMapping (items : list (pyval * pyval))
| CSequence (items : list pyval).

Abbreviation pyheap := (gmap Z pycontainer).

(** ** Binary64 conversions of Python's [float] *)

Definition FLOAT_PREC : Z := 53.
Definition FLOAT_EMAX : Z := 1024.

Definition float_isfinite (f : float) : bool :=
  match f with S754_zero _ | S754_finite _ _ _ => true | _ => false end.

(** The correctly rounded quotient of two positive integers. *)
Definition float_of_ratio (negative : bool) (num den : positive) : float :=
  let '(q, e, l) := SFdiv_core_binary FLOAT_PREC FLOAT_EMAX (Zpos num) 0 (Zpos den) 0 in
  binary_round_aux FLOAT_PREC FLOAT_EMAX negative q e l.

(** [float(Decimal)] for a finite value. *)
Definition float_of_decimal (negative : bool) (c e : Z) : float :=
  match c with
  | Zpos p =>
    if 0 <=? e then float_of_ratio negative (Z.to_pos (Zpos p * 10 ^ e)) 1
    else float_of_ratio negative p (Z.to_pos (10 ^ (- e)))
  | _ => S754_zero negative
  end.

(** The decimals of [p] significant digits next to [m * 2 ^ e], nearest first,
    as coefficient and exponent. *)
Definition digit_candidates (p : Z) (m : positive) (e : Z) : list (Z * Z) :=
  let num := if 0 <=? e then Zpos m * 2 ^ e else Zpos m in
  let den := if 0 <=? e then 1 else 2 ^ (- e) in
  (* decimal exponent of the value, from below *)
  let guess := (Z.log2 num - Z.log2 den) * 30103 / 100000 - 1 in
  let ten_le k := if 0 <=? k then den * 10 ^ k <=? num else den <=? num * 10 ^ (- k) in
  let mag := if ten_le (guess + 2) then guess + 2 else if ten_le (guess + 1) then guess + 1 else guess in
  let k := mag - (p - 1) in
  let a := if 0 <=? k then num else num * 10 ^ (- k) in
  let b := if 0 <=? k then den * 10 ^ k else den in
  let q := a / b in
  if 2 * (a mod b) <=? b then [(q, k); (q + 1, k)] else [(q + 1, k); (q, k)].

Definition float_eqb (f g : float) : bool := SFeqb f g.

(** [Decimal(repr(f))] for a finite float: the shortest digits that read back. *)
Fixpoint shortest_digits (fuel : nat) (p : Z) (negative : bool) (m : positive) (e : Z) : Z * Z :=
  match fuel with
  | O => (0, 0)
  | S fuel' =>
    match List.find (fun '(c, k) => float_eqb (float_of_decimal negative c k)
                                              (S754_finite negative m e))
                    (digit_candidates p m e) with
    | Some ck => ck
    | None => shortest_digits fuel' (p + 1) negative m e
    end
  end.

Definition decimal_of_repr (f : float) : option Decimal :=
  match f with
  | S754_zero n => Some (Finite n 0 0)
  | S754_finite n m e => let '(c, k) := shortest_digits 17 1 n m e in Some (Finite n c k)
  | _ => None
  end.

(** ** Normalization *)

Definition MAX_CANONICAL_JSON_DEPTH : nat := 64.
Definition MAX_IJSON_INTEGER : Z := Z.shiftl 1 53 - 1.

Definition is_surrogate (character : Z) : bool :=
  (0xD800 <=? character) && (character <=? 0xDFFF).

Definition validate_string (value : pystr) : result pystr :=
  raise_if (existsb is_surrogate value)
           (CanonicalJsonError "JSON strings cannot contain lone surrogate code points");;
  Ok value.

Definition normalize_integer (value : Z) : result Z :=
  raise_if (negb ((- MAX_IJSON_INTEGER <=? value) && (value <=? MAX_IJSON_INTEGER)))
           (CanonicalJsonError "integer is outside the I-JSON interoperable range");;
  Ok value.

(** [value.to_integral_value()]: coefficient and exponent, rounding half to
    even; a value without fraction digits keeps its exponent. *)
Definition to_integral (c e : Z) : Z * Z :=
  if 0 <=? e then (c, e) else (div_half_even c (10 ^ (- e)), 0).

(** The number of decimal digits of a positive coefficient. *)
Definition coefficient_digits (c : Z) : Z :=
  let guess := Z.log2 c * 30103 / 100000 in
  if 10 ^ (guess + 1) <=? c then guess + 2
  else if 10 ^ guess <=? c then guess + 1 else guess.

(** The default decimal context: precision 28 and least exponent -999999. *)
Definition DECIMAL_EMIN : Z := -999999.
Definition DECIMAL_ETINY : Z := DECIMAL_EMIN - (DECIMAL_PRECISION - 1).

(** Round a coefficient to the context, as [normalize()] does first: a
    subnormal number is rounded at the least exponent, any other one to the
    precision. *)
Definition round_precision (c e : Z) : Z * Z :=
  let digits := coefficient_digits c in
  if (e + digits - 1 <? DECIMAL_EMIN) && (e <? DECIMAL_ETINY)
  then (div_half_even c (10 ^ (DECIMAL_ETINY - e)), DECIMAL_ETINY)
  else if digits <=? DECIMAL_PRECISION then (c, e)
  else
    let drop := digits - DECIMAL_PRECISION in
    (div_half_even c (10 ^ drop), e + drop).

(** The digits for which the interpreter can allocate an integer. *)
Class DecimalMemory : Type := decimal_memory : Z.

(** No more digits than this fit in the 2^47 bytes of a 64-bit user address
    space, at 19 digits a word. *)
Definition ADDRESS_SPACE_DIGITS : Z := 19 * 2 ^ 44.

(** [int(Decimal)] writes the zeros of a positive exponent out. *)
Definition decimal_too_large (memory c e : Z) : bool :=
  negb (c =? 0) && (0 <? e) && (memory <? coefficient_digits c + e).

(** [int(integral)] of an integral value: [MemoryError] when its digits cannot
    be allocated. *)
Definition decimal_int `{DecimalMemory} (negative : bool) (c e : Z) : result Z :=
  raise_if (decimal_too_large decimal_memory c e) MemoryError;;
  Ok (if c =? 0 then 0 else signed negative (c * 10 ^ e)).

Definition normalize_decimal `{DecimalMemory} (value : Decimal) : result JsonValue :=
  match value with
  | Infinity _ | NaN => Err (CanonicalJsonError "JSON numbers must be finite")
  | Finite n c e =>
    let '(ci, ei) := to_integral c e in
    if bool_decide (decimal_compare n c e n ci ei = Eq)
    then integral ← decimal_int n ci ei; i ← normalize_integer integral; Ok (JInt i)
    else
      let converted := float_of_decimal n c e in
      let '(c', e') := round_precision c e in
      raise_if (negb (float_isfinite converted
                      && match decimal_of_repr converted with
                         | Some (Finite n1 c1 e1) =>
                           bool_decide (decimal_compare n1 c1 e1 n c' e' = Eq)
                         | _ => false
                         end))
               (CanonicalJsonError
                  "decimal cannot be represented as an interoperable JSON number");;
      Ok (JFloat converted)
  end.

(** [d[key] = value] on an insertion-ordered dictionary. *)
Fixpoint dict_set {V} (key : pystr) (value : V) (d : list (pystr * V)) : list (pystr * V) :=
  match d with
  | [] => [(key, value)]
  | (k, v) :: rest =>
    if bool_decide (k = key) then (k, value) :: rest else (k, v) :: dict_set key value rest
  end.

(** [isinstance(key, str)] *)
Definition as_str (key : pyval) : option pystr :=
  match key with PStr s | PStrEnum s => Some s | _ => None end.

(** The value of an enumeration member, looked through at the same depth. *)
Fixpoint unwrap_enum (item : pyval) : pyval :=
  match item with
  | PEnum v => unwrap_enum v
  | PStrEnum s => PStr s
  | _ => item
  end.

(** [normalize(item, depth)]; [fuel] is [max_depth + 1 - depth], so that the
    exhausted case is the code's own depth check.  An assignment
    [normalized[validate(key)] = normalize(child)] evaluates the child first. *)
Fixpoint normalize `{DecimalMemory} (h : pyheap) (fuel : nat) (active : gset Z) (item : pyval)
    : result JsonValue :=
  match fuel with
  | O => Err (CanonicalJsonError "JSON value exceeds the maximum nesting depth")
  | S fuel' =>
    match unwrap_enum item with
    | PNone => Ok JNull
    | PBool b => Ok (JBool b)
    | PUUID u => Ok (JStr (uuid_str u))
    | PDatetime d => s ← format_utc_datetime d; Ok (JStr s)
    | PStr s => s' ← validate_string s; Ok (JStr s')
    | PInt n => n' ← normalize_integer n; Ok (JInt n')
    | PDecimal d => normalize_decimal d
    | PFloat f =>
      raise_if (negb (float_isfinite f)) (CanonicalJsonError "JSON numbers must be finite");;
      Ok (JFloat f)
    | PRef identity =>
      match h !! identity with
      | Some (CMapping items) =>
        raise_if (bool_decide (identity ∈ active))
                 (CanonicalJsonError "cyclic objects are not valid JSON");;
        fields ← foldM (fun normalized '(key, child) =>
                          name ← from_option_or (as_str key)
                                   (CanonicalJsonError "JSON object names must be strings");
                          v ← normalize h fuel' ({[identity]} ∪ active) child;
                          k ← validate_string name;
                          Ok (dict_set k v normalized)) [] items;
        Ok (JObject fields)
      | Some (CSequence items) =>
        raise_if (bool_decide (identity ∈ active))
                 (CanonicalJsonError "cyclic arrays are not valid JSON");;
        elements ← mapR (normalize h fuel' ({[identity]} ∪ active)) items;
        Ok (JArray elements)
      | None => Err (CanonicalJsonError "value is not supported by the canonical JSON profile")
      end
    | _ => Err (CanonicalJsonError "value is not supported by the canonical JSON profile")
    end
  end.

Definition normalize_json_value `{DecimalMemory} (h : pyheap) (max_depth : nat) (value : pyval)
    : result JsonValue :=
  normalize h (S max_depth) ∅ value.

(** ** Serialization *)

(** The third-party serializer: [None] is its [CanonicalizationError]. *)
Class Rfc8785 : Type := rfc8785_dumps : JsonValue -> option bytes.

Definition canonical_json_bytes `{DecimalMemory, Rfc8785} (h : pyheap) (value : pyval) : result bytes :=
  normalized ← normalize_json_value h MAX_CANONICAL_JSON_DEPTH value;
  from_option_or (rfc8785_dumps normalized)
                 (CanonicalJsonError "RFC 8785 canonicalization failed").

(** ** The profile's output language *)

Definition string_ok (s : pystr) : Prop := Forall (fun c => is_surrogate c = false) s.

(** Values the profile admits at a remaining nesting allowance [fuel]. *)
Fixpoint json_ok (fuel : nat) (v : JsonValue) : Prop :=
  match fuel with
  | O => False
  | S fuel' =>
    match v with
    | JNull | JBool _ => True
    | JInt n => - MAX_IJSON_INTEGER <= n <= MAX_IJSON_INTEGER
    | JFloat f => float_isfinite f = true
    | JStr s => string_ok s
    | JArray l => Forall (json_ok fuel') l
    | JObject l => Forall (fun kv => string_ok kv.1 /\ json_ok fuel' kv.2) l /\ NoDup l.*1
    end
  end.

(** The same test, executable. *)
Fixpoint json_okb (fuel : nat) (v : JsonValue) : bool :=
  match fuel with
  | O => false
  | S fuel' =>
    match v with
    | JNull | JBool _ => true
    | JInt n => (- MAX_IJSON_INTEGER <=? n) && (n <=? MAX_IJSON_INTEGER)
    | JFloat f => float_isfinite f
    | JStr s => negb (existsb is_surrogate s)
    | JArray l => forallb (json_okb fuel') l
    | JObject l =>
      forallb (fun kv => negb (existsb is_surrogate kv.1) && json_okb fuel' kv.2) l && nodupb l.*1
    end
  end.

(** [normalize_json_value] on plain JSON data, which has no identities: the
    value itself when it is inside the profile (theorem [normalize_complete]),
    an error otherwise. *)
Definition normalize_plain (max_depth : nat) (v : JsonValue) : result JsonValue :=
  raise_if (negb (json_okb (S max_depth) v))
           (CanonicalJsonError "value is outside the canonical JSON profile");;
  Ok v.

Definition canonical_plain_bytes `{Rfc8785} (v : JsonValue) : result bytes :=
  normalized ← normalize_plain MAX_CANONICAL_JSON_DEPTH v;
  from_option_or (rfc8785_dumps normalized)
                 (CanonicalJsonError "RFC 8785 canonicalization failed").

(** The child relation of the object graph. *)
Inductive child (h : pyheap) : pyval -> pyval -> Prop :=
| child_value p i items k v :
    unwrap_enum p = PRef i -> h !! i = Some (CMapping items) -> (k, v) ∈ items -> child h p v
| child_element p i items v :
    unwrap_enum p = PRef i -> h !! i = Some (CSequence items) -> v ∈ items -> child h p v.

(** ** Lemmas *)

Lemma validate_string_Ok s s' : validate_string s = Ok s' <-> s' = s /\ string_ok s.
Proof.
  unfold validate_string, string_ok. rewrite bind_Ok.
  setoid_rewrite raise_if_Ok. split.
  - intros (u & He & [= <-]). split; [done|]. apply Forall_forall. intros c Hc.
    destruct (is_surrogate c) eqn:E; [|done].
    rewrite <- He. symmetry. apply existsb_exists. exists c. by rewrite <- list_elem_of_In.
  - intros [-> Hs]. exists tt. split; [|done]. apply not_true_iff_false. intros He.
    apply existsb_exists in He as (c & Hc & Hsur). apply list_elem_of_In in Hc.
    rewrite Forall_forall in Hs. specialize (Hs c Hc). congruence.
Qed.

Lemma surrogate_free s : negb (existsb is_surrogate s) = true <-> string_ok s.
Proof.
  pose proof (validate_string_Ok s s) as H. unfold validate_string, raise_if in H.
  destruct (existsb is_surrogate s); simpl in *; [|tauto]. split; [done|].
  intros Hs. destruct H as [_ H]. by specialize (H (conj eq_refl Hs)).
Qed.

Lemma json_okb_spec fuel v : json_okb fuel v = true <-> json_ok fuel v.
Proof.
  revert v. induction fuel as [|fuel IH]; intros v; [done|]. destruct v; cbn [json_okb json_ok].
  - done.
  - done.
  - by rewrite andb_true_iff, !Z.leb_le.
  - done.
  - apply surrogate_free.
  - rewrite forallb_forall, Forall_forall. setoid_rewrite <- list_elem_of_In.
    split; intros H x Hx; by apply IH, H.
  - rewrite andb_true_iff, nodupb_NoDup, forallb_forall, Forall_forall.
    setoid_rewrite <- list_elem_of_In. setoid_rewrite andb_true_iff.
    setoid_rewrite surrogate_free. by setoid_rewrite IH.
Qed.

Lemma normalize_plain_Ok max_depth v w :
  normalize_plain max_depth v = Ok w <-> w = v /\ json_ok (S max_depth) v.
Proof.
  unfold normalize_plain. rewrite <- json_okb_spec.
  destruct (json_okb (S max_depth) v); simpl; naive_solver.
Qed.

Lemma normalize_integer_Ok n n' :
  normalize_integer n = Ok n' <-> n' = n /\ - MAX_IJSON_INTEGER <= n <= MAX_IJSON_INTEGER.
Proof.
  unfold normalize_integer, raise_if.
  destruct (Z.leb_spec (- MAX_IJSON_INTEGER) n), (Z.leb_spec n MAX_IJSON_INTEGER); simpl;
    (split; [intros [= <-]; lia | intros [-> ?]; first [done | lia]]).
Qed.

Lemma normalize_decimal_ok `{DecimalMemory} fuel d v : normalize_decimal d = Ok v -> json_ok (S fuel) v.
Proof.
  unfold normalize_decimal. destruct d as [n c e| |]; try done. destruct (to_integral c e) as [ci ei].
  case_match.
  - intros Hr. inv_ok. match goal with H : normalize_integer _ = _ |- _ =>
      apply normalize_integer_Ok in H as [-> ?] end. simpl. lia.
  - destruct (round_precision c e). intros Hr. inv_ok. done.
Qed.

Section DictSet.
Context {V : Type}.
Implicit Types d : list (pystr * V).

Lemma dict_set_keys k v d :
  (dict_set k v d).*1 = if bool_decide (k ∈ d.*1) then d.*1 else d.*1 ++ [k].
Proof.
  induction d as [|[k' v'] d IH]; [done|]. cbn [dict_set].
  destruct (decide (k' = k)) as [->|Hne].
  - rewrite (bool_decide_true (k = k)) by done. rewrite !fmap_cons. cbn [fst].
    rewrite bool_decide_true; [done|]. apply list_elem_of_here.
  - rewrite (bool_decide_false (k' = k)) by done. rewrite !fmap_cons, IH. cbn [fst].
    destruct (decide (k ∈ d.*1)).
    + rewrite !bool_decide_true by set_solver. done.
    + rewrite !bool_decide_false by set_solver. done.
Qed.

Lemma dict_set_NoDup k v d : NoDup d.*1 -> NoDup (dict_set k v d).*1.
Proof.
  intros Hd. rewrite dict_set_keys. case_bool_decide; [done|].
  apply NoDup_app. split; [done|]. split; [set_solver|]. apply NoDup_singleton.
Qed.

Lemma dict_set_Forall (P : pystr * V -> Prop) k v d :
  P (k, v) -> Forall P d -> Forall P (dict_set k v d).
Proof.
  intros Hkv. induction 1 as [|[k' v'] d' Hx Hd IH]; simpl; [by constructor|].
  case_bool_decide as Heq; simpl; constructor; [by subst | done | done | done].
Qed.

Lemma dict_set_fresh k v d : k ∉ d.*1 -> dict_set k v d = d ++ [(k, v)].
Proof.
  induction d as [|[k' v'] d IH]; simpl; [done|]. rewrite not_elem_of_cons. intros [Hne Hin].
  rewrite bool_decide_false by done. by rewrite IH.
Qed.
End DictSet.

Lemma uuid_str_ok u : string_ok (uuid_str u).
Proof.
  assert (Hd : forall n v, string_ok (hex_digits n v)).
  { induction n as [|n IH]; intros v; simpl; [constructor|].
    apply Forall_app. split; [apply IH|]. constructor; [|constructor].
    unfold hex_digit, is_surrogate. pose proof (Z.mod_pos_bound v 16 ltac:(lia)).
    case_match; apply andb_false_iff; left; apply Z.leb_gt; lia. }
  unfold uuid_str, string_ok. rewrite !Forall_app. repeat split; try apply Hd; by repeat constructor.
Qed.

Lemma format_utc_instant_ok t : string_ok (format_utc_instant t).
Proof.
  assert (Hd : forall n v, string_ok (dec_digits n v)).
  { induction n as [|n IH]; intros v; simpl; [constructor|].
    apply Forall_app. split; [apply IH|]. constructor; [|constructor].
    unfold is_surrogate. pose proof (Z.mod_pos_bound v 10 ltac:(lia)).
    apply andb_false_iff; left; apply Z.leb_gt; lia. }
  unfold format_utc_instant. destruct (civil_of_days _) as [[y m] d]. unfold string_ok.
  rewrite !Forall_app. repeat split; try apply Hd; by repeat constructor.
Qed.
#[export] Hint Resolve uuid_str_ok format_utc_instant_ok : scalevault.

(** A Python object that already is plain JSON data: the parsed form of [v]. *)
Inductive represents (h : pyheap) : pyval -> JsonValue -> Prop :=
| rep_none : represents h PNone JNull
| rep_bool b : represents h (PBool b) (JBool b)
| rep_int n : represents h (PInt n) (JInt n)
| rep_float f : represents h (PFloat f) (JFloat f)
| rep_str s : represents h (PStr s) (JStr s)
| rep_array i items vs :
    h !! i = Some (CSequence items) -> Forall2 (represents h) items vs ->
    represents h (PRef i) (JArray vs)
| rep_object i items fields :
    h !! i = Some (CMapping items) ->
    Forall2 (fun kp kv => kp.1 = PStr kv.1 /\ represents h kp.2 kv.2) items fields ->
    represents h (PRef i) (JObject fields).

(** A heap without cycles: containers are ranked above their children. *)
Definition ranked (h : pyheap) (rank : Z -> nat) : Prop :=
  forall i j v, child h (PRef i) v -> unwrap_enum v = PRef j -> (rank j < rank i)%nat.

Definition above (rank : Z -> nat) (active : gset Z) (p : pyval) : Prop :=
  forall i, unwrap_enum p = PRef i -> forall a, a ∈ active -> (rank i < rank a)%nat.

Lemma above_child h rank active i v :
  ranked h rank -> above rank active (PRef i) -> child h (PRef i) v ->
  above rank ({[i]} ∪ active) v.
Proof.
  intros Hr Ha Hc j Hj a. rewrite elem_of_union, elem_of_singleton. intros [->|Hin].
  - by eapply Hr.
  - pose proof (Hr i j v Hc Hj). pose proof (Ha i eq_refl a Hin). lia.
Qed.

Section NormalizeFacts.
Context `{DecimalMemory} (h : pyheap).

Definition fields_ok (fuel : nat) (d : list (pystr * JsonValue)) : Prop :=
  Forall (fun kv => string_ok kv.1 /\ json_ok fuel kv.2) d /\ NoDup d.*1.

Lemma normalize_fields_ok fuel active items d fields :
  (forall p v, normalize h fuel active p = Ok v -> json_ok fuel v) ->
  fields_ok fuel d ->
  foldM (fun normalized '(key, ch) =>
           name ← from_option_or (as_str key) (CanonicalJsonError "JSON object names must be strings");
           v ← normalize h fuel active ch;
           k ← validate_string name;
           Ok (dict_set k v normalized)) d items = Ok fields ->
  fields_ok fuel fields.
Proof.
  intros Hnorm. apply (foldM_invariant _ (fields_ok fuel)). intros acc [key ch] acc' _ [Hacc Hnd] Hstep. inv_ok.
  match goal with H : validate_string _ = Ok _ |- _ => apply validate_string_Ok in H as [-> Hs] end.
  split; [apply dict_set_Forall; [|done] | by apply dict_set_NoDup]. simpl. eauto.
Qed.

Lemma normalize_json_ok fuel active p v : normalize h fuel active p = Ok v -> json_ok fuel v.
Proof.
  revert active p v. induction fuel as [|fuel IH]; intros active p v Hrun; [done|].
  cbn [normalize] in Hrun.
  destruct (unwrap_enum p) as [|b|u|d| | |s|n|d|f|i|]; try (by inv_ok).
  - inv_ok. apply uuid_str_ok.
  - unfold format_utc_datetime in Hrun. inv_ok. apply format_utc_instant_ok.
  - inv_ok. match goal with H : validate_string _ = Ok _ |- _ => apply validate_string_Ok in H as [-> Hs] end. done.
  - inv_ok. match goal with H : normalize_integer _ = Ok _ |- _ => apply normalize_integer_Ok in H as [-> Hs] end. simpl. lia.
  - by eapply normalize_decimal_ok.
  - destruct (h !! i) as [[items|items]|]; [| |done]; apply bind_Ok in Hrun as ([] & _ & Hrun);
      apply bind_Ok in Hrun as (l & Hl & [= <-]); cbn [json_ok].
    + eapply normalize_fields_ok; [intros; by eapply IH | | exact Hl]. by repeat constructor.
    + apply mapR_Forall2 in Hl. clear -Hl IH. induction Hl; constructor; eauto.
Qed.

(** Every child of a successfully normalized container was normalized with the
    container recorded as active. *)
Lemma normalize_child fuel active p q i v :
  normalize h fuel active p = Ok v -> unwrap_enum p = PRef i -> child h p q ->
  i ∉ active /\ exists fuel' w, normalize h fuel' ({[i]} ∪ active) q = Ok w.
Proof.
  destruct fuel as [|fuel]; [done|]. cbn [normalize]. intros Hrun Hi Hc. rewrite Hi in Hrun.
  inversion Hc as [? j items k ? Hj Hlook Hin|? j items ? Hj Hlook Hin]; subst;
    rewrite Hi in Hj; injection Hj as <-; rewrite Hlook in Hrun;
    apply bind_Ok in Hrun as ([] & Ha & Hrun); apply raise_if_Ok, bool_decide_eq_false in Ha;
    apply bind_Ok in Hrun as (l & Hl & _); (split; [done|]).
  - apply list_elem_of_split in Hin as (l1 & l2 & ->).
    apply foldM_split in Hl as (acc & acc' & _ & Hstep & _). inv_ok. eauto.
  - apply mapR_Forall2 in Hl. apply list_elem_of_lookup in Hin as (n & Hn).
    destruct (Forall2_lookup_l _ _ _ _ _ Hl Hn) as (w & _ & Hw). eauto.
Qed.

Lemma normalize_path fuel active p q v :
  normalize h fuel active p = Ok v -> tc (child h) p q ->
  exists fuel' active' w i, unwrap_enum p = PRef i /\ {[i]} ∪ active ⊆ active' /\
    normalize h fuel' active' q = Ok w.
Proof.
  intros Hrun Hpath. revert fuel active v Hrun.
  induction Hpath as [p q Hc|p r q Hc Hpath IH]; intros fuel active v Hrun.
  - assert (exists i, unwrap_enum p = PRef i) as [i Hi] by (inversion Hc; eauto).
    destruct (normalize_child _ _ _ _ _ _ Hrun Hi Hc) as (_ & f & w & Hw).
    exists f, ({[i]} ∪ active), w, i. auto.
  - assert (exists i, unwrap_enum p = PRef i) as [i Hi] by (inversion Hc; eauto).
    destruct (normalize_child _ _ _ _ _ _ Hrun Hi Hc) as (_ & f & w & Hw).
    destruct (IH _ _ _ Hw) as (f' & a' & w' & j & Hj & Hsub & Hq).
    exists f', a', w', i. split; [done|]. split; [set_solver|done].
Qed.

Lemma normalize_fields_complete fuel active items fields acc :
  Forall2 (fun kp kv => kp.1 = PStr kv.1 /\ normalize h fuel active kp.2 = Ok kv.2) items fields ->
  Forall (fun kv : pystr * JsonValue => string_ok kv.1) fields -> NoDup (acc ++ fields).*1 ->
  foldM (fun normalized '(key, ch) =>
           name ← from_option_or (as_str key) (CanonicalJsonError "JSON object names must be strings");
           v ← normalize h fuel active ch;
           k ← validate_string name;
           Ok (dict_set k v normalized)) acc items = Ok (acc ++ fields).
Proof.
  intros Hall. revert acc. induction Hall as [|[key ch] [k v] items fields [Hk Hv] Hall IH];
    intros acc Hok Hnd; simpl in *; [by rewrite app_nil_r|].
  inversion Hok as [|? ? Hs Hok']; subst. cbn [as_str from_option_or mbind result_bind].
  rewrite Hv. cbn [mbind result_bind].
  replace (validate_string k) with (Ok k) by (symmetry; by apply validate_string_Ok).
  cbn [mbind result_bind]. rewrite dict_set_fresh.
  - rewrite IH; [by rewrite <- app_assoc | done | by rewrite <- app_assoc].
  - rewrite fmap_app, fmap_cons in Hnd. apply NoDup_app in Hnd as (_ & Hd & _).
    intros Hin. eapply Hd; [exact Hin|]. apply list_elem_of_here.
Qed.
End NormalizeFacts.

(** ** Properties *)

(** C38: whatever object graph is given, a normalized value is inside the
    profile: nesting at most [max_depth], no lone surrogate in any string or
    member name, integers in the I-JSON range, finite numbers, unique names. *)
Theorem normalize_json_value_in_profile `{DecimalMemory} (h : pyheap) (max_depth : nat) (value : pyval)
    (v : JsonValue) :
  normalize_json_value h max_depth value = Ok v -> json_ok (S max_depth) v.
Proof. apply normalize_json_ok. Qed.

#[local] Instance sample_memory : DecimalMemory := 1000000.

Lemma normalize_json_value_in_profile_witness :
  json_ok 3 (JObject [(py "k", JArray [JInt 7])]).
Proof.
  apply (normalize_json_value_in_profile
           {[1 := CMapping [(PStr (py "k"), PRef 2)]; 2 := CSequence [PInt 7]]} 2 (PRef 1)).
  vm_compute. reflexivity.
Defined.

(** An object graph with a cycle through the given value is never
    serialized, whatever the depth allowance. *)
Theorem normalize_rejects_cycles `{DecimalMemory} (h : pyheap) (max_depth : nat) (value : pyval) :
  tc (child h) value value -> is_ok (normalize_json_value h max_depth value) = false.
Proof.
  intros Hcycle. unfold normalize_json_value.
  destruct (normalize h (S max_depth) ∅ value) as [v|] eqn:Hrun; [exfalso|done].
  destruct (normalize_path _ _ _ _ _ _ Hrun Hcycle) as (f & a & w & i & Hi & Hsub & Hw).
  assert (exists q, child h value q) as [q Hq] by (inversion Hcycle; eauto).
  destruct (normalize_child _ _ _ _ _ _ _ Hw Hi Hq) as (Hni & _). set_solver.
Qed.

Lemma normalize_rejects_cycles_witness :
  is_ok (normalize_json_value {[1 := CSequence [PInt 0; PRef 1]]} 64 (PRef 1)) = false.
Proof.
  apply normalize_rejects_cycles. apply tc_once.
  apply (child_element _ _ 1 [PInt 0; PRef 1]); [done | vm_compute; done |]. right. left.
Defined.

(** plain JSON data inside the profile normalizes to itself, so
    normalization is idempotent and never alters an already canonical value. *)
Theorem normalize_complete `{DecimalMemory} (h : pyheap) (rank : Z -> nat) (max_depth : nat) (value : pyval)
    (v : JsonValue) :
  ranked h rank -> represents h value v -> json_ok (S max_depth) v ->
  normalize_json_value h max_depth value = Ok v.
Proof.
  intros Hr. unfold normalize_json_value.
  assert (Ha : above rank ∅ value) by (intros i _ a Hin; set_solver).
  revert Ha. generalize (∅ : gset Z) as active. generalize (S max_depth) as fuel. clear max_depth.
  intros fuel. revert value v. induction fuel as [|fuel IH]; intros p v active Ha Hrep Hok; [done|].
  cbn [normalize]. destruct Hrep as [|b|n|f|s|i items vs Hlook Hall|i items fields Hlook Hall];
    cbn [unwrap_enum]; cbn [json_ok] in Hok.
  - done.
  - done.
  - by rewrite (proj2 (normalize_integer_Ok n n) (conj eq_refl Hok)).
  - by rewrite Hok.
  - by rewrite (proj2 (validate_string_Ok s s) (conj eq_refl Hok)).
  - rewrite Hlook, bool_decide_false by (intros Hin; specialize (Ha i eq_refl i Hin); lia).
    cbn [raise_if mbind result_bind].
    rewrite (proj2 (mapR_Forall2 _ items vs)); [done|].
    apply Forall2_same_length_lookup_2; [by eapply Forall2_length|].
    intros n p w Hp Hw. apply IH.
    + eapply above_child; [done..|]. eapply (child_element _ _ i items); [done..|].
      by eapply list_elem_of_lookup_2.
    + by eapply Forall2_lookup_lr.
    + by eapply Forall_lookup_1 in Hok.
  - destruct Hok as [Hf Hnd].
    rewrite Hlook, bool_decide_false by (intros Hin; specialize (Ha i eq_refl i Hin); lia).
    cbn [raise_if mbind result_bind].
    rewrite (normalize_fields_complete h fuel ({[i]} ∪ active) items fields []); [done| | |done].
    + apply Forall2_same_length_lookup_2; [by eapply Forall2_length|].
      intros n [key ch] [k w] Hp Hw.
      destruct (Forall2_lookup_lr _ _ _ _ _ _ Hall Hp Hw) as [Hk Hrep]. split; [done|].
      apply IH; [|done|by apply (Forall_lookup_1 _ _ _ _ Hf) in Hw as []].
      eapply above_child; [done..|]. eapply (child_value _ _ i items key); [done..|].
      by eapply list_elem_of_lookup_2.
    + eapply Forall_impl; [exact Hf|]. by intros ? [].
Qed.

Lemma normalize_complete_witness :
  normalize_json_value {[1 := CMapping [(PStr (py "k"), PRef 2)]; 2 := CSequence [PInt 7]]} 2 (PRef 1)
  = Ok (JObject [(py "k", JArray [JInt 7])]).
Proof.
  apply (normalize_complete _ (fun i => Z.to_nat (2 - i))).
  - intros i j v Hc Hj.
    inversion Hc as [p i' items k ? Hp Hl Hin|p i' items ? Hp Hl Hin]; simplify_eq/=;
      apply lookup_insert_Some in Hl as [[? ?]|[? [? ?]%lookup_singleton_Some]]; simplify_eq.
    + apply list_elem_of_singleton in Hin as [= -> ->]. injection Hj as <-. vm_compute. lia.
    + by apply list_elem_of_singleton in Hin as ->.
  - apply (rep_object _ 1 [(PStr (py "k"), PRef 2)]); [vm_compute; done|].
    repeat constructor. apply (rep_array _ 2 [PInt 7]); [vm_compute; done|].
    repeat constructor.
  - split; [|apply NoDup_singleton]. constructor; [|constructor].
    split; [by repeat constructor|]. constructor; [|constructor]. vm_compute. split; discriminate.
Defined.
