(* ===== verification/Digest.v ===== *)
(** * Digest: SHA-256, hexadecimal and Base64

    The parts of Python's [hashlib], [binascii] and [base64] the event contract
    uses, executable: [sha256(b).hexdigest()], [b64encode] and
    [b64decode(validate=True)].  Bytes are integers in [0, 255]. *)

From stdpp Require Import base tactics option list strings.
From Stdlib Require Import ZArith Lia Bool.
From S2P Require Import Prelude Identifiers CanonicalJson.
Open Scope Z_scope.

(** ** SHA-256 *)

(** The round constants and the initial state are the first 32 fractional bits
    of the cube roots and square roots of the first primes. *)
Definition is_prime (n : Z) : bool :=
  forallb (fun d => negb (n mod d =? 0)) (Z.of_nat <$> seq 2 (Z.to_nat n - 2)).

Definition first_primes (count : nat) : list Z :=
  take count (List.filter is_prime (Z.of_nat <$> seq 2 320)).

(** The integer cube root, by setting bits from the highest. *)
Fixpoint cube_root_bits (bit : nat) (root n : Z) : Z :=
  let set := root + 2 ^ Z.of_nat bit in
  let root' := if set * set * set <=? n then set else root in
  match bit with O => root' | S bit' => cube_root_bits bit' root' n end.

Definition sha256_k : list Z :=
  Eval vm_compute in (fun p => cube_root_bits 35 0 (p * 2 ^ 96) mod 2 ^ 32) <$> first_primes 64.

Definition sha256_h0 : list Z :=
  Eval vm_compute in (fun p => Z.sqrt (p * 2 ^ 64) mod 2 ^ 32) <$> first_primes 8.

Definition u32 (x : Z) : Z := Z.land x 0xffffffff.
Definition rotr (n x : Z) : Z := Z.lor (Z.shiftr x n) (u32 (Z.shiftl x (32 - n))).

Definition sigma (a b c x : Z) : Z := Z.lxor (rotr a x) (Z.lxor (rotr b x) (rotr c x)).
Definition small_sigma (a b n x : Z) : Z := Z.lxor (rotr a x) (Z.lxor (rotr b x) (Z.shiftr x n)).

(** Big-endian bytes of a fixed width. *)
Fixpoint be_bytes (n : nat) (v : Z) : bytes :=
  match n with O => [] | S n' => be_bytes n' (v / 256) ++ [v mod 256] end.

Fixpoint words_of (b : bytes) : list Z :=
  match b with
  | x :: y :: z :: w :: rest =>
    (x * 16777216 + y * 65536 + z * 256 + w) :: words_of rest
  | _ => []
  end.

Definition sha256_pad (message : bytes) : bytes :=
  let n := Z.of_nat (length message) in
  message ++ [0x80] ++ replicate (Z.to_nat ((55 - n) mod 64)) 0 ++ be_bytes 8 (8 * n).

(** The message schedule, newest word first. *)
Fixpoint sha256_schedule (n : nat) (ws : list Z) : list Z :=
  match n with
  | O => ws
  | S n' =>
    let w i := nth i ws 0 in
    sha256_schedule n' (u32 (small_sigma 17 19 10 (w 1%nat) + w 6%nat
                             + small_sigma 7 18 3 (w 14%nat) + w 15%nat) :: ws)
  end.

Definition sha256_round (st : list Z) (kw : Z * Z) : list Z :=
  match st with
  | [a; b; c; d; e; f; g; h] =>
    let ch := Z.lxor (Z.land e f) (Z.land (Z.lxor e 0xffffffff) g) in
    let maj := Z.lxor (Z.land a b) (Z.lxor (Z.land a c) (Z.land b c)) in
    let t1 := h + sigma 6 11 25 e + ch + kw.1 + kw.2 in
    let t2 := sigma 2 13 22 a + maj in
    [u32 (t1 + t2); a; b; c; u32 (d + t1); e; f; g]
  | _ => st
  end.

Definition sha256_block (st : list Z) (block : list Z) : list Z :=
  let ws := rev (sha256_schedule 48 (rev block)) in
  zip_with (fun x y => u32 (x + y)) st (fold_left sha256_round (zip sha256_k ws) st).

Fixpoint sha256_blocks (fuel : nat) (st : list Z) (ws : list Z) : list Z :=
  match fuel, ws with
  | S fuel', _ :: _ => sha256_blocks fuel' (sha256_block st (take 16 ws)) (drop 16 ws)
  | _, _ => st
  end.

Definition sha256 (message : bytes) : bytes :=
  let ws := words_of (sha256_pad message) in
  mjoin (be_bytes 4 <$> sha256_blocks (length ws) sha256_h0 ws).

(** [digest.hex()] *)
Definition hex_of_bytes (b : bytes) : pystr := mjoin (hex_digits 2 <$> b).

Definition sha256_hex (message : bytes) : pystr := hex_of_bytes (sha256 message).

(** ** Base64 *)

Definition b64_char (v : Z) : Z :=
  if v <? 26 then 65 + v else if v <? 52 then 71 + v else if v <? 62 then v - 4
  else if v =? 62 then 43 else 47.

Definition b64_value (c : Z) : option Z :=
  if (65 <=? c) && (c <=? 90) then Some (c - 65)
  else if (97 <=? c) && (c <=? 122) then Some (c - 71)
  else if (48 <=? c) && (c <=? 57) then Some (c + 4)
  else if c =? 43 then Some 62 else if c =? 47 then Some 63 else None.

Fixpoint b64encode (b : bytes) : pystr :=
  match b with
  | [] => []
  | [x] => [b64_char (x / 4); b64_char (x mod 4 * 16); 61; 61]
  | [x; y] => [b64_char (x / 4); b64_char (x mod 4 * 16 + y / 16); b64_char (y mod 16 * 4); 61]
  | x :: y :: z :: rest =>
    b64_char (x / 4) :: b64_char (x mod 4 * 16 + y / 16)
    :: b64_char (y mod 16 * 4 + z / 64) :: b64_char (z mod 64) :: b64encode rest
  end.

(** [b64decode(s, validate=True)]: [None] is [binascii.Error].  Bits after the
    last byte are ignored, as in the library. *)
Fixpoint b64decode (s : pystr) : option bytes :=
  match s with
  | [] => Some []
  | a :: b :: c :: d :: rest =>
    va ← b64_value a; vb ← b64_value b;
    if d =? 61 then
      if negb (bool_decide (rest = [])) then None
      else if c =? 61 then Some [va * 4 + vb / 16]
      else vc ← b64_value c; Some [va * 4 + vb / 16; vb mod 16 * 16 + vc / 4]
    else
      vc ← b64_value c; vd ← b64_value d; tail ← b64decode rest;
      Some (va * 4 + vb / 16 :: vb mod 16 * 16 + vc / 4 :: vc mod 4 * 64 + vd :: tail)
  | _ => None
  end.

(** ** Lemmas *)

Definition is_byte (x : Z) : Prop := 0 <= x < 256.

Lemma b64_value_char v : 0 <= v < 64 -> b64_value (b64_char v) = Some v.
Proof.
  intros Hv. unfold b64_char.
  repeat case_match; rewrite ?Z.ltb_lt, ?Z.ltb_ge, ?Z.eqb_eq, ?Z.eqb_neq in *; unfold b64_value;
    repeat match goal with |- context [(?a <=? ?b)] => destruct (Z.leb_spec a b); try lia end;
    simpl; try (f_equal; lia); subst; try done.
Qed.

Lemma b64_char_not_pad v : 0 <= v < 64 -> b64_char v <> 61.
Proof.
  intros Hv. unfold b64_char.
  repeat case_match; rewrite ?Z.ltb_lt, ?Z.ltb_ge, ?Z.eqb_eq, ?Z.eqb_neq in *; lia.
Qed.

Lemma triple_ind (P : bytes -> Prop) :
  P [] -> (forall x, P [x]) -> (forall x y, P [x; y]) ->
  (forall x y z rest, P rest -> P (x :: y :: z :: rest)) -> forall b, P b.
Proof.
  intros H0 H1 H2 H3. fix IH 1. intros [|x [|y [|z rest]]]; [done..|].
  apply H3, IH.
Qed.

Lemma b64_roundtrip (b : bytes) : Forall is_byte b -> b64decode (b64encode b) = Some b.
Proof.
  induction b as [|x|x y|x y z rest IH] using triple_ind; [done| | |]; rewrite ?Forall_cons;
    unfold is_byte; intros Hb; cbn [b64encode b64decode].
  - destruct Hb as [Hx _]. rewrite !b64_value_char by (Z.div_mod_to_equations; lia). simpl.
    f_equal. f_equal. Z.div_mod_to_equations; lia.
  - destruct Hb as (Hx & Hy & _).
    rewrite !b64_value_char by (Z.div_mod_to_equations; lia). simpl.
    rewrite (proj2 (Z.eqb_neq _ _)) by (apply b64_char_not_pad; Z.div_mod_to_equations; lia).
    f_equal. f_equal; [|f_equal]; Z.div_mod_to_equations; lia.
  - destruct Hb as (Hx & Hy & Hz & Hr).
    rewrite !b64_value_char by (Z.div_mod_to_equations; lia). cbn [mbind option_bind].
    rewrite (proj2 (Z.eqb_neq _ _)) by (apply b64_char_not_pad; Z.div_mod_to_equations; lia).
    rewrite IH by done. simpl. f_equal. f_equal; [|f_equal; [|f_equal]]; Z.div_mod_to_equations; lia.
Qed.

Example sha256_abc :
  sha256_hex (py "abc") = py "ba7816bf8f01cfea414140de5dae2223b00361a396177a9cb410ff61f20015ad".
Proof. vm_compute. reflexivity. Qed.
