(* ===== verification/Text.v ===== *)
(** * Text: rendering and framing of keys

    The parts of Python's [str] and [bytes] that digests and lock keys are
    derived from: [str(int)], [",".join], [str.encode("utf-8")],
    [int.to_bytes] and length-framed concatenation, each with the lemma that
    makes the derivation unambiguous. *)

From stdpp Require Import base tactics option list strings.
From Stdlib Require Import ZArith Lia Bool.
From S2P Require Import Prelude Identifiers CanonicalJson Digest.
Open Scope Z_scope.

(** ** Integers *)

Fixpoint decimal_digits (fuel : nat) (n : Z) : pystr :=
  match fuel with
  | O => []
  | S f => if n <? 10 then [48 + n] else decimal_digits f (n / 10) ++ [48 + n mod 10]
  end.

(** [str(n)] of a non-negative integer. *)
Definition int_str (n : Z) : pystr := decimal_digits (S (Z.to_nat (Z.log2 n))) n.

Definition digits_value (s : pystr) : Z := fold_left (fun acc c => 10 * acc + (c - 48)) s 0.

Lemma digits_value_decimal fuel n : 0 <= n < 2 ^ Z.of_nat fuel -> digits_value (decimal_digits fuel n) = n.
Proof.
  unfold digits_value. revert n. induction fuel as [|f IH]; intros n Hn; [cbn in *; lia|]. cbn [decimal_digits].
  destruct (Z.ltb_spec n 10); [cbn; lia|]. rewrite fold_left_app, IH; [cbn; pose proof (Z.div_mod n 10); lia|].
  rewrite Nat2Z.inj_succ, Z.pow_succ_r in Hn by lia.
  split; [apply Z.div_pos; lia|apply Z.div_lt_upper_bound; lia].
Qed.

Lemma int_str_inj n m : 0 <= n -> 0 <= m -> int_str n = int_str m -> n = m.
Proof.
  assert (Hv : forall k, 0 <= k -> digits_value (int_str k) = k).
  { intros k Hk. apply digits_value_decimal. split; [done|]. destruct (decide (k = 0)) as [->|]; [done|].
    rewrite Nat2Z.inj_succ, Z2Nat.id by apply Z.log2_nonneg. apply Z.log2_spec. lia. }
  intros Hn Hm Heq. by rewrite <- (Hv n Hn), Heq, Hv.
Qed.

(** ** Joining *)

Definition join_comma (l : list pystr) : pystr :=
  match l with
  | [] => []
  | x :: rest => x ++ mjoin ((fun y => 44 :: y) <$> rest)
  end.

(** Pieces of one length concatenate injectively. *)
Lemma mjoin_inj {A} (n : nat) (l l' : list (list A)) :
  n <> 0%nat -> Forall (fun x => length x = n) l -> Forall (fun x => length x = n) l' -> mjoin l = mjoin l' -> l = l'.
Proof.
  intros Hn Hl. revert l'. induction Hl as [|x l Hx _ IH]; intros l' Hl' Heq.
  - destruct Hl' as [|y l' Hy _]; [done|]. destruct y; [cbn in Hy; lia|discriminate Heq].
  - destruct Hl' as [|y l' Hy Hl']; [destruct x; [cbn in Hx; lia|discriminate Heq]|].
    apply app_inj_1 in Heq as [-> Heq]; [|congruence]. f_equal. by apply IH.
Qed.

Lemma join_comma_inj (n : nat) l l' :
  n <> 0%nat -> Forall (fun x => length x = n) l -> Forall (fun x => length x = n) l' ->
  join_comma l = join_comma l' -> l = l'.
Proof.
  intros Hn Hl Hl' Heq. destruct Hl as [|x l Hx Hl], Hl' as [|y l' Hy Hl']; cbn in Heq; [done|..].
  - destruct y; [cbn in Hy; lia|discriminate Heq].
  - destruct x; [cbn in Hx; lia|discriminate Heq].
  - apply app_inj_1 in Heq as [-> Heq]; [|congruence]. f_equal. apply (mjoin_inj (S n)) in Heq; [|done|..].
    + revert Heq. apply list_fmap_eq_inj. by intros ? ? [= ?].
    + apply Forall_fmap. eapply Forall_impl; [exact Hl|]. cbn. intros z ->. done.
    + apply Forall_fmap. eapply Forall_impl; [exact Hl'|]. cbn. intros z ->. done.
Qed.

(** ** UTF-8 *)

Definition code_point (c : Z) : Prop := 0 <= c < 0x110000.

Definition utf8_point (c : Z) : option bytes :=
  if is_surrogate c then None
  else Some (if c <? 0x80 then [c]
             else if c <? 0x800 then [0xC0 + c / 64; 0x80 + c mod 64]
             else if c <? 0x10000 then [0xE0 + c / 4096; 0x80 + c / 64 mod 64; 0x80 + c mod 64]
             else [0xF0 + c / 262144; 0x80 + c / 4096 mod 64; 0x80 + c / 64 mod 64; 0x80 + c mod 64]).

(** [s.encode("utf-8")]; a lone surrogate raises [UnicodeEncodeError]. *)
Fixpoint utf8_encode (s : pystr) : result bytes :=
  match s with
  | [] => Ok []
  | c :: rest =>
    b ← from_option_or (utf8_point c) (ValueError "surrogates not allowed");
    bs ← utf8_encode rest;
    Ok (b ++ bs)
  end.

(** The code is prefix-free. *)
Lemma utf8_point_inj c c' b b' x x' :
  code_point c -> code_point c' -> utf8_point c = Some b -> utf8_point c' = Some b' ->
  b ++ x = b' ++ x' -> c = c' /\ x = x'.
Proof.
  unfold code_point, utf8_point. intros Hc Hc'. destruct (is_surrogate c), (is_surrogate c'); try done.
  intros [= <-] [= <-] Heq.
  destruct (Z.ltb_spec c 0x80); [|destruct (Z.ltb_spec c 0x800); [|destruct (Z.ltb_spec c 0x10000)]];
    (destruct (Z.ltb_spec c' 0x80); [|destruct (Z.ltb_spec c' 0x800); [|destruct (Z.ltb_spec c' 0x10000)]]);
    cbn in Heq; injection Heq; clear Heq; intros;
    try (exfalso; Z.to_euclidean_division_equations; lia);
    (split; [|assumption]); Z.to_euclidean_division_equations; lia.
Qed.

Lemma utf8_encode_inj s s' b :
  Forall code_point s -> Forall code_point s' -> utf8_encode s = Ok b -> utf8_encode s' = Ok b -> s = s'.
Proof.
  intros Hs. revert s' b. induction Hs as [|c s Hc _ IH]; intros s' b Hs' He He'.
  - injection He as <-. destruct Hs' as [|c' s' Hc' _]; [done|]. cbn in He'. inv_ok.
    unfold utf8_point in *. destruct (is_surrogate c'); [done|]. repeat case_match; simplify_eq/=.
  - cbn in He. inv_ok. destruct Hs' as [|c' s' Hc' Hs'].
    + injection He' as He'. unfold utf8_point in *. destruct (is_surrogate c); [done|].
      repeat case_match; simplify_eq/=.
    + cbn in He'. inv_ok.
      match goal with Hb : utf8_point c = Some _, Hb' : utf8_point c' = Some _, Heq : _ ++ _ = _ ++ _ |- _ =>
        destruct (utf8_point_inj c c' _ _ _ _ Hc Hc' Hb' Hb Heq) as [<- ?] || 
        destruct (utf8_point_inj c c' _ _ _ _ Hc Hc' Hb Hb' (eq_sym Heq)) as [<- ?] ||
        destruct (utf8_point_inj c c' _ _ _ _ Hc Hc' Hb Hb' Heq) as [<- ?] end.
      f_equal. subst. by eapply IH.
Qed.

(** ** Length framing *)

Lemma be_bytes_length n v : length (be_bytes n v) = n.
Proof. revert v. induction n as [|n IH]; intros v; [done|]. cbn. rewrite length_app, IH. cbn. lia. Qed.

Lemma be_bytes_inj n v w :
  0 <= v < 256 ^ Z.of_nat n -> 0 <= w < 256 ^ Z.of_nat n -> be_bytes n v = be_bytes n w -> v = w.
Proof.
  revert v w. induction n as [|n IH]; intros v w Hv Hw Heq; [cbn in *; lia|].
  rewrite Nat2Z.inj_succ, Z.pow_succ_r in Hv, Hw by lia. cbn in Heq. apply app_inj_2 in Heq as [Heq [= Hm]]; [|done].
  apply IH in Heq; [|split; [apply Z.div_pos; lia|apply Z.div_lt_upper_bound; lia]..].
  rewrite (Z.div_mod v 256), (Z.div_mod w 256) by lia. by rewrite Heq, Hm.
Qed.

(** [len(value).to_bytes(width, "big") + value] *)
Definition framed (width : nat) (value : bytes) : result bytes :=
  let n := Z.of_nat (length value) in
  raise_if (256 ^ Z.of_nat width <=? n) OverflowError;;
  Ok (be_bytes width n ++ value).

Lemma framed_inj width a b x y s s' :
  framed width a = Ok x -> framed width b = Ok y -> x ++ s = y ++ s' -> a = b /\ s = s'.
Proof.
  unfold framed. intros Ha Hb Heq. inv_ok. rewrite <- !app_assoc in Heq.
  apply app_inj_1 in Heq as [Hn Heq]; [|by rewrite !be_bytes_length].
  apply be_bytes_inj in Hn; [|lia..]. apply app_inj_1 in Heq; [done|lia].
Qed.
