(* ===== verification/Constraints.v ===== *)
(** * Constraints: category, scope, visibility and transport rules

    Models [domain/constraints.py]: the closed category/ontology matrix and the
    ordered structural checks of a memory after-image.  The run-time type
    checks of the source (enumeration and boolean fields) hold by typing. *)

From stdpp Require Import base tactics option list strings.
From Stdlib Require Import ZArith Lia Bool.
From S2P Require Import Prelude Identifiers Enums.
Open Scope Z_scope.

Definition ALL_ONTOLOGICAL_STATUSES : list OntologicalStatus := OntologicalStatus.members.

Definition CATEGORY_ONTOLOGY_COMPATIBILITY (category : MemoryCategory) : list OntologicalStatus :=
  match category with
  | MemoryCategory.STABLE_FACT =>
    [OntologicalStatus.LITERAL_USER_FACT; OntologicalStatus.LITERAL_TECHNICAL_FACT]
  | MemoryCategory.USER_PREFERENCE =>
    [OntologicalStatus.LITERAL_USER_FACT; OntologicalStatus.UNCERTAIN]
  | MemoryCategory.ASSISTANT_PREFERENCE_LIKE_PATTERN =>
    [OntologicalStatus.ASSISTANT_SELF_DESCRIPTION; OntologicalStatus.OBSERVED_ASSISTANT_BEHAVIOR;
     OntologicalStatus.HYPOTHESIS; OntologicalStatus.UNCERTAIN]
  | MemoryCategory.BOUNDARY_OR_PERMISSION =>
    [OntologicalStatus.LITERAL_USER_FACT; OntologicalStatus.INTERACTION_CONVENTION;
     OntologicalStatus.UNCERTAIN]
  | MemoryCategory.INTERACTION_CONVENTION =>
    [OntologicalStatus.INTERACTION_CONVENTION; OntologicalStatus.LITERAL_USER_FACT;
     OntologicalStatus.UNCERTAIN]
  | MemoryCategory.RELATIONSHIP_PATTERN =>
    [OntologicalStatus.OBSERVED_ASSISTANT_BEHAVIOR; OntologicalStatus.INTERACTION_CONVENTION;
     OntologicalStatus.HYPOTHESIS; OntologicalStatus.UNCERTAIN]
  | MemoryCategory.EMERGENT_TENDENCY =>
    [OntologicalStatus.ASSISTANT_SELF_DESCRIPTION; OntologicalStatus.OBSERVED_ASSISTANT_BEHAVIOR;
     OntologicalStatus.HYPOTHESIS; OntologicalStatus.UNCERTAIN]
  | MemoryCategory.EPISODIC_ANCHOR =>
    filter (fun s => s <> OntologicalStatus.HYPOTHESIS) ALL_ONTOLOGICAL_STATUSES
  | MemoryCategory.PROJECT_DECISION =>
    [OntologicalStatus.LITERAL_TECHNICAL_FACT; OntologicalStatus.UNCERTAIN]
  | MemoryCategory.PROJECT_STATE =>
    [OntologicalStatus.LITERAL_TECHNICAL_FACT; OntologicalStatus.UNCERTAIN]
  | MemoryCategory.PROCEDURE =>
    [OntologicalStatus.LITERAL_TECHNICAL_FACT; OntologicalStatus.INTERACTION_CONVENTION;
     OntologicalStatus.UNCERTAIN]
  | MemoryCategory.OPEN_QUESTION => [OntologicalStatus.HYPOTHESIS; OntologicalStatus.UNCERTAIN]
  | MemoryCategory.INTERPRETATION => [OntologicalStatus.HYPOTHESIS; OntologicalStatus.UNCERTAIN]
  | MemoryCategory.EXTERNAL_FACT =>
    [OntologicalStatus.LITERAL_TECHNICAL_FACT; OntologicalStatus.HYPOTHESIS;
     OntologicalStatus.UNCERTAIN]
  end.

Definition SCOPED_SUBJECT_KINDS (scope : MemoryScope) : option SubjectKind :=
  match scope with
  | MemoryScope.PERSONA => Some SubjectKind.PERSONA
  | MemoryScope.RELATIONSHIP => Some SubjectKind.RELATIONSHIP
  | MemoryScope.PROJECT => Some SubjectKind.PROJECT
  | MemoryScope.EPISODIC => Some SubjectKind.EPISODE
  | MemoryScope.GLOBAL | MemoryScope.SCENE_LOCAL => None
  end.

(** Non-content facts required to validate a memory after-image. *)
Record MemoryConstraintContext : Type := {
  ctx_category : MemoryCategory;
  ctx_ontological_status : OntologicalStatus;
  ctx_scope : MemoryScope;
  ctx_visibility : MemoryVisibility;
  ctx_status : MemoryStatus;
  ctx_sensitivity : Z;
  ctx_subject_kind : SubjectKind;
  ctx_origin_session_id : option UUID;
  ctx_origin_session_matches : bool;
  ctx_structural_anchor_matches : bool;
  ctx_imported_provenance : bool;
  ctx_publication_approved : bool;
  ctx_branch_allows_visibility : bool;
  ctx_transport_kind : TransportKind
}.

Definition reject_if (condition : bool) (code message : string) : result unit :=
  raise_if condition (DomainConstraintError code message).
Arguments reject_if _ _%_string _%_string.

Definition validate_category_ontology (category : MemoryCategory)
    (ontological_status : OntologicalStatus) : result unit :=
  reject_if (bool_decide (ontological_status ∉ CATEGORY_ONTOLOGY_COMPATIBILITY category))
    "category_ontology_incompatible" "memory category and ontological status are incompatible".

Definition validate_memory_constraints (c : MemoryConstraintContext) : result unit :=
  let has_origin := bool_decide (ctx_origin_session_id c <> None) in
  reject_if (match ctx_origin_session_id c with
             | Some session => negb (is_ok (require_uuid7 session))
             | None => false
             end)
    "invalid_origin_session" "origin session must be an RFC 9562 UUIDv7";;
  validate_category_ontology (ctx_category c) (ctx_ontological_status c);;
  reject_if (negb ((0 <=? ctx_sensitivity c) && (ctx_sensitivity c <=? 4)))
    "sensitivity_out_of_range" "memory sensitivity must be between zero and four";;
  reject_if (negb (ctx_branch_allows_visibility c))
    "branch_visibility_forbidden" "branch does not allow the requested visibility";;
  (if bool_decide (ctx_scope c = MemoryScope.GLOBAL) then
     reject_if (bool_decide (ctx_subject_kind c <> SubjectKind.GLOBAL))
       "scope_subject_mismatch" "global memory requires a global subject";;
     reject_if (bool_decide
         (ctx_ontological_status c = OntologicalStatus.FICTIONAL_OR_ROLEPLAYED_SCENE))
       "global_roleplay_forbidden" "global memory cannot describe a fictional or roleplayed scene"
   else Ok tt);;
  (match SCOPED_SUBJECT_KINDS (ctx_scope c) with
   | None => Ok tt
   | Some expected_subject_kind =>
     reject_if (bool_decide (ctx_subject_kind c <> expected_subject_kind))
       "scope_subject_mismatch" "memory scope does not match its typed subject";;
     reject_if (negb (ctx_structural_anchor_matches c))
       "scope_anchor_mismatch" "memory scope does not match its structural anchor"
   end);;
  reject_if (bool_decide (ctx_scope c = MemoryScope.EPISODIC)
             && negb ((has_origin && ctx_origin_session_matches c) || ctx_imported_provenance c))
    "episodic_origin_missing" "episodic memory requires a matching origin session or import provenance";;
  (if bool_decide (ctx_scope c = MemoryScope.SCENE_LOCAL) then
     reject_if (bool_decide (ctx_subject_kind c <> SubjectKind.SCENE))
       "scope_subject_mismatch" "scene-local memory requires a scene subject";;
     reject_if (negb (ctx_structural_anchor_matches c))
       "scope_anchor_mismatch" "scene-local memory does not match its structural anchor";;
     reject_if (negb has_origin || negb (ctx_origin_session_matches c))
       "scene_origin_mismatch" "scene-local memory requires its matching origin session";;
     reject_if (bool_decide
         (ctx_visibility c ∈ [MemoryVisibility.SHAREABLE; MemoryVisibility.PUBLIC_SEED]))
       "scene_visibility_forbidden" "scene-local memory cannot be shareable or public seed"
   else Ok tt);;
  reject_if (bool_decide (ctx_visibility c = MemoryVisibility.SHAREABLE)
             && (1 <? ctx_sensitivity c))
    "shareable_sensitive" "shareable memory cannot have sensitivity above one";;
  (if bool_decide (ctx_visibility c = MemoryVisibility.PUBLIC_SEED) then
     reject_if (bool_decide (ctx_status c <> MemoryStatus.ACTIVE))
       "public_seed_not_active" "public seed memory must be active";;
     reject_if (negb (ctx_sensitivity c =? 0))
       "public_seed_sensitive" "public seed memory must have zero sensitivity";;
     reject_if (negb (ctx_publication_approved c))
       "public_seed_unapproved" "public seed memory requires explicit publication approval"
   else Ok tt);;
  reject_if (bool_decide (ctx_transport_kind c = TransportKind.GITHUB_INGRESS)
             && bool_decide (ctx_scope c ∈ [MemoryScope.GLOBAL; MemoryScope.SCENE_LOCAL]))
    "github_scope_forbidden" "GitHub ingress cannot create global or scene-local memory";;
  reject_if (bool_decide (ctx_transport_kind c = TransportKind.RELAY) && (ctx_sensitivity c =? 4))
    "relay_sensitivity_forbidden" "relay transport cannot carry sensitivity-four memory".
