(* ===== verification/Events.v ===== *)
(** * Events: immutable domain-event contracts

    Models [domain/events.py]: the after-images of memories, evidence, links,
    conflicts and branches, the operation payloads, the event envelope and its
    canonical hashes.  The pydantic classes become records; their field
    constraints and validators are executable predicates.  The pydantic library
    itself (reading a JSON object into a class, dumping an instance) is the
    interface [Pydantic].  Timestamps are UTC instants, scores are normalized
    decimals: the values the field validators leave in the instances. *)

From stdpp Require Import base tactics option list gmap strings.
From Stdlib Require Import ZArith Lia Bool.
From S2P Require Import Prelude Identifiers Enums Values CanonicalJson Digest Constraints.
Open Scope Z_scope.

(** ** Text and number constraints *)

Definition MAX_SAFE_INTEGER : Z := Z.shiftl 1 53 - 1.

(** [SafePositiveInteger], also [PositiveRevision]. *)
Definition safe_positive (n : Z) : bool := (1 <=? n) && (n <=? MAX_SAFE_INTEGER).

(** [Field(min_length=lo, max_length=hi)] on a string. *)
Definition length_between (lo hi : Z) (s : pystr) : bool :=
  (lo <=? Z.of_nat (length s)) && (Z.of_nat (length s) <=? hi).

Definition opt_ok {A} (test : A -> bool) (o : option A) : bool :=
  match o with Some a => test a | None => true end.

(** [HexDigest]: [^[0-9a-f]{64}$]. *)
Definition is_lower_hex (c : Z) : bool :=
  ((48 <=? c) && (c <=? 57)) || ((97 <=? c) && (c <=? 102)).
Definition hex_digest_ok (s : pystr) : bool :=
  forallb is_lower_hex s && (length s =? 64)%nat.

(** [^[a-z][a-z0-9_]*$] with at most 64 characters. *)
Definition is_lower (c : Z) : bool := (97 <=? c) && (c <=? 122).
Definition code_ok (s : pystr) : bool :=
  match s with
  | [] => false
  | c :: rest =>
    is_lower c
    && forallb (fun c => is_lower c || ((48 <=? c) && (c <=? 57)) || (c =? 95)) rest
    && length_between 1 64 s
  end.

(** [str.isspace] code points, which [str.strip()] removes. *)
Definition is_py_space (c : Z) : bool :=
  ((9 <=? c) && (c <=? 13)) || ((28 <=? c) && (c <=? 32)) || (c =? 133) || (c =? 160)
  || (c =? 5760) || ((8192 <=? c) && (c <=? 8202)) || (c =? 8232) || (c =? 8233)
  || (c =? 8239) || (c =? 8287) || (c =? 12288).
Definition is_blank (s : pystr) : bool := forallb is_py_space s.

(** [len(s.encode("utf-8"))]; a lone surrogate cannot be encoded. *)
Definition utf8_width (c : Z) : option Z :=
  if is_surrogate c then None
  else Some (if c <? 128 then 1 else if c <? 2048 then 2 else if c <? 65536 then 3 else 4).
Fixpoint utf8_length (s : pystr) : option Z :=
  match s with
  | [] => Some 0
  | c :: rest => w ← utf8_width c; n ← utf8_length rest; Some (w + n)
  end.

(** ** After-images *)

Inductive ContentProtection : Type :=
| plaintext | envelope_encrypted | cryptographically_erased.

#[export] Instance ContentProtection_eq_dec : EqDecision ContentProtection.
Proof. solve_decision. Defined.

(** Literal fields with a single admissible value are not stored. *)
Record SealedContentEnvelopeState : Type := {
  sc_content_key_id : UUID;
  sc_nonce : pystr;
  sc_ciphertext : pystr;
  sc_aad_sha256 : pystr;
  sc_safe_summary : pystr
}.

#[export] Instance SealedContentEnvelopeState_eq_dec : EqDecision SealedContentEnvelopeState.
Proof. solve_decision. Defined.

(** Which class of the [MemoryState] hierarchy an instance has, with the
    fields that class adds. *)
Inductive MemoryVersion : Type :=
| MemoryStateV1
| MemoryStateV2 (candidate_expires_at : option instant)
| MemoryStateV3 (candidate_expires_at : option instant)
                (sealed_content : SealedContentEnvelopeState).

Abbreviation json_dict := (list (pystr * JsonValue)).

Record MemoryState : Type := {
  ms_version : MemoryVersion;
  ms_memory_id : UUID;
  ms_tenant_id : UUID;
  ms_lineage_id : UUID;
  ms_branch_id : UUID;
  ms_subject_id : UUID;
  ms_subject_kind : SubjectKind;
  ms_revision : Z;
  ms_category : MemoryCategory;
  ms_ontological_status : OntologicalStatus;
  ms_scope : MemoryScope;
  ms_visibility : MemoryVisibility;
  ms_status : MemoryStatus;
  ms_statement : option pystr;
  ms_reason_to_remember : option pystr;
  ms_interpretation_limits : list pystr;
  ms_confidence : Decimal;
  ms_salience : Decimal;
  ms_durability : Decimal;
  ms_sensitivity : Z;
  ms_authority_class : AuthorityClass;
  ms_valid_from : option instant;
  ms_valid_to : option instant;
  ms_observed_at : option instant;
  ms_origin_session_id : option UUID;
  ms_publication_approved_at : option instant;
  ms_publication_approved_by_actor_id : option UUID;
  ms_content_protection : ContentProtection;
  ms_content_key_id : option UUID;
  ms_created_at : instant;
  ms_updated_at : instant;
  ms_fingerprint_version : Z;
  ms_normalized_fingerprint : option pystr;
  ms_metadata : json_dict
}.

#[export] Instance MemoryVersion_eq_dec : EqDecision MemoryVersion.
Proof. solve_decision. Defined.

#[export] Instance MemoryState_eq_dec : EqDecision MemoryState.
Proof. solve_decision. Defined.

Definition ms_candidate_expires_at (m : MemoryState) : option instant :=
  match ms_version m with
  | MemoryStateV1 => None
  | MemoryStateV2 e => e
  | MemoryStateV3 e _ => e
  end.

Definition ms_sealed_content (m : MemoryState) : option SealedContentEnvelopeState :=
  match ms_version m with MemoryStateV3 _ s => Some s | _ => None end.

(** [isinstance(m, MemoryStateV3)] *)
Definition is_v3 (m : MemoryState) : bool :=
  match ms_version m with MemoryStateV3 _ _ => true | _ => false end.

Inductive EvidenceStatus : Type := evidence_active.
Inductive LinkStatus : Type := link_active | link_unlinked.
Inductive ConflictStatus : Type := conflict_open | conflict_resolved.

#[export] Instance EvidenceStatus_eq_dec : EqDecision EvidenceStatus.
Proof. solve_decision. Defined.
#[export] Instance LinkStatus_eq_dec : EqDecision LinkStatus.
Proof. solve_decision. Defined.
#[export] Instance ConflictStatus_eq_dec : EqDecision ConflictStatus.
Proof. solve_decision. Defined.

Record EvidenceState : Type := {
  es_evidence_id : UUID;
  es_tenant_id : UUID;
  es_lineage_id : UUID;
  es_branch_id : UUID;
  es_memory_id : UUID;
  es_source_type : pystr;
  es_source_reference : json_dict;
  es_excerpt : option pystr;
  es_occurred_at : option instant;
  es_content_sha256 : option pystr;
  es_trust_classification : pystr;
  es_status : EvidenceStatus;
  es_created_at : instant;
  es_metadata : json_dict
}.

Record LinkState : Type := {
  ls_link_id : UUID;
  ls_tenant_id : UUID;
  ls_lineage_id : UUID;
  ls_branch_id : UUID;
  ls_source_memory_id : UUID;
  ls_target_memory_id : UUID;
  ls_link_type : LinkType;
  ls_status : LinkStatus;
  ls_created_at : instant;
  ls_unlinked_at : option instant;
  ls_metadata : json_dict
}.

Record ConflictMemberState : Type := {
  cm_conflict_id : UUID;
  cm_memory_id : UUID;
  cm_disposition : pystr;
  cm_joined_at : instant
}.

Record ConflictState : Type := {
  cs_conflict_id : UUID;
  cs_tenant_id : UUID;
  cs_lineage_id : UUID;
  cs_branch_id : UUID;
  cs_subject_id : UUID;
  cs_status : ConflictStatus;
  cs_reason : pystr;
  cs_resolution_kind : option pystr;
  cs_resolution_rationale : option pystr;
  cs_opened_at : instant;
  cs_resolved_at : option instant;
  cs_metadata : json_dict
}.

Record BranchState : Type := {
  bs_branch_id : UUID;
  bs_tenant_id : UUID;
  bs_lineage_id : UUID;
  bs_parent_branch_id : option UUID;
  bs_fork_event_sequence : option Z;
  bs_name : pystr;
  bs_visibility_ceiling : MemoryVisibility;
  bs_created_at : instant;
  bs_sealed_at : option instant
}.

(** ** Validators of the after-images *)

Definition expected_subject (scope : MemoryScope) : SubjectKind :=
  match scope with
  | MemoryScope.GLOBAL => SubjectKind.GLOBAL
  | MemoryScope.PERSONA => SubjectKind.PERSONA
  | MemoryScope.RELATIONSHIP => SubjectKind.RELATIONSHIP
  | MemoryScope.PROJECT => SubjectKind.PROJECT
  | MemoryScope.EPISODIC => SubjectKind.EPISODE
  | MemoryScope.SCENE_LOCAL => SubjectKind.SCENE
  end.

(** [self.valid_from is not None and self.valid_to is not None and
    self.valid_to < self.valid_from] *)
Definition window_reversed (valid_from valid_to : option instant) : bool :=
  match valid_from, valid_to with Some f, Some t => t <? f | _, _ => false end.

Definition is_none {A} (o : option A) : bool := match o with None => true | Some _ => false end.

(** [not text] on an optional string: absent or empty. *)
Definition falsy (text : option pystr) : bool :=
  match text with None | Some [] => true | _ => false end.

(** The checks that [MemoryState.validate_state_shape] and its V3 override
    share: subject kind, roleplay, episodic and scene-local origin. *)
Definition validate_scope_shape (m : MemoryState) : result unit :=
  raise_if (bool_decide (ms_subject_kind m <> expected_subject (ms_scope m)))
    (ValueError "memory scope does not match subject kind");;
  raise_if (bool_decide (ms_scope m = MemoryScope.GLOBAL) &&
            bool_decide (ms_ontological_status m = OntologicalStatus.FICTIONAL_OR_ROLEPLAYED_SCENE))
    (ValueError "global memory cannot represent a roleplayed scene");;
  raise_if (bool_decide (ms_scope m = MemoryScope.EPISODIC) && is_none (ms_origin_session_id m)
            && bool_decide (ms_authority_class m <> AuthorityClass.IMPORTED_LEGACY_MEMORY))
    (ValueError "episodic memory requires an origin session or imported provenance");;
  (if bool_decide (ms_scope m = MemoryScope.SCENE_LOCAL) then
     raise_if (is_none (ms_origin_session_id m))
       (ValueError "scene-local memory requires an origin session");;
     raise_if (bool_decide (ms_visibility m ∈ [MemoryVisibility.SHAREABLE; MemoryVisibility.PUBLIC_SEED]))
       (ValueError "scene-local visibility exceeds its structural boundary")
   else Ok tt).

(** [MemoryState.validate_state_shape] *)
Definition validate_state_shape (m : MemoryState) : result unit :=
  raise_if (window_reversed (ms_valid_from m) (ms_valid_to m))
    (ValueError "valid_to must not precede valid_from");;
  raise_if (ms_updated_at m <? ms_created_at m)
    (ValueError "updated_at must not precede created_at");;
  validate_category_ontology (ms_category m) (ms_ontological_status m);;
  validate_scope_shape m;;
  (if bool_decide (ms_visibility m = MemoryVisibility.PUBLIC_SEED) then
     raise_if (bool_decide (ms_status m <> MemoryStatus.ACTIVE) || negb (ms_sensitivity m =? 0))
       (ValueError "public-seed memory must be active and non-sensitive");;
     raise_if (is_none (ms_publication_approved_at m))
       (ValueError "public-seed memory requires publication approval")
   else Ok tt);;
  raise_if (bool_decide (ms_visibility m = MemoryVisibility.SHAREABLE) && (1 <? ms_sensitivity m))
    (ValueError "shareable memory sensitivity cannot exceed one");;
  (if bool_decide (ms_status m = MemoryStatus.TOMBSTONED) then
     raise_if (negb (is_none (ms_statement m)) || negb (is_none (ms_reason_to_remember m)))
       (ValueError "tombstoned memory content must be sanitized");;
     raise_if (negb (bool_decide (ms_interpretation_limits m = []))
               || negb (is_none (ms_normalized_fingerprint m)))
       (ValueError "tombstoned memory derivatives must be sanitized")
   else
     raise_if (falsy (ms_statement m) || falsy (ms_reason_to_remember m))
       (ValueError "non-tombstoned memories require statement and reason"));;
  raise_if (xorb (is_none (ms_publication_approved_at m))
                 (is_none (ms_publication_approved_by_actor_id m)))
    (ValueError "publication approval time and actor must be supplied together");;
  raise_if (bool_decide (ms_content_protection m = plaintext) && negb (is_none (ms_content_key_id m)))
    (ValueError "plaintext memory cannot reference a content key");;
  raise_if (bool_decide (ms_content_protection m <> plaintext) && is_none (ms_content_key_id m))
    (ValueError "protected memory requires content-key metadata");;
  raise_if (bool_decide (ms_content_protection m = cryptographically_erased)
            && negb (bool_decide (ms_status m = MemoryStatus.TOMBSTONED)))
    (ValueError "cryptographic erasure requires a tombstoned memory");;
  raise_if ((32 <? length (ms_interpretation_limits m))%nat
            || negb (nodupb (ms_interpretation_limits m)))
    (ValueError "interpretation limits must contain at most 32 unique entries");;
  raise_if (128 <? length (ms_metadata m))%nat
    (ValueError "memory metadata cannot exceed 128 properties").

(** [MemoryStateV3.validate_state_shape], which replaces the one above. *)
Definition validate_state_shape_v3 (m : MemoryState) (s : SealedContentEnvelopeState) : result unit :=
  raise_if (ms_updated_at m <? ms_created_at m)
    (ValueError "updated_at must not precede created_at");;
  raise_if (window_reversed (ms_valid_from m) (ms_valid_to m))
    (ValueError "valid_to must not precede valid_from");;
  validate_category_ontology (ms_category m) (ms_ontological_status m);;
  validate_scope_shape m;;
  raise_if (bool_decide (ms_visibility m = MemoryVisibility.PUBLIC_SEED))
    (ValueError "sealed memory cannot be a public seed");;
  raise_if (bool_decide (ms_visibility m = MemoryVisibility.SHAREABLE) && (1 <? ms_sensitivity m))
    (ValueError "shareable memory sensitivity cannot exceed one");;
  (if (ms_sensitivity m =? 4) && bool_decide (ms_content_protection m = cryptographically_erased)
   then raise_if (bool_decide (ms_status m <> MemoryStatus.TOMBSTONED))
          (ValueError "cryptographic erasure requires a tombstoned memory")
   else raise_if (bool_decide (ms_content_protection m = cryptographically_erased)
                  && bool_decide (ms_status m <> MemoryStatus.TOMBSTONED))
          (ValueError "cryptographic erasure requires a tombstoned memory"));;
  raise_if (bool_decide (ms_content_key_id m <> Some (sc_content_key_id s)))
    (ValueError "sealed envelope content key differs from memory");;
  raise_if (negb (bool_decide (ms_interpretation_limits m = []))
            || negb (is_none (ms_normalized_fingerprint m))
            || negb (length (ms_metadata m) =? 0)%nat)
    (ValueError "sealed memory plaintext derivatives must be absent");;
  raise_if (xorb (is_none (ms_publication_approved_at m))
                 (is_none (ms_publication_approved_by_actor_id m)))
    (ValueError "publication approval time and actor must be supplied together").

(** [MemoryStateV2.validate_candidate_expiry] *)
Definition validate_candidate_expiry (m : MemoryState) (expires : option instant) : result unit :=
  if bool_decide (ms_status m = MemoryStatus.CANDIDATE) then
    match expires with
    | None => Err (ValueError "candidate memories require an expiry deadline in v2")
    | Some deadline =>
      raise_if (deadline <=? ms_created_at m)
        (ValueError "candidate expiry deadline must follow memory creation")
    end
  else raise_if (negb (is_none expires))
         (ValueError "only candidate memories may have a candidate expiry deadline").

(** [CanonicalBase64] pattern: groups of four characters, padding at the end. *)
Fixpoint b64_shape (s : pystr) : bool :=
  match s with
  | [] => true
  | a :: b :: c :: d :: rest =>
    negb (is_none (b64_value a)) && negb (is_none (b64_value b)) &&
    (if d =? 61 then (bool_decide (rest = [])) && ((c =? 61) || negb (is_none (b64_value c)))
     else negb (is_none (b64_value c)) && negb (is_none (b64_value d)) && b64_shape rest)
  | _ => false
  end.

(** Fields and [validate_envelope_bounds] of [SealedContentEnvelopeState]. *)
Definition validate_envelope_bounds (s : SealedContentEnvelopeState) : result unit :=
  nonce ← from_option_or (b64decode (sc_nonce s)) (ValueError "sealed envelope encoding is invalid");
  ciphertext ← from_option_or (b64decode (sc_ciphertext s))
                 (ValueError "sealed envelope encoding is invalid");
  raise_if (negb (bool_decide (b64encode nonce = sc_nonce s)) || negb (length nonce =? 12)%nat)
    (ValueError "sealed envelope nonce is invalid");;
  raise_if (negb (bool_decide (b64encode ciphertext = sc_ciphertext s))
            || negb ((17 <=? Z.of_nat (length ciphertext))
                     && (Z.of_nat (length ciphertext) <=? 716816)))
    (ValueError "sealed envelope ciphertext is invalid");;
  raise_if (is_blank (sc_safe_summary s)
            || match utf8_length (sc_safe_summary s) with Some n => 4096 <? n | None => true end)
    (ValueError "sealed envelope safe summary is invalid").

Definition sealed_fields_ok (s : SealedContentEnvelopeState) : bool :=
  is_uuid7 (sc_content_key_id s) && b64_shape (sc_nonce s) && b64_shape (sc_ciphertext s)
  && hex_digest_ok (sc_aad_sha256 s) && length_between 1 1024 (sc_safe_summary s).

Definition unit_score_ok (d : Decimal) : bool :=
  match normalize_unit_score d with Ok d' => bool_decide (d' = d) | Err _ => false end.

(** Declared field types and [validate_uuid7] of [MemoryState]; the last part
    is what [MemoryStateV3] narrows. *)
Definition memory_fields_ok (m : MemoryState) : bool :=
  forallb is_uuid7 [ms_memory_id m; ms_tenant_id m; ms_lineage_id m; ms_branch_id m; ms_subject_id m]
  && opt_ok is_uuid7 (ms_origin_session_id m)
  && opt_ok is_uuid7 (ms_publication_approved_by_actor_id m)
  && opt_ok is_uuid7 (ms_content_key_id m)
  && safe_positive (ms_revision m)
  && opt_ok (length_between 0 8192) (ms_statement m)
  && opt_ok (length_between 0 4096) (ms_reason_to_remember m)
  && forallb (length_between 1 1024) (ms_interpretation_limits m)
  && (length (ms_interpretation_limits m) <=? 32)%nat
  && unit_score_ok (ms_confidence m) && unit_score_ok (ms_salience m) && unit_score_ok (ms_durability m)
  && ((0 <=? ms_sensitivity m) && (ms_sensitivity m <=? 4))
  && safe_positive (ms_fingerprint_version m)
  && opt_ok hex_digest_ok (ms_normalized_fingerprint m)
  && match ms_version m with
     | MemoryStateV3 _ s =>
       is_none (ms_statement m) && is_none (ms_reason_to_remember m)
       && bool_decide (ms_interpretation_limits m = []) && is_none (ms_normalized_fingerprint m)
       && bool_decide (ms_content_protection m <> plaintext) && negb (is_none (ms_content_key_id m))
       && sealed_fields_ok s
     | _ => true
     end.

(** All of pydantic's validation of one memory after-image. *)
Definition validate_memory (m : MemoryState) : result unit :=
  raise_if (negb (memory_fields_ok m)) (ValueError "memory field constraint");;
  match ms_version m with
  | MemoryStateV1 => validate_state_shape m
  | MemoryStateV2 e => validate_state_shape m;; validate_candidate_expiry m e
  | MemoryStateV3 e s =>
    validate_envelope_bounds s;; validate_state_shape_v3 m s;; validate_candidate_expiry m e
  end.

Definition validate_evidence (e : EvidenceState) : result unit :=
  raise_if (negb
    (forallb is_uuid7 [es_evidence_id e; es_tenant_id e; es_lineage_id e; es_branch_id e; es_memory_id e]
     && length_between 1 64 (es_source_type e)
     && opt_ok (length_between 1 4096) (es_excerpt e)
     && opt_ok hex_digest_ok (es_content_sha256 e)
     && length_between 1 64 (es_trust_classification e)))
    (ValueError "evidence field constraint");;
  raise_if (64 <? length (es_source_reference e))%nat
    (ValueError "evidence source reference cannot exceed 64 properties");;
  raise_if (128 <? length (es_metadata e))%nat
    (ValueError "evidence metadata cannot exceed 128 properties").

Definition validate_link (l : LinkState) : result unit :=
  raise_if (negb (forallb is_uuid7
      [ls_link_id l; ls_tenant_id l; ls_lineage_id l; ls_branch_id l;
       ls_source_memory_id l; ls_target_memory_id l]))
    (ValueError "link field constraint");;
  raise_if (ls_source_memory_id l =? ls_target_memory_id l)
    (ValueError "memory links cannot be self-referential");;
  raise_if (xorb (bool_decide (ls_status l = link_unlinked)) (negb (is_none (ls_unlinked_at l))))
    (ValueError "unlinked status and timestamp must agree");;
  raise_if (128 <? length (ls_metadata l))%nat
    (ValueError "link metadata cannot exceed 128 properties").

Definition validate_conflict_member (cm : ConflictMemberState) : result unit :=
  raise_if (negb (is_uuid7 (cm_conflict_id cm) && is_uuid7 (cm_memory_id cm)
                  && length_between 1 64 (cm_disposition cm)))
    (ValueError "conflict member field constraint").

Definition validate_conflict (c : ConflictState) : result unit :=
  raise_if (negb
    (forallb is_uuid7 [cs_conflict_id c; cs_tenant_id c; cs_lineage_id c; cs_branch_id c; cs_subject_id c]
     && length_between 1 4096 (cs_reason c)
     && opt_ok (length_between 1 64) (cs_resolution_kind c)
     && opt_ok (length_between 1 4096) (cs_resolution_rationale c)))
    (ValueError "conflict field constraint");;
  (if bool_decide (cs_status c = conflict_resolved) then
     raise_if (is_none (cs_resolved_at c) || falsy (cs_resolution_kind c))
       (ValueError "resolved conflicts require resolution details")
   else
     raise_if (negb (is_none (cs_resolved_at c)) || negb (is_none (cs_resolution_kind c))
               || negb (is_none (cs_resolution_rationale c)))
       (ValueError "open conflicts cannot contain resolution details"));;
  raise_if (128 <? length (cs_metadata c))%nat
    (ValueError "conflict metadata cannot exceed 128 properties").

Definition validate_branch (b : BranchState) : result unit :=
  raise_if (negb
    (forallb is_uuid7 [bs_branch_id b; bs_tenant_id b; bs_lineage_id b]
     && opt_ok is_uuid7 (bs_parent_branch_id b)
     && opt_ok safe_positive (bs_fork_event_sequence b)
     && length_between 1 255 (bs_name b)))
    (ValueError "branch field constraint");;
  raise_if (xorb (is_none (bs_parent_branch_id b)) (is_none (bs_fork_event_sequence b)))
    (ValueError "parent branch and fork sequence must be supplied together");;
  raise_if (bool_decide (bs_parent_branch_id b = Some (bs_branch_id b)))
    (ValueError "a branch cannot parent itself").

(** ** Operation payloads *)

Record AffectedMemory : Type := {
  am_previous_revision : Z;
  am_memory : MemoryState
}.

Inductive ForgetMode : Type := forget_logical | forget_hard.

#[export] Instance ForgetMode_eq_dec : EqDecision ForgetMode.
Proof. solve_decision. Defined.

(** The V2 and V3 payload classes differ from their base only in the class of
    the memory they carry, which [ms_version] records. *)
Inductive OperationPayload : Type :=
| MemoryCreatedPayload (memory : MemoryState) (evidence : list EvidenceState)
| MemoryTransitionPayload (previous_revision : Z) (memory : MemoryState)
| CandidateLifecyclePayload (previous_revision : Z) (memory : MemoryState)
    (selection_decision_id : UUID) (policy_rule_code : pystr) (evidence : list EvidenceState)
| SupersededPayload (previous_revision : Z) (memory : MemoryState) (link : LinkState)
| TombstonedPayload (previous_revision : Z) (memory : MemoryState) (forget_mode : ForgetMode)
| EvidenceAttachedPayload (evidence : EvidenceState)
| EvidenceRedactedPayload (evidence_id memory_id : UUID) (redacted_at : instant) (reason_code : pystr)
| LinkedPayload (link : LinkState)
| UnlinkedPayload (link : LinkState)
| ConflictOpenedPayload (conflict : ConflictState) (members : list ConflictMemberState)
    (affected_memories : list AffectedMemory)
| ConflictResolvedPayload (conflict : ConflictState) (members : list ConflictMemberState)
    (affected_memories : list AffectedMemory)
| BranchCreatedPayload (branch : BranchState)
| PayloadPurgeCompletedPayload (previous_revision : Z) (memory : MemoryState)
    (content_key_id : UUID) (key_destroyed_at : instant) (destruction_receipt_sha256 : pystr).

(** [_validate_conflict_members] *)
Definition validate_conflict_members (c : ConflictState) (members : list ConflictMemberState)
    : result unit :=
  let ids := cm_memory_id <$> members in
  raise_if ((length ids <? 2)%nat || negb (nodupb ids))
    (ValueError "conflicts require at least two unique members");;
  raise_if (existsb (fun m => negb (cm_conflict_id m =? cs_conflict_id c)) members)
    (ValueError "conflict members must reference their conflict").

Definition validate_affected (a : AffectedMemory) : result unit :=
  raise_if (negb (safe_positive (am_previous_revision a))) (ValueError "affected memory constraint");;
  validate_memory (am_memory a).

(** A [for item in items: check(item)] loop. *)
Definition each {A} (check : A -> result unit) (items : list A) : result unit :=
  foldM (fun _ item => check item) tt items.

Definition validate_transition (previous_revision : Z) (m : MemoryState) : result unit :=
  raise_if (negb (safe_positive previous_revision)) (ValueError "revision constraint");;
  validate_memory m.

(** The validators pydantic runs on a payload of a given class. *)
Definition validate_payload (p : OperationPayload) : result unit :=
  match p with
  | MemoryCreatedPayload m ev => validate_memory m;; each validate_evidence ev
  | MemoryTransitionPayload r m => validate_transition r m
  | CandidateLifecyclePayload r m decision code ev =>
    validate_transition r m;;
    raise_if (negb (is_uuid7 decision && code_ok code && (length ev <=? 32)%nat))
      (ValueError "candidate lifecycle field constraint");;
    each validate_evidence ev;;
    raise_if (negb (nodupb (es_evidence_id <$> ev)))
      (ValueError "candidate lifecycle evidence IDs must be unique")
  | SupersededPayload r m l => validate_transition r m;; validate_link l
  | TombstonedPayload r m _ => validate_transition r m
  | EvidenceAttachedPayload e => validate_evidence e
  | EvidenceRedactedPayload e m _ code =>
    raise_if (negb (is_uuid7 e && is_uuid7 m && code_ok code)) (ValueError "redaction field constraint")
  | LinkedPayload l | UnlinkedPayload l => validate_link l
  | ConflictOpenedPayload c ms am | ConflictResolvedPayload c ms am =>
    validate_conflict c;; each validate_conflict_member ms;; each validate_affected am;;
    validate_conflict_members c ms
  | BranchCreatedPayload b => validate_branch b
  | PayloadPurgeCompletedPayload r m k _ receipt =>
    validate_transition r m;;
    raise_if (negb (is_uuid7 k && hex_digest_ok receipt)) (ValueError "purge field constraint")
  end.

(** The payload classes [PAYLOAD_MODELS] selects from. *)
Inductive PayloadModel : Type :=
| Model_MemoryCreated | Model_MemoryCreatedV2 | Model_MemoryCreatedV3
| Model_MemoryTransition | Model_CandidateLifecycle | Model_Superseded
| Model_Tombstoned | Model_TombstonedV3 | Model_EvidenceAttached | Model_EvidenceRedacted
| Model_Linked | Model_Unlinked | Model_ConflictOpened | Model_ConflictResolved
| Model_BranchCreated | Model_PayloadPurgeCompleted | Model_PayloadPurgeCompletedV3.

Definition PAYLOAD_MODELS (operation : EventOperation) (schema_version payload_version : Z)
    : option PayloadModel :=
  match operation, schema_version, payload_version with
  | EventOperation.OBSERVED, 1, 1 => Some Model_MemoryCreated
  | EventOperation.OBSERVED, 2, 2 => Some Model_MemoryCreatedV2
  | EventOperation.OBSERVED, 3, 3 => Some Model_MemoryCreatedV3
  | EventOperation.REMEMBERED, 1, 1 => Some Model_MemoryCreated
  | EventOperation.REMEMBERED, 2, 2 => Some Model_MemoryCreatedV2
  | EventOperation.REMEMBERED, 3, 3 => Some Model_MemoryCreatedV3
  | EventOperation.CANDIDATE_PROMOTED, 2, 2 => Some Model_CandidateLifecycle
  | EventOperation.CANDIDATE_EXPIRED, 2, 2 => Some Model_CandidateLifecycle
  | EventOperation.REVISED, 1, 1 => Some Model_MemoryTransition
  | EventOperation.LINKED, 1, 1 => Some Model_Linked
  | EventOperation.EVIDENCE_ATTACHED, 1, 1 => Some Model_EvidenceAttached
  | EventOperation.EVIDENCE_REDACTED, 1, 1 => Some Model_EvidenceRedacted
  | EventOperation.UNLINKED, 1, 1 => Some Model_Unlinked
  | EventOperation.CONFLICT_OPENED, 1, 1 => Some Model_ConflictOpened
  | EventOperation.CONFLICT_RESOLVED, 1, 1 => Some Model_ConflictResolved
  | EventOperation.SUPERSEDED, 1, 1 => Some Model_Superseded
  | EventOperation.RETIRED, 1, 1 => Some Model_MemoryTransition
  | EventOperation.TOMBSTONED, 1, 1 => Some Model_Tombstoned
  | EventOperation.TOMBSTONED, 3, 3 => Some Model_TombstonedV3
  | EventOperation.BRANCH_CREATED, 1, 1 => Some Model_BranchCreated
  | EventOperation.VISIBILITY_CHANGED, 1, 1 => Some Model_MemoryTransition
  | EventOperation.PAYLOAD_PURGE_COMPLETED, 1, 1 => Some Model_PayloadPurgeCompleted
  | EventOperation.PAYLOAD_PURGE_COMPLETED, 3, 3 => Some Model_PayloadPurgeCompletedV3
  | _, _, _ => None
  end.

Definition is_v1 (m : MemoryState) : bool :=
  match ms_version m with MemoryStateV1 => true | _ => false end.
Definition is_v2 (m : MemoryState) : bool :=
  match ms_version m with MemoryStateV2 _ => true | _ => false end.

(** The class of an instance, as its declared field types fix it. *)
Definition payload_conforms (model : PayloadModel) (p : OperationPayload) : bool :=
  match model, p with
  | Model_MemoryCreated, MemoryCreatedPayload m _ => is_v1 m
  | Model_MemoryCreatedV2, MemoryCreatedPayload m _ => is_v2 m
  | Model_MemoryCreatedV3, MemoryCreatedPayload m ev => is_v3 m && (length ev =? 0)%nat
  | Model_MemoryTransition, MemoryTransitionPayload _ m => is_v1 m
  | Model_CandidateLifecycle, CandidateLifecyclePayload _ m _ _ _ => is_v2 m
  | Model_Superseded, SupersededPayload _ m _ => is_v1 m
  | Model_Tombstoned, TombstonedPayload _ m _ => is_v1 m
  | Model_TombstonedV3, TombstonedPayload _ m _ => is_v3 m
  | Model_EvidenceAttached, EvidenceAttachedPayload _ => true
  | Model_EvidenceRedacted, EvidenceRedactedPayload _ _ _ _ => true
  | Model_Linked, LinkedPayload _ => true
  | Model_Unlinked, UnlinkedPayload _ => true
  | Model_ConflictOpened, ConflictOpenedPayload _ _ am => forallb (fun a => is_v1 (am_memory a)) am
  | Model_ConflictResolved, ConflictResolvedPayload _ _ am => forallb (fun a => is_v1 (am_memory a)) am
  | Model_BranchCreated, BranchCreatedPayload _ => true
  | Model_PayloadPurgeCompleted, PayloadPurgeCompletedPayload _ m _ _ _ => is_v1 m
  | Model_PayloadPurgeCompletedV3, PayloadPurgeCompletedPayload _ m _ _ _ => is_v3 m
  | _, _ => false
  end.

(** ** The event envelope *)

(** [payload] is the parsed JSON object of the event, [payload_canonical] its
    Base64 text. *)
Record MemoryEvent : Type := {
  e_schema_version : Z;
  e_payload_version : Z;
  e_sequence : Z;
  e_event_id : UUID;
  e_tenant_id : UUID;
  e_lineage_id : UUID;
  e_branch_id : UUID;
  e_actor_id : UUID;
  e_client_id : UUID;
  e_transport_binding_id : UUID;
  e_session_id : option UUID;
  e_ingress_id : option UUID;
  e_operation : EventOperation;
  e_memory_id : option UUID;
  e_expected_revision : option Z;
  e_causation_event_id : option UUID;
  e_correlation_id : UUID;
  e_idempotency_key : pystr;
  e_policy_version : Z;
  e_normalization_version : Z;
  e_payload : JsonValue;
  e_payload_canonical : pystr;
  e_payload_sha256 : pystr;
  e_command_sha256 : pystr;
  e_created_at : instant
}.

(** The four operation classes of the envelope contract. *)
Definition is_create_operation (op : EventOperation) : bool :=
  match op with EventOperation.OBSERVED | EventOperation.REMEMBERED => true | _ => false end.

Definition is_transition_operation (op : EventOperation) : bool :=
  match op with
  | EventOperation.CANDIDATE_PROMOTED | EventOperation.CANDIDATE_EXPIRED | EventOperation.REVISED
  | EventOperation.SUPERSEDED | EventOperation.RETIRED | EventOperation.TOMBSTONED
  | EventOperation.VISIBILITY_CHANGED | EventOperation.PAYLOAD_PURGE_COMPLETED => true
  | _ => false
  end.

Definition is_evidence_operation (op : EventOperation) : bool :=
  match op with
  | EventOperation.EVIDENCE_ATTACHED | EventOperation.EVIDENCE_REDACTED => true
  | _ => false
  end.

Definition is_aggregate_operation (op : EventOperation) : bool :=
  match op with
  | EventOperation.LINKED | EventOperation.UNLINKED | EventOperation.CONFLICT_OPENED
  | EventOperation.CONFLICT_RESOLVED | EventOperation.BRANCH_CREATED => true
  | _ => false
  end.

Definition validate_event_envelope_shape (e : MemoryEvent) : result unit :=
  let has_memory := negb (is_none (e_memory_id e)) in
  let has_revision := negb (is_none (e_expected_revision e)) in
  let valid :=
    if is_create_operation (e_operation e) then has_memory && negb has_revision
    else if is_transition_operation (e_operation e) then has_memory && has_revision
    else if is_evidence_operation (e_operation e) then has_memory && negb has_revision
    else if is_aggregate_operation (e_operation e) then negb has_memory && negb has_revision
    else false in
  raise_if (negb valid) (EventContractError "invalid envelope target shape for operation").

(** The pydantic library: reading a JSON object into the declared fields of a
    payload class, and [model_dump(mode="python")] of an instance, a fresh
    object graph. *)
Class Pydantic : Type := {
  model_read : PayloadModel -> JsonValue -> option OperationPayload;
  model_dump : OperationPayload -> pyheap * pyval
}.

Section Hashes.
Context `{Rfc8785} `{Pydantic}.

Definition EVENT_VERSIONS : list Z := [1; 2; 3].

Definition typed_payload (e : MemoryEvent) : result OperationPayload :=
  raise_if (bool_decide (e_schema_version e ∉ EVENT_VERSIONS)
            || bool_decide (e_payload_version e ∉ EVENT_VERSIONS))
    (EventContractError "unsupported event payload");;
  model ← from_option_or (PAYLOAD_MODELS (e_operation e) (e_schema_version e) (e_payload_version e))
            (EventContractError "unsupported event payload");
  p ← from_option_or (model_read model (e_payload e)) (ValidationError "payload");
  require (payload_conforms model p) (ValidationError "payload");;
  or_raise (validate_payload p) (ValidationError "payload");;
  Ok p.

(** The decimals of a payload are scores between 0 and 1, for which [int] never
    allocates: any bound does. *)
Definition score_memory : DecimalMemory := ADDRESS_SPACE_DIGITS.
#[local] Existing Instance score_memory.

(** [ContractModel.canonical_value] of a payload. *)
Definition canonical_value (p : OperationPayload) : result JsonValue :=
  let '(h, v) := model_dump p in normalize_json_value h MAX_CANONICAL_JSON_DEPTH v.

Definition json_uuid (u : UUID) : JsonValue := JStr (uuid_str u).
Definition json_opt_uuid (u : option UUID) : JsonValue := from_option json_uuid JNull u.

(** [normalize_json_value(self.command_material())]: the object of the fields
    that identify a command; the payload is nested one level down. *)
Definition command_value (tenant_id lineage_id branch_id actor_id client_id : UUID)
    (operation : EventOperation) (payload_version : Z) (memory_id : option UUID)
    (expected_revision : option Z) (causation_event_id : option UUID) (payload : JsonValue)
    : result JsonValue :=
  version ← normalize_integer payload_version;
  revision ← match expected_revision with
             | Some r => n ← normalize_integer r; Ok (JInt n)
             | None => Ok JNull
             end;
  nested ← normalize_plain (MAX_CANONICAL_JSON_DEPTH - 1) payload;
  Ok (JObject
    [(py "tenant_id", json_uuid tenant_id); (py "lineage_id", json_uuid lineage_id);
     (py "branch_id", json_uuid branch_id); (py "actor_id", json_uuid actor_id);
     (py "client_id", json_uuid client_id); (py "operation", JStr (py (EventOperation.value operation)));
     (py "payload_version", JInt version); (py "memory_id", json_opt_uuid memory_id);
     (py "expected_revision", revision);
     (py "causation_event_id", json_opt_uuid causation_event_id); (py "payload", nested)]).

Definition command_material (e : MemoryEvent) : result JsonValue :=
  command_value (e_tenant_id e) (e_lineage_id e) (e_branch_id e) (e_actor_id e) (e_client_id e)
    (e_operation e) (e_payload_version e) (e_memory_id e) (e_expected_revision e)
    (e_causation_event_id e) (e_payload e).

Definition verify_hashes (e : MemoryEvent) : result unit :=
  typed ← typed_payload e;
  value ← canonical_value typed;
  canonical ← canonical_plain_bytes value;
  recorded ← from_option_or (b64decode (e_payload_canonical e))
               (EventContractError "payload_canonical is not valid base64");
  raise_if (negb (bool_decide (recorded = canonical)))
    (EventContractError "payload canonical bytes do not match parsed payload");;
  raise_if (negb (bool_decide (sha256_hex canonical = e_payload_sha256 e)))
    (EventContractError "payload SHA-256 mismatch");;
  material ← command_material e;
  command ← canonical_plain_bytes material;
  raise_if (negb (bool_decide (sha256_hex command = e_command_sha256 e)))
    (EventContractError "command SHA-256 mismatch").

(** [MemoryEvent.validate_canonical_contract] *)
Definition validate_canonical_contract (e : MemoryEvent) : result unit :=
  validate_event_envelope_shape e;;
  typed_payload e;;
  verify_hashes e.

(** [event_hash_fields]: parsed payload, Base64 canonical bytes, payload hash
    and command hash. *)
Definition event_hash_fields (operation : EventOperation) (payload : OperationPayload)
    (tenant_id lineage_id branch_id actor_id client_id : UUID) (memory_id : option UUID)
    (expected_revision : option Z) (causation_event_id : option UUID) (payload_version : Z)
    : result (JsonValue * pystr * pystr * pystr) :=
  payload_value ← canonical_value payload;
  require (match payload_value with JObject _ => true | _ => false end)
    (EventContractError "event payload must normalize to an object");;
  payload_bytes ← canonical_plain_bytes payload_value;
  material ← command_value tenant_id lineage_id branch_id actor_id client_id operation
               payload_version memory_id expected_revision causation_event_id payload_value;
  command ← canonical_plain_bytes material;
  Ok (payload_value, b64encode payload_bytes, sha256_hex payload_bytes, sha256_hex command).
End Hashes.
