(* ===== verification/Folding.v ===== *)
(** * Folding: the pure deterministic fold of accepted memory events

    Models [domain/folding.py].  [ProjectionState] is the semantic projection;
    the working dictionaries a fold step copies and mutates are passed and
    returned explicitly.  Every guard raises in the order of the source; a
    [FoldError] keeps its code and the event's sequence, its diagnostic text is
    dropped.  Dictionaries are [gmap]s: no fold decision depends on their
    iteration order. *)

From stdpp Require Import base tactics option list gmap strings.
From Stdlib Require Import ZArith Lia Bool.
From S2P Require Import Prelude Identifiers Enums Values CanonicalJson Digest Constraints Events.
Open Scope Z_scope.

(** ** State *)

(** Tenant, lineage, branch. *)
Abbreviation ScopeKey := (UUID * UUID * UUID)%type.

Record ProjectionState : Type := {
  ps_sequence : Z;
  ps_memories : gmap UUID MemoryState;
  ps_evidence : gmap UUID EvidenceState;
  ps_links : gmap UUID LinkState;
  ps_conflicts : gmap UUID ConflictState;
  ps_conflict_members : gmap (UUID * UUID) ConflictMemberState;
  ps_branches : gmap UUID BranchState;
  ps_event_scopes : gmap UUID ScopeKey;
  ps_sequence_scopes : gmap Z ScopeKey
}.

Definition empty_projection : ProjectionState :=
  {| ps_sequence := 0; ps_memories := ∅; ps_evidence := ∅; ps_links := ∅; ps_conflicts := ∅;
     ps_conflict_members := ∅; ps_branches := ∅; ps_event_scopes := ∅; ps_sequence_scopes := ∅ |}.

Record TenantReplayState : Type := {
  trs_tenant_id : UUID;
  trs_projection : ProjectionState
}.

(** [any(test(row) for row in mapping.values())] *)
Definition map_any {K V} `{Countable K} (test : V -> bool) (m : gmap K V) : bool :=
  existsb (fun kv => test kv.2) (map_to_list m).

(** [TenantReplayState(...)] with its [__post_init__] checks. *)
Definition make_tenant_replay_state (tenant_id : UUID) (p : ProjectionState)
    : result TenantReplayState :=
  require_uuid7 tenant_id;;
  raise_if (map_any (fun row => negb (ms_tenant_id row =? tenant_id)) (ps_memories p)
            || map_any (fun row => negb (es_tenant_id row =? tenant_id)) (ps_evidence p)
            || map_any (fun row => negb (ls_tenant_id row =? tenant_id)) (ps_links p)
            || map_any (fun row => negb (cs_tenant_id row =? tenant_id)) (ps_conflicts p)
            || map_any (fun row => negb (bs_tenant_id row =? tenant_id)) (ps_branches p))
    (ValueError "tenant replay projection contains another tenant");;
  raise_if (map_any (fun scope => negb (scope.1.1 =? tenant_id)) (ps_event_scopes p))
    (ValueError "tenant replay event history contains another tenant");;
  raise_if (map_any (fun scope => negb (scope.1.1 =? tenant_id)) (ps_sequence_scopes p))
    (ValueError "tenant replay sequence history contains another tenant");;
  Ok {| trs_tenant_id := tenant_id; trs_projection := p |}.

(** ** Shared checks *)

Definition fail (e : MemoryEvent) (code : string) : exn := FoldError code (e_sequence e).
Arguments fail _ _%_string.

Definition event_scope (e : MemoryEvent) : ScopeKey := (e_tenant_id e, e_lineage_id e, e_branch_id e).

(** [_BRANCH_VISIBILITIES] *)
Definition branch_visibilities (ceiling : MemoryVisibility) : list MemoryVisibility :=
  match ceiling with
  | MemoryVisibility.PRIVATE_ROOT => [MemoryVisibility.PRIVATE_ROOT]
  | MemoryVisibility.RESTRICTED => [MemoryVisibility.PRIVATE_ROOT; MemoryVisibility.RESTRICTED]
  | MemoryVisibility.SHAREABLE =>
    [MemoryVisibility.PRIVATE_ROOT; MemoryVisibility.RESTRICTED; MemoryVisibility.SHAREABLE]
  | MemoryVisibility.PUBLIC_SEED => MemoryVisibility.members
  end.

(** [_memory_after_images]; the candidate, superseded, tombstoned and purge
    payload classes are subclasses of the transition payload. *)
Definition memory_after_images (p : OperationPayload) : list MemoryState :=
  match p with
  | MemoryCreatedPayload m _ | MemoryTransitionPayload _ m | CandidateLifecyclePayload _ m _ _ _
  | SupersededPayload _ m _ | TombstonedPayload _ m _ | PayloadPurgeCompletedPayload _ m _ _ _ => [m]
  | ConflictOpenedPayload _ _ am | ConflictResolvedPayload _ _ am => am_memory <$> am
  | _ => []
  end.

Definition validate_branch_visibility (e : MemoryEvent) (branch : BranchState)
    (p : OperationPayload) : result unit :=
  let allowed := branch_visibilities (bs_visibility_ceiling branch) in
  each (fun m => raise_if (bool_decide (ms_visibility m ∉ allowed))
                   (fail e "branch_visibility_forbidden"))
       (memory_after_images p).

Definition check_scoped_after_image (e : MemoryEvent) (actual : ScopeKey) : result unit :=
  raise_if (bool_decide (actual <> event_scope e)) (fail e "scope_mismatch").

(** The scope columns of each after-image, read by [getattr] in the source. *)
Definition ms_scope_key (m : MemoryState) : ScopeKey := (ms_tenant_id m, ms_lineage_id m, ms_branch_id m).
Definition es_scope_key (i : EvidenceState) : ScopeKey := (es_tenant_id i, es_lineage_id i, es_branch_id i).
Definition ls_scope_key (l : LinkState) : ScopeKey := (ls_tenant_id l, ls_lineage_id l, ls_branch_id l).
Definition cs_scope_key (c : ConflictState) : ScopeKey := (cs_tenant_id c, cs_lineage_id c, cs_branch_id c).
Definition bs_scope_key (b : BranchState) : ScopeKey := (bs_tenant_id b, bs_lineage_id b, bs_branch_id b).

Section Fold.
Context `{Rfc8785} `{Pydantic}.

(** The dictionary the sealed-content binding is computed from. *)
Definition sealed_aad_object (e : MemoryEvent) (m : MemoryState) : pyheap * pyval :=
  ({[0 := CMapping
      [(PStr (py "aad_contract"), PStr (py "scalevault.sealed-content-aad.v1"));
       (PStr (py "algorithm"), PStr (py "AES-256-GCM"));
       (PStr (py "branch_id"), PUUID (e_branch_id e));
       (PStr (py "content_key_id"), from_option PUUID PNone (ms_content_key_id m));
       (PStr (py "event_id"), PUUID (e_event_id e));
       (PStr (py "lineage_id"), PUUID (e_lineage_id e));
       (PStr (py "memory_id"), PUUID (ms_memory_id m));
       (PStr (py "payload_version"), PInt (e_payload_version e));
       (PStr (py "revision"), PInt (ms_revision m));
       (PStr (py "schema_version"), PInt (e_schema_version e));
       (PStr (py "tenant_id"), PUUID (e_tenant_id e))]]}, PRef 0).

(** The binding holds no decimal. *)
#[local] Existing Instance score_memory.

Definition check_target (e : MemoryEvent) (m : MemoryState) : result unit :=
  check_scoped_after_image e (ms_scope_key m);;
  raise_if (bool_decide (e_memory_id e <> Some (ms_memory_id m))) (fail e "memory_mismatch");;
  match ms_sealed_content m with
  | None => Ok tt
  | Some sealed =>
    if bool_decide (ms_content_protection m = envelope_encrypted)
       && is_create_operation (e_operation e)
    then
      raise_if (negb (e_schema_version e =? 3) || negb (e_payload_version e =? 3))
        (fail e "invalid_sealed_contract");;
      let '(h, v) := sealed_aad_object e m in
      aad ← canonical_json_bytes h v;
      raise_if (negb (bool_decide (sha256_hex aad = sc_aad_sha256 sealed)))
        (fail e "invalid_sealed_binding")
    else Ok tt
  end.

Definition check_revision (e : MemoryEvent) (current : MemoryState) (previous_revision : Z)
    (after : MemoryState) (check_envelope : bool) : result unit :=
  raise_if (check_envelope && bool_decide (e_expected_revision e <> Some previous_revision))
    (fail e "expected_revision_mismatch");;
  raise_if (negb (ms_revision current =? previous_revision)) (fail e "stale_event_revision");;
  raise_if (negb (ms_revision after =? previous_revision + 1)) (fail e "invalid_revision");;
  raise_if (negb (ms_memory_id after =? ms_memory_id current)) (fail e "identity_changed");;
  raise_if (negb ((ms_tenant_id after =? ms_tenant_id current)
                  && (ms_lineage_id after =? ms_lineage_id current)
                  && (ms_branch_id after =? ms_branch_id current)
                  && (ms_subject_id after =? ms_subject_id current)
                  && (ms_created_at after =? ms_created_at current)))
    (fail e "identity_changed");;
  (if is_v3 current || is_v3 after then
     raise_if (negb (is_v3 current) || negb (is_v3 after)) (fail e "sealed_identity_changed");;
     raise_if (bool_decide (e_operation e ∉
                 [EventOperation.TOMBSTONED; EventOperation.PAYLOAD_PURGE_COMPLETED]))
       (fail e "unsupported_sealed_transition");;
     raise_if (bool_decide (ms_content_key_id after <> ms_content_key_id current)
               || bool_decide (ms_sealed_content after <> ms_sealed_content current))
       (fail e "sealed_identity_changed")
   else Ok tt);;
  raise_if (negb (ms_updated_at after =? e_created_at e)) (fail e "timestamp_mismatch").

(** [_REVISED_TRANSITIONS] *)
Definition revised_transitions (status : MemoryStatus) : list MemoryStatus :=
  match status with
  | MemoryStatus.CANDIDATE => [MemoryStatus.CANDIDATE; MemoryStatus.ACTIVE; MemoryStatus.DISPUTED]
  | MemoryStatus.ACTIVE => [MemoryStatus.ACTIVE; MemoryStatus.DISPUTED]
  | MemoryStatus.DISPUTED => [MemoryStatus.DISPUTED; MemoryStatus.ACTIVE]
  | _ => []
  end.

Definition check_revised_lifecycle (e : MemoryEvent) (current after : MemoryState) : result unit :=
  raise_if (bool_decide (ms_status after ∉ revised_transitions (ms_status current)))
    (fail e "invalid_lifecycle").

Definition check_candidate_lifecycle (e : MemoryEvent) (current after : MemoryState)
    (required_status : MemoryStatus) : result unit :=
  raise_if (bool_decide (ms_status current <> MemoryStatus.CANDIDATE)) (fail e "invalid_lifecycle");;
  raise_if (bool_decide (ms_status after <> required_status)) (fail e "invalid_lifecycle");;
  raise_if (negb (is_none (ms_candidate_expires_at after))) (fail e "invalid_lifecycle").

(** ** Evidence *)

(** The statuses in which a memory is not terminal. *)
Definition live_statuses : list MemoryStatus :=
  [MemoryStatus.CANDIDATE; MemoryStatus.ACTIVE; MemoryStatus.DISPUTED].

Definition attach_evidence (e : MemoryEvent) (memories : gmap UUID MemoryState)
    (evidence : gmap UUID EvidenceState) (item : EvidenceState) : result (gmap UUID EvidenceState) :=
  check_scoped_after_image e (es_scope_key item);;
  raise_if (bool_decide (Some (es_memory_id item) <> e_memory_id e)) (fail e "evidence_memory_mismatch");;
  target ← from_option_or (memories !! es_memory_id item) (fail e "missing_memory");
  raise_if (bool_decide (ms_status target ∉ live_statuses)) (fail e "invalid_lifecycle");;
  raise_if (bool_decide (es_status item <> evidence_active)) (fail e "invalid_evidence_state");;
  raise_if (negb (es_created_at item =? e_created_at e)) (fail e "timestamp_mismatch");;
  raise_if (bool_decide (is_Some (evidence !! es_evidence_id item))) (fail e "duplicate_evidence");;
  Ok (<[es_evidence_id item := item]> evidence).

Definition attach_candidate_lifecycle_evidence (e : MemoryEvent) (items : list EvidenceState)
    (memories : gmap UUID MemoryState) (evidence : gmap UUID EvidenceState)
    : result (gmap UUID EvidenceState) :=
  raise_if (bool_decide (e_operation e = EventOperation.CANDIDATE_EXPIRED)
            && negb (length items =? 0)%nat)
    (fail e "invalid_lifecycle");;
  foldM (attach_evidence e memories) evidence items.

Definition redact_evidence (e : MemoryEvent) (evidence_id memory_id : UUID) (redacted_at : instant)
    (evidence : gmap UUID EvidenceState) : result (gmap UUID EvidenceState) :=
  current ← from_option_or (evidence !! evidence_id) (fail e "missing_evidence");
  raise_if (bool_decide (e_memory_id e <> Some memory_id)
            || negb (es_memory_id current =? memory_id))
    (fail e "evidence_memory_mismatch");;
  raise_if (negb (redacted_at =? e_created_at e)) (fail e "timestamp_mismatch");;
  Ok (delete evidence_id evidence).

(** ** Memories *)

Definition replace_memory (e : MemoryEvent) (memories : gmap UUID MemoryState)
    (previous_revision : Z) (after : MemoryState) (required_status : option MemoryStatus)
    (preserve_status : bool) : result (gmap UUID MemoryState) :=
  check_target e after;;
  current ← from_option_or (memories !! ms_memory_id after) (fail e "missing_memory");
  check_revision e current previous_revision after true;;
  raise_if (match required_status with
            | Some required => bool_decide (ms_status after <> required)
            | None => false
            end) (fail e "invalid_lifecycle");;
  raise_if (preserve_status && bool_decide (ms_status after <> ms_status current))
    (fail e "invalid_lifecycle");;
  Ok (<[ms_memory_id after := after]> memories).

Definition create_evidence (e : MemoryEvent) (m : MemoryState) (evidence : gmap UUID EvidenceState)
    (item : EvidenceState) : result (gmap UUID EvidenceState) :=
  check_scoped_after_image e (es_scope_key item);;
  raise_if (negb (es_memory_id item =? ms_memory_id m)) (fail e "evidence_memory_mismatch");;
  raise_if (bool_decide (is_Some (evidence !! es_evidence_id item))) (fail e "duplicate_evidence");;
  raise_if (negb (es_created_at item =? e_created_at e)) (fail e "timestamp_mismatch");;
  Ok (<[es_evidence_id item := item]> evidence).

Definition create_memory (e : MemoryEvent) (m : MemoryState) (items : list EvidenceState)
    (memories : gmap UUID MemoryState) (evidence : gmap UUID EvidenceState)
    : result (gmap UUID MemoryState * gmap UUID EvidenceState) :=
  check_target e m;;
  raise_if (negb (is_none (e_expected_revision e))) (fail e "unexpected_revision");;
  raise_if (bool_decide (is_Some (memories !! ms_memory_id m))) (fail e "duplicate_memory");;
  raise_if (negb (ms_revision m =? 1)) (fail e "invalid_revision");;
  raise_if (negb (ms_created_at m =? e_created_at e) || negb (ms_updated_at m =? e_created_at e))
    (fail e "timestamp_mismatch");;
  raise_if (bool_decide (e_operation e = EventOperation.OBSERVED)
            && bool_decide (ms_status m <> MemoryStatus.CANDIDATE))
    (fail e "invalid_lifecycle");;
  raise_if (bool_decide (e_operation e = EventOperation.REMEMBERED)
            && bool_decide (ms_status m ∉ [MemoryStatus.CANDIDATE; MemoryStatus.ACTIVE]))
    (fail e "invalid_lifecycle");;
  evidence' ← foldM (create_evidence e m) evidence items;
  Ok (<[ms_memory_id m := m]> memories, evidence').

(** ** Links *)

Definition link_memories (e : MemoryEvent) (item : LinkState) (memories : gmap UUID MemoryState)
    (links : gmap UUID LinkState) : result (gmap UUID LinkState) :=
  check_scoped_after_image e (ls_scope_key item);;
  raise_if (bool_decide (is_Some (links !! ls_link_id item))) (fail e "duplicate_link");;
  raise_if (bool_decide (ls_status item <> link_active)) (fail e "invalid_link_state");;
  raise_if (negb (ls_created_at item =? e_created_at e)) (fail e "timestamp_mismatch");;
  raise_if (bool_decide (memories !! ls_source_memory_id item = None)
            || bool_decide (memories !! ls_target_memory_id item = None))
    (fail e "missing_link_endpoint");;
  Ok (<[ls_link_id item := item]> links).

Definition unlink (e : MemoryEvent) (item : LinkState) (links : gmap UUID LinkState)
    : result (gmap UUID LinkState) :=
  check_scoped_after_image e (ls_scope_key item);;
  current ← from_option_or (links !! ls_link_id item) (fail e "missing_link");
  raise_if (bool_decide (ls_status current <> link_active)
            || bool_decide (ls_status item <> link_unlinked))
    (fail e "invalid_link_state");;
  raise_if (bool_decide (ls_unlinked_at item <> Some (e_created_at e))) (fail e "timestamp_mismatch");;
  raise_if (negb ((ls_link_id item =? ls_link_id current)
                  && (ls_tenant_id item =? ls_tenant_id current)
                  && (ls_lineage_id item =? ls_lineage_id current)
                  && (ls_branch_id item =? ls_branch_id current)
                  && (ls_source_memory_id item =? ls_source_memory_id current)
                  && (ls_target_memory_id item =? ls_target_memory_id current)
                  && bool_decide (ls_link_type item = ls_link_type current)
                  && (ls_created_at item =? ls_created_at current)))
    (fail e "identity_changed");;
  Ok (<[ls_link_id item := item]> links).

(** ** Conflicts *)

(** One iteration of [_apply_affected_memories]: the ids seen so far and the
    working memories. *)
Definition apply_affected_memory (e : MemoryEvent) (opening : bool)
    (acc : gset UUID * gmap UUID MemoryState) (change : AffectedMemory)
    : result (gset UUID * gmap UUID MemoryState) :=
  let '(ids, memories) := acc in
  let after := am_memory change in
  raise_if (bool_decide (ms_memory_id after ∈ ids)) (fail e "duplicate_conflict_member");;
  check_scoped_after_image e (ms_scope_key after);;
  current ← from_option_or (memories !! ms_memory_id after) (fail e "missing_memory");
  check_revision e current (am_previous_revision change) after false;;
  (if opening then
     raise_if (bool_decide (ms_status current ∉ [MemoryStatus.CANDIDATE; MemoryStatus.ACTIVE]))
       (fail e "invalid_lifecycle");;
     raise_if (bool_decide (ms_status after <> MemoryStatus.DISPUTED)) (fail e "invalid_lifecycle")
   else
     raise_if (bool_decide (ms_status current <> MemoryStatus.DISPUTED)) (fail e "invalid_lifecycle");;
     raise_if (bool_decide (ms_status after ∉
                 [MemoryStatus.ACTIVE; MemoryStatus.SUPERSEDED; MemoryStatus.RETIRED]))
       (fail e "invalid_lifecycle"));;
  Ok ({[ms_memory_id after]} ∪ ids, <[ms_memory_id after := after]> memories).

Definition apply_affected_memories (e : MemoryEvent) (affected : list AffectedMemory)
    (memories : gmap UUID MemoryState) (opening : bool)
    : result (gset UUID * gmap UUID MemoryState) :=
  foldM (apply_affected_memory e opening) (∅, memories) affected.

Definition member_ids (members : list ConflictMemberState) : gset UUID :=
  list_to_set (cm_memory_id <$> members).

(** The loop that inserts the memberships of a new conflict. *)
Definition add_member (e : MemoryEvent) (conflict_members : gmap (UUID * UUID) ConflictMemberState)
    (member : ConflictMemberState) : result (gmap (UUID * UUID) ConflictMemberState) :=
  let key := (cm_conflict_id member, cm_memory_id member) in
  raise_if (bool_decide (is_Some (conflict_members !! key))) (fail e "duplicate_conflict_member");;
  Ok (<[key := member]> conflict_members).

Definition open_conflict (e : MemoryEvent) (conflict : ConflictState)
    (members : list ConflictMemberState) (affected : list AffectedMemory)
    (memories : gmap UUID MemoryState) (conflicts : gmap UUID ConflictState)
    (conflict_members : gmap (UUID * UUID) ConflictMemberState)
    : result (gmap UUID MemoryState * gmap UUID ConflictState
              * gmap (UUID * UUID) ConflictMemberState) :=
  check_scoped_after_image e (cs_scope_key conflict);;
  raise_if (bool_decide (is_Some (conflicts !! cs_conflict_id conflict))) (fail e "duplicate_conflict");;
  raise_if (bool_decide (cs_status conflict <> conflict_open)) (fail e "invalid_conflict_state");;
  raise_if (negb (cs_opened_at conflict =? e_created_at e)) (fail e "timestamp_mismatch");;
  '(affected_ids, memories') ← apply_affected_memories e affected memories true;
  raise_if (existsb (fun m => negb (cm_joined_at m =? e_created_at e)) members)
    (fail e "timestamp_mismatch");;
  raise_if (bool_decide (affected_ids <> member_ids members)) (fail e "conflict_member_mismatch");;
  raise_if (existsb (fun m => match memories' !! cm_memory_id m with
                              | Some row => negb (ms_subject_id row =? cs_subject_id conflict)
                              | None => true
                              end) members)
    (fail e "conflict_subject_mismatch");;
  conflict_members' ← foldM (add_member e) conflict_members members;
  Ok (memories', <[cs_conflict_id conflict := conflict]> conflicts, conflict_members').

(** [{memory_id for (conflict_id, memory_id) in conflict_members if ...}] *)
Definition current_member_ids (conflict_id : UUID)
    (conflict_members : gmap (UUID * UUID) ConflictMemberState) : gset UUID :=
  list_to_set ((fun kv => kv.1.2) <$> filter (fun kv => kv.1.1 = conflict_id) (map_to_list conflict_members)).

Definition check_join_time (e : MemoryEvent)
    (conflict_members : gmap (UUID * UUID) ConflictMemberState) (member : ConflictMemberState)
    : result unit :=
  old_member ← from_option_or (conflict_members !! (cm_conflict_id member, cm_memory_id member)) KeyError;
  raise_if (negb (cm_joined_at member =? cm_joined_at old_member)) (fail e "identity_changed").

(** Replace every membership row of the conflict by the given ones. *)
Definition replace_members (conflict_id : UUID) (members : list ConflictMemberState)
    (conflict_members : gmap (UUID * UUID) ConflictMemberState)
    : gmap (UUID * UUID) ConflictMemberState :=
  fold_left (fun acc member => <[(cm_conflict_id member, cm_memory_id member) := member]> acc) members
    (filter (fun kv => kv.1.1 <> conflict_id) conflict_members).

Definition resolve_conflict (e : MemoryEvent) (conflict : ConflictState)
    (members : list ConflictMemberState) (affected : list AffectedMemory)
    (memories : gmap UUID MemoryState) (conflicts : gmap UUID ConflictState)
    (conflict_members : gmap (UUID * UUID) ConflictMemberState)
    : result (gmap UUID MemoryState * gmap UUID ConflictState
              * gmap (UUID * UUID) ConflictMemberState) :=
  check_scoped_after_image e (cs_scope_key conflict);;
  current ← from_option_or (conflicts !! cs_conflict_id conflict) (fail e "missing_conflict");
  raise_if (bool_decide (cs_status current <> conflict_open)
            || bool_decide (cs_status conflict <> conflict_resolved))
    (fail e "invalid_conflict_state");;
  raise_if (bool_decide (cs_resolved_at conflict <> Some (e_created_at e))) (fail e "timestamp_mismatch");;
  raise_if (negb ((cs_conflict_id conflict =? cs_conflict_id current)
                  && (cs_tenant_id conflict =? cs_tenant_id current)
                  && (cs_lineage_id conflict =? cs_lineage_id current)
                  && (cs_branch_id conflict =? cs_branch_id current)
                  && (cs_subject_id conflict =? cs_subject_id current)
                  && bool_decide (cs_reason conflict = cs_reason current)
                  && (cs_opened_at conflict =? cs_opened_at current)))
    (fail e "identity_changed");;
  raise_if (bool_decide (current_member_ids (cs_conflict_id conflict) conflict_members
                         <> member_ids members))
    (fail e "conflict_member_mismatch");;
  each (check_join_time e conflict_members) members;;
  '(affected_ids, memories') ← apply_affected_memories e affected memories false;
  raise_if (bool_decide (affected_ids <> member_ids members)) (fail e "conflict_member_mismatch");;
  Ok (memories', <[cs_conflict_id conflict := conflict]> conflicts,
      replace_members (cs_conflict_id conflict) members conflict_members).

(** ** Branches *)

Definition create_branch (e : MemoryEvent) (branch : BranchState) (branches : gmap UUID BranchState)
    (sequence_scopes : gmap Z ScopeKey) : result (gmap UUID BranchState) :=
  check_scoped_after_image e (bs_scope_key branch);;
  raise_if (negb (bs_branch_id branch =? e_branch_id e)) (fail e "branch_mismatch");;
  raise_if (bool_decide (is_Some (branches !! bs_branch_id branch))) (fail e "duplicate_branch");;
  raise_if (negb (bs_created_at branch =? e_created_at e)) (fail e "timestamp_mismatch");;
  (match bs_parent_branch_id branch with
   | None => Ok tt
   | Some parent_id =>
     parent ← from_option_or (branches !! parent_id) (fail e "missing_parent_branch");
     raise_if (negb (bs_tenant_id parent =? bs_tenant_id branch)
               || negb (bs_lineage_id parent =? bs_lineage_id branch))
       (fail e "branch_scope_mismatch");;
     raise_if (bool_decide (sequence_scopes !! default 0 (bs_fork_event_sequence branch)
                            <> Some (bs_tenant_id branch, bs_lineage_id branch, parent_id)))
       (fail e "invalid_fork_sequence")
   end);;
  Ok (<[bs_branch_id branch := branch]> branches).

(** ** One event *)

(** The working copies of the projection's dictionaries. *)
Record Working : Type := {
  w_memories : gmap UUID MemoryState;
  w_evidence : gmap UUID EvidenceState;
  w_links : gmap UUID LinkState;
  w_conflicts : gmap UUID ConflictState;
  w_conflict_members : gmap (UUID * UUID) ConflictMemberState;
  w_branches : gmap UUID BranchState
}.

Definition working_of (s : ProjectionState) : Working :=
  {| w_memories := ps_memories s; w_evidence := ps_evidence s; w_links := ps_links s;
     w_conflicts := ps_conflicts s; w_conflict_members := ps_conflict_members s;
     w_branches := ps_branches s |}.

Definition set_memories (w : Working) (m : gmap UUID MemoryState) : Working :=
  {| w_memories := m; w_evidence := w_evidence w; w_links := w_links w;
     w_conflicts := w_conflicts w; w_conflict_members := w_conflict_members w;
     w_branches := w_branches w |}.

Definition set_evidence (w : Working) (ev : gmap UUID EvidenceState) : Working :=
  {| w_memories := w_memories w; w_evidence := ev; w_links := w_links w;
     w_conflicts := w_conflicts w; w_conflict_members := w_conflict_members w;
     w_branches := w_branches w |}.

Definition set_links (w : Working) (l : gmap UUID LinkState) : Working :=
  {| w_memories := w_memories w; w_evidence := w_evidence w; w_links := l;
     w_conflicts := w_conflicts w; w_conflict_members := w_conflict_members w;
     w_branches := w_branches w |}.

Definition set_conflicts (w : Working) (m : gmap UUID MemoryState) (c : gmap UUID ConflictState)
    (cm : gmap (UUID * UUID) ConflictMemberState) : Working :=
  {| w_memories := m; w_evidence := w_evidence w; w_links := w_links w; w_conflicts := c;
     w_conflict_members := cm; w_branches := w_branches w |}.

Definition set_branches (w : Working) (b : gmap UUID BranchState) : Working :=
  {| w_memories := w_memories w; w_evidence := w_evidence w; w_links := w_links w;
     w_conflicts := w_conflicts w; w_conflict_members := w_conflict_members w; w_branches := b |}.

(** Guard of RETIRED and SUPERSEDED: a known target must not be terminal. *)
Definition require_live (e : MemoryEvent) (current : option MemoryState) : result unit :=
  raise_if (match current with
            | Some c => bool_decide (ms_status c ∉ live_statuses)
            | None => false
            end) (fail e "invalid_lifecycle").

(** Guards of TOMBSTONED before the replacement. *)
Definition check_tombstone (e : MemoryEvent) (current : option MemoryState) (after : MemoryState)
    (mode : ForgetMode) : result unit :=
  raise_if (match current with
            | Some c => bool_decide (ms_status c = MemoryStatus.TOMBSTONED)
            | None => false
            end) (fail e "invalid_lifecycle");;
  raise_if (bool_decide (mode = forget_hard) &&
            match current with
            | None => true
            | Some c => bool_decide (ms_content_protection c <> envelope_encrypted)
                        || bool_decide (ms_content_protection after <> envelope_encrypted)
                        || bool_decide (ms_content_key_id after <> ms_content_key_id c)
            end) (fail e "hard_forget_unprotected").

(** Guards of PAYLOAD_PURGE_COMPLETED before the replacement. *)
Definition check_purge (e : MemoryEvent) (current : option MemoryState) (after : MemoryState)
    (content_key_id : UUID) (key_destroyed_at : instant) : result unit :=
  raise_if (match current with
            | Some c => bool_decide (ms_status c <> MemoryStatus.TOMBSTONED)
            | None => true
            end) (fail e "invalid_lifecycle");;
  raise_if (match current with
            | Some c => bool_decide (ms_content_protection c <> envelope_encrypted)
            | None => true
            end) (fail e "invalid_purge");;
  raise_if (bool_decide (ms_content_protection after <> cryptographically_erased)) (fail e "invalid_purge");;
  raise_if (bool_decide (ms_content_key_id after <> Some content_key_id)) (fail e "invalid_purge");;
  raise_if (negb (key_destroyed_at =? e_created_at e)) (fail e "timestamp_mismatch").

(** The [match event.operation] of [_fold_event]; a payload of another class
    than the branch asserts is an [AssertionError]. *)
Definition apply_operation (s : ProjectionState) (e : MemoryEvent) (p : OperationPayload) (w : Working)
    : result Working :=
  match e_operation e, p with
  | (EventOperation.OBSERVED | EventOperation.REMEMBERED), MemoryCreatedPayload m items =>
    '(memories, evidence) ← create_memory e m items (w_memories w) (w_evidence w);
    Ok (set_evidence (set_memories w memories) evidence)
  | EventOperation.CANDIDATE_PROMOTED, CandidateLifecyclePayload prev m _ _ items =>
    memories ← replace_memory e (w_memories w) prev m None false;
    current ← from_option_or (w_memories w !! ms_memory_id m) AssertionError;
    check_candidate_lifecycle e current m MemoryStatus.ACTIVE;;
    evidence ← attach_candidate_lifecycle_evidence e items memories (w_evidence w);
    Ok (set_evidence (set_memories w memories) evidence)
  | EventOperation.CANDIDATE_EXPIRED, CandidateLifecyclePayload prev m _ _ items =>
    memories ← replace_memory e (w_memories w) prev m None false;
    current ← from_option_or (w_memories w !! ms_memory_id m) AssertionError;
    check_candidate_lifecycle e current m MemoryStatus.RETIRED;;
    evidence ← attach_candidate_lifecycle_evidence e items memories (w_evidence w);
    Ok (set_evidence (set_memories w memories) evidence)
  | EventOperation.REVISED, MemoryTransitionPayload prev m =>
    memories ← replace_memory e (w_memories w) prev m None false;
    current ← from_option_or (w_memories w !! ms_memory_id m) AssertionError;
    check_revised_lifecycle e current m;;
    Ok (set_memories w memories)
  | EventOperation.VISIBILITY_CHANGED, MemoryTransitionPayload prev m =>
    memories ← replace_memory e (w_memories w) prev m None true;
    current ← from_option_or (w_memories w !! ms_memory_id m) AssertionError;
    raise_if (bool_decide (ms_status current = MemoryStatus.TOMBSTONED)) (fail e "invalid_lifecycle");;
    raise_if (bool_decide (ms_visibility m = ms_visibility current)) (fail e "unchanged_visibility");;
    Ok (set_memories w memories)
  | EventOperation.RETIRED, MemoryTransitionPayload prev m =>
    require_live e (w_memories w !! ms_memory_id m);;
    memories ← replace_memory e (w_memories w) prev m (Some MemoryStatus.RETIRED) false;
    Ok (set_memories w memories)
  | EventOperation.SUPERSEDED, SupersededPayload prev m l =>
    require_live e (w_memories w !! ms_memory_id m);;
    memories ← replace_memory e (w_memories w) prev m (Some MemoryStatus.SUPERSEDED) false;
    links ← link_memories e l memories (w_links w);
    Ok (set_links (set_memories w memories) links)
  | EventOperation.TOMBSTONED, TombstonedPayload prev m mode =>
    check_tombstone e (w_memories w !! ms_memory_id m) m mode;;
    memories ← replace_memory e (w_memories w) prev m (Some MemoryStatus.TOMBSTONED) false;
    raise_if (map_any (fun item => es_memory_id item =? ms_memory_id m) (w_evidence w))
      (fail e "unsanitized_tombstone");;
    Ok (set_memories w memories)
  | EventOperation.EVIDENCE_ATTACHED, EvidenceAttachedPayload item =>
    evidence ← attach_evidence e (w_memories w) (w_evidence w) item;
    Ok (set_evidence w evidence)
  | EventOperation.EVIDENCE_REDACTED, EvidenceRedactedPayload eid mid at_ _ =>
    evidence ← redact_evidence e eid mid at_ (w_evidence w);
    Ok (set_evidence w evidence)
  | EventOperation.LINKED, LinkedPayload l =>
    links ← link_memories e l (w_memories w) (w_links w);
    Ok (set_links w links)
  | EventOperation.UNLINKED, UnlinkedPayload l =>
    links ← unlink e l (w_links w);
    Ok (set_links w links)
  | EventOperation.CONFLICT_OPENED, ConflictOpenedPayload c ms am =>
    '(memories, conflicts, members) ←
      open_conflict e c ms am (w_memories w) (w_conflicts w) (w_conflict_members w);
    Ok (set_conflicts w memories conflicts members)
  | EventOperation.CONFLICT_RESOLVED, ConflictResolvedPayload c ms am =>
    '(memories, conflicts, members) ←
      resolve_conflict e c ms am (w_memories w) (w_conflicts w) (w_conflict_members w);
    Ok (set_conflicts w memories conflicts members)
  | EventOperation.BRANCH_CREATED, BranchCreatedPayload b =>
    branches ← create_branch e b (w_branches w) (ps_sequence_scopes s);
    Ok (set_branches w branches)
  | EventOperation.PAYLOAD_PURGE_COMPLETED, PayloadPurgeCompletedPayload prev m k at_ _ =>
    check_purge e (w_memories w !! ms_memory_id m) m k at_;;
    memories ← replace_memory e (w_memories w) prev m (Some MemoryStatus.TOMBSTONED) false;
    Ok (set_memories w memories)
  | _, _ => Err AssertionError
  end.

(** The checks of [_fold_event] that precede the operation. *)
Definition check_envelope (s : ProjectionState) (e : MemoryEvent) (contiguous : bool) : result unit :=
  raise_if (contiguous && negb (e_sequence e =? ps_sequence s + 1)) (fail e "sequence_gap");;
  raise_if (negb contiguous && (e_sequence e <=? ps_sequence s)) (fail e "sequence_not_increasing");;
  or_raise (validate_event_envelope_shape e) (fail e "invalid_envelope");;
  verify_hashes e;;
  raise_if (bool_decide (is_Some (ps_event_scopes s !! e_event_id e))) (fail e "duplicate_event");;
  (if bool_decide (e_operation e <> EventOperation.BRANCH_CREATED) then
     branch ← from_option_or (ps_branches s !! e_branch_id e) (fail e "missing_branch");
     raise_if (bool_decide ((bs_tenant_id branch, bs_lineage_id branch)
                            <> (e_tenant_id e, e_lineage_id e)))
       (fail e "branch_scope_mismatch")
   else Ok tt);;
  match e_causation_event_id e with
  | None => Ok tt
  | Some cause =>
    cause_scope ← from_option_or (ps_event_scopes s !! cause) (fail e "missing_causation");
    raise_if (bool_decide (cause_scope.1 <> (event_scope e).1)) (fail e "causation_scope_mismatch")
  end.

(** [ProjectionState(...)] built from the working copies; its [__post_init__]
    refuses a negative sequence. *)
Definition commit (s : ProjectionState) (e : MemoryEvent) (w : Working) : result ProjectionState :=
  raise_if (e_sequence e <? 0) (ValueError "projection sequence cannot be negative");;
  Ok {| ps_sequence := e_sequence e;
        ps_memories := w_memories w; ps_evidence := w_evidence w; ps_links := w_links w;
        ps_conflicts := w_conflicts w; ps_conflict_members := w_conflict_members w;
        ps_branches := w_branches w;
        ps_event_scopes := <[e_event_id e := event_scope e]> (ps_event_scopes s);
        ps_sequence_scopes := <[e_sequence e := event_scope e]> (ps_sequence_scopes s) |}.

(** [_fold_event] *)
Definition fold_event_with (contiguous : bool) (s : ProjectionState) (e : MemoryEvent)
    : result ProjectionState :=
  check_envelope s e contiguous;;
  payload ← typed_payload e;
  (if bool_decide (e_operation e <> EventOperation.BRANCH_CREATED) then
     branch ← from_option_or (ps_branches s !! e_branch_id e) KeyError;
     validate_branch_visibility e branch payload
   else Ok tt);;
  w ← apply_operation s e payload (working_of s);
  commit s e w.

Definition fold_event (s : ProjectionState) (e : MemoryEvent) : result ProjectionState :=
  fold_event_with true s e.

Definition fold_tenant_event (t : TenantReplayState) (e : MemoryEvent) : result TenantReplayState :=
  raise_if (negb (e_tenant_id e =? trs_tenant_id t)) (fail e "tenant_scope_mismatch");;
  projection ← fold_event_with false (trs_projection t) e;
  make_tenant_replay_state (trs_tenant_id t) projection.

Definition rebuild (events : list MemoryEvent) : result ProjectionState :=
  foldM fold_event empty_projection events.

Definition rebuild_tenant (tenant_id : UUID) (events : list MemoryEvent) : result TenantReplayState :=
  initial ← make_tenant_replay_state tenant_id empty_projection;
  foldM fold_tenant_event initial events.
End Fold.
