(* ===== verification/FoldingFacts.v ===== *)
(** * FoldingFacts: what one accepted event does to a projection

    The lemmas every fold theorem rests on: inversion of each handler, the
    lifecycle as an abstract step relation, and the evolution relation
    [mem_evolves] that one accepted event induces on the memories. *)

From stdpp Require Import base tactics option list gmap strings.
From Stdlib Require Import ZArith Lia Bool.
From S2P Require Import Prelude Identifiers Enums Values CanonicalJson Digest Constraints Events Folding.
Open Scope Z_scope.

(** ** The lifecycle contract *)

(** The status transitions each operation may cause: the specification the
    handlers of [folding.py] implement. *)
Inductive lifecycle_step : EventOperation -> MemoryStatus -> MemoryStatus -> Prop :=
| step_promoted :
    lifecycle_step EventOperation.CANDIDATE_PROMOTED MemoryStatus.CANDIDATE MemoryStatus.ACTIVE
| step_expired :
    lifecycle_step EventOperation.CANDIDATE_EXPIRED MemoryStatus.CANDIDATE MemoryStatus.RETIRED
| step_revised s s' :
    (s, s') ∈ [(MemoryStatus.CANDIDATE, MemoryStatus.CANDIDATE); (MemoryStatus.CANDIDATE, MemoryStatus.ACTIVE);
               (MemoryStatus.CANDIDATE, MemoryStatus.DISPUTED); (MemoryStatus.ACTIVE, MemoryStatus.ACTIVE);
               (MemoryStatus.ACTIVE, MemoryStatus.DISPUTED); (MemoryStatus.DISPUTED, MemoryStatus.DISPUTED);
               (MemoryStatus.DISPUTED, MemoryStatus.ACTIVE)] ->
    lifecycle_step EventOperation.REVISED s s'
| step_visibility s : s <> MemoryStatus.TOMBSTONED ->
    lifecycle_step EventOperation.VISIBILITY_CHANGED s s
| step_retired s : s ∈ [MemoryStatus.CANDIDATE; MemoryStatus.ACTIVE; MemoryStatus.DISPUTED] ->
    lifecycle_step EventOperation.RETIRED s MemoryStatus.RETIRED
| step_superseded s : s ∈ [MemoryStatus.CANDIDATE; MemoryStatus.ACTIVE; MemoryStatus.DISPUTED] ->
    lifecycle_step EventOperation.SUPERSEDED s MemoryStatus.SUPERSEDED
| step_tombstoned s : s <> MemoryStatus.TOMBSTONED ->
    lifecycle_step EventOperation.TOMBSTONED s MemoryStatus.TOMBSTONED
| step_purged :
    lifecycle_step EventOperation.PAYLOAD_PURGE_COMPLETED MemoryStatus.TOMBSTONED MemoryStatus.TOMBSTONED
| step_opened s : s ∈ [MemoryStatus.CANDIDATE; MemoryStatus.ACTIVE] ->
    lifecycle_step EventOperation.CONFLICT_OPENED s MemoryStatus.DISPUTED
| step_resolved s : s ∈ [MemoryStatus.ACTIVE; MemoryStatus.SUPERSEDED; MemoryStatus.RETIRED] ->
    lifecycle_step EventOperation.CONFLICT_RESOLVED MemoryStatus.DISPUTED s.

Lemma revised_step s s' : s' ∈ revised_transitions s -> lifecycle_step EventOperation.REVISED s s'.
Proof.
  intros Hin. constructor. destruct s; cbn [revised_transitions] in Hin;
    repeat (apply elem_of_cons in Hin as [->|Hin]; [by rewrite !elem_of_cons; eauto 10|]);
    by apply elem_of_nil in Hin.
Qed.

(** One revision of a memory caused by event [e]. *)
Record successor (e : MemoryEvent) (current after : MemoryState) : Prop := {
  suc_id : ms_memory_id after = ms_memory_id current;
  suc_revision : ms_revision after = ms_revision current + 1;
  suc_scope : ms_scope_key after = ms_scope_key current;
  suc_owner : ms_scope_key after = event_scope e;
  suc_subject : ms_subject_id after = ms_subject_id current;
  suc_created : ms_created_at after = ms_created_at current;
  suc_updated : ms_updated_at after = e_created_at e;
  suc_sealed : is_v3 after = is_v3 current;
  suc_sealed_content : is_v3 current = true ->
    ms_sealed_content after = ms_sealed_content current /\
    ms_content_key_id after = ms_content_key_id current /\
    (e_operation e = EventOperation.TOMBSTONED \/ e_operation e = EventOperation.PAYLOAD_PURGE_COMPLETED);
  suc_lifecycle : lifecycle_step (e_operation e) (ms_status current) (ms_status after);
  suc_valid : validate_memory after = Ok tt
}.

(** A memory that event [e] creates. *)
Record created_by (e : MemoryEvent) (m : MemoryState) : Prop := {
  crt_operation : is_create_operation (e_operation e) = true;
  crt_target : e_memory_id e = Some (ms_memory_id m);
  crt_revision : ms_revision m = 1;
  crt_owner : ms_scope_key m = event_scope e;
  crt_created : ms_created_at m = e_created_at e;
  crt_updated : ms_updated_at m = e_created_at e;
  crt_status : ms_status m ∈ [MemoryStatus.CANDIDATE; MemoryStatus.ACTIVE];
  crt_valid : validate_memory m = Ok tt
}.

(** How one event may change the memory stored under one identifier. *)
Definition mem_evolves_at (e : MemoryEvent) (id : UUID) (o o' : option MemoryState) : Prop :=
  match o, o' with
  | None, None => True
  | None, Some m => ms_memory_id m = id /\ created_by e m
  | Some m, Some m' => m' = m \/ successor e m m'
  | Some _, None => False
  end.

Definition mem_evolves (e : MemoryEvent) (M M' : gmap UUID MemoryState) : Prop :=
  forall id, mem_evolves_at e id (M !! id) (M' !! id).

(** What event [e] with payload [p] does to the memories: every after-image of
    the payload is stored, as a creation or as the successor of the row it
    replaces, and no other memory changes. *)
Definition mem_changes (e : MemoryEvent) (p : OperationPayload) (M M' : gmap UUID MemoryState) : Prop :=
  (forall m, m ∈ memory_after_images p ->
     M' !! ms_memory_id m = Some m /\
     match M !! ms_memory_id m with None => created_by e m | Some old => successor e old m end) /\
  (forall id, id ∉ ms_memory_id <$> memory_after_images p -> M' !! id = M !! id).

(** ** Inversion of the checks *)

Lemma each_Ok {A} (check : A -> result unit) (l : list A) u :
  each check l = Ok u <-> Forall (fun a => check a = Ok tt) l.
Proof.
  unfold each. destruct u. induction l as [|a l IH]; simpl; [split; [constructor|done]|].
  rewrite Forall_cons, bind_Ok. split.
  - intros ([] & Ha & Hl). by apply IH in Hl.
  - intros [Ha Hl]. exists tt. split; [done|]. by apply IH.
Qed.

Lemma map_any_false {K V} `{Countable K} (test : V -> bool) (m : gmap K V) :
  map_any test m = false <-> forall k v, m !! k = Some v -> test v = false.
Proof.
  unfold map_any. rewrite existsb_false. split.
  - intros Hall k v Hk. by apply (Hall (k, v)), elem_of_map_to_list.
  - intros Hall [k v] Hin. eapply Hall. by apply elem_of_map_to_list.
Qed.

Section Facts.
Context `{Rfc8785} `{Pydantic}.

Lemma check_scoped_Ok e actual u : check_scoped_after_image e actual = Ok u -> actual = event_scope e.
Proof. unfold check_scoped_after_image. intros Hc. by inv_ok. Qed.

Lemma check_target_Ok e m u : check_target e m = Ok u ->
  ms_scope_key m = event_scope e /\ e_memory_id e = Some (ms_memory_id m).
Proof.
  unfold check_target. intros Hc. apply bind_Ok in Hc as ([] & H1 & Hc).
  apply bind_Ok in Hc as ([] & H2 & _). apply check_scoped_Ok in H1. by inv_ok.
Qed.

Lemma check_revision_Ok e current prev after ce u :
  check_revision e current prev after ce = Ok u ->
  (ce = true -> e_expected_revision e = Some prev) /\
  ms_revision current = prev /\ ms_revision after = prev + 1 /\
  ms_memory_id after = ms_memory_id current /\ ms_scope_key after = ms_scope_key current /\
  ms_subject_id after = ms_subject_id current /\ ms_created_at after = ms_created_at current /\
  ms_updated_at after = e_created_at e /\ is_v3 after = is_v3 current /\
  (is_v3 current = true ->
     ms_sealed_content after = ms_sealed_content current /\
     ms_content_key_id after = ms_content_key_id current /\
     (e_operation e = EventOperation.TOMBSTONED \/
      e_operation e = EventOperation.PAYLOAD_PURGE_COMPLETED)).
Proof.
  unfold check_revision. intros Hc.
  do 6 (apply bind_Ok in Hc as ([] & ? & Hc)). inv_ok. rewrite Z.eqb_eq in *.
  unfold ms_scope_key. destruct (is_v3 current) eqn:Ec, (is_v3 after) eqn:Ea; simpl in *; inv_ok;
    repeat split; try congruence; try done.
  - intros ->. simpl in *. by inv_ok.
  - set_solver.
  - intros ->. simpl in *. by inv_ok.
Qed.

(** ** Inversion of the handlers *)

(** What a revision leaves behind before its status is constrained. *)
Lemma successor_intro e current prev after ce u :
  check_revision e current prev after ce = Ok u -> ms_scope_key after = event_scope e ->
  lifecycle_step (e_operation e) (ms_status current) (ms_status after) ->
  validate_memory after = Ok tt -> successor e current after.
Proof.
  intros Hc Hs Hl Hv. apply check_revision_Ok in Hc. destruct_and!. split; try done; congruence.
Qed.

Lemma replace_memory_Ok e M prev after req keep M' :
  replace_memory e M prev after req keep = Ok M' ->
  exists current,
    M !! ms_memory_id after = Some current /\ M' = <[ms_memory_id after := after]> M /\
    e_memory_id e = Some (ms_memory_id after) /\ e_expected_revision e = Some prev /\
    prev = ms_revision current /\ ms_scope_key after = event_scope e /\
    check_revision e current prev after true = Ok tt /\
    (forall r, req = Some r -> ms_status after = r) /\
    (keep = true -> ms_status after = ms_status current).
Proof.
  unfold replace_memory. intros Hr. apply bind_Ok in Hr as ([] & Ht & Hr).
  apply check_target_Ok in Ht as [Hs Hid]. apply bind_Ok in Hr as (current & Hcur & Hr).
  apply from_option_or_Ok in Hcur. apply bind_Ok in Hr as ([] & Hrev & Hr).
  pose proof (check_revision_Ok _ _ _ _ _ _ Hrev) as Hfacts. destruct_and!. inv_ok.
  exists current. repeat split; try done.
  - auto.
  - intros r ->. simpl in *. by inv_ok.
  - intros ->. simpl in *. by inv_ok.
Qed.

Lemma mem_evolves_refl e M : mem_evolves e M M.
Proof. intros id. destruct (M !! id); simpl; auto. Qed.

Lemma mem_evolves_replace e M current after :
  M !! ms_memory_id after = Some current -> successor e current after ->
  mem_evolves e M (<[ms_memory_id after := after]> M).
Proof.
  intros Hcur Hsuc id. destruct (decide (id = ms_memory_id after)) as [->|Hne].
  - rewrite lookup_insert_eq, Hcur. simpl. auto.
  - rewrite lookup_insert_ne by done. apply mem_evolves_refl.
Qed.

Lemma mem_evolves_create e M m :
  M !! ms_memory_id m = None -> created_by e m -> mem_evolves e M (<[ms_memory_id m := m]> M).
Proof.
  intros Hnew Hcrt id. destruct (decide (id = ms_memory_id m)) as [->|Hne].
  - by rewrite lookup_insert_eq, Hnew.
  - rewrite lookup_insert_ne by done. apply mem_evolves_refl.
Qed.

Lemma create_memory_Ok e m items M E M' E' :
  is_create_operation (e_operation e) = true -> validate_memory m = Ok tt ->
  create_memory e m items M E = Ok (M', E') ->
  M !! ms_memory_id m = None /\ created_by e m /\ M' = <[ms_memory_id m := m]> M /\
  foldM (create_evidence e m) E items = Ok E'.
Proof.
  intros Hop Hv. unfold create_memory. intros Hr. apply bind_Ok in Hr as ([] & Ht & Hr).
  apply check_target_Ok in Ht as [Hs Hid].
  do 6 (apply bind_Ok in Hr as ([] & ? & Hr)). inv_ok. rewrite Z.eqb_eq in *.
  split; [by apply eq_None_not_Some|]. split; [|done].
  split; try done. unfold is_create_operation in Hop.
  destruct (e_operation e); try done; simpl in *; inv_ok.
  - match goal with H : ms_status m = _ |- _ => rewrite H end. set_solver.
  - done.
Qed.

(** The loop of [_apply_affected_memories] changes each listed memory once. *)
Definition affected_from (e : MemoryEvent) (M0 : gmap UUID MemoryState)
    (acc : gset UUID * gmap UUID MemoryState) : Prop :=
  forall id,
    (id ∉ acc.1 -> acc.2 !! id = M0 !! id) /\
    (id ∈ acc.1 -> exists m m', M0 !! id = Some m /\ acc.2 !! id = Some m' /\ successor e m m').

Lemma apply_affected_memory_Ok e (opening : bool) acc change acc' :
  e_operation e = (if opening then EventOperation.CONFLICT_OPENED else EventOperation.CONFLICT_RESOLVED) ->
  validate_memory (am_memory change) = Ok tt ->
  apply_affected_memory e opening acc change = Ok acc' ->
  let after := am_memory change in
  ms_memory_id after ∉ acc.1 /\
  exists current, acc.2 !! ms_memory_id after = Some current /\ successor e current after /\
    acc' = ({[ms_memory_id after]} ∪ acc.1, <[ms_memory_id after := after]> acc.2).
Proof.
  intros Hop Hv. destruct acc as [ids M]. unfold apply_affected_memory. intros Hr.
  apply bind_Ok in Hr as ([] & Hnew & Hr). apply bind_Ok in Hr as ([] & Hs & Hr).
  apply check_scoped_Ok in Hs. apply bind_Ok in Hr as (current & Hcur & Hr).
  apply from_option_or_Ok in Hcur. apply bind_Ok in Hr as ([] & Hrev & Hr).
  apply bind_Ok in Hr as ([] & Hst & Hr). inv_ok. split; [done|]. exists current.
  split; [done|]. split; [|done]. eapply successor_intro; [done|done| |done].
  rewrite Hop. destruct opening; inv_ok.
  - match goal with H : ms_status (am_memory change) = _ |- _ => rewrite H end.
    by constructor.
  - match goal with H : ms_status current = _ |- _ => rewrite H end.
    by constructor.
Qed.

Lemma apply_affected_memories_Ok e (opening : bool) affected M ids M' :
  e_operation e = (if opening then EventOperation.CONFLICT_OPENED else EventOperation.CONFLICT_RESOLVED) ->
  Forall (fun a => validate_memory (am_memory a) = Ok tt) affected ->
  apply_affected_memories e affected M opening = Ok (ids, M') -> affected_from e M (ids, M').
Proof.
  intros Hop Hv. unfold apply_affected_memories.
  apply (foldM_invariant _ (affected_from e M)).
  - intros acc change acc' Hin Hacc Hstep. rewrite Forall_forall in Hv.
    apply apply_affected_memory_Ok in Hstep as (Hnew & current & Hcur & Hsuc & ->); [|done|by apply Hv].
    intros id. simpl. split.
    + intros Hni. rewrite lookup_insert_ne by set_solver. apply Hacc. set_solver.
    + intros Hi. destruct (decide (id = ms_memory_id (am_memory change))) as [->|Hne].
      * rewrite lookup_insert_eq. exists current, (am_memory change).
        rewrite <- (proj1 (Hacc _)) by done. auto.
      * rewrite lookup_insert_ne by done. apply Hacc. set_solver.
  - intros id. simpl. split; [done|set_solver].
Qed.

Lemma affected_from_evolves e M acc : affected_from e M acc -> mem_evolves e M acc.2.
Proof.
  intros Hacc id. destruct (decide (id ∈ acc.1)) as [Hin|Hni].
  - destruct (Hacc id) as [_ Hs]. destruct (Hs Hin) as (m & m' & -> & -> & Hsuc). simpl. auto.
  - rewrite (proj1 (Hacc id) Hni). apply mem_evolves_refl.
Qed.

(** ** Payload validity *)

Lemma typed_payload_Ok e p : typed_payload e = Ok p -> validate_payload p = Ok tt.
Proof.
  unfold typed_payload. intros Hp. inv_ok.
  match goal with H : validate_payload _ = Ok _ |- _ => exact H end.
Qed.

Lemma validate_transition_memory r m u : validate_transition r m = Ok u -> validate_memory m = Ok tt.
Proof. unfold validate_transition. intros Hv. by inv_ok. Qed.

Lemma affected_valid am u :
  each validate_affected am = Ok u -> Forall (fun a => validate_memory (am_memory a) = Ok tt) am.
Proof.
  rewrite each_Ok. intros Hall. eapply Forall_impl; [exact Hall|].
  unfold validate_affected. intros a Ha. by inv_ok.
Qed.

(** Conflict operations carry pairwise distinct, well-formed memberships. *)
Lemma validate_members_Ok c ms u :
  validate_conflict_members c ms = Ok u ->
  NoDup (cm_memory_id <$> ms) /\ (2 <= length ms)%nat /\
  Forall (fun m => cm_conflict_id m = cs_conflict_id c) ms.
Proof.
  unfold validate_conflict_members. intros Hv. inv_ok. rewrite length_fmap in *.
  split; [by apply nodupb_NoDup|]. split.
  - match goal with H : (_ <? _)%nat = false |- _ => apply Nat.ltb_ge in H end. done.
  - match goal with H : existsb _ _ = false |- _ => rewrite existsb_false in H; rename H into Hex end.
    apply Forall_forall. intros m Hin. by apply Z.eqb_eq, negb_false_iff, Hex.
Qed.

(** ** The step lemma *)

Lemma attach_evidence_frame e M E item E' :
  attach_evidence e M E item = Ok E' ->
  E !! es_evidence_id item = None /\ E' = <[es_evidence_id item := item]> E /\
  es_scope_key item = event_scope e /\ Some (es_memory_id item) = e_memory_id e /\
  exists target, M !! es_memory_id item = Some target /\ ms_status target ∈ live_statuses.
Proof.
  unfold attach_evidence. intros Ha. apply bind_Ok in Ha as ([] & Hs & Ha).
  apply check_scoped_Ok in Hs. apply bind_Ok in Ha as ([] & Hm & Ha).
  apply bind_Ok in Ha as (target & Ht & Ha). inv_ok.
  split; [by apply eq_None_not_Some|]. eauto 10.
Qed.

Lemma open_conflict_Ok e c ms am M C CM M' C' CM' :
  open_conflict e c ms am M C CM = Ok (M', C', CM') ->
  exists ids, apply_affected_memories e am M true = Ok (ids, M') /\ ids = member_ids ms /\
    C !! cs_conflict_id c = None /\ C' = <[cs_conflict_id c := c]> C /\
    cs_status c = conflict_open /\ cs_scope_key c = event_scope e /\
    (forall m, m ∈ ms -> exists row, M' !! cm_memory_id m = Some row /\ ms_subject_id row = cs_subject_id c) /\
    foldM (add_member e) CM ms = Ok CM'.
Proof.
  unfold open_conflict. intros Ho. apply bind_Ok in Ho as ([] & Hs & Ho). apply check_scoped_Ok in Hs.
  do 3 (apply bind_Ok in Ho as ([] & ? & Ho)). apply bind_Ok in Ho as ([ids M1] & Haff & Ho).
  do 3 (apply bind_Ok in Ho as ([] & ? & Ho)). apply bind_Ok in Ho as (CM1 & Hadd & Ho). inv_ok.
  exists (member_ids ms). repeat split; try done; [by apply eq_None_not_Some|].
  intros m Hin.
  match goal with H : existsb (fun m => match M' !! _ with _ => _ end) _ = false |- _ =>
    rewrite existsb_false in H; specialize (H m Hin); simpl in H end.
  destruct (M' !! cm_memory_id m) as [row|]; [|done]. exists row. split; [done|].
  by apply Z.eqb_eq, negb_false_iff.
Qed.

Lemma resolve_conflict_Ok e c ms am M C CM M' C' CM' :
  resolve_conflict e c ms am M C CM = Ok (M', C', CM') ->
  exists ids current, apply_affected_memories e am M false = Ok (ids, M') /\ ids = member_ids ms /\
    C !! cs_conflict_id c = Some current /\ C' = <[cs_conflict_id c := c]> C /\
    cs_status current = conflict_open /\ cs_status c = conflict_resolved /\
    cs_scope_key c = cs_scope_key current /\ cs_subject_id c = cs_subject_id current /\
    cs_conflict_id c = cs_conflict_id current /\
    cs_scope_key c = event_scope e /\
    current_member_ids (cs_conflict_id c) CM = member_ids ms /\
    Forall (fun m => is_Some (CM !! (cm_conflict_id m, cm_memory_id m))) ms /\
    CM' = replace_members (cs_conflict_id c) ms CM.
Proof.
  unfold resolve_conflict. intros Hr. apply bind_Ok in Hr as ([] & Hs & Hr). apply check_scoped_Ok in Hs.
  apply bind_Ok in Hr as (current & Hcur & Hr). do 5 (apply bind_Ok in Hr as ([] & ? & Hr)).
  apply bind_Ok in Hr as ([ids M1] & Haff & Hr). apply bind_Ok in Hr as ([] & ? & Hr).
  match goal with H : each _ _ = Ok _ |- _ => apply each_Ok in H; rename H into Hjoin end.
  inv_ok. rewrite Z.eqb_eq in *. exists (member_ids ms), current.
  repeat split; try done; [unfold cs_scope_key; congruence|].
  eapply Forall_impl; [exact Hjoin|]. unfold check_join_time. intros m Hm. inv_ok. eauto.
Qed.

(** The successful runs of the operation dispatch, one rule per handler. *)
Inductive op_run (s : ProjectionState) (e : MemoryEvent) (w : Working)
    : OperationPayload -> Working -> Prop :=
| run_create m items M E :
    is_create_operation (e_operation e) = true ->
    create_memory e m items (w_memories w) (w_evidence w) = Ok (M, E) ->
    op_run s e w (MemoryCreatedPayload m items) (set_evidence (set_memories w M) E)
| run_candidate prev m decision code items status M current E :
    e_operation e = EventOperation.CANDIDATE_PROMOTED /\ status = MemoryStatus.ACTIVE \/
    e_operation e = EventOperation.CANDIDATE_EXPIRED /\ status = MemoryStatus.RETIRED ->
    replace_memory e (w_memories w) prev m None false = Ok M ->
    w_memories w !! ms_memory_id m = Some current ->
    check_candidate_lifecycle e current m status = Ok tt ->
    attach_candidate_lifecycle_evidence e items M (w_evidence w) = Ok E ->
    op_run s e w (CandidateLifecyclePayload prev m decision code items)
           (set_evidence (set_memories w M) E)
| run_revised prev m M current :
    e_operation e = EventOperation.REVISED ->
    replace_memory e (w_memories w) prev m None false = Ok M ->
    w_memories w !! ms_memory_id m = Some current ->
    check_revised_lifecycle e current m = Ok tt ->
    op_run s e w (MemoryTransitionPayload prev m) (set_memories w M)
| run_visibility prev m M current :
    e_operation e = EventOperation.VISIBILITY_CHANGED ->
    replace_memory e (w_memories w) prev m None true = Ok M ->
    w_memories w !! ms_memory_id m = Some current ->
    ms_status current <> MemoryStatus.TOMBSTONED -> ms_visibility m <> ms_visibility current ->
    op_run s e w (MemoryTransitionPayload prev m) (set_memories w M)
| run_retired prev m M :
    e_operation e = EventOperation.RETIRED ->
    require_live e (w_memories w !! ms_memory_id m) = Ok tt ->
    replace_memory e (w_memories w) prev m (Some MemoryStatus.RETIRED) false = Ok M ->
    op_run s e w (MemoryTransitionPayload prev m) (set_memories w M)
| run_superseded prev m l M L :
    e_operation e = EventOperation.SUPERSEDED ->
    require_live e (w_memories w !! ms_memory_id m) = Ok tt ->
    replace_memory e (w_memories w) prev m (Some MemoryStatus.SUPERSEDED) false = Ok M ->
    link_memories e l M (w_links w) = Ok L ->
    op_run s e w (SupersededPayload prev m l) (set_links (set_memories w M) L)
| run_tombstoned prev m mode M :
    e_operation e = EventOperation.TOMBSTONED ->
    check_tombstone e (w_memories w !! ms_memory_id m) m mode = Ok tt ->
    replace_memory e (w_memories w) prev m (Some MemoryStatus.TOMBSTONED) false = Ok M ->
    (forall k i, w_evidence w !! k = Some i -> es_memory_id i <> ms_memory_id m) ->
    op_run s e w (TombstonedPayload prev m mode) (set_memories w M)
| run_attach item E :
    e_operation e = EventOperation.EVIDENCE_ATTACHED ->
    attach_evidence e (w_memories w) (w_evidence w) item = Ok E ->
    op_run s e w (EvidenceAttachedPayload item) (set_evidence w E)
| run_redact eid mid at_ rc E :
    e_operation e = EventOperation.EVIDENCE_REDACTED ->
    redact_evidence e eid mid at_ (w_evidence w) = Ok E ->
    op_run s e w (EvidenceRedactedPayload eid mid at_ rc) (set_evidence w E)
| run_link l L :
    e_operation e = EventOperation.LINKED ->
    link_memories e l (w_memories w) (w_links w) = Ok L ->
    op_run s e w (LinkedPayload l) (set_links w L)
| run_unlink l L :
    e_operation e = EventOperation.UNLINKED ->
    unlink e l (w_links w) = Ok L ->
    op_run s e w (UnlinkedPayload l) (set_links w L)
| run_open c ms am M C CM :
    e_operation e = EventOperation.CONFLICT_OPENED ->
    open_conflict e c ms am (w_memories w) (w_conflicts w) (w_conflict_members w) = Ok (M, C, CM) ->
    op_run s e w (ConflictOpenedPayload c ms am) (set_conflicts w M C CM)
| run_resolve c ms am M C CM :
    e_operation e = EventOperation.CONFLICT_RESOLVED ->
    resolve_conflict e c ms am (w_memories w) (w_conflicts w) (w_conflict_members w) = Ok (M, C, CM) ->
    op_run s e w (ConflictResolvedPayload c ms am) (set_conflicts w M C CM)
| run_branch b B :
    e_operation e = EventOperation.BRANCH_CREATED ->
    create_branch e b (w_branches w) (ps_sequence_scopes s) = Ok B ->
    op_run s e w (BranchCreatedPayload b) (set_branches w B)
| run_purge prev m k at_ rc M :
    e_operation e = EventOperation.PAYLOAD_PURGE_COMPLETED ->
    check_purge e (w_memories w !! ms_memory_id m) m k at_ = Ok tt ->
    replace_memory e (w_memories w) prev m (Some MemoryStatus.TOMBSTONED) false = Ok M ->
    op_run s e w (PayloadPurgeCompletedPayload prev m k at_ rc) (set_memories w M).

Lemma apply_operation_run s e p w w' : apply_operation s e p w = Ok w' -> op_run s e w p w'.
Proof.
  unfold apply_operation. intros Hr. destruct (e_operation e) eqn:Hop; destruct p; cbv beta iota in Hr;
    try discriminate Hr; repeat (apply bind_Ok in Hr as (? & ? & Hr)).
  all: repeat match goal with
       | x : (_ * _)%type |- _ => destruct x
       | x : unit |- _ => destruct x
       | H : from_option_or _ _ = Ok _ |- _ => apply from_option_or_Ok in H
       | H : raise_if (bool_decide _) _ = Ok _ |- _ => apply raise_if_Ok, bool_decide_eq_false in H
       | H : Ok _ = Ok _ |- _ => injection H as <-
       end.
  all: try (by econstructor; rewrite ?Hop; eauto).
  - eapply run_tombstoned; [done|done|done|]. intros k i Hk.
    match goal with H : raise_if (map_any _ _) _ = _ |- _ =>
      rewrite raise_if_Ok, map_any_false in H; by apply Z.eqb_neq, (H k) end.
Qed.

(** A replaced memory evolves once the status step is known. *)
Lemma replace_memory_evolves e M prev after req keep M' :
  validate_memory after = Ok tt -> replace_memory e M prev after req keep = Ok M' ->
  (forall current, M !! ms_memory_id after = Some current ->
     (forall r, req = Some r -> ms_status after = r) ->
     (keep = true -> ms_status after = ms_status current) ->
     lifecycle_step (e_operation e) (ms_status current) (ms_status after)) ->
  mem_evolves e M M'.
Proof.
  intros Hv Hr Hstep. apply replace_memory_Ok in Hr as (current & Hcur & -> & _ & _ & _ & Hs & Hrev & Hreq & Hkeep).
  eapply mem_evolves_replace; [done|]. eapply successor_intro; [done|done| |done]. by apply Hstep.
Qed.

Lemma payload_memory_valid p m :
  validate_payload p = Ok tt -> m ∈ memory_after_images p -> validate_memory m = Ok tt.
Proof.
  destruct p; cbn [validate_payload memory_after_images]; intros Hv Hin;
    try (by apply elem_of_nil in Hin);
    try (apply list_elem_of_singleton in Hin as ->);
    inv_bind; eauto using validate_transition_memory.
  all: apply list_elem_of_fmap in Hin as (a & -> & Ha);
    match goal with H : each validate_affected _ = Ok _ |- _ =>
      apply affected_valid in H; rewrite Forall_forall in H; by apply H end.
Qed.

Lemma conflict_affected_valid c ms am :
  validate_payload (ConflictOpenedPayload c ms am) = Ok tt ->
  Forall (fun a => validate_memory (am_memory a) = Ok tt) am.
Proof.
  cbn [validate_payload]. intros Hv. inv_bind. by eapply affected_valid.
Qed.

Lemma op_run_memories s e p w w' :
  validate_payload p = Ok tt -> op_run s e w p w' -> mem_evolves e (w_memories w) (w_memories w').
Proof.
  intros Hv Hrun. pose proof (fun m => payload_memory_valid p m Hv) as Hm.
  destruct Hrun as
    [m items M E Hop Hr|prev m d code items st M current E Hop Hr Hcur Hlc Ha
    |prev m M current Hop Hr Hcur Hlc|prev m M current Hop Hr Hcur Hnt Hvis|prev m M Hop Hlive Hr
    |prev m l M L Hop Hlive Hr Hl|prev m mode M Hop Hts Hr Hev|item E Hop Hr|eid mid at_ rc E Hop Hr
    |l L Hop Hr|l L Hop Hr|c ms am M C CM Hop Hr|c ms am M C CM Hop Hr|b B Hop Hr
    |prev m k at_ rc M Hop Hp Hr];
    simpl; try apply mem_evolves_refl;
    try (specialize (Hm m ltac:(by left)); eapply replace_memory_evolves; [done|done|]; intros cur Hlook Hreq Hkeep).
  - apply create_memory_Ok in Hr as (Hn & Hc & -> & _); [by apply mem_evolves_create|done|].
    apply Hm. by left.
  - rewrite Hcur in Hlook. injection Hlook as <-. unfold check_candidate_lifecycle in Hlc.
    destruct Hop as [[-> ->]|[-> ->]]; inv_ok;
      match goal with H1 : ms_status current = _, H2 : ms_status m = _ |- _ => rewrite H1, H2 end;
      constructor.
  - rewrite Hcur in Hlook. injection Hlook as <-. unfold check_revised_lifecycle in Hlc. inv_ok.
    rewrite Hop. by apply revised_step.
  - rewrite Hcur in Hlook. injection Hlook as <-. rewrite Hop, Hkeep by done. by constructor.
  - rewrite Hlook in Hlive. unfold require_live in Hlive. inv_ok. rewrite Hop, (Hreq _ eq_refl). by constructor.
  - rewrite Hlook in Hlive. unfold require_live in Hlive. inv_ok. rewrite Hop, (Hreq _ eq_refl). by constructor.
  - rewrite Hlook in Hts. unfold check_tombstone in Hts. apply bind_Ok in Hts as ([] & Hts & _). inv_ok.
    rewrite Hop, (Hreq _ eq_refl). by constructor.
  - apply open_conflict_Ok in Hr as (ids & Haff & _).
    apply apply_affected_memories_Ok in Haff; [by apply affected_from_evolves in Haff|done|].
    by eapply conflict_affected_valid.
  - apply resolve_conflict_Ok in Hr as (ids & cur & Haff & _).
    apply apply_affected_memories_Ok in Haff; [by apply affected_from_evolves in Haff|done|].
    by eapply (conflict_affected_valid c ms).
  - rewrite Hlook in Hp. unfold check_purge in Hp. apply bind_Ok in Hp as ([] & Hp & _). inv_ok.
    rewrite Hop, (Hreq _ eq_refl).
    match goal with H : ms_status cur = _ |- _ => rewrite H end. constructor.
Qed.
End Facts.
