(* ===== verification/FoldingInvariant.v ===== *)
(** * FoldingInvariant: the well-formedness invariant of the projection

    [wf] says what every reachable projection guarantees (referential
    integrity, ownership, visibility ceilings, tombstone sanitation, conflict
    membership); every accepted event preserves it. *)

From stdpp Require Import base tactics option list gmap strings.
From Stdlib Require Import ZArith Lia Bool.
From S2P Require Import Prelude Identifiers Enums Values CanonicalJson Digest Constraints Events Folding FoldingFacts.
Open Scope Z_scope.

(** A scope is owned when its branch exists with that tenant and lineage. *)
Definition owned (B : gmap UUID BranchState) (sc : ScopeKey) : Prop :=
  exists b, B !! sc.2 = Some b /\ bs_scope_key b = sc.

Record wf (s : ProjectionState) : Prop := {
  wf_sequence : 0 <= ps_sequence s;
  wf_memory_key : forall k m, ps_memories s !! k = Some m -> ms_memory_id m = k;
  wf_memory_valid : forall k m, ps_memories s !! k = Some m ->
    validate_memory m = Ok tt /\ 1 <= ms_revision m;
  wf_memory_branch : forall k m, ps_memories s !! k = Some m ->
    exists b, ps_branches s !! ms_branch_id m = Some b /\ bs_scope_key b = ms_scope_key m /\
              ms_visibility m ∈ branch_visibilities (bs_visibility_ceiling b);
  wf_evidence : forall k i, ps_evidence s !! k = Some i ->
    es_evidence_id i = k /\ owned (ps_branches s) (es_scope_key i) /\
    exists m, ps_memories s !! es_memory_id i = Some m /\ ms_status m <> MemoryStatus.TOMBSTONED;
  wf_link : forall k l, ps_links s !! k = Some l ->
    ls_link_id l = k /\ owned (ps_branches s) (ls_scope_key l) /\
    is_Some (ps_memories s !! ls_source_memory_id l) /\
    is_Some (ps_memories s !! ls_target_memory_id l) /\
    ls_source_memory_id l <> ls_target_memory_id l;
  wf_conflict : forall k c, ps_conflicts s !! k = Some c ->
    cs_conflict_id c = k /\ owned (ps_branches s) (cs_scope_key c) /\
    (2 <= size (current_member_ids k (ps_conflict_members s)))%nat;
  wf_member : forall c m row, ps_conflict_members s !! (c, m) = Some row ->
    cm_conflict_id row = c /\ cm_memory_id row = m /\
    exists con mem, ps_conflicts s !! c = Some con /\ ps_memories s !! m = Some mem /\
      ms_subject_id mem = cs_subject_id con /\ ms_scope_key mem = cs_scope_key con;
  wf_branch : forall k b, ps_branches s !! k = Some b ->
    bs_branch_id b = k /\
    (forall parent, bs_parent_branch_id b = Some parent ->
       exists pb, ps_branches s !! parent = Some pb /\
         bs_tenant_id pb = bs_tenant_id b /\ bs_lineage_id pb = bs_lineage_id b);
  wf_event_scope : forall id sc, ps_event_scopes s !! id = Some sc -> owned (ps_branches s) sc;
  wf_sequence_scope : forall n sc, ps_sequence_scopes s !! n = Some sc ->
    1 <= n <= ps_sequence s /\ owned (ps_branches s) sc
}.

Lemma wf_empty : wf empty_projection.
Proof. split; simpl; try lia; intros *; by rewrite lookup_empty. Qed.

Section Invariant.
Context `{Rfc8785} `{Pydantic}.

(** ** Inversion of the fold step *)

Definition committed (s : ProjectionState) (e : MemoryEvent) (w : Working) : ProjectionState :=
  {| ps_sequence := e_sequence e;
     ps_memories := w_memories w; ps_evidence := w_evidence w; ps_links := w_links w;
     ps_conflicts := w_conflicts w; ps_conflict_members := w_conflict_members w;
     ps_branches := w_branches w;
     ps_event_scopes := <[e_event_id e := event_scope e]> (ps_event_scopes s);
     ps_sequence_scopes := <[e_sequence e := event_scope e]> (ps_sequence_scopes s) |}.

(** Everything an accepted event tells. *)
Record accepted (contiguous : bool) (s : ProjectionState) (e : MemoryEvent) (p : OperationPayload)
    (w : Working) : Prop := {
  acc_sequence : if contiguous then e_sequence e = ps_sequence s + 1
                 else ps_sequence s < e_sequence e;
  acc_payload : typed_payload e = Ok p;
  acc_valid : validate_payload p = Ok tt;
  acc_shape : validate_event_envelope_shape e = Ok tt;
  acc_hashes : verify_hashes e = Ok tt;
  acc_fresh : ps_event_scopes s !! e_event_id e = None;
  acc_cause : forall cause, e_causation_event_id e = Some cause ->
    exists sc, ps_event_scopes s !! cause = Some sc /\ sc.1 = (event_scope e).1;
  acc_branch : e_operation e <> EventOperation.BRANCH_CREATED ->
    exists b, ps_branches s !! e_branch_id e = Some b /\
      (bs_tenant_id b, bs_lineage_id b) = (e_tenant_id e, e_lineage_id e) /\
      forall m, m ∈ memory_after_images p ->
        ms_visibility m ∈ branch_visibilities (bs_visibility_ceiling b);
  acc_run : op_run s e (working_of s) p w
}.

Lemma fold_event_with_Ok contiguous s e s' :
  fold_event_with contiguous s e = Ok s' ->
  exists p w, accepted contiguous s e p w /\ s' = committed s e w /\ 0 <= e_sequence e.
Proof.
  unfold fold_event_with. intros Hf. apply bind_Ok in Hf as ([] & Henv & Hf).
  apply bind_Ok in Hf as (p & Hp & Hf). apply bind_Ok in Hf as ([] & Hvis & Hf).
  apply bind_Ok in Hf as (w & Hop & Hf). unfold commit in Hf.
  apply bind_Ok in Hf as ([] & Hneg & [= <-]). apply raise_if_Ok, Z.ltb_ge in Hneg.
  exists p, w. split; [|done]. unfold check_envelope in Henv.
  apply bind_Ok in Henv as ([] & Hs1 & Henv). apply bind_Ok in Henv as ([] & Hs2 & Henv).
  apply bind_Ok in Henv as ([] & Hshape & Henv). apply bind_Ok in Henv as ([] & Hhash & Henv).
  apply bind_Ok in Henv as ([] & Hfresh & Henv). apply bind_Ok in Henv as ([] & Hbr & Hcause).
  rewrite raise_if_Ok in Hs1, Hs2, Hfresh. apply bool_decide_eq_false in Hfresh.
  rewrite or_raise_Ok in Hshape.
  split; try done.
  - destruct contiguous; simpl in *.
    + by apply negb_false_iff, Z.eqb_eq in Hs1.
    + by apply Z.leb_gt in Hs2.
  - by eapply typed_payload_Ok.
  - by apply eq_None_not_Some.
  - intros cause Hc. rewrite Hc in Hcause. inv_ok. eauto.
  - intros Hne. rewrite bool_decide_true in Hbr, Hvis by done.
    apply bind_Ok in Hbr as (b & Hb & Hsc). apply bind_Ok in Hvis as (b' & Hb' & Hvis).
    rewrite from_option_or_Ok in Hb, Hb'. rewrite Hb in Hb'. injection Hb' as <-.
    exists b. split; [done|]. apply raise_if_Ok, bool_decide_eq_false in Hsc.
    split; [by apply dec_stable|]. intros m Hm.
    unfold validate_branch_visibility in Hvis. apply each_Ok in Hvis.
    rewrite Forall_forall in Hvis. specialize (Hvis m Hm). cbv beta in Hvis.
    apply raise_if_Ok, bool_decide_eq_false in Hvis. by apply dec_stable.
  - by apply apply_operation_run.
Qed.

(** ** Changed rows come from the payload *)

Lemma apply_affected_changed e opening affected acc acc' :
  foldM (apply_affected_memory e opening) acc affected = Ok acc' ->
  forall id m, acc'.2 !! id = Some m -> acc.2 !! id = Some m \/ m ∈ am_memory <$> affected.
Proof.
  intros Hf id m Hm. revert acc' Hf Hm.
  induction affected as [|a l IH] using rev_ind; intros acc' Hf Hm; [simpl in Hf; inv_ok; auto|].
  rewrite foldM_app in Hf. apply bind_Ok in Hf as (acc1 & Hf1 & Hf). cbn [foldM] in Hf.
  apply bind_Ok in Hf as (acc2 & Hf2 & [= <-]). destruct acc1 as [ids1 M1].
  unfold apply_affected_memory in Hf2. repeat (apply bind_Ok in Hf2 as (? & _ & Hf2)).
  injection Hf2 as <-. simpl in Hm. rewrite fmap_app, elem_of_app.
  apply lookup_insert_Some in Hm as [[_ <-]|[_ Hm]]; [right; right; simpl; left|].
  destruct (IH _ Hf1 Hm); auto.
Qed.

Lemma op_run_changed s e p w w' :
  op_run s e w p w' -> forall id m, w_memories w' !! id = Some m ->
  w_memories w !! id = Some m \/ m ∈ memory_after_images p.
Proof.
  intros Hrun id m' Hlook.
  assert (Hrep : forall prev m req keep M, replace_memory e (w_memories w) prev m req keep = Ok M ->
            M !! id = Some m' -> w_memories w !! id = Some m' \/ m' ∈ [m]).
  { intros prev m req keep M Hr Hm. apply replace_memory_Ok in Hr as (cur & _ & -> & _).
    apply lookup_insert_Some in Hm as [[_ <-]|[_ Hm]]; [right; by left|by left]. }
  destruct Hrun; simpl in *; eauto.
  - match goal with H : create_memory _ _ _ _ _ = _ |- _ => unfold create_memory in H; rename H into Hr end.
    repeat (apply bind_Ok in Hr as (? & _ & Hr)). injection Hr as <- <-.
    apply lookup_insert_Some in Hlook as [[_ <-]|[_ Hm]]; [right; by left|by left].
  - match goal with H : open_conflict _ _ _ _ _ _ _ = _ |- _ =>
      apply open_conflict_Ok in H as (ids & Haff & _) end.
    eapply (apply_affected_changed _ _ _ (_, _) (_, _)); [exact Haff|done].
  - match goal with H : resolve_conflict _ _ _ _ _ _ _ = _ |- _ =>
      apply resolve_conflict_Ok in H as (ids & cur & Haff & _) end.
    eapply (apply_affected_changed _ _ _ (_, _) (_, _)); [exact Haff|done].
Qed.

(** ** Branches *)

Lemma owned_mono (B B' : gmap UUID BranchState) sc :
  (forall k b, B !! k = Some b -> B' !! k = Some b) -> owned B sc -> owned B' sc.
Proof. intros Hsub (b & Hb & Hs). exists b. auto. Qed.

Lemma create_branch_Ok e b B SS B' :
  create_branch e b B SS = Ok B' ->
  B !! bs_branch_id b = None /\ B' = <[bs_branch_id b := b]> B /\ bs_scope_key b = event_scope e /\
  forall parent, bs_parent_branch_id b = Some parent ->
    exists pb, B !! parent = Some pb /\ bs_tenant_id pb = bs_tenant_id b /\
      bs_lineage_id pb = bs_lineage_id b /\
      SS !! default 0 (bs_fork_event_sequence b) = Some (bs_tenant_id b, bs_lineage_id b, parent).
Proof.
  unfold create_branch. intros Hc. apply bind_Ok in Hc as ([] & Hs & Hc). apply check_scoped_Ok in Hs.
  do 3 (apply bind_Ok in Hc as ([] & ? & Hc)). apply bind_Ok in Hc as ([] & Hpar & [= <-]). inv_ok.
  split; [by apply eq_None_not_Some|]. split; [done|]. split; [done|].
  intros parent Hp. rewrite Hp in Hpar. inv_ok. rewrite Z.eqb_eq in *. eauto.
Qed.

Lemma op_run_branches s e p w w' :
  op_run s e w p w' ->
  w_branches w' = w_branches w /\ e_operation e <> EventOperation.BRANCH_CREATED \/
  e_operation e = EventOperation.BRANCH_CREATED /\ exists b,
    create_branch e b (w_branches w) (ps_sequence_scopes s) = Ok (w_branches w').
Proof.
  intros Hrun. destruct Hrun; simpl;
    try (left; split; [done|]; match goal with Hop : _ = EventOperation.BRANCH_CREATED |- _ => fail
         | Hop : e_operation e = _ |- _ => rewrite Hop; done
         | Hop : _ \/ _ |- _ => by destruct Hop as [[-> _]|[-> _]]
         | Hop : is_create_operation _ = true |- _ => by intros Heq; rewrite Heq in Hop end).
  right. eauto.
Qed.

Lemma op_run_branches_mono s e p w w' :
  op_run s e w p w' -> forall k b, w_branches w !! k = Some b -> w_branches w' !! k = Some b.
Proof.
  intros Hrun k b Hb. apply op_run_branches in Hrun as [[-> _]|(_ & b' & Hc)]; [done|].
  apply create_branch_Ok in Hc as (Hn & -> & _). rewrite lookup_insert_ne; [done|]. congruence.
Qed.

Lemma accepted_owned c s e p w :
  wf s -> accepted c s e p w -> owned (w_branches w) (event_scope e).
Proof.
  intros Hwf Hacc. destruct (op_run_branches _ _ _ _ _ (acc_run _ _ _ _ _ Hacc)) as [[Hb Hne]|(_ & b & Hc)].
  - destruct (acc_branch _ _ _ _ _ Hacc Hne) as (b & Hlook & Hsc & _).
    destruct (wf_branch _ Hwf _ _ Hlook) as [Hk _].
    exists b. rewrite Hb. split; [done|]. unfold bs_scope_key, event_scope. congruence.
  - apply create_branch_Ok in Hc as (_ & -> & Hsc & _). exists b. split; [|done].
    assert ((event_scope e).2 = bs_branch_id b) as -> by (by rewrite <- Hsc).
    apply lookup_insert_eq.
Qed.

Lemma wf_branches_step c s e p w k b :
  wf s -> accepted c s e p w -> w_branches w !! k = Some b ->
  bs_branch_id b = k /\
  (forall parent, bs_parent_branch_id b = Some parent ->
     exists pb, w_branches w !! parent = Some pb /\
       bs_tenant_id pb = bs_tenant_id b /\ bs_lineage_id pb = bs_lineage_id b).
Proof.
  intros Hwf Hacc. pose proof (acc_run _ _ _ _ _ Hacc) as Hrun.
  pose proof (op_run_branches_mono _ _ _ _ _ Hrun) as Hmono. simpl in Hmono.
  intros Hb. apply op_run_branches in Hrun as [[Heq _]|(_ & b' & Hc)].
  - rewrite Heq in Hb. destruct (wf_branch _ Hwf _ _ Hb) as [Hk Hpar].
    split; [done|]. intros parent Hp. destruct (Hpar parent Hp) as (pb & Hlook & Ht). eauto.
  - apply create_branch_Ok in Hc as (Hn & Hins & _ & Hpar). simpl in *. rewrite Hins in Hb.
    apply lookup_insert_Some in Hb as [[<- <-]|[Hne Hb]].
    + split; [done|]. intros parent Hp. destruct (Hpar parent Hp) as (pb & Hlook & Ht1 & Ht2 & _). eauto.
    + destruct (wf_branch _ Hwf _ _ Hb) as [Hk Hp2].
      split; [done|]. intros parent Hp. destruct (Hp2 parent Hp) as (pb & Hlook & Ht). eauto.
Qed.

(** ** Memories *)

Lemma evolves_key e M M' :
  mem_evolves e M M' -> (forall k m, M !! k = Some m -> ms_memory_id m = k) ->
  forall k m', M' !! k = Some m' -> ms_memory_id m' = k.
Proof.
  intros Hev Hk k m' Hm'. specialize (Hev k). destruct (M !! k) as [m|] eqn:Hm; rewrite Hm' in Hev;
    simpl in Hev; [|by destruct Hev].
  destruct Hev as [->|Hs]; [by apply Hk|]. rewrite (suc_id _ _ _ Hs). by apply Hk.
Qed.

Lemma mem_evolves_dom e M M' k : mem_evolves e M M' -> is_Some (M !! k) -> is_Some (M' !! k).
Proof.
  intros Hev [m Hm]. specialize (Hev k). rewrite Hm in Hev. destruct (M' !! k); [eauto|done].
Qed.

(** A memory keeps its owner, subject and identity through any event. *)
Lemma mem_evolves_frame e M M' k m :
  mem_evolves e M M' -> M !! k = Some m ->
  exists m', M' !! k = Some m' /\ ms_scope_key m' = ms_scope_key m /\
    ms_subject_id m' = ms_subject_id m /\ ms_memory_id m' = ms_memory_id m /\
    ms_created_at m' = ms_created_at m /\ ms_revision m <= ms_revision m' /\
    (ms_status m = MemoryStatus.TOMBSTONED -> ms_status m' = MemoryStatus.TOMBSTONED).
Proof.
  intros Hev Hm. specialize (Hev k). rewrite Hm in Hev. destruct (M' !! k) as [m'|]; [|done].
  exists m'. split; [done|]. destruct Hev as [->|Hs]; [repeat split; auto; lia|].
  destruct Hs as [Hid Hrev Hsc Hown Hsub Hcr Hup Hv3 Hsealed Hlc Hval].
  repeat split; auto; [lia|]. intros Ht. rewrite Ht in Hlc.
  inversion Hlc; subst; try done; set_solver.
Qed.

Lemma evolves_live e M M' k m :
  mem_evolves e M M' -> M !! k = Some m -> ms_status m <> MemoryStatus.TOMBSTONED ->
  e_operation e <> EventOperation.TOMBSTONED ->
  exists m', M' !! k = Some m' /\ ms_status m' <> MemoryStatus.TOMBSTONED.
Proof.
  intros Hev Hm Hst Hop. specialize (Hev k). rewrite Hm in Hev. destruct (M' !! k) as [m'|]; [|done].
  exists m'. split; [done|]. destruct Hev as [->|Hs]; [done|]. intros Ht.
  pose proof (suc_lifecycle _ _ _ Hs) as Hlc. rewrite Ht in Hlc.
  inversion Hlc as [| |s1 s2 Hin| | | | | | |s1 Hin]; subst; try done.
  - repeat (apply elem_of_cons in Hin as [Hin|Hin]; [congruence|]). by apply elem_of_nil in Hin.
  - set_solver.
Qed.

Lemma accepted_evolves c s e p w : accepted c s e p w -> mem_evolves e (ps_memories s) (w_memories w).
Proof. intros Hacc. exact (op_run_memories _ _ _ _ _ (acc_valid _ _ _ _ _ Hacc) (acc_run _ _ _ _ _ Hacc)). Qed.

Lemma wf_memories_step c s e p w k m :
  wf s -> accepted c s e p w -> w_memories w !! k = Some m ->
  ms_memory_id m = k /\ validate_memory m = Ok tt /\ 1 <= ms_revision m /\
  exists b, w_branches w !! ms_branch_id m = Some b /\ bs_scope_key b = ms_scope_key m /\
            ms_visibility m ∈ branch_visibilities (bs_visibility_ceiling b).
Proof.
  intros Hwf Hacc Hm. pose proof (accepted_evolves _ _ _ _ _ Hacc) as Hev.
  pose proof (op_run_branches_mono _ _ _ _ _ (acc_run _ _ _ _ _ Hacc)) as Hmono. simpl in Hmono.
  split; [by eapply evolves_key; [exact Hev|apply wf_memory_key|]|].
  assert (Hold : ps_memories s !! k = Some m -> validate_memory m = Ok tt /\ 1 <= ms_revision m /\
    exists b, w_branches w !! ms_branch_id m = Some b /\ bs_scope_key b = ms_scope_key m /\
            ms_visibility m ∈ branch_visibilities (bs_visibility_ceiling b)).
  { intros Ho. destruct (wf_memory_valid _ Hwf _ _ Ho) as [Hv Hr].
    destruct (wf_memory_branch _ Hwf _ _ Ho) as (b & Hb & Hsc & Hvis). eauto 10. }
  destruct (op_run_changed _ _ _ _ _ (acc_run _ _ _ _ _ Hacc) _ _ Hm) as [Ho|Hin]; [by apply Hold|].
  specialize (Hev k). rewrite Hm in Hev.
  assert (Hnew : 1 <= ms_revision m -> ms_scope_key m = event_scope e -> 
    e_operation e <> EventOperation.BRANCH_CREATED ->
    validate_memory m = Ok tt /\ 1 <= ms_revision m /\
    exists b, w_branches w !! ms_branch_id m = Some b /\ bs_scope_key b = ms_scope_key m /\
            ms_visibility m ∈ branch_visibilities (bs_visibility_ceiling b)).
  { intros Hr Hsc Hne. split; [by eapply payload_memory_valid; [apply (acc_valid _ _ _ _ _ Hacc)|]|].
    split; [done|]. destruct (acc_branch _ _ _ _ _ Hacc Hne) as (b & Hb & Ht & Hvis).
    destruct (wf_branch _ Hwf _ _ Hb) as [Hk _].
    assert (ms_branch_id m = e_branch_id e) as -> by (by injection Hsc).
    exists b. split; [by apply Hmono|]. split; [|by apply Hvis].
    rewrite Hsc. unfold bs_scope_key, event_scope. congruence. }
  assert (Hne : e_operation e <> EventOperation.BRANCH_CREATED).
  { intros Hop. pose proof (acc_run _ _ _ _ _ Hacc) as Hrun.
    destruct Hrun; simpl in Hin; try (by apply elem_of_nil in Hin); try congruence.
    - by rewrite Hop in *.
    - by destruct H1 as [[? _]|[? _]]; congruence. }
  destruct (ps_memories s !! k) as [m0|] eqn:Hm0; simpl in Hev.
  - destruct Hev as [->|Hs]; [by apply Hold|]. destruct (wf_memory_valid _ Hwf _ _ Hm0) as [_ Hr].
    apply Hnew; [rewrite (suc_revision _ _ _ Hs); lia|by apply (suc_owner _ _ _ Hs)|done].
  - destruct Hev as [_ Hc]. apply Hnew; [rewrite (crt_revision _ _ Hc); lia|apply (crt_owner _ _ Hc)|done].
Qed.

(** ** Evidence *)

Lemma create_evidences_Ok e m items E E' k i :
  foldM (create_evidence e m) E items = Ok E' -> E' !! k = Some i ->
  E !! k = Some i \/
  es_evidence_id i = k /\ es_memory_id i = ms_memory_id m /\ es_scope_key i = event_scope e.
Proof.
  intros Hf. revert k i. apply (foldM_invariant (create_evidence e m) (fun E1 => forall k i, E1 !! k = Some i ->
    E !! k = Some i \/ es_evidence_id i = k /\ es_memory_id i = ms_memory_id m /\ es_scope_key i = event_scope e))
    with (s := E) (l := items); [|by auto|done].
  intros E1 item E2 _ IH Hstep k i Hk. unfold create_evidence in Hstep.
  apply bind_Ok in Hstep as ([] & Hs & Hstep). apply check_scoped_Ok in Hs. inv_ok. rewrite Z.eqb_eq in *.
  apply lookup_insert_Some in Hk as [[<- <-]|[_ Hk]]; auto.
Qed.

Lemma attach_evidences_Ok e M items E E' k i :
  foldM (attach_evidence e M) E items = Ok E' -> E' !! k = Some i ->
  E !! k = Some i \/
  es_evidence_id i = k /\ es_scope_key i = event_scope e /\ Some (es_memory_id i) = e_memory_id e /\
  exists target, M !! es_memory_id i = Some target /\ ms_status target ∈ live_statuses.
Proof.
  intros Hf. revert k i. apply (foldM_invariant (attach_evidence e M) (fun E1 => forall k i, E1 !! k = Some i ->
    E !! k = Some i \/
    es_evidence_id i = k /\ es_scope_key i = event_scope e /\ Some (es_memory_id i) = e_memory_id e /\
    exists target, M !! es_memory_id i = Some target /\ ms_status target ∈ live_statuses))
    with (s := E) (l := items); [|by auto|done].
  intros E1 item E2 _ IH Hstep k i Hk. apply attach_evidence_frame in Hstep as (_ & -> & Hs & Hm & Ht).
  apply lookup_insert_Some in Hk as [[<- <-]|[_ Hk]]; auto.
Qed.

Lemma live_not_tombstoned st : st ∈ live_statuses -> st <> MemoryStatus.TOMBSTONED.
Proof. unfold live_statuses. intros Hin ->. set_solver. Qed.

(** The evidence rows an event leaves, and where each comes from. *)
Lemma op_run_evidence s e p w w' k i :
  op_run s e w p w' -> w_evidence w' !! k = Some i ->
  w_evidence w !! k = Some i \/
  es_evidence_id i = k /\ es_scope_key i = event_scope e /\
  exists m, w_memories w' !! es_memory_id i = Some m /\ ms_status m <> MemoryStatus.TOMBSTONED.
Proof.
  intros Hrun Hk. destruct Hrun; simpl in *; auto.
  - match goal with H : create_memory _ _ _ _ _ = _ |- _ => unfold create_memory in H; rename H into Hr end.
    apply bind_Ok in Hr as ([] & _ & Hr). do 4 (apply bind_Ok in Hr as ([] & _ & Hr)).
    apply bind_Ok in Hr as ([] & Ho & Hr). apply bind_Ok in Hr as ([] & Hm & Hr).
    apply bind_Ok in Hr as (E1 & Hf & [= <- <-]).
    destruct (create_evidences_Ok _ _ _ _ _ _ _ Hf Hk) as [?|(? & Hmem & ?)]; [by auto|]. right.
    split; [done|]. split; [done|]. exists m. rewrite Hmem, lookup_insert_eq. split; [done|].
    apply raise_if_Ok in Ho, Hm. destruct (e_operation e); try done; simpl in Ho, Hm;
      apply bool_decide_eq_false in Ho || apply bool_decide_eq_false in Hm;
      intros Ht; rewrite Ht in *; [by apply Ho|]. apply Hm. set_solver.
  - match goal with H : attach_candidate_lifecycle_evidence _ _ _ _ = _ |- _ =>
      unfold attach_candidate_lifecycle_evidence in H; apply bind_Ok in H as ([] & _ & Hf) end.
    destruct (attach_evidences_Ok _ _ _ _ _ _ _ Hf Hk) as [?|(? & ? & _ & t & ? & ?)]; [by auto|].
    right. eauto 10 using live_not_tombstoned.
  - match goal with H : attach_evidence _ _ _ _ = _ |- _ =>
      apply attach_evidence_frame in H as (_ & -> & Hs & _ & t & Ht & Hl) end.
    apply lookup_insert_Some in Hk as [[<- <-]|[_ Hk]]; [|by auto].
    right. eauto 10 using live_not_tombstoned.
  - match goal with H : redact_evidence _ _ _ _ _ = _ |- _ => unfold redact_evidence in H; inv_ok end.
    apply lookup_delete_Some in Hk as [_ Hk]. auto.
Qed.

Lemma wf_evidence_step c s e p w k i :
  wf s -> accepted c s e p w -> w_evidence w !! k = Some i ->
  es_evidence_id i = k /\ owned (w_branches w) (es_scope_key i) /\
  exists m, w_memories w !! es_memory_id i = Some m /\ ms_status m <> MemoryStatus.TOMBSTONED.
Proof.
  intros Hwf Hacc Hk. pose proof (acc_run _ _ _ _ _ Hacc) as Hrun.
  pose proof (accepted_evolves _ _ _ _ _ Hacc) as Hev.
  destruct (op_run_evidence _ _ _ _ _ _ _ Hrun Hk) as [Ho|(Hid & Hs & Hm)].
  - destruct (wf_evidence _ Hwf _ _ Ho) as (Hid & Hown & m & Hm & Hst). split; [done|].
    split; [by eapply owned_mono; [apply (op_run_branches_mono _ _ _ _ _ Hrun)|]|].
    destruct (decide (e_operation e = EventOperation.TOMBSTONED)) as [Hop|Hop].
    + destruct Hrun; simpl in *; try congruence; try (by rewrite Hop in *).
      * by destruct H1 as [[? _]|[? _]]; congruence.
      * match goal with H : replace_memory _ _ _ _ _ _ = _ |- _ =>
          apply replace_memory_Ok in H as (cur & _ & -> & _) end.
        exists m. rewrite lookup_insert_ne; [done|]. intros Heq. eapply H4; [exact Ho|done].
    + by eapply evolves_live.
  - split; [done|]. split; [|done]. rewrite Hs. by eapply accepted_owned.
Qed.

(** ** Links *)

Lemma link_memories_Ok e l M L L' :
  link_memories e l M L = Ok L' ->
  L !! ls_link_id l = None /\ L' = <[ls_link_id l := l]> L /\ ls_scope_key l = event_scope e /\
  ls_status l = link_active /\
  is_Some (M !! ls_source_memory_id l) /\ is_Some (M !! ls_target_memory_id l).
Proof.
  unfold link_memories. intros Hl. apply bind_Ok in Hl as ([] & Hs & Hl). apply check_scoped_Ok in Hs.
  inv_ok. rewrite !not_eq_None_Some in *. split; [by apply eq_None_not_Some|]. done.
Qed.

Lemma unlink_Ok e l L L' :
  unlink e l L = Ok L' ->
  exists current, L !! ls_link_id l = Some current /\ L' = <[ls_link_id l := l]> L /\
    ls_status current = link_active /\ ls_status l = link_unlinked /\ ls_scope_key l = event_scope e /\
    ls_scope_key l = ls_scope_key current /\
    ls_source_memory_id l = ls_source_memory_id current /\ ls_target_memory_id l = ls_target_memory_id current.
Proof.
  unfold unlink. intros Hl. apply bind_Ok in Hl as ([] & Hs & Hl). apply check_scoped_Ok in Hs.
  apply bind_Ok in Hl as (current & Hcur & Hl). inv_ok. rewrite Z.eqb_eq in *. exists current.
  repeat split; try done. unfold ls_scope_key. congruence.
Qed.

Lemma validate_link_distinct l u : validate_link l = Ok u -> ls_source_memory_id l <> ls_target_memory_id l.
Proof. unfold validate_link. intros Hv. inv_bind. inv_ok. by apply Z.eqb_neq. Qed.

Lemma wf_links_step c s e p w k l :
  wf s -> accepted c s e p w -> w_links w !! k = Some l ->
  ls_link_id l = k /\ owned (w_branches w) (ls_scope_key l) /\
  is_Some (w_memories w !! ls_source_memory_id l) /\
  is_Some (w_memories w !! ls_target_memory_id l) /\
  ls_source_memory_id l <> ls_target_memory_id l.
Proof.
  intros Hwf Hacc Hk. pose proof (acc_run _ _ _ _ _ Hacc) as Hrun.
  pose proof (accepted_evolves _ _ _ _ _ Hacc) as Hev.
  pose proof (accepted_owned _ _ _ _ _ Hwf Hacc) as Hown.
  pose proof (acc_valid _ _ _ _ _ Hacc) as Hval.
  assert (Hold : ps_links s !! k = Some l -> ls_link_id l = k /\ owned (w_branches w) (ls_scope_key l) /\
    is_Some (w_memories w !! ls_source_memory_id l) /\ is_Some (w_memories w !! ls_target_memory_id l) /\
    ls_source_memory_id l <> ls_target_memory_id l).
  { intros Ho. destruct (wf_link _ Hwf _ _ Ho) as (Hid & Ho' & Hs & Ht & Hne). split; [done|].
    split; [by eapply owned_mono; [apply (op_run_branches_mono _ _ _ _ _ Hrun)|]|].
    eauto using mem_evolves_dom. }
  destruct Hrun; cbn [w_links w_memories w_branches set_memories set_evidence set_links set_conflicts set_branches working_of validate_payload] in *; auto.
  - match goal with H : link_memories _ _ _ _ = _ |- _ => apply link_memories_Ok in H as (_ & -> & Hsc & _ & Hs & Ht) end.
    apply bind_Ok in Hval as (? & _ & Hval). apply validate_link_distinct in Hval.
    apply lookup_insert_Some in Hk as [[<- <-]|[_ Hk]]; [|by auto]. rewrite Hsc. auto.
  - match goal with H : link_memories _ _ _ _ = _ |- _ => apply link_memories_Ok in H as (_ & -> & Hsc & _ & Hs & Ht) end.
    apply validate_link_distinct in Hval.
    apply lookup_insert_Some in Hk as [[<- <-]|[_ Hk]]; [|by auto]. rewrite Hsc. auto.
  - match goal with H : unlink _ _ _ = _ |- _ => apply unlink_Ok in H as (cur & Hcur & -> & _ & _ & Hsc & _ & Hs & Ht) end.
    apply validate_link_distinct in Hval.
    apply lookup_insert_Some in Hk as [[<- <-]|[_ Hk]]; [|by auto]. rewrite Hsc, Hs, Ht.
    destruct (wf_link _ Hwf _ _ Hcur) as (_ & _ & ? & ? & ?). auto.
Qed.

(** ** Conflicts and their members *)

Lemma elem_of_current_member_ids c x CM :
  x ∈ current_member_ids c CM <-> is_Some (CM !! (c, x)).
Proof.
  unfold current_member_ids. rewrite elem_of_list_to_set, list_elem_of_fmap. split.
  - intros ([[c' x'] row] & -> & Hin). apply list_elem_of_filter in Hin as [Hc Hin].
    simpl in *. subst. apply elem_of_map_to_list in Hin. eauto.
  - intros [row Hrow]. exists ((c, x), row). split; [done|]. apply list_elem_of_filter.
    split; [done|]. by apply elem_of_map_to_list.
Qed.

Definition member_key (m : ConflictMemberState) : UUID * UUID := (cm_conflict_id m, cm_memory_id m).

Lemma add_members_Ok e CM ms CM' :
  foldM (add_member e) CM ms = Ok CM' ->
  (forall key row, CM' !! key = Some row -> CM !! key = Some row \/ row ∈ ms /\ key = member_key row) /\
  (forall key, is_Some (CM !! key) -> is_Some (CM' !! key)) /\
  (forall row, row ∈ ms -> is_Some (CM' !! member_key row)).
Proof.
  revert CM. induction ms as [|m ms IH]; intros CM Hf; [simpl in Hf; inv_ok; set_solver|].
  cbn [foldM] in Hf. apply bind_Ok in Hf as (CM1 & Hadd & Hf). unfold add_member in Hadd. inv_ok.
  destruct (IH _ Hf) as (A1 & A2 & A3). split; [|split].
  - intros key row Hk. destruct (A1 _ _ Hk) as [Hk1|[Hin ->]]; [|right; split; [by right|done]].
    apply lookup_insert_Some in Hk1 as [[<- <-]|[_ Hk1]]; [right; split; [by left|done]|by left].
  - intros key Hk. apply A2. rewrite lookup_insert. case_decide; eauto.
  - intros row Hin. apply elem_of_cons in Hin as [->|Hin]; [|by auto].
    apply A2. unfold member_key. rewrite lookup_insert_eq. eauto.
Qed.

Lemma replace_members_Ok c ms CM :
  Forall (fun m => cm_conflict_id m = c) ms ->
  (forall key row, replace_members c ms CM !! key = Some row ->
     CM !! key = Some row /\ key.1 <> c \/ row ∈ ms /\ key = member_key row) /\
  (forall c' m, c' <> c -> replace_members c ms CM !! (c', m) = CM !! (c', m)) /\
  (forall row, row ∈ ms -> is_Some (replace_members c ms CM !! member_key row)).
Proof.
  unfold replace_members. intros Hall.
  assert (Hgen : forall acc : gmap (UUID * UUID) ConflictMemberState, let r := fold_left (fun acc member => <[member_key member := member]> acc) ms acc in
    (forall key row, r !! key = Some row -> acc !! key = Some row \/ row ∈ ms /\ key = member_key row) /\
    (forall c' m, c' <> c -> r !! (c', m) = acc !! (c', m)) /\
    (forall key, is_Some (acc !! key) -> is_Some (r !! key)) /\
    (forall row, row ∈ ms -> is_Some (r !! member_key row))).
  { induction Hall as [|m ms Hm Hall IH]; intros acc; [split; [|split; [|split]]; set_solver|].
    destruct (IH (<[member_key m := m]> acc)) as (H1 & H2 & H3 & H4). simpl. split; [|split; [|split]].
    - intros key row Hk. destruct (H1 _ _ Hk) as [Hk1|[Hin ->]]; [|right; split; [by right|done]].
      apply lookup_insert_Some in Hk1 as [[<- <-]|[_ Hk1]]; [right; split; [by left|done]|by left].
    - intros c' x Hne. rewrite H2 by done. apply lookup_insert_ne. unfold member_key. congruence.
    - intros key Hk. apply H3. rewrite lookup_insert. case_decide; eauto.
    - intros row Hin. apply elem_of_cons in Hin as [->|Hin]; [|by auto].
      apply H3. rewrite lookup_insert_eq. eauto. }
  destruct (Hgen (filter (fun kv => kv.1.1 <> c) CM)) as (H1 & H2 & _ & H4). split; [|split].
  - intros key row Hk. destruct (H1 _ _ Hk) as [Hk1|?]; [|by auto].
    apply map_lookup_filter_Some in Hk1 as [? ?]. auto.
  - intros c' m Hne. etransitivity; [by apply (H2 c' m)|]. rewrite map_lookup_filter.
    destruct (CM !! (c', m)); simpl; [|done]. by rewrite option_guard_True.
  - done.
Qed.

Lemma member_ids_size ms : NoDup (cm_memory_id <$> ms) -> size (member_ids ms) = length ms.
Proof. intros Hnd. unfold member_ids. rewrite size_list_to_set by done. apply length_fmap. Qed.

(** The conflict rows and memberships an event leaves. *)
Lemma wf_conflicts_step c s e p w :
  wf s -> accepted c s e p w ->
  (forall k con, w_conflicts w !! k = Some con ->
    cs_conflict_id con = k /\ owned (w_branches w) (cs_scope_key con) /\
    (2 <= size (current_member_ids k (w_conflict_members w)))%nat) /\
  (forall cid mid row, w_conflict_members w !! (cid, mid) = Some row ->
    cm_conflict_id row = cid /\ cm_memory_id row = mid /\
    exists con mem, w_conflicts w !! cid = Some con /\ w_memories w !! mid = Some mem /\
      ms_subject_id mem = cs_subject_id con /\ ms_scope_key mem = cs_scope_key con).
Proof.
  intros Hwf Hacc. pose proof (acc_run _ _ _ _ _ Hacc) as Hrun.
  pose proof (accepted_evolves _ _ _ _ _ Hacc) as Hev.
  pose proof (accepted_owned _ _ _ _ _ Hwf Hacc) as Hown.
  pose proof (acc_valid _ _ _ _ _ Hacc) as Hval.
  pose proof (op_run_branches_mono _ _ _ _ _ Hrun) as Hmono.
  (* rows that existed before *)
  assert (Hcon : forall k con, ps_conflicts s !! k = Some con ->
    cs_conflict_id con = k /\ owned (w_branches w) (cs_scope_key con)).
  { intros k con Hk. destruct (wf_conflict _ Hwf _ _ Hk) as (? & ? & _). eauto using owned_mono. }
  assert (Hmem : forall cid mid row, ps_conflict_members s !! (cid, mid) = Some row ->
    cm_conflict_id row = cid /\ cm_memory_id row = mid /\
    exists con mem, ps_conflicts s !! cid = Some con /\ w_memories w !! mid = Some mem /\
      ms_subject_id mem = cs_subject_id con /\ ms_scope_key mem = cs_scope_key con).
  { intros cid mid row Hrow. destruct (wf_member _ Hwf _ _ _ Hrow) as (? & ? & con & m & Hc & Hm & Hs & Hsc).
    destruct (mem_evolves_frame _ _ _ _ _ Hev Hm) as (m' & Hm' & Hsc' & Hs' & _).
    split; [done|]. split; [done|]. exists con, m'. split; [done|]. split; [done|]. split; congruence. }
  assert (Hsame : w_conflicts w = ps_conflicts s -> w_conflict_members w = ps_conflict_members s ->
    (forall k con, w_conflicts w !! k = Some con ->
    cs_conflict_id con = k /\ owned (w_branches w) (cs_scope_key con) /\
    (2 <= size (current_member_ids k (w_conflict_members w)))%nat) /\
  (forall cid mid row, w_conflict_members w !! (cid, mid) = Some row ->
    cm_conflict_id row = cid /\ cm_memory_id row = mid /\
    exists con mem, w_conflicts w !! cid = Some con /\ w_memories w !! mid = Some mem /\
      ms_subject_id mem = cs_subject_id con /\ ms_scope_key mem = cs_scope_key con)).
  { intros -> ->. split; [|done]. intros k con Hk. destruct (Hcon _ _ Hk).
    destruct (wf_conflict _ Hwf _ _ Hk) as (_ & _ & ?). done. }
  destruct Hrun; try (by apply Hsame); clear Hsame;
    cbn [w_links w_memories w_branches w_conflicts w_conflict_members set_conflicts working_of] in *;
    cbn [validate_payload] in Hval; inv_bind;
    match goal with H : validate_conflict_members _ _ = _ |- _ =>
      apply validate_members_Ok in H as (Hnd & Hlen & Hcid) end;
    match goal with H : each validate_affected _ = Ok _ |- _ => apply affected_valid in H; rename H into Haffv end.
  - match goal with H : open_conflict _ _ _ _ _ _ _ = _ |- _ =>
      apply open_conflict_Ok in H as (ids & Haff & -> & Hfresh & -> & _ & Hsc & Hsub & Hadd) end.
    apply add_members_Ok in Hadd as (Hrows & Hkeep & Hnew).
    apply apply_affected_memories_Ok in Haff; [|done..]. rewrite Forall_forall in Hcid. split.
    + intros k con Hk. apply lookup_insert_Some in Hk as [[<- <-]|[Hne Hk]].
      * split; [done|]. split; [by rewrite Hsc|].
        rewrite <- (member_ids_size ms Hnd) in Hlen. eapply Nat.le_trans; [exact Hlen|].
        apply subseteq_size. intros x Hx. apply elem_of_current_member_ids.
        unfold member_ids in Hx. apply elem_of_list_to_set, list_elem_of_fmap in Hx as (m & -> & Hm).
        specialize (Hnew m Hm). unfold member_key in Hnew. by rewrite (Hcid m Hm) in Hnew.
      * destruct (Hcon _ _ Hk) as [? ?]. split; [done|]. split; [done|].
        destruct (wf_conflict _ Hwf _ _ Hk) as (_ & _ & Hsz). eapply Nat.le_trans; [exact Hsz|].
        apply subseteq_size. intros x. rewrite !elem_of_current_member_ids. apply Hkeep.
    + intros cid mid row Hrow. destruct (Hrows _ _ Hrow) as [Ho|[Hin [= -> ->]]].
      * destruct (Hmem _ _ _ Ho) as (? & ? & con & m & Hc & Hm & ? & ?). split; [done|]. split; [done|].
        exists con, m. rewrite lookup_insert_ne; [done|]. congruence.
      * split; [done|]. split; [done|]. destruct (Hsub row Hin) as (m & Hm & Hms). rewrite (Hcid row Hin).
        exists c0, m. rewrite lookup_insert_eq. split; [done|]. split; [done|]. split; [done|].
        rewrite Hsc. destruct (Haff (cm_memory_id row)) as [_ Ha]. simpl in Ha.
        destruct Ha as (m0 & m1 & _ & Hm1 & Hsuc); [unfold member_ids; set_solver|].
        rewrite Hm in Hm1. injection Hm1 as <-. apply (suc_owner _ _ _ Hsuc).
  - match goal with H : resolve_conflict _ _ _ _ _ _ _ = _ |- _ =>
      apply resolve_conflict_Ok in H as
        (ids & cur & Haff & -> & Hcur & -> & _ & _ & Hsc & Hsub & Hid & Hsce & Hids & _ & ->) end.
    destruct (replace_members_Ok (cs_conflict_id c0) ms (ps_conflict_members s) Hcid) as (Hrows & Hother & Hnew).
    rewrite Forall_forall in Hcid. split.
    + intros k con Hk. apply lookup_insert_Some in Hk as [[<- <-]|[Hne Hk]].
      * split; [done|]. split; [by rewrite Hsce|].
        rewrite <- (member_ids_size ms Hnd) in Hlen. eapply Nat.le_trans; [exact Hlen|].
        apply subseteq_size. intros x Hx. apply elem_of_current_member_ids.
        unfold member_ids in Hx. apply elem_of_list_to_set, list_elem_of_fmap in Hx as (m & -> & Hm).
        specialize (Hnew m Hm). unfold member_key in Hnew. by rewrite (Hcid m Hm) in Hnew.
      * destruct (Hcon _ _ Hk) as [? ?]. split; [done|]. split; [done|].
        destruct (wf_conflict _ Hwf _ _ Hk) as (_ & _ & Hsz). eapply Nat.le_trans; [exact Hsz|].
        apply subseteq_size. intros x. rewrite !elem_of_current_member_ids, Hother by done. done.
    + intros cid mid row Hrow. destruct (Hrows _ _ Hrow) as [[Ho Hne]|[Hin [= -> ->]]].
      * destruct (Hmem _ _ _ Ho) as (? & ? & con & m & Hc & Hm & ? & ?). split; [done|]. split; [done|].
        exists con, m. rewrite lookup_insert_ne; [done|]. intros Heq. by apply Hne.
      * split; [done|]. split; [done|]. rewrite (Hcid row Hin), lookup_insert_eq.
        assert (Hx : cm_memory_id row ∈ current_member_ids (cs_conflict_id c0) (ps_conflict_members s)).
        { rewrite Hids. unfold member_ids. set_solver. }
        apply elem_of_current_member_ids in Hx as [row0 Hrow0].
        destruct (Hmem _ _ _ Hrow0) as (_ & _ & con & m & Hc & Hm & Hs1 & Hs2).
        rewrite Hcur in Hc. injection Hc as <-. exists c0, m. split; [done|]. split; [done|]. split; congruence.
Qed.

(** ** Preservation *)

Lemma wf_step contiguous s e s' : wf s -> fold_event_with contiguous s e = Ok s' -> wf s'.
Proof.
  intros Hwf Hf. apply fold_event_with_Ok in Hf as (p & w & Hacc & -> & Hnn).
  pose proof (accepted_owned _ _ _ _ _ Hwf Hacc) as Hown.
  pose proof (op_run_branches_mono _ _ _ _ _ (acc_run _ _ _ _ _ Hacc)) as Hmono. simpl in Hmono.
  pose proof (wf_conflicts_step _ _ _ _ _ Hwf Hacc) as [Hc Hm].
  assert (Hseq : ps_sequence s < e_sequence e).
  { pose proof (acc_sequence _ _ _ _ _ Hacc). destruct contiguous; lia. }
  pose proof (wf_sequence _ Hwf).
  split; simpl; try done.
  - intros k m Hk. by eapply wf_memories_step.
  - intros k m Hk. by edestruct wf_memories_step as (_ & ? & ? & _).
  - intros k m Hk. by edestruct wf_memories_step as (_ & _ & _ & ?).
  - intros k i Hk. by eapply wf_evidence_step.
  - intros k l Hk. by eapply wf_links_step.
  - intros k b Hk. by eapply wf_branches_step.
  - intros id sc Hid. apply lookup_insert_Some in Hid as [[_ <-]|[_ Hid]]; [done|].
    eapply owned_mono; [exact Hmono|]. by eapply wf_event_scope.
  - intros n sc Hn. apply lookup_insert_Some in Hn as [[<- <-]|[_ Hn]]; [split; [lia|done]|].
    destruct (wf_sequence_scope _ Hwf _ _ Hn) as [? ?]. split; [lia|]. by eapply owned_mono.
Qed.
End Invariant.
