(* ===== verification/Samples.v ===== *)
(** * Samples: concrete event streams

    Executable instances of the third-party interfaces and a short accepted
    event history, on which the fold theorems are applied.  The serializer is
    plain JSON with sorted member names; payload objects are read from a table
    by the index the event's JSON object carries. *)

From stdpp Require Import base tactics option list gmap strings.
From Stdlib Require Import ZArith Lia Bool.
From S2P Require Import Prelude Identifiers Enums Values CanonicalJson Digest Text Constraints Events Folding.
Open Scope Z_scope.

(** ** A JSON serializer *)

Fixpoint insert_field {V} (kv : pystr * V) (l : list (pystr * V)) : list (pystr * V) :=
  match l with
  | [] => [kv]
  | kv' :: rest => if str_leb kv.1 kv'.1 then kv :: l else kv' :: insert_field kv rest
  end.

Definition sort_fields {V} (l : list (pystr * V)) : list (pystr * V) := foldr insert_field [] l.

Definition show_int (n : Z) : pystr :=
  if n <? 0 then 45 :: decimal_digits 20 (- n) else decimal_digits 20 n.

Fixpoint show_json (fuel : nat) (v : JsonValue) : option pystr :=
  match fuel with
  | O => None
  | S f =>
    match v with
    | JNull => Some (py "null")
    | JBool true => Some (py "true")
    | JBool false => Some (py "false")
    | JInt n => Some (show_int n)
    | JFloat x =>
      d ← decimal_of_repr x;
      match d with
      | Finite negative c e =>
        Some ((if (negative : bool) then [45] else []) ++ show_int c ++ 101 :: show_int e)
      | _ => None
      end
    | JStr s => Some (34 :: s ++ [34])
    | JArray l => texts ← mapM (show_json f) l; Some (91 :: join_comma texts ++ [93])
    | JObject l =>
      texts ← mapM (fun kv => t ← show_json f kv.2; Some (34 :: kv.1 ++ [34; 58] ++ t)) (sort_fields l);
      Some (123 :: join_comma texts ++ [125])
    end
  end.

Definition full_rfc8785 : Rfc8785 := show_json 66.

(** The serializer of the sample streams keeps the first 50 bytes, which makes
    every digest one block long. *)
#[export] Instance sample_rfc8785 : Rfc8785 := fun v => take 50 <$> show_json 66 v.

(** ** A payload table *)

(** Every payload serializes as the empty object and is read back by index. *)
Definition table_pydantic (table : list OperationPayload) : Pydantic := {|
  model_read := fun _ v =>
    match v with JObject [(_, JInt n)] => table !! Z.to_nat n | _ => None end;
  model_dump := fun _ => ({[0 := CMapping []]}, PRef 0)
|}.

(** UUIDv7 identifiers with a zero random part. *)
Definition uid (n : Z) : UUID := n * 2 ^ 80 + 7 * 2 ^ 76 + 2 * 2 ^ 62.

Definition TENANT_A : UUID := uid 1.
Definition TENANT_B : UUID := uid 2.
Definition LINEAGE : UUID := uid 3.
Definition BRANCH_A : UUID := uid 4.
Definition BRANCH_B : UUID := uid 5.

Definition command_hash `{Rfc8785} (tenant branch : UUID) (op : EventOperation) (version : Z)
    (memory_id : option UUID) (revision : option Z) (payload : JsonValue) : pystr :=
  match (material ← command_value tenant LINEAGE branch (uid 6) (uid 7) op version memory_id revision
                      None payload;
         canonical_plain_bytes material) with
  | Ok b => sha256_hex b
  | Err _ => []
  end.

(** The [n]-th event of a stream, carrying the [n]-th payload of its table. *)
Definition sample_event (n : Z) (tenant branch : UUID) (op : EventOperation) (version : Z)
    (memory_id : option UUID) (revision : option Z) : MemoryEvent :=
  let payload := JObject [(py "index", JInt (n - 1))] in
  {| e_schema_version := version; e_payload_version := version; e_sequence := n;
     e_event_id := uid (100 + n); e_tenant_id := tenant; e_lineage_id := LINEAGE;
     e_branch_id := branch; e_actor_id := uid 6; e_client_id := uid 7;
     e_transport_binding_id := uid 8; e_session_id := None; e_ingress_id := None;
     e_operation := op; e_memory_id := memory_id; e_expected_revision := revision;
     e_causation_event_id := None; e_correlation_id := uid 9; e_idempotency_key := py "key";
     e_policy_version := 1; e_normalization_version := 1; e_payload := payload;
     e_payload_canonical := b64encode (py "{}"); e_payload_sha256 := sha256_hex (py "{}");
     e_command_sha256 := command_hash tenant branch op version memory_id revision payload;
     e_created_at := n |}.

Definition half : Decimal := Finite false 5 (-1).

Definition sample_memory (id tenant branch : UUID) (revision created updated : Z)
    (status : MemoryStatus) : MemoryState :=
  let gone := bool_decide (status = MemoryStatus.TOMBSTONED) in
  let text := if gone then None else Some (py "text") in
  {| ms_version := MemoryStateV1; ms_memory_id := id; ms_tenant_id := tenant;
     ms_lineage_id := LINEAGE; ms_branch_id := branch; ms_subject_id := uid 10;
     ms_subject_kind := SubjectKind.PERSONA; ms_revision := revision;
     ms_category := MemoryCategory.USER_PREFERENCE;
     ms_ontological_status := OntologicalStatus.LITERAL_USER_FACT;
     ms_scope := MemoryScope.PERSONA; ms_visibility := MemoryVisibility.PRIVATE_ROOT;
     ms_status := status; ms_statement := text; ms_reason_to_remember := text;
     ms_interpretation_limits := []; ms_confidence := half; ms_salience := half;
     ms_durability := half; ms_sensitivity := 1;
     ms_authority_class := AuthorityClass.EXPLICIT_USER_STATEMENT;
     ms_valid_from := None; ms_valid_to := None; ms_observed_at := None;
     ms_origin_session_id := None; ms_publication_approved_at := None;
     ms_publication_approved_by_actor_id := None; ms_content_protection := plaintext;
     ms_content_key_id := None; ms_created_at := created; ms_updated_at := updated;
     ms_fingerprint_version := 1; ms_normalized_fingerprint := None; ms_metadata := [] |}.

Definition sample_evidence (id memory tenant branch : UUID) (created : Z) : EvidenceState :=
  {| es_evidence_id := id; es_tenant_id := tenant; es_lineage_id := LINEAGE; es_branch_id := branch;
     es_memory_id := memory; es_source_type := py "chat"; es_source_reference := [];
     es_excerpt := None; es_occurred_at := None; es_content_sha256 := None;
     es_trust_classification := py "trusted"; es_status := evidence_active;
     es_created_at := created; es_metadata := [] |}.

Definition sample_branch (id tenant : UUID) (created : Z) : BranchState :=
  {| bs_branch_id := id; bs_tenant_id := tenant; bs_lineage_id := LINEAGE;
     bs_parent_branch_id := None; bs_fork_event_sequence := None; bs_name := py "main";
     bs_visibility_ceiling := MemoryVisibility.RESTRICTED; bs_created_at := created;
     bs_sealed_at := None |}.

Definition MEMORY_1 : UUID := uid 20.
Definition MEMORY_2 : UUID := uid 21.
Definition EVIDENCE_1 : UUID := uid 30.
Definition CONFLICT_1 : UUID := uid 40.
Definition LINK_1 : UUID := uid 50.

Definition sample_conflict (status : ConflictStatus) (resolved : option Z) : ConflictState :=
  {| cs_conflict_id := CONFLICT_1; cs_tenant_id := TENANT_A; cs_lineage_id := LINEAGE;
     cs_branch_id := BRANCH_A; cs_subject_id := uid 10; cs_status := status; cs_reason := py "differs";
     cs_resolution_kind := (fun _ => py "kept") <$> resolved; cs_resolution_rationale := None;
     cs_opened_at := 4; cs_resolved_at := resolved; cs_metadata := [] |}.

Definition sample_member (memory : UUID) : ConflictMemberState :=
  {| cm_conflict_id := CONFLICT_1; cm_memory_id := memory; cm_disposition := py "member";
     cm_joined_at := 4 |}.

Definition sample_link (created : Z) : LinkState :=
  {| ls_link_id := LINK_1; ls_tenant_id := TENANT_A; ls_lineage_id := LINEAGE;
     ls_branch_id := BRANCH_A; ls_source_memory_id := MEMORY_1; ls_target_memory_id := MEMORY_2;
     ls_link_type := LinkType.SUPPORTS; ls_status := link_active; ls_created_at := created;
     ls_unlinked_at := None; ls_metadata := [] |}.

Definition affected (prev : Z) (m : MemoryState) : AffectedMemory :=
  {| am_previous_revision := prev; am_memory := m |}.

(** ** One history: create, dispute, resolve, link, redact, forget *)

Definition sample_payloads : list OperationPayload :=
  let mem id rev created updated st := sample_memory id TENANT_A BRANCH_A rev created updated st in
  [ BranchCreatedPayload (sample_branch BRANCH_A TENANT_A 1);
    MemoryCreatedPayload (mem MEMORY_1 1 2 2 MemoryStatus.ACTIVE)
      [sample_evidence EVIDENCE_1 MEMORY_1 TENANT_A BRANCH_A 2];
    MemoryCreatedPayload (mem MEMORY_2 1 3 3 MemoryStatus.CANDIDATE) [];
    ConflictOpenedPayload (sample_conflict conflict_open None)
      [sample_member MEMORY_1; sample_member MEMORY_2]
      [affected 1 (mem MEMORY_1 2 2 4 MemoryStatus.DISPUTED);
       affected 1 (mem MEMORY_2 2 3 4 MemoryStatus.DISPUTED)];
    ConflictResolvedPayload (sample_conflict conflict_resolved (Some 5))
      [sample_member MEMORY_1; sample_member MEMORY_2]
      [affected 2 (mem MEMORY_1 3 2 5 MemoryStatus.ACTIVE);
       affected 2 (mem MEMORY_2 3 3 5 MemoryStatus.RETIRED)];
    LinkedPayload (sample_link 6);
    EvidenceRedactedPayload EVIDENCE_1 MEMORY_1 7 (py "requested");
    TombstonedPayload 3 (mem MEMORY_1 4 2 8 MemoryStatus.TOMBSTONED) forget_logical ].

#[export] Instance sample_pydantic : Pydantic := table_pydantic sample_payloads.

Definition ev (n : Z) (op : EventOperation) (memory_id : option UUID) (revision : option Z) : MemoryEvent :=
  sample_event n TENANT_A BRANCH_A op 1 memory_id revision.

Definition sample_events : list MemoryEvent :=
  [ ev 1 EventOperation.BRANCH_CREATED None None;
    ev 2 EventOperation.REMEMBERED (Some MEMORY_1) None;
    ev 3 EventOperation.REMEMBERED (Some MEMORY_2) None;
    ev 4 EventOperation.CONFLICT_OPENED None None;
    ev 5 EventOperation.CONFLICT_RESOLVED None None;
    ev 6 EventOperation.LINKED None None;
    ev 7 EventOperation.EVIDENCE_REDACTED (Some MEMORY_1) None;
    ev 8 EventOperation.TOMBSTONED (Some MEMORY_1) (Some 3) ].

(** The state after a stream. *)
Definition state_of `{Rfc8785} `{Pydantic} (es : list MemoryEvent) : ProjectionState :=
  match rebuild es with Ok s => s | Err _ => empty_projection end.

(** An accepted stream is accepted up to, and from, each of its prefixes. *)
Lemma state_of_run `{Rfc8785} `{Pydantic} (es1 es2 : list MemoryEvent) :
  is_ok (rebuild (es1 ++ es2)) = true ->
  rebuild es1 = Ok (state_of es1) /\ foldM fold_event (state_of es1) es2 = Ok (state_of (es1 ++ es2)).
Proof.
  unfold state_of, rebuild. rewrite foldM_app.
  destruct (foldM fold_event empty_projection es1) as [s1|]; simpl; [|done].
  by destruct (foldM fold_event s1 es2).
Qed.

Definition sample_state (n : nat) : ProjectionState := state_of (take n sample_events).

Lemma sample_rebuild : is_ok (rebuild sample_events) = true.
Proof. vm_compute. reflexivity. Qed.

Lemma sample_run n m : foldM fold_event (sample_state n) (drop n (take (n + m) sample_events))
  = Ok (sample_state (n + m)).
Proof.
  assert (Hs : take (n + m) sample_events = take n sample_events ++ drop n (take (n + m) sample_events)).
  { rewrite <- (take_drop n (take (n + m) sample_events)) at 1. rewrite take_take. by rewrite Nat.min_l by lia. }
  unfold sample_state at 2. rewrite Hs at 2. apply state_of_run. rewrite <- Hs.
  pose proof sample_rebuild as Hr. rewrite <- (take_drop (n + m) sample_events) in Hr.
  by destruct (state_of_run _ _ Hr) as [-> _].
Qed.

Lemma sample_rebuild_state n : rebuild (take n sample_events) = Ok (sample_state n).
Proof. apply (sample_run 0 n). Qed.

Lemma sample_step n e : sample_events !! n = Some e ->
  fold_event (sample_state n) e = Ok (sample_state (S n)).
Proof.
  intros He. apply foldM_one. rewrite <- (Nat.add_1_r n), <- (sample_run n 1). f_equal.
  rewrite (Nat.add_1_r n), (take_S_r _ _ _ He), drop_app_length'; [done|].
  rewrite length_take, Nat.min_l; [done|]. apply lookup_lt_Some in He. lia.
Qed.
