(* ===== verification/EventsTheorems.v ===== *)
(** * EventsTheorems: the hash contract of accepted events

    [event_hash_fields] computes the recorded hash columns of an event and
    [MemoryEvent.verify_hashes] checks them whenever an event is read back.  The
    theorem relates the two for any serializer and any payload reader. *)

From stdpp Require Import base tactics option list gmap strings.
From Stdlib Require Import ZArith Lia Bool.
From S2P Require Import Prelude Identifiers Enums Values CanonicalJson Digest Constraints Events Folding Samples.
Open Scope Z_scope.

Section Hashes.
Context `{Rfc8785} `{Pydantic}.

(** The call of [event_hash_fields] that belongs to an event's envelope. *)
Definition hash_fields_of (e : MemoryEvent) (p : OperationPayload)
    : result (JsonValue * pystr * pystr * pystr) :=
  event_hash_fields (e_operation e) p (e_tenant_id e) (e_lineage_id e) (e_branch_id e)
    (e_actor_id e) (e_client_id e) (e_memory_id e) (e_expected_revision e)
    (e_causation_event_id e) (e_payload_version e).

(** What a computed tuple of hash fields consists of. *)
Lemma hash_fields_inv e p value canonical payload_hash command_hash :
  hash_fields_of e p = Ok (value, canonical, payload_hash, command_hash) ->
  exists payload_bytes material command,
    canonical_value p = Ok value /\ canonical_plain_bytes value = Ok payload_bytes /\
    command_value (e_tenant_id e) (e_lineage_id e) (e_branch_id e) (e_actor_id e) (e_client_id e)
      (e_operation e) (e_payload_version e) (e_memory_id e) (e_expected_revision e)
      (e_causation_event_id e) value = Ok material /\
    canonical_plain_bytes material = Ok command /\
    canonical = b64encode payload_bytes /\ payload_hash = sha256_hex payload_bytes /\
    command_hash = sha256_hex command.
Proof.
  unfold hash_fields_of, event_hash_fields. intros Hrun. inv_bind.
  match goal with Hr : Ok _ = Ok _ |- _ => injection Hr as <- <- <- <- end.
  do 3 eexists. repeat split; eassumption || reflexivity.
Qed.

Lemma canonical_plain_bytes_dumps v b : canonical_plain_bytes v = Ok b -> rfc8785_dumps v = Some b.
Proof.
  unfold canonical_plain_bytes. intros Hrun. inv_bind. apply from_option_or_Ok in H2.
  apply normalize_plain_Ok in H1 as [-> _]. done.
Qed.

(** The recorded hash columns verify exactly when they are the computed
    ones.  For an event whose payload is the value [event_hash_fields] returned
    and reads back as the typed payload it was computed from, [verify_hashes]
    accepts iff the Base64 column decodes to the canonical payload bytes and
    both SHA-256 columns are the computed digests; in particular the columns
    as computed are accepted. *)
Theorem event_hashes_verify (e : MemoryEvent) (p : OperationPayload)
    (canonical payload_hash command_hash : pystr) :
  hash_fields_of e p = Ok (e_payload e, canonical, payload_hash, command_hash) ->
  typed_payload e = Ok p ->
  (forall b, rfc8785_dumps (e_payload e) = Some b -> Forall is_byte b) ->
  (verify_hashes e = Ok tt <->
     b64decode (e_payload_canonical e) = b64decode canonical /\
     e_payload_sha256 e = payload_hash /\ e_command_sha256 e = command_hash).
Proof.
  intros Hrun Htyped Hbytes.
  apply hash_fields_inv in Hrun as (pb & material & command & Hv & Hpb & Hm & Hc & -> & -> & ->).
  pose proof (Hbytes pb (canonical_plain_bytes_dumps _ _ Hpb)) as Hb.
  rewrite (b64_roundtrip pb Hb).
  unfold verify_hashes, command_material. rewrite Htyped. cbn [mbind result_bind].
  rewrite Hv. cbn [mbind result_bind]. rewrite Hpb. cbn [mbind result_bind].
  destruct (b64decode (e_payload_canonical e)) as [recorded|]; cbn [from_option_or mbind result_bind].
  2:{ split; [done|]. intros (Hr & _). congruence. }
  unfold raise_if.
  destruct (bool_decide (recorded = pb)) eqn:Er; cbn [negb mbind result_bind]; inv_ok.
  2:{ split; [done|]. intros (Hr & _). congruence. }
  destruct (bool_decide (sha256_hex pb = e_payload_sha256 e)) eqn:Es; cbn [negb mbind result_bind]; inv_ok.
  2:{ split; [done|]. intros (_ & ? & _). congruence. }
  rewrite Hm. cbn [mbind result_bind]. rewrite Hc. cbn [mbind result_bind].
  destruct (bool_decide (sha256_hex command = e_command_sha256 e)) eqn:Ec; cbn [negb]; inv_ok.
  - split; [|done]. by rewrite Es, Ec.
  - split; [done|]. intros (_ & _ & ?). congruence.
Qed.
End Hashes.

(** A payload class of one instance, for the witness. *)
Definition constant_pydantic (p : OperationPayload) : Pydantic := {|
  model_read := fun _ _ => Some p;
  model_dump := fun _ => ({[0 := CMapping [(PStr (py "status"), PStr (py "ok"))]]}, PRef 0)
|}.

Definition hashed_event : MemoryEvent :=
  let p := BranchCreatedPayload (sample_branch BRANCH_A TENANT_A 1) in
  let base := sample_event 1 TENANT_A BRANCH_A EventOperation.BRANCH_CREATED 1 None None in
  let fields := hash_fields_of (H0 := constant_pydantic p) base p in
  match fields with
  | Ok (value, canonical, payload_hash, command_hash) =>
    {| e_schema_version := 1; e_payload_version := 1; e_sequence := 1;
       e_event_id := e_event_id base; e_tenant_id := TENANT_A; e_lineage_id := LINEAGE;
       e_branch_id := BRANCH_A; e_actor_id := uid 6; e_client_id := uid 7;
       e_transport_binding_id := uid 8; e_session_id := None; e_ingress_id := None;
       e_operation := EventOperation.BRANCH_CREATED; e_memory_id := None;
       e_expected_revision := None; e_causation_event_id := None; e_correlation_id := uid 9;
       e_idempotency_key := py "key"; e_policy_version := 1; e_normalization_version := 1;
       e_payload := value; e_payload_canonical := canonical; e_payload_sha256 := payload_hash;
       e_command_sha256 := command_hash; e_created_at := 1 |}
  | Err _ => base
  end.

Lemma event_hashes_verify_witness :
  verify_hashes (H0 := constant_pydantic (BranchCreatedPayload (sample_branch BRANCH_A TENANT_A 1)))
    hashed_event = Ok tt.
Proof.
  destruct (event_hashes_verify
              (H0 := constant_pydantic (BranchCreatedPayload (sample_branch BRANCH_A TENANT_A 1)))
              hashed_event (BranchCreatedPayload (sample_branch BRANCH_A TENANT_A 1))
              (e_payload_canonical hashed_event) (e_payload_sha256 hashed_event)
              (e_command_sha256 hashed_event)) as [_ Hok].
  - vm_compute. reflexivity.
  - vm_compute. reflexivity.
  - intros b Hb. vm_compute in Hb. injection Hb as <-.
    repeat (apply List.Forall_cons; [split; [discriminate|reflexivity]|]). apply List.Forall_nil.
  - apply Hok. repeat split; reflexivity.
Defined.
