(* ===== verification/FoldingTheorems.v ===== *)
(** * FoldingTheorems: what replaying accepted events guarantees

    The properties of the projection fold, each applied to the history of
    [Samples] where it has hypotheses. *)

From stdpp Require Import base tactics option list gmap strings.
From Stdlib Require Import ZArith Lia Bool.
From S2P Require Import Prelude Identifiers Enums Values CanonicalJson Digest Constraints Events Folding FoldingFacts FoldingInvariant Samples.
Open Scope Z_scope.

(** Sanitation of a valid tombstoned memory. *)
Lemma tombstoned_content m :
  validate_memory m = Ok tt -> ms_status m = MemoryStatus.TOMBSTONED ->
  ms_statement m = None /\ ms_reason_to_remember m = None /\
  ms_interpretation_limits m = [] /\ ms_normalized_fingerprint m = None.
Proof.
  assert (Hshape : validate_state_shape m = Ok tt -> ms_status m = MemoryStatus.TOMBSTONED ->
    ms_statement m = None /\ ms_reason_to_remember m = None /\
    ms_interpretation_limits m = [] /\ ms_normalized_fingerprint m = None).
  { unfold validate_state_shape. intros Hv Ht. do 6 (apply bind_Ok in Hv as (? & _ & Hv)).
    apply bind_Ok in Hv as (? & Hs & _). rewrite bool_decide_true in Hs by done. inv_ok.
    unfold is_none in *. repeat case_match; done. }
  intros Hv Ht. unfold validate_memory in Hv. apply bind_Ok in Hv as ([] & Hfields & Hv).
  destruct (ms_version m) as [|x|x sc] eqn:Hver.
  - by apply Hshape.
  - apply bind_Ok in Hv as ([] & Hv & _). by apply Hshape.
  - apply raise_if_Ok, negb_false_iff in Hfields. unfold memory_fields_ok in Hfields.
    rewrite Hver in Hfields. apply andb_true_iff in Hfields as [_ Hf].
    rewrite !andb_true_iff, bool_decide_eq_true in Hf. unfold is_none in Hf.
    repeat case_match; naive_solver.
Qed.

Section Theorems.
Context `{R : Rfc8785} `{P : Pydantic}.

(** ** Lemmas on runs *)

Lemma fold_event_evolves c s e s' :
  fold_event_with c s e = Ok s' -> mem_evolves e (ps_memories s) (ps_memories s').
Proof.
  intros Hf. apply fold_event_with_Ok in Hf as (p & w & Hacc & -> & _).
  exact (accepted_evolves _ _ _ _ _ Hacc).
Qed.

Lemma affected_images e opening affected acc acc' :
  foldM (apply_affected_memory e opening) acc affected = Ok acc' ->
  (forall id, id ∈ acc.1 -> id ∈ acc'.1) /\
  (forall m, m ∈ am_memory <$> affected ->
     ms_memory_id m ∉ acc.1 /\ ms_memory_id m ∈ acc'.1 /\ acc'.2 !! ms_memory_id m = Some m) /\
  (forall id, id ∉ ms_memory_id <$> (am_memory <$> affected) -> acc'.2 !! id = acc.2 !! id).
Proof.
  revert acc. induction affected as [|a l IH]; intros acc Hf; cbn [foldM] in Hf.
  - injection Hf as <-. set_solver.
  - apply bind_Ok in Hf as (acc1 & Ha & Hf). apply IH in Hf as (Hsub & Himg & Hframe).
    destruct acc as [ids M]. unfold apply_affected_memory in Ha. apply bind_Ok in Ha as ([] & Hnew & Ha).
    apply raise_if_Ok, bool_decide_eq_false in Hnew. repeat (apply bind_Ok in Ha as (? & _ & Ha)).
    injection Ha as <-. simpl in *. split; [set_solver|]. split.
    + intros m. rewrite elem_of_cons. intros [->|Hm].
      * split; [done|]. split; [apply Hsub; set_solver|].
        rewrite Hframe, lookup_insert_eq; [done|]. intros Hin. apply list_elem_of_fmap in Hin as (m' & Hid & Hm').
        apply Himg in Hm' as [Hni _]. set_solver.
      * apply Himg in Hm as (Hni & Hin & Hlook). set_solver.
    + intros id Hid. rewrite not_elem_of_cons in Hid. destruct Hid as [Hne Hid].
      by rewrite Hframe, lookup_insert_ne.
Qed.

(** The rows a run stores are the after-images, none of them the row before. *)
Lemma op_run_images s e p w w' :
  validate_payload p = Ok tt -> op_run s e w p w' ->
  (forall m, m ∈ memory_after_images p ->
     w_memories w' !! ms_memory_id m = Some m /\ w_memories w !! ms_memory_id m <> Some m) /\
  (forall id, id ∉ ms_memory_id <$> memory_after_images p -> w_memories w' !! id = w_memories w !! id).
Proof.
  intros Hv Hrun.
  assert (Hins : forall m, w_memories w !! ms_memory_id m <> Some m ->
    (forall m', m' ∈ [m] -> (<[ms_memory_id m := m]> (w_memories w)) !! ms_memory_id m' = Some m'
                            /\ w_memories w !! ms_memory_id m' <> Some m') /\
    (forall id, id ∉ ms_memory_id <$> [m] ->
       (<[ms_memory_id m := m]> (w_memories w)) !! id = w_memories w !! id)).
  { intros m Hne. split; [intros m' ->%list_elem_of_singleton; by rewrite lookup_insert_eq|].
    intros id Hid. apply lookup_insert_ne. set_solver. }
  assert (Hrep : forall prev m req keep M, replace_memory e (w_memories w) prev m req keep = Ok M ->
    M = <[ms_memory_id m := m]> (w_memories w) /\ w_memories w !! ms_memory_id m <> Some m).
  { intros prev m req keep M Hr.
    apply replace_memory_Ok in Hr as (cur & Hcur & -> & _ & _ & _ & _ & Hrev & _). split; [done|].
    rewrite Hcur. intros [= ->]. apply check_revision_Ok in Hrev as (_ & ? & ? & _). lia. }
  assert (Haff : forall opening am ids M,
    e_operation e = (if opening : bool then EventOperation.CONFLICT_OPENED else EventOperation.CONFLICT_RESOLVED) ->
    Forall (fun a => validate_memory (am_memory a) = Ok tt) am ->
    apply_affected_memories e am (w_memories w) opening = Ok (ids, M) ->
    (forall m, m ∈ am_memory <$> am -> M !! ms_memory_id m = Some m /\ w_memories w !! ms_memory_id m <> Some m) /\
    (forall id, id ∉ ms_memory_id <$> (am_memory <$> am) -> M !! id = w_memories w !! id)).
  { intros opening am ids M Hop Ham Hr.
    pose proof (apply_affected_memories_Ok _ _ _ _ _ _ Hop Ham Hr) as Hfrom.
    apply affected_images in Hr as (_ & Himg & Hframe). split; [|done].
    intros m Hm. destruct (Himg m Hm) as (_ & Hin & Hlook). split; [done|].
    destruct (proj2 (Hfrom _) Hin) as (old & m' & Hold & Hm' & Hsuc). simpl in *.
    rewrite Hold. intros [= ->]. rewrite Hlook in Hm'. injection Hm' as <-.
    pose proof (suc_revision _ _ _ Hsuc). lia. }
  destruct Hrun; cbn [memory_after_images w_memories set_memories set_evidence set_links set_conflicts set_branches];
    try (split; [by intros ? ?%elem_of_nil|done]);
    try (match goal with H : replace_memory _ _ _ _ _ _ = _ |- _ => apply Hrep in H as [-> ?] end; by apply Hins).
  - match goal with H : create_memory _ _ _ _ _ = _ |- _ =>
      apply create_memory_Ok in H as (Hn & _ & -> & _); [|done|] end.
    + apply Hins. by rewrite Hn.
    + by eapply (payload_memory_valid (MemoryCreatedPayload _ _)); [exact Hv|left].
  - match goal with H : open_conflict _ _ _ _ _ _ _ = _ |- _ => apply open_conflict_Ok in H as (ids & Hr & _) end.
    eapply (Haff true); [done| |exact Hr]. by eapply conflict_affected_valid.
  - match goal with H : resolve_conflict _ _ _ _ _ _ _ = _ |- _ =>
      apply resolve_conflict_Ok in H as (ids & cur & Hr & _) end.
    eapply (Haff false); [done| |exact Hr]. by eapply (conflict_affected_valid _ _ _ Hv).
Qed.

Lemma fold_event_changes c s e s' :
  fold_event_with c s e = Ok s' ->
  exists p, typed_payload e = Ok p /\ mem_changes e p (ps_memories s) (ps_memories s').
Proof.
  intros Hf. pose proof (fold_event_evolves _ _ _ _ Hf) as Hev.
  apply fold_event_with_Ok in Hf as (p & w & Hacc & -> & _). exists p.
  split; [exact (acc_payload _ _ _ _ _ Hacc)|].
  destruct (op_run_images _ _ _ _ _ (acc_valid _ _ _ _ _ Hacc) (acc_run _ _ _ _ _ Hacc)) as [Himg Hframe].
  split; [|done]. intros m Hm. destruct (Himg m Hm) as [Hlook Hne]. split; [done|].
  specialize (Hev (ms_memory_id m)). cbn in *. rewrite Hlook in Hev.
  destruct (ps_memories s !! ms_memory_id m) as [old|]; simpl in Hev; [|by destruct Hev].
  destruct Hev as [->|Hs]; done.
Qed.

Lemma run_wf s es s' : wf s -> foldM fold_event s es = Ok s' -> wf s'.
Proof. apply foldM_invariant. intros t e t' _ Hwf Hf. by eapply wf_step. Qed.

Lemma rebuild_wf_lemma es s : rebuild es = Ok s -> wf s.
Proof. apply run_wf, wf_empty. Qed.

(** Along any run a memory persists and keeps its identity. *)
Definition persists (s s' : ProjectionState) : Prop :=
  forall k m, ps_memories s !! k = Some m ->
  exists m', ps_memories s' !! k = Some m' /\ ms_scope_key m' = ms_scope_key m /\
    ms_subject_id m' = ms_subject_id m /\ ms_memory_id m' = ms_memory_id m /\
    ms_created_at m' = ms_created_at m /\ ms_revision m <= ms_revision m' /\
    (ms_status m = MemoryStatus.TOMBSTONED -> ms_status m' = MemoryStatus.TOMBSTONED).

#[local] Instance persists_preorder : PreOrder persists.
Proof.
  split.
  - intros s k m Hm. exists m. repeat split; auto; lia.
  - intros s1 s2 s3 H12 H23 k m Hm. destruct (H12 k m Hm) as (m2 & Hm2 & ? & ? & ? & ? & ? & Ht).
    destruct (H23 k m2 Hm2) as (m3 & Hm3 & ? & ? & ? & ? & ? & Ht').
    exists m3. repeat split; auto; try congruence; lia.
Qed.

Lemma run_persists s es s' : foldM fold_event s es = Ok s' -> persists s s'.
Proof.
  apply (foldM_preorder _ persists). intros t e t' _ Hf k m Hm.
  by eapply mem_evolves_frame; [eapply fold_event_evolves|].
Qed.

(** The events that complete the purge of memory [k]. *)
Definition purges (k : UUID) (e : MemoryEvent) : Prop :=
  e_operation e = EventOperation.PAYLOAD_PURGE_COMPLETED /\ e_memory_id e = Some k.

#[local] Instance purges_dec k e : Decision (purges k e).
Proof. unfold purges. apply _. Defined.

(** What a purge event [e] does to the tombstone [m]: [m'] is the after-image
    of its payload, with the protection of erased content. *)
Definition purged_by (e : MemoryEvent) (m m' : MemoryState) : Prop :=
  (exists prev key at_ receipt, typed_payload e = Ok (PayloadPurgeCompletedPayload prev m' key at_ receipt)) /\
  ms_content_protection m = envelope_encrypted /\ ms_content_protection m' = cryptographically_erased /\
  ms_revision m' = ms_revision m + 1.

Lemma tombstone_step s e s' k m :
  fold_event s e = Ok s' -> ps_memories s !! k = Some m -> ms_status m = MemoryStatus.TOMBSTONED ->
  ps_memories s' !! k = Some m /\ ~ purges k e \/
  purges k e /\ exists m', ps_memories s' !! k = Some m' /\ ms_status m' = MemoryStatus.TOMBSTONED /\
    purged_by e m m'.
Proof.
  intros Hf Hm Ht. pose proof (fold_event_evolves _ _ _ _ Hf k) as Hev. rewrite Hm in Hev.
  apply fold_event_with_Ok in Hf as (p & w & Hacc & -> & _). cbn [committed ps_memories] in *.
  pose proof (acc_payload _ _ _ _ _ Hacc) as Hp. pose proof (acc_run _ _ _ _ _ Hacc) as Hrun.
  assert (Hpurge : e_operation e = EventOperation.PAYLOAD_PURGE_COMPLETED ->
    exists prev m' key at_ receipt, p = PayloadPurgeCompletedPayload prev m' key at_ receipt /\
      e_memory_id e = Some (ms_memory_id m') /\ w_memories w = <[ms_memory_id m' := m']> (ps_memories s) /\
      check_purge e (ps_memories s !! ms_memory_id m') m' key at_ = Ok tt /\
      ms_status m' = MemoryStatus.TOMBSTONED).
  { intros Hop. destruct Hrun; try congruence.
    - by rewrite Hop in *.
    - by destruct H as [[? _]|[? _]]; congruence.
    - match goal with H : replace_memory _ _ _ _ _ _ = _ |- _ =>
        apply replace_memory_Ok in H as (cur & _ & -> & Hid & _ & _ & _ & _ & Hreq & _) end.
      do 5 eexists. repeat split; [done..|]. by apply Hreq. }
  destruct (decide (purges k e)) as [[Hop Hk]|Hnp].
  - right. split; [done|]. destruct (Hpurge Hop) as (prev & m' & key & at_ & rc & -> & Hid & Hw & Hc & Hst).
    rewrite Hid in Hk. injection Hk as Hk. rewrite Hk, Hm in Hc. rewrite Hw, Hk, lookup_insert_eq in Hev.
    unfold check_purge in Hc. exists m'. rewrite Hw, Hk, lookup_insert_eq. split; [done|]. split; [done|].
    split; [by eauto|]. inv_ok. split; [done|]. split; [done|].
    destruct Hev as [->|Hs]; [congruence|exact (suc_revision _ _ _ Hs)].
  - left. split; [|done]. destruct (w_memories w !! k) as [m'|] eqn:Hm'; [|done].
    destruct Hev as [->|Hs]; [done|]. exfalso. apply Hnp. pose proof (suc_lifecycle _ _ _ Hs) as Hl.
    assert (Hop : e_operation e = EventOperation.PAYLOAD_PURGE_COMPLETED).
    { rewrite Ht in Hl. inversion Hl as [| |? ? Hin|? Hn|? Hin|? Hin|? Hn| |? Hin|]; try done;
        subst; repeat (apply elem_of_cons in Hin as [Hin|Hin]; [congruence|]); by apply elem_of_nil in Hin. }
    split; [done|]. destruct (Hpurge Hop) as (prev & m2 & key & at_ & rc & -> & Hid & Hw & _).
    rewrite Hid. f_equal. rewrite Hw in Hm'. apply dec_stable. intros Hne.
    rewrite lookup_insert_ne in Hm' by done. rewrite Hm in Hm'. injection Hm' as <-.
    pose proof (suc_revision _ _ _ Hs). lia.
Qed.

(** Along a run a tombstone stays as it is, but for one purge. *)
Lemma tombstone_run s es s' k m :
  foldM fold_event s es = Ok s' -> ps_memories s !! k = Some m -> ms_status m = MemoryStatus.TOMBSTONED ->
  exists m', ps_memories s' !! k = Some m' /\ ms_status m' = MemoryStatus.TOMBSTONED /\
    (m' = m /\ filter (purges k) es = [] \/ exists e, filter (purges k) es = [e] /\ purged_by e m m').
Proof.
  revert s m. induction es as [|e es IH]; intros s m Hf Hm Ht; cbn [foldM] in Hf.
  - injection Hf as <-. exists m. eauto.
  - apply bind_Ok in Hf as (s1 & Hs & Hf). rewrite filter_cons.
    destruct (tombstone_step _ _ _ _ _ Hs Hm Ht) as [[Hm1 Hnp]|(Hpu & m1 & Hm1 & Ht1 & Hby)].
    + rewrite decide_False by done. by apply (IH s1).
    + rewrite decide_True by done. destruct (IH _ _ Hf Hm1 Ht1) as (m' & Hm' & Ht' & [[-> Hnil]|(e' & _ & Hby')]).
      * exists m1. split; [done|]. split; [done|]. right. exists e. by rewrite Hnil.
      * destruct Hby as (_ & _ & Her & _), Hby' as (_ & Hen & _). congruence.
Qed.

(** An accepted transition names the revision it saw and moves past it. *)
Lemma transition_revision c s e s' :
  fold_event_with c s e = Ok s' -> is_transition_operation (e_operation e) = true ->
  exists k m m', e_memory_id e = Some k /\ ps_memories s !! k = Some m /\
    ps_memories s' !! k = Some m' /\ e_expected_revision e = Some (ms_revision m) /\
    ms_revision m' = ms_revision m + 1.
Proof.
  intros Hf Hop. apply fold_event_with_Ok in Hf as (p & w & Hacc & -> & _).
  assert (Hrep : forall prev m req keep M, replace_memory e (ps_memories s) prev m req keep = Ok M ->
    exists k m0 m', e_memory_id e = Some k /\ ps_memories s !! k = Some m0 /\ M !! k = Some m' /\
      e_expected_revision e = Some (ms_revision m0) /\ ms_revision m' = ms_revision m0 + 1).
  { intros prev m req keep M Hr.
    apply replace_memory_Ok in Hr as (cur & Hcur & -> & Hid & Hexp & -> & _ & Hrev & _).
    apply check_revision_Ok in Hrev as (_ & _ & Hr & _).
    exists (ms_memory_id m), cur, m. rewrite lookup_insert_eq. auto. }
  destruct (acc_run _ _ _ _ _ Hacc); simpl in *;
    try (by match goal with H : e_operation e = _ |- _ => rewrite H in Hop end); eauto.
  by destruct (e_operation e).
Qed.

Lemma run_app s es1 es2 s2 :
  foldM fold_event s (es1 ++ es2) = Ok s2 ->
  exists s1, foldM fold_event s es1 = Ok s1 /\ foldM fold_event s1 es2 = Ok s2.
Proof. rewrite foldM_app. intros Hf. apply bind_Ok in Hf. done. Qed.

Lemma fold_event_sequence s e s' :
  fold_event s e = Ok s' -> e_sequence e = ps_sequence s + 1 /\ ps_sequence s' = e_sequence e.
Proof.
  intros Hf. apply fold_event_with_Ok in Hf as (p & w & Hacc & -> & _).
  split; [exact (acc_sequence _ _ _ _ _ Hacc)|done].
Qed.

Lemma run_sequence s es s' :
  foldM fold_event s es = Ok s' ->
  ps_sequence s' = ps_sequence s + Z.of_nat (length es) /\
  e_sequence <$> es = seqZ (ps_sequence s + 1) (Z.of_nat (length es)).
Proof.
  revert s. induction es as [|e es IH]; intros s Hf; cbn [foldM length] in *.
  - injection Hf as <-. split; [lia|done].
  - apply bind_Ok in Hf as (s1 & Hs & Hf). apply fold_event_sequence in Hs as [He Hs1].
    destruct (IH _ Hf) as [Hseq Hmap]. split; [lia|].
    rewrite fmap_cons, Hmap, Hs1, He, (seqZ_cons _ (Z.of_nat (S _))) by lia.
    f_equal. f_equal; lia.
Qed.

Lemma run_sequence_scopes s es s' n :
  foldM fold_event s es = Ok s' -> ps_sequence s < n <= ps_sequence s' ->
  exists e, e ∈ es /\ e_sequence e = n /\ ps_sequence_scopes s' !! n = Some (event_scope e).
Proof.
  revert s'. induction es as [|e es IH] using rev_ind; intros s' Hf Hn; [simpl in Hf; inv_ok; lia|].
  apply run_app in Hf as (s1 & Hf1 & Hf). cbn [foldM] in Hf. apply bind_Ok in Hf as (s2 & Hs & [= <-]).
  pose proof (fold_event_sequence _ _ _ Hs) as [He Hs2].
  apply fold_event_with_Ok in Hs as (p & w & Hacc & -> & _). simpl in *.
  destruct (decide (n = e_sequence e)) as [->|Hne].
  - exists e. rewrite lookup_insert_eq. split; [|done]. apply elem_of_app. right. by left.
  - destruct (IH _ Hf1) as (e' & Hin & Hseq & Hsc); [lia|]. exists e'. rewrite lookup_insert_ne by done.
    split; [|done]. apply elem_of_app. by left.
Qed.

(** ** Properties *)

(** C1: every projection rebuilt from an accepted event stream is well formed:
    rows are stored under their own identifiers, memories satisfy their
    contract and stay inside an existing branch of their tenant and lineage
    and under its visibility ceiling, evidence refers to existing memories
    that are not tombstoned, links join existing distinct memories, conflicts
    keep at least two members of one subject and one scope, and parent
    branches exist in the same tenant and lineage. *)
Theorem rebuild_well_formed (es : list MemoryEvent) (s : ProjectionState) :
  rebuild es = Ok s -> wf s.
Proof. apply rebuild_wf_lemma. Qed.

(** C2: the fold implements the lifecycle contract and touches nothing else.
    An accepted event stores every memory after-image of its payload: as a
    creation at revision one in an initial status under the event's own target,
    or as the next revision of the row it replaces, with the same owner,
    subject and creation time and a status step the contract allows for that
    operation.  Every other memory stays as it was. *)
Theorem fold_event_refines_lifecycle (s : ProjectionState) (e : MemoryEvent) (s' : ProjectionState) :
  fold_event s e = Ok s' ->
  exists p, typed_payload e = Ok p /\ mem_changes e p (ps_memories s) (ps_memories s').
Proof. apply fold_event_changes. Qed.

(** A rebuilt projection has consumed exactly the sequence numbers
    1, 2, ..., n, and records for each of them the scope of its event. *)
Theorem rebuild_contiguous (es : list MemoryEvent) (s : ProjectionState) :
  rebuild es = Ok s ->
  ps_sequence s = Z.of_nat (length es) /\ e_sequence <$> es = seqZ 1 (Z.of_nat (length es)) /\
  forall n, is_Some (ps_sequence_scopes s !! n) <-> 1 <= n <= ps_sequence s.
Proof.
  intros Hf. destruct (run_sequence _ _ _ Hf) as [Hseq Hmap]. simpl in *.
  split; [lia|]. split; [done|]. intros n. split.
  - intros [sc Hsc]. by apply (wf_sequence_scope _ (rebuild_wf_lemma _ _ Hf)) in Hsc as [? _].
  - intros Hn. destruct (run_sequence_scopes _ _ _ n Hf) as (e & _ & _ & ->); [simpl; lia|]. eauto.
Qed.

(** C28: forgetting is final.  After a memory is tombstoned, no continuation of
    the stream brings it back: it stays tombstoned under the same identity,
    its content stays erased, and no evidence of it exists.  Only the
    completion of its payload purge may still touch it, and at most once: the
    row is the same to the last field, or the continuation holds exactly one
    such event, the row is the after-image of its payload, one revision on, and
    its protection went from encrypted to cryptographically erased. *)
Theorem tombstone_is_final (es1 es2 : list MemoryEvent) (s1 s2 : ProjectionState) (k : UUID)
    (m : MemoryState) :
  rebuild es1 = Ok s1 -> foldM fold_event s1 es2 = Ok s2 ->
  ps_memories s1 !! k = Some m -> ms_status m = MemoryStatus.TOMBSTONED ->
  exists m', ps_memories s2 !! k = Some m' /\ ms_status m' = MemoryStatus.TOMBSTONED /\
    ms_memory_id m' = k /\ ms_scope_key m' = ms_scope_key m /\ ms_subject_id m' = ms_subject_id m /\
    ms_statement m' = None /\ ms_reason_to_remember m' = None /\
    ms_interpretation_limits m' = [] /\ ms_normalized_fingerprint m' = None /\
    (forall i row, ps_evidence s2 !! i = Some row -> es_memory_id row <> k) /\
    (m' = m /\ filter (purges k) es2 = [] \/ exists e, filter (purges k) es2 = [e] /\ purged_by e m m').
Proof.
  intros Hf1 Hf2 Hm Ht. pose proof (run_wf _ _ _ (rebuild_wf_lemma _ _ Hf1) Hf2) as Hwf.
  destruct (run_persists _ _ _ Hf2 k m Hm) as (m0 & Hm0 & Hsc & Hsub & _).
  destruct (tombstone_run _ _ _ _ _ Hf2 Hm Ht) as (m' & Hm' & Ht' & Hpu).
  rewrite Hm' in Hm0. injection Hm0 as <-. exists m'.
  destruct (wf_memory_valid _ Hwf _ _ Hm') as [Hv _].
  destruct (tombstoned_content _ Hv Ht') as (? & ? & ? & ?). repeat split; try done.
  - exact (wf_memory_key _ Hwf _ _ Hm').
  - intros i row Hrow Hk. destruct (wf_evidence _ Hwf _ _ Hrow) as (_ & _ & m2 & Hm2 & Hn). congruence.
Qed.
End Theorems.

(** ** Witnesses on the sample history *)

Lemma rebuild_well_formed_witness : wf (sample_state 8).
Proof. apply (rebuild_well_formed sample_events), (sample_rebuild_state 8). Defined.

Lemma fold_event_refines_lifecycle_witness :
  exists p, typed_payload (ev 4 EventOperation.CONFLICT_OPENED None None) = Ok p /\
    mem_changes (ev 4 EventOperation.CONFLICT_OPENED None None) p
      (ps_memories (sample_state 3)) (ps_memories (sample_state 4)).
Proof.
  apply fold_event_refines_lifecycle. by apply (sample_step 3).
Defined.

Lemma rebuild_contiguous_witness : ps_sequence (sample_state 8) = 8.
Proof. apply (rebuild_contiguous sample_events), (sample_rebuild_state 8). Defined.
