(* ===== verification/FoldingHistory.v ===== *)
(** * FoldingHistory: optimistic concurrency, causality, isolation, conflicts

    Properties of whole accepted histories: no update is lost, causes precede
    their effects, an event adds and replaces rows only in its own scope, sealed
    content never changes, and a conflict with a terminal member can never be
    closed. *)

From stdpp Require Import base tactics option list gmap strings.
From Stdlib Require Import ZArith Lia Bool.
From S2P Require Import Prelude Identifiers Enums Values CanonicalJson Digest Constraints Events Folding FoldingFacts FoldingInvariant Samples FoldingTheorems.
Open Scope Z_scope.

(** Statuses no operation leads out of, except to the tombstone. *)
Definition terminal (st : MemoryStatus) : bool :=
  match st with
  | MemoryStatus.RETIRED | MemoryStatus.SUPERSEDED | MemoryStatus.TOMBSTONED => true
  | _ => false
  end.

Lemma lifecycle_terminal op st st' :
  lifecycle_step op st st' -> terminal st = true -> terminal st' = true.
Proof.
  intros Hl Ht. destruct Hl as [| |s s' Hin| | | | | |s Hin|s Hin]; try done.
  - destruct s; try done; set_solver.
  - destruct s; try done; set_solver.
Qed.

Section History.
Context `{R : Rfc8785} `{P : Pydantic}.

(** ** Runs split around an event *)

Lemma run_cons s e es s' :
  foldM fold_event s (e :: es) = Ok s' ->
  exists s1, fold_event s e = Ok s1 /\ foldM fold_event s1 es = Ok s'.
Proof. cbn [foldM]. intros Hf. by apply bind_Ok in Hf. Qed.

Lemma run_two s es1 e1 es2 e2 es3 s' :
  foldM fold_event s (es1 ++ e1 :: es2 ++ e2 :: es3) = Ok s' ->
  exists a b c d, fold_event a e1 = Ok b /\ foldM fold_event b es2 = Ok c /\ fold_event c e2 = Ok d.
Proof.
  intros Hf. apply run_app in Hf as (a & _ & Hf). apply run_cons in Hf as (b & Hb & Hf).
  apply run_app in Hf as (c & Hc & Hf). apply run_cons in Hf as (d & Hd & _). eauto 10.
Qed.

Lemma run_event_mono s es s' :
  foldM fold_event s es = Ok s' ->
  forall k, is_Some (ps_event_scopes s !! k) -> is_Some (ps_event_scopes s' !! k).
Proof.
  intros Hf k Hk. revert Hf. apply (foldM_invariant _ (fun t => is_Some (ps_event_scopes t !! k))); [|done].
  intros a x b _ Ha Hx. apply fold_event_with_Ok in Hx as (? & ? & _ & -> & _). simpl.
  apply lookup_insert_is_Some'. auto.
Qed.

(** Event identifiers are only added, never rewritten. *)
Lemma run_event_scopes s es s' :
  foldM fold_event s es = Ok s' ->
  forall id, ps_event_scopes s' !! id =
    match list_find (fun e => e_event_id e = id) es with
    | Some (_, e) => Some (event_scope e)
    | None => ps_event_scopes s !! id
    end.
Proof.
  revert s. induction es as [|e es IH]; intros s Hf id; [by injection Hf as <-|].
  apply run_cons in Hf as (s1 & Hs & Hf). rewrite (IH _ Hf id). cbn [list_find].
  apply fold_event_with_Ok in Hs as (p & w & Hacc & -> & _). simpl.
  destruct (decide (e_event_id e = id)) as [<-|Hne].
  - destruct (list_find _ es) as [[i e']|] eqn:Hfind; simpl; [|by rewrite lookup_insert_eq].
    exfalso. apply list_find_Some in Hfind as (Hi & Heq & _).
    apply take_drop_middle in Hi. rewrite <- Hi in Hf.
    apply run_app in Hf as (s2 & Hf1 & Hf2). apply run_cons in Hf2 as (s3 & Hs3 & _).
    apply fold_event_with_Ok in Hs3 as (p' & w' & Hacc' & _).
    pose proof (acc_fresh _ _ _ _ _ Hacc') as Hfresh.
    pose proof (run_event_mono _ _ _ Hf1 (e_event_id e)) as Hmono.
    simpl in Hmono.
    rewrite lookup_insert_eq, <- Heq, Hfresh in Hmono. by destruct Hmono.
  - rewrite lookup_insert_ne by done. destruct (list_find _ es) as [[i e']|]; done.
Qed.

(** ** Sealed content *)

Definition keeps_sealed (s s' : ProjectionState) : Prop :=
  forall k m, ps_memories s !! k = Some m ->
  exists m', ps_memories s' !! k = Some m' /\ is_v3 m' = is_v3 m /\
    (is_v3 m = true -> ms_sealed_content m' = ms_sealed_content m /\
                       ms_content_key_id m' = ms_content_key_id m).

#[local] Instance keeps_sealed_preorder : PreOrder keeps_sealed.
Proof.
  split.
  - intros s k m Hm. eauto 10.
  - intros s1 s2 s3 H12 H23 k m Hm. destruct (H12 k m Hm) as (m2 & Hm2 & Hv & Hs).
    destruct (H23 k m2 Hm2) as (m3 & Hm3 & Hv' & Hs'). exists m3. split; [done|].
    split; [congruence|]. intros Hv3. destruct (Hs Hv3) as [-> ->] || destruct (Hs Hv3).
    destruct Hs' as [? ?]; [congruence|]. split; congruence.
Qed.

Lemma run_keeps_sealed s es s' : foldM fold_event s es = Ok s' -> keeps_sealed s s'.
Proof.
  apply (foldM_preorder _ keeps_sealed). intros t e t' _ Hf k m Hm.
  apply fold_event_evolves in Hf. specialize (Hf k). rewrite Hm in Hf.
  destruct (ps_memories t' !! k) as [m'|]; [|done]. exists m'. split; [done|].
  destruct Hf as [->|Hs]; [auto|]. split; [apply (suc_sealed _ _ _ Hs)|].
  intros Hv3. destruct (suc_sealed_content _ _ _ Hs Hv3) as (? & ? & _). auto.
Qed.

(** ** Conflicts *)

(** An open conflict one of whose members is terminal. *)
Definition stranded (c : UUID) (s : ProjectionState) : Prop :=
  exists con mid m, ps_conflicts s !! c = Some con /\ cs_status con = conflict_open /\
    is_Some (ps_conflict_members s !! (c, mid)) /\
    ps_memories s !! mid = Some m /\ terminal (ms_status m) = true.

Lemma terminal_evolves e M M' k m :
  mem_evolves e M M' -> M !! k = Some m -> terminal (ms_status m) = true ->
  exists m', M' !! k = Some m' /\ terminal (ms_status m') = true.
Proof.
  intros Hev Hm Ht. specialize (Hev k). rewrite Hm in Hev. destruct (M' !! k) as [m'|]; [|done].
  exists m'. split; [done|]. destruct Hev as [->|Hs]; [done|].
  eapply lifecycle_terminal; [exact (suc_lifecycle _ _ _ Hs)|done].
Qed.

Lemma stranded_step c s e s' : wf s -> stranded c s -> fold_event s e = Ok s' -> stranded c s'.
Proof.
  intros Hwf (con & mid & m & Hcon & Hopen & Hmem & Hm & Hterm) Hf.
  apply fold_event_with_Ok in Hf as (p & w & Hacc & -> & _).
  pose proof (accepted_evolves _ _ _ _ _ Hacc) as Hev.
  destruct (terminal_evolves _ _ _ _ _ Hev Hm Hterm) as (m' & Hm' & Hterm').
  pose proof (acc_valid _ _ _ _ _ Hacc) as Hval.
  exists con, mid, m'. unfold committed.
  cbn [ps_conflicts ps_conflict_members ps_memories].
  destruct (acc_run _ _ _ _ _ Hacc) as
    [| | | | | | | | | | |c0 ms am M C CM Hop Hr|c0 ms am M C CM Hop Hr| |];
    cbn [w_conflicts w_conflict_members w_memories set_memories set_evidence set_links set_conflicts
         set_branches working_of] in *;
    try (split; [exact Hcon|split; [exact Hopen|split; [exact Hmem|split; [exact Hm'|exact Hterm']]]]).
  - apply open_conflict_Ok in Hr as (ids & _ & _ & Hn & -> & _ & _ & _ & Hadd).
    apply add_members_Ok in Hadd as (_ & Hkeep & _).
    rewrite lookup_insert_ne by congruence. eauto 10.
  - pose proof (conflict_affected_valid c0 ms am Hval) as Hav.
    apply resolve_conflict_Ok in Hr as
      (ids & cur & Haff & -> & Hcur & -> & _ & _ & _ & _ & _ & _ & Hids & _ & ->).
    destruct (decide (cs_conflict_id c0 = c)) as [<-|Hne].
    + exfalso. apply apply_affected_memories_Ok in Haff; [|done..].
      destruct (Haff mid) as [_ Ha]. destruct Ha as (m0 & m1 & Hm0 & _ & Hsuc).
      { simpl. rewrite <- Hids. by apply elem_of_current_member_ids. }
      pose proof (suc_lifecycle _ _ _ Hsuc) as Hl. rewrite Hop in Hl. rewrite Hm in Hm0. injection Hm0 as <-.
      inversion Hl as [| | | | | | | | |st Hin Heq1 Heq2]. by rewrite <- Heq2 in Hterm.
    + rewrite lookup_insert_ne by done. cbn [validate_payload] in Hval. inv_bind.
      assert (Hcid : Forall (fun m => cm_conflict_id m = cs_conflict_id c0) ms).
      { by eapply validate_members_Ok. }
      destruct (replace_members_Ok _ _ (ps_conflict_members s) Hcid) as (_ & Hother & _).
      rewrite Hother by congruence. eauto 10.
Qed.

Lemma run_stranded c s es s' : wf s -> stranded c s -> foldM fold_event s es = Ok s' -> stranded c s'.
Proof.
  intros Hwf Hs Hf. refine (proj2 (foldM_invariant _ (fun t => wf t /\ stranded c t) _ _ es _ (conj Hwf Hs) Hf)).
  intros t e t' _ [Ht Hst] He. split; [by eapply wf_step|by eapply stranded_step].
Qed.

(** ** Isolation of writes *)

(** A link an event writes lies in its scope, and so did the row it replaces. *)
Lemma op_run_links s e p w w' k l :
  op_run s e w p w' -> w_links w' !! k = Some l -> w_links w !! k <> Some l ->
  ls_scope_key l = event_scope e /\
  forall old, w_links w !! k = Some old -> ls_scope_key old = event_scope e.
Proof.
  intros Hrun Hk Hne. destruct Hrun; simpl in *; try done.
  - match goal with H : link_memories _ _ _ _ = _ |- _ => apply link_memories_Ok in H as (Hn & -> & Hsc & _) end.
    apply lookup_insert_Some in Hk as [[<- <-]|[_ Hk]]; [|done]. rewrite Hn. done.
  - match goal with H : link_memories _ _ _ _ = _ |- _ => apply link_memories_Ok in H as (Hn & -> & Hsc & _) end.
    apply lookup_insert_Some in Hk as [[<- <-]|[_ Hk]]; [|done]. rewrite Hn. done.
  - match goal with H : unlink _ _ _ = _ |- _ => apply unlink_Ok in H as (cur & Hcur & -> & _ & _ & Hsc & Hsame & _) end.
    apply lookup_insert_Some in Hk as [[<- <-]|[_ Hk]]; [|done]. split; [done|].
    intros old Hold. congruence.
Qed.

Lemma op_run_conflicts s e p w w' k c :
  op_run s e w p w' -> w_conflicts w' !! k = Some c -> w_conflicts w !! k <> Some c ->
  cs_scope_key c = event_scope e /\
  forall old, w_conflicts w !! k = Some old -> cs_scope_key old = event_scope e.
Proof.
  intros Hrun Hk Hne. destruct Hrun; simpl in *; try done.
  - match goal with H : open_conflict _ _ _ _ _ _ _ = _ |- _ =>
      apply open_conflict_Ok in H as (ids & _ & _ & Hn & -> & _ & Hsc & _) end.
    apply lookup_insert_Some in Hk as [[<- <-]|[_ Hk]]; [|done]. rewrite Hn. done.
  - match goal with H : resolve_conflict _ _ _ _ _ _ _ = _ |- _ =>
      apply resolve_conflict_Ok in H as (ids & cur & _ & _ & Hcur & -> & _ & _ & Hsame & _ & _ & Hsc & _) end.
    apply lookup_insert_Some in Hk as [[<- <-]|[_ Hk]]; [|done]. split; [done|].
    intros old Hold. congruence.
Qed.

Lemma mem_evolves_written e M M' k m' :
  mem_evolves e M M' -> M' !! k = Some m' -> M !! k <> Some m' ->
  ms_scope_key m' = event_scope e /\ forall m, M !! k = Some m -> ms_scope_key m = event_scope e.
Proof.
  intros Hev Hm' Hne. specialize (Hev k). rewrite Hm' in Hev.
  destruct (M !! k) as [m|]; simpl in Hev.
  - destruct Hev as [->|Hs]; [done|]. split; [apply (suc_owner _ _ _ Hs)|].
    intros ? [= <-]. by rewrite <- (suc_scope _ _ _ Hs), (suc_owner _ _ _ Hs).
  - destruct Hev as [_ Hc]. split; [apply (crt_owner _ _ Hc)|done].
Qed.

(** ** Properties *)

(** C29: no update is lost.  Two accepted transitions of the same memory never
    rest on the same revision: the later one names a strictly larger expected
    revision, so a writer that did not see an intervening change is refused. *)
Theorem no_lost_update (es1 es2 es3 : list MemoryEvent) (e1 e2 : MemoryEvent) (s : ProjectionState) :
  rebuild (es1 ++ e1 :: es2 ++ e2 :: es3) = Ok s ->
  is_transition_operation (e_operation e1) = true -> is_transition_operation (e_operation e2) = true ->
  e_memory_id e1 = e_memory_id e2 ->
  exists r1 r2, e_expected_revision e1 = Some r1 /\ e_expected_revision e2 = Some r2 /\ r1 < r2.
Proof.
  intros Hf Ht1 Ht2 Hid. apply run_two in Hf as (a & b & c & d & H1 & Hrun & H2).
  destruct (transition_revision _ _ _ _ H1 Ht1) as (k & m & m' & Hk & _ & Hm' & Hr & Hnext).
  destruct (transition_revision _ _ _ _ H2 Ht2) as (k2 & m2 & _ & Hk2 & Hm2 & _ & Hr2 & _).
  assert (k2 = k) as -> by congruence.
  destruct (run_persists _ _ _ Hrun k m' Hm') as (m3 & Hm3 & _ & _ & _ & _ & Hle & _).
  rewrite Hm2 in Hm3. injection Hm3 as <-. exists (ms_revision m), (ms_revision m2).
  split; [done|]. split; [done|]. lia.
Qed.

(** Accepted histories are causal: event identifiers are pairwise distinct
    (a replayed event is refused), and the cause an event names is an earlier
    event of the same tenant and lineage. *)
Theorem history_is_causal (es : list MemoryEvent) (s : ProjectionState) :
  rebuild es = Ok s ->
  NoDup (e_event_id <$> es) /\
  forall es1 e es2 cause, es = es1 ++ e :: es2 -> e_causation_event_id e = Some cause ->
  exists e', e' ∈ es1 /\ e_event_id e' = cause /\
    e_tenant_id e' = e_tenant_id e /\ e_lineage_id e' = e_lineage_id e.
Proof.
  intros Hf. split.
  - clear -Hf. unfold rebuild in Hf. generalize dependent empty_projection.
    induction es as [|e es IH]; intros s0 Hf; [constructor|]. apply run_cons in Hf as (s1 & Hs & Hf).
    rewrite fmap_cons. constructor; [|by eapply IH].
    intros (e' & Heq & Hin)%list_elem_of_fmap. apply list_elem_of_split in Hin as (l1 & l2 & ->).
    apply run_app in Hf as (s2 & Hf1 & Hf2). apply run_cons in Hf2 as (s3 & Hs3 & _).
    apply fold_event_with_Ok in Hs as (p & w & _ & -> & _).
    apply fold_event_with_Ok in Hs3 as (p' & w' & Hacc' & _).
    pose proof (run_event_mono _ _ _ Hf1 (e_event_id e)) as Hmono. simpl in Hmono.
    rewrite lookup_insert_eq, Heq, (acc_fresh _ _ _ _ _ Hacc') in Hmono. by destruct Hmono.
  - intros es1 e es2 cause -> Hcause. apply run_app in Hf as (s1 & Hf1 & Hf2).
    apply run_cons in Hf2 as (s2 & Hs2 & _). apply fold_event_with_Ok in Hs2 as (p & w & Hacc & _).
    destruct (acc_cause _ _ _ _ _ Hacc _ Hcause) as (sc & Hsc & Hscope).
    rewrite (run_event_scopes _ _ _ Hf1) in Hsc.
    destruct (list_find _ es1) as [[i e']|] eqn:Hfind;
      [|simpl in Hsc; by rewrite lookup_empty in Hsc]. injection Hsc as <-.
    apply list_find_Some in Hfind as (Hi & Hid & _). exists e'.
    split; [by eapply list_elem_of_lookup_2|]. split; [done|]. by injection Hscope as -> ->.
Qed.

(** Every memory, link, conflict or evidence row an accepted event adds or
    replaces belongs to the event's tenant, lineage and branch, as did the row
    replaced.  Deleted evidence is not covered: the redaction does not compare
    scopes. *)
Theorem writes_stay_in_scope (s : ProjectionState) (e : MemoryEvent) (s' : ProjectionState) :
  fold_event s e = Ok s' ->
  (forall k m, ps_memories s' !! k = Some m -> ps_memories s !! k <> Some m ->
     ms_scope_key m = event_scope e /\
     forall old, ps_memories s !! k = Some old -> ms_scope_key old = event_scope e) /\
  (forall k l, ps_links s' !! k = Some l -> ps_links s !! k <> Some l ->
     ls_scope_key l = event_scope e /\
     forall old, ps_links s !! k = Some old -> ls_scope_key old = event_scope e) /\
  (forall k c, ps_conflicts s' !! k = Some c -> ps_conflicts s !! k <> Some c ->
     cs_scope_key c = event_scope e /\
     forall old, ps_conflicts s !! k = Some old -> cs_scope_key old = event_scope e) /\
  (forall k i, ps_evidence s' !! k = Some i -> ps_evidence s !! k <> Some i ->
     es_scope_key i = event_scope e).
Proof.
  intros Hf. apply fold_event_with_Ok in Hf as (p & w & Hacc & -> & _).
  pose proof (acc_run _ _ _ _ _ Hacc) as Hrun. simpl.
  split; [|split; [|split]].
  - intros k m. apply mem_evolves_written. by eapply accepted_evolves.
  - intros k l. exact (op_run_links _ _ _ _ _ k l Hrun).
  - intros k c. exact (op_run_conflicts _ _ _ _ _ k c Hrun).
  - intros k i Hk Hne. destruct (op_run_evidence _ _ _ _ _ _ _ Hrun Hk) as [?|(_ & ? & _)]; done.
Qed.

(** sealed content is immutable.  A memory created under the sealed
    contract stays under it in every continuation, with the same ciphertext
    envelope and the same content key, until the key is destroyed. *)
Theorem sealed_content_immutable (s : ProjectionState) (es : list MemoryEvent) (s' : ProjectionState)
    (k : UUID) (m : MemoryState) :
  foldM fold_event s es = Ok s' -> ps_memories s !! k = Some m -> is_v3 m = true ->
  exists m', ps_memories s' !! k = Some m' /\ is_v3 m' = true /\
    ms_sealed_content m' = ms_sealed_content m /\ ms_content_key_id m' = ms_content_key_id m.
Proof.
  intros Hf Hm Hv3. destruct (run_keeps_sealed _ _ _ Hf k m Hm) as (m' & Hm' & Hv & Hs).
  destruct (Hs Hv3) as [? ?]. exists m'. rewrite Hv. auto.
Qed.

(** a conflict is resolved only while all its members are disputed, so an
    open conflict one of whose members was retired, superseded or tombstoned
    on the way can never be closed by any continuation of the stream. *)
Theorem stranded_conflict_stays_open (es1 es2 : list MemoryEvent) (s1 s2 : ProjectionState)
    (c mid : UUID) (con : ConflictState) (m : MemoryState) :
  rebuild es1 = Ok s1 -> foldM fold_event s1 es2 = Ok s2 ->
  ps_conflicts s1 !! c = Some con -> cs_status con = conflict_open ->
  is_Some (ps_conflict_members s1 !! (c, mid)) ->
  ps_memories s1 !! mid = Some m -> terminal (ms_status m) = true ->
  exists con', ps_conflicts s2 !! c = Some con' /\ cs_status con' = conflict_open.
Proof.
  intros Hf1 Hf2 Hcon Hopen Hmem Hm Hterm.
  assert (Hs : stranded c s1) by (exists con, mid, m; auto).
  destruct (run_stranded _ _ _ _ (rebuild_wf_lemma _ _ Hf1) Hs Hf2) as (con' & _ & _ & ? & ? & _). eauto.
Qed.
End History.

(** ** Witnesses on the sample history *)

(** Two revisions of one memory. *)
Definition revised_payloads : list OperationPayload :=
  let mem rev updated := sample_memory MEMORY_1 TENANT_A BRANCH_A rev 2 updated MemoryStatus.ACTIVE in
  [ BranchCreatedPayload (sample_branch BRANCH_A TENANT_A 1);
    MemoryCreatedPayload (mem 1 2) [];
    MemoryTransitionPayload 1 (mem 2 3);
    MemoryTransitionPayload 2 (mem 3 4) ].

Definition revised_events : list MemoryEvent :=
  [ ev 1 EventOperation.BRANCH_CREATED None None;
    ev 2 EventOperation.REMEMBERED (Some MEMORY_1) None;
    ev 3 EventOperation.REVISED (Some MEMORY_1) (Some 1);
    ev 4 EventOperation.REVISED (Some MEMORY_1) (Some 2) ].

Lemma no_lost_update_witness :
  exists r1 r2, Some 1 = Some r1 /\ Some 2 = Some r2 /\ r1 < r2.
Proof.
  destruct (@no_lost_update _ (table_pydantic revised_payloads)
    (take 2 revised_events) [] [] (ev 3 EventOperation.REVISED (Some MEMORY_1) (Some 1))
    (ev 4 EventOperation.REVISED (Some MEMORY_1) (Some 2))
    (@state_of _ (table_pydantic revised_payloads) revised_events))
    as (r1 & r2 & H1 & H2 & Hlt); [vm_compute; reflexivity..|]. exists r1, r2. auto.
Defined.

Lemma history_is_causal_witness : NoDup (e_event_id <$> sample_events).
Proof. apply (history_is_causal sample_events (sample_state 8)), (sample_rebuild_state 8). Defined.

Lemma writes_stay_in_scope_witness :
  option_map ms_scope_key (ps_memories (sample_state 2) !! MEMORY_1) = Some (TENANT_A, LINEAGE, BRANCH_A).
Proof.
  destruct (writes_stay_in_scope (sample_state 1) (ev 2 EventOperation.REMEMBERED (Some MEMORY_1) None)
              (sample_state 2)) as (Hmem & _).
  { by apply (sample_step 1). }
  destruct (ps_memories (sample_state 2) !! MEMORY_1) as [m|] eqn:Hm; [|vm_compute in Hm; discriminate].
  simpl. f_equal. refine (proj1 (Hmem MEMORY_1 m Hm _)). vm_compute. discriminate.
Defined.

(** A sealed memory: created, hard-forgotten, then purged. *)
Definition KEY_1 : UUID := uid 60.

Definition seal (aad : pystr) (m : MemoryState) (protection : ContentProtection) : MemoryState :=
  {| ms_version := MemoryStateV3 None
       {| sc_content_key_id := KEY_1; sc_nonce := b64encode (replicate 12 7);
          sc_ciphertext := b64encode (replicate 17 9); sc_aad_sha256 := aad;
          sc_safe_summary := py "sealed" |};
     ms_memory_id := ms_memory_id m; ms_tenant_id := ms_tenant_id m;
     ms_lineage_id := ms_lineage_id m; ms_branch_id := ms_branch_id m;
     ms_subject_id := ms_subject_id m; ms_subject_kind := ms_subject_kind m;
     ms_revision := ms_revision m; ms_category := ms_category m;
     ms_ontological_status := ms_ontological_status m; ms_scope := ms_scope m;
     ms_visibility := ms_visibility m; ms_status := ms_status m; ms_statement := None;
     ms_reason_to_remember := None; ms_interpretation_limits := [];
     ms_confidence := ms_confidence m; ms_salience := ms_salience m;
     ms_durability := ms_durability m; ms_sensitivity := ms_sensitivity m;
     ms_authority_class := ms_authority_class m; ms_valid_from := None; ms_valid_to := None;
     ms_observed_at := None; ms_origin_session_id := None; ms_publication_approved_at := None;
     ms_publication_approved_by_actor_id := None; ms_content_protection := protection;
     ms_content_key_id := Some KEY_1; ms_created_at := ms_created_at m;
     ms_updated_at := ms_updated_at m; ms_fingerprint_version := 1;
     ms_normalized_fingerprint := None; ms_metadata := [] |}.

Definition sealed_creation : MemoryEvent :=
  sample_event 2 TENANT_A BRANCH_A EventOperation.REMEMBERED 3 (Some MEMORY_1) None.

Definition sealed_plain (revision updated : Z) (status : MemoryStatus) : MemoryState :=
  sample_memory MEMORY_1 TENANT_A BRANCH_A revision 2 updated status.

#[local] Existing Instance score_memory.

(** The digest the creation event binds the envelope to. *)
Definition sealed_digest : pystr :=
  let m := seal [] (sealed_plain 1 2 MemoryStatus.ACTIVE) envelope_encrypted in
  let '(h, v) := sealed_aad_object sealed_creation m in
  match canonical_json_bytes h v with Ok b => sha256_hex b | Err _ => [] end.

Definition sealed_memory (revision updated : Z) (status : MemoryStatus)
    (protection : ContentProtection) : MemoryState :=
  seal sealed_digest (sealed_plain revision updated status) protection.

Definition sealed_payloads : list OperationPayload :=
  [ BranchCreatedPayload (sample_branch BRANCH_A TENANT_A 1);
    MemoryCreatedPayload (sealed_memory 1 2 MemoryStatus.ACTIVE envelope_encrypted) [];
    TombstonedPayload 1 (sealed_memory 2 3 MemoryStatus.TOMBSTONED envelope_encrypted) forget_hard;
    PayloadPurgeCompletedPayload 2
      (sealed_memory 3 4 MemoryStatus.TOMBSTONED cryptographically_erased) KEY_1 4 (sha256_hex []) ].

Definition sealed_events : list MemoryEvent :=
  [ ev 1 EventOperation.BRANCH_CREATED None None; sealed_creation;
    sample_event 3 TENANT_A BRANCH_A EventOperation.TOMBSTONED 3 (Some MEMORY_1) (Some 1);
    sample_event 4 TENANT_A BRANCH_A EventOperation.PAYLOAD_PURGE_COMPLETED 3 (Some MEMORY_1) (Some 2) ].

Lemma sealed_content_immutable_witness :
  exists m', ps_memories (@state_of _ (table_pydantic sealed_payloads) sealed_events) !! MEMORY_1 = Some m' /\
    ms_content_key_id m' = Some KEY_1.
Proof.
  destruct (@sealed_content_immutable _ (table_pydantic sealed_payloads)
    (@state_of _ (table_pydantic sealed_payloads) (take 2 sealed_events)) (drop 2 sealed_events)
    (@state_of _ (table_pydantic sealed_payloads) sealed_events) MEMORY_1
    (sealed_memory 1 2 MemoryStatus.ACTIVE envelope_encrypted)) as (m' & Hm & _ & _ & Hk);
    [vm_compute; reflexivity..|]. exists m'. auto.
Defined.

(** The hard-forgotten memory and the purge that follows. *)
Lemma tombstone_is_final_witness :
  exists m', ps_memories (@state_of _ (table_pydantic sealed_payloads) sealed_events) !! MEMORY_1 = Some m' /\
    ms_statement m' = None /\ ms_revision m' = 3.
Proof.
  destruct (@tombstone_is_final _ (table_pydantic sealed_payloads)
    (take 3 sealed_events) (drop 3 sealed_events)
    (@state_of _ (table_pydantic sealed_payloads) (take 3 sealed_events))
    (@state_of _ (table_pydantic sealed_payloads) sealed_events) MEMORY_1
    (sealed_memory 2 3 MemoryStatus.TOMBSTONED envelope_encrypted))
    as (m' & Hm & _ & _ & _ & _ & Hst & _ & _ & _ & _ & [[_ Hnil]|(e & _ & _ & _ & _ & Hrev)]);
    [vm_compute; reflexivity..| |].
  - vm_compute in Hnil. discriminate Hnil.
  - exists m'. rewrite Hrev. auto.
Defined.

(** A disputed memory retired while its conflict is open. *)
Definition stranded_payloads : list OperationPayload :=
  take 4 sample_payloads ++
  [ MemoryTransitionPayload 2 (sample_memory MEMORY_1 TENANT_A BRANCH_A 3 2 5 MemoryStatus.RETIRED);
    MemoryTransitionPayload 2 (sample_memory MEMORY_2 TENANT_A BRANCH_A 3 3 6 MemoryStatus.ACTIVE) ].

Definition stranded_events : list MemoryEvent :=
  take 4 sample_events ++
  [ ev 5 EventOperation.RETIRED (Some MEMORY_1) (Some 2);
    ev 6 EventOperation.REVISED (Some MEMORY_2) (Some 2) ].

Lemma stranded_conflict_stays_open_witness :
  exists con', ps_conflicts (@state_of _ (table_pydantic stranded_payloads) stranded_events) !! CONFLICT_1
    = Some con' /\ cs_status con' = conflict_open.
Proof.
  apply (@stranded_conflict_stays_open _ (table_pydantic stranded_payloads)
    (take 5 stranded_events) (drop 5 stranded_events)
    (@state_of _ (table_pydantic stranded_payloads) (take 5 stranded_events))
    (@state_of _ (table_pydantic stranded_payloads) stranded_events) CONFLICT_1 MEMORY_1
    (sample_conflict conflict_open None)
    (sample_memory MEMORY_1 TENANT_A BRANCH_A 3 2 5 MemoryStatus.RETIRED));
    try (vm_compute; reflexivity). vm_compute. eauto.
Defined.

(** ** A reference the fold does not scope *)

(** Tenant B attaches evidence to a memory of tenant A. *)
Definition foreign_payloads : list OperationPayload :=
  [ BranchCreatedPayload (sample_branch BRANCH_A TENANT_A 1);
    BranchCreatedPayload (sample_branch BRANCH_B TENANT_B 2);
    MemoryCreatedPayload (sample_memory MEMORY_1 TENANT_A BRANCH_A 1 3 3 MemoryStatus.ACTIVE) [];
    EvidenceAttachedPayload (sample_evidence EVIDENCE_1 MEMORY_1 TENANT_B BRANCH_B 4) ].

Definition foreign_events : list MemoryEvent :=
  [ ev 1 EventOperation.BRANCH_CREATED None None;
    sample_event 2 TENANT_B BRANCH_B EventOperation.BRANCH_CREATED 1 None None;
    ev 3 EventOperation.REMEMBERED (Some MEMORY_1) None;
    sample_event 4 TENANT_B BRANCH_B EventOperation.EVIDENCE_ATTACHED 1 (Some MEMORY_1) None ].

(** The fold alone does not keep evidence in the tenant of its memory:
    an event of one tenant may attach evidence to a memory of another, because
    [_attach_evidence] compares the evidence row, not the target memory, with
    the event's scope. *)
Theorem fold_accepts_foreign_evidence :
  exists (P : Pydantic) (es : list MemoryEvent) (s : ProjectionState) (i : EvidenceState) (m : MemoryState),
    rebuild es = Ok s /\ ps_evidence s !! es_evidence_id i = Some i /\
    ps_memories s !! es_memory_id i = Some m /\ es_tenant_id i <> ms_tenant_id m.
Proof.
  exists (table_pydantic foreign_payloads), foreign_events,
    (@state_of _ (table_pydantic foreign_payloads) foreign_events),
    (sample_evidence EVIDENCE_1 MEMORY_1 TENANT_B BRANCH_B 4),
    (sample_memory MEMORY_1 TENANT_A BRANCH_A 1 3 3 MemoryStatus.ACTIVE).
  split; [vm_compute; reflexivity|]. split; [vm_compute; reflexivity|].
  split; [vm_compute; reflexivity|]. vm_compute. discriminate.
Qed.
