(* ===== verification/PolicyContracts.v ===== *)
(** * PolicyContracts: the contracts of the deterministic selection policy

    Models [policy/contracts.py]: its vocabularies, the structured request, the
    rules and guardrails of a profile, and the decisions, each with the
    validators pydantic runs when an instance is built.  A [frozenset] field is
    a list of which only membership is read. *)

From stdpp Require Import base tactics option list strings sorting.
From Stdlib Require Import ZArith Lia Bool.
From S2P Require Import Prelude Identifiers Enums Values CanonicalJson Constraints Events.
Open Scope Z_scope.

(** ** Vocabularies *)

(** [class SelectionBasis(StrEnum)]: Closed caller-declared basis evaluated against server-resolved evidence. *)
Module SelectionBasis.
Inductive SelectionBasis : Type :=
| ROUTINE_BANTER | EXPLICIT_USER_CORRECTION | EXPLICIT_USER_PREFERENCE
| EXPLICIT_USER_PERMISSION | VERIFIED_PROJECT_DECISION | ASSISTANT_OBSERVATION
| ASSISTANT_INTERPRETATION | IMPORTED_LEGACY | MEANINGFUL_EPISODIC_ANCHOR
| EXPLICIT_USER_REQUEST.

Definition value (x : SelectionBasis) : string :=
  match x with
  | ROUTINE_BANTER => "routine_banter"
  | EXPLICIT_USER_CORRECTION => "explicit_user_correction"
  | EXPLICIT_USER_PREFERENCE => "explicit_user_preference"
  | EXPLICIT_USER_PERMISSION => "explicit_user_permission"
  | VERIFIED_PROJECT_DECISION => "verified_project_decision"
  | ASSISTANT_OBSERVATION => "assistant_observation"
  | ASSISTANT_INTERPRETATION => "assistant_interpretation"
  | IMPORTED_LEGACY => "imported_legacy"
  | MEANINGFUL_EPISODIC_ANCHOR => "meaningful_episodic_anchor"
  | EXPLICIT_USER_REQUEST => "explicit_user_request"
  end%string.

Definition members : list SelectionBasis :=
  [ROUTINE_BANTER; EXPLICIT_USER_CORRECTION; EXPLICIT_USER_PREFERENCE;
   EXPLICIT_USER_PERMISSION; VERIFIED_PROJECT_DECISION; ASSISTANT_OBSERVATION;
   ASSISTANT_INTERPRETATION; IMPORTED_LEGACY; MEANINGFUL_EPISODIC_ANCHOR;
   EXPLICIT_USER_REQUEST].
End SelectionBasis.
Abbreviation SelectionBasis := SelectionBasis.SelectionBasis.

#[export] Instance SelectionBasis_eq_dec : EqDecision SelectionBasis.
Proof. solve_decision. Defined.

#[export] Instance SelectionBasis_strenum : StrEnum SelectionBasis.
Proof. refine {| enum_value := SelectionBasis.value; enum_members := SelectionBasis.members |}; solve_strenum. Defined.

(** [class ContentSignal(StrEnum)]: Structured semantic signals; the policy engine never derives these from text. *)
Module ContentSignal.
Inductive ContentSignal : Type :=
| ROLEPLAYED_SCENE | ASSISTANT_PREFERENCE_LIKE | SUBJECTIVE_EXPERIENCE_CLAIM.

Definition value (x : ContentSignal) : string :=
  match x with
  | ROLEPLAYED_SCENE => "roleplayed_scene"
  | ASSISTANT_PREFERENCE_LIKE => "assistant_preference_like"
  | SUBJECTIVE_EXPERIENCE_CLAIM => "subjective_experience_claim"
  end%string.

Definition members : list ContentSignal :=
  [ROLEPLAYED_SCENE; ASSISTANT_PREFERENCE_LIKE; SUBJECTIVE_EXPERIENCE_CLAIM].
End ContentSignal.
Abbreviation ContentSignal := ContentSignal.ContentSignal.

#[export] Instance ContentSignal_eq_dec : EqDecision ContentSignal.
Proof. solve_decision. Defined.

#[export] Instance ContentSignal_strenum : StrEnum ContentSignal.
Proof. refine {| enum_value := ContentSignal.value; enum_members := ContentSignal.members |}; solve_strenum. Defined.

(** [class EpistemicQualifier(StrEnum)]: Machine-readable limits that accompany human interpretation-limit prose. *)
Module EpistemicQualifier.
Inductive EpistemicQualifier : Type :=
| ROLEPLAY_NOT_LITERAL | ASSISTANT_PATTERN_NOT_SUBJECTIVE_EXPERIENCE
| SINGLE_EPISODE_NOT_STABLE_PATTERN | SUBJECTIVE_EXPERIENCE_UNRESOLVED
| IMPORTED_SOURCE_UNRECONCILED.

Definition value (x : EpistemicQualifier) : string :=
  match x with
  | ROLEPLAY_NOT_LITERAL => "roleplay_not_literal"
  | ASSISTANT_PATTERN_NOT_SUBJECTIVE_EXPERIENCE => "assistant_pattern_not_subjective_experience"
  | SINGLE_EPISODE_NOT_STABLE_PATTERN => "single_episode_not_stable_pattern"
  | SUBJECTIVE_EXPERIENCE_UNRESOLVED => "subjective_experience_unresolved"
  | IMPORTED_SOURCE_UNRECONCILED => "imported_source_unreconciled"
  end%string.

Definition members : list EpistemicQualifier :=
  [ROLEPLAY_NOT_LITERAL; ASSISTANT_PATTERN_NOT_SUBJECTIVE_EXPERIENCE;
   SINGLE_EPISODE_NOT_STABLE_PATTERN; SUBJECTIVE_EXPERIENCE_UNRESOLVED;
   IMPORTED_SOURCE_UNRECONCILED].
End EpistemicQualifier.
Abbreviation EpistemicQualifier := EpistemicQualifier.EpistemicQualifier.

#[export] Instance EpistemicQualifier_eq_dec : EqDecision EpistemicQualifier.
Proof. solve_decision. Defined.

#[export] Instance EpistemicQualifier_strenum : StrEnum EpistemicQualifier.
Proof. refine {| enum_value := EpistemicQualifier.value; enum_members := EpistemicQualifier.members |}; solve_strenum. Defined.

(** [class EvidenceKind(StrEnum)] *)
Module EvidenceKind.
Inductive EvidenceKind : Type :=
| USER_STATEMENT | USER_CORRECTION | USER_CONFIRMATION | PROJECT_SOURCE
| ASSISTANT_OBSERVATION | IMPORT_MANIFEST | CONVERSATION_EPISODE.

Definition value (x : EvidenceKind) : string :=
  match x with
  | USER_STATEMENT => "user_statement"
  | USER_CORRECTION => "user_correction"
  | USER_CONFIRMATION => "user_confirmation"
  | PROJECT_SOURCE => "project_source"
  | ASSISTANT_OBSERVATION => "assistant_observation"
  | IMPORT_MANIFEST => "import_manifest"
  | CONVERSATION_EPISODE => "conversation_episode"
  end%string.

Definition members : list EvidenceKind :=
  [USER_STATEMENT; USER_CORRECTION; USER_CONFIRMATION; PROJECT_SOURCE;
   ASSISTANT_OBSERVATION; IMPORT_MANIFEST; CONVERSATION_EPISODE].
End EvidenceKind.
Abbreviation EvidenceKind := EvidenceKind.EvidenceKind.

#[export] Instance EvidenceKind_eq_dec : EqDecision EvidenceKind.
Proof. solve_decision. Defined.

#[export] Instance EvidenceKind_strenum : StrEnum EvidenceKind.
Proof. refine {| enum_value := EvidenceKind.value; enum_members := EvidenceKind.members |}; solve_strenum. Defined.

(** [class EvidenceTrust(StrEnum)] *)
Module EvidenceTrust.
Inductive EvidenceTrust : Type :=
| TRUSTED | CORROBORATED | UNVERIFIED.

Definition value (x : EvidenceTrust) : string :=
  match x with
  | TRUSTED => "trusted"
  | CORROBORATED => "corroborated"
  | UNVERIFIED => "unverified"
  end%string.

Definition members : list EvidenceTrust :=
  [TRUSTED; CORROBORATED; UNVERIFIED].
End EvidenceTrust.
Abbreviation EvidenceTrust := EvidenceTrust.EvidenceTrust.

#[export] Instance EvidenceTrust_eq_dec : EqDecision EvidenceTrust.
Proof. solve_decision. Defined.

#[export] Instance EvidenceTrust_strenum : StrEnum EvidenceTrust.
Proof. refine {| enum_value := EvidenceTrust.value; enum_members := EvidenceTrust.members |}; solve_strenum. Defined.

(** [class PolicyOutcome(StrEnum)] *)
Module PolicyOutcome.
Inductive PolicyOutcome : Type :=
| OMIT | REJECT | CANDIDATE | ACTIVE.

Definition value (x : PolicyOutcome) : string :=
  match x with
  | OMIT => "omit"
  | REJECT => "reject"
  | CANDIDATE => "candidate"
  | ACTIVE => "active"
  end%string.

Definition members : list PolicyOutcome :=
  [OMIT; REJECT; CANDIDATE; ACTIVE].
End PolicyOutcome.
Abbreviation PolicyOutcome := PolicyOutcome.PolicyOutcome.

#[export] Instance PolicyOutcome_eq_dec : EqDecision PolicyOutcome.
Proof. solve_decision. Defined.

#[export] Instance PolicyOutcome_strenum : StrEnum PolicyOutcome.
Proof. refine {| enum_value := PolicyOutcome.value; enum_members := PolicyOutcome.members |}; solve_strenum. Defined.

(** [class LifecycleAction(StrEnum)] *)
Module LifecycleAction.
Inductive LifecycleAction : Type :=
| NO_OP | PROMOTE | RETIRE.

Definition value (x : LifecycleAction) : string :=
  match x with
  | NO_OP => "no_op"
  | PROMOTE => "promote"
  | RETIRE => "retire"
  end%string.

Definition members : list LifecycleAction :=
  [NO_OP; PROMOTE; RETIRE].
End LifecycleAction.
Abbreviation LifecycleAction := LifecycleAction.LifecycleAction.

#[export] Instance LifecycleAction_eq_dec : EqDecision LifecycleAction.
Proof. solve_decision. Defined.

#[export] Instance LifecycleAction_strenum : StrEnum LifecycleAction.
Proof. refine {| enum_value := LifecycleAction.value; enum_members := LifecycleAction.members |}; solve_strenum. Defined.

(** [class LifecycleReasonCode(StrEnum)] *)
Module LifecycleReasonCode.
Inductive LifecycleReasonCode : Type :=
| NOT_CANDIDATE | POLICY_PROFILE_MISMATCH | TRUSTED_USER_CONFIRMATION
| INDEPENDENT_OBSERVATIONS | PROTECTED_CANDIDATE | INSUFFICIENT_EVIDENCE
| EXPIRY_NOT_DUE | CANDIDATE_EXPIRED.

Definition value (x : LifecycleReasonCode) : string :=
  match x with
  | NOT_CANDIDATE => "not_candidate"
  | POLICY_PROFILE_MISMATCH => "policy_profile_mismatch"
  | TRUSTED_USER_CONFIRMATION => "trusted_user_confirmation"
  | INDEPENDENT_OBSERVATIONS => "independent_observations"
  | PROTECTED_CANDIDATE => "protected_candidate"
  | INSUFFICIENT_EVIDENCE => "insufficient_evidence"
  | EXPIRY_NOT_DUE => "expiry_not_due"
  | CANDIDATE_EXPIRED => "candidate_expired"
  end%string.

Definition members : list LifecycleReasonCode :=
  [NOT_CANDIDATE; POLICY_PROFILE_MISMATCH; TRUSTED_USER_CONFIRMATION;
   INDEPENDENT_OBSERVATIONS; PROTECTED_CANDIDATE; INSUFFICIENT_EVIDENCE;
   EXPIRY_NOT_DUE; CANDIDATE_EXPIRED].
End LifecycleReasonCode.
Abbreviation LifecycleReasonCode := LifecycleReasonCode.LifecycleReasonCode.

#[export] Instance LifecycleReasonCode_eq_dec : EqDecision LifecycleReasonCode.
Proof. solve_decision. Defined.

#[export] Instance LifecycleReasonCode_strenum : StrEnum LifecycleReasonCode.
Proof. refine {| enum_value := LifecycleReasonCode.value; enum_members := LifecycleReasonCode.members |}; solve_strenum. Defined.

(** [class PolicyReasonCode(StrEnum)] *)
Module PolicyReasonCode.
Inductive PolicyReasonCode : Type :=
| NO_MATCHING_RULE | ROUTINE_BANTER_OMITTED | EXPLICIT_USER_CORRECTION
| EXPLICIT_USER_PREFERENCE | EXPLICIT_USER_PERMISSION | VERIFIED_PROJECT_DECISION
| ASSISTANT_OBSERVATION_CANDIDATE | ASSISTANT_INTERPRETATION_CANDIDATE
| IMPORTED_LEGACY_CANDIDATE | MEANINGFUL_EPISODIC_ANCHOR | EXPLICIT_USER_REQUEST
| REASON_REQUIRED | EVIDENCE_REQUIRED | AUTHORITY_NOT_ESTABLISHED
| BASIS_CATEGORY_INCOMPATIBLE | CATEGORY_ONTOLOGY_INCOMPATIBLE | ROLEPLAY_LITERALIZATION
| ROLEPLAY_SCOPE_FORBIDDEN | ROLEPLAY_VISIBILITY_FORBIDDEN
| EPISTEMIC_QUALIFICATION_REQUIRED | SENTIENCE_OVERCLAIM.

Definition value (x : PolicyReasonCode) : string :=
  match x with
  | NO_MATCHING_RULE => "no_matching_rule"
  | ROUTINE_BANTER_OMITTED => "routine_banter_omitted"
  | EXPLICIT_USER_CORRECTION => "explicit_user_correction"
  | EXPLICIT_USER_PREFERENCE => "explicit_user_preference"
  | EXPLICIT_USER_PERMISSION => "explicit_user_permission"
  | VERIFIED_PROJECT_DECISION => "verified_project_decision"
  | ASSISTANT_OBSERVATION_CANDIDATE => "assistant_observation_candidate"
  | ASSISTANT_INTERPRETATION_CANDIDATE => "assistant_interpretation_candidate"
  | IMPORTED_LEGACY_CANDIDATE => "imported_legacy_candidate"
  | MEANINGFUL_EPISODIC_ANCHOR => "meaningful_episodic_anchor"
  | EXPLICIT_USER_REQUEST => "explicit_user_request"
  | REASON_REQUIRED => "reason_required"
  | EVIDENCE_REQUIRED => "evidence_required"
  | AUTHORITY_NOT_ESTABLISHED => "authority_not_established"
  | BASIS_CATEGORY_INCOMPATIBLE => "basis_category_incompatible"
  | CATEGORY_ONTOLOGY_INCOMPATIBLE => "category_ontology_incompatible"
  | ROLEPLAY_LITERALIZATION => "roleplay_literalization"
  | ROLEPLAY_SCOPE_FORBIDDEN => "roleplay_scope_forbidden"
  | ROLEPLAY_VISIBILITY_FORBIDDEN => "roleplay_visibility_forbidden"
  | EPISTEMIC_QUALIFICATION_REQUIRED => "epistemic_qualification_required"
  | SENTIENCE_OVERCLAIM => "sentience_overclaim"
  end%string.

Definition members : list PolicyReasonCode :=
  [NO_MATCHING_RULE; ROUTINE_BANTER_OMITTED; EXPLICIT_USER_CORRECTION;
   EXPLICIT_USER_PREFERENCE; EXPLICIT_USER_PERMISSION; VERIFIED_PROJECT_DECISION;
   ASSISTANT_OBSERVATION_CANDIDATE; ASSISTANT_INTERPRETATION_CANDIDATE;
   IMPORTED_LEGACY_CANDIDATE; MEANINGFUL_EPISODIC_ANCHOR; EXPLICIT_USER_REQUEST;
   REASON_REQUIRED; EVIDENCE_REQUIRED; AUTHORITY_NOT_ESTABLISHED;
   BASIS_CATEGORY_INCOMPATIBLE; CATEGORY_ONTOLOGY_INCOMPATIBLE;
   ROLEPLAY_LITERALIZATION; ROLEPLAY_SCOPE_FORBIDDEN; ROLEPLAY_VISIBILITY_FORBIDDEN;
   EPISTEMIC_QUALIFICATION_REQUIRED; SENTIENCE_OVERCLAIM].
End PolicyReasonCode.
Abbreviation PolicyReasonCode := PolicyReasonCode.PolicyReasonCode.

#[export] Instance PolicyReasonCode_eq_dec : EqDecision PolicyReasonCode.
Proof. solve_decision. Defined.

#[export] Instance PolicyReasonCode_strenum : StrEnum PolicyReasonCode.
Proof. refine {| enum_value := PolicyReasonCode.value; enum_members := PolicyReasonCode.members |}; solve_strenum. Defined.

(** ** Evidence and requests *)

(** The tests every validator of the module shares. *)
Definition size_between (lo hi : nat) {A} (l : list A) : bool :=
  ((lo <=? length l) && (length l <=? hi))%nat.

Record EvidenceSummary : Type := {
  evs_evidence_key : pystr;
  evs_kind : EvidenceKind;
  evs_trust : EvidenceTrust
}.

Definition validate_evidence_summary (i : EvidenceSummary) : result unit :=
  raise_if (negb (length_between 1 255 (evs_evidence_key i))) (ValidationError "field constraint");;
  raise_if (is_blank (evs_evidence_key i)) (ValidationError "evidence key cannot be blank").

Record NominationEvidenceReference : Type := {
  ner_evidence_key : pystr;
  ner_opaque_reference : pystr
}.

Definition validate_nomination_reference (n : NominationEvidenceReference) : result unit :=
  raise_if (negb (length_between 1 255 (ner_evidence_key n)
                  && length_between 1 2048 (ner_opaque_reference n))) (ValidationError "field constraint");;
  raise_if (is_blank (ner_evidence_key n) || is_blank (ner_opaque_reference n))
    (ValidationError "nomination evidence values cannot be blank").

(** Instants are normalized to UTC when the DTO is read; [metadata] is the
    parsed JSON object. *)
Record NominationProposal : Type := {
  np_subject_id : UUID;
  np_subject_kind : SubjectKind;
  np_category : MemoryCategory;
  np_ontological_status : OntologicalStatus;
  np_scope : MemoryScope;
  np_visibility : MemoryVisibility;
  np_statement : pystr;
  np_reason_to_remember : pystr;
  np_interpretation_limits : list pystr;
  np_confidence : Decimal;
  np_salience : Decimal;
  np_durability : Decimal;
  np_sensitivity : Z;
  np_valid_from : option instant;
  np_valid_to : option instant;
  np_observed_at : option instant;
  np_origin_session_id : option UUID;
  np_metadata : json_dict;
  np_selection_basis : SelectionBasis;
  np_epistemic_qualifiers : list EpistemicQualifier;
  np_evidence_references : list NominationEvidenceReference
}.

Definition validate_nomination `{Rfc8785} (p : NominationProposal) : result unit :=
  raise_if (negb (is_uuid7 (np_subject_id p) && opt_ok is_uuid7 (np_origin_session_id p)
                  && length_between 1 8192 (np_statement p)
                  && length_between 1 4096 (np_reason_to_remember p)
                  && size_between 0 32 (np_interpretation_limits p)
                  && forallb (length_between 1 1024) (np_interpretation_limits p)
                  && unit_score_ok (np_confidence p) && unit_score_ok (np_salience p)
                  && unit_score_ok (np_durability p)
                  && (0 <=? np_sensitivity p) && (np_sensitivity p <=? 4)
                  && size_between 0 128 (np_metadata p)
                  && size_between 0 16 (np_epistemic_qualifiers p)
                  && size_between 0 64 (np_evidence_references p))) (ValidationError "field constraint");;
  raise_if (is_blank (np_statement p) || is_blank (np_reason_to_remember p))
    (ValidationError "nomination content cannot be blank");;
  raise_if (existsb is_blank (np_interpretation_limits p))
    (ValidationError "interpretation limits cannot be blank");;
  raise_if (negb (nodupb (np_interpretation_limits p)))
    (ValidationError "interpretation limits must be unique");;
  each validate_nomination_reference (np_evidence_references p);;
  raise_if (window_reversed (np_valid_from p) (np_valid_to p))
    (ValidationError "valid_to must not precede valid_from");;
  raise_if (negb (nodupb (np_epistemic_qualifiers p)))
    (ValidationError "epistemic qualifiers must be unique");;
  raise_if (negb (nodupb (ner_evidence_key <$> np_evidence_references p)))
    (ValidationError "nomination evidence keys must be unique");;
  metadata ← canonical_plain_bytes (JObject (np_metadata p));
  raise_if (65536 <? Z.of_nat (length metadata))
    (ValidationError "nomination metadata exceeds 65536 canonical bytes").

Record SelectionRequest : Type := {
  sr_basis : SelectionBasis;
  sr_category : MemoryCategory;
  sr_ontological_status : OntologicalStatus;
  sr_scope : MemoryScope;
  sr_visibility : MemoryVisibility;
  sr_effective_authority_class : AuthorityClass;
  sr_content_signals : list ContentSignal;
  sr_epistemic_qualifiers : list EpistemicQualifier;
  sr_reason_to_remember : option pystr;
  sr_interpretation_limits : list pystr;
  sr_evidence : list EvidenceSummary
}.

Definition validate_selection_request (r : SelectionRequest) : result unit :=
  raise_if (match sr_reason_to_remember r with
            | Some reason => negb (length_between 1 4096 reason) || is_blank reason
            | None => false
            end) (ValidationError "reason to remember cannot be blank");;
  raise_if (negb (size_between 0 32 (sr_interpretation_limits r))
            || negb (forallb (length_between 1 1024) (sr_interpretation_limits r))
            || existsb is_blank (sr_interpretation_limits r)
            || negb (nodupb (sr_interpretation_limits r))) (ValidationError "interpretation limits must be unique and not blank");;
  raise_if (negb (size_between 0 64 (sr_evidence r))) (ValidationError "field constraint");;
  each validate_evidence_summary (sr_evidence r);;
  raise_if (negb (nodupb (evs_evidence_key <$> sr_evidence r))) (ValidationError "evidence keys must be unique").

(** ** Rules *)

Record EvidenceRequirement : Type := {
  er_kinds : list EvidenceKind;
  er_trusts : list EvidenceTrust;
  er_minimum : Z
}.

Definition validate_requirement (q : EvidenceRequirement) : result unit :=
  raise_if (negb (size_between 1 8 (er_kinds q) && size_between 1 3 (er_trusts q)
                  && (1 <=? er_minimum q) && (er_minimum q <=? 64))) (ValidationError "field constraint");;
  raise_if (negb (nodupb (er_kinds q))) (ValidationError "evidence requirement kinds must be unique");;
  raise_if (negb (nodupb (er_trusts q))) (ValidationError "evidence requirement trusts must be unique").

(** [^[a-z][a-z0-9_.-]*$] with at most 128 characters *)
Definition rule_id_ok (s : pystr) : bool :=
  match s with
  | c :: rest =>
    is_lower c
    && forallb (fun x => is_lower x || ((48 <=? x) && (x <=? 57)) || (x =? 95) || (x =? 46) || (x =? 45)) rest
    && (length s <=? 128)%nat
  | [] => false
  end.

Definition ttl_ok (ttl : option Z) : bool := opt_ok (fun d => (1 <=? d) && (d <=? 3650)) ttl.

Record BasisRule : Type := {
  br_rule_id : pystr;
  br_basis : SelectionBasis;
  br_outcome : PolicyOutcome;
  br_reason_code : PolicyReasonCode;
  br_allowed_categories : list MemoryCategory;
  br_required_authority : option AuthorityClass;
  br_evidence_requirement : option EvidenceRequirement;
  br_required_qualifiers : list EpistemicQualifier;
  br_requires_interpretation_limits : bool;
  br_candidate_ttl_days : option Z
}.

Definition is_candidate (o : PolicyOutcome) : bool := bool_decide (o = PolicyOutcome.CANDIDATE).

Definition validate_rule (r : BasisRule) : result unit :=
  raise_if (negb (rule_id_ok (br_rule_id r) && ttl_ok (br_candidate_ttl_days r)
                  && size_between 0 16 (br_allowed_categories r)
                  && size_between 0 16 (br_required_qualifiers r)
                  && negb (bool_decide (br_outcome r = PolicyOutcome.REJECT)))) (ValidationError "field constraint");;
  match br_evidence_requirement r with Some q => validate_requirement q | None => Ok tt end;;
  raise_if (negb (nodupb (br_allowed_categories r))) (ValidationError "basis-rule allowed categories must be unique");;
  raise_if (negb (nodupb (br_required_qualifiers r))) (ValidationError "basis-rule required qualifiers must be unique");;
  raise_if (negb (eqb (is_candidate (br_outcome r)) (negb (is_none (br_candidate_ttl_days r)))))
    (ValidationError "candidate rules require a TTL and non-candidate rules forbid one").

Record SignalGuardrail : Type := {
  sg_rule_id : pystr;
  sg_signal : ContentSignal;
  sg_allowed_categories : list MemoryCategory;
  sg_allowed_ontologies : list OntologicalStatus;
  sg_allowed_scopes : list MemoryScope;
  sg_allowed_visibilities : list MemoryVisibility;
  sg_required_qualifiers : list EpistemicQualifier;
  sg_requires_interpretation_limits : bool;
  sg_force_candidate : bool;
  sg_forced_candidate_ttl_days : option Z;
  sg_violation_code : PolicyReasonCode
}.

Definition validate_guardrail (g : SignalGuardrail) : result unit :=
  raise_if (negb (rule_id_ok (sg_rule_id g) && ttl_ok (sg_forced_candidate_ttl_days g)
                  && size_between 1 16 (sg_allowed_categories g)
                  && size_between 1 8 (sg_allowed_ontologies g)
                  && size_between 1 6 (sg_allowed_scopes g)
                  && size_between 1 4 (sg_allowed_visibilities g)
                  && size_between 1 16 (sg_required_qualifiers g))) (ValidationError "field constraint");;
  raise_if (negb (nodupb (sg_allowed_categories g))) (ValidationError "guardrail categories must be unique");;
  raise_if (negb (nodupb (sg_allowed_ontologies g))) (ValidationError "guardrail ontologies must be unique");;
  raise_if (negb (nodupb (sg_allowed_scopes g))) (ValidationError "guardrail scopes must be unique");;
  raise_if (negb (nodupb (sg_allowed_visibilities g))) (ValidationError "guardrail visibilities must be unique");;
  raise_if (negb (nodupb (sg_required_qualifiers g))) (ValidationError "guardrail qualifiers must be unique");;
  raise_if (negb (eqb (sg_force_candidate g) (negb (is_none (sg_forced_candidate_ttl_days g)))))
    (ValidationError "candidate-forcing guardrails require exactly one TTL").

(** Fields whose type is a one-value [Literal] are not stored; [precedence] is
    five of the stage names. *)
Inductive PolicyStage : Type := structural | hard_guardrail | evidence | basis | qualification.

#[export] Instance PolicyStage_eq_dec : EqDecision PolicyStage.
Proof. solve_decision. Defined.

Record SelectionPolicyProfile : Type := {
  spp_precedence : list PolicyStage;
  spp_basis_rules : list BasisRule;
  spp_signal_guardrails : list SignalGuardrail
}.

Definition default_reason_code : PolicyReasonCode := PolicyReasonCode.NO_MATCHING_RULE.
Definition profile_version : pystr := py "selection-v1".

(** [set(values) != set(EnumType)] negated *)
Definition covers {A} `{EqDecision A} (all values : list A) : bool :=
  forallb (fun x => bool_decide (x ∈ values)) all.

Definition validate_complete_profile (p : SelectionPolicyProfile) : result unit :=
  raise_if (negb (size_between 1 32 (spp_basis_rules p) && size_between 1 16 (spp_signal_guardrails p)))
    (ValidationError "field constraint");;
  each validate_rule (spp_basis_rules p);;
  each validate_guardrail (spp_signal_guardrails p);;
  raise_if (negb (bool_decide (spp_precedence p = [structural; hard_guardrail; evidence; basis; qualification])))
    (ValidationError "selection policy precedence must match the v1 deterministic order");;
  let bases := br_basis <$> spp_basis_rules p in
  raise_if (negb (nodupb bases) || negb (covers SelectionBasis.members bases)) (ValidationError "selection policy must define every basis exactly once");;
  let signals := sg_signal <$> spp_signal_guardrails p in
  raise_if (negb (nodupb signals) || negb (covers ContentSignal.members signals)) (ValidationError "selection policy must define every content signal exactly once");;
  raise_if (negb (nodupb ((br_rule_id <$> spp_basis_rules p) ++ (sg_rule_id <$> spp_signal_guardrails p))))
    (ValidationError "selection policy rule identifiers must be unique").

(** [LoadedSelectionPolicy] of [policy/loader.py]; its canonical bytes are only
    hashed. *)
Record LoadedSelectionPolicy : Type := {
  lsp_profile : SelectionPolicyProfile;
  lsp_sha256_hex : pystr
}.

(** What [load_selection_policy] guarantees of its result. *)
Definition loaded_ok (l : LoadedSelectionPolicy) : Prop :=
  validate_complete_profile (lsp_profile l) = Ok tt /\ hex_digest_ok (lsp_sha256_hex l) = true.

(** ** Decisions *)

Record PolicyDecision : Type := {
  pd_profile_version : pystr;
  pd_profile_sha256 : pystr;
  pd_outcome : PolicyOutcome;
  pd_reason_codes : list PolicyReasonCode;
  pd_matched_rule_ids : list pystr;
  pd_required_qualifiers : list EpistemicQualifier;
  pd_candidate_ttl_days : option Z
}.

Definition validate_decision (d : PolicyDecision) : result unit :=
  raise_if (negb (bool_decide (pd_profile_version d = profile_version)
                  && hex_digest_ok (pd_profile_sha256 d)
                  && size_between 1 8 (pd_reason_codes d)
                  && size_between 0 16 (pd_matched_rule_ids d)
                  && size_between 0 16 (pd_required_qualifiers d)
                  && ttl_ok (pd_candidate_ttl_days d))) (ValidationError "field constraint");;
  raise_if (negb (nodupb (pd_reason_codes d))) (ValidationError "policy decision reason codes must be unique");;
  raise_if (negb (nodupb (pd_matched_rule_ids d))) (ValidationError "policy decision rule identifiers must be unique");;
  raise_if (negb (nodupb (pd_required_qualifiers d))) (ValidationError "policy decision qualifiers must be unique");;
  raise_if (negb (eqb (is_candidate (pd_outcome d)) (negb (is_none (pd_candidate_ttl_days d)))))
    (ValidationError "candidate decisions require a TTL and other outcomes forbid one").

Record CandidateLifecycleState : Type := {
  cls_status : MemoryStatus;
  cls_selection_basis : SelectionBasis;
  cls_content_signals : list ContentSignal;
  cls_evidence : list EvidenceSummary;
  cls_policy_profile_version : pystr;
  cls_policy_profile_sha256 : pystr
}.

(** [^selection-v[1-9][0-9]*$] with at most 64 characters *)
Definition profile_version_ok (s : pystr) : bool :=
  bool_decide (take 11 s = py "selection-v")
  && match drop 11 s with
     | c :: rest => (49 <=? c) && (c <=? 57) && forallb (fun x => (48 <=? x) && (x <=? 57)) rest
     | [] => false
     end
  && (length s <=? 64)%nat.

Definition validate_lifecycle_state (c : CandidateLifecycleState) : result unit :=
  raise_if (negb (size_between 0 64 (cls_evidence c) && profile_version_ok (cls_policy_profile_version c)
                  && hex_digest_ok (cls_policy_profile_sha256 c))) (ValidationError "field constraint");;
  each validate_evidence_summary (cls_evidence c);;
  raise_if (negb (nodupb (evs_evidence_key <$> cls_evidence c)))
    (ValidationError "candidate lifecycle evidence keys must be unique").

Record ExpiryEvaluation : Type := {
  ee_candidate : CandidateLifecycleState;
  ee_deadline : instant;
  ee_evaluated_at : instant
}.

Record LifecycleDecision : Type := {
  ld_action : LifecycleAction;
  ld_reason_code : LifecycleReasonCode;
  ld_policy_profile_version : pystr;
  ld_policy_profile_sha256 : pystr
}.
