(* ===== verification/Policy.v ===== *)
(** * Policy: evaluation of the deterministic selection policy

    Models [policy/evaluator.py] and [policy/lifecycle.py], and the checked-in
    profile [policy/profiles/selection-v1.json].  Building a [PolicyDecision]
    runs its validators, so the evaluator is a [result]. *)

From stdpp Require Import base tactics option list strings sorting.
From Stdlib Require Import ZArith Lia Bool.
From S2P Require Import Prelude Identifiers Enums Values CanonicalJson Constraints Events PolicyContracts.
Open Scope Z_scope.

(** ** [policy/evaluator.py] *)

Definition qualifier_le (a b : EpistemicQualifier) : Prop :=
  String.leb (EpistemicQualifier.value a) (EpistemicQualifier.value b) = true.

#[export] Instance qualifier_le_dec : RelDecision qualifier_le.
Proof. intros a b. unfold qualifier_le. apply _. Defined.

(** [tuple(sorted(set(values), key=lambda item: item.value))] *)
Definition ordered_qualifiers (values : list EpistemicQualifier) : list EpistemicQualifier :=
  merge_sort qualifier_le (remove_dups values).

Definition decision (loaded : LoadedSelectionPolicy) (outcome : PolicyOutcome)
    (reason : PolicyReasonCode) (matched_rule_ids : list pystr)
    (required_qualifiers : list EpistemicQualifier) (candidate_ttl_days : option Z)
    : result PolicyDecision :=
  let d := {| pd_profile_version := profile_version; pd_profile_sha256 := lsp_sha256_hex loaded;
              pd_outcome := outcome; pd_reason_codes := [reason];
              pd_matched_rule_ids := matched_rule_ids;
              pd_required_qualifiers := required_qualifiers;
              pd_candidate_ttl_days := candidate_ttl_days |} in
  validate_decision d;; Ok d.

Definition reject (loaded : LoadedSelectionPolicy) (reason : PolicyReasonCode)
    (matched_rule_ids : list pystr) (required_qualifiers : list EpistemicQualifier)
    : result PolicyDecision :=
  decision loaded PolicyOutcome.REJECT reason matched_rule_ids required_qualifiers None.

Definition basis_rule (request : SelectionRequest) (loaded : LoadedSelectionPolicy)
    : option BasisRule :=
  List.find (fun rule => bool_decide (br_basis rule = sr_basis request))
    (spp_basis_rules (lsp_profile loaded)).

Definition guardrail_violation (request : SelectionRequest) (guardrail : SignalGuardrail)
    : option PolicyReasonCode :=
  let roleplayed := bool_decide (sg_signal guardrail = ContentSignal.ROLEPLAYED_SCENE) in
  if bool_decide (sr_category request ∉ sg_allowed_categories guardrail)
  then Some (sg_violation_code guardrail)
  else if bool_decide (sr_ontological_status request ∉ sg_allowed_ontologies guardrail)
  then Some (sg_violation_code guardrail)
  else if bool_decide (sr_scope request ∉ sg_allowed_scopes guardrail)
  then Some (if roleplayed then PolicyReasonCode.ROLEPLAY_SCOPE_FORBIDDEN
             else sg_violation_code guardrail)
  else if bool_decide (sr_visibility request ∉ sg_allowed_visibilities guardrail)
  then Some (if roleplayed then PolicyReasonCode.ROLEPLAY_VISIBILITY_FORBIDDEN
             else sg_violation_code guardrail)
  else None.

(** The distinct keys of the evidence items a test selects: a Python set
    comprehension of which only the size is used. *)
Definition distinct_keys (test : EvidenceSummary -> bool) (items : list EvidenceSummary) : list pystr :=
  remove_dups (evs_evidence_key <$> List.filter test items).

Definition evidence_satisfies (request : SelectionRequest) (rule : BasisRule) : bool :=
  match br_evidence_requirement rule with
  | None => true
  | Some requirement =>
    er_minimum requirement <=?
    Z.of_nat (length (distinct_keys
      (fun item => bool_decide (evs_kind item ∈ er_kinds requirement)
                   && bool_decide (evs_trust item ∈ er_trusts requirement))
      (sr_evidence request)))
  end.

(** The first violation the guardrail loop returns. *)
Fixpoint first_violation (request : SelectionRequest) (guardrails : list SignalGuardrail)
    : option PolicyReasonCode :=
  match guardrails with
  | [] => None
  | g :: rest =>
    match guardrail_violation request g with
    | Some violation => Some violation
    | None => first_violation request rest
    end
  end.

(** [min(ttl for ... if ttl is not None)]; [min] of nothing is a [ValueError]. *)
Definition min_ttl (guardrails : list SignalGuardrail) : result Z :=
  match omap sg_forced_candidate_ttl_days guardrails with
  | [] => Err (ValueError "min() iterable argument is empty")
  | t :: rest => Ok (fold_left Z.min rest t)
  end.

Definition applicable_guardrails (request : SelectionRequest) (loaded : LoadedSelectionPolicy)
    : list SignalGuardrail :=
  List.filter (fun g => bool_decide (sg_signal g ∈ sr_content_signals request))
    (spp_signal_guardrails (lsp_profile loaded)).

(** The qualification stage and the final outcome of [evaluate_selection]. *)
Definition qualified_decision (loaded : LoadedSelectionPolicy) (request : SelectionRequest)
    (rule : BasisRule) : result PolicyDecision :=
  let applicable := applicable_guardrails request loaded in
  let matched := br_rule_id rule :: (sg_rule_id <$> applicable) in
  let guard_qualifiers := ordered_qualifiers (applicable ≫= sg_required_qualifiers) in
  let qualifiers := ordered_qualifiers (br_required_qualifiers rule ++ guard_qualifiers) in
  let needs_limits := br_requires_interpretation_limits rule
                      || existsb sg_requires_interpretation_limits applicable in
  if negb (forallb (fun q => bool_decide (q ∈ sr_epistemic_qualifiers request)) qualifiers)
     || (needs_limits && bool_decide (sr_interpretation_limits request = []))
  then reject loaded PolicyReasonCode.EPISTEMIC_QUALIFICATION_REQUIRED matched qualifiers
  else
  let forcing := List.filter sg_force_candidate applicable in
  '(outcome, ttl) ← (if bool_decide (forcing = [])
                     then Ok (br_outcome rule, br_candidate_ttl_days rule)
                     else t ← min_ttl forcing; Ok (PolicyOutcome.CANDIDATE, Some t));
  decision loaded outcome (br_reason_code rule) matched qualifiers ttl.

(** The gates of [evaluate_selection] once a rule that stores is found. *)
Definition gated_decision (loaded : LoadedSelectionPolicy) (request : SelectionRequest)
    (rule : BasisRule) : result PolicyDecision :=
  let applicable := applicable_guardrails request loaded in
  let matched := br_rule_id rule :: (sg_rule_id <$> applicable) in
  let guard_qualifiers := ordered_qualifiers (applicable ≫= sg_required_qualifiers) in
  match first_violation request applicable with
  | Some violation => reject loaded violation matched guard_qualifiers
  | None =>
    if match br_required_authority rule with
       | Some authority => bool_decide (sr_effective_authority_class request <> authority)
       | None => false
       end
    then reject loaded PolicyReasonCode.AUTHORITY_NOT_ESTABLISHED matched guard_qualifiers
    else if negb (evidence_satisfies request rule)
    then reject loaded PolicyReasonCode.EVIDENCE_REQUIRED matched guard_qualifiers
    else if negb (bool_decide (br_allowed_categories rule = []))
            && bool_decide (sr_category request ∉ br_allowed_categories rule)
    then reject loaded PolicyReasonCode.BASIS_CATEGORY_INCOMPATIBLE matched guard_qualifiers
    else if is_none (sr_reason_to_remember request)
    then reject loaded PolicyReasonCode.REASON_REQUIRED matched guard_qualifiers
    else qualified_decision loaded request rule
  end.

Definition evaluate_selection (loaded : LoadedSelectionPolicy) (request : SelectionRequest)
    : result PolicyDecision :=
  if bool_decide (sr_ontological_status request ∉ CATEGORY_ONTOLOGY_COMPATIBILITY (sr_category request))
  then reject loaded PolicyReasonCode.CATEGORY_ONTOLOGY_INCOMPATIBLE [] []
  else
  match basis_rule request loaded with
  | None => reject loaded default_reason_code [] []
  | Some rule =>
    if bool_decide (br_outcome rule = PolicyOutcome.OMIT)
    then decision loaded PolicyOutcome.OMIT (br_reason_code rule) [br_rule_id rule] [] None
    else gated_decision loaded request rule
  end.

(** ** [policy/lifecycle.py] *)

Definition content_signal_by_rule_id (rule_id : pystr) : option ContentSignal :=
  if bool_decide (rule_id = py "guardrail.roleplayed_scene") then Some ContentSignal.ROLEPLAYED_SCENE
  else if bool_decide (rule_id = py "guardrail.assistant_preference_like")
  then Some ContentSignal.ASSISTANT_PREFERENCE_LIKE
  else if bool_decide (rule_id = py "guardrail.subjective_experience_claim")
  then Some ContentSignal.SUBJECTIVE_EXPERIENCE_CLAIM
  else None.

Definition content_signals_from_rule_ids (rule_ids : list pystr) : list ContentSignal :=
  remove_dups (omap content_signal_by_rule_id rule_ids).

(** [LifecycleDecision(...)]: its only checks are on the profile identity. *)
Definition lifecycle_decision (loaded : LoadedSelectionPolicy) (action : LifecycleAction)
    (reason : LifecycleReasonCode) : result LifecycleDecision :=
  raise_if (negb (hex_digest_ok (lsp_sha256_hex loaded))) (ValidationError "field constraint");;
  Ok {| ld_action := action; ld_reason_code := reason; ld_policy_profile_version := profile_version;
        ld_policy_profile_sha256 := lsp_sha256_hex loaded |}.

Definition profile_matches (candidate : CandidateLifecycleState) (loaded : LoadedSelectionPolicy) : bool :=
  bool_decide (cls_policy_profile_version candidate = profile_version)
  && bool_decide (cls_policy_profile_sha256 candidate = lsp_sha256_hex loaded).

Definition evidence_is (kind : EvidenceKind) (trust : EvidenceTrust) (item : EvidenceSummary) : bool :=
  bool_decide (evs_kind item = kind) && bool_decide (evs_trust item = trust).

Definition evaluate_promotion (loaded : LoadedSelectionPolicy) (candidate : CandidateLifecycleState)
    : result LifecycleDecision :=
  if bool_decide (cls_status candidate <> MemoryStatus.CANDIDATE)
  then lifecycle_decision loaded LifecycleAction.NO_OP LifecycleReasonCode.NOT_CANDIDATE
  else if negb (profile_matches candidate loaded)
  then lifecycle_decision loaded LifecycleAction.NO_OP LifecycleReasonCode.POLICY_PROFILE_MISMATCH
  else if existsb (evidence_is EvidenceKind.USER_CONFIRMATION EvidenceTrust.TRUSTED) (cls_evidence candidate)
  then lifecycle_decision loaded LifecycleAction.PROMOTE LifecycleReasonCode.TRUSTED_USER_CONFIRMATION
  else if bool_decide (cls_selection_basis candidate = SelectionBasis.IMPORTED_LEGACY)
          || bool_decide (ContentSignal.ROLEPLAYED_SCENE ∈ cls_content_signals candidate)
          || bool_decide (ContentSignal.SUBJECTIVE_EXPERIENCE_CLAIM ∈ cls_content_signals candidate)
  then lifecycle_decision loaded LifecycleAction.NO_OP LifecycleReasonCode.PROTECTED_CANDIDATE
  else if (2 <=? length (distinct_keys
             (evidence_is EvidenceKind.ASSISTANT_OBSERVATION EvidenceTrust.TRUSTED)
             (cls_evidence candidate)))%nat
  then lifecycle_decision loaded LifecycleAction.PROMOTE LifecycleReasonCode.INDEPENDENT_OBSERVATIONS
  else lifecycle_decision loaded LifecycleAction.NO_OP LifecycleReasonCode.INSUFFICIENT_EVIDENCE.

Definition evaluate_expiry (loaded : LoadedSelectionPolicy) (evaluation : ExpiryEvaluation)
    : result LifecycleDecision :=
  let candidate := ee_candidate evaluation in
  if bool_decide (cls_status candidate <> MemoryStatus.CANDIDATE)
  then lifecycle_decision loaded LifecycleAction.NO_OP LifecycleReasonCode.NOT_CANDIDATE
  else if negb (profile_matches candidate loaded)
  then lifecycle_decision loaded LifecycleAction.NO_OP LifecycleReasonCode.POLICY_PROFILE_MISMATCH
  else if ee_evaluated_at evaluation <? ee_deadline evaluation
  then lifecycle_decision loaded LifecycleAction.NO_OP LifecycleReasonCode.EXPIRY_NOT_DUE
  else lifecycle_decision loaded LifecycleAction.RETIRE LifecycleReasonCode.CANDIDATE_EXPIRED.

(** ** The checked-in profile [policy/profiles/selection-v1.json] *)

Definition selection_v1_basis_rules : list BasisRule :=
  [
    {| br_rule_id := py "basis.routine_banter"; br_basis := SelectionBasis.ROUTINE_BANTER;
       br_outcome := PolicyOutcome.OMIT; br_reason_code := PolicyReasonCode.ROUTINE_BANTER_OMITTED;
       br_allowed_categories := []; br_required_authority := None; br_evidence_requirement := None;
       br_required_qualifiers := []; br_requires_interpretation_limits := false;
       br_candidate_ttl_days := None |};
    {| br_rule_id := py "basis.explicit_user_correction";
       br_basis := SelectionBasis.EXPLICIT_USER_CORRECTION; br_outcome := PolicyOutcome.ACTIVE;
       br_reason_code := PolicyReasonCode.EXPLICIT_USER_CORRECTION;
       br_allowed_categories := [MemoryCategory.STABLE_FACT; MemoryCategory.USER_PREFERENCE;
          MemoryCategory.BOUNDARY_OR_PERMISSION; MemoryCategory.INTERACTION_CONVENTION;
          MemoryCategory.PROJECT_DECISION; MemoryCategory.PROJECT_STATE; MemoryCategory.PROCEDURE];
       br_required_authority := Some AuthorityClass.EXPLICIT_USER_CORRECTION;
       br_evidence_requirement := Some {| er_kinds := [EvidenceKind.USER_CORRECTION];
          er_trusts := [EvidenceTrust.TRUSTED]; er_minimum := 1 |}; br_required_qualifiers := [];
       br_requires_interpretation_limits := false; br_candidate_ttl_days := None |};
    {| br_rule_id := py "basis.explicit_user_preference";
       br_basis := SelectionBasis.EXPLICIT_USER_PREFERENCE; br_outcome := PolicyOutcome.ACTIVE;
       br_reason_code := PolicyReasonCode.EXPLICIT_USER_PREFERENCE;
       br_allowed_categories := [MemoryCategory.USER_PREFERENCE];
       br_required_authority := Some AuthorityClass.EXPLICIT_USER_STATEMENT;
       br_evidence_requirement := Some {| er_kinds := [EvidenceKind.USER_STATEMENT];
          er_trusts := [EvidenceTrust.TRUSTED]; er_minimum := 1 |}; br_required_qualifiers := [];
       br_requires_interpretation_limits := false; br_candidate_ttl_days := None |};
    {| br_rule_id := py "basis.explicit_user_permission";
       br_basis := SelectionBasis.EXPLICIT_USER_PERMISSION; br_outcome := PolicyOutcome.ACTIVE;
       br_reason_code := PolicyReasonCode.EXPLICIT_USER_PERMISSION;
       br_allowed_categories := [MemoryCategory.BOUNDARY_OR_PERMISSION];
       br_required_authority := Some AuthorityClass.EXPLICIT_USER_STATEMENT;
       br_evidence_requirement := Some {| er_kinds := [EvidenceKind.USER_STATEMENT];
          er_trusts := [EvidenceTrust.TRUSTED]; er_minimum := 1 |}; br_required_qualifiers := [];
       br_requires_interpretation_limits := false; br_candidate_ttl_days := None |};
    {| br_rule_id := py "basis.verified_project_decision";
       br_basis := SelectionBasis.VERIFIED_PROJECT_DECISION; br_outcome := PolicyOutcome.ACTIVE;
       br_reason_code := PolicyReasonCode.VERIFIED_PROJECT_DECISION;
       br_allowed_categories := [MemoryCategory.PROJECT_DECISION];
       br_required_authority := Some AuthorityClass.VERIFIED_PROJECT_SOURCE;
       br_evidence_requirement := Some {| er_kinds := [EvidenceKind.PROJECT_SOURCE];
          er_trusts := [EvidenceTrust.TRUSTED; EvidenceTrust.CORROBORATED]; er_minimum := 1 |};
       br_required_qualifiers := []; br_requires_interpretation_limits := false;
       br_candidate_ttl_days := None |};
    {| br_rule_id := py "basis.assistant_observation";
       br_basis := SelectionBasis.ASSISTANT_OBSERVATION; br_outcome := PolicyOutcome.CANDIDATE;
       br_reason_code := PolicyReasonCode.ASSISTANT_OBSERVATION_CANDIDATE;
       br_allowed_categories := [MemoryCategory.ASSISTANT_PREFERENCE_LIKE_PATTERN;
          MemoryCategory.RELATIONSHIP_PATTERN; MemoryCategory.EMERGENT_TENDENCY;
          MemoryCategory.EPISODIC_ANCHOR; MemoryCategory.INTERPRETATION];
       br_required_authority := Some AuthorityClass.ASSISTANT_OBSERVATION;
       br_evidence_requirement := Some {| er_kinds := [EvidenceKind.ASSISTANT_OBSERVATION;
          EvidenceKind.CONVERSATION_EPISODE]; er_trusts := [EvidenceTrust.TRUSTED;
          EvidenceTrust.CORROBORATED]; er_minimum := 1 |}; br_required_qualifiers := [];
       br_requires_interpretation_limits := false; br_candidate_ttl_days := Some 180 |};
    {| br_rule_id := py "basis.assistant_interpretation";
       br_basis := SelectionBasis.ASSISTANT_INTERPRETATION; br_outcome := PolicyOutcome.CANDIDATE;
       br_reason_code := PolicyReasonCode.ASSISTANT_INTERPRETATION_CANDIDATE;
       br_allowed_categories := [MemoryCategory.ASSISTANT_PREFERENCE_LIKE_PATTERN;
          MemoryCategory.RELATIONSHIP_PATTERN; MemoryCategory.EMERGENT_TENDENCY;
          MemoryCategory.EPISODIC_ANCHOR; MemoryCategory.OPEN_QUESTION; MemoryCategory.INTERPRETATION];
       br_required_authority := Some AuthorityClass.ASSISTANT_INTERPRETATION;
       br_evidence_requirement := Some {| er_kinds := [EvidenceKind.CONVERSATION_EPISODE];
          er_trusts := [EvidenceTrust.TRUSTED; EvidenceTrust.CORROBORATED]; er_minimum := 1 |};
       br_required_qualifiers := [EpistemicQualifier.SINGLE_EPISODE_NOT_STABLE_PATTERN];
       br_requires_interpretation_limits := true; br_candidate_ttl_days := Some 90 |};
    {| br_rule_id := py "basis.imported_legacy"; br_basis := SelectionBasis.IMPORTED_LEGACY;
       br_outcome := PolicyOutcome.CANDIDATE;
       br_reason_code := PolicyReasonCode.IMPORTED_LEGACY_CANDIDATE; br_allowed_categories := [];
       br_required_authority := Some AuthorityClass.IMPORTED_LEGACY_MEMORY;
       br_evidence_requirement := Some {| er_kinds := [EvidenceKind.IMPORT_MANIFEST];
          er_trusts := [EvidenceTrust.TRUSTED; EvidenceTrust.CORROBORATED]; er_minimum := 1 |};
       br_required_qualifiers := [EpistemicQualifier.IMPORTED_SOURCE_UNRECONCILED];
       br_requires_interpretation_limits := true; br_candidate_ttl_days := Some 365 |};
    {| br_rule_id := py "basis.meaningful_episodic_anchor";
       br_basis := SelectionBasis.MEANINGFUL_EPISODIC_ANCHOR; br_outcome := PolicyOutcome.CANDIDATE;
       br_reason_code := PolicyReasonCode.MEANINGFUL_EPISODIC_ANCHOR;
       br_allowed_categories := [MemoryCategory.EPISODIC_ANCHOR]; br_required_authority := None;
       br_evidence_requirement := Some {| er_kinds := [EvidenceKind.CONVERSATION_EPISODE];
          er_trusts := [EvidenceTrust.TRUSTED; EvidenceTrust.CORROBORATED]; er_minimum := 1 |};
       br_required_qualifiers := []; br_requires_interpretation_limits := false;
       br_candidate_ttl_days := Some 365 |};
    {| br_rule_id := py "basis.explicit_user_request";
       br_basis := SelectionBasis.EXPLICIT_USER_REQUEST; br_outcome := PolicyOutcome.ACTIVE;
       br_reason_code := PolicyReasonCode.EXPLICIT_USER_REQUEST; br_allowed_categories := [];
       br_required_authority := Some AuthorityClass.EXPLICIT_USER_STATEMENT;
       br_evidence_requirement := Some {| er_kinds := [EvidenceKind.USER_STATEMENT];
          er_trusts := [EvidenceTrust.TRUSTED]; er_minimum := 1 |}; br_required_qualifiers := [];
       br_requires_interpretation_limits := false; br_candidate_ttl_days := None |} ].

Definition selection_v1_guardrails : list SignalGuardrail :=
  [
    {| sg_rule_id := py "guardrail.roleplayed_scene"; sg_signal := ContentSignal.ROLEPLAYED_SCENE;
       sg_allowed_categories := [MemoryCategory.EPISODIC_ANCHOR];
       sg_allowed_ontologies := [OntologicalStatus.FICTIONAL_OR_ROLEPLAYED_SCENE];
       sg_allowed_scopes := [MemoryScope.EPISODIC; MemoryScope.SCENE_LOCAL];
       sg_allowed_visibilities := [MemoryVisibility.PRIVATE_ROOT; MemoryVisibility.RESTRICTED];
       sg_required_qualifiers := [EpistemicQualifier.ROLEPLAY_NOT_LITERAL];
       sg_requires_interpretation_limits := true; sg_force_candidate := true;
       sg_forced_candidate_ttl_days := Some 180;
       sg_violation_code := PolicyReasonCode.ROLEPLAY_LITERALIZATION |};
    {| sg_rule_id := py "guardrail.assistant_preference_like";
       sg_signal := ContentSignal.ASSISTANT_PREFERENCE_LIKE;
       sg_allowed_categories := [MemoryCategory.ASSISTANT_PREFERENCE_LIKE_PATTERN];
       sg_allowed_ontologies := [OntologicalStatus.ASSISTANT_SELF_DESCRIPTION;
          OntologicalStatus.OBSERVED_ASSISTANT_BEHAVIOR; OntologicalStatus.HYPOTHESIS;
          OntologicalStatus.UNCERTAIN];
       sg_allowed_scopes := [MemoryScope.PERSONA; MemoryScope.RELATIONSHIP; MemoryScope.EPISODIC;
          MemoryScope.SCENE_LOCAL];
       sg_allowed_visibilities := [MemoryVisibility.PRIVATE_ROOT; MemoryVisibility.RESTRICTED;
          MemoryVisibility.SHAREABLE];
       sg_required_qualifiers := [EpistemicQualifier.ASSISTANT_PATTERN_NOT_SUBJECTIVE_EXPERIENCE];
       sg_requires_interpretation_limits := true; sg_force_candidate := true;
       sg_forced_candidate_ttl_days := Some 180;
       sg_violation_code := PolicyReasonCode.EPISTEMIC_QUALIFICATION_REQUIRED |};
    {| sg_rule_id := py "guardrail.subjective_experience_claim";
       sg_signal := ContentSignal.SUBJECTIVE_EXPERIENCE_CLAIM;
       sg_allowed_categories := [MemoryCategory.ASSISTANT_PREFERENCE_LIKE_PATTERN;
          MemoryCategory.OPEN_QUESTION; MemoryCategory.INTERPRETATION];
       sg_allowed_ontologies := [OntologicalStatus.HYPOTHESIS; OntologicalStatus.UNCERTAIN];
       sg_allowed_scopes := [MemoryScope.PERSONA; MemoryScope.RELATIONSHIP; MemoryScope.EPISODIC;
          MemoryScope.SCENE_LOCAL];
       sg_allowed_visibilities := [MemoryVisibility.PRIVATE_ROOT; MemoryVisibility.RESTRICTED];
       sg_required_qualifiers := [EpistemicQualifier.SUBJECTIVE_EXPERIENCE_UNRESOLVED];
       sg_requires_interpretation_limits := true; sg_force_candidate := true;
       sg_forced_candidate_ttl_days := Some 90;
       sg_violation_code := PolicyReasonCode.SENTIENCE_OVERCLAIM |} ].

Definition SELECTION_V1_PROFILE : SelectionPolicyProfile :=
  {| spp_precedence := [structural; hard_guardrail; evidence; basis; qualification];
     spp_basis_rules := selection_v1_basis_rules;
     spp_signal_guardrails := selection_v1_guardrails |}.

(** [SELECTION_V1]; the digest of the canonical profile bytes is a parameter. *)
Definition SELECTION_V1 (sha256_hex : pystr) : LoadedSelectionPolicy :=
  {| lsp_profile := SELECTION_V1_PROFILE; lsp_sha256_hex := sha256_hex |}.
