(* ===== verification/PolicyTheorems.v ===== *)
(** * PolicyTheorems: what the selection policy guarantees

    [admissible] states declaratively when a request may be stored; the
    evaluator implements it, never fails on a loaded profile, and never lets a
    guarded signal become an active memory.  The lifecycle decisions are
    characterised the same way. *)

From stdpp Require Import base tactics option list sets strings sorting.
From Stdlib Require Import ZArith Lia Bool.
From S2P Require Import Prelude Identifiers Enums Values CanonicalJson Digest Constraints Events PolicyContracts Policy FoldingFacts.
Open Scope Z_scope.

(** ** The abstract policy *)

Definition stored (o : PolicyOutcome) : Prop := o = PolicyOutcome.CANDIDATE \/ o = PolicyOutcome.ACTIVE.

(** The guardrail of a signal the request carries lets it through. *)
Record guard_allows (g : SignalGuardrail) (r : SelectionRequest) : Prop := {
  ga_category : sr_category r ∈ sg_allowed_categories g;
  ga_ontology : sr_ontological_status r ∈ sg_allowed_ontologies g;
  ga_scope : sr_scope r ∈ sg_allowed_scopes g;
  ga_visibility : sr_visibility r ∈ sg_allowed_visibilities g
}.

(** Enough distinct evidence of an accepted kind and trust. *)
Definition evidence_meets (q : EvidenceRequirement) (items : list EvidenceSummary) : Prop :=
  exists keys, NoDup keys /\ er_minimum q <= Z.of_nat (length keys) /\
    forall k, k ∈ keys -> exists item, item ∈ items /\ evs_evidence_key item = k /\
      evs_kind item ∈ er_kinds q /\ evs_trust item ∈ er_trusts q.

Record admissible (l : LoadedSelectionPolicy) (r : SelectionRequest) (rule : BasisRule) : Prop := {
  ad_rule : rule ∈ spp_basis_rules (lsp_profile l);
  ad_basis : br_basis rule = sr_basis r;
  ad_not_omitted : br_outcome rule <> PolicyOutcome.OMIT;
  ad_ontology : sr_ontological_status r ∈ CATEGORY_ONTOLOGY_COMPATIBILITY (sr_category r);
  ad_authority : forall a, br_required_authority rule = Some a -> sr_effective_authority_class r = a;
  ad_evidence : forall q, br_evidence_requirement rule = Some q -> evidence_meets q (sr_evidence r);
  ad_category : br_allowed_categories rule = [] \/ sr_category r ∈ br_allowed_categories rule;
  ad_reason : is_Some (sr_reason_to_remember r);
  ad_qualifiers : forall q, q ∈ br_required_qualifiers rule -> q ∈ sr_epistemic_qualifiers r;
  ad_limits : br_requires_interpretation_limits rule = true -> sr_interpretation_limits r <> [];
  ad_guardrails : forall g, g ∈ spp_signal_guardrails (lsp_profile l) ->
    sg_signal g ∈ sr_content_signals r ->
    guard_allows g r /\
    (forall q, q ∈ sg_required_qualifiers g -> q ∈ sr_epistemic_qualifiers r) /\
    (sg_requires_interpretation_limits g = true -> sr_interpretation_limits r <> [])
}.

(** *** Refusals *)

Definition compatible (r : SelectionRequest) : Prop :=
  sr_ontological_status r ∈ CATEGORY_ONTOLOGY_COMPATIBILITY (sr_category r).

(** The rule of the request's basis, when it does not omit. *)
Definition chosen (l : LoadedSelectionPolicy) (r : SelectionRequest) (rule : BasisRule) : Prop :=
  compatible r /\ rule ∈ spp_basis_rules (lsp_profile l) /\ br_basis rule = sr_basis r /\
  br_outcome rule <> PolicyOutcome.OMIT.

(** The reason for which a guardrail stops a request: its own code, but for a
    roleplayed scene kept outside its scopes or visibilities. *)
Inductive violates (r : SelectionRequest) (g : SignalGuardrail) : PolicyReasonCode -> Prop :=
| vio_content :
    ~ (sr_category r ∈ sg_allowed_categories g /\ sr_ontological_status r ∈ sg_allowed_ontologies g) ->
    violates r g (sg_violation_code g)
| vio_scope :
    sr_category r ∈ sg_allowed_categories g -> sr_ontological_status r ∈ sg_allowed_ontologies g ->
    sr_scope r ∉ sg_allowed_scopes g ->
    violates r g (if decide (sg_signal g = ContentSignal.ROLEPLAYED_SCENE)
                  then PolicyReasonCode.ROLEPLAY_SCOPE_FORBIDDEN else sg_violation_code g)
| vio_visibility :
    sr_category r ∈ sg_allowed_categories g -> sr_ontological_status r ∈ sg_allowed_ontologies g ->
    sr_scope r ∈ sg_allowed_scopes g -> sr_visibility r ∉ sg_allowed_visibilities g ->
    violates r g (if decide (sg_signal g = ContentSignal.ROLEPLAYED_SCENE)
                  then PolicyReasonCode.ROLEPLAY_VISIBILITY_FORBIDDEN else sg_violation_code g).

(** The conditions on a request and its rule, in the order of precedence: no
    guardrail of a carried signal stops it, authority, evidence, category,
    reason, qualification. *)
Definition guards_allow (l : LoadedSelectionPolicy) (r : SelectionRequest) : Prop :=
  forall g, g ∈ applicable_guardrails r l -> guard_allows g r.
Definition authority_established (r : SelectionRequest) (rule : BasisRule) : Prop :=
  forall a, br_required_authority rule = Some a -> sr_effective_authority_class r = a.
Definition evidence_established (r : SelectionRequest) (rule : BasisRule) : Prop :=
  forall q, br_evidence_requirement rule = Some q -> evidence_meets q (sr_evidence r).
Definition category_allowed (r : SelectionRequest) (rule : BasisRule) : Prop :=
  br_allowed_categories rule = [] \/ sr_category r ∈ br_allowed_categories rule.
Definition qualified (l : LoadedSelectionPolicy) (r : SelectionRequest) (rule : BasisRule) : Prop :=
  (forall q, q ∈ br_required_qualifiers rule -> q ∈ sr_epistemic_qualifiers r) /\
  (forall g q, g ∈ applicable_guardrails r l -> q ∈ sg_required_qualifiers g -> q ∈ sr_epistemic_qualifiers r) /\
  (br_requires_interpretation_limits rule = true -> sr_interpretation_limits r <> []) /\
  (forall g, g ∈ applicable_guardrails r l -> sg_requires_interpretation_limits g = true ->
     sr_interpretation_limits r <> []).

(** The outcome and the reason of a request that is not stored: the first
    condition that fails. *)
Inductive refusal (l : LoadedSelectionPolicy) (r : SelectionRequest) : PolicyOutcome -> PolicyReasonCode -> Prop :=
| ref_ontology : ~ compatible r ->
    refusal l r PolicyOutcome.REJECT PolicyReasonCode.CATEGORY_ONTOLOGY_INCOMPATIBLE
| ref_no_rule : compatible r -> (forall rule, rule ∈ spp_basis_rules (lsp_profile l) -> br_basis rule <> sr_basis r) ->
    refusal l r PolicyOutcome.REJECT PolicyReasonCode.NO_MATCHING_RULE
| ref_omitted rule :
    compatible r -> rule ∈ spp_basis_rules (lsp_profile l) -> br_basis rule = sr_basis r ->
    br_outcome rule = PolicyOutcome.OMIT -> refusal l r PolicyOutcome.OMIT (br_reason_code rule)
| ref_guardrail rule before g after code :
    chosen l r rule -> applicable_guardrails r l = before ++ g :: after ->
    (forall g', g' ∈ before -> guard_allows g' r) -> violates r g code -> refusal l r PolicyOutcome.REJECT code
| ref_authority rule : chosen l r rule -> guards_allow l r -> ~ authority_established r rule ->
    refusal l r PolicyOutcome.REJECT PolicyReasonCode.AUTHORITY_NOT_ESTABLISHED
| ref_evidence rule : chosen l r rule -> guards_allow l r -> authority_established r rule ->
    ~ evidence_established r rule -> refusal l r PolicyOutcome.REJECT PolicyReasonCode.EVIDENCE_REQUIRED
| ref_category rule : chosen l r rule -> guards_allow l r -> authority_established r rule ->
    evidence_established r rule -> ~ category_allowed r rule ->
    refusal l r PolicyOutcome.REJECT PolicyReasonCode.BASIS_CATEGORY_INCOMPATIBLE
| ref_reason rule : chosen l r rule -> guards_allow l r -> authority_established r rule ->
    evidence_established r rule -> category_allowed r rule -> sr_reason_to_remember r = None ->
    refusal l r PolicyOutcome.REJECT PolicyReasonCode.REASON_REQUIRED
| ref_qualification rule : chosen l r rule -> guards_allow l r -> authority_established r rule ->
    evidence_established r rule -> category_allowed r rule -> is_Some (sr_reason_to_remember r) ->
    ~ qualified l r rule -> refusal l r PolicyOutcome.REJECT PolicyReasonCode.EPISTEMIC_QUALIFICATION_REQUIRED.

(** ** Lists over closed vocabularies *)

Lemma enum_list_length {A} `{StrEnum A} (l : list A) :
  NoDup l -> (length l <= length (enum_members : list A))%nat.
Proof.
  intros Hnd. apply submseteq_length, NoDup_submseteq; [done|].
  intros x _. apply enum_members_complete.
Qed.

Lemma elem_of_list_filter_bool {A} (f : A -> bool) (l : list A) x :
  x ∈ List.filter f l <-> f x = true /\ x ∈ l.
Proof. rewrite !list_elem_of_In, filter_In. tauto. Qed.

Lemma ordered_qualifiers_perm qs : ordered_qualifiers qs ≡ₚ remove_dups qs.
Proof. apply merge_sort_Permutation. Qed.

Lemma elem_of_ordered_qualifiers q qs : q ∈ ordered_qualifiers qs <-> q ∈ qs.
Proof. rewrite (ordered_qualifiers_perm qs). apply elem_of_remove_dups. Qed.

Lemma ordered_qualifiers_NoDup qs : NoDup (ordered_qualifiers qs).
Proof. rewrite (ordered_qualifiers_perm qs). apply NoDup_remove_dups. Qed.

Lemma ordered_qualifiers_size qs : size_between 0 16 (ordered_qualifiers qs) = true.
Proof.
  unfold size_between. pose proof (enum_list_length _ (ordered_qualifiers_NoDup qs)) as Hlen.
  apply Nat.leb_le. simpl in Hlen |- *. lia.
Qed.

Lemma NoDup_nodupb {A} `{EqDecision A} (l : list A) : NoDup l -> nodupb l = true.
Proof. apply nodupb_NoDup. Qed.

(** ** What a validated profile provides *)

Record profile_facts (p : SelectionPolicyProfile) : Prop := {
  pf_rules : forall rule, rule ∈ spp_basis_rules p -> validate_rule rule = Ok tt;
  pf_guards : forall g, g ∈ spp_signal_guardrails p -> validate_guardrail g = Ok tt;
  pf_signals : NoDup (sg_signal <$> spp_signal_guardrails p);
  pf_bases : NoDup (br_basis <$> spp_basis_rules p);
  pf_bases_complete : forall b, b ∈ br_basis <$> spp_basis_rules p;
  pf_ids : NoDup ((br_rule_id <$> spp_basis_rules p) ++ (sg_rule_id <$> spp_signal_guardrails p))
}.

Lemma profile_facts_of p : validate_complete_profile p = Ok tt -> profile_facts p.
Proof.
  unfold validate_complete_profile. intros Hv.
  apply bind_Ok in Hv as ([] & _ & Hv). apply bind_Ok in Hv as ([] & Hr & Hv).
  apply bind_Ok in Hv as ([] & Hg & Hv). apply bind_Ok in Hv as ([] & _ & Hv). cbv zeta in Hv.
  apply bind_Ok in Hv as ([] & Hb & Hv). apply bind_Ok in Hv as ([] & Hs & Hids).
  rewrite raise_if_Ok in Hb, Hs, Hids. apply orb_false_iff in Hb as [Hb1 Hb2], Hs as [Hs1 _].
  rewrite negb_false_iff in *. apply each_Ok in Hr. apply each_Ok in Hg.
  rewrite Forall_forall in Hr. rewrite Forall_forall in Hg.
  split; try done; try by apply nodupb_NoDup.
  intros b. unfold covers in Hb2. rewrite forallb_forall in Hb2.
  specialize (Hb2 b). rewrite bool_decide_eq_true in Hb2. apply Hb2, list_elem_of_In. exact (enum_members_complete b).
Qed.

Lemma candidate_ttl_rule rule :
  validate_rule rule = Ok tt ->
  ttl_ok (br_candidate_ttl_days rule) = true /\
  is_candidate (br_outcome rule) = negb (is_none (br_candidate_ttl_days rule)) /\
  br_outcome rule <> PolicyOutcome.REJECT.
Proof.
  unfold validate_rule. intros Hv. apply bind_Ok in Hv as ([] & Hf & Hv).
  apply bind_Ok in Hv as ([] & _ & Hv). do 2 (apply bind_Ok in Hv as ([] & _ & Hv)).
  rewrite raise_if_Ok, negb_false_iff in Hf, Hv. rewrite !andb_true_iff in Hf.
  destruct Hf as [[[[_ Ht] _] _] Ho]. apply negb_true_iff, bool_decide_eq_false in Ho.
  split; [done|]. split; [by apply eqb_prop|done].
Qed.

Lemma forced_ttl_guard g :
  validate_guardrail g = Ok tt ->
  ttl_ok (sg_forced_candidate_ttl_days g) = true /\
  sg_force_candidate g = negb (is_none (sg_forced_candidate_ttl_days g)).
Proof.
  unfold validate_guardrail. intros Hv. apply bind_Ok in Hv as ([] & Hf & Hv).
  do 5 (apply bind_Ok in Hv as ([] & _ & Hv)). rewrite raise_if_Ok, negb_false_iff in Hf, Hv.
  rewrite !andb_true_iff in Hf. destruct Hf as [[[[[[_ Ht] _] _] _] _] _].
  split; [done|]. by apply eqb_prop.
Qed.

(** ** Building decisions *)

Definition stored_decision (l : LoadedSelectionPolicy) (r : SelectionRequest) (rule : BasisRule)
    (outcome : PolicyOutcome) (ttl : option Z) : PolicyDecision :=
  let applicable := applicable_guardrails r l in
  {| pd_profile_version := profile_version; pd_profile_sha256 := lsp_sha256_hex l;
     pd_outcome := outcome; pd_reason_codes := [br_reason_code rule];
     pd_matched_rule_ids := br_rule_id rule :: (sg_rule_id <$> applicable);
     pd_required_qualifiers := ordered_qualifiers
       (br_required_qualifiers rule ++ ordered_qualifiers (applicable ≫= sg_required_qualifiers));
     pd_candidate_ttl_days := ttl |}.

Section Evaluator.
Context (l : LoadedSelectionPolicy) (Hl : loaded_ok l).

Lemma facts : profile_facts (lsp_profile l).
Proof. apply profile_facts_of, Hl. Qed.

Lemma decision_Ok outcome reason matched qualifiers ttl :
  NoDup matched -> (length matched <= 16)%nat ->
  NoDup qualifiers -> size_between 0 16 qualifiers = true ->
  ttl_ok ttl = true -> is_candidate outcome = negb (is_none ttl) ->
  decision l outcome reason matched qualifiers ttl =
    Ok {| pd_profile_version := profile_version; pd_profile_sha256 := lsp_sha256_hex l;
          pd_outcome := outcome; pd_reason_codes := [reason]; pd_matched_rule_ids := matched;
          pd_required_qualifiers := qualifiers; pd_candidate_ttl_days := ttl |}.
Proof.
  intros Hm Hlen Hq Hsize Httl Hcand. unfold decision, validate_decision; simpl.
  destruct Hl as [_ Hhex]. rewrite Hhex, Hsize, Httl, Hcand, eqb_reflx, !NoDup_nodupb by done.
  assert (Hs : size_between 0 16 matched = true) by (unfold size_between; by apply Nat.leb_le).
  rewrite Hs. reflexivity.
Qed.

Lemma reject_Ok reason matched qualifiers :
  NoDup matched -> (length matched <= 16)%nat ->
  NoDup qualifiers -> size_between 0 16 qualifiers = true ->
  exists d, reject l reason matched qualifiers = Ok d /\ pd_outcome d = PolicyOutcome.REJECT /\
    pd_reason_codes d = [reason] /\ pd_candidate_ttl_days d = None.
Proof. intros. unfold reject. rewrite decision_Ok by done. eexists. split; [done|]. auto. Qed.

Lemma applicable_sub g r :
  g ∈ applicable_guardrails r l <->
  g ∈ spp_signal_guardrails (lsp_profile l) /\ sg_signal g ∈ sr_content_signals r.
Proof.
  unfold applicable_guardrails. rewrite elem_of_list_filter_bool, bool_decide_eq_true. tauto.
Qed.

Lemma sublist_filter_bool {A} (f : A -> bool) (xs : list A) : sublist (List.filter f xs) xs.
Proof. induction xs as [|x xs IH]; simpl; [constructor|]. destruct (f x); by constructor. Qed.

Lemma applicable_length r : (length (applicable_guardrails r l) <= 3)%nat.
Proof.
  assert (Hnd : NoDup (sg_signal <$> applicable_guardrails r l)).
  { eapply sublist_NoDup; [apply (pf_signals _ facts)|]. apply fmap_sublist, sublist_filter_bool. }
  apply enum_list_length in Hnd. rewrite length_fmap in Hnd. exact Hnd.
Qed.

Lemma matched_ids r rule :
  rule ∈ spp_basis_rules (lsp_profile l) ->
  NoDup (br_rule_id rule :: (sg_rule_id <$> applicable_guardrails r l)) /\
  (length (br_rule_id rule :: (sg_rule_id <$> applicable_guardrails r l)) <= 16)%nat.
Proof.
  intros Hin. split.
  - eapply sublist_NoDup; [apply (pf_ids _ facts)|].
    apply (sublist_app [br_rule_id rule]); [|apply fmap_sublist, sublist_filter_bool].
    apply singleton_sublist_l, list_elem_of_fmap_2, Hin.
  - simpl. rewrite length_fmap. pose proof (applicable_length r). lia.
Qed.

Lemma guardrail_violation_None r g : guardrail_violation r g = None <-> guard_allows g r.
Proof.
  unfold guardrail_violation. repeat case_bool_decide; split; try done;
    try (intros []; by exfalso); intros _; split; by apply dec_stable.
Qed.

(** The guardrail that stops a request, and why. *)
Lemma first_violation_Some r gs code :
  first_violation r gs = Some code ->
  exists before g after, gs = before ++ g :: after /\ (forall g', g' ∈ before -> guard_allows g' r) /\ violates r g code.
Proof.
  induction gs as [|g gs IH]; cbn [first_violation]; [done|]. destruct (guardrail_violation r g) as [v|] eqn:Hg.
  - intros [= <-]. exists [], g, gs. split; [done|]. split; [by intros ? ?%elem_of_nil|]. unfold guardrail_violation in Hg.
    assert (Hd : forall (a b : PolicyReasonCode),
      (if bool_decide (sg_signal g = ContentSignal.ROLEPLAYED_SCENE) then a else b) =
      (if decide (sg_signal g = ContentSignal.ROLEPLAYED_SCENE) then a else b)).
    { intros a b. destruct (decide (sg_signal g = ContentSignal.ROLEPLAYED_SCENE)) as [E|E];
        [by rewrite bool_decide_true|by rewrite bool_decide_false]. }
    rewrite !Hd in Hg. clear Hd. repeat case_bool_decide; simplify_eq; try (apply vio_content; tauto).
    + apply vio_scope; first [done | by apply dec_stable].
    + apply vio_visibility; first [done | by apply dec_stable].
  - intros Hv. destruct (IH Hv) as (before & g' & after & -> & Hb & Hvio). exists (g :: before), g', after.
    split; [done|]. split; [|done]. intros x Hx. apply elem_of_cons in Hx as [->|Hx]; [|auto].
    by apply guardrail_violation_None.
Qed.

Lemma first_violation_None r gs : first_violation r gs = None <-> forall g, g ∈ gs -> guard_allows g r.
Proof.
  pose proof (guardrail_violation_None r) as Hone.
  induction gs as [|g gs IH]; simpl; [split; [set_solver|done]|].
  destruct (guardrail_violation r g) eqn:Hg.
  - split; [done|]. intros Hall. assert (guard_allows g r) as Hga%Hone by (apply Hall; left). congruence.
  - rewrite IH. apply Hone in Hg. split; [|intros Hall g' Hin; apply Hall; by right].
    intros Hall g' Hin. apply elem_of_cons in Hin as [->|Hin]; auto.
Qed.

Lemma elem_of_distinct_keys test items k :
  k ∈ distinct_keys test items <-> exists item, item ∈ items /\ evs_evidence_key item = k /\ test item = true.
Proof.
  unfold distinct_keys. rewrite elem_of_remove_dups, list_elem_of_fmap. split.
  - intros (item & -> & Hin). apply elem_of_list_filter_bool in Hin as [? ?]. eauto.
  - intros (item & Hin & <- & Ht). exists item. split; [done|]. by apply elem_of_list_filter_bool.
Qed.

Lemma evidence_satisfies_spec r rule :
  evidence_satisfies r rule = true <->
  forall q, br_evidence_requirement rule = Some q -> evidence_meets q (sr_evidence r).
Proof.
  unfold evidence_satisfies. destruct (br_evidence_requirement rule) as [q|]; [|split; [by intros _ q|done]].
  rewrite Z.leb_le. split.
  - intros Hlen q' [= <-]. eexists. split; [apply NoDup_remove_dups|]. split; [exact Hlen|].
    intros k Hk. apply elem_of_distinct_keys in Hk as (item & Hin & Hkey & Ht).
    apply andb_true_iff in Ht as [H1 H2]. rewrite bool_decide_eq_true in H1, H2. eauto 10.
  - intros Hm. destruct (Hm q eq_refl) as (keys & Hnd & Hlen & Hkeys).
    etransitivity; [exact Hlen|]. apply inj_le, submseteq_length, NoDup_submseteq; [done|].
    intros k Hk. destruct (Hkeys k Hk) as (item & Hin & Hkey & H1 & H2).
    apply elem_of_distinct_keys. exists item. rewrite !bool_decide_true by done. auto.
Qed.

Lemma fold_min_le ts t : fold_left Z.min ts t <= t /\ (forall x, x ∈ ts -> fold_left Z.min ts t <= x) /\
  (fold_left Z.min ts t = t \/ fold_left Z.min ts t ∈ ts).
Proof.
  revert t. induction ts as [|a ts IH]; intros t; simpl; [split; [lia|split; [set_solver|by left]]|].
  destruct (IH (Z.min t a)) as (H1 & H2 & H3). split; [lia|]. split.
  - intros x Hx. apply elem_of_cons in Hx as [->|Hx]; [lia|auto].
  - rewrite elem_of_cons. destruct H3 as [->|?]; [|auto]. destruct (Z.min_spec t a) as [[_ ->]|[_ ->]]; auto.
Qed.

(** The forced lifetime is the shortest among the forcing guardrails. *)
Lemma min_ttl_Ok gs :
  gs <> [] -> (forall g, g ∈ gs -> validate_guardrail g = Ok tt /\ sg_force_candidate g = true) ->
  exists t, min_ttl gs = Ok t /\ ttl_ok (Some t) = true /\
    (forall g ttl, g ∈ gs -> sg_forced_candidate_ttl_days g = Some ttl -> t <= ttl) /\
    (exists g, g ∈ gs /\ sg_forced_candidate_ttl_days g = Some t).
Proof.
  intros Hne Hall. unfold min_ttl.
  destruct (omap sg_forced_candidate_ttl_days gs) as [|t0 ts] eqn:Ho.
  - exfalso. destruct gs as [|g gs]; [done|]. destruct (Hall g) as [Hv Hf]; [left|].
    apply forced_ttl_guard in Hv as [_ Hf']. rewrite Hf in Hf'. simpl in Ho.
    by destruct (sg_forced_candidate_ttl_days g).
  - destruct (fold_min_le ts t0) as (H1 & H2 & H3). eexists. split; [reflexivity|].
    assert (Hin : forall x, x ∈ t0 :: ts <-> exists g, g ∈ gs /\ sg_forced_candidate_ttl_days g = Some x).
    { intros x. rewrite <- Ho. apply list_elem_of_omap. }
    assert (Hm : fold_left Z.min ts t0 ∈ t0 :: ts) by (rewrite elem_of_cons; tauto).
    apply Hin in Hm as (g0 & Hg0 & Heq0). split_and!; [| |by exists g0].
    + destruct (Hall g0 Hg0) as [Hv _]. apply forced_ttl_guard in Hv as [Hv _]. by rewrite Heq0 in Hv.
    + intros g ttl Hg Heq. assert (Hm : ttl ∈ t0 :: ts) by (apply Hin; eauto).
      apply elem_of_cons in Hm as [->|Hm]; auto.
Qed.

(** The outcome of an admitted request and the lifetime of a candidate: those of
    the rule, or a candidate with the shortest lifetime among the guardrails
    that force one. *)
Definition final_outcome (r : SelectionRequest) (rule : BasisRule) (outcome : PolicyOutcome)
    (ttl : option Z) : Prop :=
  let forcing := List.filter sg_force_candidate (applicable_guardrails r l) in
  (forcing = [] /\ outcome = br_outcome rule /\ ttl = br_candidate_ttl_days rule) \/
  (forcing <> [] /\ outcome = PolicyOutcome.CANDIDATE /\ exists t, ttl = Some t /\
     (forall g days, g ∈ forcing -> sg_forced_candidate_ttl_days g = Some days -> t <= days) /\
     (exists g, g ∈ forcing /\ sg_forced_candidate_ttl_days g = Some t)).

Lemma basis_rule_spec r rule :
  basis_rule r l = Some rule ->
  rule ∈ spp_basis_rules (lsp_profile l) /\ br_basis rule = sr_basis r.
Proof.
  unfold basis_rule. intros Hf. apply find_some in Hf as [Hin Hb].
  by rewrite <- list_elem_of_In, bool_decide_eq_true in *.
Qed.

Lemma basis_rule_unique r rule rule' :
  basis_rule r l = Some rule -> rule' ∈ spp_basis_rules (lsp_profile l) ->
  br_basis rule' = sr_basis r -> rule' = rule.
Proof.
  intros Hf Hin' Hb'. apply basis_rule_spec in Hf as [Hin Hb].
  pose proof (pf_bases _ facts) as Hnd. apply list_elem_of_lookup in Hin as [i Hi], Hin' as [j Hj].
  assert (i = j) as ->; [|congruence]. eapply NoDup_lookup; [exact Hnd|..].
  - rewrite list_lookup_fmap, Hi. reflexivity.
  - rewrite list_lookup_fmap, Hj. simpl. congruence.
Qed.

Lemma final_decision r rule :
  rule ∈ spp_basis_rules (lsp_profile l) -> br_outcome rule <> PolicyOutcome.OMIT ->
  let forcing := List.filter sg_force_candidate (applicable_guardrails r l) in
  exists outcome ttl,
    ('(outcome, ttl) ← (if bool_decide (forcing = [])
                        then Ok (br_outcome rule, br_candidate_ttl_days rule)
                        else t ← min_ttl forcing; Ok (PolicyOutcome.CANDIDATE, Some t));
     decision l outcome (br_reason_code rule) (br_rule_id rule :: (sg_rule_id <$> applicable_guardrails r l))
       (ordered_qualifiers (br_required_qualifiers rule ++
          ordered_qualifiers (applicable_guardrails r l ≫= sg_required_qualifiers))) ttl)
    = Ok (stored_decision l r rule outcome ttl) /\ stored outcome /\ final_outcome r rule outcome ttl.
Proof.
  intros Hin Homit forcing. destruct (matched_ids r rule Hin) as [Hnd Hlen].
  pose proof (ordered_qualifiers_NoDup (br_required_qualifiers rule ++
    ordered_qualifiers (applicable_guardrails r l ≫= sg_required_qualifiers))) as Hq.
  case_bool_decide as Hf.
  - destruct (candidate_ttl_rule rule (pf_rules _ facts _ Hin)) as (Httl & Hc & Hrej).
    exists (br_outcome rule), (br_candidate_ttl_days rule). cbn [mbind result_bind].
    rewrite decision_Ok by auto using ordered_qualifiers_size. split; [done|].
    split; [|left; auto]. unfold stored. destruct (br_outcome rule); tauto.
  - destruct (min_ttl_Ok forcing Hf) as (t & Ht & Httl & Hle & Hat).
    { intros g Hg. apply elem_of_list_filter_bool in Hg as [Hforce Hg]. apply applicable_sub in Hg as [Hg _].
      split; [by apply (pf_guards _ facts)|done]. }
    exists PolicyOutcome.CANDIDATE, (Some t). rewrite Ht. cbn [mbind result_bind].
    rewrite decision_Ok by auto using ordered_qualifiers_size. split; [done|].
    split; [by left|]. right. split; [done|]. split; [done|]. exists t. auto.
Qed.

(** How the evaluator ends: refused or omitted for the first condition that
    fails, with no admissible rule and no lifetime, or stored under the one
    admissible rule with its reason. *)
Definition selection_outcome (r : SelectionRequest) (d : PolicyDecision) : Prop :=
  (~ stored (pd_outcome d) /\ (forall rule, ~ admissible l r rule) /\ pd_candidate_ttl_days d = None /\
   exists reason, pd_reason_codes d = [reason] /\ refusal l r (pd_outcome d) reason) \/
  (exists rule outcome ttl, admissible l r rule /\ d = stored_decision l r rule outcome ttl /\
     stored outcome /\ final_outcome r rule outcome ttl).

Lemma refusal_decision r reason matched qualifiers :
  NoDup matched -> (length matched <= 16)%nat -> NoDup qualifiers -> size_between 0 16 qualifiers = true ->
  (forall rule, ~ admissible l r rule) -> refusal l r PolicyOutcome.REJECT reason ->
  exists d, reject l reason matched qualifiers = Ok d /\ selection_outcome r d.
Proof.
  intros Hm Hlen Hq Hs Hno Href. destruct (reject_Ok reason matched qualifiers) as (d & Hd & Ho & Hr & Ht); try done.
  exists d. split; [done|]. left. split_and!; [|done|done|exists reason; by rewrite Ho].
  rewrite Ho. unfold stored. naive_solver.
Qed.

Lemma guards_admitted r rule :
  admissible l r rule -> forall g, g ∈ applicable_guardrails r l ->
  guard_allows g r /\ (forall q, q ∈ sg_required_qualifiers g -> q ∈ sr_epistemic_qualifiers r) /\
  (sg_requires_interpretation_limits g = true -> sr_interpretation_limits r <> []).
Proof. intros Had g Hg. apply applicable_sub in Hg as [? ?]. by apply (ad_guardrails _ _ _ Had). Qed.

Lemma qualification_spec r rule :
  let applicable := applicable_guardrails r l in
  forallb (fun q => bool_decide (q ∈ sr_epistemic_qualifiers r))
    (ordered_qualifiers (br_required_qualifiers rule ++
       ordered_qualifiers (applicable ≫= sg_required_qualifiers))) = true <->
  (forall q, q ∈ br_required_qualifiers rule -> q ∈ sr_epistemic_qualifiers r) /\
  (forall g q, g ∈ applicable -> q ∈ sg_required_qualifiers g -> q ∈ sr_epistemic_qualifiers r).
Proof.
  intros applicable. rewrite forallb_forall. split.
  - intros Hall. assert (Hin : forall q, q ∈ br_required_qualifiers rule \/
        (exists g, g ∈ applicable /\ q ∈ sg_required_qualifiers g) -> q ∈ sr_epistemic_qualifiers r).
    { intros q Hq. specialize (Hall q). rewrite bool_decide_eq_true, <- list_elem_of_In in Hall. apply Hall.
      rewrite elem_of_ordered_qualifiers, elem_of_app, elem_of_ordered_qualifiers, list_elem_of_bind.
      naive_solver. }
    split; eauto.
  - intros [Hr Hg] q Hq. rewrite <- list_elem_of_In, elem_of_ordered_qualifiers, elem_of_app,
      elem_of_ordered_qualifiers, list_elem_of_bind in Hq. rewrite bool_decide_eq_true. naive_solver.
Qed.

Lemma limits_spec r rule :
  let applicable := applicable_guardrails r l in
  (br_requires_interpretation_limits rule || existsb sg_requires_interpretation_limits applicable)
    && bool_decide (sr_interpretation_limits r = []) = false <->
  (br_requires_interpretation_limits rule = true -> sr_interpretation_limits r <> []) /\
  (forall g, g ∈ applicable -> sg_requires_interpretation_limits g = true -> sr_interpretation_limits r <> []).
Proof.
  intros applicable. rewrite andb_false_iff, orb_false_iff, bool_decide_eq_false, existsb_false. split.
  - intros [[Hr Hg]|Hne]; [|by auto]. split; [congruence|]. intros g Hin Hreq. by rewrite Hg in Hreq.
  - intros [Hr Hg]. destruct (decide (sr_interpretation_limits r = [])) as [He|]; [left|by right]. split.
    + apply not_true_is_false. intros Ht. by apply Hr.
    + intros g Hin. apply not_true_is_false. intros Ht. by apply (Hg g).
Qed.

(** The gates before the qualification stage, as the evaluator checks them. *)
Record gates (r : SelectionRequest) (rule : BasisRule) : Prop := {
  gt_guards : forall g, g ∈ applicable_guardrails r l -> guard_allows g r;
  gt_authority : forall a, br_required_authority rule = Some a -> sr_effective_authority_class r = a;
  gt_evidence : forall q, br_evidence_requirement rule = Some q -> evidence_meets q (sr_evidence r);
  gt_category : br_allowed_categories rule = [] \/ sr_category r ∈ br_allowed_categories rule;
  gt_reason : is_Some (sr_reason_to_remember r)
}.

Lemma admissible_gates r rule : admissible l r rule -> gates r rule.
Proof.
  intros Had. pose proof (guards_admitted _ _ Had) as Hg. destruct Had. split; try done.
  intros g Hin. by apply Hg.
Qed.

Lemma qualified_cases r rule :
  basis_rule r l = Some rule -> br_outcome rule <> PolicyOutcome.OMIT ->
  sr_ontological_status r ∈ CATEGORY_ONTOLOGY_COMPATIBILITY (sr_category r) -> gates r rule ->
  exists d, qualified_decision l r rule = Ok d /\ selection_outcome r d.
Proof.
  intros Hrule Homit Hont Hgates. pose proof (basis_rule_spec _ _ Hrule) as [Hin Hbasis].
  destruct (matched_ids r rule Hin) as [Hnd Hlen]. unfold qualified_decision.
  destruct (negb _ || _) eqn:Hqual.
  - assert (Hnq : ~ qualified l r rule).
    { intros (Hq1 & Hq2 & Hl1 & Hl2). apply orb_true_iff in Hqual as [Hqual|Hqual].
      - apply negb_true_iff, not_true_iff_false in Hqual. by apply Hqual, qualification_spec.
      - apply not_false_iff_true in Hqual. by apply Hqual, limits_spec. }
    apply refusal_decision; auto using ordered_qualifiers_NoDup, ordered_qualifiers_size.
    + intros rule' Had. pose proof (guards_admitted _ _ Had) as Hg.
      assert (rule' = rule) as -> by (eapply basis_rule_unique; [done|apply Had..]).
      apply Hnq. split_and!; [apply (ad_qualifiers _ _ _ Had)| |apply (ad_limits _ _ _ Had)|].
      * intros g q Hing. by apply Hg.
      * intros g Hing. by apply Hg.
    + destruct Hgates. by apply (ref_qualification _ _ rule).
  - apply orb_false_iff in Hqual as [Hqual Hlim]. rewrite negb_false_iff, qualification_spec in Hqual.
    rewrite limits_spec in Hlim. destruct (final_decision r rule Hin Homit) as (outcome & ttl & -> & Hst & Hfin).
    eexists. split; [done|]. right. exists rule, outcome, ttl. split; [|done].
    destruct Hgates. split; try done; try (by apply Hqual || by apply Hlim).
    intros g Hg Hsig. assert (Hing : g ∈ applicable_guardrails r l) by (by apply applicable_sub).
    split; [auto|]. split; [intros q; by apply Hqual|by apply Hlim].
Qed.

Lemma gated_cases r rule :
  basis_rule r l = Some rule -> br_outcome rule <> PolicyOutcome.OMIT ->
  sr_ontological_status r ∈ CATEGORY_ONTOLOGY_COMPATIBILITY (sr_category r) ->
  exists d, gated_decision l r rule = Ok d /\ selection_outcome r d.
Proof.
  intros Hrule Homit Hont. pose proof (basis_rule_spec _ _ Hrule) as [Hin Hbasis].
  assert (Hno : ~ gates r rule -> forall rule', ~ admissible l r rule').
  { intros Hng rule' Had. assert (rule' = rule) as -> by (eapply basis_rule_unique; [done|apply Had..]).
    by apply Hng, admissible_gates. }
  assert (Hch : chosen l r rule) by done.
  destruct (matched_ids r rule Hin) as [Hnd Hlen].
  pose proof (ordered_qualifiers_NoDup (applicable_guardrails r l ≫= sg_required_qualifiers)) as Hq1.
  pose proof (ordered_qualifiers_size (applicable_guardrails r l ≫= sg_required_qualifiers)) as Hq2.
  unfold gated_decision. destruct (first_violation r (applicable_guardrails r l)) as [v|] eqn:Hviol.
  { pose proof (first_violation_Some _ _ _ Hviol) as (before & g & after & Happ & Hb & Hv).
    apply refusal_decision; try done; [|by eapply ref_guardrail]. apply Hno. intros [Hg _ _ _ _].
    apply first_violation_None in Hg. congruence. }
  pose proof (proj1 (first_violation_None _ _) Hviol) as Hguards.
  destruct (match br_required_authority rule with Some authority => _ | None => false end) eqn:Hauth.
  { assert (Hna : ~ authority_established r rule).
    { intros Ha. unfold authority_established in Ha. destruct (br_required_authority rule) as [a|]; [|done].
      apply bool_decide_eq_true in Hauth. by apply Hauth, Ha. }
    apply refusal_decision; try done; [|by eapply ref_authority]. apply Hno. by intros [_ Ha _ _ _]. }
  assert (Ha : authority_established r rule).
  { intros a Ha. rewrite Ha in Hauth. apply bool_decide_eq_false in Hauth. by apply dec_stable. }
  destruct (evidence_satisfies r rule) eqn:Hev; cbn [negb].
  2: { assert (Hne : ~ evidence_established r rule).
       { intros He. apply evidence_satisfies_spec in He. congruence. }
       apply refusal_decision; try done; [|by eapply ref_evidence]. apply Hno. by intros [_ _ He _ _]. }
  pose proof (proj1 (evidence_satisfies_spec _ _) Hev) as He.
  destruct (negb _ && _) eqn:Hcat.
  { assert (Hnc : ~ category_allowed r rule).
    { intros Hc. apply andb_true_iff in Hcat as [H1 H2].
      rewrite negb_true_iff, bool_decide_eq_false in H1. rewrite bool_decide_eq_true in H2. by destruct Hc. }
    apply refusal_decision; try done; [|by eapply ref_category]. apply Hno. by intros [_ _ _ Hc _]. }
  assert (Hc : category_allowed r rule).
  { apply andb_false_iff in Hcat as [Hcat|Hcat].
    - left. by apply negb_false_iff, bool_decide_eq_true in Hcat.
    - right. apply bool_decide_eq_false in Hcat. by apply dec_stable. }
  destruct (sr_reason_to_remember r) as [reason|] eqn:Hreason; cbn [is_none].
  2: { apply refusal_decision; try done; [|by eapply ref_reason]. apply Hno. intros [_ _ _ _ [? ?]]. congruence. }
  by apply qualified_cases.
Qed.

Lemma admissible_unique r rule rule' : admissible l r rule -> admissible l r rule' -> rule = rule'.
Proof.
  intros Had Had'. destruct (basis_rule r l) as [found|] eqn:Hf.
  - transitivity found; [|symmetry]; (eapply basis_rule_unique; [exact Hf|by eapply ad_rule|by eapply ad_basis]).
  - unfold basis_rule in Hf. pose proof (find_none _ _ Hf rule) as Hnone. cbv beta in Hnone.
    rewrite <- list_elem_of_In, bool_decide_eq_false in Hnone. by destruct Hnone; [eapply ad_rule|eapply ad_basis].
Qed.

Lemma evaluate_cases r : exists d, evaluate_selection l r = Ok d /\ selection_outcome r d.
Proof.
  unfold evaluate_selection. case_bool_decide as Hont.
  { apply refusal_decision; try done; [constructor|simpl; lia|constructor| |by apply ref_ontology]. by intros rule []. }
  destruct (basis_rule r l) as [rule|] eqn:Hrule.
  2: { assert (Hnone : forall rule, rule ∈ spp_basis_rules (lsp_profile l) -> br_basis rule <> sr_basis r).
       { intros rule Hin. unfold basis_rule in Hrule. pose proof (find_none _ _ Hrule rule) as Hnone. cbv beta in Hnone.
         rewrite <- list_elem_of_In, bool_decide_eq_false in Hnone. by apply Hnone. }
       apply refusal_decision; try done; [constructor|simpl; lia|constructor| |by apply ref_no_rule]. intros rule Had.
       by apply (Hnone rule); [apply (ad_rule _ _ _ Had)|apply (ad_basis _ _ _ Had)]. }
  case_bool_decide as Homit; [|by apply gated_cases].
  pose proof (basis_rule_spec _ _ Hrule) as [Hin Hbasis].
  rewrite decision_Ok; try done; [|apply NoDup_singleton|simpl; lia|constructor].
  eexists. split; [done|]. left. split_and!; [unfold stored; simpl; naive_solver| |done|].
  - intros rule' Had. pose proof (ad_not_omitted _ _ _ Had) as Hno.
    assert (rule' = rule) as -> by (eapply basis_rule_unique; [done|apply Had..]). done.
  - exists (br_reason_code rule). split; [done|]. by apply (ref_omitted _ _ rule).
Qed.
End Evaluator.

Lemma selection_v1_ok h : hex_digest_ok h = true -> loaded_ok (SELECTION_V1 h).
Proof. intros Hh. split; [vm_compute; reflexivity|exact Hh]. Qed.

(** A stored decision comes from an admissible rule. *)
Lemma stored_inv l r d :
  loaded_ok l -> evaluate_selection l r = Ok d -> stored (pd_outcome d) ->
  exists rule ttl, admissible l r rule /\ d = stored_decision l r rule (pd_outcome d) ttl /\
    final_outcome l r rule (pd_outcome d) ttl.
Proof.
  intros Hl He Hst. destruct (evaluate_cases l Hl r) as (d' & He' & Hout).
  assert (d' = d) as -> by congruence.
  destruct Hout as [[Hno _]|(rule & o & ttl & Had & -> & _ & Hfin)]; [done|]. simpl. eauto.
Qed.

(** The shipped guardrail of a signal forces candidates and names the signal. *)
Lemma selection_v1_guard_of signal :
  exists g, g ∈ selection_v1_guardrails /\ sg_signal g = signal /\ sg_force_candidate g = true /\
    content_signal_by_rule_id (sg_rule_id g) = Some signal.
Proof.
  unfold selection_v1_guardrails.
  destruct signal; eexists.
  - split; [left|]. split; [reflexivity|]. split; [reflexivity|]. vm_compute. reflexivity.
  - split; [right; left|]. split; [reflexivity|]. split; [reflexivity|]. vm_compute. reflexivity.
  - split; [right; right; left|]. split; [reflexivity|]. split; [reflexivity|]. vm_compute. reflexivity.
Qed.

Definition first_hand_authorities : list AuthorityClass :=
  [AuthorityClass.EXPLICIT_USER_CORRECTION; AuthorityClass.EXPLICIT_USER_STATEMENT;
   AuthorityClass.VERIFIED_PROJECT_SOURCE].
Definition first_hand_kinds : list EvidenceKind :=
  [EvidenceKind.USER_CORRECTION; EvidenceKind.USER_STATEMENT; EvidenceKind.PROJECT_SOURCE].

(** What the shipped profile asks of its rules, read off its data. *)
Definition first_hand_rule (rule : BasisRule) : bool :=
  negb (bool_decide (br_outcome rule = PolicyOutcome.ACTIVE)) ||
  match br_required_authority rule, br_evidence_requirement rule with
  | Some a, Some q =>
    bool_decide (a ∈ first_hand_authorities) && (1 <=? er_minimum q)
    && forallb (fun k => bool_decide (k ∈ first_hand_kinds)) (er_kinds q)
    && bool_decide (EvidenceTrust.UNVERIFIED ∉ er_trusts q)
  | _, _ => false
  end.

Lemma selection_v1_rules rule :
  rule ∈ selection_v1_basis_rules ->
  first_hand_rule rule = true /\ content_signal_by_rule_id (br_rule_id rule) = None.
Proof.
  assert (Hall : forallb (fun x => first_hand_rule x && is_none (content_signal_by_rule_id (br_rule_id x)))
                   selection_v1_basis_rules = true) by (vm_compute; reflexivity).
  rewrite forallb_forall in Hall. intros Hin. apply list_elem_of_In, Hall, andb_true_iff in Hin as [? Hn].
  split; [done|]. by destruct (content_signal_by_rule_id _).
Qed.

Lemma two_distinct {A} `{EqDecision A} (xs : list A) :
  NoDup xs -> (2 <= length xs)%nat <-> exists a b, a ∈ xs /\ b ∈ xs /\ a <> b.
Proof.
  intros Hnd. split.
  - destruct xs as [|a [|b xs]]; simpl; [lia|lia|]. intros _. exists a, b.
    apply NoDup_cons in Hnd as [Hni _]. set_solver.
  - intros (a & b & Ha & Hb & Hne). destruct xs as [|x [|y xs]]; simpl; [set_solver|set_solver|lia].
Qed.

(** ** Properties *)

(** C31: selection implements the policy.  On any loaded profile the evaluator
    returns a decision (no validator of the decision fails).  It stores the
    memory exactly when some basis rule admits the request: category and
    ontology agree, every guardrail of a carried signal allows it, authority
    and evidence are established, a reason is given and the required
    qualifications are present.  Then the decision gives that rule's reason, and
    its outcome and lifetime are the rule's, or, when guardrails force a
    candidate, a candidate with the shortest of their lifetimes.  Otherwise it
    has no lifetime, and its outcome and reason are those of the first condition
    that fails, in the order of precedence. *)
Theorem selection_implements_policy (l : LoadedSelectionPolicy) (r : SelectionRequest) :
  loaded_ok l ->
  exists d, evaluate_selection l r = Ok d /\
    (stored (pd_outcome d) <-> exists rule, admissible l r rule) /\
    (forall rule, admissible l r rule ->
       pd_reason_codes d = [br_reason_code rule] /\ final_outcome l r rule (pd_outcome d) (pd_candidate_ttl_days d)) /\
    (~ stored (pd_outcome d) ->
       pd_candidate_ttl_days d = None /\
       exists reason, pd_reason_codes d = [reason] /\ refusal l r (pd_outcome d) reason).
Proof.
  intros Hl. destruct (evaluate_cases l Hl r) as (d & He & Hout). exists d. split; [done|].
  destruct Hout as [(Hno & Hna & Httl & Href)|(rule & o & ttl & Had & -> & Hst & Hfin)].
  - split_and!; [|intros rule Had; by destruct (Hna rule)|done]. split; [done|]. intros [rule Had]. by destruct (Hna rule).
  - simpl. split_and!; [split; eauto| |done]. intros rule' Had'.
    by rewrite (admissible_unique l Hl r rule' rule Had' Had).
Qed.

(** a candidate-forcing guardrail is never bypassed: a request carrying
    its signal is never stored as active, and if it is stored as a candidate
    it expires no later than the guardrail allows. *)
Theorem guardrail_forces_candidate (l : LoadedSelectionPolicy) (r : SelectionRequest)
    (d : PolicyDecision) (g : SignalGuardrail) :
  loaded_ok l -> evaluate_selection l r = Ok d ->
  g ∈ spp_signal_guardrails (lsp_profile l) -> sg_force_candidate g = true ->
  sg_signal g ∈ sr_content_signals r ->
  pd_outcome d <> PolicyOutcome.ACTIVE /\
  (stored (pd_outcome d) -> exists t days, pd_candidate_ttl_days d = Some t /\
     sg_forced_candidate_ttl_days g = Some days /\ t <= days).
Proof.
  intros Hl He Hg Hforce Hsig.
  assert (Hin : g ∈ List.filter sg_force_candidate (applicable_guardrails r l)).
  { apply elem_of_list_filter_bool. split; [done|]. by apply applicable_sub. }
  assert (Hstored : stored (pd_outcome d) -> pd_outcome d = PolicyOutcome.CANDIDATE /\
    exists t days, pd_candidate_ttl_days d = Some t /\ sg_forced_candidate_ttl_days g = Some days /\ t <= days).
  { intros Hst. destruct (stored_inv _ _ _ Hl He Hst) as (rule & ttl & _ & Hd & Hfin).
    destruct Hfin as [(Hnil & _)|(_ & Ho & t & -> & Hle & _)]; [rewrite Hnil in Hin; set_solver|].
    split; [done|]. destruct (forced_ttl_guard g) as [_ Hf]; [by apply (pf_guards _ (facts l Hl))|].
    rewrite Hforce in Hf. destruct (sg_forced_candidate_ttl_days g) as [days|] eqn:Hdays; [|done].
    exists t, days. rewrite Hd. simpl. eauto. }
  split; [|intros Hst; by apply Hstored]. intros Ha. destruct Hstored as [Hc _]; [by right|congruence].
Qed.

(** Under the shipped profile only first-hand material becomes active at
    once: an active decision carries no guarded content signal, rests on the
    authority of the user or of a verified project source, and on evidence
    that is not unverified. *)
Theorem selection_v1_active_is_authorized (h : pystr) (r : SelectionRequest) (d : PolicyDecision) :
  hex_digest_ok h = true -> evaluate_selection (SELECTION_V1 h) r = Ok d ->
  pd_outcome d = PolicyOutcome.ACTIVE ->
  sr_content_signals r = [] /\
  sr_effective_authority_class r ∈ first_hand_authorities /\
  exists item, item ∈ sr_evidence r /\ evs_trust item <> EvidenceTrust.UNVERIFIED /\
    evs_kind item ∈ first_hand_kinds.
Proof.
  intros Hh He Ha. pose proof (selection_v1_ok h Hh) as Hl.
  destruct (stored_inv _ _ _ Hl He) as (rule & ttl & Had & _ & Hfin); [by right|].
  destruct Hfin as [(Hnil & Ho & _)|(_ & Ho & _)]; [|congruence].
  assert (Hsig : sr_content_signals r = []).
  { destruct (sr_content_signals r) as [|sig sigs] eqn:Hs; [done|]. exfalso.
    destruct (selection_v1_guard_of sig) as (g & Hin & <- & Hf & _).
    assert (Hx : g ∈ List.filter sg_force_candidate (applicable_guardrails r (SELECTION_V1 h))).
    { apply elem_of_list_filter_bool. split; [done|]. apply applicable_sub. rewrite Hs. split; [done|left]. }
    rewrite Hnil in Hx. set_solver. }
  split; [done|]. rewrite Ha in Ho. pose proof (ad_rule _ _ _ Had) as Hin.
  pose proof (ad_authority _ _ _ Had) as Hauth. pose proof (ad_evidence _ _ _ Had) as Hev.
  destruct (selection_v1_rules rule Hin) as [Hfirst _]. unfold first_hand_rule in Hfirst.
  rewrite bool_decide_true in Hfirst by done. cbn [negb orb] in Hfirst.
  destruct (br_required_authority rule) as [a|]; [|done].
  destruct (br_evidence_requirement rule) as [q|]; [|done].
  rewrite !andb_true_iff, !bool_decide_eq_true, Z.leb_le, forallb_forall in Hfirst.
  destruct Hfirst as [[[Hauth_ok Hmin] Hkinds] Htrust].
  rewrite (Hauth a eq_refl). split; [done|].
  destruct (Hev q eq_refl) as (keys & _ & Hlen & Hk). destruct keys as [|k keys]; [simpl in Hlen; lia|].
  destruct (Hk k) as (item & Hi & _ & Hkind & Htr); [left|]. exists item. split; [done|].
  split; [congruence|]. apply list_elem_of_In, Hkinds in Hkind. by apply bool_decide_eq_true in Hkind.
Qed.

(** The decision ledger is enough to recover the guarded signals: from the
    matched rule identifiers of a stored decision, the lifecycle reconstructs
    exactly the content signals of the request. *)
Theorem signals_recovered_from_rule_ids (h : pystr) (r : SelectionRequest) (d : PolicyDecision)
    (signal : ContentSignal) :
  hex_digest_ok h = true -> evaluate_selection (SELECTION_V1 h) r = Ok d -> stored (pd_outcome d) ->
  signal ∈ content_signals_from_rule_ids (pd_matched_rule_ids d) <-> signal ∈ sr_content_signals r.
Proof.
  intros Hh He Hst. pose proof (selection_v1_ok h Hh) as Hl.
  destruct (stored_inv _ _ _ Hl He Hst) as (rule & ttl & Had & -> & _). simpl.
  pose proof (ad_rule _ _ _ Had) as Hin. simpl in Hin.
  destruct (selection_v1_rules rule Hin) as [_ Hbasis].
  unfold content_signals_from_rule_ids. rewrite elem_of_remove_dups, list_elem_of_omap. split.
  - intros (id & Hid & Hsig). apply elem_of_cons in Hid as [->|Hid]; [congruence|].
    apply list_elem_of_fmap in Hid as (g & -> & Hg). apply applicable_sub in Hg as [Hg Hs].
    simpl in Hg. unfold selection_v1_guardrails in Hg.
    repeat (apply elem_of_cons in Hg as [->|Hg]; [vm_compute in Hsig; injection Hsig as <-; exact Hs|]).
    by apply elem_of_nil in Hg.
  - intros Hs. destruct (selection_v1_guard_of signal) as (g & Hg & <- & _ & Hc).
    exists (sg_rule_id g). split; [|done]. right.
    apply list_elem_of_fmap_2, applicable_sub. auto.
Qed.

Lemma confirmed_spec c :
  existsb (evidence_is EvidenceKind.USER_CONFIRMATION EvidenceTrust.TRUSTED) (cls_evidence c) = true <->
  exists i, i ∈ cls_evidence c /\ evs_kind i = EvidenceKind.USER_CONFIRMATION /\
            evs_trust i = EvidenceTrust.TRUSTED.
Proof.
  rewrite existsb_exists. unfold evidence_is. split; intros (i & Hi & Ht); exists i.
  - rewrite list_elem_of_In. by rewrite andb_true_iff, !bool_decide_eq_true in Ht.
  - rewrite andb_true_iff, !bool_decide_eq_true. by rewrite list_elem_of_In in Hi.
Qed.

Lemma observed_spec c :
  (2 <=? length (distinct_keys (evidence_is EvidenceKind.ASSISTANT_OBSERVATION EvidenceTrust.TRUSTED)
                   (cls_evidence c)))%nat = true <->
  exists i j, i ∈ cls_evidence c /\ j ∈ cls_evidence c /\ evs_evidence_key i <> evs_evidence_key j /\
    evidence_is EvidenceKind.ASSISTANT_OBSERVATION EvidenceTrust.TRUSTED i = true /\
    evidence_is EvidenceKind.ASSISTANT_OBSERVATION EvidenceTrust.TRUSTED j = true.
Proof.
  rewrite Nat.leb_le, two_distinct by apply NoDup_remove_dups. split.
  - intros (a & b & Ha & Hb & Hne). apply elem_of_distinct_keys in Ha as (i & ? & <- & ?).
    apply elem_of_distinct_keys in Hb as (j & ? & <- & ?). eauto 10.
  - intros (i & j & Hi & Hj & Hne & Hti & Htj). exists (evs_evidence_key i), (evs_evidence_key j).
    rewrite !elem_of_distinct_keys. eauto 10.
Qed.

(** Promotion is exactly as the contract says: a candidate under the
    current profile is promoted iff it has a trusted user confirmation, or it
    is not protected (imported, roleplayed, or claiming experience) and has two
    trusted observations with different keys. *)
Theorem promotion_iff (l : LoadedSelectionPolicy) (c : CandidateLifecycleState) :
  hex_digest_ok (lsp_sha256_hex l) = true ->
  exists d, evaluate_promotion l c = Ok d /\
  (ld_action d = LifecycleAction.PROMOTE <->
    cls_status c = MemoryStatus.CANDIDATE /\
    cls_policy_profile_version c = profile_version /\ cls_policy_profile_sha256 c = lsp_sha256_hex l /\
    ((exists i, i ∈ cls_evidence c /\ evs_kind i = EvidenceKind.USER_CONFIRMATION /\
                evs_trust i = EvidenceTrust.TRUSTED) \/
     (cls_selection_basis c <> SelectionBasis.IMPORTED_LEGACY /\
      ContentSignal.ROLEPLAYED_SCENE ∉ cls_content_signals c /\
      ContentSignal.SUBJECTIVE_EXPERIENCE_CLAIM ∉ cls_content_signals c /\
      exists i j, i ∈ cls_evidence c /\ j ∈ cls_evidence c /\
        evs_evidence_key i <> evs_evidence_key j /\
        evidence_is EvidenceKind.ASSISTANT_OBSERVATION EvidenceTrust.TRUSTED i = true /\
        evidence_is EvidenceKind.ASSISTANT_OBSERVATION EvidenceTrust.TRUSTED j = true))).
Proof.
  intros Hh. unfold evaluate_promotion, lifecycle_decision. rewrite Hh. cbn [negb raise_if mbind result_bind].
  destruct (bool_decide (cls_status c <> _)) eqn:Hs; [eexists; split; [done|]; simpl|].
  { apply bool_decide_eq_true in Hs. naive_solver. }
  apply bool_decide_eq_false, dec_stable in Hs.
  destruct (profile_matches c l) eqn:Hp; cbn [negb]; unfold profile_matches in Hp.
  2: { eexists; split; [done|]; simpl. apply andb_false_iff in Hp.
       rewrite !bool_decide_eq_false in Hp. naive_solver. }
  apply andb_true_iff in Hp as [Hv Hsha]. rewrite bool_decide_eq_true in Hv, Hsha.
  pose proof (confirmed_spec c) as Hconf.
  destruct (existsb _ (cls_evidence c)); [eexists; split; [done|]; simpl; naive_solver|].
  assert (Hno : ~ exists i, i ∈ cls_evidence c /\ evs_kind i = EvidenceKind.USER_CONFIRMATION /\
                evs_trust i = EvidenceTrust.TRUSTED) by (intros Hex; by apply Hconf in Hex).
  destruct (_ || _) eqn:Hprot.
  { eexists; split; [done|]; simpl. rewrite !orb_true_iff, !bool_decide_eq_true in Hprot. naive_solver. }
  rewrite !orb_false_iff, !bool_decide_eq_false in Hprot.
  pose proof (observed_spec c) as Hobs.
  destruct (_ <=? _)%nat; (eexists; split; [done|]; simpl); [naive_solver|].
  split; [done|]. intros (_ & _ & _ & [Hc|(_ & _ & _ & Hij)]); [by destruct Hno|]. by apply Hobs in Hij.
Qed.

(** Expiry is exact: a candidate is retired iff it is still a candidate
    under the current profile and its deadline is not in the future. *)
Theorem expiry_iff (l : LoadedSelectionPolicy) (e : ExpiryEvaluation) :
  hex_digest_ok (lsp_sha256_hex l) = true ->
  exists d, evaluate_expiry l e = Ok d /\
  (ld_action d = LifecycleAction.RETIRE <->
    cls_status (ee_candidate e) = MemoryStatus.CANDIDATE /\
    cls_policy_profile_version (ee_candidate e) = profile_version /\
    cls_policy_profile_sha256 (ee_candidate e) = lsp_sha256_hex l /\
    ee_deadline e <= ee_evaluated_at e) /\
  ld_action d <> LifecycleAction.PROMOTE.
Proof.
  intros Hh. unfold evaluate_expiry, lifecycle_decision. rewrite Hh. cbn [negb raise_if mbind result_bind].
  destruct (bool_decide (cls_status _ <> _)) eqn:Hs; [eexists; split; [done|]; simpl|].
  { apply bool_decide_eq_true in Hs. naive_solver. }
  apply bool_decide_eq_false, dec_stable in Hs.
  destruct (profile_matches (ee_candidate e) l) eqn:Hp; cbn [negb]; unfold profile_matches in Hp.
  2: { eexists; split; [done|]; simpl. apply andb_false_iff in Hp.
       rewrite !bool_decide_eq_false in Hp. naive_solver. }
  apply andb_true_iff in Hp as [Hv Hsha]. rewrite bool_decide_eq_true in Hv, Hsha.
  destruct (Z.ltb_spec (ee_evaluated_at e) (ee_deadline e)); (eexists; split; [done|]; simpl);
    (split; [|done]); [|naive_solver]. split; [done|]. intros (_ & _ & _ & ?). lia.
Qed.

(** ** Witnesses *)

Definition sample_digest : pystr := sha256_hex [].

Definition sample_item (key : string) (kind : EvidenceKind) : EvidenceSummary :=
  {| evs_evidence_key := py key; evs_kind := kind; evs_trust := EvidenceTrust.TRUSTED |}.

Definition sample_request (basis : SelectionBasis) (category : MemoryCategory) (ontology : OntologicalStatus)
    (scope : MemoryScope) (authority : AuthorityClass) (signals : list ContentSignal)
    (qualifiers : list EpistemicQualifier) (items : list EvidenceSummary) : SelectionRequest :=
  {| sr_basis := basis; sr_category := category; sr_ontological_status := ontology; sr_scope := scope;
     sr_visibility := MemoryVisibility.PRIVATE_ROOT; sr_effective_authority_class := authority;
     sr_content_signals := signals; sr_epistemic_qualifiers := qualifiers;
     sr_reason_to_remember := Some (py "useful"); sr_interpretation_limits := [py "one episode"];
     sr_evidence := items |}.

Definition preference_request : SelectionRequest :=
  sample_request SelectionBasis.EXPLICIT_USER_PREFERENCE MemoryCategory.USER_PREFERENCE
    OntologicalStatus.LITERAL_USER_FACT MemoryScope.PERSONA AuthorityClass.EXPLICIT_USER_STATEMENT [] []
    [sample_item "m1" EvidenceKind.USER_STATEMENT].

Definition roleplay_request : SelectionRequest :=
  sample_request SelectionBasis.MEANINGFUL_EPISODIC_ANCHOR MemoryCategory.EPISODIC_ANCHOR
    OntologicalStatus.FICTIONAL_OR_ROLEPLAYED_SCENE MemoryScope.EPISODIC AuthorityClass.ASSISTANT_OBSERVATION
    [ContentSignal.ROLEPLAYED_SCENE] [EpistemicQualifier.ROLEPLAY_NOT_LITERAL]
    [sample_item "m1" EvidenceKind.CONVERSATION_EPISODE].

Definition decision_of (r : SelectionRequest) : PolicyDecision :=
  match evaluate_selection (SELECTION_V1 sample_digest) r with
  | Ok d => d
  | Err _ => {| pd_profile_version := []; pd_profile_sha256 := []; pd_outcome := PolicyOutcome.REJECT;
                pd_reason_codes := []; pd_matched_rule_ids := []; pd_required_qualifiers := [];
                pd_candidate_ttl_days := None |}
  end.

Lemma selection_implements_policy_witness :
  exists d, evaluate_selection (SELECTION_V1 sample_digest) preference_request = Ok d /\
    (stored (pd_outcome d) <-> exists rule, admissible (SELECTION_V1 sample_digest) preference_request rule).
Proof.
  destruct (selection_implements_policy (SELECTION_V1 sample_digest) preference_request) as (d & He & Hst & _).
  - split; [vm_compute; reflexivity|vm_compute; reflexivity].
  - exists d. split; [exact He|exact Hst].
Defined.

Lemma guardrail_forces_candidate_witness :
  exists g, g ∈ selection_v1_guardrails /\ sg_signal g = ContentSignal.ROLEPLAYED_SCENE /\
    pd_outcome (decision_of roleplay_request) <> PolicyOutcome.ACTIVE.
Proof.
  destruct (selection_v1_guard_of ContentSignal.ROLEPLAYED_SCENE) as (g & Hin & Hsig & Hforce & _).
  exists g. split; [exact Hin|]. split; [exact Hsig|].
  refine (proj1 (guardrail_forces_candidate (SELECTION_V1 sample_digest) roleplay_request
                   (decision_of roleplay_request) g _ _ Hin Hforce _)).
  - split; vm_compute; reflexivity.
  - vm_compute. reflexivity.
  - rewrite Hsig. left.
Defined.

Lemma selection_v1_active_is_authorized_witness :
  sr_effective_authority_class preference_request ∈ first_hand_authorities.
Proof.
  apply (selection_v1_active_is_authorized sample_digest preference_request (decision_of preference_request));
    vm_compute; reflexivity.
Defined.

Lemma signals_recovered_from_rule_ids_witness :
  ContentSignal.ROLEPLAYED_SCENE ∈ content_signals_from_rule_ids (pd_matched_rule_ids (decision_of roleplay_request)).
Proof.
  apply (signals_recovered_from_rule_ids sample_digest roleplay_request (decision_of roleplay_request)).
  - vm_compute. reflexivity.
  - vm_compute. reflexivity.
  - left. vm_compute. reflexivity.
  - left.
Defined.

Definition sample_candidate : CandidateLifecycleState :=
  {| cls_status := MemoryStatus.CANDIDATE; cls_selection_basis := SelectionBasis.ASSISTANT_OBSERVATION;
     cls_content_signals := [];
     cls_evidence := [sample_item "m1" EvidenceKind.ASSISTANT_OBSERVATION;
                      sample_item "m2" EvidenceKind.ASSISTANT_OBSERVATION];
     cls_policy_profile_version := profile_version; cls_policy_profile_sha256 := sample_digest |}.

Lemma promotion_iff_witness :
  exists d, evaluate_promotion (SELECTION_V1 sample_digest) sample_candidate = Ok d.
Proof.
  destruct (promotion_iff (SELECTION_V1 sample_digest) sample_candidate) as (d & Hd & _);
    [vm_compute; reflexivity|]. exists d. exact Hd.
Defined.

Lemma expiry_iff_witness :
  exists d, evaluate_expiry (SELECTION_V1 sample_digest)
    {| ee_candidate := sample_candidate; ee_deadline := 5; ee_evaluated_at := 7 |} = Ok d.
Proof.
  destruct (expiry_iff (SELECTION_V1 sample_digest)
    {| ee_candidate := sample_candidate; ee_deadline := 5; ee_evaluated_at := 7 |}) as (d & Hd & _);
    [vm_compute; reflexivity|]. exists d. exact Hd.
Defined.
