(* ===== verification/Eligibility.v ===== *)
(** * Eligibility: which memories a caller may read

    Models [retrieval/eligibility.py] with the query contracts of
    [retrieval/contracts.py] it reads.  A [frozenset] field is a list of which
    only membership and emptiness are read; identifiers of a validated query are
    UUIDv7, which the predicate itself does not inspect. *)

From stdpp Require Import base tactics option list sets strings.
From Stdlib Require Import ZArith Lia Bool.
From S2P Require Import Prelude Identifiers Enums Values Events.
Open Scope Z_scope.

(** ** Contracts *)

Inductive ReadOperation : Type :=
| context_pack | search | get | timeline | conflicts | lineage | selection_history.

Record QueryPrincipal : Type := {
  qp_tenant_id : UUID;
  qp_actor_id : UUID;
  qp_client_id : UUID;
  qp_transport_binding_id : UUID;
  qp_scopes : list string;
  qp_allowed_memory_scopes : list MemoryScope;
  qp_allowed_visibilities : list MemoryVisibility;
  qp_max_sensitivity : Z;
  qp_allow_candidates : bool;
  qp_ingress_id : option UUID
}.

Record MemoryFilters : Type := {
  mf_subject_ids : list UUID;
  mf_subject_kinds : list SubjectKind;
  mf_categories : list MemoryCategory;
  mf_ontological_statuses : list OntologicalStatus;
  mf_scopes : list MemoryScope;
  mf_visibilities : list MemoryVisibility;
  mf_include_candidates : bool;
  mf_valid_at : option instant
}.

(** [MemoryFilters(scopes=...)] and [MemoryFilters()] *)
Definition filters_on_scopes (scopes : list MemoryScope) : MemoryFilters :=
  {| mf_subject_ids := []; mf_subject_kinds := []; mf_categories := []; mf_ontological_statuses := [];
     mf_scopes := scopes; mf_visibilities := []; mf_include_candidates := false; mf_valid_at := None |}.
Definition no_filters : MemoryFilters := filters_on_scopes [].

(** The seven direct read queries, with what eligibility reads of each. *)
Inductive DirectReadQuery : Type :=
| ContextPackQuery (branch_id : UUID) (requested_memory_scopes : list MemoryScope) (token_budget : Z)
| MemorySearchQuery (branch_id : UUID) (filters : MemoryFilters) (limit : Z)
| MemoryGetQuery (branch_id : UUID) (memory_id : UUID) (include_conflicts : bool)
| MemoryTimelineQuery (branch_id : UUID) (starts_at ends_at : instant) (filters : MemoryFilters) (limit : Z)
| MemoryConflictsQuery (branch_id : UUID) (query : option pystr) (subject_id : option UUID) (limit : Z)
| MemoryLineageQuery (branch_id : UUID)
| MemorySelectionHistoryQuery (branch_id : UUID) (limit : Z).

(** The class variable [OPERATION]. *)
Definition OPERATION (q : DirectReadQuery) : ReadOperation :=
  match q with
  | ContextPackQuery _ _ _ => context_pack
  | MemorySearchQuery _ _ _ => search
  | MemoryGetQuery _ _ _ => get
  | MemoryTimelineQuery _ _ _ _ _ => timeline
  | MemoryConflictsQuery _ _ _ _ => conflicts
  | MemoryLineageQuery _ => lineage
  | MemorySelectionHistoryQuery _ _ => selection_history
  end.

Definition query_branch_id (q : DirectReadQuery) : UUID :=
  match q with
  | ContextPackQuery b _ _ | MemorySearchQuery b _ _ | MemoryGetQuery b _ _
  | MemoryTimelineQuery b _ _ _ _ | MemoryConflictsQuery b _ _ _ | MemoryLineageQuery b
  | MemorySelectionHistoryQuery b _ => b
  end.

(** [_REQUIRED_SCOPES] *)
Definition required_scope (op : ReadOperation) : string :=
  match op with
  | context_pack => "memory.read.context"
  | search => "memory.read.search"
  | get => "memory.read.get"
  | timeline => "memory.read.timeline"
  | conflicts => "memory.read.conflicts"
  | lineage => "memory.read.lineage"
  | selection_history => "memory.read.selection_history"
  end%string.

Inductive EligibilityReason : Type :=
| eligible | unauthorized_operation | tenant_mismatch | lineage_mismatch | branch_mismatch
| terminal_status | candidate_not_allowed | scope_not_authorized | scope_not_requested
| visibility_not_authorized | visibility_not_requested | sensitivity_not_authorized
| subject_not_requested | session_not_eligible | outside_validity_window
| category_not_requested | ontology_not_requested | subject_kind_not_requested.

Record ResolvedReadContext : Type := {
  rc_tenant_id : UUID;
  rc_lineage_id : UUID;
  rc_branch_id : UUID;
  rc_logical_session_id : option UUID;
  rc_project_subject_id : option UUID;
  rc_relationship_subject_id : option UUID
}.

Record EligibilityCandidate : Type := {
  ec_tenant_id : UUID;
  ec_lineage_id : UUID;
  ec_branch_id : UUID;
  ec_memory_id : UUID;
  ec_subject_id : UUID;
  ec_subject_kind : SubjectKind;
  ec_category : MemoryCategory;
  ec_ontological_status : OntologicalStatus;
  ec_scope : MemoryScope;
  ec_visibility : MemoryVisibility;
  ec_sensitivity : Z;
  ec_status : MemoryStatus;
  ec_origin_session_id : option UUID;
  ec_valid_from : option instant;
  ec_valid_to : option instant
}.

Record EligibilityDecision : Type := { ed_eligible : bool; ed_reason : EligibilityReason }.

(** ** Operations *)

Definition operation_authorized (p : QueryPrincipal) (q : DirectReadQuery) : bool :=
  bool_decide (required_scope (OPERATION q) ∈ qp_scopes p)
  || bool_decide ("memory:read"%string ∈ qp_scopes p).

Definition filters_for_query (q : DirectReadQuery) : MemoryFilters :=
  match q with
  | ContextPackQuery _ scopes _ => filters_on_scopes scopes
  | MemorySearchQuery _ filters _ | MemoryTimelineQuery _ _ _ filters _ => filters
  | _ => no_filters
  end.

(** [_reject] *)
Definition refuse (reason : EligibilityReason) : EligibilityDecision :=
  {| ed_eligible := false; ed_reason := reason |}.

(** [values and item not in values] *)
Definition not_requested {A} `{EqDecision A} (values : list A) (item : A) : bool :=
  negb (bool_decide (values = [])) && bool_decide (item ∉ values).

Definition evaluate_eligibility (p : QueryPrincipal) (context : ResolvedReadContext)
    (c : EligibilityCandidate) (q : DirectReadQuery) (f : MemoryFilters) (evaluated_at : instant)
    : EligibilityDecision :=
  if negb (operation_authorized p q) then refuse unauthorized_operation
  else if negb (qp_tenant_id p =? rc_tenant_id context) || negb (ec_tenant_id c =? qp_tenant_id p)
  then refuse tenant_mismatch
  else if negb (ec_lineage_id c =? rc_lineage_id context) then refuse lineage_mismatch
  else if negb (ec_branch_id c =? rc_branch_id context) || negb (ec_branch_id c =? query_branch_id q)
  then refuse branch_mismatch
  else if bool_decide (ec_status c ∈ [MemoryStatus.SUPERSEDED; MemoryStatus.RETIRED; MemoryStatus.TOMBSTONED])
  then refuse terminal_status
  else if bool_decide (ec_status c = MemoryStatus.CANDIDATE)
          && negb (qp_allow_candidates p && mf_include_candidates f)
  then refuse candidate_not_allowed
  else if bool_decide (ec_scope c ∉ qp_allowed_memory_scopes p) then refuse scope_not_authorized
  else if not_requested (mf_scopes f) (ec_scope c) then refuse scope_not_requested
  else if bool_decide (ec_visibility c ∉ qp_allowed_visibilities p) then refuse visibility_not_authorized
  else if not_requested (mf_visibilities f) (ec_visibility c) then refuse visibility_not_requested
  else if qp_max_sensitivity p <? ec_sensitivity c then refuse sensitivity_not_authorized
  else if not_requested (mf_subject_ids f) (ec_subject_id c) then refuse subject_not_requested
  else if not_requested (mf_subject_kinds f) (ec_subject_kind c) then refuse subject_kind_not_requested
  else if not_requested (mf_categories f) (ec_category c) then refuse category_not_requested
  else if not_requested (mf_ontological_statuses f) (ec_ontological_status c)
  then refuse ontology_not_requested
  else if bool_decide (ec_scope c = MemoryScope.PROJECT)
          && negb (bool_decide (rc_project_subject_id context = Some (ec_subject_id c)))
  then refuse subject_not_requested
  else if bool_decide (ec_scope c = MemoryScope.RELATIONSHIP)
          && negb (bool_decide (rc_relationship_subject_id context = Some (ec_subject_id c)))
  then refuse subject_not_requested
  else if bool_decide (ec_scope c ∈ [MemoryScope.EPISODIC; MemoryScope.SCENE_LOCAL])
          && (is_none (rc_logical_session_id context)
              || negb (bool_decide (ec_origin_session_id c = rc_logical_session_id context)))
  then refuse session_not_eligible
  else
  let valid_at := default evaluated_at (mf_valid_at f) in
  if match ec_valid_from c with Some from => valid_at <? from | None => false end
  then refuse outside_validity_window
  else if match ec_valid_to c with Some to => to <? valid_at | None => false end
  then refuse outside_validity_window
  else {| ed_eligible := true; ed_reason := eligible |}.

Definition conflict_group_eligible (decisions : list EligibilityDecision) : bool :=
  (2 <=? length decisions)%nat && forallb ed_eligible decisions.

(** ** Specification *)

(** What the caller's authority alone permits, whatever the caller asks for. *)
Record authorized (p : QueryPrincipal) (context : ResolvedReadContext) (c : EligibilityCandidate)
    (q : DirectReadQuery) : Prop := {
  au_operation : required_scope (OPERATION q) ∈ qp_scopes p \/ "memory:read"%string ∈ qp_scopes p;
  au_tenant : ec_tenant_id c = qp_tenant_id p /\ qp_tenant_id p = rc_tenant_id context;
  au_lineage : ec_lineage_id c = rc_lineage_id context;
  au_branch : ec_branch_id c = rc_branch_id context /\ ec_branch_id c = query_branch_id q;
  au_status : ec_status c = MemoryStatus.ACTIVE \/ ec_status c = MemoryStatus.DISPUTED \/
    (ec_status c = MemoryStatus.CANDIDATE /\ qp_allow_candidates p = true);
  au_scope : ec_scope c ∈ qp_allowed_memory_scopes p;
  au_visibility : ec_visibility c ∈ qp_allowed_visibilities p;
  au_sensitivity : ec_sensitivity c <= qp_max_sensitivity p;
  au_project : ec_scope c = MemoryScope.PROJECT -> rc_project_subject_id context = Some (ec_subject_id c);
  au_relationship : ec_scope c = MemoryScope.RELATIONSHIP ->
    rc_relationship_subject_id context = Some (ec_subject_id c);
  au_session : ec_scope c = MemoryScope.EPISODIC \/ ec_scope c = MemoryScope.SCENE_LOCAL ->
    exists session, rc_logical_session_id context = Some session /\ ec_origin_session_id c = Some session
}.

(** What the caller narrowed the read to. *)
Record requested (c : EligibilityCandidate) (f : MemoryFilters) (evaluated_at : instant) : Prop := {
  rq_candidates : ec_status c = MemoryStatus.CANDIDATE -> mf_include_candidates f = true;
  rq_scope : mf_scopes f = [] \/ ec_scope c ∈ mf_scopes f;
  rq_visibility : mf_visibilities f = [] \/ ec_visibility c ∈ mf_visibilities f;
  rq_subject : mf_subject_ids f = [] \/ ec_subject_id c ∈ mf_subject_ids f;
  rq_subject_kind : mf_subject_kinds f = [] \/ ec_subject_kind c ∈ mf_subject_kinds f;
  rq_category : mf_categories f = [] \/ ec_category c ∈ mf_categories f;
  rq_ontology : mf_ontological_statuses f = [] \/ ec_ontological_status c ∈ mf_ontological_statuses f;
  rq_from : forall from, ec_valid_from c = Some from -> from <= default evaluated_at (mf_valid_at f);
  rq_to : forall to, ec_valid_to c = Some to -> default evaluated_at (mf_valid_at f) <= to
}.

Lemma not_requested_false {A} `{EqDecision A} (values : list A) item :
  not_requested values item = false <-> values = [] \/ item ∈ values.
Proof.
  unfold not_requested. destruct (decide (values = [])) as [->|Hne].
  - rewrite bool_decide_true by done. simpl. tauto.
  - rewrite bool_decide_false by done. simpl. rewrite bool_decide_eq_false.
    split; [intros Hn; right; by apply dec_stable|]. tauto.
Qed.

Lemma not_terminal st :
  st ∉ [MemoryStatus.SUPERSEDED; MemoryStatus.RETIRED; MemoryStatus.TOMBSTONED] <->
  st = MemoryStatus.ACTIVE \/ st = MemoryStatus.DISPUTED \/ st = MemoryStatus.CANDIDATE.
Proof. destruct st; set_solver. Qed.

Lemma session_scope sc :
  sc ∈ [MemoryScope.EPISODIC; MemoryScope.SCENE_LOCAL] <->
  sc = MemoryScope.EPISODIC \/ sc = MemoryScope.SCENE_LOCAL.
Proof. set_solver. Qed.

(** A chain of refusals accepts only when no refusal applies. *)
Lemma refuse_or (b : bool) reason d :
  ed_eligible (if b then refuse reason else d) = true <-> b = false /\ ed_eligible d = true.
Proof. destruct b; simpl; naive_solver. Qed.

(** The refusals as one conjunction of negated tests. *)
Lemma eligible_chain p context c q f at_ :
  ed_eligible (evaluate_eligibility p context c q f at_) = true <->
  operation_authorized p q = true /\
  (qp_tenant_id p = rc_tenant_id context /\ ec_tenant_id c = qp_tenant_id p) /\
  ec_lineage_id c = rc_lineage_id context /\
  (ec_branch_id c = rc_branch_id context /\ ec_branch_id c = query_branch_id q) /\
  ec_status c ∉ [MemoryStatus.SUPERSEDED; MemoryStatus.RETIRED; MemoryStatus.TOMBSTONED] /\
  (ec_status c = MemoryStatus.CANDIDATE -> qp_allow_candidates p = true /\ mf_include_candidates f = true) /\
  ec_scope c ∈ qp_allowed_memory_scopes p /\ (mf_scopes f = [] \/ ec_scope c ∈ mf_scopes f) /\
  ec_visibility c ∈ qp_allowed_visibilities p /\
  (mf_visibilities f = [] \/ ec_visibility c ∈ mf_visibilities f) /\
  ec_sensitivity c <= qp_max_sensitivity p /\
  (mf_subject_ids f = [] \/ ec_subject_id c ∈ mf_subject_ids f) /\
  (mf_subject_kinds f = [] \/ ec_subject_kind c ∈ mf_subject_kinds f) /\
  (mf_categories f = [] \/ ec_category c ∈ mf_categories f) /\
  (mf_ontological_statuses f = [] \/ ec_ontological_status c ∈ mf_ontological_statuses f) /\
  (ec_scope c = MemoryScope.PROJECT -> rc_project_subject_id context = Some (ec_subject_id c)) /\
  (ec_scope c = MemoryScope.RELATIONSHIP -> rc_relationship_subject_id context = Some (ec_subject_id c)) /\
  (ec_scope c ∈ [MemoryScope.EPISODIC; MemoryScope.SCENE_LOCAL] ->
     is_none (rc_logical_session_id context) = false /\ ec_origin_session_id c = rc_logical_session_id context) /\
  (forall from, ec_valid_from c = Some from -> from <= default at_ (mf_valid_at f)) /\
  (forall to, ec_valid_to c = Some to -> default at_ (mf_valid_at f) <= to).
Proof.
  unfold evaluate_eligibility. cbv zeta. rewrite !refuse_or, !not_requested_false.
  assert (Himp : forall (P : Prop) `{Decision P} (b : bool), bool_decide P && b = false <-> (P -> b = false)).
  { intros P HP b. rewrite andb_false_iff, bool_decide_eq_false. destruct (decide P), b; tauto. }
  rewrite !Himp, !orb_false_iff, !negb_false_iff, !Z.eqb_eq, !bool_decide_eq_true, !bool_decide_eq_false,
    Z.ltb_ge, andb_true_iff.
  assert (Hfrom : match ec_valid_from c with Some from => default at_ (mf_valid_at f) <? from | None => false end
    = false <-> forall from, ec_valid_from c = Some from -> from <= default at_ (mf_valid_at f)).
  { destruct (ec_valid_from c); [rewrite Z.ltb_ge; naive_solver|naive_solver]. }
  assert (Hto : match ec_valid_to c with Some to => to <? default at_ (mf_valid_at f) | None => false end
    = false <-> forall to, ec_valid_to c = Some to -> default at_ (mf_valid_at f) <= to).
  { destruct (ec_valid_to c); [rewrite Z.ltb_ge; naive_solver|naive_solver]. }
  rewrite Hfrom, Hto.
  assert (Hstable1 : ~ (ec_scope c ∉ qp_allowed_memory_scopes p) <-> ec_scope c ∈ qp_allowed_memory_scopes p)
    by (split; [apply dec_stable|tauto]).
  assert (Hstable2 : ~ (ec_visibility c ∉ qp_allowed_visibilities p) <-> ec_visibility c ∈ qp_allowed_visibilities p)
    by (split; [apply dec_stable|tauto]).
  assert (Hlast : forall Q : Prop, Q /\ ed_eligible {| ed_eligible := true; ed_reason := eligible |} = true <-> Q)
    by (intros Q; split; [by intros []|done]).
  rewrite Hstable1, Hstable2, Hlast. reflexivity.
Qed.

(** Eligibility is authority and request together. *)
Lemma eligible_spec p context c q f at_ :
  ed_eligible (evaluate_eligibility p context c q f at_) = true <->
  authorized p context c q /\ requested c f at_.
Proof.
  rewrite eligible_chain, not_terminal, session_scope.
  unfold operation_authorized. rewrite orb_true_iff, !bool_decide_eq_true. split.
  - intros (Hop & [Ht1 Ht2] & Hl & Hb & Hst & Hcand & Hsc & Hsc' & Hv & Hv' & Hse & Hs & Hsk & Hc & Ho & Hp & Hr
      & Hsess & Hf & Hto). split; split; try assumption.
    + by split.
    + destruct Hst as [?|[?|Hcd]]; [by auto..|]. right. right. split; [done|]. by apply Hcand.
    + intros He. destruct (Hsess He) as [Hn Heq].
      destruct (rc_logical_session_id context) as [session|]; [|discriminate Hn]. exists session. by split.
    + intros Hcd. by apply Hcand.
  - intros [[Hop [Ht1 Ht2] Hl Hb Hst Hsc Hv Hse Hp Hr Hsess] [Hcand Hsc' Hv' Hs Hsk Hc Ho Hf Hto]].
    split_and!; try assumption; try (symmetry; assumption); try (apply Hb).
    + clear -Hst. tauto.
    + intros Hcd. split; [|by apply Hcand]. rewrite Hcd in Hst. by destruct Hst as [?|[?|[_ ?]]].
    + intros He. destruct (Hsess He) as (session & -> & ->). by split.
Qed.

(** ** Properties *)

(** C32: eligibility is authority and request together: a memory is returned
    exactly when the caller's authority permits it on its own and it matches
    what the caller narrowed the read to. *)
Theorem eligible_iff (p : QueryPrincipal) (context : ResolvedReadContext) (c : EligibilityCandidate)
    (q : DirectReadQuery) (f : MemoryFilters) (evaluated_at : instant) :
  ed_eligible (evaluate_eligibility p context c q f evaluated_at) = true <->
  authorized p context c q /\ requested c f evaluated_at.
Proof. apply eligible_spec. Qed.

(** [f] asks for no more than [g]: each list of [g] is absent or contains the
    list of [f], which is then present. *)
Definition list_within {A} (xs ys : list A) : Prop := ys = [] \/ (xs <> [] /\ xs ⊆ ys).

Record narrower (f g : MemoryFilters) : Prop := {
  nw_scopes : list_within (mf_scopes f) (mf_scopes g);
  nw_visibilities : list_within (mf_visibilities f) (mf_visibilities g);
  nw_subjects : list_within (mf_subject_ids f) (mf_subject_ids g);
  nw_subject_kinds : list_within (mf_subject_kinds f) (mf_subject_kinds g);
  nw_categories : list_within (mf_categories f) (mf_categories g);
  nw_ontologies : list_within (mf_ontological_statuses f) (mf_ontological_statuses g);
  nw_candidates : mf_include_candidates f = true -> mf_include_candidates g = true;
  nw_valid_at : mf_valid_at f = mf_valid_at g
}.

Lemma list_within_requested {A} (xs ys : list A) x :
  list_within xs ys -> xs = [] \/ x ∈ xs -> ys = [] \/ x ∈ ys.
Proof. intros [->|[Hne Hsub]] [->|Hx]; auto; done. Qed.

(** Caller filters can only narrow: a filter set that asks for no more than
    another selects no memory the other would not, and whatever the filters,
    nothing is returned that the caller's authority does not permit by
    itself. *)
Theorem filters_only_narrow (p : QueryPrincipal) (context : ResolvedReadContext) (c : EligibilityCandidate)
    (q : DirectReadQuery) (f g : MemoryFilters) (evaluated_at : instant) :
  narrower f g -> ed_eligible (evaluate_eligibility p context c q f evaluated_at) = true ->
  authorized p context c q /\ ed_eligible (evaluate_eligibility p context c q g evaluated_at) = true.
Proof.
  intros Hn. rewrite !eligible_spec. intros [Ha [Hcand Hsc Hv Hs Hsk Hc Ho Hf Hto]].
  destruct Hn as [N1 N2 N3 N4 N5 N6 N7 N8]. rewrite N8 in Hf, Hto.
  split; [done|]. split; [done|]. split; eauto using list_within_requested.
Qed.

(** An open conflict is expanded only whole: the group is shown only if it
    has at least two members and each of them is permitted and requested. *)
Theorem conflict_group_atomic (p : QueryPrincipal) (context : ResolvedReadContext) (q : DirectReadQuery)
    (f : MemoryFilters) (evaluated_at : instant) (members : list EligibilityCandidate) :
  conflict_group_eligible ((fun c => evaluate_eligibility p context c q f evaluated_at) <$> members) = true <->
  (2 <= length members)%nat /\
  forall c, c ∈ members -> authorized p context c q /\ requested c f evaluated_at.
Proof.
  unfold conflict_group_eligible. rewrite andb_true_iff, Nat.leb_le, length_fmap, forallb_forall.
  split; intros [Hlen Hall]; (split; [done|]).
  - intros c Hc. apply eligible_spec, Hall, list_elem_of_In, list_elem_of_fmap. eauto.
  - intros d Hd. apply list_elem_of_In, list_elem_of_fmap in Hd as (c & -> & Hc). by apply eligible_spec, Hall.
Qed.

(** ** Witness *)

Definition sample_principal : QueryPrincipal :=
  {| qp_tenant_id := 1; qp_actor_id := 2; qp_client_id := 3; qp_transport_binding_id := 4;
     qp_scopes := ["memory.read.search"%string]; qp_allowed_memory_scopes := [MemoryScope.PERSONA];
     qp_allowed_visibilities := [MemoryVisibility.PRIVATE_ROOT]; qp_max_sensitivity := 2;
     qp_allow_candidates := false; qp_ingress_id := None |}.

Definition sample_context : ResolvedReadContext :=
  {| rc_tenant_id := 1; rc_lineage_id := 5; rc_branch_id := 6; rc_logical_session_id := None;
     rc_project_subject_id := None; rc_relationship_subject_id := None |}.

Definition sample_candidate_row : EligibilityCandidate :=
  {| ec_tenant_id := 1; ec_lineage_id := 5; ec_branch_id := 6; ec_memory_id := 7; ec_subject_id := 8;
     ec_subject_kind := SubjectKind.PERSONA; ec_category := MemoryCategory.USER_PREFERENCE;
     ec_ontological_status := OntologicalStatus.LITERAL_USER_FACT; ec_scope := MemoryScope.PERSONA;
     ec_visibility := MemoryVisibility.PRIVATE_ROOT; ec_sensitivity := 1; ec_status := MemoryStatus.ACTIVE;
     ec_origin_session_id := None; ec_valid_from := None; ec_valid_to := None |}.

Lemma filters_only_narrow_witness :
  ed_eligible (evaluate_eligibility sample_principal sample_context sample_candidate_row
                 (MemorySearchQuery 6 no_filters 20) no_filters 0) = true.
Proof.
  refine (proj2 (filters_only_narrow sample_principal sample_context sample_candidate_row
    (MemorySearchQuery 6 no_filters 20) (filters_on_scopes [MemoryScope.PERSONA]) no_filters 0 _ _)).
  - split; try (left; reflexivity); try (intros H; exact H); reflexivity.
  - vm_compute. reflexivity.
Defined.
