(* ===== verification/ContextPack.v ===== *)
(** * ContextPack: deterministic, budgeted assembly of a context pack

    Models [retrieval/context_pack.py], [retrieval/budgeting.py] and the
    response contracts of [retrieval/contracts.py] they build.  A score is the
    binary64 number the ranking produced; pydantic's [model_dump(mode="json")]
    of a response is a parameter, its canonical bytes are those of
    [CanonicalJson]. *)

From stdpp Require Import base tactics option list sets gmap strings.
From Stdlib Require Import ZArith Lia Bool SpecFloat.
From S2P Require Import Prelude Identifiers Enums Values CanonicalJson Digest Events.
Open Scope Z_scope.

(** ** Response contracts *)

Inductive HitStatus : Type := hit_candidate | hit_active | hit_disputed.

#[export] Instance HitStatus_eq_dec : EqDecision HitStatus.
Proof. solve_decision. Defined.

Record UntrustedEvidenceExcerpt : Type := {
  ue_evidence_id : UUID;
  ue_source_type : pystr;
  ue_excerpt : pystr;
  ue_occurred_at : option instant
}.

Inductive RetrievalSource : Type := lexical | trigram | semantic.

#[export] Instance RetrievalSource_eq_dec : EqDecision RetrievalSource.
Proof. solve_decision. Defined.

Record SourceContribution : Type := {
  src_source : RetrievalSource;
  src_rank : Z;
  src_contribution : float
}.

Record ScoreModifiers : Type := {
  mod_scope_match : float;
  mod_authority : float;
  mod_confidence : float;
  mod_salience : float;
  mod_recency : float
}.

(** The score and its explanation; assembly reads [final_score]. *)
Record MemoryScore : Type := {
  score_sources : list SourceContribution;
  score_rrf_score : float;
  score_modifiers : ScoreModifiers;
  score_modifier_contributions : list (pystr * float * float);
  score_final_score : float
}.

Record MemoryHit : Type := {
  hit_memory_id : UUID;
  hit_revision : Z;
  hit_last_event_id : UUID;
  hit_branch_id : UUID;
  hit_subject_id : UUID;
  hit_subject_kind : SubjectKind;
  hit_category : MemoryCategory;
  hit_ontological_status : OntologicalStatus;
  hit_scope : MemoryScope;
  hit_visibility : MemoryVisibility;
  hit_status : HitStatus;
  hit_statement : pystr;
  hit_reason_to_remember : option pystr;
  hit_interpretation_limits : list pystr;
  hit_authority_class : AuthorityClass;
  hit_valid_from : option instant;
  hit_valid_to : option instant;
  hit_observed_at : option instant;
  hit_score : MemoryScore;
  hit_explanation_codes : list pystr;
  hit_evidence : list UntrustedEvidenceExcerpt
}.

Definition set_evidence_of (h : MemoryHit) (items : list UntrustedEvidenceExcerpt) : MemoryHit :=
  {| hit_memory_id := hit_memory_id h; hit_revision := hit_revision h;
     hit_last_event_id := hit_last_event_id h; hit_branch_id := hit_branch_id h;
     hit_subject_id := hit_subject_id h; hit_subject_kind := hit_subject_kind h;
     hit_category := hit_category h; hit_ontological_status := hit_ontological_status h;
     hit_scope := hit_scope h; hit_visibility := hit_visibility h; hit_status := hit_status h;
     hit_statement := hit_statement h; hit_reason_to_remember := hit_reason_to_remember h;
     hit_interpretation_limits := hit_interpretation_limits h;
     hit_authority_class := hit_authority_class h; hit_valid_from := hit_valid_from h;
     hit_valid_to := hit_valid_to h; hit_observed_at := hit_observed_at h; hit_score := hit_score h;
     hit_explanation_codes := hit_explanation_codes h; hit_evidence := items |}.

(** [MemoryHit.without_evidence] *)
Definition without_evidence (h : MemoryHit) : MemoryHit :=
  match hit_evidence h with [] => h | _ => set_evidence_of h [] end.

Record ConflictGroup : Type := {
  cg_conflict_id : UUID;
  cg_subject_id : UUID;
  cg_members : list MemoryHit
}.

(** [ConflictGroup] field constraints and [validate_group]. *)
Definition validate_group (g : ConflictGroup) : result unit :=
  raise_if (negb ((2 <=? length (cg_members g)) && (length (cg_members g) <=? 32))%nat)
    (ValidationError "conflict member count");;
  raise_if (negb (is_uuid7 (cg_conflict_id g) && is_uuid7 (cg_subject_id g)))
    (ValidationError "identifier");;
  raise_if (negb (nodupb (hit_memory_id <$> cg_members g)))
    (ValidationError "conflict members must be unique");;
  raise_if (existsb (fun m => negb (bool_decide (hit_status m = hit_disputed))) (cg_members g))
    (ValidationError "open conflict members must be disputed");;
  raise_if (existsb (fun m => negb (hit_subject_id m =? cg_subject_id g)) (cg_members g))
    (ValidationError "conflict members must share the conflict subject").

Record ExclusionSummary : Type := {
  ex_requested_scope_reduction : bool;
  ex_evidence_omitted : bool;
  ex_budget_truncated : bool
}.

Record ProvenanceRecord : Type := {
  pr_event_id : UUID;
  pr_memory_id : UUID;
  pr_revision : Z
}.

Record ContextPack : Type := {
  cp_context_pack_id : UUID;
  cp_persona : list MemoryHit;
  cp_active_boundaries : list MemoryHit;
  cp_user_preferences : list MemoryHit;
  cp_relationship_patterns : list MemoryHit;
  cp_project_context : list MemoryHit;
  cp_episodic_anchors : list MemoryHit;
  cp_open_questions : list MemoryHit;
  cp_conflicts : list ConflictGroup;
  cp_excluded_scope_summary : ExclusionSummary;
  cp_provenance : list ProvenanceRecord
}.

Definition pack_sections (p : ContextPack) : list (list MemoryHit) :=
  [cp_persona p; cp_active_boundaries p; cp_user_preferences p; cp_relationship_patterns p;
   cp_project_context p; cp_episodic_anchors p; cp_open_questions p].

(** Every memory shown, alone or inside a conflict. *)
Definition pack_memory_ids (p : ContextPack) : list UUID :=
  (hit_memory_id <$> mjoin (pack_sections p)) ++ (hit_memory_id <$> (cp_conflicts p ≫= cg_members)).

(** [ContextPack] field constraints and [validate_ids]. *)
Definition validate_pack (p : ContextPack) : result unit :=
  raise_if (negb (is_uuid7 (cp_context_pack_id p))) (ValidationError "context_pack_id");;
  raise_if (existsb (fun section => 64 <? length section)%nat (pack_sections p))
    (ValidationError "section exceeds 64 items");;
  raise_if (32 <? length (cp_conflicts p))%nat (ValidationError "conflicts exceed 32 items");;
  raise_if (512 <? length (cp_provenance p))%nat (ValidationError "provenance exceeds 512 items");;
  raise_if (negb (nodupb (pack_memory_ids p)))
    (ValidationError "a memory may appear only once in a context pack").

Inductive OmissionReason : Type :=
| budget_truncated | item_budget_reached | evidence_omitted | requested_scope_reduction.
Inductive ReadWarningCode : Type :=
| warn_embeddings_unavailable | warn_embeddings_warming | warn_embeddings_stale
| warn_results_truncated | warn_evidence_omitted.

#[export] Instance OmissionReason_eq_dec : EqDecision OmissionReason.
Proof. solve_decision. Defined.
#[export] Instance ReadWarningCode_eq_dec : EqDecision ReadWarningCode.
Proof. solve_decision. Defined.

Record ChannelState : Type := {
  ch_availability : pystr;
  ch_reason : option pystr
}.

Record RetrievalProfileInfo : Type := {
  rp_sha256 : pystr;
  rp_active_embedding_model_id : option UUID;
  rp_lexical : ChannelState;
  rp_trigram : ChannelState;
  rp_semantic : ChannelState
}.

(** [estimator] and [byte_ceiling] have one admissible value each. *)
Record BudgetMetadata : Type := {
  bm_requested_units : Z;
  bm_used_units : Z;
  bm_serialized_bytes : Z;
  bm_truncated : bool;
  bm_omission_reasons : list OmissionReason
}.

Definition HARD_RESPONSE_BYTE_CEILING : Z := 262144.

(** [BudgetMetadata] field constraints and [validate_budget]. *)
Definition validate_budget (b : BudgetMetadata) : result unit :=
  raise_if (negb ((1 <=? bm_requested_units b) && (bm_requested_units b <=? 1000000)
                  && (1 <=? bm_used_units b) && (bm_used_units b <=? 262144)
                  && (1 <=? bm_serialized_bytes b) && (bm_serialized_bytes b <=? 262144)
                  && (length (bm_omission_reasons b) <=? 4)%nat)) (ValidationError "budget bounds");;
  raise_if (negb (nodupb (bm_omission_reasons b)))
    (ValidationError "budget omission reasons must be unique");;
  raise_if (bm_requested_units b <? bm_used_units b)
    (ValidationError "read result exceeds its requested budget");;
  raise_if (negb (bm_used_units b =? bm_serialized_bytes b))
    (ValidationError "v1 estimator units must equal serialized UTF-8 bytes");;
  raise_if (negb (eqb (existsb (fun r => bool_decide (r ∈ [budget_truncated; item_budget_reached]))
                         (bm_omission_reasons b)) (bm_truncated b)))
    (ValidationError "budget truncation flag and reasons must agree").

Record ContextPackResult : Type := {
  cr_result : ContextPack;
  cr_warnings : list ReadWarningCode;
  cr_retrieval : RetrievalProfileInfo;
  cr_budget : BudgetMetadata
}.

(** [ContextPackResult(...)], its metadata included. *)
Definition make_result (pack : ContextPack) (warnings : list ReadWarningCode)
    (retrieval : RetrievalProfileInfo) (requested used : Z) (truncated : bool)
    (reasons : list OmissionReason) : result ContextPackResult :=
  let budget := {| bm_requested_units := requested; bm_used_units := used; bm_serialized_bytes := used;
                   bm_truncated := truncated; bm_omission_reasons := reasons |} in
  validate_budget budget;;
  raise_if (negb ((length warnings <=? 8)%nat && nodupb warnings))
    (ValidationError "read warnings must be unique");;
  Ok {| cr_result := pack; cr_warnings := warnings; cr_retrieval := retrieval; cr_budget := budget |}.

(** ** Sectioning *)

Inductive ContextSection : Type :=
| persona | active_boundaries | user_preferences | relationship_patterns | project_context
| episodic_anchors | open_questions.

#[export] Instance ContextSection_eq_dec : EqDecision ContextSection.
Proof. solve_decision. Defined.

(** [_SECTION_ORDER] *)
Definition section_order : list ContextSection :=
  [active_boundaries; persona; user_preferences; relationship_patterns; project_context;
   episodic_anchors; open_questions].

Definition section_for_hit (h : MemoryHit) : ContextSection :=
  if bool_decide (hit_category h = MemoryCategory.BOUNDARY_OR_PERMISSION) then active_boundaries
  else if bool_decide (hit_category h = MemoryCategory.USER_PREFERENCE) then user_preferences
  else if bool_decide (hit_category h = MemoryCategory.RELATIONSHIP_PATTERN)
          || bool_decide (hit_scope h = MemoryScope.RELATIONSHIP) then relationship_patterns
  else if bool_decide (hit_category h = MemoryCategory.EPISODIC_ANCHOR)
          || bool_decide (hit_scope h ∈ [MemoryScope.EPISODIC; MemoryScope.SCENE_LOCAL])
  then episodic_anchors
  else if bool_decide (hit_category h = MemoryCategory.OPEN_QUESTION) then open_questions
  else if bool_decide (hit_scope h = MemoryScope.PROJECT)
          || bool_decide (hit_category h ∈ [MemoryCategory.PROJECT_DECISION; MemoryCategory.PROJECT_STATE;
                                            MemoryCategory.PROCEDURE])
  then project_context
  else persona.

(** Order of the pairs [(-score, str(id))]. *)
Definition key_leb (a b : float * UUID) : bool :=
  if SFeqb a.1 b.1 then str_leb (uuid_str a.2) (uuid_str b.2) else SFltb b.1 a.1.

Definition hit_key (h : MemoryHit) : float * UUID := (score_final_score (hit_score h), hit_memory_id h).

Definition max_score (members : list MemoryHit) : float :=
  match score_final_score ∘ hit_score <$> members with
  | [] => S754_zero false
  | s :: rest => fold_left (fun a b => if SFltb a b then b else a) rest s
  end.

Definition conflict_key (g : ConflictGroup) : float * UUID := (max_score (cg_members g), cg_conflict_id g).

(** [_PackItem]: a hit in its section's lane, or a whole conflict. *)
Inductive PackItem : Type :=
| HitItem (lane : ContextSection) (hit : MemoryHit)
| ConflictItem (conflict : ConflictGroup).

(** The rows of the [while] loop from [index] on: one item per lane that is
    long enough; [fuel] bounds the number of rows. *)
Fixpoint round_robin {A} (fuel : nat) (index : nat) (lanes : list (list A)) : list A :=
  match fuel with
  | O => []
  | S fuel' =>
    if existsb (fun lane => index <? length lane)%nat lanes
    then omap (fun lane => lane !! index) lanes ++ round_robin fuel' (S index) lanes
    else []
  end.

Definition round_robin_items (hits : list MemoryHit) (conflicts : list ConflictGroup) : list PackItem :=
  let conflict_member_ids := hit_memory_id <$> (conflicts ≫= cg_members) in
  let conflict_lane :=
    ConflictItem <$> sort_by (fun a b => key_leb (conflict_key a) (conflict_key b)) conflicts in
  let free := List.filter (fun h => bool_decide (hit_memory_id h ∉ conflict_member_ids))
                (sort_by (fun a b => key_leb (hit_key a) (hit_key b)) hits) in
  let lane section :=
    HitItem section <$> List.filter (fun h => bool_decide (section_for_hit h = section)) free in
  let lanes := lane active_boundaries :: conflict_lane :: (lane <$> tail section_order) in
  round_robin (length (mjoin lanes)) 0 lanes.

(** ** Building a pack *)

Definition section_hits (section : ContextSection) (items : list PackItem) : list MemoryHit :=
  omap (fun item => match item with
                    | HitItem lane h => if bool_decide (lane = section) then Some h else None
                    | ConflictItem _ => None
                    end) items.

Definition item_conflicts (items : list PackItem) : list ConflictGroup :=
  omap (fun item => match item with ConflictItem g => Some g | HitItem _ _ => None end) items.

Definition item_members (item : PackItem) : list MemoryHit :=
  match item with HitItem _ h => [h] | ConflictItem g => cg_members g end.

Definition provenance_of (h : MemoryHit) : ProvenanceRecord :=
  {| pr_event_id := hit_last_event_id h; pr_memory_id := hit_memory_id h; pr_revision := hit_revision h |}.

(** The [provenance] dictionary, by event identifier. *)
Definition provenance_map (items : list PackItem) : gmap UUID ProvenanceRecord :=
  fold_left (fun acc h => <[hit_last_event_id h := provenance_of h]> acc) (items ≫= item_members) ∅.

Definition sorted_provenance (items : list PackItem) : list ProvenanceRecord :=
  snd <$> sort_by (fun a b => str_leb (uuid_str a.1) (uuid_str b.1)) (map_to_list (provenance_map items)).

Definition pack_from_items (context_pack_id : UUID) (items : list PackItem)
    (scope_reduction evidence_gone truncated : bool) : result ContextPack :=
  let pack :=
    {| cp_context_pack_id := context_pack_id;
       cp_persona := section_hits persona items;
       cp_active_boundaries := section_hits active_boundaries items;
       cp_user_preferences := section_hits user_preferences items;
       cp_relationship_patterns := section_hits relationship_patterns items;
       cp_project_context := section_hits project_context items;
       cp_episodic_anchors := section_hits episodic_anchors items;
       cp_open_questions := section_hits open_questions items;
       cp_conflicts := item_conflicts items;
       cp_excluded_scope_summary :=
         {| ex_requested_scope_reduction := scope_reduction; ex_evidence_omitted := evidence_gone;
            ex_budget_truncated := truncated |};
       cp_provenance := sorted_provenance items |} in
  validate_pack pack;; Ok pack.

(** ** Budgeting *)

(** pydantic's [model_dump(mode="json")] of a response. *)
Class ModelDump : Type := model_dump_json : ContextPackResult -> JsonValue.

Section Assembly.
Context `{Rfc8785} `{ModelDump}.

Definition estimate_utf8_upper_bound (r : ContextPackResult) : result Z :=
  b ← canonical_plain_bytes (model_dump_json r); Ok (Z.of_nat (length b)).

(** The loop of [_result_with_size]; [rounds] is what is left of its range. *)
Fixpoint size_loop (rounds : nat) (pack : ContextPack) (requested : Z)
    (retrieval : RetrievalProfileInfo) (truncated : bool) (reasons : list OmissionReason)
    (warnings : list ReadWarningCode) (used : Z) : result (option ContextPackResult * Z) :=
  match rounds with
  | O => Err (RuntimeError "context-pack budget size did not converge")
  | S rounds' =>
    r ← make_result pack warnings retrieval requested used truncated reasons;
    measured ← estimate_utf8_upper_bound r;
    if measured =? used then Ok (Some r, measured)
    else if (requested <? measured) || (HARD_RESPONSE_BYTE_CEILING <? measured)
    then Ok (None, measured)
    else size_loop rounds' pack requested retrieval truncated reasons warnings measured
  end.

Definition result_with_size (pack : ContextPack) (requested : Z) (retrieval : RetrievalProfileInfo)
    (truncated : bool) (reasons : list OmissionReason) (warnings : list ReadWarningCode)
    : result (option ContextPackResult * Z) :=
  size_loop 8 pack requested retrieval truncated reasons warnings 1.

(** One iteration of the greedy selection: the items kept so far and whether
    one was left out. *)
Definition select_item (context_pack_id : UUID) (requested : Z) (retrieval : RetrievalProfileInfo)
    (scope_reduction evidence_gone : bool) (acc : list PackItem * bool) (candidate : PackItem)
    : result (list PackItem * bool) :=
  let proposed := acc.1 ++ [candidate] in
  pack ← pack_from_items context_pack_id proposed scope_reduction evidence_gone true;
  '(r, _) ← result_with_size pack requested retrieval true [budget_truncated] [warn_results_truncated];
  match r with
  | None => Ok (acc.1, true)
  | Some _ => Ok (proposed, acc.2)
  end.

Definition strip_group (g : ConflictGroup) : ConflictGroup :=
  {| cg_conflict_id := cg_conflict_id g; cg_subject_id := cg_subject_id g;
     cg_members := without_evidence <$> cg_members g |}.

Definition has_evidence (h : MemoryHit) : bool :=
  match hit_evidence h with [] => false | _ => true end.

Definition assemble_context_pack (context_pack_id : UUID) (hits : list MemoryHit)
    (conflicts : list ConflictGroup) (requested : Z) (retrieval : RetrievalProfileInfo)
    (include_evidence scope_reduction : bool) : result ContextPackResult :=
  raise_if (negb ((1 <=? requested) && (requested <=? 1000000)))
    (ValueError "requested budget is out of bounds");;
  let evidence_gone := negb include_evidence
    && (existsb has_evidence hits || existsb (fun g => existsb has_evidence (cg_members g)) conflicts) in
  let hits' := if include_evidence then hits else without_evidence <$> hits in
  let conflicts' := if include_evidence then conflicts else strip_group <$> conflicts in
  '(selected, omitted) ←
    foldM (select_item context_pack_id requested retrieval scope_reduction evidence_gone)
      ([], false) (round_robin_items hits' conflicts');
  let reasons := (if (omitted : bool) then [budget_truncated] else [])
                 ++ (if evidence_gone then [evidence_omitted] else [])
                 ++ (if scope_reduction then [requested_scope_reduction] else []) in
  let warnings := (if (omitted : bool) then [warn_results_truncated] else [])
                  ++ (if evidence_gone then [warn_evidence_omitted] else []) in
  pack ← pack_from_items context_pack_id selected scope_reduction evidence_gone omitted;
  '(final, _) ← result_with_size pack requested retrieval omitted reasons warnings;
  from_option_or final BudgetTooSmallError.
End Assembly.
