(* ===== verification/ContextPackTheorems.v ===== *)
(** * ContextPackTheorems: what an assembled context pack guarantees

    The interleaving is a permutation of its inputs, conflicts stay whole, the
    reported budget is the exact size of the response, and the size iteration
    converges. *)

From stdpp Require Import base tactics option list sets gmap strings.
From Stdlib Require Import ZArith Lia Bool SpecFloat.
From S2P Require Import Prelude Identifiers Enums Values CanonicalJson Digest Text Events ContextPack Samples PolicyTheorems.
Open Scope Z_scope.

Lemma or_iff (P P' Q Q' : Prop) : (P <-> P') -> (Q <-> Q') -> (P \/ Q <-> P' \/ Q').
Proof. tauto. Qed.

(** ** The interleaving *)

Lemma row_perm {A} (i : nat) (lanes : list (list A)) :
  omap (fun lane => lane !! i) lanes ++ mjoin (drop (S i) <$> lanes) ≡ₚ mjoin (drop i <$> lanes).
Proof.
  induction lanes as [|lane lanes IH]; [done|]. cbn [fmap list_fmap mjoin list_join omap list_omap].
  rewrite <- IH. destruct (lane !! i) as [x|] eqn:Hx.
  - rewrite (drop_S lane x i Hx). simpl. constructor. rewrite !(assoc_L (++)).
    apply Permutation_app_tail. apply Permutation_app_comm.
  - apply lookup_ge_None in Hx. rewrite !drop_ge by lia. done.
Qed.

(** Enough fuel empties every lane. *)
Lemma round_robin_perm {A} (fuel i : nat) (lanes : list (list A)) :
  (forall lane, lane ∈ lanes -> length lane <= i + fuel)%nat ->
  round_robin fuel i lanes ≡ₚ mjoin (drop i <$> lanes).
Proof.
  assert (Hnil : forall i (ls : list (list A)), (forall lane, lane ∈ ls -> length lane <= i)%nat ->
            mjoin (drop i <$> ls) = []).
  { clear. intros i ls Hall. induction ls as [|l ls IH]; [done|]. cbn [fmap list_fmap mjoin list_join].
    rewrite drop_ge by (apply Hall; left). apply IH. intros lane Hin. apply Hall. by right. }
  revert i. induction fuel as [|fuel IH]; intros i Hall; simpl.
  - rewrite Hnil; [done|]. intros lane Hin. specialize (Hall lane Hin). lia.
  - destruct (existsb _ lanes) eqn:Hex.
    + rewrite IH; [apply row_perm|]. intros lane Hin. specialize (Hall lane Hin). lia.
    + rewrite Hnil; [done|]. intros lane Hin. rewrite existsb_false in Hex. apply Nat.ltb_ge, (Hex lane Hin).
Qed.

Lemma length_mjoin {A} (lanes : list (list A)) lane : lane ∈ lanes -> (length lane <= length (mjoin lanes))%nat.
Proof.
  induction lanes as [|l ls IH]; intros Hin; [by apply elem_of_nil in Hin|].
  change (mjoin (l :: ls)) with (l ++ mjoin ls). rewrite length_app. apply elem_of_cons in Hin as [->|Hin]; [lia|].
  specialize (IH Hin). lia.
Qed.

Lemma filter_split {A} (f : A -> bool) (l : list A) :
  List.filter f l ++ List.filter (fun x => negb (f x)) l ≡ₚ l.
Proof.
  induction l as [|x l IH]; simpl; [done|]. destruct (f x); simpl; [by rewrite IH|].
  rewrite <- Permutation_middle. by rewrite IH.
Qed.

(** Splitting by section and joining again. *)
Lemma lanes_perm (ss : list ContextSection) (l : list MemoryHit) :
  NoDup ss -> (forall h, h ∈ l -> section_for_hit h ∈ ss) ->
  mjoin ((fun s => HitItem s <$> List.filter (fun h => bool_decide (section_for_hit h = s)) l) <$> ss)
  ≡ₚ (fun h => HitItem (section_for_hit h) h) <$> l.
Proof.
  revert l. induction ss as [|s ss IH]; intros l Hnd Hall.
  - destruct l as [|h l]; [done|]. exfalso. specialize (Hall h ltac:(left)). by apply elem_of_nil in Hall.
  - apply NoDup_cons in Hnd as [Hni Hnd]. cbn [fmap list_fmap mjoin list_join].
    set (is_s := fun h => bool_decide (section_for_hit h = s)).
    assert (Hlanes : (fun s' => HitItem s' <$> List.filter (fun h => bool_decide (section_for_hit h = s')) l) <$> ss
      = (fun s' => HitItem s' <$> List.filter (fun h => bool_decide (section_for_hit h = s'))
                                     (List.filter (fun x => negb (is_s x)) l)) <$> ss).
    { apply list_fmap_ext. intros i s' Hs'. f_equal. apply list_elem_of_lookup_2 in Hs'. clear -Hs' Hni.
      induction l as [|h l IH]; [done|]. unfold is_s in *. simpl.
      repeat case_bool_decide; simpl; rewrite ?bool_decide_true, ?bool_decide_false by congruence; congruence. }
    rewrite Hlanes, IH; [|done|].
    + assert (Hs : HitItem s <$> List.filter is_s l = (fun h => HitItem (section_for_hit h) h) <$> List.filter is_s l).
      { apply list_fmap_ext. intros i h Hh. apply list_elem_of_lookup_2, elem_of_list_filter_bool in Hh as [Hh _].
        unfold is_s in Hh. apply bool_decide_eq_true in Hh. by rewrite Hh. }
      rewrite Hs, <- fmap_app. apply fmap_Permutation, filter_split.
    + intros h Hh. apply elem_of_list_filter_bool in Hh as [Hn Hh]. unfold is_s in Hn.
      apply negb_true_iff, bool_decide_eq_false in Hn. specialize (Hall h Hh).
      apply elem_of_cons in Hall as [?|?]; done.
Qed.

(** The hits no input conflict claims. *)
Definition free_hits (hits : list MemoryHit) (conflicts : list ConflictGroup) : list MemoryHit :=
  List.filter (fun h => bool_decide (hit_memory_id h ∉ hit_memory_id <$> (conflicts ≫= cg_members))) hits.

Lemma filter_perm {A} (f : A -> bool) (l l' : list A) : l ≡ₚ l' -> List.filter f l ≡ₚ List.filter f l'.
Proof.
  induction 1 as [|x l1 l2 _ IH|x y l1|l1 l2 l3 _ IH1 _ IH2]; simpl; [done| | |by etransitivity].
  - destruct (f x); [by constructor|done].
  - destruct (f x), (f y); try done. apply perm_swap.
Qed.

Lemma round_robin_items_perm hits conflicts :
  round_robin_items hits conflicts ≡ₚ
  (ConflictItem <$> conflicts) ++ ((fun h => HitItem (section_for_hit h) h) <$> free_hits hits conflicts).
Proof.
  unfold round_robin_items. cbv zeta.
  set (free := List.filter _ (sort_by _ hits)).
  set (conflict_lane := ConflictItem <$> sort_by _ conflicts).
  set (lane := fun section => HitItem section <$> List.filter (fun h => bool_decide (section_for_hit h = section)) free).
  rewrite round_robin_perm by (intros l Hl; rewrite Nat.add_0_l; by apply length_mjoin).
  assert (Hdrop : forall ls : list (list PackItem), drop 0 <$> ls = ls).
  { intros ls. rewrite <- (list_fmap_id ls) at 2. apply list_fmap_ext. intros ? ? _. by rewrite drop_0. }
  rewrite Hdrop.
  etransitivity;
    [exact (Permutation_app_swap_app (lane active_boundaries) conflict_lane (mjoin (lane <$> tail section_order)))|].
  apply Permutation_app; [apply fmap_Permutation, sort_by_perm|].
  change (lane active_boundaries ++ mjoin (lane <$> tail section_order)) with (mjoin (lane <$> section_order)).
  unfold lane. rewrite lanes_perm.
  - apply fmap_Permutation. unfold free, free_hits. apply filter_perm, sort_by_perm.
  - apply nodupb_NoDup. reflexivity.
  - intros h _. destruct (section_for_hit h); unfold section_order; set_solver.
Qed.

(** ** Assembly *)

Section Assembly.
Context `{R : Rfc8785} `{D : ModelDump}.

Lemma make_result_Ok pack warnings retrieval requested used truncated reasons r :
  make_result pack warnings retrieval requested used truncated reasons = Ok r ->
  cr_result r = pack /\ bm_used_units (cr_budget r) = used /\ bm_truncated (cr_budget r) = truncated /\
  bm_requested_units (cr_budget r) = requested /\ used <= requested /\ used <= HARD_RESPONSE_BYTE_CEILING.
Proof.
  unfold make_result. intros Hm. apply bind_Ok in Hm as ([] & Hb & Hm). apply bind_Ok in Hm as ([] & _ & Hm).
  injection Hm as <-. unfold validate_budget in Hb. simpl in Hb |- *.
  apply bind_Ok in Hb as ([] & Hbounds & Hb). apply bind_Ok in Hb as ([] & _ & Hb).
  apply bind_Ok in Hb as ([] & Hle & _). apply raise_if_Ok, Z.ltb_ge in Hle.
  apply raise_if_Ok, negb_false_iff in Hbounds. rewrite !andb_true_iff, !Z.leb_le in Hbounds.
  unfold HARD_RESPONSE_BYTE_CEILING. split_and!; try done; lia.
Qed.

Lemma size_loop_Some rounds pack requested retrieval truncated reasons warnings used r n :
  size_loop rounds pack requested retrieval truncated reasons warnings used = Ok (Some r, n) ->
  cr_result r = pack /\ estimate_utf8_upper_bound r = Ok n /\ bm_used_units (cr_budget r) = n /\
  bm_truncated (cr_budget r) = truncated /\ n <= requested /\ n <= HARD_RESPONSE_BYTE_CEILING.
Proof.
  revert used. induction rounds as [|rounds IH]; intros used Hl; simpl in Hl; [done|].
  apply bind_Ok in Hl as (r' & Hr & Hl). apply bind_Ok in Hl as (m & Hm & Hl).
  apply make_result_Ok in Hr as (Hp & Hu & Ht & _ & Hle & Hc).
  destruct (Z.eqb_spec m used) as [->|Hne].
  - injection Hl as <- <-. by split_and!.
  - destruct (_ || _); [done|]. by apply IH in Hl.
Qed.

Section Greedy.
Context (id : UUID) (requested : Z) (retrieval : RetrievalProfileInfo) (scope_reduction evidence_gone : bool).

(** What the greedy loop kept of a prefix of the candidates. *)
Lemma greedy_selection candidates selected (omitted : bool) :
  foldM (select_item id requested retrieval scope_reduction evidence_gone) ([], false) candidates
    = Ok (selected, omitted) ->
  sublist selected candidates /\ (omitted = false -> selected = candidates).
Proof.
  revert selected omitted. induction candidates as [|c cs IH] using rev_ind; intros selected omitted Hf.
  - injection Hf as <- <-. auto.
  - rewrite foldM_app in Hf. apply bind_Ok in Hf as ([sel om] & Hf & Hs). cbn [foldM] in Hs.
    apply bind_Ok in Hs as (acc & Hs & [= ->]). destruct (IH _ _ Hf) as [Hsub Hall].
    unfold select_item in Hs. apply bind_Ok in Hs as (pack & _ & Hs).
    apply bind_Ok in Hs as ([r n] & _ & Hs). cbn [fst snd] in Hs.
    destruct r; injection Hs as <- <-.
    + split; [by apply sublist_app|]. intros Ho. by rewrite Hall.
    + split; [by apply sublist_inserts_r|done].
Qed.
End Greedy.

Definition input_hits (include_evidence : bool) (hits : list MemoryHit) : list MemoryHit :=
  if include_evidence then hits else without_evidence <$> hits.
Definition input_conflicts (include_evidence : bool) (conflicts : list ConflictGroup) : list ConflictGroup :=
  if include_evidence then conflicts else strip_group <$> conflicts.

Lemma assemble_Ok id hits conflicts requested retrieval ie sr r :
  assemble_context_pack id hits conflicts requested retrieval ie sr = Ok r ->
  exists items gone,
    sublist items (round_robin_items (input_hits ie hits) (input_conflicts ie conflicts)) /\
    (bm_truncated (cr_budget r) = false ->
       items = round_robin_items (input_hits ie hits) (input_conflicts ie conflicts)) /\
    pack_from_items id items sr gone (bm_truncated (cr_budget r)) = Ok (cr_result r) /\
    estimate_utf8_upper_bound r = Ok (bm_used_units (cr_budget r)) /\
    bm_used_units (cr_budget r) <= requested /\ bm_used_units (cr_budget r) <= HARD_RESPONSE_BYTE_CEILING.
Proof.
  unfold assemble_context_pack. intros Ha. apply bind_Ok in Ha as ([] & _ & Ha). cbv zeta in Ha.
  apply bind_Ok in Ha as ([selected omitted] & Hsel & Ha). apply bind_Ok in Ha as (pack & Hpack & Ha).
  apply bind_Ok in Ha as ([final n] & Hsize & Ha). apply from_option_or_Ok in Ha as ->.
  apply size_loop_Some in Hsize as (Hp & He & Hu & Ht & Hn & Hc).
  apply greedy_selection in Hsel as [Hsub Hall].
  eexists selected, _. rewrite Hu, Ht, Hp. split; [exact Hsub|]. split; [exact Hall|].
  split; [exact Hpack|]. auto.
Qed.

(** The hits of one section of a pack. *)
Definition pack_section (p : ContextPack) (s : ContextSection) : list MemoryHit :=
  match s with
  | persona => cp_persona p
  | active_boundaries => cp_active_boundaries p
  | user_preferences => cp_user_preferences p
  | relationship_patterns => cp_relationship_patterns p
  | project_context => cp_project_context p
  | episodic_anchors => cp_episodic_anchors p
  | open_questions => cp_open_questions p
  end.

Lemma pack_from_items_Ok id items sr gone tr p :
  pack_from_items id items sr gone tr = Ok p ->
  NoDup (pack_memory_ids p) /\ cp_conflicts p = item_conflicts items /\
  forall s, pack_section p s = section_hits s items.
Proof.
  unfold pack_from_items. intros Hp. apply bind_Ok in Hp as ([] & Hv & [= <-]).
  unfold validate_pack in Hv. do 4 (apply bind_Ok in Hv as ([] & _ & Hv)).
  apply raise_if_Ok, negb_false_iff in Hv. split; [by apply nodupb_NoDup|]. split; [done|]. by intros [].
Qed.

Lemma elem_of_section_hits s h items : h ∈ section_hits s items <-> HitItem s h ∈ items.
Proof.
  unfold section_hits. rewrite list_elem_of_omap. split.
  - intros ([lane h'|g] & Hin & Heq); [|done]. case_bool_decide; naive_solver.
  - intros Hin. exists (HitItem s h). by rewrite bool_decide_true.
Qed.

Lemma elem_of_item_conflicts g items : g ∈ item_conflicts items <-> ConflictItem g ∈ items.
Proof.
  unfold item_conflicts. rewrite list_elem_of_omap. split.
  - intros ([lane h'|g'] & Hin & Heq); naive_solver.
  - intros Hin. by exists (ConflictItem g).
Qed.

Lemma elem_of_free_hits h hits conflicts :
  h ∈ free_hits hits conflicts <->
  h ∈ hits /\ forall g m, g ∈ conflicts -> m ∈ cg_members g -> hit_memory_id m <> hit_memory_id h.
Proof.
  unfold free_hits. rewrite elem_of_list_filter_bool, bool_decide_eq_true, list_elem_of_fmap. split.
  - intros [Hn Hh]. split; [done|]. intros g m Hg Hm Heq. apply Hn. exists m. split; [done|].
    apply list_elem_of_bind. eauto.
  - intros [Hh Hall]. split; [|done]. intros (m & Heq & Hm). apply list_elem_of_bind in Hm as (g & Hm & Hg).
    by apply (Hall g m).
Qed.

Lemma elem_of_round_robin hits conflicts item :
  item ∈ round_robin_items hits conflicts <->
  (exists g, item = ConflictItem g /\ g ∈ conflicts) \/
  (exists h, item = HitItem (section_for_hit h) h /\ h ∈ free_hits hits conflicts).
Proof. by rewrite round_robin_items_perm, elem_of_app, !list_elem_of_fmap. Qed.

Lemma elem_of_pack_memory_ids p x :
  x ∈ pack_memory_ids p <->
  (exists s h, h ∈ pack_section p s /\ hit_memory_id h = x) \/
  (exists g m, g ∈ cp_conflicts p /\ m ∈ cg_members g /\ hit_memory_id m = x).
Proof.
  unfold pack_memory_ids. rewrite elem_of_app, !list_elem_of_fmap. apply or_iff.
  - split.
    + intros (h & -> & Hh). apply list_elem_of_join in Hh as (l & Hh & Hl). unfold pack_sections in Hl.
      rewrite !elem_of_cons, elem_of_nil in Hl.
      destruct Hl as [->|[->|[->|[->|[->|[->|[->|[]]]]]]]];
        [exists persona|exists active_boundaries|exists user_preferences|exists relationship_patterns
        |exists project_context|exists episodic_anchors|exists open_questions]; eauto.
    + intros (s & h & Hh & <-). exists h. split; [done|]. apply list_elem_of_join. exists (pack_section p s).
      split; [done|]. unfold pack_sections. destruct s; rewrite !elem_of_cons; naive_solver.
  - split.
    + intros (m & -> & Hm). apply list_elem_of_bind in Hm as (g & Hm & Hg). eauto.
    + intros (g & m & Hg & Hm & <-). exists m. split; [done|]. apply list_elem_of_bind. eauto.
Qed.

Lemma without_evidence_id h : hit_memory_id (without_evidence h) = hit_memory_id h.
Proof. unfold without_evidence. by destruct (hit_evidence h). Qed.

Lemma input_hit_ids ie hits x :
  (exists h, h ∈ input_hits ie hits /\ hit_memory_id h = x) <-> exists h, h ∈ hits /\ hit_memory_id h = x.
Proof.
  unfold input_hits. destruct ie; [done|]. split.
  - intros (h & Hh & <-). apply list_elem_of_fmap in Hh as (h' & -> & Hh). rewrite without_evidence_id. eauto.
  - intros (h & Hh & <-). exists (without_evidence h). rewrite without_evidence_id.
    split; [|done]. by apply list_elem_of_fmap_2.
Qed.

Lemma input_conflict_ids ie conflicts x :
  (exists g m, g ∈ input_conflicts ie conflicts /\ m ∈ cg_members g /\ hit_memory_id m = x) <->
  exists g m, g ∈ conflicts /\ m ∈ cg_members g /\ hit_memory_id m = x.
Proof.
  unfold input_conflicts. destruct ie; [done|]. split.
  - intros (g & m & Hg & Hm & <-). apply list_elem_of_fmap in Hg as (g' & -> & Hg). simpl in Hm.
    apply list_elem_of_fmap in Hm as (m' & -> & Hm). rewrite without_evidence_id. eauto.
  - intros (g & m & Hg & Hm & <-). exists (strip_group g), (without_evidence m).
    rewrite without_evidence_id. split; [by apply list_elem_of_fmap_2|]. split; [|done].
    simpl. by apply list_elem_of_fmap_2.
Qed.

(** ** Convergence of the size iteration *)

(** Decimal digits of a positive number below ten million. *)
Definition digits (n : Z) : Z :=
  if n <? 10 then 1 else if n <? 100 then 2 else if n <? 1000 then 3 else if n <? 10000 then 4
  else if n <? 100000 then 5 else if n <? 1000000 then 6 else 7.

Lemma digits_bounds n : 1 <= digits n <= 7.
Proof. unfold digits. repeat case_match; lia. Qed.

Lemma digits_mono a b : a <= b -> digits a <= digits b.
Proof.
  intros Hle. unfold digits.
  destruct (Z.ltb_spec a 10), (Z.ltb_spec b 10); try lia; repeat case_match;
    repeat match goal with H : (_ <? _) = _ |- _ => apply Z.ltb_lt in H || apply Z.ltb_ge in H end; lia.
Qed.

(** Crossing a power of ten twice needs more than a few bytes. *)
Lemma digits_step a b c : 1 <= a -> a <= b <= a + 12 -> b <= c <= b + 12 -> digits a < digits b -> digits c = digits b.
Proof.
  intros H1 Hab Hbc Hlt. unfold digits in *.
  repeat (case_match; repeat match goal with H : (_ <? _) = _ |- _ => apply Z.ltb_lt in H || apply Z.ltb_ge in H end;
          try lia).
Qed.

Section Convergence.
Context (pack : ContextPack) (requested : Z) (retrieval : RetrievalProfileInfo) (truncated : bool)
        (reasons : list OmissionReason) (warnings : list ReadWarningCode) (base : Z).

(** The measured size is a fixed part plus the digits of the two counters that
    carry the size itself. *)
Definition sized : Prop :=
  forall used r, make_result pack warnings retrieval requested used truncated reasons = Ok r ->
  estimate_utf8_upper_bound r = Ok (base + 2 * digits used).

(** The metadata is valid whatever the size is. *)
Definition metadata_ok : Prop :=
  1 <= requested <= 1000000 /\ (length reasons <= 4)%nat /\ NoDup reasons /\
  existsb (fun r => bool_decide (r ∈ [budget_truncated; item_budget_reached])) reasons = truncated /\
  (length warnings <= 8)%nat /\ NoDup warnings.

Lemma make_result_total used :
  metadata_ok -> 1 <= used -> used <= requested -> used <= HARD_RESPONSE_BYTE_CEILING ->
  exists r, make_result pack warnings retrieval requested used truncated reasons = Ok r.
Proof.
  intros (Hreq & Hlen & Hnd & Hflag & Hwl & Hwn) H1 Hu Hc. unfold HARD_RESPONSE_BYTE_CEILING in Hc.
  unfold make_result, validate_budget. simpl. rewrite Hflag, eqb_reflx, !NoDup_nodupb, Z.eqb_refl by done.
  rewrite !(proj2 (Z.leb_le _ _)) by lia. rewrite (proj2 (Nat.leb_le _ _) Hlen), (proj2 (Nat.leb_le _ _) Hwl).
  rewrite (proj2 (Z.ltb_ge _ _)) by lia. simpl. eauto.
Qed.

(** One round, when the counter so far is admissible. *)
Lemma size_round rounds used :
  sized -> metadata_ok -> 1 <= used -> used <= requested -> used <= HARD_RESPONSE_BYTE_CEILING ->
  let next := base + 2 * digits used in
  exists r, make_result pack warnings retrieval requested used truncated reasons = Ok r /\
  size_loop (S rounds) pack requested retrieval truncated reasons warnings used =
    if next =? used then Ok (Some r, next)
    else if (requested <? next) || (HARD_RESPONSE_BYTE_CEILING <? next) then Ok (None, next)
    else size_loop rounds pack requested retrieval truncated reasons warnings next.
Proof.
  intros Hs Hm H1 Hu Hc next. destruct (make_result_total used Hm H1 Hu Hc) as [r Hr].
  exists r. split; [done|]. cbn [size_loop]. rewrite Hr. cbn [mbind result_bind]. by rewrite (Hs _ _ Hr).
Qed.

(** A size that accounts for its own digits. *)
Definition fixed_size (n : Z) : Prop := n = base + 2 * digits n.

(** What the iteration returns: the response at its fixed size, or a refusal
    when no admissible fixed size exists. *)
Definition converged (out : result (option ContextPackResult * Z)) : Prop :=
  exists o n, out = Ok (o, n) /\
  match o with
  | Some r => fixed_size n /\ make_result pack warnings retrieval requested n truncated reasons = Ok r
  | None => forall m, fixed_size m -> requested < m \/ HARD_RESPONSE_BYTE_CEILING < m
  end.

(** One round keeps below every fixed size, so it stops correctly or goes on. *)
Lemma converged_round rounds used :
  sized -> metadata_ok -> 1 <= base -> 1 <= used -> used <= requested -> used <= HARD_RESPONSE_BYTE_CEILING ->
  (forall m, fixed_size m -> used <= m) ->
  (used <> base + 2 * digits used -> base + 2 * digits used <= requested ->
     base + 2 * digits used <= HARD_RESPONSE_BYTE_CEILING ->
     (forall m, fixed_size m -> base + 2 * digits used <= m) ->
     converged (size_loop rounds pack requested retrieval truncated reasons warnings (base + 2 * digits used))) ->
  converged (size_loop (S rounds) pack requested retrieval truncated reasons warnings used).
Proof.
  intros Hs Hm Hb H1 Hu Hc Hbelow Hnext.
  destruct (size_round rounds used Hs Hm H1 Hu Hc) as (r & Hr & ->).
  assert (Hbelow' : forall m, fixed_size m -> base + 2 * digits used <= m).
  { intros m Hfix. pose proof (digits_mono _ _ (Hbelow m Hfix)). unfold fixed_size in Hfix. lia. }
  destruct (Z.eqb_spec (base + 2 * digits used) used) as [Heq|Hne].
  - exists (Some r), (base + 2 * digits used). split; [done|]. unfold fixed_size. rewrite Heq. split; [lia|done].
  - destruct (Z.ltb_spec requested (base + 2 * digits used));
      [|destruct (Z.ltb_spec HARD_RESPONSE_BYTE_CEILING (base + 2 * digits used))]; cbn [orb].
    + exists None, (base + 2 * digits used). split; [done|]. intros m Hfix. specialize (Hbelow' m Hfix). lia.
    + exists None, (base + 2 * digits used). split; [done|]. intros m Hfix. specialize (Hbelow' m Hfix). lia.
    + apply Hnext; auto.
Qed.

Lemma size_loop_converges :
  sized -> metadata_ok -> 1 <= base ->
  converged (size_loop 8 pack requested retrieval truncated reasons warnings 1).
Proof.
  intros Hs Hm Hb. pose proof Hm as (Hreq & _).
  assert (H1 : digits 1 = 1) by reflexivity.
  assert (Hlow : forall m, fixed_size m -> 1 <= m).
  { intros m Hf. pose proof (digits_bounds m). unfold fixed_size in Hf. lia. }
  apply converged_round; try done; [lia|]. rewrite H1. intros _.
  set (u1 := base + 2 * 1). assert (E1 : u1 = base + 2 * 1) by reflexivity. intros Hr1 Hc1 Hb1. pose proof (digits_bounds u1) as Hd1.
  apply converged_round; try done; [lia|]. intros _.
  set (u2 := base + 2 * digits u1). assert (E2 : u2 = base + 2 * digits u1) by reflexivity. intros Hr2 Hc2 Hb2.
  pose proof (digits_bounds u2) as Hd2. assert (H12 : u1 <= u2) by lia. pose proof (digits_mono u1 u2 H12) as Hmono.
  apply converged_round; try done; [lia|]. intros _.
  set (u3 := base + 2 * digits u2). assert (E3 : u3 = base + 2 * digits u2) by reflexivity. intros Hr3 Hc3 Hb3.
  apply converged_round; try done; [lia|]. intros Hne. exfalso. apply Hne.
  assert (digits u3 = digits u2) as ->; [|done].
  destruct (Z.eq_dec (digits u1) (digits u2)) as [Heq|Hd]; [congruence|].
  apply (digits_step u1); lia.
Qed.
End Convergence.

(** ** Properties *)

(** C35: the budget is exact: a returned pack reports as used units precisely
    the number of canonical UTF-8 bytes of the whole response, within the
    requested budget and the hard ceiling. *)
Theorem context_pack_budget_exact (id : UUID) (hits : list MemoryHit) (conflicts : list ConflictGroup)
    (requested : Z) (retrieval : RetrievalProfileInfo) (include_evidence scope_reduction : bool)
    (r : ContextPackResult) :
  assemble_context_pack id hits conflicts requested retrieval include_evidence scope_reduction = Ok r ->
  estimate_utf8_upper_bound r = Ok (bm_used_units (cr_budget r)) /\
  bm_used_units (cr_budget r) <= requested /\ bm_used_units (cr_budget r) <= HARD_RESPONSE_BYTE_CEILING.
Proof. intros Ha. by apply assemble_Ok in Ha as (items & gone & _ & _ & _ & Hrest). Qed.

(** C36: the self-referential size converges: when the serialized size is a
    fixed part plus the digits of the two counters that record it, the eight
    rounds of the iteration always suffice (the convergence error is never
    raised), a response is returned exactly at its own size, and it is refused
    only if no size that accounts for its own digits fits the budget. *)
Theorem result_with_size_converges (pack : ContextPack) (requested : Z) (retrieval : RetrievalProfileInfo)
    (truncated : bool) (reasons : list OmissionReason) (warnings : list ReadWarningCode) (base : Z) :
  sized pack requested retrieval truncated reasons warnings base ->
  metadata_ok requested truncated reasons warnings -> 1 <= base ->
  converged pack requested retrieval truncated reasons warnings base
    (result_with_size pack requested retrieval truncated reasons warnings).
Proof. apply size_loop_converges. Qed.

(** Conflicts are atomic: a pack shows a conflict only as one of the given
    groups with all its members, shows no member of any given conflict on its
    own even when the group did not fit, places every other memory in the one
    section of its category and scope, and shows no memory twice. *)
Theorem context_pack_conflicts_atomic (id : UUID) (hits : list MemoryHit) (conflicts : list ConflictGroup)
    (requested : Z) (retrieval : RetrievalProfileInfo) (include_evidence scope_reduction : bool)
    (r : ContextPackResult) :
  assemble_context_pack id hits conflicts requested retrieval include_evidence scope_reduction = Ok r ->
  NoDup (pack_memory_ids (cr_result r)) /\
  (forall g, g ∈ cp_conflicts (cr_result r) -> g ∈ input_conflicts include_evidence conflicts) /\
  (forall s h, h ∈ pack_section (cr_result r) s ->
     h ∈ input_hits include_evidence hits /\ section_for_hit h = s /\
     forall g m, g ∈ conflicts -> m ∈ cg_members g -> hit_memory_id m <> hit_memory_id h).
Proof.
  intros Ha. apply assemble_Ok in Ha as (items & gone & Hsub & _ & Hp & _).
  apply pack_from_items_Ok in Hp as (Hnd & Hc & Hs). split; [done|]. split.
  - intros g Hg. rewrite Hc, elem_of_item_conflicts in Hg. eapply elem_of_sublist in Hg; [|exact Hsub].
    apply elem_of_round_robin in Hg as [(g' & [= <-] & Hg)|(h & ? & _)]; done.
  - intros s h Hh. rewrite Hs, elem_of_section_hits in Hh. eapply elem_of_sublist in Hh; [|exact Hsub].
    apply elem_of_round_robin in Hh as [(g & ? & _)|(h' & [= -> <-] & Hh)]; [done|].
    apply elem_of_free_hits in Hh as [Hin Hfree]. split; [done|]. split; [done|].
    intros g m Hg Hm Heq. destruct (input_conflict_ids include_evidence conflicts (hit_memory_id m)) as [_ Hto].
    destruct Hto as (g' & m' & Hg' & Hm' & Heq'); [by exists g, m|]. apply (Hfree g' m' Hg' Hm'). congruence.
Qed.

(** Nothing is dropped silently: when the pack is not marked truncated, it
    shows exactly the given memories, those of the conflicts included. *)
Theorem context_pack_complete_unless_truncated (id : UUID) (hits : list MemoryHit)
    (conflicts : list ConflictGroup) (requested : Z) (retrieval : RetrievalProfileInfo)
    (include_evidence scope_reduction : bool) (r : ContextPackResult) (x : UUID) :
  assemble_context_pack id hits conflicts requested retrieval include_evidence scope_reduction = Ok r ->
  bm_truncated (cr_budget r) = false ->
  x ∈ pack_memory_ids (cr_result r) <->
  (exists h, h ∈ hits /\ hit_memory_id h = x) \/
  (exists g m, g ∈ conflicts /\ m ∈ cg_members g /\ hit_memory_id m = x).
Proof.
  intros Ha Ht. apply assemble_Ok in Ha as (items & gone & _ & Hall & Hp & _). specialize (Hall Ht) as ->.
  apply pack_from_items_Ok in Hp as (_ & Hc & Hs). rewrite elem_of_pack_memory_ids, Hc.
  rewrite <- (input_hit_ids include_evidence), <- (input_conflict_ids include_evidence conflicts).
  set (hs := input_hits include_evidence hits). set (cs := input_conflicts include_evidence conflicts).
  assert (Hcs : forall g, g ∈ item_conflicts (round_robin_items hs cs) <-> g ∈ cs).
  { intros g. rewrite elem_of_item_conflicts, elem_of_round_robin. naive_solver. }
  assert (Hhs : forall s h, h ∈ pack_section (cr_result r) s <-> s = section_for_hit h /\ h ∈ free_hits hs cs).
  { intros s h. rewrite Hs, elem_of_section_hits, elem_of_round_robin. naive_solver. }
  split.
  - intros [(s & h & Hh & <-)|(g & m & Hg & Hm & <-)].
    + apply Hhs in Hh as [_ Hh]. apply elem_of_free_hits in Hh as [Hh _]. left. eauto.
    + right. exists g, m. by rewrite <- Hcs.
  - intros [(h & Hh & <-)|(g & m & Hg & Hm & <-)]; [|right; exists g, m; by rewrite Hcs].
    destruct (decide (hit_memory_id h ∈ hit_memory_id <$> (cs ≫= cg_members))) as [Hin|Hni].
    + right. apply list_elem_of_fmap in Hin as (m & Heq & Hm). apply list_elem_of_bind in Hm as (g & Hm & Hg).
      exists g, m. rewrite Hcs. auto.
    + left. exists (section_for_hit h), h. split; [|done]. apply Hhs. split; [done|].
      apply elem_of_list_filter_bool. by rewrite bool_decide_true.
Qed.
End Assembly.

(** ** Witnesses *)

Lemma decimal_digits_length k fuel n :
  (k < fuel)%nat -> 10 ^ Z.of_nat k <= n < 10 ^ (Z.of_nat k + 1) \/ (k = 0%nat /\ 0 <= n < 10) ->
  length (decimal_digits fuel n) = S k.
Proof.
  revert fuel n. induction k as [|k IH]; intros fuel n Hf Hn; destruct fuel as [|fuel]; try lia; simpl.
  - destruct (Z.ltb_spec n 10); [done|]. change (10 ^ (Z.of_nat 0 + 1)) with 10 in Hn. lia.
  - destruct Hn as [Hn|[? _]]; [|done]. rewrite Nat2Z.inj_succ, <- Z.add_1_r, (Z.pow_add_r 10 _ 1) in Hn by lia.
    rewrite (Z.pow_add_r 10 (_ + 1) 1) in Hn by lia. change (10 ^ 1) with 10 in Hn.
    pose proof (Z.pow_pos_nonneg 10 (Z.of_nat k) ltac:(lia) ltac:(lia)).
    destruct (Z.ltb_spec n 10); [lia|]. rewrite length_app. simpl. rewrite (IH fuel); [lia|lia|].
    left. split; [apply Z.div_le_lower_bound; lia|apply Z.div_lt_upper_bound; lia].
Qed.

Lemma show_int_length n : 1 <= n < 1000000 -> Z.of_nat (length (show_int n)) = digits n.
Proof.
  intros Hn. unfold show_int, digits. rewrite (proj2 (Z.ltb_ge n 0)) by lia.
  destruct (Z.ltb_spec n 10); [rewrite (decimal_digits_length 0); lia|].
  destruct (Z.ltb_spec n 100); [rewrite (decimal_digits_length 1); simpl; lia|].
  destruct (Z.ltb_spec n 1000); [rewrite (decimal_digits_length 2); simpl; lia|].
  destruct (Z.ltb_spec n 10000); [rewrite (decimal_digits_length 3); simpl; lia|].
  destruct (Z.ltb_spec n 100000); [rewrite (decimal_digits_length 4); simpl; lia|].
  destruct (Z.ltb_spec n 1000000); [rewrite (decimal_digits_length 5); simpl; lia|lia].
Qed.

(** A response that serializes as its two counters. *)
Definition counter_dump : ModelDump := fun r =>
  JObject [(py "serialized_bytes", JInt (bm_serialized_bytes (cr_budget r)));
           (py "used_units", JInt (bm_used_units (cr_budget r)))].

Definition sample_retrieval : RetrievalProfileInfo :=
  let available := {| ch_availability := py "available"; ch_reason := None |} in
  {| rp_sha256 := py "00"; rp_active_embedding_model_id := None; rp_lexical := available;
     rp_trigram := available; rp_semantic := available |}.

Definition empty_pack : ContextPack :=
  {| cp_context_pack_id := uid 1; cp_persona := []; cp_active_boundaries := []; cp_user_preferences := [];
     cp_relationship_patterns := []; cp_project_context := []; cp_episodic_anchors := [];
     cp_open_questions := []; cp_conflicts := [];
     cp_excluded_scope_summary := {| ex_requested_scope_reduction := false; ex_evidence_omitted := false;
                                     ex_budget_truncated := false |};
     cp_provenance := [] |}.

Lemma show_counters f n :
  show_json (S (S f)) (JObject [(py "serialized_bytes", JInt n); (py "used_units", JInt n)]) =
  Some (123 :: (34 :: py "serialized_bytes" ++ [34; 58] ++ show_int n)
            ++ (44 :: 34 :: py "used_units" ++ [34; 58] ++ show_int n) ++ [125]).
Proof.
  change (Some (123 :: join_comma [34 :: py "serialized_bytes" ++ [34; 58] ++ show_int n;
                                   34 :: py "used_units" ++ [34; 58] ++ show_int n] ++ [125]) =
    Some (123 :: (34 :: py "serialized_bytes" ++ [34; 58] ++ show_int n)
            ++ (44 :: 34 :: py "used_units" ++ [34; 58] ++ show_int n) ++ [125])).
  unfold join_comma. f_equal. f_equal. rewrite <- (assoc_L (++)). f_equal. simpl. by rewrite app_nil_r.
Qed.

Lemma result_with_size_converges_witness :
  converged empty_pack 300 sample_retrieval false [] [] 35
    (@result_with_size full_rfc8785 counter_dump empty_pack 300 sample_retrieval false [] []).
Proof.
  apply (@result_with_size_converges full_rfc8785 counter_dump).
  - intros used r Hr. pose proof Hr as Hr0. unfold make_result in Hr. apply bind_Ok in Hr as ([] & Hb & Hr).
    apply bind_Ok in Hr as ([] & _ & Hr). injection Hr as <-. apply make_result_Ok in Hr0 as (_ & _ & _ & _ & Hu & _).
    unfold validate_budget in Hb. apply bind_Ok in Hb as ([] & Hbounds & _).
    apply raise_if_Ok, negb_false_iff in Hbounds. rewrite !andb_true_iff, !Z.leb_le in Hbounds. simpl in Hbounds.
    assert (Hrange : 1 <= used < 1000000) by lia.
    unfold estimate_utf8_upper_bound, canonical_plain_bytes, normalize_plain.
    assert (Hok : json_okb 65 (JObject [(py "serialized_bytes", JInt used); (py "used_units", JInt used)]) = true).
    { assert (Hin : (- MAX_IJSON_INTEGER <=? used) && (used <=? MAX_IJSON_INTEGER) = true).
      { apply andb_true_iff. rewrite !Z.leb_le. change MAX_IJSON_INTEGER with 9007199254740991. lia. }
      cbn [json_okb forallb snd]. rewrite Hin. vm_compute. reflexivity. }
    unfold model_dump_json, counter_dump. cbn [cr_budget bm_serialized_bytes bm_used_units].
    change (S MAX_CANONICAL_JSON_DEPTH) with 65%nat. rewrite Hok. cbn [negb raise_if mbind result_bind].
    change (rfc8785_dumps ?v) with (show_json (S (S 64)) v). rewrite (show_counters 64).
    cbn [from_option_or mbind result_bind]. pose proof (show_int_length used Hrange) as Hlen. f_equal.
    rewrite length_cons, !length_app. simpl length. lia.
  - unfold metadata_ok. split; [lia|]. split; [simpl; lia|]. split; [constructor|]. split; [reflexivity|].
    split; [simpl; lia|constructor].
  - lia.
Defined.
