(* ===== verification/ContextPackExamples.v ===== *)
(** * ContextPackExamples: context packs assembled from concrete memories

    A JSON dump of the whole response (every declared field under its name) and
    assemblies evaluated with it: the witnesses of the assembly theorems, and
    two ways in which assembly fails although a valid smaller pack exists. *)

From stdpp Require Import base tactics option list sets gmap strings.
From Stdlib Require Import ZArith Lia Bool SpecFloat.
From S2P Require Import Prelude Identifiers Enums Values CanonicalJson Digest Events ContextPack Samples ContextPackTheorems.
Open Scope Z_scope.

(** ** The JSON form of a response *)

Definition jtext (s : string) : JsonValue := JStr (py s).
#[local] Existing Instance full_rfc8785 | 0.

Definition juuid (u : UUID) : JsonValue := JStr (uuid_str u).
Definition jopt {A} (f : A -> JsonValue) (o : option A) : JsonValue := from_option f JNull o.
Definition jtime (t : instant) : JsonValue := JStr (format_utc_instant t).
Definition jobj (fields : list (string * JsonValue)) : JsonValue :=
  JObject ((fun kv => (py kv.1, kv.2)) <$> fields).
Arguments jobj _%_list.

Definition dump_score (s : MemoryScore) : JsonValue :=
  let m := score_modifiers s in
  jobj [("profile", jtext "rrf-v1");
        ("sources", JArray ((fun c => jobj [("source", jtext (match src_source c with
                                                             | lexical => "lexical"
                                                             | trigram => "trigram"
                                                             | semantic => "semantic"
                                                             end));
                                            ("rank", JInt (src_rank c));
                                            ("contribution", JFloat (src_contribution c))])
                            <$> score_sources s));
        ("rrf_score", JFloat (score_rrf_score s));
        ("modifiers", jobj [("scope_match", JFloat (mod_scope_match m));
                            ("authority", JFloat (mod_authority m));
                            ("confidence", JFloat (mod_confidence m));
                            ("salience", JFloat (mod_salience m)); ("recency", JFloat (mod_recency m))]);
        ("modifier_contributions",
         JArray ((fun c => jobj [("modifier", JStr c.1.1); ("value", JFloat c.1.2);
                                 ("contribution", JFloat c.2)]) <$> score_modifier_contributions s));
        ("final_score", JFloat (score_final_score s))]%string.

Definition dump_evidence (i : UntrustedEvidenceExcerpt) : JsonValue :=
  jobj [("trust", jtext "untrusted_evidence"); ("evidence_id", juuid (ue_evidence_id i));
        ("source_type", JStr (ue_source_type i)); ("excerpt", JStr (ue_excerpt i));
        ("occurred_at", jopt jtime (ue_occurred_at i))]%string.

Definition dump_hit (h : MemoryHit) : JsonValue :=
  jobj [("memory_id", juuid (hit_memory_id h)); ("revision", JInt (hit_revision h));
        ("last_event_id", juuid (hit_last_event_id h)); ("branch_id", juuid (hit_branch_id h));
        ("subject_id", juuid (hit_subject_id h));
        ("subject_kind", jtext (enum_value (hit_subject_kind h)));
        ("category", jtext (enum_value (hit_category h)));
        ("ontological_status", jtext (enum_value (hit_ontological_status h)));
        ("scope", jtext (enum_value (hit_scope h)));
        ("visibility", jtext (enum_value (hit_visibility h)));
        ("status", jtext (match hit_status h with
                          | hit_candidate => "candidate"
                          | hit_active => "active"
                          | hit_disputed => "disputed"
                          end));
        ("statement", JStr (hit_statement h)); ("reason_to_remember", jopt JStr (hit_reason_to_remember h));
        ("interpretation_limits", JArray (JStr <$> hit_interpretation_limits h));
        ("authority_class", jtext (enum_value (hit_authority_class h)));
        ("valid_from", jopt jtime (hit_valid_from h)); ("valid_to", jopt jtime (hit_valid_to h));
        ("observed_at", jopt jtime (hit_observed_at h)); ("score", dump_score (hit_score h));
        ("explanation_codes", JArray (JStr <$> hit_explanation_codes h));
        ("evidence", JArray (dump_evidence <$> hit_evidence h))]%string.

Definition dump_group (g : ConflictGroup) : JsonValue :=
  jobj [("conflict_id", juuid (cg_conflict_id g)); ("subject_id", juuid (cg_subject_id g));
        ("state", jtext "open"); ("members", JArray (dump_hit <$> cg_members g))]%string.

Definition dump_pack (p : ContextPack) : JsonValue :=
  let x := cp_excluded_scope_summary p in
  let hits l := JArray (dump_hit <$> l) in
  jobj [("schema_version", JInt 1); ("contract_version", jtext "mcp-read-v1");
        ("context_pack_id", juuid (cp_context_pack_id p)); ("persona", hits (cp_persona p));
        ("active_boundaries", hits (cp_active_boundaries p));
        ("user_preferences", hits (cp_user_preferences p));
        ("relationship_patterns", hits (cp_relationship_patterns p));
        ("project_context", hits (cp_project_context p));
        ("episodic_anchors", hits (cp_episodic_anchors p));
        ("open_questions", hits (cp_open_questions p));
        ("conflicts", JArray (dump_group <$> cp_conflicts p));
        ("excluded_scope_summary",
         jobj [("requested_scope_reduction", JBool (ex_requested_scope_reduction x));
               ("evidence_omitted", JBool (ex_evidence_omitted x));
               ("budget_truncated", JBool (ex_budget_truncated x))]);
        ("provenance", JArray ((fun r => jobj [("event_id", juuid (pr_event_id r));
                                               ("memory_id", juuid (pr_memory_id r));
                                               ("revision", JInt (pr_revision r))]) <$> cp_provenance p))]%string.

Definition reason_text (r : OmissionReason) : string :=
  match r with
  | budget_truncated => "budget_truncated"
  | item_budget_reached => "item_budget_reached"
  | evidence_omitted => "evidence_omitted"
  | requested_scope_reduction => "requested_scope_reduction"
  end%string.

Definition warning_text (w : ReadWarningCode) : string :=
  match w with
  | warn_embeddings_unavailable => "embeddings_unavailable"
  | warn_embeddings_warming => "embeddings_warming"
  | warn_embeddings_stale => "embeddings_stale"
  | warn_results_truncated => "results_truncated"
  | warn_evidence_omitted => "evidence_omitted"
  end%string.

Definition dump_channel (c : ChannelState) : JsonValue :=
  jobj [("availability", JStr (ch_availability c)); ("reason", jopt JStr (ch_reason c))]%string.

#[export] Instance full_dump : ModelDump := fun r =>
  let b := cr_budget r in
  let rp := cr_retrieval r in
  jobj [("ok", JBool true); ("contract_version", jtext "mcp-read-v1"); ("tool", jtext "memory_context_pack");
        ("warnings", JArray ((fun w => jtext (warning_text w)) <$> cr_warnings r));
        ("metadata",
         jobj [("pagination", JNull);
               ("retrieval", jobj [("name", jtext "rrf-v1"); ("sha256", JStr (rp_sha256 rp));
                                   ("active_embedding_model_id", jopt juuid (rp_active_embedding_model_id rp));
                                   ("channels", jobj [("lexical", dump_channel (rp_lexical rp));
                                                      ("trigram", dump_channel (rp_trigram rp));
                                                      ("semantic", dump_channel (rp_semantic rp))])]);
               ("budget", jobj [("estimator", jtext "utf8-bytes-upper-bound-v1");
                                ("requested_units", JInt (bm_requested_units b));
                                ("used_units", JInt (bm_used_units b));
                                ("serialized_bytes", JInt (bm_serialized_bytes b));
                                ("byte_ceiling", JInt HARD_RESPONSE_BYTE_CEILING);
                                ("truncated", JBool (bm_truncated b));
                                ("omission_reasons",
                                 JArray ((fun x => jtext (reason_text x)) <$> bm_omission_reasons b))])]);
        ("result", dump_pack (cr_result r))]%string.

(** ** Concrete memories *)

Definition half_score : float := S754_finite false (2 ^ 52)%positive (-53).

Definition sample_score : MemoryScore :=
  {| score_sources := []; score_rrf_score := half_score;
     score_modifiers := {| mod_scope_match := half_score; mod_authority := half_score;
                           mod_confidence := half_score; mod_salience := half_score;
                           mod_recency := half_score |};
     score_modifier_contributions := []; score_final_score := half_score |}.

Definition sample_hit (n : Z) (category : MemoryCategory) (status : HitStatus)
    (items : list UntrustedEvidenceExcerpt) : MemoryHit :=
  {| hit_memory_id := uid (1000 + n); hit_revision := 1; hit_last_event_id := uid (5000 + n);
     hit_branch_id := BRANCH_A; hit_subject_id := uid 10; hit_subject_kind := SubjectKind.PERSONA;
     hit_category := category; hit_ontological_status := OntologicalStatus.LITERAL_USER_FACT;
     hit_scope := MemoryScope.PERSONA; hit_visibility := MemoryVisibility.PRIVATE_ROOT;
     hit_status := status; hit_statement := py "text"; hit_reason_to_remember := None;
     hit_interpretation_limits := []; hit_authority_class := AuthorityClass.EXPLICIT_USER_STATEMENT;
     hit_valid_from := None; hit_valid_to := None; hit_observed_at := None; hit_score := sample_score;
     hit_explanation_codes := []; hit_evidence := items |}.

Definition sample_excerpt : UntrustedEvidenceExcerpt :=
  {| ue_evidence_id := uid 900; ue_source_type := py "chat"; ue_excerpt := py "said"; ue_occurred_at := None |}.

Definition preference (n : Z) : MemoryHit :=
  sample_hit n MemoryCategory.USER_PREFERENCE hit_active [].

Definition sample_group : ConflictGroup :=
  {| cg_conflict_id := CONFLICT_1; cg_subject_id := uid 10;
     cg_members := [sample_hit 7 MemoryCategory.STABLE_FACT hit_disputed [];
                    sample_hit 8 MemoryCategory.STABLE_FACT hit_disputed []] |}.

Definition assemble (hits : list MemoryHit) (groups : list ConflictGroup) (requested : Z)
    (scope_reduction : bool) : result ContextPackResult :=
  assemble_context_pack (uid 1) hits groups requested sample_retrieval false scope_reduction.

Definition two_preferences (requested : Z) : result ContextPackResult :=
  assemble [preference 1; preference 2] [] requested true.

Definition result_or_empty (r : result ContextPackResult) : ContextPackResult :=
  match r with
  | Ok x => x
  | Err _ => {| cr_result := empty_pack; cr_warnings := []; cr_retrieval := sample_retrieval;
                cr_budget := {| bm_requested_units := 1; bm_used_units := 1; bm_serialized_bytes := 1;
                                bm_truncated := false; bm_omission_reasons := [] |} |}
  end.

(** ** Witnesses *)

Definition mixed_pack : result ContextPackResult :=
  assemble [preference 1; sample_hit 7 MemoryCategory.STABLE_FACT hit_disputed [sample_excerpt]]
    [sample_group] 20000 false.

Lemma context_pack_budget_exact_witness :
  bm_used_units (cr_budget (result_or_empty mixed_pack)) <= 20000.
Proof.
  destruct (context_pack_budget_exact (uid 1)
    [preference 1; sample_hit 7 MemoryCategory.STABLE_FACT hit_disputed [sample_excerpt]] [sample_group] 20000
    sample_retrieval false false (result_or_empty mixed_pack)) as (_ & Hle & _);
    [vm_compute; reflexivity|exact Hle].
Defined.

Lemma context_pack_conflicts_atomic_witness :
  NoDup (pack_memory_ids (cr_result (result_or_empty mixed_pack))).
Proof.
  destruct (context_pack_conflicts_atomic (uid 1)
    [preference 1; sample_hit 7 MemoryCategory.STABLE_FACT hit_disputed [sample_excerpt]] [sample_group] 20000
    sample_retrieval false false (result_or_empty mixed_pack)) as (Hnd & _);
    [vm_compute; reflexivity|exact Hnd].
Defined.

Lemma context_pack_complete_unless_truncated_witness :
  uid 1007 ∈ pack_memory_ids (cr_result (result_or_empty mixed_pack)).
Proof.
  destruct (context_pack_complete_unless_truncated (uid 1)
    [preference 1; sample_hit 7 MemoryCategory.STABLE_FACT hit_disputed [sample_excerpt]] [sample_group] 20000
    sample_retrieval false false (result_or_empty mixed_pack) (uid 1007)) as [_ Hin]; [vm_compute; reflexivity..|].
  apply Hin. left. exists (sample_hit 7 MemoryCategory.STABLE_FACT hit_disputed [sample_excerpt]).
  split; [right; left|reflexivity].
Defined.

(** ** Failures of assembly *)

(** A larger budget can turn a result into an error: with two preferences
    and a requested scope reduction, a budget of 1897 units yields a pack and
    1898 units yields [BudgetTooSmallError].  The greedy trial measures with
    one omission reason, the final response carries two, so an item that just
    fitted makes the final response too large and nothing is returned. *)
Theorem context_pack_budget_not_monotone :
  exists hits r, assemble hits [] 1897 true = Ok r /\ assemble hits [] 1898 true = Err BudgetTooSmallError.
Proof.
  exists [preference 1; preference 2], (result_or_empty (two_preferences 1897)).
  split; vm_compute; reflexivity.
Qed.

(** A full section aborts the whole assembly: once a section holds 64
    memories, trying one more memory of that section raises a validation
    error, whatever the budget, instead of leaving that memory out. *)
Theorem full_section_aborts_assembly `{R : Rfc8785} `{D : ModelDump} (id : UUID) (requested : Z)
    (retrieval : RetrievalProfileInfo) (scope_reduction gone omitted : bool) (selected : list PackItem)
    (s : ContextSection) (h : MemoryHit) :
  is_uuid7 id = true -> length (section_hits s selected) = 64%nat ->
  select_item id requested retrieval scope_reduction gone (selected, omitted) (HitItem s h)
    = Err (ValidationError "section exceeds 64 items").
Proof.
  intros Hid Hlen. unfold select_item, pack_from_items, validate_pack. cbn [fst cp_context_pack_id]. rewrite Hid.
  assert (Hs : length (section_hits s (selected ++ [HitItem s h])) = 65%nat).
  { unfold section_hits in *. rewrite omap_app, length_app, Hlen. simpl. by rewrite bool_decide_true. }
  assert (Hex : forall p, pack_section p s = section_hits s (selected ++ [HitItem s h]) ->
            existsb (fun section => (64 <? length section)%nat) (pack_sections p) = true).
  { intros p Hp. apply existsb_exists. exists (pack_section p s). split.
    - unfold pack_sections, pack_section. destruct s; simpl; tauto.
    - by rewrite Hp, Hs. }
  cbn [negb raise_if mbind result_bind]. rewrite Hex by (by destruct s). reflexivity.
Qed.

Lemma full_section_aborts_assembly_witness :
  select_item (uid 1) 200000 sample_retrieval false false
    (HitItem user_preferences <$> (preference <$> seqZ 1 64), false) (HitItem user_preferences (preference 65))
  = Err (ValidationError "section exceeds 64 items").
Proof. apply full_section_aborts_assembly; vm_compute; reflexivity. Defined.
