(* ===== verification/EventStore.v ===== *)
(** * EventStore: appending to the immutable event log

    Models [storage/event_store.py] and the row mapping of
    [storage/projector.py].  The tables the code reads and writes are finite
    maps by primary key; a statement's effect is the updated table.  A call
    that raises returns no state: the caller owns the transaction and rolls it
    back.  The database server is the parameter [Database]: whether it refuses
    a flush, with which SQLSTATE. *)

From stdpp Require Import base tactics option list gmap strings.
From Stdlib Require Import ZArith Lia Bool.
From S2P Require Import Prelude Identifiers Enums Values CanonicalJson Digest Constraints Events.
Open Scope Z_scope.

(** ** Tables *)

Record ActorRow : Type := { ac_tenant_id : UUID; ac_revoked_at : option instant }.

Record ClientRow : Type := {
  cl_tenant_id : UUID;
  cl_transport_kind : string;
  cl_revoked_at : option instant
}.

Record InstallationRow : Type := { in_tenant_id : UUID; in_revoked_at : option instant }.

Record TransportBinding : Type := {
  tb_tenant_id : UUID;
  tb_actor_id : UUID;
  tb_client_id : UUID;
  tb_transport_kind : string;
  tb_installation_id : option UUID;
  tb_authorized_operations : json_dict;
  tb_valid_until : option instant
}.

(** The columns of [ingress_items] that acceptance reads or writes. *)
Record IngressItem : Type := {
  ii_tenant_id : UUID;
  ii_transport_binding_id : UUID;
  ii_installation_id : UUID;
  ii_actor_id : UUID;
  ii_client_id : UUID;
  ii_provider : string;
  ii_declared_idempotency_key : option pystr;
  ii_state : string;
  ii_result_event_id : option UUID;
  ii_result_memory_id : option UUID;
  ii_error_code : option pystr;
  ii_safe_diagnostic : option pystr;
  ii_validated_at : option instant;
  ii_processed_at : option instant
}.

(** A row of [memory_events]: hashes and canonical payload as bytes. *)
Record MemoryEventRow : Type := {
  r_sequence : Z;
  r_event_id : UUID;
  r_tenant_id : UUID;
  r_lineage_id : UUID;
  r_branch_id : UUID;
  r_actor_id : UUID;
  r_client_id : UUID;
  r_transport_binding_id : UUID;
  r_session_id : option UUID;
  r_ingress_id : option UUID;
  r_operation : string;
  r_memory_id : option UUID;
  r_expected_revision : option Z;
  r_causation_event_id : option UUID;
  r_correlation_id : UUID;
  r_idempotency_key : pystr;
  r_schema_version : Z;
  r_payload_version : Z;
  r_policy_version : Z;
  r_normalization_version : Z;
  r_payload : JsonValue;
  r_payload_canonical : bytes;
  r_payload_sha256 : bytes;
  r_command_sha256 : bytes;
  r_created_at : instant
}.

Record StoreState : Type := {
  st_counter : option Z;                       (* [next_sequence] of the singleton row *)
  st_events : list MemoryEventRow;             (* in insertion order *)
  st_bindings : gmap UUID TransportBinding;
  st_actors : gmap UUID ActorRow;
  st_clients : gmap UUID ClientRow;
  st_installations : gmap UUID InstallationRow;
  st_ingress : gmap UUID IngressItem
}.

(** ** Hexadecimal text *)

Definition hex_value (c : Z) : option Z :=
  if (48 <=? c) && (c <=? 57) then Some (c - 48)
  else if (97 <=? c) && (c <=? 102) then Some (c - 87)
  else if (65 <=? c) && (c <=? 70) then Some (c - 55)
  else None.

Definition is_ascii_space (c : Z) : bool := ((9 <=? c) && (c <=? 13)) || (c =? 32).

(** [bytes.fromhex]: pairs of digits, white space between pairs skipped. *)
Fixpoint fromhex (s : pystr) : option bytes :=
  match s with
  | [] => Some []
  | a :: rest =>
    if is_ascii_space a then fromhex rest
    else match rest with
         | [] => None
         | b :: rest' => hi ← hex_value a; lo ← hex_value b; tail ← fromhex rest'; Some (hi * 16 + lo :: tail)
         end
  end.

(** ** Validation of one event *)

(** The field constraints of [MemoryEvent]. *)
Definition event_fields_ok (e : MemoryEvent) : bool :=
  bool_decide (e_schema_version e ∈ EVENT_VERSIONS) && bool_decide (e_payload_version e ∈ EVENT_VERSIONS)
  && safe_positive (e_sequence e)
  && forallb is_uuid7 [e_event_id e; e_tenant_id e; e_lineage_id e; e_branch_id e; e_actor_id e;
                       e_client_id e; e_transport_binding_id e; e_correlation_id e]
  && forallb (opt_ok is_uuid7) [e_session_id e; e_ingress_id e; e_memory_id e; e_causation_event_id e]
  && opt_ok safe_positive (e_expected_revision e)
  && length_between 1 255 (e_idempotency_key e)
  && safe_positive (e_policy_version e) && safe_positive (e_normalization_version e)
  && match e_payload e with JObject _ => true | _ => false end
  && length_between 4 1398104 (e_payload_canonical e)
  && hex_digest_ok (e_payload_sha256 e) && hex_digest_ok (e_command_sha256 e).

Section Store.
Context `{Rfc8785} `{Pydantic}.

(** [MemoryEvent.model_validate] of a complete field record. *)
Definition model_validate (e : MemoryEvent) : result MemoryEvent :=
  require (event_fields_ok e) (ValidationError "event field");;
  except_value_error (validate_canonical_contract e) (ValidationError "event");;
  Ok e.

Definition build_and_validate (builder : Z -> result MemoryEvent) (sequence : Z)
    : result MemoryEvent :=
  event ← or_raise (builder sequence)
            (EventStoreError "event_invalid" "event construction failed validation");
  raise_if (negb (e_sequence event =? sequence))
    (EventStoreError "event_sequence_mismatch" "event sequence does not match the allocation");;
  except_value_error
    (validate_event_envelope_shape event;; typed_payload event;; verify_hashes event)
    (EventStoreError "event_invalid" "event failed canonical contract validation");;
  Ok event.

Fixpoint dict_get {V} (key : pystr) (d : list (pystr * V)) : option V :=
  match d with
  | [] => None
  | (k, v) :: rest => if bool_decide (k = key) then Some v else dict_get key rest
  end.

Definition json_is_str (v : JsonValue) : bool := match v with JStr _ => true | _ => false end.

Definition operation_is_authorized (binding : TransportBinding) (operation : EventOperation) : bool :=
  let policy := tb_authorized_operations binding in
  if negb (forallb (fun kv => bool_decide (kv.1 = py "operations")) policy
           && (0 <? length policy)%nat) then false
  else match dict_get (py "operations") policy with
       | Some (JArray operations) =>
         forallb json_is_str operations
         && bool_decide (JStr (py (EventOperation.value operation)) ∈ operations)
       | _ => false
       end.

Definition after_images (event : MemoryEvent) : result (list MemoryState) :=
  payload ← typed_payload event;
  Ok match payload with
     | MemoryCreatedPayload m _ | MemoryTransitionPayload _ m | CandidateLifecyclePayload _ m _ _ _
     | SupersededPayload _ m _ | TombstonedPayload _ m _ | PayloadPurgeCompletedPayload _ m _ _ _ => [m]
     | ConflictOpenedPayload _ _ affected | ConflictResolvedPayload _ _ affected =>
       am_memory <$> affected
     | EvidenceAttachedPayload _ | EvidenceRedactedPayload _ _ _ _ | LinkedPayload _
     | UnlinkedPayload _ | BranchCreatedPayload _ => []
     end.

Inductive LegacyGenesisPlaintextAuthorization : Type := ADR0014_FIRST_IMPORT.

(** [s.startswith(prefix)] *)
Definition startswith (prefix s : pystr) : bool := bool_decide (take (length prefix) s = prefix).

(** [re.fullmatch(r"genesis-import-v1:[0-9a-f]{64}", key)] *)
Definition is_genesis_key (key : pystr) : bool :=
  startswith (py "genesis-import-v1:") key
  && hex_digest_ok (drop (length (py "genesis-import-v1:")) key).

Definition is_manifest_evidence (item : EvidenceState) : bool :=
  bool_decide (es_source_type item = py "import_manifest")
  && bool_decide (es_trust_classification item = py "trusted")
  && is_none (es_excerpt item) && is_none (es_content_sha256 item)
  && (forallb (fun kv => bool_decide (kv.1 = py "evidence_key")) (es_source_reference item)
      && (0 <? length (es_source_reference item))%nat)
  && match dict_get (py "evidence_key") (es_source_reference item) with
     | Some (JStr key) => startswith (py "import-manifest:") key
     | _ => false
     end
  && bool_decide (es_metadata item = []).

Definition is_authorized_legacy_genesis_plaintext (binding : TransportBinding) (event : MemoryEvent)
    (memory : MemoryState) : result bool :=
  payload ← typed_payload event;
  Ok (bool_decide (tb_transport_kind binding = TransportKind.value TransportKind.INTERNAL_SERVICE)
      && (e_schema_version event =? 2) && (e_payload_version event =? 2)
      && (e_policy_version event =? 2) && (e_normalization_version event =? 1)
      && bool_decide (e_operation event = EventOperation.OBSERVED)
      && is_none (e_session_id event) && is_none (e_ingress_id event)
      && is_genesis_key (e_idempotency_key event)
      && match payload with
         | MemoryCreatedPayload m evidence =>
           is_v2 m && bool_decide (m = memory)
           && bool_decide (ms_status memory = MemoryStatus.CANDIDATE)
           && bool_decide (ms_visibility memory = MemoryVisibility.PRIVATE_ROOT)
           && bool_decide (ms_authority_class memory = AuthorityClass.IMPORTED_LEGACY_MEMORY)
           && bool_decide (ms_content_protection memory = plaintext)
           && (0 <? length evidence)%nat && forallb is_manifest_evidence evidence
         | _ => false
         end).

(** The context [_validate_after_image_constraints] builds for one memory. *)
Definition constraint_context (memory : MemoryState) (transport_kind : TransportKind)
    : MemoryConstraintContext := {|
  ctx_category := ms_category memory;
  ctx_ontological_status := ms_ontological_status memory;
  ctx_scope := ms_scope memory;
  ctx_visibility := ms_visibility memory;
  ctx_status := ms_status memory;
  ctx_sensitivity := ms_sensitivity memory;
  ctx_subject_kind := ms_subject_kind memory;
  ctx_origin_session_id := ms_origin_session_id memory;
  ctx_origin_session_matches := negb (is_none (ms_origin_session_id memory));
  ctx_structural_anchor_matches := true;
  ctx_imported_provenance :=
    bool_decide (ms_authority_class memory = AuthorityClass.IMPORTED_LEGACY_MEMORY);
  ctx_publication_approved := negb (is_none (ms_publication_approved_at memory))
    && negb (is_none (ms_publication_approved_by_actor_id memory));
  ctx_branch_allows_visibility := true;
  ctx_transport_kind := transport_kind
|}.

(** [except DomainConstraintError as error: raise EventStoreError(error.code, ...)] *)
Definition rename_constraint_error (r : result unit) : result unit :=
  match r with
  | Err (DomainConstraintError code _) =>
    Err (EventStoreError code "memory after-image violates accepted constraints")
  | _ => r
  end.

Definition check_after_image (authorization : option LegacyGenesisPlaintextAuthorization)
    (binding : TransportBinding) (event : MemoryEvent) (transport_kind : TransportKind)
    (memory : MemoryState) : result unit :=
  rename_constraint_error (validate_memory_constraints (constraint_context memory transport_kind));;
  if (ms_sensitivity memory =? 4) && negb (is_v3 memory) then
    legacy ← match authorization with
             | Some ADR0014_FIRST_IMPORT => is_authorized_legacy_genesis_plaintext binding event memory
             | None => Ok false
             end;
    raise_if (negb legacy)
      (EventStoreError "sealed_content_required" "sensitivity-four writes require sealed content")
  else Ok tt.

Definition validate_after_image_constraints (authorization : option LegacyGenesisPlaintextAuthorization)
    (binding : TransportBinding) (event : MemoryEvent) : result unit :=
  transport_kind ← from_option_or (enum_of_value TransportKind (tb_transport_kind binding))
    (EventStoreError "binding_invalid" "transport binding is unavailable");
  images ← after_images event;
  each (check_after_image authorization binding event transport_kind) images.

Definition is_github (binding : TransportBinding) : bool :=
  bool_decide (tb_transport_kind binding = TransportKind.value TransportKind.GITHUB_INGRESS).

Definition validate_transport (authorization : option LegacyGenesisPlaintextAuthorization)
    (binding : TransportBinding) (event : MemoryEvent) : result unit :=
  raise_if (negb (operation_is_authorized binding (e_operation event)))
    (EventStoreError "operation_not_authorized" "transport binding does not authorize the operation");;
  (if is_github binding then
     raise_if (bool_decide (e_operation event ∉ [EventOperation.OBSERVED; EventOperation.REMEMBERED]))
       (EventStoreError "github_operation_forbidden" "GitHub ingress operation is not permitted");;
     raise_if (is_none (e_ingress_id event))
       (EventStoreError "github_ingress_required" "GitHub ingress event requires ingress provenance");;
     images ← after_images event;
     raise_if (existsb is_v3 images)
       (EventStoreError "github_sealed_content_forbidden" "GitHub ingress cannot write sealed content")
   else
     raise_if (negb (is_none (e_ingress_id event)))
       (EventStoreError "ingress_forbidden" "non-GitHub event cannot contain ingress provenance"));;
  validate_after_image_constraints authorization binding event.

(** ** Ingress *)

Definition reject_ingress : exn :=
  EventStoreError "github_ingress_unavailable" "GitHub ingress item is unavailable".

Definition validate_ingress_item (ingress_id : UUID) (ingress : IngressItem)
    (binding : TransportBinding) (event : MemoryEvent) : result unit :=
  raise_if (negb (bool_decide (ii_state ingress = "validated"))
            || is_none (ii_validated_at ingress)
            || negb (is_none (ii_result_event_id ingress))
            || negb (is_none (ii_result_memory_id ingress))
            || negb (is_none (ii_error_code ingress))
            || negb (is_none (ii_safe_diagnostic ingress))
            || negb (is_none (ii_processed_at ingress)))
    reject_ingress;;
  raise_if (negb (bool_decide (Some ingress_id = e_ingress_id event))
            || negb (ii_tenant_id ingress =? e_tenant_id event)
            || negb (ii_transport_binding_id ingress =? e_transport_binding_id event)
            || negb (bool_decide (Some (ii_installation_id ingress) = tb_installation_id binding))
            || negb (ii_actor_id ingress =? e_actor_id event)
            || negb (ii_client_id ingress =? e_client_id event)
            || negb (bool_decide (ii_provider ingress = "github"))
            || negb (bool_decide (ii_declared_idempotency_key ingress = Some (e_idempotency_key event))))
    reject_ingress.

(** The item an event of a GitHub binding consumes, locked and checked. *)
Definition lock_github_ingress (s : StoreState) (binding : TransportBinding) (event : MemoryEvent)
    : result (option (UUID * IngressItem)) :=
  if negb (is_github binding) then Ok None
  else
    item ← from_option_or
      (ingress_id ← e_ingress_id event;
       ingress ← st_ingress s !! ingress_id;
       if ii_tenant_id ingress =? e_tenant_id event then Some (ingress_id, ingress) else None)
      reject_ingress;
    validate_ingress_item item.1 item.2 binding event;;
    Ok (Some item).

(** ** Rows *)

Definition event_row (e : MemoryEvent) : result MemoryEventRow :=
  canonical ← from_option_or (b64decode (e_payload_canonical e)) (ValueError "Incorrect padding");
  payload_sha256 ← from_option_or (fromhex (e_payload_sha256 e)) (ValueError "non-hexadecimal number");
  command_sha256 ← from_option_or (fromhex (e_command_sha256 e)) (ValueError "non-hexadecimal number");
  Ok {| r_sequence := e_sequence e; r_event_id := e_event_id e; r_tenant_id := e_tenant_id e;
        r_lineage_id := e_lineage_id e; r_branch_id := e_branch_id e; r_actor_id := e_actor_id e;
        r_client_id := e_client_id e; r_transport_binding_id := e_transport_binding_id e;
        r_session_id := e_session_id e; r_ingress_id := e_ingress_id e;
        r_operation := EventOperation.value (e_operation e); r_memory_id := e_memory_id e;
        r_expected_revision := e_expected_revision e; r_causation_event_id := e_causation_event_id e;
        r_correlation_id := e_correlation_id e; r_idempotency_key := e_idempotency_key e;
        r_schema_version := e_schema_version e; r_payload_version := e_payload_version e;
        r_policy_version := e_policy_version e; r_normalization_version := e_normalization_version e;
        r_payload := e_payload e; r_payload_canonical := canonical;
        r_payload_sha256 := payload_sha256; r_command_sha256 := command_sha256;
        r_created_at := e_created_at e |}.

(** [projector.event_row_to_domain] *)
Definition event_row_to_domain (row : MemoryEventRow) : result MemoryEvent :=
  except_value_error
    (operation ← from_option_or (enum_of_value EventOperation (r_operation row))
       (ValueError "not a valid EventOperation");
     model_validate
       {| e_schema_version := r_schema_version row; e_payload_version := r_payload_version row;
          e_sequence := r_sequence row; e_event_id := r_event_id row; e_tenant_id := r_tenant_id row;
          e_lineage_id := r_lineage_id row; e_branch_id := r_branch_id row;
          e_actor_id := r_actor_id row; e_client_id := r_client_id row;
          e_transport_binding_id := r_transport_binding_id row; e_session_id := r_session_id row;
          e_ingress_id := r_ingress_id row; e_operation := operation; e_memory_id := r_memory_id row;
          e_expected_revision := r_expected_revision row;
          e_causation_event_id := r_causation_event_id row; e_correlation_id := r_correlation_id row;
          e_idempotency_key := r_idempotency_key row; e_policy_version := r_policy_version row;
          e_normalization_version := r_normalization_version row; e_payload := r_payload row;
          e_payload_canonical := b64encode (r_payload_canonical row);
          e_payload_sha256 := hex_of_bytes (r_payload_sha256 row);
          e_command_sha256 := hex_of_bytes (r_command_sha256 row);
          e_created_at := r_created_at row |})
    (ProjectionPersistenceError "invalid_event").

(** [projector.load_verified_events]: rows by increasing sequence. *)
Definition load_verified_events (s : StoreState) (tenant_id : option UUID) : result (list MemoryEvent) :=
  mapR event_row_to_domain
    (sort_by (fun a b => r_sequence a <=? r_sequence b)
       (match tenant_id with
        | None => st_events s
        | Some tenant => filter (fun row => r_tenant_id row = tenant) (st_events s)
        end)).

(** ** Appending *)

(** The database server: the SQLSTATE with which it refuses the flush of a new
    row, or the flush of an accepted ingress item, if it does. *)
Class Database : Type := {
  insert_event_error : StoreState -> MemoryEventRow -> option string;
  update_ingress_error : StoreState -> UUID -> option string
}.

Context `{Database}.

Definition flush (refused : option string) : result unit :=
  match refused with Some sqlstate => Err (DBAPIError sqlstate) | None => Ok tt end.

(** The joined binding query: the binding of the event's transport, actor and
    client with the revocation marks of everything it depends on. *)
Definition binding_identity (s : StoreState) (e : MemoryEvent)
    : option (TransportBinding * option instant * option instant * option InstallationRow) :=
  binding ← st_bindings s !! e_transport_binding_id e;
  guard (tb_tenant_id binding = e_tenant_id e /\ tb_actor_id binding = e_actor_id e
         /\ tb_client_id binding = e_client_id e);;
  actor ← st_actors s !! tb_actor_id binding;
  guard (ac_tenant_id actor = tb_tenant_id binding);;
  client ← st_clients s !! tb_client_id binding;
  guard (cl_tenant_id client = tb_tenant_id binding
         /\ cl_transport_kind client = tb_transport_kind binding);;
  let installation :=
    installation_id ← tb_installation_id binding;
    row ← st_installations s !! installation_id;
    guard (in_tenant_id row = tb_tenant_id binding);;
    Some row in
  Some (binding, ac_revoked_at actor, cl_revoked_at client, installation).

Definition check_binding (now : instant) (s : StoreState) (e : MemoryEvent) : result TransportBinding :=
  identity ← from_option_or (binding_identity s e)
    (EventStoreError "binding_not_found" "transport binding is unavailable");
  let '(binding, actor_revoked_at, client_revoked_at, installation) := identity in
  raise_if (negb (is_none actor_revoked_at) || negb (is_none client_revoked_at))
    (EventStoreError "binding_revoked" "transport binding is unavailable");;
  raise_if (match tb_valid_until binding with Some limit => limit <=? now | None => false end)
    (EventStoreError "binding_expired" "transport binding is unavailable");;
  (if negb (is_none (tb_installation_id binding)) then
     row ← from_option_or installation
       (EventStoreError "binding_installation_unavailable" "transport binding is unavailable");
     raise_if (negb (is_none (in_revoked_at row)))
       (EventStoreError "binding_revoked" "transport binding is unavailable")
   else
     raise_if (bool_decide (tb_transport_kind binding = TransportKind.value TransportKind.RELAY))
       (EventStoreError "binding_installation_unavailable" "transport binding is unavailable"));;
  Ok binding.

Definition add_event (s : StoreState) (row : MemoryEventRow) (next_sequence : Z) : StoreState := {|
  st_counter := Some (next_sequence + 1);
  st_events := st_events s ++ [row];
  st_bindings := st_bindings s; st_actors := st_actors s; st_clients := st_clients s;
  st_installations := st_installations s; st_ingress := st_ingress s
|}.

Definition accept_ingress (s : StoreState) (ingress_id : UUID) (item : IngressItem)
    (event : MemoryEvent) (now : instant) : StoreState := {|
  st_counter := st_counter s; st_events := st_events s;
  st_bindings := st_bindings s; st_actors := st_actors s; st_clients := st_clients s;
  st_installations := st_installations s;
  st_ingress := <[ingress_id := {|
    ii_tenant_id := ii_tenant_id item; ii_transport_binding_id := ii_transport_binding_id item;
    ii_installation_id := ii_installation_id item; ii_actor_id := ii_actor_id item;
    ii_client_id := ii_client_id item; ii_provider := ii_provider item;
    ii_declared_idempotency_key := ii_declared_idempotency_key item;
    ii_state := "accepted"; ii_result_event_id := Some (e_event_id event);
    ii_result_memory_id := e_memory_id event; ii_error_code := ii_error_code item;
    ii_safe_diagnostic := ii_safe_diagnostic item; ii_validated_at := ii_validated_at item;
    ii_processed_at := Some now |}]> (st_ingress s)
|}.

(** [_append_memory_event] *)
Definition append_in_transaction (now : instant) (builder : Z -> result MemoryEvent)
    (authorization : option LegacyGenesisPlaintextAuthorization) (s : StoreState)
    : result (StoreState * MemoryEvent) :=
  next_sequence ← from_option_or (st_counter s)
    (EventStoreError "event_counter_unavailable" "event sequence allocator is unavailable");
  event ← build_and_validate builder next_sequence;
  binding ← check_binding now s event;
  validate_transport authorization binding event;;
  ingress ← lock_github_ingress s binding event;
  row ← event_row event;
  let added := add_event s row next_sequence in
  flush (insert_event_error s row);;
  match ingress with
  | Some (ingress_id, item) =>
    flush (update_ingress_error added ingress_id);;
    Ok (accept_ingress added ingress_id item event now, event)
  | None => Ok (added, event)
  end.

Definition append_memory_event (now : instant) (builder : Z -> result MemoryEvent)
    (authorization : option LegacyGenesisPlaintextAuthorization) (s : StoreState)
    : result (StoreState * MemoryEvent) :=
  match append_in_transaction now builder authorization s with
  | Err (DBAPIError sqlstate) =>
    if bool_decide (sqlstate = "40001") then Err (DBAPIError sqlstate)
    else Err (EventStoreError "event_store_unavailable" "event store operation failed")
  | outcome => outcome
  end.
End Store.
