(* ===== verification/EventStoreSafety.v ===== *)
(** * EventStoreSafety: who may append what

    The authority an appended event was written under, and the agreement of
    the two validators a memory after-image passes: pydantic's model
    validators of [domain/events.py] and the constraint checks of
    [domain/constraints.py] as the event store calls them. *)

From stdpp Require Import base tactics option list gmap strings relations.
From Stdlib Require Import ZArith Lia Bool.
From S2P Require Import Prelude Identifiers Enums Values CanonicalJson Digest Constraints Events Folding FoldingFacts Samples EventsTheorems EventStore EventStoreTheorems.
Open Scope Z_scope.

(** ** Agreement of the two validators *)

(** What the model validators of every memory class establish. *)
Record memory_facts (m : MemoryState) : Prop := {
  mf_origin : opt_ok is_uuid7 (ms_origin_session_id m) = true;
  mf_ontology : validate_category_ontology (ms_category m) (ms_ontological_status m) = Ok tt;
  mf_sensitivity : 0 <= ms_sensitivity m <= 4;
  mf_scope : validate_scope_shape m = Ok tt;
  mf_shareable : ms_visibility m = MemoryVisibility.SHAREABLE -> ms_sensitivity m <= 1;
  mf_public : ms_visibility m = MemoryVisibility.PUBLIC_SEED ->
    ms_status m = MemoryStatus.ACTIVE /\ ms_sensitivity m = 0 /\
    ms_publication_approved_at m <> None /\ ms_publication_approved_by_actor_id m <> None
}.

Lemma is_none_false {A} (o : option A) : is_none o = false <-> o <> None.
Proof. by destruct o. Qed.

Lemma shareable_fact m :
  bool_decide (ms_visibility m = MemoryVisibility.SHAREABLE) && (1 <? ms_sensitivity m) = false ->
  ms_visibility m = MemoryVisibility.SHAREABLE -> ms_sensitivity m <= 1.
Proof. intros Hb Hs. rewrite bool_decide_true in Hb by done. simpl in Hb. lia. Qed.

(** Drop the first check of a run; keep it under a name. *)
Ltac skip_check H := apply bind_Ok in H as ([] & _ & H).
Ltac keep_check H Hk := apply bind_Ok in H as ([] & Hk & H).

Lemma state_shape_facts m :
  memory_fields_ok m = true -> validate_state_shape m = Ok tt -> memory_facts m.
Proof.
  intros Hf Hv. unfold validate_state_shape in Hv. skip_check Hv. skip_check Hv.
  keep_check Hv Hont. keep_check Hv Hscope. keep_check Hv Hpub. keep_check Hv Hshare.
  skip_check Hv. keep_check Hv Happ. clear Hv.
  apply raise_if_Ok in Hshare, Happ.
  unfold memory_fields_ok in Hf. rewrite !andb_true_iff in Hf. split; try done.
  - tauto.
  - lia.
  - by apply shareable_fact.
  - intros Hp. rewrite bool_decide_true in Hpub by done.
    keep_check Hpub H1. apply raise_if_Ok in H1, Hpub. apply orb_false_iff in H1 as [H1 H2].
    apply bool_decide_eq_false, dec_stable in H1. apply negb_false_iff, Z.eqb_eq in H2.
    rewrite Hpub in Happ. rewrite is_none_false in Hpub. repeat split; try done.
    apply is_none_false. by destruct (is_none (ms_publication_approved_by_actor_id m)).
Qed.

Lemma state_shape_v3_facts m s :
  memory_fields_ok m = true -> validate_state_shape_v3 m s = Ok tt -> memory_facts m.
Proof.
  intros Hf Hv. unfold validate_state_shape_v3 in Hv. skip_check Hv. skip_check Hv.
  keep_check Hv Hont. keep_check Hv Hscope. keep_check Hv Hpub. keep_check Hv Hshare. clear Hv.
  apply raise_if_Ok in Hshare, Hpub. apply bool_decide_eq_false in Hpub.
  unfold memory_fields_ok in Hf. rewrite !andb_true_iff in Hf. split; try done.
  - tauto.
  - lia.
  - by apply shareable_fact.
Qed.

Lemma valid_memory_facts m : validate_memory m = Ok tt -> memory_facts m.
Proof.
  unfold validate_memory. intros Hv. keep_check Hv Hf. apply raise_if_Ok, negb_false_iff in Hf.
  destruct (ms_version m) as [|e|e s].
  - by apply state_shape_facts.
  - keep_check Hv Hs. by apply state_shape_facts.
  - skip_check Hv. keep_check Hv Hs. by eapply state_shape_v3_facts.
Qed.

(** What the scope checks say. *)
Lemma scope_facts m : validate_scope_shape m = Ok tt ->
  ms_subject_kind m = expected_subject (ms_scope m) /\
  (ms_scope m = MemoryScope.GLOBAL ->
     ms_ontological_status m <> OntologicalStatus.FICTIONAL_OR_ROLEPLAYED_SCENE) /\
  (ms_scope m = MemoryScope.EPISODIC ->
     ms_origin_session_id m <> None \/ ms_authority_class m = AuthorityClass.IMPORTED_LEGACY_MEMORY) /\
  (ms_scope m = MemoryScope.SCENE_LOCAL ->
     ms_origin_session_id m <> None /\
     ms_visibility m ∉ [MemoryVisibility.SHAREABLE; MemoryVisibility.PUBLIC_SEED]).
Proof.
  unfold validate_scope_shape. intros Hv. keep_check Hv H1. keep_check Hv H2. keep_check Hv H3.
  apply raise_if_Ok in H1, H2, H3. apply bool_decide_eq_false, dec_stable in H1.
  split; [done|]. repeat split.
  - intros Hs. rewrite Hs, bool_decide_true in H2 by done. by apply bool_decide_eq_false in H2.
  - intros Hs. rewrite Hs, bool_decide_true in H3 by done. cbn [andb] in H3.
    apply andb_false_iff in H3 as [H3|H3]; [left; by apply is_none_false|right].
    by apply bool_decide_eq_false, dec_stable in H3.
  - rewrite bool_decide_true in Hv by done. keep_check Hv H4. apply raise_if_Ok in H4. by apply is_none_false.
  - rewrite bool_decide_true in Hv by done. keep_check Hv H4. apply raise_if_Ok in Hv. by apply bool_decide_eq_false in Hv.
Qed.

Lemma reject_if_pass {A} c code message (k : unit -> result A) r :
  c = false -> k tt = r -> (reject_if c code message ≫= k) = r.
Proof. by intros -> <-. Qed.

Lemma group_pass {A} (g : result unit) (k : unit -> result A) r :
  g = Ok tt -> k tt = r -> (g ≫= k) = r.
Proof. by intros -> <-. Qed.

Lemma guarded_pass c (g : result unit) : (c = true -> g = Ok tt) -> (if c then g else Ok tt) = Ok tt.
Proof. destruct c; auto. Qed.

(** the two validators agree.  For a memory after-image the model
    validators accept, the constraint checks the event store runs on it never
    object to the memory itself: the only refusals left are the two transport
    rules, global or scene-local content from GitHub and sensitivity four over
    the relay. *)
Theorem after_image_constraints_agree (m : MemoryState) (kind : TransportKind) :
  validate_memory m = Ok tt ->
  validate_memory_constraints (constraint_context m kind) =
    if bool_decide (kind = TransportKind.GITHUB_INGRESS)
       && bool_decide (ms_scope m ∈ [MemoryScope.GLOBAL; MemoryScope.SCENE_LOCAL])
    then Err (DomainConstraintError "github_scope_forbidden"
                "GitHub ingress cannot create global or scene-local memory")
    else if bool_decide (kind = TransportKind.RELAY) && (ms_sensitivity m =? 4)
    then Err (DomainConstraintError "relay_sensitivity_forbidden"
                "relay transport cannot carry sensitivity-four memory")
    else Ok tt.
Proof.
  intros Hv. apply valid_memory_facts in Hv as [Horig Hont Hsens Hscope Hshare Hpub].
  unfold validate_memory_constraints. cbn [constraint_context ctx_category ctx_ontological_status ctx_scope
    ctx_visibility ctx_status ctx_sensitivity ctx_subject_kind ctx_origin_session_id
    ctx_origin_session_matches ctx_structural_anchor_matches ctx_imported_provenance
    ctx_publication_approved ctx_branch_allows_visibility ctx_transport_kind].
  destruct (scope_facts m Hscope) as (Hsub & Hrole & Hep & Hscene).
  apply reject_if_pass.
  { destruct (ms_origin_session_id m) as [o|]; [|done]. simpl in Horig.
    unfold require_uuid7. by rewrite Horig. }
  apply group_pass; [done|]. apply reject_if_pass; [lia|]. apply reject_if_pass; [done|].
  apply group_pass.
  { apply guarded_pass. intros Hs%bool_decide_eq_true. rewrite Hs in Hsub.
    apply reject_if_pass; [by rewrite Hsub|]. apply raise_if_Ok, bool_decide_eq_false. auto. }
  apply group_pass.
  { destruct (SCOPED_SUBJECT_KINDS (ms_scope m)) as [k|] eqn:Hk; [|done].
    apply reject_if_pass; [|done]. apply bool_decide_eq_false. rewrite Hsub. clear -Hk.
    intros Hne. apply Hne. destruct (ms_scope m); simpl in *; by simplify_eq. }
  apply reject_if_pass.
  { apply andb_false_iff. destruct (bool_decide _) eqn:Hs; [right|by left]. apply bool_decide_eq_true in Hs.
    destruct (Hep Hs) as [Ho|Ha].
    - rewrite (bool_decide_true _ Ho). by rewrite (proj2 (is_none_false _) Ho).
    - by rewrite (bool_decide_true (ms_authority_class m = _) Ha), orb_true_r. }
  apply group_pass.
  { apply guarded_pass. intros Hs%bool_decide_eq_true. destruct (Hscene Hs) as [Ho Hvis]. rewrite Hs in Hsub.
    apply reject_if_pass; [by rewrite Hsub|]. apply reject_if_pass; [done|].
    apply reject_if_pass; [|by apply raise_if_Ok, bool_decide_eq_false].
    by rewrite (bool_decide_true _ Ho), (proj2 (is_none_false _) Ho). }
  apply reject_if_pass.
  { apply andb_false_iff. destruct (bool_decide _) eqn:Hs; [right|by left]. apply bool_decide_eq_true in Hs.
    specialize (Hshare Hs). lia. }
  apply group_pass.
  { apply guarded_pass. intros Hs%bool_decide_eq_true. destruct (Hpub Hs) as (Hst & H0 & Hat & Hby).
    apply reject_if_pass; [by rewrite Hst|]. apply reject_if_pass; [lia|].
    apply raise_if_Ok. by rewrite (proj2 (is_none_false _) Hat), (proj2 (is_none_false _) Hby). }
  unfold reject_if, raise_if. by repeat destruct (_ && _).
Qed.

(** ** Authority *)

(** The standing of the principal behind an event at the time of the append. *)
Record live_authority (now : instant) (s : StoreState) (e : MemoryEvent) (b : TransportBinding) : Prop := {
  la_binding : st_bindings s !! e_transport_binding_id e = Some b;
  la_principal : tb_tenant_id b = e_tenant_id e /\ tb_actor_id b = e_actor_id e /\ tb_client_id b = e_client_id e;
  la_actor : exists a, st_actors s !! e_actor_id e = Some a /\ ac_tenant_id a = e_tenant_id e /\
    ac_revoked_at a = None;
  la_client : exists c, st_clients s !! e_client_id e = Some c /\ cl_tenant_id c = e_tenant_id e /\
    cl_transport_kind c = tb_transport_kind b /\ cl_revoked_at c = None;
  la_valid : forall limit, tb_valid_until b = Some limit -> now < limit;
  la_installation : forall i, tb_installation_id b = Some i ->
    exists r, st_installations s !! i = Some r /\ in_tenant_id r = e_tenant_id e /\ in_revoked_at r = None;
  la_relay : tb_transport_kind b = "relay"%string -> tb_installation_id b <> None;
  la_operation : exists ops, dict_get (py "operations") (tb_authorized_operations b) = Some (JArray ops) /\
    JStr (py (EventOperation.value (e_operation e))) ∈ ops
}.

(** What the transport may carry in one after-image. *)
Record carries (authorization : option LegacyGenesisPlaintextAuthorization) (b : TransportBinding)
    (e : MemoryEvent) (m : MemoryState) : Prop := {
  ca_github : tb_transport_kind b = "github_ingress"%string ->
    (e_operation e = EventOperation.OBSERVED \/ e_operation e = EventOperation.REMEMBERED) /\
    is_v3 m = false /\ ms_scope m <> MemoryScope.GLOBAL /\ ms_scope m <> MemoryScope.SCENE_LOCAL;
  ca_relay : tb_transport_kind b = "relay"%string -> ms_sensitivity m <> 4;
  ca_sealed : ms_sensitivity m = 4 ->
    is_v3 m = true \/
    authorization = Some ADR0014_FIRST_IMPORT /\ tb_transport_kind b = "internal_service"%string /\
    e_operation e = EventOperation.OBSERVED /\ ms_status m = MemoryStatus.CANDIDATE /\
    ms_visibility m = MemoryVisibility.PRIVATE_ROOT /\
    ms_authority_class m = AuthorityClass.IMPORTED_LEGACY_MEMORY
}.

Section Authority.
Context `{R : Rfc8785} `{P : Pydantic} `{D : Database}.

Lemma check_binding_Ok now s e b :
  check_binding now s e = Ok b ->
  operation_is_authorized b (e_operation e) = true -> live_authority now s e b.
Proof.
  unfold check_binding. intros Hc Hop. apply bind_Ok in Hc as ([[[b' ar] cr] inst] & Hid & Hc).
  apply from_option_or_Ok in Hid. keep_check Hc Hrev. keep_check Hc Hexp. keep_check Hc Hinst.
  injection Hc as ->. apply raise_if_Ok in Hrev, Hexp. apply orb_false_iff in Hrev as [Har Hcr].
  apply negb_false_iff in Har, Hcr.
  unfold binding_identity in Hid.
  apply bind_Some in Hid as (b1 & Hb & Hid). apply bind_Some in Hid as (Hpr & _ & Hid).
  apply bind_Some in Hid as (a & Ha & Hid). apply bind_Some in Hid as (Hat & _ & Hid).
  apply bind_Some in Hid as (c & Hcl & Hid). apply bind_Some in Hid as ([Hct Hck] & _ & Hid).
  cbv zeta in Hid. injection Hid as -> <- <- Hi. destruct Hpr as (Ht & Hac & Hcc).
  split; try done.
  - exists a. rewrite <- Hac, <- Ht. destruct (ac_revoked_at a); done.
  - exists c. rewrite <- Hcc, <- Ht. destruct (cl_revoked_at c); done.
  - intros limit Hl. rewrite Hl in Hexp. lia.
  - intros i Hbi. rewrite Hbi in Hinst, Hi. cbn [is_none negb] in Hinst.
    apply bind_Ok in Hinst as (row & Hrow & Hr). apply from_option_or_Ok in Hrow. rewrite Hrow in Hi.
    cbn [mbind option_bind] in Hi. apply bind_Some in Hi as (row' & Hl & Hi).
    apply bind_Some in Hi as (Htr & _ & [= ->]). exists row. apply raise_if_Ok, negb_false_iff in Hr.
    rewrite Hl, Htr, <- Ht. destruct (in_revoked_at row); done.
  - intros Hk Hn. rewrite Hn in Hinst. cbn [is_none negb] in Hinst. apply raise_if_Ok in Hinst.
    by apply bool_decide_eq_false in Hinst.
  - clear -Hop. revert Hop. unfold operation_is_authorized. destruct (negb _); [done|].
    destruct (dict_get _ _) as [[| | | | |ops|]|]; try done. intros Hop. exists ops. split; [done|].
    apply andb_true_iff in Hop as [_ Hop]. by apply bool_decide_eq_true in Hop.
Qed.

Lemma constraints_transport c :
  validate_memory_constraints c = Ok tt ->
  (ctx_transport_kind c = TransportKind.GITHUB_INGRESS ->
     ctx_scope c <> MemoryScope.GLOBAL /\ ctx_scope c <> MemoryScope.SCENE_LOCAL) /\
  (ctx_transport_kind c = TransportKind.RELAY -> ctx_sensitivity c <> 4).
Proof.
  unfold validate_memory_constraints. intros Hv. do 10 skip_check Hv. keep_check Hv Hg.
  apply raise_if_Ok in Hg, Hv. split; intros Hk.
  - rewrite Hk, bool_decide_true in Hg by done. apply bool_decide_eq_false in Hg. set_solver.
  - rewrite Hk, bool_decide_true in Hv by done. simpl in Hv. lia.
Qed.

Lemma legacy_facts b e m :
  is_authorized_legacy_genesis_plaintext b e m = Ok true ->
  tb_transport_kind b = "internal_service"%string /\ e_operation e = EventOperation.OBSERVED /\
  ms_status m = MemoryStatus.CANDIDATE /\ ms_visibility m = MemoryVisibility.PRIVATE_ROOT /\
  ms_authority_class m = AuthorityClass.IMPORTED_LEGACY_MEMORY.
Proof.
  unfold is_authorized_legacy_genesis_plaintext. intros Hl. apply bind_Ok in Hl as (p & _ & [= Hl]).
  destruct p; try (by rewrite andb_false_r in Hl).
  rewrite !andb_true_iff, !bool_decide_eq_true in Hl. tauto.
Qed.

Lemma check_after_image_Ok authorization b e kind m :
  tb_transport_kind b = TransportKind.value kind ->
  check_after_image authorization b e kind m = Ok tt ->
  (kind = TransportKind.GITHUB_INGRESS ->
     (e_operation e = EventOperation.OBSERVED \/ e_operation e = EventOperation.REMEMBERED) /\ is_v3 m = false) ->
  carries authorization b e m.
Proof.
  intros Hb Hc Hg. unfold check_after_image in Hc. keep_check Hc Hv.
  assert (Hv' : validate_memory_constraints (constraint_context m kind) = Ok tt).
  { unfold rename_constraint_error in Hv. by repeat case_match. }
  apply constraints_transport in Hv' as [Hscope Hrelay]. cbn in Hscope, Hrelay.
  assert (Hkind : forall k, TransportKind.value kind = TransportKind.value k -> kind = k).
  { intros k Hk. by apply (enum_value_inj (E := TransportKind)). }
  split.
  - intros Hk. rewrite Hb in Hk. apply (Hkind TransportKind.GITHUB_INGRESS) in Hk. tauto.
  - intros Hk. rewrite Hb in Hk. apply (Hkind TransportKind.RELAY) in Hk. auto.
  - intros H4. rewrite H4 in Hc. destruct (is_v3 m); [by left|right]. cbn [Z.eqb Pos.eqb andb negb] in Hc.
    apply bind_Ok in Hc as (legacy & Hl & Hc). apply raise_if_Ok, negb_false_iff in Hc as ->.
    destruct authorization as [[]|]; [|done]. split; [done|]. by apply legacy_facts.
Qed.

Lemma validate_transport_Ok authorization b e :
  validate_transport authorization b e = Ok tt ->
  operation_is_authorized b (e_operation e) = true /\
  exists images, after_images e = Ok images /\ Forall (carries authorization b e) images.
Proof.
  unfold validate_transport. intros Ht. keep_check Ht Hop. apply raise_if_Ok, negb_false_iff in Hop.
  split; [done|]. keep_check Ht Hg. unfold validate_after_image_constraints in Ht.
  apply bind_Ok in Ht as (kind & Hkind & Ht). apply from_option_or_Ok, enum_of_value_spec in Hkind.
  apply bind_Ok in Ht as (images & Hi & Ht). exists images. split; [done|].
  apply each_Ok in Ht. rewrite Forall_forall in *. intros m Hm.
  apply (check_after_image_Ok _ _ _ kind); [done|by apply Ht|]. intros ->.
  unfold is_github in Hg. rewrite bool_decide_true in Hg by (by rewrite <- Hkind).
  keep_check Hg H1. skip_check Hg. rewrite Hi in Hg. cbn [mbind result_bind] in Hg.
  apply raise_if_Ok in H1, Hg. apply bool_decide_eq_false, dec_stable in H1.
  split; [set_solver|]. rewrite existsb_false in Hg. by apply Hg.
Qed.

(** C15: an event enters the log only under live authority.  A successful
    append was made through a binding of the event's own tenant, actor and
    client, none of them revoked, not expired, its installation live, whose
    policy names the operation; and each memory the event writes is one the
    transport may carry, sensitivity four only sealed except for the one
    frozen import. *)
Theorem append_requires_live_authority (now : instant) (builder : Z -> result MemoryEvent)
    (authorization : option LegacyGenesisPlaintextAuthorization) (s s' : StoreState) (e : MemoryEvent) :
  append_memory_event now builder authorization s = Ok (s', e) ->
  exists b images, live_authority now s e b /\ after_images e = Ok images /\
    Forall (carries authorization b e) images.
Proof.
  intros Ha. apply append_Ok in Ha as (n & b & ingress & row & _ & _ & _ & Hc & Ht & _).
  apply validate_transport_Ok in Ht as (Hop & images & Hi & Hall).
  exists b, images. split; [by apply check_binding_Ok|done].
Qed.
End Authority.

(** ** A GitHub append, as witness *)

Definition with_ingress (e : MemoryEvent) (ingress_id : UUID) : MemoryEvent :=
  {| e_schema_version := e_schema_version e; e_payload_version := e_payload_version e;
     e_sequence := e_sequence e; e_event_id := e_event_id e; e_tenant_id := e_tenant_id e;
     e_lineage_id := e_lineage_id e; e_branch_id := e_branch_id e; e_actor_id := e_actor_id e;
     e_client_id := e_client_id e; e_transport_binding_id := e_transport_binding_id e;
     e_session_id := e_session_id e; e_ingress_id := Some ingress_id; e_operation := e_operation e;
     e_memory_id := e_memory_id e; e_expected_revision := e_expected_revision e;
     e_causation_event_id := e_causation_event_id e; e_correlation_id := e_correlation_id e;
     e_idempotency_key := e_idempotency_key e; e_policy_version := e_policy_version e;
     e_normalization_version := e_normalization_version e; e_payload := e_payload e;
     e_payload_canonical := e_payload_canonical e; e_payload_sha256 := e_payload_sha256 e;
     e_command_sha256 := e_command_sha256 e; e_created_at := e_created_at e |}.

Definition github_memory : MemoryState :=
  sample_memory MEMORY_1 TENANT_A BRANCH_A 1 1 1 MemoryStatus.ACTIVE.

Definition github_pydantic : Pydantic := table_pydantic [MemoryCreatedPayload github_memory []].

Definition github_event : MemoryEvent :=
  with_ingress (sample_event 1 TENANT_A BRANCH_A EventOperation.REMEMBERED 1 (Some MEMORY_1) None) (uid 12).

Definition github_store : StoreState := {|
  st_counter := Some 1; st_events := [];
  st_bindings := {[ uid 8 := {|
    tb_tenant_id := TENANT_A; tb_actor_id := uid 6; tb_client_id := uid 7;
    tb_transport_kind := "github_ingress"; tb_installation_id := Some (uid 11);
    tb_authorized_operations := [(py "operations", JArray [JStr (py "remembered")])];
    tb_valid_until := Some 100 |} ]};
  st_actors := {[ uid 6 := {| ac_tenant_id := TENANT_A; ac_revoked_at := None |} ]};
  st_clients := {[ uid 7 := {| cl_tenant_id := TENANT_A; cl_transport_kind := "github_ingress";
                               cl_revoked_at := None |} ]};
  st_installations := {[ uid 11 := {| in_tenant_id := TENANT_A; in_revoked_at := None |} ]};
  st_ingress := {[ uid 12 := {|
    ii_tenant_id := TENANT_A; ii_transport_binding_id := uid 8; ii_installation_id := uid 11;
    ii_actor_id := uid 6; ii_client_id := uid 7; ii_provider := "github";
    ii_declared_idempotency_key := Some (py "key"); ii_state := "validated";
    ii_result_event_id := None; ii_result_memory_id := None; ii_error_code := None;
    ii_safe_diagnostic := None; ii_validated_at := Some 1; ii_processed_at := None |} ]}
|}.

(** A database that accepts every flush. *)
Definition accepting_database : Database := {|
  insert_event_error := fun _ _ => None; update_ingress_error := fun _ _ => None
|}.

#[local] Existing Instance github_pydantic | 0.
#[local] Existing Instance accepting_database.

Definition github_appended : StoreState :=
  match append_memory_event 5 (fun _ => Ok github_event) None github_store with
  | Ok (s, _) => s
  | Err _ => github_store
  end.

Lemma github_append :
  append_memory_event 5 (fun _ => Ok github_event) None github_store = Ok (github_appended, github_event).
Proof. vm_compute. reflexivity. Qed.

Lemma github_event_valid : model_validate github_event = Ok github_event.
Proof. vm_compute. reflexivity. Qed.

Lemma github_reachable : store_reachable github_appended.
Proof.
  exists github_store. split; [by split|]. apply rtc_once.
  apply (step_append _ _ 5 (fun _ => Ok github_event) None github_event); [|exact github_append].
  intros n e [= <-]. exact github_event_valid.
Qed.

Lemma event_log_contiguous_and_verified_witness : st_counter github_appended = Some 2.
Proof. exact (proj1 (event_log_contiguous_and_verified github_appended github_reachable)). Defined.

Lemma ingress_consumed_once_witness :
  NoDup (omap r_ingress_id (st_events github_appended)) /\
  omap r_ingress_id (st_events github_appended) = [uid 12].
Proof.
  split; [exact (proj1 (ingress_consumed_once github_appended github_reachable))|].
  vm_compute. reflexivity.
Defined.

Lemma event_row_roundtrip_witness :
  exists row, event_row github_event = Ok row /\ event_row_to_domain row = Ok github_event.
Proof.
  destruct (event_row_roundtrip github_event github_event_valid) as (row & b & Hrow & Hb & _ & Hback).
  exists row. split; [done|]. apply Hback. vm_compute in Hb. injection Hb as <-. reflexivity.
Defined.

Lemma after_image_constraints_agree_witness :
  validate_memory_constraints (constraint_context github_memory TransportKind.RELAY) = Ok tt.
Proof.
  rewrite (after_image_constraints_agree github_memory TransportKind.RELAY); reflexivity.
Defined.

Lemma append_requires_live_authority_witness :
  exists b images, live_authority 5 github_store github_event b /\
    after_images github_event = Ok images /\ Forall (carries None b github_event) images.
Proof.
  exact (append_requires_live_authority 5 (fun _ => Ok github_event) None github_store github_appended
           github_event github_append).
Defined.
