(* ===== verification/ProjectionRows.v ===== *)
(** * ProjectionRows: projection rows and the after-images they store

    Models the row mappings of [storage/projector.py]: each after-image of the
    projection is written to a row whose enumerations are wire strings and whose
    digests and sealed columns are bytes, and read back through pydantic's
    validation. *)

From stdpp Require Import base tactics option list gmap strings.
From Stdlib Require Import ZArith Lia Bool.
From S2P Require Import Prelude Identifiers Enums Values CanonicalJson Digest Constraints Events EventStore EventStoreTheorems.
Open Scope Z_scope.

(** ** Columns *)

Definition content_protection_value (p : ContentProtection) : string :=
  match p with
  | plaintext => "plaintext"
  | envelope_encrypted => "envelope_encrypted"
  | cryptographically_erased => "cryptographically_erased"
  end.

Definition content_protection_of_value (wire : string) : option ContentProtection :=
  List.find (fun p => String.eqb (content_protection_value p) wire)
    [plaintext; envelope_encrypted; cryptographically_erased].

Definition SEALED_ENVELOPE_VERSION : Z := 1.
Definition SEALED_ALGORITHM : string := "AES-256-GCM".

(** [EnumType(row.column)] *)
Definition enum_column (E : Type) `{StrEnum E} (wire : string) : result E :=
  from_option_or (enum_of_value E wire) (ValueError "not a valid enumeration member").

(** [decode(value) if value is not None else None] *)
Definition option_column (decode : pystr -> option bytes) (value : option pystr)
    : result (option bytes) :=
  match value with
  | None => Ok None
  | Some text => b ← from_option_or (decode text) (ValueError "column encoding"); Ok (Some b)
  end.

(** ** Memories *)

Record MemoryRow : Type := {
  mr_memory_id : UUID; mr_tenant_id : UUID; mr_lineage_id : UUID; mr_branch_id : UUID;
  mr_subject_id : UUID; mr_subject_kind : string; mr_origin_session_id : option UUID;
  mr_revision : Z; mr_category : string; mr_ontological_status : string; mr_scope : string;
  mr_visibility : string; mr_status : string; mr_statement : option pystr;
  mr_reason_to_remember : option pystr; mr_interpretation_limits : list pystr;
  mr_confidence : Decimal; mr_salience : Decimal; mr_durability : Decimal; mr_sensitivity : Z;
  mr_authority_class : string; mr_valid_from : option instant; mr_valid_to : option instant;
  mr_observed_at : option instant; mr_created_at : instant; mr_updated_at : instant;
  mr_candidate_expires_at : option instant; mr_normalized_fingerprint : option bytes;
  mr_fingerprint_version : Z; mr_metadata : json_dict; mr_publication_approved_at : option instant;
  mr_publication_approved_by_actor_id : option UUID; mr_content_protection : string;
  mr_content_key_id : option UUID; mr_sealed_envelope_version : option Z;
  mr_sealed_algorithm : option string; mr_sealed_nonce : option bytes;
  mr_sealed_ciphertext : option bytes; mr_sealed_aad_sha256 : option bytes;
  mr_safe_summary : option pystr; mr_last_event_id : UUID
}.

(** The byte columns of a sealed envelope. *)
Record SealedColumns : Type := { sb_nonce : bytes; sb_ciphertext : bytes; sb_aad_sha256 : bytes }.

Definition sealed_columns (s : SealedContentEnvelopeState) : result SealedColumns :=
  nonce ← from_option_or (b64decode (sc_nonce s)) (ValueError "column encoding");
  ciphertext ← from_option_or (b64decode (sc_ciphertext s)) (ValueError "column encoding");
  aad ← from_option_or (fromhex (sc_aad_sha256 s)) (ValueError "column encoding");
  Ok {| sb_nonce := nonce; sb_ciphertext := ciphertext; sb_aad_sha256 := aad |}.

Definition memory_state_to_row (m : MemoryState) (last_event_id : UUID) : result MemoryRow :=
  let sealed := ms_sealed_content m in
  fingerprint ← option_column fromhex (ms_normalized_fingerprint m);
  columns ← match sealed with
            | Some s => b ← sealed_columns s; Ok (Some b)
            | None => Ok None
            end;
  Ok {| mr_memory_id := ms_memory_id m; mr_tenant_id := ms_tenant_id m;
        mr_lineage_id := ms_lineage_id m; mr_branch_id := ms_branch_id m;
        mr_subject_id := ms_subject_id m; mr_subject_kind := SubjectKind.value (ms_subject_kind m);
        mr_origin_session_id := ms_origin_session_id m; mr_revision := ms_revision m;
        mr_category := MemoryCategory.value (ms_category m);
        mr_ontological_status := OntologicalStatus.value (ms_ontological_status m);
        mr_scope := MemoryScope.value (ms_scope m);
        mr_visibility := MemoryVisibility.value (ms_visibility m);
        mr_status := MemoryStatus.value (ms_status m); mr_statement := ms_statement m;
        mr_reason_to_remember := ms_reason_to_remember m;
        mr_interpretation_limits := ms_interpretation_limits m; mr_confidence := ms_confidence m;
        mr_salience := ms_salience m; mr_durability := ms_durability m;
        mr_sensitivity := ms_sensitivity m;
        mr_authority_class := AuthorityClass.value (ms_authority_class m);
        mr_valid_from := ms_valid_from m; mr_valid_to := ms_valid_to m;
        mr_observed_at := ms_observed_at m; mr_created_at := ms_created_at m;
        mr_updated_at := ms_updated_at m; mr_candidate_expires_at := ms_candidate_expires_at m;
        mr_normalized_fingerprint := fingerprint;
        mr_fingerprint_version := ms_fingerprint_version m; mr_metadata := ms_metadata m;
        mr_publication_approved_at := ms_publication_approved_at m;
        mr_publication_approved_by_actor_id := ms_publication_approved_by_actor_id m;
        mr_content_protection := content_protection_value (ms_content_protection m);
        mr_content_key_id := ms_content_key_id m;
        mr_sealed_envelope_version := (fun _ => SEALED_ENVELOPE_VERSION) <$> sealed;
        mr_sealed_algorithm := (fun _ => SEALED_ALGORITHM) <$> sealed;
        mr_sealed_nonce := sb_nonce <$> columns; mr_sealed_ciphertext := sb_ciphertext <$> columns;
        mr_sealed_aad_sha256 := sb_aad_sha256 <$> columns;
        mr_safe_summary := sc_safe_summary <$> sealed; mr_last_event_id := last_event_id |}.

(** The sealed columns of a protected row; all must be present. *)
Definition stored_envelope (row : MemoryRow) : option SealedColumns :=
  nonce ← mr_sealed_nonce row; ciphertext ← mr_sealed_ciphertext row; aad ← mr_sealed_aad_sha256 row;
  Some {| sb_nonce := nonce; sb_ciphertext := ciphertext; sb_aad_sha256 := aad |}.

(** The nested envelope as [model_validate] reads it: literal fields must have
    their one value, required fields must be present. *)
Definition read_envelope (row : MemoryRow) (c : SealedColumns) : result SealedContentEnvelopeState :=
  require (bool_decide (mr_sealed_envelope_version row = Some SEALED_ENVELOPE_VERSION)
           && bool_decide (mr_sealed_algorithm row = Some SEALED_ALGORITHM))
    (ValidationError "sealed_content");;
  key ← from_option_or (mr_content_key_id row) (ValidationError "sealed_content");
  summary ← from_option_or (mr_safe_summary row) (ValidationError "sealed_content");
  Ok {| sc_content_key_id := key; sc_nonce := b64encode (sb_nonce c);
        sc_ciphertext := b64encode (sb_ciphertext c); sc_aad_sha256 := hex_of_bytes (sb_aad_sha256 c);
        sc_safe_summary := summary |}.

(** The class the row is read as, with the fields that class adds. *)
Definition row_version (row : MemoryRow) : result MemoryVersion :=
  let protected := bool_decide (mr_content_protection row ∈
                     ["envelope_encrypted"; "cryptographically_erased"]%string) in
  if protected then
    columns ← from_option_or (stored_envelope row)
      (ProjectionPersistenceError "invalid_sealed_projection");
    sealed ← read_envelope row columns;
    Ok (MemoryStateV3 (mr_candidate_expires_at row) sealed)
  else match mr_candidate_expires_at row with
       | Some deadline => Ok (MemoryStateV2 (Some deadline))
       | None => Ok MemoryStateV1
       end.

Definition memory_row_to_state (row : MemoryRow) : result MemoryState :=
  subject_kind ← enum_column SubjectKind (mr_subject_kind row);
  category ← enum_column MemoryCategory (mr_category row);
  ontological_status ← enum_column OntologicalStatus (mr_ontological_status row);
  scope ← enum_column MemoryScope (mr_scope row);
  visibility ← enum_column MemoryVisibility (mr_visibility row);
  status ← enum_column MemoryStatus (mr_status row);
  authority_class ← enum_column AuthorityClass (mr_authority_class row);
  version ← row_version row;
  protection ← from_option_or (content_protection_of_value (mr_content_protection row))
    (ValidationError "content_protection");
  confidence ← except_value_error (normalize_unit_score (mr_confidence row)) (ValidationError "confidence");
  salience ← except_value_error (normalize_unit_score (mr_salience row)) (ValidationError "salience");
  durability ← except_value_error (normalize_unit_score (mr_durability row)) (ValidationError "durability");
  let m := {|
    ms_version := version; ms_memory_id := mr_memory_id row; ms_tenant_id := mr_tenant_id row;
    ms_lineage_id := mr_lineage_id row; ms_branch_id := mr_branch_id row;
    ms_subject_id := mr_subject_id row; ms_subject_kind := subject_kind;
    ms_revision := mr_revision row; ms_category := category;
    ms_ontological_status := ontological_status; ms_scope := scope; ms_visibility := visibility;
    ms_status := status; ms_statement := mr_statement row;
    ms_reason_to_remember := mr_reason_to_remember row;
    ms_interpretation_limits := mr_interpretation_limits row; ms_confidence := confidence;
    ms_salience := salience; ms_durability := durability; ms_sensitivity := mr_sensitivity row;
    ms_authority_class := authority_class; ms_valid_from := mr_valid_from row;
    ms_valid_to := mr_valid_to row; ms_observed_at := mr_observed_at row;
    ms_origin_session_id := mr_origin_session_id row;
    ms_publication_approved_at := mr_publication_approved_at row;
    ms_publication_approved_by_actor_id := mr_publication_approved_by_actor_id row;
    ms_content_protection := protection; ms_content_key_id := mr_content_key_id row;
    ms_created_at := mr_created_at row; ms_updated_at := mr_updated_at row;
    ms_fingerprint_version := mr_fingerprint_version row;
    ms_normalized_fingerprint := hex_of_bytes <$> mr_normalized_fingerprint row;
    ms_metadata := mr_metadata row |} in
  except_value_error (validate_memory m) (ValidationError "memory");;
  Ok m.

(** ** Evidence *)

Record EvidenceRow : Type := {
  er_evidence_id : UUID; er_tenant_id : UUID; er_lineage_id : UUID; er_branch_id : UUID;
  er_memory_id : UUID; er_source_event_id : UUID; er_source_type : pystr;
  er_source_reference : json_dict; er_excerpt : option pystr; er_occurred_at : option instant;
  er_content_sha256 : option bytes; er_trust_classification : pystr; er_status : string;
  er_created_at : instant; er_metadata : json_dict
}.

Definition evidence_state_to_row (i : EvidenceState) (source_event_id : UUID) : result EvidenceRow :=
  digest ← option_column fromhex (es_content_sha256 i);
  Ok {| er_evidence_id := es_evidence_id i; er_tenant_id := es_tenant_id i;
        er_lineage_id := es_lineage_id i; er_branch_id := es_branch_id i;
        er_memory_id := es_memory_id i; er_source_event_id := source_event_id;
        er_source_type := es_source_type i; er_source_reference := es_source_reference i;
        er_excerpt := es_excerpt i; er_occurred_at := es_occurred_at i; er_content_sha256 := digest;
        er_trust_classification := es_trust_classification i; er_status := "active";
        er_created_at := es_created_at i; er_metadata := es_metadata i |}.

Definition evidence_row_to_state (row : EvidenceRow) : result EvidenceState :=
  require (bool_decide (er_status row = "active"%string)) (ValidationError "status");;
  let i := {|
    es_evidence_id := er_evidence_id row; es_tenant_id := er_tenant_id row;
    es_lineage_id := er_lineage_id row; es_branch_id := er_branch_id row;
    es_memory_id := er_memory_id row; es_source_type := er_source_type row;
    es_source_reference := er_source_reference row; es_excerpt := er_excerpt row;
    es_occurred_at := er_occurred_at row; es_content_sha256 := hex_of_bytes <$> er_content_sha256 row;
    es_trust_classification := er_trust_classification row; es_status := evidence_active;
    es_created_at := er_created_at row; es_metadata := er_metadata row |} in
  except_value_error (validate_evidence i) (ValidationError "evidence");;
  Ok i.

(** ** Links *)

Definition link_status_value (x : LinkStatus) : string :=
  match x with link_active => "active" | link_unlinked => "unlinked" end.

Record LinkRow : Type := {
  lr_link_id : UUID; lr_tenant_id : UUID; lr_lineage_id : UUID; lr_branch_id : UUID;
  lr_source_memory_id : UUID; lr_target_memory_id : UUID; lr_link_type : string; lr_status : string;
  lr_created_event_id : UUID; lr_unlinked_event_id : option UUID; lr_created_at : instant;
  lr_unlinked_at : option instant; lr_metadata : json_dict
}.

Definition link_state_to_row (l : LinkState) (created_event_id : UUID) (unlinked_event_id : option UUID)
    : LinkRow :=
  {| lr_link_id := ls_link_id l; lr_tenant_id := ls_tenant_id l; lr_lineage_id := ls_lineage_id l;
     lr_branch_id := ls_branch_id l; lr_source_memory_id := ls_source_memory_id l;
     lr_target_memory_id := ls_target_memory_id l; lr_link_type := LinkType.value (ls_link_type l);
     lr_status := link_status_value (ls_status l); lr_created_event_id := created_event_id;
     lr_unlinked_event_id := unlinked_event_id; lr_created_at := ls_created_at l;
     lr_unlinked_at := ls_unlinked_at l; lr_metadata := ls_metadata l |}.

Definition link_row_to_state (row : LinkRow) : result LinkState :=
  link_type ← enum_column LinkType (lr_link_type row);
  status ← from_option_or
    (List.find (fun x => String.eqb (link_status_value x) (lr_status row)) [link_active; link_unlinked])
    (ValidationError "status");
  let l := {|
    ls_link_id := lr_link_id row; ls_tenant_id := lr_tenant_id row; ls_lineage_id := lr_lineage_id row;
    ls_branch_id := lr_branch_id row; ls_source_memory_id := lr_source_memory_id row;
    ls_target_memory_id := lr_target_memory_id row; ls_link_type := link_type; ls_status := status;
    ls_created_at := lr_created_at row; ls_unlinked_at := lr_unlinked_at row;
    ls_metadata := lr_metadata row |} in
  except_value_error (validate_link l) (ValidationError "link");;
  Ok l.

(** ** Conflicts *)

Definition conflict_status_value (x : ConflictStatus) : string :=
  match x with conflict_open => "open" | conflict_resolved => "resolved" end.

Record ConflictRow : Type := {
  kr_conflict_id : UUID; kr_tenant_id : UUID; kr_lineage_id : UUID; kr_branch_id : UUID;
  kr_subject_id : UUID; kr_status : string; kr_reason : pystr; kr_resolution_kind : option pystr;
  kr_resolution_rationale : option pystr; kr_opened_event_id : UUID;
  kr_resolution_event_id : option UUID; kr_opened_at : instant; kr_resolved_at : option instant;
  kr_metadata : json_dict
}.

Definition conflict_state_to_row (c : ConflictState) (opened_event_id : UUID)
    (resolution_event_id : option UUID) : ConflictRow :=
  {| kr_conflict_id := cs_conflict_id c; kr_tenant_id := cs_tenant_id c;
     kr_lineage_id := cs_lineage_id c; kr_branch_id := cs_branch_id c;
     kr_subject_id := cs_subject_id c; kr_status := conflict_status_value (cs_status c);
     kr_reason := cs_reason c; kr_resolution_kind := cs_resolution_kind c;
     kr_resolution_rationale := cs_resolution_rationale c; kr_opened_event_id := opened_event_id;
     kr_resolution_event_id := resolution_event_id; kr_opened_at := cs_opened_at c;
     kr_resolved_at := cs_resolved_at c; kr_metadata := cs_metadata c |}.

Definition conflict_row_to_state (row : ConflictRow) : result ConflictState :=
  status ← from_option_or
    (List.find (fun x => String.eqb (conflict_status_value x) (kr_status row))
       [conflict_open; conflict_resolved]) (ValidationError "status");
  let c := {|
    cs_conflict_id := kr_conflict_id row; cs_tenant_id := kr_tenant_id row;
    cs_lineage_id := kr_lineage_id row; cs_branch_id := kr_branch_id row;
    cs_subject_id := kr_subject_id row; cs_status := status; cs_reason := kr_reason row;
    cs_resolution_kind := kr_resolution_kind row; cs_resolution_rationale := kr_resolution_rationale row;
    cs_opened_at := kr_opened_at row; cs_resolved_at := kr_resolved_at row;
    cs_metadata := kr_metadata row |} in
  except_value_error (validate_conflict c) (ValidationError "conflict");;
  Ok c.

Record MemberRow : Type := {
  br_tenant_id : UUID; br_lineage_id : UUID; br_conflict_id : UUID; br_memory_id : UUID;
  br_disposition : pystr; br_joined_at : instant; br_last_event_id : UUID
}.

Definition conflict_member_row_to_state (row : MemberRow) : result ConflictMemberState :=
  let x := {| cm_conflict_id := br_conflict_id row; cm_memory_id := br_memory_id row;
              cm_disposition := br_disposition row; cm_joined_at := br_joined_at row |} in
  except_value_error (validate_conflict_member x) (ValidationError "conflict member");;
  Ok x.

(** ** What a row keeps of its after-image *)

(** The fields of [m] in another class. *)
Definition with_version (m : MemoryState) (version : MemoryVersion) : MemoryState := {|
  ms_version := version;
  ms_memory_id := ms_memory_id m; ms_tenant_id := ms_tenant_id m; ms_lineage_id := ms_lineage_id m;
  ms_branch_id := ms_branch_id m; ms_subject_id := ms_subject_id m;
  ms_subject_kind := ms_subject_kind m; ms_revision := ms_revision m; ms_category := ms_category m;
  ms_ontological_status := ms_ontological_status m; ms_scope := ms_scope m;
  ms_visibility := ms_visibility m; ms_status := ms_status m; ms_statement := ms_statement m;
  ms_reason_to_remember := ms_reason_to_remember m;
  ms_interpretation_limits := ms_interpretation_limits m; ms_confidence := ms_confidence m;
  ms_salience := ms_salience m; ms_durability := ms_durability m;
  ms_sensitivity := ms_sensitivity m; ms_authority_class := ms_authority_class m;
  ms_valid_from := ms_valid_from m; ms_valid_to := ms_valid_to m;
  ms_observed_at := ms_observed_at m; ms_origin_session_id := ms_origin_session_id m;
  ms_publication_approved_at := ms_publication_approved_at m;
  ms_publication_approved_by_actor_id := ms_publication_approved_by_actor_id m;
  ms_content_protection := ms_content_protection m; ms_content_key_id := ms_content_key_id m;
  ms_created_at := ms_created_at m; ms_updated_at := ms_updated_at m;
  ms_fingerprint_version := ms_fingerprint_version m;
  ms_normalized_fingerprint := ms_normalized_fingerprint m; ms_metadata := ms_metadata m
|}.

(** The class a row is read back as: the columns do not tell a V2 after-image
    without a deadline from a V1 one. *)
Definition stored_class (m : MemoryState) : MemoryState :=
  with_version m (match ms_version m with MemoryStateV2 None => MemoryStateV1 | v => v end).
