(* ===== verification/ProjectionRowsTheorems.v ===== *)
(** * ProjectionRowsTheorems: rows read back as the after-image they store *)

From stdpp Require Import base tactics option list gmap strings.
From Stdlib Require Import ZArith Lia Bool.
From S2P Require Import Prelude Identifiers Enums Values CanonicalJson Digest Constraints Events Samples EventStore EventStoreTheorems ProjectionRows.
Open Scope Z_scope.

(** ** Columns *)

Lemma enum_column_value {E} `{StrEnum E} (x : E) : enum_column E (enum_value x) = Ok x.
Proof. unfold enum_column. by rewrite (proj2 (enum_of_value_spec _ x)). Qed.

Lemma content_protection_roundtrip p : content_protection_of_value (content_protection_value p) = Some p.
Proof. by destruct p. Qed.

Lemma option_column_digest (o : option pystr) :
  opt_ok hex_digest_ok o = true ->
  exists b, option_column fromhex o = Ok b /\ hex_of_bytes <$> b = o.
Proof.
  destruct o as [s|]; [|by exists None]. intros Hs. destruct (fromhex_digest s Hs) as (b & Hb & Hh).
  exists (Some b). simpl. rewrite Hb. split; [done|]. simpl. by rewrite Hh.
Qed.

Lemma unit_score_stable d : unit_score_ok d = true -> normalize_unit_score d = Ok d.
Proof.
  unfold unit_score_ok. destruct (normalize_unit_score d) as [d'|]; [|done].
  by intros ->%bool_decide_eq_true.
Qed.

Lemma sealed_columns_Ok s :
  validate_envelope_bounds s = Ok tt -> sealed_fields_ok s = true ->
  exists c, sealed_columns s = Ok c /\ b64encode (sb_nonce c) = sc_nonce s /\
    b64encode (sb_ciphertext c) = sc_ciphertext s /\ hex_of_bytes (sb_aad_sha256 c) = sc_aad_sha256 s.
Proof.
  unfold validate_envelope_bounds. intros Hv Hf.
  apply bind_Ok in Hv as (nonce & Hn & Hv). apply bind_Ok in Hv as (ciphertext & Hc & Hv).
  apply bind_Ok in Hv as ([] & H1 & Hv). apply bind_Ok in Hv as ([] & H2 & _).
  apply from_option_or_Ok in Hn, Hc. apply raise_if_Ok, orb_false_iff in H1 as [H1 _].
  apply raise_if_Ok, orb_false_iff in H2 as [H2 _].
  apply negb_false_iff, bool_decide_eq_true in H1, H2.
  assert (Ha : hex_digest_ok (sc_aad_sha256 s) = true).
  { unfold sealed_fields_ok in Hf. rewrite !andb_true_iff in Hf. tauto. }
  destruct (fromhex_digest _ Ha) as (aad & Haad & Hh).
  unfold sealed_columns. rewrite Hn, Hc, Haad. eexists. split; [reflexivity|done].
Qed.

(** ** Memories *)

(** What a row of [m] is read back as. *)
Definition stored_memory (m : MemoryState) : result MemoryState :=
  if bool_decide (ms_content_protection m = plaintext) then Ok (stored_class m)
  else if is_v3 m then Ok m
  else Err (ProjectionPersistenceError "invalid_sealed_projection").

Lemma validate_stored_class m : validate_memory m = Ok tt -> validate_memory (stored_class m) = Ok tt.
Proof.
  unfold validate_memory, memory_fields_ok, validate_state_shape, validate_scope_shape. cbn.
  destruct (ms_version m) as [|[d|]|d s] eqn:Ev; try (intros Hv; exact Hv).
  intros Hv. apply bind_Ok in Hv as ([] & Hf & Hv). apply bind_Ok in Hv as ([] & Hv & _).
  cbn. rewrite Hf. exact Hv.
Qed.

Lemma plain_not_v3 m : validate_memory m = Ok tt -> ms_content_protection m = plaintext -> is_v3 m = false.
Proof.
  unfold validate_memory, is_v3. intros Hv Hp. apply bind_Ok in Hv as ([] & Hf & _).
  destruct (ms_version m) eqn:Ev; try done. apply raise_if_Ok, negb_false_iff in Hf.
  unfold memory_fields_ok in Hf. rewrite Ev in Hf. rewrite !andb_true_iff, !bool_decide_eq_true in Hf. tauto.
Qed.

Lemma stored_class_id m : is_v3 m = true -> stored_class m = m.
Proof. destruct m as [v]. unfold is_v3, stored_class. simpl. by destruct v. Qed.

(** The envelope columns of a valid memory, and what they encode. *)
Lemma memory_columns m :
  validate_memory m = Ok tt ->
  exists columns,
    match ms_sealed_content m with Some s => b ← sealed_columns s; Ok (Some b) | None => Ok None end = Ok columns
    /\ match ms_sealed_content m, columns with
       | Some s, Some c => b64encode (sb_nonce c) = sc_nonce s /\
           b64encode (sb_ciphertext c) = sc_ciphertext s /\ hex_of_bytes (sb_aad_sha256 c) = sc_aad_sha256 s
           /\ ms_content_key_id m = Some (sc_content_key_id s)
       | None, None => True
       | _, _ => False
       end.
Proof.
  intros Hv. unfold validate_memory in Hv. apply bind_Ok in Hv as ([] & Hf & Hv).
  apply raise_if_Ok, negb_false_iff in Hf.
  unfold ms_sealed_content. destruct (ms_version m) as [|e|e s] eqn:Ev; [by exists None..|].
  apply bind_Ok in Hv as ([] & Hb & Hv). apply bind_Ok in Hv as ([] & Hshape & _).
  assert (Hsf : sealed_fields_ok s = true).
  { unfold memory_fields_ok in Hf. rewrite Ev in Hf. rewrite !andb_true_iff in Hf. tauto. }
  destruct (sealed_columns_Ok s Hb Hsf) as (c & Ec & H1 & H2 & H3). exists (Some c).
  rewrite Ec. split; [done|]. split; [done|]. split; [done|]. split; [done|].
  unfold validate_state_shape_v3 in Hshape. do 7 (apply bind_Ok in Hshape as ([] & _ & Hshape)).
  apply bind_Ok in Hshape as ([] & Hk & _). by apply raise_if_Ok, bool_decide_eq_false, dec_stable in Hk.
Qed.

Lemma protected_column p :
  bool_decide (content_protection_value p ∈ ["envelope_encrypted"; "cryptographically_erased"]%string)
  = negb (bool_decide (p = plaintext)).
Proof. by destruct p. Qed.

(** The columns the class of a row is decided by. *)
Record version_columns (m : MemoryState) (columns : option SealedColumns) (row : MemoryRow) : Prop := {
  vc_protection : mr_content_protection row = content_protection_value (ms_content_protection m);
  vc_expires : mr_candidate_expires_at row = ms_candidate_expires_at m;
  vc_key : mr_content_key_id row = ms_content_key_id m;
  vc_version : mr_sealed_envelope_version row = (fun _ => SEALED_ENVELOPE_VERSION) <$> ms_sealed_content m;
  vc_algorithm : mr_sealed_algorithm row = (fun _ => SEALED_ALGORITHM) <$> ms_sealed_content m;
  vc_nonce : mr_sealed_nonce row = sb_nonce <$> columns;
  vc_ciphertext : mr_sealed_ciphertext row = sb_ciphertext <$> columns;
  vc_aad : mr_sealed_aad_sha256 row = sb_aad_sha256 <$> columns;
  vc_summary : mr_safe_summary row = sc_safe_summary <$> ms_sealed_content m
}.

Lemma row_version_Ok m columns row :
  (ms_content_protection m = plaintext -> is_v3 m = false) ->
  version_columns m columns row ->
  match ms_sealed_content m, columns with
  | Some s, Some c => b64encode (sb_nonce c) = sc_nonce s /\
      b64encode (sb_ciphertext c) = sc_ciphertext s /\ hex_of_bytes (sb_aad_sha256 c) = sc_aad_sha256 s
      /\ ms_content_key_id m = Some (sc_content_key_id s)
  | None, None => True
  | _, _ => False
  end ->
  row_version row = if bool_decide (ms_content_protection m = plaintext) || is_v3 m
                    then Ok (ms_version (stored_class m))
                    else Err (ProjectionPersistenceError "invalid_sealed_projection").
Proof.
  intros Hplain [Hp He Hk Hver Halg Hn Hc Ha Hsum] Hcols.
  unfold row_version. cbv zeta. rewrite Hp, protected_column.
  destruct (decide (ms_content_protection m = plaintext)) as [Epl|Epl].
  - specialize (Hplain Epl). rewrite bool_decide_true by done. cbn [negb orb]. rewrite He.
    unfold ms_candidate_expires_at, is_v3, stored_class in *. cbn [ms_version].
    by destruct (ms_version m) as [|[d|]|].
  - rewrite bool_decide_false by done. cbn [negb orb].
    unfold stored_envelope. rewrite Hn, Hc, Ha.
    unfold is_v3, ms_sealed_content, ms_candidate_expires_at in *. cbn [stored_class with_version ms_version].
    destruct (ms_version m) as [|d|d s].
    + by destruct columns.
    + by destruct columns.
    + destruct columns as [c|]; [|done]. destruct Hcols as (E1 & E2 & E3 & E4).
      cbn [fmap option_fmap option_map mbind option_bind from_option_or result_bind].
      unfold read_envelope. rewrite Hver, Halg, Hk, E4, Hsum, He. cbn -[hex_of_bytes b64encode]. rewrite E1, E2, E3. by destruct s.
Qed.

Lemma memory_row_reads_back m last_event_id :
  validate_memory m = Ok tt ->
  exists row, memory_state_to_row m last_event_id = Ok row /\ memory_row_to_state row = stored_memory m /\
    mr_memory_id row = ms_memory_id m /\ mr_tenant_id row = ms_tenant_id m /\
    mr_lineage_id row = ms_lineage_id m.
Proof.
  intros Hv. pose proof (plain_not_v3 m Hv) as Hplain. pose proof (validate_stored_class m Hv) as Hstored.
  destruct (memory_columns m Hv) as (columns & Ecols & Hcols).
  unfold validate_memory in Hv. apply bind_Ok in Hv as ([] & Hf & Hv). apply raise_if_Ok, negb_false_iff in Hf.
  assert (Hfacts : opt_ok hex_digest_ok (ms_normalized_fingerprint m) = true /\
    unit_score_ok (ms_confidence m) = true /\ unit_score_ok (ms_salience m) = true /\
    unit_score_ok (ms_durability m) = true).
  { unfold memory_fields_ok in Hf. rewrite !andb_true_iff in Hf. tauto. }
  destruct Hfacts as (Hfp & Hc & Hs & Hd). apply unit_score_stable in Hc, Hs, Hd.
  destruct (option_column_digest _ Hfp) as (fp & Efp & Hhex).
  unfold memory_state_to_row. rewrite Efp. cbn [mbind result_bind]. rewrite Ecols. cbn [mbind result_bind].
  match goal with |- exists row, Ok ?r = Ok row /\ _ => set (stored := r) end.
  exists stored. split; [done|]. split; [|done].
  assert (Hversion : version_columns m columns stored) by (by split).
  pose proof (row_version_Ok m columns stored Hplain Hversion Hcols) as Hrv.
  unfold memory_row_to_state.
  change (mr_subject_kind stored) with (enum_value (ms_subject_kind m)).
  change (mr_category stored) with (enum_value (ms_category m)).
  change (mr_ontological_status stored) with (enum_value (ms_ontological_status m)).
  change (mr_scope stored) with (enum_value (ms_scope m)).
  change (mr_visibility stored) with (enum_value (ms_visibility m)).
  change (mr_status stored) with (enum_value (ms_status m)).
  change (mr_authority_class stored) with (enum_value (ms_authority_class m)).
  rewrite !enum_column_value.
  cbn [mbind result_bind]. rewrite Hrv. unfold stored_memory.
  destruct (bool_decide (ms_content_protection m = plaintext) || is_v3 m) eqn:Eor; cbn [mbind result_bind].
  2:{ apply orb_false_iff in Eor as [-> ->]. done. }
  rewrite (content_protection_roundtrip (ms_content_protection m) :
    content_protection_of_value (mr_content_protection stored) = _).
  cbn [mbind result_bind from_option_or].
  rewrite (Hc : normalize_unit_score (mr_confidence stored) = _).
  rewrite (Hs : normalize_unit_score (mr_salience stored) = _).
  rewrite (Hd : normalize_unit_score (mr_durability stored) = _).
  cbn [except_value_error mbind result_bind].
  match goal with |- context [validate_memory ?x] => replace x with (stored_class m) end.
  2:{ unfold stored_class, with_version. f_equal; try reflexivity. symmetry. exact Hhex. }
  rewrite Hstored. cbn [except_value_error mbind result_bind].
  destruct (bool_decide (ms_content_protection m = plaintext)); [done|]. cbn [orb] in Eor. rewrite Eor.
  by rewrite stored_class_id.
Qed.

(** ** The other aggregates *)

Lemma evidence_row_reads_back i source_event_id :
  validate_evidence i = Ok tt -> es_status i = evidence_active ->
  exists row, evidence_state_to_row i source_event_id = Ok row /\ evidence_row_to_state row = Ok i.
Proof.
  intros Hv Hst. assert (Hd : opt_ok hex_digest_ok (es_content_sha256 i) = true).
  { unfold validate_evidence in Hv. apply bind_Ok in Hv as ([] & Hf & _).
    apply raise_if_Ok, negb_false_iff in Hf. rewrite !andb_true_iff in Hf. tauto. }
  destruct (option_column_digest _ Hd) as (b & Eb & Hb).
  unfold evidence_state_to_row. rewrite Eb. eexists. split; [reflexivity|].
  unfold evidence_row_to_state. cbn -[validate_evidence hex_of_bytes]. rewrite Hb.
  match goal with |- context [validate_evidence ?x] => replace x with i end.
  - by rewrite Hv.
  - destruct i. simpl in *. by subst.
Qed.

Lemma link_row_reads_back l created unlinked :
  validate_link l = Ok tt -> link_row_to_state (link_state_to_row l created unlinked) = Ok l.
Proof.
  intros Hv. unfold link_row_to_state. cbn [lr_link_type lr_status link_state_to_row].
  change (LinkType.value (ls_link_type l)) with (enum_value (ls_link_type l)). rewrite enum_column_value.
  destruct l as [? ? ? ? ? ? ? []]; cbn -[validate_link] in *; by rewrite Hv.
Qed.

Lemma conflict_row_reads_back c opened resolved :
  validate_conflict c = Ok tt -> conflict_row_to_state (conflict_state_to_row c opened resolved) = Ok c.
Proof.
  intros Hv. unfold conflict_row_to_state. destruct c as [? ? ? ? ? []]; cbn -[validate_conflict] in *; by rewrite Hv.
Qed.

Lemma member_row_reads_back tenant_id lineage_id x last_event_id :
  validate_conflict_member x = Ok tt ->
  conflict_member_row_to_state
    {| br_tenant_id := tenant_id; br_lineage_id := lineage_id; br_conflict_id := cm_conflict_id x;
       br_memory_id := cm_memory_id x; br_disposition := cm_disposition x;
       br_joined_at := cm_joined_at x; br_last_event_id := last_event_id |} = Ok x.
Proof.
  intros Hv. unfold conflict_member_row_to_state. destruct x; cbn -[validate_conflict_member] in *. by rewrite Hv.
Qed.

(** ** Properties *)

(** C34: a memory row reads back as its after-image, up to the class the columns
    can tell.  Every valid memory is storable.  Plaintext content reads back
    with every field unchanged, but a V2 memory without a candidate deadline
    reads back as a V1 memory; a sealed V3 memory reads back exactly; a
    protected memory of an older class is refused when it is read. *)
Theorem memory_row_roundtrip (m : MemoryState) (last_event_id : UUID) :
  validate_memory m = Ok tt ->
  exists row, memory_state_to_row m last_event_id = Ok row /\
    memory_row_to_state row =
      if bool_decide (ms_content_protection m = plaintext) then Ok (stored_class m)
      else if is_v3 m then Ok m
      else Err (ProjectionPersistenceError "invalid_sealed_projection").
Proof.
  intros Hv. destruct (memory_row_reads_back m last_event_id Hv) as (row & Hrow & Hread & _). eauto.
Qed.

(** An active memory without a deadline, of the second class. *)
Definition promoted_memory : MemoryState :=
  with_version (sample_memory MEMORY_1 TENANT_A BRANCH_A 2 2 5 MemoryStatus.ACTIVE) (MemoryStateV2 None).

Lemma memory_row_roundtrip_witness :
  exists row, memory_state_to_row promoted_memory (uid 102) = Ok row /\
    memory_row_to_state row = Ok (stored_class promoted_memory) /\
    stored_class promoted_memory <> promoted_memory.
Proof.
  destruct (memory_row_roundtrip promoted_memory (uid 102)) as (row & Hrow & Hread); [vm_compute; reflexivity|].
  exists row. split; [exact Hrow|]. split; [exact Hread|]. discriminate.
Defined.
