(* ===== verification/LiveProjection.v ===== *)
(** * LiveProjection: incremental persistence of one accepted event

    Models [storage/live_projection.py] and the sequence in which the command
    handlers call it ([application/mutations.py]): the event is appended, the
    rows it touches are loaded, the reducer checks it against them, and its
    after-images are staged.  Tables are finite maps by primary key.  A staged
    object waits in the session until the next statement or flush, as
    SQLAlchemy's autoflush does; a statement's effect is the updated table. *)

From stdpp Require Import base tactics option list gmap strings.
From Stdlib Require Import ZArith Lia Bool.
From S2P Require Import Prelude Identifiers Enums Values CanonicalJson Digest Constraints Events Folding EventStore ProjectionRows.
Open Scope Z_scope.

(** ** Tables *)

Record LiveTables : Type := {
  lt_memories : gmap UUID MemoryRow;
  lt_evidence : gmap UUID EvidenceRow;
  lt_links : gmap UUID LinkRow;
  lt_conflicts : gmap UUID ConflictRow;
  (* tenant, lineage, conflict, memory *)
  lt_members : gmap (UUID * UUID * UUID * UUID) MemberRow
}.

Definition set_lt_memories (t : LiveTables) (x : gmap UUID MemoryRow) : LiveTables :=
  {| lt_memories := x; lt_evidence := lt_evidence t; lt_links := lt_links t;
     lt_conflicts := lt_conflicts t; lt_members := lt_members t |}.

Definition set_lt_evidence (t : LiveTables) (x : gmap UUID EvidenceRow) : LiveTables :=
  {| lt_memories := lt_memories t; lt_evidence := x; lt_links := lt_links t;
     lt_conflicts := lt_conflicts t; lt_members := lt_members t |}.

Definition set_lt_links (t : LiveTables) (x : gmap UUID LinkRow) : LiveTables :=
  {| lt_memories := lt_memories t; lt_evidence := lt_evidence t; lt_links := x;
     lt_conflicts := lt_conflicts t; lt_members := lt_members t |}.

Definition set_lt_conflicts (t : LiveTables) (x : gmap UUID ConflictRow) : LiveTables :=
  {| lt_memories := lt_memories t; lt_evidence := lt_evidence t; lt_links := lt_links t;
     lt_conflicts := x; lt_members := lt_members t |}.

Definition set_lt_members (t : LiveTables) (x : gmap (UUID * UUID * UUID * UUID) MemberRow) : LiveTables :=
  {| lt_memories := lt_memories t; lt_evidence := lt_evidence t; lt_links := lt_links t;
     lt_conflicts := lt_conflicts t; lt_members := x |}.

(** ** Targets *)

(** [_sorted_ids] *)
Definition sorted_ids (values : list UUID) : list UUID :=
  sort_by (fun a b => str_leb (uuid_str a) (uuid_str b)) (remove_dups values).

Section Live.
Context `{Rfc8785} `{Pydantic}.

(** The memory, link and conflict identifiers the reducer needs; superseded,
    tombstoned, candidate and purge payloads are transition payloads. *)
Definition targets (p : OperationPayload) : list UUID * option UUID * option UUID :=
  match p with
  | MemoryCreatedPayload m _ | MemoryTransitionPayload _ m | CandidateLifecyclePayload _ m _ _ _
  | SupersededPayload _ m _ | TombstonedPayload _ m _ | PayloadPurgeCompletedPayload _ m _ _ _ =>
    (sorted_ids [ms_memory_id m], None, None)
  | LinkedPayload l =>
    (sorted_ids [ls_source_memory_id l; ls_target_memory_id l], Some (ls_link_id l), None)
  | ConflictOpenedPayload c ms am | ConflictResolvedPayload c ms am =>
    (sorted_ids (((fun a => ms_memory_id (am_memory a)) <$> am) ++ (cm_memory_id <$> ms)),
     None, Some (cs_conflict_id c))
  | _ => (sorted_ids [], None, None)
  end.

(** ** Loading *)

(** [select(Row).where(test).order_by(key)] *)
Definition select_rows {K R} `{Countable K} (key : R -> UUID) (test : R -> bool) (table : gmap K R) : list R :=
  sort_by (fun a b => key a <=? key b) (filter (fun row => test row = true) (snd <$> map_to_list table)).

(** [{key(row): read(row) for row in rows}] *)
Definition read_rows {K R S} `{Countable K} (key : R -> K) (read : R -> result S) (rows : list R)
    : result (gmap K S) :=
  foldM (fun acc row => x ← read row; Ok (<[key row := x]> acc)) ∅ rows.

(** The rows of [load_projection_state_for_update]'s queries. *)
Definition select_memories (t : LiveTables) (e : MemoryEvent) (ids : list UUID) : list MemoryRow :=
  select_rows mr_memory_id (fun row => (mr_tenant_id row =? e_tenant_id e)
    && (mr_lineage_id row =? e_lineage_id e) && bool_decide (mr_memory_id row ∈ ids)) (lt_memories t).

Definition select_evidence (t : LiveTables) (e : MemoryEvent) (p : OperationPayload) (ids : list UUID)
    : list EvidenceRow :=
  let owned row := (er_tenant_id row =? e_tenant_id e) && (er_lineage_id row =? e_lineage_id e) in
  match p with
  | TombstonedPayload _ _ _ =>
    select_rows er_evidence_id (fun row => owned row && bool_decide (er_memory_id row ∈ ids)) (lt_evidence t)
  | MemoryCreatedPayload _ items | CandidateLifecyclePayload _ _ _ _ items =>
    let evidence_ids := sorted_ids (es_evidence_id <$> items) in
    select_rows er_evidence_id
      (fun row => owned row && bool_decide (er_evidence_id row ∈ evidence_ids)) (lt_evidence t)
  | _ => []
  end.

Definition select_links (t : LiveTables) (e : MemoryEvent) (link_id : option UUID) : list LinkRow :=
  select_rows lr_link_id (fun row => (lr_tenant_id row =? e_tenant_id e)
    && (lr_lineage_id row =? e_lineage_id e) && bool_decide (Some (lr_link_id row) = link_id)) (lt_links t).

Definition select_conflicts (t : LiveTables) (e : MemoryEvent) (conflict_id : option UUID) : list ConflictRow :=
  select_rows kr_conflict_id (fun row => (kr_tenant_id row =? e_tenant_id e)
    && (kr_lineage_id row =? e_lineage_id e) && bool_decide (Some (kr_conflict_id row) = conflict_id))
    (lt_conflicts t).

Definition select_members (t : LiveTables) (e : MemoryEvent) (conflict_id : option UUID) : list MemberRow :=
  select_rows br_memory_id (fun row => (br_tenant_id row =? e_tenant_id e)
    && (br_lineage_id row =? e_lineage_id e) && bool_decide (Some (br_conflict_id row) = conflict_id))
    (lt_members t).

(** The scope of the causing event, when it is stored in the same lineage. *)
Definition load_cause (s : StoreState) (e : MemoryEvent) : gmap UUID ScopeKey :=
  match e_causation_event_id e with
  | None => ∅
  | Some cause =>
    match List.find (fun row => (r_event_id row =? cause) && (r_tenant_id row =? e_tenant_id e)
                                && (r_lineage_id row =? e_lineage_id e)) (st_events s) with
    | Some row => {[r_event_id row := (r_tenant_id row, r_lineage_id row, r_branch_id row)]}
    | None => ∅
    end
  end.

(** The database server: the SQLSTATE with which it refuses the queries of a
    load, or a write, if it does. *)
Class LiveDatabase : Type := {
  query_error : LiveTables -> MemoryEvent -> option string;
  write_error : LiveTables -> option string
}.

Context `{LiveDatabase}.

(** [except SQLAlchemyError]: serialization failures are raised again, other
    database errors become [code]. *)
Definition except_sql_error {A} (r : result A) (code : string) : result A :=
  match r with
  | Err (DBAPIError sqlstate) =>
    if bool_decide (sqlstate = "40001"%string) then Err (DBAPIError sqlstate)
    else Err (ProjectionPersistenceError code)
  | outcome => outcome
  end.

(** The queries and row conversions inside the [try]. *)
Definition load_rows (s : StoreState) (t : LiveTables) (e : MemoryEvent) (p : OperationPayload)
    (branch : BranchState) : result ProjectionState :=
  let '(memory_ids, link_id, conflict_id) := targets p in
  flush (query_error t e);;
  memories ← read_rows mr_memory_id memory_row_to_state (select_memories t e memory_ids);
  evidence ← read_rows er_evidence_id evidence_row_to_state (select_evidence t e p memory_ids);
  links ← read_rows lr_link_id link_row_to_state (select_links t e link_id);
  conflicts ← read_rows kr_conflict_id conflict_row_to_state (select_conflicts t e conflict_id);
  members ← read_rows (fun row => (br_conflict_id row, br_memory_id row)) conflict_member_row_to_state
              (select_members t e conflict_id);
  Ok {| ps_sequence := e_sequence e - 1; ps_memories := memories; ps_evidence := evidence;
        ps_links := links; ps_conflicts := conflicts; ps_conflict_members := members;
        ps_branches := {[bs_branch_id branch := branch]}; ps_event_scopes := load_cause s e;
        ps_sequence_scopes := ∅ |}.

Definition load_projection_state_for_update (in_transaction : bool) (s : StoreState) (t : LiveTables)
    (e : MemoryEvent) (branch : BranchState) : result ProjectionState :=
  require in_transaction (ProjectionPersistenceError "active_transaction_required");;
  raise_if (bool_decide (bs_scope_key branch <> event_scope e))
    (ProjectionPersistenceError "branch_scope_mismatch");;
  p ← typed_payload e;
  state ← except_value_error (except_sql_error (load_rows s t e p branch) "live_projection_load_failed")
    (ProjectionPersistenceError "invalid_live_projection");
  raise_if (ps_sequence state <? 0) (ValueError "projection sequence cannot be negative");;
  Ok state.

Definition validate_live_event (state : ProjectionState) (e : MemoryEvent) : result ProjectionState :=
  fold_event state e.

(** ** Staging *)

(** The rows a session adds and the update statements it executes. *)
Inductive LiveWrite : Type :=
| InsertMemory (row : MemoryRow)
| UpdateMemory (row : MemoryRow)
| InsertEvidence (row : EvidenceRow)
| InsertLink (row : LinkRow)
| UpdateLink (row : LinkRow)
| InsertConflict (row : ConflictRow)
| ResolveConflict (c : ConflictState) (resolution_event_id : UUID)
| InsertMember (row : MemberRow)
| UpdateMember (tenant_id : UUID) (x : ConflictMemberState) (last_event_id : UUID).

(** INSERT refuses an existing primary key with SQLSTATE 23505. *)
Definition insert_row {K R} `{Countable K} (key : K) (row : R) (table : gmap K R) : result (gmap K R) :=
  raise_if (bool_decide (is_Some (table !! key))) (DBAPIError "23505");;
  Ok (<[key := row]> table).

(** UPDATE of the rows that match; no match is not an error. *)
Definition update_rows {K R} `{Countable K} (test : R -> bool) (set : R -> R) (table : gmap K R) : gmap K R :=
  (fun row => if test row then set row else row) <$> table.

Definition resolved_row (c : ConflictState) (resolution_event_id : UUID) (row : ConflictRow) : ConflictRow :=
  {| kr_conflict_id := kr_conflict_id row; kr_tenant_id := kr_tenant_id row;
     kr_lineage_id := kr_lineage_id row; kr_branch_id := kr_branch_id row;
     kr_subject_id := kr_subject_id row; kr_status := conflict_status_value (cs_status c);
     kr_reason := cs_reason c; kr_resolution_kind := cs_resolution_kind c;
     kr_resolution_rationale := cs_resolution_rationale c; kr_opened_event_id := kr_opened_event_id row;
     kr_resolution_event_id := Some resolution_event_id; kr_opened_at := cs_opened_at c;
     kr_resolved_at := cs_resolved_at c; kr_metadata := cs_metadata c |}.

Definition updated_member (x : ConflictMemberState) (last_event_id : UUID) (row : MemberRow) : MemberRow :=
  {| br_tenant_id := br_tenant_id row; br_lineage_id := br_lineage_id row;
     br_conflict_id := br_conflict_id row; br_memory_id := br_memory_id row;
     br_disposition := cm_disposition x; br_joined_at := cm_joined_at x;
     br_last_event_id := last_event_id |}.

(** The effect of one write on the tables. *)
Definition write_rows (t : LiveTables) (w : LiveWrite) : result LiveTables :=
  match w with
  | InsertMemory row => set_lt_memories t <$> insert_row (mr_memory_id row) row (lt_memories t)
  | UpdateMemory row =>
    Ok (set_lt_memories t (update_rows
      (fun old => (mr_tenant_id old =? mr_tenant_id row) && (mr_memory_id old =? mr_memory_id row))
      (fun _ => row) (lt_memories t)))
  | InsertEvidence row => set_lt_evidence t <$> insert_row (er_evidence_id row) row (lt_evidence t)
  | InsertLink row => set_lt_links t <$> insert_row (lr_link_id row) row (lt_links t)
  | UpdateLink row =>
    Ok (set_lt_links t (update_rows
      (fun old => (lr_tenant_id old =? lr_tenant_id row) && (lr_link_id old =? lr_link_id row))
      (fun _ => row) (lt_links t)))
  | InsertConflict row => set_lt_conflicts t <$> insert_row (kr_conflict_id row) row (lt_conflicts t)
  | ResolveConflict c event_id =>
    Ok (set_lt_conflicts t (update_rows
      (fun old => (kr_tenant_id old =? cs_tenant_id c) && (kr_conflict_id old =? cs_conflict_id c))
      (resolved_row c event_id) (lt_conflicts t)))
  | InsertMember row =>
    set_lt_members t <$> insert_row (br_tenant_id row, br_lineage_id row, br_conflict_id row, br_memory_id row)
                           row (lt_members t)
  | UpdateMember tenant_id x event_id =>
    Ok (set_lt_members t (update_rows
      (fun old => (br_tenant_id old =? tenant_id) && (br_conflict_id old =? cm_conflict_id x)
                  && (br_memory_id old =? cm_memory_id x))
      (updated_member x event_id) (lt_members t)))
  end.

(** A write is refused by a key, or by any other constraint of the database. *)
Definition apply_write (t : LiveTables) (w : LiveWrite) : result LiveTables :=
  t' ← write_rows t w;
  flush (write_error t');;
  Ok t'.

(** The tables a session sees and the objects it has not flushed yet. *)
Record Session : Type := { se_tables : LiveTables; se_pending : list LiveWrite }.

Definition session_add (x : Session) (w : LiveWrite) : Session :=
  {| se_tables := se_tables x; se_pending := se_pending x ++ [w] |}.

Definition session_flush (x : Session) : result Session :=
  t ← foldM apply_write (se_tables x) (se_pending x);
  Ok {| se_tables := t; se_pending := [] |}.

(** Executing a statement flushes the pending objects first. *)
Definition session_execute (x : Session) (w : LiveWrite) : result Session :=
  flushed ← session_flush x;
  t ← apply_write (se_tables flushed) w;
  Ok {| se_tables := t; se_pending := [] |}.

(** One iteration of the loop over [changed_memory_ids]. *)
Definition stage_memory (before after : ProjectionState) (e : MemoryEvent) (x : Session) (memory_id : UUID)
    : result Session :=
  m ← from_option_or (ps_memories after !! memory_id)
        (ProjectionPersistenceError "missing_memory_after_image");
  row ← memory_state_to_row m (e_event_id e);
  if bool_decide (ps_memories before !! memory_id = None) then Ok (session_add x (InsertMemory row))
  else session_execute x (UpdateMemory row).

Definition stage_evidence (before : ProjectionState) (e : MemoryEvent) (x : Session) (item : EvidenceState)
    : result Session :=
  raise_if (bool_decide (is_Some (ps_evidence before !! es_evidence_id item)))
    (ProjectionPersistenceError "duplicate_evidence_after_image");;
  row ← evidence_state_to_row item (e_event_id e);
  Ok (session_add x (InsertEvidence row)).

Definition stage_link (before after : ProjectionState) (e : MemoryEvent) (x : Session) (link_id : UUID)
    : result Session :=
  l ← from_option_or (ps_links after !! link_id) (ProjectionPersistenceError "missing_link_after_image");
  let row := link_state_to_row l (e_event_id e) None in
  if bool_decide (ps_links before !! link_id = None) then Ok (session_add x (InsertLink row))
  else session_execute x (UpdateLink row).

(** [_conflict_row] *)
Definition conflict_row (c : ConflictState) (event_id : UUID) : ConflictRow :=
  conflict_state_to_row c event_id None.

Definition member_row (c : ConflictState) (x : ConflictMemberState) (event_id : UUID) : MemberRow :=
  {| br_tenant_id := cs_tenant_id c; br_lineage_id := cs_lineage_id c; br_conflict_id := cm_conflict_id x;
     br_memory_id := cm_memory_id x; br_disposition := cm_disposition x; br_joined_at := cm_joined_at x;
     br_last_event_id := event_id |}.

(** [sorted(payload.members, key=lambda value: str(value.memory_id))] *)
Definition sorted_members (members : list ConflictMemberState) : list ConflictMemberState :=
  sort_by (fun a b => str_leb (uuid_str (cm_memory_id a)) (uuid_str (cm_memory_id b))) members.

Definition stage_opened (after : ProjectionState) (e : MemoryEvent) (c_id : UUID)
    (members : list ConflictMemberState) (x : Session) : result Session :=
  c ← from_option_or (ps_conflicts after !! c_id) (ProjectionPersistenceError "missing_conflict_after_image");
  Ok (fold_left session_add ((fun y => InsertMember (member_row c y (e_event_id e))) <$> sorted_members members)
        (session_add x (InsertConflict (conflict_row c (e_event_id e))))).

Definition stage_resolved (after : ProjectionState) (e : MemoryEvent) (c_id : UUID)
    (members : list ConflictMemberState) (x : Session) : result Session :=
  c ← from_option_or (ps_conflicts after !! c_id) (ProjectionPersistenceError "missing_conflict_after_image");
  x' ← session_execute x (ResolveConflict c (e_event_id e));
  foldM (fun x y => session_execute x (UpdateMember (cs_tenant_id c) y (e_event_id e))) x'
    (sorted_members members).

(** The branches of [stage_live_projection] that follow the memory loop. *)
Definition stage_payload (before after : ProjectionState) (e : MemoryEvent) (p : OperationPayload)
    (x : Session) : result Session :=
  match p with
  | MemoryCreatedPayload _ items | CandidateLifecyclePayload _ _ _ _ items =>
    foldM (stage_evidence before e) x items
  | LinkedPayload l => stage_link before after e x (ls_link_id l)
  | ConflictOpenedPayload c ms _ => stage_opened after e (cs_conflict_id c) ms x
  | ConflictResolvedPayload c ms _ => stage_resolved after e (cs_conflict_id c) ms x
  | _ => Ok x
  end.

Definition stage_live_projection (in_transaction : bool) (before after : ProjectionState) (e : MemoryEvent)
    (t : LiveTables) : result LiveTables :=
  require in_transaction (ProjectionPersistenceError "active_transaction_required");;
  p ← typed_payload e;
  let memory_ids := (targets p).1.1 in
  let changed := filter (fun id => ps_memories after !! id <> ps_memories before !! id) memory_ids in
  except_sql_error
    (x ← foldM (stage_memory before after e) {| se_tables := t; se_pending := [] |} changed;
     x' ← stage_payload before after e p x;
     done ← session_flush x';
     Ok (se_tables done))
    "live_projection_write_failed".

(** ** One command *)

Context `{Database}.

(** The transaction body shared by the command handlers: append, load, reduce,
    stage. *)
Definition append_and_project (now : instant) (builder : Z -> result MemoryEvent)
    (authorization : option LegacyGenesisPlaintextAuthorization) (branch : BranchState)
    (s : StoreState) (t : LiveTables) : result (StoreState * LiveTables * MemoryEvent) :=
  '(s', event) ← append_memory_event now builder authorization s;
  before ← load_projection_state_for_update true s' t event branch;
  after ← validate_live_event before event;
  t' ← stage_live_projection true before after event t;
  Ok (s', t', event).
End Live.
