(* ===== verification/LiveTransfer.v ===== *)
(** * LiveTransfer: the reducer on a partial projection

    The live path folds an event over the few rows it loaded.  These lemmas
    show when a run of the reducer on such a partial state is also a run on the
    whole projection, and what the run changes. *)

From stdpp Require Import base tactics option list gmap strings.
From Stdlib Require Import ZArith Lia Bool.
From S2P Require Import Prelude Identifiers Enums Values CanonicalJson Digest Constraints Events Folding FoldingFacts FoldingInvariant EventStore ProjectionRows.
Open Scope Z_scope.

(** ** Memories that differ only in their stored class *)

Definition same_class (x m : MemoryState) : Prop := stored_class x = stored_class m.

#[export] Instance same_class_equivalence : Equivalence same_class.
Proof. unfold same_class. split; [by intros ?|by intros ??|by intros ??? ->]. Qed.

Lemma stored_class_idemp m : stored_class (stored_class m) = stored_class m.
Proof. destruct m as [[|[]|]]; reflexivity. Qed.

Lemma same_class_stored m : same_class (stored_class m) m.
Proof. apply stored_class_idemp. Qed.

Lemma is_v3_stored m : is_v3 (stored_class m) = is_v3 m.
Proof. by destruct m as [[|[]|]]. Qed.

Lemma sealed_stored m : ms_sealed_content (stored_class m) = ms_sealed_content m.
Proof. by destruct m as [[|[]|]]. Qed.

Lemma memory_row_stored m ev : memory_state_to_row (stored_class m) ev = memory_state_to_row m ev.
Proof. by destruct m as [[|[]|]]. Qed.

Section Transfer.
Context `{Rfc8785} `{Pydantic}.

Lemma check_revision_stored e x prev after ce :
  check_revision e (stored_class x) prev after ce = check_revision e x prev after ce.
Proof. unfold check_revision. by rewrite is_v3_stored, sealed_stored. Qed.

Lemma check_revision_class e x m prev after ce :
  same_class x m -> check_revision e x prev after ce = check_revision e m prev after ce.
Proof. intros Hc. by rewrite <- (check_revision_stored e x), Hc, check_revision_stored. Qed.

(** Checks of the current memory that do not look at its class. *)
Lemma class_invariant {A} (f : MemoryState -> A) x m :
  (forall y, f (stored_class y) = f y) -> same_class x m -> f x = f m.
Proof. intros Hf Hc. by rewrite <- (Hf x), Hc, Hf. Qed.

(** [B] holds some of the memories of [M], up to their class. *)
Definition covers (B M : gmap UUID MemoryState) : Prop :=
  forall id x, B !! id = Some x -> exists m, M !! id = Some m /\ same_class x m.

Lemma covers_insert B M id m : covers B M -> covers (<[id := m]> B) (<[id := m]> M).
Proof.
  intros Hc k x. destruct (decide (k = id)) as [->|Hne].
  - rewrite !lookup_insert_eq. intros [= ->]. by exists x.
  - rewrite !lookup_insert_ne by done. apply Hc.
Qed.

Lemma replace_memory_transfer e B M prev after req keep B' :
  covers B M -> replace_memory e B prev after req keep = Ok B' ->
  B' = <[ms_memory_id after := after]> B /\
  replace_memory e M prev after req keep = Ok (<[ms_memory_id after := after]> M).
Proof.
  intros Hc. unfold replace_memory. intros Hr. apply bind_Ok in Hr as ([] & Ht & Hr).
  apply bind_Ok in Hr as (x & Hx & Hr). apply from_option_or_Ok in Hx.
  apply bind_Ok in Hr as ([] & Hrev & Hr). apply bind_Ok in Hr as ([] & Hreq & Hr).
  apply bind_Ok in Hr as ([] & Hkeep & [= <-]). split; [done|].
  destruct (Hc _ _ Hx) as (m & Hm & Hclass). rewrite Ht, Hm. cbn [mbind result_bind from_option_or].
  rewrite <- (check_revision_class e x m) by done. rewrite Hrev. cbn [mbind result_bind].
  rewrite Hreq. cbn [mbind result_bind]. rewrite <- (class_invariant ms_status x m) by done.
  by rewrite Hkeep.
Qed.

(** ** Evidence *)

Definition insert_evidence (items : list EvidenceState) (E : gmap UUID EvidenceState)
    : gmap UUID EvidenceState :=
  fold_left (fun acc i => <[es_evidence_id i := i]> acc) items E.

(** A loop that only rejects identifiers already present transfers to any map
    without the new identifiers. *)
Lemma evidence_loop_transfer (step step' : gmap UUID EvidenceState -> EvidenceState -> result (gmap UUID EvidenceState))
    items E E' F :
  (forall X i X', i ∈ items -> step X i = Ok X' ->
     X !! es_evidence_id i = None /\ X' = <[es_evidence_id i := i]> X /\
     forall Y, Y !! es_evidence_id i = None -> step' Y i = Ok (<[es_evidence_id i := i]> Y)) ->
  (forall i, i ∈ items -> F !! es_evidence_id i = None) ->
  foldM step E items = Ok E' ->
  E' = insert_evidence items E /\ foldM step' F items = Ok (insert_evidence items F).
Proof.
  intros Hstep Hfresh Hf.
  assert (Hdom : forall k, is_Some (F !! k) -> k ∉ es_evidence_id <$> items).
  { intros k [v Hv] Hin. apply list_elem_of_fmap in Hin as (i & -> & Hin). by rewrite (Hfresh i Hin) in Hv. }
  clear Hfresh. revert E F Hf Hdom. induction items as [|i items IH]; intros E F Hf Hdom.
  { injection Hf as <-. done. }
  cbn [foldM] in *. apply bind_Ok in Hf as (E1 & Hs & Hf).
  destruct (Hstep E i E1 ltac:(left) Hs) as (Hnone & -> & Hs').
  assert (HF : F !! es_evidence_id i = None).
  { apply eq_None_not_Some. intros Hs1. apply (Hdom _ Hs1). left. }
  rewrite (Hs' F HF). cbn [mbind result_bind].
  assert (Hnot : es_evidence_id i ∉ es_evidence_id <$> items).
  { intros Hin. apply list_elem_of_fmap in Hin as (j & Hj & Hin).
    assert (Hgen : forall l X X', (forall j, j ∈ l -> j ∈ i :: items) -> foldM step X l = Ok X' ->
              is_Some (X !! es_evidence_id i) -> es_evidence_id i ∉ es_evidence_id <$> l).
    { clear -Hstep. induction l as [|a l IHl]; intros X X' Hsub Hl HX; [apply not_elem_of_nil|].
      cbn [foldM] in Hl. apply bind_Ok in Hl as (X1 & Ha & Hl).
      destruct (Hstep X a X1 (Hsub a ltac:(left)) Ha) as (Hn & -> & _). apply not_elem_of_cons.
      assert (Hne : es_evidence_id i <> es_evidence_id a).
      { intros Heq. rewrite Heq, Hn in HX. by destruct HX. }
      split; [done|]. eapply IHl; [|exact Hl|by rewrite lookup_insert_ne].
      intros j Hj. apply Hsub. by right. }
    apply (Hgen items _ _ (fun j Hj => list_elem_of_further j i items Hj) Hf); [by rewrite lookup_insert_eq|].
    apply list_elem_of_fmap. eauto. }
  apply IH; [|exact Hf|].
  - intros X j X' Hj. apply Hstep. by right.
  - intros k Hk. destruct (decide (k = es_evidence_id i)) as [->|Hne]; [done|].
    rewrite lookup_insert_ne in Hk by done. intros Hin. apply (Hdom k Hk). by right.
Qed.

Lemma create_evidence_transfer e m items E E' F :
  (forall i, i ∈ items -> F !! es_evidence_id i = None) ->
  foldM (create_evidence e m) E items = Ok E' ->
  E' = insert_evidence items E /\ foldM (create_evidence e m) F items = Ok (insert_evidence items F).
Proof.
  apply evidence_loop_transfer. intros X i X' _. unfold create_evidence. intros Hs.
  apply bind_Ok in Hs as ([] & H1 & Hs). apply bind_Ok in Hs as ([] & H2 & Hs).
  apply bind_Ok in Hs as ([] & H3 & Hs). apply bind_Ok in Hs as ([] & H4 & [= <-]).
  apply raise_if_Ok, bool_decide_eq_false, eq_None_not_Some in H3. split; [done|]. split; [done|].
  intros Y HY. rewrite H1, H2, H4, HY. reflexivity.
Qed.

Lemma attach_evidence_transfer e B M items E E' F :
  covers B M -> (forall i, i ∈ items -> F !! es_evidence_id i = None) ->
  attach_candidate_lifecycle_evidence e items B E = Ok E' ->
  E' = insert_evidence items E /\
  attach_candidate_lifecycle_evidence e items M F = Ok (insert_evidence items F).
Proof.
  intros Hc Hfresh Ha. unfold attach_candidate_lifecycle_evidence in *.
  apply bind_Ok in Ha as ([] & Hexp & Ha). rewrite Hexp. cbn [mbind result_bind]. revert Hfresh Ha.
  apply evidence_loop_transfer. intros X i X' _ Hs.
  destruct (attach_evidence_frame _ _ _ _ _ Hs) as (Hnone & -> & _). split; [done|]. split; [done|].
  intros Y HY. unfold attach_evidence in *.
  apply bind_Ok in Hs as ([] & H1 & Hs). apply bind_Ok in Hs as ([] & H2 & Hs).
  apply bind_Ok in Hs as (x & Hx & Hs). apply from_option_or_Ok in Hx.
  apply bind_Ok in Hs as ([] & H3 & Hs). apply bind_Ok in Hs as ([] & H4 & Hs).
  apply bind_Ok in Hs as ([] & H5 & _). destruct (Hc _ _ Hx) as (m & Hm & Hclass).
  rewrite H1, H2, Hm. cbn [mbind result_bind from_option_or].
  rewrite <- (class_invariant ms_status x m) by done. rewrite H3, H4, H5, HY. reflexivity.
Qed.

(** ** Conflicts *)

Definition insert_memories (images : list MemoryState) (M : gmap UUID MemoryState) : gmap UUID MemoryState :=
  fold_left (fun acc m => <[ms_memory_id m := m]> acc) images M.

Lemma insert_memories_snoc images m M :
  insert_memories (images ++ [m]) M = <[ms_memory_id m := m]> (insert_memories images M).
Proof. unfold insert_memories. by rewrite fold_left_app. Qed.

(** What the images leave at an identifier does not depend on the map. *)
Lemma insert_memories_lookup images id :
  (exists m, m ∈ images /\ ms_memory_id m = id /\ forall M, insert_memories images M !! id = Some m) \/
  (id ∉ ms_memory_id <$> images /\ forall M, insert_memories images M !! id = M !! id).
Proof.
  induction images as [|m images IH] using rev_ind; [right; split; [apply not_elem_of_nil|done]|].
  destruct (decide (id = ms_memory_id m)) as [->|Hne].
  - left. exists m. split; [apply elem_of_app; right; left|]. split; [done|].
    intros M. by rewrite insert_memories_snoc, lookup_insert_eq.
  - destruct IH as [(m' & Hin & Hid & Hl)|(Hni & Hl)].
    + left. exists m'. split; [apply elem_of_app; by left|]. split; [done|].
      intros M. by rewrite insert_memories_snoc, lookup_insert_ne.
    + right. split.
      * rewrite fmap_app. intros Hin. apply elem_of_app in Hin as [Hin|Hin]; [done|].
        apply list_elem_of_singleton in Hin. done.
      * intros M. by rewrite insert_memories_snoc, lookup_insert_ne.
Qed.

Lemma apply_affected_transfer e opening am B M ids B' :
  covers B M -> apply_affected_memories e am B opening = Ok (ids, B') ->
  B' = insert_memories (am_memory <$> am) B /\
  apply_affected_memories e am M opening = Ok (ids, insert_memories (am_memory <$> am) M) /\
  covers B' (insert_memories (am_memory <$> am) M).
Proof.
  unfold apply_affected_memories. intros Hc. revert ids B'.
  induction am as [|a am IH] using rev_ind; intros ids B' Hf.
  { injection Hf as <- <-. done. }
  rewrite foldM_app in *. apply bind_Ok in Hf as ([ids1 B1] & Hf1 & Hf).
  destruct (IH _ _ Hf1) as (-> & Hf1' & Hc1). rewrite Hf1'. cbn [foldM mbind result_bind] in *.
  rewrite fmap_app. cbn [fmap list_fmap]. rewrite !insert_memories_snoc.
  apply bind_Ok in Hf as ([ids2 B2] & Hf & [= <- <-]). unfold apply_affected_memory in *.
  apply bind_Ok in Hf as ([] & H1 & Hf). apply bind_Ok in Hf as ([] & H2 & Hf).
  apply bind_Ok in Hf as (x & Hx & Hf). apply from_option_or_Ok in Hx.
  apply bind_Ok in Hf as ([] & H3 & Hf). apply bind_Ok in Hf as ([] & H4 & Hf).
  injection Hf as <- <-. destruct (Hc1 _ _ Hx) as (m & Hm & Hclass). split; [done|].
  split; [|by apply covers_insert].
  rewrite H1, H2, Hm. cbn [mbind result_bind from_option_or].
  rewrite <- (check_revision_class e x m) by done. rewrite H3. cbn [mbind result_bind].
  rewrite <- (class_invariant ms_status x m) by done. by rewrite H4.
Qed.

Definition insert_members (ms : list ConflictMemberState) (CM : gmap (UUID * UUID) ConflictMemberState)
    : gmap (UUID * UUID) ConflictMemberState :=
  fold_left (fun acc x => <[member_key x := x]> acc) ms CM.

Lemma add_members_transfer e ms CM CM' DM :
  NoDup (member_key <$> ms) -> (forall x, x ∈ ms -> DM !! member_key x = None) ->
  foldM (add_member e) CM ms = Ok CM' ->
  CM' = insert_members ms CM /\ foldM (add_member e) DM ms = Ok (insert_members ms DM).
Proof.
  revert CM DM. induction ms as [|x ms IH]; intros CM DM Hnd Hfresh Hf.
  { injection Hf as <-. done. }
  rewrite fmap_cons, NoDup_cons in Hnd. destruct Hnd as [Hnot Hnd].
  cbn [foldM] in *. apply bind_Ok in Hf as (CM1 & Ha & Hf). unfold add_member in Ha at 1.
  apply bind_Ok in Ha as ([] & _ & [= <-]). unfold add_member at 2.
  change (cm_conflict_id x, cm_memory_id x) with (member_key x) in *.
  rewrite (Hfresh x ltac:(left)). cbn [mbind result_bind]. rewrite bool_decide_false by (by intros []).
  apply (IH (<[member_key x := x]> CM) (<[member_key x := x]> DM)); [done| |done].
  intros y Hy. rewrite lookup_insert_ne; [apply Hfresh; by right|].
  intros Heq. apply Hnot. apply list_elem_of_fmap. eauto.
Qed.

Lemma member_keys_nodup c ms :
  NoDup (cm_memory_id <$> ms) -> Forall (fun m => cm_conflict_id m = cs_conflict_id c) ms ->
  NoDup (member_key <$> ms).
Proof.
  intros Hnd Hall. apply (NoDup_fmap_1 snd). by rewrite <- list_fmap_compose.
Qed.

Lemma open_conflict_transfer e c ms am B M C C' CM CM' B' D DM :
  covers B M -> open_conflict e c ms am B C CM = Ok (B', C', CM') ->
  D !! cs_conflict_id c = None -> NoDup (member_key <$> ms) ->
  (forall x, x ∈ ms -> DM !! member_key x = None) ->
  (B', C', CM') = (insert_memories (am_memory <$> am) B, <[cs_conflict_id c := c]> C, insert_members ms CM) /\
  open_conflict e c ms am M D DM =
    Ok (insert_memories (am_memory <$> am) M, <[cs_conflict_id c := c]> D, insert_members ms DM).
Proof.
  intros Hc Ho HD Hnd Hfresh. unfold open_conflict in *.
  apply bind_Ok in Ho as ([] & H1 & Ho). apply bind_Ok in Ho as ([] & H2 & Ho).
  apply bind_Ok in Ho as ([] & H3 & Ho). apply bind_Ok in Ho as ([] & H4 & Ho).
  apply bind_Ok in Ho as ([ids B1] & H5 & Ho). destruct (apply_affected_transfer _ _ _ _ _ _ _ Hc H5) as (-> & H5' & Hc').
  apply bind_Ok in Ho as ([] & H6 & Ho). apply bind_Ok in Ho as ([] & H7 & Ho).
  apply bind_Ok in Ho as ([] & H8 & Ho). apply bind_Ok in Ho as (CM1 & H9 & [= <- <- <-]).
  destruct (add_members_transfer _ _ _ _ DM Hnd Hfresh H9) as (-> & H9'). split; [done|].
  rewrite H1, HD, H3, H4. cbn [mbind result_bind]. rewrite H5'. cbn [mbind result_bind].
  rewrite H6, H7. cbn [mbind result_bind].
  replace (existsb _ ms) with false.
  - cbn [raise_if mbind result_bind]. by rewrite H9'.
  - symmetry. apply raise_if_Ok in H8. rewrite existsb_false in *. intros x Hx. specialize (H8 x Hx).
    destruct (insert_memories (am_memory <$> am) B !! cm_memory_id x) as [y|] eqn:Hy; [|done].
    destruct (Hc' _ _ Hy) as (m & -> & Hclass). by rewrite <- (class_invariant ms_subject_id y m).
Qed.

Lemma resolve_conflict_transfer e c ms am B M C C' CM CM' B' D DM :
  covers B M -> resolve_conflict e c ms am B C CM = Ok (B', C', CM') ->
  D !! cs_conflict_id c = C !! cs_conflict_id c ->
  (forall id, DM !! (cs_conflict_id c, id) = CM !! (cs_conflict_id c, id)) ->
  Forall (fun m => cm_conflict_id m = cs_conflict_id c) ms ->
  (B', C', CM') = (insert_memories (am_memory <$> am) B, <[cs_conflict_id c := c]> C,
                   replace_members (cs_conflict_id c) ms CM) /\
  resolve_conflict e c ms am M D DM =
    Ok (insert_memories (am_memory <$> am) M, <[cs_conflict_id c := c]> D,
        replace_members (cs_conflict_id c) ms DM).
Proof.
  intros Hc Ho HD HDM Hall. unfold resolve_conflict in *.
  apply bind_Ok in Ho as ([] & H1 & Ho). apply bind_Ok in Ho as (current & H2 & Ho).
  apply bind_Ok in Ho as ([] & H3 & Ho). apply bind_Ok in Ho as ([] & H4 & Ho).
  apply bind_Ok in Ho as ([] & H5 & Ho). apply bind_Ok in Ho as ([] & H6 & Ho).
  apply bind_Ok in Ho as ([] & H7 & Ho). apply bind_Ok in Ho as ([ids B1] & H8 & Ho).
  destruct (apply_affected_transfer _ _ _ _ _ _ _ Hc H8) as (-> & H8' & Hc').
  apply bind_Ok in Ho as ([] & H9 & [= <- <- <-]). split; [done|].
  rewrite H1, HD, H2. cbn [mbind result_bind]. rewrite H3, H4, H5. cbn [mbind result_bind].
  replace (current_member_ids (cs_conflict_id c) DM) with (current_member_ids (cs_conflict_id c) CM).
  2:{ apply set_eq. intros x. rewrite !elem_of_current_member_ids. by rewrite HDM. }
  rewrite H6. cbn [mbind result_bind].
  replace (each (check_join_time e DM) ms) with (Ok tt : result unit).
  2:{ symmetry. apply each_Ok. apply each_Ok in H7. eapply Forall_impl; [apply Forall_and; split; [exact H7|exact Hall]|].
      intros x [Hx Hk]. unfold check_join_time in *. cbv beta in *. by rewrite Hk in *; rewrite HDM. }
  cbn [mbind result_bind]. rewrite H8'. cbn [mbind result_bind]. by rewrite H9.
Qed.

(** ** The whole dispatch *)

(** The payloads the live path can apply. *)
Definition is_live (p : OperationPayload) : bool :=
  match p with
  | SupersededPayload _ _ _ | EvidenceAttachedPayload _ | EvidenceRedactedPayload _ _ _ _
  | UnlinkedPayload _ | BranchCreatedPayload _ => false
  | _ => true
  end.

(** The evidence a payload adds. *)
Definition payload_evidence (p : OperationPayload) : list EvidenceState :=
  match p with
  | MemoryCreatedPayload _ items | CandidateLifecyclePayload _ _ _ _ items => items
  | _ => []
  end.

(** What an accepted live payload does to the working copies. *)
Definition live_effect (p : OperationPayload) (w : Working) : Working := {|
  w_memories := insert_memories (memory_after_images p) (w_memories w);
  w_evidence := insert_evidence (payload_evidence p) (w_evidence w);
  w_links := match p with LinkedPayload l => <[ls_link_id l := l]> (w_links w) | _ => w_links w end;
  w_conflicts := match p with
                 | ConflictOpenedPayload c _ _ | ConflictResolvedPayload c _ _ =>
                   <[cs_conflict_id c := c]> (w_conflicts w)
                 | _ => w_conflicts w
                 end;
  w_conflict_members := match p with
                        | ConflictOpenedPayload _ ms _ => insert_members ms (w_conflict_members w)
                        | ConflictResolvedPayload c ms _ =>
                          replace_members (cs_conflict_id c) ms (w_conflict_members w)
                        | _ => w_conflict_members w
                        end;
  w_branches := w_branches w
|}.

(** What the partial state [b] must tell about [s] for [p]. *)
Record ready (p : OperationPayload) (b s : ProjectionState) : Prop := {
  rd_covers : covers (ps_memories b) (ps_memories s);
  rd_created : forall m items, p = MemoryCreatedPayload m items -> ps_memories s !! ms_memory_id m = None;
  rd_evidence : forall i, i ∈ payload_evidence p -> ps_evidence s !! es_evidence_id i = None;
  rd_tombstone : forall prev m mode, p = TombstonedPayload prev m mode ->
    (forall k i, ps_evidence b !! k = Some i -> es_memory_id i <> ms_memory_id m) ->
    forall k i, ps_evidence s !! k = Some i -> es_memory_id i <> ms_memory_id m;
  rd_link : forall l, p = LinkedPayload l -> ps_links s !! ls_link_id l = None;
  rd_opened : forall c ms am, p = ConflictOpenedPayload c ms am ->
    ps_conflicts s !! cs_conflict_id c = None /\
    forall x, x ∈ ms -> ps_conflict_members s !! member_key x = None;
  rd_resolved : forall c ms am current, p = ConflictResolvedPayload c ms am ->
    ps_conflicts b !! cs_conflict_id c = Some current ->
    ps_conflicts s !! cs_conflict_id c = Some current /\
    forall id, ps_conflict_members s !! (cs_conflict_id c, id) =
               ps_conflict_members b !! (cs_conflict_id c, id)
}.

Lemma working_eta (w : Working) :
  {| w_memories := w_memories w; w_evidence := w_evidence w; w_links := w_links w;
     w_conflicts := w_conflicts w; w_conflict_members := w_conflict_members w;
     w_branches := w_branches w |} = w.
Proof. by destruct w. Qed.

Lemma require_live_class e x m : same_class x m -> require_live e (Some x) = require_live e (Some m).
Proof. intros Hc. unfold require_live. by rewrite (class_invariant ms_status x m). Qed.

Lemma check_tombstone_class e x m after mode :
  same_class x m -> check_tombstone e (Some x) after mode = check_tombstone e (Some m) after mode.
Proof.
  intros Hc. unfold check_tombstone. rewrite (class_invariant ms_status x m) by done.
  rewrite (class_invariant ms_content_protection x m) by done.
  by rewrite (class_invariant ms_content_key_id x m).
Qed.

Lemma check_purge_class e x m after k at_ :
  same_class x m -> check_purge e (Some x) after k at_ = check_purge e (Some m) after k at_.
Proof.
  intros Hc. unfold check_purge. rewrite (class_invariant ms_status x m) by done.
  by rewrite (class_invariant ms_content_protection x m).
Qed.

(** A handler that checks the current memory, replaces it and checks again. *)
Lemma current_transfer {A} (check : option MemoryState -> result A) e B M prev m req keep B' r :
  covers B M -> replace_memory e B prev m req keep = Ok B' ->
  (forall x y, same_class x y -> check (Some x) = check (Some y)) ->
  check (B !! ms_memory_id m) = Ok r -> check (M !! ms_memory_id m) = Ok r.
Proof.
  intros Hc Hr Hcheck Hb. apply replace_memory_Ok in Hr as (x & Hx & _). rewrite Hx in Hb.
  destruct (Hc _ _ Hx) as (y & -> & Hclass). by rewrite <- (Hcheck x y).
Qed.

Lemma create_memory_transfer e m items B E B' E' M F :
  M !! ms_memory_id m = None -> (forall i, i ∈ items -> F !! es_evidence_id i = None) ->
  create_memory e m items B E = Ok (B', E') ->
  B' = <[ms_memory_id m := m]> B /\ E' = insert_evidence items E /\
  create_memory e m items M F = Ok (<[ms_memory_id m := m]> M, insert_evidence items F).
Proof.
  intros HM HF. unfold create_memory. intros Hr.
  apply bind_Ok in Hr as ([] & H1 & Hr). apply bind_Ok in Hr as ([] & H2 & Hr).
  apply bind_Ok in Hr as ([] & H3 & Hr). apply bind_Ok in Hr as ([] & H4 & Hr).
  apply bind_Ok in Hr as ([] & H5 & Hr). apply bind_Ok in Hr as ([] & H6 & Hr).
  apply bind_Ok in Hr as ([] & H7 & Hr). apply bind_Ok in Hr as (E1 & H8 & [= <- <-]).
  destruct (create_evidence_transfer e m items E E1 F HF H8) as (-> & H8').
  split; [done|]. split; [done|]. rewrite H1, H2, HM, H4, H5, H6, H7. cbn [mbind result_bind].
  rewrite bool_decide_false by (by intros []). cbn [raise_if mbind result_bind]. by rewrite H8'.
Qed.

Lemma link_memories_transfer e l B M L L' K :
  covers B M -> K !! ls_link_id l = None -> link_memories e l B L = Ok L' ->
  L' = <[ls_link_id l := l]> L /\ link_memories e l M K = Ok (<[ls_link_id l := l]> K).
Proof.
  intros Hc HK. unfold link_memories. intros Hr.
  apply bind_Ok in Hr as ([] & H1 & Hr). apply bind_Ok in Hr as ([] & H2 & Hr).
  apply bind_Ok in Hr as ([] & H3 & Hr). apply bind_Ok in Hr as ([] & H4 & Hr).
  apply bind_Ok in Hr as ([] & H5 & [= <-]). split; [done|].
  rewrite H1, HK, H3, H4. cbn [mbind result_bind]. rewrite (bool_decide_false (is_Some None)) by (by intros []).
  cbn [raise_if mbind result_bind].
  apply raise_if_Ok, orb_false_iff in H5 as [Hs Ht]. apply bool_decide_eq_false in Hs, Ht.
  assert (Hin : forall id, B !! id <> None -> M !! id <> None).
  { intros id Hid. destruct (B !! id) as [x|] eqn:Hx; [|done]. by destruct (Hc _ _ Hx) as (m & -> & _). }
  rewrite !bool_decide_false by auto. reflexivity.
Qed.

(** A run of the reducer on the loaded rows is a run on the projection, and
    both have the same effect. *)
Lemma op_transfer b s e p wb :
  validate_payload p = Ok tt -> is_live p = true -> ready p b s ->
  op_run b e (working_of b) p wb ->
  wb = live_effect p (working_of b) /\
  apply_operation s e p (working_of s) = Ok (live_effect p (working_of s)).
Proof.
  intros Hv Hlive [Hcov Hcre Hev Htomb Hlink Hopen Hres] Hrun. unfold apply_operation.
  destruct Hrun as [m items M E H1 H2|prev m decision code items status M current E H1 H2 H3 H4 H5
    |prev m M current H1 H2 H3 H4|prev m M current H1 H2 H3 H4 H5|prev m M H1 H2 H3| |prev m mode M H1 H2 H3 H4| | |l L H1 H2| |c ms am M C CM H1 H2|c ms am M C CM H1 H2| |prev m k at_ rc M H1 H2 H3]; cbn in Hlive;
    try discriminate Hlive; cbn [w_memories w_evidence w_links w_conflicts
    w_conflict_members working_of] in *.
  - destruct (create_memory_transfer e m items _ _ M E (ps_memories s) (ps_evidence s)
      (Hcre _ _ eq_refl) Hev H2) as (-> & -> & Hs).
    split; [done|]. destruct (e_operation e); try discriminate H1; by rewrite Hs.
  - destruct (replace_memory_transfer e _ _ prev m _ _ _ Hcov H2) as (-> & Hs).
    destruct (Hcov _ _ H3) as (y & Hy & Hclass).
    destruct (attach_evidence_transfer e _ _ items _ E (ps_evidence s)
      (covers_insert _ _ (ms_memory_id m) m Hcov) Hev H5) as (-> & Ha).
    split; [done|].
    assert (Hchk : check_candidate_lifecycle e y m status = Ok tt).
    { revert H4. unfold check_candidate_lifecycle. by rewrite (class_invariant ms_status current y). }
    destruct H1 as [[-> ->]|[-> ->]]; rewrite Hs; cbn [mbind result_bind]; rewrite Hy;
      cbn [mbind result_bind from_option_or]; rewrite Hchk; cbn [mbind result_bind]; by rewrite Ha.
  - destruct (replace_memory_transfer e _ _ prev m _ _ _ Hcov H2) as (-> & Hs).
    destruct (Hcov _ _ H3) as (y & Hy & Hclass). split; [done|].
    rewrite H1, Hs. cbn [mbind result_bind]. rewrite Hy. cbn [mbind result_bind from_option_or].
    revert H4. unfold check_revised_lifecycle. rewrite (class_invariant ms_status current y) by done.
    by intros ->.
  - destruct (replace_memory_transfer e _ _ prev m _ _ _ Hcov H2) as (-> & Hs).
    destruct (Hcov _ _ H3) as (y & Hy & Hclass). split; [done|].
    rewrite H1, Hs. cbn [mbind result_bind]. rewrite Hy. cbn [mbind result_bind from_option_or].
    rewrite (class_invariant ms_status current y) in H4 by done.
    rewrite (class_invariant ms_visibility current y) in H5 by done.
    by rewrite !bool_decide_false by done.
  - destruct (replace_memory_transfer e _ _ prev m _ _ _ Hcov H3) as (-> & Hs). split; [done|].
    rewrite H1, (current_transfer (require_live e) _ _ _ _ _ _ _ _ _ Hcov H3 (require_live_class e) H2).
    cbn [mbind result_bind]. by rewrite Hs.
  - destruct (replace_memory_transfer e _ _ prev m _ _ _ Hcov H3) as (-> & Hs). split; [done|].
    rewrite H1, (current_transfer (fun o => check_tombstone e o m mode) _ _ _ _ _ _ _ _ _ Hcov H3
      (fun x y => check_tombstone_class e x y m mode) H2).
    cbn [mbind result_bind]. rewrite Hs. cbn [mbind result_bind].
    replace (map_any _ (ps_evidence s)) with false; [done|]. symmetry. apply map_any_false.
    intros k i Hk. apply Z.eqb_neq. by apply (Htomb _ _ _ eq_refl H4 k).
  - destruct (link_memories_transfer e l _ _ _ _ (ps_links s) Hcov (Hlink _ eq_refl) H2) as (-> & Hs).
    split; [done|]. rewrite H1, Hs. done.
  - cbn [validate_payload] in Hv. do 3 (apply bind_Ok in Hv as ([] & _ & Hv)).
    apply validate_members_Ok in Hv as (Hnd & _ & Hall).
    destruct (Hopen _ _ _ eq_refl) as [HD HDM].
    destruct (open_conflict_transfer e c ms am _ _ _ _ _ _ _ (ps_conflicts s) (ps_conflict_members s)
      Hcov H2 HD (member_keys_nodup c ms Hnd Hall) HDM) as (Heq & Hs).
    injection Heq as -> -> ->. split; [done|]. by rewrite H1, Hs.
  - cbn [validate_payload] in Hv. do 3 (apply bind_Ok in Hv as ([] & _ & Hv)).
    apply validate_members_Ok in Hv as (Hnd & _ & Hall).
    destruct (resolve_conflict_Ok _ _ _ _ _ _ _ _ _ _ H2) as (_ & current & _ & _ & Hcur & _).
    destruct (Hres _ _ _ _ eq_refl Hcur) as [HD HDM].
    destruct (resolve_conflict_transfer e c ms am _ _ _ _ _ _ _ (ps_conflicts s) (ps_conflict_members s)
      Hcov H2 (eq_trans HD (eq_sym Hcur)) HDM Hall) as (Heq & Hs).
    injection Heq as -> -> ->. split; [done|]. by rewrite H1, Hs.
  - destruct (replace_memory_transfer e _ _ prev m _ _ _ Hcov H3) as (-> & Hs). split; [done|].
    rewrite H1, (current_transfer (fun o => check_purge e o m k at_) _ _ _ _ _ _ _ _ _ Hcov H3
      (fun x y => check_purge_class e x y m k at_) H2).
    cbn [mbind result_bind]. by rewrite Hs.
Qed.
End Transfer.
