(* ===== verification/LiveProjectionFacts.v ===== *)
(** * LiveProjectionFacts: what the live path loads and writes

    The relation between stored rows and the projection they hold, what the
    queries of the live path show of it, and the writes a staged event amounts
    to. *)

From stdpp Require Import base tactics option list gmap strings.
From Stdlib Require Import ZArith Lia Bool.
From S2P Require Import Prelude Identifiers Enums Values CanonicalJson Digest Constraints Events Folding FoldingFacts FoldingInvariant EventStore ProjectionRows ProjectionRowsTheorems LiveProjection LiveTransfer.
Open Scope Z_scope.

(** ** Queries *)

Lemma elem_of_select_rows {K R} `{Countable K} (key : R -> UUID) (test : R -> bool) (table : gmap K R) row :
  row ∈ select_rows key test table <-> test row = true /\ exists k, table !! k = Some row.
Proof.
  unfold select_rows. rewrite sort_by_perm, list_elem_of_filter, list_elem_of_fmap. split.
  - intros (Ht & [k v] & -> & Hin). apply elem_of_map_to_list in Hin. eauto.
  - intros (Ht & k & Hk). split; [done|]. exists (k, row). by rewrite elem_of_map_to_list.
Qed.

Lemma read_rows_source {K R S} `{Countable K} (key : R -> K) (read : R -> result S) rows M k x :
  read_rows key read rows = Ok M -> M !! k = Some x ->
  exists row, row ∈ rows /\ key row = k /\ read row = Ok x.
Proof.
  unfold read_rows. intros Hf. revert k x.
  apply (foldM_invariant (fun acc row => x ← read row; Ok (<[key row := x]> acc))
    (fun M => forall k x, M !! k = Some x -> exists row, row ∈ rows /\ key row = k /\ read row = Ok x)
    ∅ M rows); [| |exact Hf].
  - intros M1 row M2 Hin IH Hs k x Hk. apply bind_Ok in Hs as (y & Hy & [= <-]).
    apply lookup_insert_Some in Hk as [[<- <-]|[_ Hk]]; eauto.
  - intros k x Hk. by rewrite lookup_empty in Hk.
Qed.

Lemma read_rows_complete {K R S} `{Countable K} (key : R -> K) (read : R -> result S) rows M row :
  read_rows key read rows = Ok M -> row ∈ rows -> is_Some (M !! key row).
Proof.
  unfold read_rows. generalize (∅ : gmap K S). induction rows as [|r rows IH]; intros M0 Hf Hin;
    [by apply elem_of_nil in Hin|].
  cbn [foldM] in Hf. apply bind_Ok in Hf as (M1 & Hs & Hf). apply bind_Ok in Hs as (y & Hy & [= <-]).
  apply elem_of_cons in Hin as [->|Hin]; [|by eapply IH].
  apply (foldM_invariant (fun acc row => x ← read row; Ok (<[key row := x]> acc))
    (fun M => is_Some (M !! key r)) (<[key r := y]> M0) M rows); [| |exact Hf].
  - intros M1 row M2 _ Hk Hs. apply bind_Ok in Hs as (z & _ & [= <-]).
    destruct (decide (key r = key row)) as [->|Hne]; [by rewrite lookup_insert_eq|by rewrite lookup_insert_ne].
  - by rewrite lookup_insert_eq.
Qed.

(** ** Tables that hold a projection *)

Definition memory_stored (row : MemoryRow) (m : MemoryState) : Prop :=
  exists ev, memory_state_to_row m ev = Ok row.

Definition evidence_stored (row : EvidenceRow) (i : EvidenceState) : Prop :=
  validate_evidence i = Ok tt /\ exists ev, evidence_state_to_row i ev = Ok row.

Definition link_stored (row : LinkRow) (l : LinkState) : Prop :=
  exists created unlinked, row = link_state_to_row l created unlinked.

Definition conflict_stored (row : ConflictRow) (c : ConflictState) : Prop :=
  validate_conflict c = Ok tt /\ exists opened resolved, row = conflict_state_to_row c opened resolved.

Definition member_stored (row : MemberRow) (c : ConflictState) (x : ConflictMemberState) : Prop :=
  validate_conflict_member x = Ok tt /\ exists ev, row = member_row c x ev.

(** The rows of [t] are exactly those of the after-images of [s].  Evidence
    belongs to a memory of the same tenant and lineage, as the foreign key of
    the table requires. *)
Record holds (t : LiveTables) (s : ProjectionState) : Prop := {
  ho_memories : forall id, option_Forall2 memory_stored (lt_memories t !! id) (ps_memories s !! id);
  ho_evidence : forall id, option_Forall2 evidence_stored (lt_evidence t !! id) (ps_evidence s !! id);
  ho_links : forall id, option_Forall2 link_stored (lt_links t !! id) (ps_links s !! id);
  ho_conflicts : forall id, option_Forall2 conflict_stored (lt_conflicts t !! id) (ps_conflicts s !! id);
  ho_member_row : forall tenant lineage c id row, lt_members t !! (tenant, lineage, c, id) = Some row ->
    exists con x, ps_conflicts s !! c = Some con /\ cs_tenant_id con = tenant /\ cs_lineage_id con = lineage /\
      ps_conflict_members s !! (c, id) = Some x /\ member_stored row con x;
  ho_member : forall c id x, ps_conflict_members s !! (c, id) = Some x ->
    exists con row, ps_conflicts s !! c = Some con /\
      lt_members t !! (cs_tenant_id con, cs_lineage_id con, c, id) = Some row /\ member_stored row con x;
  ho_foreign_key : forall k i, ps_evidence s !! k = Some i ->
    exists m, ps_memories s !! es_memory_id i = Some m /\
      ms_tenant_id m = es_tenant_id i /\ ms_lineage_id m = es_lineage_id i
}.

Lemma holds_image {A B} (R : A -> B -> Prop) o b : option_Forall2 R o (Some b) -> exists a, o = Some a /\ R a b.
Proof. inversion 1; subst; eauto. Qed.

Lemma holds_row {A B} (R : A -> B -> Prop) a o : option_Forall2 R (Some a) o -> exists b, o = Some b /\ R a b.
Proof. inversion 1; subst; eauto. Qed.

Lemma holds_none {A B} (R : A -> B -> Prop) o : option_Forall2 R None o -> o = None.
Proof. by inversion 1. Qed.

Lemma memory_stored_columns row m : memory_stored row m ->
  mr_memory_id row = ms_memory_id m /\ mr_tenant_id row = ms_tenant_id m /\ mr_lineage_id row = ms_lineage_id m.
Proof.
  intros (ev & Hr). unfold memory_state_to_row in Hr. apply bind_Ok in Hr as (fp & _ & Hr).
  apply bind_Ok in Hr as (cols & _ & [= <-]). done.
Qed.

Lemma memory_stored_read row m x :
  validate_memory m = Ok tt -> memory_stored row m -> memory_row_to_state row = Ok x -> x = stored_class m.
Proof.
  intros Hv (ev & Hr) Hx. destruct (memory_row_reads_back m ev Hv) as (row' & Hr' & Hread & _).
  rewrite Hr in Hr'. injection Hr' as <-. rewrite Hread in Hx. unfold stored_memory in Hx.
  destruct (bool_decide _); [congruence|]. destruct (is_v3 m) eqn:E3; [|done].
  rewrite stored_class_id by done. congruence.
Qed.

Lemma evidence_stored_columns row i : evidence_stored row i ->
  er_evidence_id row = es_evidence_id i /\ er_tenant_id row = es_tenant_id i /\
  er_lineage_id row = es_lineage_id i /\ er_memory_id row = es_memory_id i.
Proof.
  intros (_ & ev & Hr). unfold evidence_state_to_row in Hr. by apply bind_Ok in Hr as (d & _ & [= <-]).
Qed.

Lemma evidence_stored_read row i x :
  evidence_stored row i -> evidence_row_to_state row = Ok x -> x = i.
Proof.
  intros (Hv & ev & Hr) Hx. destruct (evidence_row_reads_back i ev Hv) as (row' & Hr' & Hread).
  { by destruct (es_status i). }
  rewrite Hr in Hr'. injection Hr' as <-. congruence.
Qed.

(** ** The loaded state *)

Section Load.
Context `{R : Rfc8785} `{P : Pydantic} `{LD : LiveDatabase}.

Lemma load_Ok s t e branch b :
  load_projection_state_for_update true s t e branch = Ok b ->
  bs_scope_key branch = event_scope e /\ exists p, typed_payload e = Ok p /\ load_rows s t e p branch = Ok b.
Proof.
  unfold load_projection_state_for_update. intros Hl. apply bind_Ok in Hl as ([] & _ & Hl).
  apply bind_Ok in Hl as ([] & Hsc & Hl). apply raise_if_Ok, bool_decide_eq_false, dec_stable in Hsc.
  apply bind_Ok in Hl as (p & Hp & Hl). apply bind_Ok in Hl as (b' & Hb & Hl).
  apply bind_Ok in Hl as ([] & _ & [= <-]). split; [done|]. exists p. split; [done|].
  apply except_value_error_Ok in Hb. unfold except_sql_error in Hb.
  destruct (load_rows s t e p branch) as [|[]]; try done. by destruct (bool_decide _).
Qed.

(** The queries behind each dictionary of the loaded state. *)
Record loaded (s : StoreState) (t : LiveTables) (e : MemoryEvent) (p : OperationPayload)
    (branch : BranchState) (b : ProjectionState) : Prop := {
  ld_sequence : ps_sequence b = e_sequence e - 1;
  ld_memories : read_rows mr_memory_id memory_row_to_state (select_memories t e (targets p).1.1)
                = Ok (ps_memories b);
  ld_evidence : read_rows er_evidence_id evidence_row_to_state (select_evidence t e p (targets p).1.1)
                = Ok (ps_evidence b);
  ld_links : read_rows lr_link_id link_row_to_state (select_links t e (targets p).1.2) = Ok (ps_links b);
  ld_conflicts : read_rows kr_conflict_id conflict_row_to_state (select_conflicts t e (targets p).2)
                 = Ok (ps_conflicts b);
  ld_members : read_rows (fun row => (br_conflict_id row, br_memory_id row)) conflict_member_row_to_state
                 (select_members t e (targets p).2) = Ok (ps_conflict_members b);
  ld_branches : ps_branches b = {[bs_branch_id branch := branch]};
  ld_cause : ps_event_scopes b = load_cause s e
}.

Lemma load_rows_Ok s t e p branch b : load_rows s t e p branch = Ok b -> loaded s t e p branch b.
Proof.
  unfold load_rows. destruct (targets p) as [[ids link_id] conflict_id] eqn:Et. intros Hl.
  apply bind_Ok in Hl as ([] & _ & Hl). apply bind_Ok in Hl as (m & Hm & Hl).
  apply bind_Ok in Hl as (ev & Hev & Hl). apply bind_Ok in Hl as (l & Hlk & Hl).
  apply bind_Ok in Hl as (c & Hc & Hl). apply bind_Ok in Hl as (cm & Hcm & [= <-]).
  split; rewrite ?Et; done.
Qed.

Section View.
Context (st : StoreState) (t : LiveTables) (e : MemoryEvent) (p : OperationPayload)
  (branch : BranchState) (b s : ProjectionState).
Hypothesis Hload : loaded st t e p branch b.
Hypothesis Hholds : holds t s.
Hypothesis Hwf : wf s.

(** A loaded memory is a target of the event, and the projection's memory up
    to its class. *)
Lemma loaded_memory id x :
  ps_memories b !! id = Some x ->
  id ∈ (targets p).1.1 /\ exists m, ps_memories s !! id = Some m /\ x = stored_class m /\
    ms_tenant_id m = e_tenant_id e.
Proof.
  intros Hx. destruct (read_rows_source _ _ _ _ _ _ (ld_memories _ _ _ _ _ _ Hload) Hx) as (row & Hin & <- & Hread).
  apply elem_of_select_rows in Hin as (Ht & k & Hk). rewrite !andb_true_iff, !Z.eqb_eq, bool_decide_eq_true in Ht.
  destruct Ht as [[Hten _] Hid]. split; [done|].
  pose proof (ho_memories _ _ Hholds k) as Hrel. rewrite Hk in Hrel.
  apply holds_row in Hrel as (m & Hm & Hst). destruct (memory_stored_columns _ _ Hst) as (E1 & E2 & _).
  pose proof (wf_memory_key _ Hwf _ _ Hm) as Hkey. exists m. rewrite E1, Hkey. split; [done|].
  split; [|congruence]. eapply memory_stored_read; [|done|done]. by apply (wf_memory_valid _ Hwf k).
Qed.

Lemma loaded_covers : covers (ps_memories b) (ps_memories s).
Proof.
  intros id x Hx. destruct (loaded_memory id x Hx) as (_ & m & Hm & -> & _). exists m.
  split; [done|]. apply same_class_stored.
Qed.

(** Every evidence row of a tombstoned memory is loaded. *)
Lemma loaded_tombstone_evidence prev m mode current k i :
  p = TombstonedPayload prev m mode -> ps_memories b !! ms_memory_id m = Some current ->
  ms_scope_key current = event_scope e -> ps_evidence s !! k = Some i -> es_memory_id i = ms_memory_id m ->
  exists k', ps_evidence b !! k' = Some i.
Proof.
  intros Hp Hcur Hsc Hi Hmem. pose proof (ld_evidence _ _ _ _ _ _ Hload) as Hread.
  destruct (loaded_memory _ _ Hcur) as (Hid & m0 & Hm0 & -> & _).
  destruct (ho_foreign_key _ _ Hholds _ _ Hi) as (m1 & Hm1 & Ht & Hl). rewrite Hmem, Hm0 in Hm1.
  injection Hm1 as <-. injection Hsc as Hs1 Hs2 _. cbn in Hs1, Hs2.
  pose proof (ho_evidence _ _ Hholds k) as Hrel. rewrite Hi in Hrel.
  apply holds_image in Hrel as (row & Hrow & Hst). destruct (evidence_stored_columns _ _ Hst) as (E1 & E2 & E3 & E4).
  assert (Hin : row ∈ select_evidence t e p (targets p).1.1).
  { rewrite Hp at 1. apply elem_of_select_rows. split; [|eauto].
    rewrite !andb_true_iff, !Z.eqb_eq, bool_decide_eq_true. rewrite E2, E3, E4, Hmem. repeat split; congruence. }
  destruct (read_rows_complete _ _ _ _ _ Hread Hin) as [x Hx]. exists (er_evidence_id row). rewrite Hx. f_equal.
  destruct (read_rows_source _ _ _ _ _ _ Hread Hx) as (row' & Hin' & Hk' & Hr').
  rewrite Hp in Hin' at 1. apply elem_of_select_rows in Hin' as (_ & k2 & Hk2).
  pose proof (ho_evidence _ _ Hholds k2) as Hrel2. rewrite Hk2 in Hrel2.
  apply holds_row in Hrel2 as (i2 & Hi2 & Hst2). destruct (evidence_stored_columns _ _ Hst2) as (F1 & _).
  destruct (wf_evidence _ Hwf _ _ Hi) as [<- _]. destruct (wf_evidence _ Hwf _ _ Hi2) as [<- _].
  assert (Heq : es_evidence_id i2 = es_evidence_id i) by congruence. rewrite Heq in Hi2.
  assert (i2 = i) as -> by congruence. by eapply evidence_stored_read.
Qed.

(** A loaded conflict and its members are those of the projection. *)
Lemma loaded_conflict c current :
  ps_conflicts b !! c = Some current ->
  ps_conflicts s !! c = Some current /\ (targets p).2 = Some c /\
  cs_tenant_id current = e_tenant_id e /\ cs_lineage_id current = e_lineage_id e.
Proof.
  intros Hc. destruct (read_rows_source _ _ _ _ _ _ (ld_conflicts _ _ _ _ _ _ Hload) Hc) as (row & Hin & <- & Hread).
  apply elem_of_select_rows in Hin as (Ht & k & Hk). rewrite !andb_true_iff, !Z.eqb_eq, bool_decide_eq_true in Ht.
  destruct Ht as [[Hten Hlin] Hid].
  pose proof (ho_conflicts _ _ Hholds k) as Hrel. rewrite Hk in Hrel.
  apply holds_row in Hrel as (con & Hcon & Hv & o & r & ->).
  destruct (wf_conflict _ Hwf _ _ Hcon) as [Hkey _]. cbn in *.
  rewrite conflict_row_reads_back in Hread by done. injection Hread as ->. split; [by rewrite Hkey|]. by split; [symmetry|].
Qed.

Lemma loaded_members c current id :
  ps_conflicts b !! c = Some current ->
  ps_conflict_members s !! (c, id) = ps_conflict_members b !! (c, id).
Proof.
  intros Hc. destruct (loaded_conflict c current Hc) as (Hs & Htgt & Hten & Hlin).
  pose proof (ld_members _ _ _ _ _ _ Hload) as Hread.
  assert (Hsource : forall x, ps_conflict_members b !! (c, id) = Some x -> ps_conflict_members s !! (c, id) = Some x).
  { intros x Hx. destruct (read_rows_source _ _ _ _ _ _ Hread Hx) as (row & Hin & Hkey & Hr).
    injection Hkey as Hk1 Hk2. apply elem_of_select_rows in Hin as (_ & [[[k1 k2] k3] k4] & Hk).
    destruct (ho_member_row _ _ Hholds _ _ _ _ _ Hk) as (con & y & _ & _ & _ & Hy & Hv & ev & ->).
    unfold member_row in Hr. rewrite member_row_reads_back in Hr by done. injection Hr as ->.
    destruct (wf_member _ Hwf _ _ _ Hy) as (E1 & E2 & _). cbn in Hk1, Hk2. congruence. }
  destruct (ps_conflict_members b !! (c, id)) as [x|] eqn:Hx; [by apply Hsource|].
  apply eq_None_not_Some. intros [y Hy].
  destruct (ho_member _ _ Hholds _ _ _ Hy) as (con & row & Hcon & Hrow & Hv & ev & ->).
  rewrite Hs in Hcon. injection Hcon as <-. destruct (wf_member _ Hwf _ _ _ Hy) as (E1 & E2 & _).
  assert (Hin : member_row current y ev ∈ select_members t e (targets p).2).
  { apply elem_of_select_rows. split; [|eauto].
    rewrite !andb_true_iff, !Z.eqb_eq, bool_decide_eq_true. cbn. rewrite Htgt. repeat split; congruence. }
  destruct (read_rows_complete _ _ _ _ _ Hread Hin) as [z Hz]. cbn in Hz. congruence.
Qed.
End View.
End Load.

(** ** Staged writes *)

Section Stage.
Context `{R : Rfc8785} `{P : Pydantic} `{LD : LiveDatabase}.

(** The tables once everything a session holds is flushed. *)
Definition settle (x : Session) : result LiveTables := foldM apply_write (se_tables x) (se_pending x).

Lemma settle_add x w t' :
  settle (session_add x w) = Ok t' -> exists t, settle x = Ok t /\ apply_write t w = Ok t'.
Proof.
  unfold settle. cbn [session_add se_tables se_pending]. rewrite foldM_app. intros Hs.
  apply bind_Ok in Hs as (t & Ht & Hs). apply foldM_one in Hs. eauto.
Qed.

Lemma settle_execute x w x' t' :
  session_execute x w = Ok x' -> settle x' = Ok t' -> exists t, settle x = Ok t /\ apply_write t w = Ok t'.
Proof.
  unfold session_execute, session_flush. intros Hx Hs. apply bind_Ok in Hx as (f & Hf & Hx).
  apply bind_Ok in Hf as (t & Ht & [= <-]). apply bind_Ok in Hx as (t1 & H1 & [= <-]).
  unfold settle in Hs. cbn in Hs. injection Hs as <-. eauto.
Qed.

(** A loop whose body stages one write stages the list of them. *)
Lemma stage_loop {A} (f : Session -> A -> result Session) (w : A -> result LiveWrite) l x x' t' :
  (forall x a x' t', f x a = Ok x' -> settle x' = Ok t' ->
     exists t wr, settle x = Ok t /\ w a = Ok wr /\ apply_write t wr = Ok t') ->
  foldM f x l = Ok x' -> settle x' = Ok t' ->
  exists t ws, settle x = Ok t /\ mapR w l = Ok ws /\ foldM apply_write t ws = Ok t'.
Proof.
  intros Hf. revert x. induction l as [|a l IH]; intros x Hl Hs.
  { injection Hl as ->. exists t', []. done. }
  cbn [foldM] in Hl. apply bind_Ok in Hl as (x1 & H1 & Hl). destruct (IH _ Hl Hs) as (t1 & ws & Ht1 & Hws & Hrun).
  destruct (Hf _ _ _ _ H1 Ht1) as (t & wr & Ht & Hwr & Ha). exists t, (wr :: ws).
  cbn [mapR foldM]. rewrite Hwr, Ha. cbn [mbind result_bind]. by rewrite Hws.
Qed.

Definition memory_write (before after : ProjectionState) (e : MemoryEvent) (id : UUID) : result LiveWrite :=
  m ← from_option_or (ps_memories after !! id) (ProjectionPersistenceError "missing_memory_after_image");
  row ← memory_state_to_row m (e_event_id e);
  Ok (if bool_decide (ps_memories before !! id = None) then InsertMemory row else UpdateMemory row).

Definition evidence_write (e : MemoryEvent) (i : EvidenceState) : result LiveWrite :=
  InsertEvidence <$> evidence_state_to_row i (e_event_id e).

Definition payload_writes (before after : ProjectionState) (e : MemoryEvent) (p : OperationPayload)
    : result (list LiveWrite) :=
  match p with
  | MemoryCreatedPayload _ items | CandidateLifecyclePayload _ _ _ _ items => mapR (evidence_write e) items
  | LinkedPayload l =>
    l' ← from_option_or (ps_links after !! ls_link_id l) (ProjectionPersistenceError "missing_link_after_image");
    let row := link_state_to_row l' (e_event_id e) None in
    Ok [if bool_decide (ps_links before !! ls_link_id l = None) then InsertLink row else UpdateLink row]
  | ConflictOpenedPayload c ms _ =>
    c' ← from_option_or (ps_conflicts after !! cs_conflict_id c)
           (ProjectionPersistenceError "missing_conflict_after_image");
    Ok (InsertConflict (conflict_row c' (e_event_id e)) ::
        ((fun y => InsertMember (member_row c' y (e_event_id e))) <$> sorted_members ms))
  | ConflictResolvedPayload c ms _ =>
    c' ← from_option_or (ps_conflicts after !! cs_conflict_id c)
           (ProjectionPersistenceError "missing_conflict_after_image");
    Ok (ResolveConflict c' (e_event_id e) ::
        ((fun y => UpdateMember (cs_tenant_id c') y (e_event_id e)) <$> sorted_members ms))
  | _ => Ok []
  end.

Lemma settle_adds ws x t' :
  settle (fold_left session_add ws x) = Ok t' ->
  exists t, settle x = Ok t /\ foldM apply_write t ws = Ok t'.
Proof.
  revert x. induction ws as [|w ws IH]; intros x Hs; [eauto|]. cbn [fold_left] in Hs.
  destruct (IH _ Hs) as (t1 & H1 & Hrun). destruct (settle_add _ _ _ H1) as (t & Ht & Ha).
  exists t. split; [done|]. cbn [foldM]. rewrite Ha. done.
Qed.

Lemma mapR_pure {A B} (f : A -> B) l : mapR (fun a => Ok (f a)) l = Ok (f <$> l).
Proof. induction l as [|a l IH]; [done|]. cbn [mapR mbind result_bind]. by rewrite IH. Qed.

Lemma stage_payload_writes b a e p x x' t' :
  stage_payload b a e p x = Ok x' -> settle x' = Ok t' ->
  exists t ws, settle x = Ok t /\ payload_writes b a e p = Ok ws /\ foldM apply_write t ws = Ok t'.
Proof.
  assert (Hev : forall items, foldM (stage_evidence b e) x items = Ok x' -> settle x' = Ok t' ->
    exists t ws, settle x = Ok t /\ mapR (evidence_write e) items = Ok ws /\ foldM apply_write t ws = Ok t').
  { intros items. apply stage_loop. clear. intros x i x' t' Hs Ht. unfold stage_evidence in Hs.
    apply bind_Ok in Hs as ([] & _ & Hs). apply bind_Ok in Hs as (row & Hrow & [= <-]).
    apply settle_add in Ht as (t & Ht & Ha). exists t, (InsertEvidence row).
    unfold evidence_write. by rewrite Hrow. }
  destruct p; cbn [stage_payload payload_writes]; auto; intros Hs Ht; try (injection Hs as <-; exists t', []; done).
  - unfold stage_link in Hs. apply bind_Ok in Hs as (l & -> & Hs). cbn [mbind result_bind].
    destruct (bool_decide _).
    + injection Hs as <-. apply settle_add in Ht as (t & Ht & Ha). exists t. eexists.
      split; [done|]. split; [done|]. cbn [foldM]. by rewrite Ha.
    + destruct (settle_execute _ _ _ _ Hs Ht) as (t & Ht1 & Ha). exists t. eexists.
      split; [done|]. split; [done|]. cbn [foldM]. by rewrite Ha.
  - unfold stage_opened in Hs. apply bind_Ok in Hs as (c & -> & [= <-]). cbn [mbind result_bind].
    apply settle_adds in Ht as (t1 & Ht1 & Hrun). apply settle_add in Ht1 as (t & Ht & Ha).
    exists t. eexists. split; [done|]. split; [done|]. cbn [foldM]. by rewrite Ha.
  - unfold stage_resolved in Hs. apply bind_Ok in Hs as (c & -> & Hs). cbn [mbind result_bind].
    apply bind_Ok in Hs as (x1 & Hx1 & Hs).
    destruct (stage_loop (fun x y => session_execute x (UpdateMember (cs_tenant_id c) y (e_event_id e)))
      (fun y => Ok (UpdateMember (cs_tenant_id c) y (e_event_id e))) _ _ _ _
      ltac:(intros ? ? ? ? H1 H2; destruct (settle_execute _ _ _ _ H1 H2) as (? & ? & ?); eauto) Hs Ht)
      as (t1 & ws & Ht1 & Hws & Hrun).
    rewrite mapR_pure in Hws. injection Hws as <-.
    destruct (settle_execute _ _ _ _ Hx1 Ht1) as (t & Ht2 & Ha). exists t. eexists.
    split; [done|]. split; [done|]. cbn [foldM]. by rewrite Ha.
Qed.

Lemma stage_memory_write b a e x id x' t' :
  stage_memory b a e x id = Ok x' -> settle x' = Ok t' ->
  exists t w, settle x = Ok t /\ memory_write b a e id = Ok w /\ apply_write t w = Ok t'.
Proof.
  unfold stage_memory, memory_write. intros Hs Ht. apply bind_Ok in Hs as (m & -> & Hs).
  apply bind_Ok in Hs as (row & Hrow & Hs). cbn [mbind result_bind]. rewrite Hrow. cbn [mbind result_bind].
  destruct (bool_decide _).
  - injection Hs as <-. apply settle_add in Ht as (t & Ht & Ha). eauto.
  - destruct (settle_execute _ _ _ _ Hs Ht) as (t & Ht1 & Ha). eauto.
Qed.

Lemma foldM_write_rows ws t t' : foldM apply_write t ws = Ok t' -> foldM write_rows t ws = Ok t'.
Proof.
  revert t. induction ws as [|w ws IH]; intros t; [done|]. cbn [foldM]. intros Hr.
  apply bind_Ok in Hr as (t1 & Ha & Hr). unfold apply_write in Ha. apply bind_Ok in Ha as (t2 & -> & Ha).
  apply bind_Ok in Ha as ([] & _ & [= ->]). cbn [mbind result_bind]. auto.
Qed.

(** Staging is the list of its writes. *)
Lemma stage_writes b a e t t' :
  stage_live_projection true b a e t = Ok t' ->
  exists p ws1 ws2 t1, typed_payload e = Ok p /\
    mapR (memory_write b a e)
      (filter (fun id => ps_memories a !! id <> ps_memories b !! id) (targets p).1.1) = Ok ws1 /\
    foldM write_rows t ws1 = Ok t1 /\ payload_writes b a e p = Ok ws2 /\ foldM write_rows t1 ws2 = Ok t'.
Proof.
  unfold stage_live_projection. intros Hs. apply bind_Ok in Hs as ([] & _ & Hs).
  apply bind_Ok in Hs as (p & Hp & Hs). exists p.
  set (changed := filter _ _) in *.
  assert (Hin : exists x x' done,
    foldM (stage_memory b a e) {| se_tables := t; se_pending := [] |} changed = Ok x /\
    stage_payload b a e p x = Ok x' /\ session_flush x' = Ok done /\ se_tables done = t').
  { unfold except_sql_error in Hs.
    match type of Hs with match ?r with _ => _ end = _ => destruct r as [r'|err] eqn:Er end;
      [|destruct err; try done; by destruct (bool_decide _)].
    injection Hs as <-. apply bind_Ok in Er as (x & H1 & Er). apply bind_Ok in Er as (x' & H2 & Er).
    apply bind_Ok in Er as (d & H3 & [= <-]). exists x, x', d. done. }
  destruct Hin as (x & x' & d & H1 & H2 & H3 & <-). unfold session_flush in H3.
  apply bind_Ok in H3 as (t' & H3 & [= <-]). cbn [se_tables].
  destruct (stage_payload_writes _ _ _ _ _ _ _ H2 H3) as (t1 & ws2 & Ht1 & Hws2 & Hrun2).
  destruct (stage_loop (stage_memory b a e) (memory_write b a e) _ _ _ _ (stage_memory_write b a e) H1 Ht1)
    as (t0 & ws1 & Ht0 & Hws1 & Hrun1).
  cbn in Ht0. injection Ht0 as <-. exists ws1, ws2, t1. eauto 10 using foldM_write_rows.
Qed.
End Stage.

(** * The tables after the writes of one event *)

(** ** Single statements *)

Lemma insert_row_Ok {K R} `{Countable K} (key : K) (row : R) table table' :
  insert_row key row table = Ok table' -> table !! key = None /\ table' = <[key := row]> table.
Proof.
  unfold insert_row. intros Hi. apply bind_Ok in Hi as ([] & Hn & [= <-]).
  apply raise_if_Ok, bool_decide_eq_false, eq_None_not_Some in Hn. done.
Qed.

Lemma update_rows_lookup {K R} `{Countable K} (test : R -> bool) (set : R -> R) (table : gmap K R) k :
  update_rows test set table !! k = (fun row => if test row then set row else row) <$> table !! k.
Proof. apply lookup_fmap. Qed.

(** An update that matches one row replaces it. *)
Lemma update_rows_one {K R} `{Countable K} (test : R -> bool) (set : R -> R) (table : gmap K R) k old :
  table !! k = Some old -> test old = true ->
  (forall k' row, table !! k' = Some row -> test row = true -> k' = k) ->
  update_rows test set table = <[k := set old]> table.
Proof.
  intros Hk Ht Hone. apply map_eq. intros k'. rewrite update_rows_lookup.
  destruct (decide (k' = k)) as [->|Hne].
  - rewrite Hk, lookup_insert_eq. cbn. by rewrite Ht.
  - rewrite lookup_insert_ne by done. destruct (table !! k') as [row|] eqn:Hrow; [|done]. cbn.
    destruct (test row) eqn:Etest; [|done]. by destruct (Hne (Hone _ _ Hrow Etest)).
Qed.

(** A list of inserts into one table: each key was free, each row is there, and
    nothing else changes. *)
Lemma insert_table_effect {K Row} `{Countable K} (mk : Row -> LiveWrite) (key : Row -> K)
    (get : LiveTables -> gmap K Row) (set : LiveTables -> gmap K Row -> LiveTables) rows t t' :
  (forall t row, write_rows t (mk row) = set t <$> insert_row (key row) row (get t)) ->
  (forall t T, get (set t T) = T) -> (forall t T T', set (set t T) T' = set t T') -> (forall t, set t (get t) = t) ->
  foldM write_rows t (mk <$> rows) = Ok t' ->
  t' = set t (get t') /\
  (forall row, row ∈ rows -> get t !! key row = None) /\
  (forall row, row ∈ rows -> get t' !! key row = Some row) /\
  (forall k, k ∉ key <$> rows -> get t' !! k = get t !! k).
Proof.
  intros Hw Hgs Hss Hsg. induction rows as [|row rows IH] using rev_ind in t' |- *.
  { intros [= <-]. split; [done|]. split; [|split]; try done; intros x Hx; by apply elem_of_nil in Hx. }
  rewrite fmap_app, foldM_app. intros Hrun. apply bind_Ok in Hrun as (t1 & H1 & Hrun).
  apply foldM_one in Hrun. rewrite Hw in Hrun. apply fmap_Ok in Hrun as (T & Hi & <-).
  apply insert_row_Ok in Hi as [Hnone ->]. destruct (IH t1 H1) as (Heq & Hfresh & Hin & Hout).
  assert (Hrow : key row ∉ key <$> rows).
  { intros Hel. apply list_elem_of_fmap in Hel as (r & Hr & Hel). rewrite Hr, (Hin r Hel) in Hnone. done. }
  rewrite Hgs. split; [by rewrite Heq, Hss|]. split; [|split].
  - intros r Hr. apply elem_of_app in Hr as [Hr|Hr]; [by apply Hfresh|].
    apply list_elem_of_singleton in Hr as ->. by rewrite <- (Hout _ Hrow).
  - intros r Hr. apply elem_of_app in Hr as [Hr|Hr].
    + rewrite lookup_insert_ne; [by apply Hin|]. intros Hk. apply Hrow. rewrite Hk. apply list_elem_of_fmap. eauto.
    + apply list_elem_of_singleton in Hr as ->. apply lookup_insert_eq.
  - intros k Hk. rewrite fmap_app in Hk. apply not_elem_of_app in Hk as [Hk1 Hk2].
    rewrite lookup_insert_ne; [by apply Hout|]. intros <-. apply Hk2. by left.
Qed.

Definition member_row_place (row : MemberRow) : UUID * UUID * UUID * UUID :=
  (br_tenant_id row, br_lineage_id row, br_conflict_id row, br_memory_id row).

Section Effects.
Context `{R : Rfc8785} `{P : Pydantic}.

(** ** Memories *)

Definition keyed (t : LiveTables) : Prop := forall k row, lt_memories t !! k = Some row -> mr_memory_id row = k.

(** What a changed memory must satisfy for its write to find its row. *)
Definition writable (b a : ProjectionState) (t : LiveTables) (tenant : UUID) (id : UUID) : Prop :=
  (forall m, ps_memories a !! id = Some m -> ms_memory_id m = id /\ ms_tenant_id m = tenant) /\
  (forall x, ps_memories b !! id = Some x -> exists row, lt_memories t !! id = Some row /\ mr_tenant_id row = tenant).

Lemma memory_write_effect b a e tenant t id w t' :
  keyed t -> writable b a t tenant id -> memory_write b a e id = Ok w -> write_rows t w = Ok t' ->
  exists m row, ps_memories a !! id = Some m /\ memory_state_to_row m (e_event_id e) = Ok row /\
    t' = set_lt_memories t (<[id := row]> (lt_memories t)) /\ mr_memory_id row = id /\
    (ps_memories b !! id = None -> lt_memories t !! id = None).
Proof.
  intros Hkey [Ha Hb] Hw Ht. unfold memory_write in Hw. apply bind_Ok in Hw as (m & Hm & Hw).
  apply from_option_or_Ok in Hm. apply bind_Ok in Hw as (row & Hrow & [= <-]).
  destruct (Ha m Hm) as [Hid Hten].
  destruct (memory_stored_columns row m (ex_intro _ _ Hrow)) as (E1 & E2 & _).
  exists m, row. split; [done|]. split; [done|]. destruct (decide (ps_memories b !! id = None)) as [Hn|Hs].
  - rewrite bool_decide_true in Ht by done. cbn [write_rows] in Ht. apply fmap_Ok in Ht as (T & Hi & <-).
    apply insert_row_Ok in Hi as [Hnone ->]. rewrite E1, Hid in *. done.
  - rewrite bool_decide_false in Ht by done. cbn [write_rows] in Ht. injection Ht as <-.
    destruct (ps_memories b !! id) as [x|] eqn:Hx; [|done]. destruct (Hb x eq_refl) as (old & Hold & Hto).
    split; [|split; [congruence|done]]. f_equal. apply (update_rows_one _ (fun _ => row) _ _ old); [done| |].
    + apply andb_true_iff. rewrite !Z.eqb_eq, (Hkey _ _ Hold). split; congruence.
    + intros k' r' Hk' Htest. apply andb_true_iff in Htest as [_ Htest]. apply Z.eqb_eq in Htest.
      rewrite <- (Hkey _ _ Hk'). congruence.
Qed.

Lemma memory_writes_effect b a e tenant ids t ws t' :
  NoDup ids -> keyed t -> (forall id, id ∈ ids -> writable b a t tenant id) ->
  mapR (memory_write b a e) ids = Ok ws -> foldM write_rows t ws = Ok t' ->
  t' = set_lt_memories t (lt_memories t') /\
  (forall id, id ∉ ids -> lt_memories t' !! id = lt_memories t !! id) /\
  (forall id, id ∈ ids -> exists m row, ps_memories a !! id = Some m /\
     memory_state_to_row m (e_event_id e) = Ok row /\ lt_memories t' !! id = Some row) /\
  (forall id, id ∈ ids -> ps_memories b !! id = None -> lt_memories t !! id = None).
Proof.
  revert t ws. induction ids as [|id ids IH]; intros t ws Hnd Hkey Hall Hws Hrun.
  { injection Hws as <-. injection Hrun as <-. split; [by destruct t|]. split; [done|].
    split; intros id Hid; by apply elem_of_nil in Hid. }
  apply NoDup_cons in Hnd as [Hni Hnd]. cbn [mapR] in Hws. apply bind_Ok in Hws as (w & Hw & Hws).
  apply bind_Ok in Hws as (ws' & Hws & [= <-]). cbn [foldM] in Hrun. apply bind_Ok in Hrun as (t1 & Ht1 & Hrun).
  destruct (memory_write_effect b a e tenant t id w t1 Hkey (Hall id ltac:(left)) Hw Ht1)
    as (m & row & Hm & Hrow & -> & Hrid & Hfresh).
  set (t1 := set_lt_memories t (<[id := row]> (lt_memories t))) in *.
  assert (Hkey1 : keyed t1).
  { intros k r Hk. cbn in Hk. apply lookup_insert_Some in Hk as [[<- <-]|[_ Hk]]; [done|by apply Hkey]. }
  assert (Hne : forall id', id' ∈ ids -> id <> id') by (intros id' Hin ->; done).
  destruct (IH t1 ws' Hnd Hkey1) as (Heq & Hout & Hin & Hnew); [|done|done|].
  { intros id' Hid'. destruct (Hall id' ltac:(by right)) as [Ha Hb]. split; [done|]. intros x Hx.
    destruct (Hb x Hx) as (r & Hr & Hten). exists r. cbn. rewrite lookup_insert_ne by auto. done. }
  split; [rewrite Heq at 1; done|]. split; [|split].
  - intros id' Hid'. apply not_elem_of_cons in Hid' as [Hne' Hid']. rewrite (Hout id' Hid').
    cbn. by rewrite lookup_insert_ne.
  - intros id' Hid'. apply elem_of_cons in Hid' as [->|Hid']; [|by apply Hin].
    exists m, row. rewrite (Hout id Hni). cbn. by rewrite lookup_insert_eq.
  - intros id' Hid' Hb'. apply elem_of_cons in Hid' as [->|Hid']; [by apply Hfresh|].
    pose proof (Hnew id' Hid' Hb') as Hn. cbn in Hn. rewrite lookup_insert_ne in Hn by auto. done.
Qed.

(** ** Evidence *)

Lemma evidence_writes_effect e items t ws t' (E : gmap UUID EvidenceState) :
  Forall (fun i => validate_evidence i = Ok tt) items ->
  (forall id, option_Forall2 evidence_stored (lt_evidence t !! id) (E !! id)) ->
  mapR (evidence_write e) items = Ok ws -> foldM write_rows t ws = Ok t' ->
  t' = set_lt_evidence t (lt_evidence t') /\
  (forall i, i ∈ items -> E !! es_evidence_id i = None) /\
  (forall id, option_Forall2 evidence_stored (lt_evidence t' !! id) (insert_evidence items E !! id)).
Proof.
  revert t ws E. induction items as [|i items IH]; intros t ws E Hv Hh Hws Hrun.
  { injection Hws as <-. injection Hrun as <-. split; [by destruct t|]. split; [|done].
    intros i Hi. by apply elem_of_nil in Hi. }
  apply Forall_cons in Hv as [Hvi Hv]. cbn [mapR] in Hws. apply bind_Ok in Hws as (w & Hw & Hws).
  apply bind_Ok in Hws as (ws' & Hws & [= <-]). cbn [foldM] in Hrun. apply bind_Ok in Hrun as (t1 & Ht1 & Hrun).
  unfold evidence_write in Hw. apply fmap_Ok in Hw as (row & Hrow & <-). cbn [write_rows] in Ht1.
  apply fmap_Ok in Ht1 as (T & Hi & <-). apply insert_row_Ok in Hi as [Hnone ->].
  assert (Hst : evidence_stored row i) by (split; eauto).
  destruct (evidence_stored_columns row i Hst) as (Eid & _). rewrite Eid in *.
  assert (HE : E !! es_evidence_id i = None).
  { pose proof (Hh (es_evidence_id i)) as Hr. rewrite Hnone in Hr. by apply holds_none in Hr. }
  destruct (IH (set_lt_evidence t (<[es_evidence_id i := row]> (lt_evidence t))) ws'
    (<[es_evidence_id i := i]> E) Hv) as (Heq & Hfresh & Hh'); [|done|done|].
  { intros id. cbn. destruct (decide (id = es_evidence_id i)) as [->|Hne].
    - rewrite !lookup_insert_eq. by constructor.
    - rewrite !lookup_insert_ne by done. apply Hh. }
  split; [rewrite Heq at 1; done|]. split; [|done].
  intros j Hj. apply elem_of_cons in Hj as [->|Hj]; [done|]. specialize (Hfresh j Hj).
  by apply lookup_insert_None in Hfresh as [? _].
Qed.

(** ** Conflict members *)

Definition member_place (c : ConflictState) (x : ConflictMemberState) : UUID * UUID * UUID * UUID :=
  (cs_tenant_id c, cs_lineage_id c, cm_conflict_id x, cm_memory_id x).

Lemma insert_members_effect c ev ms t t' :
  foldM write_rows t ((fun y => InsertMember (member_row c y ev)) <$> ms) = Ok t' ->
  t' = set_lt_members t (lt_members t') /\
  (forall x, x ∈ ms -> lt_members t !! member_place c x = None) /\
  (forall x, x ∈ ms -> lt_members t' !! member_place c x = Some (member_row c x ev)) /\
  (forall k, k ∉ member_place c <$> ms -> lt_members t' !! k = lt_members t !! k).
Proof.
  intros Hrun. rewrite (list_fmap_compose (fun y => member_row c y ev) InsertMember) in Hrun.
  destruct (insert_table_effect InsertMember member_row_place lt_members set_lt_members) with (5 := Hrun)
    as (Heq & Hfresh & Hin & Hout); try done; [by intros []|].
  split; [done|]. split; [|split].
  - intros x Hx. apply (Hfresh (member_row c x ev)), list_elem_of_fmap. eauto.
  - intros x Hx. apply (Hin (member_row c x ev)), list_elem_of_fmap. eauto.
  - intros k Hk. apply Hout. intros Hel. apply Hk. apply list_elem_of_fmap in Hel as (row & -> & Hel).
    apply list_elem_of_fmap in Hel as (x & -> & Hx). apply list_elem_of_fmap. by exists x.
Qed.

(** Updates of members change only the rows of their conflict and memory. *)
Lemma update_members_effect tenant ev ms t t' :
  NoDup (cm_memory_id <$> ms) ->
  foldM write_rows t ((fun y => UpdateMember tenant y ev) <$> ms) = Ok t' ->
  t' = set_lt_members t (lt_members t') /\
  forall k row, lt_members t' !! k = Some row <-> exists old, lt_members t !! k = Some old /\
    ((exists x, x ∈ ms /\ br_tenant_id old = tenant /\ br_conflict_id old = cm_conflict_id x /\
        br_memory_id old = cm_memory_id x /\ row = updated_member x ev old) \/
     (row = old /\ forall x, x ∈ ms -> br_tenant_id old = tenant -> br_conflict_id old = cm_conflict_id x ->
        br_memory_id old <> cm_memory_id x)).
Proof.
  induction ms as [|x ms IH] using rev_ind in t' |- *; intros Hnd.
  { intros [= <-]. split; [by destruct t|]. intros k row. split.
    - intros Hk. exists row. split; [done|]. right. split; [done|]. intros x Hx. by apply elem_of_nil in Hx.
    - intros (old & Hk & [(x & Hx & _)|(-> & _)]); [by apply elem_of_nil in Hx|done]. }
  rewrite fmap_app in Hnd. rewrite fmap_app. apply NoDup_app in Hnd as (Hnd & Hdis & _). rewrite foldM_app. intros Hrun.
  apply bind_Ok in Hrun as (t1 & H1 & Hrun). cbn [fmap list_fmap] in Hrun. apply foldM_one in Hrun.
  cbn [write_rows] in Hrun. injection Hrun as <-. destruct (IH t1 Hnd H1) as (Heq & Hiff).
  rewrite Heq. cbn [set_lt_members lt_members]. split; [done|]. intros k row. rewrite update_rows_lookup.
  assert (Hother : forall y, y ∈ ms -> cm_memory_id y <> cm_memory_id x).
  { intros y Hy Hyx. apply (Hdis (cm_memory_id y)); [apply list_elem_of_fmap; eauto|].
    rewrite Hyx. by left. }
  split.
  - intros Hk. apply fmap_Some in Hk as (r1 & Hr1 & ->). apply Hiff in Hr1 as (old & Hold & Hcase).
    exists old. split; [done|].
    assert (Hcols : br_tenant_id r1 = br_tenant_id old /\ br_conflict_id r1 = br_conflict_id old /\
              br_memory_id r1 = br_memory_id old) by (destruct Hcase as [(y & _ & _ & _ & _ & ->)|[-> _]]; done).
    destruct Hcols as (C1 & C2 & C3).
    destruct (_ && _ && _) eqn:Etest.
    + rewrite !andb_true_iff, !Z.eqb_eq in Etest. destruct Etest as [[T1 T2] T3].
      left. exists x. split; [apply elem_of_app; right; by left|]. split; [congruence|].
      split; [congruence|]. split; [congruence|].
      destruct Hcase as [(y & Hy & _ & _ & Hym & ->)|[-> _]]; [|done].
      destruct (Hother y Hy). congruence.
    + destruct Hcase as [(y & Hy & Hrest)|[-> Hnone]].
      * left. exists y. split; [apply elem_of_app; by left|done].
      * right. split; [done|]. intros y Hy Ht Hc. apply elem_of_app in Hy as [Hy|Hy]; [by apply Hnone|].
        apply list_elem_of_singleton in Hy as ->. intros Hm.
        rewrite Ht, Hc, Hm, !Z.eqb_refl in Etest. done.
  - intros (old & Hold & Hcase). apply fmap_Some.
    destruct Hcase as [(y & Hy & Ht & Hc & Hm & ->)|[-> Hnone]].
    + apply elem_of_app in Hy as [Hy|Hy].
      * exists (updated_member y ev old). split; [apply Hiff; exists old; split; [done|]; left; eauto 10|].
        cbn. replace (br_memory_id old =? cm_memory_id x) with false; [by rewrite andb_false_r|].
        symmetry. apply Z.eqb_neq. rewrite Hm. by apply Hother.
      * apply list_elem_of_singleton in Hy as ->. exists old. split.
        -- apply Hiff. exists old. split; [done|]. right. split; [done|]. intros y Hy _ _ Hym.
           apply (Hother y Hy). congruence.
        -- by rewrite Ht, Hc, Hm, !Z.eqb_refl.
    + exists old. split.
      * apply Hiff. exists old. split; [done|]. right. split; [done|]. intros y Hy.
        apply Hnone, elem_of_app. by left.
      * destruct (_ && _ && _) eqn:Etest; [|done]. rewrite !andb_true_iff, !Z.eqb_eq in Etest.
        destruct Etest as [[T1 T2] T3].
        by destruct (Hnone x ltac:(apply elem_of_app; right; by left) T1 T2).
Qed.
End Effects.
