(* ===== verification/LiveProjectionTheorems.v ===== *)
(** * LiveProjectionTheorems: the live path maintains the projection of the log

    One command on the live path is one step of the replay: when the tables
    hold the projection of the stored log, an accepted command leaves tables
    that hold the projection of the longer log. *)

From stdpp Require Import base tactics option list gmap strings.
From Stdlib Require Import ZArith Lia Bool.
From S2P Require Import Prelude Identifiers Enums Values CanonicalJson Digest Constraints Events Folding FoldingFacts FoldingInvariant EventStore EventStoreTheorems ProjectionRows ProjectionRowsTheorems LiveProjection LiveTransfer LiveProjectionFacts.
Open Scope Z_scope.

Lemma elem_of_sorted_ids id ids : id ∈ sorted_ids ids <-> id ∈ ids.
Proof. unfold sorted_ids. by rewrite sort_by_perm, elem_of_remove_dups. Qed.

Lemma sorted_ids_nodup ids : NoDup (sorted_ids ids).
Proof. unfold sorted_ids. rewrite sort_by_perm. apply NoDup_remove_dups. Qed.

Lemma targets_nodup p : NoDup (targets p).1.1.
Proof. destruct p; apply sorted_ids_nodup. Qed.

Lemma image_targets p m : is_live p = true -> m ∈ memory_after_images p -> ms_memory_id m ∈ (targets p).1.1.
Proof.
  destruct p; cbn [memory_after_images targets fst]; intros Hl Hm; try discriminate Hl;
    rewrite ?elem_of_sorted_ids; try (by apply list_elem_of_singleton in Hm as ->; left);
    try (by apply elem_of_nil in Hm).
  all: apply elem_of_app; left; apply list_elem_of_fmap in Hm as (a & -> & Ha);
    apply list_elem_of_fmap; by exists a.
Qed.

Lemma foldM_elem {S A} (f : S -> A -> result S) s l s' a :
  foldM f s l = Ok s' -> a ∈ l -> exists t t', f t a = Ok t'.
Proof.
  revert s. induction l as [|x l IH]; intros s Hf Hin; [by apply elem_of_nil in Hin|].
  cbn [foldM] in Hf. apply bind_Ok in Hf as (t & Ht & Hf). apply elem_of_cons in Hin as [->|Hin]; eauto.
Qed.

Lemma insert_evidence_lookup items E k i :
  insert_evidence items E !! k = Some i -> E !! k = Some i \/ (i ∈ items /\ es_evidence_id i = k).
Proof.
  unfold insert_evidence. induction items as [|x items IH] using rev_ind; [auto|].
  rewrite fold_left_app. cbn [fold_left]. intros Hk.
  apply lookup_insert_Some in Hk as [[<- <-]|[_ Hk]]; [right; split; [apply elem_of_app; right; by left|done]|].
  destruct (IH Hk) as [|[Hin Hid]]; [auto|]. right. split; [apply elem_of_app; by left|done].
Qed.

Lemma insert_members_lookup ms CM :
  NoDup (member_key <$> ms) ->
  (forall x, x ∈ ms -> insert_members ms CM !! member_key x = Some x) /\
  (forall k, k ∉ member_key <$> ms -> insert_members ms CM !! k = CM !! k).
Proof.
  unfold insert_members. induction ms as [|x ms IH] using rev_ind; intros Hnd.
  { split; [|done]. intros x Hx. by apply elem_of_nil in Hx. }
  rewrite fmap_app in Hnd. apply NoDup_app in Hnd as (Hnd & Hdis & _). destruct (IH Hnd) as [Hin Hout].
  rewrite fold_left_app. cbn [fold_left]. split.
  - intros y Hy. apply elem_of_app in Hy as [Hy|Hy].
    + rewrite lookup_insert_ne; [by apply Hin|]. intros Heq.
      apply (Hdis (member_key y)); [apply list_elem_of_fmap; eauto|]. rewrite <- Heq. by left.
    + apply list_elem_of_singleton in Hy as ->. by rewrite lookup_insert_eq.
  - intros k Hk. rewrite fmap_app in Hk. apply not_elem_of_app in Hk as [Hk1 Hk2].
    rewrite lookup_insert_ne; [by apply Hout|]. intros <-. apply Hk2. by left.
Qed.

Lemma scope_columns m e : ms_scope_key m = event_scope e ->
  ms_tenant_id m = e_tenant_id e /\ ms_lineage_id m = e_lineage_id e.
Proof. unfold ms_scope_key, event_scope. by intros [= -> ->]. Qed.

(** ** Which tables a payload writes *)

Inductive LiveTable : Type := TMemories | TEvidence | TLinks | TConflicts | TMembers.

Definition table_of (w : LiveWrite) : LiveTable :=
  match w with
  | InsertMemory _ | UpdateMemory _ => TMemories
  | InsertEvidence _ => TEvidence
  | InsertLink _ | UpdateLink _ => TLinks
  | InsertConflict _ | ResolveConflict _ _ => TConflicts
  | InsertMember _ | UpdateMember _ _ _ => TMembers
  end.

Definition same_table (T : LiveTable) (t t' : LiveTables) : Prop :=
  match T with
  | TMemories => lt_memories t' = lt_memories t
  | TEvidence => lt_evidence t' = lt_evidence t
  | TLinks => lt_links t' = lt_links t
  | TConflicts => lt_conflicts t' = lt_conflicts t
  | TMembers => lt_members t' = lt_members t
  end.

Lemma same_table_trans T x y z : same_table T x y -> same_table T y z -> same_table T x z.
Proof. destruct T; cbn; congruence. Qed.

Lemma writes_frame T ws t t' :
  Forall (fun w => table_of w <> T) ws -> foldM write_rows t ws = Ok t' -> same_table T t t'.
Proof.
  intros Hall. revert t. induction Hall as [|w ws Hw _ IH]; intros t Hr.
  { injection Hr as <-. by destruct T. }
  cbn [foldM] in Hr. apply bind_Ok in Hr as (t1 & H1 & Hr). apply (same_table_trans _ _ t1); [|by apply IH].
  clear IH Hr. destruct w; cbn [write_rows] in H1;
    (injection H1 as <- || apply fmap_Ok in H1 as (X & _ & <-)); by destruct T.
Qed.

Section Step.
Context `{R : Rfc8785} `{P : Pydantic} `{LD : LiveDatabase}.

(** ** Payloads the live path refuses *)

Lemma loaded_links_none st t e p branch b :
  loaded st t e p branch b -> (targets p).1.2 = None -> ps_links b = ∅.
Proof.
  intros Hl Hn. apply map_empty. intros k. apply eq_None_not_Some. intros [x Hx].
  destruct (read_rows_source _ _ _ _ _ _ (ld_links _ _ _ _ _ _ Hl) Hx) as (row & Hin & _).
  apply elem_of_select_rows in Hin as (Ht & _). rewrite Hn, !andb_true_iff, bool_decide_eq_true in Ht.
  by destruct Ht.
Qed.

Lemma loaded_target st t e p branch b id x :
  loaded st t e p branch b -> ps_memories b !! id = Some x -> id ∈ (targets p).1.1.
Proof.
  intros Hl Hx. destruct (read_rows_source _ _ _ _ _ _ (ld_memories _ _ _ _ _ _ Hl) Hx) as (row & Hin & <- & _).
  apply elem_of_select_rows in Hin as (Ht & _). rewrite !andb_true_iff, bool_decide_eq_true in Ht. by destruct Ht.
Qed.

(** A loaded state accepts only live payloads. *)
Lemma accepted_is_live st t e p branch b w :
  loaded st t e p branch b -> bs_scope_key branch = event_scope e -> validate_payload p = Ok tt ->
  op_run b e (working_of b) p w -> is_live p = true.
Proof.
  intros Hl Hbr Hv Hrun. destruct Hrun as [| | | | |prev m l M L Hop Hlive Hrep Hlink| |item E Hop Ha|eid mid at_ rc E Hop Hr| |l L Hop Hu| | |br B Hop Hc|];
    try done; exfalso; cbn [w_memories w_evidence w_links w_branches working_of] in *.
  - apply replace_memory_Ok in Hrep as (x & Hx & -> & _). cbn [validate_payload] in Hv.
    apply bind_Ok in Hv as ([] & _ & Hv). apply validate_link_distinct in Hv.
    apply link_memories_Ok in Hlink as (_ & _ & _ & _ & [y1 H1] & [y2 H2]).
    assert (Honly : forall id y, <[ms_memory_id m := m]> (ps_memories b) !! id = Some y -> id = ms_memory_id m).
    { intros id y Hy. apply lookup_insert_Some in Hy as [[-> _]|[_ Hy]]; [done|].
      apply (loaded_target _ _ _ _ _ _ _ _ Hl) in Hy. cbn [targets fst] in Hy.
      rewrite elem_of_sorted_ids in Hy. by apply list_elem_of_singleton in Hy. }
    apply Hv. by rewrite (Honly _ _ H1), (Honly _ _ H2).
  - apply attach_evidence_frame in Ha as (_ & _ & _ & _ & x & Hx & _).
    apply (loaded_target _ _ _ _ _ _ _ _ Hl) in Hx. cbn [targets fst] in Hx.
    rewrite elem_of_sorted_ids in Hx. by apply elem_of_nil in Hx.
  - unfold redact_evidence in Hr. apply bind_Ok in Hr as (x & Hx & _). apply from_option_or_Ok in Hx.
    destruct (read_rows_source _ _ _ _ _ _ (ld_evidence _ _ _ _ _ _ Hl) Hx) as (row & Hin & _).
    by apply elem_of_nil in Hin.
  - apply unlink_Ok in Hu as (x & Hx & _). by rewrite (loaded_links_none _ _ _ _ _ _ Hl eq_refl) in Hx.
  - apply create_branch_Ok in Hc as (Hn & _ & Hsc & _). rewrite (ld_branches _ _ _ _ _ _ Hl) in Hn.
    injection (eq_trans Hsc (eq_sym Hbr)) as _ _ Hid. rewrite Hid, lookup_singleton_eq in Hn. done.
Qed.

(** The tables the writes of a payload leave alone. *)
Definition untouched (p : OperationPayload) (T : LiveTable) : bool :=
  match p, T with
  | _, TMemories => true
  | (MemoryCreatedPayload _ _ | CandidateLifecyclePayload _ _ _ _ _), TEvidence => false
  | LinkedPayload _, TLinks => false
  | (ConflictOpenedPayload _ _ _ | ConflictResolvedPayload _ _ _), (TConflicts | TMembers) => false
  | _, _ => true
  end.

Lemma evidence_writes_table e items ws :
  mapR (evidence_write e) items = Ok ws -> Forall (fun w => table_of w = TEvidence) ws.
Proof.
  intros Hw. apply mapR_Forall2 in Hw. induction Hw as [|i w items ws Hi _ IH]; constructor; [|done].
  unfold evidence_write in Hi. by apply fmap_Ok in Hi as (row & _ & <-).
Qed.

Lemma payload_frame b a e p ws t t' T :
  payload_writes b a e p = Ok ws -> foldM write_rows t ws = Ok t' -> untouched p T = true -> same_table T t t'.
Proof.
  intros Hw Hr Hu. apply (writes_frame T ws); [|done]. clear Hr.
  assert (Hmem : forall (f : ConflictMemberState -> LiveWrite) (l : list ConflictMemberState),
    (forall y, table_of (f y) = TMembers) -> T <> TMembers -> Forall (fun w => table_of w <> T) (f <$> l)).
  { intros f l Hf HT. apply Forall_fmap, Forall_true. intros y. cbn. by rewrite Hf. }
  destruct p; cbn [payload_writes untouched] in *; try (injection Hw as <-; constructor).
  1,2: eapply Forall_impl; [exact (evidence_writes_table _ _ _ Hw)|]; intros w ->; by destruct T.
  1: apply bind_Ok in Hw as (l & _ & [= <-]); constructor; [|constructor]; destruct (bool_decide _); by destruct T.
  all: apply bind_Ok in Hw as (c & _ & [= <-]); constructor; [by destruct T|]; apply Hmem; [done|by destruct T].
Qed.

Lemma conflict_cases p w :
  (exists c ms am, p = ConflictOpenedPayload c ms am) \/
  (exists c ms am, p = ConflictResolvedPayload c ms am) \/
  (untouched p TConflicts = true /\ untouched p TMembers = true /\
   w_conflicts (live_effect p w) = w_conflicts w /\ w_conflict_members (live_effect p w) = w_conflict_members w).
Proof. destruct p; first [by left; do 3 eexists | by right; left; do 3 eexists | by right; right]. Qed.

(** ** One accepted event *)

Section Accepted.
Context (st : StoreState) (t : LiveTables) (e : MemoryEvent) (p : OperationPayload)
  (branch : BranchState) (b s : ProjectionState) (wb : Working) (t1 t' : LiveTables) (ws1 ws2 : list LiveWrite).
Hypothesis Hload : loaded st t e p branch b.
Hypothesis Hholds : holds t s.
Hypothesis Hwf : wf s.
Hypothesis Hacc : accepted true b e p wb.
Hypothesis Hlive : is_live p = true.

Let a : ProjectionState := committed b e wb.

Hypothesis Hws1 : mapR (memory_write b a e)
  (filter (fun id => ps_memories a !! id <> ps_memories b !! id) (targets p).1.1) = Ok ws1.
Hypothesis Hrun1 : foldM write_rows t ws1 = Ok t1.
Hypothesis Hws2 : payload_writes b a e p = Ok ws2.
Hypothesis Hrun2 : foldM write_rows t1 ws2 = Ok t'.

Let Hrun : op_run b e (working_of b) p wb := acc_run _ _ _ _ _ Hacc.

Lemma changed_writable id :
  ps_memories a !! id <> ps_memories b !! id -> writable b a t (e_tenant_id e) id.
Proof.
  intros Hne. pose proof (accepted_evolves _ _ _ _ _ Hacc id) as Hev. cbn in Hev.
  change (w_memories wb) with (ps_memories a) in Hev. split.
  - intros m Hm. rewrite Hm in Hev, Hne. destruct (ps_memories b !! id) as [x|] eqn:Hx; cbn in Hev.
    + destruct Hev as [->|Hs]; [done|]. destruct (loaded_memory _ _ _ _ _ _ _ Hload Hholds Hwf _ _ Hx)
        as (_ & m0 & Hm0 & -> & _). split.
      * rewrite (suc_id _ _ _ Hs). exact (wf_memory_key _ Hwf _ _ Hm0).
      * by apply scope_columns, (suc_owner _ _ _ Hs).
    + destruct Hev as [Hid Hc]. split; [done|]. by apply scope_columns, (crt_owner _ _ Hc).
  - intros x Hx. destruct (loaded_memory _ _ _ _ _ _ _ Hload Hholds Hwf _ _ Hx) as (_ & m0 & Hm0 & _ & Hten).
    pose proof (ho_memories _ _ Hholds id) as Hrel. rewrite Hm0 in Hrel.
    apply holds_image in Hrel as (row & Hrow & Hst). exists row. split; [done|].
    destruct (memory_stored_columns _ _ Hst) as (_ & -> & _). done.
Qed.

Lemma holds_keyed : keyed t.
Proof.
  intros k row Hk. pose proof (ho_memories _ _ Hholds k) as Hrel. rewrite Hk in Hrel.
  apply holds_row in Hrel as (m & Hm & Hst). destruct (memory_stored_columns _ _ Hst) as (-> & _).
  by apply (wf_memory_key _ Hwf).
Qed.

(** The tables after the memory writes. *)
Lemma memories_written :
  t1 = set_lt_memories t (lt_memories t1) /\
  (forall id, ps_memories a !! id = ps_memories b !! id \/ id ∉ (targets p).1.1 ->
     lt_memories t1 !! id = lt_memories t !! id) /\
  (forall id, id ∈ (targets p).1.1 -> ps_memories a !! id <> ps_memories b !! id ->
     (exists m row, ps_memories a !! id = Some m /\ memory_state_to_row m (e_event_id e) = Ok row /\
        lt_memories t1 !! id = Some row) /\
     (ps_memories b !! id = None -> lt_memories t !! id = None)).
Proof.
  destruct (memory_writes_effect b a e (e_tenant_id e) _ t ws1 t1 (NoDup_filter
    (fun id => ps_memories a !! id <> ps_memories b !! id) _ (targets_nodup p)) holds_keyed)
    as (Heq & Hout & Hin & Hnew); [|done|done|].
  { intros id Hid. apply list_elem_of_filter in Hid as [Hne _]. by apply changed_writable. }
  split; [done|]. split.
  - intros id Hid. apply Hout. intros Hel. apply list_elem_of_filter in Hel as [Hne Hel]. by destruct Hid.
  - intros id Hid Hne. assert (Hel : id ∈ filter (fun id => ps_memories a !! id <> ps_memories b !! id) (targets p).1.1)
      by (by apply list_elem_of_filter). eauto.
Qed.

Lemma valid_evidence : Forall (fun i => validate_evidence i = Ok tt) (payload_evidence p).
Proof.
  pose proof (acc_valid _ _ _ _ _ Hacc) as Hv. destruct p; cbn [payload_evidence]; try constructor;
    cbn [validate_payload] in Hv.
  - apply bind_Ok in Hv as ([] & _ & Hv). by apply each_Ok in Hv.
  - apply bind_Ok in Hv as ([] & _ & Hv). apply bind_Ok in Hv as ([] & _ & Hv).
    apply bind_Ok in Hv as ([] & Hv & _). by apply each_Ok in Hv.
Qed.

(** Evidence rows, and the tables the payload's other writes leave alone. *)
Lemma evidence_written :
  (forall i, i ∈ payload_evidence p -> ps_evidence s !! es_evidence_id i = None) /\
  (forall id, option_Forall2 evidence_stored (lt_evidence t' !! id)
                (insert_evidence (payload_evidence p) (ps_evidence s) !! id)) /\
  lt_memories t' = lt_memories t1.
Proof.
  destruct memories_written as (Ht1 & _). pose proof valid_evidence as Hv.
  assert (Hev1 : forall id, option_Forall2 evidence_stored (lt_evidence t1 !! id) (ps_evidence s !! id)).
  { rewrite Ht1. apply Hholds. }
  assert (Hitems : payload_writes b a e p = mapR (evidence_write e) (payload_evidence p) ->
    (forall i, i ∈ payload_evidence p -> ps_evidence s !! es_evidence_id i = None) /\
    (forall id, option_Forall2 evidence_stored (lt_evidence t' !! id)
                  (insert_evidence (payload_evidence p) (ps_evidence s) !! id)) /\
    lt_memories t' = lt_memories t1).
  { intros Heq. rewrite Heq in Hws2.
    destruct (evidence_writes_effect e _ t1 ws2 t' (ps_evidence s) Hv Hev1 Hws2 Hrun2) as (Ht' & H1 & H2).
    split; [done|]. split; [done|]. by rewrite Ht'. }
  assert (Hframe : lt_evidence t' = lt_evidence t1 -> lt_memories t' = lt_memories t1 -> payload_evidence p = [] ->
    (forall i, i ∈ payload_evidence p -> ps_evidence s !! es_evidence_id i = None) /\
    (forall id, option_Forall2 evidence_stored (lt_evidence t' !! id)
                  (insert_evidence (payload_evidence p) (ps_evidence s) !! id)) /\
    lt_memories t' = lt_memories t1).
  { intros -> -> ->. split; [|done]. intros i Hi. by apply elem_of_nil in Hi. }
  destruct p; try discriminate Hlive; auto;
    by apply Hframe; [apply (payload_frame b a e _ _ _ _ TEvidence Hws2 Hrun2)
                     |apply (payload_frame b a e _ _ _ _ TMemories Hws2 Hrun2)|].
Qed.

(** The partial state tells what the reducer needs. *)
Lemma accepted_ready : ready p b s.
Proof.
  destruct memories_written as (Ht1 & _ & Hnew). destruct evidence_written as (Hev & _ & _).
  split; [by eapply loaded_covers|..|done| | | |].
  - intros m items ->. inversion Hrun as [? ? M E Hop Hc| | | | | | | | | | | | | |]; subst.
    pose proof (acc_valid _ _ _ _ _ Hacc) as Hv. cbn [validate_payload] in Hv.
    apply bind_Ok in Hv as ([] & Hv & _).
    destruct (create_memory_Ok _ _ _ _ _ _ _ Hop Hv Hc) as (Hnone & _ & -> & _). cbn in Hnone.
    destruct (Hnew (ms_memory_id m)) as [_ Hfresh].
    + apply elem_of_sorted_ids. by left.
    + subst a. cbn. rewrite lookup_insert_eq, Hnone. done.
    + specialize (Hfresh Hnone). pose proof (ho_memories _ _ Hholds (ms_memory_id m)) as Hr.
      rewrite Hfresh in Hr. by apply holds_none in Hr.
  - intros prev m mode Hp Hnone k i Hi Hmem. rewrite Hp in Hrun.
    inversion Hrun as [| | | | | |? ? ? M Hop Hchk Hrep Hsan| | | | | | | |]; subst.
    apply replace_memory_Ok in Hrep as (x & Hx & _ & _ & _ & _ & Hsc & Hrev & _). cbn in Hx.
    apply check_revision_Ok in Hrev as (_ & _ & _ & _ & Hs1 & _).
    destruct (loaded_tombstone_evidence _ _ _ _ _ _ _ Hload Hholds Hwf prev m mode x k i eq_refl Hx)
      as (k' & Hk'); [congruence|done|done|]. by apply (Hnone k' i).
  - intros l ->. cbn [payload_writes] in Hws2. apply bind_Ok in Hws2 as (l' & Hl' & [= <-]).
    apply from_option_or_Ok in Hl'. inversion Hrun as [| | | | | | | | |? L Hop Hlk| | | | |]; subst.
    apply link_memories_Ok in Hlk as (Hnone & -> & _). cbn in Hnone.
    rewrite bool_decide_true in Hrun2 by done. apply foldM_one in Hrun2. cbn [write_rows] in Hrun2.
    apply fmap_Ok in Hrun2 as (T & Hi & _). apply insert_row_Ok in Hi as [Hn _].
    subst a. cbn in Hl'. rewrite lookup_insert_eq in Hl'. injection Hl' as <-. cbn in Hn.
    rewrite Ht1 in Hn. pose proof (ho_links _ _ Hholds (ls_link_id l)) as Hr.
    cbn in Hn. rewrite Hn in Hr. by apply holds_none in Hr.
  - intros c ms am ->. cbn [payload_writes] in Hws2. apply bind_Ok in Hws2 as (c' & Hc' & [= <-]).
    apply from_option_or_Ok in Hc'. inversion Hrun as [| | | | | | | | | | |? ? ? M C CM Hop Ho| | |]; subst.
    apply open_conflict_Ok in Ho as (ids & _ & _ & Hnone & -> & _).
    subst a. cbn in Hc'. rewrite lookup_insert_eq in Hc'. injection Hc' as <-.
    cbn [foldM] in Hrun2. apply bind_Ok in Hrun2 as (t2 & H2 & _). cbn [write_rows] in H2.
    apply fmap_Ok in H2 as (T & Hi & _). apply insert_row_Ok in Hi as [Hn _]. cbn in Hn. rewrite Ht1 in Hn.
    cbn in Hn. pose proof (ho_conflicts _ _ Hholds (cs_conflict_id c)) as Hr. rewrite Hn in Hr.
    apply holds_none in Hr. split; [done|]. intros x Hx. apply eq_None_not_Some. intros [y Hy].
    pose proof (acc_valid _ _ _ _ _ Hacc) as Hv. cbn [validate_payload] in Hv.
    do 3 (apply bind_Ok in Hv as ([] & _ & Hv)). apply validate_members_Ok in Hv as (_ & _ & Hall).
    rewrite Forall_forall in Hall. destruct (wf_member _ Hwf _ _ _ Hy) as (_ & _ & con & _ & Hcon & _).
    rewrite (Hall x Hx) in Hcon. congruence.
  - intros c ms am current Hp Hcur. split.
    + by apply (loaded_conflict _ _ _ _ _ _ _ Hload Hholds Hwf) in Hcur as [-> _].
    + intros id. by apply (loaded_members _ _ _ _ _ _ _ Hload Hholds Hwf _ current).
Qed.

Let ws : Working := live_effect p (working_of s).

Lemma live_run : wb = live_effect p (working_of b) /\ apply_operation s e p (working_of s) = Ok ws.
Proof. apply op_transfer; [apply Hacc|done|apply accepted_ready|done]. Qed.

Lemma memories_hold id : option_Forall2 memory_stored (lt_memories t' !! id) (w_memories ws !! id).
Proof.
  destruct memories_written as (_ & Hout & Hin). destruct evidence_written as (_ & _ & ->).
  destruct live_run as [Hwb _].
  assert (Ha : forall id, ps_memories a !! id = insert_memories (memory_after_images p) (ps_memories b) !! id).
  { intros id'. subst a. cbn. by rewrite Hwb. }
  pose proof (ho_memories _ _ Hholds id) as Hrel. cbn [ws live_effect w_memories working_of].
  destruct (insert_memories_lookup (memory_after_images p) id) as [(m & Hm & Hid & Hl)|(Hni & Hl)].
  - rewrite Hl. specialize (Ha id). rewrite Hl in Ha.
    destruct (decide (ps_memories a !! id = ps_memories b !! id)) as [Heq|Hne].
    + rewrite (Hout id (or_introl Heq)). rewrite Ha in Heq.
      destruct (loaded_memory _ _ _ _ _ _ _ Hload Hholds Hwf id m (eq_sym Heq)) as (_ & m0 & Hm0 & -> & _).
      rewrite Hm0 in Hrel. apply holds_image in Hrel as (row & -> & ev & Hev). constructor. exists ev.
      by rewrite memory_row_stored.
    + assert (Ht : id ∈ (targets p).1.1) by (rewrite <- Hid; by apply image_targets).
      destruct (Hin id Ht Hne) as [(m' & row & Hm' & Hrow & ->) _]. rewrite Ha in Hm'. injection Hm' as <-.
      constructor. by eexists.
  - rewrite Hl, Hout; [done|]. left. by rewrite Ha, Hl.
Qed.

(** Conflict and membership rows. *)
Lemma conflict_tables_same :
  lt_conflicts t' = lt_conflicts t1 -> lt_members t' = lt_members t1 ->
  lt_conflicts t' = lt_conflicts t /\ lt_members t' = lt_members t.
Proof. destruct memories_written as (Ht1 & _). intros -> ->. by rewrite Ht1. Qed.

Definition conflicts_hold (C : gmap UUID ConflictState) (CM : gmap (UUID * UUID) ConflictMemberState) : Prop :=
  (forall id, option_Forall2 conflict_stored (lt_conflicts t' !! id) (C !! id)) /\
  (forall tenant lineage c id row, lt_members t' !! (tenant, lineage, c, id) = Some row ->
    exists con x, C !! c = Some con /\ cs_tenant_id con = tenant /\ cs_lineage_id con = lineage /\
      CM !! (c, id) = Some x /\ member_stored row con x) /\
  (forall c id x, CM !! (c, id) = Some x ->
    exists con row, C !! c = Some con /\
      lt_members t' !! (cs_tenant_id con, cs_lineage_id con, c, id) = Some row /\ member_stored row con x).

Lemma opened_hold c ms am :
  p = ConflictOpenedPayload c ms am ->
  conflicts_hold (<[cs_conflict_id c := c]> (ps_conflicts s)) (insert_members ms (ps_conflict_members s)).
Proof.
  intros Hp. destruct memories_written as (Ht1 & _).
  destruct (rd_opened _ _ _ accepted_ready _ _ _ Hp) as [HC Hfresh].
  pose proof (acc_valid _ _ _ _ _ Hacc) as Hv. rewrite Hp in Hv, Hws2, Hrun. cbn [validate_payload] in Hv.
  apply bind_Ok in Hv as ([] & Hvc & Hv). apply bind_Ok in Hv as ([] & Hvm & Hv).
  apply bind_Ok in Hv as ([] & _ & Hv). apply validate_members_Ok in Hv as (Hnd & _ & Hall).
  apply each_Ok in Hvm. rewrite Forall_forall in Hall, Hvm.
  pose proof (member_keys_nodup c ms Hnd ltac:(by apply Forall_forall)) as Hkeys.
  destruct (insert_members_lookup ms (ps_conflict_members s) Hkeys) as [Hin Hout].
  cbn [payload_writes] in Hws2. apply bind_Ok in Hws2 as (c' & Hc' & [= <-]). apply from_option_or_Ok in Hc'.
  assert (c' = c) as ->.
  { inversion Hrun as [| | | | | | | | | | |? ? ? M C CM Hop Ho| | |]; subst.
    apply open_conflict_Ok in Ho as (ids & _ & _ & _ & -> & _). subst a. cbn in Hc'.
    rewrite lookup_insert_eq in Hc'. by injection Hc'. }
  cbn [foldM] in Hrun2. apply bind_Ok in Hrun2 as (t2 & H2 & Hrun2). cbn [write_rows] in H2.
  apply fmap_Ok in H2 as (T & Hi & <-). apply insert_row_Ok in Hi as [Hn ->].
  destruct (insert_members_effect _ _ _ _ _ Hrun2) as (Ht' & _ & Hrow & Hrest).
  assert (HCt : lt_conflicts t' = <[cs_conflict_id c := conflict_row c (e_event_id e)]> (lt_conflicts t)).
  { rewrite Ht', Ht1. done. }
  rewrite Ht1 in Hrest. cbn [set_lt_conflicts set_lt_memories lt_members] in Hrest.
  assert (Hsort : forall x, x ∈ sorted_members ms <-> x ∈ ms).
  { intros x. unfold sorted_members. by rewrite sort_by_perm. }
  split; [|split].
  - intros id. rewrite HCt. destruct (decide (id = cs_conflict_id c)) as [->|Hne].
    + rewrite !lookup_insert_eq. constructor. split; [done|]. by exists (e_event_id e), None.
    + rewrite !lookup_insert_ne by done. apply Hholds.
  - intros tenant lineage k id row Hk.
    destruct (decide ((tenant, lineage, k, id) ∈ member_place c <$> sorted_members ms)) as [Hel|Hel].
    + apply list_elem_of_fmap in Hel as (x & Hx & Hel). rewrite Hx, (Hrow x Hel) in Hk. injection Hk as <-.
      injection Hx as -> -> -> ->. apply Hsort in Hel. exists c, x. rewrite (Hall x Hel), lookup_insert_eq.
      split; [done|]. split; [done|]. split; [done|]. rewrite <- (Hall x Hel).
      split; [by apply Hin|]. split; [by apply Hvm|]. by eexists.
    + rewrite (Hrest _ Hel) in Hk. destruct (ho_member_row _ _ Hholds _ _ _ _ _ Hk) as (con & x & Hcon & Ht & Hl & Hx & Hst).
      exists con, x. rewrite lookup_insert_ne by congruence. split; [done|]. split; [done|].
      split; [done|]. split; [|done]. rewrite Hout; [done|]. intros Hel'. apply list_elem_of_fmap in Hel' as (y & Hy & Hy').
      rewrite Hy, (Hfresh y Hy') in Hx. done.
  - intros k id x Hx. destruct (decide ((k, id) ∈ member_key <$> ms)) as [Hel|Hel].
    + apply list_elem_of_fmap in Hel as (y & Hy & Hel). rewrite Hy, (Hin y Hel) in Hx. injection Hx as ->.
      injection Hy as -> ->. exists c, (member_row c x (e_event_id e)). rewrite (Hall x Hel), lookup_insert_eq.
      split; [done|]. rewrite <- (Hall x Hel). split; [by apply Hrow, Hsort|]. split; [by apply Hvm|]. by eexists.
    + rewrite Hout in Hx by done.
      destruct (ho_member _ _ Hholds _ _ _ Hx) as (con & row & Hcon & Hrw & Hst). exists con, row.
      rewrite lookup_insert_ne by congruence. split; [done|]. split; [|done]. rewrite Hrest; [done|].
      intros Hel'. apply list_elem_of_fmap in Hel' as (y & Hy & Hy'). apply Hel. injection Hy as _ _ -> ->.
      apply list_elem_of_fmap. exists y. split; [done|]. by apply Hsort.
Qed.

(** The conflict a resolution replaces, and the members both have. *)
Lemma resolved_current c ms am :
  p = ConflictResolvedPayload c ms am ->
  ps_conflicts a !! cs_conflict_id c = Some c /\
  exists current, ps_conflicts s !! cs_conflict_id c = Some current /\
    cs_scope_key c = cs_scope_key current /\ cs_subject_id c = cs_subject_id current /\
    forall id, is_Some (ps_conflict_members s !! (cs_conflict_id c, id)) <-> id ∈ cm_memory_id <$> ms.
Proof.
  intros Hp. pose proof (rd_resolved _ _ _ accepted_ready) as Hready. rewrite Hp in Hrun.
  inversion Hrun as [| | | | | | | | | | | |? ? ? M C CM Hop Ho| |]; subst.
  pose proof (resolve_conflict_Ok _ _ _ _ _ _ _ _ _ _ Ho)
    as (ids & current & _ & _ & Hcur & -> & _ & _ & Hsc & Hsub & _). cbn in Hcur.
  destruct (Hready _ _ _ _ eq_refl Hcur) as [Hs Hmem]. split; [subst a; cbn; by rewrite lookup_insert_eq|].
  exists current. split; [done|]. split; [done|]. split; [done|]. intros id. rewrite Hmem.
  unfold resolve_conflict in Ho. do 5 (apply bind_Ok in Ho as (? & _ & Ho)). apply bind_Ok in Ho as ([] & Hm & _).
  apply raise_if_Ok, bool_decide_eq_false, dec_stable in Hm. cbn in Hm.
  rewrite <- elem_of_current_member_ids, Hm. unfold member_ids. by rewrite elem_of_list_to_set.
Qed.

Lemma resolved_hold c ms am :
  p = ConflictResolvedPayload c ms am ->
  conflicts_hold (<[cs_conflict_id c := c]> (ps_conflicts s))
    (replace_members (cs_conflict_id c) ms (ps_conflict_members s)).
Proof.
  intros Hp. destruct memories_written as (Ht1 & _).
  destruct (resolved_current c ms am Hp) as (Hac & current & Hcur & Hsc & Hsub & Hids).
  pose proof (acc_valid _ _ _ _ _ Hacc) as Hv. rewrite Hp in Hv, Hws2. cbn [validate_payload] in Hv.
  apply bind_Ok in Hv as ([] & Hvc & Hv). apply bind_Ok in Hv as ([] & Hvm & Hv).
  apply bind_Ok in Hv as ([] & _ & Hv). apply validate_members_Ok in Hv as (Hnd & _ & Hall).
  apply each_Ok in Hvm. pose proof (member_keys_nodup c ms Hnd Hall) as Hkeys.
  rewrite Forall_forall in Hall, Hvm.
  destruct (insert_members_lookup ms
    (filter (fun kv => kv.1.1 <> cs_conflict_id c) (ps_conflict_members s)) Hkeys) as [Hin Hout].
  change (replace_members (cs_conflict_id c) ms (ps_conflict_members s)) with
    (insert_members ms (filter (fun kv => kv.1.1 <> cs_conflict_id c) (ps_conflict_members s))).
  cbn [payload_writes] in Hws2. rewrite Hac in Hws2. cbn in Hws2. injection Hws2 as <-.
  cbn [foldM] in Hrun2. apply bind_Ok in Hrun2 as (t2 & H2 & Hrun2). cbn [write_rows] in H2.
  injection H2 as <-.
  destruct (update_members_effect _ _ (sorted_members ms) _ _ ltac:(unfold sorted_members; by rewrite sort_by_perm) Hrun2)
    as (Ht' & Hrow).
  rewrite Ht1 in Hrow. cbn [set_lt_conflicts set_lt_memories lt_members] in Hrow.
  assert (Hsort : forall x, x ∈ sorted_members ms <-> x ∈ ms).
  { intros x. unfold sorted_members. by rewrite sort_by_perm. }
  injection Hsc as Hten Hlin Hbr.
  split; [|split].
  - intros id. replace (lt_conflicts t') with (lt_conflicts (set_lt_conflicts t1 (update_rows
      (fun old => (kr_tenant_id old =? cs_tenant_id c) && (kr_conflict_id old =? cs_conflict_id c))
      (resolved_row c (e_event_id e)) (lt_conflicts t1)))) by (by rewrite Ht').
    rewrite Ht1. cbn [set_lt_conflicts set_lt_memories lt_conflicts]. rewrite update_rows_lookup.
    pose proof (ho_conflicts _ _ Hholds id) as Hrel. destruct (decide (id = cs_conflict_id c)) as [->|Hne].
    + rewrite Hcur in Hrel. apply holds_image in Hrel as (row & -> & _ & o & r & ->). rewrite lookup_insert_eq.
      destruct (wf_conflict _ Hwf _ _ Hcur) as [Hid _]. cbn. rewrite Hid, Hten, !Z.eqb_refl. cbn. constructor.
      split; [done|]. exists o, (Some (e_event_id e)).
      unfold resolved_row, conflict_state_to_row. cbn. congruence.
    + rewrite lookup_insert_ne by done. inversion Hrel as [row con Hst Hr Hc|Hr Hc]; cbn; constructor.
      destruct Hst as (Hv' & o & r & ->). destruct (wf_conflict _ Hwf _ _ (eq_sym Hc)) as [Hid _].
      cbn. rewrite Hid, (proj2 (Z.eqb_neq _ _) Hne), andb_false_r. split; [done|]. eauto.
  - intros tenant lineage k id row Hk. apply Hrow in Hk as (old & Hold & Hcase).
    destruct (ho_member_row _ _ Hholds _ _ _ _ _ Hold) as (con & x0 & Hcon & Ht & Hl & Hx0 & Hv0 & ev & ->).
    destruct (wf_member _ Hwf _ _ _ Hx0) as (Hk1 & Hk2 & _). cbn in Hcase. rewrite Ht, Hk1, Hk2 in Hcase.
    destruct (decide (k = cs_conflict_id c)) as [->|Hne].
    + rewrite Hcur in Hcon. injection Hcon as <-.
      pose proof (proj1 (Hids id) ltac:(by eexists)) as Hel. apply list_elem_of_fmap in Hel as (y & -> & Hy).
      destruct Hcase as [(x & Hx & _ & _ & Hm & ->)|[_ Hno]].
      * apply Hsort in Hx. exists c, x. rewrite lookup_insert_eq. split; [done|]. split; [congruence|].
        split; [congruence|]. rewrite Hm.
        replace (cs_conflict_id c, cm_memory_id x) with (member_key x) by (unfold member_key; by rewrite (Hall x Hx)).
        split; [by apply Hin|]. split; [by apply Hvm|]. exists (e_event_id e). unfold updated_member, member_row. cbn. rewrite (Hall x Hx). congruence.
      * destruct (Hno y); [by apply Hsort|congruence|by rewrite (Hall y Hy)|done].
    + destruct Hcase as [(x & Hx & _ & Hc & _)|[-> _]].
      { apply Hsort in Hx. rewrite (Hall x Hx) in Hc. done. }
      exists con, x0. rewrite lookup_insert_ne by done. split; [done|]. split; [done|]. split; [done|].
      split; [|split; [done|by eexists]]. rewrite Hout.
      * apply map_lookup_filter_Some. done.
      * intros Hel. apply list_elem_of_fmap in Hel as (y & Hy & Hel). injection Hy as -> _.
        by apply Hne, Hall.
  - intros k id x Hx. destruct (decide ((k, id) ∈ member_key <$> ms)) as [Hel|Hel].
    + apply list_elem_of_fmap in Hel as (y & Hy & Hel). rewrite Hy, (Hin y Hel) in Hx. injection Hx as ->.
      injection Hy as -> ->. rewrite (Hall x Hel), lookup_insert_eq.
      assert (Hold : cm_memory_id x ∈ cm_memory_id <$> ms) by (apply list_elem_of_fmap; eauto).
      apply Hids in Hold as [x0 Hx0]. destruct (ho_member _ _ Hholds _ _ _ Hx0) as (con & row & Hcon & Hr & _ & ev & ->).
      rewrite Hcur in Hcon. injection Hcon as <-. destruct (wf_member _ Hwf _ _ _ Hx0) as (Hk1 & Hk2 & _).
      exists c, (updated_member x (e_event_id e) (member_row current x0 ev)). split; [done|]. split.
      * rewrite Hten, Hlin. apply Hrow. eexists. split; [exact Hr|]. left. exists x.
        split; [by apply Hsort|]. cbn. split; [congruence|]. split; [by rewrite (Hall x Hel)|done].
      * split; [by apply Hvm|]. exists (e_event_id e). unfold updated_member, member_row. cbn.
        rewrite (Hall x Hel). congruence.
    + rewrite Hout in Hx by done. apply map_lookup_filter_Some in Hx as [Hx Hne]. cbn in Hne.
      destruct (ho_member _ _ Hholds _ _ _ Hx) as (con & row & Hcon & Hr & Hv0 & ev & ->).
      destruct (wf_member _ Hwf _ _ _ Hx) as (Hk1 & Hk2 & _). exists con, (member_row con x ev).
      rewrite lookup_insert_ne by done. split; [done|]. split; [|split; [done|by eexists]].
      apply Hrow. eexists. split; [exact Hr|]. right. split; [done|]. intros y Hy _ Hc. cbn in Hc.
      apply Hsort in Hy. rewrite (Hall y Hy), Hk1 in Hc. done.
Qed.

Lemma conflicts_written : conflicts_hold (w_conflicts ws) (w_conflict_members ws).
Proof.
  assert (Hframe : untouched p TConflicts = true -> untouched p TMembers = true ->
    conflicts_hold (ps_conflicts s) (ps_conflict_members s)).
  { intros Hu1 Hu2.
    destruct conflict_tables_same as [Hc Hm];
      [exact (payload_frame b a e _ _ _ _ TConflicts Hws2 Hrun2 Hu1)
      |exact (payload_frame b a e _ _ _ _ TMembers Hws2 Hrun2 Hu2)|].
    unfold conflicts_hold. rewrite Hc, Hm. split; [apply Hholds|]. split; apply Hholds. }
  destruct (conflict_cases p (working_of s)) as [(c & ms & am & Hp)|[(c & ms & am & Hp)|(Hu1 & Hu2 & Ec & Em)]].
  - unfold ws. rewrite Hp. exact (opened_hold c ms am Hp).
  - unfold ws. rewrite Hp. exact (resolved_hold c ms am Hp).
  - unfold ws. rewrite Ec, Em. by apply Hframe.
Qed.

Lemma links_hold id : option_Forall2 link_stored (lt_links t' !! id) (w_links ws !! id).
Proof.
  destruct memories_written as (Ht1 & _).
  assert (Hframe : untouched p TLinks = true -> option_Forall2 link_stored (lt_links t' !! id) (ps_links s !! id)).
  { intros Hu. rewrite (payload_frame b a e _ _ _ _ TLinks Hws2 Hrun2 Hu : lt_links t' = lt_links t1), Ht1.
    apply Hholds. }
  destruct p as [| | | | | | |l| | | | |] eqn:Hp; try discriminate Hlive; try (by apply Hframe). clear Hframe.
  cbn [payload_writes] in Hws2. apply bind_Ok in Hws2 as (l' & Hl' & [= <-]). apply from_option_or_Ok in Hl'.
  inversion Hrun as [| | | | | | | | |? L Hop Hlk| | | | |]; subst.
  apply link_memories_Ok in Hlk as (Hnone & -> & _). cbn in Hnone.
  rewrite bool_decide_true in Hrun2 by done. apply foldM_one in Hrun2. cbn [write_rows] in Hrun2.
  apply fmap_Ok in Hrun2 as (T & Hi & <-). apply insert_row_Ok in Hi as [_ ->].
  subst a. cbn in Hl'. rewrite lookup_insert_eq in Hl'. injection Hl' as <-. rewrite Ht1. cbn.
  destruct (decide (id = ls_link_id l)) as [->|Hne].
  - rewrite !lookup_insert_eq. constructor. by exists (e_event_id e), None.
  - rewrite !lookup_insert_ne by done. apply Hholds.
Qed.

Lemma evidence_owned i :
  i ∈ payload_evidence p ->
  exists m, memory_after_images p = [m] /\ es_memory_id i = ms_memory_id m /\
    ms_tenant_id m = es_tenant_id i /\ ms_lineage_id m = es_lineage_id i.
Proof.
  intros Hi. pose proof (acc_valid _ _ _ _ _ Hacc) as Hv. clearbody Hrun. clear -Hi Hv Hrun.
  destruct Hrun as [m items M E Hop Hc|prev m d code items status M current E Hop Hrep Hcur Hchk Ha| | | | | | | | | | | | |];
    try (by apply elem_of_nil in Hi); cbn [payload_evidence memory_after_images] in *; exists m; (split; [done|]).
  - cbn [validate_payload] in Hv. apply bind_Ok in Hv as ([] & Hv & _).
    destruct (create_memory_Ok _ _ _ _ _ _ _ Hop Hv Hc) as (_ & Hcrt & _ & Hf).
    destruct (foldM_elem _ _ _ _ _ Hf Hi) as (X & X' & Hx). unfold create_evidence in Hx.
    apply bind_Ok in Hx as ([] & Hs & Hx). apply check_scoped_Ok in Hs. apply bind_Ok in Hx as ([] & Hm & _).
    apply raise_if_Ok, negb_false_iff, Z.eqb_eq in Hm. split; [done|].
    pose proof (crt_owner _ _ Hcrt) as Ho. rewrite <- Hs in Ho. by injection Ho as -> -> _.
  - unfold attach_candidate_lifecycle_evidence in Ha. apply bind_Ok in Ha as ([] & _ & Hf).
    destruct (foldM_elem _ _ _ _ _ Hf Hi) as (X & X' & Hx).
    apply attach_evidence_frame in Hx as (_ & _ & Hs & Hm & _).
    apply replace_memory_Ok in Hrep as (x & _ & _ & Hid & _ & _ & Ho & _). split; [congruence|].
    rewrite <- Hs in Ho. by injection Ho as -> -> _.
Qed.

Lemma foreign_keys_hold k i :
  w_evidence ws !! k = Some i ->
  exists m, w_memories ws !! es_memory_id i = Some m /\
    ms_tenant_id m = es_tenant_id i /\ ms_lineage_id m = es_lineage_id i.
Proof.
  cbn [ws live_effect w_evidence working_of]. intros Hk.
  apply insert_evidence_lookup in Hk as [Hk|[Hi _]].
  - destruct (ho_foreign_key _ _ Hholds _ _ Hk) as (m & Hm & Ht & Hl).
    pose proof (op_run_memories _ _ _ _ _ (acc_valid _ _ _ _ _ Hacc) (apply_operation_run _ _ _ _ _ (proj2 live_run))) as Hev.
    destruct (mem_evolves_frame _ _ _ _ _ Hev Hm) as (m' & Hm' & Hsc & _). exists m'. split; [done|].
    injection Hsc as -> -> _. done.
  - destruct (evidence_owned i Hi) as (m & Himg & -> & Ht & Hl). exists m. split; [|done].
    cbn [ws live_effect w_memories working_of]. rewrite Himg. cbn. by rewrite lookup_insert_eq.
Qed.

Lemma accepted_holds : holds t' (committed s e ws).
Proof.
  destruct conflicts_written as (Hc & Hm1 & Hm2). destruct evidence_written as (_ & Hev & _).
  split; cbn [committed ps_memories ps_evidence ps_links ps_conflicts ps_conflict_members].
  - apply memories_hold.
  - apply Hev.
  - apply links_hold.
  - apply Hc.
  - apply Hm1.
  - apply Hm2.
  - apply foreign_keys_hold.
Qed.
End Accepted.
End Step.
