(* ===== verification/LiveReplay.v ===== *)
(** * LiveReplay: commands on the live path replay to the same projection

    The transaction body of the command handlers, from the stored log and the
    projection tables of one commit to those of the next. *)

From stdpp Require Import base tactics option list gmap strings.
From Stdlib Require Import ZArith Lia Bool.
From S2P Require Import Prelude Identifiers Enums Values CanonicalJson Digest Constraints Events Folding FoldingFacts FoldingInvariant FoldingTheorems Samples EventStore EventStoreTheorems EventStoreSafety ProjectionRows ProjectionRowsTheorems LiveProjection LiveTransfer LiveProjectionFacts LiveProjectionTheorems.
Open Scope Z_scope.

Section Replay.
Context `{R : Rfc8785} `{P : Pydantic} `{LD : LiveDatabase}.

(** ** One event *)

(** Every step of an accepted fold, as equations. *)
Lemma fold_event_parts b e a :
  fold_event b e = Ok a ->
  exists p w, accepted true b e p w /\ a = committed b e w /\ 0 <= e_sequence e.
Proof. apply fold_event_with_Ok. Qed.

(** A reducer step on [s] from the parts of a step on another state. *)
Lemma fold_event_intro b s e p wb branch w :
  accepted true b e p wb -> 0 <= e_sequence e -> e_sequence e = ps_sequence s + 1 ->
  ps_event_scopes s !! e_event_id e = None ->
  ps_branches b !! e_branch_id e = Some branch -> ps_branches s !! e_branch_id e = Some branch ->
  e_operation e <> EventOperation.BRANCH_CREATED ->
  (forall cause sc, e_causation_event_id e = Some cause -> ps_event_scopes b !! cause = Some sc ->
     ps_event_scopes s !! cause = Some sc) ->
  apply_operation s e p (working_of s) = Ok w -> fold_event s e = Ok (committed s e w).
Proof.
  intros [_ Hp _ Hshape Hhash Hfb Hcause Hbr _] Hpos Hseq Hfresh Hbb Hbs Hop Hsc Happ.
  destruct (Hbr Hop) as (br & Hlook & Hscope & Hvis). rewrite Hbb in Hlook. injection Hlook as <-.
  unfold fold_event, fold_event_with, check_envelope.
  rewrite (proj2 (Z.eqb_eq _ _) Hseq). cbn [andb negb raise_if mbind result_bind].
  rewrite Hshape. cbn [or_raise mbind result_bind]. rewrite Hhash. cbn [mbind result_bind].
  rewrite Hfresh, (bool_decide_false (is_Some None)) by (by intros []). cbn [raise_if mbind result_bind].
  rewrite bool_decide_true by done. rewrite Hbs. cbn [from_option_or mbind result_bind].
  rewrite bool_decide_false by auto. cbn [raise_if mbind result_bind].
  assert (Hc : match e_causation_event_id e with
    | None => Ok tt
    | Some cause =>
      cause_scope ← from_option_or (ps_event_scopes s !! cause) (fail e "missing_causation");
      raise_if (bool_decide (cause_scope.1 <> (event_scope e).1)) (fail e "causation_scope_mismatch")
    end = Ok tt).
  { destruct (e_causation_event_id e) as [cause|]; [|done]. destruct (Hcause cause eq_refl) as (sc & Hsc1 & Heq).
    rewrite (Hsc _ _ eq_refl Hsc1). cbn [from_option_or mbind result_bind]. by rewrite bool_decide_false by auto. }
  rewrite Hc. cbn [mbind result_bind]. rewrite Hp. cbn [mbind result_bind].
  assert (Hv : validate_branch_visibility e branch p = Ok tt).
  { apply each_Ok, Forall_forall. intros m Hm. rewrite bool_decide_false by (intros Hn; by apply Hn, Hvis). done. }
  rewrite Hv. cbn [mbind result_bind]. rewrite Happ. cbn [mbind result_bind]. unfold commit.
  by rewrite (proj2 (Z.ltb_ge _ _) Hpos).
Qed.

(** Loading, reducing and staging one event is one step of the reducer. *)
Lemma live_event_step st t e branch b a t' s :
  wf s -> holds t s -> ps_sequence s = e_sequence e - 1 -> ps_event_scopes s !! e_event_id e = None ->
  ps_branches s !! bs_branch_id branch = Some branch ->
  (forall id sc, id <> e_event_id e -> load_cause st e !! id = Some sc -> ps_event_scopes s !! id = Some sc) ->
  load_projection_state_for_update true st t e branch = Ok b -> validate_live_event b e = Ok a ->
  stage_live_projection true b a e t = Ok t' ->
  exists s', fold_event s e = Ok s' /\ holds t' s'.
Proof.
  intros Hwf Hh Hseq Hfresh Hbr Hcause Hload Hfold Hstage.
  apply load_Ok in Hload as (Hscope & p & Hp & Hload). apply load_rows_Ok in Hload.
  apply fold_event_parts in Hfold as (p' & wb & Hacc & -> & Hpos).
  pose proof (acc_payload _ _ _ _ _ Hacc) as Hp'. rewrite Hp in Hp'. injection Hp' as <-.
  apply stage_writes in Hstage as (p' & ws1 & ws2 & t1 & Hp' & Hw1 & Hr1 & Hw2 & Hr2).
  rewrite Hp in Hp'. injection Hp' as <-.
  pose proof (accepted_is_live _ _ _ _ _ _ _ Hload Hscope (acc_valid _ _ _ _ _ Hacc) (acc_run _ _ _ _ _ Hacc)) as Hlive.
  destruct (live_run _ _ _ _ _ _ _ _ _ _ _ _ Hload Hh Hwf Hacc Hlive Hw1 Hr1 Hw2 Hr2) as [_ Happ].
  exists (committed s e (live_effect p (working_of s))). split; [|by eapply accepted_holds].
  assert (Hid : bs_branch_id branch = e_branch_id e) by (unfold bs_scope_key, event_scope in Hscope; congruence).
  rewrite Hid in Hbr.
  apply (fold_event_intro b s e p wb branch); try done; [lia| | |].
  - by rewrite (ld_branches _ _ _ _ _ _ Hload), Hid, lookup_singleton_eq.
  - intros Hop. pose proof (acc_run _ _ _ _ _ Hacc) as Hrun. destruct Hrun; cbn in Hlive; try done;
      rewrite Hop in *; try done; intuition congruence.
  - intros cause sc Hc Hsc. apply Hcause; [|by rewrite <- (ld_cause _ _ _ _ _ _ Hload)].
    intros ->. rewrite (acc_fresh _ _ _ _ _ Hacc) in Hsc. done.
Qed.

(** ** The stored log *)

Lemma event_row_to_domain_columns row e :
  event_row_to_domain row = Ok e ->
  e_event_id e = r_event_id row /\ event_scope e = (r_tenant_id row, r_lineage_id row, r_branch_id row) /\
  e_sequence e = r_sequence row.
Proof.
  unfold event_row_to_domain. intros He. apply except_value_error_Ok in He.
  apply bind_Ok in He as (op & _ & He). by apply model_validate_Ok in He as (-> & _).
Qed.

(** The event scopes of a replay are those of its events. *)
Lemma rebuild_event_scopes es s :
  rebuild es = Ok s ->
  forall id sc, ps_event_scopes s !! id = Some sc <-> exists e, e ∈ es /\ e_event_id e = id /\ event_scope e = sc.
Proof.
  unfold rebuild. revert s. induction es as [|e es IH] using rev_ind; intros s Hr id sc.
  { injection Hr as <-. cbn. rewrite lookup_empty. split; [done|]. intros (e & He & _). by apply elem_of_nil in He. }
  rewrite foldM_app in Hr. apply bind_Ok in Hr as (s1 & Hs1 & Hr). apply foldM_one in Hr.
  apply fold_event_parts in Hr as (p & w & Hacc & -> & _). cbn [committed ps_event_scopes].
  pose proof (acc_fresh _ _ _ _ _ Hacc) as Hfresh. rewrite lookup_insert_Some, (IH s1 Hs1). split.
  - intros [[<- <-]|[_ (e0 & He0 & Hrest)]].
    + exists e. split; [apply elem_of_app; right; by left|done].
    + exists e0. split; [apply elem_of_app; by left|done].
  - intros (e0 & He0 & Hid & Hsc). apply elem_of_app in He0 as [He0|He0].
    + right. split; [|by exists e0]. intros Heq. rewrite Heq in Hfresh.
      assert (Hin : ps_event_scopes s1 !! id = Some (event_scope e0)) by (apply (IH s1 Hs1); eauto).
      congruence.
    + apply list_elem_of_singleton in He0 as ->. left. done.
Qed.

Lemma rebuild_sequence es s : rebuild es = Ok s -> ps_sequence s = Z.of_nat (length es).
Proof.
  unfold rebuild. revert s. induction es as [|e es IH] using rev_ind; intros s Hr; [by injection Hr as <-|].
  rewrite foldM_app in Hr. apply bind_Ok in Hr as (s1 & Hs1 & Hr). apply foldM_one in Hr.
  apply fold_event_parts in Hr as (p & w & Hacc & -> & _). cbn [committed ps_sequence].
  pose proof (acc_sequence _ _ _ _ _ Hacc) as Hs. cbn in Hs. rewrite Hs, (IH s1 Hs1), length_app. cbn. lia.
Qed.

(** The log as the rows of a store in the invariant. *)
Lemma load_verified_rows st es :
  store_ok st ->
  load_verified_events st None = Ok es <-> Forall2 (fun row e => event_row_to_domain row = Ok e) (st_events st) es.
Proof.
  intros Hs. unfold load_verified_events. rewrite sort_by_sorted by (eapply sorted_by_sequence, Hs).
  apply mapR_Forall2.
Qed.

Lemma fold_event_set_canonical s e canonical s' :
  verify_hashes (set_canonical e canonical) = Ok tt -> fold_event s e = Ok s' ->
  fold_event s (set_canonical e canonical) = Ok s'.
Proof.
  intros Hv. unfold fold_event, fold_event_with, check_envelope. intros Hf.
  apply bind_Ok in Hf as ([] & Henv & Hf). apply bind_Ok in Henv as ([] & H1 & Henv).
  apply bind_Ok in Henv as ([] & H2 & Henv). apply bind_Ok in Henv as ([] & H3 & Henv).
  apply bind_Ok in Henv as ([] & _ & Henv).
  apply bind_Ok. exists tt. split; [|exact Hf]. apply bind_Ok. exists tt. split; [exact H1|].
  apply bind_Ok. exists tt. split; [exact H2|].
  apply bind_Ok. exists tt. split; [exact H3|]. apply bind_Ok. exists tt. split; [exact Hv|exact Henv].
Qed.

(** ** The transaction *)

Context `{D : Database}.

(** The unique constraint of [memory_events.event_id]. *)
Definition unique_event_id : Prop :=
  forall st row row', row' ∈ st_events st -> r_event_id row' = r_event_id row -> insert_event_error st row <> None.

Lemma append_inserted now builder authorization s s' e :
  append_memory_event now builder authorization s = Ok (s', e) ->
  exists row, event_row e = Ok row /\ insert_event_error s row = None.
Proof.
  unfold append_memory_event. intros Ha.
  assert (Hin : append_in_transaction now builder authorization s = Ok (s', e)).
  { destruct (append_in_transaction now builder authorization s) as [|[]]; try done.
    by destruct (bool_decide _). }
  clear Ha. unfold append_in_transaction in Hin. do 5 (apply bind_Ok in Hin as (? & _ & Hin)).
  apply bind_Ok in Hin as (row & Hrow & Hin). apply bind_Ok in Hin as ([] & Hf & Hin).
  assert (Heq : x0 = e).
  { destruct x3 as [[i item]|]; [apply bind_Ok in Hin as ([] & _ & Hin)|]; by injection Hin as _ <-. }
  subst x0. exists row. split; [done|]. unfold flush in Hf. by destruct (insert_event_error s row).
Qed.

(** An append adds one readable row. *)
Lemma append_row now builder authorization st st' e :
  (forall n e, builder n = Ok e -> model_validate e = Ok e) ->
  append_memory_event now builder authorization st = Ok (st', e) ->
  exists row b, st_events st' = st_events st ++ [row] /\ insert_event_error st row = None /\
    r_event_id row = e_event_id e /\
    event_row_to_domain row = Ok (set_canonical e (b64encode b)) /\
    verify_hashes (set_canonical e (b64encode b)) = Ok tt /\
    st_counter st = Some (e_sequence e).
Proof.
  intros Hb Ha. destruct (append_inserted _ _ _ _ _ _ Ha) as (row & Hrow & Hins).
  apply append_Ok in Ha as (n & binding & ingress & row' & Hn & Hbn & Hseq & _ & _ & _ & Hrow' & ->).
  rewrite Hrow in Hrow'. injection Hrow' as <-.
  destruct (event_row_reads_back e (Hb _ _ Hbn)) as (row' & b & Hrow' & Hdec & Hbytes & Hback & _ & Hid & _).
  rewrite Hrow in Hrow'. injection Hrow' as <-. exists row, b.
  split; [by destruct ingress as [[i item]|]|]. split; [done|]. split; [done|]. split; [done|].
  split; [|congruence]. apply verify_hashes_set; [done|done|]. specialize (Hb _ _ Hbn).
  by apply model_validate_Ok in Hb as (_ & _ & _ & _ & Hv).
Qed.

Lemma log_scopes st es s :
  store_ok st -> load_verified_events st None = Ok es -> rebuild es = Ok s ->
  forall row, row ∈ st_events st ->
  ps_event_scopes s !! r_event_id row = Some (r_tenant_id row, r_lineage_id row, r_branch_id row).
Proof.
  intros Hs Hes Hr row Hin. apply load_verified_rows in Hes; [|done].
  apply list_elem_of_lookup in Hin as (i & Hi). destruct (Forall2_lookup_l _ _ _ _ _ Hes Hi) as (e & He & Hrow).
  apply event_row_to_domain_columns in Hrow as (Hid & Hsc & _). apply (rebuild_event_scopes _ _ Hr).
  exists e. split; [by eapply list_elem_of_lookup_2|done].
Qed.

Lemma log_fresh st es s row :
  store_ok st -> load_verified_events st None = Ok es -> rebuild es = Ok s ->
  unique_event_id -> insert_event_error st row = None -> ps_event_scopes s !! r_event_id row = None.
Proof.
  intros Hs Hes Hr Huniq Hins. apply eq_None_not_Some. intros [sc Hsc].
  apply (rebuild_event_scopes _ _ Hr) in Hsc as (e0 & He0 & Hid & _). apply load_verified_rows in Hes; [|done].
  apply list_elem_of_lookup in He0 as (i & Hi). destruct (Forall2_lookup_r _ _ _ _ _ Hes Hi) as (row0 & Hrow0 & Hd).
  apply event_row_to_domain_columns in Hd as (Hid0 & _).
  apply (Huniq st row row0); [by eapply list_elem_of_lookup_2|congruence|done].
Qed.

Lemma append_and_project_Ok now builder authorization branch st t st' t' e :
  append_and_project now builder authorization branch st t = Ok (st', t', e) ->
  append_memory_event now builder authorization st = Ok (st', e) /\
  exists b a, load_projection_state_for_update true st' t e branch = Ok b /\
    validate_live_event b e = Ok a /\ stage_live_projection true b a e t = Ok t'.
Proof.
  unfold append_and_project. intros Hr. apply bind_Ok in Hr as ([st1 e1] & Ha & Hr).
  apply bind_Ok in Hr as (b & Hb & Hr). apply bind_Ok in Hr as (a & Hv & Hr).
  apply bind_Ok in Hr as (t1 & Hs & [= <- <- <-]). eauto 6.
Qed.

Lemma live_path_step (now : instant) (builder : Z -> result MemoryEvent)
    (authorization : option LegacyGenesisPlaintextAuthorization) (branch : BranchState)
    (st st' : StoreState) (t t' : LiveTables) (e : MemoryEvent) (es : list MemoryEvent) (s : ProjectionState) :
  unique_event_id -> (forall n e, builder n = Ok e -> model_validate e = Ok e) ->
  store_reachable st -> load_verified_events st None = Ok es -> rebuild es = Ok s -> holds t s ->
  ps_branches s !! bs_branch_id branch = Some branch ->
  append_and_project now builder authorization branch st t = Ok (st', t', e) ->
  exists e' s', load_verified_events st' None = Ok (es ++ [e']) /\ fold_event s e = Ok s' /\
    rebuild (es ++ [e']) = Ok s' /\ holds t' s'.
Proof.
  intros Huniq Hb Hreach Hes Hreb Hh Hbr Hr. pose proof (reachable_ok _ Hreach) as Hok.
  apply append_and_project_Ok in Hr as (Ha & b & a & Hload & Hfold & Hstage).
  pose proof (store_ok_append _ _ _ _ _ _ Hb Ha Hok) as Hok'.
  destruct (append_row _ _ _ _ _ _ Hb Ha) as (row & c & Hev & Hins & Hid & Hback & Hhash & Hcount).
  assert (Hwf : wf s) by (eapply (rebuild_wf_lemma es); exact Hreb).
  assert (Hlen : length es = length (st_events st)).
  { apply load_verified_rows in Hes; [|done]. by apply Forall2_length in Hes. }
  destruct (live_event_step st' t e branch b a t' s) as (s' & Hs' & Hh'); try done.
  - rewrite (rebuild_sequence _ _ Hreb), Hlen. rewrite (ok_counter _ Hok) in Hcount. injection Hcount as Hc. lia.
  - rewrite <- Hid. by apply (log_fresh st es).
  - intros id sc Hne Hc. unfold load_cause in Hc. destruct (e_causation_event_id e) as [cause|]; [|by rewrite lookup_empty in Hc].
    destruct (List.find _ _) as [r|] eqn:Hfind; [|by rewrite lookup_empty in Hc].
    apply List.find_some in Hfind as [Hin _]. apply list_elem_of_In in Hin.
    apply lookup_singleton_Some in Hc as [<- <-]. rewrite Hev in Hin. apply elem_of_app in Hin as [Hin|Hin].
    + by apply (log_scopes st es).
    + apply list_elem_of_singleton in Hin as ->. congruence.
  - exists (set_canonical e (b64encode c)), s'. split; [|split; [done|split; [|done]]].
    + apply load_verified_rows; [done|]. rewrite Hev. apply load_verified_rows in Hes; [|done].
      apply Forall2_app; [done|]. by constructor.
    + unfold rebuild in *. rewrite foldM_app, Hreb. cbn [mbind result_bind foldM].
      by rewrite (fold_event_set_canonical s e _ s').
Qed.

(** C3: the live path maintains the projection of the log.  When the stored
    log replays to [s] and the tables hold exactly the rows of [s], a command
    that is appended, loaded, reduced over the few rows it touches and staged
    leaves a log one event longer, which replays to the reducer's next state,
    and tables that hold exactly the rows of that state: incremental
    persistence and replay from the log agree. *)
Theorem live_path_implements_replay (now : instant) (builder : Z -> result MemoryEvent)
    (authorization : option LegacyGenesisPlaintextAuthorization) (branch : BranchState)
    (st st' : StoreState) (t t' : LiveTables) (e : MemoryEvent) (es : list MemoryEvent) (s : ProjectionState) :
  unique_event_id -> (forall n e, builder n = Ok e -> model_validate e = Ok e) ->
  store_reachable st -> load_verified_events st None = Ok es -> rebuild es = Ok s -> holds t s ->
  ps_branches s !! bs_branch_id branch = Some branch ->
  append_and_project now builder authorization branch st t = Ok (st', t', e) ->
  exists e' s', load_verified_events st' None = Ok (es ++ [e']) /\ fold_event s e = Ok s' /\
    rebuild (es ++ [e']) = Ok s' /\ holds t' s'.
Proof. apply live_path_step. Qed.

(** the live path fails closed on the operations it cannot apply.  A
    command whose event supersedes a memory, attaches or redacts evidence,
    removes a link or creates a branch never completes: the rows it would need
    are not loaded, and nothing is written. *)
Theorem live_path_operations (now : instant) (builder : Z -> result MemoryEvent)
    (authorization : option LegacyGenesisPlaintextAuthorization) (branch : BranchState)
    (st st' : StoreState) (t t' : LiveTables) (e : MemoryEvent) :
  append_and_project now builder authorization branch st t = Ok (st', t', e) ->
  e_operation e ∉ [EventOperation.SUPERSEDED; EventOperation.EVIDENCE_ATTACHED;
    EventOperation.EVIDENCE_REDACTED; EventOperation.UNLINKED; EventOperation.BRANCH_CREATED].
Proof.
  intros Hr. apply append_and_project_Ok in Hr as (_ & b & a & Hload & Hfold & _).
  apply load_Ok in Hload as (Hscope & p & Hp & Hload). apply load_rows_Ok in Hload.
  apply fold_event_parts in Hfold as (p' & wb & Hacc & -> & _).
  pose proof (acc_payload _ _ _ _ _ Hacc) as Hp'. rewrite Hp in Hp'. injection Hp' as <-.
  pose proof (acc_run _ _ _ _ _ Hacc) as Hrun.
  pose proof (accepted_is_live _ _ _ _ _ _ _ Hload Hscope (acc_valid _ _ _ _ _ Hacc) Hrun) as Hlive.
  intros Hin. clear -Hrun Hlive Hin. repeat rewrite elem_of_cons in Hin. rewrite elem_of_nil in Hin.
  destruct Hrun; cbn in Hlive; try done; destruct Hin as [Hin|[Hin|[Hin|[Hin|[Hin|[]]]]]];
    rewrite Hin in *; try done; intuition congruence.
Qed.
End Replay.

(** ** A command on a new branch, as witness *)

(** A database with the unique constraint on event identifiers and no other
    refusal. *)
Definition unique_database : Database := {|
  insert_event_error := fun st row =>
    if existsb (fun row' => r_event_id row' =? r_event_id row) (st_events st) then Some "23505"%string else None;
  update_ingress_error := fun _ _ => None
|}.

Definition accepting_tables : LiveDatabase := {|
  query_error := fun _ _ => None; write_error := fun _ => None
|}.

#[local] Existing Instance unique_database.
#[local] Existing Instance accepting_tables.

Lemma unique_database_unique : unique_event_id.
Proof.
  intros st row row' Hin Hid. cbn. assert (Hex : existsb (fun r => r_event_id r =? r_event_id row) (st_events st) = true).
  { apply existsb_exists. exists row'. split; [by apply list_elem_of_In|]. by apply Z.eqb_eq. }
  by rewrite Hex.
Qed.

Definition live_store : StoreState := {|
  st_counter := Some 1; st_events := [];
  st_bindings := {[ uid 8 := {|
    tb_tenant_id := TENANT_A; tb_actor_id := uid 6; tb_client_id := uid 7;
    tb_transport_kind := "direct_private"; tb_installation_id := None;
    tb_authorized_operations := [(py "operations", JArray [JStr (py "branch_created"); JStr (py "remembered")])];
    tb_valid_until := None |} ]};
  st_actors := {[ uid 6 := {| ac_tenant_id := TENANT_A; ac_revoked_at := None |} ]};
  st_clients := {[ uid 7 := {| cl_tenant_id := TENANT_A; cl_transport_kind := "direct_private";
                               cl_revoked_at := None |} ]};
  st_installations := ∅; st_ingress := ∅
|}.

Definition branch_event : MemoryEvent := ev 1 EventOperation.BRANCH_CREATED None None.
Definition memory_event : MemoryEvent := ev 2 EventOperation.REMEMBERED (Some MEMORY_1) None.

Definition branch_store : StoreState :=
  match append_memory_event 5 (fun _ => Ok branch_event) None live_store with Ok (st, _) => st | Err _ => live_store end.

Definition empty_tables : LiveTables :=
  {| lt_memories := ∅; lt_evidence := ∅; lt_links := ∅; lt_conflicts := ∅; lt_members := ∅ |}.

Definition live_result : StoreState * LiveTables * MemoryEvent :=
  match append_and_project 5 (fun _ => Ok memory_event) None (sample_branch BRANCH_A TENANT_A 1) branch_store empty_tables with
  | Ok r => r
  | Err _ => (live_store, empty_tables, memory_event)
  end.

Lemma branch_append :
  append_memory_event 5 (fun _ => Ok branch_event) None live_store = Ok (branch_store, branch_event).
Proof. vm_compute. reflexivity. Qed.

Lemma branch_log : load_verified_events branch_store None = Ok [branch_event].
Proof. vm_compute. reflexivity. Qed.

Lemma live_command :
  append_and_project 5 (fun _ => Ok memory_event) None (sample_branch BRANCH_A TENANT_A 1) branch_store empty_tables
  = Ok live_result /\ live_result.2 = memory_event /\ size (lt_memories live_result.1.2) = 1%nat.
Proof. vm_compute. split; [reflexivity|]. split; reflexivity. Qed.

Lemma branch_event_valid : model_validate branch_event = Ok branch_event.
Proof. vm_compute. reflexivity. Qed.

Lemma memory_event_valid : model_validate memory_event = Ok memory_event.
Proof. vm_compute. reflexivity. Qed.

Lemma branch_reachable : store_reachable branch_store.
Proof.
  exists live_store. split; [by split|]. apply rtc_once.
  apply (step_append _ _ 5 (fun _ => Ok branch_event) None branch_event); [|exact branch_append].
  intros n e [= <-]. exact branch_event_valid.
Qed.

(** A projection that holds one branch and nothing else. *)
Definition only_branch (s : ProjectionState) (branch : BranchState) : Prop :=
  (ps_memories s, ps_evidence s, ps_links s, ps_conflicts s, ps_conflict_members s,
   ps_branches s !! bs_branch_id branch) = (∅, ∅, ∅, ∅, ∅, Some branch).

Lemma only_branch_holds s branch : only_branch s branch ->
  holds empty_tables s /\ ps_branches s !! bs_branch_id branch = Some branch.
Proof.
  intros [= Hm He Hl Hc Hcm Hb]. split; [|done]. split; rewrite ?Hm, ?He, ?Hl, ?Hc, ?Hcm; cbn;
    intros *; rewrite ?lookup_empty; try constructor; try done.
Qed.

Lemma branch_state : only_branch (sample_state 1) (sample_branch BRANCH_A TENANT_A 1).
Proof. vm_compute. reflexivity. Qed.

Lemma live_path_implements_replay_witness :
  exists e' s', load_verified_events live_result.1.1 None = Ok [branch_event; e'] /\
    rebuild [branch_event; e'] = Ok s' /\ holds live_result.1.2 s'.
Proof.
  destruct live_command as (Hrun & _). destruct live_result as [[st' t'] e] eqn:Hres.
  destruct (live_path_implements_replay 5 (fun _ => Ok memory_event) None (sample_branch BRANCH_A TENANT_A 1)
    branch_store st' empty_tables t' e [branch_event] (sample_state 1))
    as (e' & s' & Hlog & _ & Hreb & Hh).
  - exact unique_database_unique.
  - intros n x [= <-]. exact memory_event_valid.
  - exact branch_reachable.
  - exact branch_log.
  - exact (sample_rebuild_state 1).
  - exact (proj1 (only_branch_holds _ _ branch_state)).
  - exact (proj2 (only_branch_holds _ _ branch_state)).
  - exact Hrun.
  - exists e', s'. split; [exact Hlog|]. split; [exact Hreb|exact Hh].
Defined.

Lemma live_path_operations_witness :
  EventOperation.REMEMBERED ∉ [EventOperation.SUPERSEDED; EventOperation.EVIDENCE_ATTACHED;
    EventOperation.EVIDENCE_REDACTED; EventOperation.UNLINKED; EventOperation.BRANCH_CREATED].
Proof.
  destruct live_command as (Hrun & He & _). destruct live_result as [[st' t'] e]. cbn in He. subst e.
  exact (live_path_operations 5 (fun _ => Ok memory_event) None (sample_branch BRANCH_A TENANT_A 1)
    branch_store st' empty_tables t' memory_event Hrun).
Defined.
