(* ===== verification/ProjectionRebuild.v ===== *)
(** * ProjectionRebuild: replacing the projection tables by a replay

    Models the rebuild of [storage/projector.py]: the stored log is verified and
    folded, every aggregate is mapped to its row with the events it came from,
    and the rows replace the tables of the caller's transaction. *)

From stdpp Require Import base tactics option list gmap strings.
From Stdlib Require Import ZArith Lia Bool.
From S2P Require Import Prelude Identifiers Enums Values CanonicalJson Digest Constraints Events Folding FoldingFacts FoldingInvariant FoldingTheorems EventStore ProjectionRows LiveProjection LiveTransfer LiveProjectionTheorems LiveReplay.
Open Scope Z_scope.

(** ** Provenance *)

(** Which event last wrote, created or ended each row. *)
Record Provenance : Type := {
  pv_memory_last : gmap UUID UUID;
  pv_evidence_source : gmap UUID UUID;
  pv_link_created : gmap UUID UUID;
  pv_link_unlinked : gmap UUID UUID;
  pv_conflict_opened : gmap UUID UUID;
  pv_conflict_resolved : gmap UUID UUID;
  pv_member_last : gmap (UUID * UUID) UUID
}.

Definition no_provenance : Provenance :=
  {| pv_memory_last := ∅; pv_evidence_source := ∅; pv_link_created := ∅; pv_link_unlinked := ∅;
     pv_conflict_opened := ∅; pv_conflict_resolved := ∅; pv_member_last := ∅ |}.

(** [for key in keys: mapping[key] = event_id] *)
Definition set_all {K} `{Countable K} (event_id : UUID) (keys : list K) (mapping : gmap K UUID) : gmap K UUID :=
  fold_left (fun acc key => <[key := event_id]> acc) keys mapping.

(** The keys each [isinstance] branch of the loop body assigns. *)
Definition written_memories (p : OperationPayload) : list UUID :=
  match p with
  | MemoryCreatedPayload m _ | MemoryTransitionPayload _ m | CandidateLifecyclePayload _ m _ _ _
  | SupersededPayload _ m _ | TombstonedPayload _ m _ | PayloadPurgeCompletedPayload _ m _ _ _ => [ms_memory_id m]
  | ConflictOpenedPayload _ _ am | ConflictResolvedPayload _ _ am =>
    (fun a => ms_memory_id (am_memory a)) <$> am
  | _ => []
  end.

Definition written_evidence (p : OperationPayload) : list UUID :=
  match p with
  | MemoryCreatedPayload _ items | CandidateLifecyclePayload _ _ _ _ items => es_evidence_id <$> items
  | EvidenceAttachedPayload item => [es_evidence_id item]
  | _ => []
  end.

Definition created_links (p : OperationPayload) : list UUID :=
  match p with LinkedPayload l | SupersededPayload _ _ l => [ls_link_id l] | _ => [] end.

Definition removed_links (p : OperationPayload) : list UUID :=
  match p with UnlinkedPayload l => [ls_link_id l] | _ => [] end.

Definition opened_conflicts (p : OperationPayload) : list UUID :=
  match p with ConflictOpenedPayload c _ _ => [cs_conflict_id c] | _ => [] end.

Definition resolved_conflicts (p : OperationPayload) : list UUID :=
  match p with ConflictResolvedPayload c _ _ => [cs_conflict_id c] | _ => [] end.

Definition written_members (p : OperationPayload) : list (UUID * UUID) :=
  match p with
  | ConflictOpenedPayload _ ms _ | ConflictResolvedPayload _ ms _ =>
    (fun x => (cm_conflict_id x, cm_memory_id x)) <$> ms
  | _ => []
  end.

(** One iteration of [_derive_provenance]. *)
Definition note_payload (id : UUID) (p : OperationPayload) (pv : Provenance) : Provenance := {|
  pv_memory_last := set_all id (written_memories p) (pv_memory_last pv);
  pv_evidence_source := set_all id (written_evidence p) (pv_evidence_source pv);
  pv_link_created := set_all id (created_links p) (pv_link_created pv);
  pv_link_unlinked := set_all id (removed_links p) (pv_link_unlinked pv);
  pv_conflict_opened := set_all id (opened_conflicts p) (pv_conflict_opened pv);
  pv_conflict_resolved := set_all id (resolved_conflicts p) (pv_conflict_resolved pv);
  pv_member_last := set_all id (written_members p) (pv_member_last pv)
|}.

(** ** Branch rows *)

Record BranchRow : Type := {
  hr_branch_id : UUID; hr_tenant_id : UUID; hr_lineage_id : UUID; hr_parent_branch_id : option UUID;
  hr_fork_event_sequence : option Z; hr_name : pystr; hr_visibility_ceiling : string;
  hr_created_at : instant; hr_sealed_at : option instant
}.

#[export] Instance BranchRow_eq_dec : EqDecision BranchRow.
Proof. solve_decision. Defined.

Definition branch_row (b : BranchState) : BranchRow :=
  {| hr_branch_id := bs_branch_id b; hr_tenant_id := bs_tenant_id b; hr_lineage_id := bs_lineage_id b;
     hr_parent_branch_id := bs_parent_branch_id b; hr_fork_event_sequence := bs_fork_event_sequence b;
     hr_name := bs_name b; hr_visibility_ceiling := MemoryVisibility.value (bs_visibility_ceiling b);
     hr_created_at := bs_created_at b; hr_sealed_at := bs_sealed_at b |}.

(** Comparison of the sort key [(str(tenant_id), str(lineage_id), str(branch_id))]. *)
Definition branch_key_leb (a b : BranchState) : bool :=
  let key x := (uuid_str (bs_tenant_id x), uuid_str (bs_lineage_id x), uuid_str (bs_branch_id x)) in
  let '(t1, l1, b1) := key a in
  let '(t2, l2, b2) := key b in
  if bool_decide (t1 = t2) then
    if bool_decide (l1 = l2) then str_leb b1 b2 else str_leb l1 l2
  else str_leb t1 t2.

Definition parent_emitted (emitted : gset UUID) (b : BranchState) : bool :=
  match bs_parent_branch_id b with None => true | Some parent => bool_decide (parent ∈ emitted) end.

(** The branches whose parent is absent or already emitted, in key order. *)
Definition ready_branches (remaining : gmap UUID BranchState) (emitted : gset UUID) : list BranchState :=
  sort_by branch_key_leb
    (filter (fun b => parent_emitted emitted b = true) (snd <$> map_to_list remaining)).

(** [del remaining[branch_id]] *)
Definition del_branch (remaining : gmap UUID BranchState) (b : BranchState) : result (gmap UUID BranchState) :=
  raise_if (bool_decide (remaining !! bs_branch_id b = None)) KeyError;;
  Ok (delete (bs_branch_id b) remaining).

(** [_branch_rows]: one layer per round; the fuel bounds the number of rounds. *)
Fixpoint branch_layers (fuel : nat) (remaining : gmap UUID BranchState) (emitted : gset UUID)
    : result (list BranchRow) :=
  match fuel with
  | O => Err AssertionError
  | S f =>
    if bool_decide (remaining = ∅) then Ok []
    else
      let ready := ready_branches remaining emitted in
      raise_if (bool_decide (ready = [])) (ProjectionPersistenceError "branch_parent_order");;
      remaining' ← foldM del_branch remaining ready;
      rows ← branch_layers f remaining' (list_to_set (bs_branch_id <$> ready) ∪ emitted);
      Ok ((branch_row <$> ready) ++ rows)
  end.

Definition branch_rows (states : gmap UUID BranchState) : result (list BranchRow) :=
  branch_layers (S (size states)) states ∅.

(** ** All rows *)

Record ProjectionRowSet : Type := {
  pr_branches : list BranchRow;
  pr_memories : list MemoryRow;
  pr_evidence : list EvidenceRow;
  pr_links : list LinkRow;
  pr_conflicts : list ConflictRow;
  pr_members : list MemberRow
}.

(** [_required] *)
Definition required {K} `{Countable K} (mapping : gmap K UUID) (key : K) (code : string) : result UUID :=
  from_option_or (mapping !! key) (ProjectionPersistenceError code).

(** [sorted(mapping.values(), key=lambda value: str(...))] *)
Definition sorted_values {V} (key : V -> UUID) (mapping : gmap UUID V) : list V :=
  sort_by (fun a b => str_leb (uuid_str (key a)) (uuid_str (key b))) (snd <$> map_to_list mapping).

Definition build_memory (pv : Provenance) (m : MemoryState) : result MemoryRow :=
  last_event_id ← required (pv_memory_last pv) (ms_memory_id m) "memory_provenance";
  memory_state_to_row m last_event_id.

Definition build_evidence (pv : Provenance) (i : EvidenceState) : result EvidenceRow :=
  source_event_id ← required (pv_evidence_source pv) (es_evidence_id i) "evidence_provenance";
  evidence_state_to_row i source_event_id.

Definition build_link (pv : Provenance) (l : LinkState) : result LinkRow :=
  created_event_id ← required (pv_link_created pv) (ls_link_id l) "link_created_provenance";
  let unlinked_event_id := pv_link_unlinked pv !! ls_link_id l in
  raise_if (xorb (bool_decide (ls_status l = link_unlinked)) (negb (is_none unlinked_event_id)))
    (ProjectionPersistenceError "link_unlinked_provenance");;
  Ok (link_state_to_row l created_event_id unlinked_event_id).

Definition build_conflict (pv : Provenance) (c : ConflictState) : result ConflictRow :=
  opened_event_id ← required (pv_conflict_opened pv) (cs_conflict_id c) "conflict_opened_provenance";
  let resolution_event_id := pv_conflict_resolved pv !! cs_conflict_id c in
  raise_if (xorb (bool_decide (cs_status c = conflict_resolved)) (negb (is_none resolution_event_id)))
    (ProjectionPersistenceError "conflict_resolution_provenance");;
  Ok (conflict_state_to_row c opened_event_id resolution_event_id).

Definition build_member (pv : Provenance) (conflicts : gmap UUID ConflictState)
    (item : UUID * UUID * ConflictMemberState) : result MemberRow :=
  c ← from_option_or (conflicts !! item.1.1) KeyError;
  last_event_id ← required (pv_member_last pv) item.1 "conflict_member_provenance";
  Ok (member_row c item.2 last_event_id).

Definition sorted_member_items (members : gmap (UUID * UUID) ConflictMemberState)
    : list (UUID * UUID * ConflictMemberState) :=
  sort_by (fun a b => if bool_decide (uuid_str a.1.1 = uuid_str b.1.1)
                      then str_leb (uuid_str a.1.2) (uuid_str b.1.2)
                      else str_leb (uuid_str a.1.1) (uuid_str b.1.1)) (map_to_list members).

Section Rebuild.
Context `{Rfc8785} `{Pydantic}.

Definition note_event (pv : Provenance) (e : MemoryEvent) : result Provenance :=
  p ← typed_payload e; Ok (note_payload (e_event_id e) p pv).

Definition derive_provenance (events : list MemoryEvent) : result Provenance :=
  foldM note_event no_provenance events.

Definition build_projection_rows (s : ProjectionState) (events : list MemoryEvent) : result ProjectionRowSet :=
  pv ← derive_provenance events;
  memories ← mapR (build_memory pv) (sorted_values ms_memory_id (ps_memories s));
  evidence ← mapR (build_evidence pv) (sorted_values es_evidence_id (ps_evidence s));
  links ← mapR (build_link pv) (sorted_values ls_link_id (ps_links s));
  conflicts ← mapR (build_conflict pv) (sorted_values cs_conflict_id (ps_conflicts s));
  members ← mapR (build_member pv (ps_conflicts s)) (sorted_member_items (ps_conflict_members s));
  branches ← branch_rows (ps_branches s);
  Ok {| pr_branches := branches; pr_memories := memories; pr_evidence := evidence; pr_links := links;
        pr_conflicts := conflicts; pr_members := members |}.

(** ** Replacing the tables *)

(** [statement.where(model.tenant_id == tenant_id)], when a tenant is given *)
Definition in_tenant (tenant_id : option UUID) (row_tenant : UUID) : bool :=
  match tenant_id with None => true | Some tenant => row_tenant =? tenant end.

Definition delete_rows {K V} `{Countable K} (tenant_of : V -> UUID) (tenant_id : option UUID) (table : gmap K V)
    : gmap K V :=
  filter (fun kv => in_tenant tenant_id (tenant_of kv.2) = false) table.

(** [_delete_projection_rows] *)
Definition delete_projection_rows (tenant_id : option UUID) (t : LiveTables) : LiveTables := {|
  lt_memories := delete_rows mr_tenant_id tenant_id (lt_memories t);
  lt_evidence := delete_rows er_tenant_id tenant_id (lt_evidence t);
  lt_links := delete_rows lr_tenant_id tenant_id (lt_links t);
  lt_conflicts := delete_rows kr_tenant_id tenant_id (lt_conflicts t);
  lt_members := delete_rows br_tenant_id tenant_id (lt_members t)
|}.

(** [_missing_branch_rows]; comparing [_branch_values] is comparing rows. *)
Definition missing_branch_rows (branches : gmap UUID BranchRow) (expected : list BranchRow)
    (tenant_id : option UUID) : result (list BranchRow) :=
  let existing := filter (fun kv => in_tenant tenant_id (hr_tenant_id kv.2) = true) branches in
  let expected_by_id : gmap UUID BranchRow := list_to_map ((fun row => (hr_branch_id row, row)) <$> expected) in
  raise_if (bool_decide (¬ dom existing ⊆ dom expected_by_id)) (ProjectionPersistenceError "branch_projection_extra");;
  raise_if (existsb (fun kv => match expected_by_id !! kv.1 with
                               | Some row => negb (bool_decide (row = kv.2))
                               | None => false
                               end) (map_to_list existing))
    (ProjectionPersistenceError "branch_projection_mismatch");;
  Ok (filter (fun row => existing !! hr_branch_id row = None) expected).

Context `{LiveDatabase}.

(** [except SQLAlchemyError: raise ProjectionPersistenceError(code)] *)
Definition hide_sql_error {A} (r : result A) (code : string) : result A :=
  match r with Err (DBAPIError _) => Err (ProjectionPersistenceError code) | outcome => outcome end.

Definition insert_branch (branches : gmap UUID BranchRow) (row : BranchRow) : result (gmap UUID BranchRow) :=
  insert_row (hr_branch_id row) row branches.

Definition replacement_writes (rows : ProjectionRowSet) : list LiveWrite :=
  (InsertMemory <$> pr_memories rows)
  ++ (InsertEvidence <$> pr_evidence rows) ++ (InsertLink <$> pr_links rows) ++ (InsertConflict <$> pr_conflicts rows)
  ++ (InsertMember <$> pr_members rows).

Definition rebuild_semantic_projections (in_transaction : bool) (tenant_id : option UUID) (st : StoreState)
    (t : LiveTables) (branches : gmap UUID BranchRow)
    : result (LiveTables * gmap UUID BranchRow * ProjectionState) :=
  require in_transaction (ProjectionPersistenceError "active_transaction_required");;
  events ← load_verified_events st tenant_id;
  s ← match tenant_id with
      | None => rebuild events
      | Some tenant => trs_projection <$> rebuild_tenant tenant events
      end;
  rows ← build_projection_rows s events;
  missing ← missing_branch_rows branches (pr_branches rows) tenant_id;
  hide_sql_error
    (branches' ← foldM insert_branch branches missing;
     t' ← foldM apply_write (delete_projection_rows tenant_id t) (replacement_writes rows);
     Ok (t', branches', s))
    "projection_write_failed".
End Rebuild.

(** * Provenance and branch order of a replayed log *)

(** ** Provenance *)

Lemma set_all_some {K} `{Countable K} id (keys : list K) (m : gmap K UUID) k :
  is_Some (set_all id keys m !! k) <-> k ∈ keys \/ is_Some (m !! k).
Proof.
  unfold set_all. induction keys as [|x keys IH] using rev_ind; cbn.
  { rewrite elem_of_nil. tauto. }
  rewrite fold_left_app. cbn. rewrite elem_of_app, list_elem_of_singleton.
  destruct (decide (k = x)) as [->|Hne].
  - rewrite lookup_insert_eq. split; [auto|eauto].
  - rewrite lookup_insert_ne, IH by done. tauto.
Qed.

Lemma written_memories_images p : written_memories p = ms_memory_id <$> memory_after_images p.
Proof. destruct p; try done; cbn; by rewrite <- list_fmap_compose. Qed.

Section Facts.
Context `{R : Rfc8785} `{P : Pydantic}.

(** A loop whose body inserts its item. *)
Lemma foldM_inserts (step : gmap UUID EvidenceState -> EvidenceState -> result (gmap UUID EvidenceState)) items E E' :
  (forall X i X', step X i = Ok X' -> X' = <[es_evidence_id i := i]> X) ->
  foldM step E items = Ok E' -> E' = insert_evidence items E.
Proof.
  intros Hs. unfold insert_evidence. revert E. induction items as [|i items IH]; intros E Hf.
  { by injection Hf as <-. }
  cbn [foldM] in Hf. apply bind_Ok in Hf as (E1 & H1 & Hf). rewrite (Hs _ _ _ H1) in Hf. cbn. by apply IH.
Qed.

Lemma evidence_step s e p w w' k i :
  op_run s e w p w' -> validate_payload p = Ok tt -> w_evidence w' !! k = Some i ->
  w_evidence w !! k = Some i \/ (k ∈ written_evidence p /\ validate_evidence i = Ok tt).
Proof.
  intros Hrun Hv Hk.
  assert (Hitems : forall items E, Forall (fun i => validate_evidence i = Ok tt) items ->
    insert_evidence items E !! k = Some i ->
    E !! k = Some i \/ (k ∈ es_evidence_id <$> items /\ validate_evidence i = Ok tt)).
  { intros items E Hall Hl. apply insert_evidence_lookup in Hl as [Hl|[Hin <-]]; [by left|right].
    rewrite Forall_forall in Hall. split; [apply list_elem_of_fmap; eauto|by apply Hall]. }
  destruct Hrun as [m items M E Hop Hc|prev m d code items st M cur E Hop Hrep Hcur Hchk Ha| | | | |
    |item E Hop Ha|eid mid at_ rc E Hop Hr| | | | | |]; cbn in *; auto.
  - apply bind_Ok in Hv as ([] & Hvm & Hv). apply each_Ok in Hv.
    apply create_memory_Ok in Hc as (_ & _ & _ & Hf); [|done|done].
    apply foldM_inserts in Hf as ->; [by apply Hitems|]. clear. intros X i X' Hs.
    unfold create_evidence in Hs. do 4 (apply bind_Ok in Hs as ([] & _ & Hs)). by injection Hs.
  - apply bind_Ok in Hv as ([] & _ & Hv). apply bind_Ok in Hv as ([] & _ & Hv).
    apply bind_Ok in Hv as ([] & Hv & _). apply each_Ok in Hv.
    unfold attach_candidate_lifecycle_evidence in Ha. apply bind_Ok in Ha as ([] & _ & Hf).
    apply foldM_inserts in Hf as ->; [by apply Hitems|]. clear. intros X i X' Hs.
    by apply attach_evidence_frame in Hs as (_ & -> & _).
  - apply attach_evidence_frame in Ha as (_ & -> & _).
    apply lookup_insert_Some in Hk as [[<- <-]|[_ Hk]]; [right|by left]. split; [by left|done].
  - unfold redact_evidence in Hr. do 3 (apply bind_Ok in Hr as (? & _ & Hr)). injection Hr as <-.
    apply lookup_delete_Some in Hk as [_ Hk]. by left.
Qed.

(** How the links change: kept, created or removed. *)
Lemma link_step s e p w w' :
  op_run s e w p w' ->
  (w_links w' = w_links w /\ created_links p = [] /\ removed_links p = []) \/
  (exists l, w_links w' = <[ls_link_id l := l]> (w_links w) /\ w_links w !! ls_link_id l = None /\
     ls_status l = link_active /\ created_links p = [ls_link_id l] /\ removed_links p = []) \/
  (exists l, w_links w' = <[ls_link_id l := l]> (w_links w) /\ is_Some (w_links w !! ls_link_id l) /\
     ls_status l = link_unlinked /\ created_links p = [] /\ removed_links p = [ls_link_id l]).
Proof.
  intros Hrun. destruct Hrun as [| | | | |prev m l M L Hop Hlv Hrep Hl| | | |l L Hop Hl|l L Hop Hl| | | |];
    cbn; auto; right.
  1,2: left; exists l; apply link_memories_Ok in Hl as (Hn & -> & _ & Hst & _); done.
  right. exists l. apply unlink_Ok in Hl as (cur & Hcur & -> & _ & Hst & _). rewrite Hcur. repeat split; eauto.
Qed.

(** How the conflicts change: kept, opened or resolved. *)
Lemma conflict_step s e p w w' :
  op_run s e w p w' -> validate_payload p = Ok tt ->
  (w_conflicts w' = w_conflicts w /\ w_conflict_members w' = w_conflict_members w /\
     opened_conflicts p = [] /\ resolved_conflicts p = []) \/
  (exists c ms, w_conflicts w' = <[cs_conflict_id c := c]> (w_conflicts w) /\
     w_conflicts w !! cs_conflict_id c = None /\ cs_status c = conflict_open /\
     opened_conflicts p = [cs_conflict_id c] /\ resolved_conflicts p = [] /\
     validate_conflict c = Ok tt /\ Forall (fun x => validate_conflict_member x = Ok tt) ms /\
     written_members p = member_key <$> ms /\
     forall k x, w_conflict_members w' !! k = Some x ->
       w_conflict_members w !! k = Some x \/ (x ∈ ms /\ k = member_key x)) \/
  (exists c ms, w_conflicts w' = <[cs_conflict_id c := c]> (w_conflicts w) /\
     is_Some (w_conflicts w !! cs_conflict_id c) /\ cs_status c = conflict_resolved /\
     opened_conflicts p = [] /\ resolved_conflicts p = [cs_conflict_id c] /\
     validate_conflict c = Ok tt /\ Forall (fun x => validate_conflict_member x = Ok tt) ms /\
     written_members p = member_key <$> ms /\
     forall k x, w_conflict_members w' !! k = Some x ->
       w_conflict_members w !! k = Some x \/ (x ∈ ms /\ k = member_key x)).
Proof.
  intros Hrun Hv. destruct Hrun as [| | | | | | | | | | |c ms am M C CM Hop Ho|c ms am M C CM Hop Ho| |];
    cbn; auto; right; cbn [validate_payload] in Hv; apply bind_Ok in Hv as ([] & Hvc & Hv);
    apply bind_Ok in Hv as ([] & Hvm & Hv); apply bind_Ok in Hv as ([] & _ & Hv); apply each_Ok in Hvm;
    apply validate_members_Ok in Hv as (_ & _ & Hall).
  - left. exists c, ms. apply open_conflict_Ok in Ho as (ids & _ & _ & Hn & -> & Hst & _ & _ & Hf).
    repeat (split; [done|]). by apply add_members_Ok in Hf as [Hsrc _].
  - right. exists c, ms.
    pose proof (resolve_conflict_Ok _ _ _ _ _ _ _ _ _ _ Ho) as (ids & cur & _ & _ & Hcur & -> & _ & Hst & _).
    split; [done|]. split; [by eexists|]. repeat (split; [done|]).
    unfold resolve_conflict in Ho. do 7 (apply bind_Ok in Ho as (? & _ & Ho)).
    apply bind_Ok in Ho as ([ids' M'] & _ & Ho). apply bind_Ok in Ho as ([] & _ & [= _ <-]).
    intros k y Hk. apply (replace_members_Ok _ _ _ Hall) in Hk as [[Hk _]|Hk]; auto.
Qed.

(** The provenance of a table whose rows are created once and closed at most
    once. *)
Definition closes {V} (closed : V -> Prop) (T : gmap UUID V) (opened ended : gmap UUID UUID) : Prop :=
  (forall k v, T !! k = Some v -> is_Some (opened !! k) /\ (closed v <-> is_Some (ended !! k))) /\
  (forall k, is_Some (ended !! k) -> is_Some (T !! k)).

Lemma closes_step {V} (closed : V -> Prop) (T T' : gmap UUID V) opened ended id created removed :
  closes closed T opened ended ->
  (T' = T /\ created = [] /\ removed = []) \/
  (exists k v, T' = <[k := v]> T /\ T !! k = None /\ ~ closed v /\ created = [k] /\ removed = []) \/
  (exists k v, T' = <[k := v]> T /\ is_Some (T !! k) /\ closed v /\ created = [] /\ removed = [k]) ->
  closes closed T' (set_all id created opened) (set_all id removed ended).
Proof.
  intros [Htr Hun] Hstep.
  assert (Hdom : forall k v k', is_Some (T !! k') -> is_Some (<[k := v]> T !! k')).
  { intros k v k' Hk'. destruct (decide (k = k')) as [<-|Hne]; [by rewrite lookup_insert_eq|by rewrite lookup_insert_ne]. }
  destruct Hstep as [(-> & -> & ->)|[(k & v & -> & Hn & Hst & -> & ->)|(k & v & -> & Hs & Hst & -> & ->)]]; [done|split..].
  - intros k' v' Hk. rewrite !set_all_some, list_elem_of_singleton, elem_of_nil.
    apply lookup_insert_Some in Hk as [[<- <-]|[Hne Hk]].
    + split; [by left|]. split; [done|]. intros [[]|Hu]. apply Hun in Hu. rewrite Hn in Hu. by destruct Hu.
    + destruct (Htr _ _ Hk) as [H1 H2]. rewrite H2. tauto.
  - intros k'. rewrite set_all_some, elem_of_nil. intros [[]|Hk]. auto.
  - intros k' v' Hk. rewrite !set_all_some, list_elem_of_singleton, elem_of_nil.
    apply lookup_insert_Some in Hk as [[<- <-]|[Hne Hk]].
    + destruct Hs as [v0 Hv0]. destruct (Htr _ _ Hv0) as [H1 _]. tauto.
    + destruct (Htr _ _ Hk) as [H1 H2]. split; [by right|]. rewrite H2. split; [auto|]. intros [->|Hu]; done.
  - intros k'. rewrite set_all_some, list_elem_of_singleton. intros [->|Hk]; [by rewrite lookup_insert_eq|auto].
Qed.

(** What the provenance of a log tells of its projection, and the validity of
    the rows that come from payloads. *)
Record traced (pv : Provenance) (s : ProjectionState) : Prop := {
  tr_memory : forall k, is_Some (ps_memories s !! k) -> is_Some (pv_memory_last pv !! k);
  tr_evidence : forall k, is_Some (ps_evidence s !! k) -> is_Some (pv_evidence_source pv !! k);
  tr_link : closes (fun l => ls_status l = link_unlinked) (ps_links s) (pv_link_created pv) (pv_link_unlinked pv);
  tr_conflict : closes (fun c => cs_status c = conflict_resolved) (ps_conflicts s)
                  (pv_conflict_opened pv) (pv_conflict_resolved pv);
  tr_member : forall k, is_Some (ps_conflict_members s !! k) -> is_Some (pv_member_last pv !! k);
  tr_valid_evidence : forall k i, ps_evidence s !! k = Some i -> validate_evidence i = Ok tt;
  tr_valid_conflict : forall k c, ps_conflicts s !! k = Some c -> validate_conflict c = Ok tt;
  tr_valid_member : forall k x, ps_conflict_members s !! k = Some x -> validate_conflict_member x = Ok tt
}.

Lemma traced_empty : traced no_provenance empty_projection.
Proof. split; try split; cbn; intros *; rewrite lookup_empty; try done; by intros []. Qed.

Lemma links_traced pv s e p w w' :
  op_run s e w p w' ->
  closes (fun l => ls_status l = link_unlinked) (w_links w) (pv_link_created pv) (pv_link_unlinked pv) ->
  closes (fun l => ls_status l = link_unlinked) (w_links w')
    (set_all (e_event_id e) (created_links p) (pv_link_created pv))
    (set_all (e_event_id e) (removed_links p) (pv_link_unlinked pv)).
Proof.
  intros Hrun Hc. eapply closes_step; [exact Hc|].
  destruct (link_step _ _ _ _ _ Hrun) as [?|[(l & -> & Hn & Hst & Hcr & Hre)|(l & -> & Hs & Hst & Hcr & Hre)]]; [by left|right..].
  - left. exists (ls_link_id l), l. rewrite Hst. done.
  - right. exists (ls_link_id l), l. done.
Qed.

Lemma conflicts_traced pv s e p w w' :
  op_run s e w p w' -> validate_payload p = Ok tt ->
  closes (fun c => cs_status c = conflict_resolved) (w_conflicts w) (pv_conflict_opened pv) (pv_conflict_resolved pv) ->
  closes (fun c => cs_status c = conflict_resolved) (w_conflicts w')
    (set_all (e_event_id e) (opened_conflicts p) (pv_conflict_opened pv))
    (set_all (e_event_id e) (resolved_conflicts p) (pv_conflict_resolved pv)).
Proof.
  intros Hrun Hv Hc. eapply closes_step; [exact Hc|].
  destruct (conflict_step _ _ _ _ _ Hrun Hv) as [(-> & _ & ? & ?)|[(c & ms & -> & Hn & Hst & Hop & Hre & _)
    |(c & ms & -> & Hs & Hst & Hop & Hre & _)]]; [by left|right..].
  - left. exists (cs_conflict_id c), c. rewrite Hst. done.
  - right. exists (cs_conflict_id c), c. done.
Qed.

(** New conflict and membership rows come from the payload. *)
Lemma conflict_rows_step s e p w w' :
  op_run s e w p w' -> validate_payload p = Ok tt ->
  (forall k c, w_conflicts w' !! k = Some c -> w_conflicts w !! k = Some c \/ validate_conflict c = Ok tt) /\
  (forall k x, w_conflict_members w' !! k = Some x ->
     w_conflict_members w !! k = Some x \/ (k ∈ written_members p /\ validate_conflict_member x = Ok tt)).
Proof.
  intros Hrun Hv. destruct (conflict_step _ _ _ _ _ Hrun Hv) as [(-> & -> & _)|[Hc|Hc]]; [auto| |];
    destruct Hc as (c & ms & -> & _ & _ & _ & _ & Hvc & Hvm & -> & Hm); rewrite Forall_forall in Hvm;
    (split; [intros k c' Hk; apply lookup_insert_Some in Hk as [[_ <-]|[_ Hk]]; auto|]);
    intros k x Hk; destruct (Hm k x Hk) as [|[Hin ->]]; auto; right;
    (split; [apply list_elem_of_fmap; eauto|auto]).
Qed.

Lemma traced_step pv s e p w :
  wf s -> accepted true s e p w -> traced pv s ->
  traced (note_payload (e_event_id e) p pv) (committed s e w).
Proof.
  intros Hwf Hacc Htr. pose proof (acc_run _ _ _ _ _ Hacc) as Hrun. pose proof (acc_valid _ _ _ _ _ Hacc) as Hv.
  pose proof (links_traced pv _ _ _ _ _ Hrun (tr_link _ _ Htr)) as Hl.
  pose proof (conflicts_traced pv _ _ _ _ _ Hrun Hv (tr_conflict _ _ Htr)) as Hcs.
  destruct (conflict_rows_step _ _ _ _ _ Hrun Hv) as [Hvc Hvm].
  split; cbn [committed ps_memories ps_evidence ps_links ps_conflicts ps_conflict_members]; try done.
  - intros k [m Hm]. cbn [note_payload pv_memory_last]. apply set_all_some. rewrite written_memories_images.
    destruct (op_run_changed _ _ _ _ _ Hrun _ _ Hm) as [Hold|Hnew].
    + right. apply (tr_memory _ _ Htr). by eexists.
    + left. destruct (wf_memories_step _ _ _ _ _ _ _ Hwf Hacc Hm) as [<- _]. apply list_elem_of_fmap. eauto.
  - intros k [i Hi]. apply set_all_some. destruct (evidence_step _ _ _ _ _ _ _ Hrun Hv Hi) as [Hold|[Hnew _]]; [right|by left].
    apply (tr_evidence _ _ Htr). by eexists.
  - intros k [x Hx]. apply set_all_some. destruct (Hvm k x Hx) as [Hold|[Hnew _]]; [right|by left].
    apply (tr_member _ _ Htr). by eexists.
  - intros k i Hi. destruct (evidence_step _ _ _ _ _ _ _ Hrun Hv Hi) as [Hold|[_ ?]]; [|done].
    by apply (tr_valid_evidence _ _ Htr k).
  - intros k c Hc. destruct (Hvc k c Hc) as [Hold|?]; [|done]. by apply (tr_valid_conflict _ _ Htr k).
  - intros k x Hx. destruct (Hvm k x Hx) as [Hold|[_ ?]]; [|done]. by apply (tr_valid_member _ _ Htr k).
Qed.

(** The provenance of an accepted log exists and traces its projection. *)
Lemma rebuild_traced es s : rebuild es = Ok s -> exists pv, derive_provenance es = Ok pv /\ traced pv s.
Proof.
  unfold rebuild, derive_provenance. revert s. induction es as [|e es IH] using rev_ind; intros s Hr.
  { injection Hr as <-. exists no_provenance. split; [done|apply traced_empty]. }
  rewrite foldM_app in Hr. apply bind_Ok in Hr as (s1 & Hs1 & Hr). apply foldM_one in Hr.
  destruct (IH s1 Hs1) as (pv & Hpv & Htr). apply fold_event_parts in Hr as (p & w & Hacc & -> & _).
  exists (note_payload (e_event_id e) p pv). split.
  - rewrite foldM_app, Hpv. cbn [mbind result_bind foldM]. unfold note_event.
    by rewrite (acc_payload _ _ _ _ _ Hacc).
  - apply traced_step; [by apply (rebuild_wf_lemma es)|done|done].
Qed.

(** ** Branch order *)

(** Parents exist and were created before their children. *)
Definition ranked (B : gmap UUID BranchState) (rank : UUID -> nat) : Prop :=
  forall k b parent, B !! k = Some b -> bs_parent_branch_id b = Some parent ->
    is_Some (B !! parent) /\ (rank parent < rank k)%nat.

Lemma rebuild_ranked es s : rebuild es = Ok s -> exists rank, ranked (ps_branches s) rank.
Proof.
  unfold rebuild. revert s. induction es as [|e es IH] using rev_ind; intros s Hr.
  { injection Hr as <-. exists (fun _ => 0%nat). intros k b parent Hk. cbn in Hk. by rewrite lookup_empty in Hk. }
  rewrite foldM_app in Hr. apply bind_Ok in Hr as (s1 & Hs1 & Hr). apply foldM_one in Hr.
  destruct (IH s1 Hs1) as (rank & Hrank). apply fold_event_parts in Hr as (p & w & Hacc & -> & _).
  cbn [committed ps_branches].
  destruct (op_run_branches _ _ _ _ _ (acc_run _ _ _ _ _ Hacc)) as [[-> _]|(_ & b & Hc)]; [by exists rank|].
  apply create_branch_Ok in Hc as (Hn & -> & _ & Hpar). cbn in Hn, Hpar.
  exists (fun k => if decide (k = bs_branch_id b)
                   then match bs_parent_branch_id b with Some parent => S (rank parent) | None => 0%nat end
                   else rank k).
  assert (Hkeep : forall k, is_Some (ps_branches s1 !! k) -> k <> bs_branch_id b).
  { intros k Hk ->. rewrite Hn in Hk. by destruct Hk. }
  intros k x parent Hk Hp. cbn in Hk. apply lookup_insert_Some in Hk as [[<- <-]|[Hne Hk]].
  - destruct (Hpar parent Hp) as (pb & Hpb & _). assert (Hne : parent <> bs_branch_id b) by (apply Hkeep; by eexists).
    rewrite lookup_insert_ne by done. split; [by eexists|]. rewrite decide_False by done.
    rewrite decide_True by done. rewrite Hp. lia.
  - destruct (Hrank k x parent Hk Hp) as [Hs Hlt]. pose proof (Hkeep _ Hs) as Hne'.
    rewrite lookup_insert_ne by done. split; [done|]. by rewrite !decide_False by done.
Qed.
End Facts.
