(* ===== verification/ProjectionRebuildTheorems.v ===== *)
(** * ProjectionRebuildTheorems: a rebuild always succeeds and holds the replay *)

From stdpp Require Import base tactics option list gmap strings.
From Stdlib Require Import ZArith Lia Bool.
From S2P Require Import Prelude Identifiers Enums Values CanonicalJson Digest Constraints Events Folding FoldingFacts FoldingInvariant FoldingTheorems Samples EventStore EventStoreTheorems ProjectionRows ProjectionRowsTheorems LiveProjection LiveTransfer LiveProjectionFacts LiveProjectionTheorems LiveReplay ProjectionRebuild.
Open Scope Z_scope.

(** ** Branch layers *)

Lemma elem_of_ready rem em b :
  b ∈ ready_branches rem em <-> parent_emitted em b = true /\ exists k, rem !! k = Some b.
Proof.
  unfold ready_branches. rewrite sort_by_perm, list_elem_of_filter, list_elem_of_fmap. split.
  - intros (Hp & [k v] & -> & Hin). apply elem_of_map_to_list in Hin. eauto.
  - intros (Hp & k & Hk). split; [done|]. exists (k, b). by rewrite elem_of_map_to_list.
Qed.

Definition branch_keyed (B : gmap UUID BranchState) : Prop := forall k b, B !! k = Some b -> bs_branch_id b = k.

Lemma ready_nodup rem em : branch_keyed rem -> NoDup (bs_branch_id <$> ready_branches rem em).
Proof.
  intros Hk. unfold ready_branches. rewrite sort_by_perm.
  apply NoDup_fmap_filter, (values_ids_nodup bs_branch_id rem Hk).
Qed.

(** Deleting the emitted branches. *)
Lemma del_branches_Ok l rem :
  NoDup (bs_branch_id <$> l) -> (forall b, b ∈ l -> is_Some (rem !! bs_branch_id b)) ->
  exists rem', foldM del_branch rem l = Ok rem' /\
    (forall k, rem' !! k = if decide (k ∈ bs_branch_id <$> l) then None else rem !! k) /\
    (size rem' + length l = size rem)%nat.
Proof.
  revert rem. induction l as [|b l IH]; intros rem Hnd Hin.
  { exists rem. split; [done|]. split; [|cbn; lia]. intros k. by rewrite decide_False by apply not_elem_of_nil. }
  rewrite fmap_cons, NoDup_cons in Hnd. destruct Hnd as [Hni Hnd]. destruct (Hin b ltac:(left)) as [x Hx].
  destruct (IH (delete (bs_branch_id b) rem) Hnd) as (rem' & Hrun & Hlook & Hsize).
  { intros c Hc. rewrite lookup_delete_ne; [apply Hin; by right|]. intros Heq. apply Hni. rewrite Heq.
    apply list_elem_of_fmap. eauto. }
  assert (Hdel : del_branch rem b = Ok (delete (bs_branch_id b) rem)).
  { unfold del_branch. by rewrite bool_decide_false by congruence. }
  exists rem'. cbn [foldM]. rewrite Hdel. cbn [mbind result_bind]. split; [done|]. split.
  - intros k. rewrite Hlook, fmap_cons. destruct (decide (k ∈ bs_branch_id <$> l)) as [Hel|Hel].
    + by rewrite decide_True by (by right).
    + destruct (decide (k = bs_branch_id b)) as [->|Hne].
      * rewrite decide_True by left. apply lookup_delete_eq.
      * rewrite decide_False by (rewrite elem_of_cons; tauto). by apply lookup_delete_ne.
  - pose proof (map_size_delete_Some (bs_branch_id b) rem ltac:(by eexists)) as Hd.
    assert (Hpos : size rem <> 0%nat) by (intros H0; apply map_size_empty_inv in H0 as ->; by rewrite lookup_empty in Hx).
    cbn [length]. lia.
Qed.

(** Each row's parent precedes it or was emitted before. *)
Fixpoint parents_first (emitted : gset UUID) (rows : list BranchRow) : Prop :=
  match rows with
  | [] => True
  | row :: rest => (forall parent, hr_parent_branch_id row = Some parent -> parent ∈ emitted) /\
                   parents_first ({[hr_branch_id row]} ∪ emitted) rest
  end.

Lemma parents_first_mono em em' rows : em ⊆ em' -> parents_first em rows -> parents_first em' rows.
Proof.
  revert em em'. induction rows as [|row rows IH]; intros em em' Hsub; [done|]. cbn. intros [Hp Hr].
  split; [intros parent Hpar; apply Hsub; by apply Hp|]. eapply IH; [|exact Hr]. set_solver.
Qed.

Lemma parents_first_app em l rows :
  (forall b, b ∈ l -> parent_emitted em b = true) ->
  parents_first (list_to_set (bs_branch_id <$> l) ∪ em) rows ->
  parents_first em ((branch_row <$> l) ++ rows).
Proof.
  revert em. induction l as [|b l IH]; intros em Hl Hr.
  { eapply parents_first_mono; [|exact Hr]. set_solver. }
  cbn. split.
  - intros parent Hp. specialize (Hl b ltac:(left)). unfold parent_emitted in Hl. rewrite Hp in Hl.
    by apply bool_decide_eq_true in Hl.
  - apply IH.
    + intros c Hc. specialize (Hl c ltac:(by right)). unfold parent_emitted in *.
      destruct (bs_parent_branch_id c); [|done]. apply bool_decide_eq_true in Hl. apply bool_decide_eq_true. set_solver.
    + eapply parents_first_mono; [|exact Hr]. cbn. set_solver.
Qed.

(** A branch of least rank is ready. *)
Lemma least_ready rem em rank :
  rem <> ∅ ->
  (forall k b parent, rem !! k = Some b -> bs_parent_branch_id b = Some parent ->
     parent ∈ em \/ is_Some (rem !! parent) /\ (rank parent < rank k)%nat) ->
  ready_branches rem em <> [].
Proof.
  intros Hne Hrank Hnone. apply map_choose in Hne as (k0 & b0 & Hk0).
  assert (Hall : forall n k b, (rank k <= n)%nat -> rem !! k = Some b -> False).
  { induction n as [n IH] using lt_wf_ind. intros k b Hle Hk.
    assert (Hpe : parent_emitted em b = false).
    { destruct (parent_emitted em b) eqn:E; [|done]. assert (Hin : b ∈ ready_branches rem em) by (apply elem_of_ready; eauto).
      rewrite Hnone in Hin. by apply elem_of_nil in Hin. }
    unfold parent_emitted in Hpe. destruct (bs_parent_branch_id b) as [parent|] eqn:Hp; [|done].
    apply bool_decide_eq_false in Hpe. destruct (Hrank k b parent Hk Hp) as [?|[[pb Hpb] Hlt]]; [done|].
    by apply (IH (rank parent) ltac:(lia) parent pb (Nat.le_refl _)). }
  by apply (Hall (rank k0) k0 b0 (Nat.le_refl _)).
Qed.

Lemma branch_layers_Ok fuel rem em rank :
  (size rem < fuel)%nat -> branch_keyed rem ->
  (forall k b parent, rem !! k = Some b -> bs_parent_branch_id b = Some parent ->
     parent ∈ em \/ is_Some (rem !! parent) /\ (rank parent < rank k)%nat) ->
  exists rows, branch_layers fuel rem em = Ok rows /\ parents_first em rows /\
    forall row, row ∈ rows <-> exists k b, rem !! k = Some b /\ row = branch_row b.
Proof.
  revert rem em. induction fuel as [|f IH]; intros rem em Hf Hkey Hrank; [lia|]. cbn [branch_layers].
  destruct (decide (rem = ∅)) as [->|Hne].
  { rewrite bool_decide_true by done. exists []. split; [done|]. split; [done|]. intros row. rewrite elem_of_nil.
    split; [done|]. intros (k & b & Hk & _). by rewrite lookup_empty in Hk. }
  rewrite bool_decide_false by done. set (ready := ready_branches rem em).
  assert (Hready : ready <> []) by (by eapply least_ready).
  rewrite bool_decide_false by done. cbn [raise_if mbind result_bind].
  destruct (del_branches_Ok ready rem (ready_nodup _ _ Hkey)) as (rem' & -> & Hlook & Hsize).
  { intros b Hb. apply elem_of_ready in Hb as (_ & k & Hk). rewrite (Hkey _ _ Hk). by eexists. }
  cbn [mbind result_bind].
  assert (Hsub : forall k b, rem' !! k = Some b -> rem !! k = Some b /\ k ∉ bs_branch_id <$> ready).
  { intros k b Hk. rewrite Hlook in Hk. by destruct (decide _). }
  destruct (IH rem' (list_to_set (bs_branch_id <$> ready) ∪ em)) as (rows & -> & Hfirst & Hrows).
  - assert (length ready <> 0%nat) by (by destruct ready). lia.
  - intros k b Hk. by apply Hkey, Hsub.
  - intros k b parent Hk Hp. apply Hsub in Hk as [Hk _].
    destruct (Hrank k b parent Hk Hp) as [Hem|[[pb Hpb] Hlt]]; [left; set_solver|].
    destruct (decide (parent ∈ bs_branch_id <$> ready)) as [Hel|Hel]; [left; set_solver|].
    right. split; [|done]. rewrite Hlook, decide_False by done. by eexists.
  - cbn [mbind result_bind]. eexists. split; [reflexivity|]. split.
    + apply parents_first_app; [|done]. intros b Hb. by apply elem_of_ready in Hb as [? _].
    + intros row. rewrite elem_of_app, Hrows, list_elem_of_fmap. split.
      * intros [(b & -> & Hb)|(k & b & Hk & ->)].
        -- apply elem_of_ready in Hb as (_ & k & Hk). eauto.
        -- apply Hsub in Hk as [Hk _]. eauto.
      * intros (k & b & Hk & ->). destruct (decide (k ∈ bs_branch_id <$> ready)) as [Hel|Hel].
        -- left. apply list_elem_of_fmap in Hel as (b' & Hb' & Hin). exists b. split; [done|].
           pose proof Hin as Hin'. apply elem_of_ready in Hin' as (_ & k' & Hk').
           assert (k' = k) as -> by (by rewrite <- (Hkey _ _ Hk')). congruence.
        -- right. exists k, b. rewrite Hlook, decide_False by done. done.
Qed.

(** ** Rows of a replayed log *)

Lemma elem_of_sorted_values {V} (key : V -> UUID) (M : gmap UUID V) v :
  v ∈ sorted_values key M <-> exists k, M !! k = Some v.
Proof.
  unfold sorted_values. rewrite sort_by_perm, list_elem_of_fmap. split.
  - intros ([k v'] & -> & Hin). apply elem_of_map_to_list in Hin. eauto.
  - intros (k & Hk). exists (k, v). by rewrite elem_of_map_to_list.
Qed.

Lemma elem_of_sorted_members M k x : (k, x) ∈ sorted_member_items M <-> M !! k = Some x.
Proof. unfold sorted_member_items. by rewrite sort_by_perm, elem_of_map_to_list. Qed.

Section Theorems.
Context `{R : Rfc8785} `{P : Pydantic}.

Lemma closes_checked {V} (closed : V -> Prop) `{forall v, Decision (closed v)} T opened ended k v :
  closes closed T opened ended -> T !! k = Some v ->
  exists id, opened !! k = Some id /\ xorb (bool_decide (closed v)) (negb (is_none (ended !! k))) = false.
Proof.
  intros [Hc _] Hv. destruct (Hc k v Hv) as [[id Hid] Hiff]. exists id. split; [done|].
  destruct (decide (closed v)) as [Hcl|Hcl].
  - rewrite bool_decide_true by done. apply Hiff in Hcl as [x ->]. done.
  - rewrite bool_decide_false by done. destruct (ended !! k) eqn:E; [|done]. destruct Hcl. apply Hiff. by eexists.
Qed.

Lemma rebuild_rows_total_lemma (es : list MemoryEvent) (s : ProjectionState) :
  rebuild es = Ok s ->
  exists rows, build_projection_rows s es = Ok rows /\ parents_first ∅ (pr_branches rows) /\
    forall row, row ∈ pr_branches rows <-> exists k b, ps_branches s !! k = Some b /\ row = branch_row b.
Proof.
  intros Hr. pose proof (rebuild_wf_lemma _ _ Hr) as Hwf. destruct (rebuild_traced _ _ Hr) as (pv & Hpv & Htr).
  destruct (rebuild_ranked _ _ Hr) as (rank & Hrank).
  unfold build_projection_rows. rewrite Hpv. cbn [mbind result_bind].
  destruct (mapR_total (build_memory pv) (sorted_values ms_memory_id (ps_memories s))) as (ms & ->).
  { intros m Hm. apply elem_of_sorted_values in Hm as (k & Hk). unfold build_memory, required.
    rewrite (wf_memory_key _ Hwf _ _ Hk). destruct (tr_memory _ _ Htr k ltac:(by eexists)) as (ev & ->).
    cbn [from_option_or mbind result_bind].
    destruct (memory_row_reads_back m ev) as (row & -> & _); [by apply (wf_memory_valid _ Hwf k)|]. by eexists. }
  cbn [mbind result_bind].
  destruct (mapR_total (build_evidence pv) (sorted_values es_evidence_id (ps_evidence s))) as (evs & ->).
  { intros i Hi. apply elem_of_sorted_values in Hi as (k & Hk). unfold build_evidence, required.
    destruct (wf_evidence _ Hwf _ _ Hk) as [-> _]. destruct (tr_evidence _ _ Htr k ltac:(by eexists)) as (ev & ->).
    cbn [from_option_or mbind result_bind].
    destruct (evidence_row_reads_back i ev) as (row & -> & _); [by apply (tr_valid_evidence _ _ Htr k)|by destruct (es_status i)|].
    by eexists. }
  cbn [mbind result_bind].
  destruct (mapR_total (build_link pv) (sorted_values ls_link_id (ps_links s))) as (ls & ->).
  { intros l Hl. apply elem_of_sorted_values in Hl as (k & Hk). unfold build_link, required.
    destruct (wf_link _ Hwf _ _ Hk) as [-> _]. destruct (closes_checked _ _ _ _ _ _ (tr_link _ _ Htr) Hk) as (id & -> & ->).
    by eexists. }
  cbn [mbind result_bind].
  destruct (mapR_total (build_conflict pv) (sorted_values cs_conflict_id (ps_conflicts s))) as (cs & ->).
  { intros c Hc. apply elem_of_sorted_values in Hc as (k & Hk). unfold build_conflict, required.
    destruct (wf_conflict _ Hwf _ _ Hk) as [-> _]. destruct (closes_checked _ _ _ _ _ _ (tr_conflict _ _ Htr) Hk) as (id & -> & ->).
    by eexists. }
  cbn [mbind result_bind].
  destruct (mapR_total (build_member pv (ps_conflicts s)) (sorted_member_items (ps_conflict_members s))) as (mrs & ->).
  { intros [[c id] x] Hx. apply elem_of_sorted_members in Hx. unfold build_member, required. cbn [fst snd].
    destruct (wf_member _ Hwf _ _ _ Hx) as (_ & _ & con & _ & Hcon & _). rewrite Hcon.
    destruct (tr_member _ _ Htr (c, id) ltac:(by eexists)) as (ev & ->). by eexists. }
  cbn [mbind result_bind]. unfold branch_rows.
  destruct (branch_layers_Ok (S (size (ps_branches s))) (ps_branches s) ∅ rank) as (brs & -> & Hfirst & Hrows).
  - lia.
  - intros k b Hk. by apply (wf_branch _ Hwf).
  - intros k b parent Hk Hp. right. by eapply Hrank.
  - cbn [mbind result_bind]. eexists. split; [reflexivity|]. done.
Qed.

(** a rebuild can always map a replayed log to rows.  Whenever the log
    replays, every row finds the events it came from, the unlink and resolution
    marks agree with the rows' statuses, and the branches can be ordered: the
    branch rows are exactly those of the projection, each parent before its
    children. *)
Theorem rebuild_rows_total (es : list MemoryEvent) (s : ProjectionState) :
  rebuild es = Ok s ->
  exists rows, build_projection_rows s es = Ok rows /\ parents_first ∅ (pr_branches rows) /\
    forall row, row ∈ pr_branches rows <-> exists k b, ps_branches s !! k = Some b /\ row = branch_row b.
Proof. apply rebuild_rows_total_lemma. Qed.

(** ** The replaced tables *)

Context `{LD : LiveDatabase}.

(** The foreign key of [memory_evidence] on tenant, lineage and memory. *)
Definition evidence_key_enforced : Prop :=
  forall t, write_error t = None -> forall k row, lt_evidence t !! k = Some row ->
  exists m, lt_memories t !! er_memory_id row = Some m /\
    mr_tenant_id m = er_tenant_id row /\ mr_lineage_id m = er_lineage_id row.

Lemma apply_writes_checked ws t t' :
  foldM apply_write t ws = Ok t' -> (ws = [] /\ t' = t) \/ write_error t' = None.
Proof.
  destruct ws as [|w ws _] using rev_ind; [intros [= <-]; by left|]. rewrite foldM_app. intros Hr.
  apply bind_Ok in Hr as (t1 & _ & Hr). apply foldM_one in Hr. unfold apply_write in Hr.
  apply bind_Ok in Hr as (t2 & _ & Hr). apply bind_Ok in Hr as ([] & Hf & [= ->]). right.
  unfold flush in Hf. by destruct (write_error t').
Qed.

Lemma delete_all_empty {K V} `{Countable K} (tenant_of : V -> UUID) (table : gmap K V) :
  delete_rows tenant_of None table = ∅.
Proof. apply map_empty. intros k. apply map_lookup_filter_None. by right. Qed.

(** Rows built from a keyed map and inserted into an empty table hold it. *)
Lemma built_rows_hold {V Row} (build : V -> result Row) (stored : Row -> V -> Prop) (key : Row -> UUID)
    (id_of : V -> UUID) (M : gmap UUID V) rows (T : gmap UUID Row) :
  (forall k v, M !! k = Some v -> id_of v = k) ->
  (forall k v row, M !! k = Some v -> build v = Ok row -> key row = id_of v /\ stored row v) ->
  mapR build (sorted_values id_of M) = Ok rows ->
  (forall row, row ∈ rows -> T !! key row = Some row) -> (forall k, k ∉ key <$> rows -> T !! k = None) ->
  forall id, option_Forall2 stored (T !! id) (M !! id).
Proof.
  intros Hkey Hbuild Hrows Hin Hout id. apply mapR_Forall2 in Hrows. destruct (M !! id) as [v|] eqn:Hv.
  - assert (Hel : v ∈ sorted_values id_of M) by (apply elem_of_sorted_values; eauto).
    apply list_elem_of_lookup in Hel as (i & Hi). destruct (Forall2_lookup_l _ _ _ _ _ Hrows Hi) as (row & Hrow & Hb).
    destruct (Hbuild _ _ _ Hv Hb) as [Hk Hst]. rewrite (Hkey _ _ Hv) in Hk. rewrite <- Hk, Hin; [by constructor|].
    by eapply list_elem_of_lookup_2.
  - rewrite Hout; [constructor|]. intros Hel. apply list_elem_of_fmap in Hel as (row & -> & Hel).
    apply list_elem_of_lookup in Hel as (i & Hi). destruct (Forall2_lookup_r _ _ _ _ _ Hrows Hi) as (v & Hiv & Hb).
    apply list_elem_of_lookup_2, elem_of_sorted_values in Hiv as (k & Hk).
    destruct (Hbuild _ _ _ Hk Hb) as [Hkr _]. rewrite Hkr, (Hkey _ _ Hk) in Hv. congruence.
Qed.

Lemma build_rows_Ok s es rows :
  build_projection_rows s es = Ok rows ->
  exists pv, derive_provenance es = Ok pv /\
    mapR (build_memory pv) (sorted_values ms_memory_id (ps_memories s)) = Ok (pr_memories rows) /\
    mapR (build_evidence pv) (sorted_values es_evidence_id (ps_evidence s)) = Ok (pr_evidence rows) /\
    mapR (build_link pv) (sorted_values ls_link_id (ps_links s)) = Ok (pr_links rows) /\
    mapR (build_conflict pv) (sorted_values cs_conflict_id (ps_conflicts s)) = Ok (pr_conflicts rows) /\
    mapR (build_member pv (ps_conflicts s)) (sorted_member_items (ps_conflict_members s)) = Ok (pr_members rows).
Proof.
  unfold build_projection_rows. intros Hb. apply bind_Ok in Hb as (pv & Hpv & Hb). exists pv. split; [done|].
  do 6 (apply bind_Ok in Hb as (? & ? & Hb)). injection Hb as <-. done.
Qed.

(** The tables after the replacement writes, table by table. *)
Record inserted (rows : ProjectionRowSet) (t : LiveTables) : Prop := {
  in_memories : (forall row, row ∈ pr_memories rows -> lt_memories t !! mr_memory_id row = Some row) /\
                (forall k, k ∉ mr_memory_id <$> pr_memories rows -> lt_memories t !! k = None);
  in_evidence : (forall row, row ∈ pr_evidence rows -> lt_evidence t !! er_evidence_id row = Some row) /\
                (forall k, k ∉ er_evidence_id <$> pr_evidence rows -> lt_evidence t !! k = None);
  in_links : (forall row, row ∈ pr_links rows -> lt_links t !! lr_link_id row = Some row) /\
             (forall k, k ∉ lr_link_id <$> pr_links rows -> lt_links t !! k = None);
  in_conflicts : (forall row, row ∈ pr_conflicts rows -> lt_conflicts t !! kr_conflict_id row = Some row) /\
                 (forall k, k ∉ kr_conflict_id <$> pr_conflicts rows -> lt_conflicts t !! k = None);
  in_members : (forall row, row ∈ pr_members rows -> lt_members t !! member_row_place row = Some row) /\
               (forall k, k ∉ member_row_place <$> pr_members rows -> lt_members t !! k = None)
}.

Lemma replacement_inserted rows t t' :
  foldM write_rows (delete_projection_rows None t) (replacement_writes rows) = Ok t' -> inserted rows t'.
Proof.
  unfold replacement_writes. rewrite foldM_app. intros Hr.
  apply bind_Ok in Hr as (t1 & H1 & Hr). rewrite foldM_app in Hr. apply bind_Ok in Hr as (t2 & H2 & Hr).
  rewrite foldM_app in Hr. apply bind_Ok in Hr as (t3 & H3 & Hr). rewrite foldM_app in Hr.
  apply bind_Ok in Hr as (t4 & H4 & H5).
  destruct (insert_table_effect InsertMemory mr_memory_id lt_memories set_lt_memories) with (5 := H1)
    as (E1 & _ & I1 & O1); try done; [by intros []|].
  destruct (insert_table_effect InsertEvidence er_evidence_id lt_evidence set_lt_evidence) with (5 := H2)
    as (E2 & _ & I2 & O2); try done; [by intros []|].
  destruct (insert_table_effect InsertLink lr_link_id lt_links set_lt_links) with (5 := H3)
    as (E3 & _ & I3 & O3); try done; [by intros []|].
  destruct (insert_table_effect InsertConflict kr_conflict_id lt_conflicts set_lt_conflicts) with (5 := H4)
    as (E4 & _ & I4 & O4); try done; [by intros []|].
  destruct (insert_table_effect InsertMember member_row_place lt_members set_lt_members) with (5 := H5)
    as (E5 & _ & I5 & O5); try done; [by intros []|].
  clear H1 H2 H3 H4 H5. rewrite E5; clear E5. rewrite E4 in O5 |- *; clear E4. rewrite E3 in O4, O5 |- *; clear E3.
  rewrite E2 in O3, O4, O5 |- *; clear E2. rewrite E1 in O2, O3, O4, O5 |- *; clear E1.
  cbn in O1, O2, O3, O4, O5. rewrite delete_all_empty in O1. rewrite delete_all_empty in O2.
  rewrite delete_all_empty in O3. rewrite delete_all_empty in O4. rewrite delete_all_empty in O5.
  split; (split; [done|]); intros k Hk; cbn; [by rewrite O1|by rewrite O2|by rewrite O3|by rewrite O4|by rewrite O5].
Qed.

Lemma hide_sql_error_Ok {A} (r : result A) code a : hide_sql_error r code = Ok a -> r = Ok a.
Proof. by destruct r as [|[]]. Qed.

(** ** Branches *)

Lemma insert_branches_effect rows B B' :
  foldM insert_branch B rows = Ok B' ->
  (forall row, row ∈ rows -> B' !! hr_branch_id row = Some row) /\
  (forall k, k ∉ hr_branch_id <$> rows -> B' !! k = B !! k).
Proof.
  induction rows as [|row rows IH] using rev_ind in B' |- *.
  { intros [= <-]. split; [|done]. intros x Hx. by apply elem_of_nil in Hx. }
  rewrite foldM_app. intros Hr. apply bind_Ok in Hr as (B1 & H1 & Hr). apply foldM_one in Hr.
  apply insert_row_Ok in Hr as [Hn ->]. destruct (IH B1 H1) as [Hin Hout]. split.
  - intros x [Hx| ->%list_elem_of_singleton]%elem_of_app; [|apply lookup_insert_eq].
    rewrite lookup_insert_ne; [by apply Hin|]. intros Heq. rewrite Heq, (Hin x Hx) in Hn. done.
  - intros k Hk. rewrite fmap_app, elem_of_app in Hk. rewrite lookup_insert_ne; [apply Hout; tauto|].
    intros <-. apply Hk. right. by left.
Qed.

(** The stored branches become those of the projection. *)
Lemma branches_replaced (S' : gmap UUID BranchState) B B' expected missing :
  branch_keyed S' ->
  (forall row, row ∈ expected <-> exists k b, S' !! k = Some b /\ row = branch_row b) ->
  missing_branch_rows B expected None = Ok missing -> foldM insert_branch B missing = Ok B' ->
  forall k, B' !! k = branch_row <$> S' !! k.
Proof.
  intros Hkey Hexp Hm Hins k. unfold missing_branch_rows in Hm.
  rewrite (map_filter_id _ B) in Hm by done. apply bind_Ok in Hm as ([] & Hsub & Hm).
  apply bind_Ok in Hm as ([] & Hsame & [= <-]). apply raise_if_Ok in Hsame.
  apply raise_if_Ok, bool_decide_eq_false, dec_stable in Hsub.
  destruct (insert_branches_effect _ _ _ Hins) as [Hin Hout].
  assert (Hone : forall row, row ∈ expected -> hr_branch_id row = k -> branch_row <$> S' !! k = Some row).
  { intros row Hrow Hid. apply Hexp in Hrow as (k' & b & Hb & ->). cbn in Hid. rewrite (Hkey _ _ Hb) in Hid. subst k'.
    by rewrite Hb. }
  destruct (B !! k) as [row|] eqn:Hk.
  - rewrite Hout.
    2:{ intros Hel. apply list_elem_of_fmap in Hel as (x & -> & Hx). apply list_elem_of_filter in Hx as [Hx _]. congruence. }
    assert (Hd : k ∈ dom B) by (by apply elem_of_dom_2 in Hk). apply Hsub, elem_of_dom in Hd as [x Hx].
    assert (x = row) as ->.
    { destruct (decide (x = row)) as [|Hne]; [done|]. exfalso. rewrite <- not_true_iff_false in Hsame. apply Hsame.
      apply existsb_exists. exists (k, row). split; [by apply list_elem_of_In, elem_of_map_to_list|]. cbn.
      rewrite Hx. by rewrite bool_decide_false. }
    rewrite Hk. symmetry. apply elem_of_list_to_map_2, list_elem_of_fmap in Hx as (y & [= -> <-] & Hy). by apply Hone.
  - destruct (S' !! k) as [b|] eqn:Hb; cbn.
    + pose proof (Hkey _ _ Hb) as Hid. change (Some (branch_row b)) with (Some (branch_row b)).
      rewrite <- Hid at 1. apply (Hin (branch_row b)), list_elem_of_filter. cbn. rewrite Hid. split; [done|].
      apply Hexp. eauto.
    + rewrite Hout, Hk; [done|]. intros Hel. apply list_elem_of_fmap in Hel as (x & -> & Hx).
      apply list_elem_of_filter in Hx as [_ Hx]. by specialize (Hone x Hx eq_refl).
Qed.

(** ** The rebuilt tables *)

Lemma rebuilt_member_rows (pv : Provenance) (s : ProjectionState) (T : gmap (UUID * UUID * UUID * UUID) MemberRow) rows :
  wf s -> traced pv s ->
  mapR (build_member pv (ps_conflicts s)) (sorted_member_items (ps_conflict_members s)) = Ok rows ->
  (forall row, row ∈ rows -> T !! member_row_place row = Some row) ->
  (forall k, k ∉ member_row_place <$> rows -> T !! k = None) ->
  (forall tenant lineage c id row, T !! (tenant, lineage, c, id) = Some row ->
     exists con x, ps_conflicts s !! c = Some con /\ cs_tenant_id con = tenant /\ cs_lineage_id con = lineage /\
       ps_conflict_members s !! (c, id) = Some x /\ member_stored row con x) /\
  (forall c id x, ps_conflict_members s !! (c, id) = Some x ->
     exists con row, ps_conflicts s !! c = Some con /\
       T !! (cs_tenant_id con, cs_lineage_id con, c, id) = Some row /\ member_stored row con x).
Proof.
  intros Hwf Htr Hrows Hin Hout. apply mapR_Forall2 in Hrows.
  assert (Hbuilt : forall k x row, build_member pv (ps_conflicts s) (k, x) = Ok row ->
            ps_conflict_members s !! k = Some x ->
            exists con, ps_conflicts s !! k.1 = Some con /\
              member_row_place row = (cs_tenant_id con, cs_lineage_id con, k.1, k.2) /\ member_stored row con x).
  { intros [c id] x row Hb Hx. unfold build_member, required in Hb. inv_ok. exists x0. split; [done|].
    destruct (wf_member _ Hwf _ _ _ Hx) as (<- & <- & _). split; [done|]. split; [by eapply tr_valid_member|by eexists]. }
  split.
  - intros tenant lineage c id row Hrow. destruct (decide ((tenant, lineage, c, id) ∈ member_row_place <$> rows)) as [Hel|Hel].
    2:{ by rewrite Hout in Hrow. }
    apply list_elem_of_fmap in Hel as (row' & Hp & Hel). assert (row' = row) as -> by (apply Hin in Hel; congruence).
    apply list_elem_of_lookup in Hel as (i & Hi). destruct (Forall2_lookup_r _ _ _ _ _ Hrows Hi) as ([k x] & Hix & Hb).
    apply list_elem_of_lookup_2, elem_of_sorted_members in Hix. destruct (Hbuilt _ _ _ Hb Hix) as (con & Hcon & Hpl & Hst).
    rewrite Hpl in Hp. destruct k as [c' id']. cbn in *. injection Hp as -> -> -> ->. by exists con, x.
  - intros c id x Hx. assert (Hel : (c, id, x) ∈ sorted_member_items (ps_conflict_members s)) by (by apply elem_of_sorted_members).
    apply list_elem_of_lookup in Hel as (i & Hi). destruct (Forall2_lookup_l _ _ _ _ _ Hrows Hi) as (row & Hrow & Hb).
    destruct (Hbuilt _ _ _ Hb Hx) as (con & Hcon & Hpl & Hst). exists con, row. split; [done|]. split; [|done].
    cbn in Hpl. rewrite <- Hpl. apply Hin. by eapply list_elem_of_lookup_2.
Qed.

(** The rows of a replay, inserted, hold its state. *)
Lemma rebuilt_rows_hold es s rows t :
  evidence_key_enforced -> rebuild es = Ok s -> build_projection_rows s es = Ok rows -> inserted rows t ->
  (pr_evidence rows = [] \/ write_error t = None) -> holds t s.
Proof.
  intros Hfk Hr Hb [[I1 O1] [I2 O2] [I3 O3] [I4 O4] [I5 O5]] Hchk. pose proof (rebuild_wf_lemma _ _ Hr) as Hwf.
  destruct (rebuild_traced _ _ Hr) as (pv & Hpv & Htr).
  destruct (build_rows_Ok _ _ _ Hb) as (pv' & Hpv' & B1 & B2 & B3 & B4 & B5).
  rewrite Hpv in Hpv'. injection Hpv' as <-.
  assert (Hmem : forall id, option_Forall2 memory_stored (lt_memories t !! id) (ps_memories s !! id)).
  { eapply (built_rows_hold _ memory_stored mr_memory_id); [by apply wf_memory_key| |exact B1|done|done].
    intros k m row _ Hm. unfold build_memory in Hm. inv_ok. assert (Hst : memory_stored row m) by (by eexists).
    split; [|done]. by apply memory_stored_columns in Hst as [? _]. }
  assert (Hev : forall id, option_Forall2 evidence_stored (lt_evidence t !! id) (ps_evidence s !! id)).
  { eapply (built_rows_hold _ evidence_stored er_evidence_id); [by intros k v Hk; apply (wf_evidence _ Hwf _ _ Hk)| |exact B2|done|done].
    intros k i row Hk Hi. unfold build_evidence in Hi. inv_ok.
    assert (Hst : evidence_stored row i) by (split; [by eapply tr_valid_evidence|by eexists]).
    split; [|done]. by apply evidence_stored_columns in Hst as [? _]. }
  destruct (rebuilt_member_rows _ _ _ _ Hwf Htr B5 I5 O5) as [Hrow Hmember].
  split; [exact Hmem|exact Hev| | |exact Hrow|exact Hmember|].
  - eapply (built_rows_hold _ link_stored lr_link_id); [by intros k v Hk; apply (wf_link _ Hwf _ _ Hk)| |exact B3|done|done].
    intros k l row _ Hl. unfold build_link in Hl. inv_ok. split; [done|]. by eexists _, _.
  - eapply (built_rows_hold _ conflict_stored kr_conflict_id); [by intros k v Hk; apply (wf_conflict _ Hwf _ _ Hk)| |exact B4|done|done].
    intros k c row Hk Hc. unfold build_conflict in Hc. inv_ok. split; [done|]. split; [by eapply tr_valid_conflict|by eexists _, _].
  - intros k i Hk. specialize (Hev k). rewrite Hk in Hev. apply holds_image in Hev as (row & Hrow' & Hst).
    destruct Hchk as [Hnil|Hchk]; [rewrite O2 in Hrow' by (rewrite Hnil; apply not_elem_of_nil); done|].
    destruct (Hfk t Hchk _ _ Hrow') as (mr & Hmr & Ht & Hl).
    destruct (evidence_stored_columns _ _ Hst) as (_ & E1 & E2 & E3). specialize (Hmem (er_memory_id row)). rewrite Hmr in Hmem.
    apply holds_row in Hmem as (m & Hm & Hms). destruct (memory_stored_columns _ _ Hms) as (_ & F1 & F2).
    exists m. rewrite <- E3. split; [done|]. split; congruence.
Qed.

(** C4: a rebuild of every tenant leaves exactly the replay of the verified log.
    When it commits, each projection table holds one row per after-image of the
    replayed state and no other row, whatever the tables held before; the
    branches, which it may only add, are those of the projection. *)
Theorem rebuild_holds_replay (in_transaction : bool) (st : StoreState) (t t' : LiveTables)
    (branches branches' : gmap UUID BranchRow) (s : ProjectionState) :
  evidence_key_enforced ->
  rebuild_semantic_projections in_transaction None st t branches = Ok (t', branches', s) ->
  exists es, load_verified_events st None = Ok es /\ rebuild es = Ok s /\ holds t' s /\
    forall k, branches' !! k = branch_row <$> ps_branches s !! k.
Proof.
  intros Hfk Hrun. unfold rebuild_semantic_projections in Hrun. apply bind_Ok in Hrun as ([] & _ & Hrun).
  apply bind_Ok in Hrun as (es & Hes & Hrun). apply bind_Ok in Hrun as (s0 & Hr & Hrun).
  apply bind_Ok in Hrun as (rows & Hb & Hrun). apply bind_Ok in Hrun as (missing & Hm & Hrun).
  apply hide_sql_error_Ok in Hrun. apply bind_Ok in Hrun as (B & HB & Hrun).
  apply bind_Ok in Hrun as (t1 & Ht & [= <- <- <-]). exists es. split; [done|]. split; [done|]. split.
  - eapply rebuilt_rows_hold; [done|exact Hr|exact Hb|by eapply replacement_inserted, foldM_write_rows|].
    destruct (apply_writes_checked _ _ _ Ht) as [[Hnil _]|Hchk]; [left|by right].
    unfold replacement_writes in Hnil. repeat apply app_eq_nil in Hnil as [? Hnil]. by eapply fmap_nil_inv.
  - destruct (rebuild_rows_total_lemma _ _ Hr) as (rows' & Hb' & _ & Hrows). rewrite Hb in Hb'. injection Hb' as <-.
    eapply branches_replaced; [|exact Hrows|exact Hm|exact HB].
    intros k b Hk. by apply (wf_branch _ (rebuild_wf_lemma _ _ Hr)).
Qed.
End Theorems.

(** ** Witnesses *)

#[local] Existing Instance unique_database.

(** Tables whose commit checks the foreign key of [memory_evidence]. *)
Definition keyed_tables : LiveDatabase := {|
  query_error := fun _ _ => None;
  write_error := fun t =>
    if forallb (fun kv => match lt_memories t !! er_memory_id kv.2 with
                          | Some m => (mr_tenant_id m =? er_tenant_id kv.2) && (mr_lineage_id m =? er_lineage_id kv.2)
                          | None => false
                          end) (map_to_list (lt_evidence t))
    then None else Some "23503"%string
|}.

#[local] Existing Instance keyed_tables.

Lemma keyed_tables_enforce : evidence_key_enforced.
Proof.
  intros t Hw k row Hrow. cbn in Hw. destruct (forallb _ _) eqn:Hall; [|done].
  rewrite forallb_forall in Hall. specialize (Hall (k, row)). cbn in Hall.
  destruct (lt_memories t !! er_memory_id row) as [m|].
  - exists m. rewrite andb_true_iff, !Z.eqb_eq in Hall. split; [done|]. apply Hall.
    by apply list_elem_of_In, elem_of_map_to_list.
  - discriminate Hall. by apply list_elem_of_In, elem_of_map_to_list.
Qed.

Definition rebuilt : LiveTables * gmap UUID BranchRow * ProjectionState :=
  match rebuild_semantic_projections true None live_result.1.1 empty_tables ∅ with
  | Ok r => r
  | Err _ => (empty_tables, ∅, empty_projection)
  end.

Lemma rebuild_command :
  rebuild_semantic_projections true None live_result.1.1 empty_tables ∅ = Ok (rebuilt.1.1, rebuilt.1.2, rebuilt.2).
Proof. vm_compute. reflexivity. Qed.

Lemma rebuild_holds_replay_witness :
  exists es, load_verified_events live_result.1.1 None = Ok es /\ rebuild es = Ok rebuilt.2 /\ holds rebuilt.1.1 rebuilt.2.
Proof.
  destruct (rebuild_holds_replay true live_result.1.1 empty_tables rebuilt.1.1 ∅ rebuilt.1.2 rebuilt.2
    keyed_tables_enforce rebuild_command) as (es & Hes & Hr & Hh & _).
  exists es. split; [exact Hes|]. split; [exact Hr|exact Hh].
Defined.

Lemma rebuild_rows_total_witness :
  exists rows, build_projection_rows (sample_state 8) sample_events = Ok rows /\ parents_first ∅ (pr_branches rows).
Proof.
  destruct (rebuild_rows_total sample_events (sample_state 8) (sample_rebuild_state 8)) as (rows & Hb & Hp & _).
  exists rows. split; [exact Hb|exact Hp].
Defined.
