(* ===== verification/Outbox.v ===== *)
(** * Outbox: enqueueing, leasing and completing side effects

    Models [storage/outbox.py], [storage/outbox_worker.py] and the table
    [OutboxJob] of [storage/models/operations.py].  A database transaction is a
    function from the table to a [result]: an exception leaves the caller's
    table, as the rollback does.  Rows that other transactions hold locked are
    an argument of the [SKIP LOCKED] queries.  Clocks and the draws of
    [new_uuid7] are arguments. *)

From stdpp Require Import base tactics option list gmap sets strings.
From Stdlib Require Import ZArith Lia Bool.
From S2P Require Import Prelude Identifiers Values CanonicalJson Digest Text Events.
Open Scope Z_scope.

(** ** The table *)

Inductive JobState : Type := pending | leased | succeeded | failed | dead.

#[export] Instance JobState_eq_dec : EqDecision JobState.
Proof. solve_decision. Defined.

Definition state_value (s : JobState) : string :=
  match s with
  | pending => "pending" | leased => "leased" | succeeded => "succeeded" | failed => "failed" | dead => "dead"
  end.

Record OutboxJob : Type := {
  oj_job_id : Z;
  oj_job_uuid : UUID;
  oj_tenant_id : UUID;
  oj_job_type : pystr;
  oj_deduplication_key : pystr;
  oj_aggregate_type : pystr;
  oj_aggregate_id : option UUID;
  oj_payload : list (pystr * JsonValue);
  oj_state : JobState;
  oj_priority : Z;
  oj_available_at : instant;
  oj_lease_owner : option pystr;
  oj_lease_expires_at : option instant;
  oj_attempt_count : Z;
  oj_max_attempts : Z;
  oj_last_error_code : option pystr;
  oj_last_error_summary : option pystr;
  oj_created_at : instant;
  oj_updated_at : instant;
  oj_completed_at : option instant
}.

Definition JOB_TYPES : list pystr := py <$>
  ["embed_memory"; "check_duplicates"; "rebuild_projection"; "propose_consolidation"; "export_git_batch";
   "expire_candidate"; "purge_payload"; "ingest_github_proposal"; "refresh_ingress_status"; "notify_relay_health"].

Definition fits {A} (limit : nat) (s : list A) : bool := (length s <=? limit)%nat.

(** The CHECK constraints and column widths of [outbox_jobs]. *)
Definition job_row_ok (j : OutboxJob) : bool :=
  bool_decide (oj_job_type j ∈ JOB_TYPES)
  && (0 <=? oj_attempt_count j) && (1 <=? oj_max_attempts j) && (oj_max_attempts j <=? 100)
  && (oj_attempt_count j <=? oj_max_attempts j)
  && (if bool_decide (oj_state j = leased)
      then negb (is_none (oj_lease_owner j)) && negb (is_none (oj_lease_expires_at j))
      else is_none (oj_lease_owner j) && is_none (oj_lease_expires_at j))
  && (is_none (oj_completed_at j) || bool_decide (oj_state j = succeeded \/ oj_state j = dead))
  && (1 <=? length (oj_deduplication_key j))%nat && fits 255 (oj_deduplication_key j)
  && is_uuid7 (oj_job_uuid j)
  && fits 32 (oj_job_type j) && fits 64 (oj_aggregate_type j)
  && ((- 2 ^ 15 <=? oj_priority j) && (oj_priority j <? 2 ^ 15))
  && opt_ok (fits 128) (oj_lease_owner j)
  && opt_ok (fits 64) (oj_last_error_code j) && opt_ok (fits 512) (oj_last_error_summary j).

Record OutboxDb : Type := {
  ob_tenants : gset UUID;
  ob_jobs : gmap Z OutboxJob;
  ob_sequence : Z
}.

Definition with_jobs (db : OutboxDb) (jobs : gmap Z OutboxJob) : OutboxDb :=
  {| ob_tenants := ob_tenants db; ob_jobs := jobs; ob_sequence := ob_sequence db |}.

(** The two unique constraints and the foreign key, on a new row. *)
Definition same_identity (j i : OutboxJob) : bool :=
  (oj_tenant_id i =? oj_tenant_id j)
  && ((oj_job_uuid i =? oj_job_uuid j)
      || bool_decide (oj_job_type i = oj_job_type j /\ oj_deduplication_key i = oj_deduplication_key j)).

Definition insert_job (db : OutboxDb) (j : OutboxJob) : result OutboxDb :=
  require (job_row_ok j) (DBAPIError "23514");;
  raise_if (existsb (same_identity j) (snd <$> map_to_list (ob_jobs db))) (DBAPIError "23505");;
  require (bool_decide (oj_tenant_id j ∈ ob_tenants db)) (DBAPIError "23503");;
  Ok {| ob_tenants := ob_tenants db; ob_jobs := <[oj_job_id j := j]> (ob_jobs db);
        ob_sequence := ob_sequence db + 1 |}.

(** An UPDATE of one row; no operation changes a key column. *)
Definition update_job (jobs : gmap Z OutboxJob) (j : OutboxJob) : result (gmap Z OutboxJob) :=
  require (job_row_ok j) (DBAPIError "23514");;
  Ok (<[oj_job_id j := j]> jobs).

(** ** References *)

(** A value of a reference mapping.  [bool] is an [int] to Python and is
    excluded by name. *)
Inductive OutboxReferenceValue : Type :=
| RefUUID (u : UUID)
| RefInt (n : Z)
| RefBool (b : bool)
| RefUUIDs (items : list UUID).

Definition ends_with (suffix s : pystr) : bool := bool_decide (suffix `suffix_of` s).

Definition REFERENCE_SUFFIXES : list pystr := py <$> ["_id"; "_ids"; "_version"; "_sequence"].

Definition REFERENCE_TYPE_ERROR : exn :=
  TypeError "outbox references must be UUIDs, non-negative integers, or UUID tuples".

(** CPython refuses to print an integer of more than 4300 digits. *)
Definition MAX_STR_DIGITS : Z := 4300.

(** [10 ** 4300 <= n], decided at once for a machine word. *)
Definition too_many_digits (n : Z) : bool := if n <? 2 ^ 64 then false else 10 ^ MAX_STR_DIGITS <=? n.

Definition reference_bytes (key : pystr) (value : OutboxReferenceValue) : result bytes :=
  match value with
  | RefUUID u => Ok (py "uuid:" ++ uuid_str u)
  | RefInt n =>
    if 0 <=? n then
      raise_if (too_many_digits n) (ValueError "Exceeds the limit for integer string conversion");;
      Ok (py "int:" ++ int_str n)
    else Err REFERENCE_TYPE_ERROR
  | RefUUIDs items =>
    if ends_with (py "_ids") key then Ok (py "uuids:" ++ join_comma (uuid_str <$> items))
    else Err REFERENCE_TYPE_ERROR
  | RefBool _ => Err REFERENCE_TYPE_ERROR
  end.

Abbreviation References := (gmap pystr OutboxReferenceValue).

(** [sorted(references)], with the values read back from the mapping. *)
Definition sorted_references (references : References) : list (pystr * OutboxReferenceValue) :=
  sort_by (fun a b => str_leb a.1 b.1) (map_to_list references).

Definition reference_json (value : OutboxReferenceValue) : JsonValue :=
  match value with
  | RefUUIDs items => JArray ((fun u => JStr (uuid_str u)) <$> items)
  | RefUUID u => JStr (uuid_str u)
  | RefInt n => JInt n
  | RefBool b => JBool b
  end.

Definition reference_name_ok (key : pystr) : bool :=
  negb (bool_decide (key = [])) && forallb (fun c => c <? 128) key
  && existsb (fun suffix => ends_with suffix key) REFERENCE_SUFFIXES.

Definition validate_reference (item : pystr * OutboxReferenceValue) : result (pystr * JsonValue) :=
  require (reference_name_ok item.1)
    (ValueError "outbox reference names must identify an ID, version, or sequence");;
  reference_bytes item.1 item.2;;
  Ok (item.1, reference_json item.2).

Definition validate_outbox_references (references : References) : result (list (pystr * JsonValue)) :=
  mapR validate_reference (sorted_references references).

(** ** The deduplication key *)

(** [uuid.bytes] *)
Definition uuid_bytes (u : UUID) : bytes := be_bytes 16 u.

(** What makes a side effect the same one. *)
Record JobIdentity : Type := {
  ji_tenant_id : UUID;
  ji_job_type : pystr;
  ji_aggregate_type : pystr;
  ji_aggregate_id : option UUID;
  ji_references : References
}.

Definition reference_field (item : pystr * OutboxReferenceValue) : result (bytes * bytes) :=
  value ← reference_bytes item.1 item.2; Ok (item.1, value).

(** The framed fields, in the order they enter the digest. *)
Definition identity_fields (i : JobIdentity) : result (list (bytes * bytes)) :=
  job_type ← utf8_encode (ji_job_type i);
  aggregate_type ← utf8_encode (ji_aggregate_type i);
  references ← mapR reference_field (sorted_references (ji_references i));
  Ok ([(py "tenant_id", uuid_bytes (ji_tenant_id i)); (py "job_type", job_type);
       (py "aggregate_type", aggregate_type);
       (py "aggregate_id", from_option uuid_bytes [] (ji_aggregate_id i))] ++ references).

Definition framed_field (field : bytes * bytes) : result bytes :=
  key ← framed 2 field.1;
  value ← framed 4 field.2;
  Ok (key ++ value).

Definition deduplication_preimage (i : JobIdentity) : result bytes :=
  raise_if (bool_decide (ji_job_type i = []) || bool_decide (ji_aggregate_type i = []))
    (ValueError "job_type and aggregate_type must not be empty");;
  validate_outbox_references (ji_references i);;
  fields ← identity_fields i;
  framed_fields ← mapR framed_field fields;
  Ok (mjoin (M := list) framed_fields).

Definition outbox_deduplication_key (i : JobIdentity) : result pystr :=
  preimage ← deduplication_preimage i;
  Ok (py "v1:" ++ sha256_hex preimage).

(** ** Enqueueing *)

(** [draw] is the clock reading and the random bits of a generated identifier,
    [current_timestamp] the value of the columns the server fills in. *)
Definition enqueue_outbox_job (db : OutboxDb) (current_timestamp : instant) (draw : Z * Z) (i : JobIdentity)
    (priority max_attempts : Z) (available_at : option instant) (job_uuid : option UUID)
    : result (OutboxDb * OutboxJob) :=
  require ((- 2 ^ 15 <=? priority) && (priority <? 2 ^ 15)) (ValueError "priority must fit a signed 16-bit integer");;
  require ((1 <=? max_attempts) && (max_attempts <=? 100)) (ValueError "max_attempts must be between 1 and 100");;
  payload ← validate_outbox_references (ji_references i);
  uuid ← match job_uuid with Some u => Ok u | None => new_uuid7 draw.1 draw.2 None None end;
  key ← outbox_deduplication_key i;
  let job := {|
    oj_job_id := ob_sequence db; oj_job_uuid := uuid; oj_tenant_id := ji_tenant_id i;
    oj_job_type := ji_job_type i; oj_deduplication_key := key; oj_aggregate_type := ji_aggregate_type i;
    oj_aggregate_id := ji_aggregate_id i; oj_payload := payload; oj_state := pending; oj_priority := priority;
    oj_available_at := default current_timestamp available_at; oj_lease_owner := None;
    oj_lease_expires_at := None; oj_attempt_count := 0; oj_max_attempts := max_attempts;
    oj_last_error_code := None; oj_last_error_summary := None; oj_created_at := current_timestamp;
    oj_updated_at := current_timestamp; oj_completed_at := None |} in
  db' ← insert_job db job;
  Ok (db', job).

(** ** Leases *)

Definition SAFE_ERROR_SUMMARIES : list (pystr * pystr) := (fun kv : string * string => (py kv.1, py kv.2)) <$>
  [("dependency_unavailable", "A required local dependency is unavailable.");
   ("embedding_failed", "The local embedding operation failed.");
   ("internal_error", "The worker could not complete the operation.");
   ("invalid_job", "The queued operation is invalid.");
   ("lease_expired", "The previous worker lease expired.");
   ("model_unavailable", "The configured local embedding model is unavailable.")]%string.

(** [_SAFE_ERROR_SUMMARIES.get(error_code)] *)
Definition safe_error_summary (error_code : pystr) : option pystr :=
  (fun found => found.2.2) <$> list_find (fun kv => kv.1 = error_code) SAFE_ERROR_SUMMARIES.

(** [_OWNER_PATTERN.fullmatch(worker_owner)] *)
Definition is_alnum (c : Z) : bool :=
  ((65 <=? c) && (c <=? 90)) || ((97 <=? c) && (c <=? 122)) || ((48 <=? c) && (c <=? 57)).

Definition owner_ok (worker_owner : pystr) : bool :=
  match worker_owner with
  | [] => false
  | c :: rest =>
    is_alnum c && fits 74 rest
    && forallb (fun c => is_alnum c || (c =? 95) || (c =? 46) || (c =? 58) || (c =? 45)) rest
  end.

Definition validate_owner (worker_owner : pystr) : result unit :=
  require (owner_ok worker_owner) (ValueError "worker owner must be a bounded opaque identifier").

Definition validate_timing (batch_size lease_seconds : Z) : result unit :=
  require ((1 <=? batch_size) && (batch_size <=? 100)) (ValueError "batch_size must be between 1 and 100");;
  require ((5 <=? lease_seconds) && (lease_seconds <=? 3600)) (ValueError "lease_seconds must be between 5 and 3600").

(** [at + timedelta(seconds=seconds)] *)
Definition add_seconds (at_ : instant) (seconds : Z) : result instant :=
  let later := at_ + seconds * 1000000 in
  raise_if (negb ((0 <=? later) && (later <? DATETIME_LIMIT_US))) OverflowError;;
  Ok later.

Record ClaimedOutboxJob : Type := {
  cj_job_id : Z;
  cj_job_uuid : UUID;
  cj_tenant_id : UUID;
  cj_job_type : pystr;
  cj_aggregate_type : pystr;
  cj_aggregate_id : option UUID;
  cj_payload : list (pystr * JsonValue);
  cj_attempt_count : Z;
  cj_max_attempts : Z;
  cj_lease_token : pystr
}.

(** ORDER BY a timestamp, then the job number. *)
Definition at_then_id_leb (time : OutboxJob -> instant) (a b : OutboxJob) : bool :=
  if time a =? time b then oj_job_id a <=? oj_job_id b else time a <=? time b.

(** SELECT ... ORDER BY ... LIMIT ... FOR UPDATE SKIP LOCKED *)
Definition select_jobs (jobs : gmap Z OutboxJob) (where_ : OutboxJob -> bool) (time : OutboxJob -> instant)
    (limit : Z) (locked : gset Z) : list OutboxJob :=
  take (Z.to_nat limit) (sort_by (at_then_id_leb time)
    (filter (fun j => where_ j = true /\ oj_job_id j ∉ locked) (snd <$> map_to_list jobs))).

Definition claimable (tenant_id : UUID) (job_types : list pystr) (claimed_at : instant) (j : OutboxJob) : bool :=
  (oj_tenant_id j =? tenant_id) && bool_decide (oj_state j = pending) && (oj_available_at j <=? claimed_at)
  && (oj_attempt_count j <? oj_max_attempts j) && bool_decide (oj_job_type j ∈ job_types).

(** The assignments to one selected row. *)
Definition lease_row (token : pystr) (claimed_at expires_at : instant) (j : OutboxJob) : OutboxJob := {|
  oj_job_id := oj_job_id j; oj_job_uuid := oj_job_uuid j; oj_tenant_id := oj_tenant_id j;
  oj_job_type := oj_job_type j; oj_deduplication_key := oj_deduplication_key j;
  oj_aggregate_type := oj_aggregate_type j; oj_aggregate_id := oj_aggregate_id j; oj_payload := oj_payload j;
  oj_state := leased; oj_priority := oj_priority j; oj_available_at := oj_available_at j;
  oj_lease_owner := Some token; oj_lease_expires_at := Some expires_at;
  oj_attempt_count := oj_attempt_count j + 1; oj_max_attempts := oj_max_attempts j;
  oj_last_error_code := oj_last_error_code j; oj_last_error_summary := oj_last_error_summary j;
  oj_created_at := oj_created_at j; oj_updated_at := claimed_at; oj_completed_at := oj_completed_at j |}.

Definition claimed_job (token : pystr) (j : OutboxJob) : ClaimedOutboxJob :=
  {| cj_job_id := oj_job_id j; cj_job_uuid := oj_job_uuid j; cj_tenant_id := oj_tenant_id j;
     cj_job_type := oj_job_type j; cj_aggregate_type := oj_aggregate_type j; cj_aggregate_id := oj_aggregate_id j;
     cj_payload := oj_payload j; cj_attempt_count := oj_attempt_count j; cj_max_attempts := oj_max_attempts j;
     cj_lease_token := token |}.

(** [f"{worker_owner}:{new_uuid7()}"] *)
Definition lease_token (worker_owner : pystr) (draw : Z * Z) : result pystr :=
  u ← new_uuid7 draw.1 draw.2 None None; Ok (worker_owner ++ [58] ++ uuid_str u).

Definition claim_row (worker_owner : pystr) (claimed_at expires_at : instant) (item : OutboxJob * (Z * Z))
    : result (OutboxJob * ClaimedOutboxJob) :=
  token ← lease_token worker_owner item.2;
  let row := lease_row token claimed_at expires_at item.1 in
  Ok (row, claimed_job token row).

(** [now] is the optional argument, [clock] the reading of [datetime.now(UTC)]
    and [draw] numbers the identifiers generated. *)
Definition claim_outbox_jobs (db : OutboxDb) (in_transaction : bool) (locked : gset Z) (clock : instant)
    (draw : nat -> Z * Z) (tenant_id : UUID) (worker_owner : pystr) (job_types : list pystr)
    (batch_size lease_seconds : Z) (now : option instant) : result (OutboxDb * list ClaimedOutboxJob) :=
  require in_transaction (OutboxWorkerError "active_transaction_required");;
  validate_owner worker_owner;;
  validate_timing batch_size lease_seconds;;
  raise_if (bool_decide (job_types = []) || negb (nodupb job_types))
    (ValueError "job_types must be a non-empty unique tuple");;
  let claimed_at := default clock now in
  let rows := select_jobs (ob_jobs db) (claimable tenant_id job_types claimed_at) oj_available_at batch_size locked in
  expires_at ← add_seconds claimed_at lease_seconds;
  claimed ← mapR (claim_row worker_owner claimed_at expires_at) (imap (fun n j => (j, draw n)) rows);
  jobs ← foldM update_job (ob_jobs db) claimed.*1;
  Ok (with_jobs db jobs, claimed.*2).

(** The row of a lease that is still held: the guard of every lease mutation. *)
Definition held_row (db : OutboxDb) (tenant_id : UUID) (job_id : Z) (token : pystr) (at_ : instant)
    : option OutboxJob :=
  match ob_jobs db !! job_id with
  | Some j =>
    if (oj_tenant_id j =? tenant_id) && bool_decide (oj_state j = leased)
       && bool_decide (oj_lease_owner j = Some token)
       && from_option (fun expires_at => at_ <? expires_at) false (oj_lease_expires_at j)
    then Some j else None
  | None => None
  end.

Definition LEASE_LOST : exn := LeaseLostError "outbox_lease_lost".

Definition extend_row (expires_at updated_at : instant) (j : OutboxJob) : OutboxJob := {|
  oj_job_id := oj_job_id j; oj_job_uuid := oj_job_uuid j; oj_tenant_id := oj_tenant_id j;
  oj_job_type := oj_job_type j; oj_deduplication_key := oj_deduplication_key j;
  oj_aggregate_type := oj_aggregate_type j; oj_aggregate_id := oj_aggregate_id j; oj_payload := oj_payload j;
  oj_state := oj_state j; oj_priority := oj_priority j; oj_available_at := oj_available_at j;
  oj_lease_owner := oj_lease_owner j; oj_lease_expires_at := Some expires_at;
  oj_attempt_count := oj_attempt_count j; oj_max_attempts := oj_max_attempts j;
  oj_last_error_code := oj_last_error_code j; oj_last_error_summary := oj_last_error_summary j;
  oj_created_at := oj_created_at j; oj_updated_at := updated_at; oj_completed_at := oj_completed_at j |}.

Definition heartbeat_outbox_job (db : OutboxDb) (clock : instant) (tenant_id : UUID) (job_id : Z) (token : pystr)
    (lease_seconds : Z) (now : option instant) : result OutboxDb :=
  validate_timing 1 lease_seconds;;
  let heartbeat_at := default clock now in
  expires_at ← add_seconds heartbeat_at lease_seconds;
  j ← from_option_or (held_row db tenant_id job_id token heartbeat_at) LEASE_LOST;
  with_jobs db <$> update_job (ob_jobs db) (extend_row expires_at heartbeat_at j).

(** The assignments that end a lease, with the resulting state. *)
Definition end_row (state : JobState) (error : option (pystr * pystr)) (completed_at : option instant)
    (available_at updated_at : instant) (j : OutboxJob) : OutboxJob := {|
  oj_job_id := oj_job_id j; oj_job_uuid := oj_job_uuid j; oj_tenant_id := oj_tenant_id j;
  oj_job_type := oj_job_type j; oj_deduplication_key := oj_deduplication_key j;
  oj_aggregate_type := oj_aggregate_type j; oj_aggregate_id := oj_aggregate_id j; oj_payload := oj_payload j;
  oj_state := state; oj_priority := oj_priority j; oj_available_at := available_at;
  oj_lease_owner := None; oj_lease_expires_at := None;
  oj_attempt_count := oj_attempt_count j; oj_max_attempts := oj_max_attempts j;
  oj_last_error_code := fst <$> error; oj_last_error_summary := snd <$> error;
  oj_created_at := oj_created_at j; oj_updated_at := updated_at; oj_completed_at := completed_at |}.

Definition acknowledge_outbox_job (db : OutboxDb) (clock : instant) (tenant_id : UUID) (job_id : Z)
    (token : pystr) (now : option instant) : result OutboxDb :=
  let completed_at := default clock now in
  j ← from_option_or (held_row db tenant_id job_id token completed_at) LEASE_LOST;
  with_jobs db <$> update_job (ob_jobs db)
    (end_row succeeded None (Some completed_at) (oj_available_at j) completed_at j).

(** [terminal] decides between the two outcomes of a failure. *)
Definition failed_row (terminal : bool) (error_code summary : pystr) (failed_at available_at : instant)
    (j : OutboxJob) : OutboxJob :=
  end_row (if terminal then dead else pending) (Some (error_code, summary))
    (if terminal then Some failed_at else None) available_at failed_at j.

Definition retry_delay_ok (retry_delay_seconds : Z) : bool :=
  (0 <=? retry_delay_seconds) && (retry_delay_seconds <=? 86400).

Definition fail_outbox_job (db : OutboxDb) (clock : instant) (tenant_id : UUID) (job_id : Z) (token : pystr)
    (error_code : pystr) (retryable : bool) (retry_delay_seconds : Z) (now : option instant)
    : result (OutboxDb * string) :=
  summary ← from_option_or (safe_error_summary error_code) (ValueError "error_code is not allowlisted");
  require (retry_delay_ok retry_delay_seconds) (ValueError "retry_delay_seconds must be between zero and one day");;
  let failed_at := default clock now in
  j ← from_option_or (held_row db tenant_id job_id token failed_at) LEASE_LOST;
  let terminal := negb retryable || (oj_max_attempts j <=? oj_attempt_count j) in
  available_at ← add_seconds failed_at retry_delay_seconds;
  let row := failed_row terminal error_code summary failed_at available_at j in
  jobs ← update_job (ob_jobs db) row;
  Ok (with_jobs db jobs, state_value (oj_state row)).

Definition expired (tenant_id : UUID) (job_types : list pystr) (recovered_at : instant) (j : OutboxJob) : bool :=
  (oj_tenant_id j =? tenant_id) && bool_decide (oj_state j = leased)
  && from_option (fun expires_at => expires_at <=? recovered_at) false (oj_lease_expires_at j)
  && bool_decide (oj_job_type j ∈ job_types).

Definition exhausted (j : OutboxJob) : bool := oj_max_attempts j <=? oj_attempt_count j.

Definition recovered_row (recovered_at : instant) (retry_delay_seconds : Z) (j : OutboxJob) : result OutboxJob :=
  summary ← from_option_or (safe_error_summary (py "lease_expired")) KeyError;
  available_at ← add_seconds recovered_at retry_delay_seconds;
  Ok (failed_row (exhausted j) (py "lease_expired") summary recovered_at available_at j).

Definition recover_expired_outbox_leases (db : OutboxDb) (locked : gset Z) (clock : instant) (tenant_id : UUID)
    (job_types : list pystr) (batch_size retry_delay_seconds : Z) (now : option instant)
    : result (OutboxDb * (Z * Z)) :=
  require ((1 <=? batch_size) && (batch_size <=? 1000)) (ValueError "batch_size must be between 1 and 1000");;
  require (retry_delay_ok retry_delay_seconds) (ValueError "retry_delay_seconds must be between zero and one day");;
  raise_if (bool_decide (job_types = [])) (ValueError "job_types must not be empty");;
  let recovered_at := default clock now in
  let rows := select_jobs (ob_jobs db) (expired tenant_id job_types recovered_at)
                (fun j => default 0 (oj_lease_expires_at j)) batch_size locked in
  rows' ← mapR (recovered_row recovered_at retry_delay_seconds) rows;
  jobs ← foldM update_job (ob_jobs db) rows';
  let dead_count := Z.of_nat (length (filter (fun j => exhausted j = true) rows)) in
  Ok (with_jobs db jobs, (Z.of_nat (length rows) - dead_count, dead_count)).
