(* ===== verification/OutboxTheorems.v ===== *)
(** * OutboxTheorems: leases, attempts and job identity

    The table invariant, the effect of every operation on one row, and what
    follows for any interleaving of workers: attempts are bounded, a lease is
    intact until it expires or its holder ends it, completed jobs are final,
    and due jobs are claimed in order. *)

From stdpp Require Import base tactics option list gmap sets strings.
From Stdlib Require Import ZArith Lia Bool Sorted.
From S2P Require Import Prelude Identifiers Values CanonicalJson Digest Text Events Outbox.
Open Scope Z_scope.

(** ** The table invariant *)

(** Rows satisfy the table's constraints, and a pending row has attempts left. *)
Record outbox_ok (db : OutboxDb) : Prop := {
  ok_key : forall k j, ob_jobs db !! k = Some j -> oj_job_id j = k;
  ok_row : forall k j, ob_jobs db !! k = Some j -> job_row_ok j = true;
  ok_sequence : forall k j, ob_jobs db !! k = Some j -> k < ob_sequence db;
  ok_pending : forall k j, ob_jobs db !! k = Some j -> oj_state j = pending -> oj_attempt_count j < oj_max_attempts j;
  ok_live : forall k j, ob_jobs db !! k = Some j -> oj_state j <> failed
}.

(** What [job_row_ok] says of the lease and attempt columns. *)
Lemma job_row_ok_lease j : job_row_ok j = true ->
  0 <= oj_attempt_count j <= oj_max_attempts j /\
  (oj_state j = leased -> is_Some (oj_lease_owner j) /\ is_Some (oj_lease_expires_at j)) /\
  (oj_state j <> leased -> oj_lease_owner j = None /\ oj_lease_expires_at j = None).
Proof.
  unfold job_row_ok. intros Hok. rewrite !andb_true_iff in Hok.
  destruct Hok as [[[[[[[[[[[[[[[_ H1] _] _] H2] H3] _] _] _] _] _] _] _] _] _] _].
  split; [lia|]. destruct (decide (oj_state j = leased)).
  - rewrite bool_decide_true, andb_true_iff in H3 by done. split; [|done]. intros _.
    destruct (oj_lease_owner j), (oj_lease_expires_at j); cbn in H3; by destruct H3.
  - rewrite bool_decide_false, andb_true_iff in H3 by done. split; [done|]. intros _.
    destruct (oj_lease_owner j), (oj_lease_expires_at j); cbn in H3; by destruct H3.
Qed.

(** A row keeps satisfying the constraints when only its lease columns change. *)
Lemma job_row_ok_update j j' :
  job_row_ok j = true ->
  oj_job_type j' = oj_job_type j -> oj_max_attempts j' = oj_max_attempts j ->
  oj_deduplication_key j' = oj_deduplication_key j -> oj_job_uuid j' = oj_job_uuid j ->
  oj_aggregate_type j' = oj_aggregate_type j -> oj_priority j' = oj_priority j ->
  0 <= oj_attempt_count j' <= oj_max_attempts j ->
  (if bool_decide (oj_state j' = leased)
   then negb (is_none (oj_lease_owner j')) && negb (is_none (oj_lease_expires_at j'))
   else is_none (oj_lease_owner j') && is_none (oj_lease_expires_at j')) = true ->
  is_none (oj_completed_at j') || bool_decide (oj_state j' = succeeded \/ oj_state j' = dead) = true ->
  opt_ok (fits 128) (oj_lease_owner j') = true ->
  opt_ok (fits 64) (oj_last_error_code j') = true -> opt_ok (fits 512) (oj_last_error_summary j') = true ->
  job_row_ok j' = true.
Proof.
  unfold job_row_ok. intros Hok E1 E2 E3 E4 E5 E6 Hatt Hl Hc Ho He Hs. rewrite E1, E2, E3, E4, E5, E6, Hl, Hc, Ho, He, Hs.
  rewrite !andb_true_iff in *.
  destruct Hok as [[[[[[[[[[[[[[[? _] ?] ?] _] _] _] ?] ?] ?] ?] ?] ?] _] _] _]. repeat split; try done; lia.
Qed.

(** ** Tokens *)

Lemma uuid_str_length u : length (uuid_str u) = 36%nat.
Proof. unfold uuid_str. repeat (rewrite length_app || rewrite hex_digits_length). done. Qed.

(** A lease token fits its column. *)
Lemma lease_token_fits owner draw token :
  owner_ok owner = true -> lease_token owner draw = Ok token -> fits 128 token = true.
Proof.
  unfold lease_token, owner_ok, fits. intros Ho Ht. inv_ok. destruct owner as [|c rest]; [done|].
  rewrite !andb_true_iff in Ho. destruct Ho as [[_ Ho] _]. apply Nat.leb_le in Ho. apply Nat.leb_le.
  rewrite length_app. cbn [length app]. rewrite uuid_str_length. lia.
Qed.

Lemma safe_summary_fits code summary :
  safe_error_summary code = Some summary -> fits 64 code = true /\ fits 512 summary = true.
Proof.
  unfold safe_error_summary. intros Hs. apply fmap_Some in Hs as ([n kv] & Hf & ->).
  apply list_find_Some in Hf as (Hn & <- & _).
  assert (Hall : Forall (fun kv => fits 64 kv.1 = true /\ fits 512 kv.2 = true) SAFE_ERROR_SUMMARIES)
    by (vm_compute; repeat constructor).
  rewrite Forall_forall in Hall. apply (Hall kv). by eapply list_elem_of_lookup_2.
Qed.

(** ** Writing rows *)

Lemma update_jobs_effect rows jobs jobs' :
  NoDup (oj_job_id <$> rows) -> foldM update_job jobs rows = Ok jobs' ->
  (forall row, row ∈ rows -> jobs' !! oj_job_id row = Some row /\ job_row_ok row = true) /\
  (forall k, k ∉ oj_job_id <$> rows -> jobs' !! k = jobs !! k).
Proof.
  revert jobs. induction rows as [|row rows IH]; intros jobs Hnd Hr.
  { injection Hr as <-. split; [|done]. intros row Hrow. by apply elem_of_nil in Hrow. }
  cbn [foldM] in Hr. apply bind_Ok in Hr as (jobs1 & H1 & Hr). unfold update_job in H1.
  rewrite fmap_cons, NoDup_cons in Hnd. destruct Hnd as [Hni Hnd].
  apply bind_Ok in H1 as ([] & Hok%require_Ok & [= <-]). destruct (IH _ Hnd Hr) as [Hin Hout]. split.
  - intros x [->|Hx]%elem_of_cons; [|by apply Hin]. split; [|done]. rewrite Hout by done. apply lookup_insert_eq.
  - intros k Hk. rewrite fmap_cons, elem_of_cons in Hk. rewrite Hout by tauto. apply lookup_insert_ne.
    intros <-. apply Hk. by left.
Qed.

Lemma update_jobs_total rows jobs :
  Forall (fun row => job_row_ok row = true) rows -> exists jobs', foldM update_job jobs rows = Ok jobs'.
Proof.
  intros Hall. revert jobs. induction Hall as [|row rows Hrow _ IH]; intros jobs; [by eexists|].
  cbn [foldM]. assert (Hu : update_job jobs row = Ok (<[oj_job_id row := row]> jobs)) by (unfold update_job; by rewrite Hrow).
  rewrite Hu. apply IH.
Qed.

(** ** Selected rows *)

Section Select.
Context (jobs : gmap Z OutboxJob) (where_ : OutboxJob -> bool) (time : OutboxJob -> instant) (limit : Z)
        (locked : gset Z).
Hypothesis keyed : forall k j, jobs !! k = Some j -> oj_job_id j = k.

Definition candidates : list OutboxJob :=
  filter (fun j => where_ j = true /\ oj_job_id j ∉ locked) (snd <$> map_to_list jobs).

Lemma elem_of_candidates j :
  j ∈ candidates <-> jobs !! oj_job_id j = Some j /\ where_ j = true /\ oj_job_id j ∉ locked.
Proof.
  unfold candidates. rewrite list_elem_of_filter, list_elem_of_fmap. split.
  - intros [[Hw Hl] ([k v] & -> & Hin)]. apply elem_of_map_to_list in Hin. cbn in *. split; [|done].
    by rewrite (keyed _ _ Hin).
  - intros (Hj & Hw & Hl). split; [done|]. exists (oj_job_id j, j). by rewrite elem_of_map_to_list.
Qed.

Lemma candidates_nodup : NoDup (oj_job_id <$> candidates).
Proof. apply NoDup_fmap_filter, values_ids_nodup, keyed. Qed.

Lemma selected_prefix : select_jobs jobs where_ time limit locked = take (Z.to_nat limit) (sort_by (at_then_id_leb time) candidates).
Proof. done. Qed.

Lemma selected_row j :
  j ∈ select_jobs jobs where_ time limit locked ->
  jobs !! oj_job_id j = Some j /\ where_ j = true /\ oj_job_id j ∉ locked.
Proof.
  rewrite selected_prefix. intros Hj. apply elem_of_take in Hj as (i & Hi & _). apply list_elem_of_lookup_2 in Hi.
  rewrite sort_by_perm in Hi. by apply elem_of_candidates.
Qed.

Lemma selected_nodup : NoDup (oj_job_id <$> select_jobs jobs where_ time limit locked).
Proof.
  rewrite selected_prefix, fmap_take. eapply sublist_NoDup; [|apply sublist_take].
  rewrite sort_by_perm. apply candidates_nodup.
Qed.
End Select.

(** ** Steps *)

(** What a committed transaction did, with the instant it was done at. *)
Inductive Action : Type :=
| Enqueued (job : OutboxJob)
| Claimed (jobs : list ClaimedOutboxJob) (at_ : instant)
| Extended (job_id : Z) (token : pystr) (at_ : instant)
| Acknowledged (job_id : Z) (token : pystr) (at_ : instant)
| Failed (job_id : Z) (token : pystr) (at_ : instant)
| Recovered (at_ : instant).

Inductive outbox_step (db : OutboxDb) : Action -> OutboxDb -> Prop :=
| step_enqueue db' job current_timestamp draw i priority max_attempts available_at job_uuid :
  enqueue_outbox_job db current_timestamp draw i priority max_attempts available_at job_uuid = Ok (db', job) ->
  outbox_step db (Enqueued job) db'
| step_claim db' claimed in_transaction locked clock draw tenant_id owner job_types batch_size lease_seconds now :
  claim_outbox_jobs db in_transaction locked clock draw tenant_id owner job_types batch_size lease_seconds now
    = Ok (db', claimed) ->
  outbox_step db (Claimed claimed (default clock now)) db'
| step_heartbeat db' clock tenant_id job_id token lease_seconds now :
  heartbeat_outbox_job db clock tenant_id job_id token lease_seconds now = Ok db' ->
  outbox_step db (Extended job_id token (default clock now)) db'
| step_acknowledge db' clock tenant_id job_id token now :
  acknowledge_outbox_job db clock tenant_id job_id token now = Ok db' ->
  outbox_step db (Acknowledged job_id token (default clock now)) db'
| step_fail db' state clock tenant_id job_id token error_code retryable retry_delay_seconds now :
  fail_outbox_job db clock tenant_id job_id token error_code retryable retry_delay_seconds now = Ok (db', state) ->
  outbox_step db (Failed job_id token (default clock now)) db'
| step_recover db' counts locked clock tenant_id job_types batch_size retry_delay_seconds now :
  recover_expired_outbox_leases db locked clock tenant_id job_types batch_size retry_delay_seconds now
    = Ok (db', counts) ->
  outbox_step db (Recovered (default clock now)) db'.

(** Any interleaving of producers and workers. *)
Inductive outbox_run : OutboxDb -> list Action -> OutboxDb -> Prop :=
| run_nil db : outbox_run db [] db
| run_cons db a db1 actions db2 : outbox_step db a db1 -> outbox_run db1 actions db2 -> outbox_run db (a :: actions) db2.

Definition empty_outbox (tenants : gset UUID) : OutboxDb := {| ob_tenants := tenants; ob_jobs := ∅; ob_sequence := 1 |}.

(** ** The effect of a step on one row *)

(** Does the action claim, end or extend the lease of job [k]? *)
Definition claims (k : Z) (a : Action) : bool :=
  match a with Claimed cs _ => bool_decide (k ∈ cj_job_id <$> cs) | _ => false end.

Definition holder_acts (k : Z) (token : pystr) (a : Action) : bool :=
  match a with
  | Extended k' t _ | Acknowledged k' t _ | Failed k' t _ => (k' =? k) && bool_decide (t = token)
  | _ => false
  end.

Definition acknowledges (k : Z) (a : Action) : bool :=
  match a with Acknowledged k' _ _ => k' =? k | _ => false end.

Definition action_time (a : Action) : option instant :=
  match a with
  | Enqueued _ => None
  | Claimed _ t | Extended _ _ t | Acknowledged _ _ t | Failed _ _ t | Recovered t => Some t
  end.

Definition held_by (token : pystr) (at_ : instant) (j : OutboxJob) : Prop :=
  oj_state j = leased /\ oj_lease_owner j = Some token /\ exists e, oj_lease_expires_at j = Some e /\ at_ < e.

(** Ending a lease: a failure or an expiry returns the job or gives it up. *)
Definition given_back (j j' : OutboxJob) : Prop :=
  exists terminal code summary at_ available_at, safe_error_summary code = Some summary /\
    (terminal = false -> oj_attempt_count j < oj_max_attempts j) /\
    j' = failed_row terminal code summary at_ available_at j.

Inductive row_step (k : Z) : Action -> option OutboxJob -> option OutboxJob -> Prop :=
| row_kept a o :
  claims k a = false -> (forall token, holder_acts k token a = false) -> row_step k a o o
| row_added j :
  oj_job_id j = k -> job_row_ok j = true -> oj_state j = pending -> oj_attempt_count j = 0 ->
  0 < oj_max_attempts j -> row_step k (Enqueued j) None (Some j)
| row_claimed cs at_ j token expires_at :
  oj_state j = pending -> oj_attempt_count j < oj_max_attempts j -> at_ < expires_at -> fits 128 token = true ->
  claimed_job token (lease_row token at_ expires_at j) ∈ cs ->
  row_step k (Claimed cs at_) (Some j) (Some (lease_row token at_ expires_at j))
| row_extended token at_ expires_at j :
  held_by token at_ j -> at_ < expires_at -> row_step k (Extended k token at_) (Some j) (Some (extend_row expires_at at_ j))
| row_acknowledged token at_ j :
  held_by token at_ j ->
  row_step k (Acknowledged k token at_) (Some j) (Some (end_row succeeded None (Some at_) (oj_available_at j) at_ j))
| row_failed token at_ j j' :
  held_by token at_ j -> given_back j j' -> row_step k (Failed k token at_) (Some j) (Some j')
| row_recovered at_ j j' e :
  oj_state j = leased -> oj_lease_expires_at j = Some e -> e <= at_ -> given_back j j' ->
  row_step k (Recovered at_) (Some j) (Some j').

Lemma held_row_Some db tenant_id k token at_ j :
  held_row db tenant_id k token at_ = Some j -> ob_jobs db !! k = Some j /\ held_by token at_ j.
Proof.
  unfold held_row, held_by. destruct (ob_jobs db !! k) as [i|]; [|done]. destruct (_ && _) eqn:E; [|done].
  intros [= ->]. rewrite !andb_true_iff, !bool_decide_eq_true in E. destruct E as [[[_ ?] ?] E]. split; [done|].
  split; [done|]. split; [done|]. destruct (oj_lease_expires_at j) as [e|]; [|done]. exists e. split; [done|].
  by apply Z.ltb_lt.
Qed.

Lemma add_seconds_Ok at_ seconds later : add_seconds at_ seconds = Ok later -> later = at_ + seconds * 1000000.
Proof. unfold add_seconds. intros Ha. by inv_ok. Qed.

Lemma validate_timing_Ok batch lease u : validate_timing batch lease = Ok u -> 1 <= batch <= 100 /\ 5 <= lease <= 3600.
Proof. unfold validate_timing. intros Hv. inv_ok. lia. Qed.

(** One row of a table updated at one key. *)
Lemma row_step_one db k k' j j' a (db' : OutboxDb) :
  ob_jobs db !! k' = Some j -> (with_jobs db <$> update_job (ob_jobs db) j') = Ok db' -> oj_job_id j' = k' ->
  (k <> k' -> claims k a = false /\ forall token, holder_acts k token a = false) ->
  row_step k' a (Some j) (Some j') -> row_step k a (ob_jobs db !! k) (ob_jobs db' !! k).
Proof.
  intros Hj Hu Hid Hother Hstep. apply fmap_Ok in Hu as (jobs & Hu & <-). unfold update_job in Hu.
  apply bind_Ok in Hu as ([] & _ & [= <-]). subst k'. cbn. destruct (decide (k = oj_job_id j')) as [->|Hne].
  - by rewrite Hj, lookup_insert_eq.
  - rewrite lookup_insert_ne by done. apply row_kept; by apply Hother.
Qed.

Lemma recovered_row_Ok at_ delay j j' :
  recovered_row at_ delay j = Ok j' -> oj_job_id j' = oj_job_id j /\ given_back j j'.
Proof.
  unfold recovered_row. intros Hr. apply bind_Ok in Hr as (summary & Hs%from_option_or_Ok & Hr).
  apply bind_Ok in Hr as (later & _ & [= <-]). split; [done|]. exists (exhausted j), (py "lease_expired"), summary, at_, later.
  split; [done|]. split; [|done]. unfold exhausted. lia.
Qed.

(** The rows a claim writes. *)
Lemma claim_rows_Ok owner at_ expires_at rows draw claimed :
  owner_ok owner = true ->
  mapR (claim_row owner at_ expires_at) (imap (fun n j => (j, draw n)) rows) = Ok claimed ->
  Forall2 (fun j c => exists token, fits 128 token = true /\
    c = (lease_row token at_ expires_at j, claimed_job token (lease_row token at_ expires_at j))) rows claimed.
Proof.
  intros Ho Hr. apply mapR_Forall2 in Hr. revert draw claimed Hr. induction rows as [|j rows IH]; intros draw claimed Hr.
  { by apply Forall2_nil_inv_l in Hr as ->. }
  cbn in Hr. apply Forall2_cons_inv_l in Hr as (c & rest & Hc & Hr & ->). constructor.
  - unfold claim_row in Hc. apply bind_Ok in Hc as (token & Ht & [= <-]). exists token. split; [|done].
    by eapply lease_token_fits.
  - by apply (IH (fun n => draw (S n))).
Qed.

Lemma Forall2_fmap_eq {A B C} (P : A -> B -> Prop) (f : A -> C) (g : B -> C) l l' :
  (forall a b, P a b -> g b = f a) -> Forall2 P l l' -> g <$> l' = f <$> l.
Proof. intros Heq. induction 1; [done|]. cbn. f_equal; [by apply Heq|done]. Qed.

Lemma step_row_claim db db' claimed in_transaction locked clock draw tenant_id owner job_types batch_size lease_seconds now k :
  outbox_ok db ->
  claim_outbox_jobs db in_transaction locked clock draw tenant_id owner job_types batch_size lease_seconds now
    = Ok (db', claimed) ->
  row_step k (Claimed claimed (default clock now)) (ob_jobs db !! k) (ob_jobs db' !! k).
Proof.
  intros Hok Hc. unfold claim_outbox_jobs in Hc. apply bind_Ok in Hc as ([] & _ & Hc).
  apply bind_Ok in Hc as ([] & Ho%require_Ok & Hc). apply bind_Ok in Hc as ([] & Ht%validate_timing_Ok & Hc).
  apply bind_Ok in Hc as ([] & _ & Hc). apply bind_Ok in Hc as (expires_at & He%add_seconds_Ok & Hc).
  apply bind_Ok in Hc as (pairs & Hp & Hc). apply bind_Ok in Hc as (jobs & Hu & [= <- <-]).
  apply claim_rows_Ok in Hp; [|done]. set (rows := select_jobs _ _ _ _ _) in *.
  assert (Hids : oj_job_id <$> pairs.*1 = oj_job_id <$> rows).
  { rewrite <- list_fmap_compose. eapply Forall2_fmap_eq; [|exact Hp]. cbn. by intros j c (token & _ & ->). }
  assert (Hcids : cj_job_id <$> pairs.*2 = oj_job_id <$> rows).
  { rewrite <- list_fmap_compose. eapply Forall2_fmap_eq; [|exact Hp]. cbn. by intros j c (token & _ & ->). }
  apply update_jobs_effect in Hu as [Hin Hout]; [|rewrite Hids; apply selected_nodup, Hok].
  destruct (decide (k ∈ oj_job_id <$> rows)) as [Hel|Hel]; cbn.
  - apply list_elem_of_fmap in Hel as (j & -> & Hj). pose proof (selected_row _ _ _ _ _ (ok_key _ Hok) j Hj) as (Hl & Hw & _).
    unfold claimable in Hw. rewrite !andb_true_iff, !bool_decide_eq_true in Hw. destruct Hw as [[[[_ Hs] _] Ha] _].
    apply list_elem_of_lookup in Hj as (i & Hi). destruct (Forall2_lookup_l _ _ _ _ _ Hp Hi) as (c & Hci & token & Hf & ->).
    apply list_elem_of_lookup_2 in Hci.
    assert (Hn : jobs !! oj_job_id j = Some (lease_row token (default clock now) expires_at j)).
    { apply (Hin (lease_row token (default clock now) expires_at j)), list_elem_of_fmap. eexists. by split; [|exact Hci]. }
    rewrite Hl, Hn. apply row_claimed; [done|lia|lia|done|]. apply list_elem_of_fmap. eexists. by split; [|exact Hci].
  - rewrite Hout by (by rewrite Hids). apply row_kept; [|done]. cbn. by rewrite bool_decide_false by (by rewrite Hcids).
Qed.

Lemma step_row_recover db db' counts locked clock tenant_id job_types batch_size delay now k :
  outbox_ok db ->
  recover_expired_outbox_leases db locked clock tenant_id job_types batch_size delay now = Ok (db', counts) ->
  row_step k (Recovered (default clock now)) (ob_jobs db !! k) (ob_jobs db' !! k).
Proof.
  intros Hok Hc. unfold recover_expired_outbox_leases in Hc. do 3 (apply bind_Ok in Hc as ([] & _ & Hc)).
  apply bind_Ok in Hc as (rows' & Hr & Hc). apply bind_Ok in Hc as (jobs & Hu & [= <- _]).
  apply mapR_Forall2 in Hr. set (rows := select_jobs _ _ _ _ _) in *.
  assert (Hids : oj_job_id <$> rows' = oj_job_id <$> rows).
  { eapply Forall2_fmap_eq; [|exact Hr]. cbn. by intros j j' [? _]%recovered_row_Ok. }
  apply update_jobs_effect in Hu as [Hin Hout]; [|rewrite Hids; apply selected_nodup, Hok].
  destruct (decide (k ∈ oj_job_id <$> rows)) as [Hel|Hel]; cbn.
  - apply list_elem_of_fmap in Hel as (j & -> & Hj). pose proof (selected_row _ _ _ _ _ (ok_key _ Hok) j Hj) as (Hl & Hw & _).
    unfold expired in Hw. rewrite !andb_true_iff, !bool_decide_eq_true in Hw. destruct Hw as [[[_ Hs] He] _].
    destruct (oj_lease_expires_at j) as [e|] eqn:Ee; [|done]. apply Z.leb_le in He.
    apply list_elem_of_lookup in Hj as (i & Hi). destruct (Forall2_lookup_l _ _ _ _ _ Hr Hi) as (j' & Hj' & Hrec).
    apply recovered_row_Ok in Hrec as [Hid Hback]. apply list_elem_of_lookup_2, Hin in Hj' as [Hn _].
    rewrite Hid in Hn. rewrite Hl, Hn. by eapply row_recovered.
  - rewrite Hout by (by rewrite Hids). by apply row_kept.
Qed.

(** A new job takes the next number, which no row has. *)
Lemma step_row_enqueue db db' job current_timestamp draw i priority max_attempts available_at job_uuid k :
  outbox_ok db ->
  enqueue_outbox_job db current_timestamp draw i priority max_attempts available_at job_uuid = Ok (db', job) ->
  row_step k (Enqueued job) (ob_jobs db !! k) (ob_jobs db' !! k) /\ ob_sequence db' = ob_sequence db + 1 /\
  oj_job_id job = ob_sequence db.
Proof.
  intros Hok He. unfold enqueue_outbox_job in He. apply bind_Ok in He as ([] & _ & He).
  apply bind_Ok in He as ([] & Hmax%require_Ok & He). apply bind_Ok in He as (payload & _ & He).
  apply bind_Ok in He as (uuid & _ & He). apply bind_Ok in He as (key & _ & He).
  apply bind_Ok in He as (db1 & Hi & [= -> <-]). unfold insert_job in Hi.
  apply bind_Ok in Hi as ([] & Hrow%require_Ok & Hi). do 2 (apply bind_Ok in Hi as ([] & _ & Hi)). injection Hi as <-.
  split; [|done]. cbn [ob_jobs oj_job_id]. destruct (decide (k = ob_sequence db)) as [->|Hne].
  - rewrite lookup_insert_eq. destruct (ob_jobs db !! ob_sequence db) as [j|] eqn:E.
    + apply (ok_sequence _ Hok) in E. lia.
    + apply row_added; [done..|]. cbn. lia.
  - rewrite lookup_insert_ne by done. by apply row_kept.
Qed.

Lemma step_row db a db' k : outbox_ok db -> outbox_step db a db' -> row_step k a (ob_jobs db !! k) (ob_jobs db' !! k).
Proof.
  intros Hok Hstep. destruct Hstep as [db' job ? ? ? ? ? ? ? He|db' ? ? ? ? ? ? ? ? ? ? ? Hc|db' ? ? k' ? ? ? Hh
    |db' ? ? k' ? ? Ha|db' ? ? ? k' ? ? ? ? ? Hf|db' ? ? ? ? ? ? ? ? Hr].
  - by eapply step_row_enqueue in He as [? _].
  - by eapply step_row_claim.
  - unfold heartbeat_outbox_job in Hh. apply bind_Ok in Hh as ([] & Ht%validate_timing_Ok & Hh).
    apply bind_Ok in Hh as (e & He%add_seconds_Ok & Hh). apply bind_Ok in Hh as (j & Hj%from_option_or_Ok%held_row_Some & Hh).
    destruct Hj as [Hj Hheld]. eapply row_step_one; [exact Hj|exact Hh|exact (ok_key _ Hok _ _ Hj)| |by apply row_extended; [|lia]].
    intros Hne. split; [done|]. intros token'. cbn. by rewrite (proj2 (Z.eqb_neq k' k)).
  - unfold acknowledge_outbox_job in Ha. apply bind_Ok in Ha as (j & Hj%from_option_or_Ok%held_row_Some & Ha).
    destruct Hj as [Hj Hheld]. eapply row_step_one; [exact Hj|exact Ha|exact (ok_key _ Hok _ _ Hj)| |by apply row_acknowledged].
    intros Hne. split; [done|]. intros token'. cbn. by rewrite (proj2 (Z.eqb_neq k' k)).
  - unfold fail_outbox_job in Hf. apply bind_Ok in Hf as (summary & Hs%from_option_or_Ok & Hf).
    apply bind_Ok in Hf as ([] & _ & Hf). apply bind_Ok in Hf as (j & Hj%from_option_or_Ok%held_row_Some & Hf).
    apply bind_Ok in Hf as (later & _ & Hf). apply bind_Ok in Hf as (jobs & Hu & [= <- _]).
    destruct Hj as [Hj Hheld]. eapply (row_step_one db k k' j); [exact Hj|by erewrite Hu|exact (ok_key _ Hok _ _ Hj)| |apply row_failed; [done|]].
    + intros Hne. split; [done|]. intros token'. cbn. by rewrite (proj2 (Z.eqb_neq k' k)).
    + eexists _, _, _, _, _. split; [exact Hs|]. split; [|reflexivity]. lia.
  - by eapply step_row_recover.
Qed.

(** ** The invariant *)

Definition row_good (k : Z) (j : OutboxJob) : Prop :=
  oj_job_id j = k /\ job_row_ok j = true /\ (oj_state j = pending -> oj_attempt_count j < oj_max_attempts j) /\
  oj_state j <> failed.

Lemma ok_good db k j : outbox_ok db -> ob_jobs db !! k = Some j -> row_good k j.
Proof.
  intros [Hk Hr _ Hp Hl] Hj. split; [by apply Hk|]. split; [by apply (Hr k)|]. split; [by apply (Hp k)|by apply (Hl k)].
Qed.

Lemma leased_row_good k j token at_ expires_at :
  row_good k j -> oj_state j = pending -> fits 128 token = true -> row_good k (lease_row token at_ expires_at j).
Proof.
  intros (Hk & Hrow & Hp & _) Hs Hf. specialize (Hp Hs). pose proof (job_row_ok_lease _ Hrow) as (Ha & _ & Hn).
  split; [done|]. split; [|done]. unfold job_row_ok in Hrow. rewrite !andb_true_iff in Hrow.
  eapply (job_row_ok_update j); try done; cbn; try tauto; [unfold job_row_ok; by rewrite !andb_true_iff|lia|].
  destruct Hrow as [[[[[[[[[[_ Hc] _] _] _] _] _] _] _] _] _]. rewrite Hs in Hc. destruct (oj_completed_at j); [|done].
  cbn in Hc. apply bool_decide_eq_true in Hc as [?|?]; done.
Qed.

Lemma given_back_good k j j' : row_good k j -> given_back j j' -> row_good k j'.
Proof.
  intros (Hk & Hrow & _ & _) (terminal & code & summary & at_ & later & Hs & Ht & ->).
  pose proof (job_row_ok_lease _ Hrow) as (Ha & _). destruct (safe_summary_fits _ _ Hs) as [Hc Hsum].
  split; [done|]. split.
  - destruct terminal; eapply (job_row_ok_update j); try done; cbn; lia.
  - destruct terminal; cbn; split; try done. intros _. by apply Ht.
Qed.

Lemma extended_row_good k j token at_ expires_at :
  row_good k j -> held_by token at_ j -> row_good k (extend_row expires_at at_ j).
Proof.
  intros (Hk & Hrow & _ & _) (Hs & Ho & _). pose proof (job_row_ok_lease _ Hrow) as (Ha & _).
  split; [done|]. split; [|cbn; rewrite Hs; done]. unfold job_row_ok in Hrow. rewrite !andb_true_iff in Hrow.
  eapply (job_row_ok_update j); try done; cbn; try tauto; [unfold job_row_ok; by rewrite !andb_true_iff|by rewrite Hs, Ho].
Qed.

Lemma acknowledged_row_good k j at_ : row_good k j -> row_good k (end_row succeeded None (Some at_) (oj_available_at j) at_ j).
Proof.
  intros (Hk & Hrow & _ & _). pose proof (job_row_ok_lease _ Hrow) as (Ha & _).
  split; [done|]. split; [|done]. eapply (job_row_ok_update j); try done; cbn; lia.
Qed.

Lemma row_step_good k a o o' :
  row_step k a o o' -> (forall j, o = Some j -> row_good k j) -> forall j', o' = Some j' -> row_good k j'.
Proof.
  destruct 1 as [a o _ _|j Hk Hrow Hs Ha Hm|cs at_ j token e Hs Ha He Hf _|token at_ e j Hh He|token at_ j Hh
    |token at_ j j1 Hh Hb|at_ j j1 e Hs He Hle Hb]; intros Hg j' Heq; [by apply Hg|injection Heq as <-..]; try specialize (Hg j eq_refl).
  - split; [done|]. split; [done|]. split; [lia|congruence].
  - by apply leased_row_good.
  - by eapply extended_row_good.
  - by apply acknowledged_row_good.
  - by eapply given_back_good.
  - by eapply given_back_good.
Qed.

(** Only an enqueue draws from the sequence. *)
Lemma step_sequence db a db' :
  outbox_ok db -> outbox_step db a db' ->
  match a with
  | Enqueued j => ob_sequence db' = ob_sequence db + 1 /\ oj_job_id j = ob_sequence db
  | _ => ob_sequence db' = ob_sequence db
  end.
Proof.
  intros Hok Hstep. destruct Hstep as [? ? ? ? ? ? ? ? ? He|? ? ? ? ? ? ? ? ? ? ? ? Hc|? ? ? ? ? ? ? Hh|? ? ? ? ? ? Ha
    |? ? ? ? ? ? ? ? ? ? Hf|? ? ? ? ? ? ? ? ? Hr].
  - by apply (step_row_enqueue _ _ _ _ _ _ _ _ _ _ 0 Hok) in He as (_ & ? & ?).
  - unfold claim_outbox_jobs in Hc. do 7 (apply bind_Ok in Hc as (? & _ & Hc)). by injection Hc as <- _.
  - unfold heartbeat_outbox_job in Hh. do 3 (apply bind_Ok in Hh as (? & _ & Hh)). by apply fmap_Ok in Hh as (? & _ & <-).
  - unfold acknowledge_outbox_job in Ha. apply bind_Ok in Ha as (? & _ & Ha). by apply fmap_Ok in Ha as (? & _ & <-).
  - unfold fail_outbox_job in Hf. do 5 (apply bind_Ok in Hf as (? & _ & Hf)). by injection Hf as <- _.
  - unfold recover_expired_outbox_leases in Hr. do 5 (apply bind_Ok in Hr as (? & _ & Hr)). by injection Hr as <- _.
Qed.

Lemma step_ok db a db' : outbox_ok db -> outbox_step db a db' -> outbox_ok db'.
Proof.
  intros Hok Hstep. assert (Hgood : forall k j, ob_jobs db' !! k = Some j -> row_good k j).
  { intros k j Hj. eapply row_step_good; [by apply step_row|intros i Hi; by eapply ok_good|exact Hj]. }
  pose proof (step_sequence _ _ _ Hok Hstep) as Hseq.
  split; try (intros k j Hj; by apply (Hgood k j)).
  intros k j Hj. pose proof (step_row _ _ _ k Hok Hstep) as Hrow. destruct (ob_jobs db !! k) as [i|] eqn:Hi.
  - apply (ok_sequence _ Hok) in Hi. destruct a; try rewrite Hseq; lia.
  - rewrite Hj in Hrow. inversion Hrow; subst. destruct Hseq. lia.
Qed.

Lemma run_ok db actions db' : outbox_ok db -> outbox_run db actions db' -> outbox_ok db'.
Proof. intros Hok Hrun. induction Hrun as [|db a db1 actions db2 Hstep _ IH]; [done|]. by eapply IH, step_ok. Qed.

Lemma empty_ok tenants : outbox_ok (empty_outbox tenants).
Proof. split; intros k j; cbn; by rewrite lookup_empty. Qed.

(** Whatever producers and workers do, the outbox stays well formed.  Every
    row satisfies the table's constraints (a row has a lease exactly when it is
    leased, attempts stay within their bound), has its own number below the
    sequence, and a pending job always has an attempt left: none is stuck in
    the queue with its attempts spent. *)
Theorem outbox_invariant (tenants : gset UUID) (actions : list Action) (db : OutboxDb) :
  outbox_run (empty_outbox tenants) actions db ->
  forall k j, ob_jobs db !! k = Some j ->
    oj_job_id j = k /\ k < ob_sequence db /\ job_row_ok j = true /\
    (oj_state j = pending -> oj_attempt_count j < oj_max_attempts j) /\ oj_state j <> failed.
Proof.
  intros Hrun k j Hj. pose proof (run_ok _ _ _ (empty_ok tenants) Hrun) as Hok.
  destruct (ok_good _ _ _ Hok Hj) as (? & ? & ? & ?). split; [done|]. split; [by eapply ok_sequence|done].
Qed.

(** ** Attempts *)

Definition attempts (o : option OutboxJob) : Z := from_option oj_attempt_count 0 o.

Definition claim_count (k : Z) (actions : list Action) : Z := Z.of_nat (length (filter (fun a => claims k a = true) actions)).

Lemma row_step_attempts k a o o' :
  row_step k a o o' -> (forall j, o = Some j -> oj_job_id j = k) ->
  attempts o' = attempts o + (if claims k a then 1 else 0).
Proof.
  destruct 1 as [a o Hc _|j Hk Hrow Hs Ha Hm|cs at_ j token e Hs Ha He Hf Hin|token at_ e j Hh He|token at_ j Hh
    |token at_ j j1 Hh (? & ? & ? & ? & ? & ? & ? & ->)|at_ j j1 e Hs He Hle (? & ? & ? & ? & ? & ? & ? & ->)]; intros Hk'; cbn; try lia.
  - rewrite Hc. lia.
  - rewrite bool_decide_true; [lia|]. apply list_elem_of_fmap. eexists. split; [|exact Hin]. cbn. by rewrite (Hk' j).
Qed.

Lemma run_attempts db actions db' k :
  outbox_ok db -> outbox_run db actions db' ->
  attempts (ob_jobs db' !! k) = attempts (ob_jobs db !! k) + claim_count k actions.
Proof.
  intros Hok Hrun. induction Hrun as [db|db a db1 actions db2 Hstep _ IH]; [unfold claim_count; cbn; lia|].
  rewrite IH by (by eapply step_ok). erewrite row_step_attempts; [|by apply step_row|by intros j Hj; eapply ok_key].
  unfold claim_count. rewrite filter_cons. destruct (claims k a) eqn:E.
  - rewrite decide_True by done. cbn [length]. lia.
  - rewrite decide_False by congruence. lia.
Qed.

(** A job is handed to workers at most [max_attempts] times.  The attempt
    counter of a row is exactly the number of times the job was ever claimed,
    whatever was interleaved, and never passes its bound of at most 100. *)
Theorem attempts_bounded (tenants : gset UUID) (actions : list Action) (db : OutboxDb) (k : Z) (j : OutboxJob) :
  outbox_run (empty_outbox tenants) actions db -> ob_jobs db !! k = Some j ->
  oj_attempt_count j = claim_count k actions /\ claim_count k actions <= oj_max_attempts j <= 100.
Proof.
  intros Hrun Hj. pose proof (run_attempts _ _ _ k (empty_ok tenants) Hrun) as Ha. rewrite Hj in Ha. cbn in Ha.
  rewrite lookup_empty in Ha. cbn in Ha. pose proof (run_ok _ _ _ (empty_ok tenants) Hrun) as Hok.
  pose proof (ok_row _ Hok _ _ Hj) as Hrow. pose proof (job_row_ok_lease _ Hrow) as (Hb & _).
  unfold job_row_ok in Hrow. rewrite !andb_true_iff in Hrow.
  destruct Hrow as [[[[[[[[[[[[[[[_ _] _] Hm] _] _] _] _] _] _] _] _] _] _] _] _]. lia.
Qed.

(** ** Completed jobs *)

Definition completed (j : OutboxJob) : Prop := oj_state j = succeeded \/ oj_state j = dead.

(** The action concerns job [k]. *)
Definition concerns (k : Z) (a : Action) : Prop := claims k a = true \/ exists token, holder_acts k token a = true.

Lemma not_concerns k a : claims k a = false -> (forall token, holder_acts k token a = false) -> ~ concerns k a.
Proof. intros Hc Hh [?|[token Ht]]; [congruence|]. by rewrite Hh in Ht. Qed.

Lemma row_step_completed k a j o' : row_step k a (Some j) o' -> completed j -> o' = Some j /\ ~ concerns k a.
Proof.
  intros Hrow [Hj|Hj]; inversion Hrow; subst; try congruence;
    try (match goal with Hh : held_by _ _ _ |- _ => destruct Hh; congruence end);
    (split; [done|]; by apply not_concerns).
Qed.

(** Completion is final.  Once a job succeeded or was given up as dead, no
    later transaction changes its row, claims it, or extends, acknowledges or
    fails a lease on it: in particular a job is acknowledged at most once. *)
Theorem completed_is_final (db db' : OutboxDb) (actions : list Action) (k : Z) (j : OutboxJob) :
  outbox_ok db -> outbox_run db actions db' -> ob_jobs db !! k = Some j ->
  oj_state j = succeeded \/ oj_state j = dead ->
  ob_jobs db' !! k = Some j /\ Forall (fun a => ~ concerns k a) actions.
Proof.
  intros Hok Hrun. induction Hrun as [db|db a db1 actions db2 Hstep _ IH]; intros Hj Hc; [by split|].
  pose proof (step_row _ _ _ k Hok Hstep) as Hrow. rewrite Hj in Hrow.
  destruct (row_step_completed _ _ _ _ Hrow Hc) as [Hj1 Hno].
  destruct (IH (step_ok _ _ _ Hok Hstep) Hj1 Hc) as [Hj2 Hall]. split; [done|]. by constructor.
Qed.

(** ** Leases *)

Lemma row_step_leased k a j o' token e :
  row_step k a (Some j) o' -> oj_state j = leased -> oj_lease_owner j = Some token -> oj_lease_expires_at j = Some e ->
  (forall t, action_time a = Some t -> t < e) -> holder_acts k token a = false -> o' = Some j /\ ~ concerns k a.
Proof.
  intros Hrow Hs Ho He Ht Ha.
  assert (Hholder : forall t at_, held_by t at_ j -> (k =? k) && bool_decide (t = token) = true).
  { intros t at_ (_ & Ho' & _). rewrite Z.eqb_refl, bool_decide_true by congruence. done. }
  inversion Hrow; subst; try congruence; try (exfalso; cbn in Ha; by erewrite Hholder in Ha).
  - split; [done|]. by apply not_concerns.
  - specialize (Ht _ eq_refl). rewrite He in *. simplify_eq. lia.
Qed.

(** C16: a lease is exclusive until it expires.  While every transaction is timed
    before the expiry and the holder's token is not used, no interleaving of
    other producers and workers changes the leased row, claims the job again,
    or completes it under another token. *)
Theorem lease_is_exclusive (db db' : OutboxDb) (actions : list Action) (k : Z) (j : OutboxJob)
    (token : pystr) (e : instant) :
  outbox_ok db -> outbox_run db actions db' -> ob_jobs db !! k = Some j ->
  oj_state j = leased -> oj_lease_owner j = Some token -> oj_lease_expires_at j = Some e ->
  Forall (fun a => (forall t, action_time a = Some t -> t < e) /\ holder_acts k token a = false) actions ->
  ob_jobs db' !! k = Some j /\ Forall (fun a => ~ concerns k a) actions.
Proof.
  intros Hok Hrun. induction Hrun as [db|db a db1 actions db2 Hstep _ IH]; intros Hj Hs Ho He Hall; [by split|].
  pose proof (step_row _ _ _ k Hok Hstep) as Hrow. rewrite Hj in Hrow.
  apply Forall_cons in Hall as [[Ht Ha] Hall].
  destruct (row_step_leased _ _ _ _ _ _ Hrow Hs Ho He Ht Ha) as [Hj1 Hno].
  destruct (IH (step_ok _ _ _ Hok Hstep) Hj1 Hs Ho He Hall) as [Hj2 Hrest]. split; [done|]. by constructor.
Qed.

(** ** Errors *)

Definition is_database_error (e : exn) : bool := match e with DBAPIError _ => true | _ => false end.

Lemma bind_Err {A B} (f : A -> result B) (r : result A) (e : exn) :
  (r ≫= f) = Err e -> r = Err e \/ exists a, r = Ok a /\ f a = Err e.
Proof. destruct r; cbn; [eauto|]. intros [= ->]. by left. Qed.

(** The guards before a write raise no database error. *)
Definition quiet {A} (r : result A) : Prop := forall e, r = Err e -> is_database_error e = false.

Lemma quiet_bind {A B} (f : A -> result B) (r : result A) :
  quiet r -> (forall a, r = Ok a -> quiet (f a)) -> quiet (r ≫= f).
Proof. intros Hr Hf e He. apply bind_Err in He as [He|(a & Ha & He)]; [by apply Hr|by eapply Hf]. Qed.

Lemma quiet_ok {A} (a : A) : quiet (Ok a).
Proof. by intros e. Qed.

Lemma quiet_raise_if c e : is_database_error e = false -> quiet (raise_if c e).
Proof. intros He e'. destruct c; [intros [= <-]; done|done]. Qed.

Lemma quiet_require c e : is_database_error e = false -> quiet (require c e).
Proof. apply quiet_raise_if. Qed.

Lemma quiet_option {A} (o : option A) e : is_database_error e = false -> quiet (from_option_or o e).
Proof. intros He e'. destruct o; [done|]. by intros [= <-]. Qed.

Lemma quiet_mapR {A B} (f : A -> result B) l : (forall a, a ∈ l -> quiet (f a)) -> quiet (mapR f l).
Proof.
  induction l as [|a l IH]; intros Hf; [apply quiet_ok|]. cbn. apply quiet_bind; [apply Hf; left|]. intros b _.
  apply quiet_bind; [apply IH; intros x Hx; apply Hf; by right|]. intros bs _. apply quiet_ok.
Qed.

Lemma result_fmap_id {A} (r : result A) : (fun x => x) <$> r = r.
Proof. by destruct r. Qed.

Lemma quiet_update {A} (jobs : gmap Z OutboxJob) j (f : gmap Z OutboxJob -> A) :
  job_row_ok j = true -> quiet (f <$> update_job jobs j).
Proof. intros Hrow. unfold update_job. rewrite Hrow. apply quiet_ok. Qed.

Lemma quiet_add_seconds at_ s : quiet (add_seconds at_ s).
Proof. unfold add_seconds. apply quiet_bind; [by apply quiet_raise_if|]. intros _ _. apply quiet_ok. Qed.

Lemma quiet_new_uuid7 t r : quiet (new_uuid7 t r None None).
Proof.
  unfold new_uuid7, uuid_of_int. repeat (apply quiet_bind; [by apply quiet_raise_if|intros _ _]). apply quiet_ok.
Qed.

(** The rows a claim leases pass the table's checks. *)
Lemma claimed_rows_good db locked owner tenant_id job_types limit at_ expires_at draw pairs :
  outbox_ok db -> owner_ok owner = true ->
  mapR (claim_row owner at_ expires_at) (imap (fun n j => (j, draw n))
    (select_jobs (ob_jobs db) (claimable tenant_id job_types at_) oj_available_at limit locked)) = Ok pairs ->
  Forall (fun row => job_row_ok row = true) pairs.*1.
Proof.
  intros Hok Ho Hp. apply claim_rows_Ok in Hp; [|done].
  apply Forall_fmap. eapply Forall2_Forall_r; [exact Hp|]. apply Forall_forall. intros j Hj c (token & Hf & ->). cbn.
  apply selected_row in Hj as (Hl & Hw & _); [|apply Hok].
  unfold claimable in Hw. rewrite !andb_true_iff, !bool_decide_eq_true in Hw. destruct Hw as [[[[_ Hs] _] _] _].
  by apply (leased_row_good (oj_job_id j) j), Hf; [eapply ok_good|].
Qed.

Lemma quiet_claim db in_transaction locked clock draw tenant_id owner job_types batch_size lease_seconds now :
  outbox_ok db ->
  quiet (claim_outbox_jobs db in_transaction locked clock draw tenant_id owner job_types batch_size lease_seconds now).
Proof.
  intros Hok. unfold claim_outbox_jobs. apply quiet_bind; [by apply quiet_require|]. intros _ _.
  apply quiet_bind; [by apply quiet_require|]. intros [] Ho%require_Ok.
  apply quiet_bind; [by apply quiet_bind; [apply quiet_require|intros _ _; apply quiet_require]|]. intros _ _.
  apply quiet_bind; [by apply quiet_raise_if|]. intros _ _. apply quiet_bind; [apply quiet_add_seconds|]. intros e _.
  apply quiet_bind.
  { apply quiet_mapR. intros [j d] _. apply quiet_bind; [|intros token _; apply quiet_ok].
    apply quiet_bind; [apply quiet_new_uuid7|]. intros u _. apply quiet_ok. }
  intros pairs Hp. destruct (update_jobs_total pairs.*1 (ob_jobs db)) as [jobs ->]; [|apply quiet_ok].
  by eapply claimed_rows_good.
Qed.

Lemma quiet_recover db locked clock tenant_id job_types batch_size delay now :
  outbox_ok db -> quiet (recover_expired_outbox_leases db locked clock tenant_id job_types batch_size delay now).
Proof.
  intros Hok. unfold recover_expired_outbox_leases. do 2 (apply quiet_bind; [by apply quiet_require|intros _ _]).
  apply quiet_bind; [by apply quiet_raise_if|]. intros _ _. apply quiet_bind.
  { apply quiet_mapR. intros j _. apply quiet_bind; [by apply quiet_option|]. intros summary _.
    apply quiet_bind; [apply quiet_add_seconds|]. intros later _. apply quiet_ok. }
  intros rows' Hr. apply mapR_Forall2 in Hr.
  destruct (update_jobs_total rows' (ob_jobs db)) as [jobs ->]; [|apply quiet_ok].
  eapply Forall2_Forall_r; [exact Hr|]. apply Forall_forall. intros j Hj j' [_ Hb]%recovered_row_Ok.
  apply selected_row in Hj as (Hl & _ & _); [|apply Hok]. eapply given_back_good; [by eapply ok_good|done].
Qed.

(** Worker operations never hit a table constraint.  On a well-formed
    outbox, claiming, extending, acknowledging, failing and recovering raise
    only the errors of their own guards (bad arguments, a lost lease, a date out
    of range): the generated tokens fit their column, and every new row passes
    the checks. *)
Theorem worker_never_violates_table (db : OutboxDb) (e : exn) :
  outbox_ok db ->
  (forall in_transaction locked clock draw tenant_id owner job_types batch_size lease_seconds now,
     claim_outbox_jobs db in_transaction locked clock draw tenant_id owner job_types batch_size lease_seconds now = Err e
     -> is_database_error e = false) /\
  (forall clock tenant_id job_id token lease_seconds now,
     heartbeat_outbox_job db clock tenant_id job_id token lease_seconds now = Err e -> is_database_error e = false) /\
  (forall clock tenant_id job_id token now,
     acknowledge_outbox_job db clock tenant_id job_id token now = Err e -> is_database_error e = false) /\
  (forall clock tenant_id job_id token code retryable delay now,
     fail_outbox_job db clock tenant_id job_id token code retryable delay now = Err e -> is_database_error e = false) /\
  (forall locked clock tenant_id job_types batch_size delay now,
     recover_expired_outbox_leases db locked clock tenant_id job_types batch_size delay now = Err e
     -> is_database_error e = false).
Proof.
  intros Hok. split; [intros *; by apply quiet_claim|]. split; [|split; [|split; [|intros *; by apply quiet_recover]]].
  - intros *. revert e. apply quiet_bind; [by apply quiet_bind; [apply quiet_require|intros _ _; apply quiet_require]|].
    intros _ _. apply quiet_bind; [apply quiet_add_seconds|]. intros later _. apply quiet_bind; [by apply quiet_option|].
    intros j [Hj Hh]%from_option_or_Ok%held_row_Some. apply quiet_update.
    eapply extended_row_good; [by eapply ok_good|done].
  - intros *. revert e. apply quiet_bind; [by apply quiet_option|]. intros j [Hj Hh]%from_option_or_Ok%held_row_Some.
    apply quiet_update. eapply acknowledged_row_good. by eapply ok_good.
  - intros *. revert e. apply quiet_bind; [by apply quiet_option|]. intros summary Hs%from_option_or_Ok.
    apply quiet_bind; [by apply quiet_require|]. intros _ _. apply quiet_bind; [by apply quiet_option|].
    intros j [Hj Hh]%from_option_or_Ok%held_row_Some. apply quiet_bind; [apply quiet_add_seconds|]. intros later _.
    eapply quiet_bind; [|intros; apply quiet_ok]. rewrite <- (result_fmap_id (update_job _ _)). apply quiet_update.
    eapply given_back_good; [by eapply ok_good|]. eexists _, _, _, _, _. split; [exact Hs|]. split; [|reflexivity]. lia.
Qed.
