(* ===== verification/OutboxProgress.v ===== *)
(** * OutboxProgress: due jobs are claimed, and effects are enqueued once

    Progress of the claim query, identity of jobs, and witnesses for the
    theorems on the outbox. *)

From stdpp Require Import base tactics option list gmap sets strings sorting.
From Stdlib Require Import ZArith Lia Bool Sorted.
From S2P Require Import Prelude Identifiers Values CanonicalJson Digest Text Events Outbox OutboxTheorems.
Open Scope Z_scope.

(** ** The queue *)

Lemma at_then_id_total time a b : at_then_id_leb time a b = false -> at_then_id_leb time b a = true.
Proof. unfold at_then_id_leb. rewrite (Z.eqb_sym (time b)). destruct (Z.eqb_spec (time a) (time b)); lia. Qed.

Lemma at_then_id_trans time a b c :
  at_then_id_leb time a b = true -> at_then_id_leb time b c = true -> at_then_id_leb time a c = true.
Proof.
  unfold at_then_id_leb. destruct (Z.eqb_spec (time a) (time b)), (Z.eqb_spec (time b) (time c)), (Z.eqb_spec (time a) (time c)); lia.
Qed.

Section Queue.
Context (tenant_id : UUID) (worker_owner : pystr) (job_types : list pystr) (batch_size lease_seconds : Z).

Section Instant.
Context (now : instant) (locked : gset Z).

(** The jobs a worker may claim now, the longest available first; the rows
    other transactions hold are skipped. *)
Definition due (db : OutboxDb) : list OutboxJob :=
  sort_by (at_then_id_leb oj_available_at) (candidates (ob_jobs db) (claimable tenant_id job_types now) locked).

(** Arguments the claim accepts, at an instant where the expiry is a date. *)
Definition claim_arguments : bool :=
  owner_ok worker_owner && (1 <=? batch_size) && (batch_size <=? 100) && (5 <=? lease_seconds) && (lease_seconds <=? 3600)
  && negb (bool_decide (job_types = [])) && nodupb job_types
  && (0 <=? now) && (now + lease_seconds * 1000000 <? DATETIME_LIMIT_US).

Definition draws_ok (draw : nat -> Z * Z) : Prop := forall n, is_ok (new_uuid7 (draw n).1 (draw n).2 None None) = true.

Definition claim (db : OutboxDb) (draw : nat -> Z * Z) : result (OutboxDb * list ClaimedOutboxJob) :=
  claim_outbox_jobs db true locked now draw tenant_id worker_owner job_types batch_size lease_seconds None.

Lemma elem_of_due db j : outbox_ok db ->
  j ∈ due db <-> ob_jobs db !! oj_job_id j = Some j /\ claimable tenant_id job_types now j = true /\ oj_job_id j ∉ locked.
Proof. intros Hok. unfold due. by rewrite sort_by_perm, elem_of_candidates by apply Hok. Qed.

Lemma due_nodup db : outbox_ok db -> NoDup (oj_job_id <$> due db).
Proof. intros Hok. unfold due. rewrite sort_by_perm. apply candidates_nodup, Hok. Qed.

Lemma due_ordered db : StronglySorted (fun x y => at_then_id_leb oj_available_at x y = true) (due db).
Proof. apply sort_by_ordered; [apply at_then_id_total|apply at_then_id_trans]. Qed.

(** A list that holds the claimable rows, in order, is the queue. *)
Lemma due_unique db l :
  outbox_ok db -> NoDup l -> StronglySorted (fun x y => at_then_id_leb oj_available_at x y = true) l ->
  (forall j, j ∈ l <-> j ∈ due db) -> due db = l.
Proof.
  intros Hok Hnd Hs Hel. assert (Hp : due db ≡ₚ l).
  { apply NoDup_Permutation; [|done|intros j; by rewrite Hel]. eapply NoDup_fmap_1, due_nodup, Hok. }
  apply StronglySorted_unique_strong with (R := fun x y => at_then_id_leb oj_available_at x y = true); [|apply due_ordered|done|done].
  intros x y Hx Hy H1 H2. apply Hel in Hy. apply elem_of_due in Hx as [Hx _], Hy as [Hy _]; [|done..].
  unfold at_then_id_leb in *. rewrite Z.eqb_sym in H2. destruct (Z.eqb_spec (oj_available_at x) (oj_available_at y)); [|lia].
  assert (oj_job_id x = oj_job_id y) as Heq by lia. rewrite Heq in Hx. congruence.
Qed.

Lemma StronglySorted_drop {A} (R : A -> A -> Prop) n l : StronglySorted R l -> StronglySorted R (drop n l).
Proof. intros Hs. rewrite <- (take_drop n l) in Hs. by apply StronglySorted_app in Hs as (_ & _ & ?). Qed.

Lemma imap_draws (draw : nat -> Z * Z) (rows : list OutboxJob) item :
  item ∈ imap (fun n j => (j, draw n)) rows -> exists n, item.2 = draw n.
Proof.
  intros Hin. apply list_elem_of_lookup in Hin as (i & Hi). rewrite list_lookup_imap in Hi.
  apply fmap_Some in Hi as (j & _ & ->). by exists i.
Qed.

(** A claim with good arguments succeeds. *)
Lemma claim_total db draw :
  outbox_ok db -> claim_arguments = true -> draws_ok draw -> exists db' claimed, claim db draw = Ok (db', claimed).
Proof.
  intros Hok Hargs Hdraw. unfold claim_arguments in Hargs. rewrite !andb_true_iff, !negb_true_iff in Hargs.
  destruct Hargs as [[[[[[[[Ho Hb1] Hb2] Hl1] Hl2] Hne] Hnd] Hn1] Hn2].
  unfold claim, claim_outbox_jobs, validate_owner, validate_timing, add_seconds.
  rewrite Ho, Hb1, Hb2, Hl1, Hl2, Hne, Hnd. cbn [require raise_if negb andb orb mbind result_bind default from_option].
  rewrite (proj2 (Z.leb_le 0 (now + lease_seconds * 1000000))) by lia. rewrite Hn2. cbn [negb andb raise_if mbind result_bind].
  match goal with |- context [mapR ?f ?l] => destruct (mapR_total f l) as (pairs & Hp) end.
  { intros item [n Hn]%imap_draws. unfold claim_row, lease_token. rewrite Hn. specialize (Hdraw n).
    destruct (new_uuid7 _ _ _ _); [|done]. by eexists. }
  rewrite Hp. cbn [mbind result_bind]. destruct (update_jobs_total pairs.*1 (ob_jobs db)) as [jobs ->]; [|by eexists _, _].
  by eapply claimed_rows_good.
Qed.

(** It takes the head of the queue, in order. *)
Lemma claim_takes_head db db' draw claimed :
  outbox_ok db -> claim db draw = Ok (db', claimed) ->
  cj_job_id <$> claimed = oj_job_id <$> take (Z.to_nat batch_size) (due db).
Proof.
  intros Hok Hc. unfold claim, claim_outbox_jobs in Hc. apply bind_Ok in Hc as ([] & _ & Hc).
  apply bind_Ok in Hc as ([] & Ho%require_Ok & Hc). do 2 (apply bind_Ok in Hc as ([] & _ & Hc)).
  apply bind_Ok in Hc as (expires_at & _ & Hc). apply bind_Ok in Hc as (pairs & Hp & Hc).
  apply bind_Ok in Hc as (jobs & _ & [= _ <-]). apply claim_rows_Ok in Hp; [|done].
  rewrite <- list_fmap_compose. eapply Forall2_fmap_eq; [|exact Hp]. cbn. by intros j c (token & _ & ->).
Qed.

(** A row that is pending after a claim was there, and was not claimed. *)
Lemma claim_keeps_pending db db' draw claimed k j :
  outbox_ok db -> claim db draw = Ok (db', claimed) -> ob_jobs db' !! k = Some j -> oj_state j = pending ->
  ob_jobs db !! k = Some j /\ k ∉ cj_job_id <$> claimed.
Proof.
  intros Hok Hc Hj Hp. apply (step_claim db db' claimed), (step_row _ _ _ k Hok) in Hc. rewrite Hj in Hc.
  inversion Hc as [a o Hclaims _ Ha Ho Ho'| |cs at_ j0 token e Hs Ha He Hf Hin Hcs Hj0 Hnew| | | |]; subst; [|discriminate Hp].
  cbn in Hclaims. by apply bool_decide_eq_false in Hclaims.
Qed.

Lemma claim_keeps_others db db' draw claimed j :
  outbox_ok db -> claim db draw = Ok (db', claimed) -> ob_jobs db !! oj_job_id j = Some j ->
  oj_job_id j ∉ cj_job_id <$> claimed -> ob_jobs db' !! oj_job_id j = Some j.
Proof.
  intros Hok Hc Hj Hni. apply (step_claim db db' claimed), (step_row _ _ _ (oj_job_id j) Hok) in Hc. rewrite Hj in Hc.
  inversion Hc as [| |cs at_ j0 token e Hs Ha He Hf Hin| | | |]; subst; [congruence|]. destruct Hni.
  apply list_elem_of_fmap. eexists. split; [|exact Hin]. done.
Qed.

Lemma claimable_pending at_ j : claimable tenant_id job_types at_ j = true -> oj_state j = pending.
Proof. unfold claimable. rewrite !andb_true_iff, !bool_decide_eq_true. tauto. Qed.

(** And leaves the rest. *)
Lemma claim_leaves_rest db db' draw claimed :
  outbox_ok db -> claim db draw = Ok (db', claimed) -> due db' = drop (Z.to_nat batch_size) (due db).
Proof.
  intros Hok Hc. pose proof (claim_takes_head _ _ _ _ Hok Hc) as Hids.
  assert (Hok' : outbox_ok db') by (eapply step_ok; [exact Hok|by apply (step_claim db db' claimed) in Hc]).
  set (n := Z.to_nat batch_size) in *.
  pose proof (due_nodup _ Hok) as Hnd. rewrite <- (take_drop n (due db)), fmap_app, NoDup_app in Hnd.
  destruct Hnd as (_ & Hdis & Hnd2).
  apply due_unique; [done|by eapply NoDup_fmap_1|apply StronglySorted_drop, due_ordered|].
  intros j. rewrite elem_of_due by done. split.
  - intros Hj. assert (Hdue : j ∈ due db) by (rewrite <- (take_drop n (due db)); apply elem_of_app; by right).
    apply elem_of_due in Hdue as (Hj0 & Hcl & Hl); [|done]. split; [|done]. eapply claim_keeps_others; [exact Hok|exact Hc|exact Hj0|].
    rewrite Hids. intros Hin. apply (Hdis _ Hin). apply list_elem_of_fmap. eauto.
  - intros (Hj & Hcl & Hl).
    destruct (claim_keeps_pending _ _ _ _ _ _ Hok Hc Hj (claimable_pending _ _ Hcl)) as [Hj0 Hni]. rewrite Hids in Hni.
    assert (Hdue : j ∈ due db) by (apply elem_of_due; done).
    rewrite <- (take_drop n (due db)), elem_of_app in Hdue. destruct Hdue as [Hin|]; [|done]. destruct Hni.
    apply list_elem_of_fmap. eauto.
Qed.
End Instant.

(** ** Waiting *)

(** The claimable jobs that stand before [j] in the queue, at any time from
    which [j] is available. *)
Definition stands_before (j x : OutboxJob) : bool :=
  claimable tenant_id job_types (oj_available_at j) x && at_then_id_leb oj_available_at x j
  && negb (oj_job_id x =? oj_job_id j).

Definition ahead (j : OutboxJob) (db : OutboxDb) : gset Z :=
  dom (filter (fun kx => stands_before j kx.2 = true) (ob_jobs db)).

Lemma elem_of_ahead j db k : k ∈ ahead j db <-> exists x, ob_jobs db !! k = Some x /\ stands_before j x = true.
Proof.
  unfold ahead. rewrite elem_of_dom. unfold is_Some. setoid_rewrite map_lookup_filter_Some. done.
Qed.

(** [waits j n db db']: in a run from [db] to [db'], among arbitrary steps of
    other transactions that let no job in ahead of [j], the worker made [n]
    claims, at whatever times and with whatever rows locked by others, each of
    which found [j] due and not locked, and passed it over. *)
Inductive waits (j : OutboxJob) : nat -> OutboxDb -> OutboxDb -> Prop :=
| waits_done db : waits j 0 db db
| waits_other db a db1 n db2 :
    outbox_step db a db1 -> ahead j db1 ⊆ ahead j db -> waits j n db1 db2 -> waits j n db db2
| waits_passed db now locked draw db1 claimed n db2 :
    claim now locked db draw = Ok (db1, claimed) -> j ∈ due now locked db ->
    oj_job_id j ∉ cj_job_id <$> claimed -> waits j n db1 db2 -> waits j (S n) db db2.

(** A claim that passes [j] over takes a whole batch of jobs before it. *)
Lemma passed_over j now locked db draw db1 claimed :
  outbox_ok db -> claim now locked db draw = Ok (db1, claimed) -> j ∈ due now locked db ->
  oj_job_id j ∉ cj_job_id <$> claimed ->
  (Z.to_nat batch_size + size (ahead j db1) <= size (ahead j db))%nat.
Proof.
  intros Hok Hc Hj Hni. pose proof (claim_takes_head _ _ _ _ _ _ Hok Hc) as Hids.
  set (n := Z.to_nat batch_size) in *. set (q := due now locked db) in *.
  assert (Hdrop : j ∈ drop n q).
  { rewrite <- (take_drop n q), elem_of_app in Hj. destruct Hj as [Hj|]; [|done]. destruct Hni. rewrite Hids.
    apply list_elem_of_fmap. eauto. }
  assert (Hlen : length (take n q) = n).
  { rewrite length_take. apply list_elem_of_lookup in Hdrop as (i & Hi). rewrite lookup_drop in Hi.
    apply lookup_lt_Some in Hi. lia. }
  assert (Hbefore : forall x, x ∈ take n q -> ob_jobs db !! oj_job_id x = Some x /\ stands_before j x = true).
  { intros x Hx. assert (Hq : x ∈ q) by (rewrite <- (take_drop n q); apply elem_of_app; by left).
    apply elem_of_due in Hq as (Hx0 & Hcl & _); [|done]. split; [done|].
    assert (Hle : at_then_id_leb oj_available_at x j = true).
    { pose proof (due_ordered now locked db) as Hs. fold q in Hs. rewrite <- (take_drop n q) in Hs.
      apply StronglySorted_app in Hs as (Hall & _ & _). by apply Hall. }
    unfold stands_before, claimable in *. rewrite Hle. rewrite !andb_true_iff, !bool_decide_eq_true, ?negb_true_iff in *.
    unfold at_then_id_leb in Hle. assert (oj_available_at x <= oj_available_at j) by (case_match; lia).
    assert (oj_job_id x <> oj_job_id j).
    { intros Heq. destruct Hni. rewrite Hids, <- Heq. apply list_elem_of_fmap. eauto. }
    rewrite Z.eqb_neq, Z.leb_le. tauto. }
  set (C := list_to_set (cj_job_id <$> claimed) : gset Z).
  assert (HC : size C = n).
  { unfold C. rewrite size_list_to_set, length_fmap.
    - transitivity (length (cj_job_id <$> claimed)); [by rewrite length_fmap|]. by rewrite Hids, length_fmap.
    - rewrite Hids, fmap_take. eapply sublist_NoDup; [|apply sublist_take]. by apply due_nodup. }
  assert (Hsub : C ⊆ ahead j db).
  { intros k Hk. unfold C in Hk. rewrite elem_of_list_to_set, Hids in Hk. apply list_elem_of_fmap in Hk as (x & -> & Hx).
    apply elem_of_ahead. eauto. }
  assert (Hrest : ahead j db1 ⊆ ahead j db ∖ C).
  { intros k (x & Hx & Hb)%elem_of_ahead. assert (Hp : oj_state x = pending).
    { unfold stands_before in Hb. rewrite !andb_true_iff in Hb. destruct Hb as [[Hb _] _]. by eapply claimable_pending. }
    destruct (claim_keeps_pending _ _ _ _ _ _ _ _ Hok Hc Hx Hp) as [Hx0 Hk]. apply elem_of_difference.
    split; [apply elem_of_ahead; eauto|]. unfold C. by rewrite elem_of_list_to_set. }
  apply subseteq_size in Hrest. rewrite size_difference in Hrest by done.
  pose proof (subseteq_size _ _ Hsub). lia.
Qed.

Lemma waiting_bounded j n db db' :
  outbox_ok db -> waits j n db db' -> (n * Z.to_nat batch_size <= size (ahead j db))%nat.
Proof.
  intros Hok Hw. induction Hw as [db|db a db1 n db2 Hs Hsub _ IH|db now locked draw db1 claimed n db2 Hc Hj Hni _ IH]; [lia| |].
  - specialize (IH (step_ok _ _ _ Hok Hs)). apply subseteq_size in Hsub. lia.
  - assert (Hok1 : outbox_ok db1) by (eapply step_ok; [exact Hok|by apply (step_claim db db1 claimed) in Hc]).
    specialize (IH Hok1). pose proof (passed_over _ _ _ _ _ _ _ Hok Hc Hj Hni). cbn [Nat.mul]. lia.
Qed.
End Queue.

(** C26: due jobs are claimed, oldest first, and none waits for ever.  A claim
    with accepted arguments is never refused, whatever the state of the queue,
    the time and the rows other transactions have locked: it takes exactly the
    first [batch_size] due jobs that are not locked, in the order they became
    available, and leaves the rest.  Whatever other transactions do between
    claims, as long as they let no job in ahead of it, a job is passed over by
    at most [r / batch_size] claims that find it due and not locked, where [r]
    is the number of claimable jobs ahead of it. *)
Theorem due_jobs_are_claimed (tenant_id : UUID) (worker_owner : pystr) (job_types : list pystr)
    (batch_size lease_seconds : Z) (db : OutboxDb) :
  outbox_ok db ->
  (forall (now : instant) (locked : gset Z) (draw : nat -> Z * Z),
     claim_arguments worker_owner job_types batch_size lease_seconds now = true -> draws_ok draw ->
     exists db' claimed,
       claim tenant_id worker_owner job_types batch_size lease_seconds now locked db draw = Ok (db', claimed) /\
       cj_job_id <$> claimed = oj_job_id <$> take (Z.to_nat batch_size) (due tenant_id job_types now locked db) /\
       due tenant_id job_types now locked db' = drop (Z.to_nat batch_size) (due tenant_id job_types now locked db)) /\
  (forall j n db', waits tenant_id worker_owner job_types batch_size lease_seconds j n db db' ->
     (n * Z.to_nat batch_size <= size (ahead tenant_id job_types j db))%nat).
Proof.
  intros Hok. split; [|intros j n db'; by apply waiting_bounded]. intros now locked draw Hargs Hdraw.
  destruct (claim_total tenant_id _ _ _ _ now locked db draw Hok Hargs Hdraw) as (db' & claimed & Hc).
  exists db', claimed. split; [done|]. split; [by eapply claim_takes_head|by eapply claim_leaves_rest].
Qed.

(** ** Job identity *)

Definition uuid_range (u : UUID) : Prop := 0 <= u < 2 ^ 128.

Definition reference_wf (value : OutboxReferenceValue) : Prop :=
  match value with RefUUID u => uuid_range u | RefUUIDs items => Forall uuid_range items | _ => True end.

(** Identifiers are 128-bit values and texts are sequences of code points. *)
Definition identity_wf (i : JobIdentity) : Prop :=
  uuid_range (ji_tenant_id i) /\ Forall code_point (ji_job_type i) /\ Forall code_point (ji_aggregate_type i) /\
  (forall u, ji_aggregate_id i = Some u -> uuid_range u) /\
  (forall k v, ji_references i !! k = Some v -> reference_wf v).

Lemma uuid_str_inj u v : uuid_range u -> uuid_range v -> uuid_str u = uuid_str v -> u = v.
Proof.
  unfold uuid_range. intros Hu Hv Heq. destruct (Z.lt_trichotomy u v) as [Hlt|[?|Hlt]]; [|done|].
  - destruct (uuid_str_below u v) as [_ Hb]; [lia|lia|]. rewrite Heq, str_leb_refl in Hb. done.
  - destruct (uuid_str_below v u) as [_ Hb]; [lia|lia|]. rewrite Heq, str_leb_refl in Hb. done.
Qed.

Lemma cons_inv {A} (x y : A) l l' : x :: l = y :: l' -> x = y /\ l = l'.
Proof. by intros [= -> ->]. Qed.

Lemma uuid_strs_inj l l' : Forall uuid_range l -> Forall uuid_range l' -> uuid_str <$> l = uuid_str <$> l' -> l = l'.
Proof.
  intros Hl. revert l'. induction Hl as [|u l Hu _ IH]; intros l' Hl' Heq; destruct Hl' as [|v l' Hv Hl']; try done.
  rewrite !fmap_cons in Heq. apply cons_inv in Heq as [Huv Heq]. f_equal; [by apply uuid_str_inj|by apply IH].
Qed.

Lemma uuid_bytes_inj u v : uuid_range u -> uuid_range v -> uuid_bytes u = uuid_bytes v -> u = v.
Proof.
  unfold uuid_range. change (2 ^ 128) with (256 ^ Z.of_nat 16). intros Hu Hv. by apply be_bytes_inj.
Qed.

(** The rendering of a reference determines it. *)
Lemma reference_bytes_inj k v v' b :
  reference_wf v -> reference_wf v' -> reference_bytes k v = Ok b -> reference_bytes k v' = Ok b -> v = v'.
Proof.
  assert (Hint : forall n b, reference_bytes k (RefInt n) = Ok b -> 0 <= n /\ b = py "int:" ++ int_str n).
  { intros n b0 Hb. cbn in Hb. destruct (Z.leb_spec 0 n); [|done]. apply bind_Ok in Hb as ([] & _ & [= <-]). done. }
  assert (Hlist : forall l b, reference_bytes k (RefUUIDs l) = Ok b -> b = py "uuids:" ++ join_comma (uuid_str <$> l)).
  { intros l b0 Hb. cbn in Hb. destruct (ends_with _ k); [|done]. by injection Hb as <-. }
  assert (Hone : forall u b, reference_bytes k (RefUUID u) = Ok b -> b = py "uuid:" ++ uuid_str u) by (intros u b0 [= <-]; done).
  intros Hw Hw' Hb Hb'.
  destruct v as [u|n| |l], v' as [u'|n'| |l']; try done;
    repeat match goal with
    | H : reference_bytes k (RefInt _) = Ok _ |- _ => apply Hint in H as [? H]
    | H : reference_bytes k (RefUUID _) = Ok _ |- _ => apply Hone in H
    | H : reference_bytes k (RefUUIDs _) = Ok _ |- _ => apply Hlist in H
    end; rewrite Hb in Hb'; try done.
  - apply app_inv_head in Hb'. f_equal. by apply uuid_str_inj.
  - apply app_inv_head in Hb'. f_equal. by apply int_str_inj.
  - apply app_inv_head in Hb'. f_equal. apply uuid_strs_inj; [done..|].
    apply (join_comma_inj 36) in Hb'; [done|done|..]; apply Forall_fmap, Forall_true; intros x; apply uuid_str_length.
Qed.

(** Framed fields concatenate injectively. *)
Lemma framed_fields_inj l l' x y :
  mapR framed_field l = Ok x -> mapR framed_field l' = Ok y -> mjoin (M := list) x = mjoin (M := list) y -> l = l'.
Proof.
  assert (Hone : forall f b, framed_field f = Ok b ->
            exists a c, framed 2 f.1 = Ok a /\ framed 4 f.2 = Ok c /\ b = a ++ c /\ b <> []).
  { intros f b Hb. unfold framed_field in Hb. apply bind_Ok in Hb as (a & Ha & Hb). apply bind_Ok in Hb as (c & Hc & [= <-]).
    exists a, c. split; [done|]. split; [done|]. split; [done|]. unfold framed in Ha.
    apply bind_Ok in Ha as ([] & _ & [= <-]). done. }
  intros Hx%mapR_Forall2. revert l' y. induction Hx as [|f b l x Hf _ IH]; intros l' y Hy%mapR_Forall2 Heq;
    destruct Hy as [|f' b' l' y Hf' Hy]; cbn in Heq; [done|..].
  - apply Hone in Hf' as (? & ? & _ & _ & _ & Hne). by destruct b'.
  - apply Hone in Hf as (? & ? & _ & _ & _ & Hne). by destruct b.
  - apply Hone in Hf as (a & c & Ha & Hc & -> & _), Hf' as (a' & c' & Ha' & Hc' & -> & _).
    rewrite <- !app_assoc in Heq. destruct (framed_inj _ _ _ _ _ _ _ Ha Ha' Heq) as [Hk Heq1].
    destruct (framed_inj _ _ _ _ _ _ _ Hc Hc' Heq1) as [Hv Heq2]. destruct f, f'. cbn in *. subst. f_equal.
    eapply IH; [by apply mapR_Forall2|done].
Qed.

Lemma reference_fields_inj l l' fs :
  Forall (fun kv => reference_wf kv.2) l -> Forall (fun kv => reference_wf kv.2) l' ->
  mapR reference_field l = Ok fs -> mapR reference_field l' = Ok fs -> l = l'.
Proof.
  intros Hl. revert l' fs. induction Hl as [|[k v] l Hv _ IH]; intros l' fs Hl' Hf%mapR_Forall2 Hf'%mapR_Forall2.
  - inversion Hf; subst. by inversion Hf'.
  - apply Forall2_cons_inv_l in Hf as (f & rest & Hkv & Hf & ->). apply Forall2_cons_inv_r in Hf' as ([k' v'] & l1 & Hkv' & Hf' & ->).
    apply Forall_cons in Hl' as [Hv' Hl']. unfold reference_field in Hkv, Hkv'. cbn in Hkv, Hkv', Hv, Hv'.
    apply bind_Ok in Hkv as (b & Hb & [= <-]). apply bind_Ok in Hkv' as (b' & Hb' & [= -> ->]).
    f_equal; [f_equal; by eapply reference_bytes_inj|]. eapply IH; [done|by apply mapR_Forall2..].
Qed.

Lemma references_wf i : identity_wf i -> Forall (fun kv => reference_wf kv.2) (sorted_references (ji_references i)).
Proof.
  intros (_ & _ & _ & _ & Hr). apply Forall_forall. intros [k v] Hin. unfold sorted_references in Hin.
  rewrite sort_by_perm in Hin. apply elem_of_map_to_list in Hin. by eapply Hr.
Qed.

Lemma four_fields_inv {K V} (k1 k2 k3 k4 : K) (a b c d a' b' c' d' : V) r r' :
  Ok ([(k1, a); (k2, b); (k3, c); (k4, d)] ++ r) = Ok ([(k1, a'); (k2, b'); (k3, c'); (k4, d')] ++ r') ->
  a = a' /\ b = b' /\ c = c' /\ d = d' /\ r = r'.
Proof. by intros [= -> -> -> -> ->]. Qed.

Lemma preimage_inj i i' m :
  identity_wf i -> identity_wf i' -> deduplication_preimage i = Ok m -> deduplication_preimage i' = Ok m -> i = i'.
Proof.
  unfold deduplication_preimage. intros Hw Hw' Hm Hm'. do 2 (apply bind_Ok in Hm as (? & _ & Hm); apply bind_Ok in Hm' as (? & _ & Hm')).
  apply bind_Ok in Hm as (fs & Hf & Hm), Hm' as (fs' & Hf' & Hm'). apply bind_Ok in Hm as (fx & Hx & [= <-]), Hm' as (fy & Hy & [= Heq]).
  pose proof (framed_fields_inj _ _ _ _ Hx Hy (eq_sym Heq)) as <-.
  unfold identity_fields in Hf, Hf'.
  apply bind_Ok in Hf as (jt & Hjt & Hf), Hf' as (jt' & Hjt' & Hf'). apply bind_Ok in Hf as (at_ & Hat & Hf), Hf' as (at' & Hat' & Hf').
  apply bind_Ok in Hf as (rs & Hrs & Hf), Hf' as (rs' & Hrs' & Hf').
  rewrite <- Hf in Hf'. apply four_fields_inv in Hf' as (Htid & -> & -> & Hid & ->).
  pose proof (reference_fields_inj _ _ _ (references_wf _ Hw) (references_wf _ Hw') Hrs Hrs') as Hrefs.
  destruct i as [t j a o r], i' as [t' j' a' o' r'], Hw as (Ht & Hj & Ha & Ho & _), Hw' as (Ht' & Hj' & Ha' & Ho' & _). cbn in *.
  assert (t = t') as <- by (by apply uuid_bytes_inj). assert (j = j') as <- by (by eapply utf8_encode_inj).
  assert (a = a') as <- by (by eapply utf8_encode_inj).
  assert (o = o') as <-.
  { destruct o as [u|], o' as [u'|]; try done. f_equal. apply uuid_bytes_inj; auto. }
  f_equal. apply map_to_list_inj. unfold sorted_references in Hrefs.
  rewrite <- (sort_by_perm (fun a b => str_leb a.1 b.1) (map_to_list r)), Hrefs. apply sort_by_perm.
Qed.

(** The deduplication key identifies the side effect.  Two jobs get the same
    key only when tenant, job type, aggregate and every reference agree, unless
    the two messages that were hashed are different and have one SHA-256
    digest. *)
Theorem deduplication_key_identifies (i i' : JobIdentity) (key : pystr) :
  identity_wf i -> identity_wf i' -> outbox_deduplication_key i = Ok key -> outbox_deduplication_key i' = Ok key ->
  i = i' \/ exists m m', deduplication_preimage i = Ok m /\ deduplication_preimage i' = Ok m' /\
                        m <> m' /\ sha256_hex m = sha256_hex m'.
Proof.
  unfold outbox_deduplication_key. intros Hw Hw' Hk Hk'. apply bind_Ok in Hk as (m & Hm & [= <-]), Hk' as (m' & Hm' & [= Heq]).
  destruct (decide (m = m')) as [<-|Hne]; [left; by eapply preimage_inj|]. right. exists m, m'. by rewrite Heq.
Qed.

(** ** One job per side effect *)

Definition identity_columns (j : OutboxJob) : UUID * pystr * pystr :=
  (oj_tenant_id j, oj_job_type j, oj_deduplication_key j).

Lemma row_step_identity k a j o' :
  row_step k a (Some j) o' -> exists j', o' = Some j' /\ identity_columns j' = identity_columns j.
Proof.
  intros Hrow. inversion Hrow; subst; eauto;
    match goal with Hb : given_back _ _ |- _ => destruct Hb as (? & ? & ? & ? & ? & _ & _ & ->); eauto end.
Qed.

Lemma run_identity db actions db' k j :
  outbox_ok db -> outbox_run db actions db' -> ob_jobs db !! k = Some j ->
  exists j', ob_jobs db' !! k = Some j' /\ identity_columns j' = identity_columns j.
Proof.
  intros Hok Hrun. revert j. induction Hrun as [db|db a db1 actions db2 Hstep _ IH]; intros j Hj; [eauto|].
  pose proof (step_row _ _ _ k Hok Hstep) as Hrow. rewrite Hj in Hrow.
  apply row_step_identity in Hrow as (j1 & Hj1 & Heq). destruct (IH (step_ok _ _ _ Hok Hstep) j1 Hj1) as (j2 & Hj2 & Heq2).
  exists j2. split; [done|congruence].
Qed.

Lemma enqueue_Ok db db' job current_timestamp draw i priority max_attempts available_at job_uuid :
  enqueue_outbox_job db current_timestamp draw i priority max_attempts available_at job_uuid = Ok (db', job) ->
  exists key, outbox_deduplication_key i = Ok key /\ identity_columns job = (ji_tenant_id i, ji_job_type i, key) /\
    ob_jobs db' !! oj_job_id job = Some job /\
    existsb (same_identity job) (snd <$> map_to_list (ob_jobs db)) = false.
Proof.
  unfold enqueue_outbox_job. intros He. do 4 (apply bind_Ok in He as (? & _ & He)).
  apply bind_Ok in He as (key & Hkey & He). apply bind_Ok in He as (db1 & Hi & [= -> <-]). exists key. split; [done|].
  split; [done|]. unfold insert_job in Hi. apply bind_Ok in Hi as ([] & _ & Hi). apply bind_Ok in Hi as ([] & Hu%raise_if_Ok & Hi).
  apply bind_Ok in Hi as ([] & _ & [= <-]). split; [apply lookup_insert_eq|exact Hu].
Qed.

(** A side effect is enqueued at most once.  After a job was enqueued, no
    later enqueue of the same tenant, job type, aggregate and references
    succeeds, whatever happened to the job and however the other arguments are
    chosen. *)
Theorem one_job_per_effect (db db1 db2 : OutboxDb) (job : OutboxJob) (actions : list Action) (i : JobIdentity)
    (current_timestamp : instant) (draw : Z * Z) (priority max_attempts : Z) (available_at : option instant)
    (job_uuid : option UUID) :
  outbox_ok db ->
  enqueue_outbox_job db current_timestamp draw i priority max_attempts available_at job_uuid = Ok (db1, job) ->
  outbox_run db1 actions db2 ->
  forall current_timestamp' draw' priority' max_attempts' available_at' job_uuid' r,
    enqueue_outbox_job db2 current_timestamp' draw' i priority' max_attempts' available_at' job_uuid' <> Ok r.
Proof.
  intros Hok He Hrun ct d p m a u [db3 job'] He'. pose proof (enqueue_Ok _ _ _ _ _ _ _ _ _ _ He) as (key & Hkey & Hid & Hjob & _).
  apply enqueue_Ok in He' as (key' & Hkey' & Hid' & _ & Hfree). rewrite Hkey in Hkey'. injection Hkey' as <-.
  assert (Hok1 : outbox_ok db1) by (eapply step_ok; [exact Hok|by eapply step_enqueue]).
  destruct (run_identity _ _ _ _ _ Hok1 Hrun Hjob) as (j & Hj & Heq).
  rewrite existsb_false in Hfree. specialize (Hfree j). unfold same_identity in Hfree.
  unfold identity_columns in Heq, Hid, Hid'. rewrite Hid, <- Hid' in Heq. injection Heq as Ht Hty Hk. rewrite Ht, Hty, Hk in Hfree.
  rewrite Z.eqb_refl, (bool_decide_true (_ /\ _)), orb_true_r in Hfree by done. discriminate Hfree.
  apply list_elem_of_fmap. exists (oj_job_id job, j). by rewrite elem_of_map_to_list.
Qed.

(** ** Witnesses *)

Definition SAMPLE_TENANT : UUID := 7.
Definition SAMPLE_WORKER : pystr := py "embedding-worker:1".
Definition sample_draw (_ : nat) : Z * Z := (1700000000000000000, 5).
Definition embed_types : list pystr := [py "embed_memory"].

Definition sample_identity : JobIdentity :=
  {| ji_tenant_id := SAMPLE_TENANT; ji_job_type := py "embed_memory"; ji_aggregate_type := py "memory";
     ji_aggregate_id := Some 21;
     ji_references := {[ py "memory_id" := RefUUID 21; py "memory_version" := RefInt 3; py "event_id" := RefUUID 22 ]} |}.

Abbreviation sample_enqueue db := (enqueue_outbox_job db 10 (sample_draw 0) sample_identity 0 8 None None).

Definition ok_or {A} (default_ : A) (r : result A) : A := match r with Ok a => a | Err _ => default_ end.

Definition queued : OutboxDb * OutboxJob :=
  Eval vm_compute in
    match sample_enqueue (empty_outbox {[ SAMPLE_TENANT ]}) with
    | Ok r => r
    | Err _ => (empty_outbox ∅, lease_row [] 0 0 {| oj_job_id := 0; oj_job_uuid := 0; oj_tenant_id := 0; oj_job_type := [];
        oj_deduplication_key := []; oj_aggregate_type := []; oj_aggregate_id := None; oj_payload := []; oj_state := pending;
        oj_priority := 0; oj_available_at := 0; oj_lease_owner := None; oj_lease_expires_at := None; oj_attempt_count := 0;
        oj_max_attempts := 0; oj_last_error_code := None; oj_last_error_summary := None; oj_created_at := 0;
        oj_updated_at := 0; oj_completed_at := None |})
    end.

Definition sample_claim (db : OutboxDb) : result (OutboxDb * list ClaimedOutboxJob) :=
  claim SAMPLE_TENANT SAMPLE_WORKER embed_types 8 120 20 ∅ db sample_draw.

Definition claimed_db : OutboxDb * list ClaimedOutboxJob :=
  Eval vm_compute in ok_or (queued.1, []) (sample_claim queued.1).

Definition sample_token : pystr := Eval vm_compute in default [] (cj_lease_token <$> head claimed_db.2).

Definition done_db : OutboxDb :=
  Eval vm_compute in ok_or queued.1 (acknowledge_outbox_job claimed_db.1 30 SAMPLE_TENANT 1 sample_token None).

Lemma sample_enqueued : sample_enqueue (empty_outbox {[ SAMPLE_TENANT ]}) = Ok (queued.1, queued.2).
Proof. vm_compute. reflexivity. Qed.

Lemma sample_claimed : sample_claim queued.1 = Ok (claimed_db.1, claimed_db.2).
Proof. vm_compute. reflexivity. Qed.

Lemma sample_acknowledged : acknowledge_outbox_job claimed_db.1 30 SAMPLE_TENANT 1 sample_token None = Ok done_db.
Proof. vm_compute. reflexivity. Qed.

Definition sample_actions : list Action :=
  [Enqueued queued.2; Claimed claimed_db.2 20; Acknowledged 1 sample_token 30].

Lemma queued_step : outbox_step (empty_outbox {[ SAMPLE_TENANT ]}) (Enqueued queued.2) queued.1.
Proof. exact (step_enqueue _ queued.1 queued.2 10 (sample_draw 0) sample_identity 0 8 None None sample_enqueued). Qed.

Lemma claimed_step : outbox_step queued.1 (Claimed claimed_db.2 20) claimed_db.1.
Proof.
  exact (step_claim queued.1 claimed_db.1 claimed_db.2 true ∅ 20 sample_draw SAMPLE_TENANT SAMPLE_WORKER embed_types
    8 120 None sample_claimed).
Qed.

Lemma outbox_sample_run : outbox_run (empty_outbox {[ SAMPLE_TENANT ]}) sample_actions done_db.
Proof.
  eapply run_cons; [exact queued_step|]. eapply run_cons; [exact claimed_step|]. eapply run_cons; [|apply run_nil].
  apply (step_acknowledge claimed_db.1 done_db 30 SAMPLE_TENANT 1 sample_token None), sample_acknowledged.
Qed.

Lemma queued_ok : outbox_ok queued.1.
Proof. eapply step_ok; [apply empty_ok|exact queued_step]. Qed.

Lemma claimed_ok : outbox_ok claimed_db.1.
Proof. eapply step_ok; [exact queued_ok|exact claimed_step]. Qed.

Lemma outbox_invariant_witness :
  exists j, ob_jobs done_db !! 1 = Some j /\ job_row_ok j = true /\ oj_state j = succeeded.
Proof.
  destruct (ob_jobs done_db !! 1) as [j|] eqn:Hj; [|exfalso; vm_compute in Hj; discriminate Hj]. exists j. split; [reflexivity|].
  split; [apply (outbox_invariant _ _ _ outbox_sample_run 1 j Hj)|]. vm_compute in Hj. injection Hj as <-. reflexivity.
Defined.

Lemma attempts_bounded_witness : claim_count 1 sample_actions = 1 /\ 1 <= 8 <= 100.
Proof.
  destruct (ob_jobs done_db !! 1) as [j|] eqn:Hj; [|exfalso; vm_compute in Hj; discriminate Hj].
  pose proof (attempts_bounded {[ SAMPLE_TENANT ]} sample_actions done_db 1 j outbox_sample_run Hj) as [_ _].
  split; [vm_compute; reflexivity|lia].
Defined.

Lemma completed_is_final_witness : exists j, ob_jobs done_db !! 1 = Some j /\ Forall (fun a => ~ concerns 1 a) [].
Proof.
  destruct (ob_jobs done_db !! 1) as [j|] eqn:Hj; [|exfalso; vm_compute in Hj; discriminate Hj]. exists j.
  assert (Hok : outbox_ok done_db) by (eapply run_ok; [apply empty_ok|exact outbox_sample_run]).
  pose proof (completed_is_final done_db done_db [] 1 j Hok (run_nil done_db) Hj) as Hfin. rewrite Hj in Hfin. apply Hfin.
  left. vm_compute in Hj. injection Hj as <-. reflexivity.
Defined.

(** While the worker holds its lease, another worker finds nothing to claim. *)
Lemma lease_is_exclusive_witness :
  exists db', sample_claim claimed_db.1 = Ok (db', []) /\ ob_jobs db' !! 1 = ob_jobs claimed_db.1 !! 1.
Proof.
  destruct (sample_claim claimed_db.1) as [[db' cs]|e] eqn:Hc; [|exfalso; vm_compute in Hc; discriminate Hc].
  assert (cs = []) as -> by (vm_compute in Hc; injection Hc as _ <-; reflexivity). exists db'. split; [reflexivity|].
  destruct (ob_jobs claimed_db.1 !! 1) as [j|] eqn:Hj; [|exfalso; vm_compute in Hj; discriminate Hj].
  pose proof (lease_is_exclusive claimed_db.1 db' [Claimed [] 20] 1 j sample_token 120000020 claimed_ok) as Hex.
  apply Hex.
  - eapply run_cons; [|apply run_nil]. exact (step_claim claimed_db.1 db' [] true ∅ 20 _ _ _ _ _ _ None Hc).
  - exact Hj.
  - vm_compute in Hj. injection Hj as <-. reflexivity.
  - vm_compute in Hj. injection Hj as <-. reflexivity.
  - vm_compute in Hj. injection Hj as <-. reflexivity.
  - constructor; [|constructor]. split; [|reflexivity]. intros t [= <-]. lia.
Defined.

Lemma worker_never_violates_table_witness :
  acknowledge_outbox_job queued.1 30 SAMPLE_TENANT 1 sample_token None = Err LEASE_LOST /\
  is_database_error LEASE_LOST = false.
Proof.
  assert (He : acknowledge_outbox_job queued.1 30 SAMPLE_TENANT 1 sample_token None = Err LEASE_LOST) by (vm_compute; reflexivity).
  split; [exact He|]. destruct (worker_never_violates_table queued.1 LEASE_LOST queued_ok) as (_ & _ & Hack & _).
  exact (Hack _ _ _ _ _ He).
Defined.

(** A second job behind the first; a claim of one job passes it over. *)
Definition second_identity : JobIdentity :=
  {| ji_tenant_id := SAMPLE_TENANT; ji_job_type := py "embed_memory"; ji_aggregate_type := py "memory";
     ji_aggregate_id := Some 31;
     ji_references := {[ py "memory_id" := RefUUID 31; py "memory_version" := RefInt 1; py "event_id" := RefUUID 32 ]} |}.

Definition two_queued : OutboxDb * OutboxJob :=
  Eval vm_compute in
    ok_or queued (enqueue_outbox_job queued.1 11 (1700000000000000000, 6) second_identity 0 8 None None).

Lemma two_queued_ok : outbox_ok two_queued.1.
Proof.
  eapply step_ok; [exact queued_ok|].
  apply (step_enqueue queued.1 two_queued.1 two_queued.2 11 (1700000000000000000, 6) second_identity 0 8 None None).
  vm_compute. reflexivity.
Qed.

Definition one_claimed : OutboxDb * list ClaimedOutboxJob :=
  Eval vm_compute in
    ok_or (two_queued.1, []) (claim SAMPLE_TENANT SAMPLE_WORKER embed_types 1 120 20 ∅ two_queued.1 sample_draw).

Lemma due_jobs_are_claimed_witness :
  (exists db' claimed,
     claim SAMPLE_TENANT SAMPLE_WORKER embed_types 1 120 20 {[1]} two_queued.1 sample_draw = Ok (db', claimed) /\
     cj_job_id <$> claimed = [2] /\ due SAMPLE_TENANT embed_types 20 {[1]} db' = []) /\
  (1 <= size (ahead SAMPLE_TENANT embed_types two_queued.2 two_queued.1))%nat.
Proof.
  destruct (due_jobs_are_claimed SAMPLE_TENANT SAMPLE_WORKER embed_types 1 120 two_queued.1 two_queued_ok) as [Hclaim Hwait].
  split.
  - destruct (Hclaim 20 {[1]} sample_draw) as (db' & claimed & Hr & Hids & Hdue).
    + vm_compute. reflexivity.
    + intros n. vm_compute. reflexivity.
    + exists db', claimed. split; [exact Hr|]. split.
      * rewrite Hids. vm_compute. reflexivity.
      * rewrite Hdue. vm_compute. reflexivity.
  - apply (Hwait two_queued.2 1%nat one_claimed.1).
    eapply (waits_passed _ _ _ _ _ _ _ 20 ∅ sample_draw one_claimed.1 one_claimed.2); [vm_compute; reflexivity| | |constructor].
    + apply elem_of_due; [exact two_queued_ok|]. split; [vm_compute; reflexivity|]. split; [vm_compute; reflexivity|].
      apply not_elem_of_empty.
    + intros Hin. apply list_elem_of_singleton in Hin. vm_compute in Hin. discriminate Hin.
Defined.

Lemma sample_identity_wf : identity_wf sample_identity.
Proof.
  assert (Hpoints : forall s, forallb (fun c => (0 <=? c) && (c <? 0x110000)) s = true -> Forall code_point s).
  { intros s Hs. apply Forall_forall. intros c Hc. rewrite forallb_forall in Hs. apply list_elem_of_In, Hs in Hc.
    unfold code_point. lia. }
  split; [by unfold uuid_range|]. split; [by apply Hpoints|]. split; [by apply Hpoints|]. split.
  - by intros u [= <-].
  - intros k v Hk. cbn [ji_references sample_identity] in Hk.
    repeat (apply lookup_insert_Some in Hk as [[_ <-]|[_ Hk]]; [done|]). by apply lookup_singleton_Some in Hk as [_ <-].
Qed.

Lemma deduplication_key_identifies_witness :
  sample_identity = sample_identity \/
  exists m m', deduplication_preimage sample_identity = Ok m /\ deduplication_preimage sample_identity = Ok m' /\
    m <> m' /\ sha256_hex m = sha256_hex m'.
Proof.
  destruct (outbox_deduplication_key sample_identity) as [key|e] eqn:Hk; [|exfalso; vm_compute in Hk; discriminate Hk].
  apply (deduplication_key_identifies sample_identity sample_identity key); [exact sample_identity_wf|exact sample_identity_wf|exact Hk|exact Hk].
Defined.

Lemma one_job_per_effect_witness : sample_enqueue claimed_db.1 = Err (DBAPIError "23505") /\ forall r, sample_enqueue claimed_db.1 <> Ok r.
Proof.
  split; [vm_compute; reflexivity|].
  exact (one_job_per_effect (empty_outbox {[ SAMPLE_TENANT ]}) queued.1 claimed_db.1 queued.2 [Claimed claimed_db.2 20]
    sample_identity 10 (sample_draw 0) 0 8 None None (empty_ok _) sample_enqueued
    (run_cons _ _ _ _ _ claimed_step (run_nil _)) 10 (sample_draw 0) 0 8 None None).
Defined.
