(* ===== verification/Fingerprints.v ===== *)
(** * Fingerprints: exact-memory identity

    Models [domain/fingerprints.py]: the whitespace normalization of a claim's
    text, the SHA-256 fingerprint of its semantic fields, and the statement-free
    advisory-lock bytes. *)

From stdpp Require Import base tactics option list gmap sets strings sorting.
From Stdlib Require Import ZArith Lia Bool Sorted.
From S2P Require Import Prelude Identifiers Enums Values CanonicalJson Digest Constraints Events.
Open Scope Z_scope.

(** ** Text normalization *)

(** [value.replace("\r\n", "\n")] *)
Fixpoint replace_crlf (s : pystr) : pystr :=
  match s with
  | [] => []
  | c :: rest =>
    match rest with
    | d :: rest' => if (c =? 13) && (d =? 10) then 10 :: replace_crlf rest' else c :: replace_crlf rest
    | [] => [c]
    end
  end.

(** [value.replace("\r", "\n")] *)
Definition replace_cr (s : pystr) : pystr := (fun c => if c =? 13 then 10 else c) <$> s.

(** [re.compile(r"[ \t]+").sub(" ", value)]; [in_run] holds inside a match. *)
Definition is_horizontal (c : Z) : bool := (c =? 32) || (c =? 9).

Fixpoint collapse (in_run : bool) (s : pystr) : pystr :=
  match s with
  | [] => []
  | c :: rest =>
    if is_horizontal c then (if in_run then collapse true rest else 32 :: collapse true rest)
    else c :: collapse false rest
  end.

(** [value.strip(" \t\r\n")] *)
Definition is_strippable (c : Z) : bool := (c =? 32) || (c =? 9) || (c =? 13) || (c =? 10).

Fixpoint lstrip (s : pystr) : pystr :=
  match s with
  | [] => []
  | c :: rest => if is_strippable c then lstrip rest else s
  end.

Definition strip (s : pystr) : pystr := rev (lstrip (rev (lstrip s))).

Definition normalized_text (value : pystr) : pystr := strip (collapse false (replace_cr (replace_crlf value))).

Definition normalize_text (value : pystr) (field_name : string) : result pystr :=
  raise_if (bool_decide (normalized_text value = [])) (DomainValidationError (field_name ++ " must not be blank"));;
  Ok (normalized_text value).

(** ** Fields *)

(** An argument that may be a member or its wire value. *)
Definition enum_field {E} `{StrEnum E} (value : E + string) (field_name : string) : result pystr :=
  match value with
  | inl x => Ok (py (enum_value x))
  | inr wire => match enum_of_value E wire with
                | Some x => Ok (py (enum_value x))
                | None => Err (DomainValidationError (field_name ++ " is invalid"))
                end
  end.

Definition normalized_interpretation_limits (limits : list pystr) : result (list pystr) :=
  texts ← mapR (fun limit => normalize_text limit "interpretation limit") limits;
  let normalized := remove_dups texts in
  raise_if (32 <? length normalized)%nat (DomainValidationError "interpretation_limits cannot exceed 32 entries");;
  Ok (sort_by str_leb normalized).

(** ** The fingerprint *)

Definition FINGERPRINT_VERSION : Z := 1.

Record ExactMemoryFingerprint : Type := { sha256_hex_ : pystr; canonical_lock_input : bytes }.

Section Fingerprint.
Context `{Rfc8785}.

Definition fingerprint_preimage (statement : pystr) (category : MemoryCategory + string)
    (ontological_status : OntologicalStatus + string) (scope : MemoryScope + string) (limits : list pystr)
    : result JsonValue :=
  statement' ← normalize_text statement "statement";
  category' ← enum_field category "category";
  ontological_status' ← enum_field ontological_status "ontological_status";
  scope' ← enum_field scope "scope";
  limits' ← normalized_interpretation_limits limits;
  Ok (JObject [(py "fingerprint_version", JInt FINGERPRINT_VERSION); (py "statement", JStr statement');
               (py "category", JStr category'); (py "ontological_status", JStr ontological_status');
               (py "scope", JStr scope'); (py "interpretation_limits", JArray (JStr <$> limits'))]).

Definition exact_memory_fingerprint (statement : pystr) (category : MemoryCategory + string)
    (ontological_status : OntologicalStatus + string) (scope : MemoryScope + string) (limits : list pystr)
    : result ExactMemoryFingerprint :=
  preimage ← fingerprint_preimage statement category ontological_status scope limits;
  bytes ← canonical_plain_bytes preimage;
  let digest := sha256_hex bytes in
  lock_input ← canonical_plain_bytes (JObject [(py "fingerprint_version", JInt FINGERPRINT_VERSION);
                                               (py "normalized_fingerprint", JStr digest)]);
  Ok {| sha256_hex_ := digest; canonical_lock_input := lock_input |}.

Definition advisory_lock_input (tenant_id lineage_id branch_id subject_id : UUID)
    (fingerprint : ExactMemoryFingerprint + pystr) : result bytes :=
  let digest := match fingerprint with inl f => sha256_hex_ f | inr s => s end in
  require (hex_digest_ok digest)
    (DomainValidationError "normalized fingerprint must be lowercase SHA-256 hexadecimal");;
  tenant ← require_uuid7 tenant_id;
  lineage ← require_uuid7 lineage_id;
  branch ← require_uuid7 branch_id;
  subject ← require_uuid7 subject_id;
  canonical_plain_bytes (JObject [(py "tenant_id", JStr (uuid_str tenant)); (py "lineage_id", JStr (uuid_str lineage));
    (py "branch_id", JStr (uuid_str branch)); (py "subject_id", JStr (uuid_str subject));
    (py "normalized_fingerprint", JStr digest)]).
End Fingerprint.

(** ** Normalization lemmas *)

(** No tab, and no space after a space. *)
Fixpoint calm (after_space : bool) (s : pystr) : Prop :=
  match s with
  | [] => True
  | c :: rest => c <> 9 /\ (c = 32 -> after_space = false) /\ calm (c =? 32) rest
  end.

Lemma calm_weaken b s : calm b s -> calm false s.
Proof. destruct s; cbn; tauto. Qed.

Lemma calm_app b x y : calm b (x ++ y) -> calm b x /\ calm false y.
Proof.
  revert b. induction x as [|c x IH]; intros b; [split; [done|by eapply calm_weaken]|].
  intros (H1 & H2 & H3). apply IH in H3 as [? ?]. split; [by split|done].
Qed.

Lemma horizontal_spec c : is_horizontal c = true <-> c = 32 \/ c = 9.
Proof. unfold is_horizontal. lia. Qed.

Lemma collapse_calm b s : calm b (collapse b s).
Proof.
  revert b. induction s as [|c s IH]; intros b; [done|]. cbn [collapse]. destruct (is_horizontal c) eqn:E.
  - destruct b; [apply IH|]. split; [done|]. split; [done|]. apply IH.
  - assert (c <> 32 /\ c <> 9) as [Hs Ht] by (split; intros ->; discriminate E). split; [done|]. split; [done|].
    rewrite (proj2 (Z.eqb_neq c 32)) by done. apply IH.
Qed.

Lemma collapse_id b s : calm b s -> collapse b s = s.
Proof.
  revert b. induction s as [|c s IH]; intros b; [done|]. intros (H1 & H2 & H3). cbn [collapse].
  destruct (is_horizontal c) eqn:E.
  - apply horizontal_spec in E as [->|?]; [|done]. rewrite H2 by done. f_equal. by apply IH.
  - f_equal. assert (c <> 32) by (intros ->; discriminate E). rewrite (proj2 (Z.eqb_neq c 32)) in H3 by done. by apply IH.
Qed.

Lemma collapse_no_cr b s : 13 ∉ s -> 13 ∉ collapse b s.
Proof.
  revert b. induction s as [|c s IH]; intros b; [done|]. rewrite not_elem_of_cons. intros [Hc Hs]. cbn [collapse].
  destruct (is_horizontal c); [destruct b|]; rewrite ?not_elem_of_cons; try split; try done; by apply IH.
Qed.

Lemma replace_cr_no_cr s : 13 ∉ replace_cr s.
Proof. unfold replace_cr. rewrite list_elem_of_fmap. intros (c & Hc & _). destruct (Z.eqb_spec c 13); lia. Qed.

Lemma replace_cr_id s : 13 ∉ s -> replace_cr s = s.
Proof.
  unfold replace_cr. induction s as [|c s IH]; [done|]. rewrite not_elem_of_cons. intros [Hc Hs]. rewrite fmap_cons, IH by done.
  by rewrite (proj2 (Z.eqb_neq c 13)) by done.
Qed.

Lemma replace_crlf_id s : 13 ∉ s -> replace_crlf s = s.
Proof.
  induction s as [|c s IH]; [done|]. rewrite not_elem_of_cons. intros [Hc Hs]. cbn [replace_crlf].
  destruct s as [|d s]; [done|]. rewrite (proj2 (Z.eqb_neq c 13)) by done. cbn [andb]. by rewrite IH.
Qed.

(** *** Stripping *)

Lemma lstrip_split s : exists a, s = a ++ lstrip s /\ Forall (fun c => is_strippable c = true) a /\
  forall c, head (lstrip s) = Some c -> is_strippable c = false.
Proof.
  induction s as [|c s (a & Hs & Ha & Hh)]; [by exists []|]. cbn [lstrip]. destruct (is_strippable c) eqn:E.
  - exists (c :: a). cbn. rewrite <- Hs. split; [done|]. split; [by constructor|done].
  - exists []. split; [done|]. split; [done|]. by intros ? [= <-].
Qed.

Lemma lstrip_id s : (forall c, head s = Some c -> is_strippable c = false) -> lstrip s = s.
Proof. destruct s as [|c s]; [done|]. intros Hc. cbn. by rewrite (Hc c). Qed.

(** A text without leading or trailing strippable characters. *)
Definition trimmed (s : pystr) : Prop :=
  (forall c, head s = Some c -> is_strippable c = false) /\ (forall c, last s = Some c -> is_strippable c = false).

Lemma head_rev {A} (l : list A) : head (rev l) = last l.
Proof. induction l as [|x l _] using rev_ind; [done|]. by rewrite rev_app_distr, last_snoc. Qed.

Lemma strip_id s : trimmed s -> strip s = s.
Proof.
  intros [Hh Hl]. unfold strip. rewrite (lstrip_id s) by done. rewrite lstrip_id; [apply rev_involutive|].
  intros c. rewrite head_rev. apply Hl.
Qed.

Lemma strip_split s : exists a b, s = a ++ strip s ++ b /\ Forall (fun c => is_strippable c = true) a /\
  Forall (fun c => is_strippable c = true) b /\ trimmed (strip s).
Proof.
  destruct (lstrip_split s) as (a & Hs & Ha & Hh). destruct (lstrip_split (rev (lstrip s))) as (b & Hr & Hb & Hl).
  assert (Hmid : lstrip s = strip s ++ rev b).
  { unfold strip. rewrite <- rev_app_distr, <- Hr. by rewrite rev_involutive. }
  exists a, (rev b). split; [by rewrite <- Hmid|]. split; [done|]. split; [by apply Forall_rev|].
  split.
  - intros c Hc. apply Hh. rewrite Hmid. by destruct (strip s).
  - intros c Hc. apply Hl. rewrite <- head_rev in Hc. unfold strip in Hc. by rewrite rev_involutive in Hc.
Qed.

(** ** What normalization keeps *)

Abbreviation ink s := (filter (fun c => is_strippable c = false) s).

Lemma ink_blank s : Forall (fun c => is_strippable c = true) s -> ink s = [].
Proof. induction 1 as [|c s Hc _ IH]; [done|]. by rewrite filter_cons, decide_False by congruence. Qed.

Lemma ink_cons c s : ink (c :: s) = if is_strippable c then ink s else c :: ink s.
Proof.
  rewrite filter_cons. destruct (is_strippable c); [by rewrite decide_False|by rewrite decide_True].
Qed.

Lemma ink_replace_crlf s : ink (replace_crlf s) = ink s.
Proof.
  induction s as [s IH] using (induction_ltof1 _ length). unfold ltof in IH.
  destruct s as [|c [|d s]]; [done..|].
  change (replace_crlf (c :: d :: s))
    with (if (c =? 13) && (d =? 10) then 10 :: replace_crlf s else c :: replace_crlf (d :: s)). destruct ((c =? 13) && (d =? 10)) eqn:E.
  - apply andb_true_iff in E as [->%Z.eqb_eq ->%Z.eqb_eq]. rewrite !ink_cons. cbn [is_strippable]. apply IH. cbn. lia.
  - rewrite !(ink_cons c). rewrite (IH (d :: s)) by (cbn; lia). done.
Qed.

Lemma ink_replace_cr s : ink (replace_cr s) = ink s.
Proof.
  induction s as [|c s IH]; [done|]. unfold replace_cr in *. rewrite fmap_cons, !ink_cons, IH.
  destruct (Z.eqb_spec c 13) as [->|]; done.
Qed.

Lemma ink_collapse b s : ink (collapse b s) = ink s.
Proof.
  revert b. induction s as [|c s IH]; intros b; [done|]. cbn [collapse]. destruct (is_horizontal c) eqn:E.
  - assert (Hc : is_strippable c = true) by (apply horizontal_spec in E as [->| ->]; done). rewrite (ink_cons c), Hc.
    destruct b; [apply IH|]. rewrite ink_cons. apply IH.
  - rewrite !(ink_cons c), IH. done.
Qed.

Lemma ink_strip s : ink (strip s) = ink s.
Proof.
  destruct (strip_split s) as (a & b & Hs & Ha & Hb & _). rewrite Hs at 2. rewrite !filter_app, (ink_blank a), (ink_blank b) by done.
  by rewrite app_nil_r.
Qed.

(** Every text [normalize_text] returns is one it leaves alone. *)
Lemma normalized_text_shape s :
  13 ∉ normalized_text s /\ calm false (normalized_text s) /\ trimmed (normalized_text s).
Proof.
  unfold normalized_text. set (t := collapse false _). destruct (strip_split t) as (a & b & Ht & _ & _ & Htr).
  assert (Hcr : 13 ∉ t) by apply collapse_no_cr, replace_cr_no_cr.
  assert (Hcalm : calm false t) by apply collapse_calm.
  rewrite Ht in Hcr, Hcalm. rewrite !elem_of_app in Hcr. apply calm_app in Hcalm as [_ Hcalm]. apply calm_app in Hcalm as [Hcalm _].
  split; [tauto|done].
Qed.

(** Fingerprint normalization is idempotent and touches ASCII white space
    only.  A normalized text is its own normalization, has no carriage return,
    no tab, no double space and no blank end, and its other characters are
    those of the original, in order: case and Unicode are preserved. *)
Theorem normalize_text_idempotent (value text : pystr) (field_name : string) :
  normalize_text value field_name = Ok text ->
  normalize_text text field_name = Ok text /\ text <> [] /\ 13 ∉ text /\ calm false text /\ trimmed text /\
  filter (fun c => is_strippable c = false) text = filter (fun c => is_strippable c = false) value.
Proof.
  unfold normalize_text. intros Hn. apply bind_Ok in Hn as ([] & Hne%raise_if_Ok%bool_decide_eq_false & [= <-]).
  destruct (normalized_text_shape value) as (Hcr & Hcalm & Htr).
  assert (Hid : normalized_text (normalized_text value) = normalized_text value).
  { unfold normalized_text at 1. rewrite replace_crlf_id, replace_cr_id by (rewrite ?replace_crlf_id; done).
    rewrite collapse_id by done. by apply strip_id. }
  rewrite Hid, bool_decide_false by done. split; [done|]. split; [done|]. split; [done|]. split; [done|]. split; [done|].
  unfold normalized_text. by rewrite ink_strip, ink_collapse, ink_replace_cr, ink_replace_crlf.
Qed.

Lemma normalize_text_idempotent_witness :
  exists text, normalize_text (py " Likes	green   tea ") "statement" = Ok text /\ text = py "Likes green tea" /\
    normalize_text text "statement" = Ok text.
Proof.
  exists (py "Likes green tea"). split; [vm_compute; reflexivity|]. split; [reflexivity|].
  apply (normalize_text_idempotent (py " Likes	green   tea ") (py "Likes green tea") "statement"). vm_compute. reflexivity.
Defined.

(** ** Interpretation limits are a set *)

Lemma mapR_all_or_first {A B} (f : A -> result B) e l :
  (forall a, is_ok (f a) = true \/ f a = Err e) -> is_ok (mapR f l) = true \/ mapR f l = Err e.
Proof.
  intros Hf. induction l as [|a l IH]; [by left|]. cbn. destruct (f a) as [b|e'] eqn:E; cbn.
  - destruct IH as [Hl|Hl]; destruct (mapR f l); cbn in *; simplify_eq; auto.
  - right. destruct (Hf a) as [Ha|Ha]; rewrite E in Ha; [done|]. by injection Ha as ->.
Qed.

Lemma mapR_same_set {A B} (f : A -> result B) e l l' bs :
  (forall a, is_ok (f a) = true \/ f a = Err e) -> (forall a, a ∈ l <-> a ∈ l') -> mapR f l = Ok bs ->
  exists bs', mapR f l' = Ok bs' /\ forall b, b ∈ bs <-> b ∈ bs'.
Proof.
  intros Hf Hset Hl%mapR_Forall2. destruct (mapR_total f l') as (bs' & Hl').
  { intros a Ha%Hset. apply list_elem_of_lookup in Ha as (i & Hi). destruct (Forall2_lookup_l _ _ _ _ _ Hl Hi) as (b & _ & Hb). eauto. }
  exists bs'. split; [done|]. apply mapR_Forall2 in Hl'. intros b. split; intros Hb.
  - apply list_elem_of_lookup in Hb as (i & Hi). destruct (Forall2_lookup_r _ _ _ _ _ Hl Hi) as (a & Ha & Hab).
    apply list_elem_of_lookup_2, Hset, list_elem_of_lookup in Ha as (n & Hn).
    destruct (Forall2_lookup_l _ _ _ _ _ Hl' Hn) as (b' & Hb' & Hab'). rewrite Hab in Hab'. injection Hab' as <-.
    by eapply list_elem_of_lookup_2.
  - apply list_elem_of_lookup in Hb as (i & Hi). destruct (Forall2_lookup_r _ _ _ _ _ Hl' Hi) as (a & Ha & Hab).
    apply list_elem_of_lookup_2, Hset, list_elem_of_lookup in Ha as (n & Hn).
    destruct (Forall2_lookup_l _ _ _ _ _ Hl Hn) as (b' & Hb' & Hab'). rewrite Hab in Hab'. injection Hab' as <-.
    by eapply list_elem_of_lookup_2.
Qed.

(** A sorted list of strings without duplicates is determined by its elements. *)
Lemma sorted_strings_unique (l l' : list pystr) :
  (forall x, x ∈ l <-> x ∈ l') -> remove_dups l ≡ₚ remove_dups l' /\
  sort_by str_leb (remove_dups l) = sort_by str_leb (remove_dups l').
Proof.
  intros Hset. assert (Hp : remove_dups l ≡ₚ remove_dups l').
  { apply NoDup_Permutation; [apply NoDup_remove_dups..|]. intros x. by rewrite !elem_of_remove_dups. }
  split; [done|]. apply sort_by_unique.
  - intros x y ?. by apply str_leb_total.
  - apply str_leb_trans.
  - intros x y _ _. by apply str_leb_antisym.
  - apply sort_by_ordered; [intros; by apply str_leb_total|apply str_leb_trans].
  - by rewrite Hp, sort_by_perm.
Qed.

Lemma limits_set_like limits limits' :
  (forall x, x ∈ limits <-> x ∈ limits') ->
  normalized_interpretation_limits limits = normalized_interpretation_limits limits'.
Proof.
  intros Hset. unfold normalized_interpretation_limits.
  set (f := fun limit => normalize_text limit "interpretation limit").
  set (e := DomainValidationError "interpretation limit must not be blank").
  assert (Hf : forall a, is_ok (f a) = true \/ f a = Err e).
  { intros a. unfold f, normalize_text, raise_if. destruct (bool_decide _); [by right|by left]. }
  destruct (mapR_all_or_first f e limits Hf) as [Hl|Hl].
  - destruct (mapR f limits) as [bs|] eqn:Hbs; [|done]. destruct (mapR_same_set f e _ _ _ Hf Hset Hbs) as (bs' & -> & Hel). cbn.
    destruct (sorted_strings_unique _ _ Hel) as [Hp Hs]. by rewrite Hs, (Permutation_length Hp).
  - rewrite Hl. cbn. destruct (mapR_all_or_first f e limits' Hf) as [Hl'|Hl']; [|by rewrite Hl'].
    destruct (mapR f limits') as [bs'|] eqn:Hbs'; [|done].
    destruct (mapR_same_set f e limits' limits bs' Hf) as (bs & Hbs & _); [by intros; rewrite Hset|done|congruence].
Qed.

(** Interpretation limits are a set-like dimension of the fingerprint.
    Reordering or repeating limits changes neither the digest, nor the lock
    token, nor which error is raised. *)
Theorem fingerprint_limits_set_like `{Rfc8785} (statement : pystr) (category : MemoryCategory + string)
    (ontological_status : OntologicalStatus + string) (scope : MemoryScope + string) (limits limits' : list pystr) :
  (forall x, x ∈ limits <-> x ∈ limits') ->
  exact_memory_fingerprint statement category ontological_status scope limits
  = exact_memory_fingerprint statement category ontological_status scope limits'.
Proof.
  intros Hset. unfold exact_memory_fingerprint, fingerprint_preimage. by rewrite (limits_set_like _ _ Hset).
Qed.

Lemma fingerprint_limits_set_like_witness :
  let dumps : Rfc8785 := fun _ => Some [1] in
  exact_memory_fingerprint (py "tea") (inl MemoryCategory.USER_PREFERENCE) (inr "user_stated"%string) (inl MemoryScope.PERSONA)
    [py "b"; py "a"; py "b"]
  = exact_memory_fingerprint (py "tea") (inl MemoryCategory.USER_PREFERENCE) (inr "user_stated"%string) (inl MemoryScope.PERSONA)
      [py "a"; py "b"].
Proof.
  intros dumps. apply fingerprint_limits_set_like. intros x. rewrite !elem_of_cons, elem_of_nil. tauto.
Defined.
