(* ===== verification/Locks.v ===== *)
(** * Locks: advisory-lock keys and ordered acquisition

    Models [storage/locks.py] with the part of [hashlib.blake2b] it uses
    (sequential hashing without a key, a digest size and a personalization),
    executable, and a lock manager in which transactions acquire their keys one
    by one. *)

From stdpp Require Import base tactics option list gmap sets strings sorting.
From Stdlib Require Import ZArith Lia Bool Sorted.
From S2P Require Import Prelude Identifiers Values CanonicalJson Digest Text Events EventStore.
Open Scope Z_scope.

(** ** BLAKE2b *)

Definition u64 (x : Z) : Z := Z.land x 0xffffffffffffffff.
Definition rotr64 (n x : Z) : Z := Z.lor (Z.shiftr x n) (u64 (Z.shiftl x (64 - n))).

Definition blake2b_iv : list Z :=
  Eval vm_compute in (fun p => Z.sqrt (p * 2 ^ 128) mod 2 ^ 64) <$> first_primes 8.

Definition blake2b_sigma : list (list nat) :=
  [[0; 1; 2; 3; 4; 5; 6; 7; 8; 9; 10; 11; 12; 13; 14; 15];
   [14; 10; 4; 8; 9; 15; 13; 6; 1; 12; 0; 2; 11; 7; 5; 3];
   [11; 8; 12; 0; 5; 2; 15; 13; 10; 14; 3; 6; 7; 1; 9; 4];
   [7; 9; 3; 1; 13; 12; 11; 14; 2; 6; 5; 10; 4; 0; 15; 8];
   [9; 0; 5; 7; 2; 4; 10; 15; 14; 1; 11; 12; 6; 8; 3; 13];
   [2; 12; 6; 10; 0; 11; 8; 3; 4; 13; 7; 5; 15; 14; 1; 9];
   [12; 5; 1; 15; 14; 13; 4; 10; 0; 7; 6; 3; 9; 2; 8; 11];
   [13; 11; 7; 14; 12; 1; 3; 9; 5; 0; 15; 4; 8; 6; 2; 10];
   [6; 15; 14; 9; 11; 3; 0; 8; 12; 2; 13; 7; 1; 4; 10; 5];
   [10; 2; 8; 4; 7; 6; 1; 5; 15; 11; 9; 14; 3; 12; 13; 0]]%nat.

(** Little-endian words and bytes. *)
Fixpoint le_value (b : bytes) : Z := match b with [] => 0 | x :: rest => x + 256 * le_value rest end.
Fixpoint le_bytes (n : nat) (v : Z) : bytes :=
  match n with O => [] | S n' => v mod 256 :: le_bytes n' (v / 256) end.
Fixpoint le_words (n : nat) (b : bytes) : list Z :=
  match n with O => [] | S n' => le_value (take 8 b) :: le_words n' (drop 8 b) end.

Definition word (v : list Z) (i : nat) : Z := nth i v 0.

(** The quarter round on the state words [a], [b], [c], [d]. *)
Definition blake2b_mix (v : list Z) (a b c d : nat) (x y : Z) : list Z :=
  let va := u64 (word v a + word v b + x) in
  let vd := rotr64 32 (Z.lxor (word v d) va) in
  let vc := u64 (word v c + vd) in
  let vb := rotr64 24 (Z.lxor (word v b) vc) in
  let va' := u64 (va + vb + y) in
  let vd' := rotr64 16 (Z.lxor vd va') in
  let vc' := u64 (vc + vd') in
  let vb' := rotr64 63 (Z.lxor vb vc') in
  <[a := va']> (<[b := vb']> (<[c := vc']> (<[d := vd']> v))).

Definition blake2b_round (m : list Z) (v : list Z) (s : list nat) : list Z :=
  let g v i a b c d := blake2b_mix v a b c d (word m (nth (2 * i) s O)) (word m (nth (2 * i + 1) s O)) in
  fold_left (fun v '(i, a, b, c, d) => g v i a b c d)
    [(0, 0, 4, 8, 12); (1, 1, 5, 9, 13); (2, 2, 6, 10, 14); (3, 3, 7, 11, 15);
     (4, 0, 5, 10, 15); (5, 1, 6, 11, 12); (6, 2, 7, 8, 13); (7, 3, 4, 9, 14)]%nat v.

(** The compression function; [t] counts the bytes hashed. *)
Definition blake2b_compress (h : list Z) (block : bytes) (t : Z) (final : bool) : list Z :=
  let v0 := h ++ take 4 blake2b_iv
            ++ [Z.lxor (word blake2b_iv 4) (u64 t); Z.lxor (word blake2b_iv 5) (Z.shiftr t 64);
                if final then Z.lxor (word blake2b_iv 6) 0xffffffffffffffff else word blake2b_iv 6;
                word blake2b_iv 7] in
  let m := le_words 16 block in
  let v := fold_left (blake2b_round m) (blake2b_sigma ++ take 2 blake2b_sigma) v0 in
  imap (fun i x => Z.lxor x (Z.lxor (word v i) (word v (i + 8)%nat))) h.

Fixpoint blake2b_blocks (fuel : nat) (h : list Z) (message : bytes) (t : Z) : list Z :=
  let n := length message in
  match fuel with
  | O => h
  | S fuel' =>
    if (n <=? 128)%nat
    then blake2b_compress h (message ++ replicate (128 - n) 0) (t + Z.of_nat n) true
    else blake2b_blocks fuel' (blake2b_compress h (take 128 message) (t + 128) false) (drop 128 message) (t + 128)
  end.

(** [hashlib.blake2b(message, digest_size=digest_size, person=person).digest()] *)
Definition blake2b (digest_size : Z) (person message : bytes) : bytes :=
  let parameters := [digest_size; 0; 1; 1] ++ replicate 28 0 ++ replicate 16 0
                    ++ person ++ replicate (16 - length person) 0 in
  let h := zip_with Z.lxor blake2b_iv (le_words 8 parameters) in
  take (Z.to_nat digest_size)
    (mjoin (le_bytes 8 <$> blake2b_blocks (S (length message)) h message 0)).

(** ** Keys *)

Definition AGGREGATE_LOCK_DOMAIN : bytes := py "sv-aggregate-v1".
Definition IDEMPOTENCY_LOCK_DOMAIN : bytes := py "sv-idempotency1".

Definition be_value (b : bytes) : Z := fold_left (fun acc x => 256 * acc + x) b 0.

(** [int.from_bytes(b, "big", signed=True)] *)
Definition from_bytes_signed (b : bytes) : Z :=
  let v := be_value b in
  let bits := 8 * Z.of_nat (length b) in
  if (0 <? bits) && (2 ^ (bits - 1) <=? v) then v - 2 ^ bits else v.

(** [_framed(identifier.bytes)] for an identifier of the current version *)
Definition framed_identifier (identifier : UUID) : result bytes :=
  u ← require_uuid7 identifier;
  framed 4 (be_bytes 16 u).

Definition fingerprint_bytes (normalized_fingerprint : pystr + bytes) : result bytes :=
  match normalized_fingerprint with
  | inl text =>
    require (hex_digest_ok text)
      (ValueError "normalized_fingerprint must be exactly 64 lowercase hex characters");;
    from_option_or (fromhex text) (ValueError "non-hexadecimal number")
  | inr raw =>
    require (length raw =? 32)%nat (ValueError "normalized_fingerprint must be exactly 32 bytes");;
    Ok raw
  end.

Definition advisory_lock_key (tenant_id lineage_id branch_id subject_id : UUID)
    (normalized_fingerprint : pystr + bytes) : result Z :=
  fingerprint ← fingerprint_bytes normalized_fingerprint;
  identifiers ← mapR framed_identifier [tenant_id; lineage_id; branch_id; subject_id];
  tail ← framed 4 fingerprint;
  Ok (from_bytes_signed (blake2b 8 AGGREGATE_LOCK_DOMAIN (mjoin (M := list) identifiers ++ tail))).

Definition idempotency_advisory_lock_key (tenant_id client_id : UUID) (idempotency_key : pystr) : result Z :=
  require ((1 <=? length idempotency_key) && (length idempotency_key <=? 255))%nat
    (ValueError "idempotency_key must contain between 1 and 255 characters");;
  identifiers ← mapR framed_identifier [tenant_id; client_id];
  encoded ← utf8_encode idempotency_key;
  tail ← framed 4 encoded;
  Ok (from_bytes_signed (blake2b 8 IDEMPOTENCY_LOCK_DOMAIN (mjoin (M := list) identifiers ++ tail))).

Definition in_bigint (key : Z) : bool := (- 2 ^ 63 <=? key) && (key <? 2 ^ 63).

Definition LOCK_RANGE_ERROR : exn := ValueError "advisory lock key must fit a signed 64-bit integer".

Definition ordered_lock_keys (keys : list Z) : result (list Z) :=
  let unique := remove_dups keys in
  require (forallb in_bigint unique) LOCK_RANGE_ERROR;;
  Ok (sort_by Z.leb unique).

(** ** Acquisition *)

(** The statements a transaction sends: each asks the server for one key. *)
Definition acquire_advisory_xact_lock (key : Z) : result (list Z) :=
  require (in_bigint key) LOCK_RANGE_ERROR;;
  Ok [key].

Definition acquire_advisory_xact_locks (keys : list Z) : result (list Z) :=
  ordered ← ordered_lock_keys keys;
  requests ← mapR acquire_advisory_xact_lock ordered;
  Ok (mjoin (M := list) requests).

(** The server: who holds each key, and what each running transaction still
    asks for.  A transaction waits while another holds its next key; a key it
    holds itself is granted again; the end of the transaction releases all. *)
Record LockManager : Type := { lm_owner : gmap Z nat; lm_waiting : gmap nat (list Z) }.

Inductive lock_step (s : LockManager) : LockManager -> Prop :=
| lock_grant tx key rest :
  lm_waiting s !! tx = Some (key :: rest) -> lm_owner s !! key = None \/ lm_owner s !! key = Some tx ->
  lock_step s {| lm_owner := <[key := tx]> (lm_owner s); lm_waiting := <[tx := rest]> (lm_waiting s) |}
| lock_release tx :
  lm_waiting s !! tx = Some [] ->
  lock_step s {| lm_owner := filter (fun kv => kv.2 <> tx) (lm_owner s); lm_waiting := delete tx (lm_waiting s) |}.

(** ** Derived keys fit the server's key space *)

Lemma be_value_bound b : Forall is_byte b -> 0 <= be_value b < 256 ^ Z.of_nat (length b).
Proof.
  unfold be_value. induction b as [|x b IH] using rev_ind; [done|]. intros [Hb Hx]%Forall_app.
  apply Forall_cons in Hx as [Hx _]. unfold is_byte in Hx. specialize (IH Hb). rewrite fold_left_app, length_app. cbn [fold_left length].
  rewrite Nat.add_1_r, Nat2Z.inj_succ, Z.pow_succ_r by lia. set (v := fold_left _ b 0) in *. set (p := 256 ^ _) in *. lia.
Qed.

Lemma from_bytes_signed_bound b : Forall is_byte b -> (length b <= 8)%nat -> - 2 ^ 63 <= from_bytes_signed b < 2 ^ 63.
Proof.
  intros Hb Hl. pose proof (be_value_bound b Hb) as Hv. unfold from_bytes_signed.
  assert (Hpow : 256 ^ Z.of_nat (length b) = 2 ^ (8 * Z.of_nat (length b))) by (rewrite Z.pow_mul_r by lia; done).
  rewrite Hpow in Hv. set (n := 8 * Z.of_nat (length b)) in *. destruct (Z.ltb_spec 0 n); cbn [andb].
  - assert (Hhalf : 2 ^ n = 2 * 2 ^ (n - 1)) by (rewrite <- Z.pow_succ_r by lia; f_equal; lia).
    assert (Hmono : 2 ^ (n - 1) <= 2 ^ 63) by (apply Z.pow_le_mono_r; lia).
    destruct (Z.leb_spec (2 ^ (n - 1)) (be_value b)); lia.
  - assert (n = 0) as Hn by lia. rewrite Hn in Hv. cbn in Hv. lia.
Qed.

Lemma le_bytes_range n v : Forall is_byte (le_bytes n v).
Proof. revert v. induction n as [|n IH]; intros v; constructor; [apply Z.mod_pos_bound; lia|apply IH]. Qed.

Lemma blake2b_range size person message :
  Forall is_byte (blake2b size person message) /\ (length (blake2b size person message) <= Z.to_nat size)%nat.
Proof.
  unfold blake2b. split; [|rewrite length_take; lia]. apply Forall_take. apply Forall_forall. intros x Hx.
  apply list_elem_of_join in Hx as (l & Hx & Hl). apply list_elem_of_fmap in Hl as (v & -> & _).
  pose proof (le_bytes_range 8 v) as Hr. rewrite Forall_forall in Hr. by apply Hr.
Qed.

Lemma digest_key_range person message : in_bigint (from_bytes_signed (blake2b 8 person message)) = true.
Proof.
  destruct (blake2b_range 8 person message) as [Hb Hl]. pose proof (from_bytes_signed_bound _ Hb Hl). unfold in_bigint. lia.
Qed.

(** Derived lock keys fit the server's signed 64-bit key space, so acquiring
    them never fails on their range, in either namespace. *)
Theorem derived_lock_keys_fit (tenant_id lineage_id branch_id subject_id client_id : UUID)
    (fingerprint : pystr + bytes) (idempotency_key : pystr) (key : Z) :
  advisory_lock_key tenant_id lineage_id branch_id subject_id fingerprint = Ok key \/
  idempotency_advisory_lock_key tenant_id client_id idempotency_key = Ok key ->
  - 2 ^ 63 <= key < 2 ^ 63 /\ acquire_advisory_xact_lock key = Ok [key].
Proof.
  intros Hk. assert (Hr : in_bigint key = true).
  { destruct Hk as [Hk|Hk]; unfold advisory_lock_key, idempotency_advisory_lock_key in Hk;
      do 3 (apply bind_Ok in Hk as (? & _ & Hk)); [|apply bind_Ok in Hk as (? & _ & Hk)]; injection Hk as <-;
      apply digest_key_range. }
  split; [unfold in_bigint in Hr; lia|]. unfold acquire_advisory_xact_lock. by rewrite Hr.
Qed.

(** ** Ordered keys *)

Lemma ordered_lock_keys_Ok keys l :
  ordered_lock_keys keys = Ok l ->
  StronglySorted Z.lt l /\ (forall k, k ∈ l <-> k ∈ keys) /\ Forall (fun k => in_bigint k = true) l.
Proof.
  unfold ordered_lock_keys. intros Ho. apply bind_Ok in Ho as ([] & Hr%require_Ok & [= <-]).
  assert (Hs : StronglySorted (fun x y => Z.leb x y = true) (sort_by Z.leb (remove_dups keys)))
    by (apply sort_by_ordered; intros; lia).
  assert (Hnd : NoDup (sort_by Z.leb (remove_dups keys))) by (rewrite sort_by_perm; apply NoDup_remove_dups).
  split; [|split].
  - induction Hs as [|x l Hl IH Hx]; [constructor|]. apply NoDup_cons in Hnd as [Hni Hnd]. constructor; [by apply IH|].
    apply Forall_forall. intros y Hy. rewrite Forall_forall in Hx. specialize (Hx y Hy). assert (x <> y) by congruence. lia.
  - intros k. by rewrite sort_by_perm, elem_of_remove_dups.
  - rewrite sort_by_perm. apply Forall_forall. intros k Hk. rewrite forallb_forall in Hr. by apply Hr, list_elem_of_In.
Qed.

Lemma acquire_locks_Ok keys requests : acquire_advisory_xact_locks keys = Ok requests -> ordered_lock_keys keys = Ok requests.
Proof.
  unfold acquire_advisory_xact_locks. intros Ha. apply bind_Ok in Ha as (l & Hl & Ha). apply bind_Ok in Ha as (rs & Hr & [= <-]).
  rewrite Hl. f_equal. apply mapR_Forall2 in Hr. clear Hl. induction Hr as [|k r l rs Hk _ IH]; [done|]. cbn.
  unfold acquire_advisory_xact_lock in Hk. apply bind_Ok in Hk as ([] & _ & [= <-]). cbn. by f_equal.
Qed.

(** ** Absence of deadlock *)

Section Deadlock.
(** A global order on keys that every transaction follows. *)
Context (rank : Z -> Z).

Definition ascending (l : list Z) : Prop := StronglySorted (fun a b => rank a < rank b) l.

(** Keys are held by running transactions, below everything they still ask for. *)
Record lock_ok (s : LockManager) : Prop := {
  lo_sorted : forall tx l, lm_waiting s !! tx = Some l -> ascending l;
  lo_owner : forall key tx, lm_owner s !! key = Some tx ->
    exists l, lm_waiting s !! tx = Some l /\ Forall (fun k => rank key < rank k) l
}.

Lemma lock_step_ok s s' : lock_ok s -> lock_step s s' -> lock_ok s'.
Proof.
  intros [Hs Ho] Hstep. destruct Hstep as [tx key rest Hw Hfree|tx Hw]; split; cbn.
  - intros tx' l Hl. apply lookup_insert_Some in Hl as [[<- <-]|[_ Hl]]; [|by eapply Hs].
    apply Hs in Hw. by inversion Hw.
  - intros k tx' Hk. apply Hs in Hw as Hsorted. apply lookup_insert_Some in Hk as [[<- <-]|[Hne Hk]].
    + exists rest. rewrite lookup_insert_eq. split; [done|]. by inversion Hsorted.
    + destruct (Ho k tx' Hk) as (l & Hl & Hall). destruct (decide (tx = tx')) as [<-|Htx].
      * rewrite Hw in Hl. injection Hl as <-. exists rest. rewrite lookup_insert_eq. split; [done|]. by apply Forall_cons in Hall as [_ ?].
      * exists l. by rewrite lookup_insert_ne.
  - intros tx' l Hl. apply lookup_delete_Some in Hl as [_ Hl]. by eapply Hs.
  - intros k tx' Hk. apply map_lookup_filter_Some in Hk as [Hk Hne]. cbn in Hne. destruct (Ho k tx' Hk) as (l & Hl & Hall).
    exists l. by rewrite lookup_delete_ne by done.
Qed.

Lemma lock_steps_ok s s' : lock_ok s -> rtc lock_step s s' -> lock_ok s'.
Proof. intros Hok Hrun. induction Hrun; [done|]. by eapply IHHrun, lock_step_ok. Qed.

(** The held key of greatest rank. *)
Lemma greatest_key (M : gmap Z nat) : M <> ∅ ->
  exists k tx, M !! k = Some tx /\ forall k' tx', M !! k' = Some tx' -> rank k' <= rank k.
Proof.
  induction M as [|k tx M Hk IH] using map_ind; [done|]. intros _. destruct (decide (M = ∅)) as [->|Hne].
  - exists k, tx. rewrite lookup_insert_eq. split; [done|]. intros k' tx' Hk'.
    apply lookup_insert_Some in Hk' as [[<- _]|[_ Hk']]; [done|]. by rewrite lookup_empty in Hk'.
  - destruct (IH Hne) as (m & tm & Hm & Hmax). destruct (Z.le_ge_cases (rank m) (rank k)).
    + exists k, tx. rewrite lookup_insert_eq. split; [done|]. intros k' tx' Hk'.
      apply lookup_insert_Some in Hk' as [[<- _]|[_ Hk']]; [done|]. apply Hmax in Hk'. lia.
    + exists m, tm. rewrite lookup_insert_ne by (intros ->; congruence). split; [done|]. intros k' tx' Hk'.
      apply lookup_insert_Some in Hk' as [[<- _]|[_ Hk']]; [lia|]. by eapply Hmax.
Qed.

Lemma lock_progress s : lock_ok s -> lm_waiting s <> ∅ -> exists s', lock_step s s'.
Proof.
  intros [Hs Ho] Hne. assert (Hgo : forall tx l, lm_waiting s !! tx = Some l ->
    (l = [] \/ exists key rest, l = key :: rest /\ (lm_owner s !! key = None \/ lm_owner s !! key = Some tx)) -> exists s', lock_step s s').
  { intros tx l Hw [->|(key & rest & -> & Hfree)]; eexists; [by apply (lock_release s tx)|by eapply (lock_grant s tx)]. }
  destruct (decide (lm_owner s = ∅)) as [He|He].
  - apply map_choose in Hne as (tx & l & Hw). eapply Hgo; [exact Hw|]. destruct l as [|key rest]; [by left|].
    right. exists key, rest. split; [done|]. left. by rewrite He, lookup_empty.
  - destruct (greatest_key _ He) as (k & tx & Hk & Hmax). destruct (Ho k tx Hk) as (l & Hw & Hall).
    eapply Hgo; [exact Hw|]. destruct l as [|key rest]; [by left|]. right. exists key, rest. split; [done|]. left.
    destruct (lm_owner s !! key) as [tx'|] eqn:E; [|done]. apply Hmax in E. apply Forall_cons in Hall as [? _]. lia.
Qed.
End Deadlock.

(** Every step uses up a request or a transaction. *)
Definition lock_work (s : LockManager) : nat := map_fold (fun _ l acc => S (length l) + acc)%nat 0%nat (lm_waiting s).

Lemma lock_work_insert w tx l : w !! tx = None ->
  map_fold (fun _ l acc => S (length l) + acc)%nat 0%nat (<[tx := l]> w)
  = (S (length l) + map_fold (fun (_ : nat) (l : list Z) acc => S (length l) + acc) 0 w)%nat.
Proof. intros Hn. rewrite map_fold_insert_L; [done| |done]. intros. lia. Qed.

Lemma lock_step_work s s' : lock_step s s' -> lock_work s = S (lock_work s').
Proof.
  unfold lock_work. destruct 1 as [tx key rest Hw _|tx Hw]; cbn.
  - rewrite <- (insert_delete_id _ _ _ Hw), insert_insert_eq.
    rewrite !lock_work_insert by apply lookup_delete_eq. cbn. lia.
  - rewrite <- (insert_delete_id _ _ _ Hw) at 1. rewrite lock_work_insert by apply lookup_delete_eq. done.
Qed.

(** ** Command transactions *)

(** What a mutation command locks: its idempotency scope first, then the
    aggregates it touches, in order. *)
Record CommandLocks : Type := { cl_idempotency : Z; cl_aggregates : list Z }.

Definition command_requests (c : CommandLocks) : result (list Z) :=
  first ← acquire_advisory_xact_lock (cl_idempotency c);
  rest ← acquire_advisory_xact_locks (cl_aggregates c);
  Ok (first ++ rest).

(** Commands that have begun and hold nothing yet. *)
Definition commands_start (commands : gmap nat CommandLocks) (s : LockManager) : Prop :=
  lm_owner s = ∅ /\ forall tx l, lm_waiting s !! tx = Some l ->
    exists c, commands !! tx = Some c /\ command_requests c = Ok l.

(** No idempotency key is also an aggregate key: the namespaces do not collide. *)
Definition namespaces_apart (commands : gmap nat CommandLocks) : Prop :=
  forall tx c tx' c', commands !! tx = Some c -> commands !! tx' = Some c' -> cl_idempotency c ∉ cl_aggregates c'.

Definition idempotency_keys (commands : gmap nat CommandLocks) : gset Z :=
  list_to_set (cl_idempotency <$> (snd <$> map_to_list commands)).

(** Idempotency keys come before every aggregate key. *)
Definition command_rank (commands : gmap nat CommandLocks) (key : Z) : Z :=
  if bool_decide (key ∈ idempotency_keys commands) then key - 2 ^ 64 else key.

Lemma elem_of_idempotency_keys commands k :
  k ∈ idempotency_keys commands <-> exists tx c, commands !! tx = Some c /\ k = cl_idempotency c.
Proof.
  unfold idempotency_keys. rewrite elem_of_list_to_set, list_elem_of_fmap. split.
  - intros (c & -> & Hc). apply list_elem_of_fmap in Hc as ([tx c'] & -> & Hc). apply elem_of_map_to_list in Hc. eauto.
  - intros (tx & c & Hc & ->). exists c. split; [done|]. apply list_elem_of_fmap. exists (tx, c). by rewrite elem_of_map_to_list.
Qed.

Lemma command_requests_ascending commands tx c l :
  namespaces_apart commands -> commands !! tx = Some c -> command_requests c = Ok l -> ascending (command_rank commands) l.
Proof.
  intros Hapart Hc Hr. unfold command_requests in Hr. apply bind_Ok in Hr as (first & Hf & Hr). apply bind_Ok in Hr as (rest & Hl & [= <-]).
  unfold acquire_advisory_xact_lock in Hf. apply bind_Ok in Hf as ([] & Hi%require_Ok & [= <-]).
  apply acquire_locks_Ok, ordered_lock_keys_Ok in Hl as (Hs & Hel & Hb).
  assert (Hagg : forall k, k ∈ rest -> command_rank commands k = k).
  { intros k Hk. unfold command_rank. rewrite bool_decide_false; [done|]. intros (tx' & c' & Hc' & ->)%elem_of_idempotency_keys.
    apply Hel in Hk. by apply (Hapart tx' c' tx c). }
  assert (Hidem : command_rank commands (cl_idempotency c) = cl_idempotency c - 2 ^ 64).
  { unfold command_rank. rewrite bool_decide_true; [done|]. apply elem_of_idempotency_keys. eauto. }
  cbn. constructor.
  - clear Hel Hb. induction Hs as [|x l Hl IH Hx]; [constructor|]. constructor; [apply IH; intros; apply Hagg; by right|].
    apply Forall_forall. intros y Hy. rewrite Forall_forall in Hx. rewrite (Hagg x), (Hagg y) by (by (left || right)). by apply Hx.
  - apply Forall_forall. intros y Hy. rewrite Hidem, Hagg by done. rewrite Forall_forall in Hb. specialize (Hb y Hy).
    unfold in_bigint in *. lia.
Qed.

Lemma start_ok commands s : namespaces_apart commands -> commands_start commands s -> lock_ok (command_rank commands) s.
Proof.
  intros Hapart [Ho Hw]. split.
  - intros tx l Hl. destruct (Hw tx l Hl) as (c & Hc & Hr). by eapply command_requests_ascending.
  - intros key tx. by rewrite Ho, lookup_empty.
Qed.

Lemma locks_finish rank n s : lock_ok rank s -> lock_work s = n -> exists s', rtc lock_step s s' /\ lm_waiting s' = ∅.
Proof.
  revert s. induction n as [n IH] using lt_wf_ind. intros s Hok Hn. destruct (decide (lm_waiting s = ∅)) as [He|He].
  { exists s. by split. }
  destruct (lock_progress _ _ Hok He) as (s1 & Hstep). pose proof (lock_step_work _ _ Hstep) as Hw.
  destruct (IH (lock_work s1) ltac:(lia) s1 (lock_step_ok _ _ _ Hok Hstep) eq_refl) as (s' & Hrun & Hdone).
  exists s'. split; [by eapply rtc_l|done].
Qed.

Lemma lock_runs_bounded n s s' : nsteps lock_step n s s' -> (n + lock_work s' = lock_work s)%nat.
Proof. induction 1 as [|n s s1 s' Hstep _ IH]; [done|]. apply lock_step_work in Hstep. lia. Qed.

(** C25: mutation commands never deadlock on their advisory locks.  As long as no
    idempotency key collides with an aggregate key, in every reachable state in
    which a command is still running some lock can be granted or released; no
    schedule runs for more than a bounded number of steps, so whatever the
    interleaving every command ends. *)
Theorem commands_never_deadlock (commands : gmap nat CommandLocks) (s0 s : LockManager) :
  namespaces_apart commands -> commands_start commands s0 -> rtc lock_step s0 s ->
  (lm_waiting s <> ∅ -> exists s', lock_step s s') /\
  (exists s', rtc lock_step s s' /\ lm_waiting s' = ∅) /\
  (forall n s', nsteps lock_step n s s' -> (n <= lock_work s)%nat).
Proof.
  intros Hapart Hstart Hrun. assert (Hok : lock_ok (command_rank commands) s).
  { eapply lock_steps_ok; [|exact Hrun]. by apply start_ok. }
  split; [by eapply lock_progress|]. split; [by eapply locks_finish|].
  intros n s' Hn. apply lock_runs_bounded in Hn. lia.
Qed.

(** ** Witnesses *)

Definition two_commands : gmap nat CommandLocks :=
  {[ 1%nat := {| cl_idempotency := 100; cl_aggregates := [9; 5] |};
     2%nat := {| cl_idempotency := 50; cl_aggregates := [5; 9; 5] |} ]}.

Definition two_started : LockManager :=
  {| lm_owner := ∅; lm_waiting := {[ 1%nat := [100; 5; 9]; 2%nat := [50; 5; 9] ]} |}.

Lemma two_started_ok : commands_start two_commands two_started.
Proof.
  split; [done|]. intros tx l Hl. cbn [lm_waiting two_started] in Hl. unfold two_commands.
  apply lookup_insert_Some in Hl as [[<- <-]|[Hne Hl]]; [|apply lookup_singleton_Some in Hl as [<- <-]].
  - eexists. rewrite lookup_insert_eq. split; [done|]. vm_compute. reflexivity.
  - eexists. rewrite lookup_insert_ne, lookup_singleton_eq by done. split; [done|]. vm_compute. reflexivity.
Qed.

Lemma two_apart : namespaces_apart two_commands.
Proof.
  intros tx c tx' c' Hc Hc'. unfold two_commands in Hc, Hc'.
  apply lookup_insert_Some in Hc as [[_ <-]|[_ Hc]]; [|apply lookup_singleton_Some in Hc as [_ <-]];
    (apply lookup_insert_Some in Hc' as [[_ <-]|[_ Hc']]; [|apply lookup_singleton_Some in Hc' as [_ <-]]);
    cbn; rewrite !not_elem_of_cons; repeat split; try done; apply not_elem_of_nil.
Qed.

Lemma commands_never_deadlock_witness :
  (exists s', rtc lock_step two_started s' /\ lm_waiting s' = ∅) /\ lock_work two_started = 8%nat.
Proof.
  split; [|vm_compute; reflexivity].
  exact (proj1 (proj2 (commands_never_deadlock two_commands two_started two_started two_apart two_started_ok (rtc_refl _ _)))).
Defined.

Lemma derived_lock_keys_fit_witness :
  exists key, idempotency_advisory_lock_key 0x0190000000007000800000000000000a 0x0190000000007000800000000000000b (py "k1") = Ok key /\
    - 2 ^ 63 <= key < 2 ^ 63.
Proof.
  destruct (idempotency_advisory_lock_key 0x0190000000007000800000000000000a 0x0190000000007000800000000000000b (py "k1"))
    as [key|e] eqn:Hk; [|exfalso; vm_compute in Hk; discriminate Hk].
  exists key. split; [reflexivity|].
  exact (proj1 (derived_lock_keys_fit 0x0190000000007000800000000000000a 0 0 0 0x0190000000007000800000000000000b
    (inr []) (py "k1") key (or_intror Hk))).
Defined.
