(* ===== verification/Transactions.v ===== *)
(** * Transactions: bounded retries of serializable commands

    Models [storage/transactions.py].  What one attempt yields, operation and
    commit together, is an argument indexed by the attempt: each attempt runs in
    a fresh transaction and may see another database.  The jitter source is an
    argument as well; delays are binary64 values, as in the source. *)

From stdpp Require Import base tactics option list strings.
From Stdlib Require Import ZArith Lia Bool SpecFloat.
From S2P Require Import Prelude CanonicalJson.
Open Scope Z_scope.

(** ** Python's float arithmetic *)

Definition float_mul (x y : float) : float := SFmul FLOAT_PREC FLOAT_EMAX x y.

(** [float(n)] for a positive integer; beyond the range it raises. *)
Definition float_of_int (n : positive) : result float :=
  let f := float_of_ratio false n 1 in
  if float_isfinite f then Ok f else Err OverflowError.

(** [round(x)]: to the nearest integer, ties to even. *)
Definition float_round (x : float) : result Z :=
  match x with
  | S754_zero _ => Ok 0
  | S754_finite negative m e =>
    let magnitude :=
      if 0 <=? e then Zpos m * 2 ^ e
      else let q := Zpos m / 2 ^ (- e) in
           let twice := 2 * (Zpos m mod 2 ^ (- e)) in
           if (twice <? 2 ^ (- e)) || ((twice =? 2 ^ (- e)) && Z.even q) then q else q + 1 in
    Ok (if negative then - magnitude else magnitude)
  | S754_infinity _ => Err OverflowError
  | S754_nan => Err (ValueError "cannot convert float NaN to integer")
  end.

Definition float_zero : float := S754_zero false.
Definition float_one : float := float_of_ratio false 1 1.
Definition float_thousand : float := float_of_ratio false 1000 1.

(** The defaults 0.025 and 0.1. *)
Definition DEFAULT_BASE_DELAY : float := Eval vm_compute in float_of_decimal false 25 (-3).
Definition DEFAULT_MAX_DELAY : float := Eval vm_compute in float_of_decimal false 1 (-1).
Definition DEFAULT_MAX_ATTEMPTS : nat := 4.

(** ** The retry loop *)

Definition database_sqlstate (e : exn) : option string :=
  match e with DBAPIError sqlstate => Some sqlstate | _ => None end.

Definition is_serialization_failure (e : exn) : bool := bool_decide (database_sqlstate e = Some "40001"%string).

Section Retry.
Context {T : Type} (outcome : nat -> result T) (jitter : nat -> float).
Context (max_attempts : nat) (base_delay max_delay : float).

(** [min(max_delay, base_delay * (2 ** (attempt - 1)))] *)
Definition delay_ceiling (attempt : nat) : result float :=
  power ← float_of_int (Z.to_pos (2 ^ (Z.of_nat attempt - 1)));
  let scaled := float_mul base_delay power in
  Ok (if SFltb scaled max_delay then scaled else max_delay).

(** The iterations from [attempt] on, [remaining] of them; the sleeps are
    logged. *)
Fixpoint attempts_from (remaining attempt : nat) (sleeps : list float) : result T * list float :=
  match remaining with
  | O => (Err AssertionError, sleeps)
  | S remaining' =>
    match outcome attempt with
    | Ok value => (Ok value, sleeps)
    | Err error =>
      if negb (is_serialization_failure error) then (Err error, sleeps)
      else if (attempt =? max_attempts)%nat then
        match float_round (float_mul max_delay float_thousand) with
        | Ok retry_after_ms => (Err (SerializableTransactionError (Z.of_nat attempt) retry_after_ms), sleeps)
        | Err e => (Err e, sleeps)
        end
      else
        let jitter_fraction := jitter attempt in
        if negb (SFleb float_zero jitter_fraction && SFleb jitter_fraction float_one)
        then (Err (ValueError "jitter must return a value between zero and one"), sleeps)
        else match delay_ceiling attempt with
             | Ok ceiling => attempts_from remaining' (S attempt) (sleeps ++ [float_mul ceiling jitter_fraction])
             | Err e => (Err e, sleeps)
             end
    end
  end.

Definition run_serializable_transaction : result T * list float :=
  if (max_attempts <? 1)%nat then (Err (ValueError "max_attempts must be at least one"), [])
  else if SFltb base_delay float_zero || SFltb max_delay float_zero || SFltb max_delay base_delay
  then (Err (ValueError "retry delays must satisfy 0 <= base_delay <= max_delay"), [])
  else attempts_from max_attempts 1 [].

(** ** What the loop returns *)

(** An outcome that ends the loop. *)
Definition settled (r : result T) : bool :=
  match r with Ok _ => true | Err e => negb (is_serialization_failure e) end.

(** Arguments the loop accepts: ordered delays, a finite reply hint, a jitter
    source within its range, and a power of two that is a float. *)
Definition retry_arguments (retry_after_ms : Z) : Prop :=
  (1 <= max_attempts <= 1024)%nat /\ SFltb base_delay float_zero = false /\ SFltb max_delay float_zero = false /\
  SFltb max_delay base_delay = false /\ float_round (float_mul max_delay float_thousand) = Ok retry_after_ms /\
  forall n, SFleb float_zero (jitter n) && SFleb (jitter n) float_one = true.

Lemma power_is_float k : (k < 1024)%nat -> exists f, float_of_int (Z.to_pos (2 ^ Z.of_nat k)) = Ok f.
Proof.
  intros Hk. assert (Hall : forallb (fun k => is_ok (float_of_int (Z.to_pos (2 ^ Z.of_nat k)))) (seq 0 1024) = true)
    by (vm_compute; reflexivity).
  rewrite forallb_forall in Hall. specialize (Hall k). rewrite in_seq in Hall. specialize (Hall ltac:(lia)).
  destruct (float_of_int _); [eauto|done].
Qed.

Lemma attempts_from_spec retry_after_ms remaining attempt sleeps :
  retry_arguments retry_after_ms -> (attempt + remaining = S max_attempts)%nat -> (1 <= remaining)%nat -> (1 <= attempt)%nat ->
  (exists k more, (attempt <= k <= max_attempts)%nat /\ settled (outcome k) = true /\
     (forall n, (attempt <= n < k)%nat -> settled (outcome n) = false) /\
     attempts_from remaining attempt sleeps = (outcome k, sleeps ++ more) /\ (length more = k - attempt)%nat) \/
  (exists more, (forall n, (attempt <= n <= max_attempts)%nat -> settled (outcome n) = false) /\
     attempts_from remaining attempt sleeps
       = (Err (SerializableTransactionError (Z.of_nat max_attempts) retry_after_ms), sleeps ++ more) /\
     (length more = max_attempts - attempt)%nat).
Proof.
  intros Hargs. pose proof Hargs as (Hmax & _ & _ & _ & Hround & Hjit). revert attempt sleeps.
  induction remaining as [|r IH]; intros attempt sleeps Hsum Hr Ha; [lia|]. cbn [attempts_from].
  destruct (outcome attempt) as [v|e] eqn:Ho.
  { left. exists attempt, []. rewrite Ho, app_nil_r. split; [lia|]. split; [done|]. split; [lia|]. split; [done|cbn; lia]. }
  destruct (is_serialization_failure e) eqn:Hs; cbn [negb].
  2:{ left. exists attempt, []. rewrite Ho, app_nil_r. cbn [settled]. rewrite Hs. split; [lia|]. split; [done|]. split; [lia|]. split; [done|cbn; lia]. }
  assert (Hbad : settled (outcome attempt) = false) by (rewrite Ho; cbn [settled]; by rewrite Hs).
  destruct (Nat.eqb_spec attempt max_attempts) as [->|Hne].
  { right. exists []. rewrite Hround, app_nil_r. split; [|split; [done|cbn; lia]]. intros n Hn.
    assert (n = max_attempts) as -> by lia. done. }
  rewrite Hjit. cbn [negb]. unfold delay_ceiling. destruct (power_is_float (attempt - 1)) as (f & Hf); [lia|].
  replace (Z.of_nat attempt - 1) with (Z.of_nat (attempt - 1)) by lia. rewrite Hf. cbn [mbind result_bind].
  set (d := float_mul _ (jitter attempt)).
  destruct (IH (S attempt) (sleeps ++ [d])) as [(k & more & Hk & Hset & Hbefore & Hrun & Hlen)|(more & Hall & Hrun & Hlen)]; [lia..| |].
  - left. exists k, (d :: more). rewrite Hrun, <- app_assoc. split; [lia|]. split; [done|]. split; [|split; [done|cbn; lia]].
    intros n Hn. destruct (decide (n = attempt)) as [->|]; [done|]. apply Hbefore. lia.
  - right. exists (d :: more). rewrite Hrun, <- app_assoc. split; [|split; [done|cbn; lia]].
    intros n Hn. destruct (decide (n = attempt)) as [->|]; [done|]. apply Hall. lia.
Qed.

Lemma run_spec (retry_after_ms : Z) :
  retry_arguments retry_after_ms ->
  (exists k sleeps, (1 <= k <= max_attempts)%nat /\ settled (outcome k) = true /\
     (forall n, (1 <= n < k)%nat -> settled (outcome n) = false) /\
     run_serializable_transaction = (outcome k, sleeps) /\ (length sleeps = k - 1)%nat) \/
  (exists sleeps, (forall n, (1 <= n <= max_attempts)%nat -> settled (outcome n) = false) /\
     run_serializable_transaction = (Err (SerializableTransactionError (Z.of_nat max_attempts) retry_after_ms), sleeps) /\
     (length sleeps = max_attempts - 1)%nat).
Proof.
  intros Hargs. pose proof Hargs as (Hmax & Hb & Hm & Hmb & _). unfold run_serializable_transaction.
  destruct (Nat.ltb_spec max_attempts 1); [lia|]. rewrite Hb, Hm, Hmb. cbn [orb].
  exact (attempts_from_spec retry_after_ms max_attempts 1 [] Hargs ltac:(lia) ltac:(lia) ltac:(lia)).
Qed.

(** A command is retried on serialization failures only, a bounded number of
    times.  The runner always returns: the outcome of the first attempt that did
    not fail with SQLSTATE 40001 (its value or its error, unchanged), after one
    sleep per earlier attempt; or, when all [max_attempts] attempts failed so, a
    [SerializableTransactionError] after [max_attempts - 1] sleeps. *)
Theorem retries_bounded (retry_after_ms : Z) :
  retry_arguments retry_after_ms ->
  (exists k sleeps, (1 <= k <= max_attempts)%nat /\ settled (outcome k) = true /\
     (forall n, (1 <= n < k)%nat -> settled (outcome n) = false) /\
     run_serializable_transaction = (outcome k, sleeps) /\ (length sleeps = k - 1)%nat) \/
  (exists sleeps, (forall n, (1 <= n <= max_attempts)%nat -> settled (outcome n) = false) /\
     run_serializable_transaction = (Err (SerializableTransactionError (Z.of_nat max_attempts) retry_after_ms), sleeps) /\
     (length sleeps = max_attempts - 1)%nat).
Proof. apply run_spec. Qed.
End Retry.

(** Two serialization failures, then success, with the default arguments. *)
Lemma retries_bounded_witness :
  let outcome := fun n : nat => if (n <? 3)%nat then Err (DBAPIError "40001") else Ok n in
  exists sleeps, run_serializable_transaction outcome (fun _ => float_one) DEFAULT_MAX_ATTEMPTS DEFAULT_BASE_DELAY DEFAULT_MAX_DELAY
    = (Ok 3%nat, sleeps) /\ length sleeps = 2%nat.
Proof.
  intros outcome.
  destruct (retries_bounded outcome (fun _ => float_one) DEFAULT_MAX_ATTEMPTS DEFAULT_BASE_DELAY DEFAULT_MAX_DELAY 100)
    as [(k & sleeps & Hk & Hset & Hbefore & Hrun & Hlen)|(sleeps & Hall & _)].
  - split; [unfold DEFAULT_MAX_ATTEMPTS; lia|]. repeat split; vm_compute; reflexivity.
  - assert (k = 3%nat) as ->.
    { destruct (decide (k < 3)%nat) as [Hlt|Hge].
      - unfold outcome in Hset. rewrite (proj2 (Nat.ltb_lt k 3) Hlt) in Hset. discriminate Hset.
      - destruct (decide (k = 3%nat)) as [|Hne]; [assumption|]. discriminate (Hbefore 3%nat ltac:(lia)). }
    exists sleeps. split; [exact Hrun|exact Hlen].
  - discriminate (Hall 3%nat ltac:(unfold DEFAULT_MAX_ATTEMPTS; lia)).
Defined.
