(* ===== verification/Commands.v ===== *)
(** * Commands: mutation requests and their responses

    Models [domain/commands.py]: the request models of the direct mutation
    commands with their validators, the canonical material a command is hashed
    from, and the receipt and error envelopes.  Fields are those of a validated
    model: timestamps are instants and scores are decimals. *)

From stdpp Require Import base tactics option list gmap sets strings.
From Stdlib Require Import ZArith Lia Bool.
From S2P Require Import Prelude Identifiers Enums Values CanonicalJson Digest Constraints Events.
Open Scope Z_scope.

(** ** Requests *)

Record MemoryInput : Type := {
  mi_subject_id : UUID;
  mi_subject_kind : SubjectKind;
  mi_category : MemoryCategory;
  mi_ontological_status : OntologicalStatus;
  mi_scope : MemoryScope;
  mi_visibility : MemoryVisibility;
  mi_statement : pystr;
  mi_reason_to_remember : pystr;
  mi_interpretation_limits : list pystr;
  mi_confidence : Decimal;
  mi_salience : Decimal;
  mi_durability : Decimal;
  mi_sensitivity : Z;
  mi_authority_class : AuthorityClass;
  mi_valid_from : option instant;
  mi_valid_to : option instant;
  mi_observed_at : option instant;
  mi_origin_session_id : option UUID;
  mi_metadata : json_dict
}.

(** A patch: [None] is a field that is not in [model_fields_set].  A field that
    cannot be null carries its value; the three timestamps may be set to null. *)
Record MemoryChanges : Type := {
  mc_category : option MemoryCategory;
  mc_ontological_status : option OntologicalStatus;
  mc_visibility : option MemoryVisibility;
  mc_statement : option pystr;
  mc_reason_to_remember : option pystr;
  mc_interpretation_limits : option (list pystr);
  mc_confidence : option Decimal;
  mc_salience : option Decimal;
  mc_durability : option Decimal;
  mc_sensitivity : option Z;
  mc_authority_class : option AuthorityClass;
  mc_valid_from : option (option instant);
  mc_valid_to : option (option instant);
  mc_observed_at : option (option instant);
  mc_metadata : option json_dict
}.

Record MemoryRevisionExpectation : Type := { re_memory_id : UUID; re_expected_revision : Z }.

Inductive ResultingStatus : Type := resulting_active | resulting_superseded | resulting_retired.

Record ConflictResolution : Type := {
  cr_memory_id : UUID; cr_expected_revision : Z; cr_disposition : pystr; cr_resulting_status : ResultingStatus
}.

Inductive CommandBody : Type :=
| ObserveCommand (memory : MemoryInput)
| RememberCommand (memory : MemoryInput)
| ReviseCommand (memory_id : UUID) (expected_revision : Z) (changes : MemoryChanges)
| LinkCommand (source_memory_id : UUID) (source_expected_revision : Z) (target_memory_id : UUID)
    (target_expected_revision : Z) (link_type : LinkType) (metadata : json_dict)
| OpenConflictCommand (subject_id : UUID) (members : list MemoryRevisionExpectation) (conflict_reason : pystr)
    (metadata : json_dict)
| ResolveConflictCommand (conflict_id : UUID) (members : list ConflictResolution) (resolution_kind : pystr)
    (resolution_rationale : pystr) (user_confirmed : bool)
| RetireCommand (memory_id : UUID) (expected_revision : Z)
| ForgetCommand (memory_id : UUID) (expected_revision : Z) (mode : ForgetMode) (confirmation : string).

(** The envelope all commands share; [contract_version] has one value. *)
Record MutationCommand : Type := {
  co_idempotency_key : pystr;
  co_logical_session_id : option UUID;
  co_persona_id : UUID;
  co_branch_id : UUID;
  co_reason : pystr;
  co_causation_event_id : option UUID;
  co_body : CommandBody
}.

Definition command_operation (c : MutationCommand) : string :=
  match co_body c with
  | ObserveCommand _ => "observe"
  | RememberCommand _ => "remember"
  | ReviseCommand _ _ _ => "revise"
  | LinkCommand _ _ _ _ _ _ => "link"
  | OpenConflictCommand _ _ _ _ => "open_conflict"
  | ResolveConflictCommand _ _ _ _ _ => "resolve_conflict"
  | RetireCommand _ _ => "retire"
  | ForgetCommand _ _ _ _ => "forget"
  end.

Definition COMMAND_VERSION : Z := 1.

Definition forget_mode_value (m : ForgetMode) : string :=
  match m with forget_logical => "logical" | forget_hard => "hard" end.

Definition resulting_status_value (s : ResultingStatus) : string :=
  match s with resulting_active => "active" | resulting_superseded => "superseded" | resulting_retired => "retired" end.

(** ** Validators *)

(** [_validate_bounded_json]; the fuel is one more than the deepest level. *)
Fixpoint validate_bounded_json (fuel : nat) (value : JsonValue) : result unit :=
  match fuel with
  | O => Err (ValueError "command metadata exceeds the maximum nesting depth")
  | S deeper =>
    (match value with
     | JObject fields =>
       raise_if (128 <? length fields)%nat (ValueError "command metadata object exceeds 128 properties");;
       each (fun kv =>
         raise_if (255 <? length kv.1)%nat (ValueError "command metadata key exceeds 255 characters");;
         validate_bounded_json deeper kv.2) fields
     | JArray items =>
       raise_if (128 <? length items)%nat (ValueError "command metadata array exceeds 128 items");;
       each (validate_bounded_json deeper) items
     | JStr text => raise_if (4096 <? length text)%nat (ValueError "command metadata string exceeds 4096 characters")
     | _ => Ok tt
     end);;
    (normalize_plain MAX_CANONICAL_JSON_DEPTH value;; Ok tt)
  end.

Definition METADATA_LEVELS : nat := 9.

Definition command_metadata_ok (metadata : json_dict) : bool := (length metadata <=? 128)%nat.

Definition reason_ok (s : pystr) : bool := length_between 1 4096 s.

(** The declared bounds of [MemoryInput]'s fields. *)
Definition memory_input_fields_ok (m : MemoryInput) : bool :=
  is_uuid7 (mi_subject_id m) && opt_ok is_uuid7 (mi_origin_session_id m)
  && length_between 1 8192 (mi_statement m) && reason_ok (mi_reason_to_remember m)
  && forallb (length_between 1 1024) (mi_interpretation_limits m)
  && (length (mi_interpretation_limits m) <=? 32)%nat
  && unit_score_ok (mi_confidence m) && unit_score_ok (mi_salience m) && unit_score_ok (mi_durability m)
  && (0 <=? mi_sensitivity m) && (mi_sensitivity m <=? 4) && command_metadata_ok (mi_metadata m).

Definition validate_memory_input (m : MemoryInput) : result unit :=
  require (memory_input_fields_ok m) (ValidationError "memory input field");;
  validate_category_ontology (mi_category m) (mi_ontological_status m);;
  raise_if (bool_decide (mi_subject_kind m <> expected_subject (mi_scope m)))
    (ValueError "memory scope does not match subject kind");;
  raise_if (bool_decide (mi_visibility m = MemoryVisibility.PUBLIC_SEED))
    (ValueError "public-seed publication requires an administrative command");;
  raise_if (bool_decide (mi_scope m = MemoryScope.SCENE_LOCAL)
            && bool_decide (mi_visibility m ∈ [MemoryVisibility.SHAREABLE; MemoryVisibility.PUBLIC_SEED]))
    (ValueError "scene-local visibility exceeds its structural boundary");;
  raise_if (bool_decide (mi_visibility m = MemoryVisibility.SHAREABLE) && (1 <? mi_sensitivity m))
    (ValueError "shareable memory sensitivity cannot exceed one");;
  raise_if (window_reversed (mi_valid_from m) (mi_valid_to m)) (ValueError "valid_to must not precede valid_from");;
  raise_if (negb (nodupb (mi_interpretation_limits m))) (ValueError "interpretation limits must be unique");;
  validate_bounded_json METADATA_LEVELS (JObject (mi_metadata m)).

(** [model_fields_set] of a patch. *)
Definition changed_fields (c : MemoryChanges) : list string :=
  let set {A} (o : option A) (name : string) := match o with Some _ => [name] | None => [] end in
  set (mc_category c) "category" ++ set (mc_ontological_status c) "ontological_status"
  ++ set (mc_visibility c) "visibility" ++ set (mc_statement c) "statement"
  ++ set (mc_reason_to_remember c) "reason_to_remember" ++ set (mc_interpretation_limits c) "interpretation_limits"
  ++ set (mc_confidence c) "confidence" ++ set (mc_salience c) "salience" ++ set (mc_durability c) "durability"
  ++ set (mc_sensitivity c) "sensitivity" ++ set (mc_authority_class c) "authority_class"
  ++ set (mc_valid_from c) "valid_from" ++ set (mc_valid_to c) "valid_to" ++ set (mc_observed_at c) "observed_at"
  ++ set (mc_metadata c) "metadata".

Definition changes_fields_ok (c : MemoryChanges) : bool :=
  opt_ok (length_between 1 8192) (mc_statement c) && opt_ok reason_ok (mc_reason_to_remember c)
  && opt_ok (fun l => forallb (length_between 1 1024) l && (length l <=? 32)%nat) (mc_interpretation_limits c)
  && opt_ok unit_score_ok (mc_confidence c) && opt_ok unit_score_ok (mc_salience c)
  && opt_ok unit_score_ok (mc_durability c)
  && opt_ok (fun n => (0 <=? n) && (n <=? 4)) (mc_sensitivity c) && opt_ok command_metadata_ok (mc_metadata c).

Definition validate_changes (c : MemoryChanges) : result unit :=
  require (changes_fields_ok c) (ValidationError "memory changes field");;
  raise_if (bool_decide (changed_fields c = [])) (ValueError "memory changes must contain at least one field");;
  raise_if (negb (opt_ok nodupb (mc_interpretation_limits c))) (ValueError "interpretation limits must be unique");;
  match mc_metadata c with Some metadata => validate_bounded_json METADATA_LEVELS (JObject metadata) | None => Ok tt end.

Definition expectation_ok (e : MemoryRevisionExpectation) : bool :=
  is_uuid7 (re_memory_id e) && safe_positive (re_expected_revision e).

Definition resolution_ok (r : ConflictResolution) : bool :=
  is_uuid7 (cr_memory_id r) && safe_positive (cr_expected_revision r) && code_ok (cr_disposition r).

Definition member_count_ok {A} (members : list A) : bool := (2 <=? length members)%nat && (length members <=? 32)%nat.

Definition validate_body (b : CommandBody) : result unit :=
  match b with
  | ObserveCommand m | RememberCommand m => validate_memory_input m
  | ReviseCommand memory_id expected_revision changes =>
    require (is_uuid7 memory_id && safe_positive expected_revision) (ValidationError "command field");;
    validate_changes changes
  | LinkCommand source source_revision target target_revision _ metadata =>
    require (is_uuid7 source && is_uuid7 target && safe_positive source_revision && safe_positive target_revision
             && command_metadata_ok metadata) (ValidationError "command field");;
    raise_if (source =? target) (ValueError "memory links cannot be self-referential");;
    validate_bounded_json METADATA_LEVELS (JObject metadata)
  | OpenConflictCommand subject_id members conflict_reason metadata =>
    require (is_uuid7 subject_id && forallb expectation_ok members && member_count_ok members
             && reason_ok conflict_reason && command_metadata_ok metadata) (ValidationError "command field");;
    raise_if (negb (nodupb (re_memory_id <$> members))) (ValueError "conflict members must be unique");;
    validate_bounded_json METADATA_LEVELS (JObject metadata)
  | ResolveConflictCommand conflict_id members resolution_kind resolution_rationale _ =>
    require (is_uuid7 conflict_id && forallb resolution_ok members && member_count_ok members
             && code_ok resolution_kind && reason_ok resolution_rationale) (ValidationError "command field");;
    raise_if (negb (nodupb (cr_memory_id <$> members)))
      (ValueError "conflict resolutions must identify unique memories")
  | RetireCommand memory_id expected_revision =>
    require (is_uuid7 memory_id && safe_positive expected_revision) (ValidationError "command field")
  | ForgetCommand memory_id expected_revision mode confirmation =>
    require (is_uuid7 memory_id && safe_positive expected_revision) (ValidationError "command field");;
    raise_if (negb (String.eqb confirmation ("confirm_" ++ forget_mode_value mode ++ "_forget")))
      (ValueError "forget confirmation must match the selected mode")
  end.

Definition validate_command (c : MutationCommand) : result unit :=
  require (length_between 1 255 (co_idempotency_key c) && opt_ok is_uuid7 (co_logical_session_id c)
           && is_uuid7 (co_persona_id c) && is_uuid7 (co_branch_id c) && reason_ok (co_reason c)
           && opt_ok is_uuid7 (co_causation_event_id c)) (ValidationError "command field");;
  validate_body (co_body c).

(** ** Canonical material *)

Definition json_enum {E} `{StrEnum E} (x : E) : JsonValue := JStr (py (enum_value x)).
Definition json_opt_instant (t : option instant) : JsonValue :=
  from_option (fun t => JStr (format_utc_instant t)) JNull t.
Definition json_texts (l : list pystr) : JsonValue := JArray (JStr <$> l).

(** The decimals of a validated command are scores, for which [int] never
    allocates. *)
#[local] Existing Instance score_memory.

(** [normalize_json_value(memory.model_dump(mode="python"))] *)
Definition memory_input_value (m : MemoryInput) : result JsonValue :=
  confidence ← normalize_decimal (mi_confidence m);
  salience ← normalize_decimal (mi_salience m);
  durability ← normalize_decimal (mi_durability m);
  Ok (JObject
    [(py "subject_id", json_uuid (mi_subject_id m)); (py "subject_kind", json_enum (mi_subject_kind m));
     (py "category", json_enum (mi_category m)); (py "ontological_status", json_enum (mi_ontological_status m));
     (py "scope", json_enum (mi_scope m)); (py "visibility", json_enum (mi_visibility m));
     (py "statement", JStr (mi_statement m)); (py "reason_to_remember", JStr (mi_reason_to_remember m));
     (py "interpretation_limits", json_texts (mi_interpretation_limits m)); (py "confidence", confidence);
     (py "salience", salience); (py "durability", durability); (py "sensitivity", JInt (mi_sensitivity m));
     (py "authority_class", json_enum (mi_authority_class m)); (py "valid_from", json_opt_instant (mi_valid_from m));
     (py "valid_to", json_opt_instant (mi_valid_to m)); (py "observed_at", json_opt_instant (mi_observed_at m));
     (py "origin_session_id", json_opt_uuid (mi_origin_session_id m)); (py "metadata", JObject (mi_metadata m))]).

(** [changes.model_dump(mode="python", exclude_unset=True)], normalized *)
Definition changes_value (c : MemoryChanges) : result JsonValue :=
  let set {A} (o : option A) (name : string) (value : A -> result JsonValue) : result json_dict :=
    match o with Some x => v ← value x; Ok [(py name, v)] | None => Ok [] end in
  fields ← mapR (fun r => r)
    [set (mc_category c) "category" (fun x => Ok (json_enum x));
     set (mc_ontological_status c) "ontological_status" (fun x => Ok (json_enum x));
     set (mc_visibility c) "visibility" (fun x => Ok (json_enum x));
     set (mc_statement c) "statement" (fun x => Ok (JStr x));
     set (mc_reason_to_remember c) "reason_to_remember" (fun x => Ok (JStr x));
     set (mc_interpretation_limits c) "interpretation_limits" (fun x => Ok (json_texts x));
     set (mc_confidence c) "confidence" normalize_decimal; set (mc_salience c) "salience" normalize_decimal;
     set (mc_durability c) "durability" normalize_decimal; set (mc_sensitivity c) "sensitivity" (fun x => Ok (JInt x));
     set (mc_authority_class c) "authority_class" (fun x => Ok (json_enum x));
     set (mc_valid_from c) "valid_from" (fun x => Ok (json_opt_instant x));
     set (mc_valid_to c) "valid_to" (fun x => Ok (json_opt_instant x));
     set (mc_observed_at c) "observed_at" (fun x => Ok (json_opt_instant x));
     set (mc_metadata c) "metadata" (fun x => Ok (JObject x))]%string;
  Ok (JObject (mjoin (M := list) fields)).

(** The fields a command class adds to the envelope. *)
Definition body_fields (b : CommandBody) : result json_dict :=
  match b with
  | ObserveCommand m | RememberCommand m => v ← memory_input_value m; Ok [(py "memory", v)]
  | ReviseCommand memory_id expected_revision changes =>
    v ← changes_value changes;
    Ok [(py "memory_id", json_uuid memory_id); (py "expected_revision", JInt expected_revision); (py "changes", v)]
  | LinkCommand source source_revision target target_revision link_type metadata =>
    Ok [(py "source_memory_id", json_uuid source); (py "source_expected_revision", JInt source_revision);
        (py "target_memory_id", json_uuid target); (py "target_expected_revision", JInt target_revision);
        (py "link_type", json_enum link_type); (py "metadata", JObject metadata)]
  | OpenConflictCommand subject_id members conflict_reason metadata =>
    Ok [(py "subject_id", json_uuid subject_id);
        (py "members", JArray ((fun e => JObject [(py "memory_id", json_uuid (re_memory_id e));
           (py "expected_revision", JInt (re_expected_revision e))]) <$> members));
        (py "conflict_reason", JStr conflict_reason); (py "metadata", JObject metadata)]
  | ResolveConflictCommand conflict_id members resolution_kind resolution_rationale user_confirmed =>
    Ok [(py "conflict_id", json_uuid conflict_id);
        (py "members", JArray ((fun r => JObject [(py "memory_id", json_uuid (cr_memory_id r));
           (py "expected_revision", JInt (cr_expected_revision r)); (py "disposition", JStr (cr_disposition r));
           (py "resulting_status", JStr (py (resulting_status_value (cr_resulting_status r))))]) <$> members));
        (py "resolution_kind", JStr resolution_kind); (py "resolution_rationale", JStr resolution_rationale);
        (py "user_confirmed", JBool user_confirmed)]
  | RetireCommand memory_id expected_revision =>
    Ok [(py "memory_id", json_uuid memory_id); (py "expected_revision", JInt expected_revision)]
  | ForgetCommand memory_id expected_revision mode confirmation =>
    Ok [(py "memory_id", json_uuid memory_id); (py "expected_revision", JInt expected_revision);
        (py "mode", JStr (py (forget_mode_value mode))); (py "confirmation", JStr (py confirmation))]
  end.

Definition semantic_payload (c : MutationCommand) : result JsonValue :=
  fields ← body_fields (co_body c);
  normalize_plain MAX_CANONICAL_JSON_DEPTH (JObject ((py "reason", JStr (co_reason c)) :: fields)).

Definition canonical_material (c : MutationCommand) : result json_dict :=
  payload ← semantic_payload c;
  Ok [(py "command_version", JInt COMMAND_VERSION); (py "operation", JStr (py (command_operation c)));
      (py "persona_id", json_uuid (co_persona_id c)); (py "branch_id", json_uuid (co_branch_id c));
      (py "causation_event_id", json_opt_uuid (co_causation_event_id c)); (py "payload", payload)].

Record CommandHashBinding : Type := { hb_tenant_id : UUID; hb_lineage_id : UUID; hb_actor_id : UUID; hb_client_id : UUID }.

Definition bound_canonical_material (c : MutationCommand) (b : CommandHashBinding) : result JsonValue :=
  material ← canonical_material c;
  Ok (JObject ([(py "tenant_id", json_uuid (hb_tenant_id b)); (py "lineage_id", json_uuid (hb_lineage_id b));
                (py "actor_id", json_uuid (hb_actor_id b)); (py "client_id", json_uuid (hb_client_id b))] ++ material)).

Definition binding_ok (b : CommandHashBinding) : bool :=
  is_uuid7 (hb_tenant_id b) && is_uuid7 (hb_lineage_id b) && is_uuid7 (hb_actor_id b) && is_uuid7 (hb_client_id b).

Definition bound_canonical_hash `{Rfc8785} (c : MutationCommand) (b : CommandHashBinding) : result pystr :=
  material ← bound_canonical_material c b;
  canonical ← canonical_plain_bytes material;
  Ok (sha256_hex canonical).

(** ** Responses *)

Record MutationResult : Type := {
  mu_operation : string;
  mu_receipt_id : UUID;
  mu_event_id : UUID;
  mu_memory_id : option UUID;
  mu_revision : option Z;
  mu_conflict_id : option UUID;
  mu_conflict_state : option string;
  mu_forget_state : option string;
  mu_idempotent_replay : bool;
  mu_warnings : list pystr
}.

#[export] Instance MutationResult_eq_dec : EqDecision MutationResult.
Proof. solve_decision. Defined.

Definition mutation_result_fields_ok (r : MutationResult) : bool :=
  is_uuid7 (mu_receipt_id r) && is_uuid7 (mu_event_id r) && opt_ok is_uuid7 (mu_memory_id r)
  && opt_ok is_uuid7 (mu_conflict_id r) && opt_ok safe_positive (mu_revision r)
  && forallb code_ok (mu_warnings r) && (length (mu_warnings r) <=? 16)%nat.

Definition validate_receipt (r : MutationResult) : result unit :=
  require (mutation_result_fields_ok r) (ValidationError "receipt field");;
  raise_if (xorb (is_none (mu_memory_id r)) (is_none (mu_revision r)))
    (ValidationError "memory identifier and revision must be supplied together");;
  (if bool_decide (mu_operation r = "open_conflict"%string) then
     raise_if (is_none (mu_conflict_id r) || negb (bool_decide (mu_conflict_state r = Some "open"%string)))
       (ValidationError "open-conflict receipts require an open conflict state")
   else if bool_decide (mu_operation r = "resolve_conflict"%string) then
     raise_if (is_none (mu_conflict_id r) || negb (bool_decide (mu_conflict_state r = Some "resolved"%string)))
       (ValidationError "resolve-conflict receipts require a resolved conflict state")
   else
     raise_if (negb (is_none (mu_conflict_id r)) || negb (is_none (mu_conflict_state r)))
       (ValidationError "conflict receipt fields only apply to conflict operations"));;
  (if bool_decide (mu_operation r = "forget"%string) then
     raise_if (is_none (mu_forget_state r)) (ValidationError "forget receipts require a forget state")
   else
     raise_if (negb (is_none (mu_forget_state r))) (ValidationError "forget state only applies to forget operations"));;
  raise_if (negb (nodupb (mu_warnings r))) (ValidationError "mutation warning codes must be unique").

Definition json_opt_text (s : option string) : JsonValue := from_option (fun s => JStr (py s)) JNull s.

(** [result.model_dump(mode="json")] *)
Definition result_value (r : MutationResult) : JsonValue :=
  JObject [(py "ok", JBool true); (py "contract_version", JStr (py "mcp-mutation-v1"));
    (py "operation", JStr (py (mu_operation r))); (py "receipt_id", json_uuid (mu_receipt_id r));
    (py "event_id", json_uuid (mu_event_id r)); (py "memory_id", json_opt_uuid (mu_memory_id r));
    (py "revision", from_option JInt JNull (mu_revision r)); (py "conflict_id", json_opt_uuid (mu_conflict_id r));
    (py "conflict_state", json_opt_text (mu_conflict_state r)); (py "forget_state", json_opt_text (mu_forget_state r));
    (py "idempotent_replay", JBool (mu_idempotent_replay r)); (py "warnings", json_texts (mu_warnings r))].

(** [persisted.model_copy(update={"idempotent_replay": True})] *)
Definition as_replay (r : MutationResult) : MutationResult :=
  {| mu_operation := mu_operation r; mu_receipt_id := mu_receipt_id r; mu_event_id := mu_event_id r;
     mu_memory_id := mu_memory_id r; mu_revision := mu_revision r; mu_conflict_id := mu_conflict_id r;
     mu_conflict_state := mu_conflict_state r; mu_forget_state := mu_forget_state r; mu_idempotent_replay := true;
     mu_warnings := mu_warnings r |}.

Record StaleRevisionDetails : Type := { sd_memory_id : UUID; sd_expected_revision : Z; sd_current_revision : Z }.

(** The closed error envelope; the message is a function of the code. *)
Record MutationError : Type := {
  me_code : string; me_retryable : bool; me_retry_after_ms : option Z; me_details : option StaleRevisionDetails
}.

#[export] Instance StaleRevisionDetails_eq_dec : EqDecision StaleRevisionDetails.
Proof. solve_decision. Defined.
#[export] Instance MutationError_eq_dec : EqDecision MutationError.
Proof. solve_decision. Defined.

Definition stale_details_ok (d : StaleRevisionDetails) : bool :=
  is_uuid7 (sd_memory_id d) && safe_positive (sd_expected_revision d) && safe_positive (sd_current_revision d).

(** [validate_safe_error] for the codes and details the engine uses. *)
Definition validate_safe_error (e : MutationError) : result unit :=
  require (opt_ok stale_details_ok (me_details e) && opt_ok (fun n => (0 <=? n) && (n <=? 60000)) (me_retry_after_ms e))
    (ValidationError "error field");;
  (if bool_decide (me_code e = "stale_revision"%string) then
     raise_if (is_none (me_details e)) (ValidationError "stale revision errors require stale revision details")
   else if bool_decide (me_code e = "conflict_state_changed"%string) then
     raise_if (negb (is_none (me_details e))) (ValidationError "conflict-state details have an invalid shape")
   else
     raise_if (negb (is_none (me_details e))) (ValidationError "error details are not allowed for this code"));;
  raise_if (negb (is_none (me_retry_after_ms e)) && negb (me_retryable e))
    (ValidationError "retry timing is only valid for retryable errors").
