(* ===== verification/Mutations.v ===== *)
(** * Mutations: what a command reads and proposes

    Models the preparation half of [application/mutations.py]: authorization,
    the rows the engine reads, the duplicate, revision and state checks of each
    command, the advisory locks it asks for and the payload it proposes.  The
    database is the tables the engine reads and writes; the identifiers and the
    time allocated before the retry loop are an argument.  A transaction is
    serializable, so its two reads of a memory see one snapshot. *)

From stdpp Require Import base tactics option list gmap sets strings.
From Stdlib Require Import ZArith Lia Bool.
From S2P Require Import Prelude Identifiers Enums Values CanonicalJson Digest Text Constraints Events Folding EventStore ProjectionRows LiveProjection ProjectionRebuild Outbox Fingerprints Locks Transactions Commands.
Open Scope Z_scope.

(** ** Authorization *)

Record CommandPrincipal : Type := {
  cp_tenant_id : UUID;
  cp_actor_id : UUID;
  cp_client_id : UUID;
  cp_transport_binding_id : UUID;
  cp_scopes : gset string;
  cp_ingress_id : option UUID
}.

(** [_SCOPES], [_EVENT_OPERATIONS] *)
Definition mutation_scope (b : CommandBody) : string :=
  match b with
  | ObserveCommand _ => "memory.write.observe"
  | RememberCommand _ => "memory.write.remember"
  | ReviseCommand _ _ _ => "memory.write.revise"
  | LinkCommand _ _ _ _ _ _ => "memory.write.link"
  | OpenConflictCommand _ _ _ _ => "memory.write.conflict.open"
  | ResolveConflictCommand _ _ _ _ _ => "memory.write.conflict.resolve"
  | RetireCommand _ _ => "memory.write.retire"
  | ForgetCommand _ _ _ _ => "memory.write.forget"
  end.

Definition event_operation (b : CommandBody) : EventOperation :=
  match b with
  | ObserveCommand _ => EventOperation.OBSERVED
  | RememberCommand _ => EventOperation.REMEMBERED
  | ReviseCommand _ _ _ => EventOperation.REVISED
  | LinkCommand _ _ _ _ _ _ => EventOperation.LINKED
  | OpenConflictCommand _ _ _ _ => EventOperation.CONFLICT_OPENED
  | ResolveConflictCommand _ _ _ _ _ => EventOperation.CONFLICT_RESOLVED
  | RetireCommand _ _ => EventOperation.RETIRED
  | ForgetCommand _ _ _ _ => EventOperation.TOMBSTONED
  end.

(** [command.OPERATION in {"observe", "remember", "revise"}] *)
Definition is_legacy_write (b : CommandBody) : bool :=
  match b with ObserveCommand _ | RememberCommand _ | ReviseCommand _ _ _ => true | _ => false end.

Definition principal_authorized (p : CommandPrincipal) (b : CommandBody) : bool :=
  if is_legacy_write b then
    bool_decide (mutation_scope b ∈ cp_scopes p) && bool_decide ("memory.write.legacy_v1"%string ∈ cp_scopes p)
    && is_none (cp_ingress_id p)
  else bool_decide (mutation_scope b ∈ cp_scopes p) || bool_decide ("memory:write"%string ∈ cp_scopes p).

(** ** Failures *)

(** [_error]: the envelope, validated *)
Definition mutation_error (code : string) (retryable : bool) (retry_after_ms : option Z)
    (details : option StaleRevisionDetails) : result MutationError :=
  let e := {| me_code := code; me_retryable := retryable; me_retry_after_ms := retry_after_ms; me_details := details |} in
  validate_safe_error e;;
  Ok e.

(** [_fail] *)
Definition fail_safely {A} (code : string) (details : option StaleRevisionDetails) : result A :=
  e ← mutation_error code false None details;
  Err (SafeFailure (me_code e) (me_retryable e) (me_retry_after_ms e)
         ((fun d => (sd_memory_id d, sd_expected_revision d, sd_current_revision d)) <$> me_details e)).

(** [if condition: _fail(code)] *)
Definition fail_if (condition : bool) (code : string) : result unit :=
  if condition then fail_safely code None else Ok tt.

Definition found {A} (o : option A) (code : string) : result A :=
  match o with Some a => Ok a | None => fail_safely code None end.

(** ** The database *)

Record PersonaRow : Type := { pe_tenant_id : UUID; pe_actor_id : UUID; pe_retired_at : option instant }.
Record LineageRow : Type := { li_tenant_id : UUID; li_persona_id : UUID; li_sealed_at : option instant }.
Record SessionRow : Type := {
  sr_tenant_id : UUID; sr_actor_id : UUID; sr_client_id : UUID; sr_lineage_id : UUID; sr_branch_id : UUID;
  sr_transport_binding_id : UUID
}.
Record SubjectRow : Type := {
  su_tenant_id : UUID; su_lineage_id : UUID; su_kind : string; su_origin_session_id : option UUID
}.
Record ContentKeyRow : Type := {
  ck_tenant_id : UUID; ck_lineage_id : UUID; ck_memory_id : UUID; ck_state : string;
  ck_provider_name : pystr; ck_provider_key_reference : pystr; ck_created_at : instant;
  ck_destruction_requested_at : option instant
}.
Record CommandReceipt : Type := {
  rc_receipt_id : UUID; rc_tenant_id : UUID; rc_client_id : UUID; rc_idempotency_key : pystr;
  rc_command_sha256 : bytes; rc_event_id : option UUID; rc_selection_decision_id : option UUID; rc_memory_id : option UUID; rc_memory_revision : option Z;
  rc_result : JsonValue; rc_result_canonical : bytes; rc_result_sha256 : bytes; rc_created_at : instant
}.

Record MutationDb : Type := {
  md_store : StoreState;
  md_tables : LiveTables;
  md_outbox : OutboxDb;
  md_personas : gmap UUID PersonaRow;
  md_lineages : gmap UUID LineageRow;
  md_branches : gmap UUID BranchRow;
  md_sessions : gmap UUID SessionRow;
  md_subjects : gmap UUID SubjectRow;
  md_content_keys : gmap UUID ContentKeyRow;
  (* by tenant, client and idempotency key, which are unique *)
  md_receipts : gmap (UUID * UUID * pystr) CommandReceipt
}.

(** What the engine allocates before the retry loop. *)
Record Allocation : Type := {
  al_event_id : UUID;
  al_receipt_id : UUID;
  al_aggregate_id : UUID;
  al_correlation_id : UUID;
  al_created_at : instant;
  al_job_ids : list UUID
}.

Definition JOB_IDENTITIES : nat := 34.

(** ** Queries before the command lock *)

Definition binding_kind (db : MutationDb) (p : CommandPrincipal) : option string :=
  b ← st_bindings (md_store db) !! cp_transport_binding_id p;
  guard (tb_tenant_id b = cp_tenant_id p /\ tb_actor_id b = cp_actor_id p /\ tb_client_id b = cp_client_id p);;
  Some (tb_transport_kind b).

(** The joined identity query: branch, its lineage and the lineage's persona. *)
Definition identity (db : MutationDb) (p : CommandPrincipal) (c : MutationCommand)
    : option (UUID * option instant * option instant * BranchRow) :=
  branch ← md_branches db !! co_branch_id c;
  lineage ← md_lineages db !! hr_lineage_id branch;
  guard (hr_tenant_id branch = li_tenant_id lineage);;
  guard (li_persona_id lineage = co_persona_id c);;
  persona ← md_personas db !! co_persona_id c;
  guard (pe_tenant_id persona = li_tenant_id lineage /\ pe_tenant_id persona = cp_tenant_id p);;
  Some (hr_lineage_id branch, li_sealed_at lineage, pe_retired_at persona, branch).

(** [_branch_state] *)
Definition branch_state_of (row : BranchRow) : result BranchState :=
  ceiling ← from_option_or (enum_of_value MemoryVisibility (hr_visibility_ceiling row))
              (ValueError "is not a valid MemoryVisibility");
  let b := {| bs_branch_id := hr_branch_id row; bs_tenant_id := hr_tenant_id row; bs_lineage_id := hr_lineage_id row;
              bs_parent_branch_id := hr_parent_branch_id row; bs_fork_event_sequence := hr_fork_event_sequence row;
              bs_name := hr_name row; bs_visibility_ceiling := ceiling; bs_created_at := hr_created_at row;
              bs_sealed_at := hr_sealed_at row |} in
  except_value_error (validate_branch b) (ValidationError "branch");;
  Ok b.

Definition session_exists (db : MutationDb) (p : CommandPrincipal) (c : MutationCommand) (lineage_id session_id : UUID)
    : bool :=
  match md_sessions db !! session_id with
  | Some row =>
    (sr_tenant_id row =? cp_tenant_id p) && (sr_actor_id row =? cp_actor_id p) && (sr_client_id row =? cp_client_id p)
    && (sr_lineage_id row =? lineage_id) && (sr_branch_id row =? co_branch_id c)
    && (sr_transport_binding_id row =? cp_transport_binding_id p)
  | None => false
  end.

Definition cause_exists (db : MutationDb) (p : CommandPrincipal) (lineage_id cause : UUID) : bool :=
  existsb (fun row => (r_tenant_id row =? cp_tenant_id p) && (r_lineage_id row =? lineage_id) && (r_event_id row =? cause))
    (st_events (md_store db)).

Definition receipt_key (p : CommandPrincipal) (c : MutationCommand) : UUID * UUID * pystr :=
  (cp_tenant_id p, cp_client_id p, co_idempotency_key c).

(** ** Memories *)

(** [state.model_copy(update={"revision": ..., "updated_at": ..., **updates})];
    the updates are the fields a handler replaces. *)
Record MemoryUpdate : Type := {
  up_status : MemoryStatus;
  up_statement : option pystr;
  up_reason_to_remember : option pystr;
  up_interpretation_limits : list pystr;
  up_normalized_fingerprint : option pystr;
  up_metadata : json_dict
}.

Definition unchanged (m : MemoryState) : MemoryUpdate :=
  {| up_status := ms_status m; up_statement := ms_statement m; up_reason_to_remember := ms_reason_to_remember m;
     up_interpretation_limits := ms_interpretation_limits m; up_normalized_fingerprint := ms_normalized_fingerprint m;
     up_metadata := ms_metadata m |}.

Definition with_status (m : MemoryState) (status : MemoryStatus) : MemoryUpdate :=
  {| up_status := status; up_statement := ms_statement m; up_reason_to_remember := ms_reason_to_remember m;
     up_interpretation_limits := ms_interpretation_limits m; up_normalized_fingerprint := ms_normalized_fingerprint m;
     up_metadata := ms_metadata m |}.

Definition sanitized : MemoryUpdate :=
  {| up_status := MemoryStatus.TOMBSTONED; up_statement := None; up_reason_to_remember := None;
     up_interpretation_limits := []; up_normalized_fingerprint := None; up_metadata := [] |}.

(** [_updated_memory] *)
Definition updated_memory (m : MemoryState) (now : instant) (u : MemoryUpdate) : MemoryState := {|
  ms_version := ms_version m; ms_memory_id := ms_memory_id m; ms_tenant_id := ms_tenant_id m;
  ms_lineage_id := ms_lineage_id m; ms_branch_id := ms_branch_id m; ms_subject_id := ms_subject_id m;
  ms_subject_kind := ms_subject_kind m; ms_revision := ms_revision m + 1; ms_category := ms_category m;
  ms_ontological_status := ms_ontological_status m; ms_scope := ms_scope m; ms_visibility := ms_visibility m;
  ms_status := up_status u; ms_statement := up_statement u; ms_reason_to_remember := up_reason_to_remember u;
  ms_interpretation_limits := up_interpretation_limits u; ms_confidence := ms_confidence m;
  ms_salience := ms_salience m; ms_durability := ms_durability m; ms_sensitivity := ms_sensitivity m;
  ms_authority_class := ms_authority_class m; ms_valid_from := ms_valid_from m; ms_valid_to := ms_valid_to m;
  ms_observed_at := ms_observed_at m; ms_origin_session_id := ms_origin_session_id m;
  ms_publication_approved_at := ms_publication_approved_at m;
  ms_publication_approved_by_actor_id := ms_publication_approved_by_actor_id m;
  ms_content_protection := ms_content_protection m; ms_content_key_id := ms_content_key_id m;
  ms_created_at := ms_created_at m; ms_updated_at := now; ms_fingerprint_version := ms_fingerprint_version m;
  ms_normalized_fingerprint := up_normalized_fingerprint u; ms_metadata := up_metadata u |}.

(** The patch of a revision, with the fingerprint and the dropped approval. *)
Definition patched_memory (m : MemoryState) (c : MemoryChanges) (now : instant) (fingerprint : option pystr) : MemoryState := {|
  ms_version := ms_version m; ms_memory_id := ms_memory_id m; ms_tenant_id := ms_tenant_id m;
  ms_lineage_id := ms_lineage_id m; ms_branch_id := ms_branch_id m; ms_subject_id := ms_subject_id m;
  ms_subject_kind := ms_subject_kind m; ms_revision := ms_revision m + 1;
  ms_category := default (ms_category m) (mc_category c);
  ms_ontological_status := default (ms_ontological_status m) (mc_ontological_status c); ms_scope := ms_scope m;
  ms_visibility := default (ms_visibility m) (mc_visibility c); ms_status := ms_status m;
  ms_statement := match mc_statement c with Some s => Some s | None => ms_statement m end;
  ms_reason_to_remember := match mc_reason_to_remember c with Some s => Some s | None => ms_reason_to_remember m end;
  ms_interpretation_limits := default (ms_interpretation_limits m) (mc_interpretation_limits c);
  ms_confidence := default (ms_confidence m) (mc_confidence c); ms_salience := default (ms_salience m) (mc_salience c);
  ms_durability := default (ms_durability m) (mc_durability c);
  ms_sensitivity := default (ms_sensitivity m) (mc_sensitivity c);
  ms_authority_class := default (ms_authority_class m) (mc_authority_class c);
  ms_valid_from := default (ms_valid_from m) (mc_valid_from c); ms_valid_to := default (ms_valid_to m) (mc_valid_to c);
  ms_observed_at := default (ms_observed_at m) (mc_observed_at c); ms_origin_session_id := ms_origin_session_id m;
  ms_publication_approved_at := None; ms_publication_approved_by_actor_id := None;
  ms_content_protection := ms_content_protection m; ms_content_key_id := ms_content_key_id m;
  ms_created_at := ms_created_at m; ms_updated_at := now; ms_fingerprint_version := 1;
  ms_normalized_fingerprint := fingerprint; ms_metadata := default (ms_metadata m) (mc_metadata c) |}.

(** The status a memory must not have to count as a duplicate. *)
Definition is_live_status (status : string) : bool :=
  negb (bool_decide (status ∈ [MemoryStatus.value MemoryStatus.SUPERSEDED; MemoryStatus.value MemoryStatus.RETIRED;
                               MemoryStatus.value MemoryStatus.TOMBSTONED])).

Section Prepare.
Context `{Rfc8785}.

(** [_fingerprint] *)
Definition SEALED_LOCK_PREFIX : bytes := py "scalevault.sealed-lock.v1" ++ [0].

Definition memory_fingerprint (m : MemoryState) : result pystr :=
  match ms_normalized_fingerprint m with
  | Some fingerprint => Ok fingerprint
  | None => if is_v3 m then Ok (sha256_hex (SEALED_LOCK_PREFIX ++ uuid_bytes (ms_memory_id m)))
            else fail_safely "invalid_input" None
  end.

(** [_revised_memory] *)
Definition revised_memory (current : MemoryState) (changes : MemoryChanges) (now : instant) : result MemoryState :=
  let candidate := patched_memory current changes now None in
  fingerprint ← exact_memory_fingerprint (default [] (ms_statement candidate)) (inl (ms_category candidate))
                  (inl (ms_ontological_status candidate)) (inl (ms_scope candidate)) (ms_interpretation_limits candidate);
  Ok (patched_memory current changes now (Some (sha256_hex_ fingerprint))).

(** [_reject_disputed_terminal_mutation] *)
Definition reject_disputed_terminal_mutation (m : MemoryState) : result unit :=
  fail_if (bool_decide (ms_status m = MemoryStatus.DISPUTED)) "conflict_state_changed".

(** [_check_revision] *)
Definition check_memory_revision (m : MemoryState) (expected : Z) : result unit :=
  if ms_revision m =? expected then Ok tt
  else let details := {| sd_memory_id := ms_memory_id m; sd_expected_revision := expected;
                         sd_current_revision := ms_revision m |} in
       require (stale_details_ok details) (ValidationError "stale revision details");;
       fail_safely "stale_revision" (Some details).

(** [_load_memories]: a dictionary in the order of the query. *)
Definition load_memories (db : MutationDb) (p : CommandPrincipal) (lineage_id branch_id : UUID) (memory_ids : list UUID)
    : result (list (UUID * MemoryState)) :=
  let rows := select_rows mr_memory_id (fun row => (mr_tenant_id row =? cp_tenant_id p)
    && (mr_lineage_id row =? lineage_id) && (mr_branch_id row =? branch_id)
    && bool_decide (mr_memory_id row ∈ memory_ids)) (lt_memories (md_tables db)) in
  states ← mapR (fun row => m ← memory_row_to_state row; Ok (mr_memory_id row, m)) rows;
  fail_if (negb (length states =? length (remove_dups memory_ids))%nat) "not_found";;
  Ok states.

Definition memory_of (memories : list (UUID * MemoryState)) (id : UUID) : result MemoryState :=
  from_option_or ((fun found => found.2.2) <$> list_find (fun kv => kv.1 = id) memories) KeyError.

(** The query for an equivalent memory that is still in force. *)
Definition live_equivalent (db : MutationDb) (p : CommandPrincipal) (lineage_id branch_id subject_id : UUID)
    (fingerprint : bytes) (except_id : option UUID) : bool :=
  existsb (fun row => (mr_tenant_id row =? cp_tenant_id p) && (mr_lineage_id row =? lineage_id)
      && (mr_branch_id row =? branch_id) && (mr_subject_id row =? subject_id)
      && negb (bool_decide (Some (mr_memory_id row) = except_id))
      && bool_decide (mr_normalized_fingerprint row = Some fingerprint) && is_live_status (mr_status row))
    (snd <$> map_to_list (lt_memories (md_tables db))).

(** [_reject_duplicate_active_link] *)
Definition reject_duplicate_active_link (db : MutationDb) (p : CommandPrincipal) (lineage_id branch_id source target : UUID)
    (link_type : LinkType) : result unit :=
  fail_if (existsb (fun row => (lr_tenant_id row =? cp_tenant_id p) && (lr_lineage_id row =? lineage_id)
      && (lr_branch_id row =? branch_id) && (lr_source_memory_id row =? source) && (lr_target_memory_id row =? target)
      && String.eqb (lr_link_type row) (enum_value link_type) && String.eqb (lr_status row) "active")
    (snd <$> map_to_list (lt_links (md_tables db)))) "invalid_input".

(** What [_prepare_payload] returns, with the advisory locks it asked for. *)
Record Prepared : Type := {
  pp_payload : OperationPayload;
  pp_memory_id : option UUID;
  pp_expected_revision : option Z;
  pp_result_memory_id : option UUID;
  pp_result_revision : option Z;
  pp_conflict_id : option UUID;
  pp_requests : list Z
}.

Definition aggregate_lock_key (p : CommandPrincipal) (lineage_id branch_id : UUID) (m : MemoryState) : result Z :=
  fingerprint ← memory_fingerprint m;
  advisory_lock_key (cp_tenant_id p) lineage_id branch_id (ms_subject_id m) (inl fingerprint).

(** ** Creation *)

Definition created_memory (p : CommandPrincipal) (c : MutationCommand) (lineage_id : UUID) (al : Allocation)
    (status : MemoryStatus) (fingerprint : pystr) (m : MemoryInput) : MemoryState := {|
  ms_version := MemoryStateV1; ms_memory_id := al_aggregate_id al; ms_tenant_id := cp_tenant_id p;
  ms_lineage_id := lineage_id; ms_branch_id := co_branch_id c; ms_subject_id := mi_subject_id m;
  ms_subject_kind := mi_subject_kind m; ms_revision := 1; ms_category := mi_category m;
  ms_ontological_status := mi_ontological_status m; ms_scope := mi_scope m; ms_visibility := mi_visibility m;
  ms_status := status; ms_statement := Some (mi_statement m); ms_reason_to_remember := Some (mi_reason_to_remember m);
  ms_interpretation_limits := mi_interpretation_limits m; ms_confidence := mi_confidence m;
  ms_salience := mi_salience m; ms_durability := mi_durability m; ms_sensitivity := mi_sensitivity m;
  ms_authority_class := mi_authority_class m; ms_valid_from := mi_valid_from m; ms_valid_to := mi_valid_to m;
  ms_observed_at := mi_observed_at m; ms_origin_session_id := mi_origin_session_id m;
  ms_publication_approved_at := None; ms_publication_approved_by_actor_id := None;
  ms_content_protection := plaintext; ms_content_key_id := None; ms_created_at := al_created_at al;
  ms_updated_at := al_created_at al; ms_fingerprint_version := 1; ms_normalized_fingerprint := Some fingerprint;
  ms_metadata := mi_metadata m |}.

Definition prepare_create (db : MutationDb) (p : CommandPrincipal) (c : MutationCommand) (lineage_id : UUID)
    (al : Allocation) (status : MemoryStatus) (m : MemoryInput) : result Prepared :=
  subject ← found (match md_subjects db !! mi_subject_id m with
                   | Some row => if (su_tenant_id row =? cp_tenant_id p) && (su_lineage_id row =? lineage_id)
                                    && String.eqb (su_kind row) (enum_value (mi_subject_kind m))
                                 then Some row else None
                   | None => None
                   end) "not_found";
  fail_if (bool_decide (mi_scope m ∈ [MemoryScope.EPISODIC; MemoryScope.SCENE_LOCAL])
           && (is_none (co_logical_session_id c)
               || negb (bool_decide (mi_origin_session_id m = co_logical_session_id c))
               || negb (bool_decide (su_origin_session_id subject = co_logical_session_id c)))) "invalid_input";;
  fingerprint ← exact_memory_fingerprint (mi_statement m) (inl (mi_category m)) (inl (mi_ontological_status m))
                  (inl (mi_scope m)) (mi_interpretation_limits m);
  key ← advisory_lock_key (cp_tenant_id p) lineage_id (co_branch_id c) (mi_subject_id m) (inl (sha256_hex_ fingerprint));
  requests ← acquire_advisory_xact_locks [key];
  digest ← from_option_or (fromhex (sha256_hex_ fingerprint)) (ValueError "non-hexadecimal number found in fromhex() arg");
  fail_if (live_equivalent db p lineage_id (co_branch_id c) (mi_subject_id m) digest None) "invalid_input";;
  let state := created_memory p c lineage_id al status (sha256_hex_ fingerprint) m in
  or_raise (validate_memory state) (ValidationError "memory");;
  Ok {| pp_payload := MemoryCreatedPayload state []; pp_memory_id := Some (al_aggregate_id al);
        pp_expected_revision := None; pp_result_memory_id := Some (al_aggregate_id al);
        pp_result_revision := Some 1; pp_conflict_id := None; pp_requests := requests |}.

(** ** Existing memories *)

Definition command_memory_ids (b : CommandBody) : list UUID :=
  match b with
  | LinkCommand source _ target _ _ _ => [source; target]
  | OpenConflictCommand _ members _ _ => re_memory_id <$> members
  | ResolveConflictCommand _ members _ _ _ => cr_memory_id <$> members
  | ReviseCommand memory_id _ _ | RetireCommand memory_id _ | ForgetCommand memory_id _ _ _ => [memory_id]
  | ObserveCommand _ | RememberCommand _ => []
  end.

(** Read, lock in key order, read again under the locks. *)
Definition lock_memories (db : MutationDb) (p : CommandPrincipal) (c : MutationCommand) (lineage_id : UUID)
    (created_at : instant) : result (list (UUID * MemoryState) * list Z) :=
  let ids := command_memory_ids (co_body c) in
  unlocked ← load_memories db p lineage_id (co_branch_id c) ids;
  keys ← mapR (fun kv => aggregate_lock_key p lineage_id (co_branch_id c) kv.2) unlocked;
  more ← match co_body c with
         | ReviseCommand memory_id _ changes =>
           current ← memory_of unlocked memory_id;
           revised ← revised_memory current changes created_at;
           key ← aggregate_lock_key p lineage_id (co_branch_id c) revised;
           Ok [key]
         | _ => Ok []
         end;
  requests ← acquire_advisory_xact_locks (keys ++ more);
  memories ← load_memories db p lineage_id (co_branch_id c) ids;
  each (fun kv =>
    locked ← memory_of memories kv.1;
    if negb (ms_revision locked =? ms_revision kv.2) || negb (ms_subject_id locked =? ms_subject_id kv.2)
       || negb (bool_decide (ms_normalized_fingerprint locked = ms_normalized_fingerprint kv.2))
    then let details := {| sd_memory_id := kv.1; sd_expected_revision := ms_revision kv.2;
                           sd_current_revision := ms_revision locked |} in
         require (stale_details_ok details) (ValidationError "stale revision details");;
         fail_safely "stale_revision" (Some details)
    else Ok tt) unlocked;;
  Ok (memories, requests).

Definition transition (payload : OperationPayload) (current after : MemoryState) (requests : list Z) : Prepared :=
  {| pp_payload := payload; pp_memory_id := Some (ms_memory_id current);
     pp_expected_revision := Some (ms_revision current); pp_result_memory_id := Some (ms_memory_id current);
     pp_result_revision := Some (ms_revision after); pp_conflict_id := None; pp_requests := requests |}.

Definition prepare_revise (db : MutationDb) (p : CommandPrincipal) (c : MutationCommand) (lineage_id : UUID)
    (al : Allocation) (memories : list (UUID * MemoryState)) (requests : list Z) (memory_id : UUID)
    (expected_revision : Z) (changes : MemoryChanges) : result Prepared :=
  current ← memory_of memories memory_id;
  check_memory_revision current expected_revision;;
  revised ← revised_memory current changes (al_created_at al);
  fingerprint ← memory_fingerprint revised;
  digest ← from_option_or (fromhex fingerprint) (ValueError "non-hexadecimal number found in fromhex() arg");
  fail_if (live_equivalent db p lineage_id (co_branch_id c) (ms_subject_id revised) digest (Some (ms_memory_id revised)))
    "invalid_input";;
  require (safe_positive (ms_revision current)) (ValidationError "payload");;
  Ok (transition (MemoryTransitionPayload (ms_revision current) revised) current revised requests).

Definition aggregate_result (payload : OperationPayload) (conflict_id : option UUID) (requests : list Z) : Prepared :=
  {| pp_payload := payload; pp_memory_id := None; pp_expected_revision := None; pp_result_memory_id := None;
     pp_result_revision := None; pp_conflict_id := conflict_id; pp_requests := requests |}.

Definition prepare_link (db : MutationDb) (p : CommandPrincipal) (c : MutationCommand) (lineage_id : UUID)
    (al : Allocation) (memories : list (UUID * MemoryState)) (requests : list Z) (source_memory_id : UUID)
    (source_expected_revision : Z) (target_memory_id : UUID) (target_expected_revision : Z) (link_type : LinkType)
    (metadata : json_dict) : result Prepared :=
  source ← memory_of memories source_memory_id;
  target ← memory_of memories target_memory_id;
  check_memory_revision source source_expected_revision;;
  check_memory_revision target target_expected_revision;;
  reject_duplicate_active_link db p lineage_id (co_branch_id c) source_memory_id target_memory_id link_type;;
  let link := {| ls_link_id := al_aggregate_id al; ls_tenant_id := cp_tenant_id p; ls_lineage_id := lineage_id;
                 ls_branch_id := co_branch_id c; ls_source_memory_id := ms_memory_id source;
                 ls_target_memory_id := ms_memory_id target; ls_link_type := link_type; ls_status := link_active;
                 ls_created_at := al_created_at al; ls_unlinked_at := None; ls_metadata := metadata |} in
  or_raise (validate_link link) (ValidationError "link");;
  Ok (aggregate_result (LinkedPayload link) None requests).

(** The after-image and the membership of one conflicting memory. *)
Definition affect (current : MemoryState) (now : instant) (status : MemoryStatus) : result AffectedMemory :=
  require (safe_positive (ms_revision current)) (ValidationError "affected memory");;
  Ok {| am_previous_revision := ms_revision current; am_memory := updated_memory current now (with_status current status) |}.

Definition new_member (conflict_id memory_id : UUID) (disposition : pystr) (joined_at : instant)
    : result ConflictMemberState :=
  let member := {| cm_conflict_id := conflict_id; cm_memory_id := memory_id; cm_disposition := disposition;
                   cm_joined_at := joined_at |} in
  or_raise (validate_conflict_member member) (ValidationError "conflict member");;
  Ok member.

Definition expectation_of (members : list MemoryRevisionExpectation) (id : UUID) : result Z :=
  from_option_or ((fun found => re_expected_revision found.2) <$> list_find (fun e => re_memory_id e = id) (rev members))
    KeyError.

Definition prepare_open_conflict (p : CommandPrincipal) (c : MutationCommand) (lineage_id : UUID) (al : Allocation)
    (memories : list (UUID * MemoryState)) (requests : list Z) (subject_id : UUID)
    (expected : list MemoryRevisionExpectation) (conflict_reason : pystr) (metadata : json_dict) : result Prepared :=
  fail_if (existsb (fun kv => negb (ms_subject_id kv.2 =? subject_id)) memories) "invalid_input";;
  pairs ← mapR (fun memory_id =>
    current ← memory_of memories memory_id;
    revision ← expectation_of expected memory_id;
    check_memory_revision current revision;;
    affected ← affect current (al_created_at al) MemoryStatus.DISPUTED;
    member ← new_member (al_aggregate_id al) memory_id (py "disputed") (al_created_at al);
    Ok (affected, member)) (sort_by (fun a b => str_leb (uuid_str a) (uuid_str b)) memories.*1);
  let conflict := {| cs_conflict_id := al_aggregate_id al; cs_tenant_id := cp_tenant_id p; cs_lineage_id := lineage_id;
                     cs_branch_id := co_branch_id c; cs_subject_id := subject_id; cs_status := conflict_open;
                     cs_reason := conflict_reason; cs_resolution_kind := None; cs_resolution_rationale := None;
                     cs_opened_at := al_created_at al; cs_resolved_at := None; cs_metadata := metadata |} in
  or_raise (validate_conflict conflict) (ValidationError "conflict");;
  or_raise (validate_conflict_members conflict pairs.*2) (ValidationError "payload");;
  Ok (aggregate_result (ConflictOpenedPayload conflict pairs.*2 pairs.*1) (Some (al_aggregate_id al)) requests).

Definition resolution_of (members : list ConflictResolution) (id : UUID) : result ConflictResolution :=
  from_option_or ((fun found => found.2) <$> list_find (fun r => cr_memory_id r = id) (rev members)) KeyError.

Definition resulting_status (s : ResultingStatus) : MemoryStatus :=
  match s with
  | resulting_active => MemoryStatus.ACTIVE
  | resulting_superseded => MemoryStatus.SUPERSEDED
  | resulting_retired => MemoryStatus.RETIRED
  end.

Definition prepare_resolve_conflict (db : MutationDb) (p : CommandPrincipal) (c : MutationCommand) (lineage_id : UUID)
    (al : Allocation) (memories : list (UUID * MemoryState)) (requests : list Z) (conflict_id : UUID)
    (resolutions : list ConflictResolution) (resolution_kind resolution_rationale : pystr) (user_confirmed : bool)
    : result Prepared :=
  fail_if (negb user_confirmed
           && existsb (fun kv => bool_decide (ms_scope kv.2 ∈ [MemoryScope.PERSONA; MemoryScope.RELATIONSHIP])) memories)
    "invalid_input";;
  row ← found (match lt_conflicts (md_tables db) !! conflict_id with
               | Some row => if (kr_tenant_id row =? cp_tenant_id p) && (kr_lineage_id row =? lineage_id)
                                && (kr_branch_id row =? co_branch_id c) then Some row else None
               | None => None
               end) "not_found";
  let stored := select_rows br_memory_id (fun m => (br_tenant_id m =? cp_tenant_id p)
    && (br_lineage_id m =? lineage_id) && (br_conflict_id m =? conflict_id)) (lt_members (md_tables db)) in
  fail_if (negb (String.eqb (kr_status row) "open")
           || negb (bool_decide (list_to_set (C := gset UUID) (br_memory_id <$> stored)
                                 = list_to_set (cr_memory_id <$> resolutions)))) "conflict_state_changed";;
  pairs ← mapR (fun m =>
    resolution ← resolution_of resolutions (br_memory_id m);
    current ← memory_of memories (br_memory_id m);
    check_memory_revision current (cr_expected_revision resolution);;
    affected ← affect current (al_created_at al) (resulting_status (cr_resulting_status resolution));
    member ← new_member conflict_id (br_memory_id m) (cr_disposition resolution) (br_joined_at m);
    Ok (affected, member)) stored;
  let conflict := {| cs_conflict_id := kr_conflict_id row; cs_tenant_id := kr_tenant_id row;
                     cs_lineage_id := kr_lineage_id row; cs_branch_id := kr_branch_id row;
                     cs_subject_id := kr_subject_id row; cs_status := conflict_resolved; cs_reason := kr_reason row;
                     cs_resolution_kind := Some resolution_kind; cs_resolution_rationale := Some resolution_rationale;
                     cs_opened_at := kr_opened_at row; cs_resolved_at := Some (al_created_at al);
                     cs_metadata := kr_metadata row |} in
  or_raise (validate_conflict conflict) (ValidationError "conflict");;
  or_raise (validate_conflict_members conflict pairs.*2) (ValidationError "payload");;
  Ok (aggregate_result (ConflictResolvedPayload conflict pairs.*2 pairs.*1) (Some conflict_id) requests).

Definition prepare_retire (al : Allocation) (memories : list (UUID * MemoryState)) (requests : list Z)
    (memory_id : UUID) (expected_revision : Z) : result Prepared :=
  current ← memory_of memories memory_id;
  check_memory_revision current expected_revision;;
  reject_disputed_terminal_mutation current;;
  let after := updated_memory current (al_created_at al) (with_status current MemoryStatus.RETIRED) in
  require (safe_positive (ms_revision current)) (ValidationError "payload");;
  Ok (transition (MemoryTransitionPayload (ms_revision current) after) current after requests).

(** The active content key a hard forget destroys. *)
Definition active_content_key (db : MutationDb) (p : CommandPrincipal) (lineage_id memory_id key_id : UUID) : bool :=
  match md_content_keys db !! key_id with
  | Some row => (ck_tenant_id row =? cp_tenant_id p) && (ck_lineage_id row =? lineage_id)
                && (ck_memory_id row =? memory_id) && String.eqb (ck_state row) "active"
  | None => false
  end.

Definition prepare_forget (db : MutationDb) (p : CommandPrincipal) (lineage_id : UUID) (al : Allocation)
    (memories : list (UUID * MemoryState)) (requests : list Z) (memory_id : UUID) (expected_revision : Z)
    (mode : ForgetMode) : result Prepared :=
  current ← memory_of memories memory_id;
  check_memory_revision current expected_revision;;
  reject_disputed_terminal_mutation current;;
  match mode with
  | forget_hard =>
    match ms_content_key_id current with
    | Some key_id =>
      fail_if (negb (bool_decide (ms_content_protection current = envelope_encrypted))) "hard_forget_unavailable";;
      fail_if (negb (active_content_key db p lineage_id (ms_memory_id current) key_id)) "hard_forget_unavailable"
    | None => fail_safely "hard_forget_unavailable" None
    end
  | forget_logical => Ok tt
  end;;
  let tombstone := updated_memory current (al_created_at al) sanitized in
  require (safe_positive (ms_revision current)) (ValidationError "payload");;
  Ok (transition (TombstonedPayload (ms_revision current) tombstone mode) current tombstone requests).

(** [_prepare_payload] *)
Definition prepare_payload (db : MutationDb) (p : CommandPrincipal) (c : MutationCommand) (lineage_id : UUID)
    (al : Allocation) : result Prepared :=
  match co_body c with
  | ObserveCommand m => prepare_create db p c lineage_id al MemoryStatus.CANDIDATE m
  | RememberCommand m => prepare_create db p c lineage_id al MemoryStatus.ACTIVE m
  | _ =>
    '(memories, requests) ← lock_memories db p c lineage_id (al_created_at al);
    match co_body c with
    | ReviseCommand memory_id expected_revision changes =>
      prepare_revise db p c lineage_id al memories requests memory_id expected_revision changes
    | LinkCommand source source_revision target target_revision link_type metadata =>
      prepare_link db p c lineage_id al memories requests source source_revision target target_revision link_type metadata
    | OpenConflictCommand subject_id members conflict_reason metadata =>
      prepare_open_conflict p c lineage_id al memories requests subject_id members conflict_reason metadata
    | ResolveConflictCommand conflict_id members kind rationale user_confirmed =>
      prepare_resolve_conflict db p c lineage_id al memories requests conflict_id members kind rationale user_confirmed
    | RetireCommand memory_id expected_revision => prepare_retire al memories requests memory_id expected_revision
    | ForgetCommand memory_id expected_revision mode _ =>
      prepare_forget db p lineage_id al memories requests memory_id expected_revision mode
    | ObserveCommand _ | RememberCommand _ => Err AssertionError
    end
  end.
End Prepare.
