(* ===== verification/MutationEngine.v ===== *)
(** * MutationEngine: one command in one serializable transaction

    Models the rest of [application/mutations.py]: the event a prepared command
    becomes, the jobs it schedules, [MutationEngine._attempt] from
    authorization and replay detection to the receipt, and
    [MutationEngine.execute], the retries and the closed error mapping around
    it. *)

From stdpp Require Import base tactics option list gmap sets strings.
From Stdlib Require Import ZArith Lia Bool.
From S2P Require Import Prelude Identifiers Enums Values CanonicalJson Digest Text Constraints Events Folding EventStore ProjectionRows LiveProjection ProjectionRebuild Outbox Fingerprints Locks Transactions Commands Mutations.
Open Scope Z_scope.

(** ** The event *)

(** The memory attribute of a payload that has one. *)
Definition payload_memory (p : OperationPayload) : option MemoryState :=
  match p with
  | MemoryCreatedPayload m _ | MemoryTransitionPayload _ m | CandidateLifecyclePayload _ m _ _ _
  | SupersededPayload _ m _ | TombstonedPayload _ m _ | PayloadPurgeCompletedPayload _ m _ _ _ => Some m
  | _ => None
  end.

Definition contract_version (p : OperationPayload) : Z :=
  match payload_memory p with Some m => if is_v3 m then 3 else 1 | None => 1 end.

(** A payload is dumped by the fields its class declares: the engine's payloads
    declare [MemoryState], except the tombstone of a sealed memory, which is a
    [TombstonedPayloadV3]. *)
Definition declared_memory (m : MemoryState) : MemoryState := with_version m MemoryStateV1.

Definition declared_affected (a : AffectedMemory) : AffectedMemory :=
  {| am_previous_revision := am_previous_revision a; am_memory := declared_memory (am_memory a) |}.

Definition declared_payload (p : OperationPayload) : OperationPayload :=
  match p with
  | MemoryCreatedPayload m items => MemoryCreatedPayload (declared_memory m) items
  | MemoryTransitionPayload revision m => MemoryTransitionPayload revision (declared_memory m)
  | TombstonedPayload revision m mode => TombstonedPayload revision (if is_v3 m then m else declared_memory m) mode
  | ConflictOpenedPayload c ms am => ConflictOpenedPayload c ms (declared_affected <$> am)
  | ConflictResolvedPayload c ms am => ConflictResolvedPayload c ms (declared_affected <$> am)
  | other => other
  end.

(** ** Scheduled jobs *)

Record JobSpec : Type := {
  js_job_type : string; js_aggregate_type : string; js_aggregate_id : option UUID; js_references : References
}.

(** [_scheduled_after_images] *)
Definition scheduled_after_images (p : OperationPayload) : list MemoryState :=
  match p with
  | MemoryCreatedPayload m _ | MemoryTransitionPayload _ m | CandidateLifecyclePayload _ m _ _ _
  | SupersededPayload _ m _ | TombstonedPayload _ m _ | PayloadPurgeCompletedPayload _ m _ _ _ => [m]
  | ConflictOpenedPayload _ _ am | ConflictResolvedPayload _ _ am =>
    am_memory <$> sort_by (fun a b => str_leb (uuid_str (ms_memory_id (am_memory a))) (uuid_str (ms_memory_id (am_memory b)))) am
  | _ => []
  end.

(** [_revise_changes_fingerprint] *)
Definition revise_changes_fingerprint (c : MemoryChanges) : bool :=
  existsb (fun field => bool_decide (field ∈ ["statement"; "category"; "ontological_status"; "interpretation_limits"]%string))
    (changed_fields c).

Definition checks_duplicates (b : CommandBody) : bool :=
  match b with
  | ObserveCommand _ | RememberCommand _ => true
  | ReviseCommand _ _ changes => revise_changes_fingerprint changes
  | _ => false
  end.

Definition memory_references (memory_id : UUID) (revision : Z) (event_id : UUID) : References :=
  list_to_map [(py "memory_id", RefUUID memory_id); (py "memory_version", RefInt revision); (py "event_id", RefUUID event_id)].

Definition memory_job (job_type : string) (memory_id : UUID) (revision : Z) (event_id : UUID) : JobSpec :=
  {| js_job_type := job_type; js_aggregate_type := "memory"; js_aggregate_id := Some memory_id;
     js_references := memory_references memory_id revision event_id |}.

(** [_scheduled_jobs] *)
Definition scheduled_jobs (b : CommandBody) (e : MemoryEvent) (p : OperationPayload) (r : MutationResult)
    : result (list JobSpec) :=
  let per_memory m :=
    memory_job "embed_memory" (ms_memory_id m) (ms_revision m) (e_event_id e)
    :: (if checks_duplicates b then [memory_job "check_duplicates" (ms_memory_id m) (ms_revision m) (e_event_id e)] else []) in
  let export := {| js_job_type := "export_git_batch"; js_aggregate_type := "event"; js_aggregate_id := Some (e_event_id e);
                   js_references := list_to_map [(py "event_id", RefUUID (e_event_id e));
                                                 (py "event_sequence", RefInt (e_sequence e))] |} in
  purge ← match b with
          | ForgetCommand _ _ forget_hard _ =>
            match mu_memory_id r, mu_revision r with
            | Some memory_id, Some revision => Ok [memory_job "purge_payload" memory_id revision (e_event_id e)]
            | _, _ => Err AssertionError
            end
          | _ => Ok []
          end;
  Ok (mjoin (M := list) (per_memory <$> scheduled_after_images p) ++ [export] ++ purge).

Definition DEFAULT_PRIORITY : Z := 0.
Definition DEFAULT_JOB_ATTEMPTS : Z := 8.

(** One [enqueue_outbox_job] call; its identity is preallocated. *)
Definition enqueue_spec (p : CommandPrincipal) (e : MemoryEvent) (timestamp : instant) (db : OutboxDb)
    (item : UUID * JobSpec) : result OutboxDb :=
  '(db', _) ← enqueue_outbox_job db timestamp (0, 0)
    {| ji_tenant_id := cp_tenant_id p; ji_job_type := py (js_job_type item.2);
       ji_aggregate_type := py (js_aggregate_type item.2); ji_aggregate_id := js_aggregate_id item.2;
       ji_references := js_references item.2 |}
    DEFAULT_PRIORITY DEFAULT_JOB_ATTEMPTS (Some (e_created_at e)) (Some item.1);
  Ok db'.

(** [_enqueue_jobs] *)
Definition enqueue_jobs (p : CommandPrincipal) (b : CommandBody) (e : MemoryEvent) (payload : OperationPayload)
    (r : MutationResult) (job_ids : list UUID) (timestamp : instant) (db : OutboxDb) : result OutboxDb :=
  jobs ← scheduled_jobs b e payload r;
  raise_if (length job_ids <? length jobs)%nat (ValueError "preallocated outbox job identities are exhausted");;
  foldM (enqueue_spec p e timestamp) db (zip job_ids jobs).

(** ** The transaction *)

(** The UPDATE of a hard forget. *)
Definition request_destruction (p : CommandPrincipal) (lineage_id : UUID) (memory_id : option UUID) (at_ : instant)
    (keys : gmap UUID ContentKeyRow) : gmap UUID ContentKeyRow :=
  update_rows (fun row => (ck_tenant_id row =? cp_tenant_id p) && (ck_lineage_id row =? lineage_id)
      && bool_decide (Some (ck_memory_id row) = memory_id) && String.eqb (ck_state row) "active")
    (fun row => {| ck_tenant_id := ck_tenant_id row; ck_lineage_id := ck_lineage_id row; ck_memory_id := ck_memory_id row;
                   ck_state := "destruction_requested"; ck_provider_name := ck_provider_name row;
                   ck_provider_key_reference := ck_provider_key_reference row; ck_created_at := ck_created_at row;
                   ck_destruction_requested_at := Some at_ |}) keys.

Definition forget_state (b : CommandBody) : option string :=
  match b with
  | ForgetCommand _ _ forget_hard _ => Some "purge_pending"%string
  | ForgetCommand _ _ forget_logical _ => Some "logically_forgotten"%string
  | _ => None
  end.

Definition conflict_state (b : CommandBody) : option string :=
  match b with
  | OpenConflictCommand _ _ _ _ => Some "open"%string
  | ResolveConflictCommand _ _ _ _ _ => Some "resolved"%string
  | _ => None
  end.

Definition is_hard_forget (b : CommandBody) : bool :=
  match b with ForgetCommand _ _ forget_hard _ => true | _ => false end.

(** What the transaction leaves in the tables it writes. *)
Definition written (db : MutationDb) (s : StoreState) (t : LiveTables) (jobs : OutboxDb)
    (keys : gmap UUID ContentKeyRow) (receipts : gmap (UUID * UUID * pystr) CommandReceipt) : MutationDb :=
  {| md_store := s; md_tables := t; md_outbox := jobs; md_personas := md_personas db; md_lineages := md_lineages db;
     md_branches := md_branches db; md_sessions := md_sessions db; md_subjects := md_subjects db;
     md_content_keys := keys; md_receipts := receipts |}.

(** pydantic's read of a stored receipt, and the database's refusal of a
    receipt row by a constraint other than its unique keys. *)
Class ReceiptStore : Type := {
  read_result : JsonValue -> option MutationResult;
  receipt_error : CommandReceipt -> option string
}.

Section Engine.
Context `{Rfc8785} `{Pydantic} `{LiveDatabase} `{Database} `{ReceiptStore}.

(** [_event] with sequence 1, a validated [MemoryEvent]. *)
Definition proposed_event (p : CommandPrincipal) (c : MutationCommand) (lineage_id : UUID) (al : Allocation)
    (prepared : Prepared) : result MemoryEvent :=
  let operation := event_operation (co_body c) in
  let version := contract_version (pp_payload prepared) in
  '(value, canonical, payload_sha256, command_sha256) ←
    event_hash_fields operation (declared_payload (pp_payload prepared)) (cp_tenant_id p) lineage_id (co_branch_id c)
      (cp_actor_id p) (cp_client_id p) (pp_memory_id prepared) (pp_expected_revision prepared)
      (co_causation_event_id c) version;
  model_validate {|
    e_schema_version := version; e_payload_version := version; e_sequence := 1; e_event_id := al_event_id al;
    e_tenant_id := cp_tenant_id p; e_lineage_id := lineage_id; e_branch_id := co_branch_id c;
    e_actor_id := cp_actor_id p; e_client_id := cp_client_id p; e_transport_binding_id := cp_transport_binding_id p;
    e_session_id := co_logical_session_id c; e_ingress_id := cp_ingress_id p; e_operation := operation;
    e_memory_id := pp_memory_id prepared; e_expected_revision := pp_expected_revision prepared;
    e_causation_event_id := co_causation_event_id c; e_correlation_id := al_correlation_id al;
    e_idempotency_key := co_idempotency_key c; e_policy_version := 1; e_normalization_version := 1;
    e_payload := value; e_payload_canonical := canonical; e_payload_sha256 := payload_sha256;
    e_command_sha256 := command_sha256; e_created_at := al_created_at al |}.

(** [proposed.model_copy(update={"sequence": sequence})] *)
Definition with_sequence (e : MemoryEvent) (sequence : Z) : MemoryEvent := {|
  e_schema_version := e_schema_version e; e_payload_version := e_payload_version e; e_sequence := sequence;
  e_event_id := e_event_id e; e_tenant_id := e_tenant_id e; e_lineage_id := e_lineage_id e;
  e_branch_id := e_branch_id e; e_actor_id := e_actor_id e; e_client_id := e_client_id e;
  e_transport_binding_id := e_transport_binding_id e; e_session_id := e_session_id e; e_ingress_id := e_ingress_id e;
  e_operation := e_operation e; e_memory_id := e_memory_id e; e_expected_revision := e_expected_revision e;
  e_causation_event_id := e_causation_event_id e; e_correlation_id := e_correlation_id e;
  e_idempotency_key := e_idempotency_key e; e_policy_version := e_policy_version e;
  e_normalization_version := e_normalization_version e; e_payload := e_payload e;
  e_payload_canonical := e_payload_canonical e; e_payload_sha256 := e_payload_sha256 e;
  e_command_sha256 := e_command_sha256 e; e_created_at := e_created_at e |}.

(** The reads before the command lock: lineage and branch of a command that is
    allowed to name them. *)
Definition resolve_identity (db : MutationDb) (p : CommandPrincipal) (c : MutationCommand)
    : result (UUID * bool * BranchState) :=
  fail_if (negb (principal_authorized p (co_body c))) "forbidden";;
  fail_if (is_legacy_write (co_body c)
           && negb (bool_decide (binding_kind db p ∈ [Some "direct_private"; Some "internal_service"]%string))) "forbidden";;
  '(lineage_id, lineage_sealed_at, persona_retired_at, branch_row) ← found (identity db p c) "not_found";
  branch ← branch_state_of branch_row;
  fail_if (match co_logical_session_id c with
           | Some session_id => negb (session_exists db p c lineage_id session_id) | None => false end) "not_found";;
  fail_if (match co_causation_event_id c with
           | Some cause => negb (cause_exists db p lineage_id cause) | None => false end) "not_found";;
  Ok (lineage_id, negb (is_none persona_retired_at) || negb (is_none lineage_sealed_at)
                  || negb (is_none (hr_sealed_at branch_row)), branch).

Definition command_digest (p : CommandPrincipal) (c : MutationCommand) (lineage_id : UUID) : result bytes :=
  let binding := {| hb_tenant_id := cp_tenant_id p; hb_lineage_id := lineage_id; hb_actor_id := cp_actor_id p;
                    hb_client_id := cp_client_id p |} in
  require (binding_ok binding) (ValidationError "binding");;
  hash ← bound_canonical_hash c binding;
  from_option_or (fromhex hash) (ValueError "non-hexadecimal number found in fromhex() arg").

(** The reply to a command whose receipt is stored. *)
Definition replay (receipt : CommandReceipt) (digest : bytes) : result MutationResult :=
  fail_if (negb (bool_decide (rc_command_sha256 receipt = digest))) "idempotency_key_reused";;
  canonical ← canonical_plain_bytes (rc_result receipt);
  fail_if (negb (bool_decide (canonical = rc_result_canonical receipt))
           || negb (bool_decide (sha256 canonical = rc_result_sha256 receipt))) "dependency_unavailable";;
  persisted ← from_option_or (read_result (rc_result receipt)) (ValidationError "receipt");
  or_raise (validate_receipt persisted) (ValidationError "receipt");;
  Ok (as_replay persisted).

(** [session.add(CommandReceipt(...))] and the flush. *)
Definition insert_receipt (receipts : gmap (UUID * UUID * pystr) CommandReceipt) (r : CommandReceipt)
    : result (gmap (UUID * UUID * pystr) CommandReceipt) :=
  let key := (rc_tenant_id r, rc_client_id r, rc_idempotency_key r) in
  raise_if (bool_decide (is_Some (receipts !! key))
            || existsb (fun kv => rc_receipt_id kv.2 =? rc_receipt_id r) (map_to_list receipts)) (DBAPIError "23505");;
  flush (receipt_error r);;
  Ok (<[key := r]> receipts).

Definition command_result (c : MutationCommand) (al : Allocation) (e : MemoryEvent) (prepared : Prepared)
    : MutationResult :=
  {| mu_operation := command_operation c; mu_receipt_id := al_receipt_id al; mu_event_id := e_event_id e;
     mu_memory_id := pp_result_memory_id prepared; mu_revision := pp_result_revision prepared;
     mu_conflict_id := pp_conflict_id prepared; mu_conflict_state := conflict_state (co_body c);
     mu_forget_state := forget_state (co_body c); mu_idempotent_replay := false; mu_warnings := [] |}.

(** The writes of a command that has no receipt yet. *)
Definition perform (db : MutationDb) (p : CommandPrincipal) (c : MutationCommand) (al : Allocation)
    (now timestamp : instant) (lineage_id : UUID) (branch : BranchState) (digest : bytes)
    : result (MutationDb * MutationResult * list Z) :=
  prepared ← prepare_payload db p c lineage_id al;
  proposed ← proposed_event p c lineage_id al prepared;
  '(s, t, event) ← append_and_project now (fun sequence => Ok (with_sequence proposed sequence)) None branch
                     (md_store db) (md_tables db);
  let keys := if is_hard_forget (co_body c)
              then request_destruction p lineage_id (pp_result_memory_id prepared) (al_created_at al) (md_content_keys db)
              else md_content_keys db in
  let r := command_result c al event prepared in
  or_raise (validate_receipt r) (ValidationError "receipt");;
  jobs ← enqueue_jobs p (co_body c) event (pp_payload prepared) r (al_job_ids al) timestamp (md_outbox db);
  canonical ← canonical_plain_bytes (result_value r);
  receipts ← insert_receipt (md_receipts db) {|
    rc_receipt_id := al_receipt_id al; rc_tenant_id := cp_tenant_id p; rc_client_id := cp_client_id p;
    rc_idempotency_key := co_idempotency_key c; rc_command_sha256 := digest; rc_event_id := Some (e_event_id event);
    rc_selection_decision_id := None;
    rc_memory_id := mu_memory_id r; rc_memory_revision := mu_revision r; rc_result := result_value r;
    rc_result_canonical := canonical; rc_result_sha256 := sha256 canonical; rc_created_at := al_created_at al |};
  Ok (written db s t jobs keys receipts, r, pp_requests prepared).

(** [MutationEngine._attempt]: the database and the reply, with the advisory
    locks asked for, in order. *)
Definition attempt (db : MutationDb) (p : CommandPrincipal) (c : MutationCommand) (al : Allocation)
    (now timestamp : instant) : result (MutationDb * MutationResult * list Z) :=
  '(lineage_id, closed, branch) ← resolve_identity db p c;
  key ← idempotency_advisory_lock_key (cp_tenant_id p) (cp_client_id p) (co_idempotency_key c);
  first ← acquire_advisory_xact_lock key;
  digest ← command_digest p c lineage_id;
  match md_receipts db !! receipt_key p c with
  | Some receipt => r ← replay receipt digest; Ok (db, r, first)
  | None =>
    fail_if closed "forbidden";;
    '(db', r, more) ← perform db p c al now timestamp lineage_id branch digest;
    Ok (db', r, first ++ more)
  end.

(** ** Retries and the error mapping *)

Inductive Response : Type := Replied (r : MutationResult) | Refused (e : MutationError).

Definition safe_details (d : Z * Z * Z) : StaleRevisionDetails :=
  {| sd_memory_id := d.1.1; sd_expected_revision := d.1.2; sd_current_revision := d.2 |}.

(** The [except] clauses of [execute]. *)
Definition error_response (e : exn) : result MutationError :=
  match e with
  | SafeFailure code retryable retry_after_ms details =>
    Ok {| me_code := code; me_retryable := retryable; me_retry_after_ms := retry_after_ms;
          me_details := safe_details <$> details |}
  | SerializableTransactionError _ retry_after_ms =>
    mutation_error "serialization_exhausted" true (Some (Z.max 100 (Z.min 1000 retry_after_ms))) None
  | EventStoreError code _ =>
    if bool_decide (code ∈ ["operation_not_authorized"; "github_operation_forbidden"]%string)
    then mutation_error "forbidden" false None None
    else if bool_decide (code = "binding_not_found"%string) then mutation_error "not_found" false None None
    else if bool_decide (code ∈ ["binding_revoked"; "binding_expired"]%string)
    then mutation_error "forbidden" false None None
    else if bool_decide (code ∈ ["event_counter_unavailable"; "event_store_unavailable";
                                 "binding_installation_unavailable"]%string)
    then mutation_error "dependency_unavailable" true None None
    else mutation_error "invalid_input" false None None
  | ProjectionPersistenceError _ | DBAPIError _ => mutation_error "dependency_unavailable" true None None
  | other => if is_value_error other then mutation_error "invalid_input" false None None
             else mutation_error "internal_error" false None None
  end.

(** Attempt [n] runs on [snapshot n] at the clock readings [now n] and
    [timestamp n]; [refused n] is the server's refusal to commit it. *)
Definition transaction (snapshot : nat -> MutationDb) (refused : nat -> option string) (now timestamp : nat -> instant)
    (p : CommandPrincipal) (c : MutationCommand) (al : Allocation) (n : nat) : result (MutationDb * MutationResult * list Z) :=
  outcome ← attempt (snapshot n) p c al (now n) (timestamp n);
  flush (refused n);;
  Ok outcome.

(** The state is the one the command committed, if it did. *)
Definition execute (snapshot : nat -> MutationDb) (refused : nat -> option string) (now timestamp : nat -> instant)
    (jitter : nat -> float) (p : CommandPrincipal) (c : MutationCommand) (al : Allocation)
    : result (option MutationDb * Response) :=
  match (run_serializable_transaction (transaction snapshot refused now timestamp p c al) jitter
           DEFAULT_MAX_ATTEMPTS DEFAULT_BASE_DELAY DEFAULT_MAX_DELAY).1 with
  | Ok (db, r, _) => Ok (Some db, Replied r)
  | Err e => error ← error_response e; Ok (None, Refused error)
  end.
End Engine.
