(* ===== verification/MutationTheorems.v ===== *)
(** * MutationTheorems: what a mutation command guarantees *)

From stdpp Require Import base tactics option list gmap sets strings.
From Stdlib Require Import ZArith Lia Bool.
From S2P Require Import Prelude Identifiers Enums Values CanonicalJson Digest Text Constraints Events Folding FoldingInvariant FoldingHistory EventStore EventStoreTheorems ProjectionRows LiveProjection LiveProjectionFacts LiveReplay ProjectionRebuild Outbox OutboxTheorems OutboxProgress Fingerprints Locks Transactions Commands Mutations MutationEngine.
Open Scope Z_scope.

(** ** Failures *)

Lemma fail_safely_Ok {A} code details (a : A) : fail_safely code details <> Ok a.
Proof. unfold fail_safely. by destruct (mutation_error _ _ _ _). Qed.

Lemma fail_if_Ok condition code : fail_if condition code = Ok tt <-> condition = false.
Proof. unfold fail_if. destruct condition; [|done]. split; [intros Hf; by apply fail_safely_Ok in Hf|done]. Qed.

Lemma found_Ok {A} (o : option A) code a : found o code = Ok a <-> o = Some a.
Proof. destruct o; cbn; [naive_solver|]. split; [intros Hf; by apply fail_safely_Ok in Hf|done]. Qed.

Section Engine.
Context `{R : Rfc8785} `{P : Pydantic} `{LD : LiveDatabase} `{D : Database} `{RS : ReceiptStore}.

(** ** The parts of a successful attempt *)

Lemma resolve_identity_Ok db p c lineage_id closed branch :
  resolve_identity db p c = Ok (lineage_id, closed, branch) ->
  principal_authorized p (co_body c) = true /\
  (is_legacy_write (co_body c) = true -> binding_kind db p ∈ [Some "direct_private"; Some "internal_service"]%string) /\
  (exists lineage_sealed_at persona_retired_at row,
     identity db p c = Some (lineage_id, lineage_sealed_at, persona_retired_at, row) /\ branch_state_of row = Ok branch /\
     closed = negb (is_none persona_retired_at) || negb (is_none lineage_sealed_at) || negb (is_none (hr_sealed_at row))) /\
  (forall id, co_logical_session_id c = Some id -> session_exists db p c lineage_id id = true) /\
  (forall id, co_causation_event_id c = Some id -> cause_exists db p lineage_id id = true).
Proof.
  unfold resolve_identity. intros Hr. apply bind_Ok in Hr as ([] & Ha%fail_if_Ok & Hr).
  apply bind_Ok in Hr as ([] & Hk%fail_if_Ok & Hr).
  apply bind_Ok in Hr as ([[[l ls] pr] row] & Hi%found_Ok & Hr). apply bind_Ok in Hr as (b & Hb & Hr).
  apply bind_Ok in Hr as ([] & Hs%fail_if_Ok & Hr). apply bind_Ok in Hr as ([] & Hc%fail_if_Ok & Hr).
  injection Hr as <- <- <-. split; [by apply negb_false_iff|]. split; [|split; [by exists ls, pr, row|]].
  - intros Hl. rewrite Hl in Hk. cbn in Hk. apply negb_false_iff, bool_decide_eq_true in Hk. done.
  - split; intros id Hid; rewrite Hid in *; by apply negb_false_iff.
Qed.

Record performed (db : MutationDb) (p : CommandPrincipal) (c : MutationCommand) (al : Allocation) (now timestamp : instant)
    (lineage_id : UUID) (branch : BranchState) (digest : bytes) (db' : MutationDb) (r : MutationResult)
    (requests : list Z) : Prop := {
  pf_parts : exists prepared proposed s t event keys jobs canonical,
    prepare_payload db p c lineage_id al = Ok prepared /\ requests = pp_requests prepared /\
    proposed_event p c lineage_id al prepared = Ok proposed /\
    append_and_project now (fun sequence => Ok (with_sequence proposed sequence)) None branch (md_store db) (md_tables db)
      = Ok (s, t, event) /\
    r = command_result c al event prepared /\ validate_receipt r = Ok tt /\
    enqueue_jobs p (co_body c) event (pp_payload prepared) r (al_job_ids al) timestamp (md_outbox db) = Ok jobs /\
    canonical_plain_bytes (result_value r) = Ok canonical /\
    let row := {| rc_receipt_id := al_receipt_id al; rc_tenant_id := cp_tenant_id p; rc_client_id := cp_client_id p;
      rc_idempotency_key := co_idempotency_key c; rc_command_sha256 := digest; rc_event_id := Some (e_event_id event);
      rc_selection_decision_id := None;
      rc_memory_id := mu_memory_id r; rc_memory_revision := mu_revision r; rc_result := result_value r;
      rc_result_canonical := canonical; rc_result_sha256 := sha256 canonical; rc_created_at := al_created_at al |} in
    db' = written db s t jobs keys (<[receipt_key p c := row]> (md_receipts db))
}.

Lemma perform_Ok db p c al now timestamp lineage_id branch digest db' r requests :
  perform db p c al now timestamp lineage_id branch digest = Ok (db', r, requests) ->
  performed db p c al now timestamp lineage_id branch digest db' r requests.
Proof.
  unfold perform. intros Hp. apply bind_Ok in Hp as (prepared & Hprep & Hp). apply bind_Ok in Hp as (proposed & Hprop & Hp).
  apply bind_Ok in Hp as ([[s t] event] & Happ & Hp). apply bind_Ok in Hp as ([] & Hv%or_raise_Ok & Hp).
  apply bind_Ok in Hp as (jobs & Hj & Hp). apply bind_Ok in Hp as (canonical & Hc & Hp).
  apply bind_Ok in Hp as (receipts & Hi & [= <- <- <-]). unfold insert_receipt in Hi.
  apply bind_Ok in Hi as ([] & _ & Hi). apply bind_Ok in Hi as ([] & _ & [= <-]).
  split. eexists prepared, proposed, s, t, event, _, jobs, canonical. by do 8 (split; [done|]).
Qed.

(** An attempt is a replay of a stored receipt, or does the work and stores one. *)
Lemma attempt_Ok db p c al now timestamp db' r requests :
  attempt db p c al now timestamp = Ok (db', r, requests) ->
  exists lineage_id closed branch key digest,
    resolve_identity db p c = Ok (lineage_id, closed, branch) /\
    idempotency_advisory_lock_key (cp_tenant_id p) (cp_client_id p) (co_idempotency_key c) = Ok key /\
    acquire_advisory_xact_lock key = Ok [key] /\ command_digest p c lineage_id = Ok digest /\
    ((exists receipt, md_receipts db !! receipt_key p c = Some receipt /\ replay receipt digest = Ok r /\
        db' = db /\ requests = [key]) \/
     (exists more, md_receipts db !! receipt_key p c = None /\ closed = false /\ requests = key :: more /\
        performed db p c al now timestamp lineage_id branch digest db' r more)).
Proof.
  unfold attempt. intros Ha. apply bind_Ok in Ha as ([[l closed] branch] & Hr & Ha). apply bind_Ok in Ha as (key & Hk & Ha).
  apply bind_Ok in Ha as (first & Hf & Ha). apply bind_Ok in Ha as (digest & Hd & Ha).
  assert (first = [key]) as -> by (unfold acquire_advisory_xact_lock in Hf; by apply bind_Ok in Hf as ([] & _ & [= <-])).
  exists l, closed, branch, key, digest. do 4 (split; [done|]).
  destruct (md_receipts db !! receipt_key p c) as [receipt|] eqn:Hrc; [left|right].
  - apply bind_Ok in Ha as (r' & Hrep & [= <- <- <-]). by exists receipt.
  - apply bind_Ok in Ha as ([] & Hc%fail_if_Ok & Ha). apply bind_Ok in Ha as ([[db1 r1] more] & Hp & [= <- <- <-]).
    exists more. by apply perform_Ok in Hp.
Qed.

(** ** What later commands keep *)

(** Commands only add to the log and to the receipts, and leave the identity
    tables and the transport bindings alone. *)
Record extends (db db' : MutationDb) : Prop := {
  ex_personas : md_personas db' = md_personas db;
  ex_lineages : md_lineages db' = md_lineages db;
  ex_branches : md_branches db' = md_branches db;
  ex_sessions : md_sessions db' = md_sessions db;
  ex_bindings : st_bindings (md_store db') = st_bindings (md_store db);
  ex_events : forall row, row ∈ st_events (md_store db) -> row ∈ st_events (md_store db');
  ex_receipts : forall k receipt, md_receipts db !! k = Some receipt -> md_receipts db' !! k = Some receipt
}.

Lemma extends_refl db : extends db db.
Proof. by split. Qed.

Lemma extends_trans db1 db2 db3 : extends db1 db2 -> extends db2 db3 -> extends db1 db3.
Proof. intros [] []. split; first [congruence|auto]. Qed.

Lemma append_extends {auth} now builder branch s t s' t' e :
  append_and_project now builder auth branch s t = Ok (s', t', e) ->
  st_bindings s' = st_bindings s /\ forall row, row ∈ st_events s -> row ∈ st_events s'.
Proof.
  intros (Ha & _)%append_and_project_Ok. apply append_Ok in Ha as (n & b & ingress & row & _ & _ & _ & _ & _ & _ & _ & ->).
  destruct ingress as [[i item]|]; cbn; (split; [done|]); intros x Hx; apply elem_of_app; by left.
Qed.

(** Some client's command, or its replay. *)
Definition mutation_step (db db' : MutationDb) : Prop :=
  exists p c al now timestamp r requests, attempt db p c al now timestamp = Ok (db', r, requests).

Lemma step_extends db db' : mutation_step db db' -> extends db db'.
Proof.
  intros (p & c & al & now & ts & r & ls & Ha). apply attempt_Ok in Ha as (l & cl & b & k & d & _ & _ & _ & _ & Ha).
  destruct Ha as [(receipt & _ & _ & -> & _)|(more & Hnone & _ & _ & Hp)]; [apply extends_refl|].
  destruct (pf_parts _ _ _ _ _ _ _ _ _ _ _ _ Hp) as (prep & prop & s & t & e & ks & js & cb & _ & _ & _ & Happ & _ & _ & _ & _ & ->).
  destruct (append_extends _ _ _ _ _ _ _ _ Happ) as [Hb He]. split; try done.
  intros key receipt Hk. cbn. rewrite lookup_insert_ne; [done|]. intros <-. congruence.
Qed.

Lemma steps_extend db db' : rtc mutation_step db db' -> extends db db'.
Proof.
  induction 1 as [|x y z Hs _ IH]; [apply extends_refl|]. by eapply extends_trans; [apply step_extends|].
Qed.

Lemma resolve_identity_extends db db' p c x :
  extends db db' -> resolve_identity db p c = Ok x -> resolve_identity db' p c = Ok x.
Proof.
  intros [Hpe Hli Hbr Hse Hbi Hev _]. unfold resolve_identity.
  assert (binding_kind db' p = binding_kind db p) as -> by (unfold binding_kind; by rewrite Hbi).
  assert (identity db' p c = identity db p c) as -> by (unfold identity; by rewrite Hbr, Hli, Hpe).
  assert (Hss : forall l id, session_exists db' p c l id = session_exists db p c l id)
    by (intros l id; unfold session_exists; by rewrite Hse).
  intros Hr. apply bind_Ok in Hr as ([] & -> & Hr). cbn [mbind result_bind]. apply bind_Ok in Hr as ([] & -> & Hr). cbn [mbind result_bind].
  apply bind_Ok in Hr as ([[[l ls] pr] row] & -> & Hr). cbn [mbind result_bind]. apply bind_Ok in Hr as (b & -> & Hr). cbn [mbind result_bind].
  apply bind_Ok in Hr as ([] & Hs & Hr). apply bind_Ok in Hr as ([] & Hc%fail_if_Ok & Hr).
  assert (match co_logical_session_id c with Some id => negb (session_exists db' p c l id) | None => false end
          = match co_logical_session_id c with Some id => negb (session_exists db p c l id) | None => false end) as ->
    by (destruct (co_logical_session_id c); [by rewrite Hss|done]).
  rewrite Hs. cbn [mbind result_bind]. apply bind_Ok. exists tt. split; [|done]. apply fail_if_Ok.
  destruct (co_causation_event_id c) as [cause|]; [|done]. apply negb_false_iff in Hc. apply negb_false_iff.
  unfold cause_exists in *. apply existsb_exists in Hc as (e & Hin & He). apply existsb_exists.
  exists e. split; [|done]. apply list_elem_of_In. apply Hev. by apply list_elem_of_In.
Qed.

(** ** Idempotency *)

Lemma replay_Ok receipt digest r :
  read_result (result_value r) = Some r -> validate_receipt r = Ok tt -> rc_command_sha256 receipt = digest ->
  rc_result receipt = result_value r -> canonical_plain_bytes (result_value r) = Ok (rc_result_canonical receipt) ->
  rc_result_sha256 receipt = sha256 (rc_result_canonical receipt) -> replay receipt digest = Ok (as_replay r).
Proof.
  intros Hrb Hv Hd Hr Hc Hs. unfold replay. rewrite Hr, Hs, Hrb, Hc. cbn [mbind result_bind].
  rewrite !bool_decide_true by done. cbn [negb orb fail_if mbind result_bind from_option_or]. by rewrite Hv.
Qed.

Lemma replay_reused receipt digest :
  rc_command_sha256 receipt <> digest -> replay receipt digest = Err (SafeFailure "idempotency_key_reused" false None None).
Proof. intros Hd. unfold replay. rewrite bool_decide_false by done. done. Qed.

Lemma attempt_replays db p c al now timestamp lineage_id closed branch key digest receipt :
  resolve_identity db p c = Ok (lineage_id, closed, branch) ->
  idempotency_advisory_lock_key (cp_tenant_id p) (cp_client_id p) (co_idempotency_key c) = Ok key ->
  acquire_advisory_xact_lock key = Ok [key] -> command_digest p c lineage_id = Ok digest ->
  md_receipts db !! receipt_key p c = Some receipt ->
  attempt db p c al now timestamp = (r ← replay receipt digest; Ok (db, r, [key])).
Proof.
  intros Hr Hk Ha Hd Hrc. unfold attempt.
  rewrite Hr. cbn [mbind result_bind]. rewrite Hk. cbn [mbind result_bind]. rewrite Ha. cbn [mbind result_bind].
  rewrite Hd. cbn [mbind result_bind]. by rewrite Hrc.
Qed.

(** C5: a command takes effect once.  When a command was accepted, its reply
    is read back from storage as it was written, and any further commands of any
    clients followed, sending it again, with whatever
    new identifiers and clock, returns the first reply marked as a replay and
    changes nothing; and another command under the same idempotency key of the
    same client is refused with [idempotency_key_reused]. *)
Theorem command_executes_once (db db' later : MutationDb) (p : CommandPrincipal) (c : MutationCommand) (al : Allocation)
    (now timestamp : instant) (r : MutationResult) (requests : list Z) :
  read_result (result_value r) = Some r -> attempt db p c al now timestamp = Ok (db', r, requests) ->
  md_receipts db !! receipt_key p c = None -> rtc mutation_step db' later ->
  mu_idempotent_replay r = false /\
  (forall al' now' timestamp', exists requests',
     attempt later p c al' now' timestamp' = Ok (later, as_replay r, requests')) /\
  (exists digest, (exists lineage_id, command_digest p c lineage_id = Ok digest) /\
     forall p' c' lineage_id closed branch digest' al' now' timestamp',
     receipt_key p' c' = receipt_key p c -> resolve_identity later p' c' = Ok (lineage_id, closed, branch) ->
     command_digest p' c' lineage_id = Ok digest' -> digest' <> digest ->
     attempt later p' c' al' now' timestamp' = Err (SafeFailure "idempotency_key_reused" false None None)).
Proof.
  intros Hrb Ha Hnone Hsteps. pose proof (steps_extend _ _ Hsteps) as Hext.
  assert (Hstep : mutation_step db db') by (unfold mutation_step; eauto 10).
  pose proof (step_extends _ _ Hstep) as Hext0.
  apply attempt_Ok in Ha as (l & cl & b & k & d & Hid & Hk & Hl & Hd & Ha).
  destruct Ha as [(receipt & Hs & _)|(more & _ & _ & _ & Hp)]; [congruence|].
  destruct (pf_parts _ _ _ _ _ _ _ _ _ _ _ _ Hp) as
    (prep & prop & s & t & e & ks & js & cb & _ & _ & _ & _ & Hr & Hv & _ & Hcb & Hdb').
  set (row := Build_CommandReceipt _ _ _ _ _ _ _ _ _ _ _ _ _) in Hdb'.
  assert (Hrow : md_receipts later !! receipt_key p c = Some row).
  { apply (ex_receipts _ _ Hext). rewrite Hdb'. cbn. apply lookup_insert_eq. }
  assert (Hid' : resolve_identity later p c = Ok (l, cl, b)).
  { eapply resolve_identity_extends; [|exact Hid]. by eapply extends_trans. }
  split; [by subst r|]. split.
  - intros al' now' ts'. exists [k]. rewrite (attempt_replays _ _ _ _ _ _ _ _ _ _ _ _ Hid' Hk Hl Hd Hrow).
    by rewrite (replay_Ok row d r).
  - exists d. split; [by exists l|]. intros p' c' l' cl' b' digest' al' now' ts' Hkey Hres Hdig' Hne.
    pose proof Hkey as Hkey'. unfold receipt_key in Hkey'. injection Hkey' as H1 H2 H3.
    rewrite <- Hkey in Hrow. rewrite <- H1, <- H2, <- H3 in Hk.
    rewrite (attempt_replays _ _ _ _ _ _ _ _ _ _ _ _ Hres Hk Hl Hdig' Hrow). rewrite replay_reused; [done|]. cbn. congruence.
Qed.
End Engine.

(** * The state invariant of the mutation engine

    The log, the projection tables, the outbox and the receipts stay consistent
    under any sequence of commands; every accepted command schedules its side
    effects; and the locks a command takes follow the global order. *)

Section Invariant.
Context `{R : Rfc8785} `{P : Pydantic} `{LD : LiveDatabase} `{D : Database} `{RS : ReceiptStore}.

(** ** Appending the engine's event *)

Lemma append_builder_ext {auth} now b b' branch s t :
  (forall n, st_counter s = Some n -> b n = b' n) ->
  append_and_project now b auth branch s t = append_and_project now b' auth branch s t.
Proof.
  intros Hb. unfold append_and_project, append_memory_event, append_in_transaction, build_and_validate.
  destruct (st_counter s) as [n|]; [|done]. cbn [from_option_or mbind result_bind]. by rewrite (Hb n eq_refl).
Qed.

Lemma with_sequence_valid e n :
  model_validate e = Ok e -> safe_positive n = true -> model_validate (with_sequence e n) = Ok (with_sequence e n).
Proof.
  intros (_ & Hf & Hs & Hp & Hv)%model_validate_Ok Hn. apply model_validate_Ok. split; [done|]. split; [|done].
  unfold event_fields_ok in *. cbn [with_sequence e_schema_version e_payload_version e_sequence e_event_id e_tenant_id
    e_lineage_id e_branch_id e_actor_id e_client_id e_transport_binding_id e_correlation_id e_session_id e_ingress_id
    e_memory_id e_causation_event_id e_expected_revision e_idempotency_key e_policy_version e_normalization_version
    e_payload e_payload_canonical e_payload_sha256 e_command_sha256].
  rewrite !andb_true_iff in *. tauto.
Qed.

Lemma proposed_valid p c lineage_id al prepared e :
  proposed_event p c lineage_id al prepared = Ok e -> model_validate e = Ok e.
Proof.
  unfold proposed_event. intros Hp. apply bind_Ok in Hp as ([[[v cn] ps] cs] & _ & Hp).
  pose proof Hp as Hv. apply model_validate_Ok in Hv as [-> _]. exact Hp.
Qed.

(** The log has not used up the integers a sequence number may be. *)
Definition sequence_left (s : StoreState) : Prop := Z.of_nat (length (st_events s)) < MAX_SAFE_INTEGER.

(** The engine's append, with a builder that only returns validated events. *)
Lemma engine_append {auth} now proposed branch s t s' t' e :
  store_ok s -> sequence_left s -> model_validate proposed = Ok proposed ->
  append_and_project now (fun n => Ok (with_sequence proposed n)) auth branch s t = Ok (s', t', e) ->
  exists builder, (forall n e, builder n = Ok e -> model_validate e = Ok e) /\
    append_and_project now builder auth branch s t = Ok (s', t', e).
Proof.
  intros Hok Hleft Hv Ha. pose proof (EventStoreTheorems.ok_counter _ Hok) as Hc.
  set (n0 := Z.of_nat (length (st_events s)) + 1) in *. unfold sequence_left in Hleft.
  exists (fun n => if n =? n0 then Ok (with_sequence proposed n) else Err KeyError). split.
  - intros n x. destruct (Z.eqb_spec n n0) as [->|]; [|done]. intros [= <-]. apply with_sequence_valid; [done|].
    unfold safe_positive. lia.
  - rewrite <- Ha. apply append_builder_ext. intros n Hn. rewrite Hc in Hn. injection Hn as <-. by rewrite Z.eqb_refl.
Qed.

(** ** The invariant *)

(** A receipt is stored under its key, hashes to what it records, and an
    event it names is in the log. *)
Record receipt_ok (s : StoreState) (key : UUID * UUID * pystr) (r : CommandReceipt) : Prop := {
  rk_key : key = (rc_tenant_id r, rc_client_id r, rc_idempotency_key r);
  rk_canonical : canonical_plain_bytes (rc_result r) = Ok (rc_result_canonical r);
  rk_hash : rc_result_sha256 r = sha256 (rc_result_canonical r);
  rk_event : forall id, rc_event_id r = Some id -> exists row, row ∈ st_events s /\ r_event_id row = id
}.

Record engine_ok (db : MutationDb) : Prop := {
  eo_store : store_reachable (md_store db);
  eo_projection : exists es s, load_verified_events (md_store db) None = Ok es /\ rebuild es = Ok s /\
    holds (md_tables db) s /\
    forall id row b, md_branches db !! id = Some row -> branch_state_of row = Ok b -> ps_branches s !! bs_branch_id b = Some b;
  eo_outbox : outbox_ok (md_outbox db);
  eo_receipts : forall key r, md_receipts db !! key = Some r -> receipt_ok (md_store db) key r
}.

(** A store whose log is the creation of one branch. *)
Lemma fresh_branch_ok db store0 now e s branch row tenants :
  store_init store0 -> append_memory_event now (fun _ => Ok e) None store0 = Ok (md_store db, e) -> model_validate e = Ok e ->
  load_verified_events (md_store db) None = Ok [e] -> rebuild [e] = Ok s -> only_branch s branch ->
  md_branches db = {[bs_branch_id branch := row]} -> branch_state_of row = Ok branch ->
  md_tables db = empty_tables -> md_outbox db = empty_outbox tenants -> md_receipts db = ∅ -> engine_ok db.
Proof.
  intros Hinit Ha Hv Hl Hreb [Hh Hbr]%only_branch_holds Hb Hrow Ht Ho Hrc. split.
  - exists store0. split; [exact Hinit|]. apply rtc_once.
    apply (step_append _ _ now (fun _ => Ok e) None e); [|exact Ha]. intros n e' [= <-]. exact Hv.
  - exists [e], s. split; [exact Hl|]. split; [exact Hreb|]. rewrite Ht. split; [exact Hh|].
    intros id r b. rewrite Hb. intros [_ <-]%lookup_singleton_Some. rewrite Hrow. by intros [= <-].
  - rewrite Ho. apply empty_ok.
  - intros key r. by rewrite Hrc, lookup_empty.
Qed.

Lemma identity_branch db p c l ls pr row : identity db p c = Some (l, ls, pr, row) -> md_branches db !! co_branch_id c = Some row.
Proof.
  unfold identity. intros Hi. apply bind_Some in Hi as (b & Hb & Hi). apply bind_Some in Hi as (li & _ & Hi).
  apply bind_Some in Hi as (? & _ & Hi). apply bind_Some in Hi as (? & _ & Hi). apply bind_Some in Hi as (? & _ & Hi).
  apply bind_Some in Hi as (? & _ & Hi). congruence.
Qed.

Lemma enqueue_specs_ok p e timestamp items db db' :
  outbox_ok db -> foldM (enqueue_spec p e timestamp) db items = Ok db' -> outbox_ok db'.
Proof.
  revert db. induction items as [|item items IH]; intros db Hok; cbn [foldM]; [by intros [= <-]|].
  intros Hf. apply bind_Ok in Hf as (db1 & H1 & Hf). eapply IH; [|exact Hf]. unfold enqueue_spec in H1.
  apply bind_Ok in H1 as ([db2 job] & H1 & [= <-]). eapply step_ok; [exact Hok|]. by eapply step_enqueue.
Qed.

Lemma performed_ok db p c al now timestamp lineage_id branch digest db' r more :
  unique_event_id -> sequence_left (md_store db) -> engine_ok db ->
  (exists l cl, resolve_identity db p c = Ok (l, cl, branch)) ->
  performed db p c al now timestamp lineage_id branch digest db' r more -> engine_ok db'.
Proof.
  intros Hu Hleft [Hst (es & s & Hes & Hreb & Hh & Hbr) Hout Hrc] (l & cl & Hid) Hp.
  destruct (pf_parts _ _ _ _ _ _ _ _ _ _ _ _ Hp) as
    (prep & prop & s' & t' & e & ks & js & cb & _ & _ & Hprop & Happ & Hr & _ & Hj & Hcb & ->).
  pose proof (reachable_ok _ Hst) as Hsok. apply proposed_valid in Hprop.
  destruct (engine_append _ _ _ _ _ _ _ _ Hsok Hleft Hprop Happ) as (builder & Hb & Happ').
  apply resolve_identity_Ok in Hid as (_ & _ & (ls & pr & row & Hident & Hbs & _) & _).
  apply identity_branch in Hident.
  destruct (live_path_step now builder None branch (md_store db) s' (md_tables db) t' e es s) as (e' & s1 & Hes' & Hfold & Hreb' & Hh');
    try done; [by eapply Hbr|].
  destruct (append_extends _ _ _ _ _ _ _ _ Happ) as [_ Hev].
  pose proof (append_and_project_Ok _ _ _ _ _ _ _ _ _ Happ') as [Ha _]. split.
  - destruct Hst as (s0 & H0 & Hrun). exists s0. split; [done|]. eapply rtc_r; [exact Hrun|]. by eapply step_append.
  - exists (es ++ [e']), s1. split; [done|]. split; [done|]. split; [done|]. intros id row' b Hrow Hb'.
    apply fold_event_parts in Hfold as (pl & w & Hacc & -> & _). cbn.
    apply (op_run_branches_mono _ _ _ _ _ (acc_run _ _ _ _ _ Hacc)). by eapply Hbr.
  - cbn. unfold enqueue_jobs in Hj. apply bind_Ok in Hj as (specs & _ & Hj). apply bind_Ok in Hj as ([] & _ & Hj).
    by eapply enqueue_specs_ok.
  - intros key receipt Hk. cbn in Hk. apply lookup_insert_Some in Hk as [[<- <-]|[_ Hk]].
    + split; try done. cbn. intros id [= <-]. destruct (append_row _ _ _ _ _ _ Hb Ha) as (row' & c' & Hev' & _ & Hrid & _).
      exists row'. rewrite Hev', elem_of_app, list_elem_of_singleton. split; [by right|done].
    + destruct (Hrc _ _ Hk) as [H1 H2 H3 H4]. split; try done. cbn. intros id Hid'. destruct (H4 id Hid') as (row' & H5 & H6). eauto.
Qed.

Lemma attempt_engine_ok db db' p c al now timestamp r requests :
  unique_event_id -> sequence_left (md_store db) -> engine_ok db ->
  attempt db p c al now timestamp = Ok (db', r, requests) -> engine_ok db'.
Proof.
  intros Hu Hleft Hok Ha. apply attempt_Ok in Ha as (l & cl & b & k & d & Hid & _ & _ & _ & Ha).
  destruct Ha as [(receipt & _ & _ & -> & _)|(more & _ & _ & _ & Hp)]; [done|].
  eapply performed_ok; [done|done|done| |exact Hp]. eauto.
Qed.

(** The engine keeps its tables consistent.  Over a database that refuses
    duplicate event identifiers, every command, successful or replayed, leaves
    a verified log, projection tables that hold exactly the rows the log replays
    to, an outbox that satisfies its table's constraints, and receipts that hash
    to what they record and name an event of the log. *)
Theorem engine_invariant (db db' : MutationDb) (p : CommandPrincipal) (c : MutationCommand) (al : Allocation)
    (now timestamp : instant) (r : MutationResult) (requests : list Z) :
  unique_event_id -> sequence_left (md_store db) -> engine_ok db ->
  attempt db p c al now timestamp = Ok (db', r, requests) -> engine_ok db'.
Proof. apply attempt_engine_ok. Qed.
End Invariant.
