(* ===== verification/MutationGuards.v ===== *)
(** * MutationGuards: what a command must have found to be accepted

    Revisions, locks and scheduled side effects of an accepted command, and the
    replies to one that is not. *)

From stdpp Require Import base tactics option list gmap sets strings.
From Stdlib Require Import ZArith Lia Bool SpecFloat.
From S2P Require Import Prelude Identifiers Enums Values CanonicalJson Digest Text Constraints Events Folding EventStore ProjectionRows LiveProjection LiveProjectionFacts LiveReplay ProjectionRebuild Outbox Fingerprints Locks Transactions Commands Mutations MutationEngine MutationTheorems.
Open Scope Z_scope.

(** ** Dictionaries built from a list *)

Lemma find_unique {A} (key : A -> UUID) (l : list A) x :
  NoDup (key <$> l) -> x ∈ l -> snd <$> list_find (fun y => key y = key x) (rev l) = Some x.
Proof.
  intros Hnd Hx. destruct (list_find (fun y => key y = key x) (rev l)) as [[i y]|] eqn:Hf.
  - apply list_find_Some in Hf as (Hi & Hk & _). cbn. f_equal. apply list_elem_of_lookup_2 in Hi.
    apply list_elem_of_In, in_rev, list_elem_of_In in Hi. apply list_elem_of_lookup in Hi as (a & Ha), Hx as (b & Hb).
    assert (Hab : a = b).
    { eapply (NoDup_lookup (key <$> l)); [done| |]; rewrite list_lookup_fmap; [by rewrite Ha|by rewrite Hb; cbn; rewrite <- Hk]. }
    congruence.
  - apply list_find_None in Hf. rewrite Forall_forall in Hf. exfalso. eapply (Hf x); [|done]. by apply list_elem_of_In, in_rev; rewrite rev_involutive; apply list_elem_of_In.
Qed.

(** A list without repetitions that fills another has all its elements. *)
Lemma filled_covers (l ids : list UUID) :
  NoDup l -> (forall x, x ∈ l -> x ∈ ids) -> length l = length (remove_dups ids) -> forall x, x ∈ ids -> x ∈ l.
Proof.
  intros Hnd Hin Hlen x Hx. assert (Hincl : incl (remove_dups ids) l).
  { apply NoDup_length_incl; [by apply NoDup_ListNoDup|lia|]. intros y Hy%list_elem_of_In. apply list_elem_of_In.
    apply elem_of_remove_dups. auto. }
  apply list_elem_of_In, Hincl, list_elem_of_In. by apply elem_of_remove_dups.
Qed.

Section Guards.
Context `{R : Rfc8785} `{P : Pydantic} `{LD : LiveDatabase} `{D : Database} `{RS : ReceiptStore}.

(** ** Loaded memories *)

Lemma memory_row_to_state_revision row m :
  memory_row_to_state row = Ok m -> ms_memory_id m = mr_memory_id row /\ ms_revision m = mr_revision row /\
  ms_subject_id m = mr_subject_id row.
Proof.
  unfold memory_row_to_state. intros Hm. do 12 (apply bind_Ok in Hm as (? & _ & Hm)). apply bind_Ok in Hm as ([] & _ & Hm).
  by injection Hm as <-.
Qed.

(** A memory the command loaded is a row of its branch. *)
Definition stored_at (db : MutationDb) (p : CommandPrincipal) (lineage_id branch_id id : UUID) (m : MemoryState) : Prop :=
  exists row, lt_memories (md_tables db) !! id = Some row /\ memory_row_to_state row = Ok m /\
    mr_tenant_id row = cp_tenant_id p /\ mr_lineage_id row = lineage_id /\ mr_branch_id row = branch_id.

Lemma load_memories_Ok db p lineage_id branch_id ids memories :
  keyed (md_tables db) -> load_memories db p lineage_id branch_id ids = Ok memories ->
  (forall id m, (id, m) ∈ memories -> stored_at db p lineage_id branch_id id m) /\
  (forall id, id ∈ ids -> id ∈ memories.*1) /\ NoDup memories.*1 /\ length memories = length (remove_dups ids).
Proof.
  intros Hkey. unfold load_memories. intros Hl. apply bind_Ok in Hl as (states & Hm & Hl).
  apply bind_Ok in Hl as ([] & Hlen%fail_if_Ok & [= <-]). apply mapR_Forall2 in Hm.
  apply negb_false_iff, Nat.eqb_eq in Hlen.
  set (rows := select_rows _ _ _) in Hm.
  assert (Hids : states.*1 = mr_memory_id <$> rows).
  { clear -Hm. induction Hm as [|row x rows states Hx _ IH]; [done|]. cbn. rewrite IH.
    apply bind_Ok in Hx as (m & _ & [= <-]). done. }
  assert (Hnd : NoDup states.*1).
  { rewrite Hids. unfold rows, select_rows. rewrite sort_by_perm. apply NoDup_fmap_filter.
    apply values_ids_nodup. intros k row Hk. by apply Hkey in Hk. }
  assert (Hst : forall id m, (id, m) ∈ states -> stored_at db p lineage_id branch_id id m /\ id ∈ ids).
  { intros id m Hin. apply list_elem_of_lookup in Hin as (i & Hi). destruct (Forall2_lookup_r _ _ _ _ _ Hm Hi) as (row & Hrow & Hx).
    apply bind_Ok in Hx as (m' & Hm' & [= <- <-]). apply list_elem_of_lookup_2, elem_of_select_rows in Hrow as (Ht & k & Hk).
    rewrite !andb_true_iff, !Z.eqb_eq, bool_decide_eq_true in Ht. destruct Ht as [[[? ?] ?] ?].
    pose proof (Hkey _ _ Hk) as Hkk. split; [|done]. exists row. rewrite Hkk. done. }
  split; [intros id m Hin; by apply Hst|]. split; [|done].
  intros id. apply filled_covers; [done| |rewrite length_fmap; done].
  intros x Hx. apply list_elem_of_fmap in Hx as ([y m] & -> & Hin). apply Hst in Hin as [_ ?]. done.
Qed.

Lemma memory_of_Ok memories id m : memory_of memories id = Ok m -> (id, m) ∈ memories.
Proof.
  unfold memory_of. intros Hm. apply from_option_or_Ok, fmap_Some in Hm as ([i [k v]] & Hf & ->).
  apply list_find_Some in Hf as (Hi & Hk & _). cbn in Hk. subst k. by apply list_elem_of_lookup_2 in Hi.
Qed.

Lemma check_memory_revision_Ok m expected : check_memory_revision m expected = Ok tt -> ms_revision m = expected.
Proof.
  unfold check_memory_revision. destruct (Z.eqb_spec (ms_revision m) expected); [done|]. intros Hc.
  apply bind_Ok in Hc as ([] & _ & Hc). by apply fail_safely_Ok in Hc.
Qed.

(** The current revision every named memory was found at. *)
Lemma stored_revision db p l b id m expected :
  stored_at db p l b id m -> check_memory_revision m expected = Ok tt ->
  exists row, lt_memories (md_tables db) !! id = Some row /\ mr_tenant_id row = cp_tenant_id p /\ mr_lineage_id row = l /\
    mr_branch_id row = b /\ mr_revision row = expected.
Proof.
  intros (row & Hrow & Hm & Ht & Hl & Hb) Hc%check_memory_revision_Ok. exists row.
  apply memory_row_to_state_revision in Hm as (_ & Hr & _). rewrite <- Hr. done.
Qed.

Lemma lock_memories_Ok db p c l created_at memories requests :
  lock_memories db p c l created_at = Ok (memories, requests) ->
  load_memories db p l (co_branch_id c) (command_memory_ids (co_body c)) = Ok memories /\
  exists keys, acquire_advisory_xact_locks keys = Ok requests.
Proof.
  unfold lock_memories. intros Hl. apply bind_Ok in Hl as (unlocked & _ & Hl). apply bind_Ok in Hl as (keys & _ & Hl).
  apply bind_Ok in Hl as (more & _ & Hl). apply bind_Ok in Hl as (rs & Hrs & Hl). apply bind_Ok in Hl as (ms & Hms & Hl).
  apply bind_Ok in Hl as ([] & _ & [= <- <-]). eauto.
Qed.

(** ** Revisions *)

Definition command_expectations (b : CommandBody) : list (UUID * Z) :=
  match b with
  | ReviseCommand id revision _ | RetireCommand id revision | ForgetCommand id revision _ _ => [(id, revision)]
  | LinkCommand source source_revision target target_revision _ _ => [(source, source_revision); (target, target_revision)]
  | OpenConflictCommand _ members _ _ => (fun e => (re_memory_id e, re_expected_revision e)) <$> members
  | ResolveConflictCommand _ members _ _ _ => (fun r => (cr_memory_id r, cr_expected_revision r)) <$> members
  | ObserveCommand _ | RememberCommand _ => []
  end.

(** Two members of a conflict command name different memories. *)
Definition members_unique (b : CommandBody) : Prop :=
  match b with
  | OpenConflictCommand _ members _ _ => NoDup (re_memory_id <$> members)
  | ResolveConflictCommand _ members _ _ _ => NoDup (cr_memory_id <$> members)
  | _ => True
  end.

Lemma validate_members_unique c : validate_command c = Ok tt -> members_unique (co_body c).
Proof.
  unfold validate_command. intros Hv. apply bind_Ok in Hv as ([] & _ & Hv). unfold validate_body in Hv.
  destruct (co_body c); try done; apply bind_Ok in Hv as ([] & _ & Hv).
  - apply bind_Ok in Hv as ([] & Hn%raise_if_Ok & _). by apply nodupb_NoDup, negb_false_iff.
  - apply raise_if_Ok in Hv. by apply nodupb_NoDup, negb_false_iff.
Qed.

Lemma open_conflict_checks p c l al memories requests subject_id members reason metadata prepared :
  prepare_open_conflict p c l al memories requests subject_id members reason metadata = Ok prepared ->
  NoDup (re_memory_id <$> members) ->
  forall e, e ∈ members -> re_memory_id e ∈ memories.*1 ->
  exists m, (re_memory_id e, m) ∈ memories /\ check_memory_revision m (re_expected_revision e) = Ok tt.
Proof.
  unfold prepare_open_conflict. intros Hp Hnd e He Hin. apply bind_Ok in Hp as ([] & _ & Hp).
  apply bind_Ok in Hp as (pairs & Hm & _). apply mapR_Forall2 in Hm.
  assert (Hs : re_memory_id e ∈ sort_by (fun a b => str_leb (uuid_str a) (uuid_str b)) memories.*1) by (by rewrite sort_by_perm).
  apply list_elem_of_lookup in Hs as (i & Hi). destruct (Forall2_lookup_l _ _ _ _ _ Hm Hi) as (x & _ & Hx).
  apply bind_Ok in Hx as (m & Hm' & Hx). apply bind_Ok in Hx as (revision & Hr & Hx). apply bind_Ok in Hx as ([] & Hc & _).
  exists m. split; [by apply memory_of_Ok|]. unfold expectation_of in Hr. apply from_option_or_Ok in Hr.
  pose proof (find_unique re_memory_id members e Hnd He) as Hf.
  destruct (list_find _ _) as [[j y]|]; cbn in *; [|done]. injection Hf as ->. by injection Hr as ->.
Qed.

Lemma resolve_conflict_checks db p c l al memories requests conflict_id members kind rationale confirmed prepared :
  prepare_resolve_conflict db p c l al memories requests conflict_id members kind rationale confirmed = Ok prepared ->
  NoDup (cr_memory_id <$> members) ->
  forall r, r ∈ members ->
  exists m, (cr_memory_id r, m) ∈ memories /\ check_memory_revision m (cr_expected_revision r) = Ok tt.
Proof.
  unfold prepare_resolve_conflict. intros Hp Hnd r Hr. apply bind_Ok in Hp as ([] & _ & Hp).
  apply bind_Ok in Hp as (row & _ & Hp). set (stored := select_rows _ _ _) in Hp.
  apply bind_Ok in Hp as ([] & Hset%fail_if_Ok & Hp). apply orb_false_iff in Hset as [_ Hset].
  apply negb_false_iff, bool_decide_eq_true in Hset. apply bind_Ok in Hp as (pairs & Hm & _). apply mapR_Forall2 in Hm.
  assert (Hin : cr_memory_id r ∈ br_memory_id <$> stored).
  { apply (elem_of_list_to_set (C := gset UUID)). rewrite Hset. apply elem_of_list_to_set, list_elem_of_fmap. eauto. }
  apply list_elem_of_fmap in Hin as (row' & Hid & Hin). apply list_elem_of_lookup in Hin as (i & Hi).
  destruct (Forall2_lookup_l _ _ _ _ _ Hm Hi) as (x & _ & Hx). apply bind_Ok in Hx as (res & Hres & Hx).
  apply bind_Ok in Hx as (m & Hm' & Hx). apply bind_Ok in Hx as ([] & Hc & _). rewrite <- Hid in *.
  exists m. split; [by apply memory_of_Ok|]. unfold resolution_of in Hres. apply from_option_or_Ok in Hres.
  pose proof (find_unique cr_memory_id members r Hnd Hr) as Hf.
  destruct (list_find _ _) as [[j y]|]; cbn in *; [|done]. injection Hf as ->. by injection Hres as ->.
Qed.

(** What preparing a command that names memories goes through. *)
Lemma prepare_loaded db p c l al prepared :
  prepare_payload db p c l al = Ok prepared ->
  (exists status m, (co_body c = ObserveCommand m \/ co_body c = RememberCommand m) /\
     prepare_create db p c l al status m = Ok prepared) \/
  exists memories requests, lock_memories db p c l (al_created_at al) = Ok (memories, requests) /\
    match co_body c with
    | ReviseCommand id revision changes => prepare_revise db p c l al memories requests id revision changes = Ok prepared
    | LinkCommand s sr t tr lt md => prepare_link db p c l al memories requests s sr t tr lt md = Ok prepared
    | OpenConflictCommand su ms rs md => prepare_open_conflict p c l al memories requests su ms rs md = Ok prepared
    | ResolveConflictCommand id ms k rt u => prepare_resolve_conflict db p c l al memories requests id ms k rt u = Ok prepared
    | RetireCommand id revision => prepare_retire al memories requests id revision = Ok prepared
    | ForgetCommand id revision mode _ => prepare_forget db p l al memories requests id revision mode = Ok prepared
    | ObserveCommand _ | RememberCommand _ => False
    end.
Proof.
  unfold prepare_payload. intros Hp.
  destruct (co_body c) eqn:Hb; [left; by eauto|left; by eauto|..];
    right; apply bind_Ok in Hp as ([ms rs] & Hl & Hp); by exists ms, rs.
Qed.

(** Every prepared command keeps the locks it asked for in its reply. *)
Lemma prepare_requests db p c l al prepared :
  prepare_payload db p c l al = Ok prepared -> exists keys, acquire_advisory_xact_locks keys = Ok (pp_requests prepared).
Proof.
  intros Hp. apply prepare_loaded in Hp as [(status & m & _ & Hp)|(memories & requests & Hl & Hp)].
  { unfold prepare_create in Hp. do 4 (apply bind_Ok in Hp as (? & _ & Hp)). apply bind_Ok in Hp as (rs & Hrs & Hp).
    do 3 (apply bind_Ok in Hp as (? & _ & Hp)). eexists. injection Hp as <-. exact Hrs. }
  apply lock_memories_Ok in Hl as [_ [keys Hk]]. exists keys. rewrite Hk. f_equal. clear Hk.
  destruct (co_body c); [done|done| | | | | |].
  - unfold prepare_revise in Hp. repeat (apply bind_Ok in Hp as (? & _ & Hp)). by injection Hp as <-.
  - unfold prepare_link in Hp. repeat (apply bind_Ok in Hp as (? & _ & Hp)). by injection Hp as <-.
  - unfold prepare_open_conflict in Hp. repeat (apply bind_Ok in Hp as (? & _ & Hp)). by injection Hp as <-.
  - unfold prepare_resolve_conflict in Hp. repeat (apply bind_Ok in Hp as (? & _ & Hp)). by injection Hp as <-.
  - unfold prepare_retire in Hp. repeat (apply bind_Ok in Hp as (? & _ & Hp)). by injection Hp as <-.
  - unfold prepare_forget in Hp. repeat (apply bind_Ok in Hp as (? & _ & Hp)). by injection Hp as <-.
Qed.

Lemma prepared_revisions db p c l al prepared id expected :
  keyed (md_tables db) -> members_unique (co_body c) -> prepare_payload db p c l al = Ok prepared ->
  (id, expected) ∈ command_expectations (co_body c) ->
  exists m, stored_at db p l (co_branch_id c) id m /\ check_memory_revision m expected = Ok tt.
Proof.
  intros Hkey Hu Hp Hin. apply prepare_loaded in Hp as [(status & m & [Hb|Hb] & _)|(memories & requests & Hl & Hp)];
    [rewrite Hb in Hin; by apply elem_of_nil in Hin..|].
  apply lock_memories_Ok in Hl as [Hload _]. destruct (load_memories_Ok _ _ _ _ _ _ Hkey Hload) as (Hst & Hcov & _).
  assert (Hm : forall x m, memory_of memories x = Ok m -> stored_at db p l (co_branch_id c) x m)
    by (intros x m Hm; apply Hst; by apply memory_of_Ok).
  destruct (co_body c); cbn [command_expectations command_memory_ids members_unique] in *; [done|done| | | | | |].
  - apply list_elem_of_singleton in Hin as [= -> ->]. apply bind_Ok in Hp as (m & Hm' & Hp). apply bind_Ok in Hp as ([] & Hc & _). eauto.
  - apply bind_Ok in Hp as (m & Hm' & Hp). apply bind_Ok in Hp as (m2 & Hm2 & Hp). apply bind_Ok in Hp as ([] & Hc & Hp).
    apply bind_Ok in Hp as ([] & Hc2 & _). apply elem_of_cons in Hin as [[= -> ->]|[= -> ->]%list_elem_of_singleton]; eauto.
  - apply list_elem_of_fmap in Hin as (e & [= -> ->] & He).
    destruct (open_conflict_checks _ _ _ _ _ _ _ _ _ _ _ Hp Hu e He) as (m & Hm' & Hc); [|by eauto].
    apply Hcov, list_elem_of_fmap. eauto.
  - apply list_elem_of_fmap in Hin as (e & [= -> ->] & He).
    destruct (resolve_conflict_checks _ _ _ _ _ _ _ _ _ _ _ _ _ Hp Hu e He) as (m & Hm' & Hc). eauto.
  - apply list_elem_of_singleton in Hin as [= -> ->]. apply bind_Ok in Hp as (m & Hm' & Hp). apply bind_Ok in Hp as ([] & Hc & _). eauto.
  - apply list_elem_of_singleton in Hin as [= -> ->]. apply bind_Ok in Hp as (m & Hm' & Hp). apply bind_Ok in Hp as ([] & Hc & _). eauto.
Qed.

(** C6: no command overwrites a revision its sender has not seen.  When a new
    command is accepted, every memory it names was stored in the sender's tenant
    and on the command's branch, at exactly the revision the command expects;
    this holds for both ends of a link and for every member of a conflict. *)
Theorem accepted_at_expected_revision (db db' : MutationDb) (p : CommandPrincipal) (c : MutationCommand) (al : Allocation)
    (now timestamp : instant) (r : MutationResult) (requests : list Z) (id : UUID) (expected : Z) :
  keyed (md_tables db) -> validate_command c = Ok tt -> md_receipts db !! receipt_key p c = None ->
  attempt db p c al now timestamp = Ok (db', r, requests) -> (id, expected) ∈ command_expectations (co_body c) ->
  exists row, lt_memories (md_tables db) !! id = Some row /\ mr_tenant_id row = cp_tenant_id p /\
    mr_branch_id row = co_branch_id c /\ mr_revision row = expected.
Proof.
  intros Hkey Hv Hnone Ha Hin. apply attempt_Ok in Ha as (l & cl & b & k & d & _ & _ & _ & _ & Ha).
  destruct Ha as [(receipt & Hs & _)|(more & _ & _ & _ & Hp)]; [congruence|].
  destruct (pf_parts _ _ _ _ _ _ _ _ _ _ _ _ Hp) as (prep & prop & s & t & e & ks & js & cb & Hprep & _).
  destruct (prepared_revisions _ _ _ _ _ _ _ _ Hkey (validate_members_unique _ Hv) Hprep Hin) as (m & Hst & Hc).
  destruct (stored_revision _ _ _ _ _ _ _ Hst Hc) as (row & ? & ? & ? & ? & ?). by exists row.
Qed.

(** ** Locks *)

(** An accepted command asked for its idempotency key and then for aggregate
    keys in order, as the deadlock argument requires. *)
Lemma attempt_requests db p c al now timestamp db' r requests :
  attempt db p c al now timestamp = Ok (db', r, requests) -> exists locks, command_requests locks = Ok requests.
Proof.
  intros Ha. apply attempt_Ok in Ha as (l & cl & b & k & d & _ & _ & Hl & _ & Ha). unfold command_requests.
  destruct Ha as [(receipt & _ & _ & _ & ->)|(more & _ & _ & -> & Hp)].
  - exists {| cl_idempotency := k; cl_aggregates := [] |}. cbn [cl_idempotency cl_aggregates]. by rewrite Hl.
  - destruct (pf_parts _ _ _ _ _ _ _ _ _ _ _ _ Hp) as (prep & prop & s & t & e & ks & js & cb & Hprep & -> & _).
    destruct (prepare_requests _ _ _ _ _ _ Hprep) as (keys & Hk).
    exists {| cl_idempotency := k; cl_aggregates := keys |}. cbn [cl_idempotency cl_aggregates]. rewrite Hl. cbn [mbind result_bind].
    by rewrite Hk.
Qed.
End Guards.
