(* ===== verification/MutationEffects.v ===== *)
(** * MutationEffects: side effects and replies of the mutation engine *)

From stdpp Require Import base tactics option list gmap sets strings.
From Stdlib Require Import ZArith Lia Bool SpecFloat.
From S2P Require Import Prelude Identifiers Enums Values CanonicalJson Digest Text Constraints Events Folding EventStore EventStoreTheorems OutboxTheorems ProjectionRows LiveProjection LiveProjectionFacts LiveReplay ProjectionRebuild Outbox Fingerprints Locks Transactions Commands Mutations MutationEngine MutationTheorems MutationGuards.
Open Scope Z_scope.

(** ** Enqueued jobs *)

(** A pending job of one type for one aggregate. *)
Definition effect_pending (db : OutboxDb) (tenant_id : UUID) (job_type : string) (aggregate_id : option UUID) : Prop :=
  exists k j, ob_jobs db !! k = Some j /\ oj_tenant_id j = tenant_id /\ oj_job_type j = py job_type /\
    oj_aggregate_id j = aggregate_id /\ oj_state j = pending.

Lemma enqueue_spec_Ok p e timestamp db item db' :
  outbox_ok db -> enqueue_spec p e timestamp db item = Ok db' ->
  outbox_ok db' /\ (forall k j, ob_jobs db !! k = Some j -> ob_jobs db' !! k = Some j) /\
  effect_pending db' (cp_tenant_id p) (js_job_type item.2) (js_aggregate_id item.2).
Proof.
  intros Hok He. unfold enqueue_spec in He. apply bind_Ok in He as ([db1 job] & He & [= <-]).
  split; [eapply step_ok; [exact Hok|]; by eapply step_enqueue|]. unfold enqueue_outbox_job in He.
  do 5 (apply bind_Ok in He as (? & _ & He)). apply bind_Ok in He as (db2 & Hi & [= -> <-]).
  unfold insert_job in Hi. apply bind_Ok in Hi as ([] & _ & Hi). apply bind_Ok in Hi as ([] & _ & Hi).
  apply bind_Ok in Hi as ([] & _ & Hi). injection Hi as <-. cbn [ob_jobs oj_job_id]. split.
  - intros k j Hk. rewrite lookup_insert_ne; [done|]. apply (OutboxTheorems.ok_sequence _ Hok) in Hk. lia.
  - eexists (ob_sequence db), _. cbn [ob_jobs oj_job_id]. rewrite lookup_insert_eq. by split.
Qed.

Lemma enqueue_specs_pending p e timestamp items db db' :
  outbox_ok db -> foldM (enqueue_spec p e timestamp) db items = Ok db' ->
  (forall k j, ob_jobs db !! k = Some j -> ob_jobs db' !! k = Some j) /\
  forall item, item ∈ items -> effect_pending db' (cp_tenant_id p) (js_job_type item.2) (js_aggregate_id item.2).
Proof.
  revert db. induction items as [|x items IH]; intros db Hok; cbn [foldM].
  { intros [= <-]. split; [done|]. by intros item ?%elem_of_nil. }
  intros Hf. apply bind_Ok in Hf as (db1 & H1 & Hf). destruct (enqueue_spec_Ok _ _ _ _ _ _ Hok H1) as (Hok1 & Hkeep & Hnew).
  destruct (IH db1 Hok1 Hf) as [Hkeep' Hnew']. split; [by auto|]. intros item [->|Hin]%elem_of_cons; [|by apply Hnew'].
  destruct Hnew as (k & j & Hk & Hj). exists k, j. split; [by apply Hkeep'|done].
Qed.

Lemma zip_covers {A B} (l : list A) (k : list B) x : (length k <= length l)%nat -> x ∈ k -> exists a, (a, x) ∈ zip l k.
Proof.
  revert l. induction k as [|y k IH]; intros [|a l] Hlen Hx; cbn in Hlen; try lia; [by apply elem_of_nil in Hx..|].
  apply elem_of_cons in Hx as [->|Hx]; [exists a; left|]. destruct (IH l) as (a' & Ha'); [lia|done|]. exists a'. by right.
Qed.

Section Effects.
Context `{R : Rfc8785} `{P : Pydantic} `{LD : LiveDatabase} `{D : Database} `{RS : ReceiptStore}.

(** ** After-images *)

(** The memories a command changes. *)
Definition changed_memories (b : CommandBody) : list UUID :=
  match b with LinkCommand _ _ _ _ _ _ => [] | _ => command_memory_ids b end.

Lemma pair_images {A} (key : A -> UUID) (f : A -> result (AffectedMemory * ConflictMemberState)) items pairs :
  mapR f items = Ok pairs -> (forall a x, a ∈ items -> f a = Ok x -> ms_memory_id (am_memory x.1) = key a) ->
  forall id, id ∈ key <$> items -> exists a, a ∈ pairs.*1 /\ ms_memory_id (am_memory a) = id.
Proof.
  intros Hm Hf id Hin. apply mapR_Forall2 in Hm. apply list_elem_of_fmap in Hin as (a & -> & Ha). pose proof Ha as Ha0.
  apply list_elem_of_lookup in Ha as (i & Hi). destruct (Forall2_lookup_l _ _ _ _ _ Hm Hi) as (x & Hx & Hfx).
  exists x.1. split; [|by eapply Hf]. apply list_elem_of_fmap. exists x. split; [done|]. by eapply list_elem_of_lookup_2.
Qed.

Lemma stored_identity db p l b id m : keyed (md_tables db) -> stored_at db p l b id m -> ms_memory_id m = id.
Proof.
  intros Hkey (row & Hrow & Hm & _). apply memory_row_to_state_revision in Hm as [-> _]. by apply Hkey in Hrow.
Qed.

Lemma sorted_images am a :
  a ∈ am -> am_memory a ∈ am_memory <$> sort_by (fun a b : AffectedMemory =>
    str_leb (uuid_str (ms_memory_id (am_memory a))) (uuid_str (ms_memory_id (am_memory b)))) am.
Proof. intros Ha. apply list_elem_of_fmap. exists a. split; [done|]. by rewrite sort_by_perm. Qed.

Lemma affect_identity current now status a : affect current now status = Ok a -> ms_memory_id (am_memory a) = ms_memory_id current.
Proof. unfold affect. intros Ha. by apply bind_Ok in Ha as ([] & _ & [= <-]). Qed.

Lemma revised_identity current changes now revised :
  revised_memory current changes now = Ok revised -> ms_memory_id revised = ms_memory_id current.
Proof. unfold revised_memory. intros Hr. by apply bind_Ok in Hr as (f & _ & [= <-]). Qed.

Lemma open_conflict_images p c l al memories requests subject_id members reason metadata prepared :
  prepare_open_conflict p c l al memories requests subject_id members reason metadata = Ok prepared ->
  (forall id m, (id, m) ∈ memories -> ms_memory_id m = id) ->
  forall id, id ∈ memories.*1 -> exists m, m ∈ scheduled_after_images (pp_payload prepared) /\ ms_memory_id m = id.
Proof.
  unfold prepare_open_conflict. intros Hp Hids id Hin. apply bind_Ok in Hp as ([] & _ & Hp).
  apply bind_Ok in Hp as (pairs & Hm & Hp). apply bind_Ok in Hp as ([] & _ & Hp). apply bind_Ok in Hp as ([] & _ & [= <-]).
  destruct (pair_images (fun id => id) _ _ _ Hm) with (id := id) as (a & Ha & Hid).
  - intros x y _ Hf. apply bind_Ok in Hf as (m & Hm' & Hf). apply bind_Ok in Hf as (? & _ & Hf). apply bind_Ok in Hf as ([] & _ & Hf).
    apply bind_Ok in Hf as (a & Ha & Hf). apply bind_Ok in Hf as (? & _ & [= <-]). cbn [fst].
    rewrite (affect_identity _ _ _ _ Ha). by apply Hids, memory_of_Ok.
  - by rewrite list_fmap_id, sort_by_perm.
  - exists (am_memory a). split; [|done]. by apply sorted_images.
Qed.

Lemma resolve_conflict_images db p c l al memories requests conflict_id members kind rationale confirmed prepared :
  prepare_resolve_conflict db p c l al memories requests conflict_id members kind rationale confirmed = Ok prepared ->
  (forall id m, (id, m) ∈ memories -> ms_memory_id m = id) ->
  forall id, id ∈ cr_memory_id <$> members -> exists m, m ∈ scheduled_after_images (pp_payload prepared) /\ ms_memory_id m = id.
Proof.
  unfold prepare_resolve_conflict. intros Hp Hids id Hin. apply bind_Ok in Hp as ([] & _ & Hp).
  apply bind_Ok in Hp as (row & _ & Hp). set (stored := select_rows _ _ _) in Hp.
  apply bind_Ok in Hp as ([] & Hset%fail_if_Ok & Hp). apply orb_false_iff in Hset as [_ Hset].
  apply negb_false_iff, bool_decide_eq_true in Hset. apply bind_Ok in Hp as (pairs & Hm & Hp).
  apply bind_Ok in Hp as ([] & _ & Hp). apply bind_Ok in Hp as ([] & _ & [= <-]).
  destruct (pair_images br_memory_id _ _ _ Hm) with (id := id) as (a & Ha & Hid).
  - intros x y _ Hf. apply bind_Ok in Hf as (? & _ & Hf). apply bind_Ok in Hf as (m & Hm' & Hf). apply bind_Ok in Hf as ([] & _ & Hf).
    apply bind_Ok in Hf as (a & Ha & Hf). apply bind_Ok in Hf as (? & _ & [= <-]). cbn [fst].
    rewrite (affect_identity _ _ _ _ Ha). by apply Hids, memory_of_Ok.
  - apply (elem_of_list_to_set (C := gset UUID)). rewrite Hset. by apply elem_of_list_to_set.
  - exists (am_memory a). split; [|done]. by apply sorted_images.
Qed.

(** The after-images are those of the memories the command changes. *)
Lemma prepared_images db p c l al prepared id :
  keyed (md_tables db) -> prepare_payload db p c l al = Ok prepared ->
  id ∈ changed_memories (co_body c) \/ pp_result_memory_id prepared = Some id ->
  exists m, m ∈ scheduled_after_images (pp_payload prepared) /\ ms_memory_id m = id.
Proof.
  intros Hkey Hp Hin. apply prepare_loaded in Hp as [(status & m & Hb & Hp)|(memories & requests & Hl & Hp)].
  { unfold prepare_create in Hp. do 7 (apply bind_Ok in Hp as (? & _ & Hp)). apply bind_Ok in Hp as ([] & _ & Hp).
    injection Hp as <-. cbn in Hin. destruct Hin as [Hin|[= <-]].
    - destruct Hb as [Hb|Hb]; rewrite Hb in Hin; by apply elem_of_nil in Hin.
    - eexists. split; [by left|done]. }
  apply lock_memories_Ok in Hl as [Hload _]. destruct (load_memories_Ok _ _ _ _ _ _ Hkey Hload) as (Hst & Hcov & _).
  assert (Hids : forall id m, (id, m) ∈ memories -> ms_memory_id m = id) by (intros x m Hm; by eapply stored_identity, Hst).
  destruct (co_body c); cbn [changed_memories command_memory_ids] in *; [done|done| | | | | |].
  - apply bind_Ok in Hp as (m & Hm%memory_of_Ok%Hids & Hp). apply bind_Ok in Hp as ([] & _ & Hp).
    apply bind_Ok in Hp as (revised & Hr%revised_identity & Hp). do 4 (apply bind_Ok in Hp as (? & _ & Hp)).
    injection Hp as <-. cbn in *. eexists. split; [by left|].
    destruct Hin as [Hin%list_elem_of_singleton|[= Hin]]; congruence.
  - unfold prepare_link in Hp. repeat (apply bind_Ok in Hp as (? & _ & Hp)). injection Hp as <-. cbn in Hin.
    destruct Hin as [Hin|]; [by apply elem_of_nil in Hin|done].
  - destruct Hin as [Hin|Hin]; [eapply open_conflict_images; [exact Hp|done|by apply Hcov]|]. exfalso.
    unfold prepare_open_conflict in Hp. repeat (apply bind_Ok in Hp as (? & _ & Hp)). by injection Hp as <-.
  - destruct Hin as [Hin|Hin]; [by eapply resolve_conflict_images|]. exfalso.
    unfold prepare_resolve_conflict in Hp. repeat (apply bind_Ok in Hp as (? & _ & Hp)). by injection Hp as <-.
  - apply bind_Ok in Hp as (m & Hm%memory_of_Ok%Hids & Hp). do 3 (apply bind_Ok in Hp as (? & _ & Hp)).
    injection Hp as <-. cbn in *. eexists. split; [by left|]. cbn.
    destruct Hin as [Hin%list_elem_of_singleton|[= Hin]]; congruence.
  - apply bind_Ok in Hp as (m & Hm%memory_of_Ok%Hids & Hp). do 4 (apply bind_Ok in Hp as (? & _ & Hp)).
    injection Hp as <-. cbn in *. eexists. split; [by left|]. cbn.
    destruct Hin as [Hin%list_elem_of_singleton|[= Hin]]; congruence.
Qed.

(** ** Scheduled effects *)

Lemma scheduled_jobs_Ok b e payload r jobs :
  scheduled_jobs b e payload r = Ok jobs ->
  (exists spec, spec ∈ jobs /\ js_job_type spec = "export_git_batch"%string /\ js_aggregate_id spec = Some (e_event_id e)) /\
  (forall m, m ∈ scheduled_after_images payload ->
     exists spec, spec ∈ jobs /\ js_job_type spec = "embed_memory"%string /\ js_aggregate_id spec = Some (ms_memory_id m)) /\
  (is_hard_forget b = true ->
     exists spec, spec ∈ jobs /\ js_job_type spec = "purge_payload"%string /\ js_aggregate_id spec = mu_memory_id r).
Proof.
  unfold scheduled_jobs. intros Hs. apply bind_Ok in Hs as (purge & Hpurge & Hs). injection Hs as <-. split; [|split].
  - eexists. split; [apply elem_of_app; right; left|by split].
  - intros m Hm. exists (memory_job "embed_memory" (ms_memory_id m) (ms_revision m) (e_event_id e)). split; [|by split]. apply elem_of_app. left. apply list_elem_of_join.
    eexists. split; [|apply list_elem_of_fmap; exists m; split; [reflexivity|done]]. by left.
  - intros Hb. destruct b as [| | | | | | |? ? [] ?]; try done. destruct (mu_memory_id r) as [id|]; [|done].
    destruct (mu_revision r) as [revision|]; [|done]. injection Hpurge as <-.
    eexists. split; [apply elem_of_app; right; right; left|by split].
Qed.

(** An accepted command schedules its side effects in its own transaction.
    Together with its event the database gains a pending export of that event,
    a pending embedding of the memory its reply names and of every other memory
    it changes, and, for a hard forget, a pending purge. *)
Theorem accepted_schedules_effects (db db' : MutationDb) (p : CommandPrincipal) (c : MutationCommand) (al : Allocation)
    (now timestamp : instant) (r : MutationResult) (requests : list Z) :
  keyed (md_tables db) -> outbox_ok (md_outbox db) -> md_receipts db !! receipt_key p c = None ->
  attempt db p c al now timestamp = Ok (db', r, requests) ->
  effect_pending (md_outbox db') (cp_tenant_id p) "export_git_batch" (Some (mu_event_id r)) /\
  (forall id, id ∈ changed_memories (co_body c) \/ mu_memory_id r = Some id ->
     effect_pending (md_outbox db') (cp_tenant_id p) "embed_memory" (Some id)) /\
  (is_hard_forget (co_body c) = true ->
     effect_pending (md_outbox db') (cp_tenant_id p) "purge_payload" (mu_memory_id r)).
Proof.
  intros Hkey Hok Hnone Ha. apply attempt_Ok in Ha as (l & cl & b & k & d & _ & _ & _ & _ & Ha).
  destruct Ha as [(receipt & Hs & _)|(more & _ & _ & _ & Hp)]; [congruence|].
  destruct (pf_parts _ _ _ _ _ _ _ _ _ _ _ _ Hp) as
    (prep & prop & s & t & e & ks & js & cb & Hprep & _ & _ & _ & Hr & _ & Hj & _ & ->).
  unfold enqueue_jobs in Hj. apply bind_Ok in Hj as (jobs & Hjobs & Hj). apply bind_Ok in Hj as ([] & Hlen%raise_if_Ok & Hj).
  apply Nat.ltb_ge in Hlen. destruct (enqueue_specs_pending _ _ _ _ _ _ Hok Hj) as [_ Hpend].
  destruct (scheduled_jobs_Ok _ _ _ _ _ Hjobs) as (Hexp & Hemb & Hpur).
  assert (Hspec : forall spec, spec ∈ jobs -> effect_pending js (cp_tenant_id p) (js_job_type spec) (js_aggregate_id spec)).
  { intros spec Hin. destruct (zip_covers (al_job_ids al) jobs spec Hlen Hin) as (u & Hu). by apply (Hpend (u, spec)). }
  cbn [md_outbox written]. split; [|split].
  - destruct Hexp as (spec & Hin & Hty & Hag). rewrite Hr. cbn. rewrite <- Hty, <- Hag. by apply Hspec.
  - intros id Hid. destruct (prepared_images _ _ _ _ _ _ id Hkey Hprep) as (m & Hm & <-).
    { destruct Hid as [|Hid]; [by left|right]. by rewrite Hr in Hid. }
    destruct (Hemb m Hm) as (spec & Hin & Hty & Hag). rewrite <- Hty, <- Hag. by apply Hspec.
  - intros Hh. destruct (Hpur Hh) as (spec & Hin & Hty & Hag). rewrite <- Hty, <- Hag. by apply Hspec.
Qed.

(** ** Job identities *)

(** A membership row is stored under the key it carries. *)
Definition members_keyed (t : LiveTables) : Prop :=
  forall k row, lt_members t !! k = Some row -> k = (br_tenant_id row, br_lineage_id row, br_conflict_id row, br_memory_id row).

(** The members of one conflict are different memories. *)
Lemma stored_members_nodup t tenant lineage conflict :
  members_keyed t ->
  NoDup (br_memory_id <$> select_rows br_memory_id (fun m => (br_tenant_id m =? tenant) && (br_lineage_id m =? lineage)
    && (br_conflict_id m =? conflict)) (lt_members t)).
Proof.
  intros Hk. set (test := fun m : MemberRow => _). unfold select_rows. rewrite sort_by_perm.
  assert (Hnd : NoDup (member_row_place <$> (snd <$> map_to_list (lt_members t)))).
  { apply values_ids_nodup. intros k row Hrow. by apply Hk in Hrow. }
  pose proof (NoDup_fmap_filter member_row_place (fun row => test row = true) _ Hnd) as Hnd'. clear Hnd. revert Hnd'. set (rows := filter _ _). assert (Hall : Forall (fun row => test row = true) rows)
    by (apply Forall_forall; intros row Hin; by apply list_elem_of_filter in Hin as [? _]).
  clearbody rows. induction Hall as [|row rows Hrow Hall IH]; [constructor|]. rewrite !fmap_cons.
  intros [Hni Hnd]%NoDup_cons. apply NoDup_cons. split; [|by apply IH]. intros Hin. apply Hni.
  apply list_elem_of_fmap in Hin as (row' & Hid & Hin). apply list_elem_of_fmap. exists row'. split; [|done].
  rewrite Forall_forall in Hall. specialize (Hall row' Hin). unfold test in Hrow, Hall.
  rewrite !andb_true_iff, !Z.eqb_eq in Hrow, Hall. unfold member_row_place. destruct Hrow as [[-> ->] ->], Hall as [[-> ->] ->].
  by rewrite Hid.
Qed.

Lemma remove_dups_length (l : list UUID) : (length (remove_dups l) <= length l)%nat.
Proof. induction l as [|x l IH]; [done|]. cbn. destruct (decide_rel _ _ _); cbn; lia. Qed.

Lemma nodup_within (l k : list UUID) :
  NoDup l -> list_to_set (C := gset UUID) l = list_to_set k -> (length l <= length k)%nat.
Proof.
  intros Hnd Hset. apply (NoDup_incl_length (l := l)); [by apply NoDup_ListNoDup|]. intros x Hx%list_elem_of_In. apply list_elem_of_In.
  apply (elem_of_list_to_set (C := gset UUID)). rewrite <- Hset. by apply elem_of_list_to_set.
Qed.

Lemma sorted_images_length (am : list AffectedMemory) leb : length (am_memory <$> sort_by leb am) = length am.
Proof. rewrite length_fmap. apply Permutation_length. apply sort_by_perm. Qed.

(** The number of after-images of a validated command. *)
Lemma images_bounded db p c l al prepared :
  keyed (md_tables db) -> members_keyed (md_tables db) -> validate_command c = Ok tt ->
  prepare_payload db p c l al = Ok prepared ->
  (length (scheduled_after_images (pp_payload prepared)) <= 32)%nat /\
  (length (scheduled_after_images (pp_payload prepared)) <= 1)%nat \/
  (length (scheduled_after_images (pp_payload prepared)) <= 32)%nat /\ checks_duplicates (co_body c) = false /\
  is_hard_forget (co_body c) = false.
Proof.
  intros Hkey Hmk Hv Hp. unfold validate_command in Hv. apply bind_Ok in Hv as ([] & _ & Hv).
  apply prepare_loaded in Hp as [(status & m & Hb & Hp)|(memories & requests & Hl & Hp)].
  { left. unfold prepare_create in Hp. do 8 (apply bind_Ok in Hp as (? & _ & Hp)). injection Hp as <-. cbn. lia. }
  apply lock_memories_Ok in Hl as [Hload _]. destruct (load_memories_Ok _ _ _ _ _ _ Hkey Hload) as (_ & _ & _ & Hlen).
  destruct (co_body c); [done|done| | | | | |]; cbn [command_memory_ids validate_body] in *.
  - left. unfold prepare_revise in Hp. repeat (apply bind_Ok in Hp as (? & _ & Hp)). injection Hp as <-. cbn. lia.
  - left. unfold prepare_link in Hp. repeat (apply bind_Ok in Hp as (? & _ & Hp)). injection Hp as <-. cbn. lia.
  - right. apply bind_Ok in Hv as ([] & Hf%require_Ok & _). rewrite !andb_true_iff in Hf. destruct Hf as [[[_ Hc] _] _].
    apply andb_true_iff in Hc as [_ Hc%Nat.leb_le]. split; [|done]. unfold prepare_open_conflict in Hp. apply bind_Ok in Hp as ([] & _ & Hp).
    apply bind_Ok in Hp as (pairs & Hm%mapR_length & Hp). do 2 (apply bind_Ok in Hp as ([] & _ & Hp)). injection Hp as <-.
    cbn [pp_payload aggregate_result scheduled_after_images]. rewrite sorted_images_length, length_fmap, Hm.
    rewrite (Permutation_length (sort_by_perm _ _)), length_fmap, Hlen.
    pose proof (remove_dups_length (re_memory_id <$> members)) as Hle. rewrite length_fmap in Hle. etrans; [exact Hle|lia].
  - right. apply bind_Ok in Hv as ([] & Hf%require_Ok & _). rewrite !andb_true_iff in Hf. destruct Hf as [[[_ Hc] _] _].
    apply andb_true_iff in Hc as [_ Hc%Nat.leb_le]. split; [|done]. unfold prepare_resolve_conflict in Hp. apply bind_Ok in Hp as ([] & _ & Hp).
    apply bind_Ok in Hp as (row & _ & Hp). set (stored := select_rows _ _ _) in Hp.
    apply bind_Ok in Hp as ([] & Hset%fail_if_Ok & Hp). apply orb_false_iff in Hset as [_ Hset].
    apply negb_false_iff, bool_decide_eq_true, nodup_within in Hset; [|by apply stored_members_nodup]. rewrite !length_fmap in Hset.
    apply bind_Ok in Hp as (pairs & Hm%mapR_length & Hp). do 2 (apply bind_Ok in Hp as ([] & _ & Hp)). injection Hp as <-.
    cbn [pp_payload aggregate_result scheduled_after_images]. rewrite sorted_images_length, length_fmap, Hm. lia.
  - left. unfold prepare_retire in Hp. repeat (apply bind_Ok in Hp as (? & _ & Hp)). injection Hp as <-. cbn. lia.
  - left. unfold prepare_forget in Hp. repeat (apply bind_Ok in Hp as (? & _ & Hp)). injection Hp as <-. cbn. lia.
Qed.

Lemma scheduled_jobs_length b e payload r jobs :
  scheduled_jobs b e payload r = Ok jobs ->
  length jobs = ((if checks_duplicates b then 2 else 1) * length (scheduled_after_images payload) + 1
                 + (if is_hard_forget b then 1 else 0))%nat.
Proof.
  unfold scheduled_jobs. intros Hs. apply bind_Ok in Hs as (purge & Hpurge & Hs). injection Hs as <-.
  assert (Hp : length purge = if is_hard_forget b then 1%nat else 0%nat).
  { destruct b as [| | | | | | |? ? [] ?]; try (by injection Hpurge as <-). destruct (mu_memory_id r); [|done].
    destruct (mu_revision r); [|done]. by injection Hpurge as <-. }
  rewrite length_app. cbn [length app]. rewrite Hp. set (f := fun m : MemoryState => _ :: _).
  assert (Hj : forall ms, length (mjoin (f <$> ms)) = ((if checks_duplicates b then 2 else 1) * length ms)%nat).
  { induction ms as [|m ms IH]; [cbn; lia|]. rewrite fmap_cons. change (mjoin (f m :: (f <$> ms))) with (f m ++ mjoin (f <$> ms)).
    rewrite length_app, IH. unfold f at 1. destruct (checks_duplicates b); cbn [length]; lia. }
  rewrite Hj. lia.
Qed.

(** the job identities allocated before the retry loop always suffice: a
    validated command, once prepared, schedules at most as many jobs as
    identities were drawn for it. *)
Theorem job_identities_suffice (db : MutationDb) (p : CommandPrincipal) (c : MutationCommand) (lineage_id : UUID)
    (al : Allocation) (prepared : Prepared) (e : MemoryEvent) (r : MutationResult) (jobs : list JobSpec) :
  keyed (md_tables db) -> members_keyed (md_tables db) -> validate_command c = Ok tt ->
  length (al_job_ids al) = JOB_IDENTITIES -> prepare_payload db p c lineage_id al = Ok prepared ->
  scheduled_jobs (co_body c) e (pp_payload prepared) r = Ok jobs -> (length jobs <= length (al_job_ids al))%nat.
Proof.
  intros Hkey Hmk Hv Hids Hp Hj%scheduled_jobs_length. rewrite Hids, Hj. unfold JOB_IDENTITIES.
  destruct (images_bounded _ _ _ _ _ _ Hkey Hmk Hv Hp) as [[_ H]|(H & Hd & Hh)].
  - destruct (checks_duplicates _), (is_hard_forget _); lia.
  - rewrite Hd, Hh. lia.
Qed.

(** ** Replies *)

Lemma error_response_total e : exists m, error_response e = Ok m.
Proof.
  destruct e; cbn [error_response is_value_error]; try (eexists; reflexivity).
  - repeat destruct (bool_decide _); eexists; reflexivity.
  - unfold mutation_error, validate_safe_error. cbn [me_details me_retry_after_ms me_code me_retryable opt_ok].
    assert (Hr : (0 <=? Z.max 100 (Z.min 1000 retry_after_ms)) && (Z.max 100 (Z.min 1000 retry_after_ms) <=? 60000) = true) by lia.
    rewrite Hr. eexists. reflexivity.
Qed.

(** The reply when every attempt lost a serialization race. *)
Definition serialization_exhausted : MutationError :=
  {| me_code := "serialization_exhausted"; me_retryable := true; me_retry_after_ms := Some 100; me_details := None |}.

(** C40: every command is answered.  [execute] always returns: it commits and
    replies with the result of the first attempt that did not lose a
    serialization race, or, when that attempt raised anything else, commits
    nothing and returns the error envelope of the exception; after four lost
    races it commits nothing and asks the client to retry after 100 ms. *)
Theorem execute_replies (snapshot : nat -> MutationDb) (refused : nat -> option string) (now timestamp : nat -> instant)
    (jitter : nat -> float) (p : CommandPrincipal) (c : MutationCommand) (al : Allocation) :
  (forall n, SFleb float_zero (jitter n) && SFleb (jitter n) float_one = true) ->
  let run := transaction snapshot refused now timestamp p c al in
  exists state response, execute snapshot refused now timestamp jitter p c al = Ok (state, response) /\
  ((exists n, (1 <= n <= 4)%nat /\ (forall k, (1 <= k < n)%nat -> settled (run k) = false) /\
      match run n with
      | Ok (db, r, _) => state = Some db /\ response = Replied r
      | Err e => is_serialization_failure e = false /\ state = None /\
                 exists m, error_response e = Ok m /\ response = Refused m
      end) \/
   ((forall k, (1 <= k <= 4)%nat -> settled (run k) = false) /\ state = None /\ response = Refused serialization_exhausted)).
Proof.
  intros Hjit run. unfold execute.
  assert (Hargs : retry_arguments jitter DEFAULT_MAX_ATTEMPTS DEFAULT_BASE_DELAY DEFAULT_MAX_DELAY 100).
  { split; [cbv; lia|]. split; [by vm_compute|]. split; [by vm_compute|]. split; [by vm_compute|]. split; [by vm_compute|done]. }
  destruct (run_spec run jitter DEFAULT_MAX_ATTEMPTS DEFAULT_BASE_DELAY DEFAULT_MAX_DELAY 100 Hargs)
    as [(n & sleeps & Hn & Hset & Hbefore & Hrun & _)|(sleeps & Hall & Hrun & _)]; fold run; rewrite Hrun; cbn [fst].
  - destruct (run n) as [[[db r] ls]|e] eqn:Ho.
    + exists (Some db), (Replied r). split; [done|]. left. exists n. rewrite Ho. done.
    + destruct (error_response_total e) as (m & Hm). exists None, (Refused m). rewrite Hm. split; [done|]. left. exists n.
      rewrite Ho. split; [done|]. split; [done|]. split; [|by eauto]. cbn in Hset. by apply negb_true_iff in Hset.
  - exists None, (Refused serialization_exhausted). split; [by vm_compute|]. by right.
Qed.

(** ** Sealed memories *)

(** No contract version lets a sealed memory be revised or retired. *)
Lemma sealed_transition_refused p c l al prepared revision m :
  pp_payload prepared = MemoryTransitionPayload revision m -> is_v3 m = true ->
  event_operation (co_body c) = EventOperation.REVISED \/ event_operation (co_body c) = EventOperation.RETIRED ->
  forall e, proposed_event p c l al prepared <> Ok e.
Proof.
  intros Hp Hv Hop e He. unfold proposed_event in He. apply bind_Ok in He as ([[[v cn] ps] cs] & _ & He).
  apply model_validate_Ok in He as (_ & _ & _ & (q & Hq) & _). unfold typed_payload in Hq. apply bind_Ok in Hq as ([] & _ & Hq).
  apply bind_Ok in Hq as (model & Hm%from_option_or_Ok & _). cbn [e_operation e_schema_version e_payload_version] in Hm.
  unfold contract_version in Hm. rewrite Hp in Hm. cbn [payload_memory] in Hm. rewrite Hv in Hm.
  destruct Hop as [Hop|Hop]; rewrite Hop in Hm; discriminate Hm.
Qed.

Definition transition_target (b : CommandBody) : option UUID :=
  match b with ReviseCommand id _ _ | RetireCommand id _ => Some id | _ => None end.

Lemma transition_keeps_version db p c l al prepared id m :
  keyed (md_tables db) -> prepare_payload db p c l al = Ok prepared -> transition_target (co_body c) = Some id ->
  (exists row, lt_memories (md_tables db) !! id = Some row /\ memory_row_to_state row = Ok m) ->
  exists revision m', pp_payload prepared = MemoryTransitionPayload revision m' /\ is_v3 m' = is_v3 m.
Proof.
  intros Hkey Hp Ht (row & Hrow & Hm). apply prepare_loaded in Hp as [(st & mi & Hb & _)|(memories & requests & Hl & Hp)].
  { by destruct Hb as [Hb|Hb]; rewrite Hb in Ht. }
  apply lock_memories_Ok in Hl as [Hload _]. destruct (load_memories_Ok _ _ _ _ _ _ Hkey Hload) as (Hst & _).
  assert (Hcur : forall current, memory_of memories id = Ok current -> current = m).
  { intros current (row' & Hrow' & Hm' & _)%memory_of_Ok%Hst. congruence. }
  destruct (co_body c); try done; injection Ht as ->; apply bind_Ok in Hp as (current & ->%Hcur & Hp).
  - apply bind_Ok in Hp as ([] & _ & Hp). apply bind_Ok in Hp as (revised & Hr & Hp).
    do 4 (apply bind_Ok in Hp as (? & _ & Hp)). injection Hp as <-. eexists _, revised. split; [done|].
    unfold revised_memory in Hr. by apply bind_Ok in Hr as (f & _ & [= <-]).
  - do 3 (apply bind_Ok in Hp as (? & _ & Hp)). injection Hp as <-. by eexists _, _.
Qed.

(** Sealed memories fail closed.  A new command that revises or retires a
    memory stored with a sealed envelope is never accepted, whoever sends it and
    whatever it changes: no event contract carries the result. *)
Theorem sealed_memories_fail_closed (db : MutationDb) (p : CommandPrincipal) (c : MutationCommand) (al : Allocation)
    (now timestamp : instant) (id : UUID) (row : MemoryRow) (m : MemoryState) :
  keyed (md_tables db) -> md_receipts db !! receipt_key p c = None -> transition_target (co_body c) = Some id ->
  lt_memories (md_tables db) !! id = Some row -> memory_row_to_state row = Ok m -> is_v3 m = true ->
  exists e, attempt db p c al now timestamp = Err e.
Proof.
  intros Hkey Hnone Ht Hrow Hm Hv. destruct (attempt db p c al now timestamp) as [[[db' r] requests]|e] eqn:Ha; [|by eauto].
  exfalso. apply attempt_Ok in Ha as (l & cl & b & k & d & _ & _ & _ & _ & Ha).
  destruct Ha as [(receipt & Hs & _)|(more & _ & _ & _ & Hp)]; [congruence|].
  destruct (pf_parts _ _ _ _ _ _ _ _ _ _ _ _ Hp) as (prep & prop & s & t & e & ks & js & cb & Hprep & _ & Hprop & _).
  destruct (transition_keeps_version _ _ _ _ _ _ _ m Hkey Hprep Ht) as (revision & m' & Hpay & Hv'); [by eauto|].
  eapply sealed_transition_refused; [exact Hpay|congruence| |exact Hprop]. by destruct (co_body c); try done; [left|right].
Qed.
End Effects.
