(* ===== verification/MutationExamples.v ===== *)
(** * MutationExamples: one command, executed

    A remember command on a fresh branch, run through the whole engine, and the
    witnesses of the engine's theorems. *)

From stdpp Require Import base tactics option list gmap sets strings.
From Stdlib Require Import ZArith Lia Bool SpecFloat.
From S2P Require Import Prelude Identifiers Enums Values CanonicalJson Digest Text Constraints Events Folding Samples FoldingHistory EventStore EventStoreTheorems OutboxTheorems ProjectionRows LiveProjection LiveProjectionFacts LiveReplay ProjectionRebuild Outbox Fingerprints Locks Transactions Commands Mutations MutationEngine MutationTheorems MutationGuards MutationEffects.
Open Scope Z_scope.

(** ** The request *)

Definition sample_input : MemoryInput := {|
  mi_subject_id := uid 10; mi_subject_kind := SubjectKind.PERSONA; mi_category := MemoryCategory.USER_PREFERENCE;
  mi_ontological_status := OntologicalStatus.LITERAL_USER_FACT; mi_scope := MemoryScope.PERSONA;
  mi_visibility := MemoryVisibility.PRIVATE_ROOT; mi_statement := py "text"; mi_reason_to_remember := py "text";
  mi_interpretation_limits := []; mi_confidence := half; mi_salience := half; mi_durability := half;
  mi_sensitivity := 1; mi_authority_class := AuthorityClass.EXPLICIT_USER_STATEMENT; mi_valid_from := None;
  mi_valid_to := None; mi_observed_at := None; mi_origin_session_id := None; mi_metadata := [] |}.

Definition remember_command : MutationCommand := {|
  co_idempotency_key := py "first"; co_logical_session_id := None; co_persona_id := uid 11; co_branch_id := BRANCH_A;
  co_reason := py "asked"; co_causation_event_id := None; co_body := RememberCommand sample_input |}.

Definition mutation_principal : CommandPrincipal := {|
  cp_tenant_id := TENANT_A; cp_actor_id := uid 6; cp_client_id := uid 7; cp_transport_binding_id := uid 8;
  cp_scopes := {["memory.write.remember"; "memory.write.legacy_v1"; "memory.write.retire"]}%string; cp_ingress_id := None |}.

Definition sample_allocation : Allocation := {|
  al_event_id := uid 200; al_receipt_id := uid 201; al_aggregate_id := uid 202; al_correlation_id := uid 203;
  al_created_at := 9; al_job_ids := (fun n => uid (300 + Z.of_nat n)) <$> seq 0 JOB_IDENTITIES |}.

Definition sample_fingerprint : pystr :=
  match exact_memory_fingerprint (py "text") (inl MemoryCategory.USER_PREFERENCE)
          (inl OntologicalStatus.LITERAL_USER_FACT) (inl MemoryScope.PERSONA) [] with
  | Ok f => sha256_hex_ f | Err _ => [] end.

Definition remembered_payload : OperationPayload :=
  MemoryCreatedPayload (created_memory mutation_principal remember_command LINEAGE sample_allocation MemoryStatus.ACTIVE
    sample_fingerprint sample_input) [].

Definition retire_command : MutationCommand := {|
  co_idempotency_key := py "second"; co_logical_session_id := None; co_persona_id := uid 11; co_branch_id := BRANCH_A;
  co_reason := py "asked"; co_causation_event_id := None; co_body := RetireCommand (uid 202) 1 |}.

Definition retire_allocation : Allocation := {|
  al_event_id := uid 210; al_receipt_id := uid 211; al_aggregate_id := uid 212; al_correlation_id := uid 213;
  al_created_at := 12; al_job_ids := (fun n => uid (400 + Z.of_nat n)) <$> seq 0 JOB_IDENTITIES |}.

Definition retired_payload : OperationPayload :=
  let m := created_memory mutation_principal remember_command LINEAGE sample_allocation MemoryStatus.ACTIVE
             sample_fingerprint sample_input in
  MemoryTransitionPayload 1 (updated_memory m 12 (with_status m MemoryStatus.RETIRED)).

(** Payloads are dumped as the empty object; the two commands' payloads are read
    back from it by their model, the events of the sample stream by index. *)
#[export] Instance engine_pydantic : Pydantic := {|
  model_read := fun model v =>
    match v with
    | JObject [] => Some (match model with Model_MemoryTransition => retired_payload | _ => remembered_payload end)
    | JObject [(_, JInt n)] => sample_payloads !! Z.to_nat n
    | _ => None
    end;
  model_dump := fun _ => ({[0 := CMapping []]}, PRef 0)
|}.

#[local] Existing Instance unique_database.
#[local] Existing Instance accepting_tables.

(** ** The database *)

Definition engine_live_store : StoreState := {|
  st_counter := Some 1; st_events := [];
  st_bindings := {[ uid 8 := {|
    tb_tenant_id := TENANT_A; tb_actor_id := uid 6; tb_client_id := uid 7;
    tb_transport_kind := "direct_private"; tb_installation_id := None;
    tb_authorized_operations := [(py "operations", JArray [JStr (py "branch_created"); JStr (py "remembered");
                                                           JStr (py "retired")])];
    tb_valid_until := None |} ]};
  st_actors := st_actors live_store; st_clients := st_clients live_store; st_installations := ∅; st_ingress := ∅ |}.

Definition engine_store : StoreState :=
  match append_memory_event 5 (fun _ => Ok branch_event) None engine_live_store with
  | Ok (st, _) => st | Err _ => engine_live_store end.

Definition engine_db : MutationDb := {|
  md_store := engine_store; md_tables := empty_tables; md_outbox := empty_outbox {[TENANT_A]};
  md_personas := {[uid 11 := {| pe_tenant_id := TENANT_A; pe_actor_id := uid 6; pe_retired_at := None |}]};
  md_lineages := {[LINEAGE := {| li_tenant_id := TENANT_A; li_persona_id := uid 11; li_sealed_at := None |}]};
  md_branches := {[BRANCH_A := branch_row (sample_branch BRANCH_A TENANT_A 1)]};
  md_sessions := ∅;
  md_subjects := {[uid 10 := {| su_tenant_id := TENANT_A; su_lineage_id := LINEAGE; su_kind := "persona";
                                su_origin_session_id := None |}]};
  md_content_keys := ∅; md_receipts := ∅ |}.

Definition sample_reply : MutationResult := {|
  mu_operation := "remember"; mu_receipt_id := uid 201; mu_event_id := uid 200; mu_memory_id := Some (uid 202);
  mu_revision := Some 1; mu_conflict_id := None; mu_conflict_state := None; mu_forget_state := None;
  mu_idempotent_replay := false; mu_warnings := [] |}.

#[export] Instance sample_receipts : ReceiptStore := {|
  read_result := fun _ => Some sample_reply; receipt_error := fun _ => None
|}.

(** ** Both commands run *)

Definition run_or {A} (r : result A) (default : A) : A := match r with Ok a => a | Err _ => default end.

Lemma run_or_Ok {A} (r : result A) default : is_ok r = true -> r = Ok (run_or r default).
Proof. by destruct r. Qed.

Definition remembered : MutationDb * MutationResult * list Z :=
  run_or (attempt engine_db mutation_principal remember_command sample_allocation 5 5) (engine_db, sample_reply, []).

Definition retired : MutationDb * MutationResult * list Z :=
  run_or (attempt remembered.1.1 mutation_principal retire_command retire_allocation 6 6) (engine_db, sample_reply, []).

Lemma remember_runs :
  is_ok (attempt engine_db mutation_principal remember_command sample_allocation 5 5) = true /\ remembered.1.2 = sample_reply.
Proof. vm_compute. by split. Qed.

Lemma retire_runs :
  is_ok (attempt remembered.1.1 mutation_principal retire_command retire_allocation 6 6) = true /\
  md_receipts remembered.1.1 !! receipt_key mutation_principal retire_command = None /\
  validate_command retire_command = Ok tt /\ retired.1.2.(mu_revision) = Some 2.
Proof. vm_compute. by split_and!. Qed.

Lemma remember_accepted :
  attempt engine_db mutation_principal remember_command sample_allocation 5 5 = Ok (remembered.1.1, sample_reply, remembered.2).
Proof.
  destruct remember_runs as [Hok Hr]. rewrite <- Hr. rewrite (run_or_Ok _ (engine_db, sample_reply, []) Hok).
  fold remembered. by destruct remembered as [[db r] l].
Qed.

Lemma retire_accepted :
  attempt remembered.1.1 mutation_principal retire_command retire_allocation 6 6 = Ok (retired.1.1, retired.1.2, retired.2).
Proof.
  destruct retire_runs as [Hok _]. rewrite (run_or_Ok _ (engine_db, sample_reply, []) Hok).
  fold retired. by destruct retired as [[db r] l].
Qed.

Lemma empty_keyed : keyed (md_tables engine_db).
Proof. intros k row Hk. cbn in Hk. by rewrite lookup_empty in Hk. Qed.

(** ** Witnesses *)

Lemma command_executes_once_witness :
  exists requests, attempt retired.1.1 mutation_principal remember_command retire_allocation 7 7
                   = Ok (retired.1.1, as_replay sample_reply, requests).
Proof.
  destruct (command_executes_once engine_db remembered.1.1 retired.1.1 mutation_principal remember_command sample_allocation 5 5
    sample_reply remembered.2) as (_ & Hreplay & _).
  - reflexivity.
  - exact remember_accepted.
  - reflexivity.
  - apply rtc_once. unfold mutation_step. eexists _, _, _, _, _, _, _. exact retire_accepted.
  - exact (Hreplay retire_allocation 7 7).
Defined.

Lemma engine_branch_event : model_validate branch_event = Ok branch_event.
Proof. vm_compute. reflexivity. Qed.

Lemma engine_db_ok : engine_ok engine_db.
Proof.
  apply (fresh_branch_ok engine_db engine_live_store 5 branch_event (state_of [branch_event]) (sample_branch BRANCH_A TENANT_A 1)
    (branch_row (sample_branch BRANCH_A TENANT_A 1)) {[TENANT_A]}); try reflexivity; try (vm_compute; reflexivity).
  by split.
Qed.

Lemma engine_invariant_witness : engine_ok remembered.1.1.
Proof.
  apply (engine_invariant engine_db remembered.1.1 mutation_principal remember_command sample_allocation 5 5 sample_reply
    remembered.2).
  - exact unique_database_unique.
  - vm_compute. reflexivity.
  - exact engine_db_ok.
  - exact remember_accepted.
Defined.

Lemma accepted_schedules_effects_witness :
  effect_pending (md_outbox remembered.1.1) TENANT_A "export_git_batch" (Some (uid 200)) /\
  effect_pending (md_outbox remembered.1.1) TENANT_A "embed_memory" (Some (uid 202)).
Proof.
  destruct (accepted_schedules_effects engine_db remembered.1.1 mutation_principal remember_command sample_allocation 5 5
    sample_reply remembered.2) as (Hexport & Hembed & _).
  - exact empty_keyed.
  - apply empty_ok.
  - reflexivity.
  - exact remember_accepted.
  - split; [exact Hexport|]. apply Hembed. right. reflexivity.
Defined.

(** The memory table of the remembered state is keyed, as any consistent state's. *)
Lemma remembered_keyed : keyed (md_tables remembered.1.1).
Proof.
  assert (Hall : forallb (fun kv => mr_memory_id kv.2 =? kv.1) (map_to_list (lt_memories (md_tables remembered.1.1))) = true)
    by (vm_compute; reflexivity).
  intros k row Hk. apply elem_of_map_to_list in Hk. rewrite forallb_forall in Hall.
  specialize (Hall (k, row) (proj1 (list_elem_of_In _ _) Hk)). cbn in Hall. lia.
Qed.

Lemma accepted_at_expected_revision_witness :
  exists row, lt_memories (md_tables remembered.1.1) !! uid 202 = Some row /\ mr_tenant_id row = TENANT_A /\
    mr_branch_id row = BRANCH_A /\ mr_revision row = 1.
Proof.
  apply (accepted_at_expected_revision remembered.1.1 retired.1.1 mutation_principal retire_command retire_allocation 6 6
    retired.1.2 retired.2).
  - exact remembered_keyed.
  - apply retire_runs.
  - apply retire_runs.
  - exact retire_accepted.
  - left.
Defined.

Definition sample_prepared : Prepared :=
  run_or (prepare_payload engine_db mutation_principal remember_command LINEAGE sample_allocation)
    (aggregate_result (BranchCreatedPayload (sample_branch BRANCH_A TENANT_A 1)) None []).

Definition sample_jobs : list JobSpec :=
  run_or (scheduled_jobs (co_body remember_command) branch_event (pp_payload sample_prepared) sample_reply) [].

Lemma sample_prepares :
  is_ok (prepare_payload engine_db mutation_principal remember_command LINEAGE sample_allocation) = true /\
  is_ok (scheduled_jobs (co_body remember_command) branch_event (pp_payload sample_prepared) sample_reply) = true /\
  validate_command remember_command = Ok tt.
Proof. vm_compute. by split_and!. Qed.

Lemma job_identities_suffice_witness : (length sample_jobs <= length (al_job_ids sample_allocation))%nat.
Proof.
  apply (job_identities_suffice engine_db mutation_principal remember_command LINEAGE sample_allocation sample_prepared
    branch_event sample_reply).
  - exact empty_keyed.
  - intros k row Hk. cbn in Hk. by rewrite lookup_empty in Hk.
  - apply sample_prepares.
  - reflexivity.
  - apply run_or_Ok, sample_prepares.
  - apply run_or_Ok, sample_prepares.
Defined.

Lemma execute_replies_witness :
  exists state response,
    execute (fun _ => engine_db) (fun _ => Some "40001"%string) (fun _ => 5) (fun _ => 5) (fun _ => float_one)
      mutation_principal remember_command sample_allocation = Ok (state, response).
Proof.
  destruct (execute_replies (fun _ => engine_db) (fun _ => Some "40001"%string) (fun _ => 5) (fun _ => 5) (fun _ => float_one)
    mutation_principal remember_command sample_allocation) as (state & response & Hrun & _).
  - intros n. reflexivity.
  - by exists state, response.
Defined.

(** ** A sealed memory *)

Definition sealed_state : MemoryState :=
  seal (replicate 64 97) (sample_memory MEMORY_1 TENANT_A BRANCH_A 1 2 2 MemoryStatus.ACTIVE) envelope_encrypted.

Definition sealed_row : result MemoryRow := memory_state_to_row sealed_state (uid 102).

Definition sealed_db (row : MemoryRow) : MutationDb :=
  written engine_db engine_store (set_lt_memories empty_tables {[MEMORY_1 := row]}) (md_outbox engine_db) ∅ ∅.

Definition retire_sealed : MutationCommand := {|
  co_idempotency_key := py "third"; co_logical_session_id := None; co_persona_id := uid 11; co_branch_id := BRANCH_A;
  co_reason := py "asked"; co_causation_event_id := None; co_body := RetireCommand MEMORY_1 1 |}.

Lemma sealed_row_reads : exists row, sealed_row = Ok row /\ mr_memory_id row = MEMORY_1 /\
  exists m, memory_row_to_state row = Ok m /\ is_v3 m = true.
Proof.
  eexists. split; [vm_compute; reflexivity|]. split; [reflexivity|]. eexists. split; vm_compute; reflexivity.
Qed.

Lemma sealed_memories_fail_closed_witness :
  exists row e, attempt (sealed_db row) mutation_principal retire_sealed retire_allocation 6 6 = Err e.
Proof.
  destruct sealed_row_reads as (row & _ & Hid & m & Hm & Hv). exists row.
  apply (sealed_memories_fail_closed (sealed_db row) mutation_principal retire_sealed retire_allocation 6 6 MEMORY_1 row m).
  - intros k row' Hk. cbn in Hk. by apply lookup_singleton_Some in Hk as [<- <-].
  - reflexivity.
  - reflexivity.
  - cbn. apply lookup_singleton_eq.
  - exact Hm.
  - exact Hv.
Defined.
