(* ===== verification/Regex.v ===== *)
(** * Regex: the regular expressions of the archive contracts

    Python's [re.fullmatch] for the operators the sources use (character
    classes, sequences, alternatives, bounded and unbounded repetition),
    executable by derivatives and proved to decide the language of the
    expression. *)

From stdpp Require Import base tactics option list strings.
From Stdlib Require Import ZArith Lia Bool.
From S2P Require Import Prelude.
Open Scope Z_scope.

(** ** Expressions *)

Inductive regex : Type :=
| REmpty
| REps
| RSet (ranges : list (Z * Z))
| RSeq (r1 r2 : regex)
| RAlt (r1 r2 : regex)
| RStar (r : regex).

(** Membership in a character class given by its ranges. *)
Definition in_set (ranges : list (Z * Z)) (c : Z) : bool :=
  existsb (fun '(lo, hi) => (lo <=? c) && (c <=? hi)) ranges.

Definition rchr (c : Z) : regex := RSet [(c, c)].

(** A literal, [r?], [r{n}], [r{0,n}] and [r{lo,hi}]. *)
Fixpoint rlit (s : pystr) : regex :=
  match s with [] => REps | c :: rest => RSeq (rchr c) (rlit rest) end.

Fixpoint rtimes (n : nat) (r : regex) : regex :=
  match n with O => REps | S n' => RSeq r (rtimes n' r) end.

Fixpoint rupto (n : nat) (r : regex) : regex :=
  match n with O => REps | S n' => RAlt REps (RSeq r (rupto n' r)) end.

Definition rbetween (lo hi : nat) (r : regex) : regex := RSeq (rtimes lo r) (rupto (hi - lo) r).

Fixpoint rseqs (l : list regex) : regex :=
  match l with [] => REps | r :: rest => RSeq r (rseqs rest) end.

Definition DIGIT : list (Z * Z) := [(48, 57)].
Definition HEXDIGIT : list (Z * Z) := [(48, 57); (97, 102)].
Definition LOWER : list (Z * Z) := [(97, 122)].
Definition ALNUM : list (Z * Z) := [(65, 90); (97, 122); (48, 57)].
Definition one_of (s : string) : list (Z * Z) := (fun c => (c, c)) <$> py s.

(** ** Matching *)

Fixpoint nullable (r : regex) : bool :=
  match r with
  | REmpty | RSet _ => false
  | REps | RStar _ => true
  | RSeq r1 r2 => nullable r1 && nullable r2
  | RAlt r1 r2 => nullable r1 || nullable r2
  end.

(** Sequence and alternative with the trivial cases removed, so that
    derivatives stay small. *)
Definition sseq (r1 r2 : regex) : regex :=
  match r1, r2 with
  | REmpty, _ | _, REmpty => REmpty
  | REps, _ => r2
  | _, _ => RSeq r1 r2
  end.

Definition salt (r1 r2 : regex) : regex :=
  match r1, r2 with
  | REmpty, _ => r2
  | _, REmpty => r1
  | _, _ => RAlt r1 r2
  end.

Fixpoint deriv (c : Z) (r : regex) : regex :=
  match r with
  | REmpty | REps => REmpty
  | RSet ranges => if in_set ranges c then REps else REmpty
  | RSeq r1 r2 =>
    if nullable r1 then salt (sseq (deriv c r1) r2) (deriv c r2) else sseq (deriv c r1) r2
  | RAlt r1 r2 => salt (deriv c r1) (deriv c r2)
  | RStar r' => sseq (deriv c r') (RStar r')
  end.

(** [re.compile(r).fullmatch(s) is not None] *)
Definition fullmatch (r : regex) (s : pystr) : bool := nullable (fold_left (fun r c => deriv c r) s r).

(** ** The language *)

Inductive lang : regex -> pystr -> Prop :=
| lang_eps : lang REps []
| lang_set ranges c : in_set ranges c = true -> lang (RSet ranges) [c]
| lang_seq r1 r2 s1 s2 : lang r1 s1 -> lang r2 s2 -> lang (RSeq r1 r2) (s1 ++ s2)
| lang_alt_l r1 r2 s : lang r1 s -> lang (RAlt r1 r2) s
| lang_alt_r r1 r2 s : lang r2 s -> lang (RAlt r1 r2) s
| lang_star_nil r : lang (RStar r) []
| lang_star_cons r s1 s2 : lang r s1 -> lang (RStar r) s2 -> lang (RStar r) (s1 ++ s2).

#[local] Hint Constructors lang : core.

Lemma lang_seq_iff r1 r2 s : lang (RSeq r1 r2) s <-> exists s1 s2, s = s1 ++ s2 /\ lang r1 s1 /\ lang r2 s2.
Proof. split; [inversion 1; subst; eauto | intros (? & ? & -> & ? & ?); eauto]. Qed.

Lemma lang_alt_iff r1 r2 s : lang (RAlt r1 r2) s <-> lang r1 s \/ lang r2 s.
Proof. split; [inversion 1; auto | intros []; auto]. Qed.

Lemma lang_eps_iff s : lang REps s <-> s = [].
Proof. split; [by inversion 1 | intros ->; auto]. Qed.

Lemma lang_set_iff ranges s : lang (RSet ranges) s <-> exists c, s = [c] /\ in_set ranges c = true.
Proof. split; [inversion 1; eauto | intros (? & -> & ?); auto]. Qed.

Lemma lang_empty s : ~ lang REmpty s.
Proof. inversion 1. Qed.

Lemma sseq_lang r1 r2 s : lang (sseq r1 r2) s <-> lang (RSeq r1 r2) s.
Proof.
  assert (H0 : forall r, ~ lang (RSeq REmpty r) s).
  { intros r (? & ? & _ & H & _)%lang_seq_iff. by apply lang_empty in H. }
  assert (H1 : forall r, ~ lang (RSeq r REmpty) s).
  { intros r (? & ? & _ & _ & H)%lang_seq_iff. by apply lang_empty in H. }
  assert (H2 : forall r, lang r s <-> lang (RSeq REps r) s).
  { intros r. rewrite lang_seq_iff. setoid_rewrite lang_eps_iff.
    split; [intros H; by exists [], s|].
    by intros (? & ? & -> & -> & ?). }
  pose proof (lang_empty s) as He.
  destruct r1, r2; cbn [sseq]; first [done | apply H2
    | split; intros H; exfalso; first [by apply He in H | by apply H0 in H | by apply H1 in H]].
Qed.

Lemma salt_lang r1 r2 s : lang (salt r1 r2) s <-> lang (RAlt r1 r2) s.
Proof.
  rewrite lang_alt_iff. pose proof (lang_empty s). destruct r1, r2; cbn [salt]; rewrite ?lang_alt_iff; tauto.
Qed.

Lemma nullable_lang r : nullable r = true <-> lang r [].
Proof.
  induction r; cbn [nullable].
  - split; [done | intros H; by apply lang_empty in H].
  - by split.
  - split; [done | intros (? & ? & _)%lang_set_iff; done].
  - rewrite andb_true_iff, IHr1, IHr2, lang_seq_iff. split.
    + intros []. exists [], []. auto.
    + by intros (s1 & s2 & [-> ->]%eq_sym%app_nil & ? & ?).
  - by rewrite orb_true_iff, IHr1, IHr2, lang_alt_iff.
  - by split.
Qed.

(** A non-empty word of a star starts with a non-empty word of its body. *)
Lemma lang_star_split r c s :
  lang (RStar r) (c :: s) -> exists s1 s2, s = s1 ++ s2 /\ lang r (c :: s1) /\ lang (RStar r) s2.
Proof.
  remember (RStar r) as r' eqn:Hr. remember (c :: s) as w eqn:Hw. intros Hl. revert s Hw.
  induction Hl as [| | | | |r0|r0 w1 w2 H1 _ H2 IH2]; intros t Hw; simplify_eq.
  destruct w1 as [|d w1]; [by apply IH2|]. injection Hw as -> <-. eauto.
Qed.

Lemma deriv_lang c r s : lang (deriv c r) s <-> lang r (c :: s).
Proof.
  revert s. induction r as [| |ranges|r1 IH1 r2 IH2|r1 IH1 r2 IH2|r IH]; intros s; cbn [deriv].
  - split; intros H; by apply lang_empty in H.
  - split; [intros H; by apply lang_empty in H | inversion 1].
  - rewrite lang_set_iff. destruct (in_set ranges c) eqn:E.
    + rewrite lang_eps_iff. split; [intros ->; eauto | by intros (? & [= <- ->] & _)].
    + split; [intros H; by apply lang_empty in H | intros (? & [= <- ->] & ?); congruence].
  - assert (Hs : lang (sseq (deriv c r1) r2) s <-> exists s1 s2, s = s1 ++ s2 /\ lang r1 (c :: s1) /\ lang r2 s2).
    { rewrite sseq_lang, lang_seq_iff. by setoid_rewrite IH1. }
    assert (Hc : lang (RSeq r1 r2) (c :: s) <->
              (lang r1 [] /\ lang r2 (c :: s)) \/ exists s1 s2, s = s1 ++ s2 /\ lang r1 (c :: s1) /\ lang r2 s2).
    { rewrite lang_seq_iff. split.
      - intros ([|d s1] & s2 & Heq & ? & ?); [left; by simplify_eq/=|]. right. simplify_eq/=. eauto.
      - intros [[? ?]|(s1 & s2 & -> & ? & ?)]; [by exists [], (c :: s)|by exists (c :: s1), s2]. }
    rewrite Hc. pose proof (nullable_lang r1) as Hn. destruct (nullable r1).
    + rewrite salt_lang, lang_alt_iff, Hs, IH2. tauto.
    + rewrite Hs. split; [auto|]. intros [[H _]|?]; [by apply Hn in H|done].
  - by rewrite salt_lang, !lang_alt_iff, IH1, IH2.
  - rewrite sseq_lang, lang_seq_iff. setoid_rewrite IH. split.
    + intros (s1 & s2 & -> & ? & ?). by apply (lang_star_cons r (c :: s1)).
    + intros (s1 & s2 & -> & ? & ?)%lang_star_split. eauto.
Qed.

(** Matching decides the language. *)
Lemma fullmatch_lang r s : fullmatch r s = true <-> lang r s.
Proof.
  unfold fullmatch. revert r. induction s as [|c s IH]; intros r; cbn [fold_left].
  - apply nullable_lang.
  - by rewrite IH, deriv_lang.
Qed.

(** ** Words of the derived forms *)

Lemma lang_lit l s : lang (rlit l) s <-> s = l.
Proof.
  revert s. induction l as [|c l IH]; intros s; cbn [rlit]; [apply lang_eps_iff|].
  rewrite lang_seq_iff. unfold rchr. setoid_rewrite lang_set_iff. setoid_rewrite IH. split.
  - intros (? & ? & -> & (d & -> & Hd) & ->). cbn in Hd. rewrite orb_false_r, andb_true_iff, !Z.leb_le in Hd.
    assert (d = c) as -> by lia. done.
  - intros ->. exists [c], l. split; [done|]. split; [|done]. exists c. split; [done|]. cbn.
    by rewrite !Z.leb_refl.
Qed.

Lemma lang_times_set n ranges s :
  lang (rtimes n (RSet ranges)) s <-> length s = n /\ Forall (fun c => in_set ranges c = true) s.
Proof.
  revert s. induction n as [|n IH]; intros s; cbn [rtimes].
  - rewrite lang_eps_iff. split; [intros ->; auto | by intros [->%length_zero_iff_nil _]].
  - rewrite lang_seq_iff. setoid_rewrite lang_set_iff. setoid_rewrite IH. split.
    + intros (? & ? & -> & (c & -> & ?) & <- & ?). split; [done|by constructor].
    + destruct s as [|c s]; [by intros [? _]|]. intros [[= <-] [? ?]%Forall_cons].
      exists [c], s. by eauto 6.
Qed.

Lemma lang_upto_set n ranges s :
  lang (rupto n (RSet ranges)) s <-> (length s <= n)%nat /\ Forall (fun c => in_set ranges c = true) s.
Proof.
  revert s. induction n as [|n IH]; intros s; cbn [rupto].
  - rewrite lang_eps_iff. split; [intros ->; auto|]. intros [Hl _]. destruct s; [done|cbn in Hl; lia].
  - rewrite lang_alt_iff, lang_eps_iff, lang_seq_iff. setoid_rewrite lang_set_iff. setoid_rewrite IH. split.
    + intros [->|(? & ? & -> & (c & -> & ?) & ? & ?)]; [cbn; split; [lia|done]|]. cbn.
      split; [lia|by constructor].
    + destruct s as [|c s]; [by left|]. intros [Hl [? ?]%Forall_cons]. right. exists [c], s.
      cbn in Hl. split_and!; [done|eauto|lia|done].
Qed.

Lemma rseqs_cons r l s :
  lang (rseqs (r :: l)) s <-> exists s1 s2, s = s1 ++ s2 /\ lang r s1 /\ lang (rseqs l) s2.
Proof. apply lang_seq_iff. Qed.

(** A sequence that starts with a literal. *)
Lemma lang_seq_lit l r s : lang (RSeq (rlit l) r) s <-> exists s2, s = l ++ s2 /\ lang r s2.
Proof.
  rewrite lang_seq_iff. setoid_rewrite lang_lit. split; [intros (? & ? & -> & -> & ?); eauto|].
  intros (s2 & -> & ?). eauto.
Qed.

Lemma in_set_one_of s c : in_set (one_of s) c = true <-> c ∈ py s.
Proof.
  unfold in_set, one_of. rewrite existsb_exists, list_elem_of_In. split.
  - intros (p & Hp & Hc). apply in_map_iff in Hp as (d & <- & Hd). rewrite andb_true_iff, !Z.leb_le in Hc.
    by assert (c = d) as -> by lia.
  - intros Hc. exists (c, c). rewrite !Z.leb_refl. split; [|done]. apply in_map_iff. eauto.
Qed.
