(* ===== verification/IsoFormat.v ===== *)
(** * IsoFormat: [datetime.fromisoformat]

    The reader of ISO 8601 texts of Python's [datetime] module, for every form
    it accepts: calendar and week dates, separated or compact, an optional time
    with fraction, an optional offset.  Digits are ASCII.  [None] is
    [ValueError]. *)

From stdpp Require Import base tactics option list strings.
From Stdlib Require Import ZArith Lia Bool.
From S2P Require Import Prelude Values CanonicalJson Digest Text.
Open Scope Z_scope.

Definition is_digit (c : Z) : bool := (48 <=? c) && (c <=? 57).

(** [int(s[pos:pos + n])] of exactly [n] digits. *)
Definition parse_digits (n pos : nat) (s : pystr) : option Z :=
  let field := take n (drop pos s) in
  if bool_decide (length field = n) && negb (bool_decide (n = 0)%nat) && forallb is_digit field
  then Some (digits_value field) else None.

Definition char_at (s : pystr) (pos : nat) (c : Z) : bool := bool_decide (s !! pos = Some c).

Fixpoint leading_digits (s : pystr) : nat :=
  match s with c :: rest => if is_digit c then S (leading_digits rest) else O | [] => O end.

(** [_find_isoformat_datetime_separator] *)
Definition find_isoformat_datetime_separator (s : pystr) : option nat :=
  let n := length s in
  if bool_decide (n = 7)%nat then Some 7%nat
  else if char_at s 4 45 then
    if char_at s 5 87 then
      if (8 <? n)%nat && char_at s 8 45 then
        if bool_decide (n = 9)%nat then None
        else if (10 <? n)%nat && from_option is_digit false (s !! 10%nat) then Some 8%nat
        else Some 10%nat
      else Some 8%nat
    else Some 10%nat
  else if char_at s 4 87 then
    let idx := (7 + leading_digits (drop 7 s))%nat in
    if (idx <? 9)%nat then Some idx
    else if Nat.even idx then Some 7%nat else Some 8%nat
  else Some 8%nat.

Definition days_of_civil (year month day : Z) : Z :=
  days_before_year year + days_before_month (is_leap year) month + day - 1.

(** [_isoweek_to_gregorian] *)
Definition isoweek_to_gregorian (year week day : Z) : option (Z * Z * Z) :=
  let first := days_of_civil year 1 1 in
  let long_year :=
    let weekday := (first + 1) mod 7 in
    (weekday =? 4) || ((weekday =? 3) && is_leap year) in
  if negb ((1 <=? year) && (year <=? 9999)) then None
  else if negb (((0 <? week) && (week <? 53)) || ((week =? 53) && long_year)) then None
  else if negb ((0 <? day) && (day <? 8)) then None
  else
    let first_weekday := first mod 7 in
    let monday := first - first_weekday + (if 3 <? first_weekday then 7 else 0) in
    Some (civil_of_days (monday + (week - 1) * 7 + (day - 1))).

(** [_parse_isoformat_date] *)
Definition parse_isoformat_date (d : pystr) : option (Z * Z * Z) :=
  year ← parse_digits 4 0 d;
  let has_sep := char_at d 4 45 in
  let pos := if has_sep then 5%nat else 4%nat in
  if char_at d pos 87 then
    week ← parse_digits 2 (pos + 1) d;
    let pos := (pos + 3)%nat in
    day ← (if (pos <? length d)%nat then
             if Bool.eqb (char_at d pos 45) has_sep
             then parse_digits 1 (if has_sep then pos + 1 else pos)%nat d else None
           else Some 1);
    isoweek_to_gregorian year week day
  else
    month ← parse_digits 2 pos d;
    let pos := (pos + 2)%nat in
    if Bool.eqb (char_at d pos 45) has_sep
    then day ← parse_digits 2 (if has_sep then pos + 1 else pos)%nat d; Some (year, month, day)
    else None.

(** The loop over hours, minutes and seconds of [_parse_hh_mm_ss_ff]. *)
Fixpoint time_components (remaining : nat) (first has_sep : bool) (s : pystr) : option (list Z * pystr) :=
  match remaining with
  | O => Some ([], s)
  | S remaining' =>
    v ← parse_digits 2 0 s;
    let rest := drop 2 s in
    let has_sep := if first then char_at rest 0 58 else has_sep in
    if bool_decide (rest = []) || bool_decide (remaining' = O) then Some ([v], rest)
    else if has_sep && negb (char_at rest 0 58) then None
    else '(vs, tail) ← time_components remaining' false has_sep (if has_sep then drop 1 rest else rest);
         Some (v :: vs, tail)
  end.

(** Hours, minutes, seconds and microseconds. *)
Definition parse_hh_mm_ss_ff (s : pystr) : option (Z * Z * Z * Z) :=
  '(vs, rest) ← time_components 3 true false s;
  let comp i := nth i vs 0 in
  micro ← match rest with
          | [] => Some 0
          | mark :: digits =>
            if negb ((mark =? 46) || (mark =? 44)) then None
            else
              let n := Nat.min 6 (length digits) in
              v ← parse_digits n 0 digits;
              if forallb is_digit (drop n digits) then Some (v * 10 ^ (6 - Z.of_nat n)) else None
          end;
  Some (comp 0%nat, comp 1%nat, comp 2%nat, micro).

Definition time_us (t : Z * Z * Z * Z) : Z :=
  let '(h, m, s, us) := t in ((h * 60 + m) * 60 + s) * 1000000 + us.

(** One past the first occurrence of a character. *)
Fixpoint find_after (c : Z) (s : pystr) : option nat :=
  match s with
  | [] => None
  | d :: rest => if d =? c then Some 1%nat else S <$> find_after c rest
  end.

(** [_parse_isoformat_time]: the components and the offset in microseconds;
    [timezone] admits offsets strictly inside one day. *)
Definition parse_isoformat_time (t : pystr) : option (Z * Z * Z * Z * option Z) :=
  if (length t <? 2)%nat then None
  else
    let tz_pos := match find_after 45 t with
                  | Some n => Some n
                  | None => match find_after 43 t with Some n => Some n | None => find_after 90 t end
                  end in
    match tz_pos with
    | None => comps ← parse_hh_mm_ss_ff t; Some (comps, None)
    | Some n =>
      comps ← parse_hh_mm_ss_ff (take (n - 1) t);
      if bool_decide (n = length t) && char_at t (n - 1) 90 then Some (comps, Some 0)
      else
        let tz := drop n t in
        if bool_decide (length tz ∈ [0; 1; 3]%nat) then None
        else
          tz_comps ← parse_hh_mm_ss_ff tz;
          let td := time_us tz_comps in
          let offset := if char_at t (n - 1) 45 then - td else td in
          if (- 86400000000 <? offset) && (offset <? 86400000000) then Some (comps, Some offset) else None
    end.

(** [datetime(year, month, day, hour, minute, second, microsecond, tzinfo)] *)
Definition make_datetime (date : Z * Z * Z) (time : Z * Z * Z * Z) (offset : option Z) : option datetime :=
  let '(year, month, day) := date in
  let '(h, m, s, us) := time in
  if (1 <=? year) && (year <=? 9999) && (1 <=? month) && (month <=? 12)
     && (1 <=? day) && (day <=? days_in_month (is_leap year) month)
     && (0 <=? h) && (h <=? 23) && (0 <=? m) && (m <=? 59) && (0 <=? s) && (s <=? 59)
     && (0 <=? us) && (us <=? 999999)
  then Some (mk_datetime (days_of_civil year month day * 86400000000 + time_us time) offset)
  else None.

Definition fromisoformat (s : pystr) : option datetime :=
  if (length s <? 7)%nat then None
  else
    location ← find_isoformat_datetime_separator s;
    date ← parse_isoformat_date (take location s);
    match drop (location + 1) s with
    | [] => make_datetime date (0, 0, 0, 0) None
    | t => '(time, offset) ← parse_isoformat_time t; make_datetime date time offset
    end.

(** [s.replace("Z", "+00:00")] *)
Definition replace_z (s : pystr) : pystr := mjoin ((fun c => if c =? 90 then py "+00:00" else [c]) <$> s).

(** ** Examples *)

Example fromisoformat_canonical :
  (normalize_utc_datetime <$> fromisoformat (replace_z (py "2026-03-01T07:08:09.000010Z"))) =
  Some (Ok (days_of_civil 2026 3 1 * 86400000000 + 25689000010)).
Proof. vm_compute. reflexivity. Qed.

Example fromisoformat_week : fromisoformat (py "2020-W53-7") = fromisoformat (py "20210103").
Proof. vm_compute. reflexivity. Qed.

Example fromisoformat_offset :
  fromisoformat (py "2026-03-01T07:08:09,5-0130") =
  Some (mk_datetime (days_of_civil 2026 3 1 * 86400000000 + 25689500000) (Some (-5400000000))).
Proof. vm_compute. reflexivity. Qed.

Example fromisoformat_invalid :
  fromisoformat <$> [py "2026-02-29"; py "2026-0101"; py "2026-01-01T24:00"; py "2026-01-01T1"; py "2026-W54"] =
  [None; None; None; None; None].
Proof. vm_compute. reflexivity. Qed.
