(* ===== verification/JsonParse.v ===== *)
(** * JsonParse: strict JSON documents

    [parse_json_strict] of [domain/canonical_json.py], with the parts of the
    language it uses: [bytes.decode("utf-8")], [json.loads] with its hooks,
    [int] and [Decimal] of a numeral.  [json.loads] returns a tree of fresh
    objects; [place] lays it out in the heap [normalize_json_value] walks. *)

From stdpp Require Import base tactics option list gmap strings.
From Stdlib Require Import ZArith Lia Bool.
From S2P Require Import Prelude Identifiers Values CanonicalJson Digest Text IsoFormat.
Open Scope Z_scope.

(** ** [bytes.decode("utf-8")] *)

Definition is_continuation (b : Z) : bool := (0x80 <=? b) && (b <=? 0xBF).

(** [None] is [UnicodeDecodeError]: a stray, missing or overlong sequence, a
    surrogate, or a code point above U+10FFFF. *)
Fixpoint utf8_decode (b : bytes) : option pystr :=
  match b with
  | [] => Some []
  | b0 :: rest =>
    if (0 <=? b0) && (b0 <? 0x80) then cons b0 <$> utf8_decode rest
    else
      match rest with
      | b1 :: rest1 =>
        if negb (is_continuation b1) then None
        else if (0xC2 <=? b0) && (b0 <=? 0xDF) then
          cons ((b0 - 0xC0) * 64 + (b1 - 0x80)) <$> utf8_decode rest1
        else
          match rest1 with
          | b2 :: rest2 =>
            if negb (is_continuation b2) then None
            else if (0xE0 <=? b0) && (b0 <=? 0xEF) then
              let c := (b0 - 0xE0) * 4096 + (b1 - 0x80) * 64 + (b2 - 0x80) in
              if (c <? 0x800) || is_surrogate c then None else cons c <$> utf8_decode rest2
            else
              match rest2 with
              | b3 :: rest3 =>
                let c := (b0 - 0xF0) * 262144 + (b1 - 0x80) * 4096 + (b2 - 0x80) * 64 + (b3 - 0x80) in
                if negb (is_continuation b3) || negb ((0xF0 <=? b0) && (b0 <=? 0xF4))
                   || (c <? 0x10000) || (0x10FFFF <? c)
                then None else cons c <$> utf8_decode rest3
              | [] => None
              end
          | [] => None
          end
      | [] => None
      end
  end.

(** ** [json.loads] *)

Definition JSONDecodeError : exn := ValueError "JSON".
Definition RecursionError : exn := RuntimeError "maximum recursion depth exceeded".

#[local] Unset Elimination Schemes.

(** What the scanner builds: numbers with a fraction or an exponent are
    [Decimal] ([parse_float]), the others [int]. *)
Inductive JsonDoc : Type :=
| DNull
| DBool (b : bool)
| DInt (n : Z)
| DDecimal (d : Decimal)
| DStr (s : pystr)
| DArray (items : list JsonDoc)
| DObject (pairs : list (pystr * JsonDoc)).

#[local] Set Elimination Schemes.

Definition is_json_space (c : Z) : bool := (c =? 32) || (c =? 9) || (c =? 10) || (c =? 13).

Fixpoint skip_space (s : pystr) : pystr :=
  match s with c :: rest => if is_json_space c then skip_space rest else s | [] => [] end.

Definition hex_value (c : Z) : option Z :=
  if is_digit c then Some (c - 48)
  else if (97 <=? c) && (c <=? 102) then Some (c - 87)
  else if (65 <=? c) && (c <=? 70) then Some (c - 55) else None.

Definition hex4 (a b c d : Z) : option Z :=
  a ← hex_value a; b ← hex_value b; c ← hex_value c; d ← hex_value d;
  Some (((a * 16 + b) * 16 + c) * 16 + d).

Definition escape_value (c : Z) : option Z :=
  if (c =? 34) || (c =? 92) || (c =? 47) then Some c
  else if c =? 98 then Some 8 else if c =? 102 then Some 12 else if c =? 110 then Some 10
  else if c =? 114 then Some 13 else if c =? 116 then Some 9 else None.

Definition is_high (c : Z) : bool := (0xD800 <=? c) && (c <=? 0xDBFF).
Definition is_low (c : Z) : bool := (0xDC00 <=? c) && (c <=? 0xDFFF).
Definition join_surrogates (hi lo : Z) : Z := 0x10000 + (hi - 0xD800) * 0x400 + (lo - 0xDC00).

(** The text up to the closing quote and what follows it; [strict] mode. *)
Fixpoint scan_string (s : pystr) : result (pystr * pystr) :=
  let push c (r : result (pystr * pystr)) := '(text, rest) ← r; Ok (c :: text, rest) in
  match s with
  | [] => Err JSONDecodeError
  | 34 :: rest => Ok ([], rest)
  | 92 :: 117 :: a :: b :: c :: d :: rest =>
    match hex4 a b c d with
    | None => Err JSONDecodeError
    | Some hi =>
      match rest with
      | 92 :: 117 :: a' :: b' :: c' :: d' :: rest' =>
        match (if is_high hi then hex4 a' b' c' d' else None) with
        | Some lo => if is_low lo then push (join_surrogates hi lo) (scan_string rest')
                     else push hi (scan_string rest)
        | None => push hi (scan_string rest)
        end
      | _ => push hi (scan_string rest)
      end
    end
  | 92 :: c :: rest =>
    match escape_value c with Some v => push v (scan_string rest) | None => Err JSONDecodeError end
  | c :: rest =>
    if (c <=? 31) || (c =? 92) then Err JSONDecodeError else push c (scan_string rest)
  end.

(** The longest prefix of digits. *)
Fixpoint span_digits (s : pystr) : pystr * pystr :=
  match s with
  | c :: rest => if is_digit c then let '(ds, r) := span_digits rest in (c :: ds, r) else ([], s)
  | [] => ([], [])
  end.

(** A numeral: its sign, integer digits, optional fraction digits and optional
    exponent. *)
Record numeral : Type := {
  nm_negative : bool;
  nm_integer : pystr;
  nm_fraction : option pystr;
  nm_exponent : option Z
}.

(** [_match_number]: an [e] without digits after it ends the numeral. *)
Definition match_number (s : pystr) : option (numeral * pystr) :=
  let '(negative, s) := match s with 45 :: rest => (true, rest) | _ => (false, s) end in
  '(digits, s) ← match s with
                 | 48 :: rest => Some ([48], rest)
                 | c :: _ => if is_digit c then Some (span_digits s) else None
                 | [] => None
                 end;
  let '(fraction, s) :=
    match s with
    | 46 :: rest => match span_digits rest with
                    | ([], _) => (None, s)
                    | (ds, rest') => (Some ds, rest')
                    end
    | _ => (None, s)
    end in
  let '(exponent, s) :=
    match s with
    | e :: rest =>
      if (e =? 101) || (e =? 69) then
        let '(sign, rest) := match rest with
                             | 45 :: r => (-1, r) | 43 :: r => (1, r) | _ => (1, rest)
                             end in
        match span_digits rest with
        | ([], _) => (None, s)
        | (ds, rest') => (Some (sign * digits_value ds), rest')
        end
      else (None, s)
    | [] => (None, s)
    end in
  Some ({| nm_negative := negative; nm_integer := digits; nm_fraction := fraction; nm_exponent := exponent |}, s).

Definition INT_MAX_STR_DIGITS : nat := 4300.
Definition MAX_EMAX : Z := 999999999999999999.
Definition MIN_ETINY : Z := -1999999999999999997.

(** [int(text)] has a limit on the digits it reads; [Decimal(text)] is exact
    and signals [InvalidOperation] outside the exponents the type can hold. *)
Definition number_value (n : numeral) : result JsonDoc :=
  match nm_fraction n, nm_exponent n with
  | None, None =>
    raise_if (INT_MAX_STR_DIGITS <? length (nm_integer n))%nat (ValueError "int");;
    Ok (DInt (signed (nm_negative n) (digits_value (nm_integer n))))
  | fraction, exponent =>
    let frac := default [] fraction in
    let c := digits_value (nm_integer n ++ frac) in
    let e := default 0 exponent - Z.of_nat (length frac) in
    let digits := if c =? 0 then 1 else coefficient_digits c in
    raise_if ((MAX_EMAX <? e + digits - 1) || (e <? MIN_ETINY)) InvalidOperation;;
    Ok (DDecimal (Finite (nm_negative n) c e))
  end.

Fixpoint strip_prefix (p s : pystr) : option pystr :=
  match p, s with
  | [], _ => Some s
  | a :: p', b :: s' => if a =? b then strip_prefix p' s' else None
  | _, [] => None
  end.

(** The [object_pairs_hook] of [parse_json_strict]. *)
Definition unique_object (pairs : list (pystr * JsonDoc)) : result JsonDoc :=
  raise_if (negb (nodupb pairs.*1)) (CanonicalJsonError "JSON object names must be unique");;
  Ok (DObject pairs).

Section Containers.
Variable scan : pystr -> result (JsonDoc * pystr).

(** The members after the opening brace.  Each round consumes a character, so
    the length of the text is fuel enough. *)
Fixpoint scan_members (fuel : nat) (s : pystr) (acc : list (pystr * JsonDoc)) : result (JsonDoc * pystr) :=
  match fuel, s with
  | S fuel', 34 :: rest =>
    '(key, s1) ← scan_string rest;
    match skip_space s1 with
    | 58 :: s2 =>
      '(value, s3) ← scan (skip_space s2);
      let acc' := acc ++ [(key, value)] in
      match skip_space s3 with
      | 44 :: s4 => scan_members fuel' (skip_space s4) acc'
      | 125 :: s4 => obj ← unique_object acc'; Ok (obj, s4)
      | _ => Err JSONDecodeError
      end
    | _ => Err JSONDecodeError
    end
  | _, _ => Err JSONDecodeError
  end.

(** The elements after the opening bracket. *)
Fixpoint scan_elements (fuel : nat) (s : pystr) (acc : list JsonDoc) : result (JsonDoc * pystr) :=
  match fuel with
  | S fuel' =>
    '(value, s1) ← scan s;
    match skip_space s1 with
    | 44 :: s2 => scan_elements fuel' (skip_space s2) (acc ++ [value])
    | 93 :: s2 => Ok (DArray (acc ++ [value]), s2)
    | _ => Err JSONDecodeError
    end
  | O => Err JSONDecodeError
  end.
End Containers.

(** A literal name, a constant passed to [parse_constant], or a number. *)
Definition scan_atom (s : pystr) : result (JsonDoc * pystr) :=
  match strip_prefix (py "null") s, strip_prefix (py "true") s, strip_prefix (py "false") s with
  | Some tail, _, _ => Ok (DNull, tail)
  | _, Some tail, _ => Ok (DBool true, tail)
  | _, _, Some tail => Ok (DBool false, tail)
  | None, None, None =>
    match strip_prefix (py "NaN") s, strip_prefix (py "Infinity") s, strip_prefix (py "-Infinity") s with
    | None, None, None =>
      '(n, tail) ← from_option_or (match_number s) JSONDecodeError;
      v ← number_value n;
      Ok (v, tail)
    | _, _, _ => Err (CanonicalJsonError "JSON numbers must be finite")
    end
  end.

(** [scan_once]; [depth] is the nesting the interpreter's stack still admits. *)
Fixpoint scan_once (depth : nat) (s : pystr) : result (JsonDoc * pystr) :=
  match s with
  | [] => Err JSONDecodeError
  | 34 :: rest => '(text, tail) ← scan_string rest; Ok (DStr text, tail)
  | 123 :: rest =>
    match depth with
    | O => Err RecursionError
    | S depth' =>
      match skip_space rest with
      | 125 :: tail => obj ← unique_object []; Ok (obj, tail)
      | s1 => scan_members (scan_once depth') (length s) s1 []
      end
    end
  | 91 :: rest =>
    match depth with
    | O => Err RecursionError
    | S depth' =>
      match skip_space rest with
      | 93 :: tail => Ok (DArray [], tail)
      | s1 => scan_elements (scan_once depth') (length s) s1 []
      end
    end
  | _ => scan_atom s
  end.

(** The resources of the interpreter: the nesting its stack admits and the
    digits of the integers it can allocate. *)
Class Interpreter : Type := {
  recursion_limit : nat;
  integer_digits : Z
}.

#[export] Instance interpreter_memory `{Interpreter} : DecimalMemory := integer_digits.

Definition json_loads `{Interpreter} (s : pystr) : result JsonDoc :=
  raise_if (bool_decide (head s = Some 0xFEFF)) JSONDecodeError;;
  '(value, tail) ← scan_once recursion_limit (skip_space s);
  raise_if (negb (bool_decide (skip_space tail = []))) JSONDecodeError;;
  Ok value.

(** ** The parsed objects in memory *)

(** A loop that allocates: the next free identity and the heap are threaded. *)
Section Thread.
Context {A B : Type} (f : A -> Z -> pyheap -> B * Z * pyheap).

Fixpoint thread (l : list A) (next : Z) (h : pyheap) : list B * Z * pyheap :=
  match l with
  | [] => ([], next, h)
  | x :: rest =>
    let '(v, n1, h1) := f x next h in
    let '(vs, n2, h2) := thread rest n1 h1 in (v :: vs, n2, h2)
  end.
End Thread.

(** Every container of a parsed document is a fresh object. *)
Fixpoint place (d : JsonDoc) (next : Z) (h : pyheap) : pyval * Z * pyheap :=
  match d with
  | DNull => (PNone, next, h)
  | DBool b => (PBool b, next, h)
  | DInt n => (PInt n, next, h)
  | DDecimal x => (PDecimal x, next, h)
  | DStr s => (PStr s, next, h)
  | DArray items =>
    let '(vs, n, h') := thread place items (next + 1) h in (PRef next, n, <[next := CSequence vs]> h')
  | DObject pairs =>
    let '(vs, n, h') :=
      thread (fun '(k, x) n h => let '(v, n', h') := place x n h in ((PStr k, v), n', h')) pairs (next + 1) h in
    (PRef next, n, <[next := CMapping vs]> h')
  end.

(** [except CanonicalJsonError: raise] then
    [except (JSONDecodeError, RecursionError, UnicodeError, ValueError)]. *)
Definition invalid_json (e : exn) : exn :=
  match e with
  | CanonicalJsonError _ => e
  | _ => if is_value_error e || bool_decide (e = RecursionError)
         then CanonicalJsonError "JSON input is invalid" else e
  end.

Definition parse_json_source `{Interpreter} (source : pystr) : result JsonValue :=
  parsed ← match json_loads source with Ok d => Ok d | Err e => Err (invalid_json e) end;
  let '(value, _, h) := place parsed 0 ∅ in
  normalize_json_value h MAX_CANONICAL_JSON_DEPTH value.

Definition parse_json_strict `{Interpreter} (document : bytes) : result JsonValue :=
  source ← from_option_or (utf8_decode document) (CanonicalJsonError "JSON input must be valid UTF-8");
  parse_json_source source.

(** Every number of a document that [int] has to write out fits in memory. *)
Definition decimal_fits (memory : Z) (d : Decimal) : bool :=
  match d with Finite _ c e => negb (decimal_too_large memory c e) | _ => true end.

Fixpoint document_fits (memory : Z) (d : JsonDoc) : bool :=
  match d with
  | DDecimal x => decimal_fits memory x
  | DArray items => forallb (document_fits memory) items
  | DObject pairs => forallb (fun '(_, x) => document_fits memory x) pairs
  | _ => true
  end.

(** ** Failures *)

Definition is_canonical_json_error (e : exn) : Prop := exists m, e = CanonicalJsonError m.

(** What the scanner may raise. *)
Definition scan_error (e : exn) : Prop :=
  e = JSONDecodeError \/ e = ValueError "int" \/ e = RecursionError \/ e = InvalidOperation
  \/ is_canonical_json_error e.

Lemma scan_error_decode : scan_error JSONDecodeError.
Proof. by left. Qed.
Lemma scan_error_recursion : scan_error RecursionError.
Proof. right; right; by left. Qed.
#[local] Hint Resolve scan_error_decode scan_error_recursion : core.

(** [fails P r]: a failure of [r] satisfies [P]. *)
Definition fails {A} (P : exn -> Prop) (r : result A) : Prop := forall e, r = Err e -> P e.

Lemma fails_ok {A} P (a : A) : fails P (Ok a).
Proof. by intros e. Qed.
Lemma fails_err {A} (P : exn -> Prop) e : P e -> fails P (@Err A e).
Proof. intros He e' [= <-]. done. Qed.
Lemma fails_bind {A B} P (r : result A) (f : A -> result B) :
  fails P r -> (forall a, fails P (f a)) -> fails P (r ≫= f).
Proof. intros Hr Hf. destruct r as [a|e]; cbn; [apply Hf|]. apply fails_err, Hr. done. Qed.
Lemma fails_raise_if (P : exn -> Prop) c e : P e -> fails P (raise_if c e).
Proof. intros He. destruct c; [by apply fails_err|apply fails_ok]. Qed.
Lemma fails_from_option {A} (P : exn -> Prop) (o : option A) e : P e -> fails P (from_option_or o e).
Proof. intros He. destruct o; [apply fails_ok|by apply fails_err]. Qed.
#[local] Hint Resolve fails_ok fails_err fails_raise_if fails_from_option : core.

Lemma scan_string_fails s : fails scan_error (scan_string s).
Proof.
  remember (length s) as n eqn:Hn. revert s Hn. induction (lt_wf n) as [n _ IH]. intros s ->.
  assert (Hpush : forall c t, (length t < length s)%nat ->
            fails scan_error ('(text, rest) ← scan_string t; Ok (c :: text, rest))).
  { intros c t Ht. apply fails_bind; [by eapply IH|]. intros []. auto. }
  destruct s as [|c s]; [by apply fails_err|].
  unfold scan_string; fold scan_string. cbv zeta.
  repeat case_match; subst; try (by auto); apply Hpush; cbn; lia.
Qed.

Lemma number_value_fails n : fails scan_error (number_value n).
Proof.
  unfold number_value.
  assert (Hi : scan_error InvalidOperation) by (right; right; right; by left).
  assert (Hv : scan_error (ValueError "int")) by (right; by left).
  repeat case_match; apply fails_bind; auto.
Qed.

Lemma scan_atom_fails s : fails scan_error (scan_atom s).
Proof.
  unfold scan_atom.
  assert (Hc : scan_error (CanonicalJsonError "JSON numbers must be finite")) by (do 4 right; by eexists).
  repeat case_match; auto. apply fails_bind; [auto|]. intros [n tail].
  apply fails_bind; [apply number_value_fails|auto].
Qed.

Lemma unique_object_fails pairs : fails scan_error (unique_object pairs).
Proof.
  apply fails_bind; [|auto]. apply fails_raise_if. do 4 right. by eexists.
Qed.
#[local] Hint Resolve scan_string_fails scan_atom_fails unique_object_fails : core.

Lemma scan_once_fails depth s : fails scan_error (scan_once depth s).
Proof.
  revert s. induction depth as [|depth IH]; intros s; destruct s as [|c rest]; [by apply fails_err| |by apply fails_err|];
    cbn [scan_once].
  - repeat case_match; subst; auto; apply fails_bind; auto; intros []; auto.
  - assert (Hm : forall fuel t acc, fails scan_error (scan_members (scan_once depth) fuel t acc)).
    { induction fuel as [|fuel IHf]; intros t acc; cbn [scan_members]; [by auto|].
      repeat case_match; subst; auto. apply fails_bind; [auto|]. intros [key s1].
      repeat case_match; subst; auto. apply fails_bind; [auto|]. intros [value s3].
      repeat case_match; subst; auto. apply fails_bind; auto. }
    assert (He : forall fuel t acc, fails scan_error (scan_elements (scan_once depth) fuel t acc)).
    { induction fuel as [|fuel IHf]; intros t acc; cbn [scan_elements]; [by auto|].
      apply fails_bind; [auto|]. intros [value s1]. repeat case_match; subst; auto. }
    repeat case_match; subst; auto; apply fails_bind; auto; intros []; auto.
Qed.

(** The values a parsed document consists of; [Q] is what its decimals
    satisfy. *)
Section ParsedValues.
Context (Q : Decimal -> Prop).

Definition parsed_value (v : pyval) : Prop :=
  match v with
  | PNone | PBool _ | PStr _ | PInt _ | PRef _ => True
  | PDecimal d => Q d
  | _ => False
  end.

Definition parsed_container (c : pycontainer) : Prop :=
  match c with
  | CMapping items => Forall (fun kv => parsed_value kv.2) items
  | CSequence items => Forall parsed_value items
  end.

Definition parsed_heap (h : pyheap) : Prop := map_Forall (fun _ => parsed_container) h.

(** The decimals of a document. *)
Inductive has_decimal (x : Decimal) : JsonDoc -> Prop :=
| has_here : has_decimal x (DDecimal x)
| has_element items d : d ∈ items -> has_decimal x d -> has_decimal x (DArray items)
| has_value pairs k d : (k, d) ∈ pairs -> has_decimal x d -> has_decimal x (DObject pairs).

Lemma thread_parsed {A B} (f : A -> Z -> pyheap -> B * Z * pyheap) (P : B -> Prop) l next h vs n h' :
  (forall x next h v n h', x ∈ l -> f x next h = (v, n, h') -> parsed_heap h -> P v /\ parsed_heap h') ->
  thread f l next h = (vs, n, h') -> parsed_heap h -> Forall P vs /\ parsed_heap h'.
Proof.
  revert next h vs n h'. induction l as [|x l IH]; intros next h vs n h' Hf Ht Hh; cbn in Ht; [by simplify_eq|].
  destruct (f x next h) as [[v n1] h1] eqn:Hx. destruct (thread f l n1 h1) as [[vs' n2] h2] eqn:Hl. simplify_eq.
  apply Hf in Hx as [Hv Hh1]; [|by left|done].
  apply IH in Hl as [Hvs Hh2]; [|intros; eapply Hf; [by right|done..]|done]. by auto.
Qed.

Lemma place_parsed d next h v n h' :
  (forall x, has_decimal x d -> Q x) ->
  place d next h = (v, n, h') -> parsed_heap h -> parsed_value v /\ parsed_heap h'.
Proof.
  revert d next h v n h'. fix IH 1. intros d next h v n h' Hq Hp Hh. destruct d as [| | |x| |items|pairs];
    cbn [place] in Hp; try (simplify_eq; by split).
  - simplify_eq. split; [|done]. apply Hq. constructor.
  - destruct (thread place items (next + 1) h) as [[vs n1] h1] eqn:Ht. simplify_eq.
    assert (Hf : Forall (fun x => forall next h v n h', (forall y, has_decimal y x -> Q y) ->
                           place x next h = (v, n, h') -> parsed_heap h ->
                           parsed_value v /\ parsed_heap h') items)
      by (clear -IH; induction items; constructor; [apply IH|assumption]).
    rewrite Forall_forall in Hf.
    apply (thread_parsed _ parsed_value) in Ht as [Hvs Hh1]; [| |done].
    + split; [done|]. by apply map_Forall_insert_2.
    + intros; eapply Hf; [done| |done..]. intros. by eapply Hq, has_element.
  - match type of Hp with context [thread ?f] => destruct (thread f pairs (next + 1) h) as [[vs n1] h1] eqn:Ht end.
    simplify_eq.
    assert (Hf : Forall (fun kx : pystr * JsonDoc => forall next h v n h', (forall y, has_decimal y kx.2 -> Q y) ->
                           place kx.2 next h = (v, n, h') ->
                           parsed_heap h -> parsed_value v /\ parsed_heap h') pairs)
      by (clear -IH; induction pairs as [|[k x] pairs IHl]; constructor; [apply IH|assumption]).
    rewrite Forall_forall in Hf.
    apply (thread_parsed _ (fun kv => parsed_value kv.2)) in Ht as [Hvs Hh1]; [| |done].
    + split; [done|]. by apply map_Forall_insert_2.
    + intros [k x] n0 h0 kv n2 h2 Hin Hx Hh0. destruct (place x n0 h0) as [[v n3] h3] eqn:Hp. simplify_eq.
      eapply (Hf (k, x)); [done| |done..]. intros. by eapply Hq, has_value.
Qed.
End ParsedValues.

Lemma document_fits_decimal memory d x :
  document_fits memory d = true -> has_decimal x d -> decimal_fits memory x = true.
Proof.
  intros Hd Hx. induction Hx as [|items d Hin _ IH|pairs k d Hin _ IH]; [done| |];
    apply IH; cbn [document_fits] in Hd; rewrite forallb_forall in Hd; apply list_elem_of_In in Hin.
  - by apply Hd.
  - by apply (Hd (k, d)).
Qed.

Lemma canonical_error m : is_canonical_json_error (CanonicalJsonError m).
Proof. by eexists. Qed.
#[local] Hint Resolve canonical_error : core.

Lemma validate_string_fails s : fails is_canonical_json_error (validate_string s).
Proof. apply fails_bind; auto. Qed.
Lemma normalize_integer_fails n : fails is_canonical_json_error (normalize_integer n).
Proof. apply fails_bind; auto. Qed.
Lemma normalize_decimal_fails `{DecimalMemory} d :
  fails (fun e => is_canonical_json_error e \/ e = MemoryError /\ decimal_fits decimal_memory d = false)
        (normalize_decimal d).
Proof.
  unfold normalize_decimal. destruct d as [n c e| |]; auto. cbn [decimal_fits].
  destruct (to_integral c e) as [ci ei] eqn:Hi. case_match.
  - apply fails_bind; [|intros; apply fails_bind; [intros ? ?; left; by eapply normalize_integer_fails|auto]].
    apply fails_bind; [|auto]. intros e' He. right.
    unfold raise_if in He. destruct (decimal_too_large decimal_memory ci ei) eqn:Hl; [|done].
    injection He as <-. split; [done|]. unfold to_integral in Hi. case_match; simplify_eq; [by rewrite Hl|].
    by unfold decimal_too_large in Hl; rewrite andb_false_r in Hl.
  - destruct (round_precision c e). apply fails_bind; auto.
Qed.
#[local] Hint Resolve validate_string_fails normalize_integer_fails : core.

Lemma foldM_fails {S A} P (f : S -> A -> result S) l s :
  (forall s a, a ∈ l -> fails P (f s a)) -> fails P (foldM f s l).
Proof.
  revert s. induction l as [|a l IH]; intros s Hf; cbn; [auto|].
  apply fails_bind; [apply Hf; left|]. intros s'. apply IH. intros ? ? ?. apply Hf. by right.
Qed.

Lemma mapR_fails {A B} P (f : A -> result B) l :
  (forall a, a ∈ l -> fails P (f a)) -> fails P (mapR f l).
Proof.
  induction l as [|a l IH]; intros Hf; cbn; [auto|].
  apply fails_bind; [apply Hf; left|]. intros b.
  apply fails_bind; [apply IH; intros ? ?; apply Hf; by right|auto].
Qed.

Lemma normalize_fails `{DecimalMemory} (Q : Decimal -> Prop) (P : exn -> Prop) h fuel active v :
  (forall e, is_canonical_json_error e -> P e) -> (forall d, Q d -> fails P (normalize_decimal d)) ->
  parsed_heap Q h -> parsed_value Q v -> fails P (normalize h fuel active v).
Proof.
  intros Hc Hq Hh.
  assert (Hs : forall s, fails P (validate_string s)) by (intros s e ?; by eapply Hc, validate_string_fails).
  assert (Hn : forall n, fails P (normalize_integer n)) by (intros n e ?; by eapply Hc, normalize_integer_fails). revert active v. induction fuel as [|fuel IH]; intros active v Hv; cbn [normalize]; [auto|].
  destruct v as [| | | | | | | | | |i|]; try done; cbn [unwrap_enum]; auto;
    try (apply fails_bind; by auto).
  destruct (h !! i) as [[items|items]|] eqn:Hi; [| |auto]; apply Hh in Hi; cbn in Hi;
    (apply fails_bind; [by auto|]; intros []; apply fails_bind; [|by auto]).
  - apply foldM_fails. intros acc [key child] Hin. apply fails_bind; [auto|]. intros name.
    apply fails_bind; [|intros; apply fails_bind; auto]. apply IH.
    rewrite Forall_forall in Hi. by apply (Hi _ Hin).
  - apply mapR_fails. intros x Hin. apply IH. rewrite Forall_forall in Hi. by apply Hi.
Qed.

Lemma parse_json_source_fails `{Interpreter} source :
  fails (fun e => is_canonical_json_error e \/ e = InvalidOperation
                  \/ e = MemoryError /\ exists d, json_loads source = Ok d /\ document_fits integer_digits d = false)
        (parse_json_source source).
Proof.
  unfold parse_json_source. destruct (json_loads source) as [d|e] eqn:Hl; cbn [mbind result_bind].
  - destruct (place d 0 ∅) as [[v n] h] eqn:Hp. destruct (document_fits integer_digits d) eqn:Hd.
    + apply (place_parsed (fun x => decimal_fits decimal_memory x = true)) in Hp as [Hv Hh];
        [|intros; by eapply document_fits_decimal|apply map_Forall_empty].
      intros e He. left. eapply normalize_fails; [done| |exact Hh|exact Hv|exact He].
      intros x Hx e' He'. apply normalize_decimal_fails in He' as [|[_ Hf]]; [done|congruence].
    + apply (place_parsed (fun _ => True)) in Hp as [Hv Hh]; [|done|apply map_Forall_empty].
      eapply normalize_fails; [by left| |exact Hh|exact Hv].
      intros x _ e' He'. apply normalize_decimal_fails in He' as [|[-> _]]; [by left|]. right; right. eauto.
  - apply fails_err.
    assert (Hs : scan_error e).
    { revert e Hl. apply fails_bind; [auto|]. intros [].
      apply fails_bind; [apply scan_once_fails|]. intros [value tail]. apply fails_bind; auto. }
    destruct Hs as [->|[->|[->|[->|[m ->]]]]]; unfold invalid_json; cbn [is_value_error orb JSONDecodeError];
      [by eauto..| | |by eauto].
    + rewrite bool_decide_true by done. left. by eexists.
    + rewrite bool_decide_false by done. right. by left.
Qed.

(** ** Properties *)


#[local] Instance sample_interpreter : Interpreter :=
  {| recursion_limit := 200; integer_digits := ADDRESS_SPACE_DIGITS |}.

(** JSON text with apostrophes for quotation marks. *)
Definition quoted (s : string) : pystr := (fun c => if c =? 39 then 34 else c) <$> py s.

Example parse_object :
  parse_json_strict (quoted "{ 'k' : [1, -20, true], 's': 'a\u0041\n', 'f':0.5, 'g':2e2 }"%string) =
  Ok (JObject [(py "k", JArray [JInt 1; JInt (-20); JBool true]); (py "s", JStr [97; 65; 10]);
               (py "f", JFloat (float_of_decimal false 5 (-1))); (py "g", JInt 200)]).
Proof. vm_compute. reflexivity. Qed.

Example parse_rejections :
  (fun s => match parse_json_strict (quoted s) with Ok _ => EmptyString | Err (CanonicalJsonError m) => m | Err _ => "other" end)
    <$> ["{'a':1,'a':1}"; "[1,]"; "NaN"; "9007199254740992"; "'\ud800'"; "0.1000000000000000055511151231257827"]%string =
  ["JSON object names must be unique"; "JSON input is invalid"; "JSON numbers must be finite";
   "integer is outside the I-JSON interoperable range"; "JSON strings cannot contain lone surrogate code points";
   "decimal cannot be represented as an interoperable JSON number"]%string.
Proof. vm_compute. reflexivity. Qed.

(** An exponent no [Decimal] can hold escapes as [decimal.InvalidOperation]. *)
Example parse_huge_exponent : parse_json_strict (py "1e1000000000000000000") = Err InvalidOperation.
Proof. vm_compute. reflexivity. Qed.

(** One that it can hold, but whose integer no memory does, escapes as
    [MemoryError]. *)
Example parse_huge_integer : parse_json_strict (py "[1e999999999999999999]") = Err MemoryError.
Proof. vm_compute. reflexivity. Qed.

Example parse_huge_zero : parse_json_strict (py "0e999999999999999999") = Ok (JInt 0).
Proof. vm_compute. reflexivity. Qed.
