(* ===== verification/Archive.v ===== *)
(** * Archive: manifests of recovery archives

    Models [archive/models.py]: the closed path layout, the identities a
    manifest lists, the manifest with its validation, its JSON value and
    canonical bytes, reading it back, and [build_manifest].  A constructor that
    validates ([__post_init__]) is a check on the record; the [bool] exclusions
    of the source are the integer type. *)

From stdpp Require Import base tactics option list gmap strings.
From Stdlib Require Import ZArith Lia Bool.
From S2P Require Import Prelude Identifiers Values CanonicalJson Digest Text Regex IsoFormat.
Open Scope Z_scope.

(** ** Constants and patterns *)

Definition ARCHIVE_FORMAT : pystr := py "scalevault-archive-v1".
Definition MANIFEST_SCHEMA_VERSION : Z := 2.
Definition MANIFEST_PATH : pystr := py "manifest.json".
Definition MAX_ARCHIVE_FILES : Z := 100000.
Definition MAX_ARCHIVE_FILE_SIZE : Z := 512 * 1024 * 1024.
Definition MAX_ARCHIVE_TOTAL_SIZE : Z := 4 * 1024 * 1024 * 1024.
Definition MAX_SNAPSHOT_UNCOMPRESSED_SIZE : Z := 4 * 1024 * 1024 * 1024.

Definition SHA256_RE : regex := rtimes 64 (RSet HEXDIGIT).
Definition VERSION_RE : regex := RSeq (RSet ALNUM) (rupto 63 (RSet (ALNUM ++ one_of "._+-"))).
Definition SCHEMA_ID_RE : regex :=
  RSeq (rlit (py "https://schemas.scalevault.dev/")) (rbetween 1 128 (RSet (ALNUM ++ one_of "._-"))).

Definition UUID_RE : regex :=
  rseqs [rtimes 8 (RSet HEXDIGIT); rlit (py "-"); rtimes 4 (RSet HEXDIGIT); rlit (py "-7");
         rtimes 3 (RSet HEXDIGIT); rlit (py "-"); RSet (one_of "89ab"); rtimes 3 (RSet HEXDIGIT);
         rlit (py "-"); rtimes 12 (RSet HEXDIGIT)].

Definition EVENT_PATH_RE : regex :=
  rseqs [rlit (py "events/"); rtimes 4 (RSet DIGIT); rlit (py "/");
         RAlt (RSeq (rlit (py "0")) (RSet [(49, 57)])) (RSeq (rlit (py "1")) (RSet [(48, 50)]));
         rlit (py "/");
         RAlt (RSeq (rlit (py "0")) (RSet [(49, 57)]))
              (RAlt (RSeq (RSet (one_of "12")) (RSet DIGIT)) (RSeq (rlit (py "3")) (RSet (one_of "01"))));
         rlit (py "/"); rtimes 12 (RSet DIGIT); rlit (py "-"); UUID_RE; rlit (py ".json")].

Definition SNAPSHOT_PATH_RE : regex :=
  rseqs [rlit (py "snapshots/snapshot-"); rtimes 12 (RSet DIGIT); rlit (py ".cbor.zst")].

Definition ARCHIVE_PATHS : list regex :=
  [rlit (py "archive-format.json");
   EVENT_PATH_RE;
   rseqs [rlit (py "projections/"); RSet LOWER; rupto 63 (RSet (LOWER ++ DIGIT ++ one_of "_-"));
          RStar (RSeq (rlit (py "/")) (rbetween 1 128 (RSet (ALNUM ++ one_of "._-")))); rlit (py ".json")];
   rseqs [rlit (py "lineages/"); UUID_RE; rlit (py "/");
          RAlt (rlit (py "lineage.json")) (rseqs [rlit (py "branches/"); UUID_RE; rlit (py ".json")])];
   SNAPSHOT_PATH_RE;
   rseqs [rlit (py "schemas/"); RSet ALNUM; rupto 127 (RSet (ALNUM ++ one_of "._-")); rlit (py ".json")]].

(** ** Paths *)

Fixpoint startswith (prefix s : pystr) : bool :=
  match prefix, s with
  | [], _ => true
  | a :: p, b :: rest => (a =? b) && startswith p rest
  | _, [] => false
  end.

(** [s.removeprefix(prefix)] and [s.removesuffix(suffix)] *)
Definition removeprefix (prefix s : pystr) : pystr :=
  if startswith prefix s then drop (length prefix) s else s.
Definition removesuffix (suffix s : pystr) : pystr :=
  if startswith (rev suffix) (rev s) then take (length s - length suffix) s else s.

(** [s.split(sep)] of one character. *)
Fixpoint split_on (sep : Z) (s : pystr) : list pystr :=
  match s with
  | [] => [[]]
  | c :: rest =>
    if c =? sep then [] :: split_on sep rest
    else match split_on sep rest with p :: ps => (c :: p) :: ps | [] => [[c]] end
  end.

Definition require_sha256 (value : pystr) : result pystr :=
  raise_if (negb (fullmatch SHA256_RE value)) (ArchiveValidationError "must be a lowercase SHA-256 digest");;
  Ok value.

Definition validate_archive_path (path : pystr) : result pystr :=
  raise_if (bool_decide (path = []) || startswith (py "/") path
            || bool_decide (92 ∈ path) || bool_decide (0 ∈ path))
    (ArchiveValidationError "archive path is not a normalized relative POSIX path");;
  raise_if (existsb (fun c => bool_decide (c ∈ [[]; py "."; py ".."])) (split_on 47 path))
    (ArchiveValidationError "archive path contains a forbidden component");;
  raise_if (negb (existsb (fun pattern => fullmatch pattern path) ARCHIVE_PATHS))
    (ArchiveValidationError "archive path is outside the closed layout");;
  Ok path.

(** [int(text)] of a decimal text; the paths it is applied to are validated. *)
Definition int_of_text (s : pystr) : result Z :=
  raise_if (bool_decide (s = []) || negb (forallb is_digit s)) (ValueError "int");;
  Ok (digits_value s).

Definition event_sequence_from_path (path : pystr) : result (option Z) :=
  validate_archive_path path;;
  if negb (startswith (py "events/") path) then Ok None
  else
    let name := List.last (split_on 47 path) [] in
    sequence ← int_of_text (List.hd [] (split_on 45 name));
    raise_if (sequence <? 1) (ArchiveValidationError "event sequence must be positive");;
    Ok (Some sequence).

Definition media_type_for_path (path : pystr) : result pystr :=
  validate_archive_path path;;
  Ok (if startswith (py "schemas/") path then py "application/schema+json"
      else if startswith (py "snapshots/") path then py "application/cbor+zstd"
      else py "application/json").

(** ** Entries of a manifest *)

Record ArchiveFile : Type := {
  af_path : pystr;
  af_sha256 : pystr;
  af_size : Z;
  af_media_type : pystr
}.

#[export] Instance ArchiveFile_eq_dec : EqDecision ArchiveFile.
Proof. solve_decision. Defined.

Definition validate_file (f : ArchiveFile) : result unit :=
  validate_archive_path (af_path f);;
  require_sha256 (af_sha256 f);;
  raise_if (negb ((0 <=? af_size f) && (af_size f <=? MAX_ARCHIVE_FILE_SIZE)))
    (ArchiveValidationError "archive file size is outside the accepted limit");;
  media ← media_type_for_path (af_path f);
  raise_if (negb (bool_decide (af_media_type f = media)))
    (ArchiveValidationError "archive file media type does not match its path").

Record SnapshotReference : Type := {
  sr_path : pystr;
  sr_high_water_sequence : Z;
  sr_uncompressed_size : Z
}.

#[export] Instance SnapshotReference_eq_dec : EqDecision SnapshotReference.
Proof. solve_decision. Defined.

Definition validate_snapshot_reference (r : SnapshotReference) : result unit :=
  validate_archive_path (sr_path r);;
  raise_if (negb (startswith (py "snapshots/") (sr_path r)))
    (ArchiveValidationError "snapshot path is outside the snapshot layout");;
  raise_if (sr_high_water_sequence r <? 0)
    (ArchiveValidationError "snapshot high-water sequence must be non-negative");;
  encoded ← int_of_text (removesuffix (py ".cbor.zst") (removeprefix (py "snapshots/snapshot-") (sr_path r)));
  raise_if (negb (encoded =? sr_high_water_sequence r))
    (ArchiveValidationError "snapshot path and high-water sequence disagree");;
  raise_if (negb ((1 <=? sr_uncompressed_size r) && (sr_uncompressed_size r <=? MAX_SNAPSHOT_UNCOMPRESSED_SIZE)))
    (ArchiveValidationError "snapshot uncompressed size is outside the accepted limit").

Record SchemaIdentity : Type := {
  si_schema_id : pystr;
  si_path : pystr;
  si_sha256 : pystr
}.

#[export] Instance SchemaIdentity_eq_dec : EqDecision SchemaIdentity.
Proof. solve_decision. Defined.

Definition validate_schema_identity (s : SchemaIdentity) : result unit :=
  raise_if (negb (fullmatch SCHEMA_ID_RE (si_schema_id s)))
    (ArchiveValidationError "schema identity is not a ScaleVault schema URI");;
  validate_archive_path (si_path s);;
  raise_if (negb (startswith (py "schemas/") (si_path s)))
    (ArchiveValidationError "schema path is outside the schema layout");;
  require_sha256 (si_sha256 s);;
  Ok tt.

(** ** The manifest *)

(** [git_commit_sha] is [None] in every manifest and not a field. *)
Record ArchiveManifest : Type := {
  am_source_high_water_sequence : Z;
  am_first_event_sequence : Z;
  am_last_event_sequence : Z;
  am_event_count : Z;
  am_previous_manifest_sha256 : option pystr;
  am_files : list ArchiveFile;
  am_schemas : list SchemaIdentity;
  am_exporter_version : pystr;
  am_exported_at : pystr;
  am_snapshot : option SnapshotReference;
  am_postgres_timeline_id : option Z;
  am_archive_format : pystr;
  am_schema_version : Z
}.

#[export] Instance ArchiveManifest_eq_dec : EqDecision ArchiveManifest.
Proof. solve_decision. Defined.

Definition file_leb (a b : ArchiveFile) : bool := str_leb (af_path a) (af_path b).

(** The order of the pairs [(schema_id, path)]. *)
Definition schema_leb (a b : SchemaIdentity) : bool :=
  if bool_decide (si_schema_id a = si_schema_id b) then str_leb (si_path a) (si_path b)
  else str_leb (si_schema_id a) (si_schema_id b).

(** [{item.path: item for item in files}.get(path)]; paths are unique. *)
Definition file_at (files : list ArchiveFile) (path : pystr) : option ArchiveFile :=
  List.find (fun f => bool_decide (af_path f = path)) files.

(** The sequences the event paths encode. *)
Definition event_sequences (files : list ArchiveFile) : result (list Z) :=
  (omap (M := list) id) <$> mapR (fun f => event_sequence_from_path (af_path f)) files.

(** [set(actual) == set(range(first, last + 1))] *)
Definition covers_range (actual : list Z) (first last : Z) : bool :=
  forallb (fun s => (first <=? s) && (s <=? last)) actual
  && forallb (fun s => bool_decide (s ∈ actual)) (seqZ first (last - first + 1)).

Definition validate_sequences (m : ArchiveManifest) : result unit :=
  raise_if (existsb (fun v => v <? 1)
              [am_source_high_water_sequence m; am_first_event_sequence m;
               am_last_event_sequence m; am_event_count m])
    (ArchiveValidationError "must be positive");;
  raise_if (am_last_event_sequence m <? am_first_event_sequence m)
    (ArchiveValidationError "event range is reversed");;
  raise_if (negb (am_event_count m =? am_last_event_sequence m - am_first_event_sequence m + 1))
    (ArchiveValidationError "event count does not match the inclusive event range");;
  raise_if (negb (am_source_high_water_sequence m =? am_last_event_sequence m))
    (ArchiveValidationError "source high-water sequence must equal the final event").

Definition validate_files (m : ArchiveManifest) : result unit :=
  let files := am_files m in
  let count := Z.of_nat (length files) in
  raise_if (negb ((1 <=? count) && (count <=? MAX_ARCHIVE_FILES)))
    (ArchiveValidationError "archive file count is outside the accepted limit");;
  raise_if (negb (bool_decide (sort_by file_leb files = files)))
    (ArchiveValidationError "archive files must be sorted by path");;
  raise_if (negb (nodupb (af_path <$> files)))
    (ArchiveValidationError "archive manifest contains duplicate file paths");;
  raise_if (MAX_ARCHIVE_TOTAL_SIZE <? foldr Z.add 0 (af_size <$> files))
    (ArchiveValidationError "archive batch exceeds the total size limit").

Definition validate_schemas (m : ArchiveManifest) : result unit :=
  let schemas := am_schemas m in
  raise_if (negb (bool_decide (sort_by schema_leb schemas = schemas)))
    (ArchiveValidationError "schema identities must be sorted");;
  raise_if (bool_decide (schemas = []))
    (ArchiveValidationError "archive manifest must identify its checked-in schemas");;
  raise_if (negb (nodupb (si_schema_id <$> schemas)) || negb (nodupb (si_path <$> schemas)))
    (ArchiveValidationError "archive manifest contains duplicate schema identities");;
  raise_if (negb (forallb (fun s => match file_at (am_files m) (si_path s) with
                                    | Some f => bool_decide (af_sha256 f = si_sha256 s)
                                    | None => false
                                    end) schemas))
    (ArchiveValidationError "schema identity is not backed by the same file hash").

Definition validate_snapshot (m : ArchiveManifest) : result unit :=
  match am_snapshot m with
  | None => Ok tt
  | Some r =>
    raise_if (negb (bool_decide (is_Some (file_at (am_files m) (sr_path r)))))
      (ArchiveValidationError "snapshot reference is not present in the file list");;
    raise_if (am_source_high_water_sequence m <? sr_high_water_sequence r)
      (ArchiveValidationError "snapshot is beyond the source high-water sequence")
  end.

Definition validate_exported_at (exported_at : pystr) : result unit :=
  parsed ← from_option_or (fromisoformat (replace_z exported_at))
             (ArchiveValidationError "export timestamp is invalid");
  canonical ← format_utc_datetime parsed;
  raise_if (negb (bool_decide (canonical = exported_at)))
    (ArchiveValidationError "export timestamp is not in canonical UTC form").

(** [ArchiveManifest.__post_init__] *)
Definition validate_manifest (m : ArchiveManifest) : result unit :=
  raise_if (negb (bool_decide (am_archive_format m = ARCHIVE_FORMAT))
            || negb (am_schema_version m =? MANIFEST_SCHEMA_VERSION))
    (ArchiveValidationError "archive format or manifest schema version is unsupported");;
  validate_sequences m;;
  match am_previous_manifest_sha256 m with Some sha => require_sha256 sha;; Ok tt | None => Ok tt end;;
  raise_if (match am_postgres_timeline_id m with
            | Some t => negb ((1 <=? t) && (t <=? 0xFFFFFFFF))
            | None => false
            end)
    (ArchiveValidationError "PostgreSQL timeline ID is invalid");;
  validate_files m;;
  validate_schemas m;;
  validate_snapshot m;;
  actual ← event_sequences (am_files m);
  raise_if (negb (covers_range actual (am_first_event_sequence m) (am_last_event_sequence m)))
    (ArchiveValidationError "event file paths do not exactly cover the manifest range");;
  raise_if (negb (fullmatch VERSION_RE (am_exporter_version m)))
    (ArchiveValidationError "exporter version is invalid");;
  validate_exported_at (am_exported_at m).

(** ** JSON values *)

Definition file_value (f : ArchiveFile) : JsonValue :=
  JObject [(py "path", JStr (af_path f)); (py "sha256", JStr (af_sha256 f));
           (py "size", JInt (af_size f)); (py "media_type", JStr (af_media_type f))].

Definition snapshot_reference_value (r : SnapshotReference) : JsonValue :=
  JObject [(py "path", JStr (sr_path r)); (py "high_water_sequence", JInt (sr_high_water_sequence r));
           (py "uncompressed_size", JInt (sr_uncompressed_size r))].

Definition schema_identity_value (s : SchemaIdentity) : JsonValue :=
  JObject [(py "schema_id", JStr (si_schema_id s)); (py "path", JStr (si_path s));
           (py "sha256", JStr (si_sha256 s))].

Definition manifest_value (m : ArchiveManifest) : JsonValue :=
  JObject [(py "archive_format", JStr (am_archive_format m));
           (py "schema_version", JInt (am_schema_version m));
           (py "source_high_water_sequence", JInt (am_source_high_water_sequence m));
           (py "first_event_sequence", JInt (am_first_event_sequence m));
           (py "last_event_sequence", JInt (am_last_event_sequence m));
           (py "event_count", JInt (am_event_count m));
           (py "previous_manifest_sha256", from_option JStr JNull (am_previous_manifest_sha256 m));
           (py "snapshot", from_option snapshot_reference_value JNull (am_snapshot m));
           (py "files", JArray (file_value <$> am_files m));
           (py "schemas", JArray (schema_identity_value <$> am_schemas m));
           (py "exporter_version", JStr (am_exporter_version m));
           (py "exported_at", JStr (am_exported_at m));
           (py "postgres_timeline_id", from_option JInt JNull (am_postgres_timeline_id m));
           (py "git_commit_sha", JNull)].

Definition manifest_bytes `{Rfc8785} (m : ArchiveManifest) : result bytes :=
  canonical_plain_bytes (manifest_value m).

Definition manifest_sha256 `{Rfc8785} (m : ArchiveManifest) : result pystr :=
  sha256_hex <$> manifest_bytes m.

(** ** Reading values *)

Definition object_keys (l : list (pystr * JsonValue)) : list pystr := l.*1.

(** [_strict_mapping]: an object with exactly the given names. *)
Definition strict_mapping (value : JsonValue) (fields : list pystr) : result (list (pystr * JsonValue)) :=
  match value with
  | JObject l =>
    raise_if (negb (forallb (fun k => bool_decide (k ∈ fields)) (object_keys l)
                    && forallb (fun k => bool_decide (k ∈ object_keys l)) fields))
      (ArchiveValidationError "fields are incomplete or unknown");;
    Ok l
  | _ => Err (ArchiveValidationError "must be an object")
  end.

(** [item[name]] *)
Fixpoint item_at (name : pystr) (l : list (pystr * JsonValue)) : result JsonValue :=
  match l with
  | [] => Err KeyError
  | (k, v) :: rest => if bool_decide (k = name) then Ok v else item_at name rest
  end.

Definition as_string (value : JsonValue) : result pystr :=
  match value with JStr s => Ok s | _ => Err (ArchiveValidationError "must be a string") end.

Definition as_integer (value : JsonValue) : result Z :=
  match value with JInt n => Ok n | _ => Err (ArchiveValidationError "must be an integer") end.

Definition as_sequence (value : JsonValue) : result (list JsonValue) :=
  match value with JArray l => Ok l | _ => Err (ArchiveValidationError "must be an array") end.

Definition string_at (name : pystr) (l : list (pystr * JsonValue)) : result pystr :=
  v ← item_at name l; as_string v.
Definition integer_at (name : pystr) (l : list (pystr * JsonValue)) : result Z :=
  v ← item_at name l; as_integer v.

(** [cls(...)]: the record, validated. *)
Definition construct {A} (validate : A -> result unit) (a : A) : result A := validate a;; Ok a.

Definition file_from_value (value : JsonValue) : result ArchiveFile :=
  item ← strict_mapping value [py "path"; py "sha256"; py "size"; py "media_type"];
  path ← string_at (py "path") item;
  sha256 ← string_at (py "sha256") item;
  size ← integer_at (py "size") item;
  media_type ← string_at (py "media_type") item;
  construct validate_file
    {| af_path := path; af_sha256 := sha256; af_size := size; af_media_type := media_type |}.

Definition snapshot_reference_from_value (value : JsonValue) : result SnapshotReference :=
  item ← strict_mapping value [py "path"; py "high_water_sequence"; py "uncompressed_size"];
  path ← string_at (py "path") item;
  high_water_sequence ← integer_at (py "high_water_sequence") item;
  uncompressed_size ← integer_at (py "uncompressed_size") item;
  construct validate_snapshot_reference
    {| sr_path := path; sr_high_water_sequence := high_water_sequence;
       sr_uncompressed_size := uncompressed_size |}.

Definition schema_identity_from_value (value : JsonValue) : result SchemaIdentity :=
  item ← strict_mapping value [py "schema_id"; py "path"; py "sha256"];
  schema_id ← string_at (py "schema_id") item;
  path ← string_at (py "path") item;
  sha256 ← string_at (py "sha256") item;
  construct validate_schema_identity {| si_schema_id := schema_id; si_path := path; si_sha256 := sha256 |}.

Definition MANIFEST_FIELDS : list pystr :=
  [py "archive_format"; py "schema_version"; py "source_high_water_sequence"; py "first_event_sequence";
   py "last_event_sequence"; py "event_count"; py "previous_manifest_sha256"; py "snapshot"; py "files";
   py "schemas"; py "exporter_version"; py "exported_at"; py "postgres_timeline_id"; py "git_commit_sha"].

Definition manifest_from_value (value : JsonValue) : result ArchiveManifest :=
  item ← strict_mapping value MANIFEST_FIELDS;
  files ← item_at (py "files") item ≫= as_sequence;
  schemas ← item_at (py "schemas") item ≫= as_sequence;
  previous ← item_at (py "previous_manifest_sha256") item;
  previous_manifest_sha256 ←
    match previous with
    | JNull => Ok None
    | JStr s => Ok (Some s)
    | _ => Err (ArchiveValidationError "previous manifest sha256 must be a string or null")
    end;
  snapshot ← item_at (py "snapshot") item;
  timeline ← item_at (py "postgres_timeline_id") item;
  postgres_timeline_id ←
    match timeline with
    | JNull => Ok None
    | JInt n => Ok (Some n)
    | _ => Err (ArchiveValidationError "PostgreSQL timeline ID must be an integer or null")
    end;
  git_commit_sha ← item_at (py "git_commit_sha") item;
  raise_if (negb (bool_decide (git_commit_sha = JNull))) (ArchiveValidationError "git commit sha must be null");;
  archive_format ← string_at (py "archive_format") item;
  schema_version ← integer_at (py "schema_version") item;
  source_high_water_sequence ← integer_at (py "source_high_water_sequence") item;
  first_event_sequence ← integer_at (py "first_event_sequence") item;
  last_event_sequence ← integer_at (py "last_event_sequence") item;
  event_count ← integer_at (py "event_count") item;
  snapshot' ← match snapshot with
              | JNull => Ok None
              | v => Some <$> snapshot_reference_from_value v
              end;
  files' ← mapR file_from_value files;
  schemas' ← mapR schema_identity_from_value schemas;
  exporter_version ← string_at (py "exporter_version") item;
  exported_at ← string_at (py "exported_at") item;
  construct validate_manifest
    {| am_source_high_water_sequence := source_high_water_sequence;
       am_first_event_sequence := first_event_sequence;
       am_last_event_sequence := last_event_sequence;
       am_event_count := event_count;
       am_previous_manifest_sha256 := previous_manifest_sha256;
       am_files := files'; am_schemas := schemas';
       am_exporter_version := exporter_version; am_exported_at := exported_at;
       am_snapshot := snapshot'; am_postgres_timeline_id := postgres_timeline_id;
       am_archive_format := archive_format; am_schema_version := schema_version |}.

(** ** Building *)

(** [f"{n:012d}"] *)
Definition zfill (width : nat) (s : pystr) : pystr := replicate (width - length s) 48 ++ s.
Definition format_012d (n : Z) : pystr :=
  if n <? 0 then 45 :: zfill 11 (int_str (- n)) else zfill 12 (int_str n).

Definition snapshot_path (sequence : Z) : pystr :=
  py "snapshots/snapshot-" ++ format_012d sequence ++ py ".cbor.zst".

Definition item_leb {V} (a b : pystr * V) : bool := str_leb a.1 b.1.

Definition build_manifest (files : gmap pystr bytes) (first_event_sequence last_event_sequence : Z)
    (previous_manifest_sha256 : option pystr) (schema_ids : gmap pystr pystr) (exporter_version : pystr)
    (exported_at : datetime) (snapshot_high_water_sequence snapshot_uncompressed_size : option Z)
    (postgres_timeline_id : option Z) : result ArchiveManifest :=
  records ← mapR (fun '(path, content) =>
                    media_type ← media_type_for_path path;
                    construct validate_file
                      {| af_path := path; af_sha256 := sha256_hex content;
                         af_size := Z.of_nat (length content); af_media_type := media_type |})
                 (sort_by item_leb (map_to_list files));
  schemas ← mapR (fun '(schema_id, f) =>
                    construct validate_schema_identity
                      {| si_schema_id := schema_id; si_path := af_path f; si_sha256 := af_sha256 f |})
                 (omap (fun '(schema_id, path) => pair schema_id <$> file_at records path)
                       (map_to_list schema_ids));
  raise_if (negb (bool_decide (length schemas = size schema_ids)))
    (ArchiveValidationError "schema identity references a missing archive file");;
  snapshot ← match snapshot_high_water_sequence, snapshot_uncompressed_size with
             | None, None => Ok None
             | Some sequence, Some uncompressed =>
               Some <$> construct validate_snapshot_reference
                          {| sr_path := snapshot_path sequence; sr_high_water_sequence := sequence;
                             sr_uncompressed_size := uncompressed |}
             | _, _ => Err (ArchiveValidationError "snapshot metadata must be supplied together")
             end;
  exported ← format_utc_datetime exported_at;
  construct validate_manifest
    {| am_source_high_water_sequence := last_event_sequence;
       am_first_event_sequence := first_event_sequence;
       am_last_event_sequence := last_event_sequence;
       am_event_count := last_event_sequence - first_event_sequence + 1;
       am_previous_manifest_sha256 := previous_manifest_sha256;
       am_files := records; am_schemas := sort_by schema_leb schemas;
       am_exporter_version := exporter_version; am_exported_at := exported;
       am_snapshot := snapshot; am_postgres_timeline_id := postgres_timeline_id;
       am_archive_format := ARCHIVE_FORMAT; am_schema_version := MANIFEST_SCHEMA_VERSION |}.

(** ** Validity *)

(** Every entry of a manifest was validated when it was constructed. *)
Definition manifest_valid (m : ArchiveManifest) : Prop :=
  Forall (fun f => validate_file f = Ok tt) (am_files m) /\
  Forall (fun s => validate_schema_identity s = Ok tt) (am_schemas m) /\
  (forall r, am_snapshot m = Some r -> validate_snapshot_reference r = Ok tt) /\
  validate_manifest m = Ok tt.

Lemma construct_Ok {A} (validate : A -> result unit) a b :
  construct validate a = Ok b <-> b = a /\ validate a = Ok tt.
Proof.
  unfold construct. destruct (validate a) as [[]|]; cbn; naive_solver.
Qed.
