(* ===== verification/Snapshot.v ===== *)
(** * Snapshot: the deterministic snapshot codec

    Models [archive/codec.py].  The CBOR and Zstandard libraries are
    parameters.  A decoded object is given as the tree its visit unfolds: a
    reference back to a container that is still being visited is the leaf
    [CCycle]. *)

From stdpp Require Import base tactics option list gmap strings.
From Stdlib Require Import ZArith Lia Bool.
From S2P Require Import Prelude Identifiers Values CanonicalJson Digest.
Open Scope Z_scope.

(** ** Values *)

#[local] Unset Elimination Schemes.

(** What [_validate_cbor_value] distinguishes; tuples and lists are arrays. *)
Inductive Cbor : Type :=
| CNull
| CBool (b : bool)
| CInt (n : Z)
| CText (s : pystr)
| CBytes (b : bytes)
| CMap (items : list (Cbor * Cbor))
| CArray (items : list Cbor)
| CCycle (mapping : bool)
| CUnsupported.

#[local] Set Elimination Schemes.

#[export] Instance Cbor_eq_dec : EqDecision Cbor.
Proof.
  unfold EqDecision. fix go 1. intros x y.
  destruct x as [| | | | |l|l| |], y as [| | | | |l'|l'| |]; try (right; discriminate); try (by left).
  - destruct (decide (b = b0)); [left|right]; congruence.
  - destruct (decide (n = n0)); [left|right]; congruence.
  - destruct (decide (s = s0)); [left|right]; congruence.
  - destruct (decide (b = b0)); [left|right]; congruence.
  - destruct (@list_eq_dec _ (@prod_eq_dec _ go _ go) l l'); [left|right]; congruence.
  - destruct (@list_eq_dec _ go l l'); [left|right]; congruence.
  - destruct (decide (mapping = mapping0)); [left|right]; congruence.
Defined.

(** ** Limits *)

Definition SNAPSHOT_FORMAT : pystr := py "scalevault-snapshot-v1".
Definition MAX_CBOR_DEPTH : Z := 64.
Definition MAX_CBOR_ITEMS : Z := 1000000.
Definition DEFAULT_MAX_COMPRESSED_SIZE : Z := 64 * 1024 * 1024.
Definition DEFAULT_MAX_DECOMPRESSED_SIZE : Z := 512 * 1024 * 1024.
Definition MAX_INT : Z := Z.shiftl 1 63 - 1.
Definition MIN_INT : Z := - Z.shiftl 1 63.

Record SnapshotLimits : Type := {
  max_compressed_size : Z;
  max_decompressed_size : Z;
  max_depth : Z;
  max_items : Z
}.

Definition default_limits : SnapshotLimits := {|
  max_compressed_size := DEFAULT_MAX_COMPRESSED_SIZE;
  max_decompressed_size := DEFAULT_MAX_DECOMPRESSED_SIZE;
  max_depth := MAX_CBOR_DEPTH;
  max_items := MAX_CBOR_ITEMS
|}.

Definition validate_limits (l : SnapshotLimits) : result unit :=
  raise_if (existsb (fun v => v <? 1) [max_compressed_size l; max_decompressed_size l; max_depth l; max_items l])
    (ValueError "must be a positive integer").

(** ** The closed profile *)

Definition is_text (v : Cbor) : bool := match v with CText _ => true | _ => false end.

(** A loop that threads the item counter. *)
Section Visits.
Context {A : Type} (f : A -> Z -> result Z).

Fixpoint visit_all (l : list A) (items : Z) : result Z :=
  match l with
  | [] => Ok items
  | x :: rest => items' ← f x items; visit_all rest items'
  end.
End Visits.

(** [visit(item, depth)] with the counter [items]. *)
Fixpoint visit (limits : SnapshotLimits) (item : Cbor) (depth items : Z) : result Z :=
  raise_if (max_items limits <? items + 1) (SnapshotCodecError "CBOR value exceeds the item limit");;
  raise_if (max_depth limits <? depth) (SnapshotCodecError "CBOR value exceeds the nesting limit");;
  match item with
  | CNull | CBool _ | CBytes _ => Ok (items + 1)
  | CInt n =>
    raise_if (negb ((MIN_INT <=? n) && (n <=? MAX_INT)))
      (SnapshotCodecError "CBOR integer is outside the signed 64-bit profile");;
    Ok (items + 1)
  | CText s =>
    raise_if (existsb is_surrogate s) (SnapshotCodecError "CBOR string contains a lone surrogate");;
    Ok (items + 1)
  | CMap l =>
    raise_if (existsb (fun kv => negb (is_text kv.1)) l) (SnapshotCodecError "CBOR map names must be strings");;
    visit_all (fun '(k, v) n => n' ← visit limits k (depth + 1) n; visit limits v (depth + 1) n') l (items + 1)
  | CArray l => visit_all (fun v n => visit limits v (depth + 1) n) l (items + 1)
  | CCycle true => Err (SnapshotCodecError "cyclic CBOR mappings are forbidden")
  | CCycle false => Err (SnapshotCodecError "cyclic CBOR arrays are forbidden")
  | CUnsupported => Err (SnapshotCodecError "CBOR value contains an unsupported type")
  end.

Definition validate_cbor_value (value : Cbor) (limits : SnapshotLimits) : result unit :=
  visit limits value 0 0;; Ok tt.

(** ** The libraries *)

(** [cbor2.dumps(value, canonical=True)] and [cbor2.loads]; [None] is an
    exception of the library. *)
Class Cbor2 : Type := {
  cbor_dumps : Cbor -> option bytes;
  cbor_loads : bytes -> option Cbor
}.

Record FrameParameters : Type := {
  fp_content_size : Z;
  fp_has_checksum : bool;
  fp_dict_id : Z
}.

Definition CONTENTSIZE_UNKNOWN : Z := 2 ^ 64 - 1.
Definition CONTENTSIZE_ERROR : Z := 2 ^ 64 - 2.

(** The compressor of [_compress] (level 19, checksum, content size, no
    dictionary), the decompressor and the frame header reader. *)
Class Zstd : Type := {
  zstd_compress : bytes -> bytes;
  zstd_decompress : bytes -> Z -> option bytes;
  zstd_get_frame_parameters : bytes -> option FrameParameters;
  zstd_frame_content_size : bytes -> option Z
}.

(** The character database behind [str.isalnum] and [str.isalpha]. *)
Class UnicodeData : Type := {
  char_isalnum : Z -> bool;
  char_isalpha : Z -> bool
}.

Section Codec.
Context `{Cbor2} `{Zstd} `{UnicodeData}.

Definition canonical_cbor_bytes (value : Cbor) (limits : SnapshotLimits) : result bytes :=
  validate_cbor_value value limits;;
  from_option_or (cbor_dumps value) (SnapshotCodecError "canonical CBOR encoding failed").

Definition decode_canonical_cbor (data : bytes) (limits : SnapshotLimits) : result Cbor :=
  raise_if (max_decompressed_size limits <? Z.of_nat (length data))
    (SnapshotCodecError "CBOR data exceeds the decompressed size limit");;
  value ← from_option_or (cbor_loads data) (SnapshotCodecError "CBOR data is invalid");
  validate_cbor_value value limits;;
  canonical ← canonical_cbor_bytes value limits;
  raise_if (negb (bool_decide (canonical = data)))
    (SnapshotCodecError "CBOR data is not in canonical deterministic form");;
  Ok value.

(** ** Tables *)

(** [not name or not name.replace("_", "a").isalnum() or not name[0].isalpha()] *)
Definition bad_identifier (name : pystr) : bool :=
  match name with
  | [] => true
  | c :: _ => negb (forallb char_isalnum ((fun d => if d =? 95 then 97 else d) <$> name)) || negb (char_isalpha c)
  end.

(** [isinstance(row, Mapping)] with string field names. *)
Definition row_fields (row : Cbor) : option (list (Cbor * Cbor)) :=
  match row with CMap l => if forallb (fun kv => is_text kv.1) l then Some l else None | _ => None end.

(** [mapping[key]] *)
Fixpoint map_at (key : pystr) (l : list (Cbor * Cbor)) : option Cbor :=
  match l with
  | [] => None
  | (k, v) :: rest => if bool_decide (k = CText key) then Some v else map_at key rest
  end.

Record SnapshotTable : Type := {
  st_name : pystr;
  st_primary_key : list pystr;
  st_rows : list Cbor
}.

Definition row_identity (primary_key : list pystr) (row : Cbor) : result bytes :=
  fields ← from_option_or (row_fields row)
             (SnapshotCodecError "snapshot row must be an object with string field names");
  identity ← from_option_or (mapM (fun key => map_at key fields) primary_key)
               (SnapshotCodecError "snapshot row is missing a primary-key field");
  canonical_cbor_bytes (CArray identity) default_limits.

(** The loop over the rows: [seen] and [previous] as in the source. *)
Fixpoint check_rows (primary_key : list pystr) (rows : list Cbor) (previous : option bytes) (seen : list bytes)
    : result unit :=
  match rows with
  | [] => Ok tt
  | row :: rest =>
    identity ← row_identity primary_key row;
    raise_if (bool_decide (identity ∈ seen)) (SnapshotCodecError "snapshot table contains a duplicate primary key");;
    raise_if (match previous with Some p => str_leb identity p | None => false end)
      (SnapshotCodecError "snapshot rows are not sorted by primary key");;
    check_rows primary_key rest (Some identity) (identity :: seen)
  end.

Definition validate_table (t : SnapshotTable) : result unit :=
  raise_if (bad_identifier (st_name t)) (SnapshotCodecError "snapshot table name is invalid");;
  raise_if (bool_decide (st_primary_key t = []) || negb (nodupb (st_primary_key t)))
    (SnapshotCodecError "snapshot table primary key is empty or duplicated");;
  raise_if (existsb bad_identifier (st_primary_key t)) (SnapshotCodecError "snapshot primary-key field is invalid");;
  check_rows (st_primary_key t) (st_rows t) None [].

Definition table_value (t : SnapshotTable) : Cbor :=
  CMap [(CText (py "name"), CText (st_name t));
        (CText (py "primary_key"), CArray (CText <$> st_primary_key t));
        (CText (py "rows"), CArray (st_rows t))].

(** [set(value) == fields] of a mapping. *)
Definition mapping_with (value : Cbor) (fields : list pystr) : option (list (Cbor * Cbor)) :=
  match value with
  | CMap l =>
    if forallb (fun kv => bool_decide (kv.1 ∈ CText <$> fields)) l
       && forallb (fun k => bool_decide (CText k ∈ l.*1)) fields
    then Some l else None
  | _ => None
  end.

Definition text_of (v : Cbor) : option pystr := match v with CText s => Some s | _ => None end.
Definition array_of (v : Cbor) : option (list Cbor) := match v with CArray l => Some l | _ => None end.
Definition int_of (v : Cbor) : option Z := match v with CInt n => Some n | _ => None end.

Definition text_at (key : pystr) (l : list (Cbor * Cbor)) : option pystr := v ← map_at key l; text_of v.
Definition array_at (key : pystr) (l : list (Cbor * Cbor)) : option (list Cbor) := v ← map_at key l; array_of v.
Definition int_at (key : pystr) (l : list (Cbor * Cbor)) : option Z := v ← map_at key l; int_of v.
Definition texts_at (key : pystr) (l : list (Cbor * Cbor)) : option (list pystr) :=
  vs ← array_at key l; mapM text_of vs.

Definition table_from_value (value : Cbor) : result SnapshotTable :=
  l ← from_option_or (mapping_with value [py "name"; py "primary_key"; py "rows"])
        (SnapshotCodecError "snapshot table fields are incomplete or unknown");
  name ← from_option_or (text_at (py "name") l)
           (SnapshotCodecError "snapshot table name must be a string");
  primary_key ← from_option_or (texts_at (py "primary_key") l)
                  (SnapshotCodecError "snapshot primary key must be a non-empty string array");
  rows ← from_option_or (array_at (py "rows") l)
           (SnapshotCodecError "snapshot rows must be an array");
  raise_if (negb (forallb (fun row => bool_decide (is_Some (row_fields row))) rows))
    (SnapshotCodecError "snapshot row must be an object");;
  let table := {| st_name := name; st_primary_key := primary_key; st_rows := rows |} in
  validate_table table;;
  Ok table.

(** ** Snapshots *)

Record SnapshotData : Type := {
  sd_high_water_sequence : Z;
  sd_tables : list SnapshotTable;
  sd_format : pystr
}.

Definition EXCLUDED_TABLES : list pystr :=
  [py "archive_export_checkpoints"; py "archive_targets"; py "embeddings"; py "outbox";
   py "credentials"; py "service_bindings"].

(** The names are compared: the sort is stable, so the sorted tables are the
    tables exactly when their names are in order. *)
Definition validate_snapshot_data (s : SnapshotData) : result unit :=
  let names := st_name <$> sd_tables s in
  raise_if (negb (bool_decide (sd_format s = SNAPSHOT_FORMAT))) (SnapshotCodecError "snapshot format is unsupported");;
  raise_if (sd_high_water_sequence s <? 0)
    (SnapshotCodecError "snapshot high-water sequence must be non-negative");;
  raise_if (negb (bool_decide (sort_by str_leb names = names)))
    (SnapshotCodecError "snapshot tables must be sorted by name");;
  raise_if (negb (nodupb names)) (SnapshotCodecError "snapshot contains duplicate table names");;
  raise_if (existsb (fun n => bool_decide (n ∈ EXCLUDED_TABLES)) names)
    (SnapshotCodecError "snapshot contains an excluded operational table").

Definition snapshot_value (s : SnapshotData) : Cbor :=
  CMap [(CText (py "format"), CText (sd_format s));
        (CText (py "high_water_sequence"), CInt (sd_high_water_sequence s));
        (CText (py "tables"), CArray (table_value <$> sd_tables s))].

Definition snapshot_from_value (value : Cbor) : result SnapshotData :=
  l ← from_option_or (mapping_with value [py "format"; py "high_water_sequence"; py "tables"])
        (SnapshotCodecError "snapshot fields are incomplete or unknown");
  format ← from_option_or (text_at (py "format") l) (SnapshotCodecError "snapshot format must be a string");
  high_water ← from_option_or (int_at (py "high_water_sequence") l)
                 (SnapshotCodecError "snapshot high-water sequence must be an integer");
  tables ← from_option_or (array_at (py "tables") l) (SnapshotCodecError "snapshot tables must be an array");
  tables' ← mapR table_from_value tables;
  let s := {| sd_high_water_sequence := high_water; sd_tables := tables'; sd_format := format |} in
  validate_snapshot_data s;;
  Ok s.

(** ** The codec *)

Definition encode (limits : SnapshotLimits) (s : SnapshotData) : result bytes :=
  canonical ← canonical_cbor_bytes (snapshot_value s) limits;
  raise_if (max_decompressed_size limits <? Z.of_nat (length canonical))
    (SnapshotCodecError "snapshot exceeds the decompressed size limit");;
  let compressed := zstd_compress canonical in
  raise_if (max_compressed_size limits <? Z.of_nat (length compressed))
    (SnapshotCodecError "snapshot exceeds the compressed size limit");;
  Ok compressed.

Definition decode (limits : SnapshotLimits) (compressed : bytes) : result SnapshotData :=
  raise_if (max_compressed_size limits <? Z.of_nat (length compressed))
    (SnapshotCodecError "snapshot exceeds the compressed size limit");;
  raise_if (bool_decide (compressed = [])) (SnapshotCodecError "snapshot is empty");;
  parameters ← from_option_or (zstd_get_frame_parameters compressed)
                 (SnapshotCodecError "snapshot is not a valid Zstandard frame");
  raise_if (bool_decide (fp_content_size parameters ∈ [CONTENTSIZE_UNKNOWN; CONTENTSIZE_ERROR]))
    (SnapshotCodecError "snapshot frame omits a valid content size");;
  raise_if (max_decompressed_size limits <? fp_content_size parameters)
    (SnapshotCodecError "snapshot declares excessive decompressed content");;
  raise_if (negb (fp_has_checksum parameters) || negb (fp_dict_id parameters =? 0))
    (SnapshotCodecError "snapshot uses an unsupported Zstandard frame profile");;
  canonical ← from_option_or (zstd_decompress compressed (max_decompressed_size limits))
                (SnapshotCodecError "snapshot decompression failed");
  raise_if (negb (Z.of_nat (length canonical) =? fp_content_size parameters))
    (SnapshotCodecError "snapshot content size does not match its frame");;
  value ← decode_canonical_cbor canonical limits;
  snapshot ← snapshot_from_value value;
  raise_if (negb (bool_decide (zstd_compress canonical = compressed)))
    (SnapshotCodecError "snapshot was not compressed with the fixed profile");;
  Ok snapshot.
End Codec.
