(* ===== verification/SnapshotTheorems.v ===== *)
(** * SnapshotTheorems: the snapshot codec is a bijection

    Dictionaries compare without order, so decoded values are related by
    [cbor_equiv]; validation and canonical encoding respect it.  A decoded
    snapshot encodes to the very bytes it came from, and an encoded snapshot
    decodes to itself. *)

From stdpp Require Import base tactics option list gmap strings.
From Stdlib Require Import ZArith Lia Bool.
From S2P Require Import Prelude Identifiers Values CanonicalJson Digest Snapshot.
Open Scope Z_scope.

(** ** Induction and equivalence *)

Section CborInd.
Variable P : Cbor -> Prop.
Hypothesis Pnull : P CNull.
Hypothesis Pbool : forall b, P (CBool b).
Hypothesis Pint : forall n, P (CInt n).
Hypothesis Ptext : forall s, P (CText s).
Hypothesis Pbytes : forall b, P (CBytes b).
Hypothesis Pmap : forall l, Forall (fun kv => P kv.1 /\ P kv.2) l -> P (CMap l).
Hypothesis Parray : forall l, Forall P l -> P (CArray l).
Hypothesis Pcycle : forall b, P (CCycle b).
Hypothesis Pother : P CUnsupported.

Lemma Cbor_tree_ind : forall v, P v.
Proof.
  fix IH 1. destruct v as [|b|n|s|b|l|l|b|].
  - exact Pnull.
  - apply Pbool.
  - apply Pint.
  - apply Ptext.
  - apply Pbytes.
  - apply Pmap. induction l as [|[k v] l IHl]; constructor; [split; apply IH|exact IHl].
  - apply Parray. induction l as [|v l IHl]; constructor; [apply IH|exact IHl].
  - apply Pcycle.
  - exact Pother.
Qed.
End CborInd.

(** Python equality of decoded data: the order of a dictionary's items does
    not matter. *)
Inductive cbor_equiv : Cbor -> Cbor -> Prop :=
| ce_refl v : cbor_equiv v v
| ce_array l l' : Forall2 cbor_equiv l l' -> cbor_equiv (CArray l) (CArray l')
| ce_map l l1 l' :
    NoDup l.*1 -> l ≡ₚ l1 -> Forall2 (fun a b => a.1 = b.1 /\ cbor_equiv a.2 b.2) l1 l' ->
    cbor_equiv (CMap l) (CMap l').

(** A dictionary has one item per key. *)
Inductive unique_keys : Cbor -> Prop :=
| uk_map l : NoDup l.*1 -> Forall (fun kv => unique_keys kv.2) l -> unique_keys (CMap l)
| uk_array l : Forall unique_keys l -> unique_keys (CArray l)
| uk_null : unique_keys CNull
| uk_bool b : unique_keys (CBool b)
| uk_int n : unique_keys (CInt n)
| uk_text s : unique_keys (CText s)
| uk_bytes b : unique_keys (CBytes b)
| uk_cycle b : unique_keys (CCycle b)
| uk_other : unique_keys CUnsupported.

Lemma Forall2_cbor_refl l : Forall2 cbor_equiv l l.
Proof. induction l; constructor; [apply ce_refl|done]. Qed.

(** ** What validation computes *)


(** The number of objects in a value. *)
Fixpoint nodes (v : Cbor) : Z :=
  match v with
  | CMap l => 1 + foldr (fun kv n => nodes kv.1 + nodes kv.2 + n) 0 l
  | CArray l => 1 + foldr (fun v n => nodes v + n) 0 l
  | _ => 1
  end.

(** The types, ranges and nesting the profile admits. *)
Fixpoint in_profile (limits : SnapshotLimits) (depth : Z) (v : Cbor) : Prop :=
  depth <= max_depth limits /\
  match v with
  | CNull | CBool _ | CBytes _ => True
  | CInt n => MIN_INT <= n <= MAX_INT
  | CText s => existsb is_surrogate s = false
  | CMap l =>
    existsb (fun kv => negb (is_text kv.1)) l = false /\
    foldr (fun kv P => in_profile limits (depth + 1) kv.1 /\ in_profile limits (depth + 1) kv.2 /\ P) True l
  | CArray l => foldr (fun v P => in_profile limits (depth + 1) v /\ P) True l
  | CCycle _ | CUnsupported => False
  end.

Lemma nodes_pos v : 1 <= nodes v.
Proof.
  induction v as [| | | | |l Hl|l Hl| |] using Cbor_tree_ind; cbn [nodes]; try lia.
  - assert (0 <= foldr (fun kv n => nodes kv.1 + nodes kv.2 + n) 0 l); [|lia].
    induction Hl as [|kv l [] _ IH]; cbn [foldr]; lia.
  - assert (0 <= foldr (fun v n => nodes v + n) 0 l); [|lia].
    induction Hl as [|v l ? _ IH]; cbn [foldr]; lia.
Qed.

Section VisitAll.
Context {A : Type} (f : A -> Z -> result Z) (cost : A -> Z) (good : A -> Prop) (M : Z).

(** A counted loop succeeds exactly when every element is good and the total
    stays inside the limit. *)
Lemma visit_all_spec l items n :
  Forall (fun x => 0 <= cost x /\ forall i m, i <= M -> f x i = Ok m <-> good x /\ m = i + cost x /\ m <= M) l ->
  items <= M ->
  visit_all f l items = Ok n <->
  foldr (fun x P => good x /\ P) True l /\ n = items + foldr (fun x k => cost x + k) 0 l /\ n <= M.
Proof.
  intros Hl. revert items. induction Hl as [|x l [Hc Hx] Hl IH]; intros items Hi; cbn [visit_all foldr].
  - split; [intros [= <-]; split_and!; [done|lia..]|intros (_ & -> & _); f_equal; lia].
  - assert (0 <= foldr (fun x k => cost x + k) 0 l).
    { clear -Hl. induction Hl as [|y l [? _] _ IH]; cbn [foldr]; lia. }
    rewrite bind_Ok. split.
    + intros (m & Hm & Hr). apply Hx in Hm as (Hg & -> & Hm); [|done]. apply IH in Hr as (Hf & -> & ?); [|done].
      split_and!; [done|done|lia|lia].
    + intros ([Hg Hf] & -> & Hn). exists (items + cost x). rewrite Hx, IH by lia. split_and!; try done; lia.
Qed.
End VisitAll.

Lemma visit_spec limits v depth items n :
  items <= max_items limits ->
  visit limits v depth items = Ok n <->
  in_profile limits depth v /\ n = items + nodes v /\ n <= max_items limits.
Proof.
  revert depth items n. induction v as [|b|i|s|b|l Hl|l Hl|b|] using Cbor_tree_ind; intros depth items n Hi;
    cbn [visit]; rewrite !bind_Ok; setoid_rewrite bind_Ok; setoid_rewrite raise_if_Ok;
    setoid_rewrite Z.ltb_ge; cbn [in_profile nodes].
  all: assert (Hu : forall (P : unit -> Prop), (exists u, P u) <-> P tt)
    by (intros P; split; [by intros [[] ?]|eauto]); rewrite !Hu; rewrite ?bind_Ok, ?Hu, ?raise_if_Ok.
  - split; [intros (? & ? & [= <-]); split_and!; try done; lia|intros ((? & _) & -> & ?); split_and!; done].
  - split; [intros (? & ? & [= <-]); split_and!; try done; lia|intros ((? & _) & -> & ?); split_and!; done].
  - rewrite negb_false_iff, andb_true_iff, !Z.leb_le.
    split; [intros (? & ? & ? & [= <-]); split_and!; try done; lia|intros ((? & ?) & -> & ?); split_and!; first [done|lia]].
  - split; [intros (? & ? & ? & [= <-]); split_and!; try done; lia|intros ((? & ?) & -> & ?); split_and!; done].
  - split; [intros (? & ? & [= <-]); split_and!; try done; lia|intros ((? & _) & -> & ?); split_and!; done].
  - assert (Hp : 0 <= foldr (fun kv n => nodes kv.1 + nodes kv.2 + n) 0 l).
    { clear. induction l as [|kv l IH]; cbn [foldr]; [lia|]. pose proof (nodes_pos kv.1). pose proof (nodes_pos kv.2). lia. }
    assert (Hv : items + 1 <= max_items limits ->
      visit_all (fun '(k, v) n => n' ← visit limits k (depth + 1) n; visit limits v (depth + 1) n') l (items + 1) = Ok n <->
      foldr (fun kv P => (in_profile limits (depth + 1) kv.1 /\ in_profile limits (depth + 1) kv.2) /\ P) True l /\
      n = items + 1 + foldr (fun kv k => nodes kv.1 + nodes kv.2 + k) 0 l /\ n <= max_items limits).
    { intros Hm. apply (visit_all_spec _ (fun kv => nodes kv.1 + nodes kv.2)); [|done].
      eapply Forall_impl; [exact Hl|]. intros [k v] [IHk IHv]. cbn [fst snd] in *.
      pose proof (nodes_pos k). pose proof (nodes_pos v). split; [lia|]. intros i m Him. rewrite bind_Ok. split.
      - intros (j & Hj & Hm'). apply IHk in Hj as (? & -> & ?); [|done]. apply IHv in Hm' as (? & -> & ?); [|done].
        split_and!; try done; lia.
      - intros ((? & ?) & -> & ?). exists (i + nodes k). rewrite IHk, IHv by lia. split_and!; try done; lia. }
    assert (Ha : foldr (fun kv P => (in_profile limits (depth + 1) kv.1 /\ in_profile limits (depth + 1) kv.2) /\ P) True l <->
                 foldr (fun kv P => in_profile limits (depth + 1) kv.1 /\ in_profile limits (depth + 1) kv.2 /\ P) True l).
    { clear. induction l as [|kv l IH]; cbn [foldr]; [done|]. rewrite IH. tauto. }
    rewrite Ha in Hv. split.
    + intros (? & ? & ? & Hr). apply Hv in Hr as (? & -> & ?); [|lia]. split_and!; try done; lia.
    + intros ((? & ? & ?) & -> & ?). split_and!; try done; [lia|]. apply Hv; [lia|]. split_and!; try done; lia.
  - assert (Hp : 0 <= foldr (fun v n => nodes v + n) 0 l).
    { clear. induction l as [|v l IH]; cbn [foldr]; [lia|]. pose proof (nodes_pos v). lia. }
    assert (Hv : items + 1 <= max_items limits ->
      visit_all (fun v n => visit limits v (depth + 1) n) l (items + 1) = Ok n <->
      foldr (fun v P => in_profile limits (depth + 1) v /\ P) True l /\
      n = items + 1 + foldr (fun v k => nodes v + k) 0 l /\ n <= max_items limits).
    { intros Hm. apply visit_all_spec; [|done]. eapply Forall_impl; [exact Hl|]. intros v IHv.
      pose proof (nodes_pos v). split; [lia|]. intros i m Him. by apply IHv. }
    split.
    + intros (? & ? & Hr). apply Hv in Hr as (? & -> & ?); [|lia]. split_and!; try done; lia.
    + intros ((? & ?) & -> & ?). split_and!; try done; [lia|]. apply Hv; [lia|]. split_and!; try done; lia.
  - split; [intros (? & ? & ?); by destruct b|by intros ((? & []) & _)].
  - split; [by intros (? & ? & ?)|by intros ((? & []) & _)].
Qed.

(** ** Validation respects equality of dictionaries *)

Lemma sum_perm {A} (f : A -> Z) l l' :
  l ≡ₚ l' -> foldr (fun x n => f x + n) 0 l = foldr (fun x n => f x + n) 0 l'.
Proof. induction 1; cbn; lia. Qed.

Lemma conj_forall {A} (P : A -> Prop) l : foldr (fun x Q => P x /\ Q) True l <-> Forall P l.
Proof. induction l as [|x l IH]; cbn; [done|]. by rewrite IH, Forall_cons. Qed.

Lemma conj_forall_pairs (P Q : Cbor -> Prop) l :
  foldr (fun kv R => P kv.1 /\ Q kv.2 /\ R) True l <-> Forall (fun kv => P kv.1 /\ Q kv.2) l.
Proof. induction l as [|x l IH]; cbn; [done|]. rewrite IH, Forall_cons. tauto. Qed.

Lemma cbor_equiv_nodes v w : cbor_equiv v w -> nodes v = nodes w.
Proof.
  revert w. induction v as [| | | | |l Hl|l Hl| |] using Cbor_tree_ind; intros w Heq;
    inversion Heq as [|? l2 Hf|? m l2 _ Hp Hf]; subst; try done; cbn [nodes]; f_equal.
  - rewrite (sum_perm (fun kv => nodes kv.1 + nodes kv.2) l m Hp). rewrite Hp in Hl. clear -Hf Hl.
    induction Hf as [|[k v] [k' v'] m l2 [Hk Hv] Hf IH]; [done|]. inversion Hl as [|? ? [_ Hn] Hl']; subst.
    cbn [foldr fst snd] in *. subst. by rewrite (Hn _ Hv), IH.
  - clear -Hf Hl. induction Hf as [|v w l l2 Hv Hf IH]; [done|]. inversion Hl as [|? ? Hn Hl']; subst.
    cbn [foldr]. by rewrite (Hn _ Hv), IH.
Qed.

Lemma cbor_equiv_profile limits depth v w : cbor_equiv v w -> in_profile limits depth v -> in_profile limits depth w.
Proof.
  revert depth w. induction v as [| | | | |l Hl|l Hl| |] using Cbor_tree_ind; intros depth w Heq;
    inversion Heq as [|? l2 Hf|? m l2 _ Hp Hf]; subst; try done; cbn [in_profile].
  - rewrite !(conj_forall_pairs (in_profile limits (depth + 1)) (in_profile limits (depth + 1))), !existsb_false.
    intros (Hd & Ht & Hall). rewrite Hp in Hl, Hall. setoid_rewrite Hp in Ht. split; [done|]. clear -Hf Hl Hall Ht.
    induction Hf as [|[k v] [k' v'] m l2 [Hk Hv] Hf IH]; [by split|].
    inversion Hl as [|? ? [_ Hn] Hl']; subst. inversion Hall as [|? ? [Hpk Hpv] Hall']; subst. cbn [fst snd] in *. subst.
    destruct IH as [Ht' Ha']; [first [done | intros; apply Ht; by right]..|]. split.
    + intros kv [->|Hin]%elem_of_cons; [apply (Ht (k', v)); by left|by apply Ht'].
    + constructor; [|done]. split; [done|]. by apply Hn.
  - rewrite !conj_forall. intros (Hd & Hall). split; [done|]. clear -Hf Hl Hall.
    induction Hf as [|v w l l2 Hv Hf IH]; [done|]. inversion Hl as [|? ? Hn Hl']; subst.
    inversion Hall; subst. constructor; [by apply Hn|auto].
Qed.

Lemma validate_equiv limits v w :
  cbor_equiv v w -> validate_cbor_value v limits = Ok tt -> 0 <= max_items limits -> validate_cbor_value w limits = Ok tt.
Proof.
  unfold validate_cbor_value. intros Heq Hv Hm. apply bind_Ok in Hv as (n & Hv & _).
  apply visit_spec in Hv as (Hp & -> & Hn); [|done]. apply bind_Ok. exists (0 + nodes w). split; [|done].
  apply visit_spec; [done|]. rewrite <- (cbor_equiv_nodes v w) by done. split_and!; [by eapply cbor_equiv_profile|done..].
Qed.

(** ** The libraries' contracts *)

(** [canonical=True] sorts map keys, so the encoding does not depend on the
    order of a dictionary; loading yields dictionaries, and what was dumped. *)
Class Cbor2Laws `{Cbor2} : Prop := {
  cbor_dumps_proper :: Proper (cbor_equiv ==> eq) cbor_dumps;
  cbor_loads_unique b v : cbor_loads b = Some v -> unique_keys v;
  cbor_loads_dumps limits v b :
    validate_cbor_value v limits = Ok tt -> unique_keys v -> cbor_dumps v = Some b ->
    exists w, cbor_loads b = Some w /\ cbor_equiv v w
}.

(** The frames of the fixed profile state their content size and checksum and
    decompress to their content. *)
Class ZstdLaws `{Zstd} : Prop := {
  zstd_frame_nonempty b : zstd_compress b <> [];
  zstd_frame_header b :
    zstd_get_frame_parameters (zstd_compress b) =
    Some {| fp_content_size := Z.of_nat (length b); fp_has_checksum := true; fp_dict_id := 0 |};
  zstd_roundtrip b limit :
    Z.of_nat (length b) <= limit -> zstd_decompress (zstd_compress b) limit = Some b;
  zstd_frame_size b : zstd_frame_content_size (zstd_compress b) = Some (Z.of_nat (length b))
}.

(** ** Reading mappings *)

Lemma map_at_elem key l v : NoDup l.*1 -> map_at key l = Some v <-> (CText key, v) ∈ l.
Proof.
  induction l as [|[k w] l IH]; cbn [map_at]; [intros _; split; [done|by intros ?%not_elem_of_nil]|].
  rewrite fmap_cons, NoDup_cons, elem_of_cons. intros [Hk Hn]. rewrite <- IH by done.
  case_bool_decide as Hd; [subst|naive_solver]. split; [naive_solver|]. intros [[= ->]|Hin]; [done|].
  destruct Hk. apply list_elem_of_fmap. exists (CText key, v). split; [done|]. by apply IH.
Qed.

Lemma mapping_with_perm value fields l :
  mapping_with value fields = Some l -> unique_keys value -> NoDup fields ->
  value = CMap l /\ NoDup l.*1 /\ l ≡ₚ (fun k => (CText k, default CNull (map_at k l))) <$> fields.
Proof.
  destruct value as [| | | | |l0| | |]; try done. cbn [mapping_with]. case_match eqn:Hc; [|done]. intros [= ->] Hu Hf.
  apply andb_true_iff in Hc as [H1 H2]. rewrite forallb_forall in H1, H2. inversion Hu as [? Hn _| | | | | | | |]; subst.
  split_and!; [done..|]. apply NoDup_Permutation.
  - by eapply NoDup_fmap_1.
  - apply NoDup_fmap_2; [|done]. intros ? ? [= ?]. done.
  - intros [k v]. rewrite list_elem_of_fmap. split.
    + intros Hin. specialize (H1 (k, v) (proj1 (list_elem_of_In _ _) Hin)). apply bool_decide_eq_true in H1.
      cbn in H1. apply list_elem_of_fmap in H1 as (key & -> & Hkey). exists key. split; [|done].
      apply map_at_elem in Hin; [|done]. by rewrite Hin.
    + intros (key & [= -> ->] & Hkey). specialize (H2 key (proj1 (list_elem_of_In _ _) Hkey)).
      apply bool_decide_eq_true, list_elem_of_fmap in H2 as ([k v] & Hk & Hin). cbn in Hk. subst.
      apply map_at_elem in Hin as Hm; [|done]. by rewrite Hm.
Qed.

Lemma unique_keys_at key l v : unique_keys (CMap l) -> map_at key l = Some v -> unique_keys v.
Proof.
  inversion 1 as [? Hn Hall| | | | | | | |]; subst. intros Hm%map_at_elem; [|done].
  rewrite Forall_forall in Hall. by apply (Hall _ Hm).
Qed.

Lemma text_at_Some key l s : text_at key l = Some s <-> map_at key l = Some (CText s).
Proof.
  unfold text_at. rewrite bind_Some. split; [|eauto]. intros (v & -> & Hv). destruct v; naive_solver.
Qed.
Lemma int_at_Some key l n : int_at key l = Some n <-> map_at key l = Some (CInt n).
Proof.
  unfold int_at. rewrite bind_Some. split; [|eauto]. intros (v & -> & Hv). destruct v; naive_solver.
Qed.
Lemma array_at_Some key l vs : array_at key l = Some vs <-> map_at key l = Some (CArray vs).
Proof.
  unfold array_at. rewrite bind_Some. split; [|eauto]. intros (v & -> & Hv). destruct v; naive_solver.
Qed.
Lemma texts_at_Some key l names : texts_at key l = Some names <-> map_at key l = Some (CArray (CText <$> names)).
Proof.
  unfold texts_at. rewrite bind_Some. setoid_rewrite array_at_Some.
  assert (Hm : forall vs, mapM text_of vs = Some names <-> vs = CText <$> names).
  { intros vs. rewrite mapM_Some. split.
    - induction 1 as [|v s vs names Hv _ IH]; [done|]. destruct v; try done. injection Hv as ->. by rewrite fmap_cons, IH.
    - intros ->. apply Forall2_fmap_l. induction names; by constructor. }
  setoid_rewrite Hm. naive_solver.
Qed.

(** ** A value that reads as a snapshot is that snapshot's value *)

Section Bijection.
Context `{CB : Cbor2} `{ZS : Zstd} `{UD : UnicodeData}.

Lemma table_from_value_equiv v t :
  unique_keys v -> table_from_value v = Ok t -> cbor_equiv v (table_value t) /\ validate_table t = Ok tt.
Proof.
  intros Hu Hr. unfold table_from_value in Hr. apply bind_Ok in Hr as (l & Hl%from_option_or_Ok & Hr).
  apply bind_Ok in Hr as (name & Hn%from_option_or_Ok%text_at_Some & Hr).
  apply bind_Ok in Hr as (pk & Hp%from_option_or_Ok%texts_at_Some & Hr).
  apply bind_Ok in Hr as (rows & Hrows%from_option_or_Ok%array_at_Some & Hr).
  apply bind_Ok in Hr as ([] & _ & Hr). apply bind_Ok in Hr as ([] & Hv & [= <-]).
  apply mapping_with_perm in Hl as (-> & Hnd & Hperm); [|done|by repeat constructor; set_solver].
  cbn [fmap list_fmap] in Hperm. rewrite Hn, Hp, Hrows in Hperm. split; [|done].
  eapply ce_map; [done|exact Hperm|]. repeat constructor.
Qed.

Lemma snapshot_from_value_equiv v s :
  unique_keys v -> snapshot_from_value v = Ok s -> cbor_equiv v (snapshot_value s) /\
  validate_snapshot_data s = Ok tt /\ Forall (fun t => validate_table t = Ok tt) (sd_tables s).
Proof.
  intros Hu Hr. unfold snapshot_from_value in Hr. apply bind_Ok in Hr as (l & Hl%from_option_or_Ok & Hr).
  apply bind_Ok in Hr as (format & Hf%from_option_or_Ok%text_at_Some & Hr).
  apply bind_Ok in Hr as (hw & Hh%from_option_or_Ok%int_at_Some & Hr).
  apply bind_Ok in Hr as (tables & Ht%from_option_or_Ok%array_at_Some & Hr).
  apply bind_Ok in Hr as (tables' & Hts & Hr). apply bind_Ok in Hr as ([] & Hv & [= <-]).
  apply mapping_with_perm in Hl as (-> & Hnd & Hperm); [|done|by repeat constructor; set_solver].
  apply (unique_keys_at _ _ _ Hu) in Ht as Hut. inversion Hut as [|? Hall| | | | | | |]; subst.
  assert (Hr : Forall2 (fun v t => cbor_equiv v (table_value t) /\ validate_table t = Ok tt) tables tables').
  { apply mapR_Forall2 in Hts. clear -Hts Hall. induction Hts; inversion Hall; subst; constructor; auto.
    by apply table_from_value_equiv. }
  cbn [fmap list_fmap] in Hperm. rewrite Hf, Hh, Ht in Hperm. split_and!; [|done|].
  - eapply ce_map; [done|exact Hperm|]. repeat constructor. apply Forall2_fmap_r.
    eapply Forall2_impl; [exact Hr|]. by intros ? ? [].
  - cbn [sd_tables]. clear -Hr. induction Hr as [|? ? ? ? []]; by constructor.
Qed.

Context `{!Cbor2Laws}.

Lemma canonical_cbor_bytes_equiv limits v w b :
  cbor_equiv v w -> 0 <= max_items limits -> canonical_cbor_bytes v limits = Ok b -> canonical_cbor_bytes w limits = Ok b.
Proof.
  unfold canonical_cbor_bytes. intros Heq Hm Hv. apply bind_Ok in Hv as ([] & Hv & Hd).
  rewrite (validate_equiv _ _ _ Heq Hv Hm). cbn [mbind result_bind]. by rewrite <- (cbor_dumps_proper v w Heq).
Qed.

(** ** Equality of snapshots *)

Definition table_equiv (t t' : SnapshotTable) : Prop :=
  st_name t = st_name t' /\ st_primary_key t = st_primary_key t' /\ Forall2 cbor_equiv (st_rows t) (st_rows t').

Definition snapshot_equiv (s s' : SnapshotData) : Prop :=
  sd_format s = sd_format s' /\ sd_high_water_sequence s = sd_high_water_sequence s' /\
  Forall2 table_equiv (sd_tables s) (sd_tables s').

(** A snapshot as the exporter constructs it: validated, its rows dictionaries. *)
Definition snapshot_valid (s : SnapshotData) : Prop :=
  validate_snapshot_data s = Ok tt /\
  Forall (fun t => validate_table t = Ok tt /\ Forall unique_keys (st_rows t)) (sd_tables s).

(** An equal dictionary has the same keys and equal items. *)
Lemma cbor_equiv_map l w :
  cbor_equiv (CMap l) w -> NoDup l.*1 ->
  exists l', w = CMap l' /\ NoDup l'.*1 /\ l'.*1 ≡ₚ l.*1 /\
    forall k v, map_at k l = Some v -> exists v', map_at k l' = Some v' /\ cbor_equiv v v'.
Proof.
  intros Heq Hn. inversion Heq as [|? ? Hf|? m l' _ Hp Hf]; subst.
  - exists l. split_and!; [done..|]. intros k v Hk. exists v. split; [done|apply ce_refl].
  - assert (Hk : m.*1 = l'.*1).
    { clear -Hf. induction Hf as [|a b m l' [Ha _] _ IH]; [done|]. by rewrite !fmap_cons, Ha, IH. }
    assert (Hn' : NoDup l'.*1) by by rewrite <- Hk, <- Hp.
    exists l'. split_and!; [done|done|by rewrite <- Hk, Hp|]. intros k v Hm%map_at_elem; [|done].
    rewrite Hp in Hm. apply list_elem_of_lookup in Hm as (i & Hi).
    destruct (Forall2_lookup_l _ _ _ _ _ Hf Hi) as ([k' v'] & Hi' & Hke & Hv). cbn in Hke, Hv. subst k'.
    exists v'. split; [|done]. apply map_at_elem; [done|]. by eapply list_elem_of_lookup_2.
Qed.

Lemma mapping_with_keys l l' fields :
  mapping_with (CMap l) fields = Some l -> l'.*1 ≡ₚ l.*1 -> mapping_with (CMap l') fields = Some l'.
Proof.
  cbn [mapping_with]. intros Hl Hk. case_match eqn:Hc; [|done]. apply andb_true_iff in Hc as [H1 H2].
  rewrite forallb_forall in H1, H2. replace (forallb _ l' && _) with true; [done|]. symmetry.
  apply andb_true_iff. rewrite !forallb_forall. split.
  - intros [k v] Hin. apply list_elem_of_In in Hin. assert (Hk' : k ∈ l.*1).
    { rewrite <- Hk. apply list_elem_of_fmap. by exists (k, v). }
    apply list_elem_of_fmap in Hk' as ([k0 v0] & -> & Hin0). apply (H1 (k0, v0)). by apply list_elem_of_In.
  - intros k Hin. apply bool_decide_eq_true. rewrite Hk. by apply H2, bool_decide_eq_true in Hin.
Qed.

Lemma row_fields_equiv r r' l :
  cbor_equiv r r' -> unique_keys r -> row_fields r = Some l ->
  exists l', row_fields r' = Some l' /\ forall k v, map_at k l = Some v -> exists v', map_at k l' = Some v' /\ cbor_equiv v v'.
Proof.
  destruct r as [| | | | |l0| | |]; try done. cbn [row_fields]. case_match eqn:Ht; [|done]. intros Heq Hu [= ->].
  inversion Hu as [? Hn _| | | | | | | |]; subst.
  destruct (cbor_equiv_map l r' Heq Hn) as (l' & -> & _ & Hk & Hat). exists l'. split; [|done]. cbn [row_fields].
  rewrite forallb_forall in Ht. replace (forallb _ l') with true; [done|]. symmetry. apply forallb_forall.
  intros [k v] Hin. assert (Hk' : k ∈ l.*1).
  { rewrite <- Hk. apply list_elem_of_fmap. exists (k, v). split; [done|]. by apply list_elem_of_In. }
  apply list_elem_of_fmap in Hk' as ([k0 v0] & -> & Hin0). apply (Ht (k0, v0)). by apply list_elem_of_In.
Qed.

Lemma row_identity_equiv pk r r' b :
  cbor_equiv r r' -> unique_keys r -> row_identity pk r = Ok b -> row_identity pk r' = Ok b.
Proof.
  intros Heq Hu Hr. unfold row_identity in *. apply bind_Ok in Hr as (l & Hl%from_option_or_Ok & Hr).
  apply bind_Ok in Hr as (ids & Hids%from_option_or_Ok & Hr).
  destruct (row_fields_equiv r r' l Heq Hu Hl) as (l' & -> & Hat). cbn [from_option_or mbind result_bind].
  assert (exists ids', mapM (fun key => map_at key l') pk = Some ids' /\ Forall2 cbor_equiv ids ids') as (ids' & -> & Hf).
  { apply mapM_Some in Hids. clear -Hids Hat. induction Hids as [|key v pk ids Hv _ (ids' & Hids' & Hf)].
    - exists []. by split; [|constructor].
    - destruct (Hat _ _ Hv) as (v' & Hv' & Hvv). exists (v' :: ids'). cbn. rewrite Hv'. cbn. rewrite Hids'.
      by split; [|constructor]. }
  cbn [from_option_or mbind result_bind]. eapply canonical_cbor_bytes_equiv; [|done|exact Hr]. by apply ce_array.
Qed.

Lemma check_rows_equiv pk rows rows' previous seen :
  Forall2 cbor_equiv rows rows' -> Forall unique_keys rows ->
  check_rows pk rows previous seen = Ok tt -> check_rows pk rows' previous seen = Ok tt.
Proof.
  intros Hf. revert previous seen. induction Hf as [|r r' rows rows' Hr _ IH]; intros previous seen Hu Hc; [done|].
  inversion Hu; subst. cbn [check_rows] in *. apply bind_Ok in Hc as (b & Hb & Hc).
  rewrite (row_identity_equiv _ _ _ _ Hr) by done. cbn [mbind result_bind].
  apply bind_Ok in Hc as ([] & -> & Hc). cbn [mbind result_bind].
  apply bind_Ok in Hc as ([] & -> & Hc). cbn [mbind result_bind]. by apply IH.
Qed.

Lemma cbor_equiv_text s w : cbor_equiv (CText s) w -> w = CText s.
Proof. by inversion 1. Qed.
Lemma cbor_equiv_int n w : cbor_equiv (CInt n) w -> w = CInt n.
Proof. by inversion 1. Qed.
Lemma cbor_equiv_array l w : cbor_equiv (CArray l) w -> exists l', w = CArray l' /\ Forall2 cbor_equiv l l'.
Proof. inversion 1; subst; eauto using Forall2_cbor_refl. Qed.
Lemma Forall2_texts names l : Forall2 cbor_equiv (CText <$> names) l -> l = CText <$> names.
Proof.
  revert l. induction names as [|s names IH]; intros l Hf; inversion Hf as [|? ? ? ? Hs Hr]; subst; [done|].
  apply cbor_equiv_text in Hs as ->. by rewrite fmap_cons, (IH _ Hr).
Qed.

(** An equal value reads as an equal table. *)
Lemma table_from_value_complete t w :
  cbor_equiv (table_value t) w -> validate_table t = Ok tt -> Forall unique_keys (st_rows t) ->
  exists t', table_from_value w = Ok t' /\ table_equiv t t'.
Proof.
  intros Heq Hv Hu. unfold table_value in Heq. destruct (cbor_equiv_map _ _ Heq) as (l & -> & Hn & Hk & Hat).
  { by repeat constructor; set_solver. }
  unfold table_from_value.
  assert (Hmw : mapping_with (CMap l) [py "name"; py "primary_key"; py "rows"] = Some l)
    by (eapply mapping_with_keys; [|exact Hk]; vm_compute; reflexivity). rewrite Hmw. cbn [from_option_or mbind result_bind].
  destruct (Hat (py "name") _ eq_refl) as (v1 & H1 & ->%cbor_equiv_text).
  destruct (Hat (py "primary_key") _ eq_refl) as (v2 & H2 & (pk & -> & ->%Forall2_texts)%cbor_equiv_array).
  destruct (Hat (py "rows") _ eq_refl) as (v3 & H3 & (rows & -> & Hrows)%cbor_equiv_array).
  apply text_at_Some in H1. apply texts_at_Some in H2. apply array_at_Some in H3.
  rewrite H1, H2, H3. cbn [from_option_or mbind result_bind].
  unfold validate_table in Hv. apply bind_Ok in Hv as ([] & Hv1 & Hv). apply bind_Ok in Hv as ([] & Hv2 & Hv).
  apply bind_Ok in Hv as ([] & Hv3 & Hv).
  assert (Hrf : forall rows rows' previous seen, Forall2 cbor_equiv rows rows' -> Forall unique_keys rows ->
            check_rows (st_primary_key t) rows previous seen = Ok tt ->
            forallb (fun row => bool_decide (is_Some (row_fields row))) rows' = true).
  { clear. intros rows rows' previous seen Hf. revert previous seen.
    induction Hf as [|r r' rows rows' Hr _ IH]; intros previous seen Hu Hc; [done|]. inversion Hu; subst.
    cbn [check_rows forallb] in *. apply bind_Ok in Hc as (b & Hb & Hc). inv_bind. apply andb_true_iff. split; [|by eauto].
    unfold row_identity in Hb. apply bind_Ok in Hb as (l & Hl%from_option_or_Ok & _).
    destruct (row_fields_equiv _ _ _ Hr ltac:(done) Hl) as (l' & Hl' & _). apply bool_decide_eq_true. by exists l'. }
  rewrite (Hrf _ _ _ _ Hrows Hu Hv). cbn [negb raise_if mbind result_bind].
  exists {| st_name := st_name t; st_primary_key := st_primary_key t; st_rows := rows |}. split; [|by split_and!].
  unfold validate_table. cbn [st_name st_primary_key st_rows]. rewrite Hv1. cbn [mbind result_bind].
  rewrite Hv2. cbn [mbind result_bind]. rewrite Hv3. cbn [mbind result_bind].
  by rewrite (check_rows_equiv _ _ _ _ _ Hrows Hu Hv).
Qed.

Lemma snapshot_from_value_complete s w :
  cbor_equiv (snapshot_value s) w -> snapshot_valid s ->
  exists s', snapshot_from_value w = Ok s' /\ snapshot_equiv s s'.
Proof.
  intros Heq [Hv Ht]. unfold snapshot_value in Heq. destruct (cbor_equiv_map _ _ Heq) as (l & -> & Hn & Hk & Hat).
  { by repeat constructor; set_solver. }
  unfold snapshot_from_value.
  assert (Hmw : mapping_with (CMap l) [py "format"; py "high_water_sequence"; py "tables"] = Some l)
    by (eapply mapping_with_keys; [|exact Hk]; vm_compute; reflexivity). rewrite Hmw. cbn [from_option_or mbind result_bind].
  destruct (Hat (py "format") _ eq_refl) as (v1 & H1 & ->%cbor_equiv_text).
  destruct (Hat (py "high_water_sequence") _ eq_refl) as (v2 & H2 & ->%cbor_equiv_int).
  destruct (Hat (py "tables") _ eq_refl) as (v3 & H3 & (tables & -> & Htables)%cbor_equiv_array).
  apply text_at_Some in H1. apply int_at_Some in H2. apply array_at_Some in H3.
  rewrite H1, H2, H3. cbn [from_option_or mbind result_bind].
  assert (exists tables', mapR table_from_value tables = Ok tables' /\ Forall2 table_equiv (sd_tables s) tables')
    as (tables' & -> & Hte).
  { clear -Ht Htables H. revert tables Htables. induction Ht as [|t ts [Hvt Hut] _ IH]; intros tables Hf.
    - inversion Hf. subst. exists []. by split; [|constructor].
    - rewrite fmap_cons in Hf. inversion Hf as [|? w ? tables0 Hw Hr]; subst.
      destruct (table_from_value_complete t w Hw Hvt Hut) as (t' & Ht' & Hte).
      destruct (IH _ Hr) as (tables' & Hts & Htes). exists (t' :: tables'). cbn. rewrite Ht'. cbn. rewrite Hts.
      by split; [|constructor]. }
  cbn [mbind result_bind].
  exists {| sd_high_water_sequence := sd_high_water_sequence s; sd_tables := tables'; sd_format := sd_format s |}.
  split; [|by split_and!].
  assert (Hnames : st_name <$> tables' = st_name <$> sd_tables s).
  { clear -Hte. induction Hte as [|t t' ts ts' (Hn & _) _ IH]; [done|]. by rewrite !fmap_cons, Hn, IH. }
  unfold validate_snapshot_data in *. cbn [sd_tables sd_format sd_high_water_sequence]. by rewrite Hnames, Hv.
Qed.

(** The keys of an encoded snapshot are unique. *)
Lemma snapshot_value_unique s : snapshot_valid s -> unique_keys (snapshot_value s).
Proof.
  intros [_ Ht]. apply uk_map; [by repeat constructor; set_solver|]. repeat constructor. cbn [snd].
  induction Ht as [|t ts [_ Hu] _ IH]; constructor; [|done]. apply uk_map; [by repeat constructor; set_solver|].
  repeat constructor; [|done]. cbn [snd]. induction (st_primary_key t); by repeat constructor.
Qed.

Lemma decode_encodes (limits : SnapshotLimits) (compressed : bytes) (s : SnapshotData) :
  0 <= max_items limits -> decode limits compressed = Ok s -> encode limits s = Ok compressed.
Proof.
  intros Hm Hd. unfold decode in Hd. apply bind_Ok in Hd as ([] & Hc & Hd). apply bind_Ok in Hd as ([] & _ & Hd).
  apply bind_Ok in Hd as (fp & _ & Hd). do 3 apply bind_Ok in Hd as ([] & _ & Hd).
  apply bind_Ok in Hd as (canonical & _ & Hd). apply bind_Ok in Hd as ([] & _ & Hd).
  apply bind_Ok in Hd as (value & Hvalue & Hd). apply bind_Ok in Hd as (s' & Hs & Hd).
  apply bind_Ok in Hd as ([] & Hz & [= ->]). apply raise_if_Ok, negb_false_iff, bool_decide_eq_true in Hz.
  unfold decode_canonical_cbor in Hvalue. apply bind_Ok in Hvalue as ([] & Hlen & Hvalue).
  apply bind_Ok in Hvalue as (v & Hload%from_option_or_Ok & Hvalue). apply bind_Ok in Hvalue as ([] & _ & Hvalue).
  apply bind_Ok in Hvalue as (b & Hb & Hvalue). apply bind_Ok in Hvalue as ([] & Heq & [= ->]).
  apply raise_if_Ok, negb_false_iff, bool_decide_eq_true in Heq. subst b.
  apply cbor_loads_unique in Hload. apply snapshot_from_value_equiv in Hs as (Heq & _); [|done].
  unfold encode. rewrite (canonical_cbor_bytes_equiv _ _ _ _ Heq Hm Hb). cbn [mbind result_bind].
  apply raise_if_Ok in Hlen, Hc. rewrite Hlen, Hz, Hc. done.
Qed.

Context `{!ZstdLaws}.

Lemma encode_decodes (limits : SnapshotLimits) (compressed : bytes) (s : SnapshotData) :
  0 <= max_items limits -> max_decompressed_size limits < CONTENTSIZE_ERROR ->
  snapshot_valid s -> encode limits s = Ok compressed ->
  exists s', decode limits compressed = Ok s' /\ snapshot_equiv s s'.
Proof.
  intros Hm Hlim Hs He. unfold encode in He. apply bind_Ok in He as (canonical & Hcan & He).
  apply bind_Ok in He as ([] & Hlen & He). apply bind_Ok in He as ([] & Hclen & [= <-]).
  pose proof Hcan as Hcan'. unfold canonical_cbor_bytes in Hcan. apply bind_Ok in Hcan as ([] & Hval & Hdump%from_option_or_Ok).
  destruct (cbor_loads_dumps _ _ _ Hval (snapshot_value_unique _ Hs) Hdump) as (w & Hload & Heq).
  destruct (snapshot_from_value_complete _ _ Heq Hs) as (s' & Hs' & Hse). exists s'. split; [|done].
  apply raise_if_Ok, Z.ltb_ge in Hlen.
  unfold decode. rewrite Hclen. cbn [mbind result_bind].
  rewrite bool_decide_false by apply zstd_frame_nonempty. cbn [raise_if mbind result_bind].
  rewrite zstd_frame_header. cbn [from_option_or mbind result_bind fp_content_size fp_has_checksum fp_dict_id].
  rewrite bool_decide_false.
  2: { unfold CONTENTSIZE_UNKNOWN, CONTENTSIZE_ERROR in *. rewrite !elem_of_cons, elem_of_nil. lia. }
  rewrite (proj2 (Z.ltb_ge _ _)) by lia. cbn [raise_if negb orb Z.eqb mbind result_bind].
  rewrite zstd_roundtrip by lia. cbn [from_option_or mbind result_bind].
  rewrite Z.eqb_refl. cbn [negb raise_if mbind result_bind].
  unfold decode_canonical_cbor. rewrite (proj2 (Z.ltb_ge _ _)) by lia. cbn [raise_if mbind result_bind].
  rewrite Hload. cbn [from_option_or mbind result_bind]. rewrite (validate_equiv _ _ _ Heq Hval Hm).
  cbn [mbind result_bind]. rewrite (canonical_cbor_bytes_equiv _ _ _ _ Heq Hm Hcan'). cbn [mbind result_bind].
  rewrite !bool_decide_true by done. cbn [negb raise_if mbind result_bind]. by rewrite Hs'.
Qed.
End Bijection.

(** ** Properties *)

(** C30: the snapshot codec is exact.  Bytes that decode are the encoding of
    the snapshot they decode to, so an archive can hold a snapshot under one
    byte string only; and every snapshot the exporter constructs and encodes
    decodes to an equal snapshot, whatever the order of its rows' fields. *)
Theorem snapshot_codec_exact `{Cbor2} `{Zstd} `{UnicodeData} `{!Cbor2Laws} `{!ZstdLaws} (limits : SnapshotLimits) :
  0 <= max_items limits -> max_decompressed_size limits < CONTENTSIZE_ERROR ->
  (forall compressed s, decode limits compressed = Ok s -> encode limits s = Ok compressed) /\
  (forall compressed s, snapshot_valid s -> encode limits s = Ok compressed ->
     exists s', decode limits compressed = Ok s' /\ snapshot_equiv s s').
Proof. intros Hm Hl. split; intros; [by apply decode_encodes|by apply encode_decodes]. Qed.

(** A library of one snapshot: [161] encodes it, in any field order. *)
Definition tiny_items : list (Cbor * Cbor) :=
  [(CText (py "format"), CText SNAPSHOT_FORMAT); (CText (py "high_water_sequence"), CInt 7);
   (CText (py "tables"), CArray [])].

#[local] Instance tiny_cbor : Cbor2 := {|
  cbor_dumps v := match v with CMap l => if bool_decide (l ≡ₚ tiny_items) then Some [161] else None | _ => None end;
  cbor_loads b := if bool_decide (b = [161]) then Some (CMap tiny_items) else None
|}.

(** Frames are the content after a header byte. *)
#[local] Instance tiny_zstd : Zstd := {|
  zstd_compress b := 40 :: b;
  zstd_decompress b limit := match b with _ :: rest => Some rest | [] => None end;
  zstd_get_frame_parameters b :=
    Some {| fp_content_size := Z.of_nat (length b) - 1; fp_has_checksum := true; fp_dict_id := 0 |};
  zstd_frame_content_size b := Some (Z.of_nat (length b) - 1)
|}.

#[local] Instance ascii_unicode : UnicodeData := {|
  char_isalnum c := ((48 <=? c) && (c <=? 57)) || ((65 <=? c) && (c <=? 90)) || ((97 <=? c) && (c <=? 122));
  char_isalpha c := ((65 <=? c) && (c <=? 90)) || ((97 <=? c) && (c <=? 122))
|}.

(** The items of the sample are equal only to themselves. *)
Lemma tiny_items_rigid (m l : list (Cbor * Cbor)) :
  Forall2 (fun a b => a.1 = b.1 /\ cbor_equiv a.2 b.2) m l -> m ≡ₚ tiny_items <-> l ≡ₚ tiny_items.
Proof.
  intros Hf. enough (Heq : m ≡ₚ tiny_items \/ l ≡ₚ tiny_items -> m = l) by naive_solver.
  assert (Hin : forall k v w, (k, v) ∈ tiny_items \/ (k, w) ∈ tiny_items -> cbor_equiv v w -> v = w).
  { unfold tiny_items. intros k v w Hin Hv. rewrite !elem_of_cons, !elem_of_nil in Hin.
    destruct Hin as [[[= -> ->]|[[= -> ->]|[[= -> ->]|[]]]]|[[= -> ->]|[[= -> ->]|[[= -> ->]|[]]]]];
      inversion Hv as [|? ? Hf'|]; subst; try done; by inversion Hf'. }
  intros Hp. assert (Hall : Forall2 (fun a b => a ∈ tiny_items \/ b ∈ tiny_items) m l).
  { clear Hin. destruct Hp as [Hp|Hp].
    - assert (Hm : Forall (.∈ tiny_items) m) by (rewrite Hp; by apply Forall_forall).
      clear Hp. induction Hf; inversion Hm; subst; constructor; auto.
    - assert (Hm : Forall (.∈ tiny_items) l) by (rewrite Hp; by apply Forall_forall).
      clear Hp. induction Hf; inversion Hm; subst; constructor; auto. }
  clear Hp. induction Hf as [|[k v] [k' w] m l [Hk Hv] Hf IH]; [done|]. inversion Hall; subst. cbn in Hk, Hv. subst k'.
  rewrite IH by done. by rewrite (Hin k v w).
Qed.

#[local] Instance tiny_cbor_laws : Cbor2Laws.
Proof.
  split.
  - intros v w Heq. inversion Heq as [|? ? Hf|l m l' _ Hp Hf]; subst; [done..|]. cbn.
    replace (bool_decide (l ≡ₚ tiny_items)) with (bool_decide (l' ≡ₚ tiny_items)); [done|].
    apply bool_decide_ext. rewrite Hp. symmetry. by apply tiny_items_rigid.
  - intros b v. cbn. case_bool_decide; [|done]. intros [= <-]. apply uk_map; [by repeat constructor; set_solver|].
    by repeat constructor.
  - intros limits v b _ Hu. destruct v as [| | | | |l| | |]; try done. cbn. case_bool_decide as Hp; [|done].
    intros [= <-]. exists (CMap tiny_items). split; [done|]. inversion Hu; subst.
    eapply ce_map; [done|exact Hp|]. by repeat constructor.
Qed.

#[local] Instance tiny_zstd_laws : ZstdLaws.
Proof. split; try done; intros; cbn [zstd_get_frame_parameters zstd_frame_content_size zstd_compress tiny_zstd length];
  do 2 f_equal; lia. Qed.

Definition tiny_snapshot : SnapshotData :=
  {| sd_high_water_sequence := 7; sd_tables := []; sd_format := SNAPSHOT_FORMAT |}.

Lemma snapshot_codec_exact_witness :
  encode default_limits tiny_snapshot = Ok [40; 161] /\
  exists s', decode default_limits [40; 161] = Ok s' /\ snapshot_equiv tiny_snapshot s'.
Proof.
  split; [vm_compute; reflexivity|].
  apply (snapshot_codec_exact default_limits); [done|done| |vm_compute; reflexivity].
  split; [vm_compute; reflexivity|constructor].
Defined.
