(* ===== verification/ArchiveVerification.v ===== *)
(** * ArchiveVerification: checking untrusted archives

    Models [archive/verification.py]: parsing a manifest, verifying every byte
    of a batch, the manifest chain, and the signed chain under one signer or an
    epoch map.  JSON Schema, pydantic's reading of events and the commit
    verifier are parameters; reading a directory is not modelled. *)

From stdpp Require Import base tactics option list gmap strings.
From Stdlib Require Import ZArith Lia Bool.
From S2P Require Import Prelude Identifiers Enums Values CanonicalJson Digest Text Constraints Events JsonParse Archive Snapshot.
Open Scope Z_scope.

(** ** Parameters *)

(** [Draft202012Validator(schema).validate(value)]: accepted, stopped by an
    exception of the package [referencing] (which the code ignores), or
    rejected by any other exception. *)
Inductive SchemaOutcome : Type := SchemaAccepted | SchemaUnresolved | SchemaRejected.

Class JsonSchema : Type := {
  schema_check : JsonValue -> bool;                       (* [false] is [SchemaError] *)
  schema_validate : JsonValue -> JsonValue -> SchemaOutcome
}.

(** Pydantic's reading of an event document into the declared fields; the
    model's own validator runs after it. *)
Class EventReader : Type := event_read : bytes -> option MemoryEvent.

Record VerifiedGitCommit : Type := {
  vg_commit_sha : pystr;
  vg_tree_sha : pystr;
  vg_parent_sha : option pystr
}.

(** [ArchiveCommitVerifier.verify_archive_commit]: commit, expected parent,
    message, timestamp and files. *)
Definition CommitVerifier : Type :=
  pystr -> option pystr -> pystr -> pystr -> gmap pystr bytes -> result VerifiedGitCommit.

(** ** Data *)

Record ArchiveBatch : Type := {
  ab_manifest_bytes : bytes;
  ab_files : gmap pystr bytes
}.

Record ArchiveCommitBatch : Type := {
  cb_commit_sha : pystr;
  cb_batch : ArchiveBatch
}.

Record VerifiedArchiveBatch : Type := {
  vb_manifest : ArchiveManifest;
  vb_manifest_bytes : bytes;
  vb_manifest_sha256 : pystr;
  vb_files : gmap pystr bytes;
  vb_events : list MemoryEvent;
  vb_snapshot : option SnapshotData
}.

Record VerifiedArchiveCommit : Type := {
  vc_git : VerifiedGitCommit;
  vc_batch : VerifiedArchiveBatch
}.

Record ArchiveSignerEpoch : Type := {
  ep_first_event_sequence : Z;
  ep_last_event_sequence : option Z;
  ep_verifier : CommitVerifier;
  ep_epoch_id : pystr;
  ep_public_key_fingerprint : option pystr;
  ep_transition_record_id : option pystr;
  ep_compromised_last_commit : option pystr;
  ep_compromised_last_event_sequence : option Z
}.

(** [ArchiveSignerEpoch.__post_init__] *)
Definition validate_epoch (e : ArchiveSignerEpoch) : result unit :=
  raise_if (ep_first_event_sequence e <? 1) (ValueError "signer epoch first sequence must be positive");;
  raise_if (match ep_last_event_sequence e with Some l => l <? ep_first_event_sequence e | None => false end)
    (ValueError "signer epoch last sequence is invalid");;
  raise_if (bool_decide (ep_epoch_id e = []) || (128 <? length (ep_epoch_id e))%nat)
    (ValueError "signer epoch identity is invalid");;
  raise_if (negb (Bool.eqb (is_none (ep_compromised_last_commit e)) (is_none (ep_compromised_last_event_sequence e))))
    (ValueError "compromised signer cutoff must bind commit and sequence");;
  raise_if (match ep_compromised_last_commit e with
            | Some c => negb (bool_decide (length c ∈ [40; 64]%nat))
                        || existsb (fun ch => negb (bool_decide (ch ∈ py "0123456789abcdef"))) c
            | None => false
            end)
    (ValueError "compromised signer cutoff commit is invalid");;
  raise_if (match ep_compromised_last_event_sequence e with
            | Some c => (c <? ep_first_event_sequence e)
                        || match ep_last_event_sequence e with Some l => l <? c | None => false end
            | None => false
            end)
    (ValueError "compromised signer cutoff sequence is invalid").

Section Verification.
Context `{Rfc8785} `{Pydantic} `{Interpreter} `{Cbor2} `{Zstd} `{UnicodeData} `{JsonSchema} `{EventReader}.

(** ** One batch *)

Definition parse_manifest (document : bytes) : result ArchiveManifest :=
  manifest ← match (value ← parse_json_strict document; manifest_from_value value) with
             | Ok m => Ok m
             | Err (CanonicalJsonError _) | Err (ArchiveValidationError _) =>
               Err (ArchiveVerificationError "archive manifest is invalid")
             | Err e => Err e
             end;
  canonical ← manifest_bytes manifest;
  raise_if (negb (bool_decide (canonical = document)))
    (ArchiveVerificationError "archive manifest bytes are not canonical");;
  Ok manifest.

(** [try: r except CanonicalJsonError: raise e] *)
Definition except_canonical {A} (r : result A) (e : exn) : result A :=
  match r with Err (CanonicalJsonError _) => Err e | _ => r end.

(** [files[path]] *)
Definition content_at (files : gmap pystr bytes) (path : pystr) : result bytes :=
  from_option_or (files !! path) KeyError.

Definition verify_file (m : ArchiveManifest) (item : pystr * bytes) : result unit :=
  let '(path, content) := item in
  entry ← from_option_or (file_at (am_files m) path)
            (ArchiveVerificationError "archive contains an unmanifested path");
  raise_if (negb (Z.of_nat (length content) =? af_size entry))
    (ArchiveVerificationError "archive file size mismatch");;
  raise_if (negb (bool_decide (sha256_hex content = af_sha256 entry)))
    (ArchiveVerificationError "archive file SHA-256 mismatch").

(** [value.get("$id") != schema_id] for a mapping. *)
Definition schema_id_matches (value : JsonValue) (schema_id : pystr) : bool :=
  match value with
  | JObject l => match item_at (py "$id") l with Ok v => bool_decide (v = JStr schema_id) | Err _ => false end
  | _ => false
  end.

Definition verify_schema (files : gmap pystr bytes) (identity : SchemaIdentity) : result (pystr * JsonValue) :=
  content ← content_at files (si_path identity);
  value ← except_canonical (parse_json_strict content)
            (ArchiveVerificationError "checked-in archive schema is invalid JSON");
  raise_if (negb (schema_id_matches value (si_schema_id identity)))
    (ArchiveVerificationError "checked-in archive schema identity mismatch");;
  raise_if (negb (schema_check value)) (ArchiveVerificationError "checked-in archive JSON schema is invalid");;
  Ok (si_schema_id identity, value).

Definition verify_schemas (m : ArchiveManifest) (files : gmap pystr bytes) : result (list (pystr * JsonValue)) :=
  mapR (verify_schema files) (am_schemas m).

Definition canonical_json_file (document : bytes) : result JsonValue :=
  '(value, canonical) ← except_canonical (value ← parse_json_strict document;
                                          canonical ← canonical_plain_bytes value;
                                          Ok (value, canonical))
                          (ArchiveVerificationError "archive JSON file is invalid");
  raise_if (negb (bool_decide (canonical = document)))
    (ArchiveVerificationError "archive JSON file is not canonical");;
  Ok value.

Definition endswith (suffix s : pystr) : bool := startswith (rev suffix) (rev s).

Definition find_event_schema (schemas : list (pystr * JsonValue)) : option JsonValue :=
  snd <$> List.find (fun '(schema_id, _) => endswith (py "/memory-event.schema.json") schema_id) schemas.

(** [MemoryEvent.model_validate_json(document)], its failures replaced. *)
Definition read_event (document : bytes) : result MemoryEvent :=
  let read := event ← from_option_or (event_read document) (ValidationError "event");
              validate_canonical_contract event;;
              Ok event in
  match read with
  | Ok event => Ok event
  | Err e => if is_value_error e || match e with TypeError _ => true | _ => false end
             then Err (ArchiveVerificationError "archive event contract is invalid") else Err e
  end.

Definition is_event_path (path : pystr) : bool := startswith (py "events/") path.

Definition is_json_path (path : pystr) : bool :=
  is_event_path path || startswith (py "projections/") path || startswith (py "lineages/") path
  || bool_decide (path = py "archive-format.json").

(** The loop body over the sorted paths. *)
Definition verify_path (files : gmap pystr bytes) (event_schema : option JsonValue) (events : list MemoryEvent)
    (path : pystr) : result (list MemoryEvent) :=
  if is_json_path path then
    content ← content_at files path;
    parsed ← canonical_json_file content;
    if is_event_path path then
      raise_if (match event_schema with
                | Some schema => match schema_validate schema parsed with SchemaRejected => true | _ => false end
                | None => false
                end)
        (ArchiveVerificationError "archive event failed its checked-in JSON schema");;
      event ← read_event content;
      sequence ← event_sequence_from_path path;
      raise_if (negb (bool_decide (sequence = Some (e_sequence event))))
        (ArchiveVerificationError "event path and envelope sequence disagree");;
      Ok (events ++ [event])
    else Ok events
  else Ok events.

Definition verify_snapshot (limits : SnapshotLimits) (files : gmap pystr bytes) (reference : option SnapshotReference)
    : result (option SnapshotData) :=
  match reference with
  | None => Ok None
  | Some r =>
    content ← content_at files (sr_path r);
    snapshot ← decode limits content;
    raise_if (negb (sd_high_water_sequence snapshot =? sr_high_water_sequence r))
      (ArchiveVerificationError "snapshot and manifest high-water sequences disagree");;
    actual_size ← from_option_or (zstd_frame_content_size content)
                    (ArchiveVerificationError "snapshot frame size is invalid");
    raise_if (negb (actual_size =? sr_uncompressed_size r))
      (ArchiveVerificationError "snapshot uncompressed size does not match manifest");;
    Ok (Some snapshot)
  end.

Definition verify_archive_batch (limits : SnapshotLimits) (batch : ArchiveBatch) : result VerifiedArchiveBatch :=
  manifest ← parse_manifest (ab_manifest_bytes batch);
  let expected_paths := af_path <$> am_files manifest in
  let files := ab_files batch in
  raise_if (negb (bool_decide (dom files = (list_to_set expected_paths : gset pystr))))
    (ArchiveVerificationError "archive file set has missing or extra paths");;
  mapR (verify_file manifest) (map_to_list files);;
  schemas ← verify_schemas manifest files;
  events ← foldM (verify_path files (find_event_schema schemas)) [] (sort_by str_leb expected_paths);
  raise_if (negb (bool_decide (e_sequence <$> events =
                    seqZ (am_first_event_sequence manifest)
                         (am_last_event_sequence manifest - am_first_event_sequence manifest + 1))))
    (ArchiveVerificationError "archive event envelopes are not gap-free");;
  snapshot ← verify_snapshot limits files (am_snapshot manifest);
  Ok {| vb_manifest := manifest; vb_manifest_bytes := ab_manifest_bytes batch;
        vb_manifest_sha256 := sha256_hex (ab_manifest_bytes batch);
        vb_files := files; vb_events := events; vb_snapshot := snapshot |}.

(** ** The manifest chain *)

(** The loop over consecutive batches. *)
Fixpoint verify_links (previous : VerifiedArchiveBatch) (batches : list VerifiedArchiveBatch) : result unit :=
  match batches with
  | [] => Ok tt
  | current :: rest =>
    raise_if (negb (bool_decide (am_previous_manifest_sha256 (vb_manifest current) = Some (vb_manifest_sha256 previous))))
      (ArchiveVerificationError "archive manifest hash chain is broken");;
    raise_if (negb (am_first_event_sequence (vb_manifest current) =? am_last_event_sequence (vb_manifest previous) + 1))
      (ArchiveVerificationError "archive event ranges contain a gap or overlap");;
    raise_if (am_source_high_water_sequence (vb_manifest current)
              <=? am_source_high_water_sequence (vb_manifest previous))
      (ArchiveVerificationError "archive source high-water sequence did not advance");;
    verify_links current rest
  end.

Definition verify_manifest_chain (batches : list VerifiedArchiveBatch) (require_genesis : bool)
    (expected_previous_manifest_sha256 : option pystr) (expected_first_event_sequence : option Z) : result unit :=
  match batches with
  | [] => Err (ArchiveVerificationError "archive manifest chain is empty")
  | first :: rest =>
    (if require_genesis then
       raise_if (negb (is_none (am_previous_manifest_sha256 (vb_manifest first)))
                 || negb (am_first_event_sequence (vb_manifest first) =? 1))
         (ArchiveVerificationError "archive chain does not begin at genesis")
     else
       raise_if (negb (bool_decide (am_previous_manifest_sha256 (vb_manifest first) = expected_previous_manifest_sha256)))
         (ArchiveVerificationError "archive chain starts from the wrong manifest");;
       raise_if (match expected_first_event_sequence with
                 | Some n => negb (am_first_event_sequence (vb_manifest first) =? n)
                 | None => false
                 end)
         (ArchiveVerificationError "archive chain starts from the wrong event sequence"));;
    verify_links first rest
  end.

Definition verify_genesis_chain (batches : list VerifiedArchiveBatch) : result unit :=
  verify_manifest_chain batches true None None.

(** ** The signed chain *)

(** [archive_commit_message] of [archive/git.py]. *)
Definition archive_commit_message (first_event_sequence last_event_sequence : Z) : result pystr :=
  raise_if ((first_event_sequence <? 1) || (last_event_sequence <? first_event_sequence))
    (ValueError "archive commit event range is invalid");;
  Ok (py "memory-export: events " ++ int_str first_event_sequence ++ py ".." ++ int_str last_event_sequence ++ [10]).

(** [VerifiedArchive]: the commits of a chain. *)
Fixpoint check_parents (expected_parent_sha : option pystr) (commits : list VerifiedArchiveCommit) : result unit :=
  match commits with
  | [] => Ok tt
  | commit :: rest =>
    raise_if (negb (bool_decide (vg_parent_sha (vc_git commit) = expected_parent_sha)))
      (ValueError "verified archive Git chain is inconsistent");;
    check_parents (Some (vg_commit_sha (vc_git commit))) rest
  end.

(** [VerifiedArchive.__post_init__] *)
Definition validate_archive (commits : list VerifiedArchiveCommit) : result unit :=
  raise_if (bool_decide (length commits = 0%nat)) (ValueError "verified archive chain must not be empty");;
  check_parents None commits;;
  match verify_genesis_chain (vc_batch <$> commits) with
  | Err (ArchiveVerificationError _) => Err (ValueError "verified archive manifest chain is inconsistent")
  | r => r
  end.

(** [except GitSigningError: raise ArchiveVerificationError] *)
Definition except_git {A} (r : result A) : result A :=
  match r with
  | Err (GitSigningError _) => Err (ArchiveVerificationError "archive Git chain failed verification")
  | _ => r
  end.

(** The commit check of a verified batch, under the given verifier. *)
Definition verify_commit (signer : CommitVerifier) (candidate : ArchiveCommitBatch)
    (expected_parent_sha : option pystr) (b : VerifiedArchiveBatch) : result VerifiedGitCommit :=
  message ← archive_commit_message (am_first_event_sequence (vb_manifest b)) (am_last_event_sequence (vb_manifest b));
  signer (cb_commit_sha candidate) expected_parent_sha message (am_exported_at (vb_manifest b))
         (vb_files b ∪ {[MANIFEST_PATH := vb_manifest_bytes b]}).

(** One round of the loop: the verified commits so far and the parent the next
    commit must have. *)
Definition verify_candidate (limits : SnapshotLimits) (signer : CommitVerifier)
    (st : list VerifiedArchiveCommit * option pystr) (candidate : ArchiveCommitBatch)
    : result (list VerifiedArchiveCommit * option pystr) :=
  b ← verify_archive_batch limits (cb_batch candidate);
  git ← verify_commit signer candidate st.2 b;
  Ok (st.1 ++ [{| vc_git := git; vc_batch := b |}], Some (vg_commit_sha git)).

Definition verify_signed_archive (limits : SnapshotLimits) (commits : list ArchiveCommitBatch) (signer : CommitVerifier)
    : result (list VerifiedArchiveCommit) :=
  raise_if (bool_decide (length commits = 0%nat)) (ArchiveVerificationError "signed archive chain is empty");;
  '(verified, _) ← except_git (foldM (verify_candidate limits signer) ([], None) commits);
  verify_genesis_chain (vc_batch <$> verified);;
  validate_archive verified;;
  Ok verified.

(** ** Signer epochs *)

(** The epoch map covers the sequences from 1 without gaps; only its last
    epoch may be open-ended. *)
Fixpoint check_policy (expected_start : Z) (policy : list ArchiveSignerEpoch) : result unit :=
  match policy with
  | [] => Ok tt
  | epoch :: rest =>
    raise_if (negb (ep_first_event_sequence epoch =? expected_start))
      (ArchiveVerificationError "archive signer epoch map is gapped");;
    match ep_last_event_sequence epoch with
    | None =>
      raise_if (negb (bool_decide (length rest = 0%nat)))
        (ArchiveVerificationError "only the final signer epoch may be open-ended");;
      check_policy expected_start rest
    | Some last => check_policy (last + 1) rest
    end
  end.

Definition epoch_covers (m : ArchiveManifest) (epoch : ArchiveSignerEpoch) : bool :=
  (ep_first_event_sequence epoch <=? am_first_event_sequence m)
  && match ep_last_event_sequence epoch with None => true | Some last => am_last_event_sequence m <=? last end.

(** The cutoff of a compromised epoch; [true] when this commit is its anchor. *)
Definition check_cutoff (epoch : ArchiveSignerEpoch) (m : ArchiveManifest) (commit_sha : pystr) : result bool :=
  match ep_compromised_last_event_sequence epoch with
  | None => Ok false
  | Some cutoff =>
    raise_if (cutoff <? am_last_event_sequence m)
      (ArchiveVerificationError "archive signer commit is beyond its compromise cutoff");;
    if am_last_event_sequence m =? cutoff then
      raise_if (negb (bool_decide (Some commit_sha = ep_compromised_last_commit epoch)))
        (ArchiveVerificationError "archive signer compromise cutoff commit does not match");;
      Ok true
    else Ok false
  end.

Definition verify_epoch_candidate (limits : SnapshotLimits) (policy : list ArchiveSignerEpoch)
    (st : list VerifiedArchiveCommit * option pystr * list pystr) (candidate : ArchiveCommitBatch)
    : result (list VerifiedArchiveCommit * option pystr * list pystr) :=
  let '(verified, parent, observed) := st in
  b ← verify_archive_batch limits (cb_batch candidate);
  epoch ← match List.filter (epoch_covers (vb_manifest b)) policy with
          | [epoch] => Ok epoch
          | _ => Err (ArchiveVerificationError "archive batch crosses or misses an external signer epoch")
          end;
  anchored ← check_cutoff epoch (vb_manifest b) (cb_commit_sha candidate);
  git ← verify_commit (ep_verifier epoch) candidate parent b;
  Ok (verified ++ [{| vc_git := git; vc_batch := b |}], Some (vg_commit_sha git),
      if anchored : bool then ep_epoch_id epoch :: observed else observed).

(** [{epoch.epoch_id for epoch in policy if epoch.compromised_last_commit is not None}] *)
Definition expected_cutoffs (policy : list ArchiveSignerEpoch) : list pystr :=
  ep_epoch_id <$> List.filter (fun e => negb (is_none (ep_compromised_last_commit e))) policy.

Definition same_set (a b : list pystr) : bool :=
  forallb (fun x => bool_decide (x ∈ b)) a && forallb (fun x => bool_decide (x ∈ a)) b.

Definition verify_signed_archive_epochs (limits : SnapshotLimits) (commits : list ArchiveCommitBatch)
    (policy : list ArchiveSignerEpoch) : result (list VerifiedArchiveCommit) :=
  raise_if (bool_decide (length commits = 0%nat) || bool_decide (length policy = 0%nat))
    (ArchiveVerificationError "archive chain or signer epoch map is empty");;
  check_policy 1 policy;;
  '(verified, _, observed) ← except_git (foldM (verify_epoch_candidate limits policy) ([], None, []) commits);
  verify_genesis_chain (vc_batch <$> verified);;
  raise_if (negb (same_set observed (expected_cutoffs policy)))
    (ArchiveVerificationError "archive signer compromise cutoff anchor is absent");;
  validate_archive verified;;
  Ok verified.
End Verification.
