(* ===== verification/ArchiveFacts.v ===== *)
(** * ArchiveFacts: what a verified batch is

    The facts the checks of [archive/models.py] and [archive/verification.py]
    establish, one lemma per routine, and the record of what
    [verify_archive_batch] guarantees. *)

From stdpp Require Import base tactics option list gmap strings.
From Stdlib Require Import ZArith Lia Bool.
From S2P Require Import Prelude Identifiers Enums Values CanonicalJson Digest Text Regex IsoFormat Constraints Events JsonParse Archive Snapshot ArchiveVerification.
Open Scope Z_scope.

(** ** Manifests *)

Lemma file_from_value_valid v f : file_from_value v = Ok f -> validate_file f = Ok tt.
Proof. intros Hf. unfold file_from_value in Hf. inv_bind. by apply construct_Ok in H4 as [-> ?]. Qed.

Lemma schema_identity_from_value_valid v s :
  schema_identity_from_value v = Ok s -> validate_schema_identity s = Ok tt.
Proof. intros Hf. unfold schema_identity_from_value in Hf. inv_bind. by apply construct_Ok in H3 as [-> ?]. Qed.

Lemma snapshot_reference_from_value_valid v r :
  snapshot_reference_from_value v = Ok r -> validate_snapshot_reference r = Ok tt.
Proof. intros Hf. unfold snapshot_reference_from_value in Hf. inv_bind. by apply construct_Ok in H3 as [-> ?]. Qed.

Lemma mapR_valid {A B} (f : A -> result B) (P : B -> Prop) l bs :
  (forall a b, f a = Ok b -> P b) -> mapR f l = Ok bs -> Forall P bs.
Proof. intros Hf Hl%mapR_Forall2. induction Hl; constructor; eauto. Qed.

Lemma manifest_from_value_valid v m : manifest_from_value v = Ok m -> manifest_valid m.
Proof.
  intros Hr. unfold manifest_from_value in Hr.
  apply bind_Ok in Hr as (item & _ & Hr). apply bind_Ok in Hr as (files & _ & Hr).
  apply bind_Ok in Hr as (schemas & _ & Hr). do 2 apply bind_Ok in Hr as (? & _ & Hr).
  apply bind_Ok in Hr as (snapshot & _ & Hr). do 10 apply bind_Ok in Hr as (? & _ & Hr).
  apply bind_Ok in Hr as (snapshot' & Hsnap & Hr). apply bind_Ok in Hr as (files' & Hfiles & Hr).
  apply bind_Ok in Hr as (schemas' & Hschemas & Hr). do 2 apply bind_Ok in Hr as (? & _ & Hr).
  apply construct_Ok in Hr as [-> Hv]. split_and!; [..|exact Hv]; cbn [am_files am_schemas am_snapshot].
  - eapply mapR_valid; [apply file_from_value_valid|exact Hfiles].
  - eapply mapR_valid; [apply schema_identity_from_value_valid|exact Hschemas].
  - intros r ->. assert (exists w, snapshot_reference_from_value w = Ok r) as (w & Hw).
    { destruct snapshot; try done; apply fmap_Ok in Hsnap as (? & ? & [= ->]); eauto. }
    by eapply snapshot_reference_from_value_valid.
Qed.

(** What a valid manifest states. *)
Record manifest_facts (m : ArchiveManifest) : Prop := {
  mf_first : 1 <= am_first_event_sequence m;
  mf_range : am_first_event_sequence m <= am_last_event_sequence m;
  mf_high_water : am_source_high_water_sequence m = am_last_event_sequence m;
  mf_count : am_event_count m = am_last_event_sequence m - am_first_event_sequence m + 1;
  mf_sorted : sort_by file_leb (am_files m) = am_files m;
  mf_unique : NoDup (af_path <$> am_files m);
  mf_snapshot r : am_snapshot m = Some r ->
    sr_high_water_sequence r <= am_source_high_water_sequence m /\ is_Some (file_at (am_files m) (sr_path r));
  mf_schemas : Forall (fun s => exists f, file_at (am_files m) (si_path s) = Some f /\ af_sha256 f = si_sha256 s)
                      (am_schemas m);
  mf_events : exists actual, event_sequences (am_files m) = Ok actual /\
    forall s, s ∈ actual <-> am_first_event_sequence m <= s <= am_last_event_sequence m
}.

Lemma covers_range_spec actual first last :
  first <= last -> covers_range actual first last = true <-> forall s, s ∈ actual <-> first <= s <= last.
Proof.
  intros Hle. unfold covers_range. rewrite andb_true_iff, !forallb_forall. setoid_rewrite andb_true_iff.
  setoid_rewrite Z.leb_le. setoid_rewrite bool_decide_eq_true. setoid_rewrite <- list_elem_of_In.
  setoid_rewrite elem_of_seqZ. split.
  - intros [H1 H2] s. split; [apply H1|]. intros ?. apply H2. lia.
  - intros Hs. split; intros s Hin; [by apply Hs|]. apply Hs. lia.
Qed.

Lemma manifest_valid_facts m : manifest_valid m -> manifest_facts m.
Proof.
  intros (_ & _ & _ & Hv). unfold validate_manifest in Hv.
  apply bind_Ok in Hv as ([] & _ & Hv). apply bind_Ok in Hv as ([] & Hseq & Hv).
  apply bind_Ok in Hv as ([] & _ & Hv). apply bind_Ok in Hv as ([] & _ & Hv).
  apply bind_Ok in Hv as ([] & Hfiles & Hv). apply bind_Ok in Hv as ([] & Hschemas & Hv).
  apply bind_Ok in Hv as ([] & Hsnap & Hv). apply bind_Ok in Hv as (actual & Hactual & Hv).
  apply bind_Ok in Hv as ([] & Hcover%raise_if_Ok%negb_false_iff & _).
  unfold validate_sequences in Hseq. apply bind_Ok in Hseq as ([] & H1%raise_if_Ok & Hseq).
  apply bind_Ok in Hseq as ([] & H2%raise_if_Ok%Z.ltb_ge & Hseq).
  apply bind_Ok in Hseq as ([] & H3%raise_if_Ok%negb_false_iff%Z.eqb_eq & H4%raise_if_Ok%negb_false_iff%Z.eqb_eq).
  rewrite existsb_false in H1. unfold validate_files in Hfiles.
  apply bind_Ok in Hfiles as ([] & _ & Hfiles).
  apply bind_Ok in Hfiles as ([] & Hsort%raise_if_Ok%negb_false_iff%bool_decide_eq_true & Hfiles).
  apply bind_Ok in Hfiles as ([] & Hnd%raise_if_Ok%negb_false_iff%nodupb_NoDup & _).
  unfold validate_schemas in Hschemas. do 3 apply bind_Ok in Hschemas as ([] & _ & Hschemas).
  apply raise_if_Ok, negb_false_iff in Hschemas. rewrite forallb_forall in Hschemas.
  assert (Hfirst : 1 <= am_first_event_sequence m) by (apply Z.ltb_ge, H1; right; left).
  split; try done.
  - intros r Hr. unfold validate_snapshot in Hsnap. rewrite Hr in Hsnap.
    apply bind_Ok in Hsnap as ([] & H5%raise_if_Ok%negb_false_iff%bool_decide_eq_true & H6%raise_if_Ok%Z.ltb_ge). done.
  - apply Forall_forall. intros s Hin%list_elem_of_In%Hschemas. case_match; [|done]. apply bool_decide_eq_true in Hin. eauto.
  - exists actual. split; [done|]. by apply covers_range_spec.
Qed.

(** An event path encodes its sequence. *)
Lemma event_sequence_event_path path s :
  event_sequence_from_path path = Ok (Some s) -> is_event_path path = true /\ 1 <= s.
Proof.
  unfold event_sequence_from_path, is_event_path. intros Hs. apply bind_Ok in Hs as (? & _ & Hs).
  destruct (startswith _ path); cbn [negb] in Hs; [|done]. apply bind_Ok in Hs as (n & _ & Hs).
  apply bind_Ok in Hs as ([] & Hn%raise_if_Ok%Z.ltb_ge & [= ->]). done.
Qed.

Lemma event_sequences_elem files actual s :
  event_sequences files = Ok actual ->
  s ∈ actual <-> exists f, f ∈ files /\ event_sequence_from_path (af_path f) = Ok (Some s).
Proof.
  unfold event_sequences. intros (l & Hl%mapR_Forall2 & <-)%fmap_Ok. induction Hl as [|f o files l Hf _ IH].
  - cbn. split; [by intros ?%not_elem_of_nil|by intros (? & ?%not_elem_of_nil & _)].
  - setoid_rewrite elem_of_cons. destruct o as [n|]; cbn [omap list_omap id].
    + rewrite elem_of_cons, IH. split; [naive_solver|]. intros (g & [->|?] & Hg); [left; congruence|eauto].
    + rewrite IH. split; [naive_solver|]. intros (g & [->|?] & Hg); [congruence|eauto].
Qed.

Lemma file_at_elem files path f :
  NoDup (af_path <$> files) -> file_at files path = Some f <-> f ∈ files /\ af_path f = path.
Proof.
  unfold file_at. induction files as [|g files IH]; cbn [find].
  - intros _. split; [done|by intros [?%not_elem_of_nil _]].
  - rewrite fmap_cons, NoDup_cons, elem_of_cons. intros [Hg Hn]. case_bool_decide as Hp.
    + split; [intros [= ->]; auto|]. intros [[->|Hin] Hf]; [done|]. destruct Hg. rewrite Hp, <- Hf.
      by apply list_elem_of_fmap_2.
    + rewrite IH by done. naive_solver.
Qed.

(** ** Batches *)

Section Batch.
Context `{Rfc8785} `{Pydantic} `{Interpreter} `{Cbor2} `{Zstd} `{UnicodeData} `{JsonSchema} `{EventReader}.

Lemma parse_manifest_valid document m :
  parse_manifest document = Ok m -> manifest_valid m /\ manifest_bytes m = Ok document.
Proof.
  unfold parse_manifest. intros Hm. apply bind_Ok in Hm as (m' & Hm' & Hm). apply bind_Ok in Hm as (b & Hb & Hm).
  apply bind_Ok in Hm as ([] & Hc%raise_if_Ok%negb_false_iff%bool_decide_eq_true & [= ->]). subst b. split; [|done].
  destruct (value ← parse_json_strict document; manifest_from_value value) as [m0|e] eqn:Hp.
  - injection Hm' as ->. apply bind_Ok in Hp as (v & _ & Hp). by eapply manifest_from_value_valid.
  - by destruct e.
Qed.

(** The event an event file holds. *)
Definition event_of_path (files : gmap pystr bytes) (path : pystr) (e : MemoryEvent) : Prop :=
  exists content, files !! path = Some content /\ read_event content = Ok e /\
    event_sequence_from_path path = Ok (Some (e_sequence e)).

Lemma read_event_contract content e : read_event content = Ok e -> validate_canonical_contract e = Ok tt.
Proof.
  unfold read_event. intros Hr.
  destruct (from_option_or (event_read content) (ValidationError "event")) as [ev|x]; cbn [mbind result_bind] in Hr; [|by case_match].
  destruct (validate_canonical_contract ev) as [[]|x] eqn:Hc; cbn [mbind result_bind] in Hr; [by injection Hr as <-|].
  by case_match.
Qed.

Lemma verify_path_event files schema events path events' :
  verify_path files schema events path = Ok events' -> is_event_path path = true ->
  exists e, events' = events ++ [e] /\ event_of_path files path e.
Proof.
  unfold verify_path, is_json_path. intros Hr Hp. rewrite Hp in Hr. cbn [orb] in Hr.
  apply bind_Ok in Hr as (content & Hc%from_option_or_Ok & Hr). apply bind_Ok in Hr as (v & _ & Hr).
  apply bind_Ok in Hr as ([] & _ & Hr). apply bind_Ok in Hr as (e & He & Hr). apply bind_Ok in Hr as (s & Hs & Hr).
  apply bind_Ok in Hr as ([] & Hseq%raise_if_Ok%negb_false_iff%bool_decide_eq_true & [= <-]). subst s.
  exists e. split; [done|]. by exists content.
Qed.

Lemma verify_path_other files schema events path events' :
  verify_path files schema events path = Ok events' -> is_event_path path = false -> events' = events.
Proof.
  unfold verify_path. intros Hr Hp. rewrite Hp in Hr. destruct (is_json_path path); [|by injection Hr].
  apply bind_Ok in Hr as (content & _ & Hr). apply bind_Ok in Hr as (v & _ & Hr). by injection Hr.
Qed.

Lemma verify_paths files schema paths events events' :
  foldM (verify_path files schema) events paths = Ok events' ->
  exists new, events' = events ++ new /\ Forall2 (event_of_path files) (List.filter is_event_path paths) new.
Proof.
  revert events. induction paths as [|path paths IH]; intros events Hr; cbn [foldM List.filter] in *.
  - injection Hr as <-. exists []. by rewrite app_nil_r.
  - apply bind_Ok in Hr as (ev & He & Hr). destruct (IH _ Hr) as (new & -> & Hf).
    destruct (is_event_path path) eqn:Hp.
    + apply verify_path_event in He as (e & -> & He); [|done]. exists (e :: new). rewrite <- app_assoc. by auto.
    + apply verify_path_other in He as ->; [|done]. by exists new.
Qed.

(** What [verify_archive_batch] guarantees of its result. *)
Record batch_verified (b : VerifiedArchiveBatch) : Prop := {
  bv_parse : parse_manifest (vb_manifest_bytes b) = Ok (vb_manifest b);
  bv_sha256 : vb_manifest_sha256 b = sha256_hex (vb_manifest_bytes b);
  bv_valid : manifest_valid (vb_manifest b);
  bv_paths : dom (vb_files b) = (list_to_set (af_path <$> am_files (vb_manifest b)) : gset pystr);
  bv_contents path content : vb_files b !! path = Some content ->
    exists f, file_at (am_files (vb_manifest b)) path = Some f /\
      sha256_hex content = af_sha256 f /\ Z.of_nat (length content) = af_size f;
  bv_sequences : e_sequence <$> vb_events b =
    seqZ (am_first_event_sequence (vb_manifest b))
         (am_last_event_sequence (vb_manifest b) - am_first_event_sequence (vb_manifest b) + 1);
  bv_events : Forall2 (event_of_path (vb_files b))
    (List.filter is_event_path (sort_by str_leb (af_path <$> am_files (vb_manifest b)))) (vb_events b);
  bv_snapshot : match am_snapshot (vb_manifest b), vb_snapshot b with
                | Some r, Some s => sd_high_water_sequence s = sr_high_water_sequence r
                | None, None => True
                | _, _ => False
                end
}.

Lemma verify_archive_batch_verified limits batch b :
  verify_archive_batch limits batch = Ok b ->
  batch_verified b /\ vb_manifest_bytes b = ab_manifest_bytes batch /\ vb_files b = ab_files batch.
Proof.
  unfold verify_archive_batch. intros Hb. apply bind_Ok in Hb as (m & Hm & Hb).
  apply bind_Ok in Hb as ([] & Hdom%raise_if_Ok%negb_false_iff%bool_decide_eq_true & Hb).
  apply bind_Ok in Hb as (us & Hfiles & Hb). apply bind_Ok in Hb as (schemas & _ & Hb).
  apply bind_Ok in Hb as (events & Hev & Hb).
  apply bind_Ok in Hb as ([] & Hseq%raise_if_Ok%negb_false_iff%bool_decide_eq_true & Hb).
  apply bind_Ok in Hb as (snap & Hsnap & [= <-]). split; [|done].
  split; cbn [vb_manifest vb_manifest_bytes vb_manifest_sha256 vb_files vb_events vb_snapshot]; try done.
  - by apply parse_manifest_valid in Hm as [].
  - intros path content Hc. apply elem_of_map_to_list in Hc. apply mapR_Forall2 in Hfiles.
    apply list_elem_of_lookup in Hc as (i & Hi). destruct (Forall2_lookup_l _ _ _ _ _ Hfiles Hi) as ([] & _ & Hv).
    unfold verify_file in Hv. apply bind_Ok in Hv as (f & Hf%from_option_or_Ok & Hv).
    apply bind_Ok in Hv as ([] & Hlen%raise_if_Ok%negb_false_iff%Z.eqb_eq & Hh%raise_if_Ok%negb_false_iff%bool_decide_eq_true).
    by exists f.
  - apply verify_paths in Hev as (new & -> & Hf). done.
  - unfold verify_snapshot in Hsnap. destruct (am_snapshot m) as [r|]; [|by injection Hsnap as <-].
    apply bind_Ok in Hsnap as (content & _ & Hsnap). apply bind_Ok in Hsnap as (s & _ & Hsnap).
    apply bind_Ok in Hsnap as ([] & Hs%raise_if_Ok%negb_false_iff%Z.eqb_eq & Hsnap).
    apply bind_Ok in Hsnap as (n & _ & Hsnap). apply bind_Ok in Hsnap as ([] & _ & [= <-]). done.
Qed.

(** The events of a batch satisfy the event contract. *)
Lemma batch_events_contract b :
  batch_verified b -> Forall (fun e => validate_canonical_contract e = Ok tt) (vb_events b).
Proof.
  intros [_ _ _ _ _ _ Hf _]. induction Hf as [|path e paths events (content & _ & He & _) _ IH]; constructor; [|done].
  by eapply read_event_contract.
Qed.
End Batch.
