(* ===== verification/ArchiveTheorems.v ===== *)
(** * ArchiveTheorems: what a verified archive proves

    Gap freedom, tamper evidence and signer epochs of the chains
    [archive/verification.py] accepts, and the manifest round trip. *)

From stdpp Require Import base tactics option list gmap strings.
From Stdlib Require Import ZArith Lia Bool.
From S2P Require Import Prelude Identifiers Enums Values CanonicalJson Digest Text Constraints Events Regex IsoFormat JsonParse Archive Snapshot ArchiveVerification ArchiveFacts.
Open Scope Z_scope.

(** [x] and [y] are different byte strings with one SHA-256 digest. *)
Definition digest_clash (x y : bytes) : Prop := x <> y /\ sha256_hex x = sha256_hex y.

(** The manifests of two batches clash, or their contents at one path do. *)
Definition batches_clash (a b : ArchiveBatch) : Prop :=
  digest_clash (ab_manifest_bytes a) (ab_manifest_bytes b) \/
  exists path x y, ab_files a !! path = Some x /\ ab_files b !! path = Some y /\ digest_clash x y.

Lemma seqZ_append a n m : 0 <= n -> 0 <= m -> seqZ a n ++ seqZ (a + n) m = seqZ a (n + m).
Proof. intros. by rewrite seqZ_app. Qed.

Lemma last_shift {A} (l : list A) c p : List.last (c :: l) p = List.last l c.
Proof. revert c p. induction l as [|x l IH]; intros c p; [done|]. transitivity (List.last l x); [apply IH|symmetry; apply IH]. Qed.

Section Archive.
Context `{Rfc8785} `{Pydantic} `{Interpreter} `{Cbor2} `{Zstd} `{UnicodeData} `{JsonSchema} `{EventReader}.

Definition first_of (b : VerifiedArchiveBatch) : Z := am_first_event_sequence (vb_manifest b).
Definition last_of (b : VerifiedArchiveBatch) : Z := am_last_event_sequence (vb_manifest b).

(** The events of consecutive batches, in order. *)
Definition chain_events (batches : list VerifiedArchiveBatch) : list MemoryEvent := mjoin (vb_events <$> batches).

Lemma verify_links_cons p c rest :
  verify_links p (c :: rest) = Ok tt <->
  am_previous_manifest_sha256 (vb_manifest c) = Some (vb_manifest_sha256 p) /\
  first_of c = last_of p + 1 /\
  am_source_high_water_sequence (vb_manifest p) < am_source_high_water_sequence (vb_manifest c) /\
  verify_links c rest = Ok tt.
Proof.
  cbn [verify_links]. rewrite bind_Ok. setoid_rewrite bind_Ok. setoid_rewrite bind_Ok. setoid_rewrite raise_if_Ok.
  setoid_rewrite negb_false_iff. setoid_rewrite bool_decide_eq_true. setoid_rewrite Z.eqb_eq. setoid_rewrite Z.leb_gt.
  split.
  - intros ([] & ? & [] & ? & [] & ? & ?). done.
  - intros (? & ? & ? & ?). by repeat (exists tt; split; [done|]).
Qed.

Lemma links_sequences p rest :
  Forall batch_verified (p :: rest) -> verify_links p rest = Ok tt ->
  e_sequence <$> chain_events (p :: rest) =
    seqZ (first_of p) (last_of (List.last rest p) - first_of p + 1) /\ last_of p <= last_of (List.last rest p).
Proof.
  revert p. induction rest as [|c rest IH]; intros p Hall Hl; inversion Hall as [|? ? Hp Hrest]; subst.
  - cbn [chain_events fmap list_fmap mjoin list_join List.last]. rewrite app_nil_r. split; [apply Hp|lia].
  - apply verify_links_cons in Hl as (_ & Hf & _ & Hl). destruct (IH _ Hrest Hl) as [Hs Hle].
    rewrite last_shift.
    assert (Hc : first_of c <= last_of c /\ first_of p <= last_of p).
    { inversion Hrest as [|? ? Hc _]; subst.
      split; apply mf_range, manifest_valid_facts; [apply Hc|apply Hp]. }
    split; [|lia]. change (chain_events (p :: c :: rest)) with (vb_events p ++ chain_events (c :: rest)).
    rewrite fmap_app, Hs, Hf.
    rewrite (bv_sequences _ Hp). fold (first_of p) (last_of p).
    replace (last_of p + 1) with (first_of p + (last_of p - first_of p + 1)) at 1 by lia.
    rewrite seqZ_append by lia. f_equal. lia.
Qed.

(** ** From the signed chain to its batches *)

(** A candidate and the verified commit it became. *)
Definition verified_as (candidate : ArchiveCommitBatch) (commit : VerifiedArchiveCommit) : Prop :=
  batch_verified (vc_batch commit) /\
  vb_manifest_bytes (vc_batch commit) = ab_manifest_bytes (cb_batch candidate) /\
  vb_files (vc_batch commit) = ab_files (cb_batch candidate).

Lemma except_git_Ok {A} (r : result A) a : except_git r = Ok a -> r = Ok a.
Proof. destruct r as [|[]]; cbn; naive_solver. Qed.

Lemma verify_candidates limits signer commits st st' :
  foldM (verify_candidate limits signer) st commits = Ok st' ->
  exists new, st'.1 = st.1 ++ new /\ Forall2 verified_as commits new.
Proof.
  revert st. induction commits as [|c commits IH]; intros st Hr; cbn [foldM] in Hr.
  - injection Hr as <-. exists []. by rewrite app_nil_r.
  - apply bind_Ok in Hr as (st1 & Hc & Hr). destruct (IH _ Hr) as (new & Hnew & Hf).
    unfold verify_candidate in Hc. apply bind_Ok in Hc as (b & Hb & Hc). apply bind_Ok in Hc as (git & Hg & [= <-]).
    cbn [fst] in Hnew. exists ({| vc_git := git; vc_batch := b |} :: new). rewrite Hnew, <- app_assoc. split; [done|].
    constructor; [|done]. by apply verify_archive_batch_verified in Hb.
Qed.

Lemma verify_signed_archive_batches limits commits signer verified :
  verify_signed_archive limits commits signer = Ok verified ->
  Forall2 verified_as commits verified /\ verify_genesis_chain (vc_batch <$> verified) = Ok tt /\
  validate_archive verified = Ok tt.
Proof.
  unfold verify_signed_archive. intros Hr. apply bind_Ok in Hr as ([] & _ & Hr).
  apply bind_Ok in Hr as ([v p] & Hf%except_git_Ok & Hr). apply bind_Ok in Hr as ([] & Hg & Hr).
  apply bind_Ok in Hr as ([] & Hv & [= ->]). apply verify_candidates in Hf as (new & Hnew & Hf). cbn in Hnew. subst. done.
Qed.

Definition archive_events (commits : list VerifiedArchiveCommit) : list MemoryEvent :=
  chain_events (vc_batch <$> commits).

Lemma verified_as_batches commits verified :
  Forall2 verified_as commits verified -> Forall batch_verified (vc_batch <$> verified).
Proof. induction 1 as [|? ? ? ? (Hb & _) _ IH]; constructor; done. Qed.

Lemma genesis_chain_inv batches :
  verify_genesis_chain batches = Ok tt -> exists first rest, batches = first :: rest /\
    am_previous_manifest_sha256 (vb_manifest first) = None /\ first_of first = 1 /\ verify_links first rest = Ok tt.
Proof.
  unfold verify_genesis_chain, verify_manifest_chain. destruct batches as [|first rest]; [done|]. intros Hr.
  apply bind_Ok in Hr as ([] & Hg%raise_if_Ok%orb_false_iff & Hl). destruct Hg as [Hnone%negb_false_iff Hone%negb_false_iff%Z.eqb_eq].
  exists first, rest. split_and!; try done. by destruct (am_previous_manifest_sha256 _).
Qed.

Lemma genesis_chain_sequences batches :
  Forall batch_verified batches -> verify_genesis_chain batches = Ok tt ->
  exists first rest, batches = first :: rest /\ 1 <= last_of (List.last rest first) /\
    e_sequence <$> chain_events batches = seqZ 1 (last_of (List.last rest first)).
Proof.
  intros Hall Hg. apply genesis_chain_inv in Hg as (first & rest & -> & _ & Hf & Hl). exists first, rest.
  destruct (links_sequences _ _ Hall Hl) as [Hs Hle]. inversion Hall as [|? ? Hb _]; subst.
  pose proof (mf_range _ (manifest_valid_facts _ (bv_valid _ Hb))) as Hr. fold (first_of first) (last_of first) in Hr.
  rewrite Hf in *. split_and!; [done|lia|]. rewrite Hs. f_equal. lia.
Qed.

Lemma chain_events_contract batches :
  Forall batch_verified batches -> Forall (fun e => validate_canonical_contract e = Ok tt) (chain_events batches).
Proof.
  induction 1 as [|b batches Hb _ IH]; [constructor|]. apply Forall_app. split; [by apply batch_events_contract|done].
Qed.

(** ** The head manifest determines the archive *)

(** The bytes a verified batch was read from. *)
Definition presented (b : VerifiedArchiveBatch) : ArchiveBatch :=
  {| ab_manifest_bytes := vb_manifest_bytes b; ab_files := vb_files b |}.

Lemma verified_as_presented commits verified :
  Forall2 verified_as commits verified -> cb_batch <$> commits = presented <$> (vc_batch <$> verified).
Proof.
  induction 1 as [|c v commits verified (_ & Hm & Hf) _ IH]; [done|]. rewrite !fmap_cons, IH. f_equal.
  unfold presented. rewrite Hm, Hf. by destruct (cb_batch c).
Qed.

(** Batches with equal manifest digests are equal, or their bytes clash. *)
Lemma batch_determined a b :
  batch_verified a -> batch_verified b -> vb_manifest_sha256 a = vb_manifest_sha256 b ->
  (presented a = presented b /\ vb_manifest a = vb_manifest b) \/ batches_clash (presented a) (presented b).
Proof.
  intros Ha Hb Heq. rewrite (bv_sha256 _ Ha), (bv_sha256 _ Hb) in Heq.
  destruct (decide (vb_manifest_bytes a = vb_manifest_bytes b)) as [Hbytes|Hne]; [|right; by left].
  assert (Hm : vb_manifest a = vb_manifest b).
  { pose proof (bv_parse _ Ha) as H1'. pose proof (bv_parse _ Hb) as H2'. rewrite Hbytes, H2' in H1'. by injection H1'. }
  destruct (decide (map_Forall (fun path c => vb_files b !! path = Some c) (vb_files a))) as [Hall|Hno].
  - left. split; [|done]. unfold presented. f_equal; [done|]. apply map_eq. intros path.
    destruct (vb_files a !! path) as [c|] eqn:Hc.
    + symmetry. by apply Hall.
    + apply not_elem_of_dom in Hc. symmetry. apply not_elem_of_dom. by rewrite (bv_paths _ Hb), <- Hm, <- (bv_paths _ Ha).
  - right. right. apply map_not_Forall in Hno as (path & x & Hx & Hne); [|apply _].
    assert (Hy : path ∈ dom (vb_files b)).
    { rewrite (bv_paths _ Hb), <- Hm, <- (bv_paths _ Ha). by apply elem_of_dom_2 in Hx. }
    apply elem_of_dom in Hy as [y Hy]. exists path, x, y. split_and!; [done..|]. split; [congruence|].
    destruct (bv_contents _ Ha _ _ Hx) as (f & Hf & Hfx & _). destruct (bv_contents _ Hb _ _ Hy) as (g & Hg & Hgy & _).
    rewrite Hm in Hf. congruence.
Qed.

Lemma verify_links_snoc p rest c :
  verify_links p (rest ++ [c]) = Ok tt ->
  verify_links p rest = Ok tt /\
  am_previous_manifest_sha256 (vb_manifest c) = Some (vb_manifest_sha256 (List.last rest p)).
Proof.
  revert p. induction rest as [|d rest IH]; intros p Hl; cbn [app] in Hl.
  - apply verify_links_cons in Hl as (Hp & _). done.
  - rewrite last_shift. apply verify_links_cons in Hl as (Hp & Hf & Hh & Hl). apply IH in Hl as [Hl Hc].
    split; [|done]. by apply verify_links_cons.
Qed.

(** A chain whose last batch names no predecessor is that batch alone. *)
Lemma genesis_chain_snoc batches c :
  verify_genesis_chain (batches ++ [c]) = Ok tt ->
  (batches = [] /\ am_previous_manifest_sha256 (vb_manifest c) = None) \/
  (exists init d, batches = init ++ [d] /\ verify_genesis_chain batches = Ok tt /\
     am_previous_manifest_sha256 (vb_manifest c) = Some (vb_manifest_sha256 d)).
Proof.
  intros Hg. destruct batches as [|f batches].
  - left. apply genesis_chain_inv in Hg as (first & rest & [= <- _] & Hp & _). done.
  - right. apply genesis_chain_inv in Hg as (first & rest & [= <- <-] & Hp & Hf & Hl).
    apply verify_links_snoc in Hl as [Hl Hc]. exists (removelast (f :: batches)), (List.last batches f).
    rewrite <- (last_shift batches f f). split_and!.
    + by apply app_removelast_last.
    + unfold verify_genesis_chain, verify_manifest_chain. rewrite Hp. fold (first_of f). rewrite Hf. exact Hl.
    + by rewrite last_shift.
Qed.

Lemma chain_determined batches batches' c c' :
  Forall batch_verified (batches ++ [c]) -> Forall batch_verified (batches' ++ [c']) ->
  verify_genesis_chain (batches ++ [c]) = Ok tt -> verify_genesis_chain (batches' ++ [c']) = Ok tt ->
  vb_manifest_sha256 c = vb_manifest_sha256 c' ->
  presented <$> (batches ++ [c]) = presented <$> (batches' ++ [c']) \/
  exists a b, a ∈ presented <$> (batches ++ [c]) /\ b ∈ presented <$> (batches' ++ [c']) /\ batches_clash a b.
Proof.
  revert batches' c c'. induction batches as [|d batches IH] using rev_ind; intros batches' c c' Ha Hb Hg Hg' Heq.
  all: apply Forall_app in Ha as [Ha Hc]; apply Forall_app in Hb as [Hb Hc'].
  all: inversion Hc; inversion Hc'; subst;
    (destruct (batch_determined c c' ltac:(done) ltac:(done) Heq) as [(Hpres & Hm)|Hclash];
     [|right; exists (presented c), (presented c'); rewrite !fmap_app; set_solver]);
    apply genesis_chain_snoc in Hg, Hg'; rewrite Hm in Hg.
  - destruct Hg as [[_ Hp]|(i & x & Hno & _)]; [|by destruct i].
    destruct Hg' as [[-> _]|(i & x & _ & _ & Hp')]; [|congruence]. left. cbn. by rewrite Hpres.
  - destruct Hg as [[Hno _]|(i & x & Hx & Hg & Hp)]; [by destruct batches|]. apply app_inj_2 in Hx as [_ [= <-]]; [|done].
    destruct Hg' as [[_ Hp']|(i' & x' & -> & Hg' & Hp')]; [congruence|].
    rewrite (fmap_app presented (batches ++ [d])), (fmap_app presented (i' ++ [x'])).
    destruct (IH i' d x' Ha Hb Hg Hg' ltac:(congruence)) as [Hf|(a & b & Hina & Hinb & Hcl)].
    + left. rewrite Hf. cbn. by rewrite Hpres.
    + right. exists a, b. rewrite !elem_of_app. auto.
Qed.

(** ** Signer epochs *)

Definition epoch_has (e : ArchiveSignerEpoch) (s : Z) : Prop :=
  ep_first_event_sequence e <= s /\ match ep_last_event_sequence e with Some last => s <= last | None => True end.

(** The one epoch that covers a batch, its verifier's answer and its cutoff. *)
Definition signed_in_epoch (policy : list ArchiveSignerEpoch) (candidate : ArchiveCommitBatch)
    (commit : VerifiedArchiveCommit) : Prop :=
  exists epoch, List.filter (epoch_covers (vb_manifest (vc_batch commit))) policy = [epoch] /\
    (exists parent, verify_commit (ep_verifier epoch) candidate parent (vc_batch commit) = Ok (vc_git commit)) /\
    (forall cutoff, ep_compromised_last_event_sequence epoch = Some cutoff ->
       last_of (vc_batch commit) <= cutoff /\
       (last_of (vc_batch commit) = cutoff -> Some (cb_commit_sha candidate) = ep_compromised_last_commit epoch)).

(** This commit is the anchor of the epoch with the given identity. *)
Definition anchors (policy : list ArchiveSignerEpoch) (id : pystr) (candidate : ArchiveCommitBatch)
    (commit : VerifiedArchiveCommit) : Prop :=
  exists epoch, epoch ∈ policy /\ ep_epoch_id epoch = id /\
    ep_compromised_last_event_sequence epoch = Some (last_of (vc_batch commit)) /\
    ep_compromised_last_commit epoch = Some (cb_commit_sha candidate).

Lemma covering_epoch m policy epoch :
  List.filter (epoch_covers m) policy = [epoch] -> epoch ∈ policy /\ epoch_covers m epoch = true.
Proof.
  intros Hf. rewrite list_elem_of_In. apply filter_In. rewrite Hf. by left.
Qed.

Lemma check_cutoff_Ok epoch m commit_sha anchored :
  check_cutoff epoch m commit_sha = Ok anchored ->
  (forall cutoff, ep_compromised_last_event_sequence epoch = Some cutoff ->
     am_last_event_sequence m <= cutoff /\
     (am_last_event_sequence m = cutoff -> Some commit_sha = ep_compromised_last_commit epoch)) /\
  (anchored = true -> ep_compromised_last_event_sequence epoch = Some (am_last_event_sequence m) /\
     ep_compromised_last_commit epoch = Some commit_sha).
Proof.
  unfold check_cutoff. destruct (ep_compromised_last_event_sequence epoch) as [c|]; [|by intros [= <-]].
  intros Hr. apply bind_Ok in Hr as ([] & Hc%raise_if_Ok%Z.ltb_ge & Hr).
  destruct (Z.eqb_spec (am_last_event_sequence m) c) as [He|He].
  - apply bind_Ok in Hr as ([] & Hs%raise_if_Ok%negb_false_iff%bool_decide_eq_true & [= <-]).
    split; [by intros ? [= <-]|]. intros _. by rewrite He.
  - injection Hr as <-. split; [|done]. by intros ? [= <-].
Qed.

Lemma verify_epoch_candidates limits policy commits st st' :
  foldM (verify_epoch_candidate limits policy) st commits = Ok st' ->
  exists new, st'.1.1 = st.1.1 ++ new /\
    Forall2 (fun c v => verified_as c v /\ signed_in_epoch policy c v) commits new /\
    forall id, id ∈ st'.2 -> id ∈ st.2 \/
      exists i c v, commits !! i = Some c /\ new !! i = Some v /\ anchors policy id c v.
Proof.
  revert st. induction commits as [|c commits IH]; intros st Hr; cbn [foldM] in Hr.
  - injection Hr as <-. exists []. rewrite app_nil_r. split_and!; [done..|auto].
  - apply bind_Ok in Hr as (st1 & Hc & Hr). destruct (IH _ Hr) as (new & Hnew & Hf & Hobs).
    unfold verify_epoch_candidate in Hc. destruct st as [[verified parent] observed].
    apply bind_Ok in Hc as (b & Hb & Hc). apply bind_Ok in Hc as (epoch & He & Hc).
    apply bind_Ok in Hc as (anchored & Ha & Hc). apply bind_Ok in Hc as (git & Hg & [= <-]). cbn [fst snd] in *.
    assert (Hepoch : List.filter (epoch_covers (vb_manifest b)) policy = [epoch])
      by (destruct (List.filter (epoch_covers (vb_manifest b)) policy) as [|e0 [|]]; try done; by injection He as <-).
    apply check_cutoff_Ok in Ha as [Hcut Hanch]. apply verify_archive_batch_verified in Hb.
    exists ({| vc_git := git; vc_batch := b |} :: new). rewrite Hnew, <- app_assoc. split_and!; [done| |].
    + constructor; [|done]. split; [done|]. exists epoch. split_and!; eauto.
    + intros id [Hin|(i & c' & v & Hi & Hv & Hid)]%Hobs.
      * destruct anchored; [|by left]. apply elem_of_cons in Hin as [->|Hin]; [right|by left].
        exists 0%nat, c, {| vc_git := git; vc_batch := b |}. split_and!; [done..|]. exists epoch.
        destruct (Hanch eq_refl) as [? ?]. split_and!; try done. by apply covering_epoch in Hepoch as [].
      * right. by exists (S i), c', v.
Qed.

Lemma verify_signed_archive_epochs_batches limits commits policy verified :
  verify_signed_archive_epochs limits commits policy = Ok verified ->
  check_policy 1 policy = Ok tt /\
  Forall2 (fun c v => verified_as c v /\ signed_in_epoch policy c v) commits verified /\
  verify_genesis_chain (vc_batch <$> verified) = Ok tt /\
  forall id, id ∈ expected_cutoffs policy ->
    exists i c v, commits !! i = Some c /\ verified !! i = Some v /\ anchors policy id c v.
Proof.
  unfold verify_signed_archive_epochs. intros Hr. apply bind_Ok in Hr as ([] & _ & Hr).
  apply bind_Ok in Hr as ([] & Hp & Hr). apply bind_Ok in Hr as ([[v q] observed] & Hf%except_git_Ok & Hr).
  apply bind_Ok in Hr as ([] & Hg & Hr). apply bind_Ok in Hr as ([] & Hs%raise_if_Ok%negb_false_iff & Hr).
  apply bind_Ok in Hr as ([] & Hv & [= ->]). apply verify_epoch_candidates in Hf as (new & Hnew & Hf & Hobs).
  cbn [fst snd app] in *. subst. split_and!; [done..|]. intros id Hid.
  apply andb_true_iff in Hs as [_ Hs]. rewrite forallb_forall in Hs.
  apply list_elem_of_In, Hs, bool_decide_eq_true, Hobs in Hid as [?%not_elem_of_nil|?]; done.
Qed.

(** A checked epoch map assigns a sequence to at most one epoch. *)
Lemma check_policy_starts start policy e :
  check_policy start policy = Ok tt -> Forall (fun e => validate_epoch e = Ok tt) policy -> e ∈ policy ->
  start <= ep_first_event_sequence e.
Proof.
  revert start. induction policy as [|x policy IH]; intros start Hc Hv Hin; [by apply not_elem_of_nil in Hin|].
  inversion Hv as [|? ? Hx Hv']; subst. cbn [check_policy] in Hc.
  apply bind_Ok in Hc as ([] & Hs%raise_if_Ok%negb_false_iff%Z.eqb_eq & Hc).
  apply elem_of_cons in Hin as [->|Hin]; [lia|].
  unfold validate_epoch in Hx. apply bind_Ok in Hx as ([] & _ & Hx).
  apply bind_Ok in Hx as ([] & Hl%raise_if_Ok & _).
  destruct (ep_last_event_sequence x) as [last|].
  - apply Z.ltb_ge in Hl. specialize (IH _ Hc Hv' Hin). lia.
  - apply bind_Ok in Hc as ([] & _ & Hc). by apply (IH _ Hc).
Qed.

Lemma check_policy_disjoint start policy e1 e2 s :
  check_policy start policy = Ok tt -> Forall (fun e => validate_epoch e = Ok tt) policy ->
  e1 ∈ policy -> e2 ∈ policy -> epoch_has e1 s -> epoch_has e2 s -> e1 = e2.
Proof.
  revert start. induction policy as [|x policy IH]; intros start Hc Hv H1' H2' Hs1 Hs2; [by apply not_elem_of_nil in H1'|].
  inversion Hv as [|? ? Hx Hv']; subst. cbn [check_policy] in Hc. apply bind_Ok in Hc as ([] & _ & Hc).
  assert (Hno : forall e, epoch_has x s -> e ∈ policy -> epoch_has e s -> False).
  { intros e Hxs Hin [He _]. destruct Hxs as [_ Hxs]. destruct (ep_last_event_sequence x) as [last|].
    - pose proof (check_policy_starts _ _ _ Hc Hv' Hin). lia.
    - apply bind_Ok in Hc as ([] & Hlen%raise_if_Ok%negb_false_iff%bool_decide_eq_true & _).
      destruct policy; [by apply not_elem_of_nil in Hin|done]. }
  apply elem_of_cons in H1' as [->|H1'], H2' as [->|H2']; [done| | |].
  - exfalso. by eapply Hno.
  - exfalso. by eapply Hno.
  - destruct (ep_last_event_sequence x); [by eapply IH|]. apply bind_Ok in Hc as ([] & _ & Hc). by eapply IH.
Qed.

Lemma compromised_commit epoch cutoff :
  validate_epoch epoch = Ok tt -> ep_compromised_last_event_sequence epoch = Some cutoff ->
  negb (is_none (ep_compromised_last_commit epoch)) = true.
Proof.
  unfold validate_epoch. intros Hv Hc. do 3 (apply bind_Ok in Hv as ([] & _ & Hv)).
  apply bind_Ok in Hv as ([] & He%raise_if_Ok & _). rewrite Hc in He. by destruct (ep_compromised_last_commit epoch).
Qed.

(** The events of a verified batch lie in its manifest's range. *)
Lemma batch_event_range b e : batch_verified b -> e ∈ vb_events b -> first_of b <= e_sequence e <= last_of b.
Proof.
  intros Hb Hin. apply (list_elem_of_fmap_2 e_sequence) in Hin. rewrite (bv_sequences _ Hb) in Hin.
  apply elem_of_seqZ in Hin. unfold first_of, last_of. lia.
Qed.
End Archive.

(** * Manifests are read back as they were built

    JSON objects compare without order ([json_equiv]); reading a manifest
    respects it, so whatever order the serializer chose, the canonical bytes of
    a built manifest parse to that manifest. *)

(** Equality of JSON values up to the order of object members. *)
Inductive json_equiv : JsonValue -> JsonValue -> Prop :=
| je_refl v : json_equiv v v
| je_array l l' : Forall2 json_equiv l l' -> json_equiv (JArray l) (JArray l')
| je_object l l1 l' :
    NoDup l.*1 -> l ≡ₚ l1 -> Forall2 (fun a b => a.1 = b.1 /\ json_equiv a.2 b.2) l1 l' ->
    json_equiv (JObject l) (JObject l').

Lemma Forall2_json_refl l : Forall2 json_equiv l l.
Proof. induction l; constructor; [apply je_refl|done]. Qed.

Lemma item_at_elem name l v : NoDup l.*1 -> item_at name l = Ok v <-> (name, v) ∈ l.
Proof.
  induction l as [|[k w] l IH]; cbn [item_at]; [intros _; split; [done|by intros ?%not_elem_of_nil]|].
  rewrite fmap_cons, NoDup_cons, elem_of_cons. intros [Hk Hn]. rewrite <- IH by done.
  case_bool_decide as Hd; [subst|naive_solver]. split; [naive_solver|]. intros [[= ->]|Hin]; [done|].
  destruct Hk. apply list_elem_of_fmap. exists (name, v). split; [done|]. by apply IH.
Qed.

(** An equal object has the same names and equal members. *)
Lemma json_equiv_object l w :
  json_equiv (JObject l) w -> NoDup l.*1 ->
  exists l', w = JObject l' /\ (forall k, k ∈ object_keys l' <-> k ∈ object_keys l) /\
    forall k v, item_at k l = Ok v -> exists v', item_at k l' = Ok v' /\ json_equiv v v'.
Proof.
  intros Heq Hn. inversion Heq as [|? ? Hf|? m l' _ Hp Hf]; subst.
  - exists l. split_and!; [done..|]. intros k v Hk. exists v. split; [done|apply je_refl].
  - assert (Hk : m.*1 = l'.*1).
    { clear -Hf. induction Hf as [|a b m l' [Ha _] _ IH]; [done|]. by rewrite !fmap_cons, Ha, IH. }
    assert (Hn' : NoDup l'.*1) by by rewrite <- Hk, <- Hp.
    exists l'. split_and!; [done|intros k; unfold object_keys; by rewrite <- Hk, Hp|]. intros k v Hm%item_at_elem; [|done].
    rewrite Hp in Hm. apply list_elem_of_lookup in Hm as (i & Hi).
    destruct (Forall2_lookup_l _ _ _ _ _ Hf Hi) as ([k' v'] & Hi' & Hke & Hv). cbn in Hke, Hv. subst k'.
    exists v'. split; [|done]. apply item_at_elem; [done|]. by eapply list_elem_of_lookup_2.
Qed.

Lemma strict_mapping_keys l l' fields :
  strict_mapping (JObject l) fields = Ok l -> (forall k, k ∈ object_keys l' <-> k ∈ object_keys l) ->
  strict_mapping (JObject l') fields = Ok l'.
Proof.
  cbn [strict_mapping]. intros Hl Hk. apply bind_Ok in Hl as ([] & Hc%raise_if_Ok%negb_false_iff & _).
  apply andb_true_iff in Hc as [Ha Hb]. rewrite forallb_forall in Ha, Hb.
  replace (forallb _ (object_keys l') && _) with true; [done|]. symmetry.
  apply andb_true_iff. rewrite !forallb_forall. split.
  - intros k Hin%list_elem_of_In%Hk%list_elem_of_In. by apply Ha.
  - intros k Hin. apply bool_decide_eq_true, Hk. by apply Hb, bool_decide_eq_true in Hin.
Qed.

(** Leaves are equal only to themselves. *)
Lemma json_equiv_str s w : json_equiv (JStr s) w -> w = JStr s.
Proof. by inversion 1. Qed.
Lemma json_equiv_int n w : json_equiv (JInt n) w -> w = JInt n.
Proof. by inversion 1. Qed.
Lemma json_equiv_null w : json_equiv JNull w -> w = JNull.
Proof. by inversion 1. Qed.
Lemma json_equiv_array l w : json_equiv (JArray l) w -> exists l', w = JArray l' /\ Forall2 json_equiv l l'.
Proof. inversion 1; subst; eauto using Forall2_json_refl. Qed.

Lemma string_at_equiv k l l' s :
  (forall k v, item_at k l = Ok v -> exists v', item_at k l' = Ok v' /\ json_equiv v v') ->
  item_at k l = Ok (JStr s) -> string_at k l' = Ok s.
Proof. intros Hat Hk. destruct (Hat _ _ Hk) as (v' & Hv & ->%json_equiv_str). unfold string_at. by rewrite Hv. Qed.
Lemma integer_at_equiv k l l' n :
  (forall k v, item_at k l = Ok v -> exists v', item_at k l' = Ok v' /\ json_equiv v v') ->
  item_at k l = Ok (JInt n) -> integer_at k l' = Ok n.
Proof. intros Hat Hk. destruct (Hat _ _ Hk) as (v' & Hv & ->%json_equiv_int). unfold integer_at. by rewrite Hv. Qed.

(** Open an object equal to a literal one: its members are read below. *)
Ltac open_object Heq l Hat :=
  let Hk := fresh "Hkeys" in
  apply json_equiv_object in Heq as (l & -> & Hk & Hat); [|by repeat constructor; set_solver];
  match goal with |- context [strict_mapping (JObject l) ?fields] =>
    let Hm := fresh "Hm" in
    assert (Hm : strict_mapping (JObject l) fields = Ok l)
      by (eapply strict_mapping_keys; [|exact Hk]; vm_compute; reflexivity);
    rewrite Hm; clear Hm Hk
  end; cbn [mbind result_bind].

Ltac read_members Hat :=
  repeat first
    [ erewrite (string_at_equiv _ _ _ _ Hat) by reflexivity
    | erewrite (integer_at_equiv _ _ _ _ Hat) by reflexivity ];
  cbn [mbind result_bind].

Lemma file_value_reads f v : json_equiv (file_value f) v -> validate_file f = Ok tt -> file_from_value v = Ok f.
Proof.
  intros Heq Hv. unfold file_value in Heq. unfold file_from_value. open_object Heq l Hat. read_members Hat.
  apply construct_Ok. by destruct f.
Qed.

Lemma snapshot_reference_value_reads r v :
  json_equiv (snapshot_reference_value r) v -> validate_snapshot_reference r = Ok tt ->
  snapshot_reference_from_value v = Ok r.
Proof.
  intros Heq Hv. unfold snapshot_reference_value in Heq. unfold snapshot_reference_from_value.
  open_object Heq l Hat. read_members Hat. apply construct_Ok. by destruct r.
Qed.

Lemma schema_identity_value_reads s v :
  json_equiv (schema_identity_value s) v -> validate_schema_identity s = Ok tt -> schema_identity_from_value v = Ok s.
Proof.
  intros Heq Hv. unfold schema_identity_value in Heq. unfold schema_identity_from_value.
  open_object Heq l Hat. read_members Hat. apply construct_Ok. by destruct s.
Qed.

Lemma mapR_reads {A} (to : A -> JsonValue) (from : JsonValue -> result A) (P : A -> Prop) l vs :
  (forall a v, json_equiv (to a) v -> P a -> from v = Ok a) ->
  Forall P l -> Forall2 json_equiv (to <$> l) vs -> mapR from vs = Ok l.
Proof.
  intros Hr HP Hf. apply mapR_Forall2. revert vs Hf. induction HP as [|a l Ha _ IH]; intros vs Hf;
    [rewrite fmap_nil in Hf|rewrite fmap_cons in Hf]; inversion Hf; subst; constructor; auto.
Qed.

Lemma manifest_value_reads m v :
  json_equiv (manifest_value m) v -> manifest_valid m -> manifest_from_value v = Ok m.
Proof.
  intros Heq (Hfiles & Hschemas & Hsnap & Hv). unfold manifest_value in Heq. unfold manifest_from_value.
  open_object Heq l Hat.
  destruct (Hat (py "files") _ eq_refl) as (v1 & E1 & (files & -> & Hf)%json_equiv_array).
  destruct (Hat (py "schemas") _ eq_refl) as (v2 & E2 & (schemas & -> & Hs)%json_equiv_array).
  destruct (Hat (py "previous_manifest_sha256") _ eq_refl) as (v3 & E3 & Hprev).
  destruct (Hat (py "snapshot") _ eq_refl) as (v4 & E4 & Hsn).
  destruct (Hat (py "postgres_timeline_id") _ eq_refl) as (v5 & E5 & Htl).
  destruct (Hat (py "git_commit_sha") _ eq_refl) as (v6 & E6 & ->%json_equiv_null).
  rewrite E1, E2, E3, E4, E5, E6. cbn [mbind result_bind as_sequence].
  assert (v3 = from_option JStr JNull (am_previous_manifest_sha256 m)) as ->
    by (destruct (am_previous_manifest_sha256 m); [by apply json_equiv_str|by apply json_equiv_null]).
  assert (v5 = from_option JInt JNull (am_postgres_timeline_id m)) as ->
    by (destruct (am_postgres_timeline_id m); [by apply json_equiv_int|by apply json_equiv_null]).
  assert (Hp : forall (o : option pystr), match from_option JStr JNull o with
      | JNull => Ok None | JStr s => Ok (Some s)
      | _ => Err (ArchiveValidationError "previous manifest sha256 must be a string or null") end = Ok o) by by intros [].
  assert (Ht : forall (o : option Z), match from_option JInt JNull o with
      | JNull => Ok None | JInt n => Ok (Some n)
      | _ => Err (ArchiveValidationError "PostgreSQL timeline ID must be an integer or null") end = Ok o) by by intros [].
  rewrite Hp. cbn [mbind result_bind]. rewrite Ht. cbn [mbind result_bind].
  rewrite bool_decide_true by done. cbn [negb raise_if mbind result_bind].
  read_members Hat.
  assert (Hsn' : match v4 with JNull => Ok None | v => Some <$> snapshot_reference_from_value v end = Ok (am_snapshot m)).
  { destruct (am_snapshot m) as [r|] eqn:Er; cbn [from_option] in Hsn.
    - pose proof (snapshot_reference_value_reads r v4 Hsn (Hsnap r eq_refl)) as Hr. rewrite Hr.
      inversion Hsn; subst; done.
    - by apply json_equiv_null in Hsn as ->. }
  rewrite Hsn'. cbn [mbind result_bind].
  rewrite (mapR_reads file_value file_from_value _ _ _ file_value_reads Hfiles Hf). cbn [mbind result_bind].
  rewrite (mapR_reads schema_identity_value schema_identity_from_value _ _ _ schema_identity_value_reads Hschemas Hs).
  cbn [mbind result_bind]. read_members Hat. apply construct_Ok. by destruct m.
Qed.

(** ** Building *)

Lemma build_manifest_valid files first last previous schema_ids version exported hw size timeline m :
  build_manifest files first last previous schema_ids version exported hw size timeline = Ok m -> manifest_valid m.
Proof.
  unfold build_manifest. intros Hr. apply bind_Ok in Hr as (records & Hrec & Hr).
  apply bind_Ok in Hr as (schemas & Hsch & Hr). apply bind_Ok in Hr as ([] & _ & Hr).
  apply bind_Ok in Hr as (snapshot & Hsnap & Hr). apply bind_Ok in Hr as (ex & _ & Hr).
  apply construct_Ok in Hr as [-> Hv]. split_and!; [..|exact Hv]; cbn [am_files am_schemas am_snapshot].
  - eapply mapR_valid; [|exact Hrec]. intros [path content] f Hf. apply bind_Ok in Hf as (mt & _ & Hf).
    by apply construct_Ok in Hf as [-> ?].
  - rewrite sort_by_perm. eapply mapR_valid; [|exact Hsch]. intros [id f] s Hs. by apply construct_Ok in Hs as [-> ?].
  - intros r ->. destruct hw, size; try done. apply fmap_Ok in Hsnap as (r' & Hr' & [= ->]). by apply construct_Ok in Hr' as [-> ?].
Qed.

Lemma manifest_bytes_parse `{Rfc8785} `{Interpreter} m document v :
  manifest_valid m -> manifest_bytes m = Ok document -> parse_json_strict document = Ok v ->
  json_equiv (manifest_value m) v -> parse_manifest document = Ok m.
Proof.
  intros Hm Hb Hp Heq. unfold parse_manifest. rewrite Hp. cbn [mbind result_bind].
  rewrite (manifest_value_reads m v Heq Hm). cbn [mbind result_bind]. rewrite Hb. cbn [mbind result_bind].
  by rewrite bool_decide_true.
Qed.
