(* ===== verification/ArchiveSamples.v ===== *)
(** * ArchiveSamples: a two-batch archive

    Executable instances of the archive's third-party interfaces and a signed
    archive of three events with a snapshot, on which the archive theorems are
    applied.  Manifests are serialized in full; event documents are read from a
    table by their content. *)

From stdpp Require Import base tactics option list gmap strings.
From Stdlib Require Import ZArith Lia Bool Sorted.
From S2P Require Import Prelude Identifiers Enums Values CanonicalJson Digest Text Constraints Events Folding Samples Regex IsoFormat JsonParse Archive Snapshot ArchiveVerification ArchiveFacts ArchiveTheorems.
Open Scope Z_scope.

(** Commands hash as in [Samples]; every other value is serialized in full. *)
Definition archive_rfc8785 : Rfc8785 := fun v =>
  match v with
  | JObject ((k, _) :: _) => if bool_decide (k = py "tenant_id") then sample_rfc8785 v else show_json 66 v
  | _ => show_json 66 v
  end.

Definition archive_limit : Interpreter := {| recursion_limit := 200; integer_digits := ADDRESS_SPACE_DIGITS |}.

(** The byte 161 is the snapshot at sequence 2 without tables. *)
Definition archive_snapshot_items : list (Cbor * Cbor) :=
  [(CText (py "format"), CText SNAPSHOT_FORMAT); (CText (py "high_water_sequence"), CInt 2);
   (CText (py "tables"), CArray [])].

Definition archive_cbor : Cbor2 := {|
  cbor_dumps v := if bool_decide (v = CMap archive_snapshot_items) then Some [161] else None;
  cbor_loads b := if bool_decide (b = [161]) then Some (CMap archive_snapshot_items) else None
|}.

Definition archive_zstd : Zstd := {|
  zstd_compress b := 40 :: b;
  zstd_decompress b limit := match b with _ :: rest => Some rest | [] => None end;
  zstd_get_frame_parameters b :=
    Some {| fp_content_size := Z.of_nat (length b) - 1; fp_has_checksum := true; fp_dict_id := 0 |};
  zstd_frame_content_size b := Some (Z.of_nat (length b) - 1)
|}.

Definition archive_unicode : UnicodeData := {| char_isalnum c := true; char_isalpha c := true |}.

Definition archive_schemas : JsonSchema := {|
  schema_check v := true;
  schema_validate schema v := SchemaAccepted
|}.

(** The document of the [n]-th event. *)
Definition event_document (n : Z) : bytes := quoted "{'sequence':" ++ int_str n ++ py "}".

Definition archive_reader : EventReader := fun document =>
  snd <$> List.find (fun '(n, _) => bool_decide (event_document n = document)) (zip [1; 2; 3] sample_events).

#[export] Existing Instances archive_rfc8785 archive_limit archive_cbor archive_zstd archive_unicode
  archive_schemas archive_reader.

Definition event_path (n : Z) : pystr :=
  py "events/2026/01/01/" ++ format_012d n ++ py "-" ++ uuid_str (uid (100 + n)) ++ py ".json".

Definition SCHEMA_ID : pystr := py "https://schemas.scalevault.dev/memory-event.schema.json".
Definition SCHEMA_PATH : pystr := py "schemas/memory-event.schema.json".

Definition common_files : gmap pystr bytes :=
  {[py "archive-format.json" :=
      quoted "{'archive_format':'scalevault-archive-v1','manifest_schema_version':2}";
    SCHEMA_PATH := quoted "{'$id':'https://schemas.scalevault.dev/memory-event.schema.json'}"]}.

Definition batch_files (sequences : list Z) (snapshot : option Z) : gmap pystr bytes :=
  list_to_map ((fun n => (event_path n, event_document n)) <$> sequences)
  ∪ match snapshot with Some n => {[snapshot_path n := [40; 161]]} | None => ∅ end
  ∪ common_files.

Definition EXPORTED : datetime := mk_datetime (days_of_civil 2026 1 2 * 86400000000) (Some 0).

Definition sample_manifest (sequences : list Z) (previous : option pystr) (snapshot : option Z) : result ArchiveManifest :=
  build_manifest (batch_files sequences snapshot) (List.hd 0 sequences) (List.last sequences 0) previous
    {[SCHEMA_ID := SCHEMA_PATH]} (py "1.0.0") EXPORTED snapshot ((fun _ => 1) <$> snapshot) None.

Definition sample_batch (sequences : list Z) (previous : option pystr) (snapshot : option Z) : ArchiveBatch :=
  match (m ← sample_manifest sequences previous snapshot; manifest_bytes m) with
  | Ok document => {| ab_manifest_bytes := document; ab_files := batch_files sequences snapshot |}
  | Err _ => {| ab_manifest_bytes := []; ab_files := ∅ |}
  end.

Definition batch_1 : ArchiveBatch := Eval vm_compute in sample_batch [1; 2] None (Some 2).
Definition batch_2 : ArchiveBatch :=
  Eval vm_compute in sample_batch [3] (Some (sha256_hex (ab_manifest_bytes batch_1))) None.

Definition commit_id (digit : Z) : pystr := replicate 40 digit.

Definition sample_commits : list ArchiveCommitBatch :=
  [{| cb_commit_sha := commit_id 97; cb_batch := batch_1 |}; {| cb_commit_sha := commit_id 98; cb_batch := batch_2 |}].

(** A verifier that accepts every commit under the parent it is asked about. *)
Definition sample_signer : CommitVerifier := fun commit parent message timestamp files =>
  Ok {| vg_commit_sha := commit; vg_tree_sha := commit_id 99; vg_parent_sha := parent |}.

Example sample_archive_verifies :
  length <$> verify_signed_archive default_limits sample_commits sample_signer = Ok 2%nat.
Proof. vm_compute. reflexivity. Qed.

(** * The theorems on verified archives

    Gap freedom, tamper evidence, compromise cutoffs, path order and the
    manifest round trip, each applied to the archive of [ArchiveSamples]. *)

(** C22: a signed archive that verifies is the event log from its beginning.
    Its events, batch after batch, carry the sequences 1 to n without gap or
    repetition, each event satisfies the hash contract of the log, the batches
    are byte for byte the ones presented, and the commits form one
    first-parent chain from the root. *)
Theorem verified_archive_is_gap_free `{Rfc8785} `{Pydantic} `{Interpreter} `{Cbor2} `{Zstd} `{UnicodeData}
    `{JsonSchema} `{EventReader} (limits : SnapshotLimits) (commits : list ArchiveCommitBatch) (signer : CommitVerifier)
    (verified : list VerifiedArchiveCommit) :
  verify_signed_archive limits commits signer = Ok verified ->
  (exists n, 1 <= n /\ e_sequence <$> archive_events verified = seqZ 1 n) /\
  Forall (fun e => validate_canonical_contract e = Ok tt) (archive_events verified) /\
  Forall2 verified_as commits verified /\
  check_parents None verified = Ok tt.
Proof.
  intros Hv. apply verify_signed_archive_batches in Hv as (Hf & Hg & Ha).
  pose proof (verified_as_batches _ _ Hf) as Hb.
  destruct (genesis_chain_sequences _ Hb Hg) as (first & rest & _ & Hn & Hs). split_and!; [by eauto| |done|].
  - by apply chain_events_contract.
  - unfold validate_archive in Ha. apply bind_Ok in Ha as ([] & _ & Ha). by apply bind_Ok in Ha as ([] & Hp & _).
Qed.

(** C23: an archive is tamper evident.  The digest of its newest manifest
    determines the whole archive: two archives that verify, under whatever
    signers, and end in manifests of one digest hold the same batches, manifest
    and file bytes of every commit included, unless a manifest of one and a
    manifest of the other, or the contents of one path in a batch of one and in
    a batch of the other, are two different byte strings with one SHA-256
    digest. *)
Theorem archive_tamper_evident `{Rfc8785} `{Pydantic} `{Interpreter} `{Cbor2} `{Zstd} `{UnicodeData}
    `{JsonSchema} `{EventReader} (limits limits' : SnapshotLimits) (commits commits' : list ArchiveCommitBatch)
    (signer signer' : CommitVerifier) (verified verified' : list VerifiedArchiveCommit) :
  verify_signed_archive limits commits signer = Ok verified ->
  verify_signed_archive limits' commits' signer' = Ok verified' ->
  (fun c => vb_manifest_sha256 (vc_batch c)) <$> last verified =
  (fun c => vb_manifest_sha256 (vc_batch c)) <$> last verified' ->
  cb_batch <$> commits = cb_batch <$> commits' \/
  exists a b, a ∈ cb_batch <$> commits /\ b ∈ cb_batch <$> commits' /\ batches_clash a b.
Proof.
  intros Hv Hv' Heq. apply verify_signed_archive_batches in Hv as (Hf & Hg & _).
  apply verify_signed_archive_batches in Hv' as (Hf' & Hg' & _).
  pose proof (verified_as_batches _ _ Hf) as Hb. pose proof (verified_as_batches _ _ Hf') as Hb'.
  rewrite (verified_as_presented _ _ Hf), (verified_as_presented _ _ Hf').
  destruct verified as [|c l _] using rev_ind; [done|]. destruct verified' as [|c' l' _] using rev_ind; [done|].
  rewrite !last_snoc in Heq. injection Heq as Heq. rewrite (fmap_app vc_batch l), (fmap_app vc_batch l') in *.
  by apply chain_determined.
Qed.

(** C27: signer epochs and compromise cutoffs are enforced.  Under an epoch map
    of valid epochs, every batch of an accepted archive lies in exactly one
    epoch, whose verifier accepted its commit, and does not pass that epoch's
    cutoff.  For an epoch whose signer is marked compromised, no event of the
    epoch lies beyond the cutoff sequence, and the archive contains an anchored
    commit of that epoch identity, ending exactly at its cutoff; it is the
    epoch's own anchor when no other epoch has its identity. *)
Theorem compromise_cutoff_enforced `{Rfc8785} `{Pydantic} `{Interpreter} `{Cbor2} `{Zstd} `{UnicodeData}
    `{JsonSchema} `{EventReader} (limits : SnapshotLimits) (commits : list ArchiveCommitBatch)
    (policy : list ArchiveSignerEpoch) (verified : list VerifiedArchiveCommit) :
  verify_signed_archive_epochs limits commits policy = Ok verified ->
  Forall (fun e => validate_epoch e = Ok tt) policy ->
  Forall2 (signed_in_epoch policy) commits verified /\
  forall epoch cutoff, epoch ∈ policy -> ep_compromised_last_event_sequence epoch = Some cutoff ->
    (forall e, e ∈ archive_events verified -> epoch_has epoch (e_sequence e) -> e_sequence e <= cutoff) /\
    (exists i c v, commits !! i = Some c /\ verified !! i = Some v /\ anchors policy (ep_epoch_id epoch) c v) /\
    ((forall other, other ∈ policy -> ep_epoch_id other = ep_epoch_id epoch -> other = epoch) ->
     exists i c v, commits !! i = Some c /\ verified !! i = Some v /\
       ep_compromised_last_commit epoch = Some (cb_commit_sha c) /\ last_of (vc_batch v) = cutoff).
Proof.
  intros Hv Hval. apply verify_signed_archive_epochs_batches in Hv as (Hp & Hf & Hg & Hanch).
  split; [eapply Forall2_impl; [exact Hf|]; by intros ? ? []|]. intros epoch cutoff Hin Hcut.
  assert (Ha : exists i c v, commits !! i = Some c /\ verified !! i = Some v /\ anchors policy (ep_epoch_id epoch) c v).
  { apply Hanch. unfold expected_cutoffs. apply list_elem_of_fmap_2, list_elem_of_In, filter_In.
    split; [by apply list_elem_of_In|]. rewrite Forall_forall in Hval. by eapply compromised_commit; [apply Hval|]. }
  split_and!; [|done|].
  - intros e He Hs. apply list_elem_of_join in He as (events & He & Hevents).
    apply list_elem_of_fmap in Hevents as (b & -> & Hb). apply list_elem_of_fmap in Hb as (v & -> & Hv).
    apply list_elem_of_lookup in Hv as (i & Hi). destruct (Forall2_lookup_r _ _ _ _ _ Hf Hi) as (c & _ & (Hbv & _) & Hse).
    pose proof (batch_event_range _ _ Hbv He) as Hr. destruct Hse as (epoch' & Hfil & _ & Hc).
    apply covering_epoch in Hfil as [Hin' Hcov].
    assert (epoch' = epoch) as ->.
    { eapply (check_policy_disjoint 1 policy _ _ (e_sequence e)); try done. unfold epoch_covers in Hcov.
      apply andb_true_iff in Hcov as [H1'%Z.leb_le H2']. unfold first_of, last_of in Hr.
      split; [lia|]. destruct (ep_last_event_sequence epoch'); [|done]. apply Z.leb_le in H2'. lia. }
    destruct (Hc _ Hcut) as [Hle _]. lia.
  - intros Huniq. destruct Ha as (i & c & v & Hi & Hv & (epoch' & Hin' & Hid & Hs & Hc)).
    rewrite (Huniq _ Hin' Hid) in *. exists i, c, v. split_and!; try done; congruence.
Qed.

Lemma StronglySorted_filter {A} (R : A -> A -> Prop) (test : A -> bool) l :
  StronglySorted R l -> StronglySorted R (List.filter test l).
Proof.
  induction 1 as [|a l _ IH Ha]; cbn; [constructor|]. destruct (test a); [|done]. constructor; [done|].
  rewrite Forall_forall in Ha. apply Forall_forall. intros x Hx. apply Ha.
  apply list_elem_of_In, filter_In in Hx as [Hx _]. by apply list_elem_of_In.
Qed.

Lemma paths_follow_sequence `{Rfc8785} `{Pydantic} `{Interpreter} `{Cbor2} `{Zstd} `{UnicodeData}
    `{JsonSchema} `{EventReader} (limits : SnapshotLimits) (batch : ArchiveBatch) (b : VerifiedArchiveBatch)
    (p q : pystr) (n m : Z) :
  verify_archive_batch limits batch = Ok b ->
  p ∈ dom (ab_files batch) -> q ∈ dom (ab_files batch) ->
  event_sequence_from_path p = Ok (Some n) -> event_sequence_from_path q = Ok (Some m) ->
  n < m <-> (str_leb p q = true /\ p <> q).
Proof.
  intros Hv Hp Hq Hn Hm. apply verify_archive_batch_verified in Hv as (Hb & _ & Hfiles).
  rewrite <- Hfiles, (bv_paths _ Hb), elem_of_list_to_set in Hp, Hq.
  set (L := List.filter is_event_path (sort_by str_leb (af_path <$> am_files (vb_manifest b)))).
  assert (Hin : forall x k, x ∈ af_path <$> am_files (vb_manifest b) -> event_sequence_from_path x = Ok (Some k) ->
            exists i, L !! i = Some x /\ k = am_first_event_sequence (vb_manifest b) + Z.of_nat i).
  { intros x k Hx Hk. assert (Hx' : x ∈ L).
    { apply list_elem_of_In, filter_In. split; [apply list_elem_of_In; by rewrite sort_by_perm|].
      by apply event_sequence_event_path in Hk as []. }
    apply list_elem_of_lookup in Hx' as (i & Hi). exists i. split; [done|].
    destruct (Forall2_lookup_l _ _ _ _ _ (bv_events _ Hb) Hi) as (e & He & (content & _ & _ & Hs)).
    rewrite Hk in Hs. injection Hs as ->.
    pose proof (f_equal (fun l => l !! i) (bv_sequences _ Hb)) as Hl. cbn in Hl. rewrite list_lookup_fmap, He in Hl.
    symmetry in Hl. apply lookup_seqZ in Hl as [<- _]. done. }
  destruct (Hin p n Hp Hn) as (i & Hi & ->). destruct (Hin q m Hq Hm) as (j & Hj & ->).
  assert (Hsort : StronglySorted (fun x y => str_leb x y = true) L).
  { apply StronglySorted_filter, sort_by_ordered; [intros; by apply str_leb_total|apply str_leb_trans]. }
  assert (Hord : forall i j x y, (i < j)%nat -> L !! i = Some x -> L !! j = Some y -> str_leb x y = true).
  { clear -Hsort. induction Hsort as [|a L _ IH Ha]; intros i j x y Hij Hx Hy; [done|].
    destruct j as [|j]; [lia|]. destruct i as [|i]; cbn in Hx, Hy.
    - injection Hx as ->. rewrite Forall_forall in Ha. apply Ha. by eapply list_elem_of_lookup_2.
    - eapply IH; [|done..]. lia. }
  split.
  - intros Hlt. split; [eapply (Hord i j); [lia|done..]|]. intros ->. rewrite Hn in Hm. injection Hm. lia.
  - intros [Hle Hne]. destruct (decide (i < j)%nat); [lia|]. destruct (decide (i = j)) as [->|]; [congruence|].
    destruct Hne. apply str_leb_antisym; [done|]. eapply (Hord j i); [lia|done..].
Qed.

(** C37: in a batch that verifies, event files are in path order exactly as
    their events are in sequence order.  Paths begin with the creation date, so
    a batch in which an event is dated a day before a predecessor never
    verifies, however well-formed it is. *)
Theorem batch_paths_follow_sequence `{Rfc8785} `{Pydantic} `{Interpreter} `{Cbor2} `{Zstd} `{UnicodeData}
    `{JsonSchema} `{EventReader} (limits : SnapshotLimits) (batch : ArchiveBatch) (b : VerifiedArchiveBatch)
    (p q : pystr) (n m : Z) :
  verify_archive_batch limits batch = Ok b ->
  p ∈ dom (ab_files batch) -> q ∈ dom (ab_files batch) ->
  event_sequence_from_path p = Ok (Some n) -> event_sequence_from_path q = Ok (Some m) ->
  n < m <-> (str_leb p q = true /\ p <> q).
Proof. apply paths_follow_sequence. Qed.

(** The path the exporter gives an event ([DeterministicArchiveBuilder.build]
    of [archive/adapters.py]). *)
Definition exported_event_path (created_at : datetime) (sequence : Z) (event_id : pystr) : pystr :=
  let '(year, month, day) := civil_of_days (wall_us created_at / 86400000000) in
  py "events/" ++ dec_digits 4 year ++ py "/" ++ dec_digits 2 month ++ py "/" ++ dec_digits 2 day ++ py "/"
  ++ format_012d sequence ++ py "-" ++ event_id ++ py ".json".

(** Events 7 and 8 of a log, created just after and just before midnight. *)
Definition after_midnight : pystr :=
  exported_event_path (mk_datetime (days_of_civil 2026 1 2 * 86400000000) (Some 0)) 7 (uuid_str (uid 7)).
Definition before_midnight : pystr :=
  exported_event_path (mk_datetime (days_of_civil 2026 1 2 * 86400000000 - 1) (Some 0)) 8 (uuid_str (uid 8)).

(** No batch the exporter builds with these two events verifies. *)
Example midnight_inversion_rejected `{Rfc8785} `{Pydantic} `{Interpreter} `{Cbor2} `{Zstd} `{UnicodeData}
    `{JsonSchema} `{EventReader} (limits : SnapshotLimits) (batch : ArchiveBatch) :
  after_midnight ∈ dom (ab_files batch) -> before_midnight ∈ dom (ab_files batch) ->
  is_ok (verify_archive_batch limits batch) = false.
Proof.
  intros Ha Hb. destruct (verify_archive_batch limits batch) as [b|] eqn:Hv; [exfalso|done].
  destruct (paths_follow_sequence limits batch b after_midnight before_midnight 7 8 Hv Ha Hb) as [Hle _];
    [vm_compute; reflexivity..|].
  destruct (Hle ltac:(lia)) as [Hstr _]. vm_compute in Hstr. discriminate.
Qed.

(** C33: manifests round-trip.  A manifest [build_manifest] returns, serialized
    to its canonical bytes, parses back to that very manifest, provided the
    serializer's text reads as the value it was given, in whatever member
    order; and no other bytes parse to it. *)
Theorem built_manifest_roundtrip `{Rfc8785} `{Pydantic} `{Interpreter} (files : gmap pystr bytes) (first last : Z)
    (previous : option pystr) (schema_ids : gmap pystr pystr) (version : pystr) (exported : datetime)
    (high_water size timeline : option Z) (m : ArchiveManifest) (document : bytes) (v : JsonValue) :
  build_manifest files first last previous schema_ids version exported high_water size timeline = Ok m ->
  manifest_bytes m = Ok document -> parse_json_strict document = Ok v -> json_equiv (manifest_value m) v ->
  parse_manifest document = Ok m /\ forall document', parse_manifest document' = Ok m -> document' = document.
Proof.
  intros Hbuild Hbytes Hparse Heq. apply build_manifest_valid in Hbuild. split; [by eapply manifest_bytes_parse|].
  intros document' Hp. apply parse_manifest_valid in Hp as [_ Hp]. congruence.
Qed.

(** ** The sample archive *)

(** The commits of a successful run. *)
Definition commits_of (r : result (list VerifiedArchiveCommit)) : list VerifiedArchiveCommit :=
  match r with Ok verified => verified | Err _ => [] end.

Lemma commits_of_Ok r : is_ok r = true -> r = Ok (commits_of r).
Proof. by destruct r. Qed.

Definition sample_archive : list VerifiedArchiveCommit :=
  commits_of (verify_signed_archive default_limits sample_commits sample_signer).

Lemma sample_archive_Ok : verify_signed_archive default_limits sample_commits sample_signer = Ok sample_archive.
Proof. apply commits_of_Ok. vm_compute. reflexivity. Qed.

Lemma verified_archive_is_gap_free_witness :
  exists verified, verify_signed_archive default_limits sample_commits sample_signer = Ok verified /\
    exists n, 1 <= n /\ e_sequence <$> archive_events verified = seqZ 1 n.
Proof.
  exists sample_archive. split; [exact sample_archive_Ok|].
  apply (verified_archive_is_gap_free default_limits sample_commits sample_signer sample_archive sample_archive_Ok).
Defined.

Lemma archive_tamper_evident_witness :
  cb_batch <$> sample_commits = cb_batch <$> sample_commits \/
  exists a b, a ∈ cb_batch <$> sample_commits /\ b ∈ cb_batch <$> sample_commits /\ batches_clash a b.
Proof.
  exact (archive_tamper_evident default_limits default_limits sample_commits sample_commits sample_signer sample_signer
           sample_archive sample_archive sample_archive_Ok sample_archive_Ok eq_refl).
Defined.

(** The signer of the first two events was compromised after its commit. *)
Definition old_epoch : ArchiveSignerEpoch := {|
  ep_first_event_sequence := 1; ep_last_event_sequence := Some 2; ep_verifier := sample_signer;
  ep_epoch_id := py "old"; ep_public_key_fingerprint := None; ep_transition_record_id := None;
  ep_compromised_last_commit := Some (commit_id 97); ep_compromised_last_event_sequence := Some 2
|}.
Definition new_epoch : ArchiveSignerEpoch := {|
  ep_first_event_sequence := 3; ep_last_event_sequence := None; ep_verifier := sample_signer;
  ep_epoch_id := py "new"; ep_public_key_fingerprint := None; ep_transition_record_id := None;
  ep_compromised_last_commit := None; ep_compromised_last_event_sequence := None
|}.

Definition epoch_archive : list VerifiedArchiveCommit :=
  commits_of (verify_signed_archive_epochs default_limits sample_commits [old_epoch; new_epoch]).

Lemma compromise_cutoff_enforced_witness :
  exists i c v, sample_commits !! i = Some c /\ epoch_archive !! i = Some v /\
    Some (commit_id 97) = Some (cb_commit_sha c) /\ last_of (vc_batch v) = 2.
Proof.
  destruct (compromise_cutoff_enforced default_limits sample_commits [old_epoch; new_epoch] epoch_archive) as [_ He].
  - apply commits_of_Ok. vm_compute. reflexivity.
  - repeat constructor.
  - apply (He old_epoch 2); [by left|reflexivity|]. intros other Ho.
    apply elem_of_cons in Ho as [->|Ho]; [done|]. apply list_elem_of_singleton in Ho as ->. discriminate.
Defined.

Lemma batch_paths_follow_sequence_witness :
  1 < 2 <-> (str_leb (event_path 1) (event_path 2) = true /\ event_path 1 <> event_path 2).
Proof.
  assert (Hok : exists b, verify_archive_batch default_limits batch_1 = Ok b).
  { assert (Hok : is_ok (verify_archive_batch default_limits batch_1) = true) by (vm_compute; reflexivity).
    destruct (verify_archive_batch default_limits batch_1) as [b|]; [by exists b|done]. }
  destruct Hok as [b Hb].
  apply (batch_paths_follow_sequence default_limits batch_1 b (event_path 1) (event_path 2) 1 2 Hb).
  - apply elem_of_dom. vm_compute. by eexists.
  - apply elem_of_dom. vm_compute. by eexists.
  - vm_compute. reflexivity.
  - vm_compute. reflexivity.
Defined.

(** A serializer that sorts members yields an equal value. *)
Fixpoint sort_json (v : JsonValue) : JsonValue :=
  match v with
  | JArray l => JArray (sort_json <$> l)
  | JObject l => JObject (sort_fields ((fun kv => (kv.1, sort_json kv.2)) <$> l))
  | _ => v
  end.

Lemma sort_fields_perm {V} (l : list (pystr * V)) : sort_fields l ≡ₚ l.
Proof.
  induction l as [|kv l IH]; [done|]. cbn. fold (sort_fields l). rewrite <- IH at 2. generalize (sort_fields l) as m.
  induction m as [|kv' m IHm]; [done|]. cbn. case_match; [done|]. rewrite IHm. apply Permutation_swap.
Qed.

Lemma sort_json_equiv fuel v : json_ok fuel v -> json_equiv v (sort_json v).
Proof.
  revert v. induction fuel as [|fuel IH]; intros v Hv; [done|]. destruct v as [| | | | |l|l]; try apply je_refl.
  - cbn [json_ok sort_json] in *. apply je_array, Forall2_fmap_r. induction Hv; constructor; auto.
  - cbn [json_ok sort_json] in *. destruct Hv as [Hl Hn].
    set (f := fun kv : pystr * JsonValue => (kv.1, sort_json kv.2)).
    destruct (Permutation_map_inv f l (sort_fields_perm (f <$> l))) as (m & Hm & Hp).
    replace (sort_fields _) with (f <$> m) by (symmetry; exact Hm).
    eapply je_object; [done|exact Hp|]. apply Forall2_fmap_r. rewrite Hp in Hl. clear -Hl IH.
    induction Hl as [|[k w] m [_ Hw] _ IHm]; constructor; [|done]. split; [done|]. by apply IH.
Qed.

Definition manifest_2 : ArchiveManifest :=
  match sample_manifest [3] (Some (sha256_hex (ab_manifest_bytes batch_1))) None with
  | Ok m => m
  | Err _ => {| am_source_high_water_sequence := 0; am_first_event_sequence := 0; am_last_event_sequence := 0;
                am_event_count := 0; am_previous_manifest_sha256 := None; am_files := []; am_schemas := [];
                am_exporter_version := []; am_exported_at := []; am_snapshot := None;
                am_postgres_timeline_id := None; am_archive_format := []; am_schema_version := 0 |}
  end.

Lemma built_manifest_roundtrip_witness : parse_manifest (ab_manifest_bytes batch_2) = Ok manifest_2.
Proof.
  apply (built_manifest_roundtrip (batch_files [3] None) 3 3 (Some (sha256_hex (ab_manifest_bytes batch_1)))
           {[SCHEMA_ID := SCHEMA_PATH]} (py "1.0.0") EXPORTED None None None manifest_2 (ab_manifest_bytes batch_2)
           (sort_json (manifest_value manifest_2))).
  - vm_compute. reflexivity.
  - vm_compute. reflexivity.
  - vm_compute. reflexivity.
  - apply (sort_json_equiv 65), json_okb_spec. vm_compute. reflexivity.
Defined.
