(* ===== verification/Restore.v ===== *)
(** * Restore: planning a recovery

    Models [archive/restore.py]: the destination checks, the plan with its
    validation, and [preflight_restore].  The theorem says a plan exists for
    every verified archive that holds a snapshot, and what it replays. *)

From stdpp Require Import base tactics option list gmap strings.
From Stdlib Require Import ZArith Lia Bool.
From S2P Require Import Prelude Identifiers Enums Values CanonicalJson Digest Text Constraints Events Folding Samples JsonParse Archive Snapshot ArchiveVerification ArchiveFacts ArchiveTheorems ArchiveSamples.
Open Scope Z_scope.

(** ** Destination *)

Record RestoreDestinationState : Type := {
  rd_migrations_current : bool;
  rd_canonical_row_count : Z;
  rd_active_worker_count : Z;
  rd_is_disposable_recovery_database : bool;
  rd_has_pending_transaction : bool;
  rd_is_freshly_created : bool
}.

Definition validate_destination (d : RestoreDestinationState) : result unit :=
  raise_if (rd_canonical_row_count d <? 0) (ValueError "canonical row count must be non-negative");;
  raise_if (rd_active_worker_count d <? 0) (ValueError "active worker count must be non-negative").

Definition require_safe (d : RestoreDestinationState) : result unit :=
  raise_if (negb (rd_migrations_current d)) (RestorePreflightError "restore destination migrations are not current");;
  raise_if (negb (rd_canonical_row_count d =? 0)) (RestorePreflightError "restore destination is not empty");;
  raise_if (negb (rd_active_worker_count d =? 0)) (RestorePreflightError "restore destination has active workers");;
  raise_if (rd_has_pending_transaction d) (RestorePreflightError "restore destination already has a transaction");;
  raise_if (negb (rd_is_freshly_created d || rd_is_disposable_recovery_database d))
    (RestorePreflightError "restore destination is neither fresh nor disposable").

(** ** Plans *)

Record RestorePlan : Type := {
  rp_manifest_sha256s : list pystr;
  rp_snapshot_high_water_sequence : Z;
  rp_snapshot_tables : list SnapshotTable;
  rp_events_to_replay : list MemoryEvent;
  rp_final_high_water_sequence : Z
}.

(** The loop over the events: each carries the sequence after the last. *)
Fixpoint expected_after (expected : Z) (events : list MemoryEvent) : result Z :=
  match events with
  | [] => Ok expected
  | event :: rest =>
    raise_if (negb (e_sequence event =? expected)) (ValueError "restore plan events are not gap-free after the snapshot");;
    expected_after (expected + 1) rest
  end.

(** [RestorePlan.__post_init__] *)
Definition validate_plan (p : RestorePlan) : result unit :=
  raise_if (bool_decide (rp_manifest_sha256s p = [])) (ValueError "restore plan must cite at least one manifest");;
  raise_if (negb ((0 <=? rp_snapshot_high_water_sequence p)
                  && (rp_snapshot_high_water_sequence p <=? rp_final_high_water_sequence p)))
    (ValueError "restore plan snapshot boundary is invalid");;
  expected ← expected_after (rp_snapshot_high_water_sequence p + 1) (rp_events_to_replay p);
  raise_if (negb (expected - 1 =? rp_final_high_water_sequence p))
    (ValueError "restore plan does not reach the final high-water sequence").

(** [max(snapshots, key=...)]: the first of the greatest. *)
Fixpoint latest_snapshot (snapshots : list SnapshotData) : option SnapshotData :=
  match snapshots with
  | [] => None
  | s :: rest =>
    match latest_snapshot rest with
    | Some t => if sd_high_water_sequence s <? sd_high_water_sequence t then Some t else Some s
    | None => Some s
    end
  end.

Section Restore.
Context `{Rfc8785} `{Pydantic} `{Interpreter} `{Cbor2} `{Zstd} `{UnicodeData} `{JsonSchema} `{EventReader}.

(** [build_restore_plan] of a [VerifiedArchive]. *)
Definition build_restore_plan (archive : list VerifiedArchiveCommit) : result RestorePlan :=
  let batches := vc_batch <$> archive in
  raise_if (bool_decide (length batches = 0%nat)) (RestorePreflightError "archive restore input is empty");;
  verify_genesis_chain batches;;
  snapshot ← from_option_or (latest_snapshot (omap vb_snapshot batches))
               (RestorePreflightError "archive chain contains no recovery snapshot");
  let snapshot_high_water := sd_high_water_sequence snapshot in
  final ← from_option_or (last batches) (ValueError "list index out of range");
  let final_high_water := am_source_high_water_sequence (vb_manifest final) in
  raise_if (final_high_water <? snapshot_high_water)
    (RestorePreflightError "archive snapshot is beyond the final event prefix");;
  let all_events := chain_events batches in
  raise_if (negb (snapshot_high_water =? 0)
            && negb (existsb (fun e => e_sequence e =? snapshot_high_water) all_events))
    (RestorePreflightError "snapshot boundary is not present in the event chain");;
  let plan := {| rp_manifest_sha256s := vb_manifest_sha256 <$> batches;
                 rp_snapshot_high_water_sequence := snapshot_high_water;
                 rp_snapshot_tables := sd_tables snapshot;
                 rp_events_to_replay := List.filter (fun e => snapshot_high_water <? e_sequence e) all_events;
                 rp_final_high_water_sequence := final_high_water |} in
  except_value_error (validate_plan plan)
    (RestorePreflightError "archive snapshot and event boundary is inconsistent");;
  Ok plan.

Definition preflight_restore (limits : SnapshotLimits) (commits : list ArchiveCommitBatch)
    (destination : RestoreDestinationState) (signer : CommitVerifier) : result RestorePlan :=
  require_safe destination;;
  match (verified ← verify_signed_archive limits commits signer; build_restore_plan verified) with
  | Err (ArchiveVerificationError _) => Err (RestorePreflightError "archive restore input failed verification")
  | r => r
  end.

(** ** Facts *)

Lemma expected_after_seqZ a n events :
  0 <= n -> e_sequence <$> events = seqZ a n -> expected_after a events = Ok (a + n).
Proof.
  revert a n. induction events as [|e events IH]; intros a n Hn Hs; cbn [expected_after].
  - apply (f_equal length) in Hs. rewrite length_seqZ in Hs. cbn in Hs. f_equal. lia.
  - destruct (decide (n = 0)) as [->|Hz]; [done|]. rewrite seqZ_cons in Hs by lia. rewrite fmap_cons in Hs.
    injection Hs as He Hs. rewrite He, Z.eqb_refl. cbn [negb raise_if mbind result_bind].
    change (a + 1) with (Z.succ a). rewrite (IH (Z.succ a) (Z.pred n)) by (done || lia). f_equal. lia.
Qed.

(** Dropping the sequences up to [k] of [1..n] leaves [k+1..n]. *)
Lemma filter_after k n events :
  0 <= k <= n -> e_sequence <$> events = seqZ 1 n ->
  e_sequence <$> List.filter (fun e => k <? e_sequence e) events = seqZ (k + 1) (n - k).
Proof.
  intros Hk Hs.
  assert (Hf : e_sequence <$> List.filter (fun e => k <? e_sequence e) events =
               List.filter (fun s => k <? s) (e_sequence <$> events)).
  { clear. induction events as [|e events IH]; [done|]. cbn. destruct (k <? e_sequence e); cbn; by rewrite IH. }
  rewrite Hf, Hs. replace (seqZ 1 n) with (seqZ 1 k ++ seqZ (1 + k) (n - k)).
  2: { rewrite seqZ_append by lia. f_equal. lia. }
  rewrite List.filter_app.
  assert (Hlo : List.filter (fun s => k <? s) (seqZ 1 k) = []).
  { assert (Hall : Forall (fun s => k <? s = false) (seqZ 1 k)).
    { apply Forall_forall. intros s Hs'%elem_of_seqZ. apply Z.ltb_ge. lia. }
    clear -Hall. induction Hall as [|s l Hl _ IH]; [done|]. cbn. by rewrite Hl. }
  assert (Hhi : List.filter (fun s => k <? s) (seqZ (1 + k) (n - k)) = seqZ (1 + k) (n - k)).
  { assert (Hall : Forall (fun s => k <? s = true) (seqZ (1 + k) (n - k))).
    { apply Forall_forall. intros s Hs'%elem_of_seqZ. apply Z.ltb_lt. lia. }
    clear -Hall. induction Hall as [|s l Hl _ IH]; [done|]. cbn. by rewrite Hl, IH. }
  rewrite Hlo, Hhi. cbn. f_equal. lia.
Qed.

Lemma latest_snapshot_spec l :
  match latest_snapshot l with
  | Some s => s ∈ l /\ forall t, t ∈ l -> sd_high_water_sequence t <= sd_high_water_sequence s
  | None => l = []
  end.
Proof.
  induction l as [|s l IH]; [done|]. cbn [latest_snapshot]. destruct (latest_snapshot l) as [t|].
  - destruct IH as [Ht Hmax]. destruct (Z.ltb_spec (sd_high_water_sequence s) (sd_high_water_sequence t)).
    + split; [by right|]. intros u [->|Hu]%elem_of_cons; [lia|by apply Hmax].
    + split; [by left|]. intros u [->|Hu]%elem_of_cons; [lia|]. specialize (Hmax u Hu). lia.
  - subst. split; [by left|]. intros t [->|?%not_elem_of_nil]%elem_of_cons; done.
Qed.

(** High-water sequences grow along a chain. *)
Lemma links_high_water p rest b :
  Forall batch_verified (p :: rest) -> verify_links p rest = Ok tt -> b ∈ p :: rest ->
  last_of b <= last_of (List.last rest p).
Proof.
  revert p. induction rest as [|c rest IH]; intros p Hall Hl Hb.
  - apply elem_of_cons in Hb as [->|?%not_elem_of_nil]; [cbn; lia|done].
  - destruct (links_sequences _ _ Hall Hl) as [_ Hle]. apply verify_links_cons in Hl as (_ & _ & _ & Hl).
    inversion Hall; subst. rewrite last_shift in *. apply elem_of_cons in Hb as [->|Hb]; [done|]. by apply IH.
Qed.

Lemma stdpp_last_cons {A} (l : list A) x : last (x :: l) = Some (List.last l x).
Proof.
  revert x. induction l as [|y l IH]; intros x; [done|]. change (last (y :: l) = Some (List.last (y :: l) x)).
  by rewrite IH, last_shift.
Qed.

(** The snapshot of a verified batch lies inside the batch's prefix. *)
Lemma batch_snapshot_bound b s :
  batch_verified b -> vb_snapshot b = Some s -> 0 <= sd_high_water_sequence s <= last_of b.
Proof.
  intros Hb Hs. pose proof (bv_snapshot _ Hb) as Hsn. rewrite Hs in Hsn.
  destruct (am_snapshot (vb_manifest b)) as [r|] eqn:Hr; [|done].
  pose proof (manifest_valid_facts _ (bv_valid _ Hb)) as Hm. destruct (mf_snapshot _ Hm r Hr) as [Hle _].
  rewrite (mf_high_water _ Hm) in Hle. destruct (bv_valid _ Hb) as (_ & _ & Hval & _). specialize (Hval r Hr).
  unfold validate_snapshot_reference in Hval. apply bind_Ok in Hval as (? & _ & Hval).
  apply bind_Ok in Hval as ([] & _ & Hval). apply bind_Ok in Hval as ([] & Hpos%raise_if_Ok%Z.ltb_ge & _).
  unfold last_of. lia.
Qed.

(** [plan] restores the chain [batches] of events 1 to [n] from [snapshot], its
    newest: it carries the snapshot's tables and the events after it. *)
Record restores (batches : list VerifiedArchiveBatch) (snapshot : SnapshotData) (n : Z) (plan : RestorePlan) : Prop := {
  rs_events : e_sequence <$> chain_events batches = seqZ 1 n;
  rs_snapshot : snapshot ∈ omap vb_snapshot batches;
  rs_newest : forall s, s ∈ omap vb_snapshot batches -> sd_high_water_sequence s <= sd_high_water_sequence snapshot;
  rs_boundary : 0 <= sd_high_water_sequence snapshot <= n;
  rs_manifests : rp_manifest_sha256s plan = vb_manifest_sha256 <$> batches;
  rs_start : rp_snapshot_high_water_sequence plan = sd_high_water_sequence snapshot;
  rs_tables : rp_snapshot_tables plan = sd_tables snapshot;
  rs_final : rp_final_high_water_sequence plan = n;
  rs_replay : rp_events_to_replay plan =
    List.filter (fun e => sd_high_water_sequence snapshot <? e_sequence e) (chain_events batches);
  rs_sequences : e_sequence <$> rp_events_to_replay plan =
    seqZ (sd_high_water_sequence snapshot + 1) (n - sd_high_water_sequence snapshot)
}.

(** A plan for every chain that holds a snapshot. *)
Lemma restore_plan_of_chain archive :
  Forall batch_verified (vc_batch <$> archive) -> verify_genesis_chain (vc_batch <$> archive) = Ok tt ->
  omap vb_snapshot (vc_batch <$> archive) <> [] ->
  exists plan snapshot n, build_restore_plan archive = Ok plan /\
    restores (vc_batch <$> archive) snapshot n plan.
Proof.
  intros Hb Hg Hsome. unfold build_restore_plan. set (batches := vc_batch <$> archive) in *.
  destruct (genesis_chain_sequences _ Hb Hg) as (first & rest & Hbs & Hn & Hs).
  pose proof (latest_snapshot_spec (omap vb_snapshot batches)) as Hlatest.
  destruct (latest_snapshot (omap vb_snapshot batches)) as [snap|] eqn:Hsnap; [|done].
  destruct Hlatest as [Hin Hmax]. pose proof Hin as (b & Hbin & Hbs')%list_elem_of_omap.
  assert (Hbv : batch_verified b) by (rewrite Forall_forall in Hb; by apply Hb).
  pose proof (batch_snapshot_bound _ _ Hbv Hbs') as Hk.
  assert (Hlb : last_of b <= last_of (List.last rest first)).
  { rewrite Hbs in Hb, Hbin. apply links_high_water; [done| |done]. rewrite Hbs in Hg.
    by apply genesis_chain_inv in Hg as (? & ? & [= <- <-] & _ & _ & ?). }
  assert (Hlast : last batches = Some (List.last rest first)) by (rewrite Hbs; apply stdpp_last_cons).
  assert (Hfin : am_source_high_water_sequence (vb_manifest (List.last rest first)) = last_of (List.last rest first)).
  { apply mf_high_water, manifest_valid_facts, bv_valid. rewrite Forall_forall in Hb. apply Hb.
    by apply last_Some_elem_of. }
  set (n := last_of (List.last rest first)) in *. set (k := sd_high_water_sequence snap) in *.
  eexists _, snap, n. rewrite bool_decide_false by by rewrite Hbs. cbn [raise_if mbind result_bind].
  rewrite Hg. cbn [mbind result_bind from_option_or]. rewrite Hlast. cbn [mbind result_bind from_option_or].
  rewrite Hfin. fold k. rewrite (proj2 (Z.ltb_ge n k)) by lia. cbn [raise_if mbind result_bind].
  assert (Hpresent : negb (k =? 0) && negb (existsb (fun e => e_sequence e =? k) (chain_events batches)) = false).
  { destruct (Z.eqb_spec k 0) as [|Hk0]; [done|]. cbn [negb andb]. apply negb_false_iff, existsb_exists.
    assert (Hkin : k ∈ e_sequence <$> chain_events batches) by (rewrite Hs; apply elem_of_seqZ; lia).
    apply list_elem_of_fmap in Hkin as (e & He & Hein). exists e. rewrite <- list_elem_of_In, Z.eqb_eq. by split. }
  rewrite Hpresent. cbn [raise_if mbind result_bind].
  pose proof (filter_after k n _ ltac:(lia) Hs) as Hrep.
  unfold validate_plan. cbn [rp_manifest_sha256s rp_snapshot_high_water_sequence rp_events_to_replay rp_final_high_water_sequence].
  rewrite bool_decide_false by (rewrite Hbs; done). cbn [raise_if mbind result_bind].
  rewrite (proj2 (Z.leb_le 0 k)), (proj2 (Z.leb_le k n)) by lia. cbn [negb andb raise_if mbind result_bind].
  rewrite (expected_after_seqZ (k + 1) (n - k)) by (done || lia). cbn [mbind result_bind].
  replace (k + 1 + (n - k) - 1) with n by lia. rewrite Z.eqb_refl. cbn [negb raise_if except_value_error mbind result_bind].
  split; [reflexivity|]. split; try done. fold k. lia.
Qed.
End Restore.

(** ** Properties *)

(** C24: a verified archive can be restored.  Into a safe destination, every
    signed archive that verifies and holds a snapshot has a restore plan: no
    later check refuses it.  The plan carries the tables of a snapshot of the
    archive with the greatest high-water sequence k, starts there, cites every
    manifest, and replays exactly the archive's events k+1 to n, in order, where
    1 to n are all the events of the archive. *)
Theorem verified_archive_restores `{Rfc8785} `{Pydantic} `{Interpreter} `{Cbor2} `{Zstd} `{UnicodeData}
    `{JsonSchema} `{EventReader} (limits : SnapshotLimits) (commits : list ArchiveCommitBatch)
    (destination : RestoreDestinationState) (signer : CommitVerifier) (verified : list VerifiedArchiveCommit) :
  require_safe destination = Ok tt -> verify_signed_archive limits commits signer = Ok verified ->
  omap vb_snapshot (vc_batch <$> verified) <> [] ->
  exists plan snapshot n, preflight_restore limits commits destination signer = Ok plan /\
    restores (vc_batch <$> verified) snapshot n plan.
Proof.
  intros Hd Hv Hs. pose proof (verify_signed_archive_batches _ _ _ _ Hv) as (Hf & Hg & _).
  destruct (restore_plan_of_chain verified (verified_as_batches _ _ Hf) Hg Hs) as (plan & snapshot & n & Hplan & Hrest).
  exists plan, snapshot, n. split; [|done]. unfold preflight_restore. rewrite Hd. cbn [mbind result_bind].
  rewrite Hv. cbn [mbind result_bind]. by rewrite Hplan.
Qed.

Definition empty_destination : RestoreDestinationState := {|
  rd_migrations_current := true; rd_canonical_row_count := 0; rd_active_worker_count := 0;
  rd_is_disposable_recovery_database := false; rd_has_pending_transaction := false; rd_is_freshly_created := true
|}.

Lemma verified_archive_restores_witness :
  exists plan snapshot n, preflight_restore default_limits sample_commits empty_destination sample_signer = Ok plan /\
    restores (vc_batch <$> sample_archive) snapshot n plan.
Proof.
  apply (verified_archive_restores default_limits sample_commits empty_destination sample_signer sample_archive).
  - reflexivity.
  - exact sample_archive_Ok.
  - vm_compute. discriminate.
Defined.
