(* ===== verification/SelectionHistory.v ===== *)
(** * SelectionHistory: the ledger of selection decisions

    Models [storage/selection_history.py]: the decision rows, the counter that
    orders them, the append and the authorization-filtered history.  The table
    is a finite map by sequence number; JSON columns hold JSON values. *)

From stdpp Require Import base tactics option list gmap sets sorting strings.
From Stdlib Require Import ZArith Lia Bool Sorted.
From S2P Require Import Prelude Identifiers Enums Values CanonicalJson Digest Text Events EventStore PolicyContracts.
Open Scope Z_scope.

(** ** Rows *)

Record SelectionDecision : Type := {
  dn_selection_sequence : Z; dn_decision_id : UUID; dn_tenant_id : UUID; dn_lineage_id : UUID; dn_branch_id : UUID;
  dn_persona_id : UUID; dn_actor_id : UUID; dn_client_id : UUID; dn_transport_binding_id : UUID;
  dn_policy_id : string; dn_policy_version : Z; dn_policy_sha256 : bytes; dn_policy_rule_code : pystr;
  dn_input_sha256 : bytes; dn_source_kind : string; dn_requested_operation : string; dn_outcome : string;
  dn_reason_codes : list JsonValue; dn_matched_rule_ids : list JsonValue; dn_selection_basis : string;
  dn_scope : string; dn_visibility : string; dn_sensitivity : Z; dn_subject_id : UUID; dn_subject_kind : string;
  dn_memory_id : option UUID; dn_event_id : option UUID; dn_decided_at : instant
}.

(** [selection_decisions] by sequence and the row of [selection_decision_counter]. *)
Record DecisionTables : Type := {
  dt_decisions : gmap Z SelectionDecision;
  dt_counter : option Z
}.

(** The SQLSTATE with which the server refuses a decision for a constraint
    other than its unique keys, if it does. *)
Class DecisionDatabase : Type := decision_error : DecisionTables -> SelectionDecision -> option string.

Section Append.
Context `{DecisionDatabase}.

(** [session.add(decision)], the counter's update and the flush. *)
Definition insert_decision (t : DecisionTables) (d : SelectionDecision) (next_sequence : Z) : result DecisionTables :=
  raise_if (bool_decide (is_Some (dt_decisions t !! dn_selection_sequence d))
            || existsb (fun kv => dn_decision_id kv.2 =? dn_decision_id d) (map_to_list (dt_decisions t)))
    (DBAPIError "23505");;
  flush (decision_error t d);;
  Ok {| dt_decisions := <[dn_selection_sequence d := d]> (dt_decisions t); dt_counter := Some next_sequence |}.

(** [except SQLAlchemyError]: a serialization failure is raised again. *)
Definition except_history_error {A} (r : result A) : result A :=
  match r with
  | Err (DBAPIError sqlstate) =>
    if bool_decide (sqlstate = "40001"%string) then Err (DBAPIError sqlstate)
    else Err (SelectionHistoryError "selection_history_unavailable")
  | outcome => outcome
  end.

Definition append_selection_decision (in_transaction : bool) (t : DecisionTables) (builder : Z -> result SelectionDecision)
    : result (DecisionTables * SelectionDecision) :=
  require in_transaction (SelectionHistoryError "active_transaction_required");;
  except_history_error (
    counter ← from_option_or (dt_counter t) (SelectionHistoryError "selection_counter_unavailable");
    decision ← builder counter;
    raise_if (negb (dn_selection_sequence decision =? counter)) (SelectionHistoryError "selection_sequence_mismatch");;
    t' ← insert_decision t decision (counter + 1);
    Ok (t', decision)).
End Append.

(** ** History *)

Record SelectionHistoryFilters : Type := {
  hf_tenant_id : UUID; hf_persona_id : UUID; hf_lineage_id : UUID; hf_branch_id : UUID;
  hf_allowed_scopes : list MemoryScope; hf_allowed_visibilities : list MemoryVisibility; hf_max_sensitivity : Z;
  hf_requested_subject_ids : option (list UUID); hf_project_subject_ids : list UUID;
  hf_relationship_subject_ids : list UUID; hf_session_subject_ids : list UUID;
  hf_allowed_subject_kinds : option (list SubjectKind); hf_selection_bases : option (list string)
}.

Definition SELECTION_BASES : list string := enum_values SelectionBasis.

(** [SelectionHistoryFilters.__post_init__] *)
Definition validate_history_filters (f : SelectionHistoryFilters) : result unit :=
  raise_if (bool_decide (hf_allowed_scopes f = [])) (ValueError "selection history requires at least one allowed scope");;
  raise_if (bool_decide (hf_allowed_visibilities f = []))
    (ValueError "selection history requires at least one allowed visibility");;
  raise_if (negb ((0 <=? hf_max_sensitivity f) && (hf_max_sensitivity f <=? 4)))
    (ValueError "maximum sensitivity must be between zero and four");;
  raise_if (match hf_selection_bases f with
            | Some bases => bool_decide (bases = []) || negb (forallb (fun b => bool_decide (b ∈ SELECTION_BASES)) bases)
            | None => false
            end) (ValueError "selection bases must be a non-empty subset of the closed vocabulary").

Definition value_in {E} `{StrEnum E} (wire : string) (members : list E) : bool := bool_decide (wire ∈ enum_value <$> members).

(** The scope clause: which subjects a scope may be read for. *)
Definition subject_visible (f : SelectionHistoryFilters) (d : SelectionDecision) : bool :=
  value_in (dn_scope d) [MemoryScope.GLOBAL; MemoryScope.PERSONA]
  || (value_in (dn_scope d) [MemoryScope.PROJECT] && bool_decide (dn_subject_id d ∈ hf_project_subject_ids f))
  || (value_in (dn_scope d) [MemoryScope.RELATIONSHIP] && bool_decide (dn_subject_id d ∈ hf_relationship_subject_ids f))
  || (value_in (dn_scope d) [MemoryScope.EPISODIC; MemoryScope.SCENE_LOCAL]
      && bool_decide (dn_subject_id d ∈ hf_session_subject_ids f)).

(** The predicates of the query but the page's bound. *)
Definition decision_visible (f : SelectionHistoryFilters) (d : SelectionDecision) : bool :=
  (dn_tenant_id d =? hf_tenant_id f) && (dn_persona_id d =? hf_persona_id f)
  && (dn_lineage_id d =? hf_lineage_id f) && (dn_branch_id d =? hf_branch_id f)
  && value_in (dn_scope d) (hf_allowed_scopes f) && value_in (dn_visibility d) (hf_allowed_visibilities f)
  && (dn_sensitivity d <=? hf_max_sensitivity f) && subject_visible f d
  && match hf_requested_subject_ids f with Some ids => bool_decide (dn_subject_id d ∈ ids) | None => true end
  && match hf_allowed_subject_kinds f with Some kinds => value_in (dn_subject_kind d) kinds | None => true end
  && match hf_selection_bases f with Some bases => bool_decide (dn_selection_basis d ∈ bases) | None => true end.

Definition before_page (before : option Z) (d : SelectionDecision) : bool :=
  match before with Some b => dn_selection_sequence d <? b | None => true end.

(** The rows a page is cut from, newest first. *)
Definition visible_decisions (t : DecisionTables) (f : SelectionHistoryFilters) (before : option Z) : list SelectionDecision :=
  sort_by (fun a b => dn_selection_sequence b <=? dn_selection_sequence a)
    (filter (fun d => decision_visible f d && before_page before d = true) (snd <$> map_to_list (dt_decisions t))).

Record SelectionDecisionRecord : Type := {
  dr_selection_sequence : Z; dr_decision_id : UUID; dr_persona_id : UUID; dr_policy_id : string; dr_policy_version : Z;
  dr_policy_sha256 : pystr; dr_policy_rule_code : pystr; dr_matched_rule_ids : list pystr; dr_source_kind : string;
  dr_requested_operation : string; dr_outcome : string; dr_reason_codes : list pystr; dr_selection_basis : string;
  dr_scope : string; dr_visibility : string; dr_sensitivity : Z; dr_subject_id : UUID; dr_subject_kind : string;
  dr_memory_id : option UUID; dr_event_id : option UUID; dr_decided_at : instant
}.

(** Python's [str] of a float, a list or a dictionary. *)
Class PyStr : Type := str_of_value : JsonValue -> pystr.

(** [str(value)] of a JSON value. *)
Definition json_str `{PyStr} (v : JsonValue) : pystr :=
  match v with
  | JStr s => s
  | JNull => py "None"
  | JBool true => py "True"
  | JBool false => py "False"
  | JInt n => if n <? 0 then 45 :: int_str (- n) else int_str n
  | _ => str_of_value v
  end.

Definition decision_record `{PyStr} (d : SelectionDecision) : SelectionDecisionRecord :=
  {| dr_selection_sequence := dn_selection_sequence d; dr_decision_id := dn_decision_id d;
     dr_persona_id := dn_persona_id d; dr_policy_id := dn_policy_id d; dr_policy_version := dn_policy_version d;
     dr_policy_sha256 := hex_of_bytes (dn_policy_sha256 d); dr_policy_rule_code := dn_policy_rule_code d;
     dr_matched_rule_ids := json_str <$> dn_matched_rule_ids d; dr_source_kind := dn_source_kind d;
     dr_requested_operation := dn_requested_operation d; dr_outcome := dn_outcome d;
     dr_reason_codes := json_str <$> dn_reason_codes d; dr_selection_basis := dn_selection_basis d;
     dr_scope := dn_scope d; dr_visibility := dn_visibility d; dr_sensitivity := dn_sensitivity d;
     dr_subject_id := dn_subject_id d; dr_subject_kind := dn_subject_kind d; dr_memory_id := dn_memory_id d;
     dr_event_id := dn_event_id d; dr_decided_at := dn_decided_at d |}.

Definition list_decisions `{PyStr} (t : DecisionTables) (f : SelectionHistoryFilters) (before_sequence : option Z) (limit : Z)
    : result (list SelectionDecisionRecord) :=
  raise_if (negb ((1 <=? limit) && (limit <=? 500))) (ValueError "selection history limit must be between 1 and 500");;
  raise_if (match before_sequence with Some b => b <? 1 | None => false end) (ValueError "before_sequence must be positive");;
  Ok (decision_record <$> take (Z.to_nat limit) (visible_decisions t f before_sequence)).

(** ** The ledger's invariant *)

(** Decisions are numbered without gap from 1, each under its number, with
    distinct identifiers. *)
Record decisions_ok (t : DecisionTables) : Prop := {
  dk_counter : dt_counter t = Some (Z.of_nat (size (dt_decisions t)) + 1);
  dk_rows : forall k d, dt_decisions t !! k = Some d -> dn_selection_sequence d = k /\ 1 <= k <= Z.of_nat (size (dt_decisions t));
  dk_ids : forall k k' d d', dt_decisions t !! k = Some d -> dt_decisions t !! k' = Some d' ->
    dn_decision_id d = dn_decision_id d' -> k = k'
}.

Section AppendFacts.
Context `{DecisionDatabase}.

Lemma except_history_Ok {A} (r : result A) a : except_history_error r = Ok a -> r = Ok a.
Proof. destruct r as [|[]]; cbn; try done. by case_bool_decide. Qed.

(** What an append adds. *)
Lemma append_decision_Ok in_transaction t builder t' d :
  append_selection_decision in_transaction t builder = Ok (t', d) ->
  exists n, dt_counter t = Some n /\ builder n = Ok d /\ dn_selection_sequence d = n /\ dt_decisions t !! n = None /\
    (forall k x, dt_decisions t !! k = Some x -> dn_decision_id x <> dn_decision_id d) /\
    t' = {| dt_decisions := <[n := d]> (dt_decisions t); dt_counter := Some (n + 1) |}.
Proof.
  unfold append_selection_decision. intros Ha. apply bind_Ok in Ha as ([] & _ & Ha%except_history_Ok).
  apply bind_Ok in Ha as (n & Hn%from_option_or_Ok & Ha). apply bind_Ok in Ha as (d' & Hd & Ha).
  apply bind_Ok in Ha as ([] & Hs%raise_if_Ok%negb_false_iff%Z.eqb_eq & Ha). apply bind_Ok in Ha as (t1 & Hi & [= <- <-]).
  unfold insert_decision in Hi. apply bind_Ok in Hi as ([] & Hu%raise_if_Ok & Hi). apply bind_Ok in Hi as ([] & _ & [= <-]).
  apply orb_false_iff in Hu as [Hfree Huniq]. rewrite Hs in *. apply bool_decide_eq_false in Hfree. exists n.
  split_and!; [done|done|done|by apply eq_None_not_Some| |done].
  intros k x Hx He. apply elem_of_map_to_list in Hx. apply not_true_iff_false in Huniq. apply Huniq, existsb_exists.
  exists (k, x). split; [by apply list_elem_of_In|]. cbn. lia.
Qed.

Lemma decisions_ok_append in_transaction t builder t' d :
  decisions_ok t -> append_selection_decision in_transaction t builder = Ok (t', d) -> decisions_ok t'.
Proof.
  intros [Hc Hr Hi] (n & Hn & _ & Hs & Hfree & Huniq & ->)%append_decision_Ok. rewrite Hc in Hn. injection Hn as <-.
  set (n := Z.of_nat (size (dt_decisions t)) + 1) in *. assert (Hsize : size (<[n := d]> (dt_decisions t)) = S (size (dt_decisions t))) by by apply map_size_insert_None.
  split; cbn [dt_counter dt_decisions].
  - rewrite Hsize. f_equal. lia.
  - intros k x [[<- <-]|[_ Hk]]%lookup_insert_Some; rewrite Hsize; [lia|]. apply Hr in Hk. lia.
  - intros k k' x x' [[<- <-]|[_ Hk]]%lookup_insert_Some [[<- <-]|[_ Hk']]%lookup_insert_Some He; try done.
    + by destruct (Huniq _ _ Hk').
    + by destruct (Huniq _ _ Hk).
    + eauto.
Qed.
End AppendFacts.

(** ** Pages *)

Lemma sorted_filter {A} (R : A -> A -> Prop) (P : A -> Prop) `{forall x, Decision (P x)} l :
  StronglySorted R l -> StronglySorted R (filter P l).
Proof.
  induction 1 as [|x l Hl IH Hx]; [constructor|]. rewrite filter_cons. destruct (decide (P x)); [|done].
  constructor; [done|]. rewrite Forall_forall in *. intros y [_ Hy]%list_elem_of_filter. auto.
Qed.

Lemma filter_none {A} (P : A -> Prop) `{forall x, Decision (P x)} l : Forall (fun x => ~ P x) l -> filter P l = [].
Proof. induction 1 as [|x l Hx _ IH]; [done|]. by rewrite filter_cons, decide_False. Qed.
Lemma filter_all {A} (P : A -> Prop) `{forall x, Decision (P x)} l : Forall P l -> filter P l = l.
Proof. induction 1 as [|x l Hx _ IH]; [done|]. by rewrite filter_cons, decide_True, IH. Qed.

Section Pages.
Context (t : DecisionTables) (f : SelectionHistoryFilters) (Hok : decisions_ok t).

Let newer (a b : SelectionDecision) : bool := dn_selection_sequence b <=? dn_selection_sequence a.

Lemma newer_total a b : newer a b = false -> newer b a = true.
Proof. unfold newer. lia. Qed.
Lemma newer_trans a b c : newer a b = true -> newer b c = true -> newer a c = true.
Proof. unfold newer. lia. Qed.

Lemma stored_unique a b :
  a ∈ snd <$> map_to_list (dt_decisions t) -> b ∈ snd <$> map_to_list (dt_decisions t) ->
  dn_selection_sequence a = dn_selection_sequence b -> a = b.
Proof.
  intros ([k a'] & -> & Ha%elem_of_map_to_list)%list_elem_of_fmap ([k' b'] & -> & Hb%elem_of_map_to_list)%list_elem_of_fmap Heq.
  cbn in *. destruct (dk_rows _ Hok _ _ Ha) as [<- _]. destruct (dk_rows _ Hok _ _ Hb) as [<- _]. rewrite Heq in Ha. congruence.
Qed.

Lemma elem_of_visible before d :
  d ∈ visible_decisions t f before <->
  decision_visible f d = true /\ before_page before d = true /\ exists k, dt_decisions t !! k = Some d.
Proof.
  unfold visible_decisions. rewrite sort_by_perm, list_elem_of_filter, andb_true_iff, list_elem_of_fmap. split.
  - intros [[Hv Hb] ([k x] & -> & Hx%elem_of_map_to_list)]. eauto.
  - intros (Hv & Hb & k & Hk). split; [done|]. exists (k, d). split; [done|]. by apply elem_of_map_to_list.
Qed.

Lemma visible_nodup before : NoDup (dn_selection_sequence <$> visible_decisions t f before).
Proof.
  unfold visible_decisions. rewrite sort_by_perm. apply NoDup_fmap_2_strong.
  - intros a b [_ Ha]%list_elem_of_filter [_ Hb]%list_elem_of_filter. by apply stored_unique.
  - apply NoDup_filter. apply NoDup_fmap_2_strong; [|apply NoDup_map_to_list].
    intros [k a] [k' b] Ha%elem_of_map_to_list Hb%elem_of_map_to_list Heq. cbn in Heq. subst b. f_equal.
    destruct (dk_rows _ Hok _ _ Ha) as [<- _]. by destruct (dk_rows _ Hok _ _ Hb) as [<- _].
Qed.

(** The rows of a history are strictly ordered, newest first. *)
Lemma visible_ordered before : StronglySorted (fun a b => dn_selection_sequence b < dn_selection_sequence a) (visible_decisions t f before).
Proof.
  pose proof (visible_nodup before) as Hn. assert (Hs : StronglySorted (fun a b => newer a b = true) (visible_decisions t f before)).
  { apply sort_by_ordered; [apply newer_total|apply newer_trans]. }
  induction Hs as [|a l Hl IH Ha]; [constructor|]. rewrite fmap_cons in Hn. apply NoDup_cons in Hn as [Hni Hn].
  constructor; [by apply IH|]. rewrite Forall_forall in *. intros b Hb. specialize (Ha b Hb). unfold newer in Ha.
  assert (dn_selection_sequence b <> dn_selection_sequence a); [|lia]. intros Heq. apply Hni. rewrite <- Heq.
  apply list_elem_of_fmap. eauto.
Qed.

(** An earlier bound keeps the rows below it. *)
Lemma visible_below before b :
  (forall x, before = Some x -> b <= x) ->
  visible_decisions t f (Some b) = filter (fun d => dn_selection_sequence d < b) (visible_decisions t f before).
Proof.
  intros Hb. apply sort_by_unique; [apply newer_total|apply newer_trans| | |].
  - intros x y Hx Hy H1 H2. apply list_elem_of_filter in Hx as [_ Hx], Hy as [_ Hy]. apply stored_unique; [done..|].
    unfold newer in *. lia.
  - pose proof (sorted_filter _ (fun d => dn_selection_sequence d < b) _ (visible_ordered before)) as Hs.
    induction Hs as [|x l _ IH Hx]; constructor; [done|]. eapply Forall_impl; [exact Hx|]. intros y Hy. unfold newer. cbn in Hy. lia.
  - unfold visible_decisions. rewrite sort_by_perm. rewrite list_filter_filter. apply Permutation_refl', list_filter_iff.
    intros d. rewrite !andb_true_iff. cbn [before_page]. destruct before as [x|]; cbn; [specialize (Hb x eq_refl)|]; rewrite ?Z.ltb_lt; intuition lia.
Qed.

Lemma last_below l d : StronglySorted (fun a b => dn_selection_sequence b < dn_selection_sequence a) (l ++ [d]) ->
  Forall (fun x => dn_selection_sequence d <= dn_selection_sequence x) (l ++ [d]).
Proof.
  induction l as [|x l IH]; cbn; [by repeat constructor|]. intros [Hs Hx]%StronglySorted_inv. constructor; [|by apply IH].
  rewrite Forall_app, Forall_singleton in Hx. lia.
Qed.

(** A page and what comes after its last row make up the whole. *)
Lemma page_split before n d :
  last (take n (visible_decisions t f before)) = Some d ->
  visible_decisions t f before =
  take n (visible_decisions t f before) ++ visible_decisions t f (Some (dn_selection_sequence d)).
Proof.
  intros Hl. set (l := visible_decisions t f before) in *.
  assert (Hd : d ∈ l) by (apply last_Some_elem_of, elem_of_take in Hl as (i & Hi & _); by eapply list_elem_of_lookup_2).
  rewrite (visible_below before).
  2:{ intros x ->. apply elem_of_visible in Hd as (_ & Hb & _). cbn in Hb. lia. }
  fold l. pose proof (visible_ordered before) as Hs. fold l in Hs. rewrite <- (take_drop n l) in Hs.
  apply last_Some in Hl as (p & Hp). rewrite <- (take_drop n l) at 1 3. rewrite filter_app, Hp. rewrite Hp in Hs.
  pose proof (StronglySorted_app_1_l _ _ _ Hs) as Hs1. rewrite (filter_none _ (p ++ [d])).
  2:{ eapply Forall_impl; [by apply last_below|]. cbn. lia. }
  rewrite filter_all; [done|]. apply Forall_forall. intros x Hx.
  eapply (StronglySorted_app_1_elem_of _ _ _ d x Hs); [|done]. apply elem_of_app. right. by left.
Qed.
End Pages.

(** ** Properties *)

(** Paging through the history neither skips nor repeats.  A page that is
    returned, followed by the rows visible before its last row, is exactly the
    rows visible at the page's own bound, newest first and strictly ordered;
    every row of it passes the authorization filter; and a page is empty only
    when nothing is left. *)
Theorem history_pages_continue `{PyStr} (t : DecisionTables) (f : SelectionHistoryFilters) (before : option Z) (limit : Z)
    (page : list SelectionDecisionRecord) :
  decisions_ok t -> list_decisions t f before limit = Ok page ->
  (forall r, last page = Some r ->
     decision_record <$> visible_decisions t f before =
     page ++ (decision_record <$> visible_decisions t f (Some (dr_selection_sequence r)))) /\
  StronglySorted (fun a b => dr_selection_sequence b < dr_selection_sequence a) page /\
  (forall r, r ∈ page -> exists k d, dt_decisions t !! k = Some d /\ decision_visible f d = true /\ r = decision_record d) /\
  (page = [] -> forall k d, dt_decisions t !! k = Some d -> before_page before d = true -> decision_visible f d = false).
Proof.
  intros Hok Hl. unfold list_decisions in Hl. apply bind_Ok in Hl as ([] & Hlim%raise_if_Ok%negb_false_iff & Hl).
  apply bind_Ok in Hl as ([] & _ & [= <-]). set (l := visible_decisions t f before) in *. set (n := Z.to_nat limit).
  split_and!.
  - intros r Hr. rewrite fmap_last in Hr. apply fmap_Some in Hr as (d & Hd & ->). cbn [decision_record dr_selection_sequence].
    unfold l at 1. by rewrite (page_split t f Hok before n d Hd), fmap_app.
  - pose proof (visible_ordered t f Hok before) as Hs. fold l in Hs. rewrite <- (take_drop n l) in Hs.
    apply StronglySorted_app_1_l in Hs. induction Hs as [|x k _ IH Hx]; [constructor|]. cbn. constructor; [done|].
    by apply Forall_fmap.
  - intros r (d & -> & Hd)%list_elem_of_fmap. apply elem_of_take in Hd as (i & Hi & _). apply list_elem_of_lookup_2 in Hi.
    apply elem_of_visible in Hi as (Hv & _ & k & Hk). eauto.
  - intros Hnil k d Hk Hb. apply not_true_iff_false. intros Hv. assert (Hin : d ∈ l) by (apply elem_of_visible; eauto).
    apply fmap_nil_inv in Hnil. destruct l as [|x l']; [by apply elem_of_nil in Hin|]. unfold n in Hnil.
    destruct (Z.to_nat limit) eqn:E; [lia|done].
Qed.
