(* ===== verification/CandidateLifecycle.v ===== *)
(** * CandidateLifecycle: promotion and expiry of candidates

    Models [application/candidate_lifecycle.py] and the lifecycle commands of
    [domain/commands.py]: one transaction that locks a candidate, evaluates the
    pinned policy over its decision and evidence, and either leaves things as
    they are, records a policy no-op, or appends the lifecycle event with its
    projection, decision and jobs.  The database is the mutation engine's with
    the selection decisions; evidence rows come in no particular order. *)

From stdpp Require Import base tactics option list gmap sets strings.
From Stdlib Require Import ZArith Lia Bool SpecFloat.
From S2P Require Import Prelude Identifiers Enums Values CanonicalJson Digest Text Constraints Events Folding EventStore PolicyContracts Policy ProjectionRows LiveProjection ProjectionRebuild Outbox Transactions Commands Mutations MutationEngine SelectionHistory.
Open Scope Z_scope.

(** ** Commands and results *)

Record CandidateLifecycleCommand : Type := {
  cl_memory_id : UUID;
  cl_expected_revision : Z;
  cl_selection_decision_id : UUID;
  cl_policy_rule_code : pystr
}.

(** [operation: Literal["promote", "expire"]] *)
Inductive LifecycleOperation : Type := promote | expire.

Definition operation_value (o : LifecycleOperation) : string := match o with promote => "promote" | expire => "expire" end.

Record CandidateLifecycleResult : Type := {
  lc_operation : LifecycleOperation; lc_action : string; lc_decision_id : UUID; lc_source_decision_id : UUID;
  lc_event_id : option UUID; lc_memory_id : UUID; lc_revision : Z; lc_policy_sha256 : pystr; lc_reason_code : string
}.

(** [_LifecycleIdentifiers] *)
Record LifecycleIdentifiers : Type := {
  lid_decision_id : UUID; lid_event_id : UUID; lid_correlation_id : UUID; lid_job_ids : UUID * UUID;
  lid_evaluated_at : instant
}.

(** [command.model_dump(mode="json")] *)
Definition command_document (c : CandidateLifecycleCommand) : JsonValue :=
  JObject [(py "memory_id", JStr (uuid_str (cl_memory_id c))); (py "expected_revision", JInt (cl_expected_revision c));
           (py "selection_decision_id", JStr (uuid_str (cl_selection_decision_id c)));
           (py "policy_rule_code", JStr (cl_policy_rule_code c))].

(** ** The database *)

Record LifecycleDb : Type := {
  ly_db : MutationDb;
  ly_decisions : DecisionTables
}.

(** The memory, whatever its lineage and branch. *)
Definition candidate_row (db : MutationDb) (p : CommandPrincipal) (memory_id : UUID) : option MemoryRow :=
  row ← lt_memories (md_tables db) !! memory_id;
  guard (mr_tenant_id row = cp_tenant_id p /\ mr_memory_id row = memory_id);;
  Some row.

(** The joined query for the seals of lineage, persona and branch. *)
Definition lifecycle_identity (db : MutationDb) (p : CommandPrincipal) (memory : MemoryRow)
    : option (option instant * option instant * BranchRow) :=
  lineage ← md_lineages db !! mr_lineage_id memory;
  guard (li_tenant_id lineage = cp_tenant_id p);;
  persona ← md_personas db !! li_persona_id lineage;
  guard (pe_tenant_id persona = li_tenant_id lineage);;
  branch ← md_branches db !! mr_branch_id memory;
  guard (hr_tenant_id branch = li_tenant_id lineage /\ hr_lineage_id branch = mr_lineage_id memory);;
  Some (li_sealed_at lineage, pe_retired_at persona, branch).

(** The decision that made the memory a candidate. *)
Definition source_decision (t : DecisionTables) (p : CommandPrincipal) (decision_id memory_id : UUID) : option SelectionDecision :=
  List.find (fun d => (dn_tenant_id d =? cp_tenant_id p) && (dn_decision_id d =? decision_id)
                      && bool_decide (dn_memory_id d = Some memory_id) && String.eqb (dn_outcome d) "candidate")
    (snd <$> map_to_list (dt_decisions t)).

Definition active_evidence (db : MutationDb) (p : CommandPrincipal) (memory : MemoryRow) : list EvidenceRow :=
  filter (fun row => (er_tenant_id row =? cp_tenant_id p) && (er_lineage_id row =? mr_lineage_id memory)
                     && (er_memory_id row =? mr_memory_id memory) && String.eqb (er_status row) "active" = true)
    (snd <$> map_to_list (lt_evidence (md_tables db))).

(** ** Evidence *)

(** [EnumType(value) if value in values else fallback] *)
Definition enum_or {E} `{StrEnum E} (fallback : E) (value : pystr) : E :=
  default fallback (List.find (fun x => bool_decide (py (enum_value x) = value)) enum_members).

Section Engine.
Context `{Rfc8785} `{Pydantic} `{LiveDatabase} `{Database} `{DecisionDatabase} `{PyStr} (loaded : LoadedSelectionPolicy).

(** [_evidence] *)
Definition evidence_summary (row : EvidenceRow) : EvidenceSummary :=
  {| evs_evidence_key := match List.find (fun kv => bool_decide (kv.1 = py "evidence_key")) (er_source_reference row) with
                         | Some (_, v) => json_str v
                         | None => uuid_str (er_evidence_id row)
                         end;
     evs_kind := enum_or EvidenceKind.ASSISTANT_OBSERVATION (er_source_type row);
     evs_trust := enum_or EvidenceTrust.UNVERIFIED (er_trust_classification row) |}.

(** [MemoryStateV2.model_validate(state.model_dump(mode="python"))]: the field
    is required, and a sealed state has one the class forbids. *)
Definition as_v2 (m : MemoryState) : result MemoryState :=
  match ms_version m with
  | MemoryStateV2 _ => except_value_error (validate_memory m) (ValidationError "memory");; Ok m
  | _ => Err (ValidationError "memory")
  end.

(** [CandidateLifecycleState(...)] *)
Definition lifecycle_state (source : SelectionDecision) (rows : list EvidenceRow) : result CandidateLifecycleState :=
  basis ← from_option_or (enum_of_value SelectionBasis (dn_selection_basis source)) (ValueError "not a valid SelectionBasis");
  let rule_ids := omap (fun v => match v with JStr s => Some s | _ => None end) (dn_matched_rule_ids source) in
  let state := {| cls_status := MemoryStatus.CANDIDATE; cls_selection_basis := basis;
                  cls_content_signals := content_signals_from_rule_ids rule_ids;
                  cls_evidence := evidence_summary <$> rows; cls_policy_profile_version := py "selection-v1";
                  cls_policy_profile_sha256 := hex_of_bytes (dn_policy_sha256 source) |} in
  validate_lifecycle_state state;;
  Ok state.

(** ** Results that change nothing *)

(** [_noop] *)
Definition noop (o : LifecycleOperation) (memory_id source_decision_id : UUID) (revision : Z) (reason_code : string)
    : CandidateLifecycleResult :=
  {| lc_operation := o; lc_action := "no_op"; lc_decision_id := source_decision_id;
     lc_source_decision_id := source_decision_id; lc_event_id := None; lc_memory_id := memory_id;
     lc_revision := Z.max revision 1; lc_policy_sha256 := lsp_sha256_hex loaded; lc_reason_code := reason_code |}.

(** ** The decision *)

Definition source_kind (o : LifecycleOperation) : string :=
  match o with promote => "candidate_reassessment" | expire => "candidate_expiry" end.

(** The decision row of an evaluated command; [decided_at] is the server's. *)
Definition lifecycle_decision_row (p : CommandPrincipal) (c : CandidateLifecycleCommand) (o : LifecycleOperation)
    (memory : MemoryRow) (source : SelectionDecision) (ids : LifecycleIdentifiers) (policy_sha256 input_sha256 : bytes)
    (reason_code outcome : string) (memory_id event_id : option UUID) (decided_at : instant) (sequence : Z)
    : SelectionDecision :=
  {| dn_selection_sequence := sequence; dn_decision_id := lid_decision_id ids; dn_tenant_id := cp_tenant_id p;
     dn_lineage_id := mr_lineage_id memory; dn_branch_id := mr_branch_id memory; dn_persona_id := dn_persona_id source;
     dn_actor_id := cp_actor_id p; dn_client_id := cp_client_id p; dn_transport_binding_id := cp_transport_binding_id p;
     dn_policy_id := "scalevault-memory-selection"; dn_policy_version := 1; dn_policy_sha256 := policy_sha256;
     dn_policy_rule_code := py reason_code; dn_input_sha256 := input_sha256; dn_source_kind := source_kind o;
     dn_requested_operation := operation_value o; dn_outcome := outcome; dn_reason_codes := [JStr (py reason_code)];
     dn_matched_rule_ids := []; dn_selection_basis := dn_selection_basis source; dn_scope := dn_scope source;
     dn_visibility := dn_visibility source; dn_sensitivity := dn_sensitivity source; dn_subject_id := dn_subject_id source;
     dn_subject_kind := dn_subject_kind source; dn_memory_id := memory_id; dn_event_id := event_id;
     dn_decided_at := decided_at |}.

(** The builder the append calls with the next number. *)
Definition decision_builder (p : CommandPrincipal) (c : CandidateLifecycleCommand) (o : LifecycleOperation)
    (memory : MemoryRow) (source : SelectionDecision) (ids : LifecycleIdentifiers) (policy_sha256 : pystr)
    (reason_code outcome : string) (memory_id event_id : option UUID) (decided_at : instant) (sequence : Z)
    : result SelectionDecision :=
  digest ← from_option_or (fromhex policy_sha256) (ValueError "non-hexadecimal number found in fromhex() arg");
  input ← canonical_plain_bytes (command_document c);
  Ok (lifecycle_decision_row p c o memory source ids digest (sha256 input) reason_code outcome memory_id event_id
        decided_at sequence).

(** [_record_policy_noop] *)
Definition record_policy_noop (db : LifecycleDb) (p : CommandPrincipal) (c : CandidateLifecycleCommand)
    (o : LifecycleOperation) (memory : MemoryRow) (source : SelectionDecision) (ids : LifecycleIdentifiers)
    (policy_sha256 : pystr) (reason_code : string) (timestamp : instant)
    : result (LifecycleDb * CandidateLifecycleResult) :=
  '(t, d) ← append_selection_decision true (ly_decisions db)
    (decision_builder p c o memory source ids policy_sha256 reason_code "omit" None None timestamp);
  Ok ({| ly_db := ly_db db; ly_decisions := t |},
      {| lc_operation := o; lc_action := "no_op"; lc_decision_id := dn_decision_id d;
         lc_source_decision_id := dn_decision_id source; lc_event_id := None; lc_memory_id := mr_memory_id memory;
         lc_revision := mr_revision memory; lc_policy_sha256 := policy_sha256; lc_reason_code := reason_code |}).

(** ** The event *)

Definition target_status (o : LifecycleOperation) : MemoryStatus :=
  match o with promote => MemoryStatus.ACTIVE | expire => MemoryStatus.RETIRED end.
Definition lifecycle_event_operation (o : LifecycleOperation) : EventOperation :=
  match o with promote => EventOperation.CANDIDATE_PROMOTED | expire => EventOperation.CANDIDATE_EXPIRED end.
Definition result_action (o : LifecycleOperation) : string :=
  match o with promote => "promoted" | expire => "expired" end.

(** The after-image: the next revision with the target status and no deadline. *)
Definition lifecycle_memory (o : LifecycleOperation) (current : MemoryState) (now : instant) : MemoryState :=
  with_version (updated_memory current now (with_status current (target_status o))) (MemoryStateV2 None).

Definition lifecycle_payload (o : LifecycleOperation) (current : MemoryState) (ids : LifecycleIdentifiers)
    (reason_code : string) : result OperationPayload :=
  let after := lifecycle_memory o current (lid_evaluated_at ids) in
  except_value_error (validate_memory after) (ValidationError "memory");;
  let payload := CandidateLifecyclePayload (ms_revision current) after (lid_decision_id ids) (py reason_code) [] in
  except_value_error (validate_payload payload) (ValidationError "payload");;
  Ok payload.

Definition lifecycle_idempotency_key (o : LifecycleOperation) (c : CandidateLifecycleCommand) : pystr :=
  py "candidate-" ++ py (operation_value o) ++ py "-" ++ uuid_str (cl_selection_decision_id c) ++ py "-"
  ++ int_str (cl_expected_revision c).

(** [_event] *)
Definition lifecycle_event (p : CommandPrincipal) (c : CandidateLifecycleCommand) (o : LifecycleOperation)
    (memory : MemoryRow) (expected_revision : Z) (payload : OperationPayload) (ids : LifecycleIdentifiers)
    : result MemoryEvent :=
  let operation := lifecycle_event_operation o in
  '(value, canonical, payload_sha256, command_sha256) ←
    event_hash_fields operation payload (cp_tenant_id p) (mr_lineage_id memory) (mr_branch_id memory) (cp_actor_id p)
      (cp_client_id p) (Some (mr_memory_id memory)) (Some expected_revision) None 2;
  model_validate {|
    e_schema_version := 2; e_payload_version := 2; e_sequence := 1; e_event_id := lid_event_id ids;
    e_tenant_id := cp_tenant_id p; e_lineage_id := mr_lineage_id memory; e_branch_id := mr_branch_id memory;
    e_actor_id := cp_actor_id p; e_client_id := cp_client_id p; e_transport_binding_id := cp_transport_binding_id p;
    e_session_id := None; e_ingress_id := None; e_operation := operation; e_memory_id := Some (mr_memory_id memory);
    e_expected_revision := Some expected_revision; e_causation_event_id := None;
    e_correlation_id := lid_correlation_id ids; e_idempotency_key := lifecycle_idempotency_key o c;
    e_policy_version := 2; e_normalization_version := 1; e_payload := value; e_payload_canonical := canonical;
    e_payload_sha256 := payload_sha256; e_command_sha256 := command_sha256; e_created_at := lid_evaluated_at ids |}.

(** The two jobs of an applied command. *)
Definition enqueue_lifecycle_job (p : CommandPrincipal) (timestamp : instant) (db : OutboxDb) (item : UUID * JobSpec)
    : result OutboxDb :=
  '(db', _) ← enqueue_outbox_job db timestamp (0, 0)
    {| ji_tenant_id := cp_tenant_id p; ji_job_type := py (js_job_type item.2);
       ji_aggregate_type := py (js_aggregate_type item.2); ji_aggregate_id := js_aggregate_id item.2;
       ji_references := js_references item.2 |}
    DEFAULT_PRIORITY DEFAULT_JOB_ATTEMPTS None (Some item.1);
  Ok db'.

Definition lifecycle_jobs (memory_id : UUID) (revision : Z) (e : MemoryEvent) : JobSpec * JobSpec :=
  (memory_job "embed_memory" memory_id revision (e_event_id e),
   {| js_job_type := "export_git_batch"; js_aggregate_type := "event"; js_aggregate_id := Some (e_event_id e);
      js_references := list_to_map [(py "event_id", RefUUID (e_event_id e)); (py "event_sequence", RefInt (e_sequence e))] |}).

Definition set_tables (db : MutationDb) (s : StoreState) (t : LiveTables) (jobs : OutboxDb) : MutationDb :=
  {| md_store := s; md_tables := t; md_outbox := jobs; md_personas := md_personas db; md_lineages := md_lineages db;
     md_branches := md_branches db; md_sessions := md_sessions db; md_subjects := md_subjects db;
     md_content_keys := md_content_keys db; md_receipts := md_receipts db |}.

(** The writes of a promotion or expiry the policy decided. *)
Definition apply_lifecycle (db : LifecycleDb) (p : CommandPrincipal) (c : CandidateLifecycleCommand)
    (o : LifecycleOperation) (memory : MemoryRow) (branch_row : BranchRow) (source : SelectionDecision)
    (current : MemoryState) (decision : LifecycleDecision) (ids : LifecycleIdentifiers) (now timestamp : instant)
    : result (LifecycleDb * CandidateLifecycleResult) :=
  let reason_code := enum_value (ld_reason_code decision) in
  payload ← lifecycle_payload o current ids reason_code;
  '(s, event) ← append_memory_event now
    (fun sequence => e ← lifecycle_event p c o memory (ms_revision current) payload ids; Ok (with_sequence e sequence))
    None (md_store (ly_db db));
  branch ← branch_state_of branch_row;
  before ← load_projection_state_for_update true s (md_tables (ly_db db)) event branch;
  after ← validate_live_event before event;
  t ← stage_live_projection true before after event (md_tables (ly_db db));
  '(decisions, _) ← append_selection_decision true (ly_decisions db)
    (decision_builder p c o memory source ids (ld_policy_profile_sha256 decision) reason_code (result_action o)
       (Some (mr_memory_id memory)) (Some (e_event_id event)) timestamp);
  let jobs := lifecycle_jobs (mr_memory_id memory) (ms_revision current + 1) event in
  outbox ← foldM (enqueue_lifecycle_job p timestamp) (md_outbox (ly_db db))
             [((lid_job_ids ids).1, jobs.1); ((lid_job_ids ids).2, jobs.2)];
  Ok ({| ly_db := set_tables (ly_db db) s t outbox; ly_decisions := decisions |},
      {| lc_operation := o; lc_action := result_action o; lc_decision_id := lid_decision_id ids;
         lc_source_decision_id := dn_decision_id source; lc_event_id := Some (e_event_id event);
         lc_memory_id := mr_memory_id memory; lc_revision := ms_revision current + 1;
         lc_policy_sha256 := ld_policy_profile_sha256 decision; lc_reason_code := reason_code |}).

(** ** The transaction *)

Definition fail_lifecycle {A} (code : string) : result A := Err (CandidateLifecycleExecutionError code).

(** The policy's answer, or the missing deadline of an expiry. *)
Definition evaluate_lifecycle (o : LifecycleOperation) (state : CandidateLifecycleState) (current : MemoryState)
    (evaluated_at : instant) : result (option LifecycleDecision) :=
  match o with
  | promote => d ← evaluate_promotion loaded state; Ok (Some d)
  | expire =>
    match ms_candidate_expires_at current with
    | None => Ok None
    | Some deadline =>
      d ← evaluate_expiry loaded {| ee_candidate := state; ee_deadline := deadline; ee_evaluated_at := evaluated_at |};
      Ok (Some d)
    end
  end.

(** [CandidateLifecycleEngine._attempt] *)
Definition lifecycle_attempt (db : LifecycleDb) (p : CommandPrincipal) (c : CandidateLifecycleCommand)
    (o : LifecycleOperation) (ids : LifecycleIdentifiers) (now timestamp : instant)
    : result (LifecycleDb * CandidateLifecycleResult) :=
  let unchanged revision reason := Ok (db, noop o (cl_memory_id c) (cl_selection_decision_id c) revision reason) in
  if negb (bool_decide (binding_kind (ly_db db) p = Some "internal_service"%string)) then fail_lifecycle "forbidden"
  else match candidate_row (ly_db db) p (cl_memory_id c) with
  | None => unchanged 0 "not_found"%string
  | Some memory =>
    if negb (mr_revision memory =? cl_expected_revision c) then unchanged (mr_revision memory) "stale_revision"%string
    else if negb (String.eqb (mr_status memory) (MemoryStatus.value MemoryStatus.CANDIDATE))
    then unchanged (mr_revision memory) "not_candidate"%string
    else match lifecycle_identity (ly_db db) p memory with
    | None => fail_lifecycle "not_found"
    | Some (lineage_sealed_at, persona_retired_at, branch_row) =>
      if negb (is_none lineage_sealed_at) || negb (is_none persona_retired_at) || negb (is_none (hr_sealed_at branch_row))
      then fail_lifecycle "forbidden"
      else match source_decision (ly_decisions db) p (cl_selection_decision_id c) (mr_memory_id memory) with
      | None => unchanged (mr_revision memory) "decision_missing"%string
      | Some source =>
        read ← memory_row_to_state memory;
        current ← as_v2 read;
        state ← lifecycle_state source (active_evidence (ly_db db) p memory);
        evaluated ← evaluate_lifecycle o state current (lid_evaluated_at ids);
        match evaluated with
        | None => unchanged (mr_revision memory) "expiry_missing"%string
        | Some decision =>
          if bool_decide (ld_action decision = LifecycleAction.NO_OP)
          then record_policy_noop db p c o memory source ids (ld_policy_profile_sha256 decision)
                 (enum_value (ld_reason_code decision)) timestamp
          else apply_lifecycle db p c o memory branch_row source current decision ids now timestamp
        end
      end
    end
  end.

(** ** Retries and the error mapping *)

(** The [except] clauses of [_execute]; [None] passes through. *)
Definition lifecycle_error (e : exn) : exn :=
  match e with
  | CandidateLifecycleExecutionError _ => e
  | SerializableTransactionError _ _ => CandidateLifecycleExecutionError "serialization_exhausted"
  | DBAPIError _ => CandidateLifecycleExecutionError "dependency_unavailable"
  | EventStoreError _ _ | ProjectionPersistenceError _ | SelectionHistoryError _ | TypeError _ =>
    CandidateLifecycleExecutionError "validation_failed"
  | _ => if is_value_error e then CandidateLifecycleExecutionError "validation_failed" else e
  end.

(** [CandidateLifecycleEngine._execute], attempt [n] on [snapshot n]. *)
Definition lifecycle_execute (snapshot : nat -> LifecycleDb) (refused : nat -> option string)
    (now timestamp : nat -> instant) (jitter : nat -> float) (p : CommandPrincipal) (c : CandidateLifecycleCommand)
    (o : LifecycleOperation) (ids : LifecycleIdentifiers) : result (LifecycleDb * CandidateLifecycleResult) :=
  raise_if (bool_decide ((("memory.lifecycle." ++ operation_value o)%string) ∉ cp_scopes p) || negb (is_none (cp_ingress_id p)))
    (CandidateLifecycleExecutionError "forbidden");;
  match (run_serializable_transaction
           (fun n => outcome ← lifecycle_attempt (snapshot n) p c o ids (now n) (timestamp n); flush (refused n);; Ok outcome)
           jitter DEFAULT_MAX_ATTEMPTS DEFAULT_BASE_DELAY DEFAULT_MAX_DELAY).1 with
  | Ok outcome => Ok outcome
  | Err e => Err (lifecycle_error e)
  end.
End Engine.
