(* ===== verification/CandidateLifecycleTheorems.v ===== *)
(** * CandidateLifecycleTheorems: what promotion and expiry guarantee *)

From stdpp Require Import base tactics option list gmap sets strings.
From Stdlib Require Import ZArith Lia Bool.
From S2P Require Import Prelude Identifiers Enums Values CanonicalJson Digest Text Constraints Events Folding FoldingFacts FoldingInvariant FoldingHistory EventStore EventStoreTheorems OutboxTheorems OutboxProgress PolicyContracts Policy ProjectionRows LiveProjection LiveProjectionFacts LiveReplay ProjectionRebuild Outbox Transactions Commands Mutations MutationEngine MutationTheorems MutationEffects MutationGuards SelectionHistory CandidateLifecycle.
Open Scope Z_scope.

Section Lifecycle.
Context `{R : Rfc8785} `{P : Pydantic} `{LD : LiveDatabase} `{D : Database} `{DD : DecisionDatabase} `{PS : PyStr}
        (loaded : LoadedSelectionPolicy).

(** ** What an applied command has done *)

Record applied (db : LifecycleDb) (p : CommandPrincipal) (c : CandidateLifecycleCommand) (o : LifecycleOperation)
    (memory : MemoryRow) (branch_row : BranchRow) (source : SelectionDecision) (current : MemoryState)
    (decision : LifecycleDecision) (ids : LifecycleIdentifiers) (now timestamp : instant) (db' : LifecycleDb)
    (r : CandidateLifecycleResult) : Prop := {
  ap_parts : exists payload builder proposed branch s t event decisions d outbox,
    builder = (fun n => Ok (with_sequence proposed n)) /\
    lifecycle_event p c o memory (ms_revision current) payload ids = Ok proposed /\
    branch_state_of branch_row = Ok branch /\
    append_and_project now builder None branch (md_store (ly_db db)) (md_tables (ly_db db)) = Ok (s, t, event) /\
    append_selection_decision true (ly_decisions db)
      (decision_builder p c o memory source ids (ld_policy_profile_sha256 decision) (enum_value (ld_reason_code decision))
         (result_action o) (Some (mr_memory_id memory)) (Some (e_event_id event)) timestamp) = Ok (decisions, d) /\
    foldM (enqueue_lifecycle_job p timestamp) (md_outbox (ly_db db))
      [((lid_job_ids ids).1, (lifecycle_jobs (mr_memory_id memory) (ms_revision current + 1) event).1);
       ((lid_job_ids ids).2, (lifecycle_jobs (mr_memory_id memory) (ms_revision current + 1) event).2)] = Ok outbox /\
    db' = {| ly_db := set_tables (ly_db db) s t outbox; ly_decisions := decisions |} /\
    lc_action r = result_action o /\ lc_event_id r = Some (e_event_id event) /\
    lc_reason_code r = enum_value (ld_reason_code decision)
}.

(** A builder that validates the same event every time. *)
Lemma append_ext {auth} now b b' s : (forall n, st_counter s = Some n -> b n = b' n) ->
  append_memory_event now b auth s = append_memory_event now b' auth s.
Proof.
  intros Hb. unfold append_memory_event, append_in_transaction, build_and_validate.
  destruct (st_counter s) as [n|]; [|done]. cbn [from_option_or mbind result_bind]. by rewrite (Hb n eq_refl).
Qed.

Lemma apply_lifecycle_Ok db p c o memory branch_row source current decision ids now timestamp db' r :
  apply_lifecycle db p c o memory branch_row source current decision ids now timestamp = Ok (db', r) ->
  applied db p c o memory branch_row source current decision ids now timestamp db' r.
Proof.
  unfold apply_lifecycle. intros Ha. apply bind_Ok in Ha as (payload & _ & Ha). apply bind_Ok in Ha as ([s event] & Happ & Ha).
  apply bind_Ok in Ha as (branch & Hbr & Ha). apply bind_Ok in Ha as (before & Hb & Ha). apply bind_Ok in Ha as (after & Hf & Ha).
  apply bind_Ok in Ha as (t & Ht & Ha). apply bind_Ok in Ha as ([decisions d] & Hd & Ha).
  apply bind_Ok in Ha as (outbox & Ho & [= <- <-]).
  destruct (append_Ok _ _ _ _ _ _ Happ) as (n & b & ingress & row & Hn & Hbuilt & _).
  split. destruct (lifecycle_event p c o memory (ms_revision current) payload ids) as [proposed|] eqn:Hp.
  - exists payload, (fun n => Ok (with_sequence proposed n)), proposed, branch, s, t, event, decisions, d, outbox.
    split; [reflexivity|]. split; [exact Hp|]. split; [exact Hbr|]. split; [|split; [exact Hd|split; [exact Ho|]]].
    + rewrite (append_ext _ _ (fun n => Ok (with_sequence proposed n))) in Happ by reflexivity.
      unfold append_and_project. rewrite Happ. cbn [mbind result_bind]. rewrite Hb. cbn [mbind result_bind]. rewrite Hf.
      cbn [mbind result_bind]. by rewrite Ht.
    + split; [reflexivity|]. split; [reflexivity|]. split; reflexivity.
  - discriminate Hbuilt.
Qed.

(** ** The invariant *)

Record lifecycle_ok (db : LifecycleDb) : Prop := {
  lo_engine : engine_ok (ly_db db);
  lo_decisions : decisions_ok (ly_decisions db)
}.

Lemma lifecycle_event_valid p c o memory revision payload ids e :
  lifecycle_event p c o memory revision payload ids = Ok e ->
  model_validate e = Ok e /\ e_operation e = lifecycle_event_operation o /\ e_memory_id e = Some (mr_memory_id memory) /\
  e_expected_revision e = Some revision /\ e_tenant_id e = cp_tenant_id p.
Proof.
  unfold lifecycle_event. intros He. apply bind_Ok in He as ([[[v cn] ps] cs] & _ & He).
  pose proof He as Hv. apply model_validate_Ok in Hv as [-> _]. done.
Qed.

Lemma lifecycle_jobs_ok p timestamp items db db' :
  outbox_ok db -> foldM (enqueue_lifecycle_job p timestamp) db items = Ok db' -> outbox_ok db'.
Proof.
  revert db. induction items as [|item items IH]; intros db Hok; cbn [foldM]; [by intros [= <-]|].
  intros Hf. apply bind_Ok in Hf as (db1 & H1 & Hf). eapply IH; [|exact Hf]. unfold enqueue_lifecycle_job in H1.
  apply bind_Ok in H1 as ([db2 job] & H1 & [= <-]). eapply step_ok; [exact Hok|]. by eapply step_enqueue.
Qed.

(** An event that goes through the live path moves log and tables together. *)
Lemma live_step_ok {auth} db now proposed branch_row branch s' t' e outbox id :
  unique_event_id -> sequence_left (md_store db) -> engine_ok db -> model_validate proposed = Ok proposed ->
  md_branches db !! id = Some branch_row -> branch_state_of branch_row = Ok branch ->
  append_and_project now (fun n => Ok (with_sequence proposed n)) auth branch (md_store db) (md_tables db) = Ok (s', t', e) ->
  outbox_ok outbox ->
  engine_ok (set_tables db s' t' outbox) /\ e = with_sequence proposed (e_sequence e) /\
  exists s s1, fold_event s e = Ok s1 /\ holds t' s1.
Proof.
  intros Hu Hleft [Hst (es & s & Hes & Hreb & Hh & Hbr) Hout Hrc] Hval Hrow Hbs Happ Hob.
  destruct (engine_append _ _ _ _ _ _ _ _ (reachable_ok _ Hst) Hleft Hval Happ) as (builder & Hb & Happ').
  assert (Hbranch : ps_branches s !! bs_branch_id branch = Some branch) by (eapply Hbr; [exact Hrow|exact Hbs]).
  destruct (live_path_step now builder auth branch _ s' _ t' e es s Hu Hb Hst Hes Hreb Hh Hbranch Happ')
    as (e' & s1 & Hes' & Hfold & Hreb' & Hh').
  destruct (append_extends _ _ _ _ _ _ _ _ Happ) as [_ Hevs].
  pose proof (append_and_project_Ok _ _ _ _ _ _ _ _ _ Happ') as [Ha _].
  split; [split|split].
  - destruct Hst as (s0 & H0 & Hrun). exists s0. split; [done|]. eapply rtc_r; [exact Hrun|]. by eapply step_append.
  - exists (es ++ [e']), s1. split; [exact Hes'|]. split; [exact Hreb'|]. split; [exact Hh'|].
    intros id' row' b Hrow' Hb'. apply fold_event_parts in Hfold as (pl & w & Hacc & -> & _).
    cbn. apply (op_run_branches_mono _ _ _ _ _ (acc_run _ _ _ _ _ Hacc)). by eapply Hbr.
  - exact Hob.
  - intros key receipt Hk. destruct (Hrc _ _ Hk) as [H1 H2 H3 H4]. split; [exact H1|exact H2|exact H3|].
    intros id' Hid'. destruct (H4 id' Hid') as (row' & H5 & H6). exists row'. split; [by apply Hevs|exact H6].
  - apply append_and_project_Ok in Happ as [Happ _]. destruct (append_Ok _ _ _ _ _ _ Happ) as (n & b & i & row & _ & [= <-] & _ & _).
    reflexivity.
  - exists s, s1. split; [exact Hfold|exact Hh'].
Qed.

Lemma applied_step db p c o memory branch_row source current decision ids now timestamp db' r id :
  unique_event_id -> sequence_left (md_store (ly_db db)) -> engine_ok (ly_db db) ->
  md_branches (ly_db db) !! id = Some branch_row ->
  applied db p c o memory branch_row source current decision ids now timestamp db' r ->
  engine_ok (ly_db db') /\
  exists s s' e, fold_event s e = Ok s' /\ holds (md_tables (ly_db db')) s' /\ lc_event_id r = Some (e_event_id e) /\
    e_operation e = lifecycle_event_operation o /\ e_memory_id e = Some (mr_memory_id memory) /\
    e_expected_revision e = Some (ms_revision current) /\ e_tenant_id e = cp_tenant_id p.
Proof.
  intros Hu Hleft Hok Hrow Hap.
  destruct (ap_parts _ _ _ _ _ _ _ _ _ _ _ _ _ _ Hap) as
    (payload & builder & proposed & branch & s' & t' & e & ds & d & outbox & -> & Hprop & Hbs & Happ & _ & Ho & -> & _ & Hev & _).
  destruct (lifecycle_event_valid _ _ _ _ _ _ _ _ Hprop) as (Hval & Hop & Hmid & Hrev & Hten).
  pose proof (lifecycle_jobs_ok _ _ _ _ _ (eo_outbox _ Hok) Ho) as Hob.
  destruct (live_step_ok _ _ _ _ _ _ _ _ _ _ Hu Hleft Hok Hval Hrow Hbs Happ Hob) as (Hok' & He & s & s1 & Hfold & Hh').
  split; [exact Hok'|]. exists s, s1, e. split; [exact Hfold|]. split; [exact Hh'|]. split; [exact Hev|].
  rewrite He. split; [exact Hop|]. split; [exact Hmid|]. split; [exact Hrev|exact Hten].
Qed.

(** The reducer moved the candidate. *)
Lemma lifecycle_folds s e s' o id revision :
  fold_event s e = Ok s' -> e_operation e = lifecycle_event_operation o -> e_memory_id e = Some id ->
  e_expected_revision e = Some revision ->
  exists m, ps_memories s' !! id = Some m /\ ms_status m = target_status o /\ ms_revision m = revision + 1 /\
    ms_candidate_expires_at m = None /\ ms_tenant_id m = e_tenant_id e /\ ms_memory_id m = id.
Proof.
  intros Hf Hop Hid Hrev. apply fold_event_parts in Hf as (p & w & Hacc & -> & _).
  pose proof (acc_run _ _ _ _ _ Hacc) as Hrun. cbn [committed ps_memories].
  destruct Hrun as [|prev m decision code items status M current E Hst Hrep _ Hchk _| | | | | | | | | | | | |];
    try (exfalso; destruct o; cbn in Hop; rewrite Hop in *; discriminate).
  apply replace_memory_Ok in Hrep as (old & _ & -> & Hmid & Hexp & _ & Hkey & Hcr & _).
  apply check_revision_Ok in Hcr as (_ & _ & Hr & _).
  unfold check_candidate_lifecycle in Hchk. apply bind_Ok in Hchk as ([] & _ & Hchk).
  apply bind_Ok in Hchk as ([] & Hs%raise_if_Ok%bool_decide_eq_false%dec_stable & Hd%raise_if_Ok%negb_false_iff).
  rewrite Hid in Hmid. injection Hmid as ->. rewrite Hrev in Hexp. injection Hexp as ->.
  exists m. split; [apply lookup_insert_eq|]. split; [|split; [exact Hr|split; [by destruct (ms_candidate_expires_at m)|]]].
  - rewrite Hs. destruct Hst as [[Ho ->]|[Ho ->]]; destruct o; cbn in *; congruence.
  - split; [|reflexivity]. by injection Hkey.
Qed.

(** ** Rows *)

Lemma stored_lifecycle row m : memory_stored row m ->
  mr_status row = MemoryStatus.value (ms_status m) /\ mr_revision row = ms_revision m /\
  mr_candidate_expires_at row = ms_candidate_expires_at m.
Proof.
  intros (ev & Hr). unfold memory_state_to_row in Hr. apply bind_Ok in Hr as (fp & _ & Hr).
  apply bind_Ok in Hr as (cols & _ & [= <-]). done.
Qed.

(** A state that is read as V2 carries the row's deadline. *)
Lemma read_deadline row m : memory_row_to_state row = Ok m -> as_v2 m = Ok m ->
  exists deadline, mr_candidate_expires_at row = Some deadline /\ ms_candidate_expires_at m = Some deadline.
Proof.
  unfold memory_row_to_state, as_v2. intros Hm Hv. do 7 (apply bind_Ok in Hm as (? & _ & Hm)).
  apply bind_Ok in Hm as (version & Hver & Hm). do 4 (apply bind_Ok in Hm as (? & _ & Hm)).
  apply bind_Ok in Hm as ([] & _ & Hm). injection Hm as <-. cbn [ms_version] in Hv. unfold row_version in Hver.
  unfold ms_candidate_expires_at. cbn [ms_version].
  case_bool_decide.
  - apply bind_Ok in Hver as (? & _ & Hver). apply bind_Ok in Hver as (? & _ & [= <-]). discriminate Hv.
  - destruct (mr_candidate_expires_at row) as [deadline|]; injection Hver as <-; [eauto|discriminate Hv].
Qed.

Lemma as_v2_id m m' : as_v2 m = Ok m' -> m' = m.
Proof. unfold as_v2. destruct (ms_version m); [done| |done]. intros Hm. by apply bind_Ok in Hm as ([] & _ & [= <-]). Qed.

Lemma candidate_row_Some db p id row : candidate_row db p id = Some row ->
  lt_memories (md_tables db) !! id = Some row /\ mr_tenant_id row = cp_tenant_id p /\ mr_memory_id row = id.
Proof.
  unfold candidate_row. intros Hr. apply bind_Some in Hr as (x & Hx & Hr). apply bind_Some in Hr as ((H1 & H2) & _ & [= <-]). done.
Qed.

Lemma lifecycle_identity_branch db p memory l q branch_row :
  lifecycle_identity db p memory = Some (l, q, branch_row) -> md_branches db !! mr_branch_id memory = Some branch_row.
Proof.
  unfold lifecycle_identity. intros Hi. apply bind_Some in Hi as (x & _ & Hi). apply bind_Some in Hi as (? & _ & Hi).
  apply bind_Some in Hi as (? & _ & Hi). apply bind_Some in Hi as (? & _ & Hi). apply bind_Some in Hi as (b & Hb & Hi).
  apply bind_Some in Hi as (? & _ & [= _ _ <-]). exact Hb.
Qed.

(** ** Successful attempts *)

(** What a command found before the policy was asked. *)
Record considered (db : LifecycleDb) (p : CommandPrincipal) (c : CandidateLifecycleCommand) (o : LifecycleOperation)
    (evaluated_at : instant) (memory : MemoryRow) (branch_row : BranchRow) (source : SelectionDecision)
    (current : MemoryState) (deadline : instant) (state : CandidateLifecycleState) (decision : LifecycleDecision) : Prop := {
  co_row : candidate_row (ly_db db) p (cl_memory_id c) = Some memory;
  co_revision : mr_revision memory = cl_expected_revision c;
  co_status : mr_status memory = MemoryStatus.value MemoryStatus.CANDIDATE;
  co_identity : lifecycle_identity (ly_db db) p memory = Some (None, None, branch_row);
  co_open : hr_sealed_at branch_row = None;
  co_source : source_decision (ly_decisions db) p (cl_selection_decision_id c) (mr_memory_id memory) = Some source;
  co_current : memory_row_to_state memory = Ok current;
  co_deadline : mr_candidate_expires_at memory = Some deadline;
  co_state : lifecycle_state source (active_evidence (ly_db db) p memory) = Ok state;
  co_decision : match o with
                | promote => evaluate_promotion loaded state
                | expire => evaluate_expiry loaded {| ee_candidate := state; ee_deadline := deadline; ee_evaluated_at := evaluated_at |}
                end = Ok decision
}.

(** The ways an attempt returns. *)
Inductive attempted (db : LifecycleDb) (p : CommandPrincipal) (c : CandidateLifecycleCommand) (o : LifecycleOperation)
    (ids : LifecycleIdentifiers) (now timestamp : instant) : LifecycleDb -> CandidateLifecycleResult -> Prop :=
| at_unchanged revision reason :
    reason ∈ ["not_found"; "stale_revision"; "not_candidate"; "decision_missing"]%string ->
    attempted db p c o ids now timestamp db (noop loaded o (cl_memory_id c) (cl_selection_decision_id c) revision reason)
| at_kept memory branch_row source current deadline state decision db' r :
    considered db p c o (lid_evaluated_at ids) memory branch_row source current deadline state decision ->
    ld_action decision = LifecycleAction.NO_OP ->
    record_policy_noop db p c o memory source ids (ld_policy_profile_sha256 decision) (enum_value (ld_reason_code decision))
      timestamp = Ok (db', r) ->
    attempted db p c o ids now timestamp db' r
| at_applied memory branch_row source current deadline state decision db' r :
    considered db p c o (lid_evaluated_at ids) memory branch_row source current deadline state decision ->
    ld_action decision <> LifecycleAction.NO_OP ->
    applied db p c o memory branch_row source current decision ids now timestamp db' r ->
    attempted db p c o ids now timestamp db' r.

Lemma lifecycle_attempt_Ok db p c o ids now timestamp db' r :
  lifecycle_attempt loaded db p c o ids now timestamp = Ok (db', r) ->
  binding_kind (ly_db db) p = Some "internal_service"%string /\ attempted db p c o ids now timestamp db' r.
Proof.
  unfold lifecycle_attempt. intros Ha. case_bool_decide as Hkind; [|discriminate Ha]. split; [exact Hkind|].
  cbn [negb] in Ha. destruct (candidate_row (ly_db db) p (cl_memory_id c)) as [memory|] eqn:Hrow.
  2:{ injection Ha as <- <-. apply at_unchanged. set_solver. }
  destruct (mr_revision memory =? cl_expected_revision c) eqn:Hrev; cbn [negb] in Ha.
  2:{ injection Ha as <- <-. apply at_unchanged. set_solver. }
  destruct (String.eqb (mr_status memory) _) eqn:Hst; cbn [negb] in Ha.
  2:{ injection Ha as <- <-. apply at_unchanged. set_solver. }
  destruct (lifecycle_identity (ly_db db) p memory) as [[[l q] branch_row]|] eqn:Hid; [|discriminate Ha].
  destruct l as [l|]; [discriminate Ha|]. destruct q as [q|]; [discriminate Ha|].
  destruct (hr_sealed_at branch_row) as [|] eqn:Hsealed; [discriminate Ha|]. cbn [is_none negb orb] in Ha.
  destruct (source_decision _ _ _ _) as [source|] eqn:Hsrc.
  2:{ injection Ha as <- <-. apply at_unchanged. set_solver. }
  apply bind_Ok in Ha as (read & Hread & Ha). apply bind_Ok in Ha as (current & Hcur & Ha).
  pose proof (as_v2_id _ _ Hcur) as ->. destruct (read_deadline _ _ Hread Hcur) as (deadline & Hd & Hd').
  apply bind_Ok in Ha as (state & Hstate & Ha). apply bind_Ok in Ha as (evaluated & Hev & Ha).
  assert (exists decision, evaluated = Some decision /\
    considered db p c o (lid_evaluated_at ids) memory branch_row source read deadline state decision)
    as (decision & -> & Hcons).
  { destruct o; cbn [evaluate_lifecycle] in Hev; [|rewrite Hd' in Hev]; apply bind_Ok in Hev as (d & Hev & [= <-]);
      exists d; (split; [reflexivity|]);
      (split; [exact Hrow|by apply Z.eqb_eq|by apply String.eqb_eq|exact Hid|exact Hsealed|exact Hsrc|exact Hread
              |exact Hd|exact Hstate|exact Hev]). }
  case_bool_decide as Hact.
  - by eapply at_kept.
  - eapply at_applied; [exact Hcons|exact Hact|by apply apply_lifecycle_Ok].
Qed.

(** The row an applied command leaves. *)
Lemma applied_row db p c o evaluated_at memory branch_row source current deadline state decision ids now timestamp db' r :
  unique_event_id -> sequence_left (md_store (ly_db db)) -> engine_ok (ly_db db) ->
  considered db p c o evaluated_at memory branch_row source current deadline state decision ->
  applied db p c o memory branch_row source current decision ids now timestamp db' r ->
  engine_ok (ly_db db') /\
  exists row, candidate_row (ly_db db') p (cl_memory_id c) = Some row /\
    mr_status row = MemoryStatus.value (target_status o) /\ mr_revision row = cl_expected_revision c + 1 /\
    mr_candidate_expires_at row = None.
Proof.
  intros Hu Hleft Hok Hcons Hap. pose proof (lifecycle_identity_branch _ _ _ _ _ _ (co_identity _ _ _ _ _ _ _ _ _ _ _ _ Hcons)) as Hbr.
  destruct (candidate_row_Some _ _ _ _ (co_row _ _ _ _ _ _ _ _ _ _ _ _ Hcons)) as (_ & _ & Hid).
  destruct (memory_row_to_state_revision _ _ (co_current _ _ _ _ _ _ _ _ _ _ _ _ Hcons)) as (_ & Hrev & _).
  destruct (applied_step _ _ _ _ _ _ _ _ _ _ _ _ _ _ _ Hu Hleft Hok Hbr Hap)
    as (Hok' & s & s' & e & Hfold & Hh & _ & Hop & Hmid & Hexp & Hten).
  split; [exact Hok'|]. destruct (lifecycle_folds _ _ _ _ _ _ Hfold Hop Hmid Hexp) as (m & Hm & Hst & Hr & Hd & Ht & Hi).
  pose proof (ho_memories _ _ Hh (mr_memory_id memory)) as Hrow. rewrite Hm in Hrow.
  apply holds_image in Hrow as (row & Hrow & Hstored). destruct (stored_lifecycle _ _ Hstored) as (H1 & H2 & H3).
  destruct (memory_stored_columns _ _ Hstored) as (H4 & H5 & _). exists row.
  split; [|split; [|split]].
  - unfold candidate_row. rewrite Hid in Hrow. rewrite Hrow. cbn [mbind option_bind].
    rewrite option_guard_True; [reflexivity|]. split; [rewrite H5, Ht; exact Hten|rewrite H4, Hi; exact Hid].
  - by rewrite H1, Hst.
  - rewrite H2, Hr, Hrev. by rewrite (co_revision _ _ _ _ _ _ _ _ _ _ _ _ Hcons).
  - by rewrite H3.
Qed.

Lemma applied_bindings db p c o memory branch_row source current decision ids now timestamp db' r :
  applied db p c o memory branch_row source current decision ids now timestamp db' r ->
  binding_kind (ly_db db') p = binding_kind (ly_db db) p.
Proof.
  intros [(? & ? & ? & ? & s & t & e & ? & ? & ? & _ & _ & _ & Happ & _ & _ & -> & _)].
  apply append_extends in Happ as [Hb _]. unfold binding_kind. cbn [ly_db set_tables md_store]. by rewrite Hb.
Qed.

(** The row a recorded decision is. *)
Lemma decision_builder_Ok p c o memory source ids policy reason outcome memory_id event_id at_ n d :
  decision_builder p c o memory source ids policy reason outcome memory_id event_id at_ n = Ok d ->
  dn_decision_id d = lid_decision_id ids /\ dn_requested_operation d = operation_value o /\ dn_outcome d = outcome /\
  dn_policy_rule_code d = py reason /\ dn_memory_id d = memory_id /\ dn_event_id d = event_id.
Proof.
  unfold decision_builder. intros Hd. apply bind_Ok in Hd as (? & _ & Hd). apply bind_Ok in Hd as (? & _ & [= <-]). done.
Qed.

(** The decision ledger stays numbered. *)
Lemma attempt_decisions_ok db p c o ids now timestamp db' r :
  decisions_ok (ly_decisions db) -> lifecycle_attempt loaded db p c o ids now timestamp = Ok (db', r) ->
  decisions_ok (ly_decisions db').
Proof.
  intros Hd [_ Ha]%lifecycle_attempt_Ok.
  destruct Ha as [|? ? ? ? ? ? ? db' r Hc Hno Hrec|? ? ? ? ? ? ? db' r Hc Hact Hap].
  - exact Hd.
  - unfold record_policy_noop in Hrec. apply bind_Ok in Hrec as ([t d] & Happ & [= <- _]).
    exact (decisions_ok_append _ _ _ _ _ Hd Happ).
  - destruct Hap as [(? & ? & ? & ? & s & t & e & ds & d & ? & _ & _ & _ & _ & Happ & _ & -> & _)].
    exact (decisions_ok_append _ _ _ _ _ Hd Happ).
Qed.

(** ** Properties *)


(** C8: a candidate leaves its status once.  After a command promoted or
    expired a candidate, the same command, as a promotion or as an expiry and
    with any identifiers and clock, is answered as stale and changes nothing,
    so a redelivered command and a promotion racing an expiry apply at most
    once.  The database refuses duplicate event identifiers and satisfies the
    engine's invariant, and event numbers are left. *)
Theorem lifecycle_applies_once (db db' : LifecycleDb) (p : CommandPrincipal) (c : CandidateLifecycleCommand)
    (o o' : LifecycleOperation) (ids ids' : LifecycleIdentifiers) (now now' timestamp timestamp' : instant)
    (r : CandidateLifecycleResult) :
  unique_event_id -> sequence_left (md_store (ly_db db)) -> engine_ok (ly_db db) ->
  lifecycle_attempt loaded db p c o ids now timestamp = Ok (db', r) -> lc_event_id r <> None ->
  lifecycle_attempt loaded db' p c o' ids' now' timestamp' =
  Ok (db', noop loaded o' (cl_memory_id c) (cl_selection_decision_id c) (cl_expected_revision c + 1) "stale_revision").
Proof.
  intros Hu Hleft Hok [Hkind Ha]%lifecycle_attempt_Ok Hev.
  destruct Ha as [revision reason Hin|memory branch_row source current deadline state decision db' r Hc Hno Hrec
                 |memory branch_row source current deadline state decision db' r Hc Hact Hap].
  - by destruct Hev.
  - unfold record_policy_noop in Hrec. apply bind_Ok in Hrec as ([t d] & _ & [= <- <-]). by destruct Hev.
  - destruct (applied_row _ _ _ _ _ _ _ _ _ _ _ _ _ _ _ _ _ Hu Hleft Hok Hc Hap) as [_ (row & Hrow & _ & Hrev & _)].
    unfold lifecycle_attempt. rewrite (applied_bindings _ _ _ _ _ _ _ _ _ _ _ _ _ _ Hap), Hkind, Hrow, Hrev.
    rewrite bool_decide_true by reflexivity. cbn [negb]. replace (_ =? _) with false by lia. reflexivity.
Qed.

(** Lifecycle commands keep the store's invariant.  An attempt that returns
    leaves the log, the projection tables that mirror it, the outbox, the
    receipts and the decision ledger in a state in which they agree and the
    decisions are numbered without gap. *)
Lemma lifecycle_attempt_keeps (db db' : LifecycleDb) (p : CommandPrincipal) (c : CandidateLifecycleCommand)
    (o : LifecycleOperation) (ids : LifecycleIdentifiers) (now timestamp : instant) (r : CandidateLifecycleResult) :
  unique_event_id -> sequence_left (md_store (ly_db db)) -> lifecycle_ok db ->
  lifecycle_attempt loaded db p c o ids now timestamp = Ok (db', r) -> lifecycle_ok db'.
Proof.
  intros Hu Hleft [Hok Hd] Hrun. split; [|exact (attempt_decisions_ok _ _ _ _ _ _ _ _ _ Hd Hrun)].
  apply lifecycle_attempt_Ok in Hrun as [_ Ha].
  destruct Ha as [|? ? ? ? ? ? ? db' r Hc Hno Hrec|? ? ? ? ? ? ? db' r Hc Hact Hap].
  - exact Hok.
  - unfold record_policy_noop in Hrec. apply bind_Ok in Hrec as ([t d] & Happ & [= <- _]). exact Hok.
  - exact (proj1 (applied_row _ _ _ _ _ _ _ _ _ _ _ _ _ _ _ _ _ Hu Hleft Hok Hc Hap)).
Qed.
End Lifecycle.
