(* ===== verification/LifecycleExamples.v ===== *)
(** * LifecycleExamples: one candidate, promoted

    A candidate with a trusted confirmation goes through the lifecycle engine;
    the witnesses of the theorems on lifecycle commands and selection history. *)

From stdpp Require Import base tactics option list gmap sets strings.
From Stdlib Require Import ZArith Lia Bool SpecFloat Sorted.
From S2P Require Import Prelude Identifiers Enums Values CanonicalJson Digest Text Constraints Events Folding Samples FoldingHistory EventStore EventStoreTheorems OutboxTheorems PolicyContracts Policy ProjectionRows LiveProjection LiveProjectionFacts LiveReplay ProjectionRebuild Outbox Transactions Commands Mutations MutationEngine MutationTheorems SelectionHistory CandidateLifecycle CandidateLifecycleTheorems.
Open Scope Z_scope.

(** ** The candidate *)

Definition candidate_memory : MemoryState :=
  with_version (sample_memory MEMORY_1 TENANT_A BRANCH_A 1 2 2 MemoryStatus.CANDIDATE) (MemoryStateV2 (Some 50)).

Definition confirmation : EvidenceState :=
  {| es_evidence_id := EVIDENCE_1; es_tenant_id := TENANT_A; es_lineage_id := LINEAGE; es_branch_id := BRANCH_A;
     es_memory_id := MEMORY_1; es_source_type := py "user_confirmation"; es_source_reference := [(py "evidence_key", JStr (py "k1"))];
     es_excerpt := None; es_occurred_at := None; es_content_sha256 := None; es_trust_classification := py "trusted";
     es_status := evidence_active; es_created_at := 2; es_metadata := [] |}.

Definition lifecycle_ids : LifecycleIdentifiers := {|
  lid_decision_id := uid 400; lid_event_id := uid 401; lid_correlation_id := uid 402; lid_job_ids := (uid 403, uid 404);
  lid_evaluated_at := 10 |}.

Definition promoted_payload : OperationPayload :=
  CandidateLifecyclePayload 1 (lifecycle_memory promote candidate_memory 10) (uid 400)
    (py (enum_value LifecycleReasonCode.TRUSTED_USER_CONFIRMATION)) [].

(** The promotion is dumped as the empty object, the history by index. *)
#[export] Instance lifecycle_pydantic : Pydantic := {|
  model_read := fun model v =>
    match v with
    | JObject [] => Some promoted_payload
    | JObject [(_, JInt n)] =>
      [BranchCreatedPayload (sample_branch BRANCH_A TENANT_A 1); MemoryCreatedPayload candidate_memory [confirmation]]
        !! Z.to_nat n
    | _ => None
    end;
  model_dump := fun _ => ({[0 := CMapping []]}, PRef 0)
|}.

#[local] Existing Instance unique_database.
#[local] Existing Instance accepting_tables.
#[local] Instance accepting_decisions : DecisionDatabase := fun _ _ => None.
#[local] Instance no_str : PyStr := fun _ => [].

(** ** The database *)

Definition service : CommandPrincipal := {|
  cp_tenant_id := TENANT_A; cp_actor_id := uid 6; cp_client_id := uid 7; cp_transport_binding_id := uid 8;
  cp_scopes := {["memory.lifecycle.promote"; "memory.lifecycle.expire"]}%string; cp_ingress_id := None |}.

Definition service_store : StoreState := {|
  st_counter := Some 1; st_events := [];
  st_bindings := {[ uid 8 := {|
    tb_tenant_id := TENANT_A; tb_actor_id := uid 6; tb_client_id := uid 7;
    tb_transport_kind := "internal_service"; tb_installation_id := None;
    tb_authorized_operations := [(py "operations", JArray [JStr (py "branch_created"); JStr (py "candidate_created");
       JStr (py "remembered"); JStr (py "candidate_promoted"); JStr (py "candidate_expired")])];
    tb_valid_until := None |} ]};
  st_actors := st_actors live_store;
  st_clients := {[ uid 7 := {| cl_tenant_id := TENANT_A; cl_transport_kind := "internal_service"; cl_revoked_at := None |} ]};
  st_installations := ∅; st_ingress := ∅ |}.

Definition or_else {A} (r : result A) (other : A) : A := match r with Ok a => a | Err _ => other end.

Lemma or_else_Ok {A} (r : result A) other : is_ok r = true -> r = Ok (or_else r other).
Proof. by destruct r. Qed.

Definition first_store : StoreState :=
  (or_else (append_memory_event 5 (fun _ => Ok branch_event) None service_store) (service_store, branch_event)).1.

Definition candidate_event : MemoryEvent :=
  sample_event 2 TENANT_A BRANCH_A EventOperation.REMEMBERED 2 (Some MEMORY_1) None.

Definition candidate_run : StoreState * LiveTables * MemoryEvent :=
  or_else (append_and_project 5 (fun n => Ok (with_sequence candidate_event n)) None (sample_branch BRANCH_A TENANT_A 1)
             first_store empty_tables) (first_store, empty_tables, candidate_event).

(** The database with the branch, before the candidate. *)
Definition branch_db : MutationDb := {|
  md_store := first_store; md_tables := empty_tables; md_outbox := empty_outbox {[TENANT_A]};
  md_personas := {[uid 11 := {| pe_tenant_id := TENANT_A; pe_actor_id := uid 6; pe_retired_at := None |}]};
  md_lineages := {[LINEAGE := {| li_tenant_id := TENANT_A; li_persona_id := uid 11; li_sealed_at := None |}]};
  md_branches := {[BRANCH_A := branch_row (sample_branch BRANCH_A TENANT_A 1)]};
  md_sessions := ∅; md_subjects := ∅; md_content_keys := ∅; md_receipts := ∅ |}.

Definition profile_digest : bytes := replicate 32 171.
Definition loaded_profile : LoadedSelectionPolicy := SELECTION_V1 (hex_of_bytes profile_digest).

Definition suggestion : SelectionDecision := {|
  dn_selection_sequence := 1; dn_decision_id := uid 410; dn_tenant_id := TENANT_A; dn_lineage_id := LINEAGE;
  dn_branch_id := BRANCH_A; dn_persona_id := uid 11; dn_actor_id := uid 6; dn_client_id := uid 7;
  dn_transport_binding_id := uid 8; dn_policy_id := "scalevault-memory-selection"; dn_policy_version := 1;
  dn_policy_sha256 := profile_digest; dn_policy_rule_code := py "forced_candidate"; dn_input_sha256 := replicate 32 0;
  dn_source_kind := "direct_command"; dn_requested_operation := "observe"; dn_outcome := "candidate";
  dn_reason_codes := []; dn_matched_rule_ids := [JStr (py "basis.imported_legacy")];
  dn_selection_basis := enum_value SelectionBasis.IMPORTED_LEGACY; dn_scope := "persona";
  dn_visibility := "private_root"; dn_sensitivity := 1; dn_subject_id := uid 10; dn_subject_kind := "persona";
  dn_memory_id := Some MEMORY_1; dn_event_id := Some (uid 102); dn_decided_at := 2 |}.

Definition suggestion_table : DecisionTables := {| dt_decisions := {[1 := suggestion]}; dt_counter := Some 2 |}.

Definition candidate_db : LifecycleDb := {|
  ly_db := set_tables branch_db candidate_run.1.1 candidate_run.1.2 (md_outbox branch_db);
  ly_decisions := suggestion_table |}.

Definition promote_command : CandidateLifecycleCommand := {|
  cl_memory_id := MEMORY_1; cl_expected_revision := 1; cl_selection_decision_id := uid 410;
  cl_policy_rule_code := py "trusted_user_confirmation" |}.

Definition promoted : LifecycleDb * CandidateLifecycleResult :=
  or_else (lifecycle_attempt loaded_profile candidate_db service promote_command promote lifecycle_ids 6 6)
    (candidate_db, noop loaded_profile promote (uid 0) (uid 0) 0 "").

(** ** It is consistent, and the promotion runs *)

Lemma branch_db_ok : engine_ok branch_db.
Proof.
  apply (fresh_branch_ok branch_db service_store 5 branch_event (state_of [branch_event]) (sample_branch BRANCH_A TENANT_A 1)
    (branch_row (sample_branch BRANCH_A TENANT_A 1)) {[TENANT_A]}); try reflexivity; try (vm_compute; reflexivity).
  by split.
Qed.

Lemma candidate_event_valid : model_validate candidate_event = Ok candidate_event.
Proof. vm_compute. reflexivity. Qed.

Lemma candidate_runs :
  is_ok (append_and_project 5 (fun n => Ok (with_sequence candidate_event n)) None (sample_branch BRANCH_A TENANT_A 1)
           first_store empty_tables) = true.
Proof. vm_compute. reflexivity. Qed.

Lemma candidate_engine_ok : engine_ok (ly_db candidate_db).
Proof.
  pose proof (or_else_Ok _ (first_store, empty_tables, candidate_event) candidate_runs) as Hrun.
  fold candidate_run in Hrun. unfold candidate_db. cbn [ly_db]. destruct candidate_run as [[s t] e].
  refine (proj1 (live_step_ok branch_db 5 candidate_event (branch_row (sample_branch BRANCH_A TENANT_A 1))
    (sample_branch BRANCH_A TENANT_A 1) s t e (md_outbox branch_db) BRANCH_A unique_database_unique _ branch_db_ok
    candidate_event_valid _ _ Hrun (empty_ok _))).
  - vm_compute. reflexivity.
  - cbn. apply lookup_singleton_eq.
  - vm_compute. reflexivity.
Qed.

Lemma suggestion_table_ok : decisions_ok suggestion_table.
Proof.
  split; cbn [suggestion_table dt_decisions dt_counter]; [reflexivity| |].
  - intros k d [<- <-]%lookup_singleton_Some. split; [reflexivity|]. rewrite map_size_singleton. lia.
  - intros k k' d d' [<- _]%lookup_singleton_Some [<- _]%lookup_singleton_Some _. reflexivity.
Qed.

Lemma promotion_runs :
  is_ok (lifecycle_attempt loaded_profile candidate_db service promote_command promote lifecycle_ids 6 6) = true /\
  lc_event_id promoted.2 = Some (uid 401) /\ sequence_left (md_store (ly_db candidate_db)).
Proof. vm_compute. split; [reflexivity|]. split; reflexivity. Qed.

Lemma promotion_accepted :
  lifecycle_attempt loaded_profile candidate_db service promote_command promote lifecycle_ids 6 6 = Ok (promoted.1, promoted.2).
Proof.
  rewrite (or_else_Ok _ (candidate_db, noop loaded_profile promote (uid 0) (uid 0) 0 "") (proj1 promotion_runs)).
  fold promoted. by destruct promoted.
Qed.

(** ** Witnesses *)


Lemma lifecycle_applies_once_witness :
  lifecycle_attempt loaded_profile promoted.1 service promote_command expire lifecycle_ids 60 60 =
  Ok (promoted.1, noop loaded_profile expire MEMORY_1 (uid 410) 2 "stale_revision").
Proof.
  refine (lifecycle_applies_once loaded_profile candidate_db promoted.1 service promote_command promote expire lifecycle_ids
    lifecycle_ids 6 60 6 60 promoted.2 unique_database_unique _ candidate_engine_ok promotion_accepted _).
  - exact (proj2 (proj2 promotion_runs)).
  - rewrite (proj1 (proj2 promotion_runs)). discriminate.
Defined.

(** Two pages over a ledger of two rows. *)
Definition history_filters : SelectionHistoryFilters := {|
  hf_tenant_id := TENANT_A; hf_persona_id := uid 11; hf_lineage_id := LINEAGE; hf_branch_id := BRANCH_A;
  hf_allowed_scopes := [MemoryScope.PERSONA]; hf_allowed_visibilities := [MemoryVisibility.PRIVATE_ROOT];
  hf_max_sensitivity := 2; hf_requested_subject_ids := None; hf_project_subject_ids := []; hf_relationship_subject_ids := [];
  hf_session_subject_ids := []; hf_allowed_subject_kinds := None; hf_selection_bases := None |}.

Lemma promoted_decisions_ok : decisions_ok (ly_decisions promoted.1).
Proof.
  exact (attempt_decisions_ok loaded_profile candidate_db service promote_command promote lifecycle_ids 6 6 promoted.1 promoted.2
    suggestion_table_ok promotion_accepted).
Qed.

Definition first_page : list SelectionDecisionRecord :=
  or_else (list_decisions (ly_decisions promoted.1) history_filters None 1) [].

Lemma history_runs :
  is_ok (list_decisions (ly_decisions promoted.1) history_filters None 1) = true /\
  dr_selection_sequence <$> first_page = [2] /\
  dr_selection_sequence <$> (decision_record <$> visible_decisions (ly_decisions promoted.1) history_filters (Some 2)) = [1].
Proof. vm_compute. split; [reflexivity|]. split; reflexivity. Qed.

Lemma history_pages_continue_witness :
  (forall r, last first_page = Some r ->
     decision_record <$> visible_decisions (ly_decisions promoted.1) history_filters None =
     first_page ++ (decision_record <$> visible_decisions (ly_decisions promoted.1) history_filters (Some (dr_selection_sequence r)))) /\
  first_page <> [].
Proof.
  destruct (history_pages_continue (ly_decisions promoted.1) history_filters None 1 first_page) as (Hsplit & _).
  - exact promoted_decisions_ok.
  - apply or_else_Ok, history_runs.
  - split; [exact Hsplit|]. intros Hnil. pose proof (proj1 (proj2 history_runs)) as Hpage. rewrite Hnil in Hpage. discriminate Hpage.
Defined.
