(* ===== verification/Disk.v ===== *)
(** * Disk: directories, and programs that may be interrupted

    The file operations the key provider and the destruction ledger use
    ([os.open], [os.link], [os.replace], ... relative to a directory
    descriptor), over directories with names and inodes.  A program returns
    the worlds it passes through, one per call that changes the disk, so that
    a process killed between two calls is any of them; [finally] and [except]
    clauses run on exceptions and not on a kill.  [os.fsync], [os.close] and
    [fcntl.flock] change nothing a process can read.  [publish_once] is the
    [_publish_once] of [security/destruction_ledger.py] and
    [security/local_key_provider.py]. *)

From stdpp Require Import base tactics option list gmap strings.
From Stdlib Require Import ZArith Lia Bool.
From S2P Require Import Prelude Identifiers CanonicalJson Digest.
Open Scope Z_scope.

(** ** The disk *)

(** [in_regular] is [S_ISREG]; [in_mode] holds the permission bits. *)
Record Inode : Type := mk_inode {
  in_regular : bool;
  in_mode : Z;
  in_uid : Z;
  in_nlink : Z;
  in_data : bytes
}.

(** What [_validate_directory] and [_require_separate_recovery_roots] look at:
    the path as configured, its resolution, the access the process has, and
    the metadata. *)
Record DirStat : Type := {
  ds_absolute : bool;
  ds_dotdot : bool;
  ds_symlink : bool;
  ds_canonical : bool;
  ds_resolved : list pystr;
  ds_access : Z;
  ds_isdir : bool;
  ds_mode : Z;
  ds_uid : Z
}.

Record Directory : Type := mk_directory {
  d_stat : DirStat;
  d_names : gmap pystr Z;
  d_inodes : gmap Z Inode
}.

(** The directories of a deployment: the provider's root with its control and
    material directories, the purge requests, the destruction ledger and the
    directory of its anchor. *)
Inductive Dir : Type := PROVIDER | CONTROL | MATERIAL | REQUESTS | LEDGER | ANCHORS.

#[export] Instance Dir_eq_dec : EqDecision Dir.
Proof. solve_decision. Defined.

Record World : Type := mk_world {
  w_provider : Directory;
  w_control : Directory;
  w_material : Directory;
  w_requests : Directory;
  w_ledger : Directory;
  w_anchors : Directory;
  w_calls : nat
}.

Definition directory (w : World) (d : Dir) : Directory :=
  match d with
  | PROVIDER => w_provider w | CONTROL => w_control w | MATERIAL => w_material w
  | REQUESTS => w_requests w | LEDGER => w_ledger w | ANCHORS => w_anchors w
  end.

Definition set_directory (d : Dir) (x : Directory) (w : World) : World :=
  let '(mk_world p c m r l a n) := w in
  match d with
  | PROVIDER => mk_world x c m r l a n
  | CONTROL => mk_world p x m r l a n
  | MATERIAL => mk_world p c x r l a n
  | REQUESTS => mk_world p c m x l a n
  | LEDGER => mk_world p c m r x a n
  | ANCHORS => mk_world p c m r l x n
  end.

Definition count_call (w : World) : World :=
  mk_world (w_provider w) (w_control w) (w_material w) (w_requests w) (w_ledger w) (w_anchors w) (S (w_calls w)).

(** What the kernel answers: random bytes, how many bytes of a buffer a write
    takes, and the identity and mask of the process. *)
Class Kernel : Type := {
  urandom : nat -> nat -> bytes;
  write_accepts : nat -> nat -> nat;
  geteuid : Z;
  umask : Z
}.

(** ** Programs *)

Definition IO (A : Type) : Type := World -> list World * World * result A.

#[export] Instance io_ret : MRet IO := fun A a w => ([], w, Ok a).
#[export] Instance io_bind : MBind IO := fun A B f m w =>
  let '(t, w', r) := m w in
  match r with
  | Ok a => let '(t', w'', r') := f a w' in (t ++ t', w'', r')
  | Err e => (t, w', Err e)
  end.

Definition raise {A} (e : exn) : IO A := fun w => ([], w, Err e).

(** A computation that only reads the world. *)
Definition reads {A} (f : World -> result A) : IO A := fun w => ([], w, f w).

(** A system call that changes the world. *)
Definition effect (f : World -> World) : IO unit := fun w => ([f w], f w, Ok tt).

(** [try: m except: handler] *)
Definition catch {A} (m : IO A) (handler : exn -> IO A) : IO A := fun w =>
  let '(t, w', r) := m w in
  match r with
  | Ok a => (t, w', Ok a)
  | Err e => let '(t', w'', r') := handler e w' in (t ++ t', w'', r')
  end.

(** [try: m finally: cleanup]; an exception of the clean-up replaces. *)
Definition finally {A} (m : IO A) (cleanup : IO unit) : IO A := fun w =>
  let '(t, w', r) := m w in
  let '(t', w'', r') := cleanup w' in
  (t ++ t', w'', match r' with Ok _ => r | Err e => Err e end).

(** [with suppress(FileNotFoundError): m] *)
Definition suppress_missing (m : IO unit) : IO unit :=
  catch m (fun e => if bool_decide (e = FileNotFoundError) then mret tt else raise e).

(** [except Exception: raise KeyProviderError() from None] *)
Definition key_provider_errors {A} (m : IO A) : IO A := catch m (fun _ => raise KeyProviderError).

Fixpoint for_each {A} (l : list A) (body : A -> IO unit) : IO unit :=
  match l with
  | [] => mret tt
  | a :: rest => body a;; for_each rest body
  end.

(** The worlds a killed or completed run leaves. *)
Definition outcomes {A} (m : IO A) (w : World) : list World :=
  let '(t, w', _) := m w in w :: t ++ [w'].

(** ** System calls *)

Definition inode_at (x : Directory) (name : pystr) : option Inode :=
  i ← d_names x !! name; d_inodes x !! i.

Definition with_names (f : gmap pystr Z -> gmap pystr Z) (x : Directory) : Directory :=
  mk_directory (d_stat x) (f (d_names x)) (d_inodes x).
Definition with_inodes (f : gmap Z Inode -> gmap Z Inode) (x : Directory) : Directory :=
  mk_directory (d_stat x) (d_names x) (f (d_inodes x)).
Definition on (d : Dir) (f : Directory -> Directory) (w : World) : World :=
  set_directory d (f (directory w d)) w.

Definition set_mode (mode : Z) (n : Inode) : Inode :=
  mk_inode (in_regular n) mode (in_uid n) (in_nlink n) (in_data n).
Definition append_data (b : bytes) (n : Inode) : Inode :=
  mk_inode (in_regular n) (in_mode n) (in_uid n) (in_nlink n) (in_data n ++ b).
Definition add_links (k : Z) (n : Inode) : Inode :=
  mk_inode (in_regular n) (in_mode n) (in_uid n) (in_nlink n + k) (in_data n).

(** A number no inode has. *)
Definition next_inode (x : Directory) : Z := map_fold (fun i _ m => Z.max i m) 0 (d_inodes x) + 1.

(** [os.listdir], sorted by its callers. *)
Definition listdir (x : Directory) : list pystr := sort_by str_leb (map_to_list (d_names x)).*1.

(** Opening a directory with [O_DIRECTORY | O_NOFOLLOW]. *)
Definition open_directory (d : Dir) : IO unit := reads (fun w =>
  raise_if (ds_symlink (d_stat (directory w d)) || negb (ds_isdir (d_stat (directory w d)))) OSError).

Section Calls.
Context `{Kernel}.

(** [os.urandom(size)] *)
Definition draw (size : nat) : IO bytes := fun w =>
  ([count_call w], count_call w, Ok (urandom (w_calls w) size)).

(** [os.open(name, O_WRONLY | O_CREAT | O_EXCL | O_NOFOLLOW, mode)]: the inode
    of the descriptor. *)
Definition open_excl (d : Dir) (name : pystr) (mode : Z) : IO Z := fun w =>
  let x := directory w d in
  match d_names x !! name with
  | Some _ => ([], w, Err FileExistsError)
  | None =>
    let i := next_inode x in
    let w' := on d (with_inodes (insert i (mk_inode true (Z.ldiff mode umask) geteuid 1 [])) ∘
                    with_names (insert name i)) w in
    ([w'], w', Ok i)
  end.

(** [os.fchmod] *)
Definition fchmod (d : Dir) (fd mode : Z) : IO unit := effect (on d (with_inodes (alter (set_mode mode) fd))).

(** [os.write]: the number of bytes taken. *)
Definition write (d : Dir) (fd : Z) (view : bytes) : IO nat := fun w =>
  let n := write_accepts (w_calls w) (length view) in
  let w' := count_call (on d (with_inodes (alter (append_data (take n view)) fd)) w) in
  ([w'], w', Ok (n `min` length view)%nat).

(** [while view: ...]; [fuel] is the length of the payload. *)
Fixpoint write_all (fuel : nat) (d : Dir) (fd : Z) (view : bytes) : IO unit :=
  match view, fuel with
  | [], _ => mret tt
  | _ :: _, O => raise OSError
  | _ :: _, S fuel' =>
    written ← write d fd view;
    if (written =? 0)%nat then raise OSError else write_all fuel' d fd (drop written view)
  end.

(** [os.link] *)
Definition link (d : Dir) (source destination : pystr) : IO unit := fun w =>
  let x := directory w d in
  match d_names x !! source with
  | None => ([], w, Err FileNotFoundError)
  | Some i =>
    match d_names x !! destination with
    | Some _ => ([], w, Err FileExistsError)
    | None => effect (on d (with_inodes (alter (add_links 1) i) ∘ with_names (insert destination i))) w
    end
  end.

(** [os.unlink] *)
Definition unlink (d : Dir) (name : pystr) : IO unit := fun w =>
  match d_names (directory w d) !! name with
  | None => ([], w, Err FileNotFoundError)
  | Some i => effect (on d (with_inodes (alter (add_links (-1)) i) ∘ with_names (delete name))) w
  end.

(** [os.replace] *)
Definition replace (d : Dir) (source destination : pystr) : IO unit := fun w =>
  let x := directory w d in
  match d_names x !! source with
  | None => ([], w, Err FileNotFoundError)
  | Some i =>
    effect (on d (with_names (insert destination i ∘ delete source) ∘
                  match d_names x !! destination with
                  | Some j => with_inodes (alter (add_links (-1)) j)
                  | None => id
                  end)) w
  end.

(** ** Publishing a file *)

(** [_publish_once]: the file appears complete under its name or not at all,
    and an existing one is kept. *)
Definition publish_once (d : Dir) (destination : pystr) (payload : bytes) (mode : Z) : IO unit :=
  random ← draw 16;
  let temporary := py ".tmp-" ++ hex_of_bytes random in
  finally
    (fd ← open_excl d temporary mode;
     fchmod d fd mode;;
     write_all (length payload) d fd payload;;
     finally
       (catch (link d temporary destination)
          (fun e => if bool_decide (e = FileExistsError) then mret tt else raise e))
       (unlink d temporary))
    (suppress_missing (unlink d temporary)).
End Calls.

(** ** Reading a file *)

(** [_read_bounded_file]; [missing] is what the caller's [os.open] raises. *)
Definition read_bounded_file (missing : exn) (x : Directory) (name : pystr) (expected_mode maximum_bytes : Z)
    (expected_owner_uid : option Z) : result bytes :=
  n ← from_option_or (inode_at x name) missing;
  raise_if (negb (in_regular n) || negb (in_mode n =? expected_mode)
            || match expected_owner_uid with Some uid => negb (in_uid n =? uid) | None => false end
            || negb (in_nlink n =? 1)
            || negb ((1 <=? Z.of_nat (length (in_data n))) && (Z.of_nat (length (in_data n)) <=? maximum_bytes)))
    (ValueError "");;
  Ok (in_data n).

(** ** Directory checks *)

Definition R_OK : Z := 4.
Definition W_OK : Z := 2.
Definition X_OK : Z := 1.

(** [_validate_directory] *)
Definition validate_directory (w : World) (d : Dir) (required_owner_uid : option Z) (required_access : Z) : result unit :=
  let s := d_stat (directory w d) in
  raise_if (negb (ds_absolute s) || ds_dotdot s) (ValueError "");;
  raise_if (ds_symlink s || negb (ds_canonical s)) (ValueError "");;
  raise_if (negb (Z.land (ds_access s) required_access =? required_access)) (ValueError "");;
  raise_if (negb (ds_isdir s)) OSError;;
  raise_if (negb (Z.land (ds_mode s) 7 =? 0) || (Z.land (ds_mode s) 1024 =? 0)
            || match required_owner_uid with Some uid => negb (ds_uid s =? uid) | None => false end)
    (ValueError "").

Fixpoint is_prefix (a b : list pystr) : bool :=
  match a, b with
  | [], _ => true
  | x :: a', y :: b' => bool_decide (x = y) && is_prefix a' b'
  | _ :: _, [] => false
  end.

(** [_require_separate_recovery_roots]: neither resolved path contains the other. *)
Definition require_separate_roots (w : World) (a b : Dir) : result unit :=
  let p := ds_resolved (d_stat (directory w a)) in
  let q := ds_resolved (d_stat (directory w b)) in
  raise_if (is_prefix p q || is_prefix q p) (ValueError "").
