(* ===== verification/DestructionLedger.v ===== *)
(** * DestructionLedger: the append-only ledger of destroyed keys

    Models [security/destruction_ledger.py]: entries, the anchor and its
    document, records chained by digest, reading and validating the ledger,
    the writer's append, provisioning of the first anchor and the repair of an
    interrupted append.  Paths are the directories of [Disk]; the anchor file
    is [ANCHOR_NAME] in its own directory.  Python's [UUID(text)] followed by
    [str(identifier) != value] accepts exactly the canonical spelling, which
    [uuid_of_str] reads. *)

From stdpp Require Import base tactics option list gmap strings.
From Stdlib Require Import ZArith Lia Bool.
From S2P Require Import Prelude Identifiers CanonicalJson Digest Text Regex IsoFormat JsonParse Archive Disk.
Open Scope Z_scope.

Definition ANCHOR_NAME : pystr := py "current.json".
Definition RECORD_VERSION : Z := 1.
Definition RECEIPT_BYTES : Z := 32.
Definition MAX_RECORD_BYTES : Z := 2048.
Definition RECORD_MODE : Z := 0x1a0.
Definition ANCHOR_MODE : Z := 0x1a0.

(** ** Identifiers and text *)

Definition hex_int (s : pystr) : option Z :=
  foldl (fun acc c => a ← acc; v ← hex_value c; Some (a * 16 + v)) (Some 0) s.

(** The identifier a canonical text spells. *)
Definition uuid_of_str (s : pystr) : option UUID :=
  u ← hex_int (List.filter (fun c => negb (c =? 45)) s);
  if bool_decide (uuid_str u = s) then Some u else None.

Definition is_hex64 (s : pystr) : bool :=
  (length s =? 64)%nat && forallb (fun c => is_digit c || ((97 <=? c) && (c <=? 102))) s.

(** ** Reading a document *)

(** [document.get(name)] *)
Fixpoint get_item (name : pystr) (l : list (pystr * JsonValue)) : option JsonValue :=
  match l with
  | [] => None
  | (k, v) :: rest => if bool_decide (k = name) then Some v else get_item name rest
  end.

(** [set(document) == fields] *)
Definition has_fields (fields : list pystr) (l : list (pystr * JsonValue)) : bool :=
  forallb (fun k => bool_decide (k ∈ fields)) l.*1 && forallb (fun k => bool_decide (k ∈ l.*1)) fields.

(** [value == 1]: in Python also for [True]. *)
Definition equals_version (v : option JsonValue) : bool :=
  match v with Some (JInt n) => n =? RECORD_VERSION | Some (JBool b) => b | _ => false end.

Definition equals_text (v : option JsonValue) (s : pystr) : bool := bool_decide (v = Some (JStr s)).

Definition text_item (v : option JsonValue) : result pystr :=
  match v with Some (JStr s) => Ok s | _ => Err (ValueError "") end.

Definition integer_item (v : option JsonValue) : result Z :=
  match v with Some (JInt n) => Ok n | _ => Err (ValueError "") end.

(** The four identifiers of a record: text, UUIDv7, canonical spelling. *)
Definition uuid_item (v : option JsonValue) : result UUID :=
  s ← text_item v;
  u ← from_option_or (uuid_of_str s) (ValueError "");
  require_uuid7 u.

(** [_canonical_base64] *)
Definition canonical_base64 (v : option JsonValue) (expected_bytes : Z) : result bytes :=
  s ← text_item v;
  decoded ← from_option_or (b64decode s) (ValueError "");
  raise_if (negb (Z.of_nat (length decoded) =? expected_bytes) || negb (bool_decide (b64encode decoded = s)))
    (ValueError "");;
  Ok decoded.

(** ** Entries and anchors *)

Record DestructionLedgerEntry : Type := mk_entry {
  le_content_key_id : UUID;
  le_tenant_id : UUID;
  le_lineage_id : UUID;
  le_memory_id : UUID;
  le_receipt : bytes
}.

#[export] Instance DestructionLedgerEntry_eq_dec : EqDecision DestructionLedgerEntry.
Proof. solve_decision. Defined.

Definition validate_entry (e : DestructionLedgerEntry) : result unit :=
  require_uuid7 (le_content_key_id e);; require_uuid7 (le_tenant_id e);;
  require_uuid7 (le_lineage_id e);; require_uuid7 (le_memory_id e);;
  raise_if (negb (Z.of_nat (length (le_receipt e)) =? RECEIPT_BYTES)) (ValueError "destruction ledger entry is invalid").

Record DestructionLedgerAnchor : Type := mk_anchor {
  la_entry_count : Z;
  la_aggregate_sha256 : pystr
}.

#[export] Instance DestructionLedgerAnchor_eq_dec : EqDecision DestructionLedgerAnchor.
Proof. solve_decision. Defined.

Definition validate_anchor (a : DestructionLedgerAnchor) : result unit :=
  raise_if ((la_entry_count a <? 0) || negb (is_hex64 (la_aggregate_sha256 a)))
    (ValueError "destruction ledger anchor is invalid").

Definition anchor_document (a : DestructionLedgerAnchor) : JsonValue :=
  JObject [(py "version", JInt RECORD_VERSION); (py "entry_count", JInt (la_entry_count a));
           (py "aggregate_sha256", JStr (la_aggregate_sha256 a))].

Definition anchor_bytes `{Rfc8785} (a : DestructionLedgerAnchor) : result bytes :=
  canonical_plain_bytes (anchor_document a).

Definition ANCHOR_FIELDS : list pystr := [py "version"; py "entry_count"; py "aggregate_sha256"].

Definition anchor_from_bytes `{Rfc8785} `{Interpreter} (raw : bytes) : result DestructionLedgerAnchor :=
  document ← parse_json_strict raw;
  match document with
  | JObject l =>
    raise_if (negb (has_fields ANCHOR_FIELDS l) || negb (equals_version (get_item (py "version") l)))
      (ValueError "destruction ledger anchor is invalid");;
    canonical ← canonical_plain_bytes document;
    raise_if (negb (bool_decide (canonical = raw))) (ValueError "destruction ledger anchor is invalid");;
    entry_count ← integer_item (get_item (py "entry_count") l);
    aggregate_sha256 ← text_item (get_item (py "aggregate_sha256") l);
    construct validate_anchor (mk_anchor entry_count aggregate_sha256)
  | _ => Err (ValueError "destruction ledger anchor is invalid")
  end.

(** ** Records *)

Record LedgerRecord : Type := {
  lr_entry : DestructionLedgerEntry;
  lr_generation : Z;
  lr_previous_sha256 : pystr;
  lr_record_sha256 : pystr
}.

Definition entry_name (content_key_id : UUID) : pystr := py "destroyed-" ++ uuid_str content_key_id ++ py ".json".

Definition unsigned_document (e : DestructionLedgerEntry) (generation : Z) (previous_sha256 : pystr)
    : list (pystr * JsonValue) :=
  [(py "version", JInt RECORD_VERSION); (py "generation", JInt generation);
   (py "previous_sha256", JStr previous_sha256); (py "state", JStr (py "destroyed"));
   (py "content_key_id", JStr (uuid_str (le_content_key_id e))); (py "tenant_id", JStr (uuid_str (le_tenant_id e)));
   (py "lineage_id", JStr (uuid_str (le_lineage_id e))); (py "memory_id", JStr (uuid_str (le_memory_id e)));
   (py "receipt", JStr (b64encode (le_receipt e)))].

Definition RECORD_FIELDS : list pystr :=
  [py "version"; py "generation"; py "previous_sha256"; py "state"; py "content_key_id"; py "tenant_id";
   py "lineage_id"; py "memory_id"; py "receipt"; py "record_sha256"].

(** [{key: value for key, value in record.items() if key != "record_sha256"}] *)
Definition without_digest (l : list (pystr * JsonValue)) : list (pystr * JsonValue) :=
  List.filter (fun kv => negb (bool_decide (kv.1 = py "record_sha256"))) l.

Section Ledger.
Context `{Rfc8785} `{Interpreter}.

(** The digest of a record without its digest. *)
Definition digest_of (l : list (pystr * JsonValue)) : result pystr :=
  sha256_hex <$> canonical_plain_bytes (JObject l).

Definition entry_document (e : DestructionLedgerEntry) (generation : Z) (previous_sha256 : pystr)
    : result (list (pystr * JsonValue)) :=
  let unsigned := unsigned_document e generation previous_sha256 in
  digest ← digest_of unsigned;
  Ok (unsigned ++ [(py "record_sha256", JStr digest)]).

Definition empty_head : result pystr := digest_of [(py "version", JInt RECORD_VERSION)].

(** [_read_record] *)
Definition read_record (x : Directory) (name : pystr) : result LedgerRecord :=
  raw ← read_bounded_file FileNotFoundError x name RECORD_MODE MAX_RECORD_BYTES None;
  parsed ← parse_json_strict raw;
  match parsed with
  | JObject l =>
    canonical ← canonical_plain_bytes parsed;
    raise_if (negb (bool_decide (canonical = raw))) (ValueError "");;
    raise_if (negb (has_fields RECORD_FIELDS l) || negb (equals_version (get_item (py "version") l))
              || negb (equals_text (get_item (py "state") l) (py "destroyed"))) (ValueError "");;
    generation ← integer_item (get_item (py "generation") l);
    previous_sha256 ← text_item (get_item (py "previous_sha256") l);
    digest ← text_item (get_item (py "record_sha256") l);
    raise_if ((generation <? 1) || negb (is_hex64 previous_sha256) || negb (length digest =? 64)%nat) (ValueError "");;
    expected ← digest_of (without_digest l);
    raise_if (negb (bool_decide (digest = expected))) (ValueError "");;
    content_key_id ← uuid_item (get_item (py "content_key_id") l);
    tenant_id ← uuid_item (get_item (py "tenant_id") l);
    lineage_id ← uuid_item (get_item (py "lineage_id") l);
    memory_id ← uuid_item (get_item (py "memory_id") l);
    receipt ← canonical_base64 (get_item (py "receipt") l) RECEIPT_BYTES;
    entry ← construct validate_entry (mk_entry content_key_id tenant_id lineage_id memory_id receipt);
    raise_if (negb (bool_decide (name = entry_name (le_content_key_id entry)))) (ValueError "");;
    Ok {| lr_entry := entry; lr_generation := generation; lr_previous_sha256 := previous_sha256;
          lr_record_sha256 := digest |}
  | _ => Err (ValueError "")
  end.

Definition generation_leb (a b : LedgerRecord) : bool := lr_generation a <=? lr_generation b.

(** [for generation, record in enumerate(records, start=1): ...] *)
Fixpoint check_chain (generation : Z) (previous : pystr) (l : list LedgerRecord) : result unit :=
  match l with
  | [] => Ok tt
  | r :: rest =>
    raise_if (negb (lr_generation r =? generation) || negb (bool_decide (lr_previous_sha256 r = previous)))
      (ValueError "");;
    check_chain (generation + 1) (lr_record_sha256 r) rest
  end.

(** [_records] *)
Definition ledger_records (x : Directory) : result (list LedgerRecord) :=
  unsorted ← mapR (fun name => raise_if (negb (startswith (py "destroyed-") name)) (ValueError "");;
                              read_record x name) (listdir x);
  let sorted := sort_by generation_leb unsorted in
  previous ← empty_head;
  check_chain 1 previous sorted;;
  raise_if (negb (nodupb ((fun r => le_content_key_id (lr_entry r)) <$> sorted))) (ValueError "");;
  Ok sorted.

(** [_entries] *)
Definition ledger_entries (x : Directory) : result (list DestructionLedgerEntry) :=
  fmap (M:=list) lr_entry <$> ledger_records x.

(** [_anchor_for_records] *)
Definition anchor_for_records (records : list LedgerRecord) : result DestructionLedgerAnchor :=
  head ← match last records with Some r => Ok (lr_record_sha256 r) | None => empty_head end;
  construct validate_anchor (mk_anchor (Z.of_nat (length records)) head).

(** [_anchor_for_entries]: the records the entries would have. *)
Fixpoint records_of_entries (generation : Z) (previous : pystr) (l : list DestructionLedgerEntry)
    : result (list LedgerRecord) :=
  match l with
  | [] => Ok []
  | e :: rest =>
    digest ← digest_of (unsigned_document e generation previous);
    records ← records_of_entries (generation + 1) digest rest;
    Ok ({| lr_entry := e; lr_generation := generation; lr_previous_sha256 := previous;
           lr_record_sha256 := digest |} :: records)
  end.
Definition anchor_for_entries (entries : list DestructionLedgerEntry) : result DestructionLedgerAnchor :=
  previous ← empty_head;
  records ← records_of_entries 1 previous entries;
  anchor_for_records records.

(** [_anchor_is_prefix] *)
Definition anchor_is_prefix (accepted : DestructionLedgerAnchor) (records : list LedgerRecord) : result bool :=
  if Z.of_nat (length records) <? la_entry_count accepted then Ok false
  else
    digest ← if la_entry_count accepted =? 0 then empty_head
             else from_option_or (lr_record_sha256 <$> records !! Z.to_nat (la_entry_count accepted - 1)) KeyError;
    Ok (bool_decide (la_aggregate_sha256 accepted = digest)).

(** [_read_anchor] *)
Definition read_anchor (w : World) : result DestructionLedgerAnchor :=
  raw ← read_bounded_file FileNotFoundError (w_anchors w) ANCHOR_NAME ANCHOR_MODE MAX_RECORD_BYTES None;
  anchor_from_bytes raw.

(** ** The read-only ledger *)

(** [_require_current_anchor_locked]; [accepted] is the anchor the ledger was
    opened with. *)
Definition require_current_anchor_locked (accepted : option DestructionLedgerAnchor) (w : World) : result unit :=
  expected ← read_anchor w;
  records ← ledger_records (w_ledger w);
  actual ← anchor_for_records records;
  raise_if (negb (bool_decide (actual = expected))) (ValueError "");;
  match accepted with
  | None => Ok tt
  | Some a => prefix ← anchor_is_prefix a records; raise_if (negb prefix) (ValueError "")
  end.

(** [require_current_anchor] *)
Definition require_current_anchor (accepted : option DestructionLedgerAnchor) : IO unit :=
  key_provider_errors (open_directory LEDGER;; reads (require_current_anchor_locked accepted)).

(** [lookup] *)
Definition lookup_entry (accepted : option DestructionLedgerAnchor) (content_key_id : UUID)
    : IO (option DestructionLedgerEntry) :=
  key_provider_errors (
    reads (fun _ => require_uuid7 content_key_id);;
    open_directory LEDGER;;
    reads (require_current_anchor_locked accepted);;
    reads (fun w => match read_record (w_ledger w) (entry_name content_key_id) with
                    | Ok r => Ok (Some (lr_entry r))
                    | Err FileNotFoundError => Ok None
                    | Err e => Err e
                    end)).

(** [entries] *)
Definition all_entries (accepted : option DestructionLedgerAnchor) : IO (list DestructionLedgerEntry) :=
  key_provider_errors (
    open_directory LEDGER;; reads (require_current_anchor_locked accepted);;
    reads (fun w => ledger_entries (w_ledger w))).

(** [anchor] *)
Definition ledger_anchor (accepted : option DestructionLedgerAnchor) : IO DestructionLedgerAnchor :=
  entries ← all_entries accepted;
  reads (fun _ => anchor_for_entries entries).

(** [require_anchor] *)
Definition require_anchor (accepted : option DestructionLedgerAnchor) (expected : DestructionLedgerAnchor) : IO unit :=
  require_current_anchor accepted;;
  actual ← ledger_anchor accepted;
  reads (fun _ => raise_if (negb (bool_decide (actual = expected))) KeyProviderError).

(** [_validate_anchor_parent] *)
Definition validate_anchor_parent (w : World) (required_owner_uid : option Z) : result unit :=
  validate_directory w ANCHORS required_owner_uid (Z.lor R_OK X_OK);;
  require_separate_roots w LEDGER ANCHORS.

(** [_validate_anchor_path]: a symbolic link is not regular, so reading the
    anchor also settles that its path resolves to itself. *)
Definition validate_anchor_path (w : World) (required_owner_uid : option Z) : result unit :=
  validate_anchor_parent w required_owner_uid;;
  read_anchor w;;
  Ok tt.

(** [LocalDestructionLedger.__init__] *)
Definition open_ledger (accepted : option DestructionLedgerAnchor) (required_owner_uid : option Z) : IO unit :=
  key_provider_errors (
    reads (fun w => validate_directory w LEDGER required_owner_uid (Z.lor R_OK X_OK));;
    reads (fun w => validate_anchor_path w required_owner_uid);;
    require_current_anchor accepted).

(** [LocalDestructionLedgerWriter.__init__] *)
Definition open_ledger_writer (accepted : option DestructionLedgerAnchor) (required_owner_uid : option Z) : IO unit :=
  open_ledger accepted required_owner_uid;;
  reads (fun w => raise_if (Z.land (ds_access (d_stat (w_ledger w))) W_OK =? 0) KeyProviderError);;
  reads (fun w => raise_if (Z.land (ds_access (d_stat (w_anchors w))) W_OK =? 0) KeyProviderError).

(** ** Writing *)

Context `{Kernel}.

Definition format_020d (n : Z) : pystr := zfill 20 (int_str n).

(** [_anchor_history_name] *)
Definition anchor_history_name (a : DestructionLedgerAnchor) : pystr :=
  py "accepted-" ++ format_020d (la_entry_count a) ++ py "-" ++ la_aggregate_sha256 a ++ py ".json".

(** [_publish_anchor_history_once] *)
Definition publish_anchor_history_once (a : DestructionLedgerAnchor) : IO unit :=
  open_directory ANCHORS;;
  payload ← reads (fun _ => anchor_bytes a);
  publish_once ANCHORS (anchor_history_name a) payload ANCHOR_MODE.

(** [_read_anchor(anchor_path) != anchor] *)
Definition anchor_published (a : DestructionLedgerAnchor) : IO unit :=
  reads (fun w => stored ← read_anchor w; raise_if (negb (bool_decide (stored = a))) (ValueError "")).

(** [_publish_anchor_once] *)
Definition publish_anchor_once (a : DestructionLedgerAnchor) : IO unit :=
  open_directory ANCHORS;;
  payload ← reads (fun _ => anchor_bytes a);
  publish_once ANCHORS ANCHOR_NAME payload ANCHOR_MODE;;
  anchor_published a.

(** [_replace_anchor] *)
Definition replace_anchor (a : DestructionLedgerAnchor) : IO unit :=
  open_directory ANCHORS;;
  random ← draw 16;
  let temporary := py ".tmp-anchor-" ++ hex_of_bytes random in
  finally
    (fd ← open_excl ANCHORS temporary ANCHOR_MODE;
     fchmod ANCHORS fd ANCHOR_MODE;;
     payload ← reads (fun _ => anchor_bytes a);
     write_all (length payload) ANCHORS fd payload;;
     replace ANCHORS temporary ANCHOR_NAME)
    (suppress_missing (unlink ANCHORS temporary));;
  anchor_published a.

(** The new record, its file and the anchor that covers it. *)
Definition append_entry (records : list LedgerRecord) (entry : DestructionLedgerEntry) : IO DestructionLedgerEntry :=
  current ← reads (fun _ => anchor_for_records records);
  payload ← reads (fun _ => document ← entry_document entry (la_entry_count current + 1) (la_aggregate_sha256 current);
                            canonical_plain_bytes (JObject document));
  publish_once LEDGER (entry_name (le_content_key_id entry)) payload RECORD_MODE;;
  stored ← reads (fun w => read_record (w_ledger w) (entry_name (le_content_key_id entry)));
  next_anchor ← reads (fun w => records ← ledger_records (w_ledger w); anchor_for_records records);
  publish_anchor_history_once next_anchor;;
  replace_anchor next_anchor;;
  reads (fun _ => raise_if (negb (bool_decide (lr_entry stored = entry))) (ValueError ""));;
  mret (lr_entry stored).

(** [LocalDestructionLedgerWriter.record] *)
Definition record_entry (accepted : option DestructionLedgerAnchor) (entry : DestructionLedgerEntry)
    : IO DestructionLedgerEntry :=
  key_provider_errors (
    open_directory LEDGER;;
    reads (require_current_anchor_locked accepted);;
    records ← reads (fun w => ledger_records (w_ledger w));
    match List.find (fun r => le_content_key_id (lr_entry r) =? le_content_key_id entry) records with
    | Some existing =>
      reads (fun _ => raise_if (negb (bool_decide (lr_entry existing = entry))) (ValueError ""));;
      mret (lr_entry existing)
    | None => append_entry records entry
    end).

(** [initialize_empty_destruction_ledger_anchor] *)
Definition initialize_empty_anchor (required_owner_uid : option Z) : IO unit :=
  key_provider_errors (
    reads (fun w => validate_directory w LEDGER required_owner_uid (Z.lor R_OK (Z.lor W_OK X_OK)));;
    reads (fun w => validate_anchor_parent w required_owner_uid);;
    open_directory LEDGER;;
    entries ← reads (fun w => ledger_entries (w_ledger w));
    reads (fun _ => raise_if (negb (bool_decide (entries = []))) (ValueError ""));;
    empty ← reads (fun _ => anchor_for_entries []);
    publish_anchor_history_once empty;;
    publish_anchor_once empty).

(** [recover_authorized_pending_append] *)
Definition recover_pending_append (expected_anchor : DestructionLedgerAnchor)
    (authorized_entries : list DestructionLedgerEntry) (required_owner_uid : option Z) : IO unit :=
  key_provider_errors (
    reads (fun w => validate_directory w LEDGER required_owner_uid (Z.lor R_OK (Z.lor W_OK X_OK)));;
    reads (fun w => validate_anchor_path w required_owner_uid);;
    open_directory LEDGER;;
    local ← reads read_anchor;
    records ← reads (fun w => ledger_records (w_ledger w));
    prefix ← reads (fun _ => anchor_is_prefix expected_anchor records);
    reads (fun _ => raise_if (negb prefix) (ValueError ""));;
    actual ← reads (fun _ => anchor_for_records records);
    if bool_decide (local = actual) then mret tt
    else
      local_prefix ← reads (fun _ =>
        if negb (Z.of_nat (length records) =? la_entry_count local + 1) then Ok false
        else anchor_is_prefix local records);
      reads (fun _ => raise_if (negb local_prefix ||
        match last records with Some r => bool_decide (lr_entry r ∉ authorized_entries) | None => true end)
        (ValueError ""));;
      publish_anchor_history_once actual;;
      replace_anchor actual).
End Ledger.
