(* ===== verification/KeyProvider.v ===== *)
(** * KeyProvider: content keys in a local directory

    Models [security/keys.py] (references and receipts),
    [security/local_key_provider.py] (the destroyer, the purge requester, the
    provider and the reconciliation of a restored provider) and
    [security/destruction_broker.py] (the broker that carries requests out).
    A control record names a key's owner and receipt, [active] or [destroyed];
    the key itself is a file of the material directory.  Operations run under
    the lock of the control directory and are interrupted only by a kill. *)

From stdpp Require Import base tactics option list gmap strings.
From Stdlib Require Import ZArith Lia Bool.
From S2P Require Import Prelude Identifiers CanonicalJson Digest Text Regex IsoFormat JsonParse Constraints Events Archive Disk DestructionLedger.
Open Scope Z_scope.

(** ** References *)

Definition CONTENT_KEY_BYTES : Z := 32.
Definition MAX_PROVIDER_NAME_LENGTH : Z := 64.
Definition MAX_PROVIDER_REFERENCE_LENGTH : Z := 512.
Definition LOCAL_KEY_PROVIDER_NAME : pystr := py "local-directory-v1".
Definition REFERENCE_PREFIX : pystr := LOCAL_KEY_PROVIDER_NAME ++ py ":".
Definition CONTROL_FILE_MODE : Z := 0x1b0.
Definition MATERIAL_FILE_MODE : Z := 0x180.

Record ContentKeyReference : Type := mk_reference {
  cr_content_key_id : UUID;
  cr_provider_name : pystr;
  cr_provider_key_reference : pystr
}.

(** [str.isspace] of one character, and [str.strip]. *)
Definition is_space (c : Z) : bool :=
  ((9 <=? c) && (c <=? 13)) || ((28 <=? c) && (c <=? 32)) || (c =? 133) || (c =? 160) || (c =? 5760)
  || ((8192 <=? c) && (c <=? 8202)) || (c =? 8232) || (c =? 8233) || (c =? 8239) || (c =? 8287) || (c =? 12288).
Definition is_stripped (s : pystr) : bool :=
  match head s, last s with Some a, Some b => negb (is_space a) && negb (is_space b) | _, _ => true end.

(** [_validate_bounded_text] *)
Definition validate_bounded_text (value : pystr) (maximum : Z) : result unit :=
  raise_if (negb ((1 <=? Z.of_nat (length value)) && (Z.of_nat (length value) <=? maximum))
            || negb (is_stripped value)
            || existsb (fun c => (c <? 0x20) || (c =? 0x7f)) value) (ValueError "is invalid").

Definition validate_key_reference (r : ContentKeyReference) : result unit :=
  require_uuid7 (cr_content_key_id r);;
  validate_bounded_text (cr_provider_name r) MAX_PROVIDER_NAME_LENGTH;;
  validate_bounded_text (cr_provider_key_reference r) MAX_PROVIDER_REFERENCE_LENGTH.

(** [_reference] *)
Definition key_reference (content_key_id : UUID) : result ContentKeyReference :=
  construct validate_key_reference
    (mk_reference content_key_id LOCAL_KEY_PROVIDER_NAME (REFERENCE_PREFIX ++ uuid_str content_key_id)).

(** [_reference_id] *)
Definition reference_id (r : ContentKeyReference) : result UUID :=
  raise_if (negb (bool_decide (cr_provider_name r = LOCAL_KEY_PROVIDER_NAME))) (ValueError "");;
  raise_if (negb (bool_decide (cr_provider_key_reference r = REFERENCE_PREFIX ++ uuid_str (cr_content_key_id r))))
    (ValueError "");;
  Ok (cr_content_key_id r).

(** [KeyDestructionReceipt] and [ContentKeyMaterial] *)
Definition destruction_receipt (receipt : bytes) : result bytes :=
  raise_if (bool_decide (receipt = [])) KeyProviderError;; Ok receipt.
Definition content_key_material (key : bytes) : result bytes :=
  raise_if (negb (Z.of_nat (length key) =? CONTENT_KEY_BYTES)) KeyProviderError;; Ok key.

Definition active_name (content_key_id : UUID) : pystr := py "active-" ++ uuid_str content_key_id ++ py ".json".
Definition destroyed_name (content_key_id : UUID) : pystr := py "destroyed-" ++ uuid_str content_key_id ++ py ".json".
Definition material_name (content_key_id : UUID) : pystr := py "key-" ++ uuid_str content_key_id ++ py ".bin".

(** ** Control records *)

(** The four identifiers, canonical text in the source. *)
Record KeyIdentity : Type := mk_identity {
  ki_content_key_id : UUID;
  ki_tenant_id : UUID;
  ki_lineage_id : UUID;
  ki_memory_id : UUID
}.

#[export] Instance KeyIdentity_eq_dec : EqDecision KeyIdentity.
Proof. solve_decision. Defined.

Inductive ControlState : Type := active | destroyed.
Definition control_state_value (s : ControlState) : pystr :=
  match s with active => py "active" | destroyed => py "destroyed" end.

(** [_identity_document] *)
Definition identity_document (i : KeyIdentity) : list (pystr * JsonValue) :=
  [(py "content_key_id", JStr (uuid_str (ki_content_key_id i))); (py "tenant_id", JStr (uuid_str (ki_tenant_id i)));
   (py "lineage_id", JStr (uuid_str (ki_lineage_id i))); (py "memory_id", JStr (uuid_str (ki_memory_id i)))].

(** [_record_identity] *)
Definition record_identity (l : list (pystr * JsonValue)) : result KeyIdentity :=
  content_key_id ← uuid_item (get_item (py "content_key_id") l);
  tenant_id ← uuid_item (get_item (py "tenant_id") l);
  lineage_id ← uuid_item (get_item (py "lineage_id") l);
  memory_id ← uuid_item (get_item (py "memory_id") l);
  Ok (mk_identity content_key_id tenant_id lineage_id memory_id).

Definition CONTROL_FIELDS : list pystr :=
  [py "version"; py "state"; py "content_key_id"; py "tenant_id"; py "lineage_id"; py "memory_id"; py "receipt";
   py "record_sha256"].

(** [_ledger_entry] *)
Definition ledger_entry (i : KeyIdentity) (receipt : bytes) : result DestructionLedgerEntry :=
  construct validate_entry
    (mk_entry (ki_content_key_id i) (ki_tenant_id i) (ki_lineage_id i) (ki_memory_id i) receipt).

(** [_entry_identity] *)
Definition entry_identity (e : DestructionLedgerEntry) : KeyIdentity :=
  mk_identity (le_content_key_id e) (le_tenant_id e) (le_lineage_id e) (le_memory_id e).

(** [_require_expected_request] *)
Definition require_expected_request (actual : DestructionLedgerEntry) (expected : option DestructionLedgerEntry)
    : result unit :=
  raise_if (match expected with Some e => negb (bool_decide (actual = e)) | None => false end) (ValueError "").

Section Provider.
Context `{Rfc8785} `{Interpreter}.

(** [_control_record] *)
Definition control_record (state : ControlState) (i : KeyIdentity) (receipt : bytes) : result (list (pystr * JsonValue)) :=
  let unsigned := [(py "version", JInt RECORD_VERSION); (py "state", JStr (control_state_value state))]
                  ++ identity_document i ++ [(py "receipt", JStr (b64encode receipt))] in
  digest ← digest_of unsigned;
  Ok (unsigned ++ [(py "record_sha256", JStr digest)]).

Definition control_bytes (state : ControlState) (i : KeyIdentity) (receipt : bytes) : result bytes :=
  document ← control_record state i receipt;
  canonical_plain_bytes (JObject document).

(** [_require_control_record] *)
Definition require_control_record (l : list (pystr * JsonValue)) (state : ControlState) (i : KeyIdentity) : result unit :=
  raise_if (negb (has_fields CONTROL_FIELDS l) || negb (equals_version (get_item (py "version") l))) (ValueError "");;
  raise_if (negb (equals_text (get_item (py "state") l) (control_state_value state))) (ValueError "");;
  identity ← record_identity l;
  raise_if (negb (bool_decide (identity = i))) (ValueError "");;
  canonical_base64 (get_item (py "receipt") l) RECEIPT_BYTES;;
  digest ← text_item (get_item (py "record_sha256") l);
  raise_if (negb (length digest =? 64)%nat) (ValueError "");;
  expected ← digest_of (without_digest l);
  raise_if (negb (bool_decide (digest = expected))) (ValueError "").

(** [_read_control_record] *)
Definition read_control_record (x : Directory) (name : pystr) : result (list (pystr * JsonValue)) :=
  raw ← read_bounded_file RecordMissing x name CONTROL_FILE_MODE MAX_RECORD_BYTES None;
  parsed ← parse_json_strict raw;
  match parsed with
  | JObject l =>
    canonical ← canonical_plain_bytes parsed;
    raise_if (negb (bool_decide (canonical = raw))) (ValueError "");;
    Ok l
  | _ => Err (ValueError "")
  end.

(** [_try_control_record] *)
Definition try_control_record (x : Directory) (name : pystr) : result (option (list (pystr * JsonValue))) :=
  match read_control_record x name with
  | Ok l => Ok (Some l)
  | Err RecordMissing => Ok None
  | Err e => Err e
  end.

(** A control record of the given state: its identity and receipt. *)
Definition state_of (l : list (pystr * JsonValue)) (state : ControlState) : result (KeyIdentity * bytes) :=
  identity ← record_identity l;
  require_control_record l state identity;;
  receipt ← canonical_base64 (get_item (py "receipt") l) RECEIPT_BYTES;
  Ok (identity, receipt).
Definition read_state (x : Directory) (name : pystr) (state : ControlState) : result (KeyIdentity * bytes) :=
  l ← read_control_record x name; state_of l state.

(** A record, if there is one, that must agree with a ledger entry. *)
Definition agrees (l : list (pystr * JsonValue)) (state : ControlState) (e : DestructionLedgerEntry) : result unit :=
  require_control_record l state (entry_identity e);;
  receipt ← canonical_base64 (get_item (py "receipt") l) RECEIPT_BYTES;
  raise_if (negb (bool_decide (receipt = le_receipt e))) (ValueError "").

(** [_read_material] *)
Definition read_material (x : Directory) (name : pystr) (expected_owner_uid : Z) : result bytes :=
  raw ← read_bounded_file RecordMissing x name MATERIAL_FILE_MODE CONTENT_KEY_BYTES (Some expected_owner_uid);
  raise_if (negb (Z.of_nat (length raw) =? CONTENT_KEY_BYTES)) (ValueError "");;
  Ok raw.

Context `{Kernel}.

(** [_finish_destruction] *)
Definition finish_destruction (content_key_id : UUID) : IO unit :=
  suppress_missing (unlink MATERIAL (material_name content_key_id));;
  suppress_missing (unlink CONTROL (active_name content_key_id)).

(** [_publish_once] of a control record *)
Definition publish_control (d : Dir) (name : pystr) (state : ControlState) (i : KeyIdentity) (receipt : bytes) : IO unit :=
  payload ← reads (fun _ => control_bytes state i receipt);
  publish_once d name payload CONTROL_FILE_MODE.

(** [_apply_ledger_entry] *)
Definition apply_ledger_entry (e : DestructionLedgerEntry) : IO unit :=
  let k := le_content_key_id e in
  suppress_missing (unlink MATERIAL (material_name k));;
  reads (fun w => active_record ← try_control_record (w_control w) (active_name k);
                  match active_record with Some l => agrees l active e | None => Ok tt end);;
  present ← reads (fun w => try_control_record (w_control w) (destroyed_name k));
  l ← match present with
      | Some l => mret l
      | None =>
        publish_control CONTROL (destroyed_name k) destroyed (entry_identity e) (le_receipt e);;
        reads (fun w => read_control_record (w_control w) (destroyed_name k))
      end;
  reads (fun _ => agrees l destroyed e);;
  finish_destruction k.

(** [_reconcile_destruction_ledger] *)
Definition reconcile_ledger (accepted : option DestructionLedgerAnchor) : IO unit :=
  open_directory CONTROL;; open_directory MATERIAL;;
  entries ← all_entries accepted;
  for_each entries apply_ledger_entry.

(** One name of the control directory against the ledger. *)
Definition check_tombstone_name (x : Directory) (entries : list DestructionLedgerEntry) (name : pystr) : result unit :=
  if negb (startswith (py "destroyed-") name) then Ok tt
  else
    '(identity, receipt) ← read_state x name destroyed;
    entry ← from_option_or (List.find (fun e => le_content_key_id e =? ki_content_key_id identity) entries) (ValueError "");
    raise_if (negb (bool_decide (entry_identity entry = identity))) (ValueError "");;
    raise_if (negb (bool_decide (receipt = le_receipt entry))) (ValueError "").

(** [_validate_provider_destruction_consistency] *)
Definition validate_consistency (accepted : option DestructionLedgerAnchor) : IO unit :=
  entries ← all_entries accepted;
  open_directory CONTROL;;
  reads (fun w => mapR (check_tombstone_name (w_control w) entries) (listdir (w_control w));; Ok tt).

(** [_validate_layout] *)
Definition validate_layout (w : World) (required_owner_uid material_file_owner_uid : option Z) (destruction_only : bool)
    : result unit :=
  raise_if (destruction_only && match material_file_owner_uid with Some uid => uid =? geteuid | None => false end)
    (ValueError "");;
  validate_directory w PROVIDER required_owner_uid X_OK;;
  validate_directory w CONTROL required_owner_uid (Z.lor R_OK (Z.lor W_OK X_OK));;
  validate_directory w MATERIAL required_owner_uid (Z.lor R_OK (Z.lor W_OK X_OK)).

Definition separate_recovery_roots (w : World) : result unit :=
  require_separate_roots w PROVIDER LEDGER;;
  require_separate_roots w PROVIDER ANCHORS;;
  require_separate_roots w LEDGER ANCHORS.

(** ** The destroyer *)

(** [LocalDirectoryKeyDestroyer.__init__] *)
Definition open_destroyer (accepted : option DestructionLedgerAnchor)
    (required_owner_uid material_file_owner_uid : option Z) : IO unit :=
  key_provider_errors (
    reads separate_recovery_roots;;
    reads (fun w => validate_layout w required_owner_uid material_file_owner_uid true);;
    open_ledger_writer accepted required_owner_uid;;
    reconcile_ledger accepted;;
    validate_consistency accepted).

(** The first destruction of a key: the ledger records it before the provider
    changes. *)
Definition destroy_active (accepted : option DestructionLedgerAnchor) (k : UUID)
    (expected_request : option DestructionLedgerEntry) : IO bytes :=
  active_record ← reads (fun w => read_control_record (w_control w) (active_name k));
  '(identity, receipt) ← reads (fun _ => state_of active_record active);
  proposed ← reads (fun _ => ledger_entry identity receipt);
  reads (fun _ => require_expected_request proposed expected_request);;
  entry ← record_entry accepted proposed;
  publish_control CONTROL (destroyed_name k) destroyed identity receipt;;
  reads (fun w => published ← read_control_record (w_control w) (destroyed_name k);
                  require_control_record published destroyed identity;;
                  raise_if (negb (bool_decide (get_item (py "receipt") published = get_item (py "receipt") active_record)))
                    (ValueError ""));;
  apply_ledger_entry entry;;
  reads (fun _ => destruction_receipt receipt).

(** [LocalDirectoryKeyDestroyer._destroy_key] *)
Definition destroy_key (accepted : option DestructionLedgerAnchor) (reference : ContentKeyReference)
    (expected_request : option DestructionLedgerEntry) : IO bytes :=
  key_provider_errors (
    k ← reads (fun _ => reference_id reference);
    open_directory CONTROL;; open_directory MATERIAL;;
    ledger_fact ← lookup_entry accepted k;
    match ledger_fact with
    | Some entry =>
      reads (fun _ => require_expected_request entry expected_request);;
      apply_ledger_entry entry;;
      reads (fun _ => destruction_receipt (le_receipt entry))
    | None =>
      tombstone ← reads (fun w => try_control_record (w_control w) (destroyed_name k));
      match tombstone with
      | Some l =>
        identity ← reads (fun _ => record_identity l);
        reads (fun _ => require_control_record l destroyed identity);;
        fact ← lookup_entry accepted k;
        entry ← reads (fun _ => from_option_or fact (ValueError ""));
        receipt ← reads (fun _ => canonical_base64 (get_item (py "receipt") l) RECEIPT_BYTES);
        reads (fun _ => raise_if (negb (bool_decide (entry_identity entry = identity))
                                  || negb (bool_decide (le_receipt entry = receipt))) (ValueError ""));;
        reads (fun _ => require_expected_request entry expected_request);;
        apply_ledger_entry entry;;
        reads (fun _ => destruction_receipt (le_receipt entry))
      | None => destroy_active accepted k expected_request
      end
    end).

(** ** The provider *)

(** [LocalDirectoryKeyProvider.__init__] *)
Definition open_provider (accepted : option DestructionLedgerAnchor) (read_only : bool) (required_owner_uid : option Z)
    : IO unit :=
  key_provider_errors (
    reads separate_recovery_roots;;
    reads (fun w => validate_layout w required_owner_uid (Some geteuid) false);;
    open_ledger accepted required_owner_uid;;
    (if read_only then mret tt else reconcile_ledger accepted);;
    validate_consistency accepted;;
    (if read_only then mret tt else open_destroyer accepted required_owner_uid None)).

(** A key the ledger has destroyed is refused; with write access to the
    provider the destruction is carried through first. *)
Definition refuse_destroyed {A} (read_only : bool) (fact : option DestructionLedgerEntry) (m : IO A) : IO A :=
  match fact with
  | Some entry => (if read_only then mret tt else apply_ledger_entry entry);; raise (ValueError "")
  | None => m
  end.

(** [if _try_control_record(control_fd, destroyed_name) is not None: raise ValueError] *)
Definition refuse_tombstone (k : UUID) : IO unit :=
  reads (fun w => tombstone ← try_control_record (w_control w) (destroyed_name k);
                  raise_if (negb (is_none tombstone)) (ValueError "")).

(** The material of a key, generated when there is none. *)
Definition ensure_material (k : UUID) : IO unit :=
  missing ← reads (fun w => match read_material (w_material w) (material_name k) geteuid with
                            | Ok _ => Ok false
                            | Err RecordMissing => Ok true
                            | Err e => Err e
                            end);
  if missing : bool then
    key ← draw (Z.to_nat CONTENT_KEY_BYTES);
    publish_once MATERIAL (material_name k) key MATERIAL_FILE_MODE;;
    reads (fun w => read_material (w_material w) (material_name k) geteuid;; Ok tt)
  else mret tt.

(** [LocalDirectoryKeyProvider.provision_key] *)
Definition provision_key (accepted : option DestructionLedgerAnchor) (read_only : bool) (identity : KeyIdentity)
    : IO ContentKeyReference :=
  let k := ki_content_key_id identity in
  key_provider_errors (
    reads (fun _ => require_uuid7 k;; require_uuid7 (ki_tenant_id identity);;
                    require_uuid7 (ki_lineage_id identity);; require_uuid7 (ki_memory_id identity));;
    reference ← reads (fun _ => key_reference k);
    open_directory CONTROL;; open_directory MATERIAL;;
    fact ← lookup_entry accepted k;
    refuse_destroyed read_only fact (
      refuse_tombstone k;;
      present ← reads (fun w => try_control_record (w_control w) (active_name k));
      l ← match present with
          | Some l => mret l
          | None =>
            receipt ← draw (Z.to_nat RECEIPT_BYTES);
            publish_control CONTROL (active_name k) active identity receipt;;
            reads (fun w => read_control_record (w_control w) (active_name k))
          end;
      reads (fun _ => require_control_record l active identity);;
      refuse_tombstone k;;
      ensure_material k;;
      tombstone ← reads (fun w => try_control_record (w_control w) (destroyed_name k));
      match tombstone with
      | Some _ => finish_destruction k;; raise (ValueError "")
      | None =>
        fact ← lookup_entry accepted k;
        refuse_destroyed read_only fact (mret reference)
      end)).

(** [LocalDirectoryKeyProvider.get_key] *)
Definition get_key (accepted : option DestructionLedgerAnchor) (read_only : bool) (reference : ContentKeyReference)
    : IO bytes :=
  key_provider_errors (
    k ← reads (fun _ => reference_id reference);
    open_directory CONTROL;; open_directory MATERIAL;;
    fact ← lookup_entry accepted k;
    refuse_destroyed read_only fact (
      refuse_tombstone k;;
      reads (fun w => read_state (w_control w) (active_name k) active);;
      key ← reads (fun w => read_material (w_material w) (material_name k) geteuid);
      refuse_tombstone k;;
      fact ← lookup_entry accepted k;
      refuse_destroyed read_only fact (reads (fun _ => content_key_material key)))).

(** [LocalDirectoryKeyProvider.destroy_key]: a read-only provider has no destroyer. *)
Definition provider_destroy_key (accepted : option DestructionLedgerAnchor) (read_only : bool)
    (reference : ContentKeyReference) : IO bytes :=
  if read_only then raise KeyProviderError else destroy_key accepted reference None.

(** [reconcile_restored_local_key_provider] *)
Definition reconcile_restored_provider (accepted : DestructionLedgerAnchor) (required_owner_uid : option Z) : IO unit :=
  key_provider_errors (
    reads separate_recovery_roots;;
    reads (fun w => validate_layout w required_owner_uid None true);;
    open_ledger (Some accepted) required_owner_uid;;
    reconcile_ledger (Some accepted);;
    validate_consistency (Some accepted)).

(** ** The purge requester *)

(** [LocalDirectoryKeyPurgeRequester.__init__] *)
Definition open_requester (accepted : option DestructionLedgerAnchor) (required_owner_uid : option Z) : IO unit :=
  key_provider_errors (
    reads (fun _ => raise_if (is_none accepted) (ValueError ""));;
    reads (fun w => require_separate_roots w PROVIDER REQUESTS;; require_separate_roots w PROVIDER LEDGER;;
                    require_separate_roots w PROVIDER ANCHORS;; require_separate_roots w REQUESTS LEDGER;;
                    require_separate_roots w REQUESTS ANCHORS;; require_separate_roots w LEDGER ANCHORS);;
    reads (fun w => validate_directory w CONTROL required_owner_uid (Z.lor R_OK X_OK);;
                    validate_directory w REQUESTS required_owner_uid (Z.lor R_OK (Z.lor W_OK X_OK));;
                    validate_directory w MATERIAL required_owner_uid X_OK);;
    open_ledger accepted required_owner_uid).

(** [_require_completed] *)
Definition require_completed (entry : DestructionLedgerEntry) : IO unit :=
  let k := le_content_key_id entry in
  open_directory CONTROL;; open_directory MATERIAL;;
  reads (fun w => active_record ← try_control_record (w_control w) (active_name k);
                  raise_if (negb (is_none active_record)) (ValueError ""));;
  '(identity, receipt) ← reads (fun w => read_state (w_control w) (destroyed_name k) destroyed);
  reads (fun _ => raise_if (negb (bool_decide (entry_identity entry = identity))
                            || negb (bool_decide (receipt = le_receipt entry))) (ValueError ""));;
  reads (fun w => raise_if (negb (is_none (d_names (w_material w) !! material_name k))) (ValueError "")).

(** [LocalDirectoryKeyPurgeRequester.destroy_key] *)
Definition request_destruction_of (accepted : DestructionLedgerAnchor) (reference : ContentKeyReference) : IO bytes :=
  let completed entry :=
    require_anchor (Some accepted) accepted;; require_completed entry;;
    reads (fun _ => destruction_receipt (le_receipt entry)) in
  key_provider_errors (
    k ← reads (fun _ => reference_id reference);
    existing ← lookup_entry (Some accepted) k;
    match existing with
    | Some entry => completed entry
    | None =>
      open_directory CONTROL;;
      '(identity, receipt) ← reads (fun w => read_state (w_control w) (active_name k) active);
      open_directory REQUESTS;;
      publish_control REQUESTS (destroyed_name k) destroyed identity receipt;;
      existing ← lookup_entry (Some accepted) k;
      entry ← reads (fun _ => from_option_or existing (ValueError ""));
      completed entry
    end).

(** ** The broker *)

Definition MAX_REQUESTS : nat := 1024.
Definition MAX_REQUEST_NAME_BYTES : nat := 128.
Definition MAX_WORK_PER_RUN : nat := 32.

(** One request file: its name and the entry it asks for. *)
Definition read_request (x : Directory) (name : pystr) : result (pystr * DestructionLedgerEntry) :=
  encoded ← utf8_encode name;
  raise_if (MAX_REQUEST_NAME_BYTES <? length encoded)%nat (ValueError "");;
  '(identity, receipt) ← read_state x name destroyed;
  raise_if (negb (bool_decide (name = destroyed_name (ki_content_key_id identity)))) (ValueError "");;
  entry ← ledger_entry identity receipt;
  Ok (name, entry).

Definition read_requests (x : Directory) : result (list (pystr * DestructionLedgerEntry)) :=
  raise_if (MAX_REQUESTS <? length (listdir x))%nat (ValueError "");;
  mapR (read_request x) (listdir x).

(** A request is for a key already destroyed as asked, or for an active key
    whose record authorizes exactly it. *)
Definition check_request (entries : list DestructionLedgerEntry) (w : World) (request : pystr * DestructionLedgerEntry)
    : result unit :=
  match List.find (fun e => le_content_key_id e =? le_content_key_id request.2) entries with
  | Some existing => raise_if (negb (bool_decide (existing = request.2))) (ValueError "")
  | None =>
    raise_if (ds_symlink (d_stat (w_control w)) || negb (ds_isdir (d_stat (w_control w)))) OSError;;
    '(identity, receipt) ← read_state (w_control w) (active_name (le_content_key_id request.2)) active;
    authorized ← ledger_entry identity receipt;
    raise_if (negb (bool_decide (authorized = request.2))) (ValueError "")
  end.

(** One request carried out: [entries] are the ledger's before the run; a later
    request of the run has another file name, so another key. *)
Definition carry_out (accepted : DestructionLedgerAnchor) (entries : list DestructionLedgerEntry)
    (request : pystr * DestructionLedgerEntry) : IO unit :=
  let '(name, entry) := request in
  (match List.find (fun e => le_content_key_id e =? le_content_key_id entry) entries with
   | Some _ => mret tt
   | None =>
     reference ← reads (fun _ => key_reference (le_content_key_id entry));
     receipt ← destroy_key None reference (Some entry);
     reads (fun _ => raise_if (negb (bool_decide (receipt = le_receipt entry))) (ValueError ""))
   end);;
  fact ← lookup_entry (Some accepted) (le_content_key_id entry);
  reads (fun _ => raise_if (negb (bool_decide (fact = Some entry))) (ValueError ""));;
  unlink REQUESTS name.

(** [reconcile_destruction_requests] *)
Definition reconcile_requests (accepted : DestructionLedgerAnchor) (required_owner_uid : option Z) : IO nat :=
  key_provider_errors (
    open_directory REQUESTS;;
    requests ← reads (fun w => read_requests (w_requests w));
    recover_pending_append accepted requests.*2 required_owner_uid;;
    open_ledger_writer (Some accepted) required_owner_uid;;
    open_destroyer None required_owner_uid None;;
    entries ← all_entries (Some accepted);
    reads (fun w => mapR (check_request entries w) requests;; Ok tt);;
    open_directory REQUESTS;;
    for_each (take MAX_WORK_PER_RUN requests) (carry_out accepted entries);;
    mret (length (take MAX_WORK_PER_RUN requests))).
End Provider.
