(* ===== verification/DiskFacts.v ===== *)
(** * DiskFacts: reasoning about interruptible programs

    Rules for the worlds a program passes through, frames of the system calls,
    and what [publish_once] leaves at every point of its run. *)

From stdpp Require Import base tactics option list gmap strings.
From Stdlib Require Import ZArith Lia Bool.
From S2P Require Import Prelude Identifiers CanonicalJson Digest Disk.
Open Scope Z_scope.

(** ** Worlds *)

Lemma directory_set d x w d' : directory (set_directory d x w) d' = if decide (d' = d) then x else directory w d'.
Proof. by destruct w, d, d'. Qed.
Lemma directory_set_same d x w : directory (set_directory d x w) d = x.
Proof. rewrite directory_set. by destruct (decide _). Qed.
Lemma directory_on d f w d' : directory (on d f w) d' = if decide (d' = d) then f (directory w d) else directory w d'.
Proof. apply directory_set. Qed.
Lemma directory_count w d : directory (count_call w) d = directory w d.
Proof. by destruct w, d. Qed.
Lemma calls_on d f w : w_calls (on d f w) = w_calls w.
Proof. by destruct w, d. Qed.

(** ** Every world of a run *)

Definition all_worlds (P : World -> Prop) {A} (m : IO A) (w : World) : Prop := Forall P (outcomes m w).

Lemma all_worlds_run {A} (P : World -> Prop) (m : IO A) w t w' r :
  m w = (t, w', r) -> all_worlds P m w <-> P w /\ Forall P t /\ P w'.
Proof.
  intros E. unfold all_worlds, outcomes. rewrite E, Forall_cons, Forall_app, Forall_singleton. done.
Qed.

Section Rules.
Context (P : World -> Prop).

Lemma all_ret {A} (a : A) w : P w -> all_worlds P (mret a) w.
Proof. intros Hw. by apply (all_worlds_run P _ w [] w (Ok a)). Qed.
Lemma all_raise {A} e w : P w -> all_worlds P (@raise A e) w.
Proof. intros Hw. by apply (all_worlds_run P _ w [] w (Err e)). Qed.
Lemma all_reads {A} (f : World -> result A) w : P w -> all_worlds P (reads f) w.
Proof. intros Hw. by apply (all_worlds_run P _ w [] w (f w)). Qed.
Lemma all_effect f w : P w -> P (f w) -> all_worlds P (effect f) w.
Proof. intros Hw Hf. apply (all_worlds_run P _ w [f w] (f w) (Ok tt)); [done|]. by rewrite Forall_singleton. Qed.

Lemma all_one {A} (m : IO A) w w' r : m w = ([w'], w', r) -> P w -> P w' -> all_worlds P m w.
Proof. intros E Hw Hw'. apply (all_worlds_run P _ _ _ _ _ E). by rewrite Forall_singleton. Qed.
Lemma all_none {A} (m : IO A) w r : m w = ([], w, r) -> P w -> all_worlds P m w.
Proof. intros E Hw. by apply (all_worlds_run P _ _ _ _ _ E). Qed.

Lemma all_bind {A B} (m : IO A) (f : A -> IO B) w :
  all_worlds P m w -> (forall t w' a, m w = (t, w', Ok a) -> P w' -> all_worlds P (f a) w') -> all_worlds P (m ≫= f) w.
Proof.
  intros Hm Hf. destruct (m w) as [[t w'] [a|e]] eqn:E.
  - destruct (proj1 (all_worlds_run P _ _ _ _ _ E) Hm) as (Hw & Ht & Hw'). specialize (Hf t w' a eq_refl Hw').
    destruct (f a w') as [[t' w''] r] eqn:E'. destruct (proj1 (all_worlds_run P _ _ _ _ _ E') Hf) as (_ & Ht' & Hw'').
    apply (all_worlds_run P _ w (t ++ t') w'' r); [|by rewrite Forall_app].
    unfold mbind, io_bind. by rewrite E, E'.
  - pose proof (proj1 (all_worlds_run P _ _ _ _ _ E) Hm) as Hall. apply (all_worlds_run P _ w t w' (Err e)); [|done].
    unfold mbind, io_bind. by rewrite E.
Qed.

Lemma all_catch {A} (m : IO A) h w :
  all_worlds P m w -> (forall e w', P w' -> all_worlds P (h e) w') -> all_worlds P (catch m h) w.
Proof.
  intros Hm Hf. destruct (m w) as [[t w'] [a|e]] eqn:E.
  - pose proof (proj1 (all_worlds_run P _ _ _ _ _ E) Hm) as Hall. apply (all_worlds_run P _ w t w' (Ok a)); [|done].
    unfold catch. by rewrite E.
  - destruct (proj1 (all_worlds_run P _ _ _ _ _ E) Hm) as (Hw & Ht & Hw'). specialize (Hf e w' Hw').
    destruct (h e w') as [[t' w''] r] eqn:E'. destruct (proj1 (all_worlds_run P _ _ _ _ _ E') Hf) as (_ & Ht' & Hw'').
    apply (all_worlds_run P _ w (t ++ t') w'' r); [|by rewrite Forall_app].
    unfold catch. by rewrite E, E'.
Qed.

Lemma all_finally {A} (m : IO A) c w :
  all_worlds P m w -> (forall w', P w' -> all_worlds P c w') -> all_worlds P (finally m c) w.
Proof.
  intros Hm Hf. destruct (m w) as [[t w'] r] eqn:E.
  destruct (proj1 (all_worlds_run P _ _ _ _ _ E) Hm) as (Hw & Ht & Hw'). specialize (Hf w' Hw').
  destruct (c w') as [[t' w''] r'] eqn:E'. destruct (proj1 (all_worlds_run P _ _ _ _ _ E') Hf) as (_ & Ht' & Hw'').
  apply (all_worlds_run P _ w (t ++ t') w'' (match r' with Ok _ => r | Err e => Err e end)); [|by rewrite Forall_app].
  unfold finally. by rewrite E, E'.
Qed.

Lemma all_suppress m w : all_worlds P m w -> all_worlds P (suppress_missing m) w.
Proof. intros Hm. apply all_catch; [done|]. intros e w' Hw'. case_bool_decide; [by apply all_ret|by apply all_raise]. Qed.
Lemma all_errors {A} (m : IO A) w : all_worlds P m w -> all_worlds P (key_provider_errors m) w.
Proof. intros Hm. apply all_catch; [done|]. intros e w' Hw'. by apply all_raise. Qed.
Lemma all_open d w : P w -> all_worlds P (open_directory d) w.
Proof. apply all_reads. Qed.

Lemma all_for_each {A} (l : list A) body w :
  (forall a w', a ∈ l -> P w' -> all_worlds P (body a) w') -> P w -> all_worlds P (for_each l body) w.
Proof.
  revert w. induction l as [|a l IH]; intros w Hb Hw; [by apply all_ret|]. cbn [for_each]. apply all_bind.
  - apply Hb; [by left|done].
  - intros _ w' _ _ Hw'. apply IH; [|done]. intros a' w'' Hin. apply Hb. by right.
Qed.
End Rules.

Lemma all_worlds_final {A} P (m : IO A) w t w' r : m w = (t, w', r) -> all_worlds P m w -> P w'.
Proof. intros E Hm. by destruct (proj1 (all_worlds_run P _ _ _ _ _ E) Hm) as (_ & _ & Hw'). Qed.

Lemma all_worlds_impl {A} (P Q : World -> Prop) (m : IO A) w :
  (forall w', P w' -> Q w') -> all_worlds P m w -> all_worlds Q m w.
Proof. intros HPQ Hm. unfold all_worlds in *. by eapply Forall_impl. Qed.

(** One step of symbolic execution over [all_worlds] goals. *)
Create HintDb worlds discriminated.
#[export] Hint Constants Opaque : worlds.
Ltac walk :=
  repeat match goal with
         | |- all_worlds _ (_ ≫= _) _ => apply all_bind; [|intros ? ? ? _ ?]
         | |- all_worlds _ (key_provider_errors _) _ => apply all_errors
         | |- all_worlds _ (suppress_missing _) _ => apply all_suppress
         | |- all_worlds _ (reads _) _ => apply all_reads; assumption
         | |- all_worlds _ (mret _) _ => apply all_ret; assumption
         | |- all_worlds _ (raise _) _ => apply all_raise; assumption
         | |- all_worlds _ (open_directory _) _ => apply all_open; assumption
         | |- all_worlds _ (for_each _ _) _ => apply all_for_each; [intros ? ? _ ?|assumption]
         | |- all_worlds _ (match ?x with _ => _ end) _ => destruct x
         | |- all_worlds _ (let '(_, _) := ?x in _) _ => destruct x
         end.

(** ** Frames *)

(** The calls on one directory leave every property alone that only depends on
    the others. *)
Definition frame (P : World -> Prop) (d : Dir) : Prop :=
  (forall f w, P w -> P (on d f w)) /\ (forall w, P w -> P (count_call w)).

Section Frames.
Context `{Kernel} (P : World -> Prop) (d : Dir) (HP : frame P d).

Lemma frame_draw size w : P w -> all_worlds P (draw size) w.
Proof.
  intros Hw. destruct HP as [_ Hc].
  apply (all_worlds_run P _ w [count_call w] (count_call w) (Ok (urandom (w_calls w) size))); [done|].
  rewrite Forall_singleton. auto.
Qed.
Lemma frame_effect f w : P w -> all_worlds P (effect (on d f)) w.
Proof. intros Hw. destruct HP as [Ho _]. apply all_effect; auto. Qed.
Lemma frame_open_excl name mode w : P w -> all_worlds P (open_excl d name mode) w.
Proof.
  intros Hw. unfold all_worlds, outcomes, open_excl. destruct (d_names (directory w d) !! name); [by repeat constructor|].
  destruct HP as [Ho _]. repeat constructor; auto.
Qed.
Lemma frame_write fd view w : P w -> all_worlds P (write d fd view) w.
Proof. intros Hw. destruct HP as [Ho Hc]. unfold all_worlds, outcomes, write. repeat constructor; auto. Qed.
Lemma frame_write_all fuel fd view w : P w -> all_worlds P (write_all fuel d fd view) w.
Proof.
  revert view w. induction fuel as [|fuel IH]; intros [|b view] w Hw; cbn [write_all]; [walk..|].
  apply all_bind; [by apply frame_write|]. intros ? w' n _ Hw'. destruct (n =? 0)%nat; [walk|]. by apply IH.
Qed.
Lemma frame_link a b w : P w -> all_worlds P (link d a b) w.
Proof.
  intros Hw. unfold link. destruct (d_names (directory w d) !! a) eqn:Ea; [destruct (d_names (directory w d) !! b) eqn:Eb|].
  all: unfold all_worlds, outcomes, link; rewrite Ea, ?Eb; cbn; destruct HP as [Ho _]; repeat constructor; auto.
Qed.
Lemma frame_unlink a w : P w -> all_worlds P (unlink d a) w.
Proof.
  intros Hw. unfold all_worlds, outcomes, unlink. destruct HP as [Ho _].
  destruct (d_names (directory w d) !! a); cbn; repeat constructor; auto.
Qed.
Lemma frame_replace a b w : P w -> all_worlds P (replace d a b) w.
Proof.
  intros Hw. unfold all_worlds, outcomes, replace. destruct HP as [Ho _].
  destruct (d_names (directory w d) !! a); cbn; repeat constructor; auto.
Qed.

Lemma frame_publish dest payload mode w : P w -> all_worlds P (publish_once d dest payload mode) w.
Proof.
  intros Hw. unfold publish_once. apply all_bind; [by apply frame_draw|]. intros ? w1 random _ Hw1.
  apply all_finally; [|intros w' Hw'; apply all_suppress; by apply frame_unlink].
  apply all_bind; [by apply frame_open_excl|]. intros ? w2 fd _ Hw2.
  apply all_bind; [by apply frame_effect|]. intros ? w3 ? _ Hw3.
  apply all_bind; [by apply frame_write_all|]. intros ? w4 ? _ Hw4.
  apply all_finally; [|intros w' Hw'; by apply frame_unlink].
  apply all_catch; [by apply frame_link|]. intros e w' Hw'. case_bool_decide; [by apply all_ret|by apply all_raise].
Qed.
End Frames.

(** ** Files that are kept *)

(** Every name leads to an inode. *)
Definition dir_ok (x : Directory) : Prop := forall name i, d_names x !! name = Some i -> is_Some (d_inodes x !! i).

Lemma next_inode_fresh x : d_inodes x !! next_inode x = None.
Proof.
  assert (Hmax : forall i, is_Some (d_inodes x !! i) -> i <= map_fold (fun i (_ : Inode) m => Z.max i m) 0 (d_inodes x)).
  { apply (map_fold_weak_ind (fun m mx => forall i, is_Some (mx !! i) -> i <= m)).
    - intros i [n Hn]. by rewrite lookup_empty in Hn.
    - intros j n mx m Hj IH i [n' Hi]. apply lookup_insert_Some in Hi as [[-> _]|[_ Hi]]; [lia|].
      specialize (IH i (ex_intro _ _ Hi)). lia. }
  destruct (d_inodes x !! next_inode x) eqn:E; [|done]. specialize (Hmax _ (ex_intro _ _ E)). unfold next_inode in Hmax. lia.
Qed.

(** The files of [x0] whose names satisfy [N] are in [x] with their content. *)
Definition keeps (N : pystr -> Prop) (x0 x : Directory) : Prop :=
  dir_ok x /\
  forall name j n, N name -> d_names x0 !! name = Some j -> d_inodes x0 !! j = Some n ->
    d_names x !! name = Some j /\ exists n', d_inodes x !! j = Some n' /\ in_data n' = in_data n.

(** No kept file has the inode. *)
Definition spare (N : pystr -> Prop) (x0 : Directory) (i : Z) : Prop :=
  forall name n, N name -> d_names x0 !! name = Some i -> d_inodes x0 !! i = Some n -> False.

Lemma keeps_refl N x : dir_ok x -> keeps N x x.
Proof. intros Hx. split; [done|]. intros name j n _ Hn Hj. eauto. Qed.

Lemma keeps_trans N x y z : keeps N x y -> keeps N y z -> keeps N x z.
Proof.
  intros [_ Hxy] [Hz Hyz]. split; [done|]. intros name j n HN Hn Hj.
  destruct (Hxy _ _ _ HN Hn Hj) as (Hn' & n' & Hj' & Hd). destruct (Hyz _ _ _ HN Hn' Hj') as (Hn'' & n'' & Hj'' & Hd').
  split; [done|]. exists n''. split; [done|congruence].
Qed.

Lemma keeps_data N x y name n :
  keeps N x y -> N name -> inode_at x name = Some n -> exists n', inode_at y name = Some n' /\ in_data n' = in_data n.
Proof.
  intros [_ Hk] HN Hx. unfold inode_at in *. apply bind_Some in Hx as (j & Hn & Hj).
  destruct (Hk _ _ _ HN Hn Hj) as (-> & n' & Hj' & Hd). exists n'. cbn. by rewrite Hj'.
Qed.

Section Keeps.
Context (N : pystr -> Prop) (x0 : Directory).

Lemma keeps_new x name n :
  keeps N x0 x -> d_names x !! name = None ->
  keeps N x0 ((with_inodes (insert (next_inode x) n) ∘ with_names (insert name (next_inode x))) x).
Proof.
  intros [Hok Hk] Hnone. pose proof (next_inode_fresh x) as Hf. split.
  - intros m i Hm. cbn in *. destruct (decide (i = next_inode x)) as [->|Hi]; [rewrite lookup_insert_eq; eauto|].
    rewrite lookup_insert_ne in Hm by (intros ->; rewrite lookup_insert_eq in Hm; congruence).
    rewrite lookup_insert_ne by done. by eapply Hok.
  - intros m j k HN Hm Hj. destruct (Hk _ _ _ HN Hm Hj) as (Hm' & k' & Hj' & Hd). cbn.
    rewrite !lookup_insert_ne by congruence. eauto.
Qed.

Lemma spare_new x : keeps N x0 x -> spare N x0 (next_inode x).
Proof.
  intros [_ Hk] m k HN Hm Hj. destruct (Hk _ _ _ HN Hm Hj) as (_ & k' & Hj' & _).
  by rewrite next_inode_fresh in Hj'.
Qed.

Lemma keeps_alter f i x :
  (forall n, in_data (f n) = in_data n) \/ spare N x0 i -> keeps N x0 x -> keeps N x0 (with_inodes (alter f i) x).
Proof.
  intros Hf [Hok Hk]. split.
  - intros m j Hm. cbn in *. destruct (Hok _ _ Hm) as [n Hn]. destruct (decide (j = i)) as [->|Hj].
    + rewrite lookup_alter_eq, Hn. by eexists.
    + rewrite lookup_alter_ne by done. by eexists.
  - intros m j n HN Hm Hj. destruct (Hk _ _ _ HN Hm Hj) as (Hm' & n' & Hj' & Hd). split; [done|]. cbn.
    destruct (decide (j = i)) as [->|Hne].
    + destruct Hf as [Hf|Hf]; [|by destruct (Hf _ _ HN Hm Hj)].
      exists (f n'). rewrite lookup_alter_eq, Hj'. split; [done|]. by rewrite Hf.
    + rewrite lookup_alter_ne by done. eauto.
Qed.

Lemma keeps_name x name i :
  keeps N x0 x -> d_names x !! name = None -> is_Some (d_inodes x !! i) -> keeps N x0 (with_names (insert name i) x).
Proof.
  intros [Hok Hk] Hnone Hi. split.
  - intros m j Hm. cbn in *. apply lookup_insert_Some in Hm as [[_ ->]|[_ Hm]]; [done|]. by eapply Hok.
  - intros m j n HN Hm Hj. destruct (Hk _ _ _ HN Hm Hj) as (Hm' & n' & Hj' & Hd). cbn.
    rewrite lookup_insert_ne by congruence. eauto.
Qed.

Lemma keeps_delete x name : keeps N x0 x -> ~ N name -> keeps N x0 (with_names (delete name) x).
Proof.
  intros [Hok Hk] HN'. split.
  - intros m j Hm. cbn in *. apply lookup_delete_Some in Hm as [_ Hm]. by eapply Hok.
  - intros m j n HN Hm Hj. destruct (Hk _ _ _ HN Hm Hj) as (Hm' & n' & Hj' & Hd). cbn.
    rewrite lookup_delete_ne by congruence. eauto.
Qed.

Context `{Kernel} (d : Dir) (Htmp : forall s, ~ N (py ".tmp-" ++ s)).

Let P (w : World) : Prop := keeps N x0 (directory w d).

Lemma keeps_on f w : keeps N x0 (f (directory w d)) -> P (on d f w).
Proof. unfold P. rewrite directory_on, decide_True by done. done. Qed.
Lemma keeps_count w : P w -> P (count_call w).
Proof. unfold P. by rewrite directory_count. Qed.

Lemma keeps_unlink s w : P w -> all_worlds P (unlink d (py ".tmp-" ++ s)) w.
Proof.
  intros Hw. destruct (d_names (directory w d) !! (py ".tmp-" ++ s)) as [i|] eqn:E.
  - eapply all_one; [unfold unlink; rewrite E; reflexivity|done|].
    apply keeps_on, keeps_alter; [by left|]. apply keeps_delete; [done|apply Htmp].
  - eapply all_none; [unfold unlink; rewrite E; reflexivity|done].
Qed.

Lemma keeps_write_all fuel fd view w : P w -> spare N x0 fd -> all_worlds P (write_all fuel d fd view) w.
Proof.
  revert view w. induction fuel as [|fuel IH]; intros [|b view] w Hw Hs; cbn [write_all]; [walk..|].
  apply all_bind.
  - eapply all_one; [reflexivity|done|]. apply keeps_count, keeps_on, keeps_alter; [by right|done].
  - intros ? w' n _ Hw'. destruct (n =? 0)%nat; [walk|]. by apply IH.
Qed.

Lemma keeps_link a b w : P w -> all_worlds P (link d a b) w.
Proof.
  intros Hw. destruct (d_names (directory w d) !! a) as [i|] eqn:Ea;
    [|eapply all_none; [unfold link; rewrite Ea; reflexivity|done]].
  destruct (d_names (directory w d) !! b) as [j|] eqn:Eb;
    [eapply all_none; [unfold link; rewrite Ea, Eb; reflexivity|done]|].
  eapply all_one; [unfold link; rewrite Ea, Eb; reflexivity|done|].
  apply keeps_on, keeps_alter; [by left|]. apply keeps_name; [done..|]. destruct Hw as [Hok _]. by eapply Hok.
Qed.

(** Publishing a file keeps every file. *)
Lemma keeps_publish dest payload mode w : P w -> all_worlds P (publish_once d dest payload mode) w.
Proof.
  intros Hw. unfold publish_once. apply all_bind.
  { apply (all_worlds_run P _ w [count_call w] (count_call w) (Ok (urandom (w_calls w) 16))); [done|].
    rewrite Forall_singleton. auto using keeps_count. }
  intros ? w1 random _ Hw1.
  apply all_finally; [|intros w' Hw'; apply all_suppress; by apply keeps_unlink].
  destruct (d_names (directory w1 d) !! (py ".tmp-" ++ hex_of_bytes random)) as [i|] eqn:Et.
  - eapply all_none; [|done]. unfold mbind, io_bind, open_excl. rewrite Et. reflexivity.
  - assert (Hopen : all_worlds P (open_excl d (py ".tmp-" ++ hex_of_bytes random) mode) w1).
    { eapply all_one; [unfold open_excl; rewrite Et; reflexivity|done|]. by apply keeps_on, keeps_new. }
    apply all_bind; [done|]. intros t2 w2 fd Hrun Hw2. unfold open_excl in Hrun. rewrite Et in Hrun.
    injection Hrun as _ _ <-.
    pose proof (spare_new _ Hw1) as Hs.
    apply all_bind.
    { apply all_effect; [done|]. apply keeps_on, keeps_alter; [by left|done]. }
    intros ? w3 ? _ Hw3. apply all_bind; [by apply keeps_write_all|]. intros ? w4 ? _ Hw4.
    apply all_finally; [|intros w' Hw'; by apply keeps_unlink].
    apply all_catch; [by apply keeps_link|]. intros e w' Hw'. case_bool_decide; [by apply all_ret|by apply all_raise].
Qed.
End Keeps.

(** ** Well-formed disks *)

Definition disk_ok (w : World) : Prop := forall d, dir_ok (directory w d).

Lemma ok_on d f w : disk_ok w -> dir_ok (f (directory w d)) -> disk_ok (on d f w).
Proof. intros Hw Hf d'. rewrite directory_on. destruct (decide _); [done|apply Hw]. Qed.
Lemma ok_count w : disk_ok w -> disk_ok (count_call w).
Proof. intros Hw d. rewrite directory_count. apply Hw. Qed.
Lemma ok_alter f i x : dir_ok x -> dir_ok (with_inodes (alter f i) x).
Proof. intros Hx. apply (keeps_alter (fun _ => False) x f i x); [|by apply keeps_refl]. right. by intros ? ? []. Qed.
Lemma ok_delete name x : dir_ok x -> dir_ok (with_names (delete name) x).
Proof. intros Hx. apply (keeps_delete (fun _ => False) x x name); [by apply keeps_refl|tauto]. Qed.
Lemma ok_insert name i x : dir_ok x -> is_Some (d_inodes x !! i) -> dir_ok (with_names (insert name i) x).
Proof. intros Hx Hi m j Hj. cbn in *. apply lookup_insert_Some in Hj as [[_ <-]|[_ Hj]]; [done|by eapply Hx]. Qed.

Section WellFormed.
Context `{Kernel} (d : Dir).

Lemma ok_draw n w : disk_ok w -> all_worlds disk_ok (draw n) w.
Proof. intros Hw. eapply all_one; [reflexivity|done|by apply ok_count]. Qed.
Lemma ok_fchmod fd mode w : disk_ok w -> all_worlds disk_ok (fchmod d fd mode) w.
Proof. intros Hw. apply all_effect; [done|]. apply ok_on; [done|apply ok_alter, Hw]. Qed.
Lemma ok_open_excl name mode w : disk_ok w -> all_worlds disk_ok (open_excl d name mode) w.
Proof.
  intros Hw. destruct (d_names (directory w d) !! name) eqn:E.
  - eapply all_none; [unfold open_excl; by rewrite E|done].
  - eapply all_one; [unfold open_excl; rewrite E; reflexivity|done|]. apply ok_on; [done|].
    by apply (keeps_new (fun _ => False) (directory w d)); [apply keeps_refl|].
Qed.
Lemma ok_write_all fuel fd view w : disk_ok w -> all_worlds disk_ok (write_all fuel d fd view) w.
Proof.
  revert view w. induction fuel as [|fuel IH]; intros [|b view] w Hw; cbn [write_all]; [walk..|]. apply all_bind.
  - eapply all_one; [reflexivity|done|]. apply ok_count, ok_on; [done|apply ok_alter, Hw].
  - intros ? w' n _ Hw'. destruct (n =? 0)%nat; [walk|]. by apply IH.
Qed.
Lemma ok_unlink name w : disk_ok w -> all_worlds disk_ok (unlink d name) w.
Proof.
  intros Hw. destruct (d_names (directory w d) !! name) eqn:E.
  - eapply all_one; [unfold unlink; rewrite E; reflexivity|done|]. apply ok_on; [done|]. apply ok_alter, ok_delete, Hw.
  - eapply all_none; [unfold unlink; by rewrite E|done].
Qed.
Lemma ok_link a b w : disk_ok w -> all_worlds disk_ok (link d a b) w.
Proof.
  intros Hw. destruct (d_names (directory w d) !! a) as [i|] eqn:Ea; [destruct (d_names (directory w d) !! b) eqn:Eb|].
  - eapply all_none; [unfold link; by rewrite Ea, Eb|done].
  - eapply all_one; [unfold link; rewrite Ea, Eb; reflexivity|done|]. apply ok_on; [done|]. apply ok_alter, ok_insert; [apply Hw|].
    by eapply Hw.
  - eapply all_none; [unfold link; by rewrite Ea|done].
Qed.
Lemma ok_replace a b w : disk_ok w -> all_worlds disk_ok (replace d a b) w.
Proof.
  intros Hw. destruct (d_names (directory w d) !! a) as [i|] eqn:Ea; [|eapply all_none; [unfold replace; by rewrite Ea|done]].
  eapply all_one; [unfold replace; rewrite Ea; reflexivity|done|]. apply ok_on; [done|].
  set (g := match _ with Some j => _ | None => _ end).
  assert (Hg : dir_ok (g (directory w d)) /\ is_Some (d_inodes (g (directory w d)) !! i)).
  { subst g. destruct (d_names (directory w d) !! b) as [j|]; [|by split; [apply Hw|eapply Hw]]. split; [apply ok_alter, Hw|]. cbn.
    destruct (Hw d _ _ Ea) as [n Hn]. destruct (decide (j = i)) as [->|]; [rewrite lookup_alter_eq, Hn|rewrite lookup_alter_ne, Hn by done]; by eexists. }
  destruct Hg as [Hg Hi]. clearbody g.
  change (dir_ok (with_names (insert b i) (with_names (delete a) (g (directory w d))))). apply ok_insert; [by apply ok_delete|done].
Qed.

Lemma ok_publish dest payload mode w : disk_ok w -> all_worlds disk_ok (publish_once d dest payload mode) w.
Proof.
  intros Hw. unfold publish_once. apply all_bind; [by apply ok_draw|]. intros ? w1 random _ Hw1.
  apply all_finally; [|intros w' Hw'; apply all_suppress; by apply ok_unlink].
  apply all_bind; [by apply ok_open_excl|]. intros ? w2 fd _ Hw2.
  apply all_bind; [by apply ok_fchmod|]. intros ? w3 ? _ Hw3.
  apply all_bind; [by apply ok_write_all|]. intros ? w4 ? _ Hw4.
  apply all_finally; [|intros w' Hw'; by apply ok_unlink].
  apply all_catch; [by apply ok_link|]. intros e w' Hw'. case_bool_decide; [by apply all_ret|by apply all_raise].
Qed.
End WellFormed.

(** ** Exact runs *)

Lemma run_bind {A B} (m : IO A) (f : A -> IO B) w t1 w1 a t2 w2 r :
  m w = (t1, w1, Ok a) -> f a w1 = (t2, w2, r) -> (m ≫= f) w = (t1 ++ t2, w2, r).
Proof. intros E1 E2. unfold mbind, io_bind. by rewrite E1, E2. Qed.
Lemma run_reads {A B} (g : World -> result A) (f : A -> IO B) w a t w' r :
  g w = Ok a -> f a w = (t, w', r) -> (reads g ≫= f) w = (t, w', r).
Proof. intros E1 E2. unfold mbind, io_bind, reads. by rewrite E1, E2. Qed.
Lemma run_finally {A} (m : IO A) c w t1 w1 r t2 w2 u :
  m w = (t1, w1, r) -> c w1 = (t2, w2, Ok u) -> finally m c w = (t1 ++ t2, w2, r).
Proof. intros E1 E2. unfold finally. by rewrite E1, E2. Qed.
Lemma run_catch {A} (m : IO A) h w t1 w1 a : m w = (t1, w1, Ok a) -> catch m h w = (t1, w1, Ok a).
Proof. intros E. unfold catch. by rewrite E. Qed.
Lemma run_suppress (m : IO unit) w : m w = ([], w, Err FileNotFoundError) -> suppress_missing m w = ([], w, Ok tt).
Proof. intros E. unfold suppress_missing, catch. by rewrite E. Qed.
Lemma run_errors {A} (m : IO A) w t w' a : m w = (t, w', Ok a) -> key_provider_errors m w = (t, w', Ok a).
Proof. apply run_catch. Qed.

(** Only the directory [d] differs. *)
Definition same_but (d : Dir) (w w' : World) : Prop := forall d', d' <> d -> directory w' d' = directory w d'.

Lemma same_but_refl d w : same_but d w w.
Proof. done. Qed.
Lemma same_but_trans d w1 w2 w3 : same_but d w1 w2 -> same_but d w2 w3 -> same_but d w1 w3.
Proof. intros H1 H2 d' Hd. by rewrite H2, H1. Qed.
Lemma same_but_on d f w : same_but d w (on d f w).
Proof. intros d' Hd. by rewrite directory_on, decide_False. Qed.
Lemma same_but_count d w : same_but d w (count_call w).
Proof. intros d' _. apply directory_count. Qed.
#[export] Hint Resolve same_but_refl same_but_on same_but_count : core.

Lemma directory_on_same d f w : directory (on d f w) d = f (directory w d).
Proof. by rewrite directory_on, decide_True. Qed.

(** The kernel takes at least one byte of a non-empty buffer. *)
Definition write_progress `{Kernel} : Prop := forall n k, (0 < k)%nat -> (0 < write_accepts n k)%nat.

Section Exact.
Context `{Kernel} (Hprogress : write_progress) (d : Dir).

(** Writing only extends the inode of the descriptor. *)
Lemma run_write_all fuel fd view w n :
  (length view <= fuel)%nat -> d_inodes (directory w d) !! fd = Some n ->
  exists t w', write_all fuel d fd view w = (t, w', Ok tt) /\ same_but d w w' /\
    directory w' d = mk_directory (d_stat (directory w d)) (d_names (directory w d))
                       (<[fd := append_data view n]> (d_inodes (directory w d))) /\
    Forall (fun v => same_but d w v /\ d_names (directory v d) = d_names (directory w d) /\
                     forall j, j <> fd -> d_inodes (directory v d) !! j = d_inodes (directory w d) !! j) t.
Proof.
  revert view w n. induction fuel as [|fuel IH]; intros [|b view] w n Hl Hn; cbn [length] in Hl; try lia.
  1,2: exists [], w; split_and!; [done..| |constructor]; destruct (directory w d) as [s m x] eqn:E, n as [g0 m0 u0 k0 data];
    cbn in *; unfold append_data; cbn; rewrite app_nil_r; f_equal; symmetry; by apply insert_id.
  set (k := write_accepts (w_calls w) (length (b :: view))).
  pose proof (Hprogress (w_calls w) (length (b :: view)) ltac:(cbn; lia)) as Hk. fold k in Hk.
  set (w1 := count_call (on d (with_inodes (alter (append_data (take k (b :: view))) fd)) w)).
  assert (Hd1 : directory w1 d = with_inodes (alter (append_data (take k (b :: view))) fd) (directory w d)).
  { unfold w1. by rewrite directory_count, directory_on_same. }
  assert (Hs1 : same_but d w w1) by (eapply same_but_trans; [apply same_but_on|apply same_but_count]).
  destruct (IH (drop (k `min` length (b :: view)) (b :: view)) w1 (append_data (take k (b :: view)) n)) as (t & w' & Hrun & Hs & Hw' & Ht).
  { rewrite length_drop. cbn [length]. lia. }
  { rewrite Hd1. cbn. by rewrite lookup_alter_eq, Hn. }
  exists ([w1] ++ t), w'. split_and!.
  - cbn [write_all]. eapply run_bind; [reflexivity|]. fold k. destruct (Nat.eqb_spec (k `min` length (b :: view)) 0); [cbn in *; lia|]. exact Hrun.
  - by eapply same_but_trans.
  - rewrite Hw', Hd1. cbn [d_stat d_names d_inodes with_inodes]. f_equal.
    replace (append_data (drop _ _) _) with (append_data (b :: view) n).
    + apply map_eq. intros j. destruct (decide (j = fd)) as [->|Hj]; [by rewrite !lookup_insert_eq|].
      by rewrite !lookup_insert_ne, lookup_alter_ne by done.
    + destruct n as [g0 m0 u0 k0 data]. unfold append_data. cbn [in_data in_regular in_mode in_uid in_nlink]. f_equal. rewrite <- app_assoc. f_equal.
      destruct (Nat.le_ge_cases k (length (b :: view))) as [Hle|Hge].
      * rewrite Nat.min_l by done. by rewrite take_drop.
      * rewrite Nat.min_r by done. rewrite take_ge by done. by rewrite drop_all, app_nil_r.
  - assert (Hi1 : forall j, j <> fd -> d_inodes (directory w1 d) !! j = d_inodes (directory w d) !! j).
    { intros j Hj. rewrite Hd1. cbn. by rewrite lookup_alter_ne. }
    apply Forall_app. split; [apply Forall_singleton; split_and!; [done|by rewrite Hd1|done]|].
    eapply Forall_impl; [exact Ht|]. intros v (Hv1 & Hv2 & Hv3). split_and!; [by eapply same_but_trans|by rewrite Hv2, Hd1|].
    intros j Hj. by rewrite Hv3, Hi1.
Qed.

(** The temporary name of the next [publish_once]. *)
Definition next_temporary (w : World) : pystr := py ".tmp-" ++ hex_of_bytes (urandom (w_calls w) 16).

(** The directory with one complete new file. *)
Definition with_file (dest : pystr) (n : Inode) (x : Directory) : Directory :=
  mk_directory (d_stat x) (<[dest := next_inode x]> (d_names x)) (<[next_inode x := n]> (d_inodes x)).

(** No inode but the new one differs. *)
Definition same_inodes (x y : Directory) : Prop := forall j, j <> next_inode x -> d_inodes y !! j = d_inodes x !! j.

(** While its temporary exists: nothing else but the destination differs. *)
Definition publishing (temporary dest : pystr) (x y : Directory) : Prop :=
  is_Some (d_names y !! temporary) /\ same_inodes x y /\
  forall name, name <> temporary -> name <> dest -> d_names y !! name = d_names x !! name.

(** Creating the temporary, giving it its mode and writing the payload. *)
Lemma run_create temporary payload mode w :
  d_names (directory w d) !! temporary = None ->
  exists t1 w1 t2 w2,
    (forall A (K : Z -> IO A) t3 w3 r, K (next_inode (directory w d)) w1 = (t3, w3, r) ->
       (fd ← open_excl d temporary mode; fchmod d fd mode;; K fd) w = (t1 ++ t3, w3, r)) /\
    write_all (length payload) d (next_inode (directory w d)) payload w1 = (t2, w2, Ok tt) /\ same_but d w w2 /\
    directory w2 d = with_file temporary (mk_inode true mode geteuid 1 payload) (directory w d) /\
    Forall (fun v => same_but d w v /\ d_names (directory v d) = <[temporary := next_inode (directory w d)]> (d_names (directory w d)) /\
                     same_inodes (directory w d) (directory v d)) (t1 ++ t2).
Proof.
  intros Hnone. set (x := directory w d) in *. set (i := next_inode x).
  set (w1 := on d (with_inodes (insert i (mk_inode true (Z.ldiff mode umask) geteuid 1 [])) ∘ with_names (insert temporary i)) w).
  set (w2 := on d (with_inodes (alter (set_mode mode) i)) w1).
  assert (H1 : directory w1 d = with_file temporary (mk_inode true (Z.ldiff mode umask) geteuid 1 []) x)
    by (unfold w1; by rewrite directory_on_same).
  assert (H2 : directory w2 d = with_file temporary (mk_inode true mode geteuid 1 []) x).
  { unfold w2. rewrite directory_on_same, H1. unfold with_file, with_inodes. cbn. f_equal. apply map_eq. intros j.
    destruct (decide (j = i)) as [->|Hj]; [by rewrite lookup_alter_eq, !lookup_insert_eq|].
    by rewrite lookup_alter_ne, !lookup_insert_ne by done. }
  destruct (run_write_all (length payload) i payload w2 (mk_inode true mode geteuid 1 [])) as (t & w' & Hrun & Hs & Hw' & Ht);
    [done|by rewrite H2; cbn; rewrite lookup_insert_eq|].
  exists ([w1] ++ [w2]), w2, t, w'. split_and!.
  - intros A K t3 w3 r HK. rewrite <- app_assoc. eapply run_bind; [unfold open_excl; fold x; rewrite Hnone; reflexivity|].
    fold i w1. eapply run_bind; [reflexivity|exact HK].
  - exact Hrun.
  - eapply same_but_trans; [apply same_but_on|]. eapply same_but_trans; [apply same_but_on|]. done.
  - rewrite Hw', H2. unfold with_file. cbn. f_equal. by rewrite insert_insert_eq.
  - assert (Hsame : forall n, same_inodes x (with_file temporary n x)).
    { intros n j Hj. cbn. by rewrite lookup_insert_ne. }
    rewrite !Forall_app, !Forall_singleton. split_and!; [apply same_but_on|by rewrite H1|by rewrite H1|..].
    + eapply same_but_trans; apply same_but_on.
    + by rewrite H2.
    + by rewrite H2.
    + eapply Forall_impl; [exact Ht|]. intros v (Hv1 & Hv2 & Hv3). split_and!.
      * eapply same_but_trans; [apply same_but_on|]. eapply same_but_trans; [apply same_but_on|]. done.
      * by rewrite Hv2, H2.
      * intros j Hj. rewrite Hv3, H2 by done. by apply Hsame.
Qed.

Lemma run_unlink name w i n :
  d_names (directory w d) !! name = Some i -> d_inodes (directory w d) !! i = Some n ->
  exists w', unlink d name w = ([w'], w', Ok tt) /\ same_but d w w' /\
    directory w' d = mk_directory (d_stat (directory w d)) (delete name (d_names (directory w d)))
                       (<[i := add_links (-1) n]> (d_inodes (directory w d))).
Proof.
  intros Hi Hn. eexists. split; [unfold unlink; rewrite Hi; reflexivity|]. split; [apply same_but_on|].
  rewrite directory_on_same. unfold with_inodes, with_names. cbn. f_equal. apply map_eq. intros j.
  destruct (decide (j = i)) as [->|Hj]; [by rewrite lookup_alter_eq, lookup_insert_eq, Hn|].
  by rewrite lookup_alter_ne, lookup_insert_ne by done.
Qed.

Lemma unlink_missing name w : d_names (directory w d) !! name = None -> suppress_missing (unlink d name) w = ([], w, Ok tt).
Proof. intros Hn. apply run_suppress. unfold unlink. by rewrite Hn. Qed.

(** What [publish_once] leaves and passes through when the name is free. *)
Lemma run_publish dest payload mode w :
  d_names (directory w d) !! next_temporary w = None -> d_names (directory w d) !! dest = None -> dest <> next_temporary w ->
  let x' := with_file dest (mk_inode true mode geteuid 1 payload) (directory w d) in
  exists t w', publish_once d dest payload mode w = (t, w', Ok tt) /\ same_but d w w' /\ directory w' d = x' /\
    Forall (fun v => same_but d w v /\ (directory v d = directory w d \/
              publishing (next_temporary w) dest (directory w d) (directory v d) \/ directory v d = x')) t.
Proof.
  intros Htmp Hdest Hne x'. set (x := directory w d) in *. set (tmp := next_temporary w) in *. set (w0 := count_call w).
  assert (Hx0 : directory w0 d = x) by apply directory_count.
  destruct (run_create tmp payload mode w0) as (t1 & w1 & t2 & w2 & HK & Hw & Hs2 & Hd2 & Ht); [by rewrite Hx0|].
  rewrite Hx0 in HK, Hw, Hd2. set (i := next_inode x) in *. set (n := mk_inode true mode geteuid 1 payload) in *.
  set (w3 := on d (with_inodes (alter (add_links 1) i) ∘ with_names (insert dest i)) w2).
  assert (Hd3 : directory w3 d = mk_directory (d_stat x) (<[dest := i]> (<[tmp := i]> (d_names x)))
                                   (<[i := add_links 1 n]> (d_inodes x))).
  { unfold w3. rewrite directory_on_same, Hd2. unfold with_file, with_inodes, with_names. cbn. fold i. f_equal.
    apply map_eq. intros j. destruct (decide (j = i)) as [->|Hj]; [by rewrite lookup_alter_eq, !lookup_insert_eq|].
    by rewrite lookup_alter_ne, !lookup_insert_ne by done. }
  destruct (run_unlink tmp w3 i (add_links 1 n)) as (w4 & Hun & Hs4 & Hd4).
  { rewrite Hd3. cbn. by rewrite lookup_insert_ne, lookup_insert_eq by done. }
  { rewrite Hd3. cbn. by rewrite lookup_insert_eq. }
  assert (Hx4 : directory w4 d = x').
  { rewrite Hd4, Hd3. unfold x', with_file. cbn. fold i. f_equal.
    - rewrite delete_insert_ne, delete_insert_id by done. done.
    - by rewrite insert_insert_eq. }
  assert (Hs03 : same_but d w w3).
  { eapply same_but_trans; [apply same_but_count|]. eapply same_but_trans; [exact Hs2|apply same_but_on]. }
  exists ([w0] ++ ((t1 ++ (t2 ++ ([w3] ++ [w4]))) ++ [])), w4. split_and!.
  - unfold publish_once. eapply run_bind; [reflexivity|]. change (urandom (w_calls w) 16) with (urandom (w_calls w) 16).
    fold (next_temporary w). fold tmp. eapply run_finally.
    + apply (HK unit (fun fd => write_all (length payload) d fd payload;; finally _ _)).
      eapply run_bind; [exact Hw|]. eapply run_finally; [apply run_catch|exact Hun].
      unfold link. rewrite Hd2. cbn. rewrite lookup_insert_eq, lookup_insert_ne, Hdest by done. reflexivity.
    + apply unlink_missing. rewrite Hx4. unfold x'. cbn. by rewrite lookup_insert_ne by done.
  - by eapply same_but_trans.
  - done.
  - rewrite app_nil_r. apply Forall_app. split; [apply Forall_singleton; split; [apply same_but_count|by left]|].
    apply (Forall_impl _ (fun v => same_but d w v /\ (directory v d = x \/ publishing tmp dest x (directory v d) \/ directory v d = x'))) in Ht.
    2: { intros v (Hv1 & Hv2 & Hv3). rewrite Hx0 in Hv2, Hv3. split; [eapply same_but_trans; [apply same_but_count|done]|].
         right; left. split_and!; [rewrite Hv2, lookup_insert_eq; by eexists|done|].
         intros name Hname _. by rewrite Hv2, lookup_insert_ne. }
    apply Forall_app in Ht as [Ht1 Ht2]. rewrite !Forall_app, !Forall_singleton. split_and!; try done.
    + right; left. rewrite Hd3. split_and!; cbn.
      * rewrite lookup_insert_ne, lookup_insert_eq by done. by eexists.
      * intros j Hj. cbn. by rewrite lookup_insert_ne.
      * intros name Hn1 Hn2. by rewrite !lookup_insert_ne by done.
    + by eapply same_but_trans.
    + by right; right.
Qed.

(** When the name is taken, the temporary is written and removed again. *)
Lemma run_publish_taken dest payload mode w :
  d_names (directory w d) !! next_temporary w = None -> is_Some (d_names (directory w d) !! dest) ->
  let x := directory w d in
  exists t w', publish_once d dest payload mode w = (t, w', Ok tt) /\ same_but d w w' /\
    d_stat (directory w' d) = d_stat x /\ d_names (directory w' d) = d_names x /\ same_inodes x (directory w' d) /\
    Forall (fun v => same_but d w v /\ (directory v d = x \/ publishing (next_temporary w) dest x (directory v d) \/ v = w')) t.
Proof.
  intros Htmp [j Hdest] x. set (tmp := next_temporary w) in *. set (w0 := count_call w).
  assert (Hx0 : directory w0 d = x) by apply directory_count. fold x in Htmp, Hdest.
  assert (Hne : dest <> tmp) by congruence.
  destruct (run_create tmp payload mode w0) as (t1 & w1 & t2 & w2 & HK & Hw & Hs2 & Hd2 & Ht); [by rewrite Hx0|].
  rewrite Hx0 in HK, Hw, Hd2. set (i := next_inode x) in *. set (n := mk_inode true mode geteuid 1 payload) in *.
  destruct (run_unlink tmp w2 i n) as (w4 & Hun & Hs4 & Hd4).
  { rewrite Hd2. cbn. by rewrite lookup_insert_eq. }
  { rewrite Hd2. cbn. by rewrite lookup_insert_eq. }
  assert (Hn4 : d_names (directory w4 d) = d_names x).
  { rewrite Hd4, Hd2. cbn. by rewrite delete_insert_id. }
  exists ([w0] ++ ((t1 ++ (t2 ++ ([] ++ [w4]))) ++ [])), w4. split_and!.
  - unfold publish_once. eapply run_bind; [reflexivity|]. fold (next_temporary w). fold tmp. eapply run_finally.
    + apply (HK unit (fun fd => write_all (length payload) d fd payload;; finally _ _)).
      eapply run_bind; [exact Hw|]. eapply run_finally; [|exact Hun].
      unfold catch, link. rewrite Hd2. cbn. rewrite lookup_insert_eq, lookup_insert_ne, Hdest by done. reflexivity.
    + apply unlink_missing. by rewrite Hn4.
  - eapply same_but_trans; [apply same_but_count|]. by eapply same_but_trans.
  - by rewrite Hd4, Hd2.
  - done.
  - intros k Hk. rewrite Hd4, Hd2. cbn. by rewrite !lookup_insert_ne.
  - rewrite app_nil_r. apply Forall_app. split; [apply Forall_singleton; split; [apply same_but_count|by left]|].
    apply (Forall_impl _ (fun v => same_but d w v /\ (directory v d = x \/ publishing tmp dest x (directory v d) \/ v = w4))) in Ht.
    2: { intros v (Hv1 & Hv2 & Hv3). rewrite Hx0 in Hv2, Hv3. split; [eapply same_but_trans; [apply same_but_count|done]|].
         right; left. split_and!; [rewrite Hv2, lookup_insert_eq; by eexists|done|].
         intros name Hname _. by rewrite Hv2, lookup_insert_ne. }
    apply Forall_app in Ht as [Ht1 Ht2]. rewrite !Forall_app, !Forall_singleton. cbn [app]. split_and!; try done.
    + eapply same_but_trans; [apply same_but_count|]. by eapply same_but_trans.
    + by right; right.
Qed.

(** ** What a publication leaves alone *)

Definition same_file (name : pystr) (x y : Directory) : Prop := inode_at y name = inode_at x name.

Lemma same_file_inodes x y name :
  dir_ok x -> same_inodes x y -> d_names y !! name = d_names x !! name -> same_file name x y.
Proof.
  intros Hok Hi Hn. unfold same_file, inode_at. rewrite Hn. destruct (d_names x !! name) as [j|] eqn:Ej; [cbn|done].
  apply Hi. intros ->. destruct (Hok _ _ Ej) as [n Hn']. by rewrite next_inode_fresh in Hn'.
Qed.

(** Publishing under a name, free or taken, is harmless to the other files. *)
Lemma run_publish_other dest payload mode w :
  dir_ok (directory w d) -> d_names (directory w d) !! next_temporary w = None -> dest <> next_temporary w ->
  exists t w', publish_once d dest payload mode w = (t, w', Ok tt) /\
    d_stat (directory w' d) = d_stat (directory w d) /\ dir_ok (directory w' d) /\
    (forall name, d_names (directory w d) !! name = None -> name <> dest -> d_names (directory w' d) !! name = None) /\
    Forall (fun v => same_but d w v /\
              forall name, name <> dest -> name <> next_temporary w -> same_file name (directory w d) (directory v d)) (t ++ [w']).
Proof.
  intros Hok Htmp Hne. set (x := directory w d) in *.
  assert (Hpub : forall y, publishing (next_temporary w) dest x y ->
    forall name, name <> dest -> name <> next_temporary w -> same_file name x y).
  { intros y (_ & Hi & Hn) name Hd Ht. by apply same_file_inodes; [..|apply Hn]. }
  destruct (d_names x !! dest) as [j|] eqn:Edest.
  - destruct (run_publish_taken dest payload mode w Htmp) as (t & w' & Hrun & Hs & Hst & Hn & Hi & Ht); [fold x; eauto|].
    fold x in Hst, Hn, Hi, Ht. assert (Hfin : forall name, same_file name x (directory w' d)).
    { intros name. apply same_file_inodes; [done..|]. by rewrite Hn. }
    exists t, w'. split_and!; [done..| | |].
    + intros name k Hk. rewrite Hn in Hk. destruct (Hok _ _ Hk) as [n Hk']. rewrite Hi; [by eexists|].
      intros ->. by rewrite next_inode_fresh in Hk'.
    + intros name Hnone _. by rewrite Hn.
    + apply Forall_app. split; [|apply Forall_singleton; auto]. eapply Forall_impl; [exact Ht|].
      intros v [Hv1 [Hv2|[Hv2| ->]]]; (split; [done|]); [by rewrite Hv2|by apply Hpub|auto].
  - destruct (run_publish dest payload mode w Htmp Edest Hne) as (t & w' & Hrun & Hs & Hd & Ht). fold x in Hd, Ht.
    assert (Hfin : forall name, name <> dest -> same_file name x (directory w' d)).
    { intros name Hname. apply same_file_inodes; [done|rewrite Hd; intros k Hk; cbn; by rewrite lookup_insert_ne|].
      rewrite Hd. cbn. by rewrite lookup_insert_ne. }
    exists t, w'. split_and!; [done|by rewrite Hd|..].
    + rewrite Hd. intros name k Hk. cbn in *. destruct (decide (k = next_inode x)) as [->|Hk']; [rewrite lookup_insert_eq; by eexists|].
      apply lookup_insert_Some in Hk as [[_ ?]|[_ Hk]]; [done|]. rewrite lookup_insert_ne by done. by eapply Hok.
    + intros name Hnone Hname. rewrite Hd. cbn. by rewrite lookup_insert_ne.
    + apply Forall_app. split; [|apply Forall_singleton; split; [done|]; intros; by apply Hfin]. eapply Forall_impl; [exact Ht|].
      intros v [Hv1 [Hv2|[Hv2|Hv2]]]; (split; [done|]); intros name Hn1 Hn2;
        [by rewrite Hv2|by apply Hpub|unfold same_file; rewrite Hv2, <- Hd; by apply Hfin].
Qed.
End Exact.
