(* ===== verification/KeySafety.v ===== *)
(** * KeySafety: destroyed keys stay destroyed

    No operation of the key provider, of the purge requester, of the broker or
    of the ledger removes or rewrites a ledger record, wherever it is killed;
    so once the ledger reports a key destroyed, no later run hands the key out
    or provisions it again, whatever backup of the provider is restored. *)

From stdpp Require Import base tactics option list gmap strings.
From Stdlib Require Import ZArith Lia Bool.
From S2P Require Import Prelude Identifiers CanonicalJson Digest Text JsonParse Archive Disk DestructionLedger KeyProvider DiskFacts.
Open Scope Z_scope.

Definition ledger_name (name : pystr) : Prop := startswith (py "destroyed-") name = true.

(** Every ledger record of [w0] is in [w]. *)
Definition kept (w0 w : World) : Prop := keeps ledger_name (w_ledger w0) (w_ledger w).

Lemma kept_refl w : dir_ok (w_ledger w) -> kept w w.
Proof. apply keeps_refl. Qed.
Lemma kept_trans w1 w2 w3 : kept w1 w2 -> kept w2 w3 -> kept w1 w3.
Proof. apply keeps_trans. Qed.

Lemma ledger_name_entry k : ledger_name (entry_name k).
Proof. reflexivity. Qed.

Section Kept.
Context `{Rfc8785} `{Interpreter} `{Kernel} (w0 : World).

Lemma kept_frame d : d <> LEDGER -> frame (kept w0) d.
Proof.
  intros Hd. split.
  - intros f w Hw. unfold kept in *. change (w_ledger (on d f w)) with (directory (on d f w) LEDGER).
    by rewrite directory_on, decide_False.
  - intros w Hw. by destruct w.
Qed.

Lemma kept_publish d dest payload mode w : kept w0 w -> all_worlds (kept w0) (publish_once d dest payload mode) w.
Proof.
  intros Hw. destruct (decide (d = LEDGER)) as [->|Hd].
  - apply (keeps_publish ledger_name (w_ledger w0) LEDGER); [|done]. intros s. unfold ledger_name. cbn. discriminate.
  - apply frame_publish; [by apply kept_frame|done].
Qed.
Lemma kept_unlink d name w : d <> LEDGER -> kept w0 w -> all_worlds (kept w0) (unlink d name) w.
Proof. intros Hd. apply frame_unlink. by apply kept_frame. Qed.
Lemma kept_draw n w : kept w0 w -> all_worlds (kept w0) (draw n) w.
Proof. apply (frame_draw _ CONTROL). by apply kept_frame. Qed.

Ltac keep :=
  repeat first
    [ progress walk
    | match goal with
      | |- all_worlds _ (unlink _ _) _ => apply kept_unlink; [discriminate|assumption]
      | |- all_worlds _ (publish_once _ _ _ _) _ => apply kept_publish; assumption
      | |- all_worlds _ (draw _) _ => apply kept_draw; assumption
      end
    | solve [eauto 2 with worlds] ].

Lemma kept_replace_anchor a w : kept w0 w -> all_worlds (kept w0) (replace_anchor a) w.
Proof.
  intros Hw. unfold replace_anchor, anchor_published. pose proof (kept_frame ANCHORS ltac:(done)) as Hf. keep.
  apply all_finally; [|intros v Hv; keep].
  apply all_bind; [by apply frame_open_excl|]. intros. apply all_bind; [by apply frame_effect|]. intros.
  keep; [by apply frame_write_all|by apply frame_replace].
Qed.
Lemma kept_history a w : kept w0 w -> all_worlds (kept w0) (publish_anchor_history_once a) w.
Proof. intros Hw. unfold publish_anchor_history_once. keep. Qed.
Hint Resolve kept_replace_anchor kept_history : worlds.

Lemma kept_record accepted entry w : kept w0 w -> all_worlds (kept w0) (record_entry accepted entry) w.
Proof. intros Hw. unfold record_entry, append_entry. keep. Qed.
Lemma kept_recover a entries uid w : kept w0 w -> all_worlds (kept w0) (recover_pending_append a entries uid) w.
Proof. intros Hw. unfold recover_pending_append. keep. Qed.
Lemma kept_initialize uid w : kept w0 w -> all_worlds (kept w0) (initialize_empty_anchor uid) w.
Proof. intros Hw. unfold initialize_empty_anchor, publish_anchor_once, anchor_published. keep. Qed.
Lemma kept_lookup accepted k w : kept w0 w -> all_worlds (kept w0) (lookup_entry accepted k) w.
Proof. intros Hw. unfold lookup_entry. keep. Qed.
Lemma kept_entries accepted w : kept w0 w -> all_worlds (kept w0) (all_entries accepted) w.
Proof. intros Hw. unfold all_entries. keep. Qed.
Lemma kept_require_current accepted w : kept w0 w -> all_worlds (kept w0) (require_current_anchor accepted) w.
Proof. intros Hw. unfold require_current_anchor. keep. Qed.
Hint Resolve kept_record kept_recover kept_initialize kept_lookup kept_entries kept_require_current : worlds.

Lemma kept_open_ledger accepted uid w : kept w0 w -> all_worlds (kept w0) (open_ledger accepted uid) w.
Proof. intros Hw. unfold open_ledger. keep. Qed.
Hint Resolve kept_open_ledger : worlds.
Lemma kept_open_writer accepted uid w : kept w0 w -> all_worlds (kept w0) (open_ledger_writer accepted uid) w.
Proof. intros Hw. unfold open_ledger_writer. keep. Qed.
Lemma kept_finish k w : kept w0 w -> all_worlds (kept w0) (finish_destruction k) w.
Proof. intros Hw. unfold finish_destruction. keep. Qed.
Lemma kept_publish_control d name state i receipt w :
  kept w0 w -> all_worlds (kept w0) (publish_control d name state i receipt) w.
Proof. intros Hw. unfold publish_control. keep. Qed.
Hint Resolve kept_open_writer kept_finish kept_publish_control : worlds.
Lemma kept_apply e w : kept w0 w -> all_worlds (kept w0) (apply_ledger_entry e) w.
Proof. intros Hw. unfold apply_ledger_entry. keep. Qed.
Hint Resolve kept_apply : worlds.
Lemma kept_reconcile accepted w : kept w0 w -> all_worlds (kept w0) (reconcile_ledger accepted) w.
Proof. intros Hw. unfold reconcile_ledger. keep. Qed.
Lemma kept_consistency accepted w : kept w0 w -> all_worlds (kept w0) (validate_consistency accepted) w.
Proof. intros Hw. unfold validate_consistency. keep. Qed.
Hint Resolve kept_reconcile kept_consistency : worlds.
Lemma kept_open_destroyer accepted uid material w :
  kept w0 w -> all_worlds (kept w0) (open_destroyer accepted uid material) w.
Proof. intros Hw. unfold open_destroyer. keep. Qed.
Lemma kept_destroy accepted reference request w :
  kept w0 w -> all_worlds (kept w0) (destroy_key accepted reference request) w.
Proof. intros Hw. unfold destroy_key, destroy_active. keep. Qed.
Hint Resolve kept_open_destroyer kept_destroy : worlds.
Lemma kept_open_provider accepted read_only uid w :
  kept w0 w -> all_worlds (kept w0) (open_provider accepted read_only uid) w.
Proof. intros Hw. unfold open_provider. keep. Qed.
Lemma kept_refuse_tombstone k w : kept w0 w -> all_worlds (kept w0) (refuse_tombstone k) w.
Proof. intros Hw. unfold refuse_tombstone. keep. Qed.
Hint Resolve kept_refuse_tombstone : worlds.
Lemma kept_ensure_material k w : kept w0 w -> all_worlds (kept w0) (ensure_material k) w.
Proof. intros Hw. unfold ensure_material. keep. Qed.
Lemma kept_refuse_destroyed {A} read_only fact (m : IO A) w :
  kept w0 w -> all_worlds (kept w0) m w -> all_worlds (kept w0) (refuse_destroyed read_only fact m) w.
Proof. intros Hw Hm. unfold refuse_destroyed. destruct fact; [keep|done]. Qed.
Hint Resolve kept_ensure_material : worlds.
Ltac refuse := match goal with |- all_worlds _ (refuse_destroyed _ _ _) _ => apply kept_refuse_destroyed; [assumption|] end.

Lemma kept_provision accepted read_only i w : kept w0 w -> all_worlds (kept w0) (provision_key accepted read_only i) w.
Proof. intros Hw. unfold provision_key. repeat first [progress keep|refuse]. Qed.
Lemma kept_get accepted read_only r w : kept w0 w -> all_worlds (kept w0) (get_key accepted read_only r) w.
Proof. intros Hw. unfold get_key. repeat first [progress keep|refuse]. Qed.
Lemma kept_restored accepted uid w : kept w0 w -> all_worlds (kept w0) (reconcile_restored_provider accepted uid) w.
Proof. intros Hw. unfold reconcile_restored_provider. keep. Qed.
Lemma kept_request accepted r w : kept w0 w -> all_worlds (kept w0) (request_destruction_of accepted r) w.
Proof. intros Hw. unfold request_destruction_of, require_anchor, ledger_anchor, require_completed. keep. Qed.
Lemma kept_open_requester accepted uid w : kept w0 w -> all_worlds (kept w0) (open_requester accepted uid) w.
Proof. intros Hw. unfold open_requester. keep. Qed.
Lemma kept_broker accepted uid w : kept w0 w -> all_worlds (kept w0) (reconcile_requests accepted uid) w.
Proof. intros Hw. unfold reconcile_requests, carry_out. keep. Qed.
End Kept.

(** ** Runs *)

Definition result_of {A} (m : IO A) (w : World) : result A := (m w).2.

(** A program that only reads. *)
Definition pure_at {A} (m : IO A) (w : World) : Prop := (m w).1 = ([], w).

Lemma pure_run {A} (m : IO A) w : pure_at m w -> m w = ([], w, result_of m w).
Proof. unfold pure_at, result_of. intros E. destruct (m w) as [[t w'] r]. cbn in *. by simplify_eq. Qed.

Lemma bind_pure {A B} (m : IO A) (f : A -> IO B) w :
  pure_at m w -> (m ≫= f) w = match result_of m w with Ok a => f a w | Err e => ([], w, Err e) end.
Proof.
  intros Hp. unfold mbind, io_bind. rewrite (pure_run m w Hp). destruct (result_of m w) as [a|e]; [|done].
  by destruct (f a w) as [[t w'] r].
Qed.

Lemma pure_reads {A} (f : World -> result A) w : pure_at (reads f) w.
Proof. done. Qed.
Lemma pure_bind {A B} (m : IO A) (f : A -> IO B) w :
  pure_at m w -> (forall a, pure_at (f a) w) -> pure_at (m ≫= f) w.
Proof. intros Hm Hf. unfold pure_at. rewrite (bind_pure m f w Hm). destruct (result_of m w); [apply Hf|done]. Qed.
Lemma pure_errors {A} (m : IO A) w : pure_at m w -> pure_at (key_provider_errors m) w.
Proof. intros Hm. unfold pure_at, key_provider_errors, catch. rewrite (pure_run m w Hm). by destruct (result_of m w). Qed.

Lemma errors_result {A} (m : IO A) w :
  result_of (key_provider_errors m) w = match result_of m w with Ok a => Ok a | Err _ => Err KeyProviderError end.
Proof. unfold result_of, key_provider_errors, catch. destruct (m w) as [[t w'] [a|e]]; done. Qed.

Lemma result_reads_bind {A B} (f : World -> result A) (g : A -> IO B) w :
  result_of (reads f ≫= g) w = a ← f w; result_of (g a) w.
Proof. unfold result_of. rewrite (bind_pure _ _ _ (pure_reads f w)). unfold result_of. cbn. by destruct (f w). Qed.

Section Runs.
Context `{Rfc8785} `{Interpreter} `{Kernel}.

Lemma pure_lookup accepted k w : pure_at (lookup_entry accepted k) w.
Proof. apply pure_errors. repeat (apply pure_bind; [apply pure_reads|intros ?]). apply pure_reads. Qed.

(** A refused fact ends in an error, whatever was to follow. *)
Lemma refuse_destroyed_raises {A} read_only e (m : IO A) w : exists x, result_of (refuse_destroyed read_only (Some e) m) w = Err x.
Proof.
  unfold result_of, refuse_destroyed, mbind, io_bind.
  destruct ((if read_only then mret tt else apply_ledger_entry e) w) as [[t w'] [[]|x]]; cbn; eauto.
Qed.

(** What a lookup that succeeds has read. *)
Lemma lookup_result accepted k w :
  result_of (lookup_entry accepted k) w =
  or_raise (require_uuid7 k;;
            raise_if (ds_symlink (d_stat (w_ledger w)) || negb (ds_isdir (d_stat (w_ledger w)))) OSError;;
            require_current_anchor_locked accepted w;;
            match read_record (w_ledger w) (entry_name k) with
            | Ok r => Ok (Some (lr_entry r))
            | Err FileNotFoundError => Ok None
            | Err e => Err e
            end) KeyProviderError.
Proof.
  unfold lookup_entry. rewrite errors_result. unfold open_directory. rewrite !result_reads_bind. cbn [directory].
  unfold or_raise. f_equal.
Qed.

Lemma lookup_found accepted k w e :
  result_of (lookup_entry accepted k) w = Ok (Some e) ->
  exists n r, inode_at (w_ledger w) (entry_name k) = Some n /\
    read_record (w_ledger w) (entry_name k) = Ok r /\ lr_entry r = e.
Proof.
  rewrite lookup_result. intros Hr. apply or_raise_Ok in Hr.
  apply bind_Ok in Hr as (? & _ & Hr). apply bind_Ok in Hr as (? & _ & Hr). apply bind_Ok in Hr as (? & _ & Hr).
  destruct (read_record (w_ledger w) (entry_name k)) as [r|[]] eqn:E; simplify_eq.
  unfold read_record, read_bounded_file in E. rewrite bind_Ok in E. destruct E as (raw & E & _).
  apply bind_Ok in E as (n & E%from_option_or_Ok & _). eauto.
Qed.

Lemma read_bounded_data missing x name mode maximum uid raw :
  read_bounded_file missing x name mode maximum uid = Ok raw ->
  exists n, inode_at x name = Some n /\ raw = in_data n.
Proof. unfold read_bounded_file. intros Hr. apply bind_Ok in Hr as (n & Hn%from_option_or_Ok & Hr). inv_ok. eauto. Qed.

Lemma read_record_same x y name n n' r r' :
  inode_at x name = Some n -> inode_at y name = Some n' -> in_data n' = in_data n ->
  read_record x name = Ok r -> read_record y name = Ok r' -> r' = r.
Proof.
  intros Hx Hy Hd Hr Hr'. unfold read_record in Hr, Hr'. apply bind_Ok in Hr as (raw & Hraw & Hr).
  apply bind_Ok in Hr' as (raw' & Hraw' & Hr'). apply read_bounded_data in Hraw as (m & Hm & ->).
  apply read_bounded_data in Hraw' as (m' & Hm' & ->). simplify_eq. rewrite Hd in Hr'. congruence.
Qed.

(** Only opening the file raises [FileNotFoundError]. *)
Definition not_missing {A} (r : result A) : Prop := r <> Err FileNotFoundError.

Lemma not_missing_bind {A B} (r : result A) (f : A -> result B) :
  not_missing r -> (forall a, not_missing (f a)) -> not_missing (r ≫= f).
Proof. unfold not_missing. destruct r; cbn; intros Hr Hf; [apply Hf|]. congruence. Qed.

Lemma not_missing_parse raw : not_missing (parse_json_strict raw).
Proof.
  unfold parse_json_strict. apply not_missing_bind; [by destruct (utf8_decode raw)|]. intros source Hs.
  apply parse_json_source_fails in Hs as [[m Hm]|[Hm|[Hm _]]]; congruence.
Qed.
Lemma not_missing_canonical v : not_missing (canonical_plain_bytes v).
Proof.
  unfold canonical_plain_bytes, normalize_plain. destruct (json_okb _ v); [|done]. cbn.
  by destruct (rfc8785_dumps v).
Qed.
Lemma not_missing_uuid v : not_missing (uuid_item v).
Proof.
  unfold uuid_item, text_item. destruct v as [[]|]; cbn; try done. destruct (uuid_of_str s) as [u|]; [cbn|done].
  unfold require_uuid7. by destruct (is_uuid7 u).
Qed.
Lemma not_missing_entry e : not_missing (construct validate_entry e).
Proof.
  unfold construct, validate_entry, require_uuid7. destruct e as [k t l m r]. cbn.
  destruct (is_uuid7 k), (is_uuid7 t), (is_uuid7 l), (is_uuid7 m); cbn; try done. by destruct (_ =? _).
Qed.

Lemma read_record_present x name n : inode_at x name = Some n -> not_missing (read_record x name).
Proof.
  intros Hn. unfold read_record. apply not_missing_bind.
  { unfold read_bounded_file. rewrite Hn. cbn. by destruct (_ || _). }
  intros raw. apply not_missing_bind; [apply not_missing_parse|]. intros [| | | | | |l]; try done.
  assert (Ht : forall v, not_missing (text_item v)) by by intros [[]|].
  assert (Hi : forall v, not_missing (integer_item v)) by by intros [[]|].
  assert (Hr : forall c s, not_missing (raise_if c (ValueError s))) by by intros [].
  assert (Hd : forall m, not_missing (digest_of m)).
  { intros m Hm. unfold digest_of in Hm. pose proof (not_missing_canonical (JObject m)). unfold not_missing in *.
    destruct (canonical_plain_bytes (JObject m)); cbn in *; congruence. }
  repeat (apply not_missing_bind; [by auto using not_missing_canonical, not_missing_uuid, not_missing_entry|intros ?]).
  apply not_missing_bind.
  { unfold canonical_base64. apply not_missing_bind; [done|]. intros s. destruct (b64decode s); cbn; [|done]. by destruct (_ || _). }
  intros receipt. apply not_missing_bind; [apply not_missing_entry|]. intros e. by apply not_missing_bind.
Qed.

(** A fact of the ledger is reported as it was, or the ledger is refused. *)
Lemma lookup_kept w w' accepted accepted' k e :
  kept w w' -> result_of (lookup_entry accepted k) w = Ok (Some e) ->
  result_of (lookup_entry accepted' k) w' = Ok (Some e) \/ result_of (lookup_entry accepted' k) w' = Err KeyProviderError.
Proof.
  intros Hk (n & r & Hn & Hr & He)%lookup_found. destruct (keeps_data _ _ _ _ _ Hk (ledger_name_entry k) Hn) as (n' & Hn' & Hd).
  rewrite lookup_result. destruct (require_uuid7 k); [|by right]. destruct (raise_if _ _); [|by right].
  destruct (require_current_anchor_locked accepted' w'); [|by right]. cbn [mbind result_bind].
  destruct (read_record (w_ledger w') (entry_name k)) as [r'|x] eqn:Hr'.
  - left. cbn. rewrite (read_record_same _ _ _ _ _ _ _ Hn Hn' Hd Hr Hr'). by rewrite He.
  - right. destruct x; try done. by destruct (read_record_present _ _ _ Hn' Hr').
Qed.

(** ** Everything that can happen to a deployment *)

(** An operation runs to its end or is killed on the way, or the provider's
    directories and the requests are replaced by others, as restoring a backup
    does.  The ledger and its anchor are not part of that backup. *)
Inductive key_step (w : World) : World -> Prop :=
| step_provision accepted read_only i w' : w' ∈ outcomes (provision_key accepted read_only i) w -> key_step w w'
| step_get accepted read_only r w' : w' ∈ outcomes (get_key accepted read_only r) w -> key_step w w'
| step_destroy accepted r request w' : w' ∈ outcomes (destroy_key accepted r request) w -> key_step w w'
| step_request accepted r w' : w' ∈ outcomes (request_destruction_of accepted r) w -> key_step w w'
| step_broker accepted uid w' : w' ∈ outcomes (reconcile_requests accepted uid) w -> key_step w w'
| step_record accepted e w' : w' ∈ outcomes (record_entry accepted e) w -> key_step w w'
| step_recover accepted entries uid w' : w' ∈ outcomes (recover_pending_append accepted entries uid) w -> key_step w w'
| step_initialize uid w' : w' ∈ outcomes (initialize_empty_anchor uid) w -> key_step w w'
| step_open_provider accepted read_only uid w' : w' ∈ outcomes (open_provider accepted read_only uid) w -> key_step w w'
| step_open_destroyer accepted uid m w' : w' ∈ outcomes (open_destroyer accepted uid m) w -> key_step w w'
| step_restored accepted uid w' : w' ∈ outcomes (reconcile_restored_provider accepted uid) w -> key_step w w'
| step_restore w' : w_ledger w' = w_ledger w -> w_anchors w' = w_anchors w -> key_step w w'.

Lemma kept_outcome {A} (m : IO A) w w' : all_worlds (kept w) m w -> w' ∈ outcomes m w -> kept w w'.
Proof. unfold all_worlds. rewrite Forall_forall. auto. Qed.

Lemma key_step_kept w w' : dir_ok (w_ledger w) -> key_step w w' -> kept w w'.
Proof.
  intros Hok Hs. pose proof (kept_refl w Hok) as Hw. destruct Hs as [| | | | | | | | | | |w' El Ea].
  12: unfold kept; rewrite El; by apply keeps_refl.
  all: eapply kept_outcome; [|done].
  - by apply kept_provision.
  - by apply kept_get.
  - by apply kept_destroy.
  - by apply kept_request.
  - by apply kept_broker.
  - by apply kept_record.
  - by apply kept_recover.
  - by apply kept_initialize.
  - by apply kept_open_provider.
  - by apply kept_open_destroyer.
  - by apply kept_restored.
Qed.

Lemma key_steps_kept w w' : dir_ok (w_ledger w) -> rtc key_step w w' -> kept w w'.
Proof.
  intros Hok Hs. induction Hs as [w|w v w' Hs _ IH]; [by apply kept_refl|].
  pose proof (key_step_kept _ _ Hok Hs) as Hk. eapply kept_trans; [exact Hk|]. apply IH. apply Hk.
Qed.

(** ** Keys the ledger reports are refused *)

Definition fails_at {A} (m : IO A) (w : World) : Prop := exists e, result_of m w = Err e.

Lemma fails_errors {A} (m : IO A) w : fails_at m w -> result_of (key_provider_errors m) w = Err KeyProviderError.
Proof. intros [e He]. by rewrite errors_result, He. Qed.

Lemma io_fails_bind {A B} (m : IO A) (f : A -> IO B) w :
  pure_at m w -> (forall a, result_of m w = Ok a -> fails_at (f a) w) -> fails_at (m ≫= f) w.
Proof.
  intros Hp Hf. unfold fails_at, result_of at 1. rewrite (bind_pure m f w Hp).
  destruct (result_of m w) as [a|e]; [by apply Hf|]. by eexists.
Qed.

(** The ledger has a fact about the key, or cannot be used. *)
Definition reported (accepted : option DestructionLedgerAnchor) (k : UUID) (w : World) : Prop :=
  forall fact, result_of (lookup_entry accepted k) w = Ok fact -> is_Some fact.

Lemma fails_lookup {A} accepted k read_only (m : IO A) w :
  reported accepted k w -> fails_at (fact ← lookup_entry accepted k; refuse_destroyed read_only fact m) w.
Proof.
  intros Hr. apply io_fails_bind; [apply pure_lookup|]. intros fact Hf. destruct (Hr _ Hf) as [e ->]. apply refuse_destroyed_raises.
Qed.

Lemma get_key_refused accepted read_only r k w :
  reference_id r = Ok k -> reported accepted k w -> result_of (get_key accepted read_only r) w = Err KeyProviderError.
Proof.
  intros Hr Hl. apply fails_errors. apply io_fails_bind; [apply pure_reads|]. intros k' Hk'. unfold result_of in Hk'. cbn in Hk'.
  rewrite Hr in Hk'. injection Hk' as <-. do 2 (apply io_fails_bind; [apply pure_reads|]; intros _ _). by apply fails_lookup.
Qed.

Lemma provision_key_refused accepted read_only i w :
  reported accepted (ki_content_key_id i) w -> result_of (provision_key accepted read_only i) w = Err KeyProviderError.
Proof.
  intros Hl. apply fails_errors. do 4 (apply io_fails_bind; [apply pure_reads|]; intros ? _). by apply fails_lookup.
Qed.
End Runs.

(** ** Properties *)

(** C17: a destroyed key never comes back.  Once the ledger reports a key
    destroyed, then after any sequence of operations of the provider, the
    requester, the broker and the ledger, each completed or killed at any
    system call, and of restored provider backups, the ledger still reports
    the same fact or is refused as a whole; the key is not handed out and not
    provisioned again, under whatever reference, anchor and mode of access. *)
Theorem destroyed_key_never_returns `{Rfc8785} `{Interpreter} `{Kernel} (w w' : World)
    (accepted accepted' : option DestructionLedgerAnchor) (k : UUID) (e : DestructionLedgerEntry) (read_only : bool)
    (r : ContentKeyReference) (i : KeyIdentity) :
  dir_ok (w_ledger w) -> result_of (lookup_entry accepted k) w = Ok (Some e) -> rtc key_step w w' ->
  reference_id r = Ok k -> ki_content_key_id i = k ->
  (result_of (lookup_entry accepted' k) w' = Ok (Some e) \/
   result_of (lookup_entry accepted' k) w' = Err KeyProviderError) /\
  result_of (get_key accepted' read_only r) w' = Err KeyProviderError /\
  result_of (provision_key accepted' read_only i) w' = Err KeyProviderError.
Proof.
  intros Hok Hl Hs Hr Hi. pose proof (lookup_kept _ _ _ accepted' _ _ (key_steps_kept _ _ Hok Hs) Hl) as Hk.
  assert (Hrep : reported accepted' k w') by (intros fact Hf; destruct Hk as [Hk|Hk]; rewrite Hk in Hf; by simplify_eq).
  split_and!; [done|by eapply get_key_refused|]. apply provision_key_refused. by rewrite Hi.
Qed.
