(* ===== verification/LedgerChain.v ===== *)
(** * LedgerChain: the anchor determines the ledger

    What the ledger relies on of the RFC 8785 serializer ([Rfc8785Laws]: its
    output does not depend on the order of members and, for a value without
    floating-point numbers, reads back as the value), what a record that was read satisfies, and the proof that equal
    digests mean equal histories. *)

From stdpp Require Import base tactics option list gmap strings.
From Stdlib Require Import ZArith Lia Bool.
From S2P Require Import Prelude Identifiers CanonicalJson Digest Text JsonParse Archive ArchiveTheorems Disk DestructionLedger DiskFacts KeySafety.
Open Scope Z_scope.

(** ** The serializer *)

(** A value without floating-point numbers: the only numbers that the
    serializer and the strict reader spell differently. *)
Fixpoint json_whole (v : JsonValue) : bool :=
  match v with
  | JFloat _ => false
  | JArray l => forallb json_whole l
  | JObject l => forallb (fun '(_, x) => json_whole x) l
  | _ => true
  end.

Class Rfc8785Laws `{Rfc8785} `{Interpreter} : Prop := {
  rfc_order v v' : json_okb (S MAX_CANONICAL_JSON_DEPTH) v = true -> json_equiv v v' ->
    rfc8785_dumps v = rfc8785_dumps v';
  rfc_reads v b : json_okb (S MAX_CANONICAL_JSON_DEPTH) v = true -> json_whole v = true -> rfc8785_dumps v = Some b ->
    exists v', parse_json_strict b = Ok v' /\ json_equiv v v'
}.

Lemma Forall_perm_equiv {A} (P : A -> Prop) (R : A -> A -> Prop) l l1 l' :
  (forall a b, a ∈ l -> R a b -> P a -> P b) -> l ≡ₚ l1 -> Forall2 R l1 l' -> Forall P l -> Forall P l'.
Proof.
  intros HR Hp Hf HP. apply Forall_forall. intros b Hb. apply list_elem_of_lookup in Hb as (i & Hi).
  destruct (Forall2_lookup_r _ _ _ _ _ Hf Hi) as (a & Ha & Hab). apply list_elem_of_lookup_2 in Ha. rewrite <- Hp in Ha.
  eapply HR; [done..|]. by eapply Forall_forall in HP.
Qed.

(** The profile does not depend on the order of members. *)
Lemma json_ok_equiv fuel v v' : json_ok fuel v -> json_equiv v v' -> json_ok fuel v'.
Proof.
  revert v v'. induction fuel as [|fuel IH]; intros v v' Hv He; [done|]. inversion He as [|l l' Hf|l l1 l' Hn Hp Hf]; subst; [done|..].
  - cbn [json_ok] in *. clear He. induction Hf as [|a b l l' Hab _ IHl]; [done|]. inversion Hv; subst. constructor; eauto.
  - cbn [json_ok] in *. destruct Hv as [Hv Hd]. split.
    + eapply (Forall_perm_equiv _ (fun a b => a.1 = b.1 /\ json_equiv a.2 b.2)); [|exact Hp|exact Hf|exact Hv].
      intros a b _ [Hk Hab] [Hs Ha]. split; [by rewrite <- Hk|]. by eapply IH.
    + replace l'.*1 with l1.*1; [by rewrite <- Hp|]. clear -Hf.
      induction Hf as [|a b l1 l' [Ha _] _ IH]; [done|]. rewrite !fmap_cons. by f_equal.
Qed.

Lemma json_ok_names fuel l : json_ok (S fuel) (JObject l) -> NoDup l.*1.
Proof. by intros [_ Hn]. Qed.

Section Serializer.
Context `{Rfc8785Laws}.

Lemma canonical_Ok v b :
  canonical_plain_bytes v = Ok b <-> json_okb (S MAX_CANONICAL_JSON_DEPTH) v = true /\ rfc8785_dumps v = Some b.
Proof.
  unfold canonical_plain_bytes, normalize_plain. destruct (json_okb _ v); cbn; [|naive_solver].
  destruct (rfc8785_dumps v); naive_solver.
Qed.

Lemma canonical_order v v' b : canonical_plain_bytes v = Ok b -> json_equiv v v' -> canonical_plain_bytes v' = Ok b.
Proof.
  intros [Hv Hd]%canonical_Ok He. apply canonical_Ok. split.
  - apply json_okb_spec. eapply json_ok_equiv; [|done]. by apply json_okb_spec.
  - by rewrite <- (rfc_order v v' Hv He).
Qed.

Lemma canonical_reads v b :
  json_whole v = true -> canonical_plain_bytes v = Ok b -> exists v', parse_json_strict b = Ok v' /\ json_equiv v v'.
Proof. intros Hw [Hv Hd]%canonical_Ok. by apply rfc_reads. Qed.

Lemma canonical_nodup l b : canonical_plain_bytes (JObject l) = Ok b -> NoDup l.*1.
Proof. intros [Hv%json_okb_spec _]%canonical_Ok. by apply json_ok_names in Hv. Qed.
End Serializer.

(** ** Members *)

Lemma get_item_at k l v : item_at k l = Ok v <-> get_item k l = Some v.
Proof.
  induction l as [|[k' v'] l IH]; cbn; [done|]. destruct (decide (k' = k)) as [->|Hk].
  - rewrite !bool_decide_eq_true_2 by done. naive_solver.
  - rewrite !bool_decide_eq_false_2 by done. done.
Qed.

Lemma get_item_without k l : k <> py "record_sha256" -> get_item k (without_digest l) = get_item k l.
Proof.
  intros Hk. induction l as [|[k' v] l IH]; [done|]. unfold without_digest in *. cbn [List.filter fst].
  destruct (decide (k' = py "record_sha256")) as [->|Hk'].
  - rewrite (bool_decide_eq_true_2 (py "record_sha256" = py "record_sha256")) by done. cbn [negb get_item].
    rewrite bool_decide_eq_false_2 by congruence. done.
  - rewrite (bool_decide_eq_false_2 (k' = py "record_sha256")) by done. cbn [negb get_item]. by rewrite IH.
Qed.

(** An equal object has the same names and equal members. *)
Lemma equiv_items m v :
  json_equiv (JObject m) v -> NoDup m.*1 ->
  exists l, v = JObject l /\ (forall k, k ∈ l.*1 <-> k ∈ m.*1) /\
    forall k u, get_item k m = Some u -> exists u', get_item k l = Some u' /\ json_equiv u u'.
Proof.
  intros He Hn. destruct (json_equiv_object _ _ He Hn) as (l & -> & Hk & Hat). exists l. split_and!; [done..|].
  intros k u Hu%get_item_at. destruct (Hat _ _ Hu) as (u' & Hu' & Heq). exists u'. by rewrite <- get_item_at.
Qed.

Lemma text_item_Ok v s : text_item v = Ok s <-> v = Some (JStr s).
Proof. destruct v as [[]|]; naive_solver. Qed.
Lemma integer_item_Ok v n : integer_item v = Ok n <-> v = Some (JInt n).
Proof. destruct v as [[]|]; naive_solver. Qed.
Lemma uuid_item_text v u : uuid_item v = Ok u -> v = Some (JStr (uuid_str u)).
Proof.
  unfold uuid_item, require_uuid7, uuid_of_str. intros Hu. inv_ok.
  match goal with Ht : text_item v = Ok _ |- _ => apply text_item_Ok in Ht; rewrite Ht end.
  destruct (hex_int _) as [u'|]; cbn in *; [|done]. case_bool_decide; by simplify_eq.
Qed.
Lemma canonical_base64_text v n b : canonical_base64 v n = Ok b -> v = Some (JStr (b64encode b)).
Proof.
  unfold canonical_base64. intros Hb. inv_ok.
  match goal with Ht : text_item v = Ok _ |- _ => apply text_item_Ok in Ht; rewrite Ht end. congruence.
Qed.

(** What a document of a record says. *)
Record record_items `{Rfc8785} (m : list (pystr * JsonValue)) (r : LedgerRecord) : Prop := {
  ri_whole : json_whole (JObject m) = true;
  ri_digest : digest_of m = Ok (lr_record_sha256 r);
  ri_generation : get_item (py "generation") m = Some (JInt (lr_generation r));
  ri_previous : get_item (py "previous_sha256") m = Some (JStr (lr_previous_sha256 r));
  ri_content_key_id : uuid_item (get_item (py "content_key_id") m) = Ok (le_content_key_id (lr_entry r));
  ri_tenant_id : uuid_item (get_item (py "tenant_id") m) = Ok (le_tenant_id (lr_entry r));
  ri_lineage_id : uuid_item (get_item (py "lineage_id") m) = Ok (le_lineage_id (lr_entry r));
  ri_memory_id : uuid_item (get_item (py "memory_id") m) = Ok (le_memory_id (lr_entry r));
  ri_receipt : canonical_base64 (get_item (py "receipt") m) RECEIPT_BYTES = Ok (le_receipt (lr_entry r))
}.

Section Chain.
Context `{Rfc8785Laws}.

(** The document, without its digest, of a record file of the directory. *)
Definition record_in (x : Directory) (m : list (pystr * JsonValue)) : Prop :=
  exists name raw l, read_bounded_file FileNotFoundError x name RECORD_MODE MAX_RECORD_BYTES None = Ok raw /\
    parse_json_strict raw = Ok (JObject l) /\ m = without_digest l.

(** The bytes that were hashed for a record file of the directory. *)
Definition hashed_in (x : Directory) (b : bytes) : Prop :=
  exists m, record_in x m /\ canonical_plain_bytes (JObject m) = Ok b.

Lemma get_item_elem k v l : NoDup l.*1 -> (k, v) ∈ l -> get_item k l = Some v.
Proof. intros Hn Hin. by apply get_item_at, item_at_elem. Qed.

(** The fields of a record are texts, integers and a version. *)
Lemma record_whole l :
  NoDup l.*1 -> has_fields RECORD_FIELDS l = true -> equals_version (get_item (py "version") l) = true ->
  (exists n, get_item (py "generation") l = Some (JInt n)) ->
  (forall k, k ∈ [py "previous_sha256"; py "state"; py "content_key_id"; py "tenant_id"; py "lineage_id";
                  py "memory_id"; py "receipt"; py "record_sha256"] -> exists t, get_item k l = Some (JStr t)) ->
  json_whole (JObject (without_digest l)) = true.
Proof.
  intros Hn Hf Hv [n Hg] Ht. cbn [json_whole]. apply forallb_forall. intros [k v] Hin%filter_In. destruct Hin as [Hin _].
  apply list_elem_of_In in Hin. pose proof (get_item_elem _ _ _ Hn Hin) as Hk.
  apply andb_true_iff in Hf as [Hf _]. rewrite forallb_forall in Hf.
  assert (Hkf : k ∈ RECORD_FIELDS).
  { eapply bool_decide_eq_true, Hf, list_elem_of_In, list_elem_of_fmap. by exists (k, v). }
  assert (Htext : k ∈ [py "previous_sha256"; py "state"; py "content_key_id"; py "tenant_id"; py "lineage_id";
                       py "memory_id"; py "receipt"; py "record_sha256"] -> json_whole v = true).
  { intros [t Hs]%Ht. rewrite Hk in Hs. by injection Hs as ->. }
  unfold RECORD_FIELDS in Hkf. apply elem_of_cons in Hkf as [->|Hkf].
  { rewrite Hk in Hv. by destruct v. }
  apply elem_of_cons in Hkf as [->|Hkf]; [|by apply Htext].
  rewrite Hk in Hg. by injection Hg as ->.
Qed.

Lemma text_item_get v s : text_item v = Ok s -> exists t, v = Some (JStr t).
Proof. intros ->%text_item_Ok. eauto. Qed.

Lemma read_record_items x name r : read_record x name = Ok r -> exists m, record_items m r /\ record_in x m.
Proof.
  unfold read_record. intros Hr. apply bind_Ok in Hr as (raw & Hraw & Hr). apply bind_Ok in Hr as (v & Hparse & Hr).
  destruct v as [| | | | | |l]; try done. exists (without_digest l). split; [|by exists name, raw, l].
  apply bind_Ok in Hr as (canonical & Hcan & Hr). pose proof (canonical_nodup _ _ Hcan) as Hnd.
  apply bind_Ok in Hr as ([] & _ & Hr). apply bind_Ok in Hr as ([] & Hfields%raise_if_Ok & Hr).
  apply orb_false_iff in Hfields as [Hfields Hstate%negb_false_iff%bool_decide_eq_true].
  apply orb_false_iff in Hfields as [Hfields%negb_false_iff Hversion%negb_false_iff]. inv_bind.
  repeat match goal with
         | Hx : raise_if _ _ = Ok _ |- _ => apply raise_if_Ok in Hx
         | Hx : Ok _ = Ok r |- _ => injection Hx as <-
         | Hx : integer_item _ = Ok _ |- _ => apply integer_item_Ok in Hx
         | Hx : construct _ _ = Ok ?e |- _ => unfold construct in Hx; apply bind_Ok in Hx as (? & _ & Hx); injection Hx as <-
         end.
  split; cbn [lr_entry lr_generation lr_previous_sha256 lr_record_sha256 le_content_key_id le_tenant_id le_lineage_id
              le_memory_id le_receipt]; rewrite ?get_item_without by discriminate; try done.
  - apply record_whole; [done..|by eexists|]. intros k Hk.
    repeat (apply elem_of_cons in Hk as [->|Hk];
      [first [by eexists | by eapply text_item_get; eassumption | by eexists; eapply uuid_item_text; eassumption
             | by eexists; eapply canonical_base64_text; eassumption]|]). by apply elem_of_nil in Hk.
  - match goal with Hx : negb (bool_decide (_ = _)) = false, Hd : digest_of _ = Ok _ |- _ =>
      apply negb_false_iff, bool_decide_eq_true in Hx; by rewrite Hx, Hd end.
  - match goal with Hx : text_item (get_item (py "previous_sha256") _) = Ok _ |- _ => by apply text_item_Ok in Hx end.
Qed.

(** Two objects with equal texts agree on their leaves. *)
Lemma same_text m1 m2 b :
  json_whole (JObject m1) = true -> json_whole (JObject m2) = true ->
  canonical_plain_bytes (JObject m1) = Ok b -> canonical_plain_bytes (JObject m2) = Ok b ->
  (forall k s1 s2, get_item k m1 = Some (JStr s1) -> get_item k m2 = Some (JStr s2) -> s1 = s2) /\
  (forall k n1 n2, get_item k m1 = Some (JInt n1) -> get_item k m2 = Some (JInt n2) -> n1 = n2).
Proof.
  intros Hw1 Hw2 Hc1 Hc2. destruct (canonical_reads _ _ Hw1 Hc1) as (v1 & Hp1 & He1).
  destruct (canonical_reads _ _ Hw2 Hc2) as (v2 & Hp2 & He2).
  rewrite Hp1 in Hp2. injection Hp2 as <-.
  destruct (equiv_items _ _ He1 (canonical_nodup _ _ Hc1)) as (l & -> & _ & Hi1).
  destruct (equiv_items _ _ He2 (canonical_nodup _ _ Hc2)) as (l' & [= <-] & _ & Hi2).
  split; intros k a1 a2 Ha1 Ha2; destruct (Hi1 _ _ Ha1) as (u1 & Hu1 & Hj1); destruct (Hi2 _ _ Ha2) as (u2 & Hu2 & Hj2).
  - apply json_equiv_str in Hj1, Hj2. congruence.
  - apply json_equiv_int in Hj1, Hj2. congruence.
Qed.

(** Records with one digest are one record, or the bytes hashed for them clash. *)
Lemma record_determined m1 m2 r1 r2 :
  record_items m1 r1 -> record_items m2 r2 -> lr_record_sha256 r1 = lr_record_sha256 r2 ->
  r1 = r2 \/ exists b1 b2, canonical_plain_bytes (JObject m1) = Ok b1 /\ canonical_plain_bytes (JObject m2) = Ok b2 /\
                          digest_clash b1 b2.
Proof.
  intros I1 I2 Hd. destruct I1 as [W1 D1 G1 P1 C1 T1 L1 M1 R1], I2 as [W2 D2 G2 P2 C2 T2 L2 M2 R2].
  unfold digest_of in D1, D2. apply fmap_Ok in D1 as (b1 & B1 & D1). apply fmap_Ok in D2 as (b2 & B2 & D2).
  destruct (decide (b1 = b2)) as [<-|Hne]; [|right; exists b1, b2; split_and!; [done..|split; [done|congruence]]].
  left. destruct (same_text _ _ _ W1 W2 B1 B2) as [Hs Hn].
  assert (Hu : forall k u1 u2, uuid_item (get_item k m1) = Ok u1 -> uuid_item (get_item k m2) = Ok u2 -> u1 = u2).
  { intros k u1 u2 E1 E2. pose proof (Hs _ _ _ (uuid_item_text _ _ E1) (uuid_item_text _ _ E2)) as Hu.
    rewrite (uuid_item_text _ _ E1) in E1. rewrite (uuid_item_text _ _ E2), <- Hu in E2. congruence. }
  assert (le_receipt (lr_entry r1) = le_receipt (lr_entry r2)).
  { pose proof (Hs _ _ _ (canonical_base64_text _ _ _ R1) (canonical_base64_text _ _ _ R2)) as Hb.
    rewrite (canonical_base64_text _ _ _ R1) in R1. rewrite (canonical_base64_text _ _ _ R2), <- Hb in R2. congruence. }
  destruct r1 as [[] ? ? ?], r2 as [[] ? ? ?]. cbn in *. f_equal; [f_equal; eauto|eauto..|done].
Qed.

(** ** Chains *)

Definition read_from (x : Directory) (r : LedgerRecord) : Prop := exists m, record_items m r /\ record_in x m.

(** Bytes hashed for a record of one ledger and of the other clash. *)
Definition ledgers_clash (x y : Directory) : Prop :=
  exists b b', hashed_in x b /\ hashed_in y b' /\ digest_clash b b'.

Lemma read_from_determined x y r r' :
  read_from x r -> read_from y r' -> lr_record_sha256 r = lr_record_sha256 r' -> r = r' \/ ledgers_clash x y.
Proof.
  intros (m & Hm & Hx) (m' & Hm' & Hy) Hd.
  destruct (record_determined _ _ _ _ Hm Hm' Hd) as [?|(b & b' & Hb & Hb' & Hc)]; [by left|right].
  exists b, b'. split_and!; [by exists m|by exists m'|done].
Qed.

Lemma check_chain_lookup g p rs i r : check_chain g p rs = Ok tt -> rs !! i = Some r ->
  lr_generation r = g + Z.of_nat i /\
  (lr_previous_sha256 r = match i with O => p | S j => from_option lr_record_sha256 p (rs !! j) end).
Proof.
  revert g p i. induction rs as [|r0 rs IH]; intros g p i Hc Hr; [done|]. cbn [check_chain] in Hc.
  apply bind_Ok in Hc as ([] & Hg%raise_if_Ok%orb_false_iff & Hc). destruct Hg as [Hg Hp].
  apply negb_false_iff in Hg, Hp. apply Z.eqb_eq in Hg. apply bool_decide_eq_true in Hp.
  destruct i as [|i]; [cbn in Hr; simplify_eq; split; [lia|done]|].
  destruct (IH _ _ _ Hc Hr) as [IHg IHp]. split; [lia|]. rewrite IHp. destruct i as [|j]; [done|]. cbn.
  destruct (rs !! j) eqn:Ej; [done|]. apply lookup_lt_Some in Hr. apply lookup_ge_None in Ej. cbn in Hr. lia.
Qed.

(** Equal digests at one position mean equal records up to it. *)
Lemma chains_agree x y g p p' rs rs' i r r' :
  check_chain g p rs = Ok tt -> check_chain g p' rs' = Ok tt -> Forall (read_from x) rs -> Forall (read_from y) rs' ->
  rs !! i = Some r -> rs' !! i = Some r' -> lr_record_sha256 r = lr_record_sha256 r' ->
  take (S i) rs = take (S i) rs' \/ ledgers_clash x y.
Proof.
  intros Hc Hc' Hf Hf'. revert r r'. induction i as [|i IH]; intros r r' Hr Hr' Hd;
    (destruct (read_from_determined x y r r') as [->|?];
     [by eapply Forall_lookup_1 in Hf|by eapply Forall_lookup_1 in Hf'|done| |by right]).
  - left. rewrite (take_S_r _ _ _ Hr), (take_S_r _ _ _ Hr'). by rewrite !take_0.
  - destruct (lookup_lt_is_Some_2 rs i) as [q Hq]; [apply lookup_lt_Some in Hr; lia|].
    destruct (lookup_lt_is_Some_2 rs' i) as [q' Hq']; [apply lookup_lt_Some in Hr'; lia|].
    pose proof (proj2 (check_chain_lookup _ _ _ _ _ Hc Hr)) as E. pose proof (proj2 (check_chain_lookup _ _ _ _ _ Hc' Hr')) as E'.
    cbn in E, E'. rewrite Hq in E. rewrite Hq' in E'. cbn in E, E'.
    destruct (IH q q' Hq Hq' ltac:(congruence)) as [Ht|?]; [left|by right].
    by rewrite (take_S_r _ _ _ Hr), (take_S_r _ _ _ Hr'), Ht.
Qed.

Lemma ledger_records_chain x rs :
  ledger_records x = Ok rs -> exists p, empty_head = Ok p /\ check_chain 1 p rs = Ok tt /\ Forall (read_from x) rs.
Proof.
  unfold ledger_records. intros Hr. apply bind_Ok in Hr as (unsorted & Hu & Hr). apply bind_Ok in Hr as (p & Hp & Hr).
  apply bind_Ok in Hr as ([] & Hc & Hr). apply bind_Ok in Hr as ([] & _ & [= <-]). exists p. split_and!; [done..|].
  rewrite sort_by_perm. apply mapR_Forall2 in Hu. apply Forall_forall. intros r Hin.
  apply list_elem_of_lookup in Hin as (i & Hi). destruct (Forall2_lookup_r _ _ _ _ _ Hu Hi) as (name & _ & Hname).
  apply bind_Ok in Hname as ([] & _ & Hname). by eapply read_record_items.
Qed.
End Chain.
