(* ===== verification/LedgerText.v ===== *)
(** * LedgerText: identifiers, digests and anchors read back

    Canonical identifiers parse, digests are 64 lower-case hexadecimal digits,
    the documents of anchors and records read back as they were written, and an
    append that is not interrupted leaves a ledger with one more record. *)

From stdpp Require Import base tactics option list gmap strings.
From Stdlib Require Import ZArith Lia Bool Sorted.
From S2P Require Import Prelude Identifiers CanonicalJson Digest Text OutboxProgress IsoFormat JsonParse Archive ArchiveTheorems Disk DestructionLedger DiskFacts KeySafety LedgerChain.
Open Scope Z_scope.

(** ** Hexadecimal text *)

Definition is_hex (c : Z) : bool := is_digit c || ((97 <=? c) && (c <=? 102)).

Lemma is_hex_digit v : 0 <= v < 16 -> is_hex (hex_digit v) = true.
Proof. intros Hv. unfold is_hex, is_digit, hex_digit. destruct (Z.ltb_spec v 10); lia. Qed.

Lemma hex_digits_hex n v : forallb is_hex (hex_digits n v) = true.
Proof.
  revert v. induction n as [|n IH]; intros v; [done|]. cbn [hex_digits]. rewrite forallb_app, IH. cbn.
  rewrite is_hex_digit; [done|]. apply Z.mod_pos_bound. lia.
Qed.

Lemma hex_of_bytes_hex b : forallb is_hex (hex_of_bytes b) = true /\ length (hex_of_bytes b) = (2 * length b)%nat.
Proof.
  induction b as [|x b [IH Hl]]; [done|].
  change (hex_of_bytes (x :: b)) with (hex_digits 2 x ++ hex_of_bytes b).
  rewrite forallb_app, length_app, hex_digits_hex, hex_digits_length, IH, Hl. split; [done|]. cbn [length]. lia.
Qed.

Lemma sha256_round_length st kw : length st = 8%nat -> length (sha256_round st kw) = 8%nat.
Proof. intros Hl. destruct st as [|? [|? [|? [|? [|? [|? [|? [|? [|]]]]]]]]]; done. Qed.

Lemma sha256_block_length st block : length st = 8%nat -> length (sha256_block st block) = 8%nat.
Proof.
  intros Hl. unfold sha256_block. rewrite length_zip_with, Hl.
  assert (Hf : forall l st, length st = 8%nat -> length (fold_left sha256_round l st) = 8%nat).
  { induction l as [|kw l IH]; intros s Hs; [done|]. cbn. apply IH. by apply sha256_round_length. }
  by rewrite Hf.
Qed.

Lemma sha256_blocks_length fuel st ws : length st = 8%nat -> length (sha256_blocks fuel st ws) = 8%nat.
Proof.
  revert st ws. induction fuel as [|fuel IH]; intros st [|x ws] Hl; cbn [sha256_blocks]; [done..|].
  apply IH. by apply sha256_block_length.
Qed.


Lemma sha256_length b : length (sha256 b) = 32%nat.
Proof.
  unfold sha256. set (l := sha256_blocks _ _ _). assert (Hl : length l = 8%nat) by by apply sha256_blocks_length.
  clearbody l. destruct l as [|? [|? [|? [|? [|? [|? [|? [|? [|]]]]]]]]]; try done.
Qed.

Lemma sha256_hex64 b : is_hex64 (sha256_hex b) = true.
Proof.
  unfold is_hex64, sha256_hex. destruct (hex_of_bytes_hex (sha256 b)) as [Hh Hl].
  rewrite Hl, sha256_length. exact Hh.
Qed.

(** ** Identifiers *)

Lemma hex_value_digit v : 0 <= v < 16 -> hex_value (hex_digit v) = Some v.
Proof.
  intros Hv. unfold hex_value, is_digit, hex_digit. destruct (Z.ltb_spec v 10).
  - replace ((48 <=? 48 + v) && (48 + v <=? 57)) with true by lia. f_equal. lia.
  - replace ((48 <=? 87 + v) && (87 + v <=? 57)) with false by lia.
    replace ((97 <=? 87 + v) && (87 + v <=? 102)) with true by lia. f_equal. lia.
Qed.

Definition hex_step (acc : option Z) (c : Z) : option Z := a ← acc; v ← hex_value c; Some (a * 16 + v).

Lemma hex_int_digits n v a : 0 <= v -> foldl hex_step (Some a) (hex_digits n v) = Some (a * 16 ^ Z.of_nat n + v mod 16 ^ Z.of_nat n).
Proof.
  revert v a. induction n as [|n IH]; intros v a Hv.
  - cbn [hex_digits foldl]. change (16 ^ Z.of_nat 0) with 1. rewrite Z.mod_1_r. f_equal. lia.
  - cbn [hex_digits]. rewrite foldl_app, IH by (apply Z.div_pos; lia). cbn [foldl]. unfold hex_step. cbn.
    rewrite hex_value_digit by (apply Z.mod_pos_bound; lia). cbn. f_equal.
    rewrite Nat2Z.inj_succ, Z.pow_succ_r by lia. rewrite (Z.rem_mul_r v 16 (16 ^ Z.of_nat n)) by lia. lia.
Qed.

Lemma filter_hex n v : List.filter (fun c => negb (c =? 45)) (hex_digits n v) = hex_digits n v.
Proof.
  apply List.forallb_filter_id. eapply forallb_forall. intros c Hc.
  pose proof (proj1 (forallb_forall is_hex _) (hex_digits_hex n v) c Hc) as Hh. unfold is_hex, is_digit in Hh. lia.
Qed.

Lemma uuid_of_str_uuid u : uuid_range u -> uuid_of_str (uuid_str u) = Some u.
Proof.
  unfold uuid_range. intros Hu. unfold uuid_of_str.
  assert (hex_int (List.filter (fun c => negb (c =? 45)) (uuid_str u)) = Some u) as ->; [|cbn; by rewrite bool_decide_eq_true_2].
  unfold uuid_str. rewrite !List.filter_app, !filter_hex. cbn [List.filter negb Z.eqb Pos.eqb app].
  unfold hex_int. fold hex_step. rewrite !foldl_app. rewrite !Z.shiftr_div_pow2 by lia.
  rewrite !hex_int_digits by (try apply Z.mod_pos_bound; try apply Z.div_pos; lia).
  f_equal. change (16 ^ Z.of_nat 8) with 4294967296. change (16 ^ Z.of_nat 4) with 65536. change (16 ^ Z.of_nat 12) with 281474976710656.
  change (2 ^ 96) with (65536 * (65536 * (65536 * 281474976710656))). change (2 ^ 80) with (65536 * (65536 * 281474976710656)).
  change (2 ^ 64) with (65536 * 281474976710656). change (2 ^ 48) with 281474976710656. change (2 ^ 128) with (340282366920938463463374607431768211456) in Hu.
  Z.div_mod_to_equations. lia.
Qed.

(** ** Documents *)

Lemma has_fields_keys fields l m :
  (forall k, k ∈ l.*1 <-> k ∈ m.*1) -> has_fields fields m = true -> has_fields fields l = true.
Proof.
  intros Hk. unfold has_fields. rewrite !andb_true_iff, !forallb_forall. intros [Ha Hb]. split.
  - intros k Hin%list_elem_of_In%Hk%list_elem_of_In. by apply Ha.
  - intros k Hin. apply bool_decide_eq_true, Hk. by apply Hb, bool_decide_eq_true in Hin.
Qed.

Section Documents.
Context `{Rfc8785Laws}.

(** The bytes of an object read as an object with its members. *)
Lemma object_reads m b :
  json_whole (JObject m) = true -> canonical_plain_bytes (JObject m) = Ok b ->
  exists l, parse_json_strict b = Ok (JObject l) /\ canonical_plain_bytes (JObject l) = Ok b /\
    json_equiv (JObject m) (JObject l) /\ (forall k, k ∈ l.*1 <-> k ∈ m.*1) /\
    (forall k s, get_item k m = Some (JStr s) -> get_item k l = Some (JStr s)) /\
    (forall k n, get_item k m = Some (JInt n) -> get_item k l = Some (JInt n)).
Proof.
  intros Hwh Hb. destruct (canonical_reads _ _ Hwh Hb) as (v & Hp & He).
  destruct (equiv_items _ _ He (canonical_nodup _ _ Hb)) as (l & -> & Hk & Hi).
  exists l. split_and!; [done|by eapply canonical_order|done|done|..].
  - intros k s Hs. destruct (Hi _ _ Hs) as (u & Hu & ->%json_equiv_str). done.
  - intros k n Hn. destruct (Hi _ _ Hn) as (u & Hu & ->%json_equiv_int). done.
Qed.

Lemma anchor_roundtrip a b : anchor_bytes a = Ok b -> validate_anchor a = Ok tt -> anchor_from_bytes b = Ok a.
Proof.
  destruct a as [c s]. intros Hb Ha. unfold anchor_bytes, anchor_document in Hb. apply object_reads in Hb as (l & Hp & Hc & _ & Hk & Hs & Hn); [|reflexivity].
  unfold anchor_from_bytes. rewrite Hp. cbn [mbind result_bind]. rewrite (has_fields_keys _ _ _ Hk) by reflexivity.
  rewrite (Hn (py "version") RECORD_VERSION eq_refl). cbn [equals_version negb orb]. rewrite Z.eqb_refl. cbn [negb raise_if mbind result_bind].
  rewrite Hc. cbn [mbind result_bind]. rewrite bool_decide_eq_true_2 by done. cbn [negb raise_if mbind result_bind].
  rewrite (Hn (py "entry_count") _ eq_refl), (Hs (py "aggregate_sha256") _ eq_refl). cbn [integer_item text_item mbind result_bind].
  unfold construct. cbn [la_entry_count la_aggregate_sha256]. by rewrite Ha.
Qed.

(** An entry that can be written: identifiers are 128-bit values and the
    receipt is bytes. *)
Definition entry_wf (e : DestructionLedgerEntry) : Prop :=
  validate_entry e = Ok tt /\ uuid_range (le_content_key_id e) /\ uuid_range (le_tenant_id e) /\
  uuid_range (le_lineage_id e) /\ uuid_range (le_memory_id e) /\ Forall is_byte (le_receipt e).

Lemma uuid_item_uuid u : uuid_range u -> is_uuid7 u = true -> uuid_item (Some (JStr (uuid_str u))) = Ok u.
Proof.
  intros Hr Hu. unfold uuid_item. cbn [text_item mbind result_bind].
  rewrite uuid_of_str_uuid by done. cbn [from_option_or mbind result_bind]. unfold require_uuid7. by rewrite Hu.
Qed.

Lemma canonical_base64_bytes b n :
  Forall is_byte b -> Z.of_nat (length b) = n -> canonical_base64 (Some (JStr (b64encode b))) n = Ok b.
Proof.
  intros Hb Hn. unfold canonical_base64. cbn [text_item mbind result_bind]. rewrite b64_roundtrip by done.
  cbn [from_option_or mbind result_bind]. rewrite Hn, Z.eqb_refl.
  by rewrite bool_decide_eq_true_2.
Qed.

(** A file that reads under the given mode and limit. *)
Definition readable (x : Directory) (name : pystr) (mode : Z) (raw : bytes) : Prop :=
  exists uid, inode_at x name = Some (mk_inode true mode uid 1 raw).

Definition fits_record (raw : bytes) : Prop := 1 <= Z.of_nat (length raw) <= MAX_RECORD_BYTES.

Lemma read_bounded_readable missing x name mode raw :
  readable x name mode raw -> fits_record raw -> read_bounded_file missing x name mode MAX_RECORD_BYTES None = Ok raw.
Proof.
  intros [uid Hn] [Hl Hu]. unfold read_bounded_file. rewrite Hn. cbn [from_option_or mbind result_bind in_regular in_mode in_nlink in_data].
  rewrite Z.eqb_refl. cbn [negb orb]. replace (1 <=? Z.of_nat (length raw)) with true by lia.
  by replace (Z.of_nat (length raw) <=? MAX_RECORD_BYTES) with true by lia.
Qed.

Lemma get_item_snoc k m k' v : k <> k' -> get_item k (m ++ [(k', v)]) = get_item k m.
Proof.
  intros Hk. induction m as [|[q u] m IH]; cbn [app get_item].
  - by rewrite bool_decide_eq_false_2 by congruence.
  - by rewrite IH.
Qed.

Lemma validate_entry_inv e :
  validate_entry e = Ok tt ->
  is_uuid7 (le_content_key_id e) = true /\ is_uuid7 (le_tenant_id e) = true /\ is_uuid7 (le_lineage_id e) = true /\
  is_uuid7 (le_memory_id e) = true /\ Z.of_nat (length (le_receipt e)) = RECEIPT_BYTES.
Proof.
  assert (Hu : forall u v, require_uuid7 u = Ok v -> is_uuid7 u = true).
  { intros u v. unfold require_uuid7. by destruct (is_uuid7 u). }
  unfold validate_entry. intros Hv. inv_bind. split_and!; eauto.
  match goal with Hl : raise_if _ _ = Ok _ |- _ => by apply raise_if_Ok, negb_false_iff, Z.eqb_eq in Hl end.
Qed.

Lemma without_digest_equiv m l :
  json_equiv (JObject m) (JObject l) -> json_equiv (JObject (without_digest m)) (JObject (without_digest l)).
Proof.
  intros He. inversion He as [|? ? ?|? l1 ? Hn Hp Hf]; subst; [apply je_refl|].
  apply (je_object _ (without_digest l1)).
  - clear -Hn. induction m as [|[k v] m IH]; [constructor|]. rewrite fmap_cons in Hn. apply NoDup_cons in Hn as [Hk Hn].
    unfold without_digest in *. cbn [List.filter fst]. destruct (negb _); [|by apply IH]. rewrite fmap_cons. constructor; [|by apply IH].
    cbn. intros Hin. apply Hk. apply list_elem_of_fmap in Hin as ([k' v'] & Heq & Hin). cbn in Heq. subst k'.
    apply list_elem_of_fmap. exists (k, v'). split; [done|]. apply list_elem_of_In in Hin. apply List.filter_In in Hin as [Hin _].
    by apply list_elem_of_In.
  - clear -Hp. unfold without_digest. induction Hp as [|[k v] a b _ IH|[k v] [k' v'] a|]; cbn [List.filter fst]; [done|..].
    + destruct (negb _); [by constructor|done].
    + destruct (negb _), (negb _); [constructor|done..].
    + by etrans.
  - clear -Hf. induction Hf as [|[k v] [k' v'] a b [Hk Hv] _ IH]; [constructor|]. cbn in Hk. subst k'.
    unfold without_digest in *. cbn [List.filter fst]. destruct (negb _); [by constructor|done].
Qed.

(** A record reads back as it was written. *)
Lemma read_written e g p doc raw x :
  entry_wf e -> 1 <= g -> is_hex64 p = true -> entry_document e g p = Ok doc -> canonical_plain_bytes (JObject doc) = Ok raw ->
  readable x (entry_name (le_content_key_id e)) RECORD_MODE raw -> fits_record raw ->
  exists digest, digest_of (unsigned_document e g p) = Ok digest /\ is_hex64 digest = true /\
    read_record x (entry_name (le_content_key_id e)) =
      Ok {| lr_entry := e; lr_generation := g; lr_previous_sha256 := p; lr_record_sha256 := digest |}.
Proof.
  intros (Hv & U1 & U2 & U3 & U4 & Hb) Hg Hp Hdoc Hraw Hx Hfit.
  unfold entry_document in Hdoc. apply bind_Ok in Hdoc as (digest & Hd & [= <-]). exists digest.
  pose proof Hd as Hd'. unfold digest_of in Hd'. apply fmap_Ok in Hd' as (ub & Hub & Hdigest).
  assert (H64 : is_hex64 digest = true) by (rewrite <- Hdigest; apply sha256_hex64). split_and!; [done..|].
  pose proof (canonical_nodup _ _ Hraw) as Hnd.
  apply object_reads in Hraw as (l & Hparse & Hc & He & Hk & Hs & Hn); [|reflexivity].
  destruct (validate_entry_inv _ Hv) as (V1 & V2 & V3 & V4 & V5).
  unfold read_record. rewrite (read_bounded_readable _ _ _ _ _ Hx Hfit). cbn [mbind result_bind].
  rewrite Hparse. cbn [mbind result_bind]. rewrite Hc. cbn [mbind result_bind]. rewrite bool_decide_eq_true_2 by done.
  cbn [negb raise_if mbind result_bind]. rewrite (has_fields_keys _ _ _ Hk) by reflexivity.
  rewrite (Hn (py "version") RECORD_VERSION eq_refl), (Hs (py "state") (py "destroyed") eq_refl). cbn [equals_version negb orb].
  unfold equals_text. rewrite Z.eqb_refl, bool_decide_eq_true_2 by done. cbn [negb orb raise_if mbind result_bind].
  rewrite (Hn (py "generation") g eq_refl), (Hs (py "previous_sha256") p eq_refl), (Hs (py "record_sha256") digest eq_refl).
  cbn [integer_item text_item mbind result_bind]. replace (g <? 1) with false by lia. rewrite Hp.
  replace (length digest =? 64)%nat with true by (unfold is_hex64 in H64; by apply andb_true_iff in H64 as [-> _]).
  cbn [negb orb raise_if mbind result_bind].
  assert (Hdl : digest_of (without_digest l) = Ok digest).
  { unfold digest_of. pose proof (without_digest_equiv _ _ He) as Hw.
    change (without_digest (unsigned_document e g p ++ _)) with (unsigned_document e g p) in Hw.
    rewrite (canonical_order _ _ _ Hub Hw). cbn. by rewrite Hdigest. }
  rewrite Hdl. cbn [mbind result_bind]. rewrite bool_decide_eq_true_2 by done. cbn [negb raise_if mbind result_bind].
  rewrite (Hs (py "content_key_id") _ eq_refl), (Hs (py "tenant_id") _ eq_refl), (Hs (py "lineage_id") _ eq_refl),
    (Hs (py "memory_id") _ eq_refl), (Hs (py "receipt") _ eq_refl).
  rewrite !uuid_item_uuid by done. cbn [mbind result_bind]. rewrite canonical_base64_bytes by (done || lia). cbn [mbind result_bind].
  destruct e as [k t li mm r]. unfold construct.
  cbn [le_content_key_id le_tenant_id le_lineage_id le_memory_id le_receipt]. rewrite Hv. cbn [mbind result_bind le_content_key_id].
  by rewrite bool_decide_eq_true_2 by done.
Qed.
End Documents.

(** * One more record

    A ledger with a complete new record file reads as the old records followed
    by the new one, and its anchor is the one of the longer list. *)

Lemma mapR_perm {A B} (f : A -> result B) l l' u :
  l ≡ₚ l' -> mapR f l = Ok u -> exists u', mapR f l' = Ok u' /\ u ≡ₚ u'.
Proof.
  intros Hp. revert u. induction Hp as [|a l l' _ IH|a b l|l l' l'' _ IH1 _ IH2]; intros u Hu; cbn [mapR] in *.
  - eauto.
  - inv_bind. destruct (IH _ ltac:(eassumption)) as (u' & E & Hu'). simplify_eq. eexists. rewrite E.
    match goal with Hf : f a = Ok _ |- _ => rewrite Hf end. cbn. split; [done|by constructor].
  - inv_bind. simplify_eq. repeat match goal with Hf : f _ = Ok _ |- _ => rewrite Hf; clear Hf end.
    match goal with Hf : mapR f l = Ok _ |- _ => rewrite Hf end. cbn. eexists. split; [done|constructor].
  - destruct (IH1 _ Hu) as (u1 & E1 & P1). destruct (IH2 _ E1) as (u2 & E2 & P2). exists u2. split; [done|by etrans].
Qed.

Lemma listdir_perm x : listdir x ≡ₚ (map_to_list (d_names x)).*1.
Proof. apply sort_by_perm. Qed.

Lemma listdir_with_file x name n : d_names x !! name = None -> listdir (with_file name n x) ≡ₚ name :: listdir x.
Proof. intros Hn. rewrite !listdir_perm. cbn. by rewrite map_to_list_insert. Qed.

Lemma listdir_elem x name : name ∈ listdir x <-> is_Some (d_names x !! name).
Proof.
  rewrite listdir_perm. rewrite list_elem_of_fmap. split.
  - intros ([k i] & -> & Hin). apply elem_of_map_to_list in Hin. by eexists.
  - intros [i Hi]. exists (name, i). split; [done|]. by apply elem_of_map_to_list.
Qed.

Lemma check_chain_app g p rs rs' :
  check_chain g p (rs ++ rs') =
  (check_chain g p rs;; check_chain (g + Z.of_nat (length rs)) (from_option lr_record_sha256 p (last rs)) rs').
Proof.
  revert g p. induction rs as [|r rs IH]; intros g p; cbn [app check_chain length].
  - change (Z.of_nat 0) with 0. by rewrite Z.add_0_r.
  - destruct (raise_if _ _); cbn [mbind result_bind]; [|done]. rewrite IH. destruct (check_chain _ _ rs); cbn [mbind result_bind]; [|done].
    replace (g + 1 + Z.of_nat (length rs)) with (g + Z.of_nat (S (length rs))) by lia.
    f_equal. destruct rs as [|r' rs]; [done|]. rewrite (last_cons_cons r r' rs). destruct (last (r' :: rs)) eqn:E; [done|].
    by apply last_None in E.
Qed.

Section Append.
Context `{Rfc8785Laws}.

Lemma read_record_inode x y name : inode_at x name = inode_at y name -> read_record x name = read_record y name.
Proof. intros E. unfold read_record, read_bounded_file. by rewrite E. Qed.

(** The name of a record is the one of its key, and its key is canonical. *)
Lemma read_record_name x name r :
  read_record x name = Ok r ->
  name = entry_name (le_content_key_id (lr_entry r)) /\
  uuid_of_str (uuid_str (le_content_key_id (lr_entry r))) = Some (le_content_key_id (lr_entry r)).
Proof.
  intros Hr. destruct (read_record_items _ _ _ Hr) as (m & Hm & _). split.
  - unfold read_record in Hr. apply bind_Ok in Hr as (raw & _ & Hr). apply bind_Ok in Hr as (v & _ & Hr).
    destruct v as [| | | | | |l]; try done. inv_bind.
    match goal with Hx : Ok _ = Ok r |- _ => injection Hx as <- end. cbn.
    match goal with Hx : raise_if (negb (bool_decide (name = _))) _ = Ok _ |- _ =>
      by apply raise_if_Ok, negb_false_iff, bool_decide_eq_true in Hx end.
  - destruct Hm as [_ _ _ _ Hk _ _ _ _]. pose proof (uuid_item_text _ _ Hk) as Ht. rewrite Ht in Hk.
    unfold uuid_item in Hk. cbn [text_item mbind result_bind] in Hk. apply bind_Ok in Hk as (u & Hu%from_option_or_Ok & Hk).
    rewrite Hu. unfold require_uuid7 in Hk. apply bind_Ok in Hk as ([] & _ & [= ->]). done.
Qed.

Lemma entry_name_inj u v : entry_name u = entry_name v -> uuid_str u = uuid_str v.
Proof. unfold entry_name. intros E%app_inv_head. by apply app_inv_tail in E. Qed.

(** What a ledger that reads holds. *)
Lemma ledger_records_inv x rs :
  ledger_records x = Ok rs ->
  exists u p, mapR (fun name => raise_if (negb (startswith (py "destroyed-") name)) (ValueError "");; read_record x name) (listdir x) = Ok u /\
    rs ≡ₚ u /\ empty_head = Ok p /\ check_chain 1 p rs = Ok tt /\ NoDup ((fun r => le_content_key_id (lr_entry r)) <$> rs).
Proof.
  unfold ledger_records. intros Hr. apply bind_Ok in Hr as (u & Hu & Hr). apply bind_Ok in Hr as (p & Hp & Hr).
  apply bind_Ok in Hr as ([] & Hc & Hr). apply bind_Ok in Hr as ([] & Hn & [= <-]). exists u, p. split_and!; [done| |done..|].
  - apply sort_by_perm.
  - apply nodupb_NoDup. by apply raise_if_Ok, negb_false_iff in Hn.
Qed.

(** A key without record has no file. *)
Lemma absent_name x rs k :
  ledger_records x = Ok rs -> uuid_range k -> List.find (fun r => le_content_key_id (lr_entry r) =? k) rs = None ->
  d_names x !! entry_name k = None.
Proof.
  intros (u & p & Hu & Hp & _)%ledger_records_inv Hk Hf. destruct (d_names x !! entry_name k) as [i|] eqn:E; [|done]. exfalso.
  apply mapR_Forall2 in Hu. assert (Hin : entry_name k ∈ listdir x) by (apply listdir_elem; eauto).
  apply list_elem_of_lookup in Hin as (j & Hj). destruct (Forall2_lookup_l _ _ _ _ _ Hu Hj) as (r & Hr & Hread).
  apply bind_Ok in Hread as ([] & _ & Hread). apply read_record_name in Hread as [Hname Huu].
  apply entry_name_inj in Hname. rewrite <- Hname, uuid_of_str_uuid in Huu by done. injection Huu as Huu.
  apply list_elem_of_lookup_2 in Hr. rewrite <- Hp in Hr. apply list_elem_of_In in Hr.
  pose proof (List.find_none _ _ Hf r Hr) as Hne. cbn in Hne. apply Z.eqb_neq in Hne. congruence.
Qed.

Lemma chain_sorted g p rs : check_chain g p rs = Ok tt -> StronglySorted (fun a b => generation_leb a b = true) rs /\
  forall a b, a ∈ rs -> b ∈ rs -> generation_leb a b = true -> generation_leb b a = true -> a = b.
Proof.
  intros Hc. assert (Hg : forall i r, rs !! i = Some r -> lr_generation r = g + Z.of_nat i).
  { intros i r Hr. by apply (check_chain_lookup _ _ _ _ _ Hc). }
  split.
  - clear Hc. revert g Hg. induction rs as [|r rs IH]; intros g Hg; [constructor|]. constructor.
    + apply (IH (g + 1)). intros i r' Hr'. rewrite (Hg (S i) r' Hr'). lia.
    + apply Forall_lookup. intros i r' Hr'. unfold generation_leb. rewrite (Hg 0%nat r eq_refl), (Hg (S i) r' Hr').
      apply Z.leb_le. lia.
  - intros a b (i & Ha)%list_elem_of_lookup (j & Hb)%list_elem_of_lookup. unfold generation_leb.
    rewrite (Hg _ _ Ha), (Hg _ _ Hb). intros H1' H2'. assert (i = j) as -> by lia. congruence.
Qed.

(** The ledger with a complete new record. *)
Lemma ledger_records_append x rs r n :
  ledger_records x = Ok rs -> dir_ok x -> d_names x !! entry_name (le_content_key_id (lr_entry r)) = None ->
  read_record (with_file (entry_name (le_content_key_id (lr_entry r))) n x) (entry_name (le_content_key_id (lr_entry r))) = Ok r ->
  lr_generation r = Z.of_nat (length rs) + 1 ->
  (forall p, empty_head = Ok p -> lr_previous_sha256 r = from_option lr_record_sha256 p (last rs)) ->
  ledger_records (with_file (entry_name (le_content_key_id (lr_entry r))) n x) = Ok (rs ++ [r]).
Proof.
  intros Hrs Hok Hfree Hread Hgen Hprev. remember (entry_name (le_content_key_id (lr_entry r))) as name eqn:Hname0.
  assert (Hst : startswith (py "destroyed-") name = true) by (by rewrite Hname0).
  set (x' := with_file name n x) in *. destruct (ledger_records_inv _ _ Hrs) as (u & p & Hu & Hp & Hh & Hc & Hn).
  set (f := fun (y : Directory) name => raise_if (negb (startswith (py "destroyed-") name)) (ValueError "");; read_record y name).
  fold (f x) in Hu.
  assert (Hsame : forall m, is_Some (d_names x !! m) -> f x' m = f x m).
  { intros m [i Hi]. unfold f. replace (read_record x' m) with (read_record x m); [done|]. apply read_record_inode.
    symmetry. apply same_file_inodes; [done|intros j Hj; cbn; by rewrite lookup_insert_ne|]. cbn.
    rewrite lookup_insert_ne by congruence. done. }
  assert (Hu' : mapR (f x') (name :: listdir x) = Ok (r :: u)).
  { cbn [mapR]. replace (f x' name) with (Ok r : result LedgerRecord) by (unfold f; by rewrite Hst, Hread). cbn [mbind result_bind].
    replace (mapR (f x') (listdir x)) with (mapR (f x) (listdir x)); [by rewrite Hu|].
    assert (Hall : forall l, Forall (fun m => is_Some (d_names x !! m)) l -> mapR (f x) l = mapR (f x') l).
    { induction 1 as [|m l Hm _ IH]; [done|]. cbn [mapR]. by rewrite Hsame, IH. }
    apply Hall. apply Forall_forall. intros m. apply listdir_elem. }
  destruct (mapR_perm _ _ _ _ (symmetry (listdir_with_file x name n Hfree)) Hu') as (u2 & Hu2 & Hp2).
  assert (Hchain : check_chain 1 p (rs ++ [r]) = Ok tt).
  { rewrite check_chain_app, Hc. cbn. rewrite Hgen, (Hprev p Hh). replace (_ =? _) with true by lia.
    by rewrite bool_decide_eq_true_2. }
  destruct (chain_sorted _ _ _ Hchain) as [Hsort Hanti].
  assert (Hperm : u2 ≡ₚ rs ++ [r]) by (rewrite <- Hp2, Hp; by rewrite Permutation_app_comm).
  unfold ledger_records. change (mapR _ (listdir x')) with (mapR (f x') (listdir x')). fold x' in Hu2. rewrite Hu2. cbn [mbind result_bind].
  assert (Hs2 : sort_by generation_leb u2 = rs ++ [r]).
  { apply sort_by_unique; [| | |done|done].
    - intros a b. unfold generation_leb. lia.
    - intros a b c. unfold generation_leb. lia.
    - intros a b Ha Hb. rewrite Hperm in Ha, Hb. by apply Hanti. }
  rewrite Hs2, Hh. cbn [mbind result_bind]. rewrite Hchain. cbn [mbind result_bind].
  assert (NoDup ((fun r => le_content_key_id (lr_entry r)) <$> rs ++ [r])) as Hnd; [|apply nodupb_NoDup in Hnd; by rewrite Hnd].
  rewrite fmap_app, Permutation_app_comm. cbn. constructor; [|done]. intros Hin.
  apply list_elem_of_fmap in Hin as (r0 & Hk & Hin). rewrite Hp in Hin. apply mapR_Forall2 in Hu.
  apply list_elem_of_lookup in Hin as (i & Hi). destruct (Forall2_lookup_r _ _ _ _ _ Hu Hi) as (m & Hm & Hr0).
  unfold f in Hr0. apply bind_Ok in Hr0 as ([] & _ & Hr0). apply read_record_name in Hr0 as [Hname _].
  apply list_elem_of_lookup_2, listdir_elem in Hm as [j Hj]. rewrite Hname, <- Hk, <- Hname0 in Hj. congruence.
Qed.
End Append.
