(* ===== verification/KeyDestruction.v ===== *)
(** * KeyDestruction: what a destruction receipt stands for

    A destroyer that returns a receipt has the destruction on the ledger, and
    has removed the key's material and its active record. *)

From stdpp Require Import base tactics option list gmap strings.
From Stdlib Require Import ZArith Lia Bool.
From S2P Require Import Prelude Identifiers CanonicalJson Digest Text JsonParse Archive Disk DestructionLedger KeyProvider DiskFacts KeySafety LedgerChain LedgerText.
Open Scope Z_scope.

(** ** Runs that return *)

Lemma bind_returns {A B} (m : IO A) (f : A -> IO B) w t w' b :
  (m ≫= f) w = (t, w', Ok b) -> exists t1 w1 a t2, m w = (t1, w1, Ok a) /\ f a w1 = (t2, w', Ok b).
Proof.
  unfold mbind, io_bind. destruct (m w) as [[t1 w1] [a|e]]; [|done]. destruct (f a w1) as [[t2 w2] r] eqn:E. intros [= <- <- ->].
  by exists t1, w1, a, t2.
Qed.

Lemma reads_returns {A B} (g : World -> result A) (f : A -> IO B) w t w' b :
  (reads g ≫= f) w = (t, w', Ok b) -> exists a t2, g w = Ok a /\ f a w = (t2, w', Ok b).
Proof. intros (t1 & w1 & a & t2 & [= _ <- Ha] & Hf)%bind_returns. eauto. Qed.

Lemma errors_returns {A} (m : IO A) w t w' a : key_provider_errors m w = (t, w', Ok a) -> m w = (t, w', Ok a).
Proof. unfold key_provider_errors, catch. destruct (m w) as [[t1 w1] [b|e]]; [done|]. cbn. by intros [=]. Qed.

(** The step a returned run begins with. *)
Ltac returned H :=
  first
    [ let a := fresh "a" in let t := fresh "t" in let Ha := fresh "Ha" in
      apply reads_returns in H as (a & t & Ha & H)
    | let t1 := fresh "t" in let w1 := fresh "w" in let a := fresh "a" in let t2 := fresh "t" in let Hm := fresh "Hm" in
      apply bind_returns in H as (t1 & w1 & a & t2 & Hm & H) ].

Section Destruction.
Context `{Rfc8785} `{Interpreter} `{Kernel}.

(** ** The ledger's directory is another one *)

Definition ledger_is (x : Directory) (w : World) : Prop := w_ledger w = x.

Lemma ledger_frame x d : d <> LEDGER -> frame (ledger_is x) d.
Proof.
  intros Hd. unfold ledger_is. split; [|done]. intros f w Hw. change (w_ledger (on d f w)) with (directory (on d f w) LEDGER).
  by rewrite directory_on, decide_False.
Qed.

Ltac framed d :=
  first [ eapply (frame_publish _ d) | eapply (frame_unlink _ d) | eapply (frame_draw _ d) | eapply (frame_replace _ d)
        | eapply (frame_open_excl _ d) | eapply (frame_write_all _ d) | eapply (frame_effect _ d) ];
  [by apply ledger_frame|assumption].

Lemma frame_history x a w : ledger_is x w -> all_worlds (ledger_is x) (publish_anchor_history_once a) w.
Proof. intros Hw. unfold publish_anchor_history_once. walk. framed ANCHORS. Qed.

Lemma frame_replace_anchor x a w : ledger_is x w -> all_worlds (ledger_is x) (replace_anchor a) w.
Proof.
  intros Hw. unfold replace_anchor, anchor_published. walk; [framed ANCHORS|].
  apply all_finally; [|intros v Hv; apply all_suppress; framed ANCHORS].
  walk; [framed ANCHORS|unfold fchmod; framed ANCHORS|framed ANCHORS|framed ANCHORS].
Qed.

Lemma frame_apply x e w : ledger_is x w -> all_worlds (ledger_is x) (apply_ledger_entry e) w.
Proof.
  intros Hw. unfold apply_ledger_entry, publish_control, finish_destruction. walk;
    first [framed CONTROL|framed MATERIAL].
Qed.

Lemma frame_final {A} (P : World -> Prop) (m : IO A) w t w' r :
  (P w -> all_worlds P m w) -> P w -> m w = (t, w', r) -> P w'.
Proof. intros Hm Hw Hr. eapply all_worlds_final; [exact Hr|by apply Hm]. Qed.

(** ** What the parts leave *)

Lemma unlinked d name w t w' :
  suppress_missing (unlink d name) w = (t, w', Ok tt) -> d_names (directory w' d) !! name = None /\ same_but d w w'.
Proof.
  unfold suppress_missing, catch, unlink. destruct (d_names (directory w d) !! name) as [i|] eqn:E.
  - unfold effect. intros [= <- <-]. split; [|done]. rewrite directory_on_same. cbn. apply lookup_delete_eq.
  - cbn. intros [= <- <-]. done.
Qed.

Lemma finish_gone k w t w' u :
  finish_destruction k w = (t, w', Ok u) ->
  d_names (w_material w') !! material_name k = None /\ d_names (w_control w') !! active_name k = None.
Proof.
  unfold finish_destruction. destruct u. intros (t1 & w1 & [] & t2 & [Hm _]%unlinked & [Hc Hs]%unlinked)%bind_returns.
  split; [|exact Hc]. change (w_material w') with (directory w' MATERIAL). by rewrite (Hs MATERIAL).
Qed.

Lemma apply_gone e w t w' u :
  apply_ledger_entry e w = (t, w', Ok u) ->
  d_names (w_material w') !! material_name (le_content_key_id e) = None /\
  d_names (w_control w') !! active_name (le_content_key_id e) = None /\ w_ledger w' = w_ledger w.
Proof.
  intros Hr. pose proof (frame_final (ledger_is (w_ledger w)) _ _ _ _ _ (frame_apply _ e w) eq_refl Hr) as Hl.
  unfold apply_ledger_entry in Hr. do 5 returned Hr. by destruct (finish_gone _ _ _ _ _ Hr).
Qed.

(** The record of the entry is on the ledger. *)
Definition on_ledger (e : DestructionLedgerEntry) (w : World) : Prop :=
  exists r, read_record (w_ledger w) (entry_name (le_content_key_id e)) = Ok r /\ lr_entry r = e.

Lemma on_ledger_same e w w' : w_ledger w' = w_ledger w -> on_ledger e w -> on_ledger e w'.
Proof. unfold on_ledger. by intros ->. Qed.

Lemma listed_on_ledger w rs r : ledger_records (w_ledger w) = Ok rs -> r ∈ rs -> on_ledger (lr_entry r) w.
Proof.
  unfold ledger_records. intros Hrs Hr. apply bind_Ok in Hrs as (u & Hu & Hrs). apply bind_Ok in Hrs as (p & _ & Hrs).
  apply bind_Ok in Hrs as ([] & _ & Hrs). apply bind_Ok in Hrs as ([] & _ & [= <-]). rewrite sort_by_perm in Hr.
  apply mapR_Forall2 in Hu. apply list_elem_of_lookup in Hr as (i & Hi). destruct (Forall2_lookup_r _ _ _ _ _ Hu Hi) as (name & _ & Hn).
  apply bind_Ok in Hn as ([] & _ & Hn). exists r. split; [|done]. by destruct (read_record_name _ _ _ Hn) as [<- _].
Qed.

Lemma append_on_ledger rs e w t w' e' : append_entry rs e w = (t, w', Ok e') -> e' = e /\ on_ledger e w'.
Proof.
  unfold append_entry. intros Hr. do 2 returned Hr. apply bind_returns in Hr as (? & w1 & ? & ? & _ & Hr).
  apply reads_returns in Hr as (stored & ? & Hread & Hr). returned Hr.
  apply bind_returns in Hr as (? & w2 & ? & ? & H2 & Hr). apply bind_returns in Hr as (? & w3 & ? & ? & H3 & Hr).
  apply reads_returns in Hr as ([] & ? & Heq%raise_if_Ok%negb_false_iff%bool_decide_eq_true & [= _ <- <-]).
  pose proof (frame_final _ _ _ _ _ _ (frame_history (w_ledger w1) _ _) eq_refl H2) as Hl2.
  pose proof (frame_final _ _ _ _ _ _ (frame_replace_anchor (w_ledger w1) _ _) Hl2 H3) as Hl3.
  split; [done|]. apply (on_ledger_same _ w1); [exact Hl3|]. exists stored. done.
Qed.

Lemma record_on_ledger accepted e w t w' e' : record_entry accepted e w = (t, w', Ok e') -> e' = e /\ on_ledger e w'.
Proof.
  unfold record_entry. intros Hr%errors_returns. do 2 returned Hr. apply reads_returns in Hr as (rs & ? & Hrs & Hr).
  destruct (List.find _ rs) as [r|] eqn:E; [|by eapply append_on_ledger].
  apply reads_returns in Hr as ([] & ? & <-%raise_if_Ok%negb_false_iff%bool_decide_eq_true & [= _ <- <-]).
  split; [done|]. apply List.find_some in E as [E _]. apply list_elem_of_In in E. by eapply listed_on_ledger.
Qed.

(** Files are named after the text of an identifier. *)
Lemma names_of u v : uuid_str u = uuid_str v -> material_name u = material_name v /\ active_name u = active_name v.
Proof. unfold material_name, active_name. by intros ->. Qed.

(** The key [k] is destroyed with the given entry. *)
Definition destroyed_with (k : UUID) (e : DestructionLedgerEntry) (w : World) : Prop :=
  (exists r, read_record (w_ledger w) (entry_name k) = Ok r /\ lr_entry r = e) /\
  d_names (w_material w) !! material_name k = None /\ d_names (w_control w) !! active_name k = None.

Lemma applied k e w t w' u :
  (exists r, read_record (w_ledger w) (entry_name k) = Ok r /\ lr_entry r = e) ->
  apply_ledger_entry e w = (t, w', Ok u) -> destroyed_with k e w'.
Proof.
  intros (r & Hr & <-) (Hm & Hc & Hl)%apply_gone. destruct (read_record_name _ _ _ Hr) as [Hn%entry_name_inj _].
  apply names_of in Hn as [Hn Hn']. unfold destroyed_with. rewrite Hn, Hn', Hl. eauto.
Qed.

Lemma lookup_returns accepted k w t w' fact :
  lookup_entry accepted k w = (t, w', Ok fact) ->
  w' = w /\ forall e, fact = Some e -> exists r, read_record (w_ledger w) (entry_name k) = Ok r /\ lr_entry r = e.
Proof.
  intros Hr. rewrite (pure_run _ _ (pure_lookup accepted k w)) in Hr. injection Hr as _ <- Hr. split; [done|].
  intros e ->. apply lookup_found in Hr as (n & r & _ & Hr & He). eauto.
Qed.

Lemma expected_request actual e : require_expected_request actual (Some e) = Ok tt -> actual = e.
Proof. by intros Hr%raise_if_Ok%negb_false_iff%bool_decide_eq_true. Qed.

Lemma receipt_returned receipt w t w' b : reads (fun _ => destruction_receipt receipt) w = (t, w', Ok b) -> w' = w /\ b = receipt.
Proof. intros [= _ <- Hr]. apply bind_Ok in Hr as ([] & _ & [= ->]). done. Qed.

Lemma destroy_active_returns accepted e w t w' receipt :
  destroy_active accepted (le_content_key_id e) (Some e) w = (t, w', Ok receipt) ->
  destroyed_with (le_content_key_id e) e w' /\ receipt = le_receipt e.
Proof.
  unfold destroy_active. intros Hr. returned Hr. apply reads_returns in Hr as ([identity rc] & ? & _ & Hr).
  apply reads_returns in Hr as (proposed & ? & Hp & Hr). apply reads_returns in Hr as ([] & ? & ->%expected_request & Hr).
  apply bind_returns in Hr as (? & w1 & entry & ? & [-> Hon]%record_on_ledger & Hr).
  apply bind_returns in Hr as (? & w2 & ? & ? & H2 & Hr). returned Hr. apply bind_returns in Hr as (? & w3 & ? & ? & H3 & Hr).
  apply receipt_returned in Hr as [-> ->].
  assert (Hl : ledger_is (w_ledger w1) w2).
  { eapply frame_final; [|done|exact H2]. intros Hw. unfold publish_control. walk. framed CONTROL. }
  split; [eapply applied; [|exact H3]; rewrite Hl; exact Hon|].
  unfold ledger_entry, construct in Hp. apply bind_Ok in Hp as ([] & _ & [= <-]). done.
Qed.
End Destruction.

(** ** Properties *)

(** C20: a receipt means the key is gone.  When the broker's destruction of a
    requested key returns, the ledger holds exactly the requested entry under
    the key's name, the key's material and its active record are removed, and
    the receipt is the one requested; whether the ledger already had the
    entry, a tombstone of an earlier run was there, or the key was active. *)
Theorem requested_key_is_gone `{Rfc8785} `{Interpreter} `{Kernel} (accepted : option DestructionLedgerAnchor)
    (reference : ContentKeyReference) (e : DestructionLedgerEntry) (w w' : World) (t : list World) (receipt : bytes) :
  reference_id reference = Ok (le_content_key_id e) -> destroy_key accepted reference (Some e) w = (t, w', Ok receipt) ->
  destroyed_with (le_content_key_id e) e w' /\ receipt = le_receipt e.
Proof.
  intros Href Hr%errors_returns. apply reads_returns in Hr as (k & ? & Hk & Hr). rewrite Href in Hk. injection Hk as <-.
  do 2 returned Hr. apply bind_returns in Hr as (? & w1 & fact & ? & [-> Hfact]%lookup_returns & Hr). destruct fact as [entry|].
  - apply reads_returns in Hr as ([] & ? & ->%expected_request & Hr). apply bind_returns in Hr as (? & w2 & ? & ? & H2 & Hr).
    apply receipt_returned in Hr as [-> ->]. split; [|done]. eapply applied; [by apply Hfact|exact H2].
  - apply reads_returns in Hr as ([l|] & ? & _ & Hr); [|by eapply destroy_active_returns]. do 2 returned Hr.
    apply bind_returns in Hr as (? & w1 & fact & ? & [-> Hfact']%lookup_returns & Hr).
    apply reads_returns in Hr as (entry & ? & ->%from_option_or_Ok & Hr). do 2 returned Hr.
    apply reads_returns in Hr as ([] & ? & ->%expected_request & Hr). apply bind_returns in Hr as (? & w2 & ? & ? & H2 & Hr).
    apply receipt_returned in Hr as [-> ->]. split; [|done]. eapply applied; [by apply Hfact'|exact H2].
Qed.
