(* ===== verification/LedgerProperties.v ===== *)
(** * LedgerProperties: rollback and interrupted appends

    The ledger cannot be rolled back behind an anchor once accepted, an append
    leaves a ledger that reads and matches its anchor, and an append killed at
    any system call is repaired by the broker's recovery, unless it was killed
    while its temporary file existed. *)

From stdpp Require Import base tactics option list gmap strings.
From Stdlib Require Import ZArith Lia Bool Sorted.
From S2P Require Import Prelude Identifiers CanonicalJson Digest Text OutboxProgress JsonParse Archive ArchiveTheorems Disk DestructionLedger DiskFacts KeySafety LedgerChain LedgerText.
Open Scope Z_scope.

Section Ledger.
Context `{Rfc8785Laws}.

Lemma all_entries_result accepted w :
  result_of (all_entries accepted) w =
  or_raise (raise_if (ds_symlink (d_stat (w_ledger w)) || negb (ds_isdir (d_stat (w_ledger w)))) OSError;;
            require_current_anchor_locked accepted w;; ledger_entries (w_ledger w)) KeyProviderError.
Proof. unfold all_entries. rewrite errors_result. unfold open_directory. by rewrite !result_reads_bind. Qed.

(** The current anchor is the one of the records. *)
Lemma current_anchor_records accepted w :
  require_current_anchor_locked accepted w = Ok tt ->
  exists rs a, ledger_records (w_ledger w) = Ok rs /\ read_anchor w = Ok a /\ anchor_for_records rs = Ok a /\
    (forall b, accepted = Some b -> anchor_is_prefix b rs = Ok true).
Proof.
  unfold require_current_anchor_locked. intros Hr. apply bind_Ok in Hr as (a & Ha & Hr). apply bind_Ok in Hr as (rs & Hrs & Hr).
  apply bind_Ok in Hr as (a' & Ha' & Hr). apply bind_Ok in Hr as ([] & Heq%raise_if_Ok%negb_false_iff & Hr).
  apply bool_decide_eq_true in Heq as ->. exists rs, a. split_and!; [done..|]. intros b ->.
  apply bind_Ok in Hr as (prefix & Hp & Hr%raise_if_Ok%negb_false_iff). by rewrite Hp, Hr.
Qed.

Lemma anchor_for_records_inv rs a :
  anchor_for_records rs = Ok a ->
  la_entry_count a = Z.of_nat (length rs) /\ (forall r, last rs = Some r -> la_aggregate_sha256 a = lr_record_sha256 r).
Proof.
  unfold anchor_for_records, construct. intros Ha. apply bind_Ok in Ha as (head & Hh & Ha).
  apply bind_Ok in Ha as ([] & _ & [= <-]). cbn. split; [done|]. intros r Hr. rewrite Hr in Hh. by simplify_eq.
Qed.

(** A prefix accepted by its anchor is the history the anchor was taken of. *)
Lemma anchor_prefix_records x y rs rs' a :
  ledger_records x = Ok rs -> ledger_records y = Ok rs' -> anchor_for_records rs = Ok a -> anchor_is_prefix a rs' = Ok true ->
  rs `prefix_of` rs' \/ ledgers_clash x y.
Proof.
  intros Hx Hy Ha Hp. destruct (ledger_records_chain _ _ Hx) as (p & _ & Hc & Hf).
  destruct (ledger_records_chain _ _ Hy) as (p' & _ & Hc' & Hf'). destruct (anchor_for_records_inv _ _ Ha) as [Hn Hl].
  unfold anchor_is_prefix in Hp. rewrite Hn in Hp. destruct (Z.ltb_spec (Z.of_nat (length rs')) (Z.of_nat (length rs))); [done|].
  destruct rs as [|r rs _] using rev_ind; [left; by exists rs'|]. rewrite length_app in *. cbn [length] in *.
  destruct (Z.eqb_spec (Z.of_nat (length rs + 1)) 0); [lia|].
  replace (Z.to_nat (Z.of_nat (length rs + 1) - 1)) with (length rs) in Hp by lia.
  apply bind_Ok in Hp as (digest & Hd%from_option_or_Ok & [= Hp%bool_decide_eq_true]).
  apply fmap_Some in Hd as (r' & Hr' & ->).
  assert (Hrl : (rs ++ [r]) !! length rs = Some r) by (rewrite lookup_app_r, Nat.sub_diag by lia; done).
  assert (Hd : lr_record_sha256 r = lr_record_sha256 r') by (rewrite <- Hp; symmetry; apply Hl; apply last_snoc).
  destruct (chains_agree _ _ _ _ _ _ _ _ _ _ Hc Hc' Hf Hf' Hrl Hr' Hd) as [Ht|?]; [left|by right].
  rewrite take_ge in Ht by (rewrite length_app; cbn; lia). rewrite Ht. apply prefix_take.
Qed.

Lemma all_entries_records accepted w es :
  result_of (all_entries accepted) w = Ok es ->
  exists rs a, ledger_records (w_ledger w) = Ok rs /\ es = lr_entry <$> rs /\ read_anchor w = Ok a /\
    anchor_for_records rs = Ok a /\ (forall b, accepted = Some b -> anchor_is_prefix b rs = Ok true).
Proof.
  rewrite all_entries_result. intros Hr%or_raise_Ok. apply bind_Ok in Hr as ([] & _ & Hr).
  apply bind_Ok in Hr as ([] & (rs & a & Hrs & Ha & Hs & Hp)%current_anchor_records & Hr). exists rs, a.
  unfold ledger_entries in Hr. rewrite Hrs in Hr. cbn in Hr. by simplify_eq.
Qed.
End Ledger.

(** ** Properties *)

(** C18: an accepted ledger cannot be rolled back.  If the anchor of a ledger
    was taken as accepted, then any ledger that opens under that anchor
    (another copy, one restored from a backup, one an attacker rewrote,
    together with its own anchor file) holds every destruction the first one
    held, in the same order, unless the bytes hashed for a record of the one
    and for a record of the other are different and have one SHA-256 digest. *)
Theorem accepted_facts_survive `{Rfc8785Laws} (w w' : World) (accepted : option DestructionLedgerAnchor)
    (anchor : DestructionLedgerAnchor) (entries entries' : list DestructionLedgerEntry) :
  result_of (all_entries accepted) w = Ok entries -> read_anchor w = Ok anchor ->
  result_of (all_entries (Some anchor)) w' = Ok entries' ->
  entries `prefix_of` entries' \/ ledgers_clash (w_ledger w) (w_ledger w').
Proof.
  intros (rs & a & Hrs & -> & Ha & Hs & _)%all_entries_records Hanchor
    (rs' & a' & Hrs' & -> & _ & _ & Hp)%all_entries_records. rewrite Ha in Hanchor. injection Hanchor as ->.
  destruct (anchor_prefix_records _ _ _ _ _ Hrs Hrs' Hs (Hp _ eq_refl)) as [[rest ->]|?]; [left|by right].
  rewrite fmap_app. by eexists.
Qed.

(** * The writes of an append, step by step

    Exact runs of the anchor's publication and replacement, and the states an
    append passes through. *)

(** No file of the anchor's directory has a name the kernel draws. *)
Definition fresh_temporaries (K : Kernel) (w : World) : Prop :=
  forall n, d_names (w_anchors w) !! (py ".tmp-" ++ hex_of_bytes (urandom n 16)) = None /\
            d_names (w_anchors w) !! (py ".tmp-anchor-" ++ hex_of_bytes (urandom n 16)) = None.

Definition opens (w : World) (d : Dir) : Prop := result_of (open_directory d) w = Ok tt.

Lemma run_open {B} (f : unit -> IO B) d w t w' r :
  opens w d -> f tt w = (t, w', r) -> (open_directory d ≫= f) w = (t, w', r).
Proof. intros Ho. by apply run_reads. Qed.

Lemma opens_stat w w' d : d_stat (directory w' d) = d_stat (directory w d) -> opens w d -> opens w' d.
Proof. unfold opens, open_directory, result_of. cbn. by intros ->. Qed.

Section Run.
Context `{Rfc8785Laws} (K : Kernel) (Hprogress : write_progress).

(** [_publish_anchor_history_once] touches no other file. *)
Lemma run_history a b w :
  opens w ANCHORS -> anchor_bytes a = Ok b -> dir_ok (w_anchors w) -> fresh_temporaries K w ->
  exists t w', publish_anchor_history_once a w = (t, w', Ok tt) /\ opens w' ANCHORS /\ dir_ok (w_anchors w') /\
    fresh_temporaries K w' /\
    Forall (fun v => same_but ANCHORS w v /\ same_file ANCHOR_NAME (w_anchors w) (w_anchors v)) (t ++ [w']).
Proof.
  intros Ho Hb Hok Hfresh. destruct (Hfresh (w_calls w)) as [Hf _].
  destruct (run_publish_other Hprogress ANCHORS (anchor_history_name a) b ANCHOR_MODE w Hok Hf ltac:(discriminate))
    as (t & w' & Hrun & Hst & Hok' & Hfree & Ht).
  exists t, w'. split_and!.
  - unfold publish_anchor_history_once. apply run_open; [done|]. by eapply run_reads.
  - by eapply opens_stat.
  - done.
  - intros n. destruct (Hfresh n) as [H1' H2']. split; apply Hfree; done.
  - eapply Forall_impl; [exact Ht|]. intros v [Hv1 Hv2]. split; [done|]. by apply Hv2.
Qed.

(** [_replace_anchor] *)
Lemma run_replace a b w :
  opens w ANCHORS -> anchor_bytes a = Ok b -> validate_anchor a = Ok tt -> fits_record b -> dir_ok (w_anchors w) ->
  fresh_temporaries K w ->
  exists t w', replace_anchor a w = (t, w', Ok tt) /\ readable (w_anchors w') ANCHOR_NAME ANCHOR_MODE b /\
    Forall (fun v => same_but ANCHORS w v /\ (same_file ANCHOR_NAME (w_anchors w) (w_anchors v) \/
                                              readable (w_anchors v) ANCHOR_NAME ANCHOR_MODE b)) (t ++ [w']).
Proof.
  intros Ho Hb Ha Hfit Hok Hfresh. set (tmp := py ".tmp-anchor-" ++ hex_of_bytes (urandom (w_calls w) 16)).
  destruct (Hfresh (w_calls w)) as [_ Htmp]. fold tmp in Htmp. set (w0 := count_call w). set (x := w_anchors w) in *.
  assert (Hx0 : directory w0 ANCHORS = x) by apply directory_count.
  destruct (run_create Hprogress ANCHORS tmp b ANCHOR_MODE w0) as (t1 & w1 & t2 & w2 & HK & Hw & Hs2 & Hd2 & Ht); [by rewrite Hx0|].
  rewrite Hx0 in HK, Hw, Hd2. set (i := next_inode x) in *. set (n := mk_inode true ANCHOR_MODE geteuid 1 b) in *.
  set (drop_old := match d_names (with_file tmp n x) !! ANCHOR_NAME with
                   | Some j => with_inodes (alter (add_links (-1)) j) | None => id end).
  set (w3 := on ANCHORS (with_names (insert ANCHOR_NAME i ∘ delete tmp) ∘ drop_old) w2).
  assert (Hne : forall j, d_names x !! ANCHOR_NAME = Some j -> j <> i).
  { intros j Hj ->. destruct (Hok _ _ Hj) as [m Hm]. unfold i in Hm. by rewrite next_inode_fresh in Hm. }
  assert (Hr3 : readable (w_anchors w3) ANCHOR_NAME ANCHOR_MODE b).
  { exists geteuid. fold n. change (w_anchors w3) with (directory w3 ANCHORS). unfold w3. rewrite directory_on_same, Hd2.
    assert (Hi : d_inodes (drop_old (with_file tmp n x)) !! i = Some n).
    { unfold drop_old. destruct (d_names (with_file tmp n x) !! ANCHOR_NAME) as [j|] eqn:Ej; cbn; [|by rewrite lookup_insert_eq].
      cbn in Ej. rewrite lookup_insert_ne in Ej by discriminate.
      rewrite lookup_alter_ne by (by apply Hne). by rewrite lookup_insert_eq. }
    unfold inode_at. cbn [compose with_names d_names d_inodes]. rewrite lookup_insert_eq. exact Hi. }
  assert (Hs3 : same_but ANCHORS w w3).
  { eapply same_but_trans; [apply same_but_count|]. eapply same_but_trans; [exact Hs2|apply same_but_on]. }
  exists ([w0] ++ (((t1 ++ (t2 ++ [w3])) ++ []) ++ [])), w3. split_and!.
  - unfold replace_anchor. apply run_open; [done|]. eapply run_bind; [reflexivity|]. fold tmp. fold w0.
    eapply run_bind; [eapply run_finally|].
    + apply (HK unit (fun fd => payload ← reads (fun _ => anchor_bytes a);
                                 write_all (length payload) ANCHORS fd payload;; replace ANCHORS tmp ANCHOR_NAME)).
      eapply run_reads; [exact Hb|]. eapply run_bind; [exact Hw|].
      unfold replace. rewrite Hd2. cbn [d_names with_file]. rewrite lookup_insert_eq. reflexivity.
    + apply unlink_missing. unfold w3. rewrite directory_on_same. cbn. rewrite lookup_insert_ne by discriminate.
      apply lookup_delete_eq.
    + unfold anchor_published, reads. unfold read_anchor. rewrite (read_bounded_readable _ _ _ _ _ Hr3 Hfit). cbn [mbind result_bind].
      rewrite (anchor_roundtrip _ _ Hb Ha). cbn [mbind result_bind]. by rewrite bool_decide_eq_true_2.
  - done.
  - rewrite !app_nil_r, !Forall_app, !Forall_singleton. apply Forall_app in Ht as [Ht1 Ht2].
    assert (Hmid : forall v, (same_but ANCHORS w0 v /\ d_names (directory v ANCHORS) = <[tmp := next_inode (directory w0 ANCHORS)]> (d_names (directory w0 ANCHORS)) /\
                     same_inodes (directory w0 ANCHORS) (directory v ANCHORS)) ->
              same_but ANCHORS w v /\ (same_file ANCHOR_NAME x (w_anchors v) \/ readable (w_anchors v) ANCHOR_NAME ANCHOR_MODE b)).
    { intros v (Hv1 & Hv2 & Hv3). rewrite Hx0 in Hv2, Hv3. split; [eapply same_but_trans; [apply same_but_count|done]|].
      left. apply same_file_inodes; [done..|]. change (w_anchors v) with (directory v ANCHORS). rewrite Hv2.
      by rewrite lookup_insert_ne by discriminate. }
    split_and!; try (by eapply Forall_impl; [eassumption|]); try done; try (by right).
    left. change (w_anchors w0) with (directory w0 ANCHORS). by rewrite Hx0.
Qed.

Lemma ok_replace_anchor a w : disk_ok w -> all_worlds disk_ok (replace_anchor a) w.
Proof.
  intros Hw. unfold replace_anchor, anchor_published. walk; [by apply ok_draw|].
  apply all_finally; [|intros v Hv; by apply all_suppress, ok_unlink].
  apply all_bind; [by apply ok_open_excl|]. intros ? ? ? _ Hw1. apply all_bind; [by apply ok_fchmod|]. intros ? ? ? _ Hw2.
  walk; [by apply ok_write_all|by apply ok_replace].
Qed.

Lemma ok_history a w : disk_ok w -> all_worlds disk_ok (publish_anchor_history_once a) w.
Proof. intros Hw. unfold publish_anchor_history_once. walk. by apply ok_publish. Qed.
End Run.

(** * Interrupted appends are repaired

    The states an append can be killed in, and what the broker's recovery does
    from each of them. *)

(** The bytes of the next record, the anchor that will cover it, and its bytes. *)
Definition append_documents `{Rfc8785} (rs : list LedgerRecord) (e : DestructionLedgerEntry)
    : result (bytes * DestructionLedgerAnchor * bytes) :=
  current ← anchor_for_records rs;
  let unsigned := unsigned_document e (la_entry_count current + 1) (la_aggregate_sha256 current) in
  digest ← digest_of unsigned;
  raw ← canonical_plain_bytes (JObject (unsigned ++ [(py "record_sha256", JStr digest)]));
  let a := mk_anchor (la_entry_count current + 1) digest in
  b ← anchor_bytes a;
  Ok (raw, a, b).

(** Where an append of [e] to the ledger of [w] can be. *)
Inductive append_state (w : World) (name : pystr) (n : Inode) (b : bytes) (v : World) : Prop :=
| at_start : w_ledger v = w_ledger w -> same_file ANCHOR_NAME (w_anchors w) (w_anchors v) -> append_state w name n b v
| at_temporary tmp : startswith (py ".tmp-") tmp = true -> is_Some (d_names (w_ledger v) !! tmp) -> append_state w name n b v
| at_recorded : w_ledger v = with_file name n (w_ledger w) -> same_file ANCHOR_NAME (w_anchors w) (w_anchors v) ->
    append_state w name n b v
| at_anchored : w_ledger v = with_file name n (w_ledger w) -> readable (w_anchors v) ANCHOR_NAME ANCHOR_MODE b ->
    append_state w name n b v.

Section Append.
Context `{Rfc8785Laws} (K : Kernel) (Hprogress : write_progress).

Lemma validate_anchor_of rs a : anchor_for_records rs = Ok a -> validate_anchor a = Ok tt.
Proof.
  unfold anchor_for_records, construct. intros Ha. apply bind_Ok in Ha as (h & _ & Ha).
  apply bind_Ok in Ha as ([] & Hv & [= <-]). done.
Qed.

Lemma anchor_head rs p a :
  anchor_for_records rs = Ok a -> empty_head = Ok p ->
  la_aggregate_sha256 a = from_option lr_record_sha256 p (last rs) /\ is_hex64 (la_aggregate_sha256 a) = true.
Proof.
  intros Ha Hp. split.
  - unfold anchor_for_records, construct in Ha. apply bind_Ok in Ha as (h & Hh & Ha).
    apply bind_Ok in Ha as ([] & _ & [= <-]). cbn. destruct (last rs); cbn; congruence.
  - apply validate_anchor_of in Ha. unfold validate_anchor in Ha. apply raise_if_Ok, orb_false_iff in Ha as [_ Ha].
    by apply negb_false_iff in Ha.
Qed.

(** Names of a ledger that reads are record names. *)
Lemma ledger_names x rs name : ledger_records x = Ok rs -> is_Some (d_names x !! name) -> startswith (py "destroyed-") name = true.
Proof.
  intros (u & p & Hu & _)%ledger_records_inv Hn%listdir_elem. apply mapR_Forall2 in Hu.
  apply list_elem_of_lookup in Hn as (i & Hi). destruct (Forall2_lookup_l _ _ _ _ _ Hu Hi) as (r & _ & Hr).
  apply bind_Ok in Hr as ([] & Hs%raise_if_Ok%negb_false_iff & _). done.
Qed.

(** The ledger with the new record, and its anchor. *)
Lemma next_record_reads w rs e raw a b uid :
  ledger_records (w_ledger w) = Ok rs -> dir_ok (w_ledger w) -> entry_wf e ->
  d_names (w_ledger w) !! entry_name (le_content_key_id e) = None ->
  append_documents rs e = Ok (raw, a, b) -> fits_record raw ->
  let x' := with_file (entry_name (le_content_key_id e)) (mk_inode true RECORD_MODE uid 1 raw) (w_ledger w) in
  exists r, read_record x' (entry_name (le_content_key_id e)) = Ok r /\ lr_entry r = e /\
    ledger_records x' = Ok (rs ++ [r]) /\ anchor_for_records (rs ++ [r]) = Ok a /\
    lr_generation r = Z.of_nat (length rs) + 1.
Proof.
  intros Hrs Hok He Hfree Hdoc Hfit x'. unfold append_documents in Hdoc. apply bind_Ok in Hdoc as (current & Hcur & Hdoc).
  apply bind_Ok in Hdoc as (digest & Hdig & Hdoc). apply bind_Ok in Hdoc as (raw' & Hraw & Hdoc).
  apply bind_Ok in Hdoc as (b' & Hb & [= -> <- ->]).
  destruct (ledger_records_inv _ _ Hrs) as (u & p & _ & _ & Hh & _ & _).
  destruct (anchor_head _ _ _ Hcur Hh) as [Hprev Hhex]. destruct (anchor_for_records_inv _ _ Hcur) as [Hcount _].
  set (name := entry_name (le_content_key_id e)) in *.
  assert (Hread : readable x' name RECORD_MODE raw).
  { exists uid. unfold inode_at, x', with_file. cbn [d_names d_inodes]. rewrite lookup_insert_eq. cbn. by rewrite lookup_insert_eq. }
  destruct (read_written e (la_entry_count current + 1) (la_aggregate_sha256 current)
              (unsigned_document e (la_entry_count current + 1) (la_aggregate_sha256 current) ++ [(py "record_sha256", JStr digest)])
              raw x' He) as (digest' & Hdig' & Hhex' & Hr); [lia|done| |done..|].
  { unfold entry_document. rewrite Hdig. done. }
  rewrite Hdig in Hdig'. injection Hdig' as <-. fold name in Hr.
  set (r := {| lr_entry := e |}) in Hr. exists r.
  assert (Hall : ledger_records x' = Ok (rs ++ [r])).
  { apply (ledger_records_append (w_ledger w) rs r); [done..| |].
    - cbn. lia.
    - intros p' Hp'. cbn. congruence. }
  split_and!; [done..| |cbn; lia].
  unfold anchor_for_records. rewrite last_snoc. cbn [mbind result_bind lr_record_sha256 r]. unfold construct.
  replace (Z.of_nat (length (rs ++ [r]))) with (la_entry_count current + 1) by (rewrite length_app; cbn; lia).
  assert (Hv : validate_anchor (mk_anchor (la_entry_count current + 1) digest) = Ok tt).
  { unfold validate_anchor. cbn [la_entry_count la_aggregate_sha256]. rewrite Hhex'. by replace (_ <? 0) with false by lia. }
  by rewrite Hv.
Qed.

(** The new record's file. *)
Definition record_inode (raw : bytes) : Inode := mk_inode true RECORD_MODE geteuid 1 raw.

Lemma ledger_of w v : same_but ANCHORS w v -> w_ledger v = w_ledger w.
Proof. intros Hs. exact (Hs LEDGER ltac:(discriminate)). Qed.
Lemma anchors_of w v : same_but LEDGER w v -> w_anchors v = w_anchors w.
Proof. intros Hs. exact (Hs ANCHORS ltac:(discriminate)). Qed.

(** An append runs through its states to the anchored one. *)
Lemma run_append w rs e raw a b :
  ledger_records (w_ledger w) = Ok rs -> disk_ok w -> entry_wf e ->
  d_names (w_ledger w) !! entry_name (le_content_key_id e) = None ->
  append_documents rs e = Ok (raw, a, b) -> fits_record raw -> fits_record b ->
  opens w ANCHORS -> fresh_temporaries K w ->
  let name := entry_name (le_content_key_id e) in
  exists t w', append_entry rs e w = (t, w', Ok e) /\
    w_ledger w' = with_file name (record_inode raw) (w_ledger w) /\ readable (w_anchors w') ANCHOR_NAME ANCHOR_MODE b /\
    Forall (append_state w name (record_inode raw) b) t.
Proof.
  intros Hrs Hok He Hfree Hdoc Hfit Hfitb Ho Hfresh name.
  destruct (next_record_reads w rs e raw a b geteuid Hrs (Hok LEDGER) He Hfree Hdoc Hfit) as (r & Hr & Hre & Hrs' & Ha & _).
  fold name in Hr, Hrs', Hfree. fold (record_inode raw) in Hr, Hrs'.
  destruct (run_publish Hprogress LEDGER name raw RECORD_MODE w) as (t1 & w1 & Hrun1 & Hs1 & Hd1 & Ht1); [|done|discriminate|].
  { destruct (d_names (directory w LEDGER) !! next_temporary w) eqn:E; [|done]. exfalso.
    pose proof (ledger_names _ _ _ Hrs (ex_intro _ _ E)) as Hn. discriminate. }
  change (w_ledger w1 = with_file name (record_inode raw) (w_ledger w)) in Hd1.
  pose proof (anchors_of _ _ Hs1) as Ha1.
  assert (Hok1 : disk_ok w1) by (eapply all_worlds_final; [exact Hrun1|by apply ok_publish]).
  unfold append_documents in Hdoc. apply bind_Ok in Hdoc as (current & Hcur & Hdoc).
  apply bind_Ok in Hdoc as (digest & Hdig & Hdoc). apply bind_Ok in Hdoc as (raw' & Hraw & Hdoc).
  apply bind_Ok in Hdoc as (b' & Hb & [= -> <- ->]). set (a := mk_anchor _ _) in *.
  destruct (run_history K Hprogress a b w1) as (t2 & w2 & Hrun2 & Ho2 & _ & Hf2 & Ht2);
    [by eapply opens_stat; [|exact Ho]; cbn [directory]; rewrite Ha1|done|apply (Hok1 ANCHORS)|intros n; rewrite Ha1; apply Hfresh|].
  assert (Hok2 : disk_ok w2) by (eapply all_worlds_final; [exact Hrun2|by apply ok_history]).
  destruct (run_replace K Hprogress a b w2) as (t3 & w3 & Hrun3 & Hr3 & Ht3);
    [done|done|by eapply validate_anchor_of|done|apply (Hok2 ANCHORS)|done|].
  apply Forall_app in Ht2 as [Ht2 [Hw2 _]%Forall_cons_1]. apply Forall_app in Ht3 as [Ht3 [Hw3 _]%Forall_cons_1].
  destruct Hw2 as [Hs2 Hsame2]. destruct Hw3 as [Hs3 _].
  exists (t1 ++ (t2 ++ (t3 ++ []))), w3. split_and!.
  - unfold append_entry. eapply run_reads; [exact Hcur|]. eapply run_reads.
    { unfold entry_document. rewrite Hdig. cbn [mbind result_bind]. exact Hraw. }
    eapply run_bind; [exact Hrun1|]. eapply run_reads; [rewrite Hd1; exact Hr|].
    eapply run_reads; [rewrite Hd1, Hrs'; exact Ha|]. eapply run_bind; [exact Hrun2|]. eapply run_bind; [exact Hrun3|].
    eapply run_reads; [by rewrite Hre, bool_decide_eq_true_2|]. by rewrite Hre.
  - by rewrite (ledger_of _ _ Hs3), (ledger_of _ _ Hs2).
  - done.
  - rewrite app_nil_r, !Forall_app. split_and!.
    + eapply Forall_impl; [exact Ht1|]. intros v [Hv [Hv'|[Hv'|Hv']]].
      * apply at_start; [exact Hv'|]. unfold same_file. by rewrite (anchors_of _ _ Hv).
      * destruct Hv' as [Hv' _]. by eapply at_temporary; [|exact Hv'].
      * apply at_recorded; [exact Hv'|]. unfold same_file. by rewrite (anchors_of _ _ Hv).
    + eapply Forall_impl; [exact Ht2|]. intros v [Hv Hsame]. apply at_recorded; [by rewrite (ledger_of _ _ Hv)|].
      by rewrite Ha1 in Hsame.
    + eapply Forall_impl; [exact Ht3|]. intros v [Hv Hsame]. assert (Hl : w_ledger v = with_file name (record_inode raw) (w_ledger w)).
      { by rewrite (ledger_of _ _ Hv), (ledger_of _ _ Hs2). }
      destruct Hsame as [Hsame|Hsame]; [apply at_recorded; [done|]|by apply at_anchored].
      unfold same_file in *. by rewrite Hsame, Hsame2, Ha1.
Qed.
End Append.

(** ** The append as the writer runs it *)

Section Record.
Context `{Rfc8785Laws} (K : Kernel) (Hprogress : write_progress).

Lemma ok_record accepted e w : disk_ok w -> all_worlds disk_ok (record_entry accepted e) w.
Proof.
  intros Hw. unfold record_entry, append_entry. walk; [by apply ok_publish|by apply ok_history|by apply ok_replace_anchor].
Qed.

Lemma pure_bind_ok {A B} (m : IO A) (f : A -> IO B) w :
  pure_at m w -> (forall a, result_of m w = Ok a -> pure_at (f a) w) -> pure_at (m ≫= f) w.
Proof.
  intros Hm Hf. unfold pure_at. rewrite (bind_pure m f w Hm). destruct (result_of m w) eqn:E; [by apply Hf|done].
Qed.

Lemma record_states accepted w rs e raw a b v :
  require_current_anchor_locked accepted w = Ok tt -> ledger_records (w_ledger w) = Ok rs -> disk_ok w -> entry_wf e ->
  append_documents rs e = Ok (raw, a, b) -> fits_record raw -> fits_record b ->
  opens w LEDGER -> opens w ANCHORS -> fresh_temporaries K w -> v ∈ outcomes (record_entry accepted e) w ->
  v = w \/ d_names (w_ledger w) !! entry_name (le_content_key_id e) = None /\
           append_state w (entry_name (le_content_key_id e)) (record_inode K raw) b v.
Proof.
  intros Hcur Hrs Hok He Hdoc Hfit Hfitb Hol Hoa Hfresh Hv.
  destruct (List.find (fun r => le_content_key_id (lr_entry r) =? le_content_key_id e) rs) as [r|] eqn:Hfind.
  - left.
    assert (Hp : pure_at (record_entry accepted e) w).
    { apply pure_errors. apply pure_bind_ok; [apply pure_reads|]. intros _ _. apply pure_bind_ok; [apply pure_reads|]. intros _ _.
      apply pure_bind_ok; [apply pure_reads|]. intros rs' Hrs'. unfold result_of, reads in Hrs'. cbn [snd] in Hrs'.
      rewrite Hrs in Hrs'. injection Hrs' as <-. rewrite Hfind. by apply pure_bind; [apply pure_reads|]. }
    unfold outcomes in Hv. rewrite (pure_run _ _ Hp) in Hv. cbn in Hv. set_solver.
  - destruct He as (He & Hu & He'). pose proof (absent_name _ _ _ Hrs Hu Hfind) as Hfree.
    destruct (run_append K Hprogress w rs e raw a b) as (t & w' & Hrun & Hl & Ha & Ht); [done..|].
    assert (Hrec : record_entry accepted e w = (t, w', Ok e)).
    { apply run_errors, run_open; [done|]. eapply run_reads; [exact Hcur|]. eapply run_reads; [exact Hrs|]. by rewrite Hfind. }
    unfold outcomes in Hv. rewrite Hrec in Hv. rewrite elem_of_cons, elem_of_app, list_elem_of_singleton in Hv.
    destruct Hv as [->|[Hv| ->]]; [by left|right; split; [done|]..]; [by eapply Forall_forall in Ht|by apply at_anchored].
Qed.
End Record.

(** ** Recovery *)

(** The directories the recovery is given pass its checks. *)
Definition serviceable (uid : option Z) (w : World) : Prop :=
  validate_directory w LEDGER uid (Z.lor R_OK (Z.lor W_OK X_OK)) = Ok tt /\ validate_anchor_parent w uid = Ok tt.

Lemma validate_opens w d uid access : validate_directory w d uid access = Ok tt -> opens w d.
Proof.
  unfold validate_directory. intros Hv. apply bind_Ok in Hv as ([] & _ & Hv).
  apply bind_Ok in Hv as ([] & Hs%raise_if_Ok & Hv). apply bind_Ok in Hv as ([] & _ & Hv).
  apply bind_Ok in Hv as ([] & Hd%raise_if_Ok & _). apply orb_false_iff in Hs as [Hs _].
  unfold opens, result_of, open_directory, reads. cbn [snd]. by rewrite Hs, Hd.
Qed.

Lemma serviceable_opens uid w : serviceable uid w -> opens w LEDGER /\ opens w ANCHORS.
Proof.
  intros [Hl Ha]. split; [by eapply validate_opens|]. apply bind_Ok in Ha as ([] & Ha & _). by eapply validate_opens.
Qed.

Section Recover.
Context `{Rfc8785Laws} (K : Kernel) (Hprogress : write_progress).

Lemma prefix_app a rs r : anchor_is_prefix a rs = Ok true -> anchor_is_prefix a (rs ++ [r]) = Ok true.
Proof.
  unfold anchor_is_prefix. rewrite length_app. cbn [length]. destruct (Z.ltb_spec (Z.of_nat (length rs)) (la_entry_count a)); [done|].
  destruct (Z.ltb_spec (Z.of_nat (length rs + 1)) (la_entry_count a)); [lia|]. destruct (Z.eqb_spec (la_entry_count a) 0); [done|].
  intros Hp. apply bind_Ok in Hp as (d & Hd%from_option_or_Ok & Hp). apply fmap_Some in Hd as (r' & Hr & ->).
  rewrite lookup_app_l by (by eapply lookup_lt_Some). by rewrite Hr.
Qed.

Lemma prefix_self x rs a : ledger_records x = Ok rs -> anchor_for_records rs = Ok a -> anchor_is_prefix a rs = Ok true.
Proof.
  intros Hx Ha. destruct (ledger_records_inv _ _ Hx) as (_ & p & _ & _ & Hp & _).
  destruct (anchor_head _ _ _ Ha Hp) as [Hh _]. destruct (anchor_for_records_inv _ _ Ha) as [Hn _].
  unfold anchor_is_prefix. rewrite Hn, Z.ltb_irrefl. destruct rs as [|r rs _] using rev_ind.
  - change (Z.of_nat (length []) =? 0) with true. cbn [mbind result_bind]. rewrite Hp. cbn [mbind result_bind]. cbn in Hh. by rewrite bool_decide_eq_true_2.
  - rewrite last_snoc in Hh. rewrite length_app. cbn [length]. destruct (Z.eqb_spec (Z.of_nat (length rs + 1)) 0); [lia|].
    replace (Z.to_nat (Z.of_nat (length rs + 1) - 1)) with (length rs) by lia.
    rewrite lookup_app_r, Nat.sub_diag by lia. cbn [lookup list_lookup fmap option_fmap option_map from_option_or mbind result_bind]. by rewrite bool_decide_eq_true_2.
Qed.

Lemma current_of expected v rs a :
  ledger_records (w_ledger v) = Ok rs -> anchor_for_records rs = Ok a -> read_anchor v = Ok a ->
  anchor_is_prefix expected rs = Ok true -> require_current_anchor_locked (Some expected) v = Ok tt.
Proof.
  intros Hrs Ha Hr Hp. unfold require_current_anchor_locked. rewrite Hr, Hrs. cbn [mbind result_bind]. rewrite Ha.
  cbn [mbind result_bind]. by rewrite bool_decide_eq_true_2, Hp.
Qed.

(** Up to the reading of the records a recovery is the same from any state. *)
Lemma run_recover expected authorized uid v a rs t v' r :
  serviceable uid v -> read_anchor v = Ok a -> ledger_records (w_ledger v) = Ok rs -> anchor_is_prefix expected rs = Ok true ->
  (actual ← reads (fun _ => anchor_for_records rs);
   if bool_decide (a = actual) then mret tt
   else
     local_prefix ← reads (fun _ =>
       if negb (Z.of_nat (length rs) =? la_entry_count a + 1) then Ok false else anchor_is_prefix a rs);
     reads (fun _ => raise_if (negb local_prefix ||
       match last rs with Some r => bool_decide (lr_entry r ∉ authorized) | None => true end) (ValueError ""));;
     publish_anchor_history_once actual;; replace_anchor actual) v = (t, v', Ok r) ->
  recover_pending_append expected authorized uid v = (t, v', Ok r).
Proof.
  intros [Hl Hp] Ha Hrs He Hrun. apply run_errors. eapply run_reads; [exact Hl|]. eapply run_reads.
  { unfold validate_anchor_path. rewrite Hp. cbn [mbind result_bind]. by rewrite Ha. }
  apply run_open; [by eapply validate_opens|]. eapply run_reads; [exact Ha|]. eapply run_reads; [exact Hrs|].
  eapply run_reads; [exact He|]. eapply run_reads; [reflexivity|]. exact Hrun.
Qed.

(** A current ledger is left as it is. *)
Lemma recover_current expected authorized uid v a rs :
  serviceable uid v -> read_anchor v = Ok a -> ledger_records (w_ledger v) = Ok rs -> anchor_for_records rs = Ok a ->
  anchor_is_prefix expected rs = Ok true ->
  recover_pending_append expected authorized uid v = ([], v, Ok tt).
Proof.
  intros Hs Ha Hrs Hf Hp. eapply run_recover; [done..|]. eapply run_reads; [exact Hf|]. by rewrite bool_decide_eq_true_2.
Qed.

Lemma append_anchor rs e raw a b : append_documents rs e = Ok (raw, a, b) -> anchor_bytes a = Ok b.
Proof.
  unfold append_documents. intros Hd. apply bind_Ok in Hd as (current & _ & Hd). apply bind_Ok in Hd as (digest & _ & Hd).
  apply bind_Ok in Hd as (raw' & _ & Hd). by apply bind_Ok in Hd as (b' & Hb & [= -> <- ->]).
Qed.

Lemma read_anchor_readable a b v :
  anchor_bytes a = Ok b -> validate_anchor a = Ok tt -> fits_record b -> readable (w_anchors v) ANCHOR_NAME ANCHOR_MODE b ->
  read_anchor v = Ok a.
Proof.
  intros Hb Ha Hf Hr. unfold read_anchor. rewrite (read_bounded_readable _ _ _ _ _ Hr Hf). by apply anchor_roundtrip.
Qed.

Lemma recovered_at expected authorized uid v a rs (P : list DestructionLedgerEntry -> Prop) :
  serviceable uid v -> read_anchor v = Ok a -> ledger_records (w_ledger v) = Ok rs -> anchor_for_records rs = Ok a ->
  anchor_is_prefix expected rs = Ok true -> P (lr_entry <$> rs) ->
  exists t v', recover_pending_append expected authorized uid v = (t, v', Ok tt) /\
    require_current_anchor_locked (Some expected) v' = Ok tt /\
    exists es, ledger_entries (w_ledger v') = Ok es /\ P es.
Proof.
  intros Hs Ha Hrs Hf Hp HP. exists [], v. split_and!; [by eapply recover_current|by eapply current_of|].
  exists (lr_entry <$> rs). split; [|done]. unfold ledger_entries. by rewrite Hrs.
Qed.

(** A record without its anchor is covered. *)
Lemma recover_pending expected authorized uid v a rs r a' b :
  serviceable uid v -> dir_ok (w_anchors v) -> fresh_temporaries K v ->
  read_anchor v = Ok a -> ledger_records (w_ledger v) = Ok (rs ++ [r]) -> anchor_is_prefix expected (rs ++ [r]) = Ok true ->
  anchor_is_prefix a (rs ++ [r]) = Ok true -> la_entry_count a = Z.of_nat (length rs) ->
  anchor_for_records (rs ++ [r]) = Ok a' -> lr_entry r ∈ authorized -> anchor_bytes a' = Ok b -> fits_record b ->
  exists t v', recover_pending_append expected authorized uid v = (t, v', Ok tt) /\
    readable (w_anchors v') ANCHOR_NAME ANCHOR_MODE b /\ w_ledger v' = w_ledger v.
Proof.
  intros Hs Hok Hfresh Ha Hrs He Hp Hn Ha' Hin Hb Hfit. destruct (serviceable_opens _ _ Hs) as [_ Ho].
  destruct (run_history K Hprogress a' b v) as (t1 & v1 & Hrun1 & Ho1 & Hok1 & Hf1 & Ht1); [done..|].
  destruct (run_replace K Hprogress a' b v1) as (t2 & v2 & Hrun2 & Hr2 & Ht2); [done|done|by eapply validate_anchor_of|done..|].
  apply Forall_app in Ht1 as [_ [[Hs1 _] _]%Forall_cons_1]. apply Forall_app in Ht2 as [_ [[Hs2 _] _]%Forall_cons_1].
  exists (t1 ++ t2), v2. split_and!; [|done|by rewrite (ledger_of _ _ Hs2), (ledger_of _ _ Hs1)].
  eapply run_recover; [done..|]. eapply run_reads; [exact Ha'|].
  assert (Hlen : Z.of_nat (length (rs ++ [r])) = la_entry_count a + 1) by (rewrite length_app; cbn; lia).
  rewrite bool_decide_eq_false_2.
  2:{ intros ->. destruct (anchor_for_records_inv _ _ Ha') as [Hc _]. lia. }
  eapply run_reads; [rewrite Hlen, Z.eqb_refl; exact Hp|]. eapply run_reads.
  { rewrite last_snoc, bool_decide_eq_false_2 by tauto. reflexivity. }
  eapply run_bind; [exact Hrun1|exact Hrun2].
Qed.

Lemma temporary_name s : startswith (py ".tmp-") s = true -> startswith (py "destroyed-") s = true -> False.
Proof.
  change (py ".tmp-") with (46 :: drop 1 (py ".tmp-")). change (py "destroyed-") with (100 :: drop 1 (py "destroyed-")).
  destruct s as [|c s]; [done|]. cbn [startswith]. destruct (Z.eqb_spec 46 c) as [<-|]; done.
Qed.

(** A temporary file in the ledger's directory stops the recovery. *)
Lemma recover_refused expected authorized uid v tmp :
  startswith (py ".tmp-") tmp = true -> is_Some (d_names (w_ledger v) !! tmp) ->
  result_of (recover_pending_append expected authorized uid) v = Err KeyProviderError.
Proof.
  intros Ht Hn. apply fails_errors. do 4 (apply io_fails_bind; [apply pure_reads|]; intros ? _).
  apply io_fails_bind; [apply pure_reads|]. intros rs Hrs. exfalso. unfold result_of, reads in Hrs. cbn [snd] in Hrs.
  by eapply temporary_name, (ledger_names _ _ _ Hrs Hn).
Qed.
End Recover.

(** ** Properties *)

(** C19: an interrupted append is repaired.  A broker records a destruction and
    its process is killed after any system call (or completes); a second
    process then runs the recovery, told the purge was authorized and given an
    anchor accepted before.  The ledger was consistent, the documents fit in a
    record, writes make progress, the directories have the owner and mode the
    broker requires and the temporary names drawn are fresh.  Either the ledger
    and its anchor agree again, and the ledger holds what it held or that and
    the new entry; or the kill left the temporary file of the record behind, and
    then the recovery is refused with [KeyProviderError]. *)
Theorem interrupted_append_recovers `{Rfc8785Laws} (K K' : Kernel) (w v : World) (accepted : option DestructionLedgerAnchor)
    (expected a : DestructionLedgerAnchor) (rs : list LedgerRecord) (e : DestructionLedgerEntry)
    (authorized : list DestructionLedgerEntry) (uid : option Z) (raw b : bytes) :
  @write_progress K -> @write_progress K' -> disk_ok w ->
  require_current_anchor_locked accepted w = Ok tt -> ledger_records (w_ledger w) = Ok rs ->
  entry_wf e -> e ∈ authorized -> append_documents rs e = Ok (raw, a, b) -> fits_record raw -> fits_record b ->
  anchor_is_prefix expected rs = Ok true ->
  v ∈ outcomes (@record_entry _ _ K accepted e) w -> serviceable uid w -> serviceable uid v ->
  fresh_temporaries K w -> fresh_temporaries K' v ->
  (exists t v', @recover_pending_append _ _ K' expected authorized uid v = (t, v', Ok tt) /\
     require_current_anchor_locked (Some expected) v' = Ok tt /\
     exists es, ledger_entries (w_ledger v') = Ok es /\ (es = lr_entry <$> rs \/ es = (lr_entry <$> rs) ++ [e])) \/
  (exists tmp, startswith (py ".tmp-") tmp = true /\ is_Some (d_names (w_ledger v) !! tmp) /\
     result_of (@recover_pending_append _ _ K' expected authorized uid) v = Err KeyProviderError).
Proof.
  intros HK HK' Hok Hcur Hrs He Hin Hdoc Hfit Hfitb Hexp Hv Hsw Hsv Hfw Hfv.
  destruct (serviceable_opens _ _ Hsw) as [Hol Hoa].
  assert (Hokv : disk_ok v) by (pose proof (ok_record K accepted e w Hok) as Hall; by eapply Forall_forall in Hall).
  destruct (current_anchor_records _ _ Hcur) as (rs' & a0 & Hrs' & Ha0 & Hf0 & _). rewrite Hrs in Hrs'. injection Hrs' as <-.
  assert (Hreads : forall v', same_file ANCHOR_NAME (w_anchors w) (w_anchors v') -> read_anchor v' = Ok a0).
  { intros v' Hsame. unfold read_anchor, read_bounded_file in *. by rewrite Hsame. }
  match goal with |- ?L \/ _ => assert (Hstart : w_ledger v = w_ledger w -> read_anchor v = Ok a0 -> L) end.
  { intros Hl Ha. rewrite <- Hl in Hrs. by apply (recovered_at K' expected authorized uid v a0 rs (fun es => es = _ \/ es = _)); auto. }
  destruct (record_states K HK accepted w rs e raw a b v) as [->|[Hfree Hst]]; [done..|left; by apply Hstart|].
  destruct (next_record_reads w rs e raw a b (@geteuid K) Hrs (Hok LEDGER) He Hfree Hdoc Hfit) as (r & _ & <- & Hrs' & Ha' & _).
  fold (record_inode K raw) in Hrs'. pose proof (prefix_app _ _ r Hexp) as Hexp'. destruct (anchor_for_records_inv _ _ Hf0) as [Hcount _].
  pose proof (append_anchor _ _ _ _ _ Hdoc) as Hb. pose proof (validate_anchor_of _ _ Ha') as Hva.
  destruct Hst as [Hl Ha|tmp Ht Hn|Hl Ha|Hl Ha].
  - left. apply Hstart; [done|by apply Hreads].
  - right. exists tmp. split_and!; [done..|]. by eapply recover_refused.
  - left. rewrite <- Hl in Hrs'.
    destruct (recover_pending K' HK' expected authorized uid v a0 rs r a b) as (t & v' & Hrun & Hr & Hlv);
      [done|apply (Hokv ANCHORS)|done|by apply Hreads|done|done| |done..|].
    { eapply prefix_app, prefix_self; done. }
    rewrite <- Hlv in Hrs'. exists t, v'. split_and!; [done| |].
    + eapply current_of; [done|done| |done]. by eapply read_anchor_readable.
    + exists (lr_entry <$> (rs ++ [r])). unfold ledger_entries. rewrite Hrs'. split; [done|right]. by rewrite fmap_app.
  - left. rewrite <- Hl in Hrs'.
    apply (recovered_at K' expected authorized uid v a (rs ++ [r]) (fun es => es = _ \/ es = _)); [done| |done..|].
    + by eapply read_anchor_readable.
    + right. by rewrite fmap_app.
Qed.
