(* ===== verification/LedgerExamples.v ===== *)
(** * LedgerExamples: a ledger of two destructions

    A serializer that satisfies [Rfc8785Laws], a kernel, the disk of a broker
    on which the ledger is provisioned and two keys are recorded, and the
    theorems of the ledger applied to it. *)

From stdpp Require Import base tactics option list gmap strings.
From Stdlib Require Import ZArith Lia Bool Sorted.
From S2P Require Import Prelude Identifiers CanonicalJson Digest Text Samples JsonParse Archive ArchiveTheorems ArchiveSamples Disk DestructionLedger KeyProvider DiskFacts KeySafety LedgerChain LedgerText KeyDestruction LedgerProperties.
Open Scope Z_scope.

(** ** A serializer *)

(** Members in order; what would not read back is refused. *)
Definition checked_dumps `{Interpreter} (fuel : nat) (v : JsonValue) : option bytes :=
  b ← show_json fuel (sort_json v);
  match parse_json_strict b with
  | Ok v' => if bool_decide (v' = sort_json v) then Some b else None
  | Err _ => None
  end.

Definition field_leb {V} (a b : pystr * V) : bool := str_leb a.1 b.1.

Lemma sort_fields_sort_by {V} (l : list (pystr * V)) : sort_fields l = sort_by field_leb l.
Proof.
  induction l as [|kv l IH]; [done|]. cbn. fold (sort_fields l). rewrite IH. fold (sort_by field_leb l).
  generalize (sort_by field_leb l) as m. induction m as [|kv' m IHm]; [done|]. cbn. unfold field_leb at 1. by rewrite IHm.
Qed.

Lemma sort_fields_unique (l l' : list (pystr * JsonValue)) : NoDup l.*1 -> l ≡ₚ l' -> sort_fields l = sort_fields l'.
Proof.
  intros Hn Hp. rewrite !sort_fields_sort_by. apply sort_by_unique.
  - intros x y. apply str_leb_total.
  - intros x y z. apply str_leb_trans.
  - intros [k v] [k' v'] Hx Hy H1 H2. assert (k = k') as <- by by apply str_leb_antisym. f_equal.
    apply (item_at_elem _ _ _ Hn) in Hx, Hy. congruence.
  - apply sort_by_ordered; [intros x y; apply str_leb_total|intros x y z; apply str_leb_trans].
  - by rewrite sort_by_perm.
Qed.

Lemma sort_json_order fuel v v' : json_ok fuel v -> json_equiv v v' -> sort_json v = sort_json v'.
Proof.
  revert v v'. induction fuel as [|fuel IH]; intros v v' Hv He; [done|].
  inversion He as [|l l' Hf|l l1 l' Hn Hp Hf]; subst; [done|..]; cbn [json_ok sort_json] in *.
  - f_equal. clear He. induction Hf as [|a b l l' Hab _ IHl]; [done|]. inversion Hv; subst. rewrite !fmap_cons. f_equal; eauto.
  - destruct Hv as [Hv _]. f_equal. set (f := fun kv : pystr * JsonValue => (kv.1, sort_json kv.2)).
    transitivity (sort_fields (f <$> l1)).
    + apply sort_fields_unique; [|by rewrite Hp]. rewrite <- list_fmap_compose. by replace ((fst ∘ f) <$> l) with l.*1.
    + f_equal. rewrite Hp in Hv. clear -Hf Hv IH.
      induction Hf as [|a b l1 l' [Hk Hab] _ IHl]; [done|]. inversion Hv as [|? ? [_ Ha]]; subst. rewrite !fmap_cons.
      f_equal; [|by apply IHl]. unfold f. rewrite Hk. f_equal. by eapply IH.
Qed.

Lemma checked_laws (limit : Interpreter) (fuel : nat) : @Rfc8785Laws (checked_dumps fuel) limit.
Proof.
  split; unfold rfc8785_dumps, checked_dumps.
  - intros v v' Hv%json_okb_spec He. by rewrite (sort_json_order _ _ _ Hv He).
  - intros v b Hv%json_okb_spec _ Hd. apply bind_Some in Hd as (c & _ & Hd). destruct (parse_json_strict c) as [v'|] eqn:E; [|done].
    case_bool_decide as Heq; [|done]. injection Hd as <-. exists v'. split; [done|]. rewrite Heq. by eapply sort_json_equiv.
Qed.

Definition ledger_limit : Interpreter := {| recursion_limit := 200; integer_digits := ADDRESS_SPACE_DIGITS |}.
Definition checked_rfc8785 : Rfc8785 := @checked_dumps ledger_limit 66.
Definition ledger_laws : @Rfc8785Laws checked_rfc8785 ledger_limit := checked_laws ledger_limit 66.
#[local] Existing Instances ledger_limit checked_rfc8785 ledger_laws.

(** ** A broker's disk *)

Definition broker_kernel : Kernel := {|
  urandom n size := be_bytes size (Z.of_nat n);
  write_accepts n k := k;
  geteuid := 1000;
  umask := 63
|}.
#[local] Existing Instance broker_kernel.

Definition broker_directory (path : list string) : Directory :=
  mk_directory {| ds_absolute := true; ds_dotdot := false; ds_symlink := false; ds_canonical := true;
                  ds_resolved := py <$> path; ds_access := 7; ds_isdir := true; ds_mode := 0x5f8; ds_uid := 1000 |} ∅ ∅.

Definition empty_world : World :=
  mk_world (broker_directory ["srv"; "keys"]) (broker_directory ["srv"; "keys"; "control"])
    (broker_directory ["srv"; "keys"; "material"]) (broker_directory ["srv"; "requests"])
    (broker_directory ["srv"; "ledger"]) (broker_directory ["srv"; "anchors"]) 0.

Definition after {A} (m : IO A) (w : World) : World := let '(_, w', _) := m w in w'.

Definition destroyed_1 : DestructionLedgerEntry := mk_entry (uid 1) (uid 2) (uid 3) (uid 4) (repeat 7 32).
Definition destroyed_2 : DestructionLedgerEntry := mk_entry (uid 5) (uid 2) (uid 3) (uid 6) (repeat 9 32).

Definition provisioned : World := Eval vm_compute in after (initialize_empty_anchor (Some 1000)) empty_world.
Definition ledger_1 : World := Eval vm_compute in after (record_entry None destroyed_1) provisioned.
Definition ledger_2 : World := after (record_entry None destroyed_2) ledger_1.

Example ledger_2_entries : result_of (all_entries None) ledger_2 = Ok [destroyed_1; destroyed_2].
Proof. vm_compute. reflexivity. Qed.

(** ** Checks that evaluate *)

Definition dir_okb (x : Directory) : bool :=
  forallb (fun kv => match d_inodes x !! (kv.2 : Z) with Some _ => true | None => false end) (map_to_list (d_names x)).

Lemma forallb_elem {A} (f : A -> bool) l x : forallb f l = true -> x ∈ l -> f x = true.
Proof. intros Hf Hx%list_elem_of_In. by eapply forallb_forall in Hf. Qed.

Lemma dir_okb_ok x : dir_okb x = true -> dir_ok x.
Proof.
  intros Hf name i Hi%elem_of_map_to_list. pose proof (forallb_elem _ _ _ Hf Hi) as Hx. cbn in Hx.
  destruct (d_inodes x !! i); [by eexists|done].
Qed.

Lemma disk_okb_ok w :
  forallb (fun d => dir_okb (directory w d)) [PROVIDER; CONTROL; MATERIAL; REQUESTS; LEDGER; ANCHORS] = true -> disk_ok w.
Proof. intros Hf d. apply dir_okb_ok, (forallb_elem _ _ d Hf). destruct d; set_solver. Qed.

Lemma no_temporaries K w :
  forallb (fun name => negb (startswith (py ".tmp-") name)) (listdir (w_anchors w)) = true -> fresh_temporaries K w.
Proof.
  intros Hf n.
  assert (Hno : forall name, startswith (py ".tmp-") name = true -> d_names (w_anchors w) !! name = None).
  { intros name Hn. destruct (d_names (w_anchors w) !! name) eqn:E; [|done]. exfalso.
    assert (Hin : name ∈ listdir (w_anchors w)) by (apply listdir_elem; eauto).
    pose proof (forallb_elem _ _ _ Hf Hin) as Hx. cbn beta in Hx. by rewrite Hn in Hx. }
  split; apply Hno; reflexivity.
Qed.

Lemma after_outcome {A} (m : IO A) w : after m w ∈ outcomes m w.
Proof. unfold after, outcomes. destruct (m w) as [[t w'] r]. set_solver. Qed.

Lemma nth_elem {A} (l : list A) i d : (i < length l)%nat -> nth i l d ∈ l.
Proof. intros Hi. apply list_elem_of_In. by apply nth_In. Qed.

(** ** The theorems at work *)

(** The first destruction survives the second. *)
Lemma destroyed_key_never_returns_witness :
  result_of (get_key (Some (mk_anchor 0 [])) false
    (mk_reference (uid 1) LOCAL_KEY_PROVIDER_NAME (REFERENCE_PREFIX ++ uuid_str (uid 1)))) ledger_2 = Err KeyProviderError.
Proof.
  apply (destroyed_key_never_returns ledger_1 ledger_2 None (Some (mk_anchor 0 [])) (uid 1) destroyed_1 false
           (mk_reference (uid 1) LOCAL_KEY_PROVIDER_NAME (REFERENCE_PREFIX ++ uuid_str (uid 1)))
           (mk_identity (uid 1) (uid 2) (uid 3) (uid 4))).
  - apply dir_okb_ok. vm_compute. reflexivity.
  - vm_compute. reflexivity.
  - apply rtc_once. apply (step_record _ None destroyed_2).
    apply after_outcome.
  - vm_compute. reflexivity.
  - reflexivity.
Defined.

(** The ledger of two entries opens under the anchor of the first. *)
Lemma accepted_facts_survive_witness : exists anchor,
  read_anchor ledger_1 = Ok anchor /\ result_of (all_entries (Some anchor)) ledger_2 = Ok [destroyed_1; destroyed_2] /\
  ([destroyed_1] `prefix_of` [destroyed_1; destroyed_2] \/ ledgers_clash (w_ledger ledger_1) (w_ledger ledger_2)).
Proof.
  destruct (read_anchor ledger_1) as [anchor|] eqn:Ha; [|by vm_compute in Ha].
  assert (Hall : result_of (all_entries (Some anchor)) ledger_2 = Ok [destroyed_1; destroyed_2]).
  { vm_compute in Ha. injection Ha as <-. vm_compute. reflexivity. }
  exists anchor. split_and!; [done|exact Hall|].
  apply (accepted_facts_survive ledger_1 ledger_2 None anchor); [vm_compute; reflexivity|exact Ha|exact Hall].
Defined.

(** The second append, killed after the record was published and before the
    anchor was replaced. *)
Definition interrupted : World := nth 12 (outcomes (record_entry None destroyed_2) ledger_1) ledger_1.

Lemma interrupted_outcome : interrupted ∈ outcomes (record_entry None destroyed_2) ledger_1.
Proof. apply nth_elem. apply Nat.ltb_lt. vm_compute. reflexivity. Qed.

Definition records_1 : list LedgerRecord :=
  Eval vm_compute in match ledger_records (w_ledger ledger_1) with Ok rs => rs | Err _ => [] end.
Definition documents_2 : bytes * DestructionLedgerAnchor * bytes :=
  Eval vm_compute in match append_documents records_1 destroyed_2 with Ok d => d | Err _ => ([], mk_anchor 0 [], []) end.
Definition anchor_1 : DestructionLedgerAnchor :=
  Eval vm_compute in match read_anchor ledger_1 with Ok a => a | Err _ => mk_anchor 0 [] end.

Lemma interrupted_append_recovers_witness :
  (exists t v', recover_pending_append anchor_1 [destroyed_2] (Some 1000) interrupted = (t, v', Ok tt) /\
     require_current_anchor_locked (Some anchor_1) v' = Ok tt /\
     exists es, ledger_entries (w_ledger v') = Ok es /\ (es = [destroyed_1] \/ es = [destroyed_1; destroyed_2])) \/
  (exists tmp, startswith (py ".tmp-") tmp = true /\ is_Some (d_names (w_ledger interrupted) !! tmp) /\
     result_of (recover_pending_append anchor_1 [destroyed_2] (Some 1000)) interrupted = Err KeyProviderError).
Proof.
  apply (interrupted_append_recovers broker_kernel broker_kernel ledger_1 interrupted None anchor_1 documents_2.1.2 records_1
           destroyed_2 [destroyed_2] (Some 1000) documents_2.1.1 documents_2.2).
  - intros n k Hk. exact Hk.
  - intros n k Hk. exact Hk.
  - apply disk_okb_ok. vm_compute. reflexivity.
  - vm_compute. reflexivity.
  - vm_compute. reflexivity.
  - split_and!; try (vm_compute; done). repeat constructor; vm_compute; done.
  - apply list_elem_of_here.
  - vm_compute. reflexivity.
  - split; vm_compute; discriminate.
  - split; vm_compute; discriminate.
  - vm_compute. reflexivity.
  - apply interrupted_outcome.
  - split; vm_compute; reflexivity.
  - split; vm_compute; reflexivity.
  - apply no_temporaries. vm_compute. reflexivity.
  - apply no_temporaries. vm_compute. reflexivity.
Defined.

(** Killed while the temporary file of the record exists, the ledger can
    neither be read nor recovered. *)
Definition stuck : World := nth 3 (outcomes (record_entry None destroyed_2) ledger_1) ledger_1.

Example stuck_refused :
  result_of (recover_pending_append anchor_1 [destroyed_2] (Some 1000)) stuck = Err KeyProviderError /\
  result_of (all_entries None) stuck = Err KeyProviderError /\
  result_of (lookup_entry None (uid 1)) stuck = Err KeyProviderError.
Proof. vm_compute. done. Qed.

(** ** Keys *)

Definition reference_of (n : Z) : ContentKeyReference :=
  mk_reference (uid n) LOCAL_KEY_PROVIDER_NAME (REFERENCE_PREFIX ++ uuid_str (uid n)).
Definition identity_of (n : Z) : KeyIdentity := mk_identity (uid n) (uid 2) (uid 3) (uid (n + 1)).

Definition keys_7 : World := Eval vm_compute in after (provision_key None false (identity_of 7)) provisioned.

Definition request_7 : DestructionLedgerEntry := mk_entry (uid 7) (uid 2) (uid 3) (uid 8) (be_bytes 32 4).

Lemma run_of {A} (m : IO A) w b : result_of m w = Ok b -> m w = ((m w).1.1, (m w).1.2, Ok b).
Proof. unfold result_of. destruct (m w) as [[t w'] r]. by cbn; intros ->. Qed.

Lemma requested_key_is_gone_witness :
  destroyed_with (uid 7) request_7 (after (destroy_key None (reference_of 7) (Some request_7)) keys_7).
Proof.
  assert (Hr : result_of (destroy_key None (reference_of 7) (Some request_7)) keys_7 = Ok (le_receipt request_7)) by (vm_compute; reflexivity).
  apply run_of in Hr. unfold after. rewrite Hr.
  apply (requested_key_is_gone None (reference_of 7) request_7 keys_7 _ _ (le_receipt request_7) eq_refl Hr).
Defined.

(** A destruction without a request reads the key from the record and not from
    the reference: an active record that names another key. *)
Definition keys_79 : World := Eval vm_compute in after (provision_key None false (identity_of 9)) keys_7.
Definition misnamed : World :=
  match inode_at (w_control keys_79) (active_name (uid 9)) with
  | Some n => on CONTROL (with_file (active_name (uid 7)) n) keys_79
  | None => keys_79
  end.

Example misnamed_record_destroys_other :
  let w := after (destroy_key None (reference_of 7) None) misnamed in
  is_ok (result_of (destroy_key None (reference_of 7) None) misnamed) = true /\
  is_Some (d_names (w_material w) !! material_name (uid 7)) /\ d_names (w_material w) !! material_name (uid 9) = None.
Proof. vm_compute. split_and!; [done|by eexists|done]. Qed.
