(* ===== verification/SealedContent.v ===== *)
(** * SealedContent: authenticated envelopes for sensitive memories

    Models [security/sealed_content.py] (context, envelope, sealing and
    opening) and [application/sealed_content.py] (requests, the inner document,
    digest binding and the decryption of a stored memory).  AES-256-GCM, the
    key provider and pydantic's reading of the inner document are parameters;
    HMAC-SHA-256 is written out.  The nonce drawn for a call is an argument. *)

From stdpp Require Import base tactics option list gmap strings.
From Stdlib Require Import ZArith Lia Bool.
From S2P Require Import Prelude Identifiers Enums Values CanonicalJson Digest Text Regex IsoFormat JsonParse Constraints Events Folding EventStore Archive Disk DestructionLedger KeyProvider.
Open Scope Z_scope.

(** ** Constants *)

Definition SEALED_ENVELOPE_VERSION : Z := 1.
Definition SEALED_ENVELOPE_CONTRACT : pystr := py "scalevault.sealed-content-envelope.v1".
Definition SEALED_AAD_CONTRACT : pystr := py "scalevault.sealed-content-aad.v1".
Definition SEALED_ALGORITHM : pystr := py "AES-256-GCM".
Definition NONCE_BYTES : Z := 12.
Definition AUTHENTICATION_TAG_BYTES : Z := 16.
Definition AAD_SHA256_BYTES : Z := 32.
Definition MIN_SEALED_PLAINTEXT_BYTES : Z := 1.
Definition MAX_SEALED_PLAINTEXT_BYTES : Z := 700 * 1024.
Definition MIN_SEALED_CIPHERTEXT_BYTES : Z := MIN_SEALED_PLAINTEXT_BYTES + AUTHENTICATION_TAG_BYTES.
Definition MAX_SEALED_CIPHERTEXT_BYTES : Z := MAX_SEALED_PLAINTEXT_BYTES + AUTHENTICATION_TAG_BYTES.
Definition MAX_SAFE_SUMMARY_CHARACTERS : Z := 1024.
Definition MAX_SAFE_SUMMARY_UTF8_BYTES : Z := 4096.

Definition size_in (lo hi : Z) (b : bytes) : bool := (lo <=? Z.of_nat (length b)) && (Z.of_nat (length b) <=? hi).

(** [_validate_safe_summary]; a surrogate has no UTF-8 encoding. *)
Definition safe_summary_ok (s : pystr) : bool :=
  length_between 1 MAX_SAFE_SUMMARY_CHARACTERS s && negb (is_blank s)
  && match utf8_length s with Some n => n <=? MAX_SAFE_SUMMARY_UTF8_BYTES | None => false end.

(** ** Context *)

Record SealedContentContext : Type := {
  sx_tenant_id : UUID; sx_lineage_id : UUID; sx_branch_id : UUID; sx_memory_id : UUID; sx_content_key_id : UUID;
  sx_revision : Z; sx_event_id : UUID; sx_schema_version : Z; sx_payload_version : Z
}.

(** [SealedContentContext.__post_init__] *)
Definition validate_context (c : SealedContentContext) : result unit :=
  mapR require_uuid7 [sx_tenant_id c; sx_lineage_id c; sx_branch_id c; sx_memory_id c; sx_content_key_id c; sx_event_id c];;
  raise_if (existsb (fun n => negb ((1 <=? n) && (n <=? 32767))) [sx_revision c; sx_schema_version c; sx_payload_version c])
    (ValueError "must be between 1 and 32767").

Definition aad_document (c : SealedContentContext) : JsonValue :=
  JObject [(py "aad_contract", JStr SEALED_AAD_CONTRACT); (py "algorithm", JStr SEALED_ALGORITHM);
    (py "branch_id", JStr (uuid_str (sx_branch_id c))); (py "content_key_id", JStr (uuid_str (sx_content_key_id c)));
    (py "event_id", JStr (uuid_str (sx_event_id c))); (py "lineage_id", JStr (uuid_str (sx_lineage_id c)));
    (py "memory_id", JStr (uuid_str (sx_memory_id c))); (py "payload_version", JInt (sx_payload_version c));
    (py "revision", JInt (sx_revision c)); (py "schema_version", JInt (sx_schema_version c));
    (py "tenant_id", JStr (uuid_str (sx_tenant_id c)))].

Definition aad_bytes `{Rfc8785} (c : SealedContentContext) : result bytes := canonical_plain_bytes (aad_document c).

(** ** Envelope *)

Record SealedContentEnvelope : Type := {
  env_content_key_id : UUID; env_nonce : bytes; env_ciphertext : bytes; env_aad_sha256 : bytes; env_safe_summary : pystr;
  env_envelope_version : Z; env_algorithm : pystr
}.

(** [SealedContentEnvelope.__post_init__] *)
Definition envelope_ok (e : SealedContentEnvelope) : bool :=
  is_uuid7 (env_content_key_id e) && (env_envelope_version e =? SEALED_ENVELOPE_VERSION)
  && bool_decide (env_algorithm e = SEALED_ALGORITHM) && (Z.of_nat (length (env_nonce e)) =? NONCE_BYTES)
  && size_in MIN_SEALED_CIPHERTEXT_BYTES MAX_SEALED_CIPHERTEXT_BYTES (env_ciphertext e)
  && (Z.of_nat (length (env_aad_sha256 e)) =? AAD_SHA256_BYTES) && safe_summary_ok (env_safe_summary e).

Definition sealed_envelope (e : SealedContentEnvelope) : result SealedContentEnvelope :=
  raise_if (negb (envelope_ok e)) InvalidSealedEnvelopeError;; Ok e.

Definition to_json_document (e : SealedContentEnvelope) : json_dict :=
  [(py "contract_version", JStr SEALED_ENVELOPE_CONTRACT); (py "envelope_version", JInt (env_envelope_version e));
   (py "algorithm", JStr (env_algorithm e)); (py "content_key_id", JStr (uuid_str (env_content_key_id e)));
   (py "nonce", JStr (b64encode (env_nonce e))); (py "ciphertext", JStr (b64encode (env_ciphertext e)));
   (py "aad_sha256", JStr (hex_of_bytes (env_aad_sha256 e))); (py "safe_summary", JStr (env_safe_summary e))].

Definition ENVELOPE_FIELDS : list pystr :=
  py <$> ["contract_version"; "envelope_version"; "algorithm"; "content_key_id"; "nonce"; "ciphertext"; "aad_sha256";
          "safe_summary"]%string.

(** [_decode_canonical_base64] *)
Definition decode_canonical_base64 (value : pystr) : option bytes :=
  decoded ← b64decode value;
  if bool_decide (b64encode decoded = value) then Some decoded else None.

Definition is_upper (c : Z) : bool := (65 <=? c) && (c <=? 90).

(** [SealedContentEnvelope.from_json_document]; every failure is the same error. *)
Definition from_json_document (document : json_dict) : result SealedContentEnvelope :=
  from_option_or
    (guard (has_fields ENVELOPE_FIELDS document = true);;
     guard (get_item (py "contract_version") document = Some (JStr SEALED_ENVELOPE_CONTRACT));;
     match get_item (py "content_key_id") document, get_item (py "nonce") document, get_item (py "ciphertext") document,
           get_item (py "aad_sha256") document, get_item (py "envelope_version") document,
           get_item (py "algorithm") document, get_item (py "safe_summary") document with
     | Some (JStr key), Some (JStr nonce_text), Some (JStr ciphertext_text), Some (JStr aad_text), Some (JInt version),
       Some (JStr algorithm), Some (JStr safe_summary) =>
       content_key_id ← uuid_of_str key;
       guard (Z.of_nat (length aad_text) = AAD_SHA256_BYTES * 2 /\ existsb is_upper aad_text = false);;
       nonce ← decode_canonical_base64 nonce_text;
       ciphertext ← decode_canonical_base64 ciphertext_text;
       aad ← fromhex aad_text;
       let e := {| env_content_key_id := content_key_id; env_nonce := nonce; env_ciphertext := ciphertext;
                   env_aad_sha256 := aad; env_safe_summary := safe_summary; env_envelope_version := version;
                   env_algorithm := algorithm |} in
       if envelope_ok e then Some e else None
     | _, _, _, _, _, _, _ => None
     end) InvalidSealedEnvelopeError.

(** ** Sealing and opening *)

(** [AESGCM(key)] of the cryptography library; [None] is a raised error. *)
Class Aead : Type := {
  aead_encrypt : bytes -> bytes -> bytes -> bytes -> option bytes;
  aead_decrypt : bytes -> bytes -> bytes -> bytes -> option bytes
}.

(** A key provider as its clients see it; [None] is a raised error. *)
Record Provider : Type := {
  kp_name : pystr;
  kp_get_key : ContentKeyReference -> option bytes;
  kp_provision_key : UUID -> UUID -> UUID -> UUID -> option ContentKeyReference
}.

Section Sealing.
Context `{Rfc8785} `{Aead}.

Definition seal_content (key plaintext : bytes) (context : SealedContentContext) (safe_summary : pystr) (nonce : bytes)
    : result SealedContentEnvelope :=
  raise_if (negb (size_in MIN_SEALED_PLAINTEXT_BYTES MAX_SEALED_PLAINTEXT_BYTES plaintext)) InvalidSealedEnvelopeError;;
  raise_if (negb (safe_summary_ok safe_summary)) InvalidSealedEnvelopeError;;
  raise_if (negb (Z.of_nat (length nonce) =? NONCE_BYTES)) (SealedContentError "sealed content encryption failed");;
  aad ← aad_bytes context;
  ciphertext ← from_option_or (aead_encrypt key nonce plaintext aad) (SealedContentError "sealed content encryption failed");
  sealed_envelope {| env_content_key_id := sx_content_key_id context; env_nonce := nonce; env_ciphertext := ciphertext;
                     env_aad_sha256 := sha256 aad; env_safe_summary := safe_summary;
                     env_envelope_version := SEALED_ENVELOPE_VERSION; env_algorithm := SEALED_ALGORITHM |}.

Definition open_content (key : bytes) (envelope : SealedContentEnvelope) (context : SealedContentContext) : result bytes :=
  aad ← aad_bytes context;
  raise_if (negb (env_content_key_id envelope =? sx_content_key_id context)
            || negb (bool_decide (env_aad_sha256 envelope = sha256 aad))) SealedContentAuthenticationError;;
  plaintext ← from_option_or (aead_decrypt key (env_nonce envelope) (env_ciphertext envelope) aad)
                SealedContentAuthenticationError;
  raise_if (negb (size_in MIN_SEALED_PLAINTEXT_BYTES MAX_SEALED_PLAINTEXT_BYTES plaintext)) SealedContentAuthenticationError;;
  Ok plaintext.

(** [_key_from_provider] *)
Definition key_from_provider (provider : Provider) (reference : ContentKeyReference) (context : SealedContentContext)
    : result bytes :=
  raise_if (negb (cr_content_key_id reference =? sx_content_key_id context)) SealedContentKeyUnavailableError;;
  raise_if (negb (bool_decide (kp_name provider = cr_provider_name reference))) SealedContentKeyUnavailableError;;
  from_option_or (kp_get_key provider reference) SealedContentKeyUnavailableError.

Definition seal_with_provider (provider : Provider) (reference : ContentKeyReference) (plaintext : bytes)
    (context : SealedContentContext) (safe_summary : pystr) (nonce : bytes) : result SealedContentEnvelope :=
  key ← key_from_provider provider reference context;
  seal_content key plaintext context safe_summary nonce.

Definition open_with_provider (provider : Provider) (reference : ContentKeyReference) (envelope : SealedContentEnvelope)
    (context : SealedContentContext) : result bytes :=
  key ← key_from_provider provider reference context;
  open_content key envelope context.
End Sealing.

(** ** The event's representation *)

Definition envelope_fields (e : SealedContentEnvelope) : SealedContentEnvelopeState :=
  {| sc_content_key_id := env_content_key_id e; sc_nonce := b64encode (env_nonce e);
     sc_ciphertext := b64encode (env_ciphertext e); sc_aad_sha256 := hex_of_bytes (env_aad_sha256 e);
     sc_safe_summary := env_safe_summary e |}.

(** [envelope_state]: [model_validate(envelope.to_json_document())] *)
Definition envelope_state (e : SealedContentEnvelope) : result SealedContentEnvelopeState :=
  raise_if (negb (sealed_fields_ok (envelope_fields e))) (ValidationError "sealed_content");;
  except_value_error (validate_envelope_bounds (envelope_fields e)) (ValidationError "sealed_content");;
  Ok (envelope_fields e).

(** [state.model_dump(mode="json")] *)
Definition state_document (s : SealedContentEnvelopeState) : json_dict :=
  [(py "contract_version", JStr SEALED_ENVELOPE_CONTRACT); (py "envelope_version", JInt SEALED_ENVELOPE_VERSION);
   (py "algorithm", JStr SEALED_ALGORITHM); (py "content_key_id", JStr (uuid_str (sc_content_key_id s)));
   (py "nonce", JStr (sc_nonce s)); (py "ciphertext", JStr (sc_ciphertext s)); (py "aad_sha256", JStr (sc_aad_sha256 s));
   (py "safe_summary", JStr (sc_safe_summary s))].

Definition envelope_primitive (s : SealedContentEnvelopeState) : result SealedContentEnvelope :=
  from_json_document (state_document s).

(** ** The inner document *)

Record SealedContentRequest : Type := { sq_safe_summary : pystr }.

(** [SealedContentRequest.validate_safe_summary] *)
Definition validate_sealed_request (r : SealedContentRequest) : result unit :=
  raise_if (negb (length_between 1 1024 (sq_safe_summary r))) (ValidationError "safe_summary");;
  raise_if (is_blank (sq_safe_summary r)
            || match utf8_length (sq_safe_summary r) with Some n => 4096 <? n | None => true end)
    (ValidationError "sealed-content safe summary is invalid").

Definition PLAINTEXT_CONTRACT : pystr := py "scalevault.sealed-memory-plaintext.v1".

(** [contract_version] has one value. *)
Record SealedMemoryPlaintext : Type := {
  sp_statement : pystr; sp_reason_to_remember : pystr; sp_interpretation_limits : list pystr; sp_metadata : json_dict
}.

Definition sealed_plaintext (p : SealedMemoryPlaintext) : result SealedMemoryPlaintext :=
  raise_if (negb (length_between 1 8192 (sp_statement p) && length_between 1 4096 (sp_reason_to_remember p)
                  && forallb (length_between 1 1024) (sp_interpretation_limits p)
                  && (length (sp_interpretation_limits p) <=? 32)%nat && (length (sp_metadata p) <=? 128)%nat))
    (ValidationError "sealed plaintext field");;
  raise_if (is_blank (sp_statement p) || is_blank (sp_reason_to_remember p))
    (ValidationError "sealed plaintext content is invalid");;
  raise_if (negb (nodupb (sp_interpretation_limits p))) (ValidationError "sealed interpretation limits must be unique");;
  Ok p.

Definition plaintext_document (p : SealedMemoryPlaintext) : JsonValue :=
  JObject [(py "contract_version", JStr PLAINTEXT_CONTRACT); (py "statement", JStr (sp_statement p));
    (py "reason_to_remember", JStr (sp_reason_to_remember p));
    (py "interpretation_limits", JArray (JStr <$> sp_interpretation_limits p)); (py "metadata", JObject (sp_metadata p))].

Definition plaintext_bytes `{Rfc8785} (p : SealedMemoryPlaintext) : result bytes := canonical_plain_bytes (plaintext_document p).

(** ** Digest binding *)

Definition xor_byte (mask : Z) (b : bytes) : bytes := Z.lxor mask <$> b.

(** [hmac.new(key, message, hashlib.sha256).digest()] *)
Definition hmac_sha256 (key message : bytes) : bytes :=
  let short := if (64 <? length key)%nat then sha256 key else key in
  let block := short ++ replicate (64 - length short) 0 in
  sha256 (xor_byte 0x5c block ++ sha256 (xor_byte 0x36 block ++ message)).

(** [HmacSha256SealedDigestBinder(secret).bind_digest]; a purpose is ASCII. *)
Definition hmac_binder (secret : bytes) : option (string -> bytes -> option bytes) :=
  if (length secret <? 32)%nat then None
  else Some (fun purpose material =>
    let purpose_bytes := py purpose in
    if (length purpose_bytes =? 0)%nat || (64 <? length purpose_bytes)%nat then None
    else Some (hmac_sha256 secret ([0; Z.of_nat (length purpose_bytes)] ++ purpose_bytes ++ material))).

(** [bind_sealed_digest] *)
Definition bind_sealed_digest (binder : option (string -> bytes -> option bytes)) (purpose : string) (material : bytes)
    : result bytes :=
  digest ← from_option_or (bind ← binder; bind purpose material) (ValueError "sealed digest binding unavailable");
  raise_if (negb (length digest =? 32)%nat) (ValueError "sealed digest binding unavailable");;
  Ok digest.

(** ** Reading a sealed memory *)

(** [SealedMemoryPlaintext.model_validate_json]; [None] is a raised error. *)
Class PlaintextReader : Type := read_plaintext : bytes -> option SealedMemoryPlaintext.

Definition opened_memory (state : MemoryState) (p : SealedMemoryPlaintext) : MemoryState := {|
  ms_version := MemoryStateV2 (ms_candidate_expires_at state); ms_memory_id := ms_memory_id state;
  ms_tenant_id := ms_tenant_id state; ms_lineage_id := ms_lineage_id state; ms_branch_id := ms_branch_id state;
  ms_subject_id := ms_subject_id state; ms_subject_kind := ms_subject_kind state; ms_revision := ms_revision state;
  ms_category := ms_category state; ms_ontological_status := ms_ontological_status state; ms_scope := ms_scope state;
  ms_visibility := ms_visibility state; ms_status := ms_status state; ms_statement := Some (sp_statement p);
  ms_reason_to_remember := Some (sp_reason_to_remember p); ms_interpretation_limits := sp_interpretation_limits p;
  ms_confidence := ms_confidence state; ms_salience := ms_salience state; ms_durability := ms_durability state;
  ms_sensitivity := ms_sensitivity state; ms_authority_class := ms_authority_class state;
  ms_valid_from := ms_valid_from state; ms_valid_to := ms_valid_to state; ms_observed_at := ms_observed_at state;
  ms_origin_session_id := ms_origin_session_id state; ms_publication_approved_at := ms_publication_approved_at state;
  ms_publication_approved_by_actor_id := ms_publication_approved_by_actor_id state;
  ms_content_protection := ms_content_protection state; ms_content_key_id := ms_content_key_id state;
  ms_created_at := ms_created_at state; ms_updated_at := ms_updated_at state;
  ms_fingerprint_version := ms_fingerprint_version state; ms_normalized_fingerprint := ms_normalized_fingerprint state;
  ms_metadata := sp_metadata p |}.

(** [decrypt_memory_state] with its default opener, of a [MemoryStateV3]. *)
Definition decrypt_memory_state `{Rfc8785} `{Aead} `{PlaintextReader} (state : MemoryState)
    (sealed : SealedContentEnvelopeState) (provider : Provider) (reference : ContentKeyReference)
    (context : SealedContentContext) : result MemoryState :=
  envelope ← envelope_primitive sealed;
  raw ← open_with_provider provider reference envelope context;
  plaintext ← from_option_or (read_plaintext raw) (ValueError "sealed memory plaintext is invalid");
  except_value_error (validate_memory (opened_memory state plaintext)) (ValidationError "memory");;
  Ok (opened_memory state plaintext).
