(* ===== verification/SealedContentTheorems.v ===== *)
(** * SealedContentTheorems: envelopes open, and only where they were sealed

    What is relied on of AES-256-GCM ([AeadLaws]), the round trip of an
    envelope through its event representation, the binding of an envelope to
    its context, and the opening of what was sealed. *)

From stdpp Require Import base tactics option list gmap strings.
From Stdlib Require Import ZArith Lia Bool.
From S2P Require Import Prelude Identifiers Enums Values CanonicalJson Digest Text Regex IsoFormat JsonParse Constraints Events Folding EventStore EventStoreTheorems OutboxProgress Archive ArchiveTheorems Disk DestructionLedger KeyProvider DiskFacts KeySafety LedgerChain LedgerText SealedContent.
Open Scope Z_scope.

(** Documented of AES-256-GCM: the ciphertext is the plaintext's length with a
    tag of 16 bytes, and decrypts to the plaintext under the same key, nonce
    and associated data. *)
Class AeadLaws `{Aead} : Prop := aead_opens key nonce plaintext aad ciphertext :
  aead_encrypt key nonce plaintext aad = Some ciphertext ->
  Forall is_byte ciphertext /\ length ciphertext = (length plaintext + 16)%nat /\
  aead_decrypt key nonce ciphertext aad = Some plaintext.

(** ** Encodings *)

Lemma hex_digit_class v : 0 <= v < 16 -> hex_value (hex_digit v) = Some v /\ is_ascii_space (hex_digit v) = false.
Proof.
  intros Hv. unfold hex_digit, hex_value, is_ascii_space. destruct (v <? 10) eqn:E.
  - replace ((48 <=? 48 + v) && (48 + v <=? 57)) with true by lia. split; [f_equal; lia|lia].
  - replace ((48 <=? 87 + v) && (87 + v <=? 57)) with false by lia.
    replace ((97 <=? 87 + v) && (87 + v <=? 102)) with true by lia. split; [f_equal; lia|lia].
Qed.

Lemma fromhex_hex b : Forall is_byte b -> fromhex (hex_of_bytes b) = Some b.
Proof.
  induction 1 as [|x b Hx Hb IH]; [done|]. unfold is_byte in Hx.
  change (hex_of_bytes (x :: b)) with (hex_digits 2 x ++ hex_of_bytes b). cbn [hex_digits app].
  destruct (hex_digit_class (x / 16 mod 16)) as [H1 S1]; [apply Z.mod_pos_bound; lia|].
  destruct (hex_digit_class (x mod 16)) as [H2 _]; [apply Z.mod_pos_bound; lia|].
  cbn [fromhex]. rewrite S1, H1, H2, IH. cbn. f_equal. f_equal. Z.div_mod_to_equations; lia.
Qed.

Lemma be_bytes_bytes n v : Forall is_byte (be_bytes n v).
Proof.
  revert v. induction n as [|n IH]; intros v; [constructor|]. cbn [be_bytes]. apply Forall_app. split; [apply IH|].
  constructor; [|constructor]. apply Z.mod_pos_bound. lia.
Qed.

Lemma sha256_bytes b : Forall is_byte (sha256 b).
Proof.
  unfold sha256. apply Forall_join, Forall_fmap, Forall_forall. intros v _. apply be_bytes_bytes.
Qed.

Lemma b64_shape_encode b : Forall is_byte b -> b64_shape (b64encode b) = true.
Proof.
  assert (Hn : forall v, 0 <= v < 64 -> is_none (b64_value (b64_char v)) = false) by (intros v Hv; by rewrite b64_value_char).
  assert (Hp : forall v, 0 <= v < 64 -> (b64_char v =? 61) = false) by (intros v Hv; apply Z.eqb_neq; by apply b64_char_not_pad).
  revert b. fix IH 1. intros [|x [|y [|z b]]]; unfold is_byte; intros Hb; cbn [b64encode b64_shape]; [done| | |];
    repeat (apply Forall_cons in Hb as [? Hb]); rewrite ?Hn, ?Hp by (Z.div_mod_to_equations; lia).
  - reflexivity.
  - rewrite Z.eqb_refl. reflexivity.
  - cbn [negb andb]. by apply IH.
Qed.

Lemma hex_digest_sha256 b : hex_digest_ok (hex_of_bytes (sha256 b)) = true.
Proof.
  unfold hex_digest_ok. destruct (hex_of_bytes_hex (sha256 b)) as [Hh Hl]. rewrite Hl, sha256_length. apply andb_true_iff.
  split; [exact Hh|reflexivity].
Qed.

Lemma hex_no_upper b : existsb is_upper (hex_of_bytes b) = false.
Proof.
  apply not_true_iff_false. intros (c & Hc & Hu)%existsb_exists. destruct (hex_of_bytes_hex b) as [Hh _].
  rewrite forallb_forall in Hh. specialize (Hh c Hc). unfold is_hex, is_digit, is_upper in *. lia.
Qed.

(** ** Envelopes *)

(** The fields whose encodings read back. *)
Record envelope_bytes (e : SealedContentEnvelope) : Prop := {
  eb_ok : envelope_ok e = true;
  eb_id : uuid_range (env_content_key_id e);
  eb_nonce : Forall is_byte (env_nonce e);
  eb_ciphertext : Forall is_byte (env_ciphertext e);
  eb_aad : exists b, env_aad_sha256 e = sha256 b
}.

Ltac split_envelope H :=
  unfold envelope_ok in H; rewrite !andb_true_iff in H; destruct H as [[[[[[?Hid ?Hver] ?Halg] ?Hnl] ?Hcl] ?Hal] ?Hsum].

Lemma envelope_state_Ok e : envelope_bytes e -> envelope_state e = Ok (envelope_fields e).
Proof.
  intros [Hok _ Hn Hc (b & Hb)]. split_envelope Hok. unfold envelope_state, sealed_fields_ok, validate_envelope_bounds, envelope_fields.
  cbn [sc_content_key_id sc_nonce sc_ciphertext sc_aad_sha256 sc_safe_summary].
  rewrite Hid, !b64_shape_encode, Hb, hex_digest_sha256, !b64_roundtrip by assumption. cbn [andb from_option_or mbind result_bind].
  unfold safe_summary_ok in Hsum. rewrite !andb_true_iff in Hsum. destruct Hsum as [[Hlen Hblank] Hutf].
  change MAX_SAFE_SUMMARY_CHARACTERS with 1024 in Hlen. rewrite Hlen, !bool_decide_eq_true_2 by reflexivity.
  apply negb_true_iff in Hblank. rewrite Hblank. 
  assert (H12 : (length (env_nonce e) =? 12)%nat = true) by (apply Z.eqb_eq in Hnl; unfold NONCE_BYTES in Hnl; apply Nat.eqb_eq; lia).
  rewrite H12.
  unfold size_in in Hcl. change MIN_SEALED_CIPHERTEXT_BYTES with 17 in Hcl. change MAX_SEALED_CIPHERTEXT_BYTES with 716816 in Hcl.
  rewrite Hcl. cbn [negb orb raise_if]. cbn [mbind result_bind]. destruct (utf8_length (env_safe_summary e)) as [n|]; [|discriminate].
  unfold MAX_SAFE_SUMMARY_UTF8_BYTES in Hutf. replace (4096 <? n) with false by lia. reflexivity.
Qed.

(** An envelope reads back from its JSON document. *)
Lemma from_document_Ok e : envelope_bytes e -> from_json_document (to_json_document e) = Ok e.
Proof.
  intros [Hok Hr Hn Hc (b & Hb)]. pose proof Hok as Hall. split_envelope Hok.
  assert (Hkey : uuid_of_str (uuid_str (env_content_key_id e)) = Some (env_content_key_id e)) by by apply uuid_of_str_uuid.
  assert (Hhex : Z.of_nat (length (hex_of_bytes (env_aad_sha256 e))) = AAD_SHA256_BYTES * 2 /\
                 existsb is_upper (hex_of_bytes (env_aad_sha256 e)) = false).
  { split; [|apply hex_no_upper]. rewrite (proj2 (hex_of_bytes_hex _)). unfold AAD_SHA256_BYTES in *. lia. }
  assert (Hfrom : fromhex (hex_of_bytes (env_aad_sha256 e)) = Some (env_aad_sha256 e)).
  { apply fromhex_hex. rewrite Hb. apply sha256_bytes. }
  assert (H64 : forall x, Forall is_byte x -> decode_canonical_base64 (b64encode x) = Some x).
  { intros x Hx. unfold decode_canonical_base64. rewrite b64_roundtrip by exact Hx. cbn. by rewrite bool_decide_eq_true_2. }
  unfold from_json_document. rewrite !option_guard_True by reflexivity. cbn [mbind option_bind].
  change (get_item (py "content_key_id") (to_json_document e)) with (Some (JStr (uuid_str (env_content_key_id e)))).
  change (get_item (py "nonce") (to_json_document e)) with (Some (JStr (b64encode (env_nonce e)))).
  change (get_item (py "ciphertext") (to_json_document e)) with (Some (JStr (b64encode (env_ciphertext e)))).
  change (get_item (py "aad_sha256") (to_json_document e)) with (Some (JStr (hex_of_bytes (env_aad_sha256 e)))).
  change (get_item (py "envelope_version") (to_json_document e)) with (Some (JInt (env_envelope_version e))).
  change (get_item (py "algorithm") (to_json_document e)) with (Some (JStr (env_algorithm e))).
  change (get_item (py "safe_summary") (to_json_document e)) with (Some (JStr (env_safe_summary e))).
  cbv beta iota. rewrite Hkey. cbn [mbind option_bind]. rewrite option_guard_True by exact Hhex. cbn [mbind option_bind].
  rewrite !H64, Hfrom by assumption. cbn [mbind option_bind]. destruct e. cbv zeta. cbn [SealedContent.env_content_key_id SealedContent.env_nonce SealedContent.env_ciphertext SealedContent.env_aad_sha256
    SealedContent.env_safe_summary SealedContent.env_envelope_version SealedContent.env_algorithm]. rewrite Hall. reflexivity.
Qed.

Lemma envelope_primitive_Ok e : envelope_bytes e -> envelope_primitive (envelope_fields e) = Ok e.
Proof.
  intros He. rewrite <- (from_document_Ok e He). unfold envelope_primitive. f_equal. destruct He as [Hok _ _ _ _].
  split_envelope Hok. unfold state_document, to_json_document, envelope_fields.
  cbn [sc_content_key_id sc_nonce sc_ciphertext sc_aad_sha256 sc_safe_summary].
  apply Z.eqb_eq in Hver. apply bool_decide_eq_true in Halg. by rewrite Hver, Halg.
Qed.

(** ** Sealing and opening *)

Definition context_range (c : SealedContentContext) : Prop :=
  Forall uuid_range [sx_tenant_id c; sx_lineage_id c; sx_branch_id c; sx_memory_id c; sx_content_key_id c; sx_event_id c].

Lemma aad_inj `{Rfc8785Laws} c c' b :
  context_range c -> context_range c' -> aad_bytes c = Ok b -> aad_bytes c' = Ok b -> c = c'.
Proof.
  unfold context_range. intros Hr Hr' Hb Hb'. repeat (apply Forall_cons in Hr as [? Hr]). repeat (apply Forall_cons in Hr' as [? Hr']).
  unfold aad_bytes in Hb, Hb'. pose proof (canonical_nodup _ _ Hb) as Hn. pose proof (canonical_nodup _ _ Hb') as Hn'.
  apply canonical_reads in Hb as (v & Hv & He); [|reflexivity]. apply canonical_reads in Hb' as (v' & Hv' & He'); [|reflexivity].
  rewrite Hv in Hv'. injection Hv' as <-.
  apply equiv_items in He as (l & -> & _ & Hi); [|exact Hn]. apply equiv_items in He' as (l' & [= <-] & _ & Hi'); [|exact Hn'].
  assert (Heq : forall k u u', (forall w, json_equiv u w -> w = u) -> (forall w, json_equiv u' w -> w = u') ->
    get_item k match aad_document c with JObject m => m | _ => [] end = Some u ->
    get_item k match aad_document c' with JObject m => m | _ => [] end = Some u' -> u = u').
  { intros k u u' Hu Hu' Hk Hk'. destruct (Hi _ _ Hk) as (w & Hw & E). destruct (Hi' _ _ Hk') as (w' & Hw' & E').
    apply Hu in E. apply Hu' in E'. congruence. }
  assert (Hs : forall k t t', get_item k match aad_document c with JObject m => m | _ => [] end = Some (JStr t) ->
    get_item k match aad_document c' with JObject m => m | _ => [] end = Some (JStr t') -> t = t').
  { intros k t t' Hk Hk'. pose proof (Heq k _ _ (json_equiv_str t) (json_equiv_str t') Hk Hk'). congruence. }
  assert (Hz : forall k n n', get_item k match aad_document c with JObject m => m | _ => [] end = Some (JInt n) ->
    get_item k match aad_document c' with JObject m => m | _ => [] end = Some (JInt n') -> n = n').
  { intros k n n' Hk Hk'. pose proof (Heq k _ _ (json_equiv_int n) (json_equiv_int n') Hk Hk'). congruence. }
  pose proof (Hs (py "tenant_id") _ _ eq_refl eq_refl) as E1. apply uuid_str_inj in E1; [|assumption..].
  pose proof (Hs (py "lineage_id") _ _ eq_refl eq_refl) as E2. apply uuid_str_inj in E2; [|assumption..].
  pose proof (Hs (py "branch_id") _ _ eq_refl eq_refl) as E3. apply uuid_str_inj in E3; [|assumption..].
  pose proof (Hs (py "memory_id") _ _ eq_refl eq_refl) as E4. apply uuid_str_inj in E4; [|assumption..].
  pose proof (Hs (py "content_key_id") _ _ eq_refl eq_refl) as E5. apply uuid_str_inj in E5; [|assumption..].
  pose proof (Hs (py "event_id") _ _ eq_refl eq_refl) as E6. apply uuid_str_inj in E6; [|assumption..].
  pose proof (Hz (py "revision") _ _ eq_refl eq_refl) as E7.
  pose proof (Hz (py "schema_version") _ _ eq_refl eq_refl) as E8.
  pose proof (Hz (py "payload_version") _ _ eq_refl eq_refl) as E9.
  destruct c, c'; cbn in *; congruence.
Qed.

Section Opening.
Context `{Rfc8785} `{AeadLaws}.

Lemma seal_content_Ok key plaintext c summary nonce e :
  seal_content key plaintext c summary nonce = Ok e ->
  exists aad, aad_bytes c = Ok aad /\ env_content_key_id e = sx_content_key_id c /\ env_nonce e = nonce /\
    env_aad_sha256 e = sha256 aad /\ aead_encrypt key nonce plaintext aad = Some (env_ciphertext e) /\
    env_safe_summary e = summary /\ envelope_ok e = true /\
    size_in MIN_SEALED_PLAINTEXT_BYTES MAX_SEALED_PLAINTEXT_BYTES plaintext = true.
Proof.
  unfold seal_content. intros Hs. apply bind_Ok in Hs as ([] & Hp%raise_if_Ok%negb_false_iff & Hs).
  apply bind_Ok in Hs as ([] & _ & Hs). apply bind_Ok in Hs as ([] & _ & Hs). apply bind_Ok in Hs as (aad & Ha & Hs).
  apply bind_Ok in Hs as (ct & Hc%from_option_or_Ok & Hs). unfold sealed_envelope in Hs.
  apply bind_Ok in Hs as ([] & Hok%raise_if_Ok%negb_false_iff & [= <-]). exists aad. by split_and!.
Qed.

Lemma sealed_envelope_bytes key plaintext c summary nonce e :
  uuid_range (sx_content_key_id c) -> Forall is_byte nonce -> seal_content key plaintext c summary nonce = Ok e -> envelope_bytes e.
Proof.
  intros Hr Hn (aad & _ & Hid & Hnonce & Haad & Henc & _ & Hok & _)%seal_content_Ok. destruct (aead_opens _ _ _ _ _ Henc) as (Hb & _).
  split; [done|by rewrite Hid|by rewrite Hnonce|done|by exists aad].
Qed.

Lemma open_sealed key plaintext c summary nonce e :
  seal_content key plaintext c summary nonce = Ok e -> open_content key e c = Ok plaintext.
Proof.
  intros (aad & Ha & Hid & Hnonce & Haad & Henc & _ & _ & Hp)%seal_content_Ok. destruct (aead_opens _ _ _ _ _ Henc) as (_ & _ & Hd).
  unfold open_content. rewrite Ha. cbn [mbind result_bind]. rewrite Hid, Z.eqb_refl, Haad, bool_decide_eq_true_2, Hnonce, Hd by done.
  cbn [negb orb raise_if mbind result_bind from_option_or]. by rewrite Hp.
Qed.

(** What a provider sealed, the same provider opens. *)
Lemma open_with_sealed provider reference plaintext c summary nonce e :
  seal_with_provider provider reference plaintext c summary nonce = Ok e ->
  open_with_provider provider reference e c = Ok plaintext.
Proof.
  unfold seal_with_provider, open_with_provider. intros Hs. apply bind_Ok in Hs as (key & Hk & Hs). rewrite Hk. cbn [mbind result_bind].
  by eapply open_sealed.
Qed.
End Opening.

(** ** Properties *)

(** C21: an envelope opens only in the context it was sealed in.  When content
    sealed for one tenant, lineage, branch, memory, key, revision and event is
    opened under any context, with any key, either the context is that one or
    the associated data of the two contexts are different byte strings with one
    SHA-256 digest. *)
Theorem sealed_context_bound `{Rfc8785Laws} `{Aead} (key key' plaintext plaintext' nonce : bytes)
    (c c' : SealedContentContext) (summary : pystr) (e : SealedContentEnvelope) :
  context_range c -> context_range c' ->
  seal_content key plaintext c summary nonce = Ok e -> open_content key' e c' = Ok plaintext' ->
  c' = c \/ exists aad aad', aad_bytes c = Ok aad /\ aad_bytes c' = Ok aad' /\ digest_clash aad' aad.
Proof.
  intros Hr Hr' (aad & Ha & _ & _ & Haad & _)%seal_content_Ok Ho. unfold open_content in Ho. apply bind_Ok in Ho as (aad' & Ha' & Ho).
  apply bind_Ok in Ho as ([] & Hc%raise_if_Ok & _). apply orb_false_iff in Hc as [_ Hc%negb_false_iff%bool_decide_eq_true].
  destruct (decide (aad' = aad)) as [->|Hne].
  - left. by eapply aad_inj.
  - right. exists aad, aad'. split_and!; [done..|]. split; [done|]. unfold sha256_hex. f_equal. congruence.
Qed.
