(* ===== verification/Nominations.v ===== *)
(** * Nominations: policy-gated creation of memories

    Models [application/selection.py]: a nomination is bound to its principal
    by a digest, replayed when it has a receipt, resolved and judged by the
    pinned policy, and in one transaction leaves a memory, a promotion or
    nothing, always with a decision row and a receipt.  The database is that of
    the lifecycle engine.  The resolver of trusted facts, the provider of the
    promotion identity, key provider, digest binder, AES-GCM, pydantic's dump of
    a proposal and reading of a receipt, and a participant of the transaction,
    which writes tables of its own, are parameters.  When a query without an
    order matches several rows, the row it returns is that of the finite map's
    enumeration. *)

From stdpp Require Import base tactics option list gmap sets strings.
From Stdlib Require Import ZArith Lia Bool SpecFloat.
From S2P Require Import Prelude Identifiers Enums Values CanonicalJson Digest Text Constraints Events Folding EventStore PolicyContracts Policy ProjectionRows LiveProjection ProjectionRebuild Outbox Fingerprints Locks Transactions Commands Mutations MutationEngine SelectionHistory CandidateLifecycle Disk DestructionLedger KeyProvider SealedContent.
Open Scope Z_scope.

(** ** Requests and results *)

(** [NominationCommandLike] with the attributes some of its classes have. *)
Record NominationCommand : Type := {
  nc_idempotency_key : pystr; nc_persona_id : UUID; nc_branch_id : UUID; nc_reason : pystr;
  nc_proposal : NominationProposal; nc_logical_session_id : option UUID; nc_sealed_content : option SealedContentRequest;
  nc_transaction_binding_sha256 : option pystr; nc_genesis_lineage_id : option UUID; nc_genesis_actor_id : option UUID
}.

Inductive SourceKind : Type :=
| live_interaction | reviewed_seed | genesis_import | github_proposal | candidate_reassessment | candidate_expiry.

Definition source_kind_value (k : SourceKind) : string :=
  match k with
  | live_interaction => "live_interaction" | reviewed_seed => "reviewed_seed" | genesis_import => "genesis_import"
  | github_proposal => "github_proposal" | candidate_reassessment => "candidate_reassessment"
  | candidate_expiry => "candidate_expiry"
  end.

#[export] Instance SourceKind_eq_dec : EqDecision SourceKind.
Proof. solve_decision. Defined.

(** The signals are those of a frozenset, each once. *)
Record ResolvedNominationContext : Type := {
  rn_source_kind : SourceKind; rn_effective_authority_class : AuthorityClass; rn_content_signals : list ContentSignal;
  rn_evidence : list EvidenceSummary
}.

(** [validate_evidence_keys] *)
Definition resolved_ok (r : ResolvedNominationContext) : bool := nodupb (evs_evidence_key <$> rn_evidence r).

Record SelectionResult : Type := {
  se_receipt_id : UUID; se_decision_id : UUID; se_outcome : string; se_policy_sha256 : pystr;
  se_reason_codes : list pystr; se_matched_rule_ids : list pystr; se_event_id : option UUID; se_memory_id : option UUID;
  se_revision : option Z; se_idempotent_replay : bool; se_warnings : list pystr
}.

#[export] Instance SelectionResult_eq_dec : EqDecision SelectionResult.
Proof. solve_decision. Defined.

(** [[a-z][a-z0-9_]{0,127}] and the same with [.] and [-] *)
Definition token_ok (extra : list Z) (s : pystr) : bool :=
  match s with
  | [] => false
  | c :: rest => is_lower c && (length rest <=? 127)%nat
                 && forallb (fun c => is_lower c || ((48 <=? c) && (c <=? 57)) || (c =? 95) || bool_decide (c ∈ extra)) rest
  end.

Definition selection_fields_ok (r : SelectionResult) : bool :=
  is_uuid7 (se_receipt_id r) && is_uuid7 (se_decision_id r) && opt_ok is_uuid7 (se_event_id r)
  && opt_ok is_uuid7 (se_memory_id r) && hex_digest_ok (se_policy_sha256 r)
  && (length (se_reason_codes r) <=? 8)%nat && (length (se_matched_rule_ids r) <=? 16)%nat
  && (length (se_warnings r) <=? 16)%nat && opt_ok safe_positive (se_revision r)
  && forallb (token_ok []) (se_reason_codes r) && nodupb (se_reason_codes r)
  && forallb (token_ok []) (se_warnings r) && nodupb (se_warnings r)
  && forallb (token_ok [46; 45]) (se_matched_rule_ids r) && nodupb (se_matched_rule_ids r)
  && bool_decide (se_outcome r ∈ ["omit"; "reject"; "candidate"; "active"; "promoted"]%string).

(** [SelectionResult.validate_result_shape] *)
Definition validate_selection_result (r : SelectionResult) : result unit :=
  let linked := [negb (is_none (se_event_id r)); negb (is_none (se_memory_id r)); negb (is_none (se_revision r))] in
  raise_if (negb (selection_fields_ok r)) (ValidationError "nomination receipt field");;
  raise_if (bool_decide (se_outcome r ∈ ["omit"; "reject"]%string) && existsb id linked)
    (ValidationError "omit and reject receipts cannot identify an event");;
  raise_if (bool_decide (se_outcome r ∈ ["candidate"; "active"; "promoted"]%string) && negb (forallb id linked))
    (ValidationError "durable nomination receipts require event, memory, and revision");;
  raise_if (xorb (is_none (se_memory_id r)) (is_none (se_revision r)))
    (ValidationError "memory identifier and revision must be supplied together").

(** [result.model_dump(mode="json")] *)
Definition selection_value (r : SelectionResult) : JsonValue :=
  JObject [(py "ok", JBool true); (py "contract_version", JStr (py "mcp-mutation-v2"));
    (py "operation", JStr (py "nominate")); (py "receipt_id", json_uuid (se_receipt_id r));
    (py "decision_id", json_uuid (se_decision_id r)); (py "outcome", JStr (py (se_outcome r)));
    (py "policy_version", JStr (py "selection-v1")); (py "policy_sha256", JStr (se_policy_sha256 r));
    (py "reason_codes", json_texts (se_reason_codes r)); (py "matched_rule_ids", json_texts (se_matched_rule_ids r));
    (py "event_id", json_opt_uuid (se_event_id r)); (py "memory_id", json_opt_uuid (se_memory_id r));
    (py "revision", from_option JInt JNull (se_revision r)); (py "idempotent_replay", JBool (se_idempotent_replay r));
    (py "warnings", json_texts (se_warnings r))].

(** [replay.model_copy(update={"idempotent_replay": True})] *)
Definition selection_replay (r : SelectionResult) : SelectionResult :=
  {| se_receipt_id := se_receipt_id r; se_decision_id := se_decision_id r; se_outcome := se_outcome r;
     se_policy_sha256 := se_policy_sha256 r; se_reason_codes := se_reason_codes r;
     se_matched_rule_ids := se_matched_rule_ids r; se_event_id := se_event_id r; se_memory_id := se_memory_id r;
     se_revision := se_revision r; se_idempotent_replay := true; se_warnings := se_warnings r |}.

(** [_NominationIdentifiers], drawn before the transaction *)
Record NominationIdentifiers : Type := {
  ni_receipt_id : UUID; ni_decision_id : UUID; ni_event_id : UUID; ni_memory_id : UUID; ni_content_key_id : UUID;
  ni_correlation_id : UUID; ni_evidence_ids : list UUID; ni_job_ids : list UUID; ni_created_at : instant
}.

(** ** Parameters *)

(** pydantic's [model_validate_json] of a receipt and JSON dump of a proposal,
    and the server's refusal of a content key row. *)
Class NominationStore : Type := {
  read_selection : bytes -> option SelectionResult;
  dump_proposal : NominationProposal -> JsonValue;
  content_key_error : gmap UUID ContentKeyRow -> UUID -> ContentKeyRow -> option string
}.

(** A transaction participant; what it writes is in tables of its own. *)
Record Participant : Type := {
  tp_binding_sha256 : pystr;
  tp_authorize : LifecycleDb -> result unit;
  tp_stage : LifecycleDb -> CommandPrincipal -> NominationCommand -> ResolvedNominationContext -> SelectionResult -> result unit
}.

(** The collaborators of a [SelectionEngine]; [None] of a call is a raised error. *)
Record Services : Type := {
  sv_resolver : CommandPrincipal -> NominationCommand -> option ResolvedNominationContext;
  sv_promotion_principal : option (CommandPrincipal -> NominationCommand -> UUID -> option CommandPrincipal);
  sv_key_provider : option Provider;
  sv_digest_binder : option (string -> bytes -> option bytes);
  sv_nonce : bytes
}.

Definition fail_selection {A} (code : string) : result A := Err (SelectionExecutionError code).
Definition refuse_if (condition : bool) (code : string) : result unit :=
  if condition then fail_selection code else Ok tt.

Definition GENESIS_SCOPE : gset string := {["memory.write.genesis_import"%string]}.
Definition is_genesis (p : CommandPrincipal) : bool := bool_decide (cp_scopes p = GENESIS_SCOPE).

(** [SelectionEngine._authorized] *)
Definition selection_authorized (p : CommandPrincipal) : bool :=
  bool_decide ("memory.write.nominate"%string ∈ cp_scopes p) || bool_decide ("memory:write"%string ∈ cp_scopes p)
  || (bool_decide ("memory:propose"%string ∈ cp_scopes p) && negb (is_none (cp_ingress_id p)))
  || (is_genesis p && is_none (cp_ingress_id p)).

Definition is_sealed (c : NominationCommand) : bool := negb (is_none (nc_sealed_content c)).

(** [_validate_sealed_policy_outcome] *)
Definition validate_sealed_policy_outcome (c : NominationCommand) (d : PolicyDecision) : result unit :=
  refuse_if (is_sealed c && negb (bool_decide (pd_outcome d = PolicyOutcome.ACTIVE))) "invalid_input".

(** [_policy_rule_code]; the rule identifiers of a profile are ASCII. *)
Definition policy_rule_code (d : PolicyDecision) : pystr :=
  match pd_matched_rule_ids d with
  | rule :: _ =>
    let candidate := (fun c => if c =? 46 then 95 else c) <$> rule in
    match candidate with
    | c :: _ => if is_lower c || is_upper c then take 64 candidate else py "already_covered"
    | [] => py "already_covered"
    end
  | [] => py "already_covered"
  end.

(** [_selection_request] *)
Definition selection_request (n : NominationProposal) (r : ResolvedNominationContext) : result SelectionRequest :=
  let request := {| sr_basis := np_selection_basis n; sr_category := np_category n;
    sr_ontological_status := np_ontological_status n; sr_scope := np_scope n; sr_visibility := np_visibility n;
    sr_effective_authority_class := rn_effective_authority_class r; sr_content_signals := rn_content_signals r;
    sr_epistemic_qualifiers := np_epistemic_qualifiers n; sr_reason_to_remember := Some (np_reason_to_remember n);
    sr_interpretation_limits := np_interpretation_limits n; sr_evidence := rn_evidence r |} in
  validate_selection_request request;;
  Ok request.

(** [_new_candidate_evidence] *)
Definition new_candidate_evidence (stored resolved : list EvidenceSummary) : list EvidenceSummary :=
  filter (fun i => evs_evidence_key i ∉ evs_evidence_key <$> stored) resolved.

(** [_evidence_state] *)
Definition nominated_evidence (tenant_id lineage_id branch_id memory_id : UUID) (created_at : instant)
    (item : EvidenceSummary * UUID) : result EvidenceState :=
  let e := {| es_evidence_id := item.2; es_tenant_id := tenant_id; es_lineage_id := lineage_id; es_branch_id := branch_id;
              es_memory_id := memory_id; es_source_type := py (enum_value (evs_kind item.1));
              es_source_reference := [(py "evidence_key", JStr (evs_evidence_key item.1))]; es_excerpt := None;
              es_occurred_at := None; es_content_sha256 := None;
              es_trust_classification := py (enum_value (evs_trust item.1)); es_status := evidence_active;
              es_created_at := created_at; es_metadata := [] |} in
  except_value_error (validate_evidence e) (ValidationError "evidence");;
  Ok e.

(** [zip(items, ids, strict=True)] *)
Definition zip_strict {A B} (l : list A) (k : list B) : result (list (A * B)) :=
  raise_if (negb (length l =? length k)%nat) (ValueError "zip() arguments differ in length");; Ok (zip l k).

(** The branch row as the reducer uses it; an unknown ceiling, which the
    table's constraint excludes, is not a key of [_BRANCH_VISIBILITIES]. *)
Definition orm_branch (row : BranchRow) : result BranchState :=
  ceiling ← from_option_or (enum_of_value MemoryVisibility (hr_visibility_ceiling row)) KeyError;
  Ok {| bs_branch_id := hr_branch_id row; bs_tenant_id := hr_tenant_id row; bs_lineage_id := hr_lineage_id row;
        bs_parent_branch_id := hr_parent_branch_id row; bs_fork_event_sequence := hr_fork_event_sequence row;
        bs_name := hr_name row; bs_visibility_ceiling := ceiling; bs_created_at := hr_created_at row;
        bs_sealed_at := hr_sealed_at row |}.

(** [created_at + timedelta(days=ttl_days)] *)
Definition add_days (at_ : instant) (days : Z) : result instant := add_seconds at_ (days * 86400).

Section Engine.
Context `{Rfc8785} `{Pydantic} `{LiveDatabase} `{Database} `{ReceiptStore} `{DecisionDatabase} `{PyStr} `{Aead}
        `{NominationStore} (loaded : LoadedSelectionPolicy) (sv : Services).

(** ** Digests *)

(** [_command_material] *)
Definition nomination_material (p : CommandPrincipal) (c : NominationCommand) : result json_dict :=
  raise_if (negb (opt_ok hex_digest_ok (nc_transaction_binding_sha256 c)))
    (ValueError "transaction binding digest is invalid");;
  Ok ([(py "tenant_id", json_uuid (cp_tenant_id p)); (py "actor_id", json_uuid (cp_actor_id p));
       (py "client_id", json_uuid (cp_client_id p)); (py "idempotency_key", JStr (nc_idempotency_key c));
       (py "persona_id", json_uuid (nc_persona_id c)); (py "branch_id", json_uuid (nc_branch_id c));
       (py "reason", JStr (nc_reason c)); (py "proposal", dump_proposal (nc_proposal c));
       (py "logical_session_id", json_opt_uuid (nc_logical_session_id c))]
      ++ match nc_sealed_content c with
         | Some r => [(py "sealed_content", JObject [(py "safe_summary", JStr (sq_safe_summary r))])] | None => [] end
      ++ match nc_transaction_binding_sha256 c with
         | Some digest => [(py "transaction_binding_sha256", JStr digest)] | None => [] end).

(** The digest of canonical material, keyed when the content is sealed. *)
Definition bound_digest (c : NominationCommand) (purpose : string) (material : json_dict) : result bytes :=
  canonical ← canonical_plain_bytes (JObject material);
  if is_sealed c then bind_sealed_digest (sv_digest_binder sv) purpose canonical else Ok (sha256 canonical).

(** [_command_digest] *)
Definition nomination_digest (p : CommandPrincipal) (c : NominationCommand) : result bytes :=
  material ← nomination_material p c;
  bound_digest c "selection-command-v1" material.

(** [material.pop(name, None)] *)
Definition pop_item (name : string) (material : json_dict) : json_dict :=
  List.filter (fun kv => negb (bool_decide (kv.1 = py name))) material.

Definition resolved_material (r : ResolvedNominationContext) : JsonValue :=
  JObject [(py "source_kind", JStr (py (source_kind_value (rn_source_kind r))));
    (py "effective_authority_class", json_enum (rn_effective_authority_class r));
    (py "content_signals", json_texts (sort_by str_leb ((fun s => py (enum_value s)) <$> rn_content_signals r)));
    (py "evidence", JArray ((fun i => JObject [(py "evidence_key", JStr (evs_evidence_key i));
        (py "kind", json_enum (evs_kind i)); (py "trust", json_enum (evs_trust i))])
      <$> sort_by (fun a b => str_leb (evs_evidence_key a) (evs_evidence_key b)) (rn_evidence r)))].

(** [_input_digest] *)
Definition input_digest (p : CommandPrincipal) (c : NominationCommand) (r : ResolvedNominationContext) : result bytes :=
  command ← nomination_material p c;
  let material := command ++ [(py "resolved", resolved_material r)] in
  bound_digest c "selection-input-v1"
    (if is_sealed c then pop_item "transaction_binding_sha256" (pop_item "idempotency_key" material) else material).

(** [_stable_sealed_id] *)
Definition stable_sealed_id (purpose : string) (command_digest : bytes) : result UUID :=
  digest ← bind_sealed_digest (sv_digest_binder sv) purpose command_digest;
  let raw := take 16 digest in
  let at_ i := nth i raw 0 in
  Ok (be_value (<[8%nat := Z.lor (Z.land (at_ 8%nat) 0x3f) 0x80]> (<[6%nat := Z.lor (Z.land (at_ 6%nat) 0x0f) 0x70]> raw))).

(** ** Receipts *)

Definition nomination_key (p : CommandPrincipal) (c : NominationCommand) : UUID * UUID * pystr :=
  (cp_tenant_id p, cp_client_id p, nc_idempotency_key c).

(** [_load_receipt] *)
Definition load_receipt (db : LifecycleDb) (p : CommandPrincipal) (c : NominationCommand) : option CommandReceipt :=
  md_receipts (ly_db db) !! nomination_key p c.

(** A result that is these bytes. *)
Definition is_bytes (r : result bytes) (b : bytes) : bool := match r with Ok x => bool_decide (x = b) | Err _ => false end.

(** The reading of a receipt inside the [try] of [_replay_from_receipt]. *)
Definition read_receipt (receipt : CommandReceipt) : option SelectionResult :=
  let canonical := rc_result_canonical receipt in
  guard (is_bytes (canonical_plain_bytes (rc_result receipt)) canonical = true);;
  r ← read_selection canonical;
  guard (is_ok (validate_selection_result r) && is_bytes (canonical_plain_bytes (selection_value r)) canonical = true);;
  Some r.

(** [_replay_from_receipt] *)
Definition replay_from_receipt (receipt : CommandReceipt) (command_digest : bytes) : result SelectionResult :=
  refuse_if (negb (bool_decide (rc_command_sha256 receipt = command_digest))) "idempotency_key_reused";;
  refuse_if (negb (bool_decide (sha256 (rc_result_canonical receipt) = rc_result_sha256 receipt))) "dependency_unavailable";;
  r ← from_option_or (read_receipt receipt) (SelectionExecutionError "dependency_unavailable");
  refuse_if (se_idempotent_replay r || negb (se_receipt_id r =? rc_receipt_id receipt)
             || negb (bool_decide (Some (se_decision_id r) = rc_selection_decision_id receipt))
             || negb (bool_decide (se_event_id r = rc_event_id receipt))
             || negb (bool_decide (se_memory_id r = rc_memory_id receipt))
             || negb (bool_decide (se_revision r = rc_memory_revision receipt))) "dependency_unavailable";;
  Ok (selection_replay r).

(** ** Identity, session and subject *)

(** The joined query for lineage, persona and branch. *)
Definition nomination_identity (db : MutationDb) (p : CommandPrincipal) (c : NominationCommand)
    : option (UUID * option instant * option instant * UUID * BranchRow) :=
  branch ← md_branches db !! nc_branch_id c;
  lineage ← md_lineages db !! hr_lineage_id branch;
  guard (hr_tenant_id branch = li_tenant_id lineage /\ li_tenant_id lineage = cp_tenant_id p
         /\ li_persona_id lineage = nc_persona_id c);;
  persona ← md_personas db !! li_persona_id lineage;
  guard (pe_tenant_id persona = li_tenant_id lineage);;
  guard (is_genesis p = true -> nc_genesis_lineage_id c = Some (hr_lineage_id branch));;
  Some (hr_lineage_id branch, li_sealed_at lineage, pe_retired_at persona, pe_actor_id persona, branch).

(** A session of the branch; the importer's need not be its own. *)
Definition nomination_session (db : MutationDb) (p : CommandPrincipal) (c : NominationCommand) (lineage_id session_id : UUID)
    : bool :=
  match md_sessions db !! session_id with
  | Some row =>
    (sr_tenant_id row =? cp_tenant_id p) && (sr_lineage_id row =? lineage_id) && (sr_branch_id row =? nc_branch_id c)
    && (is_genesis p || ((sr_actor_id row =? cp_actor_id p) && (sr_client_id row =? cp_client_id p)
                         && (sr_transport_binding_id row =? cp_transport_binding_id p)))
  | None => false
  end.

Definition nomination_subject (db : MutationDb) (p : CommandPrincipal) (c : NominationCommand) (lineage_id : UUID)
    : option SubjectRow :=
  row ← md_subjects db !! np_subject_id (nc_proposal c);
  guard (su_tenant_id row = cp_tenant_id p /\ su_lineage_id row = lineage_id
         /\ su_kind row = enum_value (np_subject_kind (nc_proposal c)));;
  Some row.

Definition is_session_scope (scope : MemoryScope) : bool :=
  bool_decide (scope ∈ [MemoryScope.SCENE_LOCAL; MemoryScope.EPISODIC]).

(** The session the importer's scene-local and episodic records come from. *)
Definition source_session (db : MutationDb) (p : CommandPrincipal) (c : NominationCommand) (lineage_id actor_id session_id : UUID)
    : bool :=
  match md_sessions db !! session_id with
  | Some row => (sr_tenant_id row =? cp_tenant_id p) && (sr_actor_id row =? actor_id) && (sr_lineage_id row =? lineage_id)
                && (sr_branch_id row =? nc_branch_id c)
  | None => false
  end.

(** [_validate_session_scope_anchors], and the importer's variant of it. *)
Definition check_session_scope (db : MutationDb) (p : CommandPrincipal) (c : NominationCommand) (lineage_id actor_id : UUID)
    (subject : SubjectRow) : result unit :=
  let n := nc_proposal c in
  if is_genesis p && is_session_scope (np_scope n) then
    match nc_logical_session_id c, np_origin_session_id n with
    | None, Some session_id =>
      refuse_if (negb (bool_decide (su_origin_session_id subject = Some session_id))) "forbidden";;
      refuse_if (negb (source_session db p c lineage_id actor_id session_id)) "not_found"
    | _, _ => fail_selection "forbidden"
    end
  else refuse_if (is_session_scope (np_scope n)
                  && (is_none (nc_logical_session_id c)
                      || negb (bool_decide (np_origin_session_id n = nc_logical_session_id c))
                      || negb (bool_decide (su_origin_session_id subject = nc_logical_session_id c)))) "forbidden".

(** The checks between the receipt and the duplicate lock: lineage and branch
    the nomination may write. *)
Definition check_nomination (db : MutationDb) (p : CommandPrincipal) (c : NominationCommand) : result (UUID * BranchRow) :=
  refuse_if (is_genesis p && negb (bool_decide (binding_kind db p = Some "internal_service"%string))) "forbidden";;
  '(lineage_id, lineage_sealed_at, persona_retired_at, actor_id, branch_row) ←
    from_option_or (nomination_identity db p c) (SelectionExecutionError "not_found");
  refuse_if (is_genesis p && negb (bool_decide (nc_genesis_actor_id c = Some actor_id))) "forbidden";;
  refuse_if (negb (is_none persona_retired_at) || negb (is_none lineage_sealed_at)
             || negb (is_none (hr_sealed_at branch_row))) "forbidden";;
  refuse_if (match nc_logical_session_id c with
             | Some session_id => negb (nomination_session db p c lineage_id session_id) | None => false end) "not_found";;
  subject ← from_option_or (nomination_subject db p c lineage_id) (SelectionExecutionError "not_found");
  check_session_scope db p c lineage_id actor_id subject;;
  Ok (lineage_id, branch_row).

(** ** Duplicates *)

(** The hexadecimal digest duplicates are found and serialized by. *)
Definition nomination_fingerprint (c : NominationCommand) : result pystr :=
  let n := nc_proposal c in
  exact ← exact_memory_fingerprint (np_statement n) (inl (np_category n)) (inl (np_ontological_status n))
            (inl (np_scope n)) (np_interpretation_limits n);
  if is_sealed c then
    raw ← from_option_or (fromhex (sha256_hex_ exact)) (ValueError "non-hexadecimal number found in fromhex() arg");
    bound ← bind_sealed_digest (sv_digest_binder sv) "duplicate-lock-v1" raw;
    Ok (hex_of_bytes bound)
  else Ok (sha256_hex_ exact).

Definition same_subject (p : CommandPrincipal) (c : NominationCommand) (lineage_id : UUID) (row : MemoryRow) : bool :=
  (mr_tenant_id row =? cp_tenant_id p) && (mr_lineage_id row =? lineage_id) && (mr_branch_id row =? nc_branch_id c)
  && (mr_subject_id row =? np_subject_id (nc_proposal c)).

(** A live memory with the same claim. *)
Definition plain_duplicate (p : CommandPrincipal) (c : NominationCommand) (lineage_id : UUID) (fingerprint : bytes)
    (row : MemoryRow) : bool :=
  same_subject p c lineage_id row && bool_decide (mr_normalized_fingerprint row = Some fingerprint)
  && bool_decide (mr_status row ∈ ["candidate"; "active"]%string).

(** An active sealed memory that the same policy input created. *)
Definition sealed_duplicate (db : LifecycleDb) (p : CommandPrincipal) (c : NominationCommand) (lineage_id : UUID)
    (digest : bytes) (row : MemoryRow) : bool :=
  same_subject p c lineage_id row && String.eqb (mr_status row) "active"
  && String.eqb (mr_content_protection row) "envelope_encrypted"
  && existsb (fun kv => (dn_tenant_id kv.2 =? mr_tenant_id row) && bool_decide (dn_memory_id kv.2 = Some (mr_memory_id row))
                        && bool_decide (dn_input_sha256 kv.2 = digest) && String.eqb (dn_outcome kv.2) "active")
       (map_to_list (dt_decisions (ly_decisions db))).

Definition find_duplicate (db : LifecycleDb) (p : CommandPrincipal) (c : NominationCommand) (lineage_id : UUID)
    (fingerprint : pystr) (digest : bytes) : result (option MemoryRow) :=
  raw ← from_option_or (fromhex fingerprint) (ValueError "non-hexadecimal number found in fromhex() arg");
  Ok (List.find (if is_sealed c then sealed_duplicate db p c lineage_id digest else plain_duplicate p c lineage_id raw)
        (snd <$> map_to_list (lt_memories (md_tables (ly_db db))))).

(** ** Events *)

(** [_event] with sequence 1; a lifecycle event has no session and no ingress. *)
Definition nomination_event (p : CommandPrincipal) (c : NominationCommand) (operation : EventOperation) (lineage_id : UUID)
    (payload : OperationPayload) (version : Z) (ids : NominationIdentifiers) (memory_id : UUID) (expected_revision : option Z)
    (idempotency_key : pystr) (internal_lifecycle : bool) : result MemoryEvent :=
  '(value, canonical, payload_sha256, command_sha256) ←
    event_hash_fields operation payload (cp_tenant_id p) lineage_id (nc_branch_id c) (cp_actor_id p)
      (cp_client_id p) (Some memory_id) expected_revision None version;
  model_validate {|
    e_schema_version := version; e_payload_version := version; e_sequence := 1; e_event_id := ni_event_id ids;
    e_tenant_id := cp_tenant_id p; e_lineage_id := lineage_id; e_branch_id := nc_branch_id c;
    e_actor_id := cp_actor_id p; e_client_id := cp_client_id p; e_transport_binding_id := cp_transport_binding_id p;
    e_session_id := if internal_lifecycle then None else nc_logical_session_id c;
    e_ingress_id := if internal_lifecycle then None else cp_ingress_id p; e_operation := operation;
    e_memory_id := Some memory_id; e_expected_revision := expected_revision; e_causation_event_id := None;
    e_correlation_id := ni_correlation_id ids; e_idempotency_key := idempotency_key;
    e_policy_version := 2; e_normalization_version := 1; e_payload := value; e_payload_canonical := canonical;
    e_payload_sha256 := payload_sha256; e_command_sha256 := command_sha256; e_created_at := ni_created_at ids |}.

(** [append_memory_event] with the event's builder, then the live projection. *)
Definition append_nominated (db : MutationDb) (now : instant) (authorization : option LegacyGenesisPlaintextAuthorization)
    (branch_row : BranchRow) (built : result MemoryEvent) : result (StoreState * LiveTables * MemoryEvent) :=
  '(s, event) ← append_memory_event now (fun sequence => e ← built; Ok (with_sequence e sequence)) authorization (md_store db);
  branch ← orm_branch branch_row;
  before ← load_projection_state_for_update true s (md_tables db) event branch;
  after ← validate_live_event before event;
  t ← stage_live_projection true before after event (md_tables db);
  Ok (s, t, event).

(** ** What a nomination comes to *)

(** The tables and the local variables of [_attempt] after its writes. *)
Record Judged : Type := {
  jd_store : StoreState; jd_tables : LiveTables; jd_keys : gmap UUID ContentKeyRow; jd_outcome : string; jd_rule : pystr;
  jd_reason_codes : list pystr; jd_matched_rule_ids : list pystr; jd_event : option MemoryEvent;
  jd_memory_id : option UUID; jd_revision : option Z; jd_source : option SelectionDecision
}.

(** Nothing is written: the outcome of the policy or of a duplicate. *)
Definition unwritten (db : MutationDb) (d : PolicyDecision) (outcome : string) (rule : pystr) (reasons : list pystr) : Judged :=
  {| jd_store := md_store db; jd_tables := md_tables db; jd_keys := md_content_keys db; jd_outcome := outcome;
     jd_rule := rule; jd_reason_codes := reasons; jd_matched_rule_ids := pd_matched_rule_ids d; jd_event := None;
     jd_memory_id := None; jd_revision := None; jd_source := None |}.

(** *** Promotion of a duplicate *)

(** The newest decision that made the memory a candidate. *)
Definition newest_source (t : DecisionTables) (p : CommandPrincipal) (memory_id : UUID) : option SelectionDecision :=
  head (sort_by (fun a b => dn_selection_sequence b <=? dn_selection_sequence a)
    (filter (fun d => (dn_tenant_id d =? cp_tenant_id p) && bool_decide (dn_memory_id d = Some memory_id)
                      && String.eqb (dn_outcome d) "candidate" = true) (snd <$> map_to_list (dt_decisions t)))).

(** The state the promotion policy judges: stored and new evidence. *)
Definition reassessed_state (source : SelectionDecision) (evidence : list EvidenceSummary) : result CandidateLifecycleState :=
  except_value_error
    (basis ← from_option_or (enum_of_value SelectionBasis (dn_selection_basis source)) (ValueError "not a valid SelectionBasis");
     let state := {| cls_status := MemoryStatus.CANDIDATE; cls_selection_basis := basis;
                     cls_content_signals := content_signals_from_rule_ids (json_str <$> dn_matched_rule_ids source);
                     cls_evidence := evidence; cls_policy_profile_version := py "selection-v1";
                     cls_policy_profile_sha256 := hex_of_bytes (dn_policy_sha256 source) |} in
     validate_lifecycle_state state;;
     Ok state) (SelectionExecutionError "authority_unavailable").

Definition PROMOTE_SCOPE : gset string := {["memory.lifecycle.promote"%string]}.

(** [_promotion_principal] *)
Definition promotion_principal (db : MutationDb) (nominator : CommandPrincipal) (c : NominationCommand) (memory_id : UUID)
    : result CommandPrincipal :=
  principal ← from_option_or (provider ← sv_promotion_principal sv; provider nominator c memory_id)
                (SelectionExecutionError "authority_unavailable");
  refuse_if (negb (cp_tenant_id principal =? cp_tenant_id nominator) || negb (is_none (cp_ingress_id principal))
             || negb (bool_decide (cp_scopes principal = PROMOTE_SCOPE))
             || negb (bool_decide (binding_kind db principal = Some "internal_service"%string))) "authority_unavailable";;
  Ok principal.

Definition promotion_payload (p : CommandPrincipal) (c : NominationCommand) (lineage_id : UUID) (ids : NominationIdentifiers)
    (current : MemoryState) (new_evidence : list EvidenceSummary) (reason_code : string) : result OperationPayload :=
  items ← zip_strict new_evidence (take (length new_evidence) (ni_evidence_ids ids));
  evidence ← mapR (nominated_evidence (cp_tenant_id p) lineage_id (nc_branch_id c) (ms_memory_id current) (ni_created_at ids)) items;
  let after := lifecycle_memory promote current (ni_created_at ids) in
  except_value_error (validate_memory after) (ValidationError "memory");;
  let payload := CandidateLifecyclePayload (ms_revision current) after (ni_decision_id ids) (py reason_code) evidence in
  except_value_error (validate_payload payload) (ValidationError "payload");;
  Ok payload.

Definition promotion_key (memory_id : UUID) (digest : bytes) : pystr :=
  py "candidate-promote:" ++ uuid_str memory_id ++ py ":" ++ hex_of_bytes digest.

(** The promotion of a candidate the nomination brings new evidence for. *)
Definition promote_duplicate (db : LifecycleDb) (p : CommandPrincipal) (c : NominationCommand) (ids : NominationIdentifiers)
    (now : instant) (lineage_id : UUID) (branch_row : BranchRow) (digest : bytes) (duplicate : MemoryRow)
    (source : SelectionDecision) (new_evidence : list EvidenceSummary) (decision : LifecycleDecision) : result Judged :=
  let reason := enum_value (ld_reason_code decision) in
  principal ← promotion_principal (ly_db db) p c (mr_memory_id duplicate);
  read ← memory_row_to_state duplicate;
  current ← as_v2 read;
  payload ← promotion_payload p c lineage_id ids current new_evidence reason;
  '(s, t, event) ← append_nominated (ly_db db) now None branch_row
    (nomination_event principal c EventOperation.CANDIDATE_PROMOTED lineage_id payload 2 ids (mr_memory_id duplicate)
       (Some (ms_revision current)) (promotion_key (mr_memory_id duplicate) digest) true);
  Ok {| jd_store := s; jd_tables := t; jd_keys := md_content_keys (ly_db db); jd_outcome := "promoted"; jd_rule := py reason;
        jd_reason_codes := [py reason]; jd_matched_rule_ids := []; jd_event := Some event;
        jd_memory_id := Some (mr_memory_id duplicate); jd_revision := Some (ms_revision current + 1);
        jd_source := Some source |}.

(** A duplicate is omitted, unless it is a candidate the nomination's evidence promotes. *)
Definition judge_duplicate (db : LifecycleDb) (p : CommandPrincipal) (c : NominationCommand) (r : ResolvedNominationContext)
    (d : PolicyDecision) (ids : NominationIdentifiers) (now : instant) (lineage_id : UUID) (branch_row : BranchRow)
    (digest : bytes) (duplicate : MemoryRow) : result Judged :=
  if String.eqb (mr_status duplicate) "active"
  then Ok (unwritten (ly_db db) d "omit" (py "already_covered") [py "already_covered"])
  else
    let omitted := unwritten (ly_db db) d "omit" (py "already_candidate") [py "already_candidate"] in
    match newest_source (ly_decisions db) p (mr_memory_id duplicate) with
    | None => Ok omitted
    | Some source =>
      let rows := filter (fun row => (er_tenant_id row =? cp_tenant_id p) && (er_lineage_id row =? lineage_id)
                     && (er_memory_id row =? mr_memory_id duplicate) && String.eqb (er_status row) "active" = true)
                    (snd <$> map_to_list (lt_evidence (md_tables (ly_db db)))) in
      let stored := evidence_summary <$> rows in
      each validate_evidence_summary stored;;
      let fresh := new_candidate_evidence stored (rn_evidence r) in
      state ← reassessed_state source (stored ++ fresh);
      decision ← evaluate_promotion loaded state;
      if negb (length fresh =? 0)%nat && bool_decide (ld_action decision = LifecycleAction.PROMOTE)
      then promote_duplicate db p c ids now lineage_id branch_row digest duplicate source fresh decision
      else Ok omitted
    end.

(** *** Creation *)

(** [MemoryStatus(outcome.value)] of a durable outcome *)
Definition created_status (outcome : PolicyOutcome) : MemoryStatus :=
  match outcome with PolicyOutcome.CANDIDATE => MemoryStatus.CANDIDATE | _ => MemoryStatus.ACTIVE end.

Definition created_operation (outcome : PolicyOutcome) : EventOperation :=
  match outcome with PolicyOutcome.CANDIDATE => EventOperation.OBSERVED | _ => EventOperation.REMEMBERED end.

(** The deadline of a candidate. *)
Definition candidate_deadline (d : PolicyDecision) (created_at : instant) : result (option instant) :=
  match pd_outcome d, pd_candidate_ttl_days d with
  | PolicyOutcome.CANDIDATE, Some days => at_ ← add_days created_at days; Ok (Some at_)
  | _, _ => Ok None
  end.

(** The state of a new memory: in plaintext, or under an envelope. *)
Definition nominated_memory (p : CommandPrincipal) (c : NominationCommand) (r : ResolvedNominationContext) (lineage_id : UUID)
    (ids : NominationIdentifiers) (status : MemoryStatus) (deadline : option instant)
    (content : pystr + SealedContentEnvelopeState) : MemoryState :=
  let n := nc_proposal c in
  let sealed := match content with inl _ => false | inr _ => true end in
  {| ms_version := match content with inl _ => MemoryStateV2 deadline | inr s => MemoryStateV3 deadline s end;
     ms_memory_id := ni_memory_id ids; ms_tenant_id := cp_tenant_id p; ms_lineage_id := lineage_id;
     ms_branch_id := nc_branch_id c; ms_subject_id := np_subject_id n; ms_subject_kind := np_subject_kind n;
     ms_revision := 1; ms_category := np_category n; ms_ontological_status := np_ontological_status n;
     ms_scope := np_scope n; ms_visibility := np_visibility n; ms_status := status;
     ms_statement := if sealed then None else Some (np_statement n);
     ms_reason_to_remember := if sealed then None else Some (np_reason_to_remember n);
     ms_interpretation_limits := if sealed then [] else np_interpretation_limits n;
     ms_confidence := np_confidence n; ms_salience := np_salience n; ms_durability := np_durability n;
     ms_sensitivity := np_sensitivity n; ms_authority_class := rn_effective_authority_class r;
     ms_valid_from := np_valid_from n; ms_valid_to := np_valid_to n;
     ms_observed_at := Some (default (ni_created_at ids) (np_observed_at n)); ms_origin_session_id := np_origin_session_id n;
     ms_publication_approved_at := None; ms_publication_approved_by_actor_id := None;
     ms_content_protection := if sealed then envelope_encrypted else plaintext;
     ms_content_key_id := if sealed then Some (ni_content_key_id ids) else None; ms_created_at := ni_created_at ids;
     ms_updated_at := ni_created_at ids; ms_fingerprint_version := 1;
     ms_normalized_fingerprint := match content with inl f => Some f | inr _ => None end;
     ms_metadata := if sealed then [] else np_metadata n |}.

(** The provider's key for a new sealed memory. *)
Definition provision (p : CommandPrincipal) (lineage_id : UUID) (ids : NominationIdentifiers)
    : result (Provider * ContentKeyReference) :=
  from_option_or
    (provider ← sv_key_provider sv;
     reference ← kp_provision_key provider (ni_content_key_id ids) (cp_tenant_id p) lineage_id (ni_memory_id ids);
     guard (cr_content_key_id reference = ni_content_key_id ids /\ cr_provider_name reference = kp_name provider);;
     Some (provider, reference)) (SelectionExecutionError "dependency_unavailable").

Definition sealed_context (p : CommandPrincipal) (c : NominationCommand) (lineage_id : UUID) (ids : NominationIdentifiers)
    : SealedContentContext :=
  {| sx_tenant_id := cp_tenant_id p; sx_lineage_id := lineage_id; sx_branch_id := nc_branch_id c;
     sx_memory_id := ni_memory_id ids; sx_content_key_id := ni_content_key_id ids; sx_revision := 1;
     sx_event_id := ni_event_id ids; sx_schema_version := 3; sx_payload_version := 3 |}.

Definition proposal_plaintext (n : NominationProposal) : SealedMemoryPlaintext :=
  {| sp_statement := np_statement n; sp_reason_to_remember := np_reason_to_remember n;
     sp_interpretation_limits := np_interpretation_limits n; sp_metadata := np_metadata n |}.

(** The envelope of a sealed nomination and the reference of its key. *)
Definition seal_nomination (p : CommandPrincipal) (c : NominationCommand) (request : SealedContentRequest) (lineage_id : UUID)
    (ids : NominationIdentifiers) : result (ContentKeyReference * SealedContentEnvelope) :=
  '(provider, reference) ← provision p lineage_id ids;
  let context := sealed_context p c lineage_id ids in
  validate_context context;;
  document ← sealed_plaintext (proposal_plaintext (nc_proposal c));
  match (raw ← plaintext_bytes document;
         seal_with_provider provider reference raw context (sq_safe_summary request) (sv_nonce sv)) with
  | Ok envelope => Ok (reference, envelope)
  | Err _ => fail_selection "dependency_unavailable"
  end.

Definition content_key_row (p : CommandPrincipal) (lineage_id : UUID) (ids : NominationIdentifiers)
    (reference : ContentKeyReference) : ContentKeyRow :=
  {| ck_tenant_id := cp_tenant_id p; ck_lineage_id := lineage_id; ck_memory_id := ni_memory_id ids; ck_state := "active";
     ck_provider_name := cr_provider_name reference; ck_provider_key_reference := cr_provider_key_reference reference;
     ck_created_at := ni_created_at ids; ck_destruction_requested_at := None |}.

(** [session.add(MemoryContentKey(...))], flushed by the append's first query. *)
Definition insert_content_key (keys : gmap UUID ContentKeyRow) (id : UUID) (row : ContentKeyRow)
    : result (gmap UUID ContentKeyRow) :=
  match (raise_if (bool_decide (is_Some (keys !! id))) (DBAPIError "23505");; flush (content_key_error keys id row)) with
  | Ok _ => Ok (<[id := row]> keys)
  | Err (DBAPIError sqlstate) =>
    if bool_decide (sqlstate = "40001"%string) then Err (DBAPIError sqlstate)
    else Err (EventStoreError "event_store_unavailable" "event store operation failed")
  | Err e => Err e
  end.

(** Payload, payload version and content keys of a new memory. *)
Definition creation_payload (db : MutationDb) (p : CommandPrincipal) (c : NominationCommand) (r : ResolvedNominationContext)
    (d : PolicyDecision) (ids : NominationIdentifiers) (lineage_id : UUID) (fingerprint : pystr)
    : result (OperationPayload * Z * gmap UUID ContentKeyRow) :=
  let status := created_status (pd_outcome d) in
  deadline ← candidate_deadline d (ni_created_at ids);
  match nc_sealed_content c with
  | Some request =>
    '(reference, envelope) ← seal_nomination p c request lineage_id ids;
    sealed ← envelope_state envelope;
    let state := nominated_memory p c r lineage_id ids status deadline (inr sealed) in
    except_value_error (validate_memory state) (ValidationError "memory");;
    except_value_error (validate_payload (MemoryCreatedPayload state [])) (ValidationError "payload");;
    keys ← insert_content_key (md_content_keys db) (cr_content_key_id reference) (content_key_row p lineage_id ids reference);
    Ok (MemoryCreatedPayload state [], 3, keys)
  | None =>
    items ← zip_strict (rn_evidence r) (ni_evidence_ids ids);
    evidence ← mapR (nominated_evidence (cp_tenant_id p) lineage_id (nc_branch_id c) (ni_memory_id ids) (ni_created_at ids)) items;
    let state := nominated_memory p c r lineage_id ids status deadline (inl fingerprint) in
    except_value_error (validate_memory state) (ValidationError "memory");;
    except_value_error (validate_payload (MemoryCreatedPayload state evidence)) (ValidationError "payload");;
    Ok (MemoryCreatedPayload state evidence, 2, md_content_keys db)
  end.

Definition create_nominated (db : LifecycleDb) (p : CommandPrincipal) (c : NominationCommand) (r : ResolvedNominationContext)
    (d : PolicyDecision) (ids : NominationIdentifiers) (now : instant) (lineage_id : UUID) (branch_row : BranchRow)
    (fingerprint : pystr) (legacy_genesis_plaintext : bool) : result Judged :=
  '(payload, version, keys) ← creation_payload (ly_db db) p c r d ids lineage_id fingerprint;
  '(s, t, event) ← append_nominated (ly_db db) now (if legacy_genesis_plaintext then Some ADR0014_FIRST_IMPORT else None)
    branch_row
    (nomination_event p c (created_operation (pd_outcome d)) lineage_id payload version ids (ni_memory_id ids) None
       (nc_idempotency_key c) false);
  Ok {| jd_store := s; jd_tables := t; jd_keys := keys; jd_outcome := enum_value (pd_outcome d); jd_rule := policy_rule_code d;
        jd_reason_codes := (fun code => py (enum_value code)) <$> pd_reason_codes d;
        jd_matched_rule_ids := pd_matched_rule_ids d; jd_event := Some event; jd_memory_id := Some (ni_memory_id ids);
        jd_revision := Some 1; jd_source := None |}.

(** The outcome of the policy, applied. *)
Definition judge (db : LifecycleDb) (p : CommandPrincipal) (c : NominationCommand) (r : ResolvedNominationContext)
    (d : PolicyDecision) (ids : NominationIdentifiers) (now : instant) (lineage_id : UUID) (branch_row : BranchRow)
    (fingerprint : pystr) (digest : bytes) (legacy_genesis_plaintext : bool) : result Judged :=
  match pd_outcome d with
  | PolicyOutcome.CANDIDATE | PolicyOutcome.ACTIVE =>
    validate_sealed_policy_outcome c d;;
    duplicate ← find_duplicate db p c lineage_id fingerprint digest;
    match duplicate with
    | Some row => judge_duplicate db p c r d ids now lineage_id branch_row digest row
    | None => create_nominated db p c r d ids now lineage_id branch_row fingerprint legacy_genesis_plaintext
    end
  | outcome => Ok (unwritten (ly_db db) d (enum_value outcome) (policy_rule_code d)
                     ((fun code => py (enum_value code)) <$> pd_reason_codes d))
  end.

(** ** Decision, jobs and receipt *)

Definition selection_result (d : PolicyDecision) (ids : NominationIdentifiers) (j : Judged) : SelectionResult :=
  let silent := bool_decide (jd_outcome j ∈ ["omit"; "reject"]%string) in
  {| se_receipt_id := ni_receipt_id ids; se_decision_id := ni_decision_id ids; se_outcome := jd_outcome j;
     se_policy_sha256 := pd_profile_sha256 d; se_reason_codes := jd_reason_codes j;
     se_matched_rule_ids := jd_matched_rule_ids j;
     se_event_id := if silent then None else e_event_id <$> jd_event j;
     se_memory_id := if silent then None else jd_memory_id j; se_revision := if silent then None else jd_revision j;
     se_idempotent_replay := false; se_warnings := [] |}.

(** The row of [_append_decision]; a promotion copies its source's anchors. *)
Definition nomination_decision (p : CommandPrincipal) (c : NominationCommand) (r : ResolvedNominationContext)
    (ids : NominationIdentifiers) (lineage_id : UUID) (policy_sha256 digest : bytes) (j : Judged) (result : SelectionResult)
    (decided_at : instant) (sequence : Z) : SelectionDecision :=
  let n := nc_proposal c in
  let source := if String.eqb (jd_outcome j) "promoted" then jd_source j else None in
  {| dn_selection_sequence := sequence; dn_decision_id := ni_decision_id ids; dn_tenant_id := cp_tenant_id p;
     dn_lineage_id := lineage_id; dn_branch_id := nc_branch_id c; dn_persona_id := nc_persona_id c;
     dn_actor_id := cp_actor_id p; dn_client_id := cp_client_id p; dn_transport_binding_id := cp_transport_binding_id p;
     dn_policy_id := "scalevault-memory-selection"; dn_policy_version := 1; dn_policy_sha256 := policy_sha256;
     dn_policy_rule_code := jd_rule j; dn_input_sha256 := digest;
     dn_source_kind := match source with Some _ => "candidate_reassessment"%string | None => source_kind_value (rn_source_kind r) end;
     dn_requested_operation := match source with Some _ => "promote"%string | None => "nominate"%string end;
     dn_outcome := jd_outcome j; dn_reason_codes := JStr <$> jd_reason_codes j;
     dn_matched_rule_ids := JStr <$> jd_matched_rule_ids j;
     dn_selection_basis := match source with Some s => dn_selection_basis s | None => enum_value (np_selection_basis n) end;
     dn_scope := match source with Some s => dn_scope s | None => enum_value (np_scope n) end;
     dn_visibility := match source with Some s => dn_visibility s | None => enum_value (np_visibility n) end;
     dn_sensitivity := match source with Some s => dn_sensitivity s | None => np_sensitivity n end;
     dn_subject_id := match source with Some s => dn_subject_id s | None => np_subject_id n end;
     dn_subject_kind := match source with Some s => dn_subject_kind s | None => enum_value (np_subject_kind n) end;
     dn_memory_id := se_memory_id result; dn_event_id := se_event_id result; dn_decided_at := decided_at |}.

(** A job with the time it becomes available. *)
Definition nomination_jobs (e : MemoryEvent) (sealed : bool) (memory_id : UUID) (revision : Z) (candidate promotion : bool)
    (deadline : option instant) (decision_id : UUID) : list (JobSpec * option instant) :=
  let references := memory_references memory_id revision (e_event_id e) in
  (if sealed then [] else [(memory_job "embed_memory" memory_id revision (e_event_id e), None)])
  ++ (if negb promotion && negb sealed then [(memory_job "check_duplicates" memory_id revision (e_event_id e), None)] else [])
  ++ [({| js_job_type := "export_git_batch"; js_aggregate_type := "event"; js_aggregate_id := Some (e_event_id e);
          js_references := list_to_map [(py "event_id", RefUUID (e_event_id e)); (py "event_sequence", RefInt (e_sequence e))] |}, None)]
  ++ (if candidate
      then [({| js_job_type := "expire_candidate"; js_aggregate_type := "memory"; js_aggregate_id := Some memory_id;
                js_references := <[py "selection_decision_id" := RefUUID decision_id]> references |}, deadline)]
      else []).

Definition enqueue_nomination_job (p : CommandPrincipal) (timestamp : instant) (db : OutboxDb)
    (item : UUID * (JobSpec * option instant)) : result OutboxDb :=
  '(db', _) ← enqueue_outbox_job db timestamp (0, 0)
    {| ji_tenant_id := cp_tenant_id p; ji_job_type := py (js_job_type item.2.1);
       ji_aggregate_type := py (js_aggregate_type item.2.1); ji_aggregate_id := js_aggregate_id item.2.1;
       ji_references := js_references item.2.1 |}
    DEFAULT_PRIORITY DEFAULT_JOB_ATTEMPTS item.2.2 (Some item.1);
  Ok db'.

(** [_enqueue_creation_jobs]; identities beyond the jobs are not used. *)
Definition enqueue_creation_jobs (p : CommandPrincipal) (d : PolicyDecision) (ids : NominationIdentifiers) (timestamp : instant)
    (j : Judged) (r : SelectionResult) (db : OutboxDb) : result OutboxDb :=
  match jd_event j with
  | None => Ok db
  | Some event =>
    deadline ← (if String.eqb (jd_outcome j) "candidate" then
                  match pd_candidate_ttl_days d with
                  | Some days => at_ ← add_days (ni_created_at ids) days; Ok (Some at_) | None => Ok None end
                else Ok None);
    match se_memory_id r, se_revision r with
    | Some memory_id, Some revision =>
      payload ← typed_payload event;
      let sealed := match payload with MemoryCreatedPayload m _ => is_v3 m | _ => false end in
      foldM (enqueue_nomination_job p timestamp) db
        (zip (ni_job_ids ids) (nomination_jobs event sealed memory_id revision (String.eqb (jd_outcome j) "candidate")
           (String.eqb (jd_outcome j) "promoted") deadline (ni_decision_id ids)))
    | _, _ => Ok db
    end
  end.

Definition nomination_receipt (p : CommandPrincipal) (c : NominationCommand) (ids : NominationIdentifiers)
    (command_digest canonical : bytes) (r : SelectionResult) : CommandReceipt :=
  {| rc_receipt_id := ni_receipt_id ids; rc_tenant_id := cp_tenant_id p; rc_client_id := cp_client_id p;
     rc_idempotency_key := nc_idempotency_key c; rc_command_sha256 := command_digest; rc_event_id := se_event_id r;
     rc_selection_decision_id := Some (ni_decision_id ids); rc_memory_id := se_memory_id r;
     rc_memory_revision := se_revision r; rc_result := selection_value r; rc_result_canonical := canonical;
     rc_result_sha256 := sha256 canonical; rc_created_at := ni_created_at ids |}.

(** The writes that follow the judgement. *)
Definition record_nomination (db : LifecycleDb) (p : CommandPrincipal) (c : NominationCommand) (r : ResolvedNominationContext)
    (d : PolicyDecision) (ids : NominationIdentifiers) (lineage_id : UUID) (command_digest digest : bytes) (timestamp : instant)
    (j : Judged) : result (LifecycleDb * SelectionResult) :=
  let outcome := selection_result d ids j in
  validate_selection_result outcome;;
  '(decisions, _) ← append_selection_decision true (ly_decisions db) (fun sequence =>
    policy_sha256 ← from_option_or (fromhex (pd_profile_sha256 d)) (ValueError "non-hexadecimal number found in fromhex() arg");
    Ok (nomination_decision p c r ids lineage_id policy_sha256 digest j outcome timestamp sequence));
  jobs ← enqueue_creation_jobs p d ids timestamp j outcome (md_outbox (ly_db db));
  canonical ← canonical_plain_bytes (selection_value outcome);
  receipts ← insert_receipt (md_receipts (ly_db db)) (nomination_receipt p c ids command_digest canonical outcome);
  Ok ({| ly_db := written (ly_db db) (jd_store j) (jd_tables j) jobs (jd_keys j) receipts; ly_decisions := decisions |}, outcome).

(** ** The transaction *)

Definition authorize_participant (participant : option Participant) (db : LifecycleDb) : result unit :=
  match participant with Some t => tp_authorize t db | None => Ok tt end.

(** The guard of the importer's plaintext exception, rechecked inside. *)
Definition legacy_exception_ok (p : CommandPrincipal) (c : NominationCommand) (r : ResolvedNominationContext)
    (participant : option Participant) : bool :=
  is_genesis p && negb (is_none participant) && bool_decide (rn_source_kind r = genesis_import)
  && bool_decide (np_selection_basis (nc_proposal c) = SelectionBasis.IMPORTED_LEGACY)
  && (np_sensitivity (nc_proposal c) =? 4) && negb (is_sealed c).

(** [SelectionEngine._attempt]: the database, the result and the advisory locks
    asked for, in order. *)
Definition selection_attempt (db : LifecycleDb) (p : CommandPrincipal) (c : NominationCommand) (r : ResolvedNominationContext)
    (d : PolicyDecision) (command_digest digest : bytes) (ids : NominationIdentifiers) (participant : option Participant)
    (legacy_genesis_plaintext : bool) (now timestamp : instant) : result (LifecycleDb * SelectionResult * list Z) :=
  authorize_participant participant db;;
  key ← idempotency_advisory_lock_key (cp_tenant_id p) (cp_client_id p) (nc_idempotency_key c);
  first ← acquire_advisory_xact_locks [key];
  match load_receipt db p c with
  | Some receipt => replayed ← replay_from_receipt receipt command_digest; Ok (db, replayed, first)
  | None =>
    refuse_if (legacy_genesis_plaintext && negb (legacy_exception_ok p c r participant)) "forbidden";;
    '(lineage_id, branch_row) ← check_nomination (ly_db db) p c;
    fingerprint ← nomination_fingerprint c;
    lock ← advisory_lock_key (cp_tenant_id p) lineage_id (nc_branch_id c) (np_subject_id (nc_proposal c)) (inl fingerprint);
    second ← acquire_advisory_xact_locks [lock];
    j ← judge db p c r d ids now lineage_id branch_row fingerprint digest legacy_genesis_plaintext;
    '(db', outcome) ← record_nomination db p c r d ids lineage_id command_digest digest timestamp j;
    match participant with Some t => tp_stage t db' p c r outcome | None => Ok tt end;;
    Ok (db', outcome, first ++ second)
  end.

(** ** Execution *)

(** The [except] clauses of [execute]. *)
Definition selection_error (e : exn) : exn :=
  match e with
  | SelectionExecutionError _ => e
  | SerializableTransactionError _ _ => SelectionExecutionError "serialization_exhausted"
  | EventStoreError _ _ | ProjectionPersistenceError _ | SelectionHistoryError _ | KeyProviderError
  | SealedContentError _ | InvalidSealedEnvelopeError | SealedContentAuthenticationError | SealedContentKeyUnavailableError
  | DBAPIError _ => SelectionExecutionError "dependency_unavailable"
  | TypeError _ => SelectionExecutionError "invalid_input"
  | _ => if is_value_error e then SelectionExecutionError "invalid_input" else e
  end.

(** The checks before anything is read. *)
Definition admit_nomination (p : CommandPrincipal) (c : NominationCommand) (participant : option Participant) : result bytes :=
  refuse_if (is_genesis p && is_none participant) "forbidden";;
  refuse_if (negb (selection_authorized p)) "forbidden";;
  refuse_if ((np_sensitivity (nc_proposal c) =? 4) && negb (is_sealed c) && negb (is_genesis p)) "invalid_input";;
  refuse_if (is_sealed c && negb (is_none (cp_ingress_id p))) "forbidden";;
  refuse_if (is_sealed c && (is_none (sv_key_provider sv) || is_none (sv_digest_binder sv))) "dependency_unavailable";;
  command_digest ← nomination_digest p c;
  refuse_if (match participant with
             | Some t => negb (bool_decide (nc_transaction_binding_sha256 c = Some (tp_binding_sha256 t))) | None => false end)
    "forbidden";;
  Ok command_digest.

(** The first transaction: a stored receipt. *)
Definition preflight (p : CommandPrincipal) (c : NominationCommand) (participant : option Participant)
    (command_digest : bytes) (db : LifecycleDb) : result (option SelectionResult) :=
  authorize_participant participant db;;
  match load_receipt db p c with
  | Some receipt => r ← replay_from_receipt receipt command_digest; Ok (Some r)
  | None => Ok None
  end.

(** What is decided between the transactions: facts, policy decision and
    whether the importer's plaintext exception applies. *)
Definition decide_nomination (p : CommandPrincipal) (c : NominationCommand) (participant : option Participant)
    : result (ResolvedNominationContext * PolicyDecision * bool) :=
  let n := nc_proposal c in
  r ← from_option_or (sv_resolver sv p c) (SelectionExecutionError "authority_unavailable");
  refuse_if (is_sealed c && bool_decide (rn_source_kind r = github_proposal)) "forbidden";;
  refuse_if (is_genesis p && (negb (bool_decide (rn_source_kind r = genesis_import))
             || negb (bool_decide (np_selection_basis n = SelectionBasis.IMPORTED_LEGACY)))) "forbidden";;
  let legacy := legacy_exception_ok p c r participant in
  refuse_if ((np_sensitivity n =? 4) && negb (is_sealed c) && negb legacy) "invalid_input";;
  request ← selection_request n r;
  d ← evaluate_selection loaded request;
  validate_sealed_policy_outcome c d;;
  Ok (r, d, legacy).

(** The memory and key identifiers of a sealed nomination are derived, those of
    others drawn; as many evidence identifiers as there is evidence. *)
Definition nomination_identifiers (c : NominationCommand) (r : ResolvedNominationContext) (command_digest : bytes)
    (drawn : NominationIdentifiers) : result NominationIdentifiers :=
  let with_ids memory_id content_key_id :=
    {| ni_receipt_id := ni_receipt_id drawn; ni_decision_id := ni_decision_id drawn; ni_event_id := ni_event_id drawn;
       ni_memory_id := memory_id; ni_content_key_id := content_key_id; ni_correlation_id := ni_correlation_id drawn;
       ni_evidence_ids := take (length (rn_evidence r)) (ni_evidence_ids drawn); ni_job_ids := ni_job_ids drawn;
       ni_created_at := ni_created_at drawn |} in
  if is_sealed c then
    memory_id ← stable_sealed_id "memory-id-v1" command_digest;
    content_key_id ← stable_sealed_id "content-key-id-v1" command_digest;
    Ok (with_ids memory_id content_key_id)
  else Ok (with_ids (ni_memory_id drawn) (ni_content_key_id drawn)).

(** Attempt [n] of a transaction runs on [snapshot n]; [refused n] is the
    server's refusal to commit it. *)
Definition attempts {A} (snapshot : nat -> LifecycleDb) (refused : nat -> option string) (jitter : nat -> float)
    (body : nat -> LifecycleDb -> result A) : result A :=
  (run_serializable_transaction (fun n => outcome ← body n (snapshot n); flush (refused n);; Ok outcome)
     jitter DEFAULT_MAX_ATTEMPTS DEFAULT_BASE_DELAY DEFAULT_MAX_DELAY).1.

(** [SelectionEngine.execute]: the state is the one the nomination committed,
    if it did. *)
Definition selection_run (before snapshot : nat -> LifecycleDb) (refused_first refused : nat -> option string)
    (now timestamp : nat -> instant) (jitter : nat -> float) (p : CommandPrincipal) (c : NominationCommand)
    (participant : option Participant) (drawn : NominationIdentifiers) : result (option LifecycleDb * SelectionResult) :=
  command_digest ← admit_nomination p c participant;
  replayed ← attempts before refused_first jitter (fun _ => preflight p c participant command_digest);
  match replayed with
  | Some r => Ok (None, r)
  | None =>
    '(r, d, legacy) ← decide_nomination p c participant;
    ids ← nomination_identifiers c r command_digest drawn;
    digest ← input_digest p c r;
    '(db, outcome, _) ← attempts snapshot refused jitter (fun n db =>
      selection_attempt db p c r d command_digest digest ids participant legacy (now n) (timestamp n));
    Ok (Some db, outcome)
  end.

Definition selection_execute (before snapshot : nat -> LifecycleDb) (refused_first refused : nat -> option string)
    (now timestamp : nat -> instant) (jitter : nat -> float) (p : CommandPrincipal) (c : NominationCommand)
    (participant : option Participant) (drawn : NominationIdentifiers) : result (option LifecycleDb * SelectionResult) :=
  match selection_run before snapshot refused_first refused now timestamp jitter p c participant drawn with
  | Ok outcome => Ok outcome
  | Err e => Err (selection_error e)
  end.
End Engine.
