(* ===== verification/NominationTheorems.v ===== *)
(** * NominationTheorems: what a nomination does, and how the writers compose

    Inversion of a successful nomination, its once-only execution, and the
    invariant of the store under any interleaving of mutation commands,
    lifecycle commands and nominations. *)

From stdpp Require Import base tactics option list gmap sets strings.
From Stdlib Require Import ZArith Lia Bool SpecFloat.
From S2P Require Import Prelude Identifiers Enums Values CanonicalJson Digest Text Constraints Events Folding FoldingFacts FoldingInvariant FoldingHistory EventStore EventStoreTheorems OutboxTheorems OutboxProgress PolicyContracts Policy ProjectionRows LiveProjection LiveProjectionFacts LiveReplay ProjectionRebuild Outbox Fingerprints Locks Transactions Commands Mutations MutationEngine MutationTheorems MutationEffects MutationGuards SelectionHistory CandidateLifecycle CandidateLifecycleTheorems Disk DestructionLedger KeyProvider SealedContent Nominations.
Open Scope Z_scope.

Section Facts.
Context `{R : Rfc8785} `{P : Pydantic} `{LD : LiveDatabase} `{D : Database} `{RS : ReceiptStore} `{DD : DecisionDatabase}
        `{PS : PyStr} `{AE : Aead} `{NS : NominationStore} (loaded : LoadedSelectionPolicy).

Lemma refuse_if_Ok b code u : refuse_if b code = Ok u -> b = false.
Proof. by destruct b. Qed.

(** ** Inversion *)

(** Appended through the live path. *)
Lemma append_nominated_Ok db now auth branch_row built s t e :
  append_nominated db now auth branch_row built = Ok (s, t, e) ->
  exists proposed branch, built = Ok proposed /\ orm_branch branch_row = Ok branch /\
    append_and_project now (fun n => Ok (with_sequence proposed n)) auth branch (md_store db) (md_tables db) = Ok (s, t, e).
Proof.
  unfold append_nominated. intros Ha. apply bind_Ok in Ha as ([s' e'] & Happ & Ha). apply bind_Ok in Ha as (branch & Hb & Ha).
  apply bind_Ok in Ha as (before & Hl & Ha). apply bind_Ok in Ha as (after & Hv & Ha). apply bind_Ok in Ha as (t' & Ht & [= <- <- <-]).
  destruct (append_Ok _ _ _ _ _ _ Happ) as (n & b & ingress & row & Hn & Hbuilt & _). destruct built as [proposed|]; [|discriminate].
  exists proposed, branch. split; [reflexivity|]. split; [exact Hb|].
  rewrite (append_ext _ _ (fun n => Ok (with_sequence proposed n))) in Happ by reflexivity.
  unfold append_and_project. rewrite Happ. cbn [mbind result_bind]. rewrite Hl. cbn [mbind result_bind]. rewrite Hv.
  cbn [mbind result_bind]. rewrite Ht. reflexivity.
Qed.

Lemma nomination_event_Ok p c op lineage payload version ids memory_id revision key internal e :
  nomination_event p c op lineage payload version ids memory_id revision key internal = Ok e ->
  model_validate e = Ok e /\ e_operation e = op /\ e_memory_id e = Some memory_id /\ e_expected_revision e = revision /\
  e_tenant_id e = cp_tenant_id p /\ e_schema_version e = version /\ e_payload_version e = version /\
  canonical_value payload = Ok (e_payload e).
Proof.
  unfold nomination_event. intros He. apply bind_Ok in He as ([[[v cn] ps] cs] & Hh & He).
  pose proof He as Hv. apply model_validate_Ok in Hv as [-> _]. unfold event_hash_fields in Hh.
  apply bind_Ok in Hh as (pv & Hpv & Hh). apply bind_Ok in Hh as ([] & _ & Hh). apply bind_Ok in Hh as (? & _ & Hh).
  apply bind_Ok in Hh as (? & _ & Hh). apply bind_Ok in Hh as (? & _ & [= <- <- <- <-]). done.
Qed.

(** The event a judgement wrote, if it wrote one. *)
Inductive staged (db : LifecycleDb) (now : instant) (branch_row : BranchRow) (j : Judged) : Prop :=
| staged_nothing : jd_event j = None -> jd_store j = md_store (ly_db db) -> jd_tables j = md_tables (ly_db db) ->
    jd_keys j = md_content_keys (ly_db db) -> jd_outcome j ∈ ["omit"; "reject"]%string -> staged db now branch_row j
| staged_event auth proposed branch e : jd_event j = Some e -> model_validate proposed = Ok proposed ->
    orm_branch branch_row = Ok branch ->
    append_and_project now (fun n => Ok (with_sequence proposed n)) auth branch (md_store (ly_db db)) (md_tables (ly_db db))
      = Ok (jd_store j, jd_tables j, e) -> jd_outcome j ∉ ["omit"; "reject"]%string -> staged db now branch_row j.

(** What [judge_duplicate] comes to. *)
Inductive duplicate_judged sv (db : LifecycleDb) (p : CommandPrincipal) (c : NominationCommand) (r : ResolvedNominationContext)
    (d : PolicyDecision) (ids : NominationIdentifiers) (now : instant) (lineage_id : UUID) (branch_row : BranchRow)
    (digest : bytes) (row : MemoryRow) : Judged -> Prop :=
| dj_covered : mr_status row = "active"%string ->
    duplicate_judged sv db p c r d ids now lineage_id branch_row digest row
      (unwritten (ly_db db) d "omit" (py "already_covered") [py "already_covered"])
| dj_candidate : mr_status row <> "active"%string ->
    duplicate_judged sv db p c r d ids now lineage_id branch_row digest row
      (unwritten (ly_db db) d "omit" (py "already_candidate") [py "already_candidate"])
| dj_promoted source stored fresh state decision j : mr_status row <> "active"%string ->
    newest_source (ly_decisions db) p (mr_memory_id row) = Some source ->
    fresh = new_candidate_evidence stored (rn_evidence r) -> fresh <> [] ->
    reassessed_state source (stored ++ fresh) = Ok state -> evaluate_promotion loaded state = Ok decision ->
    ld_action decision = LifecycleAction.PROMOTE ->
    promote_duplicate sv db p c ids now lineage_id branch_row digest row source fresh decision = Ok j ->
    duplicate_judged sv db p c r d ids now lineage_id branch_row digest row j.

Lemma judge_duplicate_Ok sv db p c r d ids now lineage_id branch_row digest row j :
  judge_duplicate loaded sv db p c r d ids now lineage_id branch_row digest row = Ok j ->
  duplicate_judged sv db p c r d ids now lineage_id branch_row digest row j.
Proof.
  unfold judge_duplicate. destruct (String.eqb_spec (mr_status row) "active") as [Ha|Ha]; [intros [= <-]; by apply dj_covered|].
  destruct (newest_source _ _ _) as [source|] eqn:Hs; [|intros [= <-]; by apply dj_candidate].
  intros Hj. apply bind_Ok in Hj as ([] & _ & Hj). apply bind_Ok in Hj as (state & Hstate & Hj). apply bind_Ok in Hj as (decision & Hd & Hj).
  destruct (_ && _) eqn:Hc in Hj; [|injection Hj as <-; by apply dj_candidate].
  apply andb_true_iff in Hc as [Hf%negb_true_iff%Nat.eqb_neq Hp%bool_decide_eq_true].
  eapply dj_promoted; [exact Ha|exact Hs|reflexivity| |exact Hstate|exact Hd|exact Hp|exact Hj].
  intros E. rewrite E in Hf. by apply Hf.
Qed.

(** The ways [judge] returns. *)
Inductive judged sv (db : LifecycleDb) (p : CommandPrincipal) (c : NominationCommand) (r : ResolvedNominationContext)
    (d : PolicyDecision) (ids : NominationIdentifiers) (now : instant) (lineage_id : UUID) (branch_row : BranchRow)
    (fingerprint : pystr) (digest : bytes) (legacy : bool) : Judged -> Prop :=
| jg_silent : pd_outcome d ∈ [PolicyOutcome.OMIT; PolicyOutcome.REJECT] ->
    judged sv db p c r d ids now lineage_id branch_row fingerprint digest legacy
      (unwritten (ly_db db) d (enum_value (pd_outcome d)) (policy_rule_code d) ((fun code => py (enum_value code)) <$> pd_reason_codes d))
| jg_duplicate row j : pd_outcome d ∈ [PolicyOutcome.CANDIDATE; PolicyOutcome.ACTIVE] ->
    find_duplicate db p c lineage_id fingerprint digest = Ok (Some row) ->
    duplicate_judged sv db p c r d ids now lineage_id branch_row digest row j ->
    judged sv db p c r d ids now lineage_id branch_row fingerprint digest legacy j
| jg_created j : pd_outcome d ∈ [PolicyOutcome.CANDIDATE; PolicyOutcome.ACTIVE] ->
    validate_sealed_policy_outcome c d = Ok tt ->
    find_duplicate db p c lineage_id fingerprint digest = Ok None ->
    create_nominated sv db p c r d ids now lineage_id branch_row fingerprint legacy = Ok j ->
    judged sv db p c r d ids now lineage_id branch_row fingerprint digest legacy j.

Lemma judge_Ok sv db p c r d ids now lineage_id branch_row fingerprint digest legacy j :
  judge loaded sv db p c r d ids now lineage_id branch_row fingerprint digest legacy = Ok j ->
  judged sv db p c r d ids now lineage_id branch_row fingerprint digest legacy j.
Proof.
  unfold judge. intros Hj. destruct (pd_outcome d) eqn:Ho.
  1,2: injection Hj as <-; pose proof (jg_silent sv db p c r d ids now lineage_id branch_row fingerprint digest legacy) as Hg;
    rewrite Ho in Hg; apply Hg; set_solver.
  all: apply bind_Ok in Hj as ([] & Hv & Hj); apply bind_Ok in Hj as (dup & Hd & Hj); destruct dup as [row|];
    [eapply jg_duplicate; [rewrite Ho; set_solver|exact Hd|by apply judge_duplicate_Ok]
    |apply jg_created; [rewrite Ho; set_solver|exact Hv|exact Hd|exact Hj]].
Qed.

Lemma promote_duplicate_Ok sv db p c ids now lineage_id branch_row digest row source fresh decision j :
  promote_duplicate sv db p c ids now lineage_id branch_row digest row source fresh decision = Ok j ->
  exists principal current payload proposed branch e,
    promotion_principal sv (ly_db db) p c (mr_memory_id row) = Ok principal /\ memory_row_to_state row = Ok current /\
    nomination_event principal c EventOperation.CANDIDATE_PROMOTED lineage_id payload 2 ids (mr_memory_id row)
      (Some (ms_revision current)) (promotion_key (mr_memory_id row) digest) true = Ok proposed /\
    orm_branch branch_row = Ok branch /\
    append_and_project now (fun n => Ok (with_sequence proposed n)) None branch (md_store (ly_db db)) (md_tables (ly_db db))
      = Ok (jd_store j, jd_tables j, e) /\
    jd_event j = Some e /\ jd_outcome j = "promoted"%string /\ jd_memory_id j = Some (mr_memory_id row) /\
    jd_revision j = Some (ms_revision current + 1) /\ jd_keys j = md_content_keys (ly_db db) /\
    jd_rule j = py (enum_value (ld_reason_code decision)).
Proof.
  unfold promote_duplicate. intros Hj. apply bind_Ok in Hj as (principal & Hp & Hj). apply bind_Ok in Hj as (read & Hr & Hj).
  apply bind_Ok in Hj as (current & Hc & Hj). apply as_v2_id in Hc as ->. apply bind_Ok in Hj as (payload & _ & Hj).
  apply bind_Ok in Hj as ([[s t] e] & Ha & [= <-]). apply append_nominated_Ok in Ha as (proposed & branch & Hpr & Hb & Ha).
  exists principal, read, payload, proposed, branch, e. cbn. by split_and!.
Qed.

Lemma create_nominated_Ok sv db p c r d ids now lineage_id branch_row fingerprint legacy j :
  create_nominated sv db p c r d ids now lineage_id branch_row fingerprint legacy = Ok j ->
  exists payload version keys proposed branch e auth,
    creation_payload sv (ly_db db) p c r d ids lineage_id fingerprint = Ok (payload, version, keys) /\
    nomination_event p c (created_operation (pd_outcome d)) lineage_id payload version ids (ni_memory_id ids) None
      (nc_idempotency_key c) false = Ok proposed /\
    orm_branch branch_row = Ok branch /\
    append_and_project now (fun n => Ok (with_sequence proposed n)) auth branch (md_store (ly_db db)) (md_tables (ly_db db))
      = Ok (jd_store j, jd_tables j, e) /\
    jd_event j = Some e /\ jd_outcome j = enum_value (pd_outcome d) /\ jd_memory_id j = Some (ni_memory_id ids) /\
    jd_revision j = Some 1 /\ jd_keys j = keys /\ jd_rule j = policy_rule_code d.
Proof.
  unfold create_nominated. intros Hj. apply bind_Ok in Hj as ([[payload version] keys] & Hp & Hj).
  apply bind_Ok in Hj as ([[s t] e] & Ha & [= <-]). apply append_nominated_Ok in Ha as (proposed & branch & Hpr & Hb & Ha).
  eexists payload, version, keys, proposed, branch, e, _. cbn. split; [exact Hp|]. split; [exact Hpr|]. split; [exact Hb|].
  split; [exact Ha|]. by split_and!.
Qed.

Lemma judged_staged sv db p c r d ids now lineage_id branch_row fingerprint digest legacy j :
  judged sv db p c r d ids now lineage_id branch_row fingerprint digest legacy j -> staged db now branch_row j.
Proof.
  intros [Ho|row j' Ho _ Hd|j' Ho _ _ Hc].
  - apply staged_nothing; try reflexivity. cbn. destruct (pd_outcome d); set_solver.
  - destruct Hd as [Ha|Ha|source stored fresh state decision j' _ _ _ _ _ _ _ Hp].
    + apply staged_nothing; try reflexivity. set_solver.
    + apply staged_nothing; try reflexivity. set_solver.
    + apply promote_duplicate_Ok in Hp as (pr & cur & pl & proposed & branch & e & _ & _ & He & Hb & Ha & Hev & Ho' & _).
      eapply staged_event; [exact Hev|exact (proj1 (nomination_event_Ok _ _ _ _ _ _ _ _ _ _ _ _ He))|exact Hb|exact Ha|rewrite Ho'; set_solver].
  - apply create_nominated_Ok in Hc as (pl & v & ks & proposed & branch & e & auth & _ & He & Hb & Ha & Hev & Ho' & _).
    eapply staged_event; [exact Hev|exact (proj1 (nomination_event_Ok _ _ _ _ _ _ _ _ _ _ _ _ He))|exact Hb|exact Ha|].
    rewrite Ho'. destruct (pd_outcome d); cbn; set_solver.
Qed.

(** ** What is recorded *)

Record recorded (db : LifecycleDb) (p : CommandPrincipal) (c : NominationCommand) (r : ResolvedNominationContext)
    (d : PolicyDecision) (ids : NominationIdentifiers) (lineage_id : UUID) (command_digest digest : bytes) (timestamp : instant)
    (j : Judged) (db' : LifecycleDb) (outcome : SelectionResult) : Prop := {
  re_parts : exists policy_sha256 decisions row jobs canonical,
    outcome = selection_result d ids j /\ validate_selection_result outcome = Ok tt /\
    fromhex (pd_profile_sha256 d) = Some policy_sha256 /\
    append_selection_decision true (ly_decisions db) (fun n =>
      Ok (nomination_decision p c r ids lineage_id policy_sha256 digest j outcome timestamp n)) = Ok (decisions, row) /\
    enqueue_creation_jobs p d ids timestamp j outcome (md_outbox (ly_db db)) = Ok jobs /\
    canonical_plain_bytes (selection_value outcome) = Ok canonical /\
    md_receipts (ly_db db) !! nomination_key p c = None /\
    db' = {| ly_db := written (ly_db db) (jd_store j) (jd_tables j) jobs (jd_keys j)
               (<[nomination_key p c := nomination_receipt p c ids command_digest canonical outcome]> (md_receipts (ly_db db)));
             ly_decisions := decisions |}
}.

Lemma append_decision_ext t b b' : (forall n, dt_counter t = Some n -> b n = b' n) ->
  append_selection_decision true t b = append_selection_decision true t b'.
Proof.
  intros Hb. unfold append_selection_decision. destruct (dt_counter t) as [n|]; [|reflexivity].
  cbn [from_option_or mbind result_bind]. by rewrite (Hb n eq_refl).
Qed.

Lemma record_nomination_Ok db p c r d ids lineage_id command_digest digest timestamp j db' outcome :
  record_nomination db p c r d ids lineage_id command_digest digest timestamp j = Ok (db', outcome) ->
  recorded db p c r d ids lineage_id command_digest digest timestamp j db' outcome.
Proof.
  unfold record_nomination. intros Hr. apply bind_Ok in Hr as ([] & Hv & Hr). apply bind_Ok in Hr as ([decisions row] & Hd & Hr).
  apply bind_Ok in Hr as (jobs & Hj & Hr). apply bind_Ok in Hr as (canonical & Hc & Hr). apply bind_Ok in Hr as (receipts & Hi & [= <- <-]).
  unfold insert_receipt in Hi. apply bind_Ok in Hi as ([] & Hfree%raise_if_Ok & Hi). apply bind_Ok in Hi as ([] & _ & [= <-]).
  apply orb_false_iff in Hfree as [Hfree%bool_decide_eq_false _]. apply eq_None_not_Some in Hfree.
  pose proof (append_decision_Ok _ _ _ _ _ Hd) as (n & _ & Hb & _). apply bind_Ok in Hb as (sha & Hsha & _). split.
  pose proof Hsha as Hhex. apply from_option_or_Ok in Hhex. exists sha, decisions, row, jobs, canonical. split; [reflexivity|].
  split; [exact Hv|]. split; [exact Hhex|]. split; [|split; [exact Hj|split; [exact Hc|split; [exact Hfree|reflexivity]]]].
  rewrite <- Hd. apply append_decision_ext. intros m _. rewrite Hsha. reflexivity.
Qed.

(** ** Attempts *)

(** A nomination without a receipt, done. *)
Record nominated sv (db : LifecycleDb) (p : CommandPrincipal) (c : NominationCommand) (r : ResolvedNominationContext)
    (d : PolicyDecision) (command_digest digest : bytes) (ids : NominationIdentifiers) (legacy : bool) (now timestamp : instant)
    (db' : LifecycleDb) (outcome : SelectionResult) : Prop := {
  nm_parts : exists lineage_id branch_row fingerprint j,
    check_nomination (ly_db db) p c = Ok (lineage_id, branch_row) /\ nomination_fingerprint sv c = Ok fingerprint /\
    judged sv db p c r d ids now lineage_id branch_row fingerprint digest legacy j /\
    recorded db p c r d ids lineage_id command_digest digest timestamp j db' outcome
}.

Lemma selection_attempt_Ok sv db p c r d command_digest digest ids participant legacy now timestamp db' outcome locks :
  selection_attempt loaded sv db p c r d command_digest digest ids participant legacy now timestamp = Ok (db', outcome, locks) ->
  (exists receipt, load_receipt db p c = Some receipt /\ db' = db /\ replay_from_receipt receipt command_digest = Ok outcome) \/
  (load_receipt db p c = None /\ (legacy = true -> legacy_exception_ok p c r participant = true) /\
   nominated sv db p c r d command_digest digest ids legacy now timestamp db' outcome).
Proof.
  unfold selection_attempt. intros Ha. apply bind_Ok in Ha as ([] & _ & Ha). apply bind_Ok in Ha as (key & _ & Ha).
  apply bind_Ok in Ha as (first & _ & Ha). destruct (load_receipt db p c) as [receipt|] eqn:Hrc.
  - apply bind_Ok in Ha as (replayed & Hrep & [= <- <- _]). left. by exists receipt.
  - right. split; [reflexivity|]. apply bind_Ok in Ha as ([] & Hleg%refuse_if_Ok & Ha). apply bind_Ok in Ha as ([lineage_id branch_row] & Hchk & Ha).
    apply bind_Ok in Ha as (fingerprint & Hfp & Ha). apply bind_Ok in Ha as (lock & _ & Ha). apply bind_Ok in Ha as (second & _ & Ha).
    apply bind_Ok in Ha as (j & Hj & Ha). apply bind_Ok in Ha as ([db1 outcome1] & Hrec & Ha). apply bind_Ok in Ha as ([] & _ & [= <- <- _]).
    split; [intros ->; by apply negb_false_iff in Hleg|]. split. exists lineage_id, branch_row, fingerprint, j.
    split; [exact Hchk|]. split; [exact Hfp|]. split; [by apply judge_Ok|by apply record_nomination_Ok].
Qed.

(** ** The invariant *)

Definition branch_rows_ok (db : MutationDb) : Prop :=
  forall id row, md_branches db !! id = Some row -> is_ok (branch_state_of row) = true.

Lemma orm_branch_state row b b' : orm_branch row = Ok b -> branch_state_of row = Ok b' -> b' = b.
Proof.
  unfold orm_branch, branch_state_of. destruct (enum_of_value MemoryVisibility (hr_visibility_ceiling row)) as [v|]; [|discriminate].
  cbn [from_option_or mbind result_bind]. intros [= <-] Hb. by apply bind_Ok in Hb as ([] & _ & [= <-]).
Qed.

Lemma check_nomination_branch db p c lineage_id branch_row :
  check_nomination db p c = Ok (lineage_id, branch_row) -> md_branches db !! nc_branch_id c = Some branch_row.
Proof.
  unfold check_nomination. intros Hc. apply bind_Ok in Hc as ([] & _ & Hc). apply bind_Ok in Hc as ([[[[l ls] pr] actor] b] & Hi & Hc).
  apply from_option_or_Ok in Hi. do 3 (apply bind_Ok in Hc as ([] & _ & Hc)). apply bind_Ok in Hc as (subject & _ & Hc).
  apply bind_Ok in Hc as ([] & _ & [= <- <-]). unfold nomination_identity in Hi. apply bind_Some in Hi as (row & Hrow & Hi).
  apply bind_Some in Hi as (? & _ & Hi). apply bind_Some in Hi as (? & _ & Hi). apply bind_Some in Hi as (? & _ & Hi).
  apply bind_Some in Hi as (? & _ & Hi). apply bind_Some in Hi as (? & _ & [= _ _ _ _ <-]). exact Hrow.
Qed.

Lemma creation_jobs_ok p d ids timestamp j r db db' :
  outbox_ok db -> enqueue_creation_jobs p d ids timestamp j r db = Ok db' -> outbox_ok db'.
Proof.
  intros Hok. unfold enqueue_creation_jobs. destruct (jd_event j) as [e|]; [|by intros [= <-]].
  intros Hj. apply bind_Ok in Hj as (deadline & _ & Hj). destruct (se_memory_id r) as [mid|], (se_revision r) as [rev|]; try by injection Hj as <-.
  apply bind_Ok in Hj as (payload & _ & Hj). cbv zeta in Hj.
  match type of Hj with foldM _ _ ?l = _ => generalize dependent l end.
  intros items. revert db Hok. induction items as [|item items IH]; intros db Hok Hj; cbn [foldM] in Hj; [by injection Hj as <-|].
  apply bind_Ok in Hj as (db1 & H1 & Hj). eapply IH; [|exact Hj]. unfold enqueue_nomination_job in H1.
  apply bind_Ok in H1 as ([db2 job] & H1 & [= <-]). eapply step_ok; [exact Hok|]. by eapply step_enqueue.
Qed.

(** The tables a judgement leaves, with any outbox, satisfy the invariant; the
    event it wrote folds. *)
Lemma staged_engine_ok db now id branch_row j outbox :
  unique_event_id -> sequence_left (md_store (ly_db db)) -> engine_ok (ly_db db) -> branch_rows_ok (ly_db db) ->
  md_branches (ly_db db) !! id = Some branch_row -> outbox_ok outbox -> staged db now branch_row j ->
  engine_ok (set_tables (ly_db db) (jd_store j) (jd_tables j) outbox) /\
  (forall e, jd_event j = Some e -> (exists row, row ∈ st_events (jd_store j) /\ r_event_id row = e_event_id e) /\
     exists s s1, fold_event s e = Ok s1 /\ holds (jd_tables j) s1).
Proof.
  intros Hu Hleft Hok Hbr Hrow Hout [Hev Hs Ht _ _|auth proposed branch e Hev Hval Hb Happ _].
  - split; [|intros e He; congruence]. rewrite Hs, Ht. destruct Hok as [H1 H2 H3 H4]. split; [exact H1|exact H2|exact Hout|exact H4].
  - specialize (Hbr _ _ Hrow). destruct (branch_state_of branch_row) as [b'|] eqn:Hb'; [|discriminate].
    rewrite (orm_branch_state _ _ _ Hb Hb') in Hb'.
    destruct (live_step_ok _ _ _ _ _ _ _ _ _ _ Hu Hleft Hok Hval Hrow Hb' Happ Hout) as (Hok' & _ & s & s1 & Hf & Hh).
    split; [exact Hok'|]. intros e' [= <-]%(eq_trans (eq_sym Hev)). split; [|by exists s, s1].
    apply append_and_project_Ok in Happ as [Ha _]. destruct (append_Ok _ _ _ _ _ _ Ha) as (n & bd & ing & row & _ & _ & _ & _ & _ & _ & Her & ->).
    exists row. assert (Hid : r_event_id row = e_event_id e) by (unfold event_row in Her; inv_bind; by simplify_eq).
    split; [|exact Hid]. destruct ing as [[i item]|]; cbn; apply elem_of_app; right; by left.
Qed.

Lemma nominated_keeps sv db p c r d command_digest digest ids legacy now timestamp db' outcome :
  unique_event_id -> sequence_left (md_store (ly_db db)) -> branch_rows_ok (ly_db db) -> lifecycle_ok db ->
  nominated sv db p c r d command_digest digest ids legacy now timestamp db' outcome -> lifecycle_ok db'.
Proof.
  intros Hu Hleft Hbr [Hok Hdec] [(lineage_id & branch_row & fp & j & Hchk & _ & Hj & [Hrec])].
  destruct Hrec as (sha & decisions & row & jobs & canonical & Hout & _ & _ & Hd & Hjobs & Hc & _ & ->).
  apply judged_staged in Hj. pose proof (check_nomination_branch _ _ _ _ _ Hchk) as Hrow.
  destruct (staged_engine_ok _ _ _ _ _ jobs Hu Hleft Hok Hbr Hrow (creation_jobs_ok _ _ _ _ _ _ _ _ (eo_outbox _ Hok) Hjobs) Hj)
    as [[H1 H2 H3 H4] Hev]. split; [split|exact (decisions_ok_append _ _ _ _ _ Hdec Hd)].
  - exact H1.
  - exact H2.
  - exact H3.
  - intros key receipt Hk. cbn [ly_db written md_receipts] in Hk. apply lookup_insert_Some in Hk as [[<- <-]|[_ Hk]].
    + split; [reflexivity|exact Hc|reflexivity|]. intros id Hid. cbn in Hid. rewrite Hout in Hid. unfold selection_result in Hid.
      cbn [se_event_id] in Hid. case_bool_decide; [discriminate|]. apply fmap_Some in Hid as (e & He & ->).
      exact (proj1 (Hev e He)).
    + destruct (H4 _ _ Hk) as [K1 K2 K3 K4]. split; [exact K1|exact K2|exact K3|exact K4].
Qed.

(** ** The writers together *)

(** One committed transaction of any of the three engines. *)
Inductive writer_step (db : LifecycleDb) : LifecycleDb -> Prop :=
| write_command p c al now timestamp mutated r locks :
    sequence_left (md_store (ly_db db)) -> attempt (ly_db db) p c al now timestamp = Ok (mutated, r, locks) ->
    writer_step db {| ly_db := mutated; ly_decisions := ly_decisions db |}
| write_lifecycle p c o ids now timestamp db' r :
    sequence_left (md_store (ly_db db)) -> lifecycle_attempt loaded db p c o ids now timestamp = Ok (db', r) -> writer_step db db'
| write_nomination sv p c r d command_digest digest ids participant legacy now timestamp db' outcome locks :
    sequence_left (md_store (ly_db db)) ->
    selection_attempt loaded sv db p c r d command_digest digest ids participant legacy now timestamp = Ok (db', outcome, locks) ->
    writer_step db db'.

Lemma writer_branches db db' : writer_step db db' -> md_branches (ly_db db') = md_branches (ly_db db).
Proof.
  intros [p c al now ts mutated r locks _ Ha|p c o ids now ts db1 r _ Ha|sv p c r d cd dg ids part leg now ts db1 out locks _ Ha].
  - apply (ex_branches (ly_db db) mutated), step_extends. by do 7 eexists.
  - apply lifecycle_attempt_Ok in Ha as [_ Ha]. destruct Ha as [|? ? ? ? ? ? ? db1 r _ _ Hrec|? ? ? ? ? ? ? db1 r _ _ [Hap]].
    + reflexivity.
    + unfold record_policy_noop in Hrec. by apply bind_Ok in Hrec as ([t x] & _ & [= <- _]).
    + by destruct Hap as (? & ? & ? & ? & s & t & e & ds & x & ? & _ & _ & _ & _ & _ & _ & -> & _).
  - apply selection_attempt_Ok in Ha as [(? & _ & -> & _)|(_ & _ & [(? & ? & ? & j & _ & _ & _ & [Hrec])])]; [reflexivity|].
    by destruct Hrec as (? & ? & ? & ? & ? & _ & _ & _ & _ & _ & _ & _ & ->).
Qed.

(** Receipts are kept. *)
Lemma writer_receipts db db' k receipt :
  writer_step db db' -> md_receipts (ly_db db) !! k = Some receipt -> md_receipts (ly_db db') !! k = Some receipt.
Proof.
  intros [p c al now ts mutated r locks _ Ha|p c o ids now ts db1 r _ Ha|sv p c r d cd dg ids part leg now ts db1 out locks _ Ha] Hk.
  - revert Hk. apply (ex_receipts (ly_db db) mutated), step_extends. by do 7 eexists.
  - apply lifecycle_attempt_Ok in Ha as [_ Ha]. destruct Ha as [|? ? ? ? ? ? ? db1 r _ _ Hrec|? ? ? ? ? ? ? db1 r _ _ [Hap]].
    + exact Hk.
    + unfold record_policy_noop in Hrec. by apply bind_Ok in Hrec as ([t x] & _ & [= <- _]).
    + by destruct Hap as (? & ? & ? & ? & s & t & e & ds & x & ? & _ & _ & _ & _ & _ & _ & -> & _).
  - apply selection_attempt_Ok in Ha as [(? & _ & -> & _)|(_ & _ & [(? & ? & ? & j & _ & _ & _ & [Hrec])])]; [exact Hk|].
    destruct Hrec as (? & ? & ? & ? & ? & _ & _ & _ & _ & _ & _ & Hfree & ->). cbn. rewrite lookup_insert_ne; [exact Hk|].
    intros <-. congruence.
Qed.

Lemma writers_receipts db db' k receipt :
  rtc writer_step db db' -> md_receipts (ly_db db) !! k = Some receipt -> md_receipts (ly_db db') !! k = Some receipt.
Proof. induction 1; [done|]. intros Hk. eauto using writer_receipts. Qed.

Lemma writer_keeps db db' :
  unique_event_id -> branch_rows_ok (ly_db db) -> lifecycle_ok db -> writer_step db db' -> lifecycle_ok db'.
Proof.
  intros Hu Hbr Hok Hs. destruct Hs as [p c al now ts mutated r locks Hl Ha|p c o ids now ts db1 r Hl Ha
                                       |sv p c r d cd dg ids part leg now ts db1 out locks Hl Ha].
  - destruct Hok as [H1 H2]. split; [|exact H2]. exact (attempt_engine_ok _ _ _ _ _ _ _ _ _ Hu Hl H1 Ha).
  - exact (lifecycle_attempt_keeps loaded _ _ _ _ _ _ _ _ _ Hu Hl Hok Ha).
  - apply selection_attempt_Ok in Ha as [(? & _ & -> & _)|(_ & _ & Hn)]; [exact Hok|]. by eapply nominated_keeps.
Qed.

(** ** Replays *)

Lemma replay_own sv_canonical p c ids command_digest outcome :
  canonical_plain_bytes (selection_value outcome) = Ok sv_canonical -> read_selection sv_canonical = Some outcome ->
  validate_selection_result outcome = Ok tt -> se_idempotent_replay outcome = false ->
  se_receipt_id outcome = ni_receipt_id ids -> se_decision_id outcome = ni_decision_id ids ->
  replay_from_receipt (nomination_receipt p c ids command_digest sv_canonical outcome) command_digest = Ok (selection_replay outcome).
Proof.
  intros Hc Hr Hv Hi H1 H2. unfold replay_from_receipt, read_receipt, nomination_receipt.
  cbn [rc_command_sha256 rc_result_canonical rc_result_sha256 rc_result rc_receipt_id rc_selection_decision_id rc_event_id rc_memory_id
       rc_memory_revision].
  rewrite !bool_decide_eq_true_2 by congruence. cbn [negb refuse_if mbind result_bind]. rewrite Hc. cbn [is_bytes].
  rewrite bool_decide_eq_true_2 by reflexivity. rewrite option_guard_True by reflexivity. cbn [mbind option_bind]. rewrite Hr.
  cbn [mbind option_bind]. rewrite Hv, Hc. cbn [is_ok is_bytes andb]. rewrite bool_decide_eq_true_2 by reflexivity.
  rewrite option_guard_True by reflexivity. cbn [mbind option_bind from_option_or result_bind]. rewrite Hi, H1, Z.eqb_refl.
  rewrite !bool_decide_eq_true_2 by congruence. reflexivity.
Qed.

(** ** Properties *)

(** C10: a nomination is executed once.  When a nomination was carried out and
    any mutation commands, lifecycle commands and nominations were committed
    after it, sending it again, whatever the resolver and the policy now say,
    returns the first result marked as a replay and changes nothing; another
    nomination under the same idempotency key is refused.  The result reads back
    from its canonical bytes, and the sender is still authorized. *)
Theorem nomination_executes_once (sv sv' : Services) (db db' later : LifecycleDb) (p : CommandPrincipal)
    (c c' : NominationCommand) (r r' : ResolvedNominationContext) (d d' : PolicyDecision)
    (command_digest other_digest digest digest' : bytes) (ids ids' : NominationIdentifiers) (participant participant' : option Participant)
    (legacy legacy' : bool) (now now' timestamp timestamp' : instant) (outcome : SelectionResult) (locks : list Z) :
  load_receipt db p c = None ->
  selection_attempt loaded sv db p c r d command_digest digest ids participant legacy now timestamp = Ok (db', outcome, locks) ->
  (forall b, canonical_plain_bytes (selection_value outcome) = Ok b -> read_selection b = Some outcome) ->
  rtc writer_step db' later -> authorize_participant participant' later = Ok tt ->
  nc_idempotency_key c' = nc_idempotency_key c -> other_digest <> command_digest ->
  se_idempotent_replay outcome = false /\
  (exists first, selection_attempt loaded sv' later p c r' d' command_digest digest' ids' participant' legacy' now' timestamp'
                 = Ok (later, selection_replay outcome, first)) /\
  selection_attempt loaded sv' later p c' r' d' other_digest digest' ids' participant' legacy' now' timestamp'
  = Err (SelectionExecutionError "idempotency_key_reused").
Proof.
  intros Hnone Ha Hread Hsteps Hauth Hkey Hother. pose proof Ha as Hlocks. unfold selection_attempt in Hlocks.
  apply bind_Ok in Hlocks as ([] & _ & Hlocks). apply bind_Ok in Hlocks as (key & Hk & Hlocks). apply bind_Ok in Hlocks as (first & Hf & _).
  apply selection_attempt_Ok in Ha as [(receipt & Hsome & _)|(_ & _ & [(lineage_id & branch_row & fp & j & _ & _ & _ & [Hrec])])]; [congruence|].
  destruct Hrec as (sha & decisions & row & jobs & canonical & Hout & Hv & _ & _ & _ & Hc & _ & Hdb').
  assert (Hlater : load_receipt later p c = Some (nomination_receipt p c ids command_digest canonical outcome)).
  { unfold load_receipt. eapply writers_receipts; [exact Hsteps|]. rewrite Hdb'. cbn. apply lookup_insert_eq. }
  assert (Hfresh : se_idempotent_replay outcome = false) by by rewrite Hout.
  split; [exact Hfresh|]. split.
  - exists first. unfold selection_attempt. rewrite Hauth, Hk. cbn [mbind result_bind]. rewrite Hf. cbn [mbind result_bind]. rewrite Hlater.
    rewrite (replay_own _ _ _ _ _ _ Hc (Hread _ Hc) Hv Hfresh); [reflexivity| |]; by rewrite Hout.
  - unfold selection_attempt. rewrite Hauth, Hkey, Hk. cbn [mbind result_bind]. rewrite Hf. cbn [mbind result_bind].
    assert (load_receipt later p c' = Some (nomination_receipt p c ids command_digest canonical outcome)) as ->.
    { rewrite <- Hlater. unfold load_receipt, nomination_key. by rewrite Hkey. }
    unfold replay_from_receipt. cbn [nomination_receipt rc_command_sha256]. 
    assert (bool_decide (command_digest = other_digest) = false) as -> by (apply bool_decide_eq_false_2; congruence). reflexivity.
Qed.

(** C13: the writers keep the store consistent together.  Over a database that
    refuses duplicate event identifiers and whose branch rows are valid, any
    interleaving of mutation commands, lifecycle commands and nominations
    leaves a verified log, projection tables that hold exactly what the log
    replays to, an outbox that satisfies its constraints, receipts that hash to
    what they record and name events of the log, and decisions numbered
    without gap. *)
Theorem writers_invariant (db db' : LifecycleDb) :
  unique_event_id -> branch_rows_ok (ly_db db) -> lifecycle_ok db -> rtc writer_step db db' -> lifecycle_ok db'.
Proof.
  intros Hu Hbr Hok Hs. induction Hs as [|db db1 db2 H1 _ IH]; [exact Hok|]. apply IH.
  - intros id row. rewrite (writer_branches _ _ H1). apply Hbr.
  - by eapply writer_keeps.
Qed.
End Facts.
