(* ===== verification/NominationEffects.v ===== *)
(** * NominationEffects: the memories nominations create and promote

    The rows a nomination leaves, the policy that decided them, and the
    protection of sensitive content. *)

From stdpp Require Import base tactics option list gmap sets strings.
From Stdlib Require Import ZArith Lia Bool SpecFloat.
From S2P Require Import Prelude Identifiers Enums Values CanonicalJson Digest Text Constraints Events Folding FoldingFacts FoldingInvariant FoldingHistory PolicyContracts Policy EventStore EventStoreTheorems ProjectionRows ProjectionRowsTheorems LiveProjection LiveProjectionFacts LiveReplay ProjectionRebuild Outbox OutboxTheorems OutboxProgress Fingerprints Locks Transactions Commands Mutations MutationEngine MutationTheorems MutationGuards MutationEffects SelectionHistory CandidateLifecycle CandidateLifecycleTheorems Disk DestructionLedger KeyProvider DiskFacts KeySafety LedgerChain LedgerText SealedContent SealedContentTheorems Nominations NominationTheorems.
Open Scope Z_scope.

Section Effects.
Context `{R : Rfc8785} `{P : Pydantic} `{LD : LiveDatabase} `{D : Database} `{RS : ReceiptStore} `{DD : DecisionDatabase}
        `{PS : PyStr} `{AE : Aead} `{NS : NominationStore} (loaded : LoadedSelectionPolicy).

(** ** Rows *)

Lemma typed_payload_model e p : typed_payload e = Ok p ->
  exists model, PAYLOAD_MODELS (e_operation e) (e_schema_version e) (e_payload_version e) = Some model /\
    model_read model (e_payload e) = Some p.
Proof.
  unfold typed_payload. intros Hp. apply bind_Ok in Hp as ([] & _ & Hp). apply bind_Ok in Hp as (model & Hm%from_option_or_Ok & Hp).
  apply bind_Ok in Hp as (p' & Hr%from_option_or_Ok & Hp). apply bind_Ok in Hp as ([] & _ & Hp). apply bind_Ok in Hp as ([] & _ & [= <-]).
  by exists model.
Qed.

(** A creation leaves exactly its after-image. *)
Lemma creation_folds s e s' m items :
  fold_event s e = Ok s' -> is_create_operation (e_operation e) = true -> typed_payload e = Ok (MemoryCreatedPayload m items) ->
  ps_memories s' !! ms_memory_id m = Some m /\ validate_memory m = Ok tt.
Proof.
  intros Hf Hop Hp. apply fold_event_parts in Hf as (p & w & Hacc & -> & _). pose proof (acc_payload _ _ _ _ _ Hacc) as Hp'.
  rewrite Hp in Hp'. injection Hp' as <-. pose proof (acc_run _ _ _ _ _ Hacc) as Hrun. pose proof (acc_valid _ _ _ _ _ Hacc) as Hv.
  assert (Hm : validate_memory m = Ok tt) by (unfold validate_payload in Hv; by inv_bind).
  inversion Hrun as [m' items' M E Hop' Hcr| | | | | | | | | | | | | |]; subst. split; [|exact Hm].
  apply create_memory_Ok in Hcr as (_ & _ & -> & _); [|exact Hop|exact Hm]. cbn. apply lookup_insert_eq.
Qed.

(** The live path behind a judgement. *)
Lemma append_folds {auth} db now proposed id branch_row branch s t e :
  unique_event_id -> sequence_left (md_store db) -> engine_ok db -> branch_rows_ok db -> model_validate proposed = Ok proposed ->
  md_branches db !! id = Some branch_row -> orm_branch branch_row = Ok branch ->
  append_and_project now (fun n => Ok (with_sequence proposed n)) auth branch (md_store db) (md_tables db) = Ok (s, t, e) ->
  e = with_sequence proposed (e_sequence e) /\ exists s0 s1, fold_event s0 e = Ok s1 /\ holds t s1.
Proof.
  intros Hu Hleft Hok Hbr Hval Hrow Hb Happ. specialize (Hbr _ _ Hrow).
  destruct (branch_state_of branch_row) as [b'|] eqn:Hb'; [|discriminate]. rewrite (orm_branch_state _ _ _ Hb Hb') in Hb'.
  destruct (live_step_ok _ _ _ _ _ _ _ _ _ _ Hu Hleft Hok Hval Hrow Hb' Happ (eo_outbox _ Hok)) as (_ & He & Hf). by split.
Qed.

(** The payload of a creation. *)
Lemma creation_payload_Ok sv db p c r d ids lineage_id fingerprint payload version keys :
  creation_payload sv db p c r d ids lineage_id fingerprint = Ok (payload, version, keys) ->
  exists deadline content items,
    candidate_deadline d (ni_created_at ids) = Ok deadline /\
    payload = MemoryCreatedPayload (nominated_memory p c r lineage_id ids (created_status (pd_outcome d)) deadline content) items /\
    match nc_sealed_content c with
    | None => content = inl fingerprint /\ keys = md_content_keys db
    | Some request => exists reference envelope sealed,
        seal_nomination sv p c request lineage_id ids = Ok (reference, envelope) /\ envelope_state envelope = Ok sealed /\
        content = inr sealed /\ keys = <[cr_content_key_id reference := content_key_row p lineage_id ids reference]> (md_content_keys db)
    end.
Proof.
  unfold creation_payload. intros Hc. apply bind_Ok in Hc as (deadline & Hd & Hc). destruct (nc_sealed_content c) as [request|].
  - apply bind_Ok in Hc as ([reference envelope] & Hs & Hc). apply bind_Ok in Hc as (sealed & He & Hc).
    apply bind_Ok in Hc as ([] & _ & Hc). apply bind_Ok in Hc as ([] & _ & Hc). apply bind_Ok in Hc as (ks & Hk & [= <- <- <-]).
    exists deadline, (inr sealed), []. split; [exact Hd|]. split; [reflexivity|]. exists reference, envelope, sealed.
    split; [exact Hs|]. split; [exact He|]. split; [reflexivity|]. unfold insert_content_key in Hk.
    destruct (_ ≫= _) as [|x] in Hk; [by injection Hk|]. destruct x; try discriminate. by destruct (bool_decide _) in Hk.
  - apply bind_Ok in Hc as (items & _ & Hc). apply bind_Ok in Hc as (evidence & _ & Hc). apply bind_Ok in Hc as ([] & _ & Hc).
    apply bind_Ok in Hc as ([] & _ & [= <- <- <-]). exists deadline, (inl fingerprint), evidence. by split_and!.
Qed.

(** pydantic reads the creation back from its dump. *)
Definition creation_reads sv (db : LifecycleDb) (p : CommandPrincipal) (c : NominationCommand) (r : ResolvedNominationContext)
    (d : PolicyDecision) (ids : NominationIdentifiers) : Prop :=
  forall lineage_id branch_row fingerprint payload version keys v model,
    check_nomination (ly_db db) p c = Ok (lineage_id, branch_row) -> nomination_fingerprint sv c = Ok fingerprint ->
    creation_payload sv (ly_db db) p c r d ids lineage_id fingerprint = Ok (payload, version, keys) ->
    canonical_value payload = Ok v -> PAYLOAD_MODELS (created_operation (pd_outcome d)) version version = Some model ->
    model_read model v = Some payload.

(** ** Effects *)

Definition unchanged (db db' : LifecycleDb) : Prop :=
  md_store (ly_db db') = md_store (ly_db db) /\ md_tables (ly_db db') = md_tables (ly_db db) /\
  md_outbox (ly_db db') = md_outbox (ly_db db) /\ md_content_keys (ly_db db') = md_content_keys (ly_db db).

(** The row of a memory after a nomination. *)
Definition row_of (db : LifecycleDb) (id : UUID) (m : MemoryState) (row : MemoryRow) : Prop :=
  lt_memories (md_tables (ly_db db)) !! id = Some row /\ memory_stored row m.

Inductive nomination_effect sv (db : LifecycleDb) (p : CommandPrincipal) (c : NominationCommand) (r : ResolvedNominationContext)
    (d : PolicyDecision) (ids : NominationIdentifiers) (digest : bytes) (lineage_id : UUID) (fingerprint : pystr)
    (db' : LifecycleDb) (outcome : SelectionResult) : Prop :=
| ne_silent :
    pd_outcome d ∈ [PolicyOutcome.OMIT; PolicyOutcome.REJECT] -> se_outcome outcome = enum_value (pd_outcome d) ->
    se_event_id outcome = None -> unchanged db db' ->
    nomination_effect sv db p c r d ids digest lineage_id fingerprint db' outcome
| ne_duplicate row :
    pd_outcome d ∈ [PolicyOutcome.CANDIDATE; PolicyOutcome.ACTIVE] ->
    find_duplicate db p c lineage_id fingerprint digest = Ok (Some row) -> se_outcome outcome = "omit"%string ->
    se_reason_codes outcome = [if bool_decide (mr_status row = "active"%string) then py "already_covered" else py "already_candidate"] ->
    se_event_id outcome = None -> unchanged db db' ->
    nomination_effect sv db p c r d ids digest lineage_id fingerprint db' outcome
| ne_promoted row source stored fresh state decision principal m row' :
    find_duplicate db p c lineage_id fingerprint digest = Ok (Some row) -> mr_status row <> "active"%string ->
    newest_source (ly_decisions db) p (mr_memory_id row) = Some source ->
    fresh = new_candidate_evidence stored (rn_evidence r) -> fresh <> [] ->
    reassessed_state source (stored ++ fresh) = Ok state -> evaluate_promotion loaded state = Ok decision ->
    ld_action decision = LifecycleAction.PROMOTE -> promotion_principal sv (ly_db db) p c (mr_memory_id row) = Ok principal ->
    se_outcome outcome = "promoted"%string -> se_memory_id outcome = Some (mr_memory_id row) ->
    row_of db' (mr_memory_id row) m row' -> ms_status m = MemoryStatus.ACTIVE -> ms_revision m = mr_revision row + 1 ->
    ms_candidate_expires_at m = None ->
    nomination_effect sv db p c r d ids digest lineage_id fingerprint db' outcome
| ne_created deadline content items m row version keys :
    pd_outcome d ∈ [PolicyOutcome.CANDIDATE; PolicyOutcome.ACTIVE] ->
    find_duplicate db p c lineage_id fingerprint digest = Ok None ->
    candidate_deadline d (ni_created_at ids) = Ok deadline ->
    m = nominated_memory p c r lineage_id ids (created_status (pd_outcome d)) deadline content ->
    creation_payload sv (ly_db db) p c r d ids lineage_id fingerprint = Ok (MemoryCreatedPayload m items, version, keys) ->
    is_sealed c = match content with inl _ => false | inr _ => true end ->
    se_outcome outcome = enum_value (pd_outcome d) -> se_memory_id outcome = Some (ni_memory_id ids) ->
    row_of db' (ni_memory_id ids) m row -> validate_memory m = Ok tt -> md_content_keys (ly_db db') = keys ->
    nomination_effect sv db p c r d ids digest lineage_id fingerprint db' outcome.
(** ** Each branch *)

Lemma created_row sv db p c r d ids now lineage_id branch_row fingerprint legacy j :
  unique_event_id -> sequence_left (md_store (ly_db db)) -> engine_ok (ly_db db) -> branch_rows_ok (ly_db db) ->
  check_nomination (ly_db db) p c = Ok (lineage_id, branch_row) -> nomination_fingerprint sv c = Ok fingerprint ->
  creation_reads sv db p c r d ids ->
  create_nominated sv db p c r d ids now lineage_id branch_row fingerprint legacy = Ok j ->
  exists deadline content items row version,
    let m := nominated_memory p c r lineage_id ids (created_status (pd_outcome d)) deadline content in
    candidate_deadline d (ni_created_at ids) = Ok deadline /\
    creation_payload sv (ly_db db) p c r d ids lineage_id fingerprint = Ok (MemoryCreatedPayload m items, version, jd_keys j) /\
    is_sealed c = match content with inl _ => false | inr _ => true end /\
    lt_memories (jd_tables j) !! ni_memory_id ids = Some row /\ memory_stored row m /\ validate_memory m = Ok tt.
Proof.
  intros Hu Hleft Hok Hbr Hchk Hfp Hreads Hj.
  apply create_nominated_Ok in Hj as (payload & version & keys & proposed & branch & e & auth & Hpl & Hev & Hb & Happ & _ & _ & _ & _ & -> & _).
  destruct (nomination_event_Ok _ _ _ _ _ _ _ _ _ _ _ _ Hev) as (Hval & Hop & _ & _ & _ & Hsv & Hpv & Hcv).
  destruct (append_folds _ _ _ _ _ _ _ _ _ Hu Hleft Hok Hbr Hval (check_nomination_branch _ _ _ _ _ Hchk) Hb Happ) as (He & s0 & s1 & Hf & Hh).
  destruct (creation_payload_Ok _ _ _ _ _ _ _ _ _ _ _ _ Hpl) as (deadline & content & items & Hd & -> & Hc).
  pose proof Hf as Hparts. apply fold_event_parts in Hparts as (q & w & Hacc & _ & _). pose proof (acc_payload _ _ _ _ _ Hacc) as Hq.
  destruct (typed_payload_model _ _ Hq) as (model & Hm & Hr). rewrite He in Hm, Hr. cbn in Hm, Hr. rewrite Hop, Hsv, Hpv in Hm.
  rewrite (Hreads _ _ _ _ _ _ _ _ Hchk Hfp Hpl Hcv Hm) in Hr. injection Hr as <-.
  assert (Hcreate : is_create_operation (e_operation e) = true) by (rewrite He; cbn; rewrite Hop; by destruct (pd_outcome d)).
  destruct (creation_folds _ _ _ _ _ Hf Hcreate Hq) as [Hmem Hvm]. pose proof (ho_memories _ _ Hh (ni_memory_id ids)) as Hrow.
  cbn [nominated_memory ms_memory_id] in Hmem. rewrite Hmem in Hrow. apply holds_image in Hrow as (row & Hrow & Hstored).
  exists deadline, content, items, row, version. cbv zeta. split; [exact Hd|]. split; [exact Hpl|].
  split; [|split; [exact Hrow|split; [exact Hstored|exact Hvm]]]. unfold is_sealed.
  destruct (nc_sealed_content c); [by destruct Hc as (? & ? & ? & _ & _ & -> & _)|by destruct Hc as [-> _]].
Qed.

Lemma promoted_row sv db p c ids now lineage_id branch_row digest row source fresh decision j :
  unique_event_id -> sequence_left (md_store (ly_db db)) -> engine_ok (ly_db db) -> branch_rows_ok (ly_db db) ->
  check_nomination (ly_db db) p c = Ok (lineage_id, branch_row) ->
  promote_duplicate sv db p c ids now lineage_id branch_row digest row source fresh decision = Ok j ->
  exists m row', lt_memories (jd_tables j) !! mr_memory_id row = Some row' /\ memory_stored row' m /\
    ms_status m = MemoryStatus.ACTIVE /\ ms_revision m = mr_revision row + 1 /\ ms_candidate_expires_at m = None.
Proof.
  intros Hu Hleft Hok Hbr Hchk Hj.
  apply promote_duplicate_Ok in Hj as (principal & current & payload & proposed & branch & e & _ & Hcur & Hev & Hb & Happ & _).
  destruct (nomination_event_Ok _ _ _ _ _ _ _ _ _ _ _ _ Hev) as (Hval & Hop & Hmid & Hexp & _).
  destruct (append_folds _ _ _ _ _ _ _ _ _ Hu Hleft Hok Hbr Hval (check_nomination_branch _ _ _ _ _ Hchk) Hb Happ) as (He & s0 & s1 & Hf & Hh).
  destruct (lifecycle_folds s0 e s1 promote (mr_memory_id row) (ms_revision current) Hf) as (m & Hm & Hst & Hrev & Hdl & _);
    [by rewrite He|by rewrite He|by rewrite He|].
  pose proof (ho_memories _ _ Hh (mr_memory_id row)) as Hrow. rewrite Hm in Hrow. apply holds_image in Hrow as (row' & Hrow & Hstored).
  destruct (memory_row_to_state_revision _ _ Hcur) as (_ & Hr & _). exists m, row'. rewrite Hrev, Hr. by split_and!.
Qed.

Lemma nominated_effect sv db p c r d command_digest digest ids legacy now timestamp db' outcome :
  unique_event_id -> sequence_left (md_store (ly_db db)) -> engine_ok (ly_db db) -> branch_rows_ok (ly_db db) ->
  creation_reads sv db p c r d ids ->
  nominated loaded sv db p c r d command_digest digest ids legacy now timestamp db' outcome ->
  exists lineage_id branch_row fingerprint row,
    check_nomination (ly_db db) p c = Ok (lineage_id, branch_row) /\ nomination_fingerprint sv c = Ok fingerprint /\
    nomination_effect sv db p c r d ids digest lineage_id fingerprint db' outcome /\
    dt_decisions (ly_decisions db) !! dn_selection_sequence row = None /\
    dt_decisions (ly_decisions db') = <[dn_selection_sequence row := row]> (dt_decisions (ly_decisions db)) /\
    dn_outcome row = se_outcome outcome /\ dn_decision_id row = se_decision_id outcome /\ dn_input_sha256 row = digest /\
    dn_memory_id row = se_memory_id outcome /\ dn_event_id row = se_event_id outcome.
Proof.
  intros Hu Hleft Hok Hbr Hreads [(lineage_id & branch_row & fp & j & Hchk & Hfp & Hj & [Hrec])].
  destruct Hrec as (sha & decisions & row & jobs & canonical & Hout & _ & _ & Hd & Hjobs & _ & _ & Hdb').
  apply append_decision_Ok in Hd as (n & _ & [= Hrow] & Hn & Hfree & _ & ->).
  exists lineage_id, branch_row, fp, row. split; [exact Hchk|]. split; [exact Hfp|]. split; cycle 1.
  { rewrite Hn, Hdb'. split; [exact Hfree|]. split; [reflexivity|]. rewrite <- Hrow, Hout. by split_and!. }
  assert (Hsilent : jd_event j = None -> jd_store j = md_store (ly_db db) -> jd_tables j = md_tables (ly_db db) ->
    jd_keys j = md_content_keys (ly_db db) -> unchanged db db').
  { intros Hev Hs Ht Hk. unfold enqueue_creation_jobs in Hjobs. rewrite Hev in Hjobs. injection Hjobs as <-.
    rewrite Hdb'. unfold unchanged. cbn. by rewrite Hs, Ht, Hk. }
  destruct Hj as [Ho|dup j' Ho Hdup Hd'|j' Ho _ Hdup Hc].
  - apply ne_silent; [exact Ho|by rewrite Hout| |by apply Hsilent]. rewrite Hout. cbn. by case_bool_decide.
  - destruct Hd' as [Ha|Ha|source stored fresh state decision j' Hna Hsrc Hfr Hfr' Hst Hev Hact Hp].
    + apply ne_duplicate with dup; [exact Ho|exact Hdup|by rewrite Hout|rewrite Hout; cbn; by rewrite bool_decide_true|by rewrite Hout|by apply Hsilent].
    + apply ne_duplicate with dup; [exact Ho|exact Hdup|by rewrite Hout|rewrite Hout; cbn; by rewrite bool_decide_false|by rewrite Hout|by apply Hsilent].
    + destruct (promoted_row _ _ _ _ _ _ _ _ _ _ _ _ _ _ Hu Hleft Hok Hbr Hchk Hp) as (m & row' & H1 & H2 & H3 & H4 & H5).
      apply promote_duplicate_Ok in Hp as (principal & ? & ? & ? & ? & ? & Hpr & _ & _ & _ & _ & _ & Ho1 & Ho2 & _).
      apply ne_promoted with dup source stored fresh state decision principal m row'; try assumption.
      * by rewrite Hout.
      * rewrite Hout. cbn. rewrite Ho1, Ho2. by rewrite bool_decide_false by set_solver.
      * rewrite Hdb'. by split.
  - destruct (created_row _ _ _ _ _ _ _ _ _ _ _ _ _ Hu Hleft Hok Hbr Hchk Hfp Hreads Hc)
      as (deadline & content & items & row' & version & H1 & H2 & H3 & H4 & H5 & H6).
    apply create_nominated_Ok in Hc as (? & ? & ? & ? & ? & ? & ? & _ & _ & _ & _ & _ & Ho1 & Ho2 & _).
    eapply ne_created with (content := content) (m := nominated_memory p c r lineage_id ids (created_status (pd_outcome d)) deadline content)
      (row := row'); try eassumption; [reflexivity| | | |].
    + by rewrite Hout.
    + rewrite Hout. cbn. rewrite Ho1, Ho2, bool_decide_false; [reflexivity|]. destruct (pd_outcome d); cbn; set_solver.
    + rewrite Hdb'. by split.
    + by rewrite Hdb'.
Qed.
End Effects.

(** * Runs of the nomination engine

    What a whole run of [SelectionEngine.execute] leaves: the policy is
    followed, sensitive content is sealed, and what was sealed is read back. *)

Section Safety.
Context `{R : Rfc8785} `{P : Pydantic} `{LD : LiveDatabase} `{D : Database} `{RS : ReceiptStore} `{DD : DecisionDatabase}
        `{PS : PyStr} `{AE : Aead} `{NS : NominationStore} (loaded : LoadedSelectionPolicy).

(** ** Runs *)

Lemma attempts_from_Ok {A} (outcome : nat -> result A) jitter most base delay remaining attempt sleeps a log :
  attempts_from outcome jitter most base delay remaining attempt sleeps = (Ok a, log) -> exists n, outcome n = Ok a.
Proof.
  revert attempt sleeps. induction remaining as [|k IH]; intros attempt sleeps; cbn [attempts_from]; [discriminate|].
  destruct (outcome attempt) as [x|e] eqn:Ho; [intros [= <- _]; by exists attempt|].
  destruct (negb (is_serialization_failure e)); [discriminate|].
  destruct (Nat.eqb attempt most); [by destruct (float_round _)|].
  destruct (negb _); [discriminate|]. destruct (delay_ceiling _ _ _); [apply IH|discriminate].
Qed.

Lemma attempts_Ok {A} snapshot refused jitter (body : nat -> LifecycleDb -> result A) a :
  attempts snapshot refused jitter body = Ok a -> exists n, body n (snapshot n) = Ok a.
Proof.
  unfold attempts, run_serializable_transaction. destruct (_ <? _)%nat; [discriminate|]. destruct (_ || _); [discriminate|].
  destruct (attempts_from _ _ _ _ _ _ _ _) as [x log] eqn:Hrun. cbn [fst]. intros ->.
  apply attempts_from_Ok in Hrun as (n & Hn). apply bind_Ok in Hn as (y & Hb & Hn). apply bind_Ok in Hn as ([] & _ & [= <-]).
  by exists n.
Qed.

(** A run that wrote: what it decided, and the attempt that was committed. *)
Definition decided sv p c participant drawn (command_digest digest : bytes) (ids : NominationIdentifiers)
    (r : ResolvedNominationContext) (d : PolicyDecision) (legacy : bool) : Prop :=
  admit_nomination sv p c participant = Ok command_digest /\ decide_nomination loaded sv p c participant = Ok (r, d, legacy) /\
  nomination_identifiers sv c r command_digest drawn = Ok ids /\ input_digest sv p c r = Ok digest.

Lemma selection_execute_Ok sv before snapshot refused_first refused now timestamp jitter p c participant drawn db' outcome :
  selection_execute loaded sv before snapshot refused_first refused now timestamp jitter p c participant drawn = Ok (Some db', outcome) ->
  exists command_digest digest ids r d legacy n locks,
    decided sv p c participant drawn command_digest digest ids r d legacy /\
    selection_attempt loaded sv (snapshot n) p c r d command_digest digest ids participant legacy (now n) (timestamp n)
      = Ok (db', outcome, locks).
Proof.
  unfold selection_execute, selection_run. intros He. destruct (mbind _ _) as [x|] eqn:Hr in He; [injection He as ->|discriminate].
  apply bind_Ok in Hr as (command_digest & Hadm & Hr). apply bind_Ok in Hr as (replayed & _ & Hr).
  destruct replayed as [|]; [discriminate|]. apply bind_Ok in Hr as ([[r d] legacy] & Hdec & Hr).
  apply bind_Ok in Hr as (ids & Hids & Hr). apply bind_Ok in Hr as (digest & Hdig & Hr).
  apply bind_Ok in Hr as ([[db1 out1] locks] & Ha & [= <- <-]). apply attempts_Ok in Ha as (n & Ha).
  exists command_digest, digest, ids, r, d, legacy, n, locks. by split_and!.
Qed.

(** The policy is asked about the proposal and the resolved facts. *)
Lemma decided_policy sv p c participant drawn command_digest digest ids r d legacy :
  decided sv p c participant drawn command_digest digest ids r d legacy ->
  sv_resolver sv p c = Some r /\ (exists request, selection_request (nc_proposal c) r = Ok request /\ evaluate_selection loaded request = Ok d) /\
  (np_sensitivity (nc_proposal c) = 4 -> is_sealed c = false -> legacy_exception_ok p c r participant = true).
Proof.
  intros (_ & Hd & _). unfold decide_nomination in Hd. apply bind_Ok in Hd as (r' & Hr%from_option_or_Ok & Hd).
  apply bind_Ok in Hd as ([] & _ & Hd). apply bind_Ok in Hd as ([] & _ & Hd).
  apply bind_Ok in Hd as ([] & Hs%refuse_if_Ok & Hd). apply bind_Ok in Hd as (request & Hq & Hd).
  apply bind_Ok in Hd as (d' & He & Hd). apply bind_Ok in Hd as ([] & _ & [= <- <- <-]). split; [exact Hr|]. split; [by exists request|].
  intros Hfour Hun. rewrite Hfour, Hun in Hs. by apply negb_false_iff in Hs.
Qed.

(** ** Sealed rows *)

(** A row without content: no text, no derivative of it, an envelope. *)
Definition hides_content (row : MemoryRow) : Prop :=
  mr_statement row = None /\ mr_reason_to_remember row = None /\ mr_interpretation_limits row = [] /\
  mr_normalized_fingerprint row = None /\ mr_metadata row = [] /\
  mr_content_protection row = "envelope_encrypted"%string /\ is_Some (mr_sealed_ciphertext row).

Lemma sealed_row_stored row p c r lineage_id ids status deadline s :
  memory_stored row (nominated_memory p c r lineage_id ids status deadline (inr s)) -> hides_content row.
Proof.
  intros (ev & Hr). unfold memory_state_to_row in Hr. cbn [nominated_memory ms_normalized_fingerprint ms_sealed_content ms_version] in Hr.
  apply bind_Ok in Hr as (fp & Hf & Hr). injection Hf as <-. apply bind_Ok in Hr as (cols & Hc & [= <-]).
  apply bind_Ok in Hc as (b & _ & [= <-]). unfold hides_content. cbn. by split_and!.
Qed.

Lemma sealed_key_column row p c r lineage_id ids status deadline s :
  memory_stored row (nominated_memory p c r lineage_id ids status deadline (inr s)) -> mr_content_key_id row = Some (ni_content_key_id ids).
Proof.
  intros (ev & Hr). unfold memory_state_to_row in Hr. apply bind_Ok in Hr as (fp & _ & Hr). by apply bind_Ok in Hr as (cols & _ & [= <-]).
Qed.

(** The provider's reference is that of the memory's key. *)
Lemma seal_nomination_reference sv p c request lineage_id ids reference envelope :
  seal_nomination sv p c request lineage_id ids = Ok (reference, envelope) -> cr_content_key_id reference = ni_content_key_id ids.
Proof.
  unfold seal_nomination. intros Hs. apply bind_Ok in Hs as ([provider reference'] & Hp & Hs).
  apply bind_Ok in Hs as ([] & _ & Hs). apply bind_Ok in Hs as (document & _ & Hs).
  destruct (mbind _ _) in Hs; [injection Hs as -> ->|discriminate].
  unfold provision in Hp. apply from_option_or_Ok in Hp. apply bind_Some in Hp as (x & _ & Hp).
  apply bind_Some in Hp as (y & _ & Hp). by apply bind_Some in Hp as ([Hc _] & _ & [= _ ->]).
Qed.

Lemma sealed_key_row sv db p c r d ids lineage_id fingerprint payload version keys :
  is_sealed c = true -> creation_payload sv db p c r d ids lineage_id fingerprint = Ok (payload, version, keys) ->
  is_Some (keys !! ni_content_key_id ids).
Proof.
  unfold is_sealed. intros Hs (deadline & content & items & _ & _ & Hc)%creation_payload_Ok.
  destruct (nc_sealed_content c) as [request|]; [|discriminate]. destruct Hc as (reference & envelope & sealed & Hseal & _ & _ & ->).
  rewrite (seal_nomination_reference _ _ _ _ _ _ _ _ Hseal), lookup_insert_eq. by eexists.
Qed.

Lemma replay_marked receipt digest outcome : replay_from_receipt receipt digest = Ok outcome -> se_idempotent_replay outcome = true.
Proof.
  unfold replay_from_receipt. intros Hr. do 2 (apply bind_Ok in Hr as ([] & _ & Hr)). apply bind_Ok in Hr as (x & _ & Hr).
  by apply bind_Ok in Hr as ([] & _ & [= <-]).
Qed.

(** A sealed duplicate is active. *)
Lemma sealed_duplicate_active db p c lineage_id fingerprint digest row :
  is_sealed c = true -> find_duplicate db p c lineage_id fingerprint digest = Ok (Some row) -> mr_status row = "active"%string.
Proof.
  intros Hs Hf. unfold find_duplicate in Hf. apply bind_Ok in Hf as (raw & _ & [= Hf]). rewrite Hs in Hf.
  apply List.find_some in Hf as [_ Hf]. unfold sealed_duplicate in Hf. rewrite !andb_true_iff in Hf.
  destruct Hf as [[[_ Hf] _] _]. by apply String.eqb_eq.
Qed.

(** ** Reading back *)

(** What was opened is valid wherever the sealed state was. *)
Lemma opened_memory_valid m e s p :
  validate_memory m = Ok tt -> ms_version m = MemoryStateV3 e s -> ms_status m <> MemoryStatus.TOMBSTONED ->
  ms_content_protection m = envelope_encrypted -> sealed_plaintext p = Ok p -> validate_memory (opened_memory m p) = Ok tt.
Proof.
  unfold validate_memory. intros Hv Hver Hst Hcp Hp. apply bind_Ok in Hv as ([] & Hf%raise_if_Ok%negb_false_iff & Hv). rewrite Hver in Hv.
  apply bind_Ok in Hv as ([] & _ & Hv). apply bind_Ok in Hv as ([] & Hs & He).
  unfold sealed_plaintext in Hp. apply bind_Ok in Hp as ([] & Hpf%raise_if_Ok%negb_false_iff & Hp).
  apply bind_Ok in Hp as ([] & Hbl%raise_if_Ok & Hp). apply bind_Ok in Hp as ([] & Hnd%raise_if_Ok & _).
  assert (Hne : forall lo hi t, 1 <= lo -> length_between lo hi t = true -> falsy (Some t) = false /\ length_between 0 hi t = true).
  { intros lo hi t Hlo [H1%Z.leb_le H2%Z.leb_le]%andb_true_iff. split; [destruct t; [cbn in H1; lia|done]|].
    apply andb_true_iff; split; apply Z.leb_le; lia. }
  assert (Hmf : memory_fields_ok (opened_memory m p) = true).
  { unfold memory_fields_ok in Hf |- *. cbn [opened_memory ms_memory_id ms_tenant_id ms_lineage_id ms_branch_id ms_subject_id
      ms_origin_session_id ms_publication_approved_by_actor_id ms_content_key_id ms_revision ms_statement ms_reason_to_remember
      ms_interpretation_limits ms_confidence ms_salience ms_durability ms_sensitivity ms_fingerprint_version
      ms_normalized_fingerprint ms_version opt_ok]. rewrite !andb_true_iff in Hf. rewrite !andb_true_iff in Hpf. rewrite !andb_true_iff.
    destruct_and!. split_and!; try assumption; try reflexivity; eapply Hne; try eassumption; lia. }
  rewrite Hmf. cbn [negb raise_if opened_memory ms_version]. cbn [mbind result_bind].
  unfold validate_state_shape_v3 in Hs. apply bind_Ok in Hs as ([] & H1 & Hs). apply bind_Ok in Hs as ([] & H2 & Hs).
  apply bind_Ok in Hs as ([] & H3 & Hs). apply bind_Ok in Hs as ([] & H4 & Hs).
  apply bind_Ok in Hs as ([] & H5%raise_if_Ok & Hs). apply bind_Ok in Hs as ([] & H6 & Hs).
  apply bind_Ok in Hs as ([] & _ & Hs). apply bind_Ok in Hs as ([] & H7%raise_if_Ok & Hs). apply bind_Ok in Hs as ([] & H8%raise_if_Ok & H9).
  apply bool_decide_eq_false, dec_stable in H7.
  rewrite !andb_true_iff in Hpf. destruct Hpf as ((((P1 & P2) & P3) & P4) & P5).
  unfold validate_state_shape. cbn [opened_memory ms_valid_from ms_valid_to ms_updated_at ms_created_at ms_category ms_ontological_status
    ms_visibility ms_status ms_sensitivity ms_publication_approved_at ms_statement ms_reason_to_remember ms_interpretation_limits
    ms_normalized_fingerprint ms_publication_approved_by_actor_id ms_content_protection ms_content_key_id ms_metadata].
  rewrite H2. cbn [mbind result_bind]. rewrite H1. cbn [mbind result_bind]. rewrite H3. cbn [mbind result_bind].
  change (validate_scope_shape (opened_memory m p)) with (validate_scope_shape m). rewrite H4. cbn [mbind result_bind].
  rewrite H5. cbn [mbind result_bind]. rewrite H6. cbn [mbind result_bind].
  rewrite (bool_decide_false (ms_status m = MemoryStatus.TOMBSTONED)) by exact Hst.
  destruct (Hne 1 8192 _ ltac:(lia) P1) as [-> _]. destruct (Hne 1 4096 _ ltac:(lia) P2) as [-> _].
  cbn [orb raise_if mbind result_bind]. rewrite H9. cbn [mbind result_bind]. rewrite Hcp, H7, Hnd. cbn [is_none negb orb andb].
  rewrite !bool_decide_false by done. rewrite !andb_false_r. cbn [raise_if mbind result_bind andb].
  assert ((32 <? length (sp_interpretation_limits p))%nat = false) as -> by (apply Nat.ltb_ge; by apply Nat.leb_le).
  assert ((128 <? length (sp_metadata p))%nat = false) as -> by (apply Nat.ltb_ge; by apply Nat.leb_le).
  cbn [orb raise_if mbind result_bind]. unfold validate_candidate_expiry in *. cbn [opened_memory ms_status ms_created_at].
  unfold ms_candidate_expires_at. by rewrite Hver.
Qed.
(** The envelope of a sealed nomination opens to the proposal. *)
Lemma sealed_opens `{!AeadLaws} `{PlaintextReader} sv p c request lineage_id ids reference envelope sealed r status deadline :
  uuid_range (ni_content_key_id ids) -> Forall is_byte (sv_nonce sv) ->
  (forall raw, plaintext_bytes (proposal_plaintext (nc_proposal c)) = Ok raw -> read_plaintext raw = Some (proposal_plaintext (nc_proposal c))) ->
  seal_nomination sv p c request lineage_id ids = Ok (reference, envelope) -> envelope_state envelope = Ok sealed ->
  status <> MemoryStatus.TOMBSTONED ->
  let m := nominated_memory p c r lineage_id ids status deadline (inr sealed) in
  validate_memory m = Ok tt ->
  exists provider, sv_key_provider sv = Some provider /\
    decrypt_memory_state m sealed provider reference (sealed_context p c lineage_id ids)
    = Ok (opened_memory m (proposal_plaintext (nc_proposal c))).
Proof.
  intros Hr Hn Hread Hs He Hst m Hm. unfold seal_nomination in Hs. apply bind_Ok in Hs as ([provider reference'] & Hp & Hs).
  apply bind_Ok in Hs as ([] & _ & Hs). apply bind_Ok in Hs as (document & Hd & Hs).
  assert (document = proposal_plaintext (nc_proposal c)) as ->.
  { unfold sealed_plaintext in Hd. do 3 (apply bind_Ok in Hd as ([] & _ & Hd)). by injection Hd. }
  destruct (mbind _ _) as [envelope'|] eqn:Hseal in Hs; [injection Hs as -> ->|discriminate].
  apply bind_Ok in Hseal as (raw & Hraw & Hseal). exists provider. split.
  { unfold provision in Hp. apply from_option_or_Ok in Hp. apply bind_Some in Hp as (x & -> & Hp).
    apply bind_Some in Hp as (y & _ & Hp). apply bind_Some in Hp as (? & _ & [= -> _]). done. }
  pose proof (open_with_sealed _ _ _ _ _ _ _ Hseal) as Hopen. unfold seal_with_provider in Hseal.
  apply bind_Ok in Hseal as (key & _ & Hseal). pose proof (sealed_envelope_bytes _ _ (sealed_context p c lineage_id ids) _ _ _ Hr Hn Hseal) as Hb.
  rewrite (envelope_state_Ok _ Hb) in He. injection He as <-. unfold decrypt_memory_state.
  rewrite (envelope_primitive_Ok _ Hb). cbn [mbind result_bind]. rewrite Hopen. cbn [mbind result_bind].
  rewrite (Hread _ Hraw). cbn [from_option_or mbind result_bind].
  rewrite (opened_memory_valid m deadline (envelope_fields envelope) _ Hm eq_refl Hst eq_refl Hd). reflexivity.
Qed.

(** ** Properties *)

(** The databases the attempts of a run see. *)
Definition snapshots_ok (snapshot : nat -> LifecycleDb) : Prop :=
  forall n, engine_ok (ly_db (snapshot n)) /\ branch_rows_ok (ly_db (snapshot n)) /\ sequence_left (md_store (ly_db (snapshot n))).

(** pydantic reads back the creation a run decided on. *)
Definition run_reads sv (snapshot : nat -> LifecycleDb) p c participant drawn : Prop :=
  forall command_digest digest ids r d legacy n,
    decided sv p c participant drawn command_digest digest ids r d legacy -> creation_reads sv (snapshot n) p c r d ids.


(** C11: sensitive content is never stored in the clear.  When a run of the
    engine commits a nomination of sensitivity 4 by anyone but the importer,
    it was sealed, and the answer is a replay, an omission or a rejection, or
    the new memory's row has no statement, reason, limits, metadata or
    fingerprint but an envelope, and a key row names its key.  The conditions on
    the database and on pydantic are those of [snapshots_ok] and [run_reads]. *)
Theorem sensitive_content_is_sealed (sv : Services) (before snapshot : nat -> LifecycleDb) (refused_first refused : nat -> option string)
    (now timestamp : nat -> instant) (jitter : nat -> float) (p : CommandPrincipal) (c : NominationCommand)
    (participant : option Participant) (drawn : NominationIdentifiers) (db' : LifecycleDb) (outcome : SelectionResult) :
  unique_event_id -> snapshots_ok snapshot -> run_reads sv snapshot p c participant drawn ->
  np_sensitivity (nc_proposal c) = 4 -> is_genesis p = false ->
  selection_execute loaded sv before snapshot refused_first refused now timestamp jitter p c participant drawn = Ok (Some db', outcome) ->
  is_sealed c = true /\
  (se_idempotent_replay outcome = true \/ se_outcome outcome ∈ ["omit"; "reject"]%string \/
   exists id row key, se_memory_id outcome = Some id /\ lt_memories (md_tables (ly_db db')) !! id = Some row /\ hides_content row /\
     mr_content_key_id row = Some key /\ is_Some (md_content_keys (ly_db db') !! key)).
Proof.
  intros Hu Hsn Hreads Hfour Hgen (cd & digest & ids & r & d & legacy & n & locks & Hdec & Ha)%selection_execute_Ok.
  assert (Hsealed : is_sealed c = true).
  { destruct (is_sealed c) eqn:E; [reflexivity|]. destruct (decided_policy _ _ _ _ _ _ _ _ _ _ _ Hdec) as (_ & _ & Hl).
    specialize (Hl Hfour E). unfold legacy_exception_ok in Hl. by rewrite Hgen in Hl. }
  split; [exact Hsealed|]. destruct (Hsn n) as (Hok & Hbr & Hleft).
  apply selection_attempt_Ok in Ha as [(receipt & _ & -> & Hrep)|(_ & _ & Hn)]; [left; exact (replay_marked _ _ _ Hrep)|].
  destruct (nominated_effect loaded _ _ _ _ _ _ _ _ _ _ _ _ _ _ Hu Hleft Hok Hbr (Hreads _ _ _ _ _ _ n Hdec) Hn)
    as (lineage_id & branch_row & fp & drow & _ & _ & Heff & _). right.
  destruct Heff as [Ho Hout _ _|row _ _ Hout _ _ _|row source stored fresh state decision principal m row' Hdup Hna _ _ _ _ _ _ _ _ _ _ _ _ _
                   |deadline content items m row version keys _ _ _ Hm Hpl Hs _ Hid [Hrow Hst] _ Hk].
  - left. rewrite Hout. destruct (pd_outcome d); cbn; set_solver.
  - left. rewrite Hout. set_solver.
  - destruct Hna. by eapply sealed_duplicate_active.
  - right. rewrite Hsealed in Hs. destruct content as [|sealed]; [discriminate|].
    exists (ni_memory_id ids), row, (ni_content_key_id ids). rewrite Hm in Hst. split; [exact Hid|]. split; [exact Hrow|].
    split; [exact (sealed_row_stored _ _ _ _ _ _ _ _ _ Hst)|]. split; [exact (sealed_key_column _ _ _ _ _ _ _ _ _ Hst)|].
    rewrite Hk. exact (sealed_key_row _ _ _ _ _ _ _ _ _ _ _ _ Hsealed Hpl).
Qed.

(** C12: what a nomination sealed can be read.  When an attempt for a sealed
    nomination writes an event, it created a memory; its row reads back as a
    sealed state whose envelope, opened by the engine's key provider under the
    memory's context, gives the state with the statement, reason, limits and
    metadata of the proposal.  The cipher opens what it sealed, the plaintext
    reads back from its bytes, pydantic reads back the creation, and the database
    satisfies the engine's invariant. *)
Theorem sealed_nomination_opens `{!AeadLaws} `{PlaintextReader} (sv : Services) (db db' : LifecycleDb) (p : CommandPrincipal)
    (c : NominationCommand) (request : SealedContentRequest) (r : ResolvedNominationContext) (d : PolicyDecision)
    (command_digest digest : bytes) (ids : NominationIdentifiers) (participant : option Participant) (legacy : bool)
    (now timestamp : instant) (outcome : SelectionResult) (locks : list Z) :
  unique_event_id -> sequence_left (md_store (ly_db db)) -> engine_ok (ly_db db) -> branch_rows_ok (ly_db db) ->
  creation_reads sv db p c r d ids -> uuid_range (ni_content_key_id ids) -> Forall is_byte (sv_nonce sv) ->
  (forall raw, plaintext_bytes (proposal_plaintext (nc_proposal c)) = Ok raw -> read_plaintext raw = Some (proposal_plaintext (nc_proposal c))) ->
  nc_sealed_content c = Some request -> load_receipt db p c = None ->
  selection_attempt loaded sv db p c r d command_digest digest ids participant legacy now timestamp = Ok (db', outcome, locks) ->
  se_event_id outcome <> None ->
  exists lineage_id row m sealed provider reference,
    lt_memories (md_tables (ly_db db')) !! ni_memory_id ids = Some row /\ memory_row_to_state row = Ok m /\
    ms_sealed_content m = Some sealed /\ sv_key_provider sv = Some provider /\
    ck_provider_key_reference <$> md_content_keys (ly_db db') !! cr_content_key_id reference = Some (cr_provider_key_reference reference) /\
    decrypt_memory_state m sealed provider reference (sealed_context p c lineage_id ids)
    = Ok (opened_memory m (proposal_plaintext (nc_proposal c))).
Proof.
  intros Hu Hleft Hok Hbr Hreads Hr Hnonce Hread Hreq Hrc Ha Hmid.
  apply selection_attempt_Ok in Ha as [(receipt & Hsome & _)|(_ & _ & Hn)]; [congruence|].
  assert (Hsealed : is_sealed c = true) by (unfold is_sealed; by rewrite Hreq).
  destruct (nominated_effect loaded _ _ _ _ _ _ _ _ _ _ _ _ _ _ Hu Hleft Hok Hbr Hreads Hn)
    as (lineage_id & branch_row & fp & drow & _ & _ & Heff & _ & _ & _ & _ & _ & Hrowmid & _).
  destruct Heff as [? ? Hev ?|row _ _ _ _ Hev _|row source stored fresh state decision principal m row' Hdup Hna _ _ _ _ _ _ _ _ _ _ _ _ _
                   |deadline content items m row version keys _ _ _ Hm Hpl _ _ _ [Hrow Hst] Hv Hk];
    [by destruct Hmid|by destruct Hmid|destruct Hna; by eapply sealed_duplicate_active|].
  apply creation_payload_Ok in Hpl as (deadline' & content' & items' & _ & [= Hm' _] & Hc). rewrite Hreq in Hc.
  destruct Hc as (reference & envelope & sealed & Hseal & Hstate & -> & Hkeys). clear Hm. subst m.
  assert (Hstatus : created_status (pd_outcome d) <> MemoryStatus.TOMBSTONED) by by destruct (pd_outcome d).
  destruct (sealed_opens _ _ _ _ _ _ _ _ _ r _ deadline' Hr Hnonce Hread Hseal Hstate Hstatus Hv) as (provider & Hp & Hopen).
  destruct Hst as (ev & Hst). destruct (memory_row_reads_back _ ev Hv) as (row' & Hrow' & Hback & _).
  rewrite Hst in Hrow'. injection Hrow' as <-.
  exists lineage_id, row, (nominated_memory p c r lineage_id ids (created_status (pd_outcome d)) deadline' (inr sealed)), sealed, provider, reference.
  split; [exact Hrow|]. split; [exact Hback|]. split; [reflexivity|]. split; [exact Hp|]. split; [|exact Hopen].
  rewrite Hk, Hkeys, lookup_insert_eq. reflexivity.
Qed.
End Safety.
