(* ===== verification/NominationExamples.v ===== *)
(** * NominationExamples: one sealed nomination

    A sensitive preference is nominated under an envelope, goes through the
    whole engine and is read back; the witnesses of the theorems on sealed
    content and nominations. *)

From stdpp Require Import base tactics option list gmap sets strings.
From Stdlib Require Import ZArith Lia Bool SpecFloat.
From S2P Require Import Prelude Identifiers Enums Values CanonicalJson Digest Text Constraints Events Folding Samples FoldingHistory EventStore EventStoreTheorems OutboxTheorems PolicyContracts Policy ProjectionRows LiveProjection LiveProjectionFacts LiveReplay ProjectionRebuild Outbox Fingerprints Locks Transactions Commands Mutations MutationEngine MutationTheorems JsonParse Archive ArchiveTheorems SelectionHistory CandidateLifecycle CandidateLifecycleTheorems LifecycleExamples Disk KeyProvider LedgerChain LedgerText LedgerExamples SealedContent SealedContentTheorems Nominations NominationTheorems NominationEffects.
Open Scope Z_scope.

(** ** The parameters *)

(** An authenticated cipher that hides nothing. *)
Definition byteb (x : Z) : bool := (0 <=? x) && (x <? 256).

#[local] Instance padding_aead : Aead := {|
  aead_encrypt := fun _ _ plaintext _ => if forallb byteb plaintext then Some (plaintext ++ repeat 0 16) else None;
  aead_decrypt := fun _ _ ciphertext _ => Some (take (length ciphertext - 16) ciphertext)
|}.

#[local] Instance padding_laws : AeadLaws.
Proof.
  intros key nonce plaintext aad ciphertext. unfold aead_encrypt, aead_decrypt, padding_aead.
  destruct (forallb byteb plaintext) eqn:Hb; [|discriminate]. intros [= <-]. split; [|split].
  - apply Forall_app. split; [|repeat (constructor; [unfold is_byte; lia|]); constructor].
    apply Forall_forall. intros x Hx%list_elem_of_In. rewrite forallb_forall in Hb. specialize (Hb x Hx).
    unfold byteb in Hb. unfold is_byte. lia.
  - by rewrite length_app.
  - rewrite length_app. change (length (repeat 0 16)) with 16%nat. by rewrite Nat.add_sub, take_app_length.
Qed.

#[local] Existing Instance sample_rfc8785.
#[local] Existing Instance unique_database.
#[local] Existing Instance accepting_tables.
#[local] Instance accepting_receipts : ReceiptStore := {| read_result := fun _ => None; receipt_error := fun _ => None |}.
#[local] Instance accepting_history : DecisionDatabase := fun _ _ => None.
#[local] Instance blank_str : PyStr := fun _ => [].

Definition storage (answer : option SelectionResult) : NominationStore := {|
  read_selection := fun _ => answer; dump_proposal := fun _ => JObject []; content_key_error := fun _ _ _ => None
|}.

(** ** The nomination *)

Definition secret : NominationProposal := {|
  np_subject_id := uid 10; np_subject_kind := SubjectKind.PERSONA; np_category := MemoryCategory.USER_PREFERENCE;
  np_ontological_status := OntologicalStatus.LITERAL_USER_FACT; np_scope := MemoryScope.PERSONA;
  np_visibility := MemoryVisibility.PRIVATE_ROOT; np_statement := py "text"; np_reason_to_remember := py "reason";
  np_interpretation_limits := []; np_confidence := half; np_salience := half; np_durability := half; np_sensitivity := 4;
  np_valid_from := None; np_valid_to := None; np_observed_at := None; np_origin_session_id := None; np_metadata := [];
  np_selection_basis := SelectionBasis.EXPLICIT_USER_PREFERENCE; np_epistemic_qualifiers := []; np_evidence_references := [] |}.

Definition nominate (statement_reason : string) : NominationCommand := {|
  nc_idempotency_key := py "first"; nc_persona_id := uid 11; nc_branch_id := BRANCH_A; nc_reason := py statement_reason;
  nc_proposal := secret; nc_logical_session_id := None;
  nc_sealed_content := Some {| sq_safe_summary := py "a preference" |}; nc_transaction_binding_sha256 := None;
  nc_genesis_lineage_id := None; nc_genesis_actor_id := None |}.

Definition nominator : CommandPrincipal := {|
  cp_tenant_id := TENANT_A; cp_actor_id := uid 6; cp_client_id := uid 7; cp_transport_binding_id := uid 8;
  cp_scopes := {["memory.write.nominate"%string]}; cp_ingress_id := None |}.

Definition facts : ResolvedNominationContext := {|
  rn_source_kind := live_interaction; rn_effective_authority_class := AuthorityClass.EXPLICIT_USER_STATEMENT;
  rn_content_signals := [];
  rn_evidence := [{| evs_evidence_key := py "k1"; evs_kind := EvidenceKind.USER_STATEMENT; evs_trust := EvidenceTrust.TRUSTED |}] |}.

Definition key_store : Provider := {|
  kp_name := py "local"; kp_get_key := fun _ => Some (repeat 1 32);
  kp_provision_key := fun id _ _ _ => Some (mk_reference id (py "local") (py "key")) |}.

Definition services : Services := {|
  sv_resolver := fun _ _ => Some facts; sv_promotion_principal := None; sv_key_provider := Some key_store;
  sv_digest_binder := hmac_binder (repeat 3 32); sv_nonce := repeat 2 12 |}.

Definition drawn_ids : NominationIdentifiers := {|
  ni_receipt_id := uid 500; ni_decision_id := uid 501; ni_event_id := uid 502; ni_memory_id := uid 503;
  ni_content_key_id := uid 504; ni_correlation_id := uid 505; ni_evidence_ids := [uid 506];
  ni_job_ids := [uid 507; uid 508; uid 509; uid 510]; ni_created_at := 10 |}.

Definition no_decision : PolicyDecision := {|
  pd_profile_version := []; pd_profile_sha256 := []; pd_outcome := PolicyOutcome.REJECT; pd_reason_codes := [];
  pd_matched_rule_ids := []; pd_required_qualifiers := []; pd_candidate_ttl_days := None |}.

Definition judgement : PolicyDecision :=
  Eval vm_compute in or_else (q ← selection_request secret facts; evaluate_selection loaded_profile q) no_decision.

Definition nominate_digest : bytes :=
  Eval vm_compute in or_else (@nomination_digest _ (storage None) services nominator (nominate "asked")) [].
Definition other_digest : bytes := repeat 0 32.
Definition nominate_input : bytes :=
  Eval vm_compute in or_else (@input_digest _ (storage None) services nominator (nominate "asked") facts) [].
Definition nominate_ids : NominationIdentifiers :=
  Eval vm_compute in or_else (nomination_identifiers services (nominate "asked") facts nominate_digest drawn_ids) drawn_ids.

(** ** The database *)

Definition nomination_tables : MutationDb := {|
  md_store := first_store; md_tables := empty_tables; md_outbox := empty_outbox {[TENANT_A]};
  md_personas := md_personas branch_db; md_lineages := md_lineages branch_db; md_branches := md_branches branch_db;
  md_sessions := ∅;
  md_subjects := {[uid 10 := {| su_tenant_id := TENANT_A; su_lineage_id := LINEAGE; su_kind := "persona";
                                su_origin_session_id := None |}]};
  md_content_keys := ∅; md_receipts := ∅ |}.

Definition nomination_db : LifecycleDb := {| ly_db := nomination_tables; ly_decisions := suggestion_table |}.

Definition created : OperationPayload * Z * gmap UUID ContentKeyRow :=
  Eval vm_compute in
    or_else (@creation_payload _ _ (storage None) services nomination_tables nominator (nominate "asked") facts judgement
               nominate_ids LINEAGE []) (promoted_payload, 0, ∅).

(** The creation is dumped as the empty object, the branch event by index. *)
#[local] Instance nomination_pydantic : Pydantic := {|
  model_read := fun model v =>
    match v with
    | JObject [] => Some created.1.1
    | JObject [(_, JInt n)] => [BranchCreatedPayload (sample_branch BRANCH_A TENANT_A 1)] !! Z.to_nat n
    | _ => None
    end;
  model_dump := fun _ => ({[0 := CMapping []]}, PRef 0)
|}.

Definition silent : SelectionResult := selection_result no_decision drawn_ids (unwritten nomination_tables no_decision "omit" [] []).

Definition run_with (answer : option SelectionResult) : result (LifecycleDb * SelectionResult * list Z) :=
  let _ := storage answer in
  selection_attempt loaded_profile services nomination_db nominator (nominate "asked") facts judgement nominate_digest
    nominate_input nominate_ids None false 6 6.

Definition answer : SelectionResult := Eval vm_compute in (or_else (run_with None) (nomination_db, silent, [])).1.2.
#[local] Instance answering : NominationStore := storage (Some answer).

Definition nominated_run : LifecycleDb * SelectionResult * list Z := or_else (run_with (Some answer)) (nomination_db, silent, []).

(** ** The nomination runs on a consistent database *)

Lemma nomination_tables_ok : engine_ok nomination_tables.
Proof.
  apply (fresh_branch_ok nomination_tables service_store 5 branch_event (Samples.state_of [branch_event]) (sample_branch BRANCH_A TENANT_A 1)
    (branch_row (sample_branch BRANCH_A TENANT_A 1)) {[TENANT_A]}); try reflexivity; try (vm_compute; reflexivity).
  by split.
Qed.

Lemma nomination_branches : branch_rows_ok nomination_tables.
Proof.
  intros id row Hrow. cbn in Hrow. apply lookup_singleton_Some in Hrow as [_ <-]. vm_compute. reflexivity.
Qed.

Lemma nomination_runs : is_ok (run_with (Some answer)) = true /\ nominated_run.1.2 = answer /\
  sequence_left (md_store nomination_tables) /\ load_receipt nomination_db nominator (nominate "asked") = None.
Proof. vm_compute. split_and!; reflexivity. Qed.

Lemma nomination_accepted :
  selection_attempt loaded_profile services nomination_db nominator (nominate "asked") facts judgement nominate_digest
    nominate_input nominate_ids None false 6 6 = Ok (nominated_run.1.1, answer, nominated_run.2).
Proof.
  destruct nomination_runs as (Hok & Ha & _). rewrite <- Ha. change (run_with (Some answer) = Ok (nominated_run.1.1, nominated_run.1.2, nominated_run.2)).
  rewrite (or_else_Ok _ (nomination_db, silent, []) Hok). fold nominated_run. by destruct nominated_run as [[d o] l].
Qed.

Lemma created_reads : creation_reads services nomination_db nominator (nominate "asked") facts judgement nominate_ids.
Proof.
  intros lineage_id branch_row fingerprint payload version keys v model Hchk _ Hpl Hv _.
  assert (Hl : check_nomination nomination_tables nominator (nominate "asked") = Ok (LINEAGE, ProjectionRebuild.branch_row (sample_branch BRANCH_A TENANT_A 1)))
    by (vm_compute; reflexivity).
  cbn [ly_db nomination_db] in Hchk, Hpl. rewrite Hl in Hchk. injection Hchk as <- _.
  assert (Hc : creation_payload services nomination_tables nominator (nominate "asked") facts judgement nominate_ids LINEAGE fingerprint
    = Ok created) by (vm_compute; reflexivity).
  rewrite Hc in Hpl.
  assert (created.1.1 = payload) as <-
    by exact (f_equal (fun r : result (OperationPayload * Z * gmap UUID ContentKeyRow) => match r with Ok x => x.1.1 | Err _ => payload end) Hpl).
  assert (Hd : canonical_value created.1.1 = Ok (JObject [])) by (vm_compute; reflexivity).
  rewrite Hd in Hv. injection Hv as <-. reflexivity.
Qed.

(** The run decides what was judged above. *)
Lemma run_decided participant command_digest digest ids r d legacy :
  participant = None ->
  decided loaded_profile services nominator (nominate "asked") participant drawn_ids command_digest digest ids r d legacy ->
  (command_digest, digest, ids, r, d, legacy) = (nominate_digest, nominate_input, nominate_ids, facts, judgement, false).
Proof.
  intros -> (Ha & Hd & Hi & Hn).
  assert (Ha' : admit_nomination services nominator (nominate "asked") None = Ok nominate_digest) by (vm_compute; reflexivity).
  rewrite Ha' in Ha. injection Ha as <-.
  assert (Hd' : decide_nomination loaded_profile services nominator (nominate "asked") None = Ok (facts, judgement, false)) by (vm_compute; reflexivity).
  rewrite Hd' in Hd. injection Hd as <- <- <-.
  assert (Hi' : nomination_identifiers services (nominate "asked") facts nominate_digest drawn_ids = Ok nominate_ids) by (vm_compute; reflexivity).
  rewrite Hi' in Hi. injection Hi as <-.
  assert (Hn' : input_digest services nominator (nominate "asked") facts = Ok nominate_input) by (vm_compute; reflexivity).
  rewrite Hn' in Hn. injection Hn as <-. reflexivity.
Qed.

Lemma run_reads_created : run_reads loaded_profile services (fun _ => nomination_db) nominator (nominate "asked") None drawn_ids.
Proof.
  intros command_digest digest ids r d legacy _ Hd. apply run_decided in Hd; [|reflexivity]. injection Hd as _ _ -> -> -> _.
  exact created_reads.
Qed.

Lemma snapshot_ok : snapshots_ok (fun _ => nomination_db).
Proof. intros _. split; [exact nomination_tables_ok|]. split; [exact nomination_branches|exact (proj1 (proj2 (proj2 nomination_runs)))]. Qed.

Lemma run_commits :
  selection_execute loaded_profile services (fun _ => nomination_db) (fun _ => nomination_db) (fun _ => None) (fun _ => None)
    (fun _ => 6) (fun _ => 6) (fun _ => float_one) nominator (nominate "asked") None drawn_ids = Ok (Some nominated_run.1.1, answer).
Proof. vm_compute. reflexivity. Qed.

(** ** Witnesses *)

Lemma nomination_executes_once_witness :
  exists first, selection_attempt loaded_profile services nominated_run.1.1 nominator (nominate "asked") facts no_decision
    nominate_digest [] drawn_ids None false 9 9 = Ok (nominated_run.1.1, selection_replay answer, first).
Proof.
  refine (proj1 (proj2 (nomination_executes_once loaded_profile services services nomination_db nominated_run.1.1 nominated_run.1.1
    nominator (nominate "asked") (nominate "asked again") facts facts judgement no_decision nominate_digest other_digest
    nominate_input [] nominate_ids drawn_ids None None false false 6 9 6 9 answer nominated_run.2 _ nomination_accepted _ _ _ _ _))).
  - exact (proj2 (proj2 (proj2 nomination_runs))).
  - intros b _. reflexivity.
  - apply rtc_refl.
  - reflexivity.
  - reflexivity.
  - discriminate.
Defined.

Lemma writers_invariant_witness : lifecycle_ok nominated_run.1.1 /\ nominated_run.1.1 <> nomination_db.
Proof.
  split.
  - apply (writers_invariant loaded_profile nomination_db).
    + exact unique_database_unique.
    + exact nomination_branches.
    + split; [exact nomination_tables_ok|exact suggestion_table_ok].
    + apply rtc_once. eapply write_nomination; [exact (proj1 (proj2 (proj2 nomination_runs)))|exact nomination_accepted].
  - intros Heq. assert (Hn : load_receipt nominated_run.1.1 nominator (nominate "asked") = None) by (rewrite Heq; reflexivity).
    vm_compute in Hn. discriminate Hn.
Defined.


Lemma sensitive_content_is_sealed_witness :
  exists id row, se_memory_id answer = Some id /\ lt_memories (md_tables (ly_db nominated_run.1.1)) !! id = Some row /\ hides_content row.
Proof.
  destruct (sensitive_content_is_sealed loaded_profile services (fun _ => nomination_db) (fun _ => nomination_db) (fun _ => None)
    (fun _ => None) (fun _ => 6) (fun _ => 6) (fun _ => float_one) nominator (nominate "asked") None drawn_ids nominated_run.1.1 answer
    unique_database_unique snapshot_ok run_reads_created eq_refl eq_refl run_commits)
    as [_ [Hrep|[Hno|(id & row & key & Hid & Hrow & Hh & _)]]].
  - discriminate Hrep.
  - exfalso. apply list_elem_of_In in Hno. destruct Hno as [Hno|[Hno|[]]]; discriminate Hno.
  - exists id, row. split; [exact Hid|]. split; [exact Hrow|exact Hh].
Defined.

#[local] Instance reading_secret : PlaintextReader := fun _ => Some (proposal_plaintext secret).

Lemma sealed_nomination_opens_witness :
  exists m sealed provider reference context opened,
    decrypt_memory_state m sealed provider reference context = Ok opened /\ ms_statement opened = Some (py "text").
Proof.
  destruct (sealed_nomination_opens loaded_profile services nomination_db nominated_run.1.1 nominator (nominate "asked")
    {| sq_safe_summary := py "a preference" |} facts judgement nominate_digest nominate_input nominate_ids None false 6 6 answer
    nominated_run.2 unique_database_unique (proj1 (proj2 (proj2 nomination_runs))) nomination_tables_ok nomination_branches created_reads)
    as (l & row & m & sealed & provider & reference & Hrow & Hm & Hs & _ & _ & Hopen).
  - split; [discriminate|reflexivity].
  - repeat (constructor; [split; [discriminate|reflexivity]|]). constructor.
  - reflexivity.
  - reflexivity.
  - exact (proj2 (proj2 (proj2 nomination_runs))).
  - exact nomination_accepted.
  - discriminate.
  - exists m, sealed, provider, reference, (sealed_context nominator (nominate "asked") l nominate_ids),
      (opened_memory m (proposal_plaintext secret)).
    split; [exact Hopen|reflexivity].
Defined.

(** With a serializer that reads back, an envelope opens in its context. *)
#[local] Existing Instances ledger_limit checked_rfc8785 ledger_laws.

Definition secret_context : SealedContentContext := sealed_context nominator (nominate "asked") LINEAGE nominate_ids.

Definition no_envelope : SealedContentEnvelope := {|
  env_content_key_id := 0; env_nonce := []; env_ciphertext := []; env_aad_sha256 := []; env_safe_summary := []; env_envelope_version := 0;
  env_algorithm := [] |}.

Definition sealed_secret : SealedContentEnvelope :=
  Eval vm_compute in or_else (seal_content (repeat 1 32) (py "text") secret_context (py "a preference") (repeat 2 12)) no_envelope.

Lemma sealed_context_bound_witness :
  (secret_context = secret_context \/
   exists aad aad', aad_bytes secret_context = Ok aad /\ aad_bytes secret_context = Ok aad' /\ digest_clash aad' aad) /\ open_content (repeat 1 32) sealed_secret secret_context = Ok (py "text").
Proof.
  assert (Ho : open_content (repeat 1 32) sealed_secret secret_context = Ok (py "text")) by (vm_compute; reflexivity).
  split; [|exact Ho].
  apply (sealed_context_bound (repeat 1 32) (repeat 1 32) (py "text") (py "text") (repeat 2 12) secret_context secret_context
    (py "a preference") sealed_secret); [| |vm_compute; reflexivity|exact Ho].
  - repeat (constructor; [split; [discriminate|reflexivity]|]). constructor.
  - repeat (constructor; [split; [discriminate|reflexivity]|]). constructor.
Defined.
